(* ===== verification/_CoqProject ===== *)
-Q . S2P
Prelude.v
Rounding.v
GoStrings.v
Ordering.v
DecimalAPI.v
DecimalModel.v
Identity.v
GoTime.v
CivilDate.v
Money.v
Fx.v
Accounts.v
Portfolio.v
ChangeState.v
ChangeApply.v
ChangeLaws.v
Change.v
ChangeAgree.v
ChangeSpec.v
ChangeSamples.v
ChangeCorrect.v
CostBasis.v
CostBasisLaws.v
History.v
ActivityReplay.v
ActivityReplayLaws.v
LocalTime.v
Product.v
ProductLaws.v
Liquidity.v
LiquidityEvaluate.v
LiquidityLaws.v
LiquidityOrder.v
LiquidityTime.v
LiquiditySamples.v
MarketDates.v
MarketPolicy.v
MarketSamples.v
QuoteSelect.v
QuoteHistory.v
Valuation.v
ValuationDisplay.v
ValuationTotals.v
ValuationShares.v
ValuationLaws.v
ValuationOrder.v
ValuationDisplayLaws.v
AccountPage.v
ValuationSamples.v
ReviewPolicy.v
ReviewPolicyLaws.v
ReviewRule.v
ReviewEpisode.v
ReviewEpisodeLaws.v
ReviewDaily.v
ReviewDailyLaws.v
DailyPrices.v
DailyPricesLaws.v
ReviewLifecycle.v
ReviewLifecycleLaws.v
ReviewLifecycleAgree.v
ReviewPosition.v
AnalysisReturn.v
AnalysisFold.v
AnalysisReturnLaws.v
ReviewSamples.v
AnalysisBridge.v
AnalysisBridgeLaws.v
AnalysisClassify.v
AnalysisDay.v
AnalysisDayLaws.v
AnalysisClassifyLaws.v
AnalysisPeriod.v
AnalysisPeriodLaws.v
AnalysisSamples.v
Upcoming.v
UpcomingLaws.v
UpcomingShown.v
UpcomingSchedule.v
UpcomingSamples.v
