(* ===== verification/Prelude.v ===== *)
(** * Nestworth: a verification development of the household ledger and its valuation

    Nestworth keeps the accounts of a household: balances and holdings, the changes
    that move money between them, prices and exchange rates, managed products such as
    term deposits, and the answer to "how much can we spend by when".  The rules are in
    [src/internal/domain]; the application layer loads records from SQLite, calls the
    domain and stores what it returns.  This development models the domain package and,
    of the application layer, the valuation, the life of review episodes and the analysis of
    returns, in the order in which the parts build on each other.

    ** Parts

    Foundations.
    - [Prelude]: the error type of [model.go] ([Error], [ErrorCode]), the result monad
      with [inv_ok] to open successful computations, sums, loops that may fail
      ([foldM]), stable sorting and bounded iteration ([loop_pos]).
    - [Ordering]: lexicographic comparisons that are strict orders, the last element of a
      list in such an order, and what stable sorting gives for one.
    - [Rounding]: half-even, half-away and truncating rounding of rationals, each with a
      specification that has one solution.
    - [GoStrings]: byte strings with trimming, case mapping, the anchored patterns and
      byte order that the source uses of [strings], [utf8] and [regexp].
    - [DecimalAPI] and [DecimalModel]: [shopspring/decimal] as a class of operations
      with laws in terms of exact rationals, and an executable instance of the laws.
    - [Identity]: UUID identifiers, names, notes and currency codes.
    - [GoTime], [CivilDate], [LocalTime]: the proleptic calendar, locations as a
      function from instants to offsets, date texts, weekday arithmetic, the instants
      of a civil date ([civil_date.go]), horizons ([liquidity_calendar.go]) and the
      resolution of a wall-clock time ([ResolveLocalDateTime]).
    - [Money], [Fx]: bounded quantities, prices, rates and amounts ([decimal.go], money
      of [model.go]), decimal and exact currency conversion.

    Records.
    - [Accounts]: households, members, ownership shares, account types and their legal
      combinations ([account_type.go], [model.go], [icons.go]).
    - [Portfolio]: instruments, holdings, quotes, pairs ([portfolio.go],
      [precious_metal.go]).
    - [History]: starting points, snapshot items and trend ranges ([history.go]).
    - [Product]: product contracts, rates and forecast interest
      ([product_contract.go], [product_operation.go]).

    The ledger ([change.go], [activity_replay.go], [cost_basis.go]).
    - [ChangeState]: activities, effects, the state that a change reads.
    - [ChangeApply]: applying effects to the state, inverting and previewing them.
    - [Change]: one builder per kind of change and [PreviewChange].
    - [ChangeSpec]: what a change promises, on integers and sets alone.
    - [ChangeLaws], [ChangeAgree], [ChangeCorrect], [ChangeSamples]: the refinement of
      that specification, conservation, undo, and concrete households.
    - [ActivityReplay]: replaying recorded effects from the starting point;
      [ActivityReplayLaws] relates it to applying them one by one.
    - [CostBasis]: average cost and realised gains; [CostBasisLaws] refines it to a fold
      over rationals.

    Liquidity ([liquidity.go], [liquidity_precision.go], [liquidity_evaluate.go]).
    - [Liquidity]: sources, policies, reservations, dates of access, fees.
    - [LiquidityEvaluate]: routes, the choice for a horizon, totals, the overview.
    - [LiquidityLaws], [LiquidityOrder], [LiquidityTime], [LiquiditySamples]: their
      theorems and concrete overviews.

    Upcoming actions ([upcoming_actions.go]).
    - [Upcoming]: the schedule of a source, reservations and checks, and the projection of
      an evaluated overview into actions.
    - [UpcomingLaws], [UpcomingShown], [UpcomingSchedule], [UpcomingSamples]: the order in
      which checks are read, the lists that are shown, the dates of a schedule, and a
      household that is evaluated and projected.

    Market data ([marketdata_*.go], [instrument_calendar.go] of the domain; quote
    selection in [valuation.go] and [current_quote_selection.go] of the application).
    - [MarketDates]: sessions, last finalized dates, ranges of market dates, closed days
      and carried prices.
    - [MarketPolicy]: routes to providers, when a historical date is fetched again, the
      classification of a batch of dates, the mapping of exchange rates.
    - [QuoteSelect]: the current price of an instrument and rate of a pair.
    - [QuoteHistory]: the price and rate of a closed day, and whether the recorded
      coverage explains the days since; [MarketSamples] has concrete dates and rates.

    Valuation ([application/valuation.go], [valuation_quality.go], [account_composition.go] and
    [account_display_value.go]).
    - [Valuation]: one amount in the base currency, one holding.
    - [ValuationTotals]: accounts, missing inputs, the portfolio and its allocations.
    - [ValuationDisplay]: what an overview may publish.
    - [AccountPage]: the composition of an account by type and by position, and its value in
      its own currency; every list of rows has the same total and the same shares.
    - [ValuationLaws], [ValuationOrder], [ValuationShares], [ValuationDisplayLaws],
      [ValuationSamples]: their theorems, and a household that is valued by computation.

    Investment reviews ([review_*.go] and [quote_performance.go] of the domain,
    [review_lifecycle_plan.go] and [review_position_epochs.go] of the application).
    - [ReviewPolicy]: three-valued votes, trigger policies and their verdicts, for one day
      and in one pass over a chronology; [ReviewPolicyLaws] has their theorems.
    - [ReviewRule]: the format of a rule, its validation and normal form, priorities.
    - [ReviewEpisode]: episodes, the latest closed day and suppressions;
      [ReviewEpisodeLaws] says when an episode opens and closes.
    - [ReviewDaily]: the vote of a rule on one instrument and day; [ReviewDailyLaws].
    - [DailyPrices]: one close per day, the change over a window, the chart;
      [DailyPricesLaws].
    - [ReviewLifecycle]: the plan of a rule's episodes, by replay or from the last
      publication; [ReviewLifecycleLaws], [ReviewLifecycleAgree].
    - [ReviewPosition]: the epochs in which an instrument was held, replayed from the
      starting point; [ReviewSamples] has concrete votes, episodes, prices, plans and
      epochs.

    Returns ([analysis_return.go], [analysis_civil_date.go], [analysis_daily.go],
    [analysis_classifier.go], [analysis_universe.go] and [funding_gap.go] of the application).
    - [AnalysisReturn]: component days, the weight of a flow, daily Dietz rates, their
      geometric link, the groups of a period and its finalization.
    - [AnalysisFold]: both folds of component days into groups, against one description.
    - [AnalysisReturnLaws]: weights, links, the finalized period.
    - [AnalysisBridge]: signed values of the items of a snapshot, the quotes they name, and
      the bridges of cash and of a holding within a day; [AnalysisBridgeLaws] has their
      identities.
    - [AnalysisClassify]: the members of a universe, and the class of every recorded effect
      (income, fee, flow, trade, interest, transfer) with the value it is given;
      [AnalysisClassifyLaws] says which classes leave gains and flows alone.
    - [AnalysisDay]: one component of one day from its snapshots, quotes and effects, with
      its residual; [AnalysisDayLaws].
    - [AnalysisPeriod]: the validation of a query, the components that it selects, and the loop
      over the dates of its range; [AnalysisPeriodLaws] has the universe and the chain of days.
    - [AnalysisSamples]: two days of two funds, a day of euros, a sale, a purchase, an exchange,
      and an account over three days.

    ** How definitions correspond to the code

    A definition has the name of the Go function, method or type it translates; a method
    has a short prefix for its receiver ([m_add] is [Money.Add], [pol_Validate] is
    [LiquidityPolicy.Validate]).  The body keeps the order of the tests and returns of
    the source, so that the first failing test decides the error.  A Go error is
    [Fail e]; a nil pointer is [None]; a string type with constants is an inductive type,
    with a constructor for any other text where unchecked values reach the code; a map
    is a [gmap], and where the source iterates over one, either the result does not
    depend on the order or the order is an argument.  A loop is a fold over its list, or
    [loop_pos] where the number of turns is not given by one.  Fresh identifiers and the
    clock are arguments.

    ** What is assumed

    [DecimalLaws] states what the decimal library documents; [model_laws] shows that the
    laws hold together, and the witnesses compute with that instance.  A time zone is
    any [Location]; theorems that need more say what: that offsets hold until their reported
    ends ([loc_ok]), or that offsets are in the range of the TZif format and change at most once,
    by whole minutes, around the date in question ([zone_near]).  The
    conversion to the base currency is an argument of the liquidity evaluation;
    [monotone_conversion] is what its theorem needs, and every table of rates has it.
    The time-zone database is the class [TimeZones], and the evidence text of a converted
    metal price is read through the class [MetalEvidence]; the text and the digest by which
    review rules are sorted and compared are the class [ReviewCodec], those of upcoming actions
    the class [UpcomingCodec]; none of them has laws.  The
    name-based UUID of an epoch is an argument, of which nothing is assumed.  Theorems
    about stored rows say which of their properties they need: rates in range
    ([stored_rates_ok]), identifiers that are unique ([same_record], [unique_rows]), items that
    the key of their component identifies ([coherent]).  Nothing else is assumed.

    ** What the theorems show

    - Ledger: every builder does what [ChangeSpec] says, or fails with the error it says
      ([PreviewChange_refines]); effects conserve value across the household; undoing a
      change restores the state; a replay from the starting point agrees with applying
      the effects, ignores undone activities, and honours observations.
    - Numbers: what each constructor accepts and the exact number it stores; conversions
      equal the exact quotient within the stated rounding; amounts survive text.
    - Cost: the replay computes the average cost of a specification over rationals, and
      a correction removes its activity.
    - Dates: date texts compare as days; the search for the bounds of a civil date ends
      with the right interval; a wall-clock time resolves to the unique instant, or is
      reported as ambiguous or skipped.
    - Records: constructors accept exactly well-formed input; shares add up; contracts
      survive their stored form.
    - Liquidity: the chosen route is the best that is ready; scheduled money arrives on
      the expected day and stays; reservations add up with what is shown; the totals
      never decrease over ascending horizons, so the final check of the overview can
      only complain about the rounded unreserved totals.

    - Market data: a batch is split into pending, verified and uncertain days; a price is
      carried over closed days only; an omission is fetched again; a rate serves both
      directions of its pair; the selected quote is the last of an order, whatever the
      order of the rows; a value of a closed day that is called complete is explained day
      by day.
    - Valuation: a holding is worth quantity times price times rate, rounded once; an
      account is the sum of its components and reports each missing input; the result
      does not depend on the order of the rows; allocations add up to the whole; the
      overview counts every component once and publishes a total only when all are priced.
    - Reviews: the vote of a day is true (false) exactly when the rule holds (fails)
      whatever the unknown facts are, and the same holds of the verdict of a policy over a
      window; the ring buffer computes the verdicts of single days; an episode opens on the
      first true day and closes on a proven false one, or with its position or rule; no
      stored episode is lost; going on from the last publication agrees with a replay
      unless a verdict is pending; a daily series has the best price of each day, the
      performance found for a day is the one its definition asks for, and a condition on it
      is decided with the exact change, rounded at the stated place; the epochs of a known
      position are the instants at which the replayed quantity is positive, and a gap in the
      evidence is reported as a reason.
    - Upcoming actions: the result does not depend on the order in which a Go map is read; its
      counts and its completeness describe the lists; no active reservation is silent; a date
      within the window always has an action, and a phase says where its date lies.
    - Returns: the weight of a flow is the fraction of its civil day that is left, within the
      rounding of the division; the two folds into groups give the same rows whatever the order
      of the days within a date; gains and flows of the groups add up to those of the days; the
      rate of a period links the rates of its complete days, and is withheld when fewer than
      half of the days have one.  The bridges of a day telescope: price and rate changes add
      up to the closing value less the opening value and the trades at their own rates.  A
      complete component day is explained by its named causes within the tolerance, and a
      residual beyond it is shown exactly; trades and exchanges within the universe move no
      money in or out, and change its gains by their fees and spread alone.  The components of a
      query are exactly the selected ones, in an order of their own; over a period every day opens
      with the value the day before closed with, so the buckets of all days account for the
      change from the first value to the last.

    Theorems that end in [_witness] apply a theorem to a concrete household.  Nine of the
    theorems and samples record that the code does not do what it means to:
    [CivilDaysBetween_correct] (spans beyond 292 years), [trade_price_rounds_twice],
    [ResolveLocalDateTime_skipped_midnight], [early_custom_horizon_fails],
    [rounded_unreserved_fails], [historical_selection_cycle], [pending_verdict_misdated], [unstamped_removal_misvalued] and, for markets that close
    before the American one, [no_observation_retried].

    ** Bounds and fuel

    Few loops need a bound that the source does not state.  [add_weekdays] runs [7 * days + 8] turns, more than
    the calendar days that [days] weekdays can span; the search for the bounds of a
    civil date runs as many turns as its window has nanoseconds, since the cursor
    advances at every turn; both are proved to end within their bound.  [ndigits] uses
    the binary logarithm, which bounds the number of decimal digits; [dates_from] has a
    turn for every day of its range and ends with exactly these days.  [extend_streak]
    has one turn more than the table of votes has keys, since every day of a streak is one
    of them; [Search] halves an interval whose length is its fuel; a condition has at most
    two levels of groups, which is the fuel of [normalize_node].  The searches for
    the last finalized session and the last daily bar stop after fourteen and three
    turns, as in the source.  Durations saturate
    at the range of [int64], as [time.Time.Sub] does; other integers of the source (days,
    revisions, basis points) are bounded by its own checks, so [Z] is exact for them.

    ** Not modelled

    The remaining application services, SQL, providers, user interfaces and settings are
    input and output around the domain.  Of the domain package, the invalidation and certification of
    reviews, the validators of analysis queries and the mutation history of
    product terms are left for later; of the application layer, the gain reports, the display of
    the ending values of an analysis, its projections and reconciliation sessions; the
    remaining files declare records or repository interfaces.  JSON text, the table of bank logos (generated), the
    time-zone database and context cancellation are left to their libraries. *)

From Stdlib Require Export ZArith QArith Qround Qabs Qpower Lia Lqa.
From stdpp Require Export base list strings gmap.

#[global] Open Scope Z_scope.

(** ** The error type that crosses the application boundary

    [ErrorCode] lists the stable categories of [internal/domain/model.go];
    [Error] is the struct with the same name.  A Go [error] value is either a
    domain error or an error made elsewhere (formatting, a library), of which
    only the text is kept. *)

Inductive ErrorCode :=
| ErrValidation | ErrNotFound | ErrConflict | ErrUnsupportedDB | ErrMigration
| ErrIntegrity | ErrUnavailable | ErrDatabaseUpgradeRequired
| ErrDatabaseFromNewerVersion | ErrDatabaseIntegrityFailed
| ErrDatabaseUnavailable | ErrDecimalOverflow | ErrProviderUnavailable
| ErrProviderAuthentication | ErrProviderRateLimit
| ErrUnsupportedProviderSymbol | ErrMalformedProviderResponse
| ErrMarketDataResponseTooLarge | ErrHistoryNotStarted
| ErrHistoryTimezoneRequired | ErrInvalidChange | ErrInvalidChangeTime
| ErrCashBalanceTimeConflict | ErrNoChange | ErrInsufficientBalance
| ErrInsufficientQuantity | ErrAlreadyUndone | ErrCannotFixChange
| ErrTransferMismatch | ErrInvalidTrade | ErrHistoryUpdateFailed
| ErrCostBasisRequired | ErrBackupInvalidFormat | ErrBackupMissingMember
| ErrBackupChecksumFailed | ErrBackupSchemaUnsupported
| ErrBackupIntegrityFailed | ErrBackupBusinessInvariant
| ErrBackupRestoreConfirmation | ErrBackupRestoreBusy
| ErrBackupRestoreSwapFailed | ErrBackupRestoreRollbackFailed
| ErrStalePreview | ErrRevisionConflict | ErrManagedPosition
| ErrUnsupportedPartialOperation | ErrUnresolvedReservationRelease
| ErrReceiptPending | ErrUnsafeUndo.

#[export] Instance ErrorCode_eq_dec : EqDecision ErrorCode.
Proof. solve_decision. Defined.

Record Error := mkError { Code : ErrorCode; Field : string; Message : string }.

Inductive goerror := DomainErr (e : Error) | OtherErr (msg : string).

(** [&Error{Code: c, Field: f, Message: m}] *)
Definition domainErr (c : ErrorCode) (f m : string) : goerror :=
  DomainErr (mkError c f m).

(** [validation(field, message)] *)
Definition validation (f m : string) : goerror := domainErr ErrValidation f m.

(** The method [Error] of the struct: the text shown to the user. *)
Definition ErrorText (e : option Error) : string :=
  match e with
  | None => ""
  | Some e => if bool_decide (Field e = ""%string) then Message e
              else (Field e +:+ ": " +:+ Message e)
  end.

(** ** Fallible results *)

Inductive Result (A : Type) := Ok (a : A) | Fail (e : goerror).
Arguments Ok {A} a.
Arguments Fail {A} e.

#[export] Instance Result_ret : MRet Result := @Ok.
#[export] Instance Result_bind : MBind Result := λ A B f m,
  match m with Ok a => f a | Fail e => Fail e end.
#[export] Instance Result_fmap : FMap Result := λ A B f m,
  match m with Ok a => Ok (f a) | Fail e => Fail e end.

Definition is_ok {A} (r : Result A) : bool :=
  match r with Ok _ => true | Fail _ => false end.

Lemma is_ok_some {A} (r : Result A) : is_ok r = true → ∃ x, r = Ok x.
Proof. destruct r as [x|]; [by exists x|done]. Qed.

(** The error code of a failing result, used to state error branches. *)
Definition code_of {A} (r : Result A) : option ErrorCode :=
  match r with
  | Fail (DomainErr e) => Some (Code e)
  | _ => None
  end.

Lemma ok_value {A} (r : Result A) d : is_ok r = true → r = Ok match r with Ok x => x | Fail _ => d end.
Proof. by destruct r. Qed.

Lemma bind_Ok {A B} (m : Result A) (f : A → Result B) b :
  mbind f m = Ok b ↔ ∃ a, m = Ok a ∧ f a = Ok b.
Proof.
  unfold mbind, Result_bind. destruct m as [a|e]; split.
  - eauto.
  - intros (x & Hx & Hf). injection Hx as ->. exact Hf.
  - discriminate.
  - intros (x & Hx & _). discriminate Hx.
Qed.

Lemma bind_Ok_l {A B} (f : A → Result B) a : mbind f (Ok a) = f a.
Proof. reflexivity. Qed.

Lemma bind_Fail_l {A B} (f : A → Result B) e : mbind f (Fail e) = Fail e.
Proof. reflexivity. Qed.

Lemma fmap_Ok {A B} (f : A → B) (m : Result A) b :
  f <$> m = Ok b ↔ ∃ a, m = Ok a ∧ b = f a.
Proof.
  unfold fmap, Result_fmap. destruct m as [a|e]; split.
  - intros H. injection H as <-. eauto.
  - intros (x & Hx & ->). by injection Hx as ->.
  - discriminate.
  - intros (x & Hx & _). discriminate Hx.
Qed.

Create HintDb nest.
Create Rewrite HintDb nest.
#[export] Hint Rewrite @bind_Ok_l @bind_Fail_l : nest.

(** ** Tactics *)

(** [inv_ok] opens a hypothesis saying that a computation succeeded: it splits
    binds, conditionals and matches, and discards the failing branches. *)
Ltac inv_ok_step :=
  match goal with
  | H : Fail _ = Ok _ |- _ => discriminate H
  | H : Ok _ = Fail _ |- _ => discriminate H
  | H : Ok ?a = Ok ?b |- _ =>
      first [ is_var b; injection H as <- | is_var a; injection H as ->
            | injection H; clear H; intros ]
  | H : mret _ = Ok _ |- _ => unfold mret, Result_ret in H
  | H : mbind _ _ = Ok _ |- _ =>
      let x := fresh "x" in let E := fresh "E" in
      apply bind_Ok in H; destruct H as (x & E & H)
  | H : (if ?b then Fail _ else _) = Ok _ |- _ =>
      let E := fresh "C" in destruct b eqn:E; [discriminate H|]
  | H : (if ?b then _ else Fail _) = Ok _ |- _ =>
      let E := fresh "C" in destruct b eqn:E; [|discriminate H]
  end.
Ltac inv_ok := repeat inv_ok_step.

(** Turn boolean facts into propositions. *)
Ltac prop_bool :=
  repeat match goal with
  | H : negb _ = true |- _ => apply negb_true_iff in H
  | H : negb _ = false |- _ => apply negb_false_iff in H
  | H : orb _ _ = false |- _ => apply orb_false_iff in H; destruct H
  | H : andb _ _ = true |- _ => apply andb_true_iff in H; destruct H
  | H : bool_decide _ = true |- _ => apply bool_decide_eq_true in H
  | H : bool_decide _ = false |- _ => apply bool_decide_eq_false in H
  | H : (_ <? _) = true |- _ => apply Z.ltb_lt in H
  | H : (_ <? _) = false |- _ => apply Z.ltb_ge in H
  | H : (_ <=? _) = true |- _ => apply Z.leb_le in H
  | H : (_ <=? _) = false |- _ => apply Z.leb_gt in H
  | H : (_ =? _) = true |- _ => apply Z.eqb_eq in H
  | H : (_ =? _) = false |- _ => apply Z.eqb_neq in H
  end.

(** ** Powers of ten *)

Lemma pow10_pos n : 0 <= n → 0 < 10 ^ n.
Proof. intros. by apply Z.pow_pos_nonneg. Qed.

Lemma pow10_pos_nat (n : nat) : 0 < 10 ^ Z.of_nat n.
Proof. apply pow10_pos. lia. Qed.

Lemma pow10_le a b : 0 <= a <= b → 10 ^ a <= 10 ^ b.
Proof. intros. apply Z.pow_le_mono_r; lia. Qed.

Lemma pow10_split a b : 0 <= a <= b → 10 ^ b = 10 ^ a * 10 ^ (b - a).
Proof. intros. rewrite <-Z.pow_add_r by lia. f_equal. lia. Qed.

#[export] Hint Resolve pow10_pos pow10_pos_nat : nest.

(** ** Lists *)

Definition sumZ {A} (f : A → Z) (l : list A) : Z :=
  foldr (λ x acc, f x + acc) 0 l.

Lemma sumZ_app {A} (f : A → Z) l1 l2 : sumZ f (l1 ++ l2) = sumZ f l1 + sumZ f l2.
Proof.
  induction l1 as [|x l1 IH]; [done|].
  unfold sumZ in *. cbn [app foldr]. lia.
Qed.

Lemma sumZ_cons {A} (f : A → Z) x l : sumZ f (x :: l) = f x + sumZ f l.
Proof. reflexivity. Qed.

Lemma sumZ_single {A} (f : A → Z) x : sumZ f [x] = f x.
Proof. rewrite sumZ_cons. apply Z.add_0_r. Qed.

Lemma sumZ_opp {A} (f : A → Z) l : sumZ (λ x, - f x) l = - sumZ f l.
Proof. induction l as [|x l IH]; [done|]. rewrite !sumZ_cons, IH. lia. Qed.

Lemma sumZ_permutation {A} (f : A → Z) l k : l ≡ₚ k → sumZ f l = sumZ f k.
Proof. induction 1; rewrite ?sumZ_cons; lia. Qed.

Lemma sumZ_fmap {A B} (f : B → Z) (g : A → B) l : sumZ f (g <$> l) = sumZ (f ∘ g) l.
Proof. induction l as [|x l IH]; [done|]. rewrite fmap_cons, !sumZ_cons, IH. done. Qed.

Lemma sumZ_imap {A B} (f : B → Z) (h : A → Z) (g : nat → A → B) l :
  (∀ i x, x ∈ l → f (g i x) = h x) → sumZ f (imap g l) = sumZ h l.
Proof.
  revert g. induction l as [|x l IH]; intros g H; [done|]. rewrite imap_cons, !sumZ_cons.
  f_equal; [apply H; left|]. apply IH. intros i y Hy. apply H. by right.
Qed.

Lemma sumZ_Forall2 {A B} (f : A → Z) (g : B → Z) l k :
  Forall2 (λ x y, f x = g y) l k → sumZ f l = sumZ g k.
Proof. induction 1 as [|x y l k Hxy _ IH]; [done|]. by rewrite !sumZ_cons, Hxy, IH. Qed.

Lemma sumZ_le {A} (f g : A → Z) l : (∀ x, x ∈ l → f x <= g x) → sumZ f l <= sumZ g l.
Proof.
  induction l as [|x l IH]; intros H; [done|]. rewrite !sumZ_cons.
  apply Z.add_le_mono; [apply H; left|apply IH; intros y Hy; apply H; by right].
Qed.

Lemma sumZ_ext {A} (f g : A → Z) l :
  (∀ x, x ∈ l → f x = g x) → sumZ f l = sumZ g l.
Proof.
  induction l as [|x l IH]; intros H; [done|].
  rewrite !sumZ_cons, IH, (H x); [done|set_solver|set_solver].
Qed.

#[export] Hint Rewrite @sumZ_app @sumZ_cons : nest.

(** A loop over a list whose body may fail. *)
Fixpoint foldM {A S} (f : S → A → Result S) (s : S) (l : list A) : Result S :=
  match l with
  | [] => Ok s
  | x :: l => match f s x with Ok s => foldM f s l | Fail e => Fail e end
  end.

Lemma foldM_app {A S} (f : S → A → Result S) s l k :
  foldM f s (l ++ k) = match foldM f s l with Ok s => foldM f s k | Fail e => Fail e end.
Proof. revert s. induction l as [|x l IH]; intros s; [done|]. cbn [app foldM]. by destruct (f s x). Qed.

(** An invariant of a successful loop: [I] may speak of the elements passed. *)
Lemma foldM_inv {A S} (f : S → A → Result S) (I : list A → S → Prop) l s s' :
  (∀ done s x s', I done s → x ∈ l → f s x = Ok s' → I (done ++ [x]) s') →
  I [] s → foldM f s l = Ok s' → I l s'.
Proof.
  intros Hstep. revert s.
  assert (∀ todo pre s, pre ++ todo = l → I pre s → foldM f s todo = Ok s' → I l s') as H.
  { induction todo as [|x todo IH]; intros pre s Hl Hi Hf; cbn [foldM] in Hf.
    - rewrite app_nil_r in Hl. by injection Hf as <-; subst.
    - destruct (f s x) as [s1|] eqn:E; [|discriminate].
      apply (IH (pre ++ [x]) s1); [by rewrite <-app_assoc|apply (Hstep pre s); [done|set_solver|done]|done]. }
  intros s Hi Hf. by apply (H l [] s).
Qed.

(** Two runs over the same list keep their states related. *)
Lemma foldM_rel {A S T} (f : S → A → Result S) (g : T → A → Result T) (R : S → T → Prop) l s t s' t' :
  (∀ x s t s1 t1, x ∈ l → R s t → f s x = Ok s1 → g t x = Ok t1 → R s1 t1) →
  R s t → foldM f s l = Ok s' → foldM g t l = Ok t' → R s' t'.
Proof.
  revert s t. induction l as [|x l IH]; intros s t Hstep HR Hf Hg; cbn [foldM] in *.
  - by injection Hf as <-; injection Hg as <-.
  - destruct (f s x) as [s1|] eqn:Ef; [|discriminate]. destruct (g t x) as [t1|] eqn:Eg; [|discriminate].
    apply (IH s1 t1); [|by apply (Hstep x s t); [left|..]|done|done].
    intros y s0 t0 s2 t2 Hy. apply Hstep. by right.
Qed.

Lemma mapM_Forall2 {A B} (f : A → Result B) l k : mapM f l = Ok k → Forall2 (λ x y, f x = Ok y) l k.
Proof.
  revert k. induction l as [|x l IH]; intros k H; cbn in H.
  - injection H as <-. constructor.
  - apply bind_Ok in H as (y & Hy & H). apply bind_Ok in H as (ys & Hys & H). injection H as <-.
    constructor; [done|by apply IH].
Qed.

(** ** Filters of the Standard Library *)

Lemma List_filter_perm {A} (f : A → bool) l k : l ≡ₚ k → List.filter f l ≡ₚ List.filter f k.
Proof.
  induction 1 as [|x l k _ IH|x y l|l k m _ IH1 _ IH2]; cbn; [done| | |by rewrite IH1].
  - destruct (f x); by rewrite IH.
  - destruct (f x), (f y); try done. apply Permutation_swap.
Qed.

Lemma elem_of_List_filter {A} (f : A → bool) l x : x ∈ List.filter f l ↔ x ∈ l ∧ f x = true.
Proof. rewrite !list_elem_of_In. apply List.filter_In. Qed.

(** ** Stable sorting *)

Section StableSort.
Context {A : Type} (less : A → A → bool).

Fixpoint sort_insert (x : A) (l : list A) : list A :=
  match l with
  | [] => [x]
  | y :: r => if less y x then y :: sort_insert x r else x :: l
  end.
Definition stable_sort (l : list A) : list A := foldr sort_insert [] l.

Lemma sort_insert_perm x l : sort_insert x l ≡ₚ x :: l.
Proof.
  induction l as [|y l IH]; [done|]. cbn [sort_insert]. destruct (less y x); [|done].
  rewrite IH. apply Permutation_swap.
Qed.

Lemma stable_sort_perm l : stable_sort l ≡ₚ l.
Proof. induction l as [|x l IH]; [done|]. cbn [stable_sort foldr]. by rewrite sort_insert_perm, IH. Qed.
End StableSort.

(** ** Bounded iteration

    [loop_pos p step st] runs [step] at most [p] times and stops at the first
    [inr].  The bound is binary, so a bound that is large as a number costs
    nothing when the loop ends early. *)

Section Loop.
Context {St Rt : Type} (step : St → St + Rt).

Definition loop_step (st : St + Rt) : St + Rt :=
  match st with inl s => step s | inr r => inr r end.

Fixpoint loop_pos (p : positive) (st : St + Rt) : St + Rt :=
  match st with
  | inr r => inr r
  | inl _ =>
    match p with
    | xH => loop_step st
    | xO p => loop_pos p (loop_pos p st)
    | xI p => loop_pos p (loop_pos p (loop_step st))
    end
  end.

Lemma iter_loop_inr n r : Nat.iter n loop_step (inr r) = inr r.
Proof. induction n as [|n IH]; [done|]. by rewrite Nat.iter_succ, IH. Qed.

Lemma loop_pos_iter p st : loop_pos p st = Nat.iter (Pos.to_nat p) loop_step st.
Proof.
  revert st. induction p as [p IH|p IH|]; intros [s|r]; cbn [loop_pos].
  - rewrite !IH, <-Nat.iter_add. rewrite Pos2Nat.inj_xI.
    rewrite Nat.iter_succ_r. f_equal. lia.
  - by rewrite iter_loop_inr.
  - rewrite !IH, <-Nat.iter_add. rewrite Pos2Nat.inj_xO. f_equal. lia.
  - by rewrite iter_loop_inr.
  - done.
  - by rewrite iter_loop_inr.
Qed.

(** A loop whose measure drops at every step ends within its initial measure. *)
Lemma loop_pos_ends (I : St → Prop) (m : St → Z) :
  (∀ s, I s → 0 <= m s) →
  (∀ s s', I s → step s = inl s' → I s' ∧ m s' < m s) →
  ∀ s p, I s → m s < Zpos p → ∃ r, loop_pos p (inl s) = inr r.
Proof.
  intros Hm Hs s p Hi Hp. rewrite loop_pos_iter.
  assert (∀ n s, I s → m s < Z.of_nat n → ∃ r, Nat.iter n loop_step (inl s) = inr r) as Hn.
  { clear s p Hi Hp. induction n as [|n IH]; intros s Hi Hlt.
    - specialize (Hm s Hi). lia.
    - rewrite Nat.iter_succ_r. cbn [loop_step].
      destruct (step s) as [s'|r] eqn:E.
      + destruct (Hs s s' Hi E) as [Hi' Hd]. apply IH; [done|lia].
      + exists r. apply iter_loop_inr. }
  apply Hn; [done|lia].
Qed.

(** An invariant of the steps holds of whatever the loop returns. *)
Lemma loop_pos_inv (I : St → Prop) (Q : Rt → Prop) :
  (∀ s s', I s → step s = inl s' → I s') →
  (∀ s r, I s → step s = inr r → Q r) →
  ∀ s p r, I s → loop_pos p (inl s) = inr r → Q r.
Proof.
  intros Hs Hq s p r Hi. rewrite loop_pos_iter. generalize (Pos.to_nat p). intros n.
  revert s Hi. induction n as [|n IH]; intros s Hi H; [discriminate|].
  rewrite Nat.iter_succ_r in H. cbn [loop_step] in H.
  destruct (step s) as [s'|r'] eqn:E.
  - by apply (IH s' (Hs s s' Hi E)).
  - rewrite iter_loop_inr in H. injection H as <-. by apply (Hq s r').
Qed.
End Loop.

(** ** Maps filled from lists: the last element of a key stays *)

Definition index_last {K A} `{Countable K} (key : A → K) (l : list A) : gmap K A := fold_left (λ m x, <[key x := x]> m) l ∅.

Section Index.
Context {K A : Type} `{Countable K} (key : A → K).

Lemma index_last_snoc l x : index_last key (l ++ [x]) = <[key x := x]> (index_last key l).
Proof. unfold index_last. by rewrite fold_left_app. Qed.

Lemma index_last_Some l k x : index_last key l !! k = Some x → x ∈ l ∧ key x = k.
Proof.
  induction l as [|y l IH] using rev_ind; [done|]. rewrite index_last_snoc. intros [[<- <-]|[_ Hx]]%lookup_insert_Some.
  - split; [|done]. apply elem_of_app. right. by left.
  - apply IH in Hx as [Hx Hk]. split; [|done]. apply elem_of_app. by left.
Qed.

Lemma index_last_is_Some l k : is_Some (index_last key l !! k) ↔ ∃ x, x ∈ l ∧ key x = k.
Proof.
  split; [intros [x Hx%index_last_Some]; eauto|]. induction l as [|y l IH] using rev_ind; [by intros (x & Hx%elem_of_nil & _)|].
  rewrite index_last_snoc. intros (x & [Hx|Hx%list_elem_of_singleton]%elem_of_app & Hk).
  - destruct (decide (key y = k)) as [->|Hne]; [by rewrite lookup_insert_eq|]. rewrite lookup_insert_ne by done. eauto.
  - subst x k. by rewrite lookup_insert_eq.
Qed.

(** The last element of a list that carries the key. *)
Definition last_with (l : list A) (k : K) (x : A) : Prop := ∃ before after, l = before ++ x :: after ∧ key x = k ∧ ∀ y, y ∈ after → key y ≠ k.

Lemma index_last_iff l k x : index_last key l !! k = Some x ↔ last_with l k x.
Proof.
  unfold last_with. split.
  - induction l as [|y l IH] using rev_ind; [done|]. rewrite index_last_snoc. intros [[<- <-]|[Hne Hx]]%lookup_insert_Some.
    + exists l, []. split; [done|]. split; [done|]. by intros z Hz%elem_of_nil.
    + destruct (IH Hx) as (b & a & -> & Hk & Ha). exists b, (a ++ [y]). split; [by rewrite <-app_assoc|]. split; [done|].
      intros z [Hz|Hz%list_elem_of_singleton]%elem_of_app; [by apply Ha|by subst z].
  - intros (b & a & -> & Hk & Ha). revert Ha. induction a as [|y a IH] using rev_ind; intros Ha.
    + rewrite index_last_snoc, Hk. apply lookup_insert_eq.
    + rewrite app_comm_cons, app_assoc, index_last_snoc, lookup_insert_ne.
      * apply IH. intros z Hz. apply Ha, elem_of_app. by left.
      * apply Ha, elem_of_app. right. by left.
Qed.

(** The values of a map that is filled by a key carry different keys. *)
Lemma index_last_keys l : key <$> (map_to_list (index_last key l)).*2 = (map_to_list (index_last key l)).*1.
Proof.
  rewrite <-list_fmap_compose. apply list_fmap_ext. intros i [k x] Hi%list_elem_of_lookup_2%elem_of_map_to_list. cbn.
  by apply index_last_Some in Hi as [_ ?].
Qed.
(** Elements with different keys are all kept. *)
Lemma index_last_values l : NoDup (key <$> l) → (map_to_list (index_last key l)).*2 ≡ₚ l.
Proof.
  induction l as [|x l IH] using rev_ind; [done|]. rewrite fmap_app, NoDup_app. intros (Hl & Hx & _). rewrite index_last_snoc.
  assert (index_last key l !! key x = None) as Hn.
  { destruct (index_last key l !! key x) as [y|] eqn:E; [|done]. apply index_last_Some in E as [Hy E]. exfalso.
    apply (Hx (key x)); [rewrite <-E; by apply list_elem_of_fmap_2|by left]. }
  rewrite (map_to_list_insert _ _ _ Hn). cbn. rewrite (IH Hl). by rewrite Permutation_app_comm.
Qed.

Lemma index_last_lookup l x : NoDup (key <$> l) → x ∈ l → index_last key l !! key x = Some x.
Proof.
  intros Hl Hx. destruct (proj2 (index_last_is_Some l (key x)) (ex_intro _ x (conj Hx eq_refl))) as [y Hy]. rewrite Hy. f_equal.
  apply index_last_Some in Hy as [Hy E]. symmetry. revert Hl Hx Hy E. induction l as [|z l IH]; [by intros _ Hx%elem_of_nil|].
  rewrite fmap_cons. intros [Hz Hl]%NoDup_cons [->|Hx]%elem_of_cons [->|Hy]%elem_of_cons E; [done|..|by apply IH]; exfalso; apply Hz.
  - rewrite <-E. by apply list_elem_of_fmap_2.
  - rewrite E. by apply list_elem_of_fmap_2.
Qed.
End Index.

Lemma sublist_keys {A} (f : A → bool) (g : A → string) l : NoDup (g <$> l) → NoDup (g <$> List.filter f l).
Proof.
  induction l as [|x l IH]; [done|]. rewrite fmap_cons. intros [Hx Hl]%NoDup_cons. cbn [List.filter]. destruct (f x); [|by apply IH].
  rewrite fmap_cons. constructor; [|by apply IH]. intros (y & E & Hy)%list_elem_of_fmap. apply Hx. rewrite E. apply list_elem_of_fmap_2.
  by apply elem_of_List_filter in Hy as [? _].
Qed.
