(* ===== verification/Rounding.v ===== *)
(** * Rounding of exact rationals

    Decimal values denote rationals; every place where the program leaves exact
    arithmetic is one of the three roundings below.  [round_half_away] and
    [round_half_even] round to an integer; [round_to] scales to a number of
    decimal places first.  The lemmas characterise each rounding by the distance
    to its argument, which is how the components reason about it. *)

From S2P Require Export Prelude.

#[global] Open Scope Z_scope.

(** ** Powers of ten in [Q] *)

Definition p10 (n : Z) : Q := (10 ^ n)%Q.

Lemma p10_pos n : (0 < p10 n)%Q.
Proof. unfold p10. apply Qpower_0_lt. reflexivity. Qed.

Lemma p10_nz n : ¬ (p10 n == 0)%Q.
Proof. intros H. pose proof (p10_pos n) as P. rewrite H in P. by apply Qlt_irrefl in P. Qed.

Lemma p10_add a b : (p10 (a + b) == p10 a * p10 b)%Q.
Proof. unfold p10. apply Qpower_plus. intros H. discriminate H. Qed.

Lemma p10_0 : (p10 0 == 1)%Q.
Proof. reflexivity. Qed.

Lemma p10_Z n : 0 <= n → (p10 n == inject_Z (10 ^ n))%Q.
Proof. intros Hn. unfold p10. rewrite Zpower_Qpower by lia. reflexivity. Qed.

Lemma p10_opp n : (p10 n * p10 (- n) == 1)%Q.
Proof. rewrite <-p10_add. replace (n + - n) with 0 by lia. apply p10_0. Qed.

Lemma p10_inv n : (p10 (- n) == / p10 n)%Q.
Proof.
  pose proof (p10_opp n) as H. pose proof (p10_nz n) as Hn.
  apply (Qmult_inj_l _ _ _ Hn). rewrite H. field. exact Hn.
Qed.

Lemma p10_lt1 n : 0 < n → (p10 (- n) < 1)%Q.
Proof.
  intros Hn. pose proof (p10_opp n) as H. pose proof (p10_pos (- n)) as P.
  rewrite (p10_Z n) in H by lia.
  assert (inject_Z 10 <= inject_Z (10 ^ n))%Q as Hle.
  { rewrite <-Zle_Qle. change 10 with (10 ^ 1) at 1. apply pow10_le. lia. }
  change (inject_Z 10) with 10%Q in Hle. nra.
Qed.

(** ** Rounding to an integer *)

(** Half away from zero: [shopspring]'s [Round] and [DivRound]. *)
Definition round_half_away (q : Q) : Z :=
  let n := Qnum q in let d := Zpos (Qden q) in
  Z.sgn n * ((2 * Z.abs n + d) / (2 * d)).

(** Half to even: [shopspring]'s [RoundBank]. *)
Definition round_half_even (q : Q) : Z :=
  let n := Qnum q in let d := Zpos (Qden q) in
  let f := n / d in let r := n mod d in
  if 2 * r <? d then f
  else if d <? 2 * r then f + 1
  else if Z.even f then f else f + 1.

(** Toward zero: [Truncate], [IntPart], [BigInt]. *)
Definition round_trunc (q : Q) : Z := Z.quot (Qnum q) (Zpos (Qden q)).

(** [is_half_even q z]: [z] is a nearest integer to [q], the even one on a tie. *)
Definition is_half_even (q : Q) (z : Z) : Prop :=
  (-1 <= 2 * (q - inject_Z z) <= 1)%Q ∧
  ((2 * (q - inject_Z z) == 1)%Q → Z.even z = true) ∧
  ((2 * (q - inject_Z z) == -1)%Q → Z.even z = true).

(** [is_half_away q z]: [z] is a nearest integer, the larger in magnitude on a tie. *)
Definition is_half_away (q : Q) (z : Z) : Prop :=
  (-1 <= 2 * (q - inject_Z z) <= 1)%Q ∧
  ((2 * (q - inject_Z z) == 1)%Q → (q < 0)%Q) ∧
  ((2 * (q - inject_Z z) == -1)%Q → (0 < q)%Q).

(** Comparisons of [2 * (n/d - z)] with integers, over [Z]. *)
Lemma half_cmp (n : Z) (d : positive) (z k : Z) :
  let q := Qmake n d in
  (((inject_Z k <= 2 * (q - inject_Z z))%Q ↔ k * Zpos d <= 2 * n - 2 * z * Zpos d)) ∧
  (((2 * (q - inject_Z z) <= inject_Z k)%Q ↔ 2 * n - 2 * z * Zpos d <= k * Zpos d)) ∧
  (((2 * (q - inject_Z z) == inject_Z k)%Q ↔ 2 * n - 2 * z * Zpos d = k * Zpos d)).
Proof.
  cbn. unfold Qle, Qeq, Qminus, Qplus, Qmult, Qopp, inject_Z.
  cbn [Qnum Qden]. rewrite ?Pos.mul_1_r, ?Pos.mul_1_l. lia.
Qed.

Lemma is_half_even_Z (n : Z) (d : positive) z :
  is_half_even (Qmake n d) z ↔
  - Zpos d <= 2 * n - 2 * z * Zpos d <= Zpos d ∧
  (Z.abs (2 * n - 2 * z * Zpos d) = Zpos d → Z.even z = true).
Proof.
  unfold is_half_even.
  destruct (half_cmp n d z 1) as (_ & H1 & H2).
  destruct (half_cmp n d z (-1)) as (H3 & _ & H4). cbn zeta in *.
  change (inject_Z 1) with 1%Q in *. change (inject_Z (-1)) with (-1)%Q in *.
  rewrite H1, H2, H3, H4. split.
  - intros ((? & ?) & Ha & Hb). split; [lia|]. intros Habs.
    destruct (Z.le_gt_cases 0 (2 * n - 2 * z * Zpos d)); [apply Ha|apply Hb]; lia.
  - intros (? & H). repeat split; [lia|lia|intros; apply H; lia..].
Qed.

Lemma is_half_away_Z (n : Z) (d : positive) z :
  is_half_away (Qmake n d) z ↔
  - Zpos d <= 2 * n - 2 * z * Zpos d <= Zpos d ∧
  (2 * n - 2 * z * Zpos d = Zpos d → n < 0) ∧
  (2 * n - 2 * z * Zpos d = - Zpos d → 0 < n).
Proof.
  unfold is_half_away.
  destruct (half_cmp n d z 1) as (_ & H1 & H2).
  destruct (half_cmp n d z (-1)) as (H3 & _ & H4). cbn zeta in *.
  change (inject_Z 1) with 1%Q in *. change (inject_Z (-1)) with (-1)%Q in *.
  rewrite H1, H2, H3, H4.
  assert (((Qmake n d) < 0)%Q ↔ n < 0) as -> by (unfold Qlt; cbn; lia).
  assert ((0 < (Qmake n d))%Q ↔ 0 < n) as -> by (unfold Qlt; cbn; lia).
  split; intros ((? & ?) & Ha & Hb); (split; [lia|]); split; intros;
    first [apply Ha; lia | apply Hb; lia].
Qed.

Lemma round_half_even_spec q : is_half_even q (round_half_even q).
Proof.
  destruct q as [n d]. apply is_half_even_Z. unfold round_half_even.
  cbn [Qnum Qden].
  pose proof (Z.div_mod n (Zpos d) ltac:(lia)) as Hdm.
  pose proof (Z.mod_pos_bound n (Zpos d) ltac:(lia)) as Hr.
  set (f := n / Zpos d) in *. set (r := n mod Zpos d) in *.
  destruct (Z.ltb_spec (2 * r) (Zpos d)); [split; [nia|intros; nia]|].
  destruct (Z.ltb_spec (Zpos d) (2 * r)); [split; [nia|intros; nia]|].
  destruct (Z.even f) eqn:Ef; [split; [nia|done]|].
  split; [nia|]. intros _. rewrite Z.even_add, Ef. reflexivity.
Qed.

Lemma round_half_away_spec q : is_half_away q (round_half_away q).
Proof.
  destruct q as [n d]. apply is_half_away_Z. unfold round_half_away.
  cbn [Qnum Qden].
  pose proof (Z.div_mod (2 * Z.abs n + Zpos d) (2 * Zpos d) ltac:(lia)) as Hdm.
  pose proof (Z.mod_pos_bound (2 * Z.abs n + Zpos d) (2 * Zpos d) ltac:(lia)) as Hr.
  set (f := (2 * Z.abs n + Zpos d) / (2 * Zpos d)) in *.
  set (r := (2 * Z.abs n + Zpos d) mod (2 * Zpos d)) in *.
  destruct (Z.lt_trichotomy n 0) as [Hn|[Hn|Hn]].
  - rewrite Z.sgn_neg by lia. split; [nia|]. split; nia.
  - subst n. cbn [Z.sgn]. split; [nia|]. split; nia.
  - rewrite Z.sgn_pos by lia. split; [nia|]. split; nia.
Qed.

(** Both characterisations determine the integer. *)
Lemma is_half_even_unique q z1 z2 :
  is_half_even q z1 → is_half_even q z2 → z1 = z2.
Proof.
  destruct q as [n d]. rewrite !is_half_even_Z. intros (H1 & E1) (H2 & E2).
  assert (z1 = z2 ∨ z1 = z2 + 1 ∨ z2 = z1 + 1) as [?|[?|?]] by nia; [done| |].
  - assert (Z.even z1 = true) by (apply E1; nia).
    assert (Z.even z2 = true) as Hz by (apply E2; nia).
    subst z1. rewrite Z.even_add, Hz in *. discriminate.
  - assert (Z.even z2 = true) by (apply E2; nia).
    assert (Z.even z1 = true) as Hz by (apply E1; nia).
    subst z2. rewrite Z.even_add, Hz in *. discriminate.
Qed.

Lemma is_half_away_unique q z1 z2 :
  is_half_away q z1 → is_half_away q z2 → z1 = z2.
Proof.
  destruct q as [n d]. rewrite !is_half_away_Z. intros (H1 & E1 & F1) (H2 & E2 & F2).
  assert (z1 = z2 ∨ z1 = z2 + 1 ∨ z2 = z1 + 1) as [?|[?|?]] by nia; [done|exfalso..];
    nia.
Qed.

#[export] Instance is_half_even_proper : Proper (Qeq ==> eq ==> iff) is_half_even.
Proof. intros p q Hpq z ? <-. unfold is_half_even. rewrite Hpq. reflexivity. Qed.

#[export] Instance is_half_away_proper : Proper (Qeq ==> eq ==> iff) is_half_away.
Proof. intros p q Hpq z ? <-. unfold is_half_away. rewrite Hpq. reflexivity. Qed.

#[export] Instance round_half_even_proper : Proper (Qeq ==> eq) round_half_even.
Proof.
  intros p q Hpq. apply (is_half_even_unique p); [apply round_half_even_spec|].
  rewrite Hpq. apply round_half_even_spec.
Qed.

#[export] Instance round_half_away_proper : Proper (Qeq ==> eq) round_half_away.
Proof.
  intros p q Hpq. apply (is_half_away_unique p); [apply round_half_away_spec|].
  rewrite Hpq. apply round_half_away_spec.
Qed.

#[export] Instance round_trunc_proper : Proper (Qeq ==> eq) round_trunc.
Proof.
  intros [n1 d1] [n2 d2]. unfold Qeq, round_trunc. cbn [Qnum Qden]. intros H.
  rewrite <-(Z.quot_mul_cancel_r n1 (Zpos d1) (Zpos d2)) by lia.
  rewrite <-(Z.quot_mul_cancel_r n2 (Zpos d2) (Zpos d1)) by lia.
  rewrite H. f_equal. lia.
Qed.

Lemma round_trunc_Z z : round_trunc (inject_Z z) = z.
Proof. apply Z.quot_1_r. Qed.

Lemma round_half_even_Z z : round_half_even (inject_Z z) = z.
Proof.
  apply (is_half_even_unique (inject_Z z)); [apply round_half_even_spec|].
  apply is_half_even_Z. split; [lia|]. intros. lia.
Qed.

Lemma round_half_away_Z z : round_half_away (inject_Z z) = z.
Proof.
  apply (is_half_away_unique (inject_Z z)); [apply round_half_away_spec|].
  apply is_half_away_Z. split; [lia|]. split; lia.
Qed.

(** If [n1/d1 <= n2/d2] round to [z1 > z2], both are exact ties between the
    neighbours [z2] and [z1]. *)
Lemma crossing_is_tie (n1 n2 d1 d2 z1 z2 : Z) :
  0 < d1 → 0 < d2 → n1 * d2 <= n2 * d1 →
  - d1 <= 2 * n1 - 2 * z1 * d1 → 2 * n2 - 2 * z2 * d2 <= d2 → z2 < z1 →
  z1 = z2 + 1 ∧ 2 * n1 - 2 * z1 * d1 = - d1 ∧ 2 * n2 - 2 * z2 * d2 = d2.
Proof.
  intros Hd1 Hd2 Hle H1 H2 Hlt.
  assert ((2 * z1 - 1) * d1 * d2 <= 2 * n1 * d2) as A by (apply Z.mul_le_mono_nonneg_r; lia).
  assert (2 * n2 * d1 <= (2 * z2 + 1) * d2 * d1) as B by (apply Z.mul_le_mono_nonneg_r; lia).
  assert ((2 * z1 - 1) * (d1 * d2) <= (2 * z2 + 1) * (d1 * d2)) as C by lia.
  apply Z.mul_le_mono_pos_r in C; [|lia].
  assert (z1 = z2 + 1) as -> by lia.
  split; [done|]. split; nia.
Qed.

(** Rounding is monotone, so it stays between integer bounds. *)
Lemma round_half_even_mono p q : (p <= q)%Q → round_half_even p <= round_half_even q.
Proof.
  destruct p as [n1 d1], q as [n2 d2]. intros Hle.
  pose proof (proj1 (is_half_even_Z _ _ _) (round_half_even_spec (Qmake n1 d1))) as [H1 E1].
  pose proof (proj1 (is_half_even_Z _ _ _) (round_half_even_spec (Qmake n2 d2))) as [H2 E2].
  set (z1 := round_half_even (Qmake n1 d1)) in *. set (z2 := round_half_even (Qmake n2 d2)) in *.
  destruct (Z.le_gt_cases z1 z2) as [|Hgt]; [done|exfalso].
  unfold Qle in Hle. cbn in Hle.
  destruct (crossing_is_tie n1 n2 (Zpos d1) (Zpos d2) z1 z2) as (Hz & T1 & T2); try lia.
  assert (Z.even z1 = true) as Ev1 by (apply E1; lia).
  assert (Z.even z2 = true) as Ev2 by (apply E2; lia).
  rewrite Hz, Z.even_add, Ev2 in Ev1. discriminate.
Qed.

Lemma round_half_away_mono p q : (p <= q)%Q → round_half_away p <= round_half_away q.
Proof.
  destruct p as [n1 d1], q as [n2 d2]. intros Hle.
  pose proof (proj1 (is_half_away_Z _ _ _) (round_half_away_spec (Qmake n1 d1))) as (H1 & E1 & F1).
  pose proof (proj1 (is_half_away_Z _ _ _) (round_half_away_spec (Qmake n2 d2))) as (H2 & E2 & F2).
  set (z1 := round_half_away (Qmake n1 d1)) in *. set (z2 := round_half_away (Qmake n2 d2)) in *.
  destruct (Z.le_gt_cases z1 z2) as [|Hgt]; [done|exfalso].
  unfold Qle in Hle. cbn in Hle.
  destruct (crossing_is_tie n1 n2 (Zpos d1) (Zpos d2) z1 z2) as (Hz & T1 & T2); [lia..|].
  specialize (F1 T1). specialize (E2 T2). nia.
Qed.

Lemma round_half_even_bounds q a b :
  (inject_Z a <= q <= inject_Z b)%Q → a <= round_half_even q <= b.
Proof.
  intros [Ha Hb]. rewrite <-(round_half_even_Z a), <-(round_half_even_Z b) at 1.
  split; by apply round_half_even_mono.
Qed.

Lemma round_half_away_bounds q a b :
  (inject_Z a <= q <= inject_Z b)%Q → a <= round_half_away q <= b.
Proof.
  intros [Ha Hb]. rewrite <-(round_half_away_Z a), <-(round_half_away_Z b) at 1.
  split; by apply round_half_away_mono.
Qed.

(** ** Sums of rationals *)

Definition sumQ {A} (f : A → Q) (l : list A) : Q := foldr (λ x acc, f x + acc)%Q 0%Q l.

Lemma sumQ_cons {A} (f : A → Q) x l : (sumQ f (x :: l) == f x + sumQ f l)%Q.
Proof. reflexivity. Qed.

Lemma sumQ_app {A} (f : A → Q) l k : (sumQ f (l ++ k) == sumQ f l + sumQ f k)%Q.
Proof. induction l as [|x l IH]; cbn [app]; [cbn; ring|]. rewrite !sumQ_cons, IH. ring. Qed.

Lemma sumQ_snoc {A} (f : A → Q) l x : (sumQ f (l ++ [x]) == sumQ f l + f x)%Q.
Proof. rewrite sumQ_app. cbn. ring. Qed.

Lemma sumQ_perm {A} (f : A → Q) l k : l ≡ₚ k → (sumQ f l == sumQ f k)%Q.
Proof.
  induction 1 as [|x l k _ IH|x y l|l k m _ IH1 _ IH2]; rewrite ?sumQ_cons; [reflexivity|by rewrite IH|ring|by rewrite IH1].
Qed.

Lemma sumQ_ext {A} (f g : A → Q) l : (∀ x, x ∈ l → (f x == g x)%Q) → (sumQ f l == sumQ g l)%Q.
Proof.
  induction l as [|x l IH]; intros Hf; [reflexivity|]. rewrite !sumQ_cons, IH, (Hf x); [reflexivity|by left|].
  intros y Hy. apply Hf. by right.
Qed.

Lemma sumQ_fmap {A B} (f : B → Q) (g : A → B) l : (sumQ f (g <$> l) == sumQ (λ x, f (g x)) l)%Q.
Proof. induction l as [|x l IH]; [reflexivity|]. rewrite fmap_cons, !sumQ_cons, IH. reflexivity. Qed.

Lemma sumQ_scale {A} (f : A → Q) c l : (sumQ (λ x, f x * c) l == sumQ f l * c)%Q.
Proof. induction l as [|x l IH]; [cbn; ring|]. rewrite !sumQ_cons, IH. ring. Qed.

Lemma sumQ_nonneg {A} (f : A → Q) l : (∀ x, x ∈ l → (0 <= f x)%Q) → (0 <= sumQ f l)%Q.
Proof.
  induction l as [|x l IH]; intros Hf; [done|]. rewrite sumQ_cons.
  pose proof (Hf x ltac:(by left)). assert (0 <= sumQ f l)%Q by (apply IH; intros y Hy; apply Hf; by right). lra.
Qed.

(** Rounding every term moves a sum by at most a half for each. *)
Lemma sumQ_rounded {A} (f : A → Q) l :
  (Qabs (2 * (inject_Z (sumZ (λ x, round_half_away (f x)) l) - sumQ f l)) <= inject_Z (Z.of_nat (length l)))%Q.
Proof.
  induction l as [|x l IH]; [done|]. rewrite sumZ_cons, sumQ_cons. cbn [length].
  rewrite Nat2Z.inj_succ, <-Z.add_1_l, !inject_Z_plus.
  set (a := inject_Z (round_half_away (f x))). set (b := inject_Z (sumZ _ l)).
  assert (2 * (a + b - (f x + sumQ f l)) == 2 * (a - f x) + 2 * (b - sumQ f l))%Q as -> by ring.
  eapply Qle_trans; [apply Qabs_triangle|]. apply Qplus_le_compat; [|done]. subst a b.
  pose proof (round_half_away_spec (f x)) as [Hd _]. apply Qabs_Qle_condition. change (inject_Z 1) with 1%Q. lra.
Qed.
