(* ===== verification/GoStrings.v ===== *)
(** * Byte strings as the Go code uses them

    A Go string is a sequence of bytes; here it is Stdlib's [string], one
    [ascii] per byte.  The file models what the source uses of the packages
    [strings], [unicode/utf8] and [regexp]: [strings.TrimSpace], rune counting,
    ASCII case mapping, the anchored decimal and UUID patterns, and the decimal
    digits that [*big.Int] prints and parses. *)

From S2P Require Export Prelude.
From Stdlib Require Import Ascii String.

#[global] Open Scope Z_scope.

(** ** Bytes and digits *)

Definition byteZ (c : ascii) : Z := Z.of_N (N_of_ascii c).
Definition in_range (lo hi : Z) (c : ascii) : bool := (lo <=? byteZ c) && (byteZ c <=? hi).

Definition is_digit (c : ascii) : bool := in_range 48 57 c.
Definition digit_val (c : ascii) : Z := byteZ c - 48.
Definition digit_char (d : Z) : ascii := ascii_of_N (Z.to_N (48 + d)).

Lemma byteZ_digit_char d : 0 <= d < 10 → byteZ (digit_char d) = 48 + d.
Proof.
  intros Hd. unfold byteZ, digit_char. rewrite N_ascii_embedding by lia. lia.
Qed.

Lemma digit_char_is_digit d : 0 <= d < 10 → is_digit (digit_char d) = true.
Proof.
  intros Hd. unfold is_digit, in_range. rewrite byteZ_digit_char by lia.
  apply andb_true_iff. rewrite !Z.leb_le. lia.
Qed.

Lemma digit_char_val d : 0 <= d < 10 → digit_val (digit_char d) = d.
Proof. intros Hd. unfold digit_val. rewrite byteZ_digit_char by lia. lia. Qed.

Fixpoint all_bytes (p : ascii → bool) (s : string) : bool :=
  match s with EmptyString => true | String c r => p c && all_bytes p r end.

Definition all_digits : string → bool := all_bytes is_digit.

Definition slen (s : string) : Z := Z.of_nat (String.length s).

(** The number written by a digit string. *)
Fixpoint digits_acc (acc : Z) (s : string) : Z :=
  match s with EmptyString => acc | String c r => digits_acc (acc * 10 + digit_val c) r end.
Definition digits_val (s : string) : Z := digits_acc 0 s.

Lemma str_app_nil b : ("" +:+ b)%string = b.
Proof. reflexivity. Qed.

Lemma str_app_cons c a b : (String c a +:+ b)%string = String c (a +:+ b).
Proof. reflexivity. Qed.

Lemma str_app_nil_r a : (a +:+ "")%string = a.
Proof. induction a as [|c a IH]; [done|]. by rewrite str_app_cons, IH. Qed.

Lemma str_app_assoc a b c : ((a +:+ b) +:+ c)%string = (a +:+ (b +:+ c))%string.
Proof. induction a as [|x a IH]; [done|]. by rewrite !str_app_cons, IH. Qed.

Lemma slen_cons c s : slen (String c s) = 1 + slen s.
Proof. unfold slen. change (String.length (String c s)) with (S (String.length s)). lia. Qed.

Lemma slen_app a b : slen (a +:+ b) = slen a + slen b.
Proof.
  induction a as [|c a IH]; [done|]. rewrite str_app_cons, !slen_cons, IH. lia.
Qed.

Lemma slen_nonneg s : 0 <= slen s.
Proof. unfold slen. lia. Qed.

#[export] Instance String_inj c : Inj eq eq (String c).
Proof. congruence. Qed.

(** Two texts with ends of the same length are equal piece by piece. *)
Lemma str_app_inj_tail a b c d : slen b = slen d → (a +:+ b = c +:+ d)%string → a = c ∧ b = d.
Proof.
  revert c. induction a as [|x a IH]; intros [|y c] Hl H; rewrite ?str_app_cons, ?str_app_nil in H.
  - done.
  - exfalso. subst b. rewrite slen_cons, slen_app in Hl. pose proof (slen_nonneg c). lia.
  - exfalso. subst d. rewrite slen_cons, slen_app in Hl. pose proof (slen_nonneg a). lia.
  - injection H as -> H. destruct (IH c Hl H) as [-> ->]. done.
Qed.

Lemma all_bytes_app p a b : all_bytes p (a +:+ b) = all_bytes p a && all_bytes p b.
Proof.
  induction a as [|c a IH]; [done|]. rewrite str_app_cons. cbn. by rewrite IH, andb_assoc.
Qed.

Lemma digits_acc_shift acc s : digits_acc acc s = acc * 10 ^ slen s + digits_val s.
Proof.
  unfold digits_val. revert acc. induction s as [|c s IH]; intros acc; cbn [digits_acc].
  - change (slen "") with 0. lia.
  - rewrite (IH (acc * 10 + digit_val c)), (IH (0 * 10 + digit_val c)).
    rewrite slen_cons, Z.pow_add_r by (pose proof (slen_nonneg s); lia). lia.
Qed.

Lemma digits_val_app a b : digits_val (a +:+ b) = digits_val a * 10 ^ slen b + digits_val b.
Proof.
  rewrite <-digits_acc_shift. unfold digits_val. generalize 0.
  induction a as [|c a IH]; intros z; [done|]. rewrite str_app_cons. cbn. apply IH.
Qed.

Lemma digits_val_cons c s : digits_val (String c s) = digit_val c * 10 ^ slen s + digits_val s.
Proof. unfold digits_val at 1. cbn [digits_acc]. rewrite digits_acc_shift. lia. Qed.

Lemma digits_val_bound s : all_digits s = true → 0 <= digits_val s < 10 ^ slen s.
Proof.
  induction s as [|c s IH]; [done|]. unfold all_digits. cbn [all_bytes].
  intros H. prop_bool. rewrite digits_val_cons, slen_cons.
  assert (0 <= digit_val c < 10).
  { unfold is_digit, in_range, digit_val in *. prop_bool. lia. }
  specialize (IH ltac:(done)).
  rewrite Z.pow_add_r by (pose proof (slen_nonneg s); lia). nia.
Qed.

(** ** Printing numbers *)

(** [w] decimal digits of [n], most significant first. *)
Fixpoint pad_digits (w : nat) (n : Z) : string :=
  match w with
  | O => ""
  | S w => pad_digits w (n / 10) +:+ String (digit_char (n mod 10)) ""
  end.

(** The number of decimal digits of [n >= 0] (one for zero). *)
Fixpoint ndigits_fuel (fuel : nat) (n : Z) : nat :=
  match fuel with
  | O => 1
  | S f => if n <? 10 then 1%nat else S (ndigits_fuel f (n / 10))
  end.
Definition ndigits (n : Z) : nat := ndigits_fuel (Z.to_nat (Z.log2 n)) n.

(** The text of a [big.Int]. *)
Definition nat_string (n : Z) : string := pad_digits (ndigits n) n.
Definition bigIntString (z : Z) : string :=
  if z <? 0 then String "-" (nat_string (- z)) else nat_string z.

Lemma pad_digits_len w n : slen (pad_digits w n) = Z.of_nat w.
Proof.
  revert n. induction w as [|w IH]; intros n; [done|].
  cbn [pad_digits]. rewrite slen_app, IH, slen_cons. change (slen "") with 0. lia.
Qed.

Lemma pad_digits_digits w n : all_digits (pad_digits w n) = true.
Proof.
  revert n. induction w as [|w IH]; intros n; [done|]. unfold all_digits in *.
  cbn [pad_digits]. rewrite all_bytes_app, IH. cbn [all_bytes].
  rewrite digit_char_is_digit; [done|]. apply Z.mod_pos_bound. lia.
Qed.

Lemma pad_digits_val w n : digits_val (pad_digits w n) = n mod 10 ^ Z.of_nat w.
Proof.
  revert n. induction w as [|w IH]; intros n.
  - cbn. by rewrite Z.mod_1_r.
  - cbn [pad_digits]. rewrite digits_val_app, IH, digits_val_cons, !slen_cons.
    change (slen "") with 0. change (digits_val "") with 0.
    rewrite digit_char_val by (apply Z.mod_pos_bound; lia).
    rewrite Nat2Z.inj_succ, Z.pow_succ_r by lia.
    rewrite Z.rem_mul_r by (pose proof (pow10_pos_nat w); lia).
    rewrite Z.add_0_r, Z.pow_1_r, Z.pow_0_r. lia.
Qed.

Lemma ndigits_fuel_spec f n :
  0 <= n → n < 2 ^ (Z.of_nat f + 1) →
  n < 10 ^ Z.of_nat (ndigits_fuel f n) ∧
  (0 < n → 10 ^ (Z.of_nat (ndigits_fuel f n) - 1) <= n) ∧ (1 <= ndigits_fuel f n)%nat.
Proof.
  revert n. induction f as [|f IH]; intros n H0 Hn.
  - cbn in *. split; [lia|]. split; [|lia]. intros. cbn. lia.
  - cbn [ndigits_fuel]. destruct (Z.ltb_spec n 10) as [Hlt|Hge].
    + cbn. split; [lia|]. split; [|lia]. intros; cbn; lia.
    + assert (Hdiv : n / 10 < 2 ^ (Z.of_nat f + 1)).
      { apply Z.div_lt_upper_bound; [lia|].
        rewrite Nat2Z.inj_succ, Z.add_succ_l, Z.pow_succ_r in Hn by lia.
        pose proof (Z.pow_pos_nonneg 2 (Z.of_nat f + 1)). lia. }
      destruct (IH (n / 10)) as (U & L & P); [apply Z.div_pos; lia|done|].
      pose proof (Z.div_mod n 10 ltac:(lia)). pose proof (Z.mod_pos_bound n 10 ltac:(lia)).
      assert (0 < n / 10) as Hpos by (apply Z.div_str_pos; lia). specialize (L Hpos).
      set (k := ndigits_fuel f (n / 10)) in *.
      rewrite Nat2Z.inj_succ, Z.pow_succ_r by lia.
      split; [nia|]. split; [|lia]. intros _.
      replace (Z.succ (Z.of_nat k) - 1) with (Z.succ (Z.of_nat k - 1)) by lia.
      rewrite Z.pow_succ_r by lia. lia.
Qed.

Lemma ndigits_spec n : 0 <= n →
  n < 10 ^ Z.of_nat (ndigits n) ∧
  (0 < n → 10 ^ (Z.of_nat (ndigits n) - 1) <= n) ∧ (1 <= ndigits n)%nat.
Proof.
  intros Hn. unfold ndigits. apply ndigits_fuel_spec; [done|].
  destruct (Z.eq_dec n 0) as [->|]; [cbn; lia|].
  rewrite Z2Nat.id by apply Z.log2_nonneg.
  pose proof (Z.log2_spec n ltac:(lia)). rewrite Z.add_1_r. lia.
Qed.

(** [10 ^ k] bounds the digits: a number below it prints with at most [k]. *)
Lemma ndigits_le n k : 0 <= n < 10 ^ k → 1 <= k → Z.of_nat (ndigits n) <= k.
Proof.
  intros [H0 Hn] Hk. destruct (ndigits_spec n H0) as (_ & L & P).
  destruct (Z.eq_dec n 0) as [->|]; [change (Z.of_nat (ndigits 0)) with 1; lia|].
  specialize (L ltac:(lia)). destruct (Z.le_gt_cases (Z.of_nat (ndigits n)) k); [done|].
  pose proof (pow10_le k (Z.of_nat (ndigits n) - 1) ltac:(lia)). lia.
Qed.

Lemma nat_string_val n : 0 <= n → digits_val (nat_string n) = n.
Proof.
  intros Hn. unfold nat_string. rewrite pad_digits_val. apply Z.mod_small.
  destruct (ndigits_spec n Hn). lia.
Qed.

Lemma nat_string_digits n : all_digits (nat_string n) = true.
Proof. apply pad_digits_digits. Qed.

Lemma nat_string_len n : slen (nat_string n) = Z.of_nat (ndigits n).
Proof. apply pad_digits_len. Qed.

(** The leading digit of a padded number. *)
Lemma pad_digits_head w n :
  0 <= n → pad_digits (S w) n = String (digit_char ((n / 10 ^ Z.of_nat w) mod 10)) (pad_digits w n).
Proof.
  revert n. induction w as [|w IH]; intros n Hn.
  - cbn. by rewrite Z.div_1_r.
  - change (pad_digits (S (S w)) n)
      with (pad_digits (S w) (n / 10) +:+ String (digit_char (n mod 10)) "").
    rewrite IH by (apply Z.div_pos; lia). rewrite str_app_cons. cbn [pad_digits].
    do 2 f_equal. rewrite Z.div_div by (pose proof (pow10_pos_nat w); lia).
    do 2 f_equal. rewrite Nat2Z.inj_succ, Z.pow_succ_r by lia. done.
Qed.

Lemma nat_string_0 : nat_string 0 = "0"%string.
Proof. reflexivity. Qed.

(** A positive number prints without a leading zero. *)
Lemma nat_string_head n : 0 < n →
  ∃ d r, nat_string n = String (digit_char d) r ∧ 1 <= d < 10 ∧
         all_digits r = true ∧ slen r = Z.of_nat (ndigits n) - 1.
Proof.
  intros Hn. destruct (ndigits_spec n ltac:(lia)) as (U & L & P). specialize (L Hn).
  unfold nat_string. destruct (ndigits n) as [|w] eqn:Ew; [lia|].
  rewrite pad_digits_head by lia.
  replace (Z.of_nat (S w) - 1) with (Z.of_nat w) in * by lia.
  rewrite Nat2Z.inj_succ, Z.pow_succ_r in U by lia.
  pose proof (pow10_pos_nat w).
  exists ((n / 10 ^ Z.of_nat w) mod 10), (pad_digits w n).
  assert (1 <= n / 10 ^ Z.of_nat w < 10).
  { split; [apply Z.div_le_lower_bound; lia|apply Z.div_lt_upper_bound; lia]. }
  rewrite Z.mod_small by lia.
  split; [done|]. split; [lia|]. split; [apply pad_digits_digits|apply pad_digits_len].
Qed.

(** ** [strings.TrimSpace] and [trimInstrumentLabel]

    [unicode.IsSpace] holds of ASCII white space, U+0085, U+00A0 and the Unicode
    property White_Space.  Their UTF-8 encodings are listed; trimming removes
    them from both ends.  A byte sequence of this list at an end of a string is
    exactly one decoded rune there, so no decoding is needed. *)

Definition bytes (l : list Z) : string :=
  string_of_list_ascii (map (λ z, ascii_of_N (Z.to_N z)) l).

Definition space_runes : list string :=
  map bytes
    ([[9]; [10]; [11]; [12]; [13]; [32]; [194; 133]; [194; 160]; [225; 154; 128]]
     ++ map (λ k, [226; 128; 128 + k]) [0;1;2;3;4;5;6;7;8;9;10]
     ++ [[226; 128; 168]; [226; 128; 169]; [226; 128; 175]; [226; 129; 159]; [227; 128; 128]]).

Definition bom_rune : string := bytes [239; 187; 191].

Fixpoint strip_prefix (tok s : string) : option string :=
  match tok, s with
  | EmptyString, _ => Some s
  | String a tok, String b s => if Ascii.eqb a b then strip_prefix tok s else None
  | String _ _, EmptyString => None
  end.

Fixpoint strip_any (toks : list string) (s : string) : option string :=
  match toks with
  | [] => None
  | t :: toks => match strip_prefix t s with Some r => Some r | None => strip_any toks s end
  end.

Fixpoint trim_left (fuel : nat) (toks : list string) (s : string) : string :=
  match fuel with
  | O => s
  | S f => match strip_any toks s with Some r => trim_left f toks r | None => s end
  end.

Fixpoint srev (s : string) : string :=
  match s with EmptyString => "" | String c r => srev r +:+ String c "" end.

Definition trim_toks (toks : list string) (s : string) : string :=
  let l := trim_left (String.length s) toks s in
  srev (trim_left (String.length l) (map srev toks) (srev l)).

Definition TrimSpace (s : string) : string := trim_toks space_runes s.

(** Bytes that no trimmed rune starts or ends with. *)
Definition is_graphic (c : ascii) : bool := in_range 33 126 c.

Lemma strip_any_graphic toks c r :
  forallb (λ t, match t with String d _ => negb (is_graphic d) | EmptyString => false end) toks = true →
  is_graphic c = true → strip_any toks (String c r) = None.
Proof.
  intros Ht Hc. induction toks as [|t toks IH]; [done|]. cbn in Ht. prop_bool.
  destruct t as [|d t]; [discriminate|]. cbn. destruct (Ascii.eqb_spec d c) as [->|]; [|by apply IH].
  prop_bool. congruence.
Qed.

Lemma srev_app a b : srev (a +:+ b) = srev b +:+ srev a.
Proof.
  induction a as [|c a IH]; cbn [srev].
  - by rewrite str_app_nil_r.
  - rewrite str_app_cons. cbn [srev]. by rewrite IH, str_app_assoc.
Qed.

Lemma srev_involutive s : srev (srev s) = s.
Proof.
  induction s as [|c s IH]; [done|]. cbn [srev]. rewrite srev_app, IH. done.
Qed.

Lemma all_bytes_srev p s : all_bytes p (srev s) = all_bytes p s.
Proof.
  induction s as [|c s IH]; [done|]. cbn [srev]. rewrite all_bytes_app, IH. cbn.
  rewrite andb_true_r. apply andb_comm.
Qed.

Lemma trim_left_graphic fuel toks s :
  forallb (λ t, match t with String d _ => negb (is_graphic d) | EmptyString => false end) toks = true →
  all_bytes is_graphic s = true → trim_left fuel toks s = s.
Proof.
  intros Ht Hs. destruct fuel as [|f]; [done|]. cbn. destruct s as [|c s].
  - assert (strip_any toks "" = None) as ->; [|done].
    induction toks as [|[|d t] toks IH]; [done|done|]. cbn in *. prop_bool. by apply IH.
  - cbn in Hs. prop_bool. by rewrite strip_any_graphic.
Qed.

(** A string of graphic ASCII bytes is unchanged by trimming. *)
Lemma TrimSpace_graphic s : all_bytes is_graphic s = true → TrimSpace s = s.
Proof.
  intros Hs. unfold TrimSpace, trim_toks.
  rewrite (trim_left_graphic (String.length s)) by first [assumption | reflexivity].
  rewrite trim_left_graphic; [apply srev_involutive|reflexivity|].
  by rewrite all_bytes_srev.
Qed.

(** ** Counting runes: [len([]rune(s))]

    An invalid byte decodes to one replacement rune, as in Go. *)

Definition is_cont (c : ascii) : bool := in_range 128 191 c.

Definition rune_width (s : string) : nat :=
  match s with
  | EmptyString => 0
  | String a r =>
    let b := byteZ a in
    let second := match r with String c _ => Some c | EmptyString => None end in
    let third := match r with String _ (String c _) => Some c | _ => None end in
    let fourth := match r with String _ (String _ (String c _)) => Some c | _ => None end in
    let ok (p : ascii → bool) (o : option ascii) := match o with Some c => p c | None => false end in
    let lo := if b =? 224 then 160 else if b =? 240 then 144 else 128 in
    let hi := if b =? 237 then 159 else if b =? 244 then 143 else 191 in
    if (194 <=? b) && (b <=? 223) then (if ok is_cont second then 2 else 1)%nat
    else if (224 <=? b) && (b <=? 239) then
      (if ok (in_range lo hi) second && ok is_cont third then 3 else 1)%nat
    else if (240 <=? b) && (b <=? 244) then
      (if ok (in_range lo hi) second && ok is_cont third && ok is_cont fourth then 4 else 1)%nat
    else 1%nat
  end.

Fixpoint sdrop (n : nat) (s : string) : string :=
  match n, s with S n, String _ r => sdrop n r | _, _ => s end.

Fixpoint rune_count_fuel (fuel : nat) (s : string) : Z :=
  match fuel, s with
  | S f, String _ _ => 1 + rune_count_fuel f (sdrop (rune_width s) s)
  | _, _ => 0
  end.
Definition rune_count (s : string) : Z := rune_count_fuel (String.length s) s.

(** ** ASCII case mapping

    [strings.ToUpper] and [strings.ToLower] map every rune; only U+0131 and
    U+017F have an ASCII upper case, and only U+0130 and U+212A an ASCII lower
    case ('i' and 'k').  The callers modelled here accept ASCII results only, so
    the other runes outside ASCII are left as they are: the result is rejected
    either way. *)

Definition upper_byte (c : ascii) : ascii :=
  if in_range 97 122 c then ascii_of_N (N_of_ascii c - 32) else c.
Definition lower_byte (c : ascii) : ascii :=
  if in_range 65 90 c then ascii_of_N (N_of_ascii c + 32) else c.

Fixpoint ToUpper (s : string) : string :=
  match s with
  | EmptyString => ""
  | String a r =>
    match r with
    | String b r' =>
      if (byteZ a =? 196) && (byteZ b =? 177) then String "I" (ToUpper r')
      else if (byteZ a =? 197) && (byteZ b =? 191) then String "S" (ToUpper r')
      else String (upper_byte a) (ToUpper r)
    | EmptyString => String (upper_byte a) ""
    end
  end.

Fixpoint ToLower (s : string) : string :=
  match s with
  | EmptyString => ""
  | String a r =>
    match r with
    | String b r1 =>
      if (byteZ a =? 196) && (byteZ b =? 176) then String "i" (ToLower r1)
      else match r1 with
      | String c r2 =>
        if (byteZ a =? 226) && (byteZ b =? 132) && (byteZ c =? 170) then String "k" (ToLower r2)
        else String (lower_byte a) (ToLower r)
      | EmptyString => String (lower_byte a) (ToLower r)
      end
    | EmptyString => String (lower_byte a) ""
    end
  end.

(** ** The anchored patterns of [regexp] the source compiles

    [^-?(0|[1-9][0-9]{0,N})(\.[0-9]{1,M})?$], with or without the sign. *)

Fixpoint split_dot (s : string) : string * option string :=
  match s with
  | EmptyString => (""%string, None)
  | String c r =>
    if Ascii.eqb c "." then (""%string, Some r)
    else let '(a, b) := split_dot r in (String c a, b)
  end.

Definition int_part_ok (N : Z) (s : string) : bool :=
  bool_decide (s = "0"%string) ||
  match s with
  | String c r => in_range 49 57 c && all_digits r && (slen r <=? N)
  | EmptyString => false
  end.

Definition frac_part_ok (M : Z) (s : option string) : bool :=
  match s with
  | None => true
  | Some f => all_digits f && (1 <=? slen f) && (slen f <=? M)
  end.

Definition unsigned_syntax (N M : Z) (s : string) : bool :=
  let '(ip, fp) := split_dot s in int_part_ok N ip && frac_part_ok M fp.

Definition signed_syntax (N M : Z) (s : string) : bool :=
  match s with
  | String c r => if Ascii.eqb c "-" then unsigned_syntax N M r else unsigned_syntax N M s
  | EmptyString => unsigned_syntax N M s
  end.

(** [^[0-9a-f]{8}-[0-9a-f]{4}-[1-8][0-9a-f]{3}-[89ab][0-9a-f]{3}-[0-9a-f]{12}$] *)
Fixpoint match_classes (l : list (ascii → bool)) (s : string) : bool :=
  match l, s with
  | [], EmptyString => true
  | p :: l, String c s => p c && match_classes l s
  | _, _ => false
  end.

Definition is_hex (c : ascii) : bool := in_range 48 57 c || in_range 97 102 c.
Definition is_dash (c : ascii) : bool := Ascii.eqb c "-".
Definition uuid_classes : list (ascii → bool) :=
  replicate 8 is_hex ++ [is_dash] ++ replicate 4 is_hex ++ [is_dash] ++
  [in_range 49 56] ++ replicate 3 is_hex ++ [is_dash] ++
  [λ c, in_range 56 57 c || in_range 97 98 c] ++ replicate 3 is_hex ++ [is_dash] ++
  replicate 12 is_hex.
Definition uuidPattern (s : string) : bool := match_classes uuid_classes s.

Lemma digit_not_dot c : is_digit c = true → Ascii.eqb c "." = false.
Proof.
  intros H. apply Ascii.eqb_neq. intros ->. vm_compute in H. discriminate.
Qed.

Lemma split_dot_digits a : all_digits a = true → split_dot a = (a, None).
Proof.
  induction a as [|c a IH]; [done|]. unfold all_digits. cbn. intros H. prop_bool.
  rewrite digit_not_dot by done. by rewrite IH.
Qed.

Lemma split_dot_frac a b :
  all_digits a = true → split_dot (a +:+ String "." b) = (a, Some b).
Proof.
  induction a as [|c a IH]; [done|]. unfold all_digits. cbn [all_bytes]. intros H. prop_bool.
  rewrite str_app_cons. cbn [split_dot]. rewrite digit_not_dot by done. by rewrite IH.
Qed.

Lemma split_dot_inv s a b :
  split_dot s = (a, b) → s = match b with None => a | Some b => a +:+ String "." b end.
Proof.
  revert a b. induction s as [|c s IH]; intros a b; cbn [split_dot].
  - intros [= <- <-]. done.
  - destruct (Ascii.eqb_spec c ".") as [->|].
    + intros [= <- <-]. done.
    + destruct (split_dot s) as [a' b'] eqn:E. intros [= <- <-].
      rewrite (IH a' b' eq_refl). by destruct b'.
Qed.

(** The integer text of [n < 10 ^ (N + 1)] is accepted. *)
Lemma int_part_ok_nat_string N n :
  0 <= n < 10 ^ (N + 1) → 0 <= N → int_part_ok N (nat_string n) = true.
Proof.
  intros [H0 Hn] HN. unfold int_part_ok. destruct (Z.eq_dec n 0) as [->|Hnz]; [done|].
  destruct (nat_string_head n ltac:(lia)) as (d & r & -> & Hd & Hr & Hlen).
  pose proof (ndigits_le n (N + 1) ltac:(lia) ltac:(lia)).
  apply orb_true_iff. right. rewrite Hr. unfold in_range.
  rewrite byteZ_digit_char by lia. rewrite !andb_true_iff, !Z.leb_le. lia.
Qed.

Lemma int_part_ok_digits N s : int_part_ok N s = true → all_digits s = true ∧ 1 <= slen s.
Proof.
  unfold int_part_ok. intros H. apply orb_true_iff in H as [H|H].
  - prop_bool. by subst.
  - destruct s as [|c r]; [discriminate|]. prop_bool. unfold all_digits in *. cbn [all_bytes].
    rewrite slen_cons. pose proof (slen_nonneg r). split; [|lia].
    apply andb_true_iff. split; [|done].
    unfold is_digit, in_range in *. prop_bool. apply andb_true_iff. rewrite !Z.leb_le. lia.
Qed.

(** ** The byte order of strings *)

(** Go's [<=] on strings. *)
Definition sle (s t : string) : Prop := String.ltb t s = false.

Lemma compare_cons a s b t :
  String.compare (String a s) (String b t) =
  match (byteZ a ?= byteZ b) with Eq => String.compare s t | c => c end.
Proof. cbn [String.compare]. unfold Ascii.compare, byteZ. by rewrite N2Z.inj_compare. Qed.

Lemma sle_compare s t : sle s t ↔ String.compare s t ≠ Gt.
Proof.
  unfold sle, String.ltb. rewrite (String.compare_antisym t s).
  destruct (String.compare s t); cbn; split; done.
Qed.

#[export] Instance sle_preorder : PreOrder sle.
Proof.
  split.
  - intros s. apply sle_compare. pose proof (String.compare_antisym s s). by destruct (String.compare s s).
  - intros s t u. rewrite !sle_compare. revert t u.
    induction s as [|a s IH]; intros [|b t] [|c u]; try done.
    rewrite !compare_cons. intros H1 H2.
    destruct (Z.compare_spec (byteZ a) (byteZ b)) as [E1|E1|E1];
      destruct (Z.compare_spec (byteZ b) (byteZ c)) as [E2|E2|E2]; try done;
      destruct (Z.compare_spec (byteZ a) (byteZ c)) as [E3|E3|E3]; try done; try lia.
    by apply (IH t).
Qed.

Lemma sle_total s t : sle s t ∨ sle t s.
Proof.
  rewrite !sle_compare, (String.compare_antisym t s). destruct (String.compare s t); cbn; auto.
Qed.
