(* ===== verification/Ordering.v ===== *)
(** * Comparisons and the choice of a latest element

    The source chooses observations by chains of tests such as "if the instants differ,
    the later one; else if the creation times differ, ...".  Such a chain is a
    lexicographic comparison of keys.  [Ordered] is the interface of a lawful comparison,
    with instances for the keys in use and for lexicographic products; [keep_later] is a
    loop that keeps the later of two elements, and finds the greatest one independently
    of the order in which the elements are visited. *)

From S2P Require Export Prelude GoStrings.
From Stdlib Require Import String Ascii Sorted QArith.

#[global] Open Scope Z_scope.

Class Ordered {A} (cmp : A → A → comparison) : Prop := {
  cmp_antisym x y : cmp y x = CompOpp (cmp x y);
  cmp_trans c x y z : cmp x y = c → cmp y z = c → cmp x z = c }.

Section Ordered.
Context {A : Type} (cmp : A → A → comparison) `{HO : !Ordered cmp}.

Lemma cmp_refl x : cmp x x = Eq.
Proof. pose proof (cmp_antisym x x) as Hx. by destruct (cmp x x). Qed.

(** Equal elements compare alike. *)
Lemma cmp_eq_l c x y z : cmp x y = Eq → cmp y z = c → cmp x z = c.
Proof.
  intros Hxy Hyz. pose proof (cmp_antisym x y) as Hyx. rewrite Hxy in Hyx. cbn in Hyx.
  pose proof (cmp_antisym x z) as Hzx. destruct (cmp x z) eqn:E; cbn in Hzx.
  - by rewrite (cmp_trans Eq y x z) in Hyz by done.
  - destruct c; [|done|]; [by rewrite (cmp_trans Eq x y z) in E|].
    pose proof (cmp_trans Gt y z x Hyz Hzx). congruence.
  - destruct c; [|..|done]; [by rewrite (cmp_trans Eq x y z) in E|].
    pose proof (cmp_trans Lt y z x Hyz Hzx). congruence.
Qed.

Lemma cmp_eq_r c x y z : cmp x y = c → cmp y z = Eq → cmp x z = c.
Proof.
  intros Hxy Hyz. rewrite (cmp_antisym z x). rewrite (cmp_eq_l (CompOpp c) z y x); [by destruct c| |].
  - by rewrite (cmp_antisym y z), Hyz.
  - by rewrite (cmp_antisym x y), Hxy.
Qed.
End Ordered.

#[export] Instance Z_ordered : Ordered Z.compare.
Proof.
  split; [intros x y; apply Z.compare_antisym|]. intros [] x y z.
  - rewrite !Z.compare_eq_iff. congruence.
  - rewrite !Z.compare_lt_iff. lia.
  - rewrite !Z.compare_gt_iff. lia.
Qed.

#[export] Instance string_ordered : Ordered String.compare.
Proof.
  split; [intros x y; apply String.compare_antisym|]. intros c x. revert c.
  induction x as [|a x IH]; intros c [|b y] [|d z]; cbn [String.compare]; try (destruct c; done).
  fold (String.compare (String a x) (String b y)). fold (String.compare (String b y) (String d z)).
  change (String.compare (String a x) (String b y) = c → String.compare (String b y) (String d z) = c →
          String.compare (String a x) (String d z) = c).
  rewrite !compare_cons.
  destruct (Z.compare_spec (byteZ a) (byteZ b)) as [E1|E1|E1];
    destruct (Z.compare_spec (byteZ b) (byteZ d)) as [E2|E2|E2];
    destruct (Z.compare_spec (byteZ a) (byteZ d)) as [E3|E3|E3]; try lia; try congruence; by eauto.
Qed.

Lemma string_compare_eq s t : String.compare s t = Eq ↔ s = t.
Proof. split; [apply String.compare_eq_iff|intros ->; apply (cmp_refl String.compare)]. Qed.

(** [false] before [true]. *)
Definition bool_cmp (a b : bool) : comparison :=
  match a, b with true, false => Gt | false, true => Lt | _, _ => Eq end.
#[export] Instance bool_ordered : Ordered bool_cmp.
Proof. split; [by intros [] []|by intros [] [] [] []]. Qed.

(** Comparing by a key, and by a second comparison where the first finds no difference. *)
Definition by_key {A B} (f : A → B) (cmp : B → B → comparison) (x y : A) : comparison := cmp (f x) (f y).
Definition lex {A} (cmp cmp' : A → A → comparison) (x y : A) : comparison :=
  match cmp x y with Eq => cmp' x y | c => c end.

#[export] Instance by_key_ordered {A B} (f : A → B) cmp : Ordered cmp → Ordered (by_key f cmp).
Proof. intros HO. split; unfold by_key; intros *; [apply cmp_antisym|apply cmp_trans]. Qed.

#[export] Instance lex_ordered {A} (cmp cmp' : A → A → comparison) : Ordered cmp → Ordered cmp' → Ordered (lex cmp cmp').
Proof.
  intros HO HO'. split; unfold lex.
  - intros x y. rewrite (cmp_antisym x y). destruct (cmp x y); cbn; [apply cmp_antisym|done|done].
  - intros c x y z. destruct (cmp x y) eqn:Exy.
    + intros H1. rewrite (cmp_eq_l cmp (cmp y z) x y z) by done. destruct (cmp y z); [intros H2; exact (cmp_trans (cmp := cmp') c x y z H1 H2)|done|done].
    + intros <- H2. destruct (cmp y z) eqn:Eyz; [| |discriminate].
      * by rewrite (cmp_eq_r cmp Lt x y z).
      * by rewrite (cmp_trans Lt x y z).
    + intros <- H2. destruct (cmp y z) eqn:Eyz; [|discriminate|].
      * by rewrite (cmp_eq_r cmp Gt x y z).
      * by rewrite (cmp_trans Gt x y z).
Qed.

Definition is_gt (c : comparison) : bool := match c with Gt => true | _ => false end.

Lemma is_gt_Z x y : is_gt (x ?= y) = (y <? x).
Proof. unfold is_gt. rewrite Z.ltb_compare, (Z.compare_antisym x y). by destruct (x ?= y). Qed.

Lemma is_gt_string s t : is_gt (String.compare s t) = String.ltb t s.
Proof. unfold is_gt, String.ltb. rewrite (String.compare_antisym s t). by destruct (String.compare t s). Qed.

(** ** Keeping the later element *)

Section KeepLater.
Context {A : Type} (later : A → A → bool).

Definition keep_later (acc : option A) (x : A) : option A :=
  match acc with
  | None => Some x
  | Some s => if later x s then Some x else Some s
  end.

(** [m] is in the list and every other element is behind it. *)
Definition greatest (l : list A) (m : A) : Prop := m ∈ l ∧ ∀ x, x ∈ l → x = m ∨ later m x = true.

Definition chain (l : list A) : Prop :=
  (∀ x y, x ∈ l → y ∈ l → x = y ∨ later x y = true ∨ later y x = true) ∧
  (∀ x y, x ∈ l → y ∈ l → later x y = true → later y x = false) ∧
  (∀ x y z, x ∈ l → y ∈ l → z ∈ l → later x y = true → later y z = true → later x z = true).

Lemma keep_later_some l s : ∃ m, fold_left keep_later l (Some s) = Some m.
Proof.
  revert s. induction l as [|x l IH]; intros s; [by exists s|]. cbn. destruct (later x s); apply IH.
Qed.

Lemma keep_later_from l s : chain (s :: l) → ∃ m, fold_left keep_later l (Some s) = Some m ∧ greatest (s :: l) m.
Proof.
  revert s. induction l as [|x l IH]; intros s Hc; cbn.
  - exists s. split; [done|]. split; [by left|]. intros y Hy. left. by apply list_elem_of_singleton in Hy.
  - destruct Hc as (Ht & Ha & Htr).
    assert (Hsub : ∀ k, k = s ∨ k = x → chain (k :: l)).
    { intros k Hk. assert (Hin : ∀ y, y ∈ k :: l → y ∈ s :: x :: l).
      { intros y Hy. apply elem_of_cons in Hy as [->|Hy]; [|by do 2 right]. destruct Hk as [->| ->]; [by left|by right; left]. }
      split_and!; [intros y z Hy Hz; apply Ht; auto|intros y z Hy Hz; apply Ha; auto|intros y z w Hy Hz Hw; apply Htr; auto]. }
    assert (Hs : s ∈ s :: x :: l) by by left. assert (Hx : x ∈ s :: x :: l) by (right; by left).
    destruct (later x s) eqn:E.
    + destruct (IH x (Hsub x ltac:(by right))) as (m & Hm & Hin & Hg). exists m. split; [done|]. split; [by right|].
      intros y Hy. apply elem_of_cons in Hy as [->|Hy]; [|by apply Hg]. right.
      destruct (Hg x ltac:(by left)) as [->|Hmx]; [done|]. by apply (Htr m x s); [right|..].
    + destruct (IH s (Hsub s ltac:(by left))) as (m & Hm & Hin & Hg). exists m. split; [done|].
      assert (Hin' : m ∈ s :: x :: l). { apply elem_of_cons in Hin as [->|Hin]; [by left|by do 2 right]. }
      split; [done|]. intros y Hy. apply elem_of_cons in Hy as [->|Hy]; [apply Hg; by left|].
      apply elem_of_cons in Hy as [->|Hy]; [|apply Hg; by right].
      destruct (Ht x s Hx Hs) as [->|[?|Hsx]]; [apply Hg; by left|congruence|].
      destruct (Hg s ltac:(by left)) as [->|Hms]; [by right|]. right. by apply (Htr m s x).
Qed.

(** The loop finds the greatest element of a chain. *)
Lemma keep_later_greatest l m : chain l → fold_left keep_later l None = Some m ↔ greatest l m.
Proof.
  intros Hc. destruct l as [|x l]; cbn.
  - split; [done|]. intros [Hm _]. by apply elem_of_nil in Hm.
  - destruct (keep_later_from l x Hc) as (k & Hk & Hkin & Hg). rewrite Hk. split.
    + intros [= <-]. done.
    + intros [Hm Hgm]. destruct (Hgm k Hkin) as [->|Hmk]; [done|].
      destruct (Hg m Hm) as [->|Hkm]; [done|]. destruct Hc as (_ & Ha & _).
      rewrite (Ha m k) in Hkm by done. discriminate.
Qed.

Lemma keep_later_none l : fold_left keep_later l None = None ↔ l = [].
Proof.
  destruct l as [|x l]; [done|]. cbn. destruct (keep_later_some l x) as [m ->]. done.
Qed.

(** Whatever the order, the loop ends with an element of the list. *)
Lemma keep_later_in l acc m : fold_left keep_later l acc = Some m → m ∈ l ∨ acc = Some m.
Proof.
  revert acc. induction l as [|x l IH]; intros acc Hm; [by right|]. destruct (IH _ Hm) as [Hin|Hx]; [left; by right|].
  destruct acc as [s|]; cbn in Hx; [|left; injection Hx as ->; by left].
  destruct (later x s); injection Hx as ->; [left; by left|by right].
Qed.

Lemma chain_perm l k : l ≡ₚ k → chain l → chain k.
Proof.
  intros Hp (Ht & Ha & Htr). split_and!; intros *; rewrite <-!Hp; [apply Ht|apply Ha|apply Htr].
Qed.

(** The order in which a chain is visited does not matter. *)
Lemma keep_later_perm l k : chain l → l ≡ₚ k → fold_left keep_later l None = fold_left keep_later k None.
Proof.
  intros Hc Hp. pose proof (chain_perm l k Hp Hc) as Hck.
  destruct (fold_left keep_later l None) as [m|] eqn:E.
  - symmetry. apply keep_later_greatest; [done|]. apply keep_later_greatest in E as [Hm Hg]; [|done].
    split; [by rewrite <-Hp|]. intros x. rewrite <-Hp. apply Hg.
  - symmetry. apply keep_later_none. apply keep_later_none in E as ->. by apply Permutation_nil_l in Hp.
Qed.
End KeepLater.

(** A lawful comparison under which only equal elements of the list are tied. *)
Lemma ordered_chain {A} (cmp : A → A → comparison) `{HO : !Ordered cmp} (later : A → A → bool) l :
  (∀ x y, x ∈ l → y ∈ l → later x y = is_gt (cmp x y)) → (∀ x y, x ∈ l → y ∈ l → cmp x y = Eq → x = y) → chain later l.
Proof.
  intros Hl Heq. split_and!.
  - intros x y Hx Hy. rewrite !Hl, (cmp_antisym x y) by done. destruct (cmp x y) eqn:E; [left; by apply Heq|by right; right|by right; left].
  - intros x y Hx Hy. rewrite !Hl, (cmp_antisym x y) by done. by destruct (cmp x y).
  - intros x y z Hx Hy Hz. rewrite !Hl by done. destruct (cmp x y) eqn:E1, (cmp y z) eqn:E2; try done.
    by rewrite (cmp_trans (cmp := cmp) Gt x y z).
Qed.

(** ** Sorting *)

#[export] Instance Q_ordered : Ordered Qcompare.
Proof.
  split; [intros x y; symmetry; apply Qcompare_antisym|]. intros [] x y z.
  - rewrite <-!Qeq_alt. intros -> ->. reflexivity.
  - rewrite <-!Qlt_alt. apply Qlt_trans.
  - rewrite <-!Qgt_alt. intros ? ?. by apply (Qlt_trans _ y).
Qed.

(** Descending rationals. *)
#[export] Instance Q_descending : Ordered (λ x y : Q, Qcompare y x).
Proof.
  split; [intros x y; apply (cmp_antisym (cmp := Qcompare))|]. intros c x y z H1 H2.
  exact (cmp_trans (cmp := Qcompare) c z y x H2 H1).
Qed.

Section Sorting.
Context {A : Type} (cmp : A → A → comparison) `{HO : !Ordered cmp} (less : A → A → bool).
Context (Hless : ∀ x y, less x y = is_gt (cmp y x)).

Definition in_order (x y : A) : Prop := cmp x y ≠ Gt.

Lemma in_order_trans x y z : in_order x y → in_order y z → in_order x z.
Proof.
  unfold in_order. intros H1 H2 H3. destruct (cmp x y) eqn:E; [|..|done].
  - apply H2. by rewrite (cmp_eq_l cmp Gt y x z); [| rewrite (cmp_antisym (cmp := cmp) x y), E |].
  - pose proof (cmp_antisym (cmp := cmp) x z) as E'. rewrite H3 in E'.
    assert (cmp z y = Lt) as E2 by by apply (cmp_trans (cmp := cmp) Lt z x y).
    apply H2. by rewrite (cmp_antisym (cmp := cmp) z y), E2.
Qed.

Lemma sort_insert_sorted x l : StronglySorted in_order l → StronglySorted in_order (sort_insert less x l).
Proof.
  induction 1 as [|y l Hs IH Hf]; [repeat constructor|]. cbn [sort_insert]. rewrite Hless.
  destruct (is_gt (cmp x y)) eqn:E.
  - constructor; [done|]. rewrite Forall_forall in Hf |- *. intros z. rewrite sort_insert_perm. intros Hz.
    apply elem_of_cons in Hz as [->|Hz]; [|by apply Hf]. unfold in_order. rewrite (cmp_antisym (cmp := cmp) x y).
    by destruct (cmp x y).
  - assert (in_order x y) by (unfold in_order; intros E'; by rewrite E' in E).
    constructor; [by constructor|]. constructor; [done|]. rewrite Forall_forall in Hf |- *.
    intros z Hz. by apply (in_order_trans x y z); [|apply Hf].
Qed.

Lemma stable_sort_sorted l : StronglySorted in_order (stable_sort less l).
Proof. induction l as [|x l IH]; [constructor|]. by apply sort_insert_sorted. Qed.

Lemma sorted_perm_eq l k : (∀ x y, x ∈ l → y ∈ l → cmp x y = Eq → x = y) →
  StronglySorted in_order l → StronglySorted in_order k → l ≡ₚ k → l = k.
Proof.
  intros Heq Hl. revert k Heq. induction Hl as [|x l Hl IH Hx]; intros k Heq Hk Hp.
  - by apply Permutation_nil_l in Hp.
  - destruct Hk as [|y k Hk Hy]; [by apply Permutation_nil_r in Hp|].
    rewrite Forall_forall in Hx, Hy. assert (Hxy : x = y).
    { assert (Hyl : y ∈ x :: l) by (rewrite Hp; by left). assert (Hxk : x ∈ y :: k) by (rewrite <-Hp; by left).
      apply elem_of_cons in Hyl as [->|Hyl]; [done|]. apply elem_of_cons in Hxk as [->|Hxk]; [done|].
      specialize (Hx y Hyl). specialize (Hy x Hxk). unfold in_order in Hx, Hy.
      apply Heq; [by left|by right|]. rewrite (cmp_antisym (cmp := cmp) x y) in Hy. by destruct (cmp x y). }
    subst y. f_equal. apply IH; [|done|by apply Permutation_cons_inv in Hp]. intros a b Ha Hb. apply Heq; by right.
Qed.

(** Sorting forgets the order of a list without distinct tied elements. *)
Lemma stable_sort_eq l k : (∀ x y, x ∈ l → y ∈ l → cmp x y = Eq → x = y) → l ≡ₚ k → stable_sort less l = stable_sort less k.
Proof.
  intros Heq Hp. apply sorted_perm_eq; [|apply stable_sort_sorted..|by rewrite !stable_sort_perm].
  intros x y. rewrite !stable_sort_perm. apply Heq.
Qed.

Lemma sorted_split l k x y : StronglySorted in_order (l ++ k) → x ∈ l → y ∈ k → in_order x y.
Proof.
  induction l as [|z l IH]; cbn; intros Hs Hx Hy; [by apply elem_of_nil in Hx|].
  inversion Hs as [|? ? Hs' Hf]; subst. rewrite Forall_forall in Hf.
  apply elem_of_cons in Hx as [->|Hx]; [|by apply IH]. apply Hf. rewrite elem_of_app. by right.
Qed.
End Sorting.
