(* ===== verification/DecimalAPI.v ===== *)
(** * The decimal library as an interface

    The program computes with [github.com/shopspring/decimal], which is not part
    of the repository.  [DecimalAPI] declares the operations the source calls;
    [DecimalLaws] states what its documentation promises about them, in terms of
    the exact rational [dval d] that a coefficient and an exponent denote.
    Every component is defined over an arbitrary [DecimalAPI]; theorems that
    need the library's behaviour assume [DecimalLaws].  The file [DecimalModel]
    has an implementation that satisfies the laws. *)

From S2P Require Export Prelude Rounding GoStrings.
From Stdlib Require Import String Ascii.

#[global] Open Scope Z_scope.

Class DecimalAPI := {
  Decimal : Type;
  (** [New], [NewFromBigInt]: value times ten to the exponent. *)
  dNew : Z → Z → Decimal;
  dCoefficient : Decimal → Z;
  dExponent : Decimal → Z;
  dNewFromString : string → option Decimal;
  dString : Decimal → string;
  dStringFixed : Decimal → Z → string;
  dAdd : Decimal → Decimal → Decimal;
  dSub : Decimal → Decimal → Decimal;
  dMul : Decimal → Decimal → Decimal;
  dNeg : Decimal → Decimal;
  dAbs : Decimal → Decimal;
  dDiv : Decimal → Decimal → Decimal;
  dDivRound : Decimal → Decimal → Z → Decimal;
  dQuoRem : Decimal → Decimal → Z → Decimal * Decimal;
  dRound : Decimal → Z → Decimal;
  dRoundBank : Decimal → Z → Decimal;
  dTruncate : Decimal → Z → Decimal;
  dShift : Decimal → Z → Decimal;
  dBigInt : Decimal → Z;
  dCmp : Decimal → Decimal → Z;
  dEqual : Decimal → Decimal → bool;
  dIsZero : Decimal → bool;
  dIsNegative : Decimal → bool;
  dLessThan : Decimal → Decimal → bool;
  dGreaterThan : Decimal → Decimal → bool;
  dIsPositive : Decimal → bool;
  dMin : Decimal → Decimal → Decimal;
  dMax : Decimal → Decimal → Decimal;
}.

(** [decimal.NewFromInt], [decimal.Zero]. *)
Definition dInt `{DecimalAPI} (z : Z) : Decimal := dNew z 0.
Definition dZero `{DecimalAPI} : Decimal := dNew 0 1.

(** The rational a decimal denotes. *)
Definition cval (c e : Z) : Q := (inject_Z c * p10 e)%Q.
Definition dval `{DecimalAPI} (d : Decimal) : Q := cval (dCoefficient d) (dExponent d).

(** ** The documented text formats *)

Fixpoint rtrim_zeros (s : string) : string :=
  match s with
  | EmptyString => ""
  | String c r =>
    let r' := rtrim_zeros r in
    if bool_decide (r' = ""%string) && Ascii.eqb c "0" then "" else String c r'
  end.

(** Fixed-point text of coefficient [c] and exponent [e]; [String] trims
    trailing zeros of the fraction, [StringFixed] keeps them. *)
Definition plain_string (trim : bool) (c e : Z) : string :=
  if 0 <=? e then bigIntString (c * 10 ^ e)
  else
    let k := - e in let a := Z.abs c in
    let ip := nat_string (a / 10 ^ k) in
    let fp := pad_digits (Z.to_nat k) (a mod 10 ^ k) in
    let fp := if trim then rtrim_zeros fp else fp in
    let num := (ip +:+ (if bool_decide (fp = ""%string) then "" else String "." fp))%string in
    if c <? 0 then String "-" num else num.

(** The coefficient and exponent that a literal [-?digits(.digits)?] denotes:
    trailing zeros of the fraction count in the exponent. *)
Definition unsigned_literal (s : string) : option (Z * Z) :=
  let '(ip, fp) := split_dot s in
  if all_digits ip && (1 <=? slen ip) then
    match fp with
    | None => Some (digits_val ip, 0)
    | Some f => if all_digits f && (1 <=? slen f)
                then Some (digits_val (ip +:+ f), - slen f) else None
    end
  else None.

Definition literal (s : string) : option (Z * Z) :=
  match s with
  | String c r =>
    if Ascii.eqb c "-" then
      match unsigned_literal r with Some (v, e) => Some (- v, e) | None => None end
    else unsigned_literal s
  | EmptyString => None
  end.

Class DecimalLaws `{DecimalAPI} : Prop := {
  dNew_coef c e : dCoefficient (dNew c e) = c;
  dNew_expo c e : dExponent (dNew c e) = e;
  dNewFromString_literal s c e : literal s = Some (c, e) →
    ∃ d, dNewFromString s = Some d ∧ dCoefficient d = c ∧ dExponent d = e;
  dString_plain d : dString d = plain_string true (dCoefficient d) (dExponent d);
  dStringFixed_plain d p : 0 <= p →
    dStringFixed d p = plain_string false (round_half_away (dval d * p10 p)) (- p);
  dAdd_val a b : (dval (dAdd a b) == dval a + dval b)%Q;
  dAdd_expo a b : dExponent (dAdd a b) = Z.min (dExponent a) (dExponent b);
  dSub_val a b : (dval (dSub a b) == dval a - dval b)%Q;
  dSub_expo a b : dExponent (dSub a b) = Z.min (dExponent a) (dExponent b);
  dMul_val a b : (dval (dMul a b) == dval a * dval b)%Q;
  dMul_expo a b : dExponent (dMul a b) = dExponent a + dExponent b;
  dNeg_val a : (dval (dNeg a) == - dval a)%Q;
  dNeg_expo a : dExponent (dNeg a) = dExponent a;
  dAbs_val a : (dval (dAbs a) == Qabs (dval a))%Q;
  dAbs_expo a : dExponent (dAbs a) = dExponent a;
  dDivRound_coef a b p : ¬ (dval b == 0)%Q →
    dCoefficient (dDivRound a b p) = round_half_away (dval a / dval b * p10 p);
  dDivRound_expo a b p : ¬ (dval b == 0)%Q → dExponent (dDivRound a b p) = - p;
  dDiv_divround a b : ¬ (dval b == 0)%Q → dDiv a b = dDivRound a b 16;
  dQuoRem_spec a b p q r : ¬ (dval b == 0)%Q → dQuoRem a b p = (q, r) →
    (dval a == dval b * dval q + dval r)%Q ∧
    dCoefficient q = round_trunc (dval a / dval b * p10 p) ∧ dExponent q = - p;
  dRound_coef a p : dCoefficient (dRound a p) = round_half_away (dval a * p10 p);
  dRound_expo a p : dExponent (dRound a p) = - p;
  dRoundBank_coef a p : dCoefficient (dRoundBank a p) = round_half_even (dval a * p10 p);
  dRoundBank_expo a p : dExponent (dRoundBank a p) = - p;
  dTruncate_val a p : 0 <= p →
    (dval (dTruncate a p) == inject_Z (round_trunc (dval a * p10 p)) * p10 (- p))%Q;
  dShift_val a n : (dval (dShift a n) == dval a * p10 n)%Q;
  dBigInt_val a : dBigInt a = round_trunc (dval a);
  dCmp_val a b : dCmp a b = match (dval a ?= dval b)%Q with Lt => -1 | Eq => 0 | Gt => 1 end;
  dEqual_val a b : dEqual a b = true ↔ (dval a == dval b)%Q;
  dIsZero_val a : dIsZero a = true ↔ (dval a == 0)%Q;
  dIsNegative_val a : dIsNegative a = true ↔ (dval a < 0)%Q;
  dLessThan_val a b : dLessThan a b = true ↔ (dval a < dval b)%Q;
  dGreaterThan_val a b : dGreaterThan a b = true ↔ (dval b < dval a)%Q;
  dIsPositive_val a : dIsPositive a = true ↔ (0 < dval a)%Q;
  (** One of the two arguments, and neither is smaller (greater). *)
  dMin_arg a b : dMin a b = a ∨ dMin a b = b;
  dMin_le a b : (dval (dMin a b) <= dval a)%Q ∧ (dval (dMin a b) <= dval b)%Q;
  dMax_arg a b : dMax a b = a ∨ dMax a b = b;
  dMax_ge a b : (dval a <= dval (dMax a b))%Q ∧ (dval b <= dval (dMax a b))%Q;
}.

(** ** Coefficients at a common scale

    A decimal with at most [k] fractional digits is the integer [units k d] in
    units of [10 ^ (- k)]; balances and quantities are compared and added there. *)

Definition cunits (k c e : Z) : Z := c * 10 ^ (e + k).
Definition units `{DecimalAPI} (k : Z) (d : Decimal) : Z := cunits k (dCoefficient d) (dExponent d).

Lemma cval_units k c e : - k <= e → (cval c e * p10 k == inject_Z (cunits k c e))%Q.
Proof.
  intros Hk. unfold cval, cunits.
  rewrite inject_Z_mult, <-(p10_Z (e + k)) by lia. rewrite p10_add. ring.
Qed.

Lemma cval_nonneg c e : (0 <= cval c e)%Q ↔ 0 <= c.
Proof.
  unfold cval. pose proof (p10_pos e) as P. split; intros H0.
  - destruct (Z.le_gt_cases 0 c) as [|Hlt]; [done|exfalso].
    assert (inject_Z c <= -1)%Q as Hc by (change (-1)%Q with (inject_Z (-1)); rewrite <-Zle_Qle; lia).
    nra.
  - assert (0 <= inject_Z c)%Q as Hc by (change 0%Q with (inject_Z 0); by rewrite <-Zle_Qle).
    nra.
Qed.

Lemma cval_zero c e : (cval c e == 0)%Q ↔ c = 0.
Proof.
  unfold cval. split; [intros H0|intros ->; ring].
  apply Qmult_integral in H0 as [H0|H0]; [|by apply p10_nz in H0].
  change 0%Q with (inject_Z 0) in H0. by apply inject_Z_injective.
Qed.

Section Units.
Context `{HD : DecimalAPI} {HL : DecimalLaws}.

Lemma dval_units k d : - k <= dExponent d → (dval d * p10 k == inject_Z (units k d))%Q.
Proof. apply cval_units. Qed.

Lemma units_le k a b : - k <= dExponent a → - k <= dExponent b →
  (dval a <= dval b)%Q ↔ units k a <= units k b.
Proof.
  intros Ha Hb. rewrite (Zle_Qle (units k a)), <-!dval_units by done.
  pose proof (p10_pos k). split; intros; nra.
Qed.

Lemma units_lt k a b : - k <= dExponent a → - k <= dExponent b →
  (dval a < dval b)%Q ↔ units k a < units k b.
Proof.
  intros Ha Hb. rewrite (Zlt_Qlt (units k a)), <-!dval_units by done.
  pose proof (p10_pos k). split; intros; nra.
Qed.

Lemma units_eq k a b : - k <= dExponent a → - k <= dExponent b →
  (dval a == dval b)%Q ↔ units k a = units k b.
Proof.
  intros Ha Hb. split; intros H.
  - apply inject_Z_injective. rewrite <-!dval_units by done. by rewrite H.
  - apply (Qmult_inj_r _ _ (p10 k)); [apply p10_nz|]. rewrite !dval_units by done. by rewrite H.
Qed.

Lemma units_zero k d : units k d = 0 ↔ dCoefficient d = 0 ∨ dExponent d + k < 0.
Proof.
  unfold units, cunits. destruct (Z.le_gt_cases 0 (dExponent d + k)).
  - pose proof (pow10_pos (dExponent d + k)). split; [nia|]. intros [->|]; lia.
  - rewrite Z.pow_neg_r by lia. split; [lia|]. lia.
Qed.

Lemma units_new k c e : units k (dNew c e) = c * 10 ^ (e + k).
Proof. unfold units, cunits. by rewrite dNew_coef, dNew_expo. Qed.

Lemma units_add k a b : - k <= dExponent a → - k <= dExponent b →
  units k (dAdd a b) = units k a + units k b.
Proof.
  intros Ha Hb. apply inject_Z_injective.
  rewrite inject_Z_plus, <-!dval_units by (rewrite ?dAdd_expo; lia).
  rewrite dAdd_val. ring.
Qed.

Lemma units_sub k a b : - k <= dExponent a → - k <= dExponent b →
  units k (dSub a b) = units k a - units k b.
Proof.
  intros Ha Hb. apply inject_Z_injective. unfold Z.sub.
  rewrite inject_Z_plus, inject_Z_opp, <-!dval_units by (rewrite ?dSub_expo; lia).
  rewrite dSub_val. ring.
Qed.

Lemma units_neg k a : - k <= dExponent a → units k (dNeg a) = - units k a.
Proof.
  intros Ha. apply inject_Z_injective.
  rewrite inject_Z_opp, <-!dval_units by (rewrite ?dNeg_expo; lia).
  rewrite dNeg_val. ring.
Qed.

Lemma Qabs_inject z : (Qabs (inject_Z z) == inject_Z (Z.abs z))%Q.
Proof. reflexivity. Qed.

Lemma units_abs k a : - k <= dExponent a → units k (dAbs a) = Z.abs (units k a).
Proof.
  intros Ha. apply inject_Z_injective.
  rewrite <-Qabs_inject, <-!dval_units by (rewrite ?dAbs_expo; lia).
  rewrite dAbs_val, Qabs_Qmult, (Qabs_pos (p10 k)); [reflexivity|].
  apply Qlt_le_weak, p10_pos.
Qed.

Lemma units_neg_iff k a : - k <= dExponent a → dIsNegative a = true ↔ units k a < 0.
Proof.
  intros Ha. rewrite dIsNegative_val.
  rewrite (Zlt_Qlt (units k a)), <-dval_units by done.
  change (inject_Z 0) with 0%Q. pose proof (p10_pos k). split; intros; nra.
Qed.

Lemma isneg_false d : dIsNegative d = false ↔ (0 <= dval d)%Q.
Proof.
  destruct (dIsNegative d) eqn:E.
  - apply dIsNegative_val in E. split; [done|]. intros. exfalso. lra.
  - split; [intros _|done]. destruct (Qlt_le_dec (dval d) 0) as [H|]; [|done].
    apply dIsNegative_val in H. congruence.
Qed.

Lemma greater_false a b : dGreaterThan a b = false ↔ (dval a <= dval b)%Q.
Proof.
  destruct (dGreaterThan a b) eqn:E.
  - apply dGreaterThan_val in E. split; [done|]. intros. exfalso. lra.
  - split; [intros _|done]. destruct (Qlt_le_dec (dval b) (dval a)) as [H|]; [|done].
    apply dGreaterThan_val in H. congruence.
Qed.

Lemma less_false a b : dLessThan a b = false ↔ (dval b <= dval a)%Q.
Proof.
  destruct (dLessThan a b) eqn:E.
  - apply dLessThan_val in E. split; [done|]. intros. exfalso. lra.
  - split; [intros _|done]. destruct (Qlt_le_dec (dval a) (dval b)) as [H|]; [|done].
    apply dLessThan_val in H. congruence.
Qed.

Lemma iszero_false a : dIsZero a = false ↔ ¬ (dval a == 0)%Q.
Proof.
  destruct (dIsZero a) eqn:E.
  - apply dIsZero_val in E. split; [done|]. intros H. by destruct H.
  - split; [|done]. intros _ H. apply dIsZero_val in H. congruence.
Qed.

Lemma dval_nonneg_coef d : (0 <= dval d)%Q ↔ 0 <= dCoefficient d.
Proof. apply cval_nonneg. Qed.

Lemma dval_zero_coef d : (dval d == 0)%Q ↔ dCoefficient d = 0.
Proof. apply cval_zero. Qed.

Lemma dval_new c e : (dval (dNew c e) == inject_Z c * p10 e)%Q.
Proof. unfold dval. by rewrite dNew_coef, dNew_expo. Qed.

Lemma dval_int z : (dval (dInt z) == inject_Z z)%Q.
Proof. unfold dInt. rewrite dval_new, p10_0. ring. Qed.

Lemma dval_dzero : (dval dZero == 0)%Q.
Proof. unfold dZero. rewrite dval_new. reflexivity. Qed.
End Units.

(** ** Text facts: canonical text is accepted and denotes the same value *)

Lemma bytes_head_not_dash s N : int_part_ok N s = true →
  ∀ t, ∃ c r, (s +:+ t)%string = String c r ∧ Ascii.eqb c "-" = false.
Proof.
  intros H t. apply int_part_ok_digits in H as [Hd Hl].
  destruct s as [|c s]; [change (slen "") with 0 in Hl; lia|].
  exists c, (s +:+ t)%string. split; [done|]. unfold all_digits in Hd. cbn in Hd. prop_bool.
  apply Ascii.eqb_neq. intros ->. by vm_compute in H.
Qed.

(** Accepted text has no sign. *)
Lemma unsigned_syntax_head N M s : unsigned_syntax N M s = true → s ≠ ""%string ∧ literal s = unsigned_literal s.
Proof.
  unfold unsigned_syntax. destruct (split_dot s) as [ip fp] eqn:Es. intros H. prop_bool.
  pose proof (split_dot_inv _ _ _ Es) as Hs.
  destruct (bytes_head_not_dash _ _ H match fp with None => ""%string | Some f => String "." f end)
    as (c & r & E & Hc).
  assert (s = String c r) as ->; [|split; [done|]; unfold literal; by rewrite Hc].
  rewrite Hs. destruct fp; [done|]. by rewrite str_app_nil_r in E.
Qed.

(** Accepted text has a literal value within the digits of the pattern. *)
Lemma unsigned_syntax_literal N M s :
  0 <= N → 0 <= M → unsigned_syntax N M s = true →
  ∃ c e, literal s = Some (c, e) ∧ 0 <= c < 10 ^ (N + 1 - e) ∧ - M <= e ∧ e <= 0.
Proof.
  intros HN HM Hsyn. destruct (unsigned_syntax_head N M s Hsyn) as [_ Hlit]. revert Hsyn.
  unfold unsigned_syntax. destruct (split_dot s) as [ip fp] eqn:Es. intros H. prop_bool.
  destruct (int_part_ok_digits _ _ H) as [Hd Hl].
  assert (Hlen : slen ip <= N + 1).
  { unfold int_part_ok in H. apply orb_true_iff in H as [H|H].
    - prop_bool. subst ip. change (slen "0") with 1. lia.
    - destruct ip; [discriminate|]. prop_bool. rewrite slen_cons. lia. }
  rewrite Hlit. unfold unsigned_literal. rewrite Es, Hd, (proj2 (Z.leb_le _ _) Hl). cbn [andb].
  pose proof (digits_val_bound ip Hd) as Hv.
  destruct fp as [f|]; cbn [frac_part_ok] in *; prop_bool.
  - assert (Hfd : all_digits f = true) by done.
    assert (Hf1 : (1 <=? slen f) = true) by (apply Z.leb_le; lia).
    rewrite Hfd, Hf1. cbn [andb]. eexists _, _. split; [done|].
    assert (all_digits (ip +:+ f) = true) as Hif.
    { unfold all_digits in *. by rewrite all_bytes_app, Hd, Hfd. }
    pose proof (digits_val_bound _ Hif) as Hb. rewrite slen_app in Hb.
    pose proof (pow10_le (slen ip + slen f) (N + 1 - - slen f) ltac:(lia)). lia.
  - eexists _, _. split; [done|].
    pose proof (pow10_le (slen ip) (N + 1 - 0) ltac:(lia)). lia.
Qed.

Lemma rtrim_zeros_spec s : all_digits s = true →
  all_digits (rtrim_zeros s) = true ∧ slen (rtrim_zeros s) <= slen s ∧
  digits_val s = digits_val (rtrim_zeros s) * 10 ^ (slen s - slen (rtrim_zeros s)).
Proof.
  unfold all_digits. induction s as [|c s IH]; [done|]. cbn [all_bytes rtrim_zeros]. intros H. prop_bool.
  destruct (IH ltac:(done)) as (I1 & I2 & I3). clear IH.
  case_bool_decide as Ee; cbn [andb].
  - rewrite Ee in *. change (slen "") with 0 in *. change (digits_val "") with 0 in I3.
    destruct (Ascii.eqb_spec c "0") as [->|].
    + change (slen "") with 0. rewrite digits_val_cons. change (digits_val "") with 0.
      rewrite slen_cons. change (digit_val "0") with 0. split; [done|]. lia.
    + rewrite !slen_cons, !digits_val_cons. change (slen "") with 0. change (digits_val "") with 0.
      cbn [all_bytes]. rewrite H. split; [done|]. split; [lia|].
      replace (1 + slen s - (1 + 0)) with (slen s) by lia. lia.
  - rewrite !slen_cons, !digits_val_cons. cbn [all_bytes]. rewrite H, I1. split; [done|].
    split; [lia|]. replace (1 + slen s - (1 + slen (rtrim_zeros s))) with
      (slen s - slen (rtrim_zeros s)) by lia.
    rewrite I3 at 1. rewrite Z.mul_add_distr_r, <-Z.mul_assoc, <-Z.pow_add_r by
      (pose proof (slen_nonneg (rtrim_zeros s)); lia).
    do 3 f_equal. lia.
Qed.

(** The text of coefficient [c >= 0] with [k] fractional digits: accepted by the
    pattern with enough digits, and its literal is the same number. *)
Lemma plain_string_text t c k N M :
  0 <= k <= M → 0 <= N → 0 <= c < 10 ^ (N + 1 + k) → (0 < k ∨ t = true) →
  unsigned_syntax N M (plain_string t c (- k)) = true ∧
  ∃ c' e', literal (plain_string t c (- k)) = Some (c', e') ∧
           - k <= e' <= 0 ∧ c = c' * 10 ^ (e' + k) ∧ (t = false → 0 < k → e' = - k).
Proof.
  intros Hk HN [Hc0 Hc] Ht. unfold plain_string.
  destruct (Z.leb_spec 0 (- k)) as [Hk0|Hk0].
  - assert (k = 0) as -> by lia. change (- 0) with 0. rewrite Z.pow_0_r, Z.mul_1_r.
    unfold bigIntString. rewrite (proj2 (Z.ltb_ge c 0)) by lia.
    replace (N + 1 + 0) with (N + 1) in Hc by lia.
    pose proof (int_part_ok_nat_string N c ltac:(lia) HN) as Hi.
    pose proof (split_dot_digits _ (nat_string_digits c)) as Hs.
    assert (U : unsigned_syntax N M (nat_string c) = true).
    { unfold unsigned_syntax. rewrite Hs. by rewrite Hi. }
    split; [done|]. destruct (bytes_head_not_dash _ _ Hi "") as (x & r & E & Hx).
    rewrite str_app_nil_r in E. exists c, 0. split; [|lia].
    unfold literal. rewrite E, Hx, <-E. unfold unsigned_literal. rewrite Hs, nat_string_digits.
    rewrite (proj2 (Z.leb_le _ _)); [cbn [andb]; by rewrite nat_string_val|].
    exact (proj2 (int_part_ok_digits _ _ Hi)).
  - rewrite Z.opp_involutive, Z.abs_eq by lia. rewrite (proj2 (Z.ltb_ge c 0)) by lia.
    set (a := c / 10 ^ k). set (f := pad_digits (Z.to_nat k) (c mod 10 ^ k)).
    set (g := if t then rtrim_zeros f else f).
    assert (Ha : 0 <= a < 10 ^ (N + 1)).
    { unfold a. pose proof (pow10_pos k ltac:(lia)). split; [apply Z.div_pos; lia|].
      apply Z.div_lt_upper_bound; [lia|]. rewrite <-Z.pow_add_r by lia.
      by replace (k + (N + 1)) with (N + 1 + k) by lia. }
    pose proof (int_part_ok_nat_string N a Ha HN) as Hi.
    assert (Hf : all_digits f = true) by apply pad_digits_digits.
    assert (Hfl : slen f = k) by (unfold f; rewrite pad_digits_len; lia).
    assert (Hfv : digits_val f = c mod 10 ^ k).
    { unfold f. rewrite pad_digits_val, Z2Nat.id by lia. apply Z.mod_mod.
      pose proof (pow10_pos k ltac:(lia)). lia. }
    assert (Hg : all_digits g = true ∧ slen g <= k ∧ digits_val f = digits_val g * 10 ^ (k - slen g)
                 ∧ (t = false → slen g = k)).
    { unfold g. destruct t.
      - destruct (rtrim_zeros_spec f Hf) as (R1 & R2 & R3). rewrite Hfl in R2, R3.
        split; [exact R1|]. split; [exact R2|]. split; [exact R3|discriminate].
      - rewrite Hfl, Z.sub_diag, Z.pow_0_r. split; [done|]. lia. }
    destruct Hg as (Hgd & Hgl & Hgv & Hgt). clearbody g.
    assert (Hcv : c = a * 10 ^ k + digits_val g * 10 ^ (k - slen g)).
    { rewrite <-Hgv, Hfv. unfold a. pose proof (pow10_pos k ltac:(lia)).
      pose proof (Z.div_mod c (10 ^ k) ltac:(lia)). lia. }
    pose proof (nat_string_digits a) as Had. pose proof (slen_nonneg g) as Hg0.
    assert (Hl1 : (1 <=? slen (nat_string a)) = true).
    { apply Z.leb_le. exact (proj2 (int_part_ok_digits _ _ Hi)). }
    case_bool_decide as Eg.
    + subst g. change (slen "") with 0 in *. change (digits_val "") with 0 in *.
      rewrite str_app_nil_r. split.
      * unfold unsigned_syntax. rewrite split_dot_digits by done. by rewrite Hi.
      * exists a, 0. split; [|rewrite Z.add_0_l; split; [lia|split; [lia|intros E; specialize (Hgt E); lia]]].
        destruct (bytes_head_not_dash _ _ Hi "") as (x & r & E & Hx). rewrite str_app_nil_r in E.
        unfold literal. rewrite E, Hx, <-E. unfold unsigned_literal.
        rewrite split_dot_digits by done. rewrite Had, Hl1. cbn [andb].
        by rewrite nat_string_val by lia.
    + assert (1 <= slen g) as Hg1.
      { destruct g; [done|]. rewrite slen_cons. pose proof (slen_nonneg g). lia. }
      split.
      * unfold unsigned_syntax. rewrite split_dot_frac by done. rewrite Hi. cbn [frac_part_ok].
        rewrite Hgd. cbn [andb]. rewrite !andb_true_iff, !Z.leb_le. lia.
      * exists (digits_val (nat_string a +:+ g)), (- slen g).
        split; [|split; [lia|split; [|intros E _; rewrite (Hgt E); lia]]].
        -- destruct (bytes_head_not_dash _ _ Hi (String "." g)) as (x & r & E & Hx).
           unfold literal. rewrite E, Hx, <-E. unfold unsigned_literal.
           rewrite split_dot_frac by done. rewrite Had, Hl1, Hgd, (proj2 (Z.leb_le _ _) Hg1). done.
        -- rewrite digits_val_app, nat_string_val by lia.
           rewrite Hcv at 1. rewrite Z.mul_add_distr_r, <-Z.mul_assoc, <-Z.pow_add_r by lia.
           replace (slen g + (- slen g + k)) with k by lia.
           by replace (- slen g + k) with (k - slen g) by lia.
Qed.

(** Printing any decimal and reading it back gives the same number. *)
Lemma unsigned_literal_plain c e : 0 <= c →
  plain_string true c e ≠ ""%string ∧ literal (plain_string true c e) = unsigned_literal (plain_string true c e) ∧
  ∃ c' e', unsigned_literal (plain_string true c e) = Some (c', e') ∧ (cval c' e' == cval c e)%Q.
Proof.
  intros Hc.
  assert (Hgen : ∀ c k, 0 <= c → 0 <= k → plain_string true c (- k) ≠ ""%string ∧
    literal (plain_string true c (- k)) = unsigned_literal (plain_string true c (- k)) ∧
    ∃ c' e', unsigned_literal (plain_string true c (- k)) = Some (c', e') ∧ (cval c' e' == cval c (- k))%Q).
  { clear. intros c k Hc Hk. destruct (plain_string_text true c k c k) as (Hs & c' & e' & Hl & He & Hv & _); [lia|lia| |by right|].
    - split; [done|]. pose proof (Z.pow_gt_lin_r 10 (c + 1 + k) ltac:(lia) ltac:(lia)). lia.
    - destruct (unsigned_syntax_head _ _ _ Hs) as [Hne Hu]. split; [done|]. split; [done|]. exists c', e'.
      split; [by rewrite <-Hu|]. unfold cval. rewrite Hv, inject_Z_mult, <-p10_Z by lia.
      rewrite <-Qmult_assoc, <-p10_add. by replace (e' + k + - k) with e' by lia. }
  destruct (Z.le_gt_cases 0 e) as [He|He].
  - assert (Hp : plain_string true c e = plain_string true (c * 10 ^ e) (- 0)).
    { unfold plain_string. cbn [Z.opp]. rewrite (proj2 (Z.leb_le 0 e)) by lia. by rewrite Z.leb_refl, Z.pow_0_r, Z.mul_1_r. }
    rewrite Hp. destruct (Hgen (c * 10 ^ e) 0) as (H1 & H2 & c' & e' & H3 & H4);
      [apply Z.mul_nonneg_nonneg; [lia|pose proof (pow10_pos e He); lia]|lia|].
    split; [done|]. split; [done|]. exists c', e'. split; [done|]. rewrite H4. unfold cval.
    rewrite inject_Z_mult, <-p10_Z by lia. change (- 0) with 0. rewrite p10_0. ring.
  - replace e with (- - e) by lia. apply Hgen; lia.
Qed.

Lemma plain_string_neg c e : c < 0 → plain_string true c e = String "-" (plain_string true (- c) e).
Proof.
  intros Hc. unfold plain_string. destruct (0 <=? e) eqn:He.
  - unfold bigIntString. apply Z.leb_le in He. pose proof (pow10_pos e He).
    rewrite (proj2 (Z.ltb_lt (c * 10 ^ e) 0)), (proj2 (Z.ltb_ge (- c * 10 ^ e) 0)) by nia.
    by rewrite Z.mul_opp_l.
  - rewrite Z.abs_opp, (proj2 (Z.ltb_lt c 0)), (proj2 (Z.ltb_ge (- c) 0)) by lia. done.
Qed.

Lemma literal_plain c e : plain_string true c e ≠ ""%string ∧
  ∃ c' e', literal (plain_string true c e) = Some (c', e') ∧ (cval c' e' == cval c e)%Q.
Proof.
  destruct (Z.le_gt_cases 0 c) as [Hc|Hc].
  - destruct (unsigned_literal_plain c e Hc) as (Hne & -> & Hl). by split.
  - rewrite plain_string_neg by done. split; [done|].
    destruct (unsigned_literal_plain (- c) e ltac:(lia)) as (_ & _ & c' & e' & Hl & Hv).
    exists (- c'), e'. split; [cbn; by rewrite Hl|]. unfold cval in *. rewrite inject_Z_opp in *.
    assert ((- inject_Z c') * p10 e' == - (inject_Z c' * p10 e'))%Q as -> by ring. rewrite Hv. ring.
Qed.

Lemma dString_reads `{HD : DecimalAPI} {HL : DecimalLaws} d :
  dString d ≠ ""%string ∧ ∃ d', dNewFromString (dString d) = Some d' ∧ (dval d' == dval d)%Q.
Proof.
  rewrite dString_plain. destruct (literal_plain (dCoefficient d) (dExponent d)) as (Hne & c & e & Hl & Hv).
  split; [done|]. destruct (dNewFromString_literal _ _ _ Hl) as (d' & -> & <- & <-). by exists d'.
Qed.
