(* ===== verification/DecimalModel.v ===== *)
(** * An implementation of the decimal interface

    A decimal is a coefficient and an exponent.  This is the concrete function
    with which the witnesses instantiate [DecimalAPI]; [model_laws] shows that
    the assumptions of [DecimalLaws] are satisfiable together. *)

From S2P Require Export Prelude Rounding GoStrings DecimalAPI.
From Stdlib Require Import String Ascii.

#[global] Open Scope Z_scope.

Record dec := mkDec { coef : Z; expo : Z }.

Definition m_val (d : dec) : Q := cval (coef d) (expo d).

(** [a op b] at the smaller exponent. *)
Definition m_align (f : Z → Z → Z) (a b : dec) : dec :=
  let m := Z.min (expo a) (expo b) in
  mkDec (f (coef a * 10 ^ (expo a - m)) (coef b * 10 ^ (expo b - m))) m.

Definition m_mul (a b : dec) : dec := mkDec (coef a * coef b) (expo a + expo b).
Definition m_divround (a b : dec) (p : Z) : dec :=
  mkDec (round_half_away (m_val a / m_val b * p10 p)) (- p).
Definition m_quorem (a b : dec) (p : Z) : dec * dec :=
  let q := mkDec (round_trunc (m_val a / m_val b * p10 p)) (- p) in
  (q, m_align Z.sub a (m_mul b q)).
Definition m_round (a : dec) (p : Z) : dec := mkDec (round_half_away (m_val a * p10 p)) (- p).

#[export] Instance model_api : DecimalAPI := {|
  Decimal := dec;
  dNew := mkDec;
  dCoefficient := coef;
  dExponent := expo;
  dNewFromString s := match literal s with Some (c, e) => Some (mkDec c e) | None => None end;
  dString d := plain_string true (coef d) (expo d);
  dStringFixed d p := plain_string false (coef (m_round d p)) (- p);
  dAdd := m_align Z.add;
  dSub := m_align Z.sub;
  dMul := m_mul;
  dNeg d := mkDec (- coef d) (expo d);
  dAbs d := mkDec (Z.abs (coef d)) (expo d);
  dDiv a b := m_divround a b 16;
  dDivRound := m_divround;
  dQuoRem := m_quorem;
  dRound := m_round;
  dRoundBank a p := mkDec (round_half_even (m_val a * p10 p)) (- p);
  dTruncate a p := mkDec (round_trunc (m_val a * p10 p)) (- p);
  dShift a n := mkDec (coef a) (expo a + n);
  dBigInt a := round_trunc (m_val a);
  dCmp a b := match (m_val a ?= m_val b)%Q with Lt => -1 | Eq => 0 | Gt => 1 end;
  dEqual a b := match (m_val a ?= m_val b)%Q with Eq => true | _ => false end;
  dIsZero a := coef a =? 0;
  dIsNegative a := coef a <? 0;
  dLessThan a b := match (m_val a ?= m_val b)%Q with Lt => true | _ => false end;
  dGreaterThan a b := match (m_val a ?= m_val b)%Q with Gt => true | _ => false end;
  dIsPositive a := 0 <? coef a;
  dMin a b := match (m_val b ?= m_val a)%Q with Lt => b | _ => a end;
  dMax a b := match (m_val b ?= m_val a)%Q with Gt => b | _ => a end;
|}.

Lemma m_align_val (f : Z → Z → Z) (g : Q → Q → Q) a b :
  (∀ x y, inject_Z (f x y) == g (inject_Z x) (inject_Z y))%Q →
  (∀ x y z, g x y * z == g (x * z) (y * z))%Q →
  Proper (Qeq ==> Qeq ==> Qeq) g →
  (m_val (m_align f a b) == g (m_val a) (m_val b))%Q.
Proof.
  intros Hf Hg HP. unfold m_align, m_val, cval. cbn [coef expo].
  set (m := Z.min (expo a) (expo b)).
  rewrite Hf, Hg, !inject_Z_mult, <-!p10_Z by lia.
  rewrite <-!Qmult_assoc, <-!p10_add.
  replace (expo a - m + m) with (expo a) by lia.
  by replace (expo b - m + m) with (expo b) by lia.
Qed.

Lemma m_sub_val a b : (m_val (m_align Z.sub a b) == m_val a - m_val b)%Q.
Proof.
  apply (m_align_val Z.sub Qminus).
  - intros. unfold Z.sub. rewrite inject_Z_plus, inject_Z_opp. reflexivity.
  - intros. ring.
  - apply _.
Qed.

Lemma m_add_val a b : (m_val (m_align Z.add a b) == m_val a + m_val b)%Q.
Proof.
  apply (m_align_val Z.add Qplus).
  - intros. by rewrite inject_Z_plus.
  - intros. ring.
  - apply _.
Qed.

Lemma m_mul_val a b : (m_val (m_mul a b) == m_val a * m_val b)%Q.
Proof.
  unfold m_mul, m_val, cval. cbn [coef expo]. rewrite inject_Z_mult, p10_add. ring.
Qed.

Lemma m_abs_val a : (m_val (mkDec (Z.abs (coef a)) (expo a)) == Qabs (m_val a))%Q.
Proof.
  unfold m_val, cval. cbn [coef expo].
  rewrite Qabs_Qmult, (Qabs_pos (p10 _)) by apply Qlt_le_weak, p10_pos. reflexivity.
Qed.

Lemma m_quorem_val a b p q r : m_quorem a b p = (q, r) →
  (m_val a == m_val b * m_val q + m_val r)%Q ∧
  coef q = round_trunc (m_val a / m_val b * p10 p) ∧ expo q = - p.
Proof.
  unfold m_quorem. intros [= <- <-]. split; [|done]. rewrite m_sub_val, m_mul_val. ring.
Qed.

#[export] Instance model_laws : DecimalLaws.
Proof.
  constructor; cbn.
  - done.
  - done.
  - intros s c e ->. eauto.
  - done.
  - done.
  - apply m_add_val.
  - done.
  - apply m_sub_val.
  - done.
  - apply m_mul_val.
  - done.
  - intros a. unfold dval, cval. cbn. rewrite inject_Z_opp. ring.
  - done.
  - exact m_abs_val.
  - done.
  - done.
  - done.
  - done.
  - intros a b p q r _. exact (m_quorem_val a b p q r).
  - done.
  - done.
  - done.
  - done.
  - done.
  - intros a n. unfold dval, cval. cbn. rewrite p10_add. ring.
  - done.
  - done.
  - intros a b. unfold dval. cbn. fold (m_val a) (m_val b). rewrite Qeq_alt.
    by destruct (m_val a ?= m_val b)%Q.
  - intros a. rewrite Z.eqb_eq. unfold dval. cbn. by rewrite cval_zero.
  - intros a. rewrite Z.ltb_lt. unfold dval. cbn.
    pose proof (cval_nonneg (coef a) (expo a)) as Hn. split; intros Hc.
    + destruct (Qlt_le_dec (cval (coef a) (expo a)) 0) as [|Hle]; [done|].
      apply Hn in Hle. lia.
    + destruct (Z.lt_ge_cases (coef a) 0) as [|Hge]; [done|]. apply Hn in Hge.
      exfalso. lra.
  - intros a b. rewrite Qlt_alt. unfold dval. cbn. fold (m_val a) (m_val b).
    by destruct (m_val a ?= m_val b)%Q.
  - intros a b. rewrite Qgt_alt. unfold dval. cbn. fold (m_val a) (m_val b).
    by destruct (m_val a ?= m_val b)%Q.
  - intros a. rewrite Z.ltb_lt. unfold dval. cbn.
    pose proof (cval_nonneg (- coef a) (expo a)) as Hn. unfold cval in *. rewrite inject_Z_opp in Hn.
    destruct (Z.lt_ge_cases 0 (coef a)) as [Hp|Hp].
    + split; [intros _|done]. destruct (Qlt_le_dec 0 (inject_Z (coef a) * p10 (expo a))) as [|Hle]; [done|].
      assert (0 <= - coef a) by (apply Hn; lra). lia.
    + split; [lia|]. assert (0 <= - inject_Z (coef a) * p10 (expo a))%Q by (apply Hn; lia). lra.
  - intros a b. destruct (m_val b ?= m_val a)%Q; eauto.
  - intros a b. unfold dval. cbn. fold (m_val a) (m_val b).
    destruct (m_val b ?= m_val a)%Q eqn:E; fold (m_val a) (m_val b); [apply Qeq_alt in E|apply Qlt_alt in E|apply Qgt_alt in E]; split; lra.
  - intros a b. destruct (m_val b ?= m_val a)%Q; eauto.
  - intros a b. unfold dval. cbn. fold (m_val a) (m_val b).
    destruct (m_val b ?= m_val a)%Q eqn:E; fold (m_val a) (m_val b); [apply Qeq_alt in E|apply Qlt_alt in E|apply Qgt_alt in E]; split; lra.
Qed.
