(* ===== verification/Identity.v ===== *)
(** * Identifiers, names, notes and currency codes

    The validating parsers of [internal/domain/model.go] (and the identifier
    parsers of [change.go] and [product_contract.go]).  Identifiers are byte
    strings; the Go types that only rename [string] are notations, because the
    compiler's separation of them has no run-time content. *)

From S2P Require Export Prelude GoStrings.
From Stdlib Require Import String Ascii.

#[global] Open Scope Z_scope.

Abbreviation HouseholdID := string (only parsing).
Abbreviation MemberID := string (only parsing).
Abbreviation InstitutionID := string (only parsing).
Abbreviation GroupID := string (only parsing).
Abbreviation AccountID := string (only parsing).
Abbreviation AccountValueID := string (only parsing).
Abbreviation InstrumentID := string (only parsing).
Abbreviation HoldingID := string (only parsing).
Abbreviation ActivityID := string (only parsing).
Abbreviation ActivityEffectID := string (only parsing).
Abbreviation CurrencyCode := string (only parsing).

(** ** UUIDs *)

Definition validID (value : string) : bool := uuidPattern (ToLower value).

Definition parseID (value field : string) : Result string :=
  let value := ToLower (TrimSpace value) in
  if negb (validID value) then Fail (validation field "must be a lowercase UUID")
  else Ok value.

Definition ParseHouseholdID (v : string) : Result HouseholdID := parseID v "householdId".
Definition ParseMemberID (v : string) : Result MemberID := parseID v "memberId".
Definition ParseInstitutionID (v : string) : Result InstitutionID := parseID v "institutionId".
Definition ParseGroupID (v : string) : Result GroupID := parseID v "groupId".
Definition ParseAccountID (v : string) : Result AccountID := parseID v "accountId".
Definition ParseAccountValueID (v : string) : Result AccountValueID := parseID v "accountValueId".
Definition ParseInstrumentID (v : string) : Result InstrumentID := parseID v "instrumentId".
Definition ParseHoldingID (v : string) : Result HoldingID := parseID v "holdingId".
Definition ParseAccountCashValueID (v : string) : Result string := parseID v "accountCashValueId".
Definition ParseInstrumentQuoteID (v : string) : Result string := parseID v "instrumentQuoteId".
Definition ParseFXQuoteID (v : string) : Result string := parseID v "fxQuoteId".

(** [parseHistoryID] and the history identifiers of [change.go]. *)
Definition parseHistoryID (v field : string) : Result string := parseID v field.
Definition ParseActivityID (v : string) : Result ActivityID := parseHistoryID v "activityId".
Definition ParseActivityEffectID (v : string) : Result string := parseHistoryID v "activityEffectId".
Definition ParseHistoryOriginID (v : string) : Result string := parseHistoryID v "historyOriginId".
Definition ParseActivityCorrectionGroupID (v : string) : Result string := parseHistoryID v "correctionGroupId".
Definition ParseMutationID (v : string) : Result string := parseHistoryID v "mutationId".
Definition ParseHistoryOriginComponentID (v : string) : Result string := parseHistoryID v "historyOriginComponentId".
Definition ParseAccountStateObservationID (v : string) : Result string := parseHistoryID v "accountStateObservationId".
Definition ParseInstrumentStateObservationID (v : string) : Result string := parseHistoryID v "instrumentStateObservationId".
Definition ParseHoldingStateObservationID (v : string) : Result string := parseHistoryID v "holdingStateObservationId".
Definition ParseInstrumentPreferenceObservationID (v : string) : Result string := parseHistoryID v "instrumentPreferenceObservationId".
Definition ParseFXPreferenceObservationID (v : string) : Result string := parseHistoryID v "fxPreferenceObservationId".
Definition ParseDailyValuationSnapshotID (v : string) : Result string := parseHistoryID v "dailyValuationSnapshotId".
Definition ParseDailyValuationSnapshotItemID (v : string) : Result string := parseHistoryID v "dailyValuationSnapshotItemId".

(** [product_contract.go] *)
Definition ParseProductContractID (v : string) : Result string := parseID v "productId".
Definition ParseLiquidityPolicyID (v : string) : Result string := parseID v "policyId".
Definition ParseLiquidityReservationID (v : string) : Result string := parseID v "reservationId".
Definition ParseProductOperationID (v : string) : Result string := parseID v "operationId".

(** ** Names and notes *)

Definition validateName (field value : string) : Result string :=
  let value := TrimSpace value in
  if bool_decide (value = ""%string) then Fail (validation field "must not be empty")
  else if 120 <? rune_count value then Fail (validation field "must be 120 characters or fewer")
  else Ok value.

Definition validateNote (field : string) (value : option string) : Result (option string) :=
  match value with
  | None => Ok None
  | Some value =>
    let trimmed := TrimSpace value in
    if bool_decide (trimmed = ""%string) then Ok None
    else if 2000 <? rune_count trimmed
         then Fail (validation field "must be 2000 characters or fewer")
         else Ok (Some trimmed)
  end.

(** ** Currencies *)

Definition currency_msg : string := "must contain exactly three uppercase letters".

Definition ParseCurrency (value : string) : Result CurrencyCode :=
  let value := ToUpper (TrimSpace value) in
  if negb (slen value =? 3) then Fail (validation "currency" currency_msg)
  else if negb (all_bytes (in_range 65 90) value) then Fail (validation "currency" currency_msg)
  else Ok value.

Definition SupportedCurrencies : list CurrencyCode :=
  ["AUD"; "CNY"; "EUR"; "GBP"; "HKD"; "JPY"; "SGD"; "TWD"; "USD"; "KRW"; "CHF"]%string.

Definition currencyFractionDigits : gmap string Z :=
  list_to_map [("AUD", 2); ("CHF", 2); ("CNY", 2); ("EUR", 2); ("GBP", 2); ("HKD", 2);
               ("JPY", 0); ("KRW", 0); ("SGD", 2); ("TWD", 2); ("USD", 2)]%string.

Definition CurrencyFractionDigits (code : CurrencyCode) : Z :=
  match currencyFractionDigits !! code with Some places => places | None => 2 end.

Definition ParseSupportedCurrency (value : string) : Result CurrencyCode :=
  match ParseCurrency value with
  | Fail e => Fail e
  | Ok code =>
    if negb (bool_decide (code ∈ SupportedCurrencies))
    then Fail (validation "currency" "is not supported")
    else Ok code
  end.

(** ** Facts about the parsers *)

(** A code that [ParseCurrency] can return: three capital letters. *)
Definition currency_ok (c : CurrencyCode) : bool :=
  (slen c =? 3) && all_bytes (in_range 65 90) c.

Lemma all_bytes_impl (p q : ascii → bool) s :
  (∀ c, p c = true → q c = true) → all_bytes p s = true → all_bytes q s = true.
Proof.
  intros H. induction s as [|c s IH]; [done|]. cbn. intros Hs. prop_bool.
  apply andb_true_iff. auto.
Qed.

Lemma in_range_sub a b c d x : c <= a → b <= d → in_range a b x = true → in_range c d x = true.
Proof.
  unfold in_range. intros ?? H. prop_bool. apply andb_true_iff. rewrite !Z.leb_le. lia.
Qed.

Lemma ToUpper_ascii s :
  all_bytes (in_range 0 127) s = true →
  ToUpper s = string_of_list_ascii (map upper_byte (list_ascii_of_string s)).
Proof.
  induction s as [|a s IH]; [done|]. intros H. cbn in H. prop_bool.
  cbn [ToUpper list_ascii_of_string map string_of_list_ascii].
  rewrite <-(IH ltac:(done)). unfold in_range in *. prop_bool.
  destruct s as [|b s]; [done|].
  rewrite (proj2 (Z.eqb_neq (byteZ a) 196)), (proj2 (Z.eqb_neq (byteZ a) 197)) by lia. done.
Qed.

Lemma ToUpper_upper s : all_bytes (in_range 65 90) s = true → ToUpper s = s.
Proof.
  intros H. rewrite ToUpper_ascii.
  - induction s as [|c s IH]; [done|]. cbn in *. prop_bool. rewrite IH by done.
    f_equal. unfold upper_byte. destruct (in_range 97 122 c) eqn:E; [|done].
    unfold in_range in *. prop_bool. lia.
  - eapply all_bytes_impl; [|exact H]. intros c. apply in_range_sub; lia.
Qed.

(** Lower-case ASCII without capitals is unchanged. *)
Lemma ToLower_lower s :
  all_bytes (λ c, in_range 0 64 c || in_range 91 127 c) s = true → ToLower s = s.
Proof.
  induction s as [|a s IH]; [done|]. intros H. cbn in H. prop_bool.
  assert (Hlow : lower_byte a = a).
  { unfold lower_byte. destruct (in_range 65 90 a) eqn:E; [|done].
    apply orb_true_iff in H as [H|H]; unfold in_range in *; prop_bool; lia. }
  assert (Hb : byteZ a <= 127).
  { apply orb_true_iff in H as [H|H]; unfold in_range in *; prop_bool; lia. }
  cbn [ToLower]. rewrite Hlow. rewrite IH by done.
  destruct s as [|b s]; [done|].
  rewrite (proj2 (Z.eqb_neq (byteZ a) 196)) by lia. cbn [andb].
  destruct s as [|c s]; [done|].
  rewrite (proj2 (Z.eqb_neq (byteZ a) 226)) by lia. done.
Qed.

Lemma match_classes_all (l : list (ascii → bool)) (q : ascii → bool) s :
  (∀ p, p ∈ l → ∀ c, p c = true → q c = true) →
  match_classes l s = true → all_bytes q s = true.
Proof.
  revert s. induction l as [|p l IH]; intros [|c s] Hl Hm; cbn in *; try done.
  prop_bool. apply andb_true_iff. split.
  - apply (Hl p); [set_solver|done].
  - apply IH; [|done]. intros p' Hp'. apply Hl. set_solver.
Qed.

Definition uuid_byte (c : ascii) : bool := in_range 45 57 c || in_range 97 102 c.

Lemma uuidPattern_bytes s : uuidPattern s = true → all_bytes uuid_byte s = true.
Proof.
  apply match_classes_all. intros p Hp c Hc. unfold uuid_byte.
  assert (p = is_hex ∨ p = is_dash ∨ p = in_range 49 56 ∨
          p = (λ c, in_range 56 57 c || in_range 97 98 c)) as [->|[->|[->| ->]]].
  { unfold uuid_classes in Hp. cbn [app replicate] in Hp.
    rewrite !elem_of_cons in Hp. rewrite elem_of_nil in Hp. intuition auto. }
  - unfold is_hex in Hc. apply orb_true_iff in Hc as [Hc|Hc]; apply orb_true_iff;
      [left|right]; revert Hc; apply in_range_sub; lia.
  - unfold is_dash in Hc. apply Ascii.eqb_eq in Hc as ->. done.
  - apply orb_true_iff. left. revert Hc. apply in_range_sub; lia.
  - apply orb_true_iff in Hc as [Hc|Hc]; apply orb_true_iff;
      [left|right]; revert Hc; apply in_range_sub; lia.
Qed.

Lemma uuid_ToLower s : all_bytes uuid_byte s = true → ToLower s = s.
Proof.
  intros H. apply ToLower_lower. eapply all_bytes_impl; [|exact H].
  intros c Hc. unfold uuid_byte in Hc. apply orb_true_iff in Hc as [Hc|Hc]; apply orb_true_iff;
    [left|right]; revert Hc; apply in_range_sub; lia.
Qed.

Lemma uuid_TrimSpace s : all_bytes uuid_byte s = true → TrimSpace s = s.
Proof.
  intros H. apply TrimSpace_graphic. eapply all_bytes_impl; [|exact H].
  intros c Hc. unfold uuid_byte in Hc. apply orb_true_iff in Hc as [Hc|Hc];
    revert Hc; apply in_range_sub; lia.
Qed.

(** Results of [ParseCurrency] are canonical: they parse to themselves. *)
Lemma ParseCurrency_ok v c : ParseCurrency v = Ok c → currency_ok c = true.
Proof.
  unfold ParseCurrency, currency_ok. intros H. inv_ok. prop_bool. subst.
  apply andb_true_iff. split; [by apply Z.eqb_eq|done].
Qed.

Lemma ParseCurrency_id c : currency_ok c = true → ParseCurrency c = Ok c.
Proof.
  unfold currency_ok, ParseCurrency. intros H. prop_bool.
  rewrite TrimSpace_graphic, ToUpper_upper by
    first [done | eapply all_bytes_impl; [|done]; intros x; apply in_range_sub; lia].
  rewrite (proj2 (Z.eqb_eq _ _)) by done. cbn [negb]. by rewrite H0.
Qed.

Lemma currency_ok_nonempty c : currency_ok c = true → c ≠ ""%string.
Proof. intros H ->. discriminate. Qed.

Definition no_capital (c : ascii) : bool := negb (in_range 65 90 c).

Lemma ToLower_no_capital s : all_bytes no_capital (ToLower s) = true.
Proof.
  assert (Hlow : ∀ a, no_capital (lower_byte a) = true).
  { intros a. unfold no_capital, lower_byte. destruct (in_range 65 90 a) eqn:E; [|by rewrite E].
    unfold in_range, byteZ in *. prop_bool. rewrite N_ascii_embedding by lia.
    apply negb_true_iff, andb_false_iff. right. apply Z.leb_gt. lia. }
  enough (all_bytes no_capital (ToLower s) = true ∧
          ∀ c, all_bytes no_capital (ToLower (String c s)) = true) by tauto.
  enough (∀ n s, (String.length s <= n)%nat → all_bytes no_capital (ToLower s) = true) as Hall
    by (split; intros; eapply Hall; reflexivity).
  clear s. induction n as [|n IH]; intros s Hs.
  - by destruct s; [|cbn in Hs; lia].
  - destruct s as [|a s]; [done|]. cbn in Hs.
    assert (all_bytes no_capital (ToLower s) = true) as Hr by (apply IH; lia).
    cbn [ToLower]. destruct s as [|b s]; [cbn [all_bytes]; by rewrite Hlow|]. cbn in Hs.
    destruct (_ && _); [cbn [all_bytes]; apply IH; lia|].
    destruct s as [|c s]; [cbn [all_bytes]; by rewrite Hlow|]. cbn in Hs.
    destruct (_ && _); [cbn [all_bytes]; apply IH; lia|].
    cbn [all_bytes]. by rewrite Hlow.
Qed.

Lemma ToLower_uuid_ascii s :
  all_bytes uuid_byte (ToLower s) = true → all_bytes (in_range 0 127) s = true.
Proof.
  assert (Hlow : ∀ a, uuid_byte (lower_byte a) = true → in_range 0 127 a = true).
  { intros a. unfold lower_byte. destruct (in_range 65 90 a) eqn:E.
    - intros _. revert E. apply in_range_sub; lia.
    - unfold uuid_byte. intros Ha. apply orb_true_iff in Ha as [Ha|Ha];
        revert Ha; apply in_range_sub; lia. }
  induction s as [|a s IH]; [done|]. cbn [ToLower].
  assert (Hcons : all_bytes uuid_byte (String (lower_byte a) (ToLower s)) = true →
                  all_bytes (in_range 0 127) (String a s) = true).
  { cbn [all_bytes]. intros H. prop_bool. apply andb_true_iff. auto. }
  destruct s as [|b s]; [exact Hcons|].
  destruct (_ && _); [cbn [all_bytes]; discriminate|].
  destruct s as [|c s]; [exact Hcons|].
  destruct (_ && _); [cbn [all_bytes]; discriminate|]. exact Hcons.
Qed.

(** A parsed identifier is a canonical UUID: it matches the pattern and
    parses to itself, under every field name, so identifiers survive any number
    of round trips through text. *)
Theorem parseID_canonical v field id :
  parseID v field = Ok id →
  validID id = true ∧ ∀ field', parseID id field' = Ok id.
Proof.
  unfold parseID. intros H. inv_ok. prop_bool. subst.
  set (w := ToLower (TrimSpace v)) in *.
  pose proof (uuidPattern_bytes _ C) as Hb. pose proof (ToLower_uuid_ascii _ Hb) as Ha.
  assert (Hw : ToLower w = w).
  { apply ToLower_lower. pose proof (ToLower_no_capital (TrimSpace v)) as Hn. fold w in Hn.
    clear Hb C. clearbody w. induction w as [|c w IH]; [done|]. cbn in *. prop_bool.
    rewrite IH, andb_true_r by done. unfold no_capital, in_range in *. prop_bool.
    apply orb_true_iff. rewrite !andb_true_iff, !Z.leb_le.
    match goal with Hx : _ && _ = false |- _ => apply andb_false_iff in Hx as [Hx|Hx] end;
      prop_bool; lia. }
  split; [done|]. intros field'. rewrite Hw in Hb.
  rewrite uuid_TrimSpace, Hw, C by done. done.
Qed.

Lemma parseID_canonical_witness :
  let id := "6ba7b810-9dad-11d1-80b4-00c04fd430c8"%string in
  validID id = true ∧ ∀ field', parseID id field' = Ok id.
Proof. apply (parseID_canonical " 6BA7B810-9dad-11d1-80b4-00c04fd430c8 " "householdId"). by vm_compute. Defined.
