(* ===== verification/GoTime.v ===== *)
(** * Instants, civil dates and time zones

    What the source uses of Go's package [time].  An instant is the number of
    nanoseconds since 1 January of year 1, UTC, so the zero [time.Time] is [0];
    the location pointer a Go value carries never takes part in a comparison and
    is passed explicitly where a local date is printed.  Dates follow the
    proleptic Gregorian calendar, computed with the cycles of 400, 100, 4 and 1
    years.  The time-zone database is not part of the repository: a location is
    the function that tells the UTC offset in force at an instant and the end of
    its interval. *)

From S2P Require Export Prelude GoStrings.
From Stdlib Require Import String Ascii.

#[global] Open Scope Z_scope.

Abbreviation Time := Z (only parsing).

Definition Nanosecond : Z := 1.
Definition Millisecond : Z := 1000000.
Definition Second : Z := 1000000000.
Definition Hour : Z := 3600 * Second.
Definition Day : Z := 24 * Hour.

Definition timeIsZero (t : Time) : bool := t =? 0.

(** [normalizeTime]: UTC, truncated to milliseconds. *)
Definition normalizeTime (t : Time) : Time := t - t mod Millisecond.

(** ** The proleptic Gregorian calendar: day 0 is 0001-01-01 *)

Definition is_leap (y : Z) : bool :=
  (y mod 4 =? 0) && (negb (y mod 100 =? 0) || (y mod 400 =? 0)).

Definition days_in_month (y m : Z) : Z :=
  if m =? 2 then (if is_leap y then 29 else 28)
  else if (m =? 4) || (m =? 6) || (m =? 9) || (m =? 11) then 30 else 31.

(** Days before 1 January of year [y]. *)
Definition days_before_year (y : Z) : Z :=
  365 * (y - 1) + (y - 1) / 4 - (y - 1) / 100 + (y - 1) / 400.

Fixpoint days_before_month (y : Z) (m : nat) : Z :=
  match m with
  | O | S O => 0
  | S m => days_before_month y m + days_in_month y (Z.of_nat m)
  end.

Definition days_of_civil (y m d : Z) : Z :=
  days_before_year y + days_before_month y (Z.to_nat m) + (d - 1).

(** The year of a day number and the day within it. *)
Definition year_of_days (n : Z) : Z * Z :=
  let n400 := n / 146097 in let r := n mod 146097 in
  let n100 := Z.min 3 (r / 36524) in let r := r - 36524 * n100 in
  let n4 := r / 1461 in let r := r - 1461 * n4 in
  let n1 := Z.min 3 (r / 365) in
  (400 * n400 + 100 * n100 + 4 * n4 + n1 + 1, r - 365 * n1).

Fixpoint month_of_yday (fuel : nat) (y m yday : Z) : Z * Z :=
  match fuel with
  | O => (m, yday)
  | S f => if yday <? days_in_month y m then (m, yday)
           else month_of_yday f y (m + 1) (yday - days_in_month y m)
  end.

Definition civil_of_days (n : Z) : Z * Z * Z :=
  let '(y, yday) := year_of_days n in
  let '(m, d) := month_of_yday 11 y 1 yday in (y, m, d + 1).

(** The day number an instant (already shifted by its offset) falls on. *)
Definition day_of (t : Time) : Z := t / Day.

(** [time.Date(y, m, d, 0, 0, 0, 0, UTC)] for a valid date. *)
Definition utc_midnight (n : Z) : Time := n * Day.

(** [t.Weekday()] in UTC; day 0 was a Monday, Sunday is 0. *)
Definition weekday (n : Z) : Z := (n + 1) mod 7.

(** ** The layout "2006-01-02" *)

Definition format_year (y : Z) : string :=
  if y <? 0 then String "-" (pad_digits (Nat.max 4 (ndigits (- y))) (- y))
  else pad_digits (Nat.max 4 (ndigits y)) y.

Definition format_civil (y m d : Z) : string :=
  (format_year y +:+ String "-" (pad_digits 2 m +:+ String "-" (pad_digits 2 d)))%string.

Definition format_days (n : Z) : string :=
  let '(y, m, d) := civil_of_days n in format_civil y m d.

(** [t.Format(dateLayout)] of an instant shifted to its local wall clock. *)
Definition FormatDate (wall : Time) : string := format_days (day_of wall).

(** [time.Parse(dateLayout, s)]: four, two and two digits, a real date; the
    result is the day number. *)
Definition ParseDate (s : string) : option Z :=
  match list_ascii_of_string s with
  | [a; b; c; d; s1; e; f; s2; g; h] =>
    if forallb is_digit [a; b; c; d; e; f; g; h] && Ascii.eqb s1 "-" && Ascii.eqb s2 "-" then
      let y := digits_val (string_of_list_ascii [a; b; c; d]) in
      let m := digits_val (string_of_list_ascii [e; f]) in
      let d := digits_val (string_of_list_ascii [g; h]) in
      if (1 <=? m) && (m <=? 12) && (1 <=? d) && (d <=? days_in_month y m)
      then Some (days_of_civil y m d) else None
    else None
  | _ => None
  end.

(** ** Locations

    [zone t] is the UTC offset in seconds at instant [t] and the end of the
    interval in which it is in force ([None]: no further transition). *)

Record Location := mkLocation { zone : Time → Z * option Time }.

Definition zoneOffset (l : Location) (t : Time) : Z := (zone l t).1.
Definition zoneEnd (l : Location) (t : Time) : option Time := (zone l t).2.

(** The wall clock of [t.In(l)], as an instant. *)
Definition wall (l : Location) (t : Time) : Time := t + zoneOffset l t * Second.

Definition UTC : Location := mkLocation (λ _, (0, None)).

(** [time.LoadLocation] reads the time-zone database of the system. *)
Class TimeZones := { LoadLocation : string → option Location }.

Lemma normalizeTime_idem t : normalizeTime (normalizeTime t) = normalizeTime t.
Proof.
  unfold normalizeTime.
  replace ((t - t mod Millisecond) mod Millisecond) with 0; [lia|].
  symmetry. apply Z.mod_divide; [done|]. exists (t / Millisecond).
  pose proof (Z.div_mod t Millisecond ltac:(done)). lia.
Qed.

Lemma normalizeTime_le t : normalizeTime t <= t < normalizeTime t + Millisecond.
Proof.
  unfold normalizeTime. pose proof (Z.mod_pos_bound t Millisecond eq_refl). lia.
Qed.

Lemma normalizeTime_mono s t : s <= t → normalizeTime s <= normalizeTime t.
Proof.
  intros H. unfold normalizeTime.
  pose proof (Z.div_mod s Millisecond ltac:(done)). pose proof (Z.div_mod t Millisecond ltac:(done)).
  pose proof (Z.div_le_mono s t Millisecond eq_refl H). unfold Millisecond in *. lia.
Qed.

(** ** The calendar functions are inverse to each other *)

Lemma is_leap_shift y : is_leap (y + 400) = is_leap y.
Proof.
  unfold is_leap. replace (y + 400) with (y + 100 * 4) at 1 by lia.
  rewrite Z.mod_add by lia. replace (y + 400) with (y + 4 * 100) at 1 by lia.
  rewrite Z.mod_add by lia. replace (y + 400) with (y + 1 * 400) by lia.
  by rewrite Z.mod_add by lia.
Qed.

Definition year_days (y : Z) : Z := if is_leap y then 366 else 365.

Lemma days_before_year_succ y : days_before_year (y + 1) = days_before_year y + year_days y.
Proof.
  unfold days_before_year, year_days, is_leap.
  destruct (Z.eqb_spec (y mod 4) 0), (Z.eqb_spec (y mod 100) 0), (Z.eqb_spec (y mod 400) 0);
    cbn [negb orb andb]; Z.div_mod_to_equations; lia.
Qed.

Lemma year_of_days_spec n y r :
  year_of_days n = (y, r) → days_before_year y + r = n ∧ 0 <= r < year_days y.
Proof.
  unfold year_of_days. intros [= <- <-].
  pose proof (Z.div_mod n 146097 ltac:(lia)). pose proof (Z.mod_pos_bound n 146097 ltac:(lia)).
  set (a := n / 146097) in *. set (r := n mod 146097) in *.
  set (b := Z.min 3 (r / 36524)). assert (0 <= b <= 3) by (unfold b; Z.div_mod_to_equations; lia).
  assert (0 <= r - 36524 * b /\ (b < 3 -> r - 36524 * b < 36524) /\ r - 36524 * b <= 36524)
    by (unfold b; Z.div_mod_to_equations; lia).
  clearbody b. set (r2 := r - 36524 * b) in *.
  set (c := r2 / 1461). assert (0 <= c <= 24 /\ 0 <= r2 - 1461 * c < 1461)
    by (unfold c; Z.div_mod_to_equations; lia).
  assert (c = 24 -> b < 3 -> r2 - 1461 * c < 1460) by lia.
  clearbody c. set (r3 := r2 - 1461 * c) in *.
  set (d := Z.min 3 (r3 / 365)). assert (0 <= d <= 3) by (unfold d; Z.div_mod_to_equations; lia).
  assert (0 <= r3 - 365 * d /\ (d < 3 -> r3 - 365 * d < 365) /\ r3 - 365 * d <= 365)
    by (unfold d; Z.div_mod_to_equations; lia).
  clearbody d.
  assert (Hy : days_before_year (400 * a + 100 * b + 4 * c + d + 1) =
               146097 * a + 36524 * b + 1461 * c + 365 * d).
  { unfold days_before_year. Z.div_mod_to_equations. lia. }
  rewrite Hy. split; [unfold r3, r2; lia|]. split; [lia|].
  unfold year_days, is_leap.
  set (y := 400 * a + 100 * b + 4 * c + d + 1).
  assert (y mod 4 = (d + 1) mod 4) as ->.
  { replace y with (d + 1 + (100 * a + 25 * b + c) * 4) by (unfold y; lia). apply Z.mod_add. lia. }
  assert (y mod 100 = (4 * c + d + 1) mod 100) as ->.
  { replace y with (4 * c + d + 1 + (4 * a + b) * 100) by (unfold y; lia). apply Z.mod_add. lia. }
  assert (y mod 400 = (100 * b + 4 * c + d + 1) mod 400) as ->.
  { replace y with (100 * b + 4 * c + d + 1 + a * 400) by (unfold y; lia). apply Z.mod_add. lia. }
  destruct (Z.eqb_spec ((d + 1) mod 4) 0), (Z.eqb_spec ((4 * c + d + 1) mod 100) 0),
    (Z.eqb_spec ((100 * b + 4 * c + d + 1) mod 400) 0); cbn [negb orb andb];
    Z.div_mod_to_equations; lia.
Qed.

Lemma days_before_year_mono a b : a <= b → days_before_year a <= days_before_year b.
Proof. intros. unfold days_before_year. Z.div_mod_to_equations. lia. Qed.

Lemma year_unique n y r :
  days_before_year y + r = n → 0 <= r < year_days y → year_of_days n = (y, r).
Proof.
  intros Hn Hr. destruct (year_of_days n) as [y' r'] eqn:E.
  apply year_of_days_spec in E as [Hn' Hr'].
  pose proof (days_before_year_succ y). pose proof (days_before_year_succ y').
  assert (y' = y) as ->; [|f_equal; lia].
  destruct (Z.lt_trichotomy y y') as [Hl|[?|Hl]]; [|done|].
  - pose proof (days_before_year_mono (y + 1) y' ltac:(lia)). lia.
  - pose proof (days_before_year_mono (y' + 1) y ltac:(lia)). lia.
Qed.

(** Evaluate the month tables at a literal month. *)
Ltac eval_months El :=
  cbv [days_before_month days_in_month Z.to_nat Pos.to_nat Pos.iter_op Nat.add
       Z.of_nat Pos.of_succ_nat Pos.succ Z.eqb Pos.eqb orb] in *;
  try rewrite El in *.

Lemma month_of_yday_spec y yday m d :
  0 <= yday < year_days y → month_of_yday 11 y 1 yday = (m, d) →
  1 <= m <= 12 ∧ 0 <= d < days_in_month y m ∧ days_before_month y (Z.to_nat m) + d = yday.
Proof.
  unfold year_days. intros Hy. cbn [month_of_yday].
  change (1 + 1) with 2. change (2 + 1) with 3. change (3 + 1) with 4. change (4 + 1) with 5. change (5 + 1) with 6.
  change (6 + 1) with 7. change (7 + 1) with 8. change (8 + 1) with 9. change (9 + 1) with 10. change (10 + 1) with 11. change (11 + 1) with 12.
  change (days_in_month y 1) with 31.
  cbv [days_in_month Z.eqb Pos.eqb orb].
  destruct (is_leap y) eqn:El;
    repeat (match goal with |- (if ?a <? ?b then _ else _) = _ → _ => destruct (Z.ltb_spec a b) end;
            [intros [= <- <-]; eval_months El; lia|]);
    intros [= <- <-]; eval_months El; lia.
Qed.

(** A month begins after every earlier month has ended. *)
Lemma days_before_month_gap y j k :
  1 <= j <= 12 → 1 <= k <= 12 → j < k →
  days_before_month y (Z.to_nat j) + days_in_month y j <= days_before_month y (Z.to_nat k).
Proof.
  assert (Hmono : ∀ k, 1 <= k <= 11 →
    days_before_month y (Z.to_nat (k + 1)) = days_before_month y (Z.to_nat k) + days_in_month y k).
  { intros i Hi. replace (Z.to_nat (i + 1)) with (S (Z.to_nat i)) by lia. cbn [days_before_month].
    destruct (Z.to_nat i) eqn:Ek; [lia|]. do 2 f_equal. lia. }
  intros Hj Hk Hjk. remember (Z.to_nat (k - j - 1)) as n eqn:En.
  revert k Hjk Hk En. induction n as [|n IH]; intros k Hjk Hk En.
  - replace k with (j + 1) by lia. rewrite Hmono by lia. lia.
  - specialize (IH (k - 1) ltac:(lia) ltac:(lia) ltac:(lia)).
    replace k with (k - 1 + 1) by lia. rewrite Hmono by lia.
    assert (0 <= days_in_month y (k - 1)) by (unfold days_in_month; repeat case_match; lia). lia.
Qed.

Lemma month_unique y m d :
  1 <= m <= 12 → 0 <= d < days_in_month y m →
  month_of_yday 11 y 1 (days_before_month y (Z.to_nat m) + d) = (m, d) ∧
  0 <= days_before_month y (Z.to_nat m) + d < year_days y.
Proof.
  intros Hm Hd.
  assert (Hr : 0 <= days_before_month y (Z.to_nat m) + d < year_days y).
  { unfold year_days.
    assert (m = 1 ∨ m = 2 ∨ m = 3 ∨ m = 4 ∨ m = 5 ∨ m = 6 ∨ m = 7 ∨ m = 8 ∨ m = 9 ∨ m = 10 ∨
            m = 11 ∨ m = 12) as Hcase by lia.
    destruct (is_leap y) eqn:El;
      repeat (destruct Hcase as [->|Hcase]; [eval_months El; lia|]); subst m; eval_months El; lia. }
  split; [|done].
  destruct (month_of_yday 11 y 1 (days_before_month y (Z.to_nat m) + d)) as [m' d'] eqn:E.
  apply (month_of_yday_spec _ _ _ _ Hr) in E as (H1 & H2 & H3).
  assert (m' = m) as ->; [|f_equal; lia].
  destruct (Z.lt_trichotomy m m') as [Hl|[?|Hl]]; [|done|].
  - pose proof (days_before_month_gap y m m' ltac:(lia) ltac:(lia) Hl). lia.
  - pose proof (days_before_month_gap y m' m ltac:(lia) ltac:(lia) Hl). lia.
Qed.

Definition civil_valid (y m d : Z) : Prop := 1 <= m <= 12 ∧ 1 <= d <= days_in_month y m.

Lemma civil_of_days_spec n y m d :
  civil_of_days n = (y, m, d) → days_of_civil y m d = n ∧ civil_valid y m d.
Proof.
  unfold civil_of_days. destruct (year_of_days n) as [y' r] eqn:Ey.
  destruct (month_of_yday 11 y' 1 r) as [m' d'] eqn:Em. intros [= <- <- <-].
  apply year_of_days_spec in Ey as [Hn Hr].
  apply (month_of_yday_spec _ _ _ _ Hr) in Em as (H1 & H2 & H3).
  unfold days_of_civil, civil_valid. lia.
Qed.

Lemma civil_of_days_unique y m d :
  civil_valid y m d → civil_of_days (days_of_civil y m d) = (y, m, d).
Proof.
  intros [Hm Hd]. destruct (month_unique y m (d - 1) Hm ltac:(lia)) as [Hmu Hr].
  unfold civil_of_days, days_of_civil.
  rewrite (year_unique (days_before_year y + days_before_month y (Z.to_nat m) + (d - 1)) y
    (days_before_month y (Z.to_nat m) + (d - 1)) ltac:(lia) Hr), Hmu.
  repeat f_equal. lia.
Qed.

(** ** Dates as text *)

Lemma digits4 n : 0 <= n < 10000 → ∃ a b c d,
  pad_digits 4 n = String a (String b (String c (String d ""))) ∧
  is_digit a = true ∧ is_digit b = true ∧ is_digit c = true ∧ is_digit d = true ∧
  digits_val (string_of_list_ascii [a; b; c; d]) = n.
Proof.
  intros Hn. pose proof (pad_digits_digits 4 n) as Hd. pose proof (pad_digits_val 4 n) as Hv.
  rewrite !pad_digits_head in * by lia. change (pad_digits 0 n) with ""%string in *.
  unfold all_digits in Hd. cbn [all_bytes] in Hd. prop_bool.
  do 4 eexists. split; [reflexivity|]. do 4 (split; [done|]).
  etransitivity; [exact Hv|]. apply Z.mod_small. lia.
Qed.

Lemma digits2 n : 0 <= n < 100 → ∃ a b,
  pad_digits 2 n = String a (String b "") ∧ is_digit a = true ∧ is_digit b = true ∧
  digits_val (string_of_list_ascii [a; b]) = n.
Proof.
  intros Hn. pose proof (pad_digits_digits 2 n) as Hd. pose proof (pad_digits_val 2 n) as Hv.
  rewrite !pad_digits_head in * by lia. change (pad_digits 0 n) with ""%string in *.
  unfold all_digits in Hd. cbn [all_bytes] in Hd. prop_bool.
  do 2 eexists. split; [reflexivity|]. do 2 (split; [done|]).
  etransitivity; [exact Hv|]. apply Z.mod_small. lia.
Qed.

Lemma format_year_4 y : 0 <= y < 10000 → format_year y = pad_digits 4 y.
Proof.
  intros Hy. unfold format_year. rewrite (proj2 (Z.ltb_ge y 0)) by lia.
  pose proof (ndigits_le y 4 ltac:(lia) ltac:(lia)). by rewrite Nat.max_l by lia.
Qed.

Lemma days_in_month_le y m : days_in_month y m <= 31.
Proof. unfold days_in_month. repeat case_match; lia. Qed.

Lemma ParseDate_format_civil y m d :
  0 <= y < 10000 → civil_valid y m d →
  ParseDate (format_civil y m d) = Some (days_of_civil y m d).
Proof.
  intros Hy [Hm Hd]. pose proof (days_in_month_le y m). unfold format_civil. rewrite format_year_4 by done.
  destruct (digits4 y ltac:(lia)) as (a1 & a2 & a3 & a4 & -> & D1 & D2 & D3 & D4 & Vy).
  destruct (digits2 m ltac:(lia)) as (b1 & b2 & -> & E1 & E2 & Vm).
  destruct (digits2 d ltac:(lia)) as (c1 & c2 & -> & F1 & F2 & Vd).
  rewrite !str_app_cons, !str_app_nil. unfold ParseDate.
  cbn [list_ascii_of_string]. rewrite Vy, Vm, Vd. cbn [forallb].
  rewrite D1, D2, D3, D4, E1, E2, F1, F2. cbn [andb Ascii.eqb Bool.eqb].
  rewrite !(proj2 (Z.leb_le _ _)) by lia. done.
Qed.

(** Printing then parsing a day number in the years 0 to 9999. *)
Lemma ParseDate_format_days n :
  days_before_year 0 <= n < days_before_year 10000 → ParseDate (format_days n) = Some n.
Proof.
  intros Hn. unfold format_days. destruct (civil_of_days n) as [[y m] d] eqn:E.
  assert (Hy : 0 <= y < 10000).
  { unfold civil_of_days in E. destruct (year_of_days n) as [y' r] eqn:Ey.
    destruct (month_of_yday 11 y' 1 r) as [m' d']. injection E as <- <- <-.
    apply year_of_days_spec in Ey as [Hn' Hr]. pose proof (days_before_year_succ y').
    split.
    - destruct (Z.le_gt_cases 0 y'); [done|].
      pose proof (days_before_year_mono (y' + 1) 0 ltac:(lia)). lia.
    - destruct (Z.lt_ge_cases y' 10000); [done|].
      pose proof (days_before_year_mono 10000 y' ltac:(lia)). lia. }
  apply civil_of_days_spec in E as [E V]. rewrite ParseDate_format_civil by done. by rewrite E.
Qed.

(** Accepted text is the canonical text of the day it denotes. *)
Lemma digit_char_of_val c : is_digit c = true → digit_char (digit_val c) = c.
Proof.
  intros H. unfold is_digit, in_range, digit_val, byteZ in *. prop_bool. unfold digit_char.
  replace (48 + (Z.of_N (N_of_ascii c) - 48)) with (Z.of_N (N_of_ascii c)) by lia.
  rewrite N2Z.id. apply ascii_N_embedding.
Qed.

Lemma digit_val_range c : is_digit c = true → 0 <= digit_val c < 10.
Proof. intros H. unfold is_digit, in_range, digit_val in *. prop_bool. lia. Qed.

Lemma pad_digits_of_val s :
  all_digits s = true → pad_digits (String.length s) (digits_val s) = s.
Proof.
  induction s as [|c s IH]; [done|]. unfold all_digits. cbn [all_bytes]. intros H. prop_bool.
  pose proof (digits_val_bound s ltac:(done)) as Hb.
  pose proof (digit_val_range c ltac:(done)) as Hc.
  change (String.length (String c s)) with (S (String.length s)).
  rewrite digits_val_cons. fold (slen s) in *.
  pose proof (pow10_pos (slen s) (slen_nonneg s)) as Hp.
  rewrite pad_digits_head by nia. fold (slen s).
  rewrite Z.div_add_l, (Z.div_small (digits_val s)), Z.add_0_r by lia.
  rewrite Z.mod_small, digit_char_of_val by done. f_equal.
  transitivity (pad_digits (String.length s) (digits_val s)); [|by apply IH].
  enough (∀ w a b, 0 <= a → 0 <= b < 10 ^ Z.of_nat w →
    pad_digits w (a * 10 ^ Z.of_nat w + b) = pad_digits w b) as Hpad by (apply Hpad; [lia|exact Hb]).
  clear. induction w as [|w IH]; intros a b Ha Hb; [done|].
  cbn [pad_digits]. rewrite Nat2Z.inj_succ, Z.pow_succ_r in * by lia.
  replace (a * (10 * 10 ^ Z.of_nat w) + b) with (b + (a * 10 ^ Z.of_nat w) * 10) by lia.
  rewrite Z.mod_add, Z.div_add by lia. rewrite Z.add_comm, IH; [done|done|].
  split; [apply Z.div_pos; lia|]. apply Z.div_lt_upper_bound; lia.
Qed.

Lemma ParseDate_inv s n : ParseDate s = Some n →
  ∃ y m d, s = format_civil y m d ∧ 0 <= y < 10000 ∧ civil_valid y m d ∧ n = days_of_civil y m d.
Proof.
  unfold ParseDate. intros H.
  destruct (list_ascii_of_string s) as [|a [|b [|c [|d [|s1 [|e [|f [|s2 [|g [|h [|]]]]]]]]]]] eqn:E;
    try discriminate.
  destruct (forallb is_digit [a; b; c; d; e; f; g; h] && Ascii.eqb s1 "-" && Ascii.eqb s2 "-") eqn:C;
    [|discriminate]. cbn [forallb] in C. prop_bool.
  repeat match goal with Hx : Ascii.eqb _ _ = true |- _ => apply Ascii.eqb_eq in Hx end. subst.
  set (y := digits_val (string_of_list_ascii [a; b; c; d])) in *.
  set (m := digits_val (string_of_list_ascii [e; f])) in *.
  set (dd := digits_val (string_of_list_ascii [g; h])) in *.
  destruct ((1 <=? m) && (m <=? 12) && (1 <=? dd) && (dd <=? days_in_month y m)) eqn:C;
    [|discriminate]. injection H as <-. prop_bool.
  assert (Hy : 0 <= y < 10000).
  { apply (digits_val_bound (string_of_list_ascii [a; b; c; d])). unfold all_digits. cbn.
    rewrite !andb_true_iff. repeat split; assumption. }
  exists y, m, dd. split; [|repeat split; lia].
  rewrite <-(string_of_list_ascii_of_string s), E. unfold format_civil.
  rewrite format_year_4 by done. unfold y, m, dd.
  change (pad_digits 4 ?x) with (pad_digits (String.length (string_of_list_ascii [a; b; c; d])) x).
  change (pad_digits 2 (digits_val (string_of_list_ascii [e; f]))) with
    (pad_digits (String.length (string_of_list_ascii [e; f])) (digits_val (string_of_list_ascii [e; f]))).
  change (pad_digits 2 (digits_val (string_of_list_ascii [g; h]))) with
    (pad_digits (String.length (string_of_list_ascii [g; h])) (digits_val (string_of_list_ascii [g; h]))).
  rewrite !pad_digits_of_val; [done|unfold all_digits; cbn;
    rewrite !andb_true_iff; repeat split; assumption..].
Qed.

Lemma format_days_of_parse s n : ParseDate s = Some n → format_days n = s.
Proof.
  intros H. apply ParseDate_inv in H as (y & m & d & -> & Hy & Hv & ->).
  unfold format_days. by rewrite civil_of_days_unique.
Qed.

(** Every day has a text of its own, years before 0 and after 9999 included. *)
Lemma pad_digits_inj w m n : 0 <= m < 10 ^ Z.of_nat w → 0 <= n < 10 ^ Z.of_nat w → pad_digits w m = pad_digits w n → m = n.
Proof.
  intros Hm Hn H. rewrite <-(Z.mod_small m _ Hm), <-(Z.mod_small n _ Hn), <-!pad_digits_val. by rewrite H.
Qed.

Lemma format_year_digits y : ∃ w, y < 10 ^ Z.of_nat w ∧ - y < 10 ^ Z.of_nat w ∧
  format_year y = if y <? 0 then String "-" (pad_digits w (- y)) else pad_digits w y.
Proof.
  unfold format_year. set (w := Nat.max 4 (ndigits (Z.abs y))).
  assert (Z.abs y < 10 ^ Z.of_nat w).
  { destruct (ndigits_spec (Z.abs y) ltac:(lia)) as (H & _).
    eapply Z.lt_le_trans; [exact H|]. apply pow10_le. unfold w. lia. }
  exists w. split_and!; [lia..|]. unfold w. destruct (Z.ltb_spec y 0).
  - by rewrite Z.abs_neq by lia.
  - by rewrite Z.abs_eq by lia.
Qed.

Lemma format_year_inj y z : format_year y = format_year z → y = z.
Proof.
  destruct (format_year_digits y) as (v & Hv & Hv' & ->), (format_year_digits z) as (w & Hw & Hw' & ->).
  assert (Hd : ∀ k n s, pad_digits k n = String "-" s → False).
  { intros k n s H. pose proof (pad_digits_digits k n) as Hk. rewrite H in Hk. discriminate. }
  assert (Hq : ∀ m n, 0 <= m < 10 ^ Z.of_nat v → 0 <= n < 10 ^ Z.of_nat w → pad_digits v m = pad_digits w n → m = n).
  { intros m n Hm Hn H. assert (v = w) as <-; [|by apply (pad_digits_inj v)].
    apply Nat2Z.inj. by rewrite <-(pad_digits_len v m), <-(pad_digits_len w n), H. }
  destruct (Z.ltb_spec y 0), (Z.ltb_spec z 0); intros H'.
  - injection H' as H'. apply Hq in H'; lia.
  - exfalso. symmetry in H'. by apply Hd in H'.
  - exfalso. by apply Hd in H'.
  - apply Hq in H'; lia.
Qed.

Lemma format_days_inj n k : format_days n = format_days k → n = k.
Proof.
  unfold format_days. destruct (civil_of_days n) as [[y m] d] eqn:En, (civil_of_days k) as [[y' m'] d'] eqn:Ek.
  apply civil_of_days_spec in En as [<- [Hm Hd]], Ek as [<- [Hm' Hd']].
  pose proof (days_in_month_le y m). pose proof (days_in_month_le y' m'). unfold format_civil. intros E.
  apply str_app_inj_tail in E as [Ey E]; [|rewrite !slen_cons, !slen_app, !slen_cons, !pad_digits_len; lia].
  apply (inj (String "-")) in E. apply str_app_inj_tail in E as [Em E]; [|rewrite !slen_cons, !pad_digits_len; lia].
  apply (inj (String "-")) in E. apply format_year_inj in Ey as ->.
  apply pad_digits_inj in Em as ->; [|cbn; lia..]. apply pad_digits_inj in E as ->; [done|cbn; lia..].
Qed.
