(* ===== verification/CivilDate.v ===== *)
(** * Civil dates

    [normalizeDate] of [model.go], [civil_date.go] and [liquidity_calendar.go]:
    dates as canonical [YYYY-MM-DD] text, their arithmetic, and the instants at
    which a civil date begins and ends in a household's time zone. *)

From S2P Require Export Prelude GoStrings GoTime.
From Stdlib Require Import String Ascii.

#[global] Open Scope Z_scope.

(** ** Dates as canonical text *)

Definition normalizeDate (field : string) (value : option string) : Result (option string) :=
  match value with
  | None => Ok None
  | Some value =>
    match ParseDate (TrimSpace value) with
    | None => Fail (validation field "must use YYYY-MM-DD")
    | Some parsed => Ok (Some (format_days parsed))
    end
  end.

Definition ParseCivilDate (field value : string) : Result string :=
  let trimmed := TrimSpace value in
  if bool_decide (trimmed = ""%string) then Fail (validation field "must use YYYY-MM-DD")
  else match normalizeDate field (Some trimmed) with
  | Fail e => Fail e
  | Ok None => Fail (validation field "must use YYYY-MM-DD")
  | Ok (Some canonical) => Ok canonical
  end.

(** The parsed day number stands for midnight UTC of that day. *)
Definition parseCivilTime (field value : string) : Result Z :=
  match ParseCivilDate field value with
  | Fail e => Fail e
  | Ok canonical =>
    match ParseDate canonical with
    | None => Fail (validation field "must use YYYY-MM-DD")
    | Some parsed => Ok parsed
    end
  end.

Definition compareCivilDates (left right : string) : Z :=
  if String.ltb left right then -1 else if String.ltb right left then 1 else 0.

(** [time.Time.Sub] saturates at the largest [time.Duration], an [int64] of
    nanoseconds; [int(d.Hours() / 24)] truncates to whole days. *)
Definition maxDuration : Z := 2 ^ 63 - 1.
Definition timeSub (t u : Time) : Z :=
  Z.max (- 2 ^ 63) (Z.min maxDuration (t - u)).

Definition CivilDaysBetween (start end_ : string) : Result Z :=
  match parseCivilTime "startOn" start with
  | Fail e => Fail e
  | Ok startTime =>
    match parseCivilTime "endOn" end_ with
    | Fail e => Fail e
    | Ok endTime =>
      if utc_midnight endTime <? utc_midnight startTime
      then Fail (validation "endOn" "must not precede startOn")
      else Ok (timeSub (utc_midnight endTime) (utc_midnight startTime) / Day)
    end
  end.

Definition AddCalendarDays (date : string) (days : Z) : Result string :=
  match parseCivilTime "date" date with
  | Fail e => Fail e
  | Ok parsed => Ok (format_days (parsed + days))
  end.

Definition is_weekend (n : Z) : bool := (weekday n =? 6) || (weekday n =? 0).

(** One turn of the loop of [AddWeekdays]: (current day, days remaining). *)
Definition weekday_step (st : Z * Z) : (Z * Z) + Z :=
  let '(parsed, remaining) := st in
  if 0 <? remaining then
    let parsed := parsed + 1 in
    inl (parsed, if is_weekend parsed then remaining else remaining - 1)
  else inr parsed.

(** Seven calendar days contain five weekdays, so [7 * days + 8] turns suffice. *)
Definition add_weekdays (n days : Z) : Z :=
  match loop_pos weekday_step (Z.to_pos (7 * days + 8)) (inl (n, days)) with
  | inr r => r
  | inl (r, _) => r
  end.

Definition AddWeekdays (date : string) (days : Z) : Result string :=
  if days <? 0 then Fail (validation "settlementDays" "must not be negative")
  else match parseCivilTime "date" date with
  | Fail e => Fail e
  | Ok parsed => Ok (format_days (add_weekdays parsed days))
  end.

Inductive DayBasis := DayBasisCalendar | DayBasisWeekdays | DayBasisRaw (raw : string).

Definition SettlementReceiptOn (eligibleOn : string) (days : Z) (basis : DayBasis) : Result string :=
  if (days <? 0) || (365 <? days) then Fail (validation "settlementDays" "must be between 0 and 365")
  else if days =? 0 then ParseCivilDate "eligibleOn" eligibleOn
  else match basis with
  | DayBasisCalendar => AddCalendarDays eligibleOn days
  | DayBasisWeekdays => AddWeekdays eligibleOn days
  | DayBasisRaw _ => Fail (validation "dayBasis" "must be calendar or weekdays")
  end.

Definition LocalCivilDate `{TimeZones} (asOf : Time) (timezone : string) : Result (string * string) :=
  let zone := TrimSpace timezone in
  if bool_decide (zone = ""%string) then Ok (FormatDate asOf, "UTC"%string)
  else match LoadLocation zone with
  | None => Fail (validation "timezone" "must be a valid IANA timezone")
  | Some location => Ok (FormatDate (wall location asOf), zone)
  end.

Definition maxLiquidityHorizonYears : Z := 10.

(** [t.AddDate(years, 0, 0)] of a UTC midnight: a day that does not exist in the
    target year overflows into the next month. *)
Definition add_years (n years : Z) : Z :=
  let '(y, m, d) := civil_of_days n in days_of_civil (y + years) m d.

Definition LiquidityHorizons (today : string) (custom : option string) : Result (list string) :=
  today ← ParseCivilDate "today" today;
  plus7 ← AddCalendarDays today 7;
  plus30 ← AddCalendarDays today 30;
  let horizons := [today; plus7; plus30] in
  match custom with
  | None => Ok horizons
  | Some custom =>
    customOn ← ParseCivilDate "customHorizonOn" custom;
    if compareCivilDates customOn today <? 0
    then Fail (validation "customHorizonOn" "must be today or later")
    else
      todayTime ← parseCivilTime "today" today;
      let limit := format_days (add_years todayTime maxLiquidityHorizonYears) in
      if 0 <? compareCivilDates customOn limit
      then Fail (validation "customHorizonOn" "must be at most 10 calendar years ahead")
      else if bool_decide (customOn ∈ horizons) then Ok horizons
      else Ok (horizons ++ [customOn])
  end.

(** ** The instants of a civil date in a location

    [resolveCivilDateBounds]: the loop walks the constant-offset intervals of a
    window around the date and intersects each with the wall-clock day.  The
    state is (cursor, firstStart, lastEnd); a zero time means unset, as in Go. *)

Definition timezone_stuck : goerror :=
  domainErr ErrInvalidChangeTime "timezone" "cannot resolve the day boundary: timezone interval did not advance".
Definition date_missing : goerror :=
  domainErr ErrInvalidChangeTime "localDate" "the selected civil date does not exist in the household timezone".

Definition bounds_step (day : Time) (location : Location) (st : Time * Time * Time)
  : (Time * Time * Time) + Result (Time * Time) :=
  let '(cursor, firstStart, lastEnd) := st in
  let nextDay := day + Day in
  let windowEnd := nextDay + 48 * Hour in
  if cursor <? windowEnd then
    let offset := zoneOffset location cursor in
    let zEnd := match zoneEnd location cursor with
                | None => windowEnd
                | Some e => if timeIsZero e || (windowEnd <? e) then windowEnd else e
                end in
    if negb (cursor <? zEnd) then inr (Fail timezone_stuck)
    else
      let start := day - offset * Second in
      let end_ := nextDay - offset * Second in
      let start := if start <? cursor then cursor else start in
      let end_ := if zEnd <? end_ then zEnd else end_ in
      if start <? end_ then
        inl (zEnd,
             (if timeIsZero firstStart || (start <? firstStart) then start else firstStart),
             (if lastEnd <? end_ then end_ else lastEnd))
      else inl (zEnd, firstStart, lastEnd)
  else if timeIsZero lastEnd then inr (Fail date_missing)
  else inr (Ok (firstStart, lastEnd)).

(** The window is five days long and every turn advances by a nanosecond at
    least, so one turn more than its length suffices. *)
Definition resolveCivilDateBounds (day : Time) (location : Location) : Result (Time * Time) :=
  match loop_pos (bounds_step day location) (Z.to_pos (5 * Day + 2)) (inl (day - 48 * Hour, 0, 0)) with
  | inr r => r
  | inl _ => Fail timezone_stuck
  end.

Definition ResolveCivilDateCutoff (day : Time) (location : Location) : Result Time :=
  match resolveCivilDateBounds day location with
  | Fail e => Fail e
  | Ok (_, end_) => Ok (end_ - Millisecond)
  end.

Definition ResolveCivilDateStart (day : Time) (location : Location) : Result Time :=
  match resolveCivilDateBounds day location with
  | Fail e => Fail e
  | Ok (start, _) => Ok start
  end.

(** ** Text order is calendar order *)

(** A canonical civil date and the day it denotes. *)
Definition is_date (s : string) (n : Z) : Prop := ParseDate s = Some n.

Definition scompare (s t : string) : comparison := String.compare s t.

Lemma scompare_cons a s b t :
  scompare (String a s) (String b t) =
  match (byteZ a ?= byteZ b) with Eq => scompare s t | c => c end.
Proof.
  unfold scompare. cbn [String.compare]. unfold Ascii.compare, byteZ.
  by rewrite N2Z.inj_compare.
Qed.

Lemma scompare_pad w a b s t :
  0 <= a < 10 ^ Z.of_nat w → 0 <= b < 10 ^ Z.of_nat w →
  scompare (pad_digits w a +:+ s) (pad_digits w b +:+ t) =
  match (a ?= b) with Eq => scompare s t | c => c end.
Proof.
  revert a b. induction w as [|w IH]; intros a b Ha Hb.
  - change (10 ^ Z.of_nat 0) with 1 in *. replace a with 0 by lia. replace b with 0 by lia. done.
  - rewrite Nat2Z.inj_succ, Z.pow_succ_r in * by lia.
    pose proof (pow10_pos_nat w) as Hp. set (k := 10 ^ Z.of_nat w) in *.
    assert (Hmod : ∀ x, 0 <= x → pad_digits w x = pad_digits w (x mod k)).
    { intros x Hx.
      rewrite <-(pad_digits_of_val (pad_digits w x)) by apply pad_digits_digits.
      rewrite pad_digits_val. pose proof (pad_digits_len w x) as Hl. unfold slen in Hl.
      by replace (String.length (pad_digits w x)) with w by lia. }
    rewrite !pad_digits_head by lia. fold k.
    assert (0 <= a / k < 10) by (split; [apply Z.div_pos; lia|apply Z.div_lt_upper_bound; lia]).
    assert (0 <= b / k < 10) by (split; [apply Z.div_pos; lia|apply Z.div_lt_upper_bound; lia]).
    rewrite !(Z.mod_small (_ / k)) by lia.
    rewrite !str_app_cons, scompare_cons, !byteZ_digit_char by lia.
    rewrite (Hmod a), (Hmod b) by lia.
    pose proof (Z.div_mod a k ltac:(lia)). pose proof (Z.mod_pos_bound a k ltac:(lia)).
    pose proof (Z.div_mod b k ltac:(lia)). pose proof (Z.mod_pos_bound b k ltac:(lia)).
    rewrite IH by lia.
    destruct (Z.compare_spec (48 + a / k) (48 + b / k)).
    + replace (a ?= b) with (a mod k ?= b mod k); [done|].
      destruct (Z.compare_spec (a mod k) (b mod k)); symmetry;
        [apply Z.compare_eq_iff|apply Z.compare_lt_iff|apply Z.compare_gt_iff]; nia.
    + symmetry. replace (a ?= b) with Lt; [done|]. symmetry. apply Z.compare_lt_iff. nia.
    + symmetry. replace (a ?= b) with Gt; [done|]. symmetry. apply Z.compare_gt_iff. nia.
Qed.

Lemma scompare_dash s t : scompare (String "-" s) (String "-" t) = scompare s t.
Proof. rewrite scompare_cons. by rewrite Z.compare_refl. Qed.

Lemma days_before_month_bound y m d :
  civil_valid y m d → 0 <= days_before_month y (Z.to_nat m) + (d - 1) < year_days y.
Proof. intros [Hm Hd]. apply month_unique; lia. Qed.

Lemma is_date_range s n : is_date s n → days_before_year 0 <= n < days_before_year 10000.
Proof.
  intros H. apply ParseDate_inv in H as (y & m & d & _ & Hy & Hv & ->). unfold days_of_civil.
  pose proof (days_before_month_bound y m d Hv).
  pose proof (days_before_year_mono 0 y ltac:(lia)). pose proof (days_before_year_mono (y + 1) 10000 ltac:(lia)).
  rewrite days_before_year_succ in *. lia.
Qed.

Lemma civil_lex y1 m1 d1 y2 m2 d2 :
  civil_valid y1 m1 d1 → civil_valid y2 m2 d2 →
  (days_of_civil y1 m1 d1 ?= days_of_civil y2 m2 d2) =
  match y1 ?= y2 with
  | Eq => match m1 ?= m2 with Eq => d1 ?= d2 | c => c end
  | c => c
  end.
Proof.
  intros V1 V2.
  pose proof (days_before_month_bound _ _ _ V1). pose proof (days_before_month_bound _ _ _ V2).
  assert (Hy : ∀ y1 y2 r1 r2, 0 <= r1 < year_days y1 → 0 <= r2 < year_days y2 → y1 < y2 →
    days_before_year y1 + r1 < days_before_year y2 + r2).
  { intros a b r1 r2 ? ? ?. pose proof (days_before_year_succ a).
    pose proof (days_before_year_mono (a + 1) b ltac:(lia)). lia. }
  unfold days_of_civil. rewrite <-!Z.add_assoc.
  destruct (Z.compare_spec y1 y2) as [->|Hl|Hl].
  - destruct V1 as [Hm1 Hd1], V2 as [Hm2 Hd2].
    assert (Hm : ∀ m m' d d', 1 <= m <= 12 → 1 <= m' <= 12 →
      0 <= d < days_in_month y2 m → 0 <= d' < days_in_month y2 m' → m < m' →
      days_before_month y2 (Z.to_nat m) + d < days_before_month y2 (Z.to_nat m') + d').
    { intros m m' d d' Hm Hm' Hd Hd' Hlt.
      destruct (Z.lt_ge_cases (days_before_month y2 (Z.to_nat m) + d)
                              (days_before_month y2 (Z.to_nat m') + d')) as [|Hge]; [done|exfalso].
      pose proof (days_before_month_gap y2 m m' Hm Hm' Hlt). lia. }
    destruct (Z.compare_spec m1 m2) as [->|Hlt|Hlt].
    + destruct (Z.compare_spec d1 d2) as [->|Hlt|Hlt];
        [apply Z.compare_eq_iff|apply Z.compare_lt_iff|apply Z.compare_gt_iff]; lia.
    + apply Z.compare_lt_iff. specialize (Hm m1 m2 (d1 - 1) (d2 - 1)). lia.
    + apply Z.compare_gt_iff. specialize (Hm m2 m1 (d2 - 1) (d1 - 1)). lia.
  - apply Z.compare_lt_iff. by apply Hy.
  - apply Z.compare_gt_iff. by apply Hy.
Qed.

Lemma date_compare s t n k :
  is_date s n → is_date t k → scompare s t = (n ?= k).
Proof.
  intros Hs Ht.
  apply ParseDate_inv in Hs as (y1 & m1 & d1 & -> & Hy1 & V1 & ->).
  apply ParseDate_inv in Ht as (y2 & m2 & d2 & -> & Hy2 & V2 & ->).
  rewrite civil_lex by done. unfold format_civil. rewrite !format_year_4 by done.
  destruct V1 as [Hm1 Hd1], V2 as [Hm2 Hd2].
  pose proof (days_in_month_le y1 m1). pose proof (days_in_month_le y2 m2).
  rewrite scompare_pad by lia. rewrite scompare_dash, scompare_pad by lia.
  rewrite scompare_dash.
  rewrite <-(str_app_nil_r (pad_digits 2 d1)), <-(str_app_nil_r (pad_digits 2 d2)).
  rewrite scompare_pad by lia.
  by destruct (y1 ?= y2), (m1 ?= m2), (d1 ?= d2).
Qed.

Lemma compareCivilDates_scompare s t :
  compareCivilDates s t = match scompare s t with Lt => -1 | Eq => 0 | Gt => 1 end.
Proof.
  unfold compareCivilDates, String.ltb. rewrite (String.compare_antisym t s).
  fold (scompare s t). by destruct (scompare s t).
Qed.

(** Canonical results of the parsers. *)
Lemma ParseCivilDate_is_date f v s : ParseCivilDate f v = Ok s → ∃ n, is_date s n.
Proof.
  unfold ParseCivilDate, normalizeDate. intros H. inv_ok.
  destruct (ParseDate (TrimSpace (TrimSpace v))) as [n|] eqn:E; [|discriminate].
  inv_ok. exists n. unfold is_date. by rewrite (format_days_of_parse _ _ E).
Qed.

Lemma date_graphic s n : is_date s n → all_bytes is_graphic s = true ∧ s ≠ ""%string.
Proof.
  intros H. pose proof H as H'. unfold is_date, ParseDate in H'.
  split; [|intros ->; discriminate].
  rewrite <-(string_of_list_ascii_of_string s).
  destruct (list_ascii_of_string s) as [|a [|b [|c [|d [|s1 [|e [|f [|s2 [|g [|h [|]]]]]]]]]]];
    try discriminate.
  destruct (forallb is_digit [a; b; c; d; e; f; g; h] && Ascii.eqb s1 "-" && Ascii.eqb s2 "-") eqn:C;
    [|discriminate]. cbn [forallb] in C. prop_bool.
  repeat match goal with Hx : Ascii.eqb _ _ = true |- _ => apply Ascii.eqb_eq in Hx end. subst.
  assert (Hg : ∀ c, is_digit c = true → is_graphic c = true).
  { intros x. unfold is_digit, is_graphic, in_range. intros Hx. prop_bool.
    apply andb_true_iff. rewrite !Z.leb_le. lia. }
  cbn [string_of_list_ascii all_bytes]. rewrite !andb_true_iff.
  repeat split; first [apply Hg; assumption | reflexivity].
Qed.

Lemma ParseCivilDate_id f s n : is_date s n → ParseCivilDate f s = Ok s.
Proof.
  intros H. destruct (date_graphic s n H) as [Hg Hne]. unfold ParseCivilDate, normalizeDate.
  rewrite !TrimSpace_graphic by done. case_bool_decide; [done|].
  unfold is_date in H. rewrite H. by rewrite (format_days_of_parse _ _ H).
Qed.

Lemma parseCivilTime_id f s n : is_date s n → parseCivilTime f s = Ok n.
Proof.
  intros H. unfold parseCivilTime. rewrite (ParseCivilDate_id f s n H).
  unfold is_date in H. by rewrite H.
Qed.

(** Comparing canonical civil dates as text, as the source does, is
    comparing the calendar days they denote. *)
Theorem compareCivilDates_calendar f v w s t :
  ParseCivilDate f v = Ok s → ParseCivilDate f w = Ok t →
  ∃ n k, ParseDate s = Some n ∧ ParseDate t = Some k ∧
         compareCivilDates s t = match (n ?= k) with Lt => -1 | Eq => 0 | Gt => 1 end.
Proof.
  intros Hs Ht. apply ParseCivilDate_is_date in Hs as [n Hn]. apply ParseCivilDate_is_date in Ht as [k Hk].
  exists n, k. split; [done|]. split; [done|].
  by rewrite compareCivilDates_scompare, (date_compare s t n k Hn Hk).
Qed.

Lemma compareCivilDates_calendar_witness :
  ∃ n k, ParseDate "2024-02-29" = Some n ∧ ParseDate "2024-03-01" = Some k ∧
         compareCivilDates "2024-02-29" "2024-03-01" =
         match (n ?= k) with Lt => -1 | Eq => 0 | Gt => 1 end.
Proof. by apply (compareCivilDates_calendar "d" " 2024-02-29" "2024-03-01"). Defined.

(** Forwards, the days are counted as long as the span fits a duration. *)
Lemma CivilDaysBetween_forward start end_ n k :
  ParseDate start = Some n → ParseDate end_ = Some k → n <= k → CivilDaysBetween start end_ = Ok (Z.min (k - n) 106751).
Proof.
  intros Hn Hk Hle. unfold CivilDaysBetween. rewrite (parseCivilTime_id _ _ _ Hn), (parseCivilTime_id _ _ _ Hk).
  unfold utc_midnight. assert (0 < Day) as HD by done. rewrite (proj2 (Z.ltb_ge _ _)) by nia. f_equal. unfold timeSub.
  rewrite <-Z.mul_sub_distr_r. rewrite Z.max_r by (unfold maxDuration; nia).
  destruct (Z.le_gt_cases (k - n) 106751) as [Hs|Hs].
  - rewrite Z.min_r by (unfold maxDuration, Day, Hour, Second; lia). rewrite Z.div_mul by done. lia.
  - rewrite Z.min_l by (unfold maxDuration, Day, Hour, Second; lia). rewrite Z.min_r by lia. done.
Qed.

(** [CivilDaysBetween] counts the days from start to end exactly, as long
    as the span fits the 64-bit nanosecond [time.Duration] of Go; a longer span is
    cut at 106751 days (about 292 years). *)
Theorem CivilDaysBetween_correct start end_ n k :
  ParseDate start = Some n → ParseDate end_ = Some k →
  CivilDaysBetween start end_ =
    if k <? n then Fail (validation "endOn" "must not precede startOn")
    else Ok (Z.min (k - n) 106751).
Proof.
  intros Hn Hk. destruct (Z.ltb_spec k n) as [Hlt|Hge]; [|by apply CivilDaysBetween_forward].
  unfold CivilDaysBetween. rewrite (parseCivilTime_id _ _ _ Hn), (parseCivilTime_id _ _ _ Hk).
  unfold utc_midnight. assert (0 < Day) as HD by done. rewrite (proj2 (Z.ltb_lt _ _)); [done|]. nia.
Qed.

Lemma CivilDaysBetween_correct_witness :
  CivilDaysBetween "1900-01-01" "2300-01-01" = Ok 106751.
Proof.
  by rewrite (CivilDaysBetween_correct _ _ (693595) (839692)) by (vm_compute; reflexivity).
Defined.

(** ** Weekdays *)

(** The weekdays among the days [n + 1 .. n + k]. *)
Fixpoint weekdays_after (n : Z) (k : nat) : Z :=
  match k with
  | O => 0
  | S k => weekdays_after n k + (if is_weekend (n + Z.of_nat (S k)) then 0 else 1)
  end.

Lemma add_weekdays_ends n days :
  0 <= days → ∃ r, loop_pos weekday_step (Z.to_pos (7 * days + 8)) (inl (n, days)) = inr r.
Proof.
  intros Hd.
  (* days until the next weekday: 2 on a Friday, 1 on a Saturday *)
  set (gap := λ p, if weekday p =? 5 then 2 else if weekday p =? 6 then 1 else 0).
  apply (loop_pos_ends weekday_step (λ st, 0 <= st.2) (λ st, 7 * st.2 + gap st.1)).
  - intros [p r] H. cbn in *. unfold gap. repeat case_match; lia.
  - intros [p r] [p' r'] H. cbn in H. unfold weekday_step.
    destruct (Z.ltb_spec 0 r); [|discriminate]. intros [= <- <-]. cbn.
    unfold gap, is_weekend, weekday.
    pose proof (Z.mod_pos_bound (p + 1) 7 ltac:(lia)).
    assert ((p + 1 + 1) mod 7 = if (p + 1) mod 7 =? 6 then 0 else (p + 1) mod 7 + 1) as ->.
    { destruct (Z.eqb_spec ((p + 1) mod 7) 6); Z.div_mod_to_equations; lia. }
    repeat case_match; prop_bool; try lia;
      match goal with Hx : _ || _ = true |- _ => apply orb_true_iff in Hx as [Hx|Hx] end; prop_bool; lia.
  - done.
  - cbn. unfold gap. rewrite Z2Pos.id by lia. repeat case_match; lia.
Qed.

Lemma add_weekdays_inv n days r :
  0 <= days → loop_pos weekday_step (Z.to_pos (7 * days + 8)) (inl (n, days)) = inr r →
  ∃ k, r = n + Z.of_nat k ∧ weekdays_after n k = days ∧ (0 < days → is_weekend r = false).
Proof.
  intros Hd.
  apply (loop_pos_inv weekday_step
    (λ st, ∃ k, st.1 = n + Z.of_nat k ∧ weekdays_after n k + st.2 = days ∧ 0 <= st.2 ∧
                (st.2 < days → st.2 = 0 → is_weekend st.1 = false))
    (λ r, ∃ k, r = n + Z.of_nat k ∧ weekdays_after n k = days ∧ (0 < days → is_weekend r = false))).
  - intros [p q] [p' q'] (k & Hp & Hw & Hq & _). unfold weekday_step. cbn in Hp, Hw, Hq |- *. subst p.
    destruct (Z.ltb_spec 0 q); [|discriminate]. intros [= <- <-]. exists (S k).
    replace (n + Z.of_nat k + 1) with (n + Z.of_nat (S k)) by lia.
    cbn [weekdays_after fst snd]. split; [lia|].
    destruct (is_weekend (n + Z.of_nat (S k))) eqn:Ew.
    + split; [lia|]. split; [lia|]. intros; lia.
    + split; [lia|]. split; [lia|]. intros; reflexivity.
  - intros [p q] r' (k & Hp & Hw & Hq & Hlast). unfold weekday_step. cbn in Hp, Hw, Hq, Hlast |- *. subst p.
    destruct (Z.ltb_spec 0 q); [discriminate|]. intros [= <-]. exists k.
    split; [done|]. split; [lia|]. intros. apply Hlast; lia.
  - exists 0%nat. cbn. split; [lia|]. split; [lia|]. split; [lia|]. intros. lia.
Qed.

(** [AddWeekdays] always returns; its result is the day on which exactly
    [days] weekdays have passed since the given date, and it is itself a weekday. *)
Theorem AddWeekdays_correct date n days :
  ParseDate date = Some n → 0 <= days →
  ∃ k, AddWeekdays date days = Ok (format_days (n + Z.of_nat k)) ∧
       weekdays_after n k = days ∧
       (0 < days → is_weekend (n + Z.of_nat k) = false).
Proof.
  intros Hn Hd. unfold AddWeekdays. rewrite (proj2 (Z.ltb_ge _ _)) by lia.
  rewrite (parseCivilTime_id _ _ _ Hn).
  destruct (add_weekdays_ends n days Hd) as [r Hr].
  destruct (add_weekdays_inv n days r Hd Hr) as (k & -> & Hk & Hw).
  exists k. unfold add_weekdays. by rewrite Hr.
Qed.

Lemma AddWeekdays_correct_witness :
  ∃ k, AddWeekdays "2026-11-06" 3 = Ok (format_days (739925 + Z.of_nat k)) ∧
       weekdays_after 739925 k = 3 ∧ (0 < 3 → is_weekend (739925 + Z.of_nat k) = false).
Proof. by apply (AddWeekdays_correct "2026-11-06" 739925 3). Defined.

Example AddWeekdays_over_weekend : AddWeekdays "2026-11-06" 3 = Ok "2026-11-11"%string.
Proof. vm_compute. reflexivity. Qed.

(** ** Day boundaries

    [loc_ok]: the reported offset holds until the reported end of its interval,
    and offsets stay below 48 hours, as those of the time-zone database do. *)

Definition loc_ok (l : Location) : Prop :=
  (∀ t, - 48 * 3600 < zoneOffset l t < 48 * 3600) ∧
  (∀ t e, zoneEnd l t = Some e → t < e ∧ ∀ u, t <= u < e → zoneOffset l u = zoneOffset l t) ∧
  (∀ t, zoneEnd l t = None → ∀ u, t <= u → zoneOffset l u = zoneOffset l t).

(** Instant [t] bears the date whose UTC label is [day]. *)
Definition labelled (l : Location) (day t : Time) : Prop := day <= wall l t < day + Day.

(** What the loop knows at [cursor]: the labelled instants of the window before it. *)
Definition bounds_inv (l : Location) (day : Time) (st : Time * Time * Time) : Prop :=
  let '(cursor, fs, le) := st in
  let w := day - 48 * Hour in
  w <= cursor <= day + Day + 48 * Hour ∧
  ((fs = 0 ∧ le = 0 ∧ ∀ t, w <= t < cursor → ¬ labelled l day t) ∨
   (w <= fs < le ∧ le <= cursor ∧ labelled l day fs ∧ labelled l day (le - 1) ∧
    ∀ t, w <= t < cursor → labelled l day t → fs <= t < le)).

Lemma labelled_in_window l day t :
  loc_ok l → labelled l day t → day - 48 * Hour <= t < day + Day + 48 * Hour.
Proof.
  intros (Hb & _) [H1 H2]. specialize (Hb t). unfold wall in *.
  unfold Hour, Day, Hour, Second in *. lia.
Qed.

(** The constant-offset interval that starts at the cursor. *)
Lemma interval_const l cursor w :
  loc_ok l → 0 < cursor → cursor < w →
  let zEnd := match zoneEnd l cursor with
              | None => w
              | Some e => if timeIsZero e || (w <? e) then w else e end in
  cursor < zEnd <= w ∧ ∀ t, cursor <= t < zEnd → zoneOffset l t = zoneOffset l cursor.
Proof.
  intros (_ & Hs & Hn) H0 Hw. cbn zeta. destruct (zoneEnd l cursor) as [e|] eqn:E.
  - destruct (Hs cursor e E) as [He Hc].
    assert (timeIsZero e = false) as -> by (apply Z.eqb_neq; lia). cbn [orb].
    destruct (Z.ltb_spec w e); (split; [lia|]); intros; apply Hc; lia.
  - split; [lia|]. intros. apply (Hn cursor E). lia.
Qed.

Lemma bounds_step_inv l day st st' :
  loc_ok l → 3 * Day <= day → bounds_inv l day st → bounds_step day l st = inl st' →
  bounds_inv l day st' ∧ st.1.1 < st'.1.1 ∧ st.1.1 < day + Day + 48 * Hour.
Proof.
  intros Hl Hday. destruct st as [[c fs] le]. unfold bounds_inv, bounds_step. intros (Hc & Hcase).
  set (W := day + Day + 48 * Hour) in *.
  destruct (Z.ltb_spec c W) as [HcW|]; [|destruct (timeIsZero le); discriminate].
  assert (0 < day - 48 * Hour) as Hw0 by (unfold Day, Hour, Second in *; lia).
  pose proof (interval_const l c W Hl ltac:(lia) HcW) as [Hz Hconst]. cbn zeta in *.
  revert Hz Hconst.
  generalize (match zoneEnd l c with
              | None => W
              | Some e => if timeIsZero e || (W <? e) then W else e end).
  intros z Hz Hconst.
  rewrite (proj2 (Z.ltb_lt c z)) by lia. cbn [negb].
  set (o := zoneOffset l c) in *.
  set (s := if day - o * Second <? c then c else day - o * Second).
  set (e := if z <? day + Day - o * Second then z else day + Day - o * Second).
  (* in the interval, labelled means between s and e *)
  assert (Hlab : ∀ t, c <= t < z → (labelled l day t ↔ s <= t < e)).
  { intros t Ht. unfold labelled, wall. rewrite Hconst by done. unfold s, e.
    destruct (Z.ltb_spec (day - o * Second) c), (Z.ltb_spec z (day + Day - o * Second)); lia. }
  assert (Hse : c <= s ∧ e <= z).
  { unfold s, e. destruct (Z.ltb_spec (day - o * Second) c),
      (Z.ltb_spec z (day + Day - o * Second)); lia. }
  clearbody s e. clear Hconst.
  destruct (Z.ltb_spec s e) as [Hlt|Hge]; intros [= <-]; cbn [fst snd].
  - split; [|lia]. split; [lia|]. right.
    assert (Ls : labelled l day s) by (apply Hlab; lia).
    assert (Le : labelled l day (e - 1)) by (apply Hlab; lia).
    destruct Hcase as [(-> & -> & Hno)|(Hfl & Hle & Lfs & Lle & Hall)].
    + cbn [timeIsZero Z.eqb orb]. rewrite (proj2 (Z.ltb_lt 0 e)) by lia.
      split; [lia|]. split; [lia|]. split; [done|]. split; [done|]. intros t Ht Lt.
      destruct (Z.lt_ge_cases t c) as [Hlc|].
      * exfalso. by apply (Hno t); [lia|].
      * apply Hlab; [lia|done].
    + assert (timeIsZero fs = false) as -> by (apply Z.eqb_neq; lia). cbn [orb].
      rewrite (proj2 (Z.ltb_ge s fs)), (proj2 (Z.ltb_lt le e)) by lia.
      split; [lia|]. split; [lia|]. split; [done|]. split; [done|].
      intros t Ht Lt. destruct (Z.lt_ge_cases t c).
      * specialize (Hall t ltac:(lia) Lt). lia.
      * apply Hlab in Lt; lia.
  - split; [|lia]. split; [lia|].
    destruct Hcase as [(-> & -> & Hno)|(Hfl & Hle & Lfs & Lle & Hall)]; [left|right].
    + split; [done|]. split; [done|]. intros t Ht Lt. destruct (Z.lt_ge_cases t c).
      * by apply (Hno t); [lia|].
      * apply Hlab in Lt; lia.
    + split; [lia|]. split; [lia|]. split; [done|]. split; [done|].
      intros t Ht Lt. destruct (Z.lt_ge_cases t c); [apply Hall; [lia|done]|]. apply Hlab in Lt; lia.
Qed.

Lemma bounds_step_result l day st r :
  loc_ok l → 3 * Day <= day → bounds_inv l day st → bounds_step day l st = inr r →
  match r with
  | Ok (s, e) => labelled l day s ∧ labelled l day (e - 1) ∧ ∀ t, labelled l day t → s <= t < e
  | Fail err => err = date_missing ∧ ∀ t, ¬ labelled l day t
  end.
Proof.
  intros Hl Hday. destruct st as [[c fs] le]. unfold bounds_inv, bounds_step. intros (Hc & Hcase).
  set (W := day + Day + 48 * Hour) in *.
  assert (0 < day - 48 * Hour) as Hw0 by (unfold Day, Hour, Second in *; lia).
  destruct (Z.ltb_spec c W) as [HcW|].
  - pose proof (interval_const l c W Hl ltac:(lia) HcW) as [Hz _]. cbn zeta in *.
    rewrite (proj2 (Z.ltb_lt _ _)) by lia. cbn [negb]. by destruct (_ <? _).
  - destruct Hcase as [(-> & -> & Hno)|(Hfl & Hle & Lfs & Lle & Hall)].
    + intros [= <-]. split; [done|]. intros t Lt. pose proof (labelled_in_window l day t Hl Lt).
      apply (Hno t); [unfold W in *; lia|done].
    + assert (timeIsZero le = false) as -> by (apply Z.eqb_neq; lia). intros [= <-].
      split; [done|]. split; [done|]. intros t Lt.
      pose proof (labelled_in_window l day t Hl Lt). apply Hall; [unfold W in *; lia|done].
Qed.

(** Claim C39.  For every location whose offsets hold until their reported ends,
    [resolveCivilDateBounds] returns: either the first and the one-past-last
    instants that bear the date (every instant that bears it lies between), or,
    when no instant bears the date, the error that says so.  It never reports a
    stuck time zone. *)
Theorem resolveCivilDateBounds_correct l day :
  loc_ok l → 3 * Day <= day →
  match resolveCivilDateBounds day l with
  | Ok (s, e) => labelled l day s ∧ labelled l day (e - 1) ∧ ∀ t, labelled l day t → s <= t < e
  | Fail err => err = date_missing ∧ ∀ t, ¬ labelled l day t
  end.
Proof.
  intros Hl Hday. unfold resolveCivilDateBounds.
  set (st0 := (day - 48 * Hour, 0, 0)).
  assert (H0 : bounds_inv l day st0).
  { unfold bounds_inv, st0. split; [unfold Day, Hour, Second; lia|]. left.
    split; [done|]. split; [done|]. intros; lia. }
  destruct (loop_pos_ends (bounds_step day l) (bounds_inv l day)
              (λ st, day + Day + 48 * Hour - st.1.1) ) with (s := st0) (p := Z.to_pos (5 * Day + 2))
    as [r Hr].
  - intros [[c fs] le] [Hc _]. cbn. lia.
  - intros st st' Hi Hs. destruct (bounds_step_inv l day st st' Hl Hday Hi Hs) as (Hi' & Hlt & _).
    split; [done|lia].
  - done.
  - rewrite Z2Pos.id by done. cbn. unfold Day, Hour, Second. lia.
  - rewrite Hr. revert Hr. revert r. intros r Hr. pattern r.
    refine (loop_pos_inv (bounds_step day l) (bounds_inv l day) _ _ _ _ _ _ H0 Hr).
    + intros st st' Hi Hs. by destruct (bounds_step_inv l day st st' Hl Hday Hi Hs).
    + intros st r' Hi Hs. by apply (bounds_step_result l day st r').
Qed.

(** A zone that springs forward an hour at instant [t0]. *)
Definition spring_zone (t0 : Time) (o : Z) : Location :=
  mkLocation (λ t, if t <? t0 then (o, Some t0) else (o + 3600, None)).

Lemma spring_zone_ok t0 o : - 40 * 3600 < o < 40 * 3600 → loc_ok (spring_zone t0 o).
Proof.
  intros Ho. unfold loc_ok, zoneOffset, zoneEnd, spring_zone. cbn. split; [|split].
  - intros t. destruct (t <? t0); cbn; lia.
  - intros t e. destruct (Z.ltb_spec t t0); cbn; [|discriminate]. intros [= <-].
    split; [done|]. intros u Hu. by rewrite (proj2 (Z.ltb_lt u t0)) by lia.
  - intros t. destruct (Z.ltb_spec t t0); cbn; [discriminate|]. intros _ u Hu.
    by rewrite (proj2 (Z.ltb_ge u t0)) by lia.
Qed.

Lemma resolveCivilDateBounds_correct_witness :
  let day := utc_midnight 739925 in
  let l := spring_zone (day - 3600 * Second) 3600 in
  match resolveCivilDateBounds day l with
  | Ok (s, e) => labelled l day s ∧ labelled l day (e - 1) ∧ ∀ t, labelled l day t → s <= t < e
  | Fail err => err = date_missing ∧ ∀ t, ¬ labelled l day t
  end.
Proof.
  apply resolveCivilDateBounds_correct; [apply spring_zone_ok; lia|vm_compute; discriminate].
Defined.

(** Midnight is skipped: the day starts at the transition and lasts 23 hours. *)
Example resolve_skipped_midnight :
  let day := utc_midnight 739925 in
  resolveCivilDateBounds day (spring_zone (day - 3600 * Second) 3600)
  = Ok (day - 3600 * Second, day + Day - 7200 * Second).
Proof. vm_compute. reflexivity. Qed.
