(* ===== verification/Money.v ===== *)
(** * Bounded decimals and money

    [internal/domain/decimal.go] and the money types of [model.go]: quantities,
    unit prices and FX rates with their digit limits, native and base amounts,
    [Money] (never negative) and [SignedMoney].  The theorems say what each
    constructor accepts and which exact number it stores. *)

From S2P Require Export Prelude Rounding GoStrings DecimalAPI Identity.
From S2P Require Import DecimalModel.
From Stdlib Require Import String Ascii.

#[global] Open Scope Z_scope.

Definition maxNativeAmountFractionDigits : Z := 16.
Definition maxSnapshotBaseAmountFractionDigits : Z := 28.
Definition maxFXRateCoefficientDigits : Z := 8 + 12.
Definition moneyAmountFractionDigits : Z := 4.
Definition minimumFXDivisionPrecision : Z := 16.
Definition maxFXConversionInputFractionDigits : Z :=
  maxNativeAmountFractionDigits + maxFXRateCoefficientDigits + moneyAmountFractionDigits.

Definition quantitySyntax := unsigned_syntax 17 8.
Definition unitPriceSyntax := unsigned_syntax 11 8.
Definition fxRateSyntax := unsigned_syntax 7 12.
Definition baseAmountSyntax := unsigned_syntax 11 28.
Definition nativeAmountSyntax := unsigned_syntax 11 16.
Definition signedMoneySyntax := signed_syntax 11 4.
Definition moneySyntax := unsigned_syntax 11 4.

Section Money.
Context `{HD : DecimalAPI}.

(** [decimal.RequireFromString] of a literal constant; it panics when the text
    does not parse, which the constants below never do. *)
Definition RequireFromString (s : string) : Decimal :=
  match dNewFromString s with Some d => d | None => dZero end.

Definition maxQuantity : Decimal := RequireFromString "999999999999999999.99999999".
Definition maxUnitPrice : Decimal := RequireFromString "999999999999.99999999".
Definition maxFxRate : Decimal := RequireFromString "99999999.999999999999".
Definition maxMoney : Decimal := RequireFromString "999999999999.9999".

(** [decimalShape]: (scale, integerDigits). *)
Definition decimalShape (value : Decimal) : Z * Z :=
  if dIsZero value then (0, 1)
  else
    let coefficientDigits := slen (bigIntString (dCoefficient (dAbs value))) in
    let exponent := dExponent value in
    if 0 <=? exponent then (0, coefficientDigits + exponent)
    else
      let scale := - exponent in
      let integerDigits := coefficientDigits - scale in
      (scale, if integerDigits <? 1 then 1 else integerDigits).

Definition canonicalDecimal (value : Decimal) : string :=
  if dIsZero value then "0" else dString value.

Definition overflow (field message : string) : goerror := domainErr ErrDecimalOverflow field message.
Definition range_msg : string := "value is outside the supported range".
Definition calc_msg : string := "calculation is outside the supported range".
Definition amount_msg : string := "amount is outside the supported range".

Definition validateBoundedDecimal (field : string) (value maximum : Decimal)
    (maxIntegerDigits maxScale : Z) (positive : bool) : Result unit :=
  if dIsNegative value then Fail (validation field "must not be negative")
  else if positive && dIsZero value then Fail (validation field "must be greater than zero")
  else if dGreaterThan value maximum then Fail (overflow field range_msg)
  else
    let '(scale, integerDigits) := decimalShape value in
    if (maxScale <? scale) || (maxIntegerDigits <? integerDigits)
    then Fail (overflow field range_msg)
    else Ok tt.

Definition checkedIntermediate (value : Decimal) : Result Decimal :=
  if dIsNegative value || dGreaterThan value maxMoney then Fail (overflow "amount" calc_msg)
  else Ok value.

(** ** Quantity, UnitPrice, FxRate *)

Record Quantity := mkQuantity { q_value : Decimal }.
Record UnitPrice := mkUnitPrice { p_value : Decimal }.
Record FxRate := mkFxRate { r_value : Decimal }.

Definition NewQuantity (value : Decimal) : Result Quantity :=
  match validateBoundedDecimal "quantity" value maxQuantity 18 8 false with
  | Fail e => Fail e
  | Ok _ => Ok (mkQuantity value)
  end.

Definition ParseQuantity (value : string) : Result Quantity :=
  if negb (quantitySyntax value) then
    Fail (validation "quantity" "must be a canonical non-negative decimal with up to eight fractional digits")
  else match dNewFromString value with
  | None => Fail (validation "quantity" "is not a valid decimal")
  | Some parsed => NewQuantity parsed
  end.

Definition q_canonical (q : Quantity) : string := canonicalDecimal (q_value q).
Definition q_isZero (q : Quantity) : bool := dIsZero (q_value q).

Definition NewUnitPrice (value : Decimal) : Result UnitPrice :=
  match validateBoundedDecimal "unitPrice" value maxUnitPrice 12 8 false with
  | Fail e => Fail e
  | Ok _ => Ok (mkUnitPrice value)
  end.

Definition ParseUnitPrice (value : string) : Result UnitPrice :=
  if negb (unitPriceSyntax value) then
    Fail (validation "unitPrice" "must be a canonical non-negative decimal with up to eight fractional digits")
  else match dNewFromString value with
  | None => Fail (validation "unitPrice" "is not a valid decimal")
  | Some parsed => NewUnitPrice parsed
  end.

Definition p_canonical (p : UnitPrice) : string := canonicalDecimal (p_value p).
Definition p_isZero (p : UnitPrice) : bool := dIsZero (p_value p).

Definition NewFxRate (value : Decimal) : Result FxRate :=
  match validateBoundedDecimal "fxRate" value maxFxRate 8 12 true with
  | Fail e => Fail e
  | Ok _ => Ok (mkFxRate value)
  end.

Definition ParseFxRate (value : string) : Result FxRate :=
  if negb (fxRateSyntax value) then
    Fail (validation "fxRate" "must be a canonical positive decimal with up to twelve fractional digits")
  else match dNewFromString value with
  | None => Fail (validation "fxRate" "is not a valid decimal")
  | Some parsed => NewFxRate parsed
  end.

Definition r_canonical (r : FxRate) : string := canonicalDecimal (r_value r).

(** ** Unrounded snapshot amounts *)

Definition ParseNativeAmount (value : string) : Result string :=
  if negb (nativeAmountSyntax value) then
    Fail (validation "nativeAmount" "must be a canonical non-negative decimal with up to sixteen fractional digits")
  else match dNewFromString value with
  | None => Fail (validation "nativeAmount" "is not a valid decimal")
  | Some parsed =>
    match validateBoundedDecimal "nativeAmount" parsed maxMoney 12 16 false with
    | Fail e => Fail e
    | Ok _ => Ok (canonicalDecimal parsed)
    end
  end.

Definition ParseBaseAmountExact (value : string) : Result string :=
  if negb (baseAmountSyntax value) then
    Fail (validation "baseAmountExact" "must be a canonical non-negative decimal with up to twenty-eight fractional digits")
  else match dNewFromString value with
  | None => Fail (validation "baseAmountExact" "is not a valid decimal")
  | Some parsed =>
    match validateBoundedDecimal "baseAmountExact" parsed maxMoney 12
            maxSnapshotBaseAmountFractionDigits false with
    | Fail e => Fail e
    | Ok _ => Ok (canonicalDecimal parsed)
    end
  end.

(** ** Products and derived prices *)

Definition MultiplyQuantityAndUnitPrice (quantity : Quantity) (price : UnitPrice) : Result Decimal :=
  checkedIntermediate (dMul (q_value quantity) (p_value price)).

(** [Quantity.Multiply] and [UnitPrice.Multiply] *)
Definition q_multiply (q : Quantity) (price : UnitPrice) : Result Decimal :=
  MultiplyQuantityAndUnitPrice q price.
Definition p_multiply (p : UnitPrice) (quantity : Quantity) : Result Decimal :=
  MultiplyQuantityAndUnitPrice quantity p.

Definition UnitPriceFromExact (value : Decimal) : Result UnitPrice :=
  let '(scale, _) := decimalShape value in
  let value := if 8 <? scale then dRoundBank value 8 else value in
  NewUnitPrice value.

(** ** Money and SignedMoney *)

Record Money := mkMoney { amount : Decimal; currency : CurrencyCode }.
Record SignedMoney := mkSignedMoney { s_amount : Decimal; s_currency : CurrencyCode }.

Definition ParseMoney (amt : string) (cur : CurrencyCode) : Result Money :=
  match ParseCurrency cur with
  | Fail e => Fail e
  | Ok canonicalCurrency =>
    if negb (moneySyntax amt) then
      Fail (validation "amount" "must be a canonical non-negative decimal with up to four fractional digits")
    else match dNewFromString amt with
    | None => Fail (validation "amount" "is outside the supported range")
    | Some value =>
      if dIsNegative value || dGreaterThan value maxMoney
      then Fail (validation "amount" "is outside the supported range")
      else Ok (mkMoney value canonicalCurrency)
    end
  end.

Definition NewMoney (value : Decimal) (cur : CurrencyCode) : Result Money :=
  if dIsNegative value || dGreaterThan value maxMoney then Fail (overflow "amount" amount_msg)
  else
    let value := dRoundBank value 4 in
    ParseMoney (dStringFixed value 4) cur.

Definition m_isZero (m : Money) : bool := dIsZero (amount m).
Definition CanonicalAmount (m : Money) : string := dString (amount m).

(** [Money.Add] *)
Definition m_add (m other : Money) : Result Money :=
  if negb (bool_decide (currency m = currency other))
  then Fail (validation "currency" "money currencies must match")
  else NewMoney (dAdd (amount m) (amount other)) (currency m).

Definition ParseSignedMoney (amt : string) (cur : CurrencyCode) : Result SignedMoney :=
  match ParseCurrency cur with
  | Fail e => Fail e
  | Ok canonicalCurrency =>
    if negb (signedMoneySyntax amt) then
      Fail (validation "amount" "must be a canonical signed decimal with up to four fractional digits")
    else match dNewFromString amt with
    | None => Fail (validation "amount" "is outside the supported range")
    | Some value =>
      if dGreaterThan (dAbs value) maxMoney
      then Fail (validation "amount" "is outside the supported range")
      else Ok (mkSignedMoney value canonicalCurrency)
    end
  end.

Definition NewSignedMoney (value : Decimal) (cur : CurrencyCode) : Result SignedMoney :=
  match ParseCurrency cur with
  | Fail e => Fail e
  | Ok canonicalCurrency =>
    if dGreaterThan (dAbs value) maxMoney then Fail (overflow "amount" amount_msg)
    else
      let value := if -4 <=? dExponent value then dRound value 4 else dRoundBank value 4 in
      Ok (mkSignedMoney value canonicalCurrency)
  end.

End Money.

(** ** What the constructors accept and store *)

(** The largest money amount in units of [10 ^ -4]. *)
Definition max_units : Z := 9999999999999999.

Section MoneyFacts.
Context `{HD : DecimalAPI} {HL : DecimalLaws}.

(** A money value as the constructors leave it: at most four fractional digits,
    within range, in a canonical currency. *)
Definition munits (m : Money) : Z := units 4 (amount m).
Definition Money_ok (m : Money) : Prop :=
  -4 <= dExponent (amount m) ∧ 0 <= munits m <= max_units ∧ currency_ok (currency m) = true.

Lemma RequireFromString_literal s c e :
  literal s = Some (c, e) →
  dCoefficient (RequireFromString s) = c ∧ dExponent (RequireFromString s) = e.
Proof.
  intros H. destruct (dNewFromString_literal s c e H) as (d & E & ? & ?).
  unfold RequireFromString. by rewrite E.
Qed.

Lemma maxMoney_coef : dCoefficient maxMoney = max_units ∧ dExponent maxMoney = -4.
Proof. apply RequireFromString_literal. reflexivity. Qed.
Lemma maxQuantity_coef : dCoefficient maxQuantity = 99999999999999999999999999 ∧ dExponent maxQuantity = -8.
Proof. apply RequireFromString_literal. reflexivity. Qed.
Lemma maxUnitPrice_coef : dCoefficient maxUnitPrice = 99999999999999999999 ∧ dExponent maxUnitPrice = -8.
Proof. apply RequireFromString_literal. reflexivity. Qed.
Lemma maxFxRate_coef : dCoefficient maxFxRate = 99999999999999999999 ∧ dExponent maxFxRate = -12.
Proof. apply RequireFromString_literal. reflexivity. Qed.

Lemma maxMoney_units : units 4 maxMoney = max_units.
Proof. unfold units. destruct maxMoney_coef as [-> ->]. reflexivity. Qed.

Lemma maxMoney_val : (dval maxMoney * p10 4 == inject_Z max_units)%Q.
Proof. rewrite dval_units, maxMoney_units; [reflexivity|]. destruct maxMoney_coef as [_ ->]. lia. Qed.

(** Parsing accepted text: the exact literal value, in a canonical currency. *)
Lemma ParseMoney_literal s cur m :
  ParseMoney s cur = Ok m →
  moneySyntax s = true ∧ ParseCurrency cur = Ok (currency m) ∧
  literal s = Some (dCoefficient (amount m), dExponent (amount m)).
Proof.
  unfold ParseMoney. destruct (ParseCurrency cur) as [c|] eqn:Ec; [|discriminate]. intros H.
  inv_ok. prop_bool. destruct (dNewFromString s) as [d|] eqn:Ed; [|discriminate]. inv_ok.
  destruct (unsigned_syntax_literal 11 4 s ltac:(lia) ltac:(lia) C) as (v & e & Hl & _).
  destruct (dNewFromString_literal s v e Hl) as (d' & E' & Hv & He).
  rewrite Ed in E'. injection E' as <-. cbn. by subst.
Qed.

Lemma ParseMoney_ok s cur m : ParseMoney s cur = Ok m → Money_ok m ∧ dExponent (amount m) <= 0.
Proof.
  intros H. destruct (ParseMoney_literal _ _ _ H) as (Hs & Hc & Hl).
  destruct (unsigned_syntax_literal 11 4 s ltac:(lia) ltac:(lia) Hs) as (v & e & Hl' & Hv & He1 & He2).
  rewrite Hl in Hl'. injection Hl' as Hv' He'.
  unfold ParseMoney in H. rewrite Hc, Hs in H. cbn [negb] in H. destruct m as [a cc]. cbn in *.
  destruct (dNewFromString s) as [d|] eqn:Ed; [|discriminate]. inv_ok. prop_bool. subst.
  match goal with Hg : dGreaterThan _ _ = false |- _ => apply greater_false in Hg; rename Hg into G end.
  split; [|lia]. unfold Money_ok, munits. cbn. split; [lia|].
  split; [|by eapply ParseCurrency_ok].
  rewrite <-maxMoney_units. split.
  - unfold units, cunits. pose proof (pow10_pos (dExponent a + 4) ltac:(lia)). nia.
  - apply units_le; [lia| |done]. destruct maxMoney_coef as [_ ->]. lia.
Qed.

(** Accepted text within range is always parsed. *)
Lemma ParseMoney_intro s cur c v e :
  ParseCurrency cur = Ok c → moneySyntax s = true → literal s = Some (v, e) →
  ∃ d, ParseMoney s cur = Ok (mkMoney d c) ∧ dCoefficient d = v ∧ dExponent d = e.
Proof.
  intros Hc Hs Hl.
  destruct (unsigned_syntax_literal 11 4 s ltac:(lia) ltac:(lia) Hs) as (v' & e' & Hl' & Hv & He1 & He2).
  rewrite Hl in Hl'. injection Hl' as <- <-.
  destruct (dNewFromString_literal s v e Hl) as (d & Ed & Hdv & Hde).
  exists d. split; [|done]. unfold ParseMoney. rewrite Hc, Hs, Ed. cbn [negb].
  assert (N : dIsNegative d = false) by (apply isneg_false, dval_nonneg_coef; lia).
  assert (G : dGreaterThan d maxMoney = false).
  { apply greater_false. destruct maxMoney_coef as [_ Hme].
    apply (units_le 4); [lia|lia|]. rewrite maxMoney_units. unfold units, cunits. rewrite Hdv, Hde.
    assert (v * 10 ^ (e + 4) < 10 ^ 16) as Hlt; [|unfold max_units; lia].
    replace (10 ^ 16) with (10 ^ (12 - e) * 10 ^ (e + 4)).
    2:{ rewrite <-Z.pow_add_r by lia. f_equal. lia. }
    apply Z.mul_lt_mono_pos_r; [apply pow10_pos; lia|]. replace (12 - e) with (11 + 1 - e) by lia. lia. }
  by rewrite N, G.
Qed.

(** In range, [NewMoney] stores the value rounded half-even to four places. *)
Lemma NewMoney_rounds v cur c :
  ParseCurrency cur = Ok c → (0 <= dval v)%Q → (dval v <= dval maxMoney)%Q →
  ∃ d, NewMoney v cur = Ok (mkMoney d c) ∧ dExponent d = -4 ∧
       dCoefficient d = round_half_even (dval v * p10 4).
Proof.
  intros Hc H0 H1. unfold NewMoney.
  rewrite (proj2 (isneg_false v) H0), (proj2 (greater_false v maxMoney) H1). cbn [orb].
  set (z := round_half_even (dval v * p10 4)).
  assert (Hz : 0 <= z <= max_units).
  { apply round_half_even_bounds. rewrite <-maxMoney_val. pose proof (p10_pos 4).
    change (inject_Z 0) with 0%Q. split; nra. }
  assert (Hrb : (dval (dRoundBank v 4) * p10 4 == inject_Z z)%Q).
  { rewrite dval_units by (rewrite dRoundBank_expo; lia). unfold units, cunits.
    rewrite dRoundBank_coef, dRoundBank_expo. fold z. by rewrite Z.add_opp_diag_l, Z.mul_1_r. }
  assert (dStringFixed (dRoundBank v 4) 4 = plain_string false z (- (4))) as ->.
  { rewrite dStringFixed_plain, Hrb, round_half_away_Z by lia. done. }
  destruct (plain_string_text false z 4 11 4) as (Hs & c' & e' & Hl & _ & Hv & He);
    [lia|lia|unfold max_units in Hz; lia|left; lia|].
  specialize (He eq_refl ltac:(lia)). subst e'.
  destruct (ParseMoney_intro _ _ _ _ _ Hc Hs Hl) as (d & Hp & Hdv & Hde).
  exists d. split; [done|]. split; [done|]. rewrite Hdv.
  rewrite Hv. by rewrite Z.add_opp_diag_l, Z.mul_1_r.
Qed.

Lemma NewMoney_range v cur m : NewMoney v cur = Ok m →
  (0 <= dval v)%Q ∧ (dval v <= dval maxMoney)%Q ∧ ParseCurrency cur = Ok (currency m).
Proof.
  unfold NewMoney. intros H. inv_ok. apply orb_false_iff in C as [C1 C2].
  apply isneg_false in C1. apply greater_false in C2.
  split; [done|]. split; [done|]. apply (ParseMoney_literal _ _ _ H).
Qed.

Lemma NewMoney_ok v cur m : NewMoney v cur = Ok m → Money_ok m.
Proof. unfold NewMoney. intros H. inv_ok. exact (proj1 (ParseMoney_ok _ _ _ H)). Qed.

(** On values with at most four fractional digits nothing is rounded. *)
Lemma NewMoney_exact v cur c :
  ParseCurrency cur = Ok c → -4 <= dExponent v → 0 <= units 4 v <= max_units →
  ∃ m, NewMoney v cur = Ok m ∧ munits m = units 4 v ∧ currency m = c ∧ dExponent (amount m) = -4.
Proof.
  intros Hc He [H0 H1]. destruct maxMoney_coef as [_ Hme].
  destruct (NewMoney_rounds v cur c Hc) as (d & Hn & Hde & Hdc).
  - apply dval_nonneg_coef. unfold units, cunits in H0.
    pose proof (pow10_pos (dExponent v + 4) ltac:(lia)). nia.
  - apply (units_le 4); [lia|lia|]. by rewrite maxMoney_units.
  - eexists. split; [exact Hn|]. cbn. split; [|done]. unfold munits, units at 1, cunits. cbn.
    rewrite Hde, Hdc, dval_units, round_half_even_Z by lia. lia.
Qed.

Lemma NewMoney_exact_inv v cur m :
  -4 <= dExponent v → NewMoney v cur = Ok m →
  munits m = units 4 v ∧ 0 <= units 4 v <= max_units ∧
  ParseCurrency cur = Ok (currency m) ∧ dExponent (amount m) = -4.
Proof.
  intros He Hn. destruct (NewMoney_range _ _ _ Hn) as (H0 & H1 & Hc). destruct maxMoney_coef as [_ Hme].
  assert (0 <= units 4 v <= max_units) as Hr.
  { split.
    - apply dval_nonneg_coef in H0. unfold units, cunits.
      pose proof (pow10_pos (dExponent v + 4) ltac:(lia)). nia.
    - rewrite <-maxMoney_units. apply units_le; [lia|lia|done]. }
  destruct (NewMoney_exact v cur _ Hc He Hr) as (m' & Hn' & ? & ? & ?).
  rewrite Hn in Hn'. injection Hn' as <-. done.
Qed.

(** The canonical text of a valid amount parses back to the same value. *)
Lemma ParseMoney_CanonicalAmount m cur c :
  Money_ok m → dExponent (amount m) <= 0 → ParseCurrency cur = Ok c →
  ∃ d, ParseMoney (CanonicalAmount m) cur = Ok (mkMoney d c) ∧
       units 4 d = munits m ∧ -4 <= dExponent d <= 0.
Proof.
  intros (He & [Hu0 Hu1] & _) He0 Hc. unfold CanonicalAmount. rewrite dString_plain.
  unfold munits, units, cunits in *. set (v := dCoefficient (amount m)) in *.
  set (e := dExponent (amount m)) in *.
  pose proof (pow10_pos (e + 4) ltac:(lia)) as Hp.
  destruct (plain_string_text true v (- e) 11 4) as (Hs & c' & e' & Hl & He' & Hv & _);
    [lia|lia| |by right|].
  { split; [nia|]. assert (v * 10 ^ (e + 4) < 10 ^ (11 + 1 + - e) * 10 ^ (e + 4)) as Hlt.
    { rewrite <-Z.pow_add_r by lia. replace (11 + 1 + - e + (e + 4)) with 16 by lia.
      unfold max_units in Hu1. lia. }
    by apply Z.mul_lt_mono_pos_r in Hlt. }
  rewrite Z.opp_involutive in Hs, Hl, He'.
  destruct (ParseMoney_intro _ _ _ _ _ Hc Hs Hl) as (d & Hp' & Hdv & Hde).
  exists d. split; [done|]. rewrite Hdv, Hde. split; [|lia].
  rewrite Hv, <-Z.mul_assoc, <-Z.pow_add_r by lia. do 2 f_equal. lia.
Qed.

(** ** Bounded decimals *)

Lemma bigIntString_abs_len z : slen (bigIntString (Z.abs z)) = Z.of_nat (ndigits (Z.abs z)).
Proof.
  unfold bigIntString. rewrite (proj2 (Z.ltb_ge _ _)) by lia. apply nat_string_len.
Qed.

Lemma dAbs_coef v : dCoefficient (dAbs v) = Z.abs (dCoefficient v).
Proof.
  pose proof (units_abs (- dExponent v) v ltac:(lia)) as H. unfold units, cunits in H.
  rewrite dAbs_expo, Z.add_opp_diag_r, Z.pow_0_r, !Z.mul_1_r in H. exact H.
Qed.

Lemma decimalShape_nonzero v : dIsZero v = false →
  let nd := Z.of_nat (ndigits (Z.abs (dCoefficient v))) in
  decimalShape v = if 0 <=? dExponent v then (0, nd + dExponent v)
                   else (- dExponent v, Z.max 1 (nd + dExponent v)).
Proof.
  intros Hz. cbn zeta. unfold decimalShape. rewrite Hz, dAbs_coef, bigIntString_abs_len.
  destruct (Z.leb_spec 0 (dExponent v)); [done|]. f_equal.
  destruct (Z.ltb_spec (Z.of_nat (ndigits (Z.abs (dCoefficient v))) - - dExponent v) 1); lia.
Qed.

(** The digit limits add nothing to the range check, apart from the scale. *)
Lemma decimalShape_digits v I S :
  0 < I → 0 <= S → 0 < dCoefficient v → (dval v * p10 S < inject_Z (10 ^ (I + S)))%Q →
  - S <= dExponent v → (decimalShape v).2 <= I ∧ (decimalShape v).1 <= S.
Proof.
  intros HI HS Hc Hv He.
  assert (Hz : dIsZero v = false).
  { apply iszero_false. rewrite dval_zero_coef. lia. }
  rewrite (decimalShape_nonzero v Hz). rewrite Z.abs_eq by lia.
  rewrite dval_units in Hv by lia. rewrite <-Zlt_Qlt in Hv. unfold units, cunits in Hv.
  assert (Hb : dCoefficient v < 10 ^ Z.max 1 (I - dExponent v)).
  { destruct (Z.le_gt_cases (I - dExponent v) 0) as [Hneg|Hpos].
    - exfalso. pose proof (pow10_le (I + S) (dExponent v + S) ltac:(lia)). nia.
    - rewrite Z.max_r by lia. apply (Z.mul_lt_mono_pos_r (10 ^ (dExponent v + S))).
      + apply pow10_pos. lia.
      + rewrite <-Z.pow_add_r by lia.
        by replace (I - dExponent v + (dExponent v + S)) with (I + S) by lia. }
  assert (I - dExponent v < 1 → False) as Hge.
  { intros Hneg. pose proof (pow10_le (I + S) (dExponent v + S) ltac:(lia)). nia. }
  rewrite Z.max_r in Hb by lia.
  pose proof (ndigits_le (dCoefficient v) (I - dExponent v) ltac:(lia) ltac:(lia)).
  destruct (Z.leb_spec 0 (dExponent v)); cbn [fst snd]; lia.
Qed.

Lemma validateBoundedDecimal_spec field v maximum I S pos :
  0 < I → 0 <= S → dCoefficient maximum = 10 ^ (I + S) - 1 → dExponent maximum = - S →
  validateBoundedDecimal field v maximum I S pos = Ok tt ↔
  (0 <= dval v)%Q ∧ (pos = true → ¬ (dval v == 0)%Q) ∧ (dval v <= dval maximum)%Q ∧
  ((dval v == 0)%Q ∨ - S <= dExponent v).
Proof.
  intros HI HS Hmc Hme. unfold validateBoundedDecimal.
  assert (Hmv : (dval maximum * p10 S == inject_Z (10 ^ (I + S) - 1))%Q).
  { rewrite dval_units by lia. unfold units, cunits. rewrite Hmc, Hme.
    by rewrite Z.add_opp_diag_l, Z.mul_1_r. }
  split.
  - intros H. destruct (dIsNegative v) eqn:En; [discriminate|].
    destruct (pos && dIsZero v) eqn:Ep; [discriminate|].
    destruct (dGreaterThan v maximum) eqn:Eg; [discriminate|].
    destruct (decimalShape v) as [sc dg] eqn:Es.
    destruct ((S <? sc) || (I <? dg)) eqn:Eb; [discriminate|]. prop_bool.
    split; [by apply isneg_false|]. split; [|split; [by apply greater_false|]].
    + intros -> Hz. apply dIsZero_val in Hz. by rewrite Hz in Ep.
    + destruct (dIsZero v) eqn:Ez; [left; by apply dIsZero_val|right].
      rewrite (decimalShape_nonzero v Ez) in Es.
      destruct (Z.leb_spec 0 (dExponent v)); [lia|]. injection Es as <- <-. lia.
  - intros (H0 & Hp & Hm & Hs). rewrite (proj2 (isneg_false v) H0).
    rewrite (proj2 (greater_false v maximum) Hm).
    destruct (dIsZero v) eqn:Ez.
    + apply dIsZero_val in Ez. destruct pos; [by destruct (Hp eq_refl)|]. cbn [andb].
      apply dIsZero_val in Ez. unfold decimalShape. rewrite Ez.
      rewrite (proj2 (Z.ltb_ge _ _)), (proj2 (Z.ltb_ge _ _)) by lia. done.
    + rewrite andb_false_r. apply iszero_false in Ez.
      destruct Hs as [Hs|Hs]; [by destruct Ez|].
      assert (0 < dCoefficient v) as Hc.
      { apply dval_nonneg_coef in H0. rewrite dval_zero_coef in Ez. lia. }
      destruct (decimalShape_digits v I S HI HS Hc) as [D1 D2]; [|done|].
      * eapply Qle_lt_trans with (dval maximum * p10 S)%Q.
        -- pose proof (p10_pos S). nra.
        -- rewrite Hmv, <-Zlt_Qlt. lia.
      * destruct (decimalShape v) as [sc dg]. cbn in *.
        rewrite (proj2 (Z.ltb_ge _ _)), (proj2 (Z.ltb_ge _ _)) by lia. done.
Qed.

(** A quantity as the constructors leave it: at most eight fractional digits
    (unless zero) and within range; [qunits] counts units of [10 ^ -8]. *)
Definition qunits (q : Quantity) : Z := units 8 (q_value q).
Definition Quantity_ok (q : Quantity) : Prop :=
  validateBoundedDecimal "quantity" (q_value q) maxQuantity 18 8 false = Ok tt.
Definition UnitPrice_ok (p : UnitPrice) : Prop :=
  validateBoundedDecimal "unitPrice" (p_value p) maxUnitPrice 12 8 false = Ok tt.
Definition FxRate_ok (r : FxRate) : Prop :=
  validateBoundedDecimal "fxRate" (r_value r) maxFxRate 8 12 true = Ok tt.

Lemma NewQuantity_ok v q : NewQuantity v = Ok q ↔ q = mkQuantity v ∧ Quantity_ok q.
Proof.
  unfold NewQuantity, Quantity_ok. split.
  - destruct (validateBoundedDecimal _ _ _ _ _ _) as [[]|] eqn:E; [|discriminate].
    intros [= <-]. done.
  - intros [-> H]. cbn in H. by rewrite H.
Qed.

Lemma NewUnitPrice_ok v p : NewUnitPrice v = Ok p ↔ p = mkUnitPrice v ∧ UnitPrice_ok p.
Proof.
  unfold NewUnitPrice, UnitPrice_ok. split.
  - destruct (validateBoundedDecimal _ _ _ _ _ _) as [[]|] eqn:E; [|discriminate].
    intros [= <-]. done.
  - intros [-> H]. cbn in H. by rewrite H.
Qed.

Lemma NewFxRate_ok v r : NewFxRate v = Ok r ↔ r = mkFxRate v ∧ FxRate_ok r.
Proof.
  unfold NewFxRate, FxRate_ok. split.
  - destruct (validateBoundedDecimal _ _ _ _ _ _) as [[]|] eqn:E; [|discriminate].
    intros [= <-]. done.
  - intros [-> H]. cbn in H. by rewrite H.
Qed.

Lemma Quantity_ok_spec q : Quantity_ok q ↔
  (0 <= dval (q_value q))%Q ∧ (dval (q_value q) <= dval maxQuantity)%Q ∧
  ((dval (q_value q) == 0)%Q ∨ -8 <= dExponent (q_value q)).
Proof.
  unfold Quantity_ok. destruct maxQuantity_coef as [Hc He].
  rewrite validateBoundedDecimal_spec; [|lia|lia|exact Hc|exact He]. naive_solver.
Qed.

Lemma UnitPrice_ok_spec p : UnitPrice_ok p ↔
  (0 <= dval (p_value p))%Q ∧ (dval (p_value p) <= dval maxUnitPrice)%Q ∧
  ((dval (p_value p) == 0)%Q ∨ -8 <= dExponent (p_value p)).
Proof.
  unfold UnitPrice_ok. destruct maxUnitPrice_coef as [Hc He].
  rewrite validateBoundedDecimal_spec; [|lia|lia|exact Hc|exact He]. naive_solver.
Qed.

Lemma FxRate_ok_spec r : FxRate_ok r ↔
  (0 < dval (r_value r))%Q ∧ (dval (r_value r) <= dval maxFxRate)%Q ∧ -12 <= dExponent (r_value r).
Proof.
  unfold FxRate_ok. destruct maxFxRate_coef as [Hc He].
  rewrite validateBoundedDecimal_spec; [|lia|lia|exact Hc|exact He]. split.
  - intros (H0 & Hp & Hm & [Hs|Hs]); specialize (Hp eq_refl); [done|].
    split; [|done]. apply Qle_lteq in H0 as [|H0]; [done|]. destruct Hp. by rewrite <-H0.
  - intros (H0 & Hm & Hs). repeat split; [lra|intros _; lra|done|by right].
Qed.


Lemma checkedIntermediate_ok v x : checkedIntermediate v = Ok x → x = v ∧ (0 <= dval v)%Q.
Proof.
  unfold checkedIntermediate. destruct (dIsNegative v) eqn:E; [done|]. cbn [orb].
  destruct (dGreaterThan v maxMoney); [done|]. intros [= <-]. split; [done|]. by apply isneg_false.
Qed.

Lemma q_multiply_ok q p x : q_multiply q p = Ok x →
  (dval x == dval (q_value q) * dval (p_value p))%Q ∧ (0 <= dval x)%Q.
Proof.
  intros H. apply checkedIntermediate_ok in H as [-> Hv]. split; [apply dMul_val|done].
Qed.

Definition sm_units (m : SignedMoney) : Z := units 4 (s_amount m).

Lemma NewSignedMoney_units v c m : NewSignedMoney v c = Ok m → sm_units m = round_half_even (dval v * p10 4).
Proof.
  unfold NewSignedMoney. destruct (ParseCurrency c); [|done]. destruct (dGreaterThan _ _); [done|].
  intros [= <-]. unfold sm_units, units, cunits. cbn [s_amount]. destruct (Z.leb_spec (-4) (dExponent v)) as [He|He].
  - rewrite dRound_coef, dRound_expo. rewrite dval_units, round_half_away_Z, round_half_even_Z by lia.
    change (-4 + 4) with 0. lia.
  - rewrite dRoundBank_coef, dRoundBank_expo. change (-4 + 4) with 0. lia.
Qed.
End MoneyFacts.

Section MoneyTheorems.
Context `{HD : DecimalAPI} {HL : DecimalLaws}.

(** [NewMoney] is exact half-even rounding to four places: inside the
    supported range, and in a currency the parser accepts, it stores the nearest
    multiple of [10 ^ -4] (the even one on a tie); outside the range it reports
    the overflow error whatever the currency; inside the range a bad currency is
    reported as such.  It never fails for any other reason. *)
Theorem NewMoney_correct v cur :
  (dval v < 0 ∨ dval maxMoney < dval v → code_of (NewMoney v cur) = Some ErrDecimalOverflow)%Q ∧
  (0 <= dval v ∧ dval v <= dval maxMoney →
   match ParseCurrency cur with
   | Fail e => NewMoney v cur = Fail e
   | Ok c => ∃ m, NewMoney v cur = Ok m ∧ Money_ok m ∧ currency m = c ∧
                  is_half_even (dval v * p10 4) (munits m)
   end)%Q.
Proof.
  split.
  - intros Hr. unfold NewMoney. assert (dIsNegative v || dGreaterThan v maxMoney = true) as ->; [|done].
    rewrite orb_true_iff, dIsNegative_val, dGreaterThan_val. done.
  - intros [H0 H1]. destruct (ParseCurrency cur) as [c|e] eqn:Ec.
    + destruct (NewMoney_rounds v cur c Ec H0 H1) as (d & Hn & He & Hc).
      eexists. split; [exact Hn|]. split; [by eapply NewMoney_ok|]. split; [done|].
      assert (munits (mkMoney d c) = round_half_even (dval v * p10 4)) as ->.
      { unfold munits, units, cunits. cbn [amount]. rewrite He, Hc. lia. }
      apply round_half_even_spec.
    + unfold NewMoney, ParseMoney.
      by rewrite (proj2 (isneg_false v) H0), (proj2 (greater_false v maxMoney) H1), Ec.
Qed.

(** Claim C36.  Money survives its text form: the canonical text of any amount that
    [NewMoney] or [ParseMoney] built parses, in the currency the amount carries, to
    the same exact value and the same currency. *)
Theorem money_text_roundtrip m v s cur :
  NewMoney v cur = Ok m ∨ ParseMoney s cur = Ok m →
  ∃ m', ParseMoney (CanonicalAmount m) (currency m) = Ok m' ∧
        (dval (amount m') == dval (amount m))%Q ∧ currency m' = currency m.
Proof.
  intros H.
  assert (Money_ok m ∧ dExponent (amount m) <= 0) as [Hok He].
  { destruct H as [H|H]; [|by eapply ParseMoney_ok]. revert H. unfold NewMoney. intros H. inv_ok.
    by eapply ParseMoney_ok. }
  destruct (ParseMoney_CanonicalAmount m (currency m) (currency m)) as (d & Hp & Hu & Hd);
    [done|done|apply ParseCurrency_id, Hok|].
  eexists. split; [exact Hp|]. split; [|done]. cbn.
  apply (units_eq 4); [lia|apply Hok|exact Hu].
Qed.

(** [Money.Add] is exact: amounts of different currencies are refused;
    otherwise the sum is stored without rounding when it fits, and reported as an
    overflow when it does not. *)
Theorem m_add_correct a b :
  Money_ok a → Money_ok b →
  (currency a ≠ currency b → code_of (m_add a b) = Some ErrValidation) ∧
  (currency a = currency b → munits a + munits b <= max_units →
   ∃ m, m_add a b = Ok m ∧ Money_ok m ∧ munits m = munits a + munits b ∧ currency m = currency a) ∧
  (currency a = currency b → max_units < munits a + munits b →
   code_of (m_add a b) = Some ErrDecimalOverflow).
Proof.
  intros (Ha & Ha' & Hca) (Hb & Hb' & Hcb). unfold m_add.
  assert (Hs : -4 <= dExponent (dAdd (amount a) (amount b))) by (rewrite dAdd_expo; lia).
  assert (Hu : units 4 (dAdd (amount a) (amount b)) = munits a + munits b) by (apply units_add; lia).
  split; [|split].
  - intros Hn. by rewrite bool_decide_eq_false_2.
  - intros <- Hle. rewrite bool_decide_eq_true_2 by done. cbn [negb].
    destruct (NewMoney_exact _ _ _ (ParseCurrency_id _ Hca) Hs) as (m & Hn & Hm & Hc & _).
    { rewrite Hu. lia. }
    exists m. split; [done|]. split; [by eapply NewMoney_ok|]. split; [|done]. by rewrite Hm.
  - intros <- Hlt. rewrite bool_decide_eq_true_2 by done. cbn [negb]. unfold NewMoney.
    assert (dGreaterThan (dAdd (amount a) (amount b)) maxMoney = true) as ->; [|by rewrite orb_true_r].
    destruct maxMoney_coef as [_ Hme].
    apply dGreaterThan_val, (units_lt 4); [lia|lia|]. by rewrite Hu, maxMoney_units.
Qed.

(** The digit limits of quantities, prices and rates are exactly range
    limits plus a limit on fractional digits: the constructor accepts a decimal
    iff it is within [0 .. maximum] (strictly positive for a rate) and, unless
    zero, has at most eight (twelve) fractional digits; it stores the value
    unchanged. *)
Theorem bounded_decimals_correct v :
  (∀ q, NewQuantity v = Ok q ↔ q_value q = v ∧ (0 <= dval v)%Q ∧ (dval v <= dval maxQuantity)%Q ∧
        ((dval v == 0)%Q ∨ -8 <= dExponent v)) ∧
  (∀ p, NewUnitPrice v = Ok p ↔ p_value p = v ∧ (0 <= dval v)%Q ∧ (dval v <= dval maxUnitPrice)%Q ∧
        ((dval v == 0)%Q ∨ -8 <= dExponent v)) ∧
  (∀ r, NewFxRate v = Ok r ↔ r_value r = v ∧ (0 < dval v)%Q ∧ (dval v <= dval maxFxRate)%Q ∧
        -12 <= dExponent v).
Proof.
  split; [|split].
  - intros q. rewrite NewQuantity_ok, Quantity_ok_spec. destruct q as [w]. cbn.
    split; intros (He & H); [injection He as ->|subst]; done.
  - intros p. rewrite NewUnitPrice_ok, UnitPrice_ok_spec. destruct p as [w]. cbn.
    split; intros (He & H); [injection He as ->|subst]; done.
  - intros r. rewrite NewFxRate_ok, FxRate_ok_spec. destruct r as [w]. cbn.
    split; intros (He & H); [injection He as ->|subst]; done.
Qed.
End MoneyTheorems.

Lemma NewMoney_correct_witness :
  let v : Decimal := dNew 1000050 (-7) in
  ∃ m, NewMoney v "USD" = Ok m ∧ Money_ok m ∧ currency m = "USD"%string ∧
       is_half_even (dval v * p10 4) (munits m).
Proof. apply (proj2 (NewMoney_correct (dNew 1000050 (-7)) "USD")). split; vm_compute; discriminate. Defined.

Lemma money_text_roundtrip_witness :
  let m := mkMoney (dNew 15000 (-4)) "EUR" in
  ∃ m', ParseMoney (CanonicalAmount m) (currency m) = Ok m' ∧
        (dval (amount m') == dval (amount m))%Q ∧ currency m' = currency m.
Proof. apply (money_text_roundtrip _ (dNew 15 (-1)) "" "eur"). left. reflexivity. Defined.

Lemma m_add_correct_witness :
  let a := mkMoney (dNew 5 (-1)) "USD" in
  code_of (m_add a (mkMoney (dNew 1 0) "EUR")) = Some ErrValidation.
Proof.
  apply (m_add_correct (mkMoney (dNew 5 (-1)) "USD") (mkMoney (dNew 1 0) "EUR"));
    [split; [|split]; vm_compute; done..|done].
Defined.

Lemma bounded_decimals_correct_witness :
  NewFxRate (dNew 725 (-2)) = Ok (mkFxRate (dNew 725 (-2))).
Proof.
  apply (proj2 (proj2 (bounded_decimals_correct (dNew 725 (-2)))) (mkFxRate _)).
  repeat split; vm_compute; done.
Defined.
