(* ===== verification/Fx.v ===== *)
(** * Currency conversion

    The conversion half of [internal/domain/decimal.go] and the quote it reads
    ([FXQuote] of [portfolio.go]).  A [big.Rat] is a rational [Q]; its numerator
    and denominator are those of the reduced fraction, as [math/big] keeps them. *)

From S2P Require Export Money GoTime.
From S2P Require Import DecimalModel.
From Stdlib Require Import String.

#[global] Open Scope Z_scope.

Inductive QuoteSourceKind := QuoteSourceManual | QuoteSourceProvider | QuoteSourceAgent.

#[export] Instance QuoteSourceKind_eq_dec : EqDecision QuoteSourceKind.
Proof. solve_decision. Defined.

Section Fx.
Context `{HD : DecimalAPI}.

Record FXQuote := mkFXQuote {
  fq_ID : string; fq_HouseholdID : HouseholdID;
  BaseCurrency : CurrencyCode; QuoteCurrency : CurrencyCode; Rate : FxRate;
  fq_SourceKind : QuoteSourceKind; fq_SourceKey : string;
  fq_QuotedAt : Time; fq_CreatedAt : Time; fq_Delayed : bool;
  fq_ObservationKind : string; fq_EffectiveDate : string; fq_FetchedAt : Time;
  fq_ValueEffectiveAt : Time; fq_SourcePolicyVersion : string; fq_TimestampBasis : string;
  fq_Revision : Z; fq_SupersedesQuoteID : option string }.

Definition fx_mismatch : goerror := validation "fxRate" "quote currencies do not match the conversion".
Definition fx_zero : goerror := validation "fxRate" "must be greater than zero".

Definition MaxInt32 : Z := 2147483647.

Definition divideFXAmountByRate (value rate : Decimal) : Result Decimal :=
  if dIsZero rate then Fail fx_zero
  else
    let '(scale, _) := decimalShape value in
    if maxFXConversionInputFractionDigits <? scale then Fail (overflow "amount" calc_msg)
    else
      let denominatorScale := scale + dExponent rate in
      let denominatorScale := if denominatorScale <? 0 then 0 else denominatorScale in
      let precision := slen (bigIntString (dCoefficient rate)) + denominatorScale + moneyAmountFractionDigits in
      let precision := if precision <? minimumFXDivisionPrecision then minimumFXDivisionPrecision else precision in
      if MaxInt32 <? precision then Fail (overflow "amount" calc_msg)
      else Ok (dDivRound value rate precision).

Definition MultiplyByFxRate (value : Decimal) (rate : FxRate) : Result Decimal :=
  checkedIntermediate (dMul value (r_value rate)).

Definition DivideByFxRate (value : Decimal) (rate : FxRate) : Result Decimal :=
  if dIsZero (r_value rate) then Fail fx_zero
  else
    converted ← divideFXAmountByRate value (r_value rate);
    checkedIntermediate converted.

(** (multiplier, divisor) *)
Definition fxConversionFactors (from to : CurrencyCode) (quote : FXQuote) : Result (Decimal * Decimal) :=
  let one := dInt 1 in
  if dIsZero (r_value (Rate quote)) then Fail fx_zero
  else if bool_decide (BaseCurrency quote = from) && bool_decide (QuoteCurrency quote = to)
  then Ok (r_value (Rate quote), one)
  else if bool_decide (BaseCurrency quote = to) && bool_decide (QuoteCurrency quote = from)
  then Ok (one, r_value (Rate quote))
  else Fail fx_mismatch.

(** The division step and the range guard both conversions end with. *)
Definition divideUnlessOne (converted divisor : Decimal) : Result Decimal :=
  if negb (dEqual divisor (dInt 1)) then divideFXAmountByRate converted divisor else Ok converted.

Definition ConvertFXAmount (value : Decimal) (from to : CurrencyCode) (quote : FXQuote) : Result Decimal :=
  if dGreaterThan (dAbs value) maxMoney then Fail (overflow "amount" calc_msg)
  else if bool_decide (from = to) then Ok value
  else
    '(multiplier, divisor) ← fxConversionFactors from to quote;
    converted ← divideUnlessOne (dMul value multiplier) divisor;
    if dGreaterThan (dAbs converted) maxMoney then Fail (overflow "amount" calc_msg)
    else Ok converted.

Definition ConvertFXAmountViaQuotes (value : Decimal) (from via to : CurrencyCode)
    (first second : FXQuote) : Result Decimal :=
  if dGreaterThan (dAbs value) maxMoney then Fail (overflow "amount" calc_msg)
  else if bool_decide (from = via) || bool_decide (via = to) then Fail fx_mismatch
  else
    '(firstMultiplier, firstDivisor) ← fxConversionFactors from via first;
    '(secondMultiplier, secondDivisor) ← fxConversionFactors via to second;
    let multiplier := dMul firstMultiplier secondMultiplier in
    let divisor := dMul firstDivisor secondDivisor in
    converted ← divideUnlessOne (dMul value multiplier) divisor;
    if dGreaterThan (dAbs converted) maxMoney then Fail (overflow "amount" calc_msg)
    else Ok converted.

(** ** Exact rationals *)

(** [Rat.SetString] on a plain decimal literal, the only text it is given. *)
Definition ratSetString (s : string) : option Q :=
  match literal s with Some (c, e) => Some (cval c e) | None => None end.

Definition RationalFromDecimal (value : Decimal) : Q :=
  let numerator := dCoefficient value in
  let exponent := dExponent value in
  if 0 <=? exponent then inject_Z (numerator * 10 ^ exponent)
  else (inject_Z numerator / inject_Z (10 ^ (- exponent)))%Q.

(** The argument is a pointer, which may be nil. *)
Definition CheckExactMoneyRange (value : option Q) : Result unit :=
  match value with
  | None => Ok tt
  | Some v =>
    match ratSetString (dString maxMoney) with
    | None => Fail (domainErr ErrIntegrity "amount" "money range could not be resolved")
    | Some limit => if Qle_bool (Qabs v) limit then Ok tt else Fail (overflow "amount" amount_msg)
    end
  end.

Definition CheckExactUnsignedMoneyRange (value : option Q) : Result unit :=
  match value with
  | Some v => if negb (Qle_bool 0 v) then Fail (overflow "amount" amount_msg)
              else CheckExactMoneyRange value
  | None => CheckExactMoneyRange value
  end.

Definition ConvertFXAmountExact (value : Decimal) (from to : CurrencyCode) (quote : FXQuote) : Result Q :=
  if dGreaterThan (dAbs value) maxMoney then Fail (overflow "amount" calc_msg)
  else
    let converted := RationalFromDecimal value in
    if bool_decide (from = to) then
      match CheckExactMoneyRange (Some converted) with Fail e => Fail e | Ok _ => Ok converted end
    else
      '(multiplier, divisor) ← fxConversionFactors from to quote;
      let converted := (converted * RationalFromDecimal multiplier)%Q in
      let converted := if negb (dEqual divisor (dInt 1))
                       then (converted / RationalFromDecimal divisor)%Q else converted in
      match CheckExactMoneyRange (Some converted) with
      | Fail _ => Fail (overflow "amount" calc_msg)
      | Ok _ => Ok converted
      end.

Definition ExactFXIntermediateDecimal (value : option Q) : Result Decimal :=
  match value with
  | None => Ok dZero
  | Some v =>
    if Qeq_bool v 0 then Ok dZero
    else match CheckExactMoneyRange value with
    | Fail e => Fail e
    | Ok _ =>
      let numerator := dInt (Qnum (Qred v)) in
      let denominator := dInt (Zpos (Qden (Qred v))) in
      Ok (dDivRound numerator denominator maxFXConversionInputFractionDigits)
    end
  end.
End Fx.

(** ** Rounding twice is rounding once *)

(** A fraction with denominator [D] that is first rounded to a grid of [P] parts,
    finer than its own denominator, and then to the integers, lands where a single
    half-even rounding does. *)
Lemma double_rounding (x : Q) (N : Z) (D P : positive) :
  (x * inject_Z (Zpos D) == inject_Z N)%Q → (D < P)%positive → Z.even (Zpos P) = true →
  round_half_even (inject_Z (round_half_away (x * inject_Z (Zpos P))) / inject_Z (Zpos P))
  = round_half_even x.
Proof.
  intros Hx HDP HP.
  assert (Hq : (x == Qmake N D)%Q).
  { apply (Qmult_inj_r _ _ (inject_Z (Zpos D))); [discriminate|]. rewrite Hx.
    unfold Qeq. cbn. lia. }
  set (r := round_half_away (x * inject_Z (Zpos P))).
  assert (Hr : is_half_away (Qmake (N * Zpos P) D) r).
  { unfold r. rewrite Hq.
    assert ((Qmake N D * inject_Z (Zpos P) == Qmake (N * Zpos P) D)%Q) as -> by (unfold Qeq; cbn; lia).
    apply round_half_away_spec. }
  apply is_half_away_Z in Hr as (Hr & _ & _).
  assert ((inject_Z r / inject_Z (Zpos P) == Qmake r P)%Q) as ->.
  { unfold Qdiv, Qinv, Qeq. cbn. lia. }
  apply (is_half_even_unique (Qmake r P)); [apply round_half_even_spec|].
  pose proof (round_half_even_spec x) as Hz. rewrite Hq in Hz at 1.
  set (z := round_half_even x) in *. apply is_half_even_Z in Hz as (Hz & Htie).
  apply is_half_even_Z. apply Z.even_spec in HP as [h Hh].
  assert (Hlo : (2 * r - 2 * z * Zpos P - Zpos P) * Zpos D <= Zpos D) by nia.
  assert (Hhi : - Zpos D <= (2 * r - 2 * z * Zpos P + Zpos P) * Zpos D) by nia.
  assert (2 * r - 2 * z * Zpos P - Zpos P <= 1) by nia.
  assert (-1 <= 2 * r - 2 * z * Zpos P + Zpos P) by nia.
  split; [lia|]. intros Habs. apply Htie.
  assert (2 * r - 2 * z * Zpos P = Zpos P ∨ 2 * r - 2 * z * Zpos P = - Zpos P) as [E|E] by lia.
  - assert (- Zpos D <= (2 * N - 2 * z * Zpos D - Zpos D) * Zpos P) by nia.
    assert (-1 < 2 * N - 2 * z * Zpos D - Zpos D) by nia. lia.
  - assert ((2 * N - 2 * z * Zpos D + Zpos D) * Zpos P <= Zpos D) by nia.
    assert (2 * N - 2 * z * Zpos D + Zpos D < 1) by nia. lia.
Qed.

Section FxFacts.
Context `{HD : DecimalAPI} {HL : DecimalLaws}.

(** The Money boundary sees the same amount in both numbers. *)
Definition same_money (a b : Q) : Prop := round_half_even (a * p10 4) = round_half_even (b * p10 4).

Lemma RationalFromDecimal_val v : (RationalFromDecimal v == dval v)%Q.
Proof.
  unfold RationalFromDecimal, dval, cval. destruct (Z.leb_spec 0 (dExponent v)).
  - rewrite inject_Z_mult, p10_Z by lia. reflexivity.
  - rewrite <-p10_Z, p10_inv by lia. unfold Qdiv. rewrite Qinv_involutive. reflexivity.
Qed.

Lemma scale_nonneg v : 0 <= (decimalShape v).1 ∧ ((dval v == 0)%Q ∨ - (decimalShape v).1 <= dExponent v).
Proof.
  destruct (dIsZero v) eqn:Ez.
  - split; [by unfold decimalShape; rewrite Ez|]. left. by apply dIsZero_val.
  - rewrite decimalShape_nonzero by done.
    destruct (Z.leb_spec 0 (dExponent v)); cbn [fst]; (split; [lia|]); right; lia.
Qed.

Lemma bigIntString_len z : Z.of_nat (ndigits (Z.abs z)) <= slen (bigIntString z).
Proof.
  unfold bigIntString. destruct (Z.ltb_spec z 0).
  - rewrite slen_cons, nat_string_len. replace (Z.abs z) with (- z) by lia. lia.
  - rewrite nat_string_len, Z.abs_eq by lia. lia.
Qed.

(** The quotient times four places is a fraction whose denominator is the rate's
    coefficient, padded by the scale excess. *)
Lemma quotient_denominator value rate k :
  - k <= dExponent value → 0 <= k → ¬ (dval rate == 0)%Q →
  let E := Z.max 0 (k + dExponent rate) in
  ∃ N, (dval value / dval rate * p10 4 * inject_Z (Z.abs (dCoefficient rate) * 10 ^ E) == inject_Z N)%Q.
Proof.
  intros Hk Hk0 Hr E. set (c := dCoefficient rate). set (e := dExponent rate) in *.
  assert (c ≠ 0) as Hc. { intros H0. apply Hr. by rewrite dval_zero_coef. }
  exists (Z.sgn c * units k value * 10 ^ (E + 4 - (k + e))).
  rewrite !inject_Z_mult, <-(dval_units k), <-!p10_Z by lia.
  assert (Hs : (inject_Z (Z.abs c) == inject_Z (Z.sgn c) * inject_Z c)%Q).
  { rewrite <-inject_Z_mult. by rewrite Z.mul_comm, Z.sgn_abs. }
  rewrite Hs. unfold dval at 2, cval. fold c e.
  replace (E + 4 - (k + e)) with (E + (4 + (- k + - e))) by lia.
  rewrite !p10_add, (p10_inv e), (p10_inv k). field. split; [|split]; try apply p10_nz.
  unfold Qeq. cbn. lia.
Qed.

(** What a successful division promises: the documented precision, at most half a
    unit of error at that precision, and the same amount at the Money boundary. *)
Lemma divideFXAmountByRate_ok value rate d :
  divideFXAmountByRate value rate = Ok d →
  ¬ (dval rate == 0)%Q ∧
  ∃ p, 16 <= p ∧ d = dDivRound value rate p ∧
       same_money (dval d) (dval value / dval rate).
Proof.
  unfold divideFXAmountByRate. destruct (dIsZero rate) eqn:C; [discriminate|].
  destruct (decimalShape value) as [scale dg] eqn:Es.
  destruct (_ <? scale); [discriminate|]. apply iszero_false in C. intros H. split; [done|].
  pose proof (scale_nonneg value) as [Hs0 Hs]. rewrite Es in Hs0, Hs. cbn [fst] in *.
  revert H. cbn zeta. set (p := if _ <? minimumFXDivisionPrecision then _ else _).
  destruct (MaxInt32 <? p); [discriminate|]. intros H.
  assert (Hp : 16 <= p ∧ slen (bigIntString (dCoefficient rate)) +
               Z.max 0 (scale + dExponent rate) + 4 <= p).
  { unfold p, minimumFXDivisionPrecision, moneyAmountFractionDigits.
    destruct (Z.ltb_spec (scale + dExponent rate) 0);
      match goal with |- context [?a <? 16] => destruct (Z.ltb_spec a 16) end; lia. }
  injection H as <-. exists p. split; [lia|]. split; [done|].
  unfold same_money, dval at 1, cval. rewrite dDivRound_coef, dDivRound_expo by done.
  set (q := (dval value / dval rate)%Q).
  assert (Hq : (q * p10 p == q * p10 4 * inject_Z (Zpos (Z.to_pos (10 ^ (p - 4)))))%Q).
  { rewrite Z2Pos.id by (apply pow10_pos; lia). rewrite <-p10_Z, <-Qmult_assoc, <-p10_add by lia.
    by replace (4 + (p - 4)) with p by lia. }
  set (r := round_half_away (q * p10 p)).
  assert ((inject_Z r * p10 (- p) * p10 4 == inject_Z r / inject_Z (Zpos (Z.to_pos (10 ^ (p - 4)))))%Q) as ->.
  { rewrite Z2Pos.id by (apply pow10_pos; lia). unfold Qdiv.
    rewrite <-p10_Z, <-p10_inv, <-Qmult_assoc, <-p10_add by lia.
    by replace (- p + 4) with (- (p - 4)) by lia. }
  unfold r. rewrite Hq.
  set (D := Z.abs (dCoefficient rate) * 10 ^ Z.max 0 (scale + dExponent rate)).
  assert (Hc : dCoefficient rate ≠ 0). { intros H0. apply C. by rewrite dval_zero_coef. }
  pose proof (pow10_pos (Z.max 0 (scale + dExponent rate)) ltac:(lia)) as HpE.
  assert (HD0 : 0 < D) by (unfold D; nia).
  assert (HDn : ∃ N, (q * p10 4 * inject_Z D == inject_Z N)%Q).
  { destruct Hs as [Hz|Hs]; [|by apply (quotient_denominator value rate scale)].
    exists 0. unfold q. rewrite Hz. unfold Qdiv. rewrite !Qmult_0_l. reflexivity. }
  destruct HDn as [N HN].
  apply (double_rounding (q * p10 4) N (Z.to_pos D) (Z.to_pos (10 ^ (p - 4)))).
  - by rewrite Z2Pos.id.
  - change (Zpos (Z.to_pos D) < Zpos (Z.to_pos (10 ^ (p - 4)))). rewrite !Z2Pos.id; [|apply pow10_pos; lia|done].
    pose proof (bigIntString_len (dCoefficient rate)) as Hlen.
    destruct (ndigits_spec (Z.abs (dCoefficient rate)) ltac:(lia)) as [Hnd _].
    eapply Z.lt_le_trans with (10 ^ Z.of_nat (ndigits (Z.abs (dCoefficient rate))) *
                               10 ^ Z.max 0 (scale + dExponent rate)).
    + apply Z.mul_lt_mono_pos_r; [done|exact Hnd].
    + rewrite <-Z.pow_add_r by lia. apply pow10_le. lia.
  - rewrite Z2Pos.id by (apply pow10_pos; lia). replace (p - 4) with (Z.succ (p - 5)) by lia.
    rewrite Z.pow_succ_r by lia. by rewrite Z.even_mul.
Qed.
End FxFacts.

(** ** Conversions against the exact amount *)

Section FxTheorems.
Context `{HD : DecimalAPI} {HL : DecimalLaws}.

Definition scale_of (v : Decimal) : Z := (decimalShape v).1.

(** A rate, or a product of two, as the constructors leave them. *)
Definition small_rate (r : Decimal) : Prop :=
  0 < dCoefficient r < 10 ^ 40 ∧ -24 <= dExponent r <= 16.

Lemma dMul_coef a b : dCoefficient (dMul a b) = dCoefficient a * dCoefficient b.
Proof.
  apply inject_Z_injective, (Qmult_inj_r _ _ (p10 (dExponent (dMul a b)))); [apply p10_nz|].
  change (dval (dMul a b) == inject_Z (dCoefficient a * dCoefficient b) * p10 (dExponent (dMul a b)))%Q.
  rewrite dMul_val, dMul_expo, inject_Z_mult, p10_add. unfold dval, cval. ring.
Qed.

Lemma scale_of_eq v : scale_of v = if dIsZero v then 0 else Z.max 0 (- dExponent v).
Proof.
  unfold scale_of. destruct (dIsZero v) eqn:Ez; [by unfold decimalShape; rewrite Ez|].
  rewrite decimalShape_nonzero by done. destruct (Z.leb_spec 0 (dExponent v)); cbn [fst]; lia.
Qed.

Lemma scale_of_mul v m : scale_of (dMul v m) <= scale_of v + Z.max 0 (- dExponent m).
Proof.
  rewrite !scale_of_eq, dMul_expo. destruct (dIsZero (dMul v m)) eqn:Em.
  - destruct (dIsZero v); lia.
  - destruct (dIsZero v) eqn:Ev; [|lia]. apply iszero_false in Em. apply dIsZero_val in Ev.
    destruct Em. by rewrite dMul_val, Ev, Qmult_0_l.
Qed.

Lemma FxRate_small r : FxRate_ok r → 0 < dCoefficient (r_value r) < 10 ^ 20 ∧ -12 <= dExponent (r_value r) <= 8.
Proof.
  intros H. apply FxRate_ok_spec in H as (H0 & H1 & He). destruct maxFxRate_coef as [Hc Hm].
  apply (units_le 12) in H1; [|lia|lia]. unfold units, cunits in H1. rewrite Hc, Hm in H1.
  change (-12 + 12) with 0 in H1.
  assert (0 < dCoefficient (r_value r)) as Hp.
  { destruct (Z.le_gt_cases (dCoefficient (r_value r)) 0) as [Hle|]; [exfalso|lia].
    pose proof (p10_pos (dExponent (r_value r))).
    assert (inject_Z (dCoefficient (r_value r)) <= 0)%Q by (change 0%Q with (inject_Z 0); by rewrite <-Zle_Qle).
    unfold dval, cval in H0. nra. }
  pose proof (pow10_pos (dExponent (r_value r) + 12) ltac:(lia)).
  split; [split; [lia|nia]|]. split; [lia|].
  destruct (Z.le_gt_cases (dExponent (r_value r)) 8); [done|exfalso].
  pose proof (pow10_le 20 (dExponent (r_value r) + 12) ltac:(lia)). nia.
Qed.

Lemma small_rate_nz r : small_rate r → ¬ (dval r == 0)%Q.
Proof. intros [H _]. rewrite dval_zero_coef. lia. Qed.

Lemma divideFXAmountByRate_total value rate :
  small_rate rate → scale_of value <= 40 → ∃ d, divideFXAmountByRate value rate = Ok d.
Proof.
  intros Hr Hs. unfold divideFXAmountByRate.
  rewrite (proj2 (iszero_false rate)) by by apply small_rate_nz.
  destruct Hr as [[Hc0 Hc] He]. pose proof (proj1 (scale_nonneg value)) as Hs0. unfold scale_of in Hs.
  destruct (decimalShape value) as [scale dg]. cbn [fst] in *.
  change maxFXConversionInputFractionDigits with 40. rewrite (proj2 (Z.ltb_ge 40 scale)) by lia.
  cbn zeta. assert (slen (bigIntString (dCoefficient rate)) <= 40) as Hl.
  { unfold bigIntString. rewrite (proj2 (Z.ltb_ge _ 0)), nat_string_len by lia. apply ndigits_le; lia. }
  assert (Hl0 := slen_nonneg (bigIntString (dCoefficient rate))).
  rewrite (proj2 (Z.ltb_ge MaxInt32 _)); [eauto|].
  unfold MaxInt32, minimumFXDivisionPrecision, moneyAmountFractionDigits.
  destruct (Z.ltb_spec (scale + dExponent rate) 0);
    match goal with |- context [?a <? 16] => destruct (Z.ltb_spec a 16) end; lia.
Qed.

Lemma maxMoney_abs p : 4 <= p → (dval maxMoney * p10 p == inject_Z (max_units * 10 ^ (p - 4)))%Q.
Proof.
  intros Hp. rewrite inject_Z_mult, <-maxMoney_val, <-p10_Z, <-Qmult_assoc, <-p10_add by lia.
  by replace (4 + (p - 4)) with p by lia.
Qed.

(** Rounding at four or more places keeps an amount within the money range. *)
Lemma round_in_range q p : 4 <= p → (Qabs q <= dval maxMoney)%Q →
  (Qabs (inject_Z (round_half_away (q * p10 p)) * p10 (- p)) <= dval maxMoney)%Q.
Proof.
  intros Hp Hq. apply Qabs_Qle_condition in Hq as [H1 H2].
  pose proof (maxMoney_abs p Hp) as HM. pose proof (p10_pos p) as P.
  assert (B : - (max_units * 10 ^ (p - 4)) <= round_half_away (q * p10 p) <= max_units * 10 ^ (p - 4)).
  { apply round_half_away_bounds. rewrite inject_Z_opp, <-HM. split; nra. }
  rewrite (Zle_Qle (- _)), (Zle_Qle _ (max_units * _)), inject_Z_opp, <-HM in B.
  pose proof (p10_opp p) as Hi. pose proof (p10_pos (- p)) as P'.
  set (r := inject_Z (round_half_away (q * p10 p))) in *. set (M := dval maxMoney) in *.
  assert (M == M * p10 p * p10 (- p))%Q as HMM by (rewrite <-Qmult_assoc, Hi; ring).
  apply Qabs_Qle_condition. rewrite HMM. split; nra.
Qed.

(** The division step: the same amount at the Money boundary, still in range. *)
Lemma divideUnlessOne_correct w v :
  small_rate v → scale_of w <= 40 →
  ∃ d, divideUnlessOne w v = Ok d ∧ same_money (dval d) (dval w / dval v) ∧
       (Qabs (dval w / dval v) <= dval maxMoney → Qabs (dval d) <= dval maxMoney)%Q.
Proof.
  intros Hr Hs. unfold divideUnlessOne. destruct (dEqual v (dInt 1)) eqn:E; cbn [negb].
  - exists w. split; [done|]. apply dEqual_val in E. rewrite dval_int in E.
    assert (dval w / dval v == dval w)%Q as H1.
    { rewrite E. change (inject_Z 1) with 1%Q. field. }
    unfold same_money. by rewrite H1.
  - destruct (divideFXAmountByRate_total w v Hr Hs) as [d Hd]. exists d. split; [done|].
    destruct (divideFXAmountByRate_ok w v d Hd) as (Hnz & p & Hp & -> & Hm). split; [done|].
    intros Hb. unfold dval at 1, cval. rewrite dDivRound_coef, dDivRound_expo by done.
    apply round_in_range; [lia|done].
Qed.
End FxTheorems.

(** ** The contract of the conversions *)

Section FxContract.
Context `{HD : DecimalAPI} {HL : DecimalLaws}.

(** One leg in exact arithmetic: a quote may be used in either direction. *)
Definition leg_factor (from to : CurrencyCode) (quote : FXQuote) : option Q :=
  if bool_decide (BaseCurrency quote = from ∧ QuoteCurrency quote = to)
  then Some (dval (r_value (Rate quote)))
  else if bool_decide (BaseCurrency quote = to ∧ QuoteCurrency quote = from)
  then Some (/ dval (r_value (Rate quote)))%Q
  else None.

Definition exact_amount (x : Q) (from to : CurrencyCode) (quote : FXQuote) : option Q :=
  if bool_decide (from = to) then Some x
  else (λ f, (x * f)%Q) <$> leg_factor from to quote.

Lemma in_money_range v : dGreaterThan (dAbs v) maxMoney = false ↔ (Qabs (dval v) <= dval maxMoney)%Q.
Proof. by rewrite greater_false, dAbs_val. Qed.

(** The factors of a usable quote: both positive, and one of them is one. *)
Lemma fxConversionFactors_spec from to quote :
  FxRate_ok (Rate quote) →
  match leg_factor from to quote with
  | None => fxConversionFactors from to quote = Fail fx_mismatch
  | Some f => ∃ m d, fxConversionFactors from to quote = Ok (m, d) ∧ (f == dval m / dval d)%Q ∧
      0 < dCoefficient m < 10 ^ 20 ∧ -12 <= dExponent m <= 8 ∧
      0 < dCoefficient d < 10 ^ 20 ∧ -12 <= dExponent d <= 8 ∧ (m = dInt 1 ∨ d = dInt 1)
  end.
Proof.
  intros Hok. pose proof (FxRate_small _ Hok) as [Hc He].
  assert (Hnz : ¬ (dval (r_value (Rate quote)) == 0)%Q) by (rewrite dval_zero_coef; lia).
  assert (H1 : dCoefficient (dInt 1) = 1 ∧ dExponent (dInt 1) = 0)
    by (unfold dInt; by rewrite dNew_coef, dNew_expo).
  assert (V1 : (dval (dInt 1) == 1)%Q) by apply dval_int.
  unfold leg_factor, fxConversionFactors. rewrite (proj2 (iszero_false _) Hnz), <-!bool_decide_and.
  destruct H1 as [C1 E1]. repeat case_bool_decide.
  - eexists _, _. split; [done|]. rewrite V1, C1, E1. split; [field|]. split; [lia|]. split; [lia|].
    split; [lia|]. split; [lia|by right].
  - eexists _, _. split; [done|]. rewrite V1, C1, E1. split; [by field|]. split; [lia|]. split; [lia|].
    split; [lia|]. split; [lia|by left].
  - done.
Qed.

(** Whatever [ConvertFXAmount] returns rounds to the money of the exact result. *)
Lemma ConvertFXAmount_same v from to quote d : FxRate_ok (Rate quote) → from ≠ to →
  ConvertFXAmount v from to quote = Ok d → ∃ f, leg_factor from to quote = Some f ∧ same_money (dval d) (dval v * f).
Proof.
  intros Hok Hne Hc. unfold ConvertFXAmount in Hc. destruct (dGreaterThan (dAbs v) maxMoney); [discriminate|].
  rewrite bool_decide_eq_false_2 in Hc by done. pose proof (fxConversionFactors_spec from to quote Hok) as Hf.
  destruct (leg_factor from to quote) as [f|]; [|by rewrite Hf in Hc].
  destruct Hf as (m & dv & Hf & Hfm & _ & _ & Hdc & _). rewrite Hf, bind_Ok_l in Hc. exists f. split; [done|].
  apply bind_Ok in Hc as (x & Hx & Hc). destruct (dGreaterThan (dAbs x) maxMoney); [discriminate|]. injection Hc as <-.
  assert (Hnz : ¬ (dval dv == 0)%Q) by (rewrite dval_zero_coef; lia).
  assert (Hv : (dval v * f == dval (dMul v m) / dval dv)%Q) by (rewrite Hfm, dMul_val; by field).
  unfold same_money. rewrite Hv. unfold divideUnlessOne in Hx. destruct (dEqual dv (dInt 1)) eqn:E; cbn [negb] in Hx.
  - injection Hx as <-. apply dEqual_val in E. rewrite dval_int in E.
    assert (dval (dMul v m) / dval dv == dval (dMul v m))%Q as ->; [|done]. rewrite E. field.
  - by destruct (divideFXAmountByRate_ok _ _ _ Hx) as (_ & _ & _ & _ & Hs).
Qed.

Lemma CheckExactMoneyRange_spec x :
  CheckExactMoneyRange (Some x) =
  if Qle_bool (Qabs x) (dval maxMoney) then Ok tt else Fail (overflow "amount" amount_msg).
Proof.
  unfold CheckExactMoneyRange. rewrite dString_plain. unfold dval.
  destruct maxMoney_coef as [-> ->].
  by replace (ratSetString (plain_string true max_units (-4))) with (Some (cval max_units (-4))).
Qed.

Lemma CheckExactMoneyRange_cases x :
  ((Qabs x <= dval maxMoney)%Q → CheckExactMoneyRange (Some x) = Ok tt) ∧
  ((dval maxMoney < Qabs x)%Q → CheckExactMoneyRange (Some x) = Fail (overflow "amount" amount_msg)).
Proof.
  rewrite CheckExactMoneyRange_spec. split; intros H.
  - by rewrite (proj2 (Qle_bool_iff _ _) H).
  - destruct (Qle_bool _ _) eqn:E; [|done]. apply Qle_bool_iff in E. exfalso. lra.
Qed.

(** Dividing an amount by a positive rate never loses the cent: with at
    most forty fractional digits the division succeeds, is within half a unit of
    the sixteenth place of the exact quotient, and rounds half-even to the same
    four-place amount as the exact quotient does, as the comment on the function
    argues. *)
Theorem divideFXAmountByRate_correct value rate :
  small_rate rate → scale_of value <= 40 →
  ∃ d, divideFXAmountByRate value rate = Ok d ∧
       (2 * Qabs (dval d - dval value / dval rate) <= p10 (-16))%Q ∧
       same_money (dval d) (dval value / dval rate).
Proof.
  intros Hr Hs. destruct (divideFXAmountByRate_total value rate Hr Hs) as [d Hd].
  exists d. split; [done|]. destruct (divideFXAmountByRate_ok _ _ _ Hd) as (Hnz & p & Hp & -> & Hm).
  split; [|done]. unfold dval at 1, cval. rewrite dDivRound_coef, dDivRound_expo by done.
  set (q := (dval value / dval rate)%Q).
  destruct (round_half_away_spec (q * p10 p)) as [[H1 H2] _].
  set (r := inject_Z (round_half_away (q * p10 p))) in *.
  assert (r * p10 (- p) - q == (r - q * p10 p) * p10 (- p))%Q as ->.
  { pose proof (p10_opp p) as Hi. rewrite <-(Qmult_1_r q), <-Hi at 1. ring. }
  rewrite Qabs_Qmult, (Qabs_pos (p10 _)) by apply Qlt_le_weak, p10_pos.
  assert (2 * Qabs (r - q * p10 p) <= 1)%Q as Hb.
  { rewrite <-(Qabs_pos 2), <-Qabs_Qmult by done. apply Qabs_Qle_condition. split; lra. }
  apply Qle_trans with (p10 (- p)).
  - pose proof (p10_pos (- p)). nra.
  - replace (- p) with (-16 + - (p - 16)) by lia. rewrite p10_add.
    pose proof (p10_pos (-16)). destruct (Z.eq_dec p 16) as [->|Hn].
    + rewrite p10_0. lra.
    + pose proof (p10_lt1 (p - 16) ltac:(lia)). nra.
Qed.

(** Claim C37.  [ConvertFXAmount] refines the exact conversion.  For an amount in
    range with at most forty fractional digits and a valid quote: when the quote
    does not join the two currencies both conversions report the mismatch; when
    the exact result is in range both succeed, the rational one with the exact
    result and the decimal one with a number that rounds to the same four-place
    amount; when the exact result is out of range the rational one reports the
    overflow. *)
Theorem ConvertFXAmount_refines_exact v from to quote :
  FxRate_ok (Rate quote) → scale_of v <= 40 → (Qabs (dval v) <= dval maxMoney)%Q →
  match exact_amount (dval v) from to quote with
  | None => ConvertFXAmount v from to quote = Fail fx_mismatch ∧
            ConvertFXAmountExact v from to quote = Fail fx_mismatch
  | Some x =>
    ((Qabs x <= dval maxMoney)%Q →
       (∃ y, ConvertFXAmountExact v from to quote = Ok y ∧ (y == x)%Q) ∧
       (∃ d, ConvertFXAmount v from to quote = Ok d ∧ same_money (dval d) x)) ∧
    ((dval maxMoney < Qabs x)%Q →
       code_of (ConvertFXAmountExact v from to quote) = Some ErrDecimalOverflow)
  end.
Proof.
  intros Hok Hs Hr. unfold exact_amount, ConvertFXAmount, ConvertFXAmountExact.
  rewrite (proj2 (in_money_range v) Hr). case_bool_decide as Eft.
  { split; [|intros H; exfalso; lra]. intros H.
    rewrite (proj1 (CheckExactMoneyRange_cases _)) by by rewrite RationalFromDecimal_val.
    split; [eexists; split; [done|apply RationalFromDecimal_val]|by exists v]. }
  pose proof (fxConversionFactors_spec from to quote Hok) as Hf.
  destruct (leg_factor from to quote) as [f|]; cbn [fmap option_fmap option_map];
    [|by rewrite Hf].
  destruct Hf as (m & dv & -> & Hfm & Hmc & Hme & Hdc & Hde & Hone). rewrite !bind_Ok_l.
  assert (Hsr : small_rate dv) by (unfold small_rate; lia).
  assert (Hnz := small_rate_nz dv Hsr).
  assert (Hx : (dval v * f == dval (dMul v m) / dval dv)%Q) by (rewrite Hfm, dMul_val; by field).
  set (y := if negb (dEqual dv (dInt 1)) then _ else _).
  assert (Hy : (y == dval v * f)%Q).
  { unfold y. rewrite Hfm. destruct (dEqual dv (dInt 1)) eqn:E; cbn [negb];
      rewrite ?RationalFromDecimal_val; [|by field].
    apply dEqual_val in E. rewrite dval_int in E. rewrite E. change (inject_Z 1) with 1%Q. field. }
  split.
  - intros Hb. rewrite (proj1 (CheckExactMoneyRange_cases y)) by by rewrite Hy. split; [by eauto|].
    destruct Hone as [->| ->].
    + destruct (divideUnlessOne_correct (dMul v (dInt 1)) dv Hsr) as (d & -> & Hm & Hrange).
      { etransitivity; [apply scale_of_mul|]. unfold dInt. rewrite dNew_expo. lia. }
      rewrite bind_Ok_l. rewrite (proj2 (in_money_range d)) by (apply Hrange; by rewrite <-Hx).
      exists d. split; [done|]. unfold same_money in *. by rewrite Hx.
    + unfold divideUnlessOne. rewrite (proj2 (dEqual_val _ _)) by reflexivity. cbn [negb].
      rewrite bind_Ok_l. rewrite Hx, dval_int in Hb. rewrite dval_int in Hx.
      assert (dval (dMul v m) / inject_Z 1 == dval (dMul v m))%Q as E1.
      { change (inject_Z 1) with 1%Q. field. }
      rewrite E1 in Hb, Hx. rewrite (proj2 (in_money_range _) Hb).
      eexists. split; [done|]. unfold same_money. by rewrite Hx.
  - intros Hb. by rewrite (proj2 (CheckExactMoneyRange_cases y)) by by rewrite Hy.
Qed.

(** Bridging through a third currency costs one rounding, not two: for a
    native amount (at most sixteen fractional digits) in range and two valid
    quotes that join the legs, [ConvertFXAmountViaQuotes] returns a number that
    rounds to the same four-place amount as the exact product of both legs,
    whenever that product is in range. *)
Theorem ConvertFXAmountViaQuotes_correct v from via to first second f1 f2 :
  FxRate_ok (Rate first) → FxRate_ok (Rate second) → scale_of v <= 16 →
  (Qabs (dval v) <= dval maxMoney)%Q → from ≠ via → via ≠ to →
  leg_factor from via first = Some f1 → leg_factor via to second = Some f2 →
  (Qabs (dval v * f1 * f2) <= dval maxMoney)%Q →
  ∃ d, ConvertFXAmountViaQuotes v from via to first second = Ok d ∧
       same_money (dval d) (dval v * f1 * f2).
Proof.
  intros Hok1 Hok2 Hs Hr Hn1 Hn2 Hl1 Hl2 Hb. unfold ConvertFXAmountViaQuotes.
  rewrite (proj2 (in_money_range v) Hr), !bool_decide_eq_false_2 by done. cbn [orb].
  pose proof (fxConversionFactors_spec from via first Hok1) as F1. rewrite Hl1 in F1.
  pose proof (fxConversionFactors_spec via to second Hok2) as F2. rewrite Hl2 in F2.
  destruct F1 as (m1 & d1 & -> & Hf1 & Hmc1 & Hme1 & Hdc1 & Hde1 & _).
  destruct F2 as (m2 & d2 & -> & Hf2 & Hmc2 & Hme2 & Hdc2 & Hde2 & _). rewrite !bind_Ok_l.
  assert (Hsr : small_rate (dMul d1 d2)).
  { unfold small_rate. rewrite dMul_coef, dMul_expo.
    change (10 ^ 40) with (10 ^ 20 * 10 ^ 20). split; [split; nia|lia]. }
  assert (Hnz1 : ¬ (dval d1 == 0)%Q) by (rewrite dval_zero_coef; lia).
  assert (Hnz2 : ¬ (dval d2 == 0)%Q) by (rewrite dval_zero_coef; lia).
  assert (Hx : (dval v * f1 * f2 == dval (dMul v (dMul m1 m2)) / dval (dMul d1 d2))%Q).
  { rewrite Hf1, Hf2, !dMul_val. by field. }
  destruct (divideUnlessOne_correct (dMul v (dMul m1 m2)) (dMul d1 d2) Hsr) as (d & -> & Hm & Hrange).
  { etransitivity; [apply scale_of_mul|]. rewrite dMul_expo. lia. }
  rewrite bind_Ok_l. rewrite (proj2 (in_money_range d)) by (apply Hrange; by rewrite <-Hx).
  exists d. split; [done|]. unfold same_money in *. by rewrite Hx.
Qed.
End FxContract.

Definition usd_quote (base quote : CurrencyCode) (r : Decimal) : FXQuote :=
  mkFXQuote "" "" base quote (mkFxRate r) QuoteSourceManual "manual" 0 0 false "" "" 0 0 "" "" 0 None.

Lemma divideFXAmountByRate_correct_witness :
  ∃ d, divideFXAmountByRate (dNew 100 0) (dNew 7 0) = Ok d ∧
       (2 * Qabs (dval d - dval (dNew 100 0) / dval (dNew 7 0)) <= p10 (-16))%Q ∧
       same_money (dval d) (dval (dNew 100 0) / dval (dNew 7 0)).
Proof. apply divideFXAmountByRate_correct; [split; split|]; vm_compute; done. Defined.

Lemma ConvertFXAmount_refines_exact_witness :
  let q := usd_quote "USD" "CNY" (dNew 725 (-2)) in
  match exact_amount (dval (dNew 100 0)) "CNY" "USD" q with
  | None => ConvertFXAmount (dNew 100 0) "CNY" "USD" q = Fail fx_mismatch ∧
            ConvertFXAmountExact (dNew 100 0) "CNY" "USD" q = Fail fx_mismatch
  | Some x =>
    ((Qabs x <= dval maxMoney)%Q →
       (∃ y, ConvertFXAmountExact (dNew 100 0) "CNY" "USD" q = Ok y ∧ (y == x)%Q) ∧
       (∃ d, ConvertFXAmount (dNew 100 0) "CNY" "USD" q = Ok d ∧ same_money (dval d) x)) ∧
    ((dval maxMoney < Qabs x)%Q →
       code_of (ConvertFXAmountExact (dNew 100 0) "CNY" "USD" q) = Some ErrDecimalOverflow)
  end.
Proof. apply ConvertFXAmount_refines_exact; [reflexivity|vm_compute; discriminate..]. Defined.

Lemma ConvertFXAmountViaQuotes_correct_witness :
  let q1 := usd_quote "USD" "CNY" (dNew 725 (-2)) in
  let q2 := usd_quote "USD" "EUR" (dNew 92 (-2)) in
  ∃ d, ConvertFXAmountViaQuotes (dNew 100 0) "CNY" "USD" "EUR" q1 q2 = Ok d ∧
       same_money (dval d) (dval (dNew 100 0) * / dval (dNew 725 (-2)) * dval (dNew 92 (-2))).
Proof.
  apply ConvertFXAmountViaQuotes_correct; try reflexivity; vm_compute; discriminate.
Defined.
