(* ===== verification/Accounts.v ===== *)
(** * Households, members, ownership and accounts

    [account_type.go], [institution_type.go], the icon rules of [icons.go] and
    the entities of [model.go]: ownership in basis points, the legal account
    combinations, the constructors of household, member, institution, group,
    account and account value, and the eligibility and sign rules that the
    balance sheet applies.  Identifiers are drawn by the caller of each
    constructor: the extra [id] argument stands for the fresh UUID. *)

From S2P Require Export Money CivilDate Fx.
From S2P Require Import DecimalModel.
From Stdlib Require Import String Ascii.

#[global] Open Scope Z_scope.

(** ** Closed string enumerations *)

(** The common shape of the [Parse...] functions: trim, then accept exactly the
    text of one of the constants. *)
Definition parse_enum {A} (all : list A) (text : A → string) (err : goerror) (value : string) : Result A :=
  let parsed := TrimSpace value in
  match List.find (λ c, bool_decide (text c = parsed)) all with
  | Some c => Ok c
  | None => Fail err
  end.

Lemma parse_enum_ok {A} (all : list A) text err v a :
  parse_enum all text err v = Ok a → text a = TrimSpace v ∧ a ∈ all.
Proof.
  unfold parse_enum. destruct (List.find _ all) eqn:E; [|discriminate]. intros [= ->].
  apply List.find_some in E as [Hin E]. apply bool_decide_eq_true in E.
  split; [done|]. by apply list_elem_of_In.
Qed.

Inductive AccountType :=
| TypeCashOnHand | TypeBankAccount | TypeBrokerage | TypeInvestmentAccount
| TypeCryptoExchange | TypeDigitalWallet | TypePension | TypeInsurancePolicy
| TypeProperty | TypeVehicle | TypeCollectible | TypeReceivable
| TypeCreditCard | TypeLoan | TypeOther.
#[export] Instance AccountType_eq_dec : EqDecision AccountType.
Proof. solve_decision. Defined.

Definition AccountType_String (t : AccountType) : string :=
  match t with
  | TypeCashOnHand => "cash_on_hand" | TypeBankAccount => "bank_account"
  | TypeBrokerage => "brokerage" | TypeInvestmentAccount => "investment_account"
  | TypeCryptoExchange => "crypto_exchange" | TypeDigitalWallet => "digital_wallet"
  | TypePension => "pension" | TypeInsurancePolicy => "insurance_policy"
  | TypeProperty => "property" | TypeVehicle => "vehicle"
  | TypeCollectible => "collectible" | TypeReceivable => "receivable"
  | TypeCreditCard => "credit_card" | TypeLoan => "loan" | TypeOther => "other"
  end.

Definition AllAccountTypes : list AccountType :=
  [TypeCashOnHand; TypeBankAccount; TypeBrokerage; TypeInvestmentAccount;
   TypeCryptoExchange; TypeDigitalWallet; TypePension; TypeInsurancePolicy;
   TypeProperty; TypeVehicle; TypeCollectible; TypeReceivable;
   TypeCreditCard; TypeLoan; TypeOther].

Definition ParseAccountType : string → Result AccountType :=
  parse_enum AllAccountTypes AccountType_String (validation "accountType" "is not supported").

Inductive BalanceSheetRole := RoleAsset | RoleLiability.
#[export] Instance BalanceSheetRole_eq_dec : EqDecision BalanceSheetRole.
Proof. solve_decision. Defined.

Definition BalanceSheetRole_String (r : BalanceSheetRole) : string :=
  match r with RoleAsset => "asset" | RoleLiability => "liability" end.
Definition role_IsLiability (r : BalanceSheetRole) : bool := bool_decide (r = RoleLiability).
Definition AllBalanceSheetRoles : list BalanceSheetRole := [RoleAsset; RoleLiability].
Definition ParseBalanceSheetRole : string → Result BalanceSheetRole :=
  parse_enum AllBalanceSheetRoles BalanceSheetRole_String (validation "balanceSheetRole" "is not supported").

Inductive TrackingMode := TrackingBalance | TrackingManualValue | TrackingHoldings.
#[export] Instance TrackingMode_eq_dec : EqDecision TrackingMode.
Proof. solve_decision. Defined.

Definition TrackingMode_String (m : TrackingMode) : string :=
  match m with TrackingBalance => "balance" | TrackingManualValue => "manual_value"
             | TrackingHoldings => "holdings" end.
Definition AllTrackingModes : list TrackingMode := [TrackingBalance; TrackingManualValue; TrackingHoldings].
Definition ParseTrackingMode : string → Result TrackingMode :=
  parse_enum AllTrackingModes TrackingMode_String (validation "trackingMode" "is not supported").

Inductive InstitutionType :=
| InstitutionBank | InstitutionBrokerage | InstitutionInsurer | InstitutionExchange
| InstitutionEmployer | InstitutionGovernment | InstitutionOther.
Definition InstitutionType_String (t : InstitutionType) : string :=
  match t with
  | InstitutionBank => "bank" | InstitutionBrokerage => "brokerage" | InstitutionInsurer => "insurer"
  | InstitutionExchange => "exchange" | InstitutionEmployer => "employer"
  | InstitutionGovernment => "government" | InstitutionOther => "other"
  end.
Definition AllInstitutionTypes : list InstitutionType :=
  [InstitutionBank; InstitutionBrokerage; InstitutionInsurer; InstitutionExchange;
   InstitutionEmployer; InstitutionGovernment; InstitutionOther].
Definition ParseInstitutionType : string → Result InstitutionType :=
  parse_enum AllInstitutionTypes InstitutionType_String (validation "institutionType" "is not supported").

Inductive OwnershipScope := OwnershipAny | OwnershipSole | OwnershipShared.
Definition OwnershipScope_String (s : OwnershipScope) : string :=
  match s with OwnershipAny => "any" | OwnershipSole => "sole" | OwnershipShared => "shared" end.
Definition ParseOwnershipScope (value : string) : Result OwnershipScope :=
  if bool_decide (TrimSpace value = ""%string) then Ok OwnershipAny
  else parse_enum [OwnershipAny; OwnershipSole; OwnershipShared] OwnershipScope_String
         (validation "ownershipScope" "is not supported") value.

(** ** The legal combinations of type, role and tracking mode *)

Definition legalAccountCombinations : list (AccountType * BalanceSheetRole * TrackingMode) :=
  [(TypeCashOnHand, RoleAsset, TrackingBalance);
   (TypeCashOnHand, RoleAsset, TrackingHoldings);
   (TypeBankAccount, RoleAsset, TrackingBalance);
   (TypeBankAccount, RoleAsset, TrackingHoldings);
   (TypeBrokerage, RoleAsset, TrackingHoldings);
   (TypeBrokerage, RoleAsset, TrackingManualValue);
   (TypeInvestmentAccount, RoleAsset, TrackingHoldings);
   (TypeInvestmentAccount, RoleAsset, TrackingManualValue);
   (TypeCryptoExchange, RoleAsset, TrackingHoldings);
   (TypeDigitalWallet, RoleAsset, TrackingBalance);
   (TypeDigitalWallet, RoleAsset, TrackingHoldings);
   (TypePension, RoleAsset, TrackingHoldings);
   (TypePension, RoleAsset, TrackingManualValue);
   (TypeInsurancePolicy, RoleAsset, TrackingManualValue);
   (TypeProperty, RoleAsset, TrackingManualValue);
   (TypeVehicle, RoleAsset, TrackingManualValue);
   (TypeCollectible, RoleAsset, TrackingManualValue);
   (TypeReceivable, RoleAsset, TrackingBalance);
   (TypeReceivable, RoleAsset, TrackingManualValue);
   (TypeCreditCard, RoleLiability, TrackingBalance);
   (TypeLoan, RoleLiability, TrackingBalance);
   (TypeOther, RoleAsset, TrackingBalance);
   (TypeOther, RoleAsset, TrackingManualValue);
   (TypeOther, RoleAsset, TrackingHoldings);
   (TypeOther, RoleLiability, TrackingBalance)].

Definition IsValidAccountCombination (t : AccountType) (r : BalanceSheetRole) (m : TrackingMode) : bool :=
  bool_decide ((t, r, m) ∈ legalAccountCombinations).

(** The loop keeps the role found so far; [None] is the empty string. *)
Fixpoint default_role_loop (t : AccountType) (found : option BalanceSheetRole)
    (l : list (AccountType * BalanceSheetRole * TrackingMode)) : option BalanceSheetRole :=
  match l with
  | [] => found
  | (t', r, _) :: l =>
    if negb (bool_decide (t' = t)) then default_role_loop t found l
    else match found with
    | Some f => if negb (bool_decide (f = r)) then None else default_role_loop t (Some r) l
    | None => default_role_loop t (Some r) l
    end
  end.

Definition DefaultBalanceSheetRole (t : AccountType) : option BalanceSheetRole :=
  if bool_decide (t = TypeOther) then None
  else default_role_loop t None legalAccountCombinations.

Record InclusionDefaults := mkInclusion {
  inNetWorth : bool; inPortfolio : bool; inLiquidAssets : bool }.

Definition SuggestedInclusion (t : AccountType) (tracking : TrackingMode) : InclusionDefaults :=
  let portfolio := match t with
    | TypeBrokerage | TypeInvestmentAccount | TypeCryptoExchange | TypePension => true
    | _ => false end in
  let liquid := bool_decide (t = TypeCashOnHand) ||
    (bool_decide (tracking = TrackingBalance) &&
     (bool_decide (t = TypeBankAccount) || bool_decide (t = TypeDigitalWallet))) in
  mkInclusion true portfolio liquid.

Record AssetClass := mkAssetClass {
  ac_Role : BalanceSheetRole; Bucket : string; Incomplete : bool;
  MissingInstrument : bool; ClassificationBasis : string }.

Definition ClassificationCurrentMetadataDerived : string := "current-metadata-derived".

Definition ClassifySimpleAccount (t : AccountType) (role : BalanceSheetRole) (tracking : TrackingMode)
    : Result AssetClass :=
  if negb (IsValidAccountCombination t role tracking)
  then Fail (validation "accountType" "is not a valid account combination")
  else if bool_decide (tracking = TrackingHoldings)
  then Fail (validation "trackingMode" "composite accounts must be classified from components")
  else
    let class b := Ok (mkAssetClass role b false false ClassificationCurrentMetadataDerived) in
    match t, role with
    | (TypeCashOnHand | TypeBankAccount | TypeDigitalWallet), _ => class "cash"%string
    | (TypeBrokerage | TypeInvestmentAccount), _ => class "unclassified_investment"%string
    | TypePension, _ => class "pension"%string
    | TypeInsurancePolicy, _ => class "insurance"%string
    | TypeProperty, _ => class "property"%string
    | TypeVehicle, _ => class "vehicle"%string
    | TypeCollectible, _ => class "collectible"%string
    | TypeReceivable, _ => class "receivable"%string
    | TypeCreditCard, _ => class "credit_card"%string
    | TypeLoan, _ => class "loan"%string
    | TypeOther, RoleAsset => class "other_asset"%string
    | TypeOther, RoleLiability => class "other_liability"%string
    | _, _ => Fail (validation "accountType" "is not a valid account combination")
    end.

(** ** Icons

    The bank-logo keys are generated; whether a key is one of them is a
    parameter. *)

Definition accountTypeDefaultIcon (t : AccountType) : string :=
  match t with
  | TypeCashOnHand => "cash" | TypeBankAccount => "bank" | TypeBrokerage => "brokerage"
  | TypeInvestmentAccount => "investment" | TypeCryptoExchange => "bitcoin"
  | TypeDigitalWallet => "wallet-cards" | TypePension => "pension"
  | TypeInsurancePolicy => "shield-plus" | TypeProperty => "home" | TypeVehicle => "car"
  | TypeCollectible => "gem" | TypeReceivable => "receivable" | TypeCreditCard => "credit-card"
  | TypeLoan => "banknote-down" | TypeOther => "account"
  end.

Definition DefaultIconForInstitutionType (t : InstitutionType) : string :=
  match t with
  | InstitutionBank => "bank" | InstitutionBrokerage => "brokerage"
  | InstitutionInsurer => "shield-plus" | InstitutionExchange => "market"
  | InstitutionEmployer => "building" | InstitutionGovernment => "landmark"
  | InstitutionOther => "building"
  end.

Definition DefaultMemberIcon : string := "user".
Definition DefaultGroupIcon : string := "folder".

Definition supportedIconKeys : list string :=
  ["bank-logo:standard-chartered"; "bank-logo:bochk"; "fund"; "bond"; "term-deposit"; "lending";
   "land"; "commercial-property"; "collectible"; "digital-asset"; "crypto-logo:btc";
   "crypto-logo:eth"; "crypto-logo:sol"; "crypto-logo:usdc"; "account"; "armchair";
   "badge-dollar"; "badge-euro"; "badge-franc"; "badge-rupee"; "badge-pound"; "badge-percent";
   "badge-ruble"; "badge-yen"; "bank"; "bank-branch"; "banknote-down"; "banknote-up"; "bitcoin";
   "brokerage"; "brokerage-cash"; "building"; "calendar"; "calendar-clock"; "car"; "camera";
   "card"; "cash"; "chart"; "circle-check"; "circle-dollar"; "circle-percent"; "coins";
   "computer"; "credit-card"; "currency"; "document"; "dollar"; "download"; "euro"; "file";
   "folder"; "goal"; "gem"; "grid"; "history"; "home"; "info"; "insurance"; "investment";
   "landmark"; "liability"; "list"; "mail"; "market"; "money"; "percent"; "pension"; "pie-chart";
   "property"; "receivable"; "receipt"; "retirement"; "savings"; "search"; "settings"; "shield";
   "shield-plus"; "stock"; "storage"; "trending-up"; "upload"; "vault"; "visibility"; "wallet";
   "wallet-cards"; "warning"; "user"; "yen"]%string.

Class BankLogos := bankLogoKey : string → bool.

Section Icons.
Context `{HB : BankLogos}.

Definition ValidateIconKey (value : string) : Result unit :=
  let value := TrimSpace value in
  if bool_decide (value = ""%string) then Ok tt
  else if negb (bool_decide (value ∈ supportedIconKeys)) && negb (bankLogoKey value)
  then Fail (validation "iconKey" "unsupported icon")
  else Ok tt.

Definition normalizedIconKey (value : option string) (fallback : string) : Result (option string) :=
  match value with
  | None => Ok (Some fallback)
  | Some v =>
    if bool_decide (TrimSpace v = ""%string) then Ok (Some fallback)
    else
      let normalized := TrimSpace v in
      match ValidateIconKey normalized with
      | Fail e => Fail e
      | Ok _ => Ok (Some normalized)
      end
  end.
End Icons.

(** ** Ownership *)

Record OwnershipShare := mkShare { MemberID' : MemberID; ShareBPS : Z }.
Definition TotalOwnershipBPS : Z := 10000.
Definition Ownership := list OwnershipShare.

(** One turn of the loop: (seen, total, canonical). *)
Fixpoint ownership_loop (shares : list OwnershipShare) (seen : list string) (total : Z)
    (canonical : list OwnershipShare) : Result (Z * list OwnershipShare) :=
  match shares with
  | [] => Ok (total, canonical)
  | share :: shares =>
    match ParseMemberID (MemberID' share) with
    | Fail _ => Fail (validation "ownership" "owner ID is invalid")
    | Ok memberID =>
      if (ShareBPS share <? 1) || (TotalOwnershipBPS <? ShareBPS share)
      then Fail (validation "ownership" "each share must be between 1 and 10000 basis points")
      else if bool_decide (memberID ∈ seen)
      then Fail (validation "ownership" "an owner may appear only once")
      else ownership_loop shares (memberID :: seen) (total + ShareBPS share)
             (canonical ++ [mkShare memberID (ShareBPS share)])
    end
  end.

Definition ParseOwnership (shares : list OwnershipShare) : Result Ownership :=
  match shares with
  | [] => Fail (validation "ownership" "at least one owner is required")
  | _ =>
    match ownership_loop shares [] 0 [] with
    | Fail e => Fail e
    | Ok (total, canonical) =>
      if negb (total =? TotalOwnershipBPS)
      then Fail (validation "ownership" "shares must total exactly 10000 basis points")
      else Ok canonical
    end
  end.

Definition equal_share (count index : Z) : Z :=
  let base := TotalOwnershipBPS / count in
  let remainder := TotalOwnershipBPS mod count in
  if index <? remainder then base + 1 else base.

Definition EqualOwnership (memberIDs : list MemberID) : Result Ownership :=
  match memberIDs with
  | [] => Fail (validation "members" "at least one member is required")
  | _ =>
    let n := Z.of_nat (List.length memberIDs) in
    ParseOwnership (imap (λ index memberID, mkShare memberID (equal_share n (Z.of_nat index))) memberIDs)
  end.

(** [^(0|[1-9][0-9]{0,2})(\.[0-9]{1,2})?%?$] *)
Definition trimPercent (s : string) : string :=
  match rev (list_ascii_of_string s) with
  | c :: r => if Ascii.eqb c "%" then string_of_list_ascii (rev r) else s
  | [] => s
  end.
Definition percentPattern (s : string) : bool :=
  unsigned_syntax 2 2 s || unsigned_syntax 2 2 (trimPercent s).

Section Percent.
Context `{HD : DecimalAPI}.
Definition PercentToBasisPoints (value : string) : Result Z :=
  let value := trimPercent (TrimSpace value) in
  if negb (percentPattern value)
  then Fail (validation "ownership" "percentage must be between 0 and 100 with at most two decimals")
  else match dNewFromString value with
  | None => Fail (validation "ownership" "percentage must be between 0 and 100")
  | Some parsed =>
    if dIsNegative parsed || dGreaterThan parsed (dInt 100)
    then Fail (validation "ownership" "percentage must be between 0 and 100")
    else
      let bps := dBigInt (dMul parsed (dInt 100)) in
      if negb (dCmp (dTruncate (dMul parsed (dInt 100)) 0) (dMul parsed (dInt 100)) =? 0)
      then Fail (validation "ownership" "percentage supports at most two decimals")
      else Ok bps
  end.
End Percent.

(** ** The entities *)

Record Household := mkHousehold {
  h_ID : string; h_Name : string; h_BaseCurrency : CurrencyCode;
  h_CreatedAt : Time; h_UpdatedAt : Time }.

Definition NewHousehold (id name : string) (baseCurrency : CurrencyCode) (now : Time) : Result Household :=
  name ← validateName "name" name;
  canonicalCurrency ← ParseCurrency baseCurrency;
  let now := normalizeTime now in
  Ok (mkHousehold id name canonicalCurrency now now).

(** Members and groups have the same shape up to the fields no constructor sets. *)
Record Member := mkMember {
  mb_ID : string; mb_HouseholdID : string; mb_Name : string; mb_IconKey : option string;
  mb_CreatedAt : Time; mb_UpdatedAt : Time; mb_ArchivedAt : option Time }.

Definition NewMember (id householdID name : string) (now : Time) : Result Member :=
  name ← validateName "name" name;
  let now := normalizeTime now in
  Ok (mkMember id householdID name (Some DefaultMemberIcon) now now None).

Record Group := mkGroup {
  gr_ID : string; gr_HouseholdID : string; gr_Name : string; gr_IconKey : option string;
  gr_CreatedAt : Time; gr_UpdatedAt : Time; gr_ArchivedAt : option Time }.

Definition NewGroup (id householdID name : string) (now : Time) : Result Group :=
  name ← validateName "name" name;
  let now := normalizeTime now in
  Ok (mkGroup id householdID name (Some DefaultGroupIcon) now now None).

Record Institution := mkInstitution {
  is_ID : string; is_HouseholdID : string; is_Name : string; is_IconKey : option string;
  is_Type : InstitutionType; is_CreatedAt : Time; is_UpdatedAt : Time; is_ArchivedAt : option Time }.

(** The type argument reaches the code as text and is parsed again. *)
Definition NewInstitution (id householdID name institutionType : string) (now : Time) : Result Institution :=
  name ← validateName "name" name;
  t ← ParseInstitutionType institutionType;
  let now := normalizeTime now in
  Ok (mkInstitution id householdID name (Some (DefaultIconForInstitutionType t)) t now now None).

Record Account := mkAccount {
  ID : AccountID; a_HouseholdID : HouseholdID;
  InstitutionID' : option string; GroupID' : option string; Name : string;
  AccountType' : AccountType; BalanceSheetRole' : BalanceSheetRole; TrackingMode' : TrackingMode;
  DefaultCurrency : CurrencyCode; a_Note : option string; IconKey : option string;
  IncludeInNetWorth : bool; IncludeInPortfolio : bool; IncludeInLiquidAssets : bool;
  OpenedOn : option string; ClosedOn : option string; a_SortOrder : Z;
  a_CreatedAt : Time; a_UpdatedAt : Time; ArchivedAt : option Time }.

Definition IsLiability (a : Account) : bool := role_IsLiability (BalanceSheetRole' a).

(** The fields of [AccountInput] that [NewAccount] reads. *)
Record AccountInput := mkAccountInput {
  ai_HouseholdID : HouseholdID; ai_InstitutionID : option string; ai_GroupID : option string;
  ai_Name : string; ai_AccountType : AccountType; ai_Role : BalanceSheetRole;
  ai_TrackingMode : TrackingMode; ai_DefaultCurrency : CurrencyCode; ai_Note : option string;
  ai_IconKey : option string; ai_IncludeInNetWorth : bool; ai_IncludeInPortfolio : bool;
  ai_IncludeInLiquidAssets : bool; ai_OpenedOn : option string; ai_ClosedOn : option string;
  ai_SortOrder : Z; ai_Ownership : list OwnershipShare; ai_InitialAmount : string }.

Section Entities.
Context `{HB : BankLogos} `{HD : DecimalAPI}.

Definition dates_ordered (openedOn closedOn : option string) : bool :=
  match openedOn, closedOn with
  | Some o, Some c => negb (String.ltb c o)
  | _, _ => true
  end.

Definition initial_amount (input : AccountInput) (cur : CurrencyCode) : Result (option Money) :=
  let empty := bool_decide (ai_InitialAmount input = ""%string) in
  if bool_decide (ai_TrackingMode input = TrackingHoldings) then
    if negb empty then Fail (validation "initialAmount" "must be empty for Holdings accounts") else Ok None
  else if negb empty then
    value ← ParseMoney (ai_InitialAmount input) cur; Ok (Some value)
  else Fail (validation "initialAmount" "is required for Balance and Manual Value accounts").

Definition NewAccount (id : AccountID) (input : AccountInput) (now : Time)
    : Result (Account * Ownership * option Money) :=
  name ← validateName "name" (ai_Name input);
  iconKey ← normalizedIconKey (ai_IconKey input) "";
  if negb (IsValidAccountCombination (ai_AccountType input) (ai_Role input) (ai_TrackingMode input))
  then Fail (validation "accountType" "is not a valid account combination")
  else
  canonicalCurrency ← ParseCurrency (ai_DefaultCurrency input);
  openedOn ← normalizeDate "openedOn" (ai_OpenedOn input);
  closedOn ← normalizeDate "closedOn" (ai_ClosedOn input);
  if negb (dates_ordered openedOn closedOn)
  then Fail (validation "closedOn" "cannot be earlier than openedOn")
  else
  ownership ← ParseOwnership (ai_Ownership input);
  note ← validateNote "note" (ai_Note input);
  initial ← initial_amount input canonicalCurrency;
  let now := normalizeTime now in
  Ok (mkAccount id (ai_HouseholdID input) (ai_InstitutionID input) (ai_GroupID input) name
        (ai_AccountType input) (ai_Role input) (ai_TrackingMode input) canonicalCurrency note iconKey
        (ai_IncludeInNetWorth input) (ai_IncludeInPortfolio input) (ai_IncludeInLiquidAssets input)
        openedOn closedOn (ai_SortOrder input) now now None,
      ownership, initial).

Record AccountValue := mkAccountValue {
  av_ID : string; av_AccountID : AccountID; av_ValueKind : TrackingMode; av_Amount : Money;
  av_EffectiveAt : Time; av_CreatedAt : Time }.

Definition NewAccountValue (id : string) (account : Account) (amt : Money) (effectiveAt createdAt : Time)
    : Result AccountValue :=
  if negb (bool_decide (TrackingMode' account = TrackingBalance)) &&
     negb (bool_decide (TrackingMode' account = TrackingManualValue))
  then Fail (validation "trackingMode" "account values are not valid for this tracking mode")
  else if negb (bool_decide (currency amt = DefaultCurrency account))
  then Fail (validation "amount" "currency must match account currency")
  else Ok (mkAccountValue id (ID account) (TrackingMode' account) amt
             (normalizeTime effectiveAt) (normalizeTime createdAt)).

Definition AccountEligibleForNetWorth (account : Account) : bool :=
  IncludeInNetWorth account && bool_decide (ArchivedAt account = None).

Definition SignedAmount (a : Account) (value : Money) : Result Decimal :=
  if negb (bool_decide (currency value = DefaultCurrency a))
  then Fail (validation "amount" "currency must match account currency")
  else if negb (AccountEligibleForNetWorth a) then Ok dZero
  else if IsLiability a then Ok (dNeg (amount value))
  else Ok (amount value).
End Entities.

(** ** Facts about ownership *)

Abbreviation owner_ids o := (map MemberID' o) (only parsing).

(** Every share between 1 and 10000, every owner once, 10000 in total. *)
Definition Ownership_ok (o : Ownership) : Prop :=
  o ≠ [] ∧ Forall (λ s, 1 <= ShareBPS s <= TotalOwnershipBPS) o ∧
  NoDup (owner_ids o) ∧ sumZ ShareBPS o = TotalOwnershipBPS.

(** [c] is share [s] with its owner's identifier in canonical form. *)
Definition canonical_share (s c : OwnershipShare) : Prop :=
  ParseMemberID (MemberID' s) = Ok (MemberID' c) ∧ ShareBPS c = ShareBPS s.

Lemma ownership_loop_ok shares seen total canonical t c :
  ownership_loop shares seen total canonical = Ok (t, c) ↔
  ∃ o, c = canonical ++ o ∧ t = total + sumZ ShareBPS o ∧ Forall2 canonical_share shares o ∧
       Forall (λ s, 1 <= ShareBPS s <= TotalOwnershipBPS) o ∧ NoDup (owner_ids o) ∧
       (∀ i, i ∈ owner_ids o → i ∉ seen).
Proof.
  revert seen total canonical. induction shares as [|s shares IH]; intros seen total canonical.
  - cbn [ownership_loop]. split.
    + intros [= <- <-]. exists []. rewrite app_nil_r. cbn.
      split; [done|]. split; [lia|]. repeat split; [constructor..|]. intros i Hi. by apply not_elem_of_nil in Hi.
    + intros (o & -> & -> & Hf & _). apply Forall2_nil_inv_l in Hf as ->.
      cbn. by rewrite app_nil_r, Z.add_0_r.
  - cbn [ownership_loop]. destruct (ParseMemberID (MemberID' s)) as [mid|e] eqn:Ep; [|].
    2:{ split; [done|]. intros (o & _ & _ & Hf & _). apply Forall2_cons_inv_l in Hf as (x & o' & [Hx _] & _).
        congruence. }
    destruct ((ShareBPS s <? 1) || (TotalOwnershipBPS <? ShareBPS s)) eqn:Er.
    { split; [done|]. intros (o & _ & _ & Hf & Hr & _).
      apply Forall2_cons_inv_l in Hf as (x & o' & [_ Hx] & _ & ->). apply Forall_cons in Hr as [Hr _].
      apply orb_true_iff in Er as [Er|Er]; prop_bool; rewrite Hx in Hr; lia. }
    prop_bool. case_bool_decide as Hs.
    { split; [done|]. intros (o & _ & _ & Hf & _ & _ & Hn).
      apply Forall2_cons_inv_l in Hf as (x & o' & [Hx _] & _ & ->).
      rewrite Ep in Hx. injection Hx as ->. exfalso. apply (Hn (MemberID' x)); [by left|done]. }
    rewrite IH. clear IH. split.
    + intros (o & -> & -> & Hf & Hr & Hnd & Hn). exists (mkShare mid (ShareBPS s) :: o).
      rewrite <-app_assoc, sumZ_cons. cbn [ShareBPS MemberID' map].
      split; [done|]. split; [lia|]. split; [by constructor|]. split; [constructor; [cbn; lia|done]|].
      split.
      * constructor; [|done]. intros Hin. apply (Hn _ Hin). by left.
      * intros i Hi. apply elem_of_cons in Hi as [->|Hi]; [done|]. specialize (Hn i Hi). set_solver.
    + intros (o & -> & -> & Hf & Hr & Hnd & Hn).
      apply Forall2_cons_inv_l in Hf as (x & o' & [Hx Hb] & Hf & ->). rewrite Ep in Hx.
      destruct x as [xm xb]. cbn in Hx, Hb. injection Hx as ->. subst xb.
      apply Forall_cons in Hr as [_ Hr]. apply NoDup_cons in Hnd as [Hni Hnd].
      exists o'. rewrite <-app_assoc, sumZ_cons. cbn [ShareBPS].
      split; [done|]. split; [lia|]. split; [done|]. split; [done|]. split; [done|].
      intros i Hi. apply not_elem_of_cons. split; [intros ->; done|]. apply Hn. by right.
Qed.

Lemma ParseOwnership_spec shares o :
  ParseOwnership shares = Ok o ↔ Ownership_ok o ∧ Forall2 canonical_share shares o.
Proof.
  unfold ParseOwnership, Ownership_ok. destruct shares as [|s shares].
  - split; [done|]. intros [[Hne _] Hf]. by apply Forall2_nil_inv_l in Hf.
  - destruct (ownership_loop (s :: shares) [] 0 []) as [[t c]|e] eqn:E.
    + apply ownership_loop_ok in E as (o' & -> & -> & Hf & Hr & Hnd & _). cbn [app].
      rewrite Z.add_0_l. destruct (Z.eqb_spec (sumZ ShareBPS o') TotalOwnershipBPS) as [Hs|Hs]; cbn [negb].
      * split.
        -- intros [= <-]. split; [|done]. split; [|done]. intros ->. by apply Forall2_nil_inv_r in Hf.
        -- intros [_ Hf']. f_equal. clear -Hf Hf'. revert o Hf'.
           induction Hf as [|a b l l' [Ha Hb] _ IH]; intros o Ho.
           ++ by apply Forall2_nil_inv_l in Ho.
           ++ apply Forall2_cons_inv_l in Ho as (x & o2 & [Hx Hxb] & Ho & ->).
              f_equal; [|by apply IH]. destruct b, x. cbn in *. congruence.
      * split; [done|]. intros [(_ & _ & _ & Hs') Hf']. exfalso. apply Hs. rewrite <-Hs'.
        clear -Hf Hf'. revert o Hf'. induction Hf as [|a b l l' [_ Hb] _ IH]; intros o Ho.
        -- by apply Forall2_nil_inv_l in Ho as ->.
        -- apply Forall2_cons_inv_l in Ho as (x & o2 & [_ Hx] & Ho & ->).
           rewrite !sumZ_cons, (IH o2 Ho). congruence.
    + split; [done|]. intros [(_ & Hr & Hnd & Hs) Hf].
      assert (ownership_loop (s :: shares) [] 0 [] = Ok (0 + sumZ ShareBPS o, [] ++ o)) as E'.
      { apply ownership_loop_ok. exists o. split; [done|]. split; [done|]. split; [done|]. split; [done|].
        split; [done|]. intros i _. apply not_elem_of_nil. }
      congruence.
Qed.

(** The equal split: floor or ceiling of [10000 / n], adding up to 10000. *)
Lemma equal_share_bounds n i : 1 <= n → 0 <= i →
  TotalOwnershipBPS / n <= equal_share n i <= TotalOwnershipBPS / n + 1.
Proof. intros. unfold equal_share. destruct (_ <? _); lia. Qed.

Lemma equal_share_sum n k (l : list MemberID) : 1 <= n → 0 <= k →
  sumZ ShareBPS (imap (λ i m, mkShare m (equal_share n (k + Z.of_nat i))) l) =
  Z.of_nat (List.length l) * (TotalOwnershipBPS / n) +
  Z.min (Z.of_nat (List.length l)) (Z.max 0 (TotalOwnershipBPS mod n - k)).
Proof.
  revert k. induction l as [|m l IH]; intros k Hn Hk; [cbn; lia|].
  rewrite imap_cons, sumZ_cons. cbn [ShareBPS List.length].
  rewrite (imap_ext _ (λ i m, mkShare m (equal_share n (k + 1 + Z.of_nat i)))).
  2:{ intros i x _. cbn. do 2 f_equal. lia. }
  rewrite IH by lia. unfold equal_share at 1.
  destruct (Z.ltb_spec (k + Z.of_nat 0) (TotalOwnershipBPS mod n)); lia.
Qed.

Lemma owner_ids_imap (g : nat → Z) (l : list MemberID) :
  owner_ids (imap (λ i m, mkShare m (g i)) l) = l.
Proof.
  revert g. induction l as [|m l IH]; intros g; [done|]. rewrite imap_cons. cbn [map MemberID'].
  f_equal. apply (IH (λ i, g (S i))).
Qed.

(** Every failure is a validation error. *)
Lemma ownership_loop_error shares seen t c :
  is_ok (ownership_loop shares seen t c) = false →
  code_of (ownership_loop shares seen t c) = Some ErrValidation.
Proof.
  revert seen t c. induction shares as [|s shares IH]; intros seen t c; [done|].
  cbn [ownership_loop]. destruct (ParseMemberID _); [|done]. destruct (_ || _); [done|].
  case_bool_decide; [done|]. apply IH.
Qed.

Lemma ParseOwnership_error shares :
  is_ok (ParseOwnership shares) = false → code_of (ParseOwnership shares) = Some ErrValidation.
Proof.
  unfold ParseOwnership. destruct shares as [|s shares]; [done|].
  pose proof (ownership_loop_error (s :: shares) [] 0 []) as H.
  destruct (ownership_loop _ _ _ _) as [[t c]|e]; [by destruct (negb _)|exact H].
Qed.

(** [ParseOwnership] accepts exactly the allocations in which every
    owner has a valid identifier, appears once and holds between 1 and 10000 basis
    points, and whose shares total 10000; it returns them in order with their
    identifiers in canonical form. *)
Theorem ParseOwnership_correct shares o :
  ParseOwnership shares = Ok o ↔
  shares ≠ [] ∧ Forall2 canonical_share shares o ∧
  Forall (λ s, 1 <= ShareBPS s <= 10000) o ∧ NoDup (owner_ids o) ∧ sumZ ShareBPS o = 10000.
Proof.
  rewrite ParseOwnership_spec. unfold Ownership_ok, TotalOwnershipBPS. split.
  - intros ((Hne & Hr & Hnd & Hs) & Hf). split; [|done]. intros ->. by apply Forall2_nil_inv_l in Hf.
  - intros (Hne & Hf & Hr & Hnd & Hs). split; [|done]. split; [|done].
    intros ->. by apply Forall2_nil_inv_r in Hf.
Qed.

(** [EqualOwnership] splits 10000 basis points over distinct members as
    evenly as integers allow: up to ten thousand members each get the floor or the
    ceiling of the exact share, in the given order, and nothing is lost; beyond
    ten thousand members it fails instead of handing out empty shares. *)
Theorem EqualOwnership_correct ids :
  ids ≠ [] → NoDup ids → (∀ i, i ∈ ids → ParseMemberID i = Ok i) →
  let n := Z.of_nat (List.length ids) in
  (n <= 10000 → ∃ o, EqualOwnership ids = Ok o ∧ owner_ids o = ids ∧ sumZ ShareBPS o = 10000 ∧
     Forall (λ s, 10000 / n <= ShareBPS s <= 10000 / n + 1) o) ∧
  (10000 < n → code_of (EqualOwnership ids) = Some ErrValidation).
Proof.
  intros Hne Hnd Hv n. set (f := λ (i : nat) (m : MemberID), mkShare m (equal_share n (Z.of_nat i))).
  assert (Hn : 1 <= n). { unfold n. destruct ids; [done|]. cbn. lia. }
  assert (HE : EqualOwnership ids = ParseOwnership (imap f ids)) by (by destruct ids).
  rewrite HE. split.
  - intros Hle. exists (imap f ids).
    assert (Hids : owner_ids (imap f ids) = ids).
    { apply (owner_ids_imap (λ i, equal_share n (Z.of_nat i))). }
    assert (Hsum : sumZ ShareBPS (imap f ids) = 10000).
    { unfold f. rewrite (imap_ext _ (λ i m, mkShare m (equal_share n (0 + Z.of_nat i)))) by done.
      rewrite equal_share_sum by lia. fold n. unfold TotalOwnershipBPS.
      pose proof (Z.div_mod 10000 n ltac:(lia)). pose proof (Z.mod_pos_bound 10000 n ltac:(lia)). lia. }
    assert (Hb : Forall (λ s, 10000 / n <= ShareBPS s <= 10000 / n + 1) (imap f ids)).
    { apply Forall_lookup. intros i s Hi. apply list_lookup_imap_Some in Hi as (m & _ & ->).
      apply equal_share_bounds; lia. }
    split; [|done]. apply ParseOwnership_spec. unfold Ownership_ok.
    split; [split; [|split; [|split; [by rewrite Hids|exact Hsum]]]|].
    + intros H0. apply (f_equal (@List.length _)) in H0. rewrite length_imap in H0. by destruct ids.
    + assert (1 <= 10000 / n) by (apply Z.div_le_lower_bound; lia).
      assert (10000 / n <= 10000) by (apply Z.div_le_upper_bound; nia).
      apply Forall_lookup. intros i s Hi. pose proof (list_lookup_imap f ids i) as Hl. rewrite Hi in Hl.
      destruct (ids !! i) as [m|]; [|done]. injection Hl as ->.
      unfold f. cbn. unfold equal_share, TotalOwnershipBPS.
      destruct (Z.ltb_spec (Z.of_nat i) (10000 mod n)); [|lia].
      assert (n ≠ 1) by (intros ->; rewrite Z.mod_1_r in *; lia).
      assert (10000 / n <= 5000) by (apply Z.div_le_upper_bound; lia). lia.
    + apply Forall2_same_length_lookup. split; [by rewrite length_imap|].
      intros i s c Hs Hc. rewrite Hs in Hc. injection Hc as ->. apply list_lookup_imap_Some in Hs as (m & Hm & ->).
      split; [|done]. cbn. apply Hv. by eapply list_elem_of_lookup_2.
  - intros Hlt. destruct (ParseOwnership (imap f ids)) as [o|e] eqn:E.
    + exfalso. apply ParseOwnership_spec in E as ((_ & Hr & _ & _) & Hf).
      assert (exists m, imap f ids !! (List.length ids - 1)%nat = Some (mkShare m 0)) as [m Hm].
      { rewrite list_lookup_imap. destruct (lookup_lt_is_Some_2 ids (List.length ids - 1)) as [m Hm].
        { destruct ids; [done|]. cbn. lia. }
        exists m. rewrite Hm. cbn. unfold f, equal_share, TotalOwnershipBPS.
        rewrite (Z.div_small 10000 n), (Z.mod_small 10000 n) by lia.
        rewrite (proj2 (Z.ltb_ge _ _)); [done|]. unfold n in *. lia. }
      destruct (Forall2_lookup_l _ _ _ _ _ Hf Hm) as (c & Hc & _ & Hb). cbn in Hb.
      rewrite Forall_lookup in Hr. apply Hr in Hc. lia.
    + rewrite <-E. apply ParseOwnership_error. by rewrite E.
Qed.

Definition sample_id1 : string := "6ba7b810-9dad-11d1-80b4-00c04fd430c8".
Definition sample_id2 : string := "6ba7b811-9dad-11d1-80b4-00c04fd430c8".
Definition sample_id3 : string := "6ba7b812-9dad-11d1-80b4-00c04fd430c8".

Lemma EqualOwnership_correct_witness :
  ∃ o, EqualOwnership [sample_id1; sample_id2; sample_id3] = Ok o ∧
       owner_ids o = [sample_id1; sample_id2; sample_id3] ∧ sumZ ShareBPS o = 10000 ∧
       Forall (λ s, 10000 / 3 <= ShareBPS s <= 10000 / 3 + 1) o.
Proof.
  apply (EqualOwnership_correct [sample_id1; sample_id2; sample_id3]).
  - discriminate.
  - apply (bool_decide_unpack _). vm_compute. exact I.
  - intros i Hi. repeat (apply elem_of_cons in Hi as [->|Hi]; [vm_compute; reflexivity|]).
    by apply not_elem_of_nil in Hi.
  - discriminate.
Defined.

(** ** Percentages, classes and entities *)

Section PercentFacts.
Context `{HD : DecimalAPI} {HL : DecimalLaws}.

Lemma syntax_graphic N M s : unsigned_syntax N M s = true →
  all_bytes is_graphic s = true ∧ trimPercent s = s.
Proof.
  unfold unsigned_syntax. destruct (split_dot s) as [ip fp] eqn:Es. intros H. prop_bool.
  pose proof (split_dot_inv _ _ _ Es) as Hs. destruct (int_part_ok_digits _ _ H) as [Hd Hl].
  assert (Hb : all_bytes (λ c, is_digit c || Ascii.eqb c ".") s = true).
  { assert (∀ t, all_digits t = true → all_bytes (λ c, is_digit c || Ascii.eqb c ".") t = true) as Hall.
    { intros t. apply all_bytes_impl. intros c ->. done. }
    rewrite Hs. destruct fp as [f|]; [|by apply Hall].
    cbn [frac_part_ok] in *. prop_bool. rewrite all_bytes_app, Hall by done.
    cbn [all_bytes andb]. by rewrite Hall. }
  split.
  - revert Hb. apply all_bytes_impl. intros c Hc. apply orb_true_iff in Hc as [Hc|Hc].
    + unfold is_digit, is_graphic, in_range in *. prop_bool. apply andb_true_iff. rewrite !Z.leb_le. lia.
    + apply Ascii.eqb_eq in Hc as ->. reflexivity.
  - unfold trimPercent. destruct (rev (list_ascii_of_string s)) as [|c r] eqn:Er; [done|].
    destruct (Ascii.eqb_spec c "%") as [->|]; [exfalso|done].
    assert (In "%"%char (list_ascii_of_string s)) as Hin by (apply in_rev; rewrite Er; by left).
    clear -Hb Hin. induction s as [|c s IH]; [done|]. cbn [all_bytes] in Hb. prop_bool.
    destruct Hin as [->|Hin]; [discriminate|by apply IH].
Qed.

(** [PercentToBasisPoints] is exact: every accepted number of percent,
    with or without the sign and surrounding spaces trimmed, becomes a hundred
    times its value when that is at most 10000, and is refused otherwise; the
    check for more than two decimals never fires. *)
Theorem PercentToBasisPoints_correct s v e :
  unsigned_syntax 2 2 s = true → literal s = Some (v, e) →
  PercentToBasisPoints s =
    (if v * 10 ^ (e + 2) <=? 10000 then Ok (v * 10 ^ (e + 2))
     else Fail (validation "ownership" "percentage must be between 0 and 100")) ∧
  PercentToBasisPoints (s +:+ "%") = PercentToBasisPoints s.
Proof.
  intros Hs Hl. destruct (syntax_graphic 2 2 s Hs) as [Hg Ht].
  destruct (unsigned_syntax_literal 2 2 s ltac:(lia) ltac:(lia) Hs) as (v' & e' & Hl' & Hv & He1 & He2).
  rewrite Hl in Hl'. injection Hl' as <- <-.
  assert (Hp : PercentToBasisPoints (s +:+ "%") = PercentToBasisPoints s).
  { unfold PercentToBasisPoints. rewrite !TrimSpace_graphic; [|done|by rewrite all_bytes_app, Hg].
    rewrite Ht. enough (trimPercent (s +:+ "%") = s) as -> by done.
    assert (Ha : ∀ t u, list_ascii_of_string (t +:+ u) = (list_ascii_of_string t ++ list_ascii_of_string u)%list).
    { intros t u. induction t as [|c t IH]; [by rewrite str_app_nil|]. rewrite str_app_cons. cbn. by rewrite IH. }
    unfold trimPercent. rewrite Ha, rev_app_distr. cbn [rev app list_ascii_of_string Ascii.eqb].
    rewrite rev_involutive. apply string_of_list_ascii_of_string. }
  split; [|exact Hp]. unfold PercentToBasisPoints. rewrite TrimSpace_graphic, Ht by done.
  unfold percentPattern. rewrite Hs. cbn [orb negb].
  destruct (dNewFromString_literal s v e Hl) as (d & -> & Hdv & Hde).
  assert (dIsNegative d = false) as -> by (apply isneg_false, dval_nonneg_coef; lia). cbn [orb].
  assert (Hu : (dval (dMul d (dInt 100)) == inject_Z (v * 10 ^ (e + 2)))%Q).
  { rewrite dMul_val, dval_int. change (inject_Z 100) with (p10 2). rewrite dval_units by lia.
    unfold units, cunits. by rewrite Hdv, Hde. }
  assert (Hgt : dGreaterThan d (dInt 100) = negb (v * 10 ^ (e + 2) <=? 10000)).
  { apply eq_true_iff_eq. rewrite dGreaterThan_val, negb_true_iff, Z.leb_gt, Zlt_Qlt, <-Hu, dMul_val, !dval_int.
    change (inject_Z 10000) with 10000%Q. change (inject_Z 100) with 100%Q. split; intros; lra. }
  rewrite Hgt. destruct (v * 10 ^ (e + 2) <=? 10000); cbn [negb]; [|done].
  rewrite dBigInt_val, Hu, round_trunc_Z.
  assert (dCmp (dTruncate (dMul d (dInt 100)) 0) (dMul d (dInt 100)) = 0) as ->; [|done].
  rewrite dCmp_val. assert (dval (dTruncate (dMul d (dInt 100)) 0) == dval (dMul d (dInt 100)))%Q as Ht0.
  { rewrite dTruncate_val by lia.
    assert (dval (dMul d (dInt 100)) * p10 0 == inject_Z (v * 10 ^ (e + 2)))%Q as Hu'
      by (rewrite Hu; change (p10 0) with 1%Q; ring).
    rewrite (round_trunc_proper _ _ Hu'), round_trunc_Z. change (p10 (- 0)) with 1%Q.
    transitivity (inject_Z (v * 10 ^ (e + 2))); [ring|by symmetry]. }
  by apply Qeq_alt in Ht0 as ->.
Qed.
End PercentFacts.

Lemma PercentToBasisPoints_correct_witness :
  PercentToBasisPoints "33.34" = Ok 3334 ∧ PercentToBasisPoints ("33.34" +:+ "%") = PercentToBasisPoints "33.34".
Proof. apply (PercentToBasisPoints_correct "33.34" 3334 (-2)); reflexivity. Defined.

Definition class_side (b : string) : option BalanceSheetRole :=
  if bool_decide (b ∈ ["credit_card"; "loan"; "other_liability"]%string) then Some RoleLiability
  else if bool_decide (b ∈ ["cash"; "unclassified_investment"; "pension"; "insurance"; "property";
    "vehicle"; "collectible"; "receivable"; "other_asset"]%string) then Some RoleAsset
  else None.

(** Classification follows the table of legal combinations: a simple
    account is classified iff its combination is legal and not composite, always
    into a bucket of its own balance-sheet side, so the final default branch is
    never reached; and the suggested default role is the only role that a type
    admits, with no suggestion exactly for the open-ended type. *)
Theorem classification_correct t role tracking :
  (is_ok (ClassifySimpleAccount t role tracking) =
   IsValidAccountCombination t role tracking && negb (bool_decide (tracking = TrackingHoldings))) ∧
  (∀ c, ClassifySimpleAccount t role tracking = Ok c →
        ac_Role c = role ∧ class_side (Bucket c) = Some role) ∧
  (DefaultBalanceSheetRole t = None ↔ t = TypeOther) ∧
  (IsValidAccountCombination t role tracking = true → t ≠ TypeOther →
   DefaultBalanceSheetRole t = Some role).
Proof.
  split; [destruct t, role, tracking; reflexivity|].
  split; [destruct t, role, tracking; intros c H; vm_compute in H; first [discriminate H | injection H as <-]; done|].
  split; [destruct t; split; intros H; first [reflexivity | vm_compute in H; discriminate H]|].
  destruct t, role, tracking; intros H Hn; first [reflexivity | vm_compute in H; discriminate H | by destruct Hn].
Qed.

Lemma classification_correct_witness : DefaultBalanceSheetRole TypeLoan = Some RoleLiability.
Proof. by apply (classification_correct TypeLoan RoleLiability TrackingBalance). Defined.

Section AccountFacts.
Context `{HB : BankLogos} `{HD : DecimalAPI} {HL : DecimalLaws}.

Definition Account_ok (a : Account) : Prop :=
  IsValidAccountCombination (AccountType' a) (BalanceSheetRole' a) (TrackingMode' a) = true ∧
  currency_ok (DefaultCurrency a) = true ∧ Name a ≠ ""%string ∧
  (∀ d, OpenedOn a = Some d → ∃ n, ParseDate d = Some n) ∧
  (∀ d, ClosedOn a = Some d → ∃ n, ParseDate d = Some n) ∧
  (∀ o c n k, OpenedOn a = Some o → ClosedOn a = Some c → ParseDate o = Some n → ParseDate c = Some k → n <= k).

Lemma normalizeDate_date f v d : normalizeDate f v = Ok (Some d) → ∃ n, is_date d n.
Proof.
  unfold normalizeDate. destruct v as [v|]; [|discriminate].
  destruct (ParseDate (TrimSpace v)) as [n|] eqn:E; [|discriminate]. intros [= <-].
  exists n. unfold is_date. by rewrite (format_days_of_parse _ _ E).
Qed.

Lemma dates_ordered_days o c n k : is_date o n → is_date c k →
  dates_ordered (Some o) (Some c) = true → n <= k.
Proof.
  intros Ho Hc. unfold dates_ordered, String.ltb. fold (scompare c o).
  rewrite (date_compare c o k n Hc Ho). destruct (Z.compare_spec k n); cbn; [lia|discriminate|lia].
Qed.

(** Claim C38.  Whatever [NewAccount] accepts is a well-formed account: a legal
    combination in a canonical currency, a non-empty name, calendar dates in
    order; its ownership totals 10000 basis points over distinct owners; and the
    initial amount is absent exactly for composite accounts and otherwise a valid
    amount in the account's own currency, so it can be recorded as the first
    account value. *)
Theorem NewAccount_well_formed id input now a o initial :
  NewAccount id input now = Ok (a, o, initial) →
  Account_ok a ∧ Ownership_ok o ∧
  (initial = None ↔ TrackingMode' a = TrackingHoldings) ∧
  (∀ m, initial = Some m → Money_ok m ∧ currency m = DefaultCurrency a ∧
        ∀ vid t t', is_ok (NewAccountValue vid a m t t') = true).
Proof.
  unfold NewAccount. intros H. inv_ok. prop_bool.
  match goal with H : validateName _ _ = Ok ?n |- _ => rename H into En end.
  match goal with H : ParseCurrency _ = Ok ?n |- _ => rename H into Ec end.
  match goal with H : normalizeDate "openedOn" _ = Ok ?n |- _ => rename H into Eo end.
  match goal with H : normalizeDate "closedOn" _ = Ok ?n |- _ => rename H into Ecl end.
  match goal with H : ParseOwnership _ = Ok ?n |- _ => rename H into Eow end.
  match goal with H : initial_amount _ _ = Ok ?n |- _ => rename H into Ei end. subst.
  pose proof (ParseCurrency_ok _ _ Ec) as Hcok.
  split; [|split; [by apply (ParseOwnership_spec (ai_Ownership input))|]].
  { unfold Account_ok. cbn. split; [done|]. split; [done|]. split.
    { unfold validateName in En. inv_ok. by prop_bool. }
    split; [|split].
    - intros d ->. by eapply normalizeDate_date.
    - intros d ->. by eapply normalizeDate_date.
    - intros od cd n k -> -> Hn Hk. by apply (dates_ordered_days od cd n k). }
  unfold initial_amount in Ei. cbn [TrackingMode' DefaultCurrency].
  repeat case_bool_decide; cbn [negb] in Ei; inv_ok.
  - split; [done|]. intros m [=].
  - split; [split; [done|intros; congruence]|]. intros m [= <-].
    match goal with Hm : ParseMoney _ _ = Ok ?m |- _ =>
      destruct (ParseMoney_literal _ _ _ Hm) as (_ & Hc & _); pose proof (ParseMoney_ok _ _ _ Hm) as [Hok _] end.
    rewrite ParseCurrency_id in Hc by done. injection Hc as Hc. split; [done|]. split; [done|].
    intros vid t t'. unfold NewAccountValue. cbn [TrackingMode' DefaultCurrency].
    rewrite <-Hc, (bool_decide_eq_true_2 (_ = _) eq_refl). cbn [negb].
    by destruct (ai_TrackingMode input).
Qed.

(** The signed contribution of an account to net worth: nothing when it
    is excluded or archived, minus the value for a liability and the value itself
    for an asset; a value in another currency is refused. *)
Theorem SignedAmount_correct a m :
  (currency m ≠ DefaultCurrency a → code_of (SignedAmount a m) = Some ErrValidation) ∧
  (currency m = DefaultCurrency a → ∃ d, SignedAmount a m = Ok d ∧
     (dval d == (if IncludeInNetWorth a && bool_decide (ArchivedAt a = None)
                 then match BalanceSheetRole' a with RoleLiability => - dval (amount m)
                                                   | RoleAsset => dval (amount m) end
                 else 0))%Q).
Proof.
  unfold SignedAmount, AccountEligibleForNetWorth, IsLiability, role_IsLiability. split.
  - intros H. by rewrite bool_decide_eq_false_2.
  - intros ->. rewrite bool_decide_eq_true_2 by done. cbn [negb].
    destruct (_ && _); cbn [negb]; [|eexists; split; [done|apply dval_dzero]].
    destruct (BalanceSheetRole' a); eexists; (split; [done|]); [done|apply dNeg_val].
Qed.
End AccountFacts.

Definition no_logos : BankLogos := λ _, false.

Definition sample_account_input : AccountInput :=
  mkAccountInput "h" None None " Checking " TypeBankAccount RoleAsset TrackingBalance "usd" None None
    true false true (Some " 2020-01-31 ") None 0 [mkShare sample_id1 6000; mkShare sample_id2 4000] "12.50".

Definition sample_account : Account :=
  mkAccount "acc" "h" None None "Checking" TypeBankAccount RoleAsset TrackingBalance "USD" None (Some ""%string)
    true false true (Some "2020-01-31"%string) None 0 0 0 None.

Lemma NewAccount_well_formed_witness :
  Account_ok sample_account ∧ Ownership_ok [mkShare sample_id1 6000; mkShare sample_id2 4000] ∧
  (Some (mkMoney (dNew 1250 (-2)) "USD") = None ↔ TrackingMode' sample_account = TrackingHoldings) ∧
  (∀ m, Some (mkMoney (dNew 1250 (-2)) "USD") = Some m →
        Money_ok m ∧ currency m = DefaultCurrency sample_account ∧
        ∀ vid t t', is_ok (NewAccountValue vid sample_account m t t') = true).
Proof.
  apply (NewAccount_well_formed (HB := no_logos) "acc" sample_account_input 0 sample_account).
  reflexivity.
Defined.

Lemma SignedAmount_correct_witness :
  code_of (SignedAmount sample_account (mkMoney (dNew 1 0) "EUR")) = Some ErrValidation.
Proof. by apply (SignedAmount_correct sample_account (mkMoney (dNew 1 0) "EUR")). Defined.
