(* ===== verification/Portfolio.v ===== *)
(** * Instruments, holdings, quotes and preferences

    [portfolio.go] and the precious-metal rules of [precious_metal.go]: the
    instrument constructor with its text normalisation, labels, holdings, cash
    observations, oriented quotes and unordered currency-pair preferences.  As in
    [Accounts], the first [id] argument of a constructor is the fresh UUID. *)

From S2P Require Export Accounts.
From S2P Require Import DecimalModel.
From Stdlib Require Import String Ascii.

#[global] Open Scope Z_scope.

Inductive InstrumentType :=
| InstrumentStock | InstrumentETF | InstrumentMutualFund | InstrumentCrypto
| InstrumentBond | InstrumentPreciousMetal | InstrumentBankInvestmentProduct | InstrumentOther.
#[export] Instance InstrumentType_eq_dec : EqDecision InstrumentType.
Proof. solve_decision. Defined.

Definition InstrumentType_String (t : InstrumentType) : string :=
  match t with
  | InstrumentStock => "stock" | InstrumentETF => "etf" | InstrumentMutualFund => "mutual_fund"
  | InstrumentCrypto => "crypto" | InstrumentBond => "bond"
  | InstrumentPreciousMetal => "precious_metal"
  | InstrumentBankInvestmentProduct => "bank_investment_product" | InstrumentOther => "other"
  end.
Definition AllInstrumentTypes : list InstrumentType :=
  [InstrumentStock; InstrumentETF; InstrumentMutualFund; InstrumentCrypto;
   InstrumentBond; InstrumentPreciousMetal; InstrumentBankInvestmentProduct; InstrumentOther].
Definition ParseInstrumentType : string → Result InstrumentType :=
  parse_enum AllInstrumentTypes InstrumentType_String (validation "instrumentType" "is not supported").

Definition DefaultInstrumentIcon (t : InstrumentType) : string :=
  match t with
  | InstrumentStock => "stock" | InstrumentETF => "pie-chart" | InstrumentMutualFund => "chart"
  | InstrumentCrypto => "bitcoin" | InstrumentBond => "document" | InstrumentPreciousMetal => "gem"
  | InstrumentBankInvestmentProduct => "bank" | InstrumentOther => "investment"
  end.

Definition QuoteSourceKind_String (k : QuoteSourceKind) : string :=
  match k with QuoteSourceManual => "manual" | QuoteSourceProvider => "provider"
             | QuoteSourceAgent => "agent" end.
Definition AllQuoteSourceKinds : list QuoteSourceKind :=
  [QuoteSourceManual; QuoteSourceProvider; QuoteSourceAgent].
Definition ParseQuoteSourceKind : string → Result QuoteSourceKind :=
  parse_enum AllQuoteSourceKinds QuoteSourceKind_String (validation "sourceKind" "is not supported").

Inductive QuoteSourceFilter := FilterAll | FilterManual | FilterProvider | FilterAgent.
Definition QuoteSourceFilter_String (f : QuoteSourceFilter) : string :=
  match f with FilterAll => "all" | FilterManual => "manual" | FilterProvider => "provider"
             | FilterAgent => "agent" end.
Definition ParseQuoteSourceFilter (value : string) : Result QuoteSourceFilter :=
  if bool_decide (TrimSpace value = ""%string) then Ok FilterAll
  else parse_enum [FilterAll; FilterManual; FilterProvider; FilterAgent] QuoteSourceFilter_String
         (validation "sourceFilter" "quote source filter is not supported") value.
Definition SourceKind (f : QuoteSourceFilter) : option QuoteSourceKind :=
  match f with
  | FilterManual => Some QuoteSourceManual | FilterProvider => Some QuoteSourceProvider
  | FilterAgent => Some QuoteSourceAgent | FilterAll => None
  end.

(** ** Text normalisation *)

Definition trimInstrumentLabel (value : string) : string := trim_toks (bom_rune :: space_runes) value.

Definition NormalizeInstrumentShortName (value : string) : Result string :=
  let value := trimInstrumentLabel value in
  if 120 <? rune_count value then Fail (validation "shortName" "must be at most 120 characters")
  else Ok value.

Definition normalizePortfolioText (field : string) (value : option string) (maxRunes : Z) (upper : bool)
    : Result (option string) :=
  match value with
  | None => Ok None
  | Some value =>
    let trimmed := TrimSpace value in
    if bool_decide (trimmed = ""%string) then Ok None
    else if maxRunes <? rune_count trimmed then Fail (validation field "is too long")
    else Ok (Some (if upper then ToUpper trimmed else trimmed))
  end.

(** The loop over runes refuses every rune outside [A..Z]; so does the test on
    bytes, since every byte of a longer rune is above 127. *)
Definition normalizeCountryCode (value : option string) : Result (option string) :=
  country ← normalizePortfolioText "countryCode" value 2 true;
  match country with
  | None => Ok None
  | Some c =>
    if negb (all_bytes (in_range 65 90) c)
    then Fail (validation "countryCode" "must contain two uppercase letters")
    else if negb (slen c =? 2)
    then Fail (validation "countryCode" "must contain two uppercase letters")
    else Ok (Some c)
  end.

Definition normalizeQuoteSource (source sourceKey : string) : Result (QuoteSourceKind * string) :=
  let source := if bool_decide (source = ""%string) then "manual"%string else source in
  parsed ← ParseQuoteSourceKind source;
  let sourceKey := TrimSpace sourceKey in
  let empty := bool_decide (sourceKey = ""%string) in
  if negb (bool_decide (parsed = QuoteSourceManual)) && empty
  then Fail (validation "sourceKey" "is required for non-manual observations")
  else
    let sourceKey := if empty then "manual"%string else sourceKey in
    if 64 <? rune_count sourceKey then Fail (validation "sourceKey" "must be 64 characters or fewer")
    else Ok (parsed, sourceKey).

(** ** Labels *)

Definition stringPointerValue (value : option string) : string := default ""%string value.

(** [shortName] is variadic in the source: at most one is passed. *)
Definition InstrumentDisplayLabel (name symbol : string) (shortName : option string) : string :=
  let short := match shortName with Some s => trimInstrumentLabel s | None => ""%string end in
  if negb (bool_decide (short = ""%string)) then short
  else
    let trimmed := trimInstrumentLabel symbol in
    if negb (bool_decide (trimmed = ""%string)) then trimmed else trimInstrumentLabel name.

Fixpoint label_loop (values seen : list string) : list string :=
  match values with
  | [] => []
  | value :: values =>
    let value := trimInstrumentLabel value in
    if negb (bool_decide (value = ""%string)) && negb (bool_decide (value ∈ seen))
    then value :: label_loop values (value :: seen)
    else label_loop values seen
  end.

Fixpoint join (sep : string) (l : list string) : string :=
  match l with
  | [] => ""
  | [x] => x
  | x :: l => (x +:+ sep +:+ join sep l)%string
  end.

(** The separator is a middle dot between spaces, in UTF-8. *)
Definition label_separator : string := bytes [32; 194; 183; 32].

Definition InstrumentSelectionLabel (name symbol shortName : string) (identity : list string) : string :=
  let values := ([InstrumentDisplayLabel name symbol (Some shortName); symbol; name] ++ identity)%list in
  join label_separator (label_loop values []).

(** ** Instruments *)

Record Instrument := mkInstrument {
  i_ID : InstrumentID; i_HouseholdID : HouseholdID; i_Name : string; i_ShortName : string;
  i_Type : InstrumentType; MetalTemplate : string; QuantityUnit : string;
  i_QuoteCurrency : CurrencyCode; Symbol : option string; MarketCode : option string;
  CountryCode : option string; ISIN : option string; i_Note : option string;
  i_IconKey : option string; i_SortOrder : Z; QuoteSource : QuoteSourceKind;
  ProviderKey : option string; ProviderSymbol : option string;
  ProviderBindingRevision : Z; i_PreferenceObservationID : option string;
  i_CreatedAt : Time; i_UpdatedAt : Time; i_ArchivedAt : option Time }.

(** Type and source reach the code as text. *)
Record InstrumentInput := mkInstrumentInput {
  in_MetalTemplate : string; in_QuantityUnit : string; in_HouseholdID : HouseholdID;
  in_Name : string; in_ShortName : string; in_Type : string; in_QuoteCurrency : CurrencyCode;
  in_Symbol : option string; in_MarketCode : option string; in_CountryCode : option string;
  in_ISIN : option string; in_Note : option string; in_IconKey : option string; in_SortOrder : Z;
  in_QuoteSource : string; in_ProviderKey : option string; in_ProviderSymbol : option string }.

Definition CoinGeckoProviderKey : string := "coingecko".
Definition YahooFinanceProviderKey : string := "yahoo_finance".
Definition MetalFuturesMarket : string := "COMEX".

Definition MetalProviderSymbol (template : string) : string :=
  if bool_decide (template = "gold"%string) then "GC=F"
  else if bool_decide (template = "silver"%string) then "SI=F"
  else "".

Definition blank (v : option string) : bool :=
  match v with None => true | Some s => bool_decide (TrimSpace s = ""%string) end.

Definition applyMetalTemplateDefaults (input : InstrumentInput) : InstrumentInput :=
  let symbol := MetalProviderSymbol (in_MetalTemplate input) in
  if bool_decide (symbol = ""%string) then input
  else
    let dflt v d := if blank v then Some d else v in
    mkInstrumentInput (in_MetalTemplate input) (in_QuantityUnit input) (in_HouseholdID input)
      (in_Name input) (in_ShortName input) (in_Type input) (in_QuoteCurrency input) (in_Symbol input)
      (dflt (in_MarketCode input) MetalFuturesMarket) (in_CountryCode input) (in_ISIN input)
      (in_Note input) (in_IconKey input) (in_SortOrder input) (in_QuoteSource input)
      (dflt (in_ProviderKey input) YahooFinanceProviderKey) (dflt (in_ProviderSymbol input) symbol).

Definition ValidateMetalConfiguration (input : InstrumentInput) : Result unit :=
  if bool_decide (in_MetalTemplate input = ""%string) then
    if negb (bool_decide (in_QuantityUnit input = ""%string))
    then Fail (validation "quantityUnit" "a metal template is required") else Ok tt
  else if negb (bool_decide (in_Type input = "precious_metal"%string)) ||
          bool_decide (MetalProviderSymbol (in_MetalTemplate input) = ""%string)
  then Fail (validation "metalTemplate" "unsupported precious metal template")
  else if negb (bool_decide (in_QuantityUnit input = "g"%string)) &&
          negb (bool_decide (in_QuantityUnit input = "troy_oz"%string))
  then Fail (validation "quantityUnit" "select grams or troy ounces")
  else if negb (bool_decide (in_MarketCode input = Some MetalFuturesMarket))
  then Fail (validation "marketCode" "metal templates use COMEX reference prices")
  else if negb (bool_decide (in_ProviderKey input = Some YahooFinanceProviderKey)) ||
          negb (bool_decide (in_ProviderSymbol input = Some (MetalProviderSymbol (in_MetalTemplate input))))
  then Fail (validation "providerSymbol" "metal templates require their Yahoo futures symbol")
  else Ok tt.

Section Instruments.
Context `{HB : BankLogos}.

(** The provider step: (market code, provider symbol). *)
Definition provider_step (instrumentType : InstrumentType) (marketCode providerKey providerSymbol : option string)
    : Result (option string * option string) :=
  match providerSymbol with
  | None => Ok (marketCode, None)
  | Some symbol =>
    if bool_decide (providerKey = Some CoinGeckoProviderKey) then
      if negb (bool_decide (instrumentType = InstrumentCrypto))
      then Fail (validation "providerKey" "CoinGecko only supports cryptocurrencies")
      else Ok (Some "CRYPTO"%string, Some (ToLower symbol))
    else Ok (marketCode, Some (ToUpper symbol))
  end.

Definition NewInstrument (id : InstrumentID) (input : InstrumentInput) (now : Time) : Result Instrument :=
  name ← validateName "name" (in_Name input);
  shortName ← NormalizeInstrumentShortName (in_ShortName input);
  let input := applyMetalTemplateDefaults input in
  _ ← ValidateMetalConfiguration input;
  instrumentType ← ParseInstrumentType (in_Type input);
  iconKey ← normalizedIconKey (in_IconKey input) (DefaultInstrumentIcon instrumentType);
  cur ← match ParseCurrency (in_QuoteCurrency input) with
        | Fail _ => Fail (validation "quoteCurrency" "must be a valid currency")
        | Ok c => Ok c end;
  let quoteSource := if bool_decide (in_QuoteSource input = ""%string) then "manual"%string
                     else in_QuoteSource input in
  quoteSource ← ParseQuoteSourceKind quoteSource;
  symbol ← normalizePortfolioText "symbol" (in_Symbol input) 64 true;
  marketCode ← normalizePortfolioText "marketCode" (in_MarketCode input) 32 true;
  let marketCode := ToUpper <$> marketCode in
  countryCode ← normalizeCountryCode (in_CountryCode input);
  isin ← normalizePortfolioText "isin" (in_ISIN input) 32 true;
  let isin := ToUpper <$> isin in
  note ← validateNote "note" (in_Note input);
  providerKey ← normalizePortfolioText "providerKey" (in_ProviderKey input) 64 false;
  let providerKey := ToLower <$> providerKey in
  providerSymbol ← normalizePortfolioText "providerSymbol" (in_ProviderSymbol input) 128 true;
  '(marketCode, providerSymbol) ← provider_step instrumentType marketCode providerKey providerSymbol;
  if bool_decide (quoteSource = QuoteSourceProvider) &&
     (bool_decide (providerKey = None) || bool_decide (providerSymbol = None))
  then Fail (validation "provider" "provider key and symbol are required when Provider is selected")
  else
  let now := normalizeTime now in
  Ok (mkInstrument id (in_HouseholdID input) name shortName instrumentType (in_MetalTemplate input)
        (in_QuantityUnit input) cur symbol marketCode countryCode isin note iconKey
        (in_SortOrder input) quoteSource providerKey providerSymbol 0 None now now None).
End Instruments.

Definition i_SelectionLabel (i : Instrument) : string :=
  InstrumentSelectionLabel (i_Name i) (stringPointerValue (Symbol i)) (i_ShortName i)
    [stringPointerValue (MarketCode i); i_QuoteCurrency i; stringPointerValue (ISIN i);
     QuantityUnit i; stringPointerValue (ProviderKey i); stringPointerValue (ProviderSymbol i)].

(** ** Holdings, cash observations and quotes *)

Section Records.
Context `{HD : DecimalAPI}.

Record Holding := mkHolding {
  hd_ID : HoldingID; hd_AccountID : AccountID; hd_InstrumentID : InstrumentID;
  hd_Quantity : Quantity; hd_Note : option string; hd_SortOrder : Z;
  hd_CreatedAt : Time; hd_UpdatedAt : Time; hd_ArchivedAt : option Time }.

Definition NewHolding (id : HoldingID) (accountID : AccountID) (instrumentID : InstrumentID)
    (quantity : Quantity) (note : option string) (sortOrder : Z) (now : Time) : Result Holding :=
  match ParseAccountID accountID with
  | Fail _ => Fail (validation "accountId" "must be a valid account ID")
  | Ok _ =>
    match ParseInstrumentID instrumentID with
    | Fail _ => Fail (validation "instrumentId" "must be a valid instrument ID")
    | Ok _ =>
      note ← validateNote "note" note;
      let now := normalizeTime now in
      Ok (mkHolding id accountID instrumentID quantity note sortOrder now now None)
    end
  end.

Definition NewHoldingForAccount (id : HoldingID) (account : Account) (instrument : Instrument)
    (quantity : Quantity) (note : option string) (sortOrder : Z) (now : Time) : Result Holding :=
  if negb (bool_decide (TrackingMode' account = TrackingHoldings))
  then Fail (validation "trackingMode" "Holdings must belong to a Holdings account")
  else if bool_decide (AccountType' account = TypeCashOnHand)
  then Fail (validation "accountType" "Cash on hand accounts can only contain cash balances")
  else if negb (bool_decide (a_HouseholdID account = i_HouseholdID instrument))
  then Fail (validation "householdId" "account and instrument must belong to the same Household")
  else NewHolding id (ID account) (i_ID instrument) quantity note sortOrder now.

Definition ReplaceQuantity (h : Holding) (quantity : Quantity) (now : Time) : Holding :=
  mkHolding (hd_ID h) (hd_AccountID h) (hd_InstrumentID h) quantity (hd_Note h) (hd_SortOrder h)
    (hd_CreatedAt h) (normalizeTime now) (hd_ArchivedAt h).

Record AccountCashValue := mkCashValue {
  cv_ID : string; cv_AccountID : AccountID; cv_Amount : Money;
  cv_EffectiveAt : Time; cv_CreatedAt : Time; cv_ObservationKind : string;
  cv_ActivityID : option string; cv_ActivityEffectID : option string;
  cv_ActivityKind : option string; cv_ActivityReason : option string;
  cv_ActivityNote : option string; cv_Change : option SignedMoney }.

Definition NewAccountCashValue (id : string) (account : Account) (amt : Money) (effectiveAt createdAt : Time)
    : Result AccountCashValue :=
  if negb (bool_decide (TrackingMode' account = TrackingHoldings))
  then Fail (validation "trackingMode" "cash observations require a Holdings account")
  else if dIsNegative (amount amt) then Fail (validation "amount" "cash must not be negative")
  else if bool_decide (currency amt = ""%string) then Fail (validation "amount" "currency is required")
  else Ok (mkCashValue id (ID account) amt (normalizeTime effectiveAt) (normalizeTime createdAt) "baseline"
            None None None None None None).

Record InstrumentQuote := mkInstrumentQuote {
  iq_ID : string; iq_InstrumentID : InstrumentID; iq_UnitPrice : UnitPrice; iq_Currency : CurrencyCode;
  iq_SourceKind : QuoteSourceKind; iq_SourceKey : string; iq_QuotedAt : Time; iq_CreatedAt : Time;
  iq_Delayed : bool; iq_ObservationKind : string; iq_EffectiveDate : string;
  iq_ProviderTimestamp : Time; iq_FetchedAt : Time; iq_ValueEffectiveAt : Time;
  iq_BindingRevision : Z; iq_SourcePolicyVersion : string; iq_PriceBasis : string;
  iq_TimestampBasis : string; iq_Revision : Z; iq_SupersedesQuoteID : option string;
  iq_SplitFactor : string; iq_ConversionJSON : string; iq_DividendCash : string }.

Definition NewInstrumentQuote (id : string) (instrument : Instrument) (price : UnitPrice)
    (inCurrency sourceKind sourceKey : string) (quotedAt : Time) (delayed : bool) (createdAt : Time)
    : Result InstrumentQuote :=
  '(source, sourceKey) ← normalizeQuoteSource sourceKind sourceKey;
  cur ← (if negb (bool_decide (inCurrency = ""%string)) then
           match ParseCurrency inCurrency with
           | Fail _ => Fail (validation "currency" "must be a valid currency")
           | Ok c => Ok c end
         else Ok (i_QuoteCurrency instrument));
  if negb (bool_decide (cur = i_QuoteCurrency instrument))
  then Fail (validation "currency" "must match instrument quote currency")
  else Ok (mkInstrumentQuote id (i_ID instrument) price cur source sourceKey
             (normalizeTime quotedAt) (normalizeTime createdAt) delayed
             "" "" 0 0 0 0 "" "" "" 0 None "" "" "").

Definition NewFXQuote (id : string) (householdID : HouseholdID) (baseCurrency quoteCurrency : CurrencyCode)
    (rate : FxRate) (sourceKind sourceKey : string) (quotedAt : Time) (delayed : bool) (createdAt : Time)
    : Result FXQuote :=
  match ParseCurrency baseCurrency with
  | Fail _ => Fail (validation "baseCurrency" "must be a valid currency")
  | Ok base =>
    match ParseCurrency quoteCurrency with
    | Fail _ => Fail (validation "quoteCurrency" "must be a valid currency")
    | Ok quote =>
      if bool_decide (base = quote)
      then Fail (validation "currencyPair" "base and quote currencies must differ")
      else
        '(source, sourceKey) ← normalizeQuoteSource sourceKind sourceKey;
        Ok (mkFXQuote id householdID base quote rate source sourceKey
              (normalizeTime quotedAt) (normalizeTime createdAt) delayed "" "" 0 0 "" "" 0 None)
    end
  end.

(** [ConvertMetalPrice]; the rate is a raw decimal, positive by the first test. *)
Definition TroyOunceGrams : string := "31.1034768".
Definition ConvertMetalPrice (raw : UnitPrice) (unit : string) (usdRate : Decimal) : Result UnitPrice :=
  if negb (dGreaterThan usdRate dZero) then Fail (validation "fxRate" "exchange rate must be positive")
  else
    let value := dMul (p_value raw) usdRate in
    if bool_decide (unit = "g"%string)
    then UnitPriceFromExact (dDivRound value (RequireFromString TroyOunceGrams) 24)
    else if bool_decide (unit = "troy_oz"%string) then UnitPriceFromExact value
    else Fail (validation "quantityUnit" "unsupported weight unit").
End Records.

(** ** Currency pairs *)

Definition NormalizeFXPair (currencyA currencyB : CurrencyCode) : Result (CurrencyCode * CurrencyCode) :=
  match ParseCurrency currencyA with
  | Fail _ => Fail (validation "currencyPair" "first currency is invalid")
  | Ok a =>
    match ParseCurrency currencyB with
    | Fail _ => Fail (validation "currencyPair" "second currency is invalid")
    | Ok b =>
      if bool_decide (a = b) then Fail (validation "currencyPair" "currencies must differ")
      else if String.ltb b a then Ok (b, a) else Ok (a, b)
    end
  end.

Record FXPreference := mkFXPreference {
  fp_HouseholdID : HouseholdID; CurrencyA : CurrencyCode; CurrencyB : CurrencyCode;
  fp_SourceKind : QuoteSourceKind; fp_CreatedAt : Time; fp_UpdatedAt : Time;
  fp_ObservationID : option string }.

Definition NewFXPreference (householdID : HouseholdID) (currencyA currencyB : CurrencyCode)
    (source : string) (now : Time) : Result FXPreference :=
  '(a, b) ← NormalizeFXPair currencyA currencyB;
  parsedSource ← ParseQuoteSourceKind source;
  let now := normalizeTime now in
  Ok (mkFXPreference householdID a b parsedSource now now None).

(** ** Properties *)

Lemma ltb_antisym_neq a b : a ≠ b → String.ltb b a = negb (String.ltb a b).
Proof.
  intros Hne. unfold String.ltb. rewrite (String.compare_antisym a b).
  destruct (String.compare b a) eqn:E; cbn; [|done..].
  apply String.compare_eq_iff in E. by subst.
Qed.

(** A currency pair is unordered: [NormalizeFXPair] of distinct valid
    currencies does not depend on their order, returns them in increasing order,
    and normalising the result changes nothing; a pair with itself is refused. *)
Theorem NormalizeFXPair_unordered x y a b :
  ParseCurrency x = Ok a → ParseCurrency y = Ok b →
  NormalizeFXPair x y = NormalizeFXPair y x ∧
  (a = b → code_of (NormalizeFXPair x y) = Some ErrValidation) ∧
  (a ≠ b → ∃ c d, NormalizeFXPair x y = Ok (c, d) ∧ String.ltb c d = true ∧
                  NormalizeFXPair c d = Ok (c, d) ∧ ({[c; d]} : gset string) = {[a; b]}).
Proof.
  intros Ha Hb. unfold NormalizeFXPair. rewrite Ha, Hb.
  pose proof (ParseCurrency_id a (ParseCurrency_ok _ _ Ha)) as Pa.
  pose proof (ParseCurrency_id b (ParseCurrency_ok _ _ Hb)) as Pb.
  destruct (decide (a = b)) as [->|Hne].
  { rewrite !bool_decide_eq_true_2 by done. split; [done|]. split; [done|]. intros H. by destruct H. }
  rewrite !bool_decide_eq_false_2 by done. pose proof (ltb_antisym_neq a b Hne) as Hs. rewrite Hs.
  destruct (String.ltb a b) eqn:E; cbn [negb] in *.
  - split; [done|]. split; [done|]. intros _. exists a, b.
    by rewrite Pa, Pb, bool_decide_eq_false_2, Hs by done.
  - split; [done|]. split; [done|]. intros _. exists b, a.
    rewrite Pa, Pb, bool_decide_eq_false_2, E by done.
    split; [done|]. split; [done|]. split; [done|set_solver].
Qed.

Lemma NormalizeFXPair_unordered_witness :
  NormalizeFXPair "usd" "EUR" = NormalizeFXPair "EUR" "usd".
Proof. by apply (NormalizeFXPair_unordered "usd" "EUR" "USD" "EUR"). Defined.
