(* ===== verification/ChangeState.v ===== *)
(** * Changes: evidence, state and effects

    The first half of [change.go]: activities and their effects, the in-memory
    state a change is previewed against, the guards every change passes, the
    exact arithmetic on one endpoint, and [ApplyEffects].

    Go string constants that the code compares against a default branch keep that
    branch as a constructor ([ReasonRaw], [DirectionRaw], [TargetRaw],
    [SideRaw]).  Pointers to values are options; the Go maps are finite maps.
    Fresh identifiers come from a supply [newID : nat → string]; the index is the
    position of the draw within one call. *)

From S2P Require Export Portfolio.
From Stdlib Require Import String Ascii.

#[global] Open Scope Z_scope.

Inductive ActivityKind :=
| ActivityCashIn | ActivityCashOut | ActivityCashDividend | ActivityCashTransfer
| ActivityFXConversion | ActivityPositionTransfer | ActivityCostAdjustment | ActivityBuy
| ActivitySell | ActivityValueUpdate | ActivityDebtDraw | ActivityDebtPayment | ActivityReversal.
#[export] Instance ActivityKind_eq_dec : EqDecision ActivityKind.
Proof. solve_decision. Defined.

Definition ActivityKind_String (k : ActivityKind) : string :=
  match k with
  | ActivityCashIn => "cash_in" | ActivityCashOut => "cash_out"
  | ActivityCashDividend => "cash_dividend" | ActivityCashTransfer => "cash_transfer"
  | ActivityFXConversion => "fx_conversion" | ActivityPositionTransfer => "position_transfer"
  | ActivityCostAdjustment => "cost_adjustment" | ActivityBuy => "buy" | ActivitySell => "sell"
  | ActivityValueUpdate => "value_update" | ActivityDebtDraw => "debt_draw"
  | ActivityDebtPayment => "debt_payment" | ActivityReversal => "reversal"
  end.
Definition AllActivityKinds : list ActivityKind :=
  [ActivityCashIn; ActivityCashOut; ActivityCashDividend; ActivityCashTransfer;
   ActivityFXConversion; ActivityPositionTransfer; ActivityCostAdjustment; ActivityBuy;
   ActivitySell; ActivityValueUpdate; ActivityDebtDraw; ActivityDebtPayment; ActivityReversal].
Definition ParseActivityKind : string → Result ActivityKind :=
  parse_enum AllActivityKinds ActivityKind_String (validation "kind" "is not supported").

(** The empty reason asks for the default of each kind of change. *)
Inductive ActivityReason :=
| ReasonEmpty | ReasonIncome | ReasonContribution | ReasonGift | ReasonOther | ReasonExpense
| ReasonCardPurchase | ReasonCardRefund | ReasonFee | ReasonTax | ReasonReconciliation
| ReasonPrincipal | ReasonInterest | ReasonRaw (s : string).
#[export] Instance ActivityReason_eq_dec : EqDecision ActivityReason.
Proof. solve_decision. Defined.

Definition ActivityReason_String (r : ActivityReason) : string :=
  match r with
  | ReasonEmpty => "" | ReasonIncome => "income" | ReasonContribution => "contribution"
  | ReasonGift => "gift" | ReasonOther => "other" | ReasonExpense => "expense"
  | ReasonCardPurchase => "card_purchase" | ReasonCardRefund => "card_refund" | ReasonFee => "fee"
  | ReasonTax => "tax" | ReasonReconciliation => "reconciliation" | ReasonPrincipal => "principal"
  | ReasonInterest => "interest" | ReasonRaw s => s
  end.
Definition supportedReasons : list ActivityReason :=
  [ReasonIncome; ReasonContribution; ReasonGift; ReasonOther; ReasonExpense; ReasonFee; ReasonTax;
   ReasonReconciliation; ReasonPrincipal; ReasonInterest; ReasonCardPurchase; ReasonCardRefund].
Definition ParseActivityReason (value : string) : Result ActivityReason :=
  if bool_decide (TrimSpace value = ""%string) then Ok ReasonEmpty
  else parse_enum supportedReasons ActivityReason_String (validation "reason" "is not supported") value.

Definition MoneyInReasons : list ActivityReason :=
  [ReasonIncome; ReasonInterest; ReasonContribution; ReasonGift; ReasonOther; ReasonReconciliation].
Definition LiabilityIncreaseReasons : list ActivityReason :=
  [ReasonCardPurchase; ReasonInterest; ReasonFee; ReasonOther; ReasonReconciliation].
Definition LiabilityDecreaseReasons : list ActivityReason :=
  [ReasonCardRefund; ReasonOther; ReasonReconciliation].
Definition MoneyOutReasons : list ActivityReason :=
  [ReasonExpense; ReasonFee; ReasonTax; ReasonInterest; ReasonOther; ReasonReconciliation].
Definition ValueUpdateReasons : list ActivityReason :=
  [ReasonInterest; ReasonReconciliation; ReasonOther].

Inductive ActivityClassification :=
| ClassificationExternalInflow | ClassificationExternalOutflow | ClassificationIncome
| ClassificationFee | ClassificationInternalTransfer | ClassificationTradePrincipal
| ClassificationDebtPrincipal | ClassificationRemeasurement.
#[export] Instance ActivityClassification_eq_dec : EqDecision ActivityClassification.
Proof. solve_decision. Defined.

Inductive EffectTarget :=
| EffectTargetAccountValue | EffectTargetAccountCash | EffectTargetHoldingQuantity
| EffectTargetHoldingCost | TargetRaw (s : string).
#[export] Instance EffectTarget_eq_dec : EqDecision EffectTarget.
Proof. solve_decision. Defined.

Inductive EffectDirection := EffectAdded | EffectRemoved | DirectionRaw (s : string).
#[export] Instance EffectDirection_eq_dec : EqDecision EffectDirection.
Proof. solve_decision. Defined.

Inductive EffectRole :=
| EffectRoleAmount | EffectRoleTransferFrom | EffectRoleTransferTo | EffectRolePrincipal
| EffectRoleFee | EffectRoleQuantity | EffectRoleDebt | EffectRoleCost.
#[export] Instance EffectRole_eq_dec : EqDecision EffectRole.
Proof. solve_decision. Defined.

Inductive TradeSide := TradeBuy | TradeSell | SideRaw (s : string).
#[export] Instance TradeSide_eq_dec : EqDecision TradeSide.
Proof. solve_decision. Defined.

Definition TradeSide_String (s : TradeSide) : string :=
  match s with TradeBuy => "buy" | TradeSell => "sell" | SideRaw s => s end.
Definition ParseTradeSide : string → Result TradeSide :=
  parse_enum [TradeBuy; TradeSell] TradeSide_String (validation "side" "is not supported").

Definition changeError (code : ErrorCode) (field message : string) : goerror := domainErr code field message.
Definition notFound (message : string) : goerror := domainErr ErrNotFound "" message.

Section State.
Context `{HD : DecimalAPI}.

(** ** Effects and activities *)

Record ActivityEffect := mkEffect {
  ef_ID : ActivityEffectID; ef_ActivityID : ActivityID; Sequence : Z; Role : EffectRole;
  Direction : EffectDirection; Target : EffectTarget; Classification : ActivityClassification;
  ef_AccountID : option AccountID; ef_HoldingID : option HoldingID;
  ef_InstrumentID : option InstrumentID; ef_Money : option Money; ef_Quantity : option Quantity;
  CostUnitPrice : option UnitPrice }.

Record EndpointView := mkView {
  ev_Target : EffectTarget; ev_AccountID : option AccountID; ev_HoldingID : option HoldingID;
  ev_CostUnitPrice : option UnitPrice; ev_Name : string; ev_Amount : string; ev_Quantity : string;
  ev_Currency : CurrencyCode }.

Record TradeDetail := mkTradeDetail {
  td_Side : TradeSide; td_InstrumentID : InstrumentID; td_HoldingID : HoldingID;
  td_Quantity : Quantity; td_Gross : Money; td_UnitPrice : UnitPrice; td_Fee : option Money }.

Record DividendDetail := mkDividendDetail {
  dd_HoldingID : HoldingID; dd_InstrumentID : InstrumentID; dd_Amount : Money }.

(** The fields of [Activity] that this package sets or reads; the preview sets
    the effects beside it. *)
Record Activity := mkActivity {
  act_ID : ActivityID; act_HouseholdID : HouseholdID; Kind : ActivityKind; Reason : ActivityReason;
  EffectiveAt : Time; EffectiveLocalDate : string; act_CreatedAt : Time; act_Note : option string;
  ReversesActivityID : option ActivityID; CorrectionGroupID : option string;
  TransactionFXRate : option FxRate; act_TradeDetail : option TradeDetail;
  act_DividendDetail : option DividendDetail; Resulting : list EndpointView;
  Effects : list ActivityEffect; RecordedEffects : option (list ActivityEffect) }.

Definition invalid_effect (message : string) : goerror := changeError ErrInvalidChange "effect" message.

Definition is_none {A} (o : option A) : bool := match o with None => true | Some _ => false end.
Definition money_zero (m : option Money) : bool := match m with Some m => m_isZero m | None => false end.
Definition quantity_zero (q : option Quantity) : bool :=
  match q with Some q => q_isZero q | None => false end.

(** [ActivityEffect.Validate] *)
Definition Validate (e : ActivityEffect) : Result unit :=
  if (Sequence e <? 1) || bool_decide (ef_ActivityID e = ""%string) || bool_decide (ef_ID e = ""%string)
  then Fail (invalid_effect "effect identity and sequence are required")
  else if negb (bool_decide (Direction e = EffectAdded)) && negb (bool_decide (Direction e = EffectRemoved))
  then Fail (invalid_effect "effect direction is invalid")
  else if bool_decide (Target e = EffectTargetHoldingCost) then
    if negb (bool_decide (Direction e = EffectAdded)) || negb (bool_decide (Role e = EffectRoleCost)) ||
       negb (bool_decide (Classification e = ClassificationRemeasurement)) ||
       is_none (ef_HoldingID e) || is_none (ef_InstrumentID e) || negb (is_none (ef_AccountID e)) ||
       negb (is_none (ef_Money e)) || negb (is_none (ef_Quantity e)) || is_none (CostUnitPrice e)
    then Fail (invalid_effect "Holding cost effect requires a Holding, Instrument, and target unit cost")
    else Ok tt
  else if negb (is_none (ef_Money e)) && negb (is_none (ef_Quantity e))
  then Fail (invalid_effect "effect cannot contain both Money and Quantity")
  else if is_none (ef_Money e) && is_none (ef_Quantity e)
  then Fail (invalid_effect "effect magnitude is required")
  else
    let zeroObservation := money_zero (ef_Money e) &&
      bool_decide (Target e = EffectTargetAccountValue) && bool_decide (Role e = EffectRoleAmount) &&
      bool_decide (Classification e = ClassificationRemeasurement) in
    if (money_zero (ef_Money e) && negb zeroObservation) || quantity_zero (ef_Quantity e)
    then Fail (invalid_effect "effect magnitude must be greater than zero")
    else if negb (is_none (CostUnitPrice e)) && negb (bool_decide (Target e = EffectTargetHoldingQuantity))
    then Fail (invalid_effect "cost unit price is only valid for Holding effects")
    else match Target e with
    | EffectTargetAccountValue | EffectTargetAccountCash =>
      if is_none (ef_AccountID e) || negb (is_none (ef_HoldingID e)) || negb (is_none (ef_InstrumentID e)) ||
         negb (is_none (ef_Quantity e)) || is_none (ef_Money e)
      then Fail (invalid_effect "Account effects require one Account and Money") else Ok tt
    | EffectTargetHoldingQuantity =>
      if is_none (ef_HoldingID e) || is_none (ef_InstrumentID e) || negb (is_none (ef_AccountID e)) ||
         is_none (ef_Quantity e) || negb (is_none (ef_Money e))
      then Fail (invalid_effect "Holding effects require one Holding, Instrument, and Quantity") else Ok tt
    | _ => Fail (invalid_effect "effect target is invalid")
    end.

(** ** The state a change is previewed against *)

Record ChangeAccountState := mkAccountState {
  ca_ID : AccountID; ca_Name : string; ca_Currency : CurrencyCode; Mode : TrackingMode;
  Liability : bool; ca_Archived : bool; ca_Current : Money }.

Record ChangeHoldingState := mkHoldingState {
  ch_ID : HoldingID; ch_AccountID : AccountID; ch_InstrumentID : InstrumentID;
  InstrumentName : string; InstrumentSymbol : string; InstrumentShortName : string;
  InstrumentISIN : string; InstrumentMarketCode : string; InstrumentQuantityUnit : string;
  InstrumentProviderKey : string; InstrumentProviderSymbol : string;
  ch_Currency : CurrencyCode; ch_Archived : bool; ch_Current : Quantity; CostBasisAvailable : bool }.

Definition h_SelectionLabel (h : ChangeHoldingState) : string :=
  InstrumentSelectionLabel (InstrumentName h) (InstrumentSymbol h) (InstrumentShortName h)
    [InstrumentMarketCode h; ch_Currency h; InstrumentISIN h; InstrumentQuantityUnit h;
     InstrumentProviderKey h; InstrumentProviderSymbol h].

Record ChangeState := mkState {
  st_HouseholdID : HouseholdID; OriginAt : Time; Timezone : string; Now : Time;
  Accounts : gmap AccountID ChangeAccountState;
  Cash : gmap AccountID (gmap CurrencyCode Money);
  Holdings : gmap HoldingID ChangeHoldingState;
  Instruments : gmap InstrumentID Instrument }.

Definition with_current (a : ChangeAccountState) (m : Money) : ChangeAccountState :=
  mkAccountState (ca_ID a) (ca_Name a) (ca_Currency a) (Mode a) (Liability a) (ca_Archived a) m.
Definition with_quantity (h : ChangeHoldingState) (q : Quantity) : ChangeHoldingState :=
  mkHoldingState (ch_ID h) (ch_AccountID h) (ch_InstrumentID h) (InstrumentName h) (InstrumentSymbol h)
    (InstrumentShortName h) (InstrumentISIN h) (InstrumentMarketCode h) (InstrumentQuantityUnit h)
    (InstrumentProviderKey h) (InstrumentProviderSymbol h) (ch_Currency h) (ch_Archived h) q
    (CostBasisAvailable h).
Definition set_account (st : ChangeState) (id : AccountID) (a : ChangeAccountState) : ChangeState :=
  mkState (st_HouseholdID st) (OriginAt st) (Timezone st) (Now st) (<[id := a]> (Accounts st))
    (Cash st) (Holdings st) (Instruments st).
Definition set_cash (st : ChangeState) (id : AccountID) (c : CurrencyCode) (m : Money) : ChangeState :=
  mkState (st_HouseholdID st) (OriginAt st) (Timezone st) (Now st) (Accounts st)
    (<[id := <[c := m]> (default ∅ (Cash st !! id))]> (Cash st)) (Holdings st) (Instruments st).
Definition set_holding (st : ChangeState) (id : HoldingID) (h : ChangeHoldingState) : ChangeState :=
  mkState (st_HouseholdID st) (OriginAt st) (Timezone st) (Now st) (Accounts st)
    (Cash st) (<[id := h]> (Holdings st)) (Instruments st).

(** ** Guards *)

Definition household_mismatch : goerror :=
  changeError ErrInvalidChange "householdId" "Household does not match".

(** [ChangeState.account] *)
Definition st_account (st : ChangeState) (id : AccountID) (household : HouseholdID)
    : Result ChangeAccountState :=
  if negb (bool_decide (household = st_HouseholdID st)) then Fail household_mismatch
  else match Accounts st !! id with
  | None => Fail (notFound "Account was not found")
  | Some account =>
    if ca_Archived account then Fail (domainErr ErrConflict "accountId" "Account is archived")
    else if negb (bool_decide (currency (ca_Current account) = ca_Currency account))
    then Fail (domainErr ErrIntegrity "" "Account state currency is invalid")
    else Ok account
  end.

(** [ChangeState.holding] *)
Definition st_holding (st : ChangeState) (id : HoldingID) (household : HouseholdID)
    : Result ChangeHoldingState :=
  if negb (bool_decide (household = st_HouseholdID st)) then Fail household_mismatch
  else match Holdings st !! id with
  | None => Fail (notFound "Holding was not found")
  | Some holding =>
    if ch_Archived holding then Fail (domainErr ErrConflict "holdingId" "Holding is archived")
    else Ok holding
  end.

Definition timezone_required : goerror :=
  domainErr ErrHistoryTimezoneRequired "timezone" "confirm a Household timezone before recording a change".

(** [ChangeState.newActivity]; [id] is the fresh activity identifier. *)
Definition newActivity `{TZ : TimeZones} (st : ChangeState) (id : ActivityID) (household : HouseholdID)
    (kind : ActivityKind) (reason : ActivityReason) (effectiveAt : Time) (note : option string)
    : Result Activity :=
  if negb (bool_decide (household = st_HouseholdID st)) then Fail household_mismatch
  else
    let now := Now st in
    if timeIsZero now
    then Fail (changeError ErrInvalidChange "now" "change state requires an explicit current time")
    else
    let effectiveAt := if timeIsZero effectiveAt then now else effectiveAt in
    let timezone := TrimSpace (Timezone st) in
    if bool_decide (timezone = ""%string) then Fail timezone_required
    else match LoadLocation timezone with
    | None => Fail timezone_required
    | Some zone =>
      let effectiveAt := normalizeTime effectiveAt in
      let now := normalizeTime now in
      if now <? effectiveAt
      then Fail (domainErr ErrInvalidChangeTime "effectiveAt" "change time cannot be in the future")
      else if negb (timeIsZero (OriginAt st)) && (effectiveAt <? normalizeTime (OriginAt st))
      then Fail (domainErr ErrInvalidChangeTime "effectiveAt" "change time cannot precede the Starting point")
      else
        cleanNote ← validateNote "note" note;
        Ok (mkActivity id household kind reason effectiveAt (FormatDate (wall zone effectiveAt)) now cleanNote
              None None None None None [] [] None)
    end.
End State.
