(* ===== verification/ChangeApply.v ===== *)
(** * Applying and inverting effects

    The arithmetic on one endpoint ([applyMoney], [cash], [accountAmount]),
    [ApplyEffects] with its endpoint views, and [InverseChangeAt], of [change.go].
    The source clones the state's maps before the loop and then assigns into the
    clone, so the caller's state is never modified: here the loop threads the
    state as a value. *)

From S2P Require Export ChangeState.
From S2P Require Import DecimalModel.
From Stdlib Require Import String Ascii.

#[global] Open Scope Z_scope.

Section Apply.
Context `{HD : DecimalAPI}.

(** ** One endpoint *)

Definition applyMoney (account : ChangeAccountState) (amt : Money) (direction : EffectDirection)
    : Result EndpointView :=
  if negb (bool_decide (currency amt = ca_Currency account))
  then Fail (domainErr ErrTransferMismatch "amount" "amount currency must match the Account currency")
  else
    let current := amount (ca_Current account) in
    let finish current :=
      updated ← NewMoney current (ca_Currency account);
      Ok (mkView EffectTargetAccountValue (Some (ca_ID account)) None None (ca_Name account)
            (CanonicalAmount updated) "" (currency updated)) in
    if bool_decide (direction = EffectAdded) then finish (dAdd current (amount amt))
    else
      let current := dSub current (amount amt) in
      if dIsNegative current
      then Fail (domainErr ErrInsufficientBalance "amount" (ca_Name account +:+ " does not have enough balance"))
      else finish current.

(** The cash of an account in a currency; absent means zero. *)
Definition cash_current (st : ChangeState) (accountID : AccountID) (c : CurrencyCode) : Decimal :=
  match Cash st !! accountID with
  | Some byCurrency => match byCurrency !! c with Some m => amount m | None => dZero end
  | None => dZero
  end.

(** [ChangeState.cash] *)
Definition st_cash (st : ChangeState) (accountID : AccountID) (amt : Money) (direction : EffectDirection)
    : Result EndpointView :=
  match Accounts st !! accountID with
  | None => Fail (notFound "Account was not found")
  | Some account =>
    let current := cash_current st accountID (currency amt) in
    let finish current :=
      updated ← NewMoney current (currency amt);
      Ok (mkView EffectTargetAccountCash (Some accountID) None None (ca_Name account)
            (CanonicalAmount updated) "" (currency updated)) in
    if bool_decide (direction = EffectAdded) then finish (dAdd current (amount amt))
    else
      let current := dSub current (amount amt) in
      if dIsNegative current
      then Fail (domainErr ErrInsufficientBalance "amount" (ca_Name account +:+ " does not have enough cash"))
      else finish current
  end.

Definition accountAmount (st : ChangeState) (account : ChangeAccountState) (amt : Money)
    (direction : EffectDirection) : Result EndpointView :=
  if bool_decide (Mode account = TrackingHoldings) then st_cash st (ca_ID account) amt direction
  else applyMoney account amt direction.

Definition accountTarget (account : ChangeAccountState) : EffectTarget :=
  if bool_decide (Mode account = TrackingHoldings) then EffectTargetAccountCash
  else EffectTargetAccountValue.

(** ** Endpoint views *)

Definition same_endpoint (existing candidate : EndpointView) : bool :=
  bool_decide (ev_Target existing = ev_Target candidate) &&
  (match ev_AccountID existing, ev_AccountID candidate with
   | Some a, Some b => bool_decide (a = b) && bool_decide (ev_Currency existing = ev_Currency candidate)
   | _, _ => false
   end ||
   match ev_HoldingID existing, ev_HoldingID candidate with
   | Some a, Some b => bool_decide (a = b)
   | _, _ => false
   end).

Fixpoint upsertEndpointView (views : list EndpointView) (candidate : EndpointView) : list EndpointView :=
  match views with
  | [] => [candidate]
  | existing :: rest =>
    if same_endpoint existing candidate then candidate :: rest
    else existing :: upsertEndpointView rest candidate
  end.

(** ** Effects *)

Definition apply_cost (st : ChangeState) (e : ActivityEffect) : Result (ChangeState * EndpointView) :=
  let refused := Fail (invalid_effect "cost correction requires a positive matching Holding") in
  match ef_HoldingID e, ef_InstrumentID e with
  | Some hid, Some iid =>
    match Holdings st !! hid with
    | None => refused
    | Some holding =>
      if negb (bool_decide (ch_InstrumentID holding = iid)) || q_isZero (ch_Current holding) then refused
      else Ok (st, mkView EffectTargetHoldingCost None (Some (ch_ID holding)) (CostUnitPrice e)
                     (h_SelectionLabel holding) "" (q_canonical (ch_Current holding)) "")
    end
  | _, _ => refused
  end.

Definition apply_money (st : ChangeState) (e : ActivityEffect) (amt : Money)
    : Result (ChangeState * EndpointView) :=
  match ef_AccountID e with
  | None => Fail (invalid_effect "money effect requires an Account")
  | Some aid =>
    match Accounts st !! aid with
    | None => Fail (notFound "Account was not found")
    | Some account =>
      if negb (bool_decide (Target e = accountTarget account))
      then Fail (invalid_effect "effect target does not match the Account")
      else
        view ← accountAmount st account amt (Direction e);
        updated ← ParseMoney (ev_Amount view) (ev_Currency view);
        if bool_decide (Target e = EffectTargetAccountValue)
        then Ok (set_account st (ca_ID account) (with_current account updated), view)
        else Ok (set_cash st (ca_ID account) (currency updated) updated, view)
    end
  end.

Definition apply_quantity (st : ChangeState) (e : ActivityEffect) : Result (ChangeState * EndpointView) :=
  match ef_HoldingID e, ef_Quantity e with
  | Some hid, Some q =>
    match Holdings st !! hid with
    | None => Fail (notFound "Holding was not found")
    | Some holding =>
      let current := q_value (ch_Current holding) in
      current ← (if bool_decide (Direction e = EffectAdded) then Ok (dAdd current (q_value q))
                 else
                   let current := dSub current (q_value q) in
                   if dIsNegative current
                   then Fail (domainErr ErrInsufficientQuantity "quantity" "Holding does not have enough quantity")
                   else Ok current);
      updated ← NewQuantity current;
      let holding' := with_quantity holding updated in
      Ok (set_holding st (ch_ID holding) holding',
          mkView EffectTargetHoldingQuantity None (Some (ch_ID holding)) None
            (h_SelectionLabel holding') "" (q_canonical updated) "")
    end
  | _, _ => Fail (invalid_effect "quantity effect is incomplete")
  end.

(** The body of the loop of [ApplyEffects]. *)
Definition apply_effect (st : ChangeState) (e : ActivityEffect) : Result (ChangeState * EndpointView) :=
  _ ← Validate e;
  if bool_decide (Target e = EffectTargetHoldingCost) then apply_cost st e
  else match ef_Money e with
  | Some amt => apply_money st e amt
  | None => apply_quantity st e
  end.

Fixpoint apply_loop (st : ChangeState) (views : list EndpointView) (effects : list ActivityEffect)
    : Result (ChangeState * list EndpointView) :=
  match effects with
  | [] => Ok (st, views)
  | e :: effects =>
    '(st, view) ← apply_effect st e;
    apply_loop st (upsertEndpointView views view) effects
  end.

Definition ApplyEffects (st : ChangeState) (effects : list ActivityEffect)
    : Result (ChangeState * list EndpointView) := apply_loop st [] effects.

(** ** Inversion *)

Record ChangePreview := mkPreview {
  pv_Activity : Activity; pv_Effects : list ActivityEffect; pv_Resulting : list EndpointView;
  DerivedRate : option FxRate; DerivedUnitPrice : option UnitPrice }.

Definition flip_direction (d : EffectDirection) : EffectDirection :=
  if bool_decide (d = EffectAdded) then EffectRemoved else EffectAdded.

Definition inverse_effect (id : ActivityEffectID) (activityID : ActivityID) (seq : Z) (e : ActivityEffect)
    : ActivityEffect :=
  mkEffect id activityID seq (Role e) (flip_direction (Direction e)) (Target e) (Classification e)
    (ef_AccountID e) (ef_HoldingID e) (ef_InstrumentID e) (ef_Money e) (ef_Quantity e) (CostUnitPrice e).

(** The loop runs from the last effect to the first; draw 0 of the supply is the
    activity's identifier. *)
Definition inverse_effects (newID : nat → string) (activityID : ActivityID) (effects : list ActivityEffect)
    : list ActivityEffect :=
  imap (λ i e, inverse_effect (newID (S i)) activityID (Z.of_nat i + 1) e) (rev effects).

Definition with_effects (a : Activity) (effects : list ActivityEffect) : Activity :=
  mkActivity (act_ID a) (act_HouseholdID a) (Kind a) (Reason a) (EffectiveAt a) (EffectiveLocalDate a)
    (act_CreatedAt a) (act_Note a) (ReversesActivityID a) (CorrectionGroupID a) (TransactionFXRate a)
    (act_TradeDetail a) (act_DividendDetail a) (Resulting a) effects (RecordedEffects a).
Definition with_reverses (a : Activity) (id : ActivityID) : Activity :=
  mkActivity (act_ID a) (act_HouseholdID a) (Kind a) (Reason a) (EffectiveAt a) (EffectiveLocalDate a)
    (act_CreatedAt a) (act_Note a) (Some id) (CorrectionGroupID a) (TransactionFXRate a)
    (act_TradeDetail a) (act_DividendDetail a) (Resulting a) (Effects a) (RecordedEffects a).

Definition InverseChangeAt `{TZ : TimeZones} (newID : nat → string) (st : ChangeState) (original : Activity)
    (effects : list ActivityEffect) (effectiveAt : Time) : Result ChangePreview :=
  if bool_decide (Kind original = ActivityCostAdjustment)
  then Fail (domainErr ErrCannotFixChange "" "reconcile total cost again to correct a cost adjustment")
  else
    activity ← newActivity st (newID 0%nat) (act_HouseholdID original) ActivityReversal ReasonOther effectiveAt None;
    let activity := with_reverses activity (act_ID original) in
    let inverse := inverse_effects newID (act_ID activity) effects in
    '(_, resulting) ← ApplyEffects st inverse;
    Ok (mkPreview (with_effects activity inverse) inverse resulting None None).

Definition InverseChange `{TZ : TimeZones} (newID : nat → string) (st : ChangeState) (original : Activity)
    (effects : list ActivityEffect) : Result ChangePreview :=
  InverseChangeAt newID st original effects (Now st).
End Apply.
