(* ===== verification/ChangeLaws.v ===== *)
(** * What applying effects does to balances

    The abstract view of a change state: an integer balance per endpoint (an
    account value, the cash of an account in a currency, a holding quantity).
    The lemmas show that the decimal arithmetic of [ChangeApply], with its detours
    through canonical text, is integer addition on these balances, with the error
    of the source exactly when a balance would leave its range.  The theorems are
    the invariant, the conservation law and the inversion law. *)

From S2P Require Export ChangeApply.
From S2P Require Import DecimalModel.
From Stdlib Require Import String Ascii.

#[global] Open Scope Z_scope.

(** ** Endpoints and balances *)

Inductive Endpoint :=
| EpValue (a : AccountID) | EpCash (a : AccountID) (c : CurrencyCode) | EpHolding (h : HoldingID).
#[export] Instance Endpoint_eq_dec : EqDecision Endpoint.
Proof. solve_decision. Defined.

(** The largest quantity, in units of [10 ^ -8]. *)
Definition max_qunits : Z := 99999999999999999999999999.

(** The canonical text of an amount of [u] units of [10 ^ -4]. *)
Definition money_text (u : Z) : string := plain_string true u (-4).

Definition post_units (d : EffectDirection) (balance magnitude : Z) : Z :=
  if bool_decide (d = EffectAdded) then balance + magnitude else balance - magnitude.

Section Balances.
Context `{HD : DecimalAPI}.

Definition balance (st : ChangeState) (ep : Endpoint) : Z :=
  match ep with
  | EpValue a => match Accounts st !! a with Some acc => munits (ca_Current acc) | None => 0 end
  | EpCash a c => units 4 (cash_current st a c)
  | EpHolding h => match Holdings st !! h with Some hd => qunits (ch_Current hd) | None => 0 end
  end.

Definition endpoint_of (e : ActivityEffect) : option Endpoint :=
  match Target e with
  | EffectTargetAccountValue => EpValue <$> ef_AccountID e
  | EffectTargetAccountCash =>
    match ef_AccountID e, ef_Money e with Some a, Some m => Some (EpCash a (currency m)) | _, _ => None end
  | EffectTargetHoldingQuantity => EpHolding <$> ef_HoldingID e
  | _ => None
  end.

Definition magnitude (e : ActivityEffect) : Z :=
  match ef_Money e, ef_Quantity e with
  | Some m, _ => munits m
  | None, Some q => qunits q
  | None, None => 0
  end.

(** The signed change an effect makes to an endpoint. *)
Definition delta (e : ActivityEffect) (ep : Endpoint) : Z :=
  if bool_decide (endpoint_of e = Some ep) then post_units (Direction e) 0 (magnitude e) else 0.

(** ** Well-formed states and effects *)

Definition qty_ok (q : Quantity) : Prop := -8 <= dExponent (q_value q) ∧ 0 <= qunits q <= max_qunits.

Definition account_ok (id : AccountID) (a : ChangeAccountState) : Prop :=
  ca_ID a = id ∧ Money_ok (ca_Current a) ∧ currency (ca_Current a) = ca_Currency a.
Definition holding_ok (id : HoldingID) (h : ChangeHoldingState) : Prop :=
  ch_ID h = id ∧ qty_ok (ch_Current h).

Record state_ok (st : ChangeState) : Prop := {
  accounts_ok : ∀ id a, Accounts st !! id = Some a → account_ok id a;
  cash_ok : ∀ id byc c m, Cash st !! id = Some byc → byc !! c = Some m → Money_ok m ∧ currency m = c;
  holdings_ok : ∀ id h, Holdings st !! id = Some h → holding_ok id h }.

Definition effect_ok (e : ActivityEffect) : Prop :=
  (∀ m, ef_Money e = Some m → Money_ok m) ∧ (∀ q, ef_Quantity e = Some q → qty_ok q).

(** What no effect touches: everything but current amounts. *)
Definition static_account (a : ChangeAccountState) :=
  (ca_ID a, ca_Name a, ca_Currency a, Mode a, Liability a, ca_Archived a).
Definition static_holding (h : ChangeHoldingState) :=
  (ch_ID h, ch_AccountID h, ch_InstrumentID h, h_SelectionLabel h, ch_Currency h, ch_Archived h,
   CostBasisAvailable h).
Definition same_frame (st st' : ChangeState) : Prop :=
  st_HouseholdID st' = st_HouseholdID st ∧ OriginAt st' = OriginAt st ∧ Timezone st' = Timezone st ∧
  Now st' = Now st ∧ Instruments st' = Instruments st ∧
  (∀ id, static_account <$> Accounts st' !! id = static_account <$> Accounts st !! id) ∧
  (∀ id, static_holding <$> Holdings st' !! id = static_holding <$> Holdings st !! id).

(** Two states that no reader of balances can tell apart. *)
Definition state_equiv (st st' : ChangeState) : Prop :=
  same_frame st st' ∧ ∀ ep, balance st' ep = balance st ep.

#[export] Instance same_frame_equivalence : Equivalence same_frame.
Proof.
  split.
  - intros st. unfold same_frame. done.
  - intros st st' (?&?&?&?&?&Ha&Hh). unfold same_frame. do 5 (split; [done|]). split; intros id; by rewrite ?Ha, ?Hh.
  - intros s1 s2 s3 (?&?&?&?&?&Ha&Hh) (?&?&?&?&?&Ha'&Hh'). unfold same_frame.
    do 5 (split; [congruence|]). split; intros id; by rewrite ?Ha', ?Ha, ?Hh', ?Hh.
Qed.

#[export] Instance state_equiv_equivalence : Equivalence state_equiv.
Proof.
  split.
  - intros st. by split.
  - intros st st' [Hf Hb]. by split.
  - intros s1 s2 s3 [Hf Hb] [Hf' Hb']. split; [by transitivity s2|]. intros ep. by rewrite Hb'.
Qed.

#[export] Instance balance_proper : Proper (state_equiv ==> eq ==> eq) balance.
Proof. intros st st' [_ Hb] ep ? <-. by rewrite Hb. Qed.

(** ** The view of a money endpoint as a function of its balance *)

Definition amount_spec (target : EffectTarget) (id : AccountID) (name suffix : string) (c : CurrencyCode)
    (bal mag : Z) (d : EffectDirection) : Result EndpointView :=
  let u := post_units d bal mag in
  if u <? 0 then Fail (domainErr ErrInsufficientBalance "amount" (name +:+ suffix))
  else if max_units <? u then Fail (overflow "amount" amount_msg)
  else Ok (mkView target (Some id) None None name (money_text u) "" c).

Definition balance_suffix : string := " does not have enough balance".
Definition cash_suffix : string := " does not have enough cash".

(** The endpoint an account's money lives in. *)
Definition account_endpoint (a : ChangeAccountState) (c : CurrencyCode) : Endpoint :=
  if bool_decide (Mode a = TrackingHoldings) then EpCash (ca_ID a) c else EpValue (ca_ID a).
End Balances.

Section BalanceFacts.
Context `{HD : DecimalAPI} {HL : DecimalLaws}.

Lemma Money_ok_units m : Money_ok m → -4 <= dExponent (amount m) ∧ 0 <= munits m <= max_units.
Proof. by intros (? & ? & _). Qed.

Lemma units_dZero k : 0 <= k → units k dZero = 0.
Proof. intros. unfold dZero. rewrite units_new. lia. Qed.

Lemma dZero_expo : dExponent dZero = 1.
Proof. apply dNew_expo. Qed.

Lemma NewMoney_text v c : currency_ok c = true → -4 <= dExponent v →
  0 <= units 4 v → NewMoney v c =
  if max_units <? units 4 v then Fail (overflow "amount" amount_msg)
  else Ok (mkMoney (amount (match NewMoney v c with Ok m => m | Fail _ => mkMoney v c end)) c).
Proof.
  intros Hc He H0. destruct (Z.ltb_spec max_units (units 4 v)) as [Hlt|Hle].
  - unfold NewMoney. assert (dGreaterThan v maxMoney = true) as ->; [|by rewrite orb_true_r].
    destruct maxMoney_coef as [_ Hme]. apply dGreaterThan_val, (units_lt 4); [lia|lia|].
    by rewrite maxMoney_units.
  - destruct (NewMoney_exact v c c (ParseCurrency_id c Hc) He ltac:(lia)) as (m & Hn & _ & Hcur & _).
    rewrite Hn. destruct m. cbn in *. by subst.
Qed.

(** Text and value of what [NewMoney] stores, as functions of the units. *)
Lemma NewMoney_canonical v c m : -4 <= dExponent v → NewMoney v c = Ok m →
  CanonicalAmount m = money_text (units 4 v) ∧ munits m = units 4 v ∧
  0 <= units 4 v <= max_units ∧ dExponent (amount m) = -4.
Proof.
  intros He Hn. destruct (NewMoney_exact_inv v c m He Hn) as (Hu & Hr & _ & Hm).
  split; [|done]. unfold CanonicalAmount, money_text. rewrite dString_plain, Hm. f_equal.
  rewrite <-Hu. unfold munits, units, cunits. rewrite Hm. lia.
Qed.

(** The common tail of [applyMoney] and [cash]. *)
Lemma money_step target id name suffix c cur amt d :
  currency_ok c = true → -4 <= dExponent cur → 0 <= units 4 cur → Money_ok amt →
  (let finish current :=
     updated ← NewMoney current c;
     Ok (mkView target (Some id) None None name (CanonicalAmount updated) "" (currency updated)) in
   if bool_decide (d = EffectAdded) then finish (dAdd cur (amount amt))
   else
     let current := dSub cur (amount amt) in
     if dIsNegative current then Fail (domainErr ErrInsufficientBalance "amount" (name +:+ suffix))
     else finish current) = amount_spec target id name suffix c (units 4 cur) (munits amt) d.
Proof.
  intros Hc He H0 Hm. apply Money_ok_units in Hm as [Hme [Hm0 Hm1]]. cbn zeta.
  unfold amount_spec, post_units.
  assert (Hfin : ∀ v, -4 <= dExponent v → 0 <= units 4 v →
    (updated ← NewMoney v c;
     Ok (mkView target (Some id) None None name (CanonicalAmount updated) "" (currency updated))) =
    (if max_units <? units 4 v then Fail (overflow "amount" amount_msg)
     else Ok (mkView target (Some id) None None name (money_text (units 4 v)) "" c))).
  { intros v Hev Hv0. rewrite (NewMoney_text v c Hc Hev Hv0).
    destruct (Z.ltb_spec max_units (units 4 v)) as [|Hle]; [done|].
    destruct (NewMoney_exact v c c (ParseCurrency_id c Hc) Hev ltac:(lia)) as (m & Hn & _ & Hcur & _).
    rewrite Hn, bind_Ok_l. destruct (NewMoney_canonical v c m Hev Hn) as (Ht & _).
    cbn [amount currency]. unfold CanonicalAmount in *. cbn [amount]. by rewrite Ht. }
  case_bool_decide.
  - assert (Hu : units 4 (dAdd cur (amount amt)) = units 4 cur + munits amt) by (apply units_add; lia).
    rewrite Hfin by (rewrite ?dAdd_expo, ?Hu; lia). rewrite Hu, (proj2 (Z.ltb_ge _ 0)) by lia. done.
  - assert (Hu : units 4 (dSub cur (amount amt)) = units 4 cur - munits amt) by (apply units_sub; lia).
    assert (Hneg : dIsNegative (dSub cur (amount amt)) = (units 4 cur - munits amt <? 0)).
    { apply eq_true_iff_eq. rewrite (units_neg_iff 4) by (rewrite dSub_expo; lia). by rewrite Hu, Z.ltb_lt. }
    rewrite Hneg. destruct (Z.ltb_spec (units 4 cur - munits amt) 0); [done|].
    rewrite Hfin by (rewrite ?dSub_expo, ?Hu; lia). by rewrite Hu.
Qed.

Lemma cash_current_ok st id c : state_ok st →
  -4 <= dExponent (cash_current st id c) ∧ 0 <= units 4 (cash_current st id c) <= max_units.
Proof.
  intros Hs. unfold cash_current.
  destruct (Cash st !! id) as [byc|] eqn:E1; [destruct (byc !! c) as [m|] eqn:E2|].
  - destruct (cash_ok st Hs id byc c m E1 E2) as [Hm _]. by apply Money_ok_units.
  - rewrite dZero_expo, units_dZero by lia. unfold max_units. lia.
  - rewrite dZero_expo, units_dZero by lia. unfold max_units. lia.
Qed.

Lemma applyMoney_spec id a amt d : account_ok id a → Money_ok amt →
  applyMoney a amt d =
  if bool_decide (currency amt = ca_Currency a)
  then amount_spec EffectTargetAccountValue id (ca_Name a) balance_suffix (ca_Currency a)
         (munits (ca_Current a)) (munits amt) d
  else Fail (domainErr ErrTransferMismatch "amount" "amount currency must match the Account currency").
Proof.
  intros (Hid & Hcur & Hc) Hm. unfold applyMoney. case_bool_decide; cbn [negb]; [|done].
  rewrite Hid. pose proof (Money_ok_units _ Hcur) as [He [H0 H1]].
  apply (money_step EffectTargetAccountValue id (ca_Name a) balance_suffix); [|done..].
  rewrite <-Hc. apply Hcur.
Qed.

Lemma st_cash_spec st id a amt d : state_ok st → Accounts st !! id = Some a → Money_ok amt →
  st_cash st id amt d =
  amount_spec EffectTargetAccountCash id (ca_Name a) cash_suffix (currency amt)
    (balance st (EpCash id (currency amt))) (munits amt) d.
Proof.
  intros Hs Ha Hm. unfold st_cash. rewrite Ha.
  destruct (cash_current_ok st id (currency amt) Hs) as [He [H0 H1]].
  apply (money_step EffectTargetAccountCash id (ca_Name a) cash_suffix); [apply Hm|done..].
Qed.

(** Both kinds of account at once. *)
Lemma accountAmount_spec st id a amt d :
  state_ok st → Accounts st !! id = Some a → Money_ok amt →
  (Mode a = TrackingHoldings ∨ currency amt = ca_Currency a) →
  accountAmount st a amt d =
  amount_spec (accountTarget a) id (ca_Name a)
    (if bool_decide (Mode a = TrackingHoldings) then cash_suffix else balance_suffix) (currency amt)
    (balance st (account_endpoint a (currency amt))) (munits amt) d.
Proof.
  intros Hs Ha Hm Hcur. pose proof (accounts_ok st Hs id a Ha) as Hok.
  pose proof Hok as (Hid & _). unfold accountAmount, accountTarget, account_endpoint. rewrite Hid.
  case_bool_decide as Hmode; [by apply st_cash_spec|]. destruct Hcur as [|Hcur]; [done|].
  rewrite (applyMoney_spec id) by done. rewrite bool_decide_eq_true_2, Hcur by done.
  cbn [balance]. by rewrite Ha.
Qed.

Lemma accountAmount_inv st id a amt d v :
  state_ok st → Accounts st !! id = Some a → Money_ok amt → accountAmount st a amt d = Ok v →
  (Mode a = TrackingHoldings ∨ currency amt = ca_Currency a).
Proof.
  intros Hs Ha Hm H. pose proof (accounts_ok st Hs id a Ha) as Hok. unfold accountAmount in H.
  case_bool_decide; [by left|right]. rewrite (applyMoney_spec id) in H by done.
  by case_bool_decide.
Qed.

Lemma amount_spec_ok target id name suffix c bal mag d v :
  amount_spec target id name suffix c bal mag d = Ok v ↔
  0 <= post_units d bal mag <= max_units ∧
  v = mkView target (Some id) None None name (money_text (post_units d bal mag)) "" c.
Proof.
  unfold amount_spec. destruct (Z.ltb_spec (post_units d bal mag) 0); [split; [done|lia]|].
  destruct (Z.ltb_spec max_units (post_units d bal mag)); [split; [done|lia]|].
  split; [intros [= <-]; split; [lia|done]|by intros [_ ->]].
Qed.

(** Canonical text of a balance in range parses back to that balance. *)
Lemma ParseMoney_money_text u c : 0 <= u <= max_units → currency_ok c = true →
  ∃ m, ParseMoney (money_text u) c = Ok m ∧ munits m = u ∧ currency m = c ∧ Money_ok m.
Proof.
  intros Hu Hc.
  destruct (ParseMoney_CanonicalAmount (mkMoney (dNew u (-4)) c) c c) as (d & Hp & Hd & _).
  - unfold Money_ok, munits. cbn. rewrite dNew_expo, units_new, Z.mul_1_r. done.
  - cbn. by rewrite dNew_expo.
  - by apply ParseCurrency_id.
  - unfold CanonicalAmount in Hp. cbn in Hp. rewrite dString_plain, dNew_coef, dNew_expo in Hp.
    exists (mkMoney d c). split; [exact Hp|]. split; [|split; [done|]].
    + unfold munits. cbn. rewrite Hd. unfold munits. cbn. by rewrite units_new, Z.mul_1_r.
    + exact (proj1 (ParseMoney_ok _ _ _ Hp)).
Qed.

(** ** Updating the state *)

Lemma set_account_facts st id a m : state_ok st → Accounts st !! id = Some a →
  Money_ok m → currency m = ca_Currency a →
  let st' := set_account st id (with_current a m) in
  state_ok st' ∧ same_frame st st' ∧
  ∀ ep, balance st' ep = if bool_decide (ep = EpValue id) then munits m else balance st ep.
Proof.
  intros Hs Ha Hm Hc st'. split; [|split].
  - split; [|apply Hs|apply Hs]. intros id' a'. cbn. destruct (decide (id = id')) as [<-|Hne].
    + rewrite lookup_insert_eq. intros [= <-]. destruct (accounts_ok st Hs id a Ha) as (Hid & _). done.
    + rewrite lookup_insert_ne by done. apply Hs.
  - unfold same_frame, st'. cbn. do 5 (split; [done|]). split; [|done]. intros id'.
    destruct (decide (id = id')) as [<-|Hne]; [by rewrite lookup_insert_eq, Ha|by rewrite lookup_insert_ne].
  - intros [a'|a' c'|h']; cbn; [|by case_bool_decide..].
    case_bool_decide as Hd; [injection Hd as ->; by rewrite lookup_insert_eq|].
    rewrite lookup_insert_ne by congruence. done.
Qed.

Lemma cash_current_set st id c m id' c' :
  cash_current (set_cash st id c m) id' c' =
  if bool_decide (id' = id ∧ c' = c) then amount m else cash_current st id' c'.
Proof.
  unfold cash_current. cbn. destruct (decide (id = id')) as [<-|Hne].
  - rewrite lookup_insert_eq. destruct (decide (c = c')) as [<-|Hc].
    + by rewrite lookup_insert_eq, bool_decide_eq_true_2.
    + rewrite lookup_insert_ne, bool_decide_eq_false_2 by naive_solver.
      destruct (Cash st !! id); [done|]. cbn. by rewrite lookup_empty.
  - rewrite lookup_insert_ne, bool_decide_eq_false_2 by naive_solver. done.
Qed.

Lemma set_cash_facts st id c m : state_ok st → Money_ok m → currency m = c →
  let st' := set_cash st id c m in
  state_ok st' ∧ same_frame st st' ∧
  ∀ ep, balance st' ep = if bool_decide (ep = EpCash id c) then munits m else balance st ep.
Proof.
  intros Hs Hm Hc st'. split; [|split].
  - split; [apply Hs| |apply Hs]. intros id' byc c' m'. cbn.
    destruct (decide (id = id')) as [<-|Hne]; [|rewrite lookup_insert_ne by done; apply Hs].
    rewrite lookup_insert_eq. intros [= <-]. destruct (decide (c = c')) as [<-|Hne].
    + rewrite lookup_insert_eq. by intros [= <-].
    + rewrite lookup_insert_ne by done. destruct (Cash st !! id) as [byc|] eqn:E; cbn.
      * by apply (cash_ok st Hs id byc).
      * by rewrite lookup_empty.
  - by unfold same_frame, st'.
  - intros [a'|a' c'|h']; [by cbn; case_bool_decide| |by cbn; case_bool_decide].
    unfold st', balance. rewrite cash_current_set. case_bool_decide as H1; case_bool_decide as H2;
      [done|naive_solver|naive_solver|done].
Qed.

Lemma set_holding_facts st id h q : state_ok st → Holdings st !! id = Some h → qty_ok q →
  let st' := set_holding st id (with_quantity h q) in
  state_ok st' ∧ same_frame st st' ∧
  ∀ ep, balance st' ep = if bool_decide (ep = EpHolding id) then qunits q else balance st ep.
Proof.
  intros Hs Hh Hq st'. split; [|split].
  - split; [apply Hs|apply Hs|]. intros id' h'. cbn. destruct (decide (id = id')) as [<-|Hne].
    + rewrite lookup_insert_eq. intros [= <-]. destruct (holdings_ok st Hs id h Hh) as (Hid & _). done.
    + rewrite lookup_insert_ne by done. apply Hs.
  - unfold same_frame, st'. cbn. do 6 (split; [done|]). intros id'.
    destruct (decide (id = id')) as [<-|Hne]; [by rewrite lookup_insert_eq, Hh|by rewrite lookup_insert_ne].
  - intros [a'|a' c'|h']; cbn; [by case_bool_decide..|].
    case_bool_decide as Hd; [injection Hd as ->; by rewrite lookup_insert_eq|].
    rewrite lookup_insert_ne by congruence. done.
Qed.
End BalanceFacts.

(** ** One effect *)

Section EffectFacts.
Context `{HD : DecimalAPI} {HL : DecimalLaws}.

(** The three shapes of a valid effect. *)
Inductive effect_shape (e : ActivityEffect) : Prop :=
| shape_money aid m : ef_AccountID e = Some aid → ef_Money e = Some m → ef_Quantity e = None →
    Target e = EffectTargetAccountValue ∨ Target e = EffectTargetAccountCash → effect_shape e
| shape_quantity hid iid q : ef_HoldingID e = Some hid → ef_InstrumentID e = Some iid →
    ef_Quantity e = Some q → ef_Money e = None → Target e = EffectTargetHoldingQuantity →
    effect_shape e
| shape_cost hid iid p : ef_HoldingID e = Some hid → ef_InstrumentID e = Some iid →
    CostUnitPrice e = Some p → ef_Money e = None → ef_Quantity e = None →
    Target e = EffectTargetHoldingCost → Direction e = EffectAdded → effect_shape e.

Lemma Validate_shape e : Validate e = Ok tt →
  effect_shape e ∧ (Direction e = EffectAdded ∨ Direction e = EffectRemoved).
Proof.
  unfold Validate. intros H.
  destruct (_ || _ || _) eqn:C1 in H; [discriminate|].
  destruct (negb _ && negb _) eqn:C2 in H; [discriminate|].
  assert (Hd : Direction e = EffectAdded ∨ Direction e = EffectRemoved).
  { apply andb_false_iff in C2 as [C2|C2]; prop_bool; [by left|by right]. }
  split; [|done]. clear C1 C2 Hd. revert H. case_bool_decide as Hcost.
  - destruct (_ || _) eqn:C in |- *; [discriminate|]. intros _. prop_bool.
    destruct (ef_HoldingID e) as [hid|] eqn:E1; [|discriminate].
    destruct (ef_InstrumentID e) as [iid|] eqn:E2; [|discriminate].
    destruct (CostUnitPrice e) as [p|] eqn:E3; [|discriminate].
    destruct (ef_Money e) eqn:E4; [discriminate|]. destruct (ef_Quantity e) eqn:E5; [discriminate|].
    by apply (shape_cost e hid iid p).
  - destruct (_ && _) eqn:C1 in |- *; [discriminate|]. destruct (_ && _) eqn:C2 in |- *; [discriminate|].
    cbn zeta. destruct (_ || quantity_zero _); [discriminate|]. destruct (_ && _) in |- *; [discriminate|].
    destruct (Target e) eqn:Et; try discriminate.
    + destruct (_ || _) eqn:C in |- *; [discriminate|]. intros _. prop_bool.
      destruct (ef_AccountID e) as [aid|] eqn:E1; [|discriminate].
      destruct (ef_Money e) as [m|] eqn:E2; [|discriminate].
      destruct (ef_Quantity e) eqn:E3; [discriminate|]. apply (shape_money e aid m); auto.
    + destruct (_ || _) eqn:C in |- *; [discriminate|]. intros _. prop_bool.
      destruct (ef_AccountID e) as [aid|] eqn:E1; [|discriminate].
      destruct (ef_Money e) as [m|] eqn:E2; [|discriminate].
      destruct (ef_Quantity e) eqn:E3; [discriminate|]. apply (shape_money e aid m); auto.
    + destruct (_ || _) eqn:C in |- *; [discriminate|]. intros _. prop_bool.
      destruct (ef_HoldingID e) as [hid|] eqn:E1; [|discriminate].
      destruct (ef_InstrumentID e) as [iid|] eqn:E2; [|discriminate].
      destruct (ef_Quantity e) as [q|] eqn:E3; [|discriminate].
      destruct (ef_Money e) eqn:E4; [discriminate|]. by apply (shape_quantity e hid iid q).
Qed.

(** A money effect changes one balance, by the amount, and shows the result. *)
Lemma apply_money_spec st e aid a m :
  state_ok st → Money_ok m → ef_AccountID e = Some aid → ef_Money e = Some m →
  Accounts st !! aid = Some a → Target e = accountTarget a →
  (Mode a = TrackingHoldings ∨ currency m = ca_Currency a) →
  Direction e = EffectAdded ∨ Direction e = EffectRemoved →
  let ep := account_endpoint a (currency m) in
  let u := post_units (Direction e) (balance st ep) (munits m) in
  endpoint_of e = Some ep ∧
  (is_ok (apply_money st e m) = true ↔ 0 <= u <= max_units) ∧
  ∀ st' v, apply_money st e m = Ok (st', v) →
    state_ok st' ∧ same_frame st st' ∧ accountAmount st a m (Direction e) = Ok v ∧
    ∀ ep', balance st' ep' = if bool_decide (ep' = ep) then u else balance st ep'.
Proof.
  intros Hs Hm He1 He2 Ha Ht Hcur Hd ep u. pose proof (accounts_ok st Hs aid a Ha) as (Hid & Hcok & Hcc).
  split.
  { unfold endpoint_of, ep, account_endpoint. rewrite Ht, He1, He2, Hid. unfold accountTarget.
    by case_bool_decide. }
  unfold apply_money. rewrite He1, Ha, Ht, bool_decide_eq_true_2 by done. cbn [negb].
  rewrite (accountAmount_spec st aid a m (Direction e) Hs Ha Hm Hcur). fold ep.
  destruct (amount_spec _ _ _ _ _ _ _ _) as [v|err] eqn:Ev.
  2:{ split; [|discriminate]. split; [discriminate|]. intros Hu.
      assert (amount_spec (accountTarget a) aid (ca_Name a)
        (if bool_decide (Mode a = TrackingHoldings) then cash_suffix else balance_suffix)
        (currency m) (balance st ep) (munits m) (Direction e) = Ok (mkView (accountTarget a) (Some aid)
          None None (ca_Name a) (money_text u) "" (currency m))) as Eok by by apply amount_spec_ok.
      congruence. }
  apply amount_spec_ok in Ev as [Hu Hv]. fold u in Hu, Hv. rewrite bind_Ok_l.
  rewrite Hv. cbn [ev_Amount ev_Currency].
  destruct (ParseMoney_money_text u (currency m) Hu) as (m' & Hp & Hmu & Hmc & Hmok); [apply Hm|].
  rewrite Hp, bind_Ok_l. split.
  { split; [done|]. intros _. by destruct (bool_decide _). }
  intros st' v'. unfold accountTarget in *. case_bool_decide as Hmode.
  - intros [= <- <-]. rewrite Hid. destruct (set_cash_facts st aid (currency m') m' Hs Hmok eq_refl) as (F1 & F2 & F3).
    split; [done|]. split; [done|]. split; [done|]. intros ep'. rewrite F3. unfold ep, account_endpoint.
    rewrite (bool_decide_eq_true_2 (Mode a = TrackingHoldings)), Hid, Hmc by done. by rewrite Hmu.
  - intros [= <- <-]. destruct Hcur as [|Hcur]; [done|]. rewrite Hid.
    destruct (set_account_facts st aid a m' Hs Ha Hmok) as (F1 & F2 & F3); [congruence|].
    split; [done|]. split; [done|]. split; [done|]. intros ep'. rewrite F3. unfold ep, account_endpoint.
    rewrite (bool_decide_eq_false_2 (Mode a = TrackingHoldings)), Hid by done. by rewrite Hmu.
Qed.

Lemma maxQuantity_units : units 8 maxQuantity = max_qunits.
Proof. unfold units. destruct maxQuantity_coef as [-> ->]. reflexivity. Qed.

Lemma NewQuantity_exact v : -8 <= dExponent v →
  NewQuantity v = Ok (mkQuantity v) ↔ 0 <= units 8 v <= max_qunits.
Proof.
  intros He. rewrite NewQuantity_ok, Quantity_ok_spec. cbn [q_value].
  destruct maxQuantity_coef as [_ Hme]. rewrite (units_le 8 v maxQuantity), maxQuantity_units by lia.
  rewrite dval_nonneg_coef. unfold units at 2, cunits.
  pose proof (pow10_pos (dExponent v + 8) ltac:(lia)). split; [intros (_ & ? & ? & _); nia|].
  intros [H1 H2]. split; [done|]. split; [nia|]. split; [done|by right].
Qed.

Lemma NewQuantity_fail v : -8 <= dExponent v → ¬ (0 <= units 8 v <= max_qunits) →
  is_ok (NewQuantity v) = false.
Proof.
  intros He Hn. destruct (NewQuantity v) as [q|] eqn:E; [|done].
  pose proof E as E'. apply NewQuantity_ok in E' as [-> _]. by apply NewQuantity_exact in E.
Qed.

Lemma apply_quantity_spec st e hid h q :
  state_ok st → qty_ok q → ef_HoldingID e = Some hid → ef_Quantity e = Some q →
  Holdings st !! hid = Some h → Direction e = EffectAdded ∨ Direction e = EffectRemoved →
  let u := post_units (Direction e) (balance st (EpHolding hid)) (qunits q) in
  (is_ok (apply_quantity st e) = true ↔ 0 <= u <= max_qunits) ∧
  ∀ st' v, apply_quantity st e = Ok (st', v) →
    state_ok st' ∧ same_frame st st' ∧
    (∃ nq, NewQuantity (if bool_decide (Direction e = EffectAdded)
                        then dAdd (q_value (ch_Current h)) (q_value q)
                        else dSub (q_value (ch_Current h)) (q_value q)) = Ok nq ∧
           v = mkView EffectTargetHoldingQuantity None (Some hid) None (h_SelectionLabel h) ""
                 (q_canonical nq) "") ∧
    ∀ ep', balance st' ep' = if bool_decide (ep' = EpHolding hid) then u else balance st ep'.
Proof.
  intros Hs [Hqe [Hq0 Hq1]] He1 He2 Hh Hd u.
  pose proof (holdings_ok st Hs hid h Hh) as (Hid & Hce & Hc0 & Hc1).
  unfold apply_quantity. rewrite He1, He2, Hh.
  set (v := if bool_decide (Direction e = EffectAdded) then dAdd (q_value (ch_Current h)) (q_value q)
            else dSub (q_value (ch_Current h)) (q_value q)).
  assert (Hve : -8 <= dExponent v) by (unfold v; case_bool_decide; rewrite ?dAdd_expo, ?dSub_expo; lia).
  assert (Hvu : units 8 v = u).
  { unfold u, v, post_units. cbn [balance]. rewrite Hh. case_bool_decide; [apply units_add|apply units_sub]; lia. }
  set (cur := if bool_decide (Direction e = EffectAdded) then _ else _).
  assert (Hcur : (cur = Ok v ∧ 0 <= u) ∨ (is_ok cur = false ∧ u < 0)).
  { unfold cur, v, u, post_units in *. cbn [balance] in *. rewrite Hh in *. case_bool_decide.
    - left. split; [done|]. fold (qunits (ch_Current h)). lia.
    - destruct (dIsNegative _) eqn:En.
      + right. split; [done|]. apply (units_neg_iff 8) in En; [|done]. lia.
      + left. split; [done|]. rewrite <-Hvu. apply Z.nlt_ge. intros Hlt.
        apply (units_neg_iff 8) in Hlt; [congruence|done]. }
  clearbody cur. destruct Hcur as [[-> Hu0]|[Hf Hu0]].
  2:{ destruct cur; [discriminate|]. split; [split; [discriminate|lia]|discriminate]. }
  rewrite bind_Ok_l. destruct (decide (0 <= u <= max_qunits)) as [Hr|Hr].
  - rewrite (proj2 (NewQuantity_exact v Hve)) by lia. rewrite bind_Ok_l. split; [done|].
    intros st' v'. cbn zeta. intros [= <- <-]. rewrite Hid.
    destruct (set_holding_facts st hid h (mkQuantity v) Hs Hh) as (F1 & F2 & F3).
    { split; [done|]. unfold qunits. cbn [q_value]. lia. }
    split; [done|]. split; [done|]. split; [by exists (mkQuantity v)|].
    intros ep'. rewrite F3. unfold qunits. cbn [q_value]. by rewrite Hvu.
  - pose proof (NewQuantity_fail v Hve ltac:(lia)) as Hf. destruct (NewQuantity v); [discriminate|].
    split; [split; [discriminate|lia]|discriminate].
Qed.
End EffectFacts.

(** ** Runs of effects *)

Section RunFacts.
Context `{HD : DecimalAPI} {HL : DecimalLaws}.

Lemma apply_effect_money st e m : Validate e = Ok tt → ef_Money e = Some m →
  apply_effect st e = apply_money st e m.
Proof.
  intros Hv Hm. unfold apply_effect. rewrite Hv, bind_Ok_l.
  destruct (Validate_shape e Hv) as [[aid m' H1 H2 H3 H4|hid iid q H1 H2 H3 H4 H5|hid iid p H1 H2 H3 H4 H5 H6] _];
    [|congruence..].
  rewrite bool_decide_eq_false_2 by (destruct H4; congruence). by rewrite Hm.
Qed.

Lemma apply_effect_quantity st e : Validate e = Ok tt → Target e = EffectTargetHoldingQuantity →
  apply_effect st e = apply_quantity st e.
Proof.
  intros Hv Ht. unfold apply_effect. rewrite Hv, bind_Ok_l.
  destruct (Validate_shape e Hv) as [[aid m' H1 H2 H3 H4|hid iid q H1 H2 H3 H4 H5|hid iid p H1 H2 H3 H4 H5 H6] _].
  - destruct H4; congruence.
  - rewrite bool_decide_eq_false_2 by congruence. by rewrite H4.
  - congruence.
Qed.

(** What a successful effect needed and did. *)
Inductive applied (st : ChangeState) (e : ActivityEffect) (st' : ChangeState) (v : EndpointView) : Prop :=
| applied_money aid m a : ef_AccountID e = Some aid → ef_Money e = Some m → Accounts st !! aid = Some a →
    Target e = accountTarget a → (Mode a = TrackingHoldings ∨ currency m = ca_Currency a) →
    apply_money st e m = Ok (st', v) → applied st e st' v
| applied_quantity hid q h : ef_HoldingID e = Some hid → ef_Quantity e = Some q → ef_Money e = None →
    Holdings st !! hid = Some h → Target e = EffectTargetHoldingQuantity →
    apply_quantity st e = Ok (st', v) → applied st e st' v
| applied_cost : Target e = EffectTargetHoldingCost → ef_Money e = None → ef_Quantity e = None →
    st' = st → applied st e st' v.

Lemma apply_effect_inv st e st' v : state_ok st → effect_ok e → apply_effect st e = Ok (st', v) →
  Validate e = Ok tt ∧ applied st e st' v.
Proof.
  intros Hs He H. destruct (Validate e) as [[]|err] eqn:Ev; [split; [done|]|].
  2:{ unfold apply_effect in H. by rewrite Ev in H. }
  destruct (Validate_shape e Ev) as [[aid m H1 H2 H3 H4|hid iid q H1 H2 H3 H4 H5|hid iid p H1 H2 H3 H4 H5 H6] Hd].
  - rewrite (apply_effect_money st e m Ev H2) in H. pose proof H as H'. unfold apply_money in H'.
    rewrite H1 in H'. destruct (Accounts st !! aid) as [a|] eqn:Ha; [|discriminate].
    case_bool_decide as Ht; [|discriminate]. cbn [negb] in H'.
    destruct (accountAmount st a m (Direction e)) as [w|] eqn:Ew; [|discriminate].
    apply (applied_money st e st' v aid m a); try done.
    apply (accountAmount_inv st aid a m (Direction e) w); [done|done|by apply (proj1 He)|done].
  - rewrite (apply_effect_quantity st e Ev H5) in H. pose proof H as H'. unfold apply_quantity in H'.
    rewrite H1, H3 in H'. destruct (Holdings st !! hid) as [h|] eqn:Hh; [|discriminate].
    by apply (applied_quantity st e st' v hid q h).
  - unfold apply_effect in H. rewrite Ev, bind_Ok_l, bool_decide_eq_true_2 in H by done.
    unfold apply_cost in H. rewrite H1, H2 in H. destruct (Holdings st !! hid) as [h|]; [|discriminate].
    destruct (_ || _); [discriminate|]. injection H as <- _. by apply applied_cost.
Qed.

Lemma endpoint_shift (f : Endpoint → Z) ep0 d m ep :
  (if bool_decide (ep = ep0) then post_units d (f ep0) m else f ep) =
  f ep + (if bool_decide (Some ep0 = Some ep) then post_units d 0 m else 0).
Proof.
  destruct (decide (ep = ep0)) as [->|Hne].
  - rewrite !bool_decide_eq_true_2 by done. unfold post_units. case_bool_decide; lia.
  - rewrite !bool_decide_eq_false_2 by congruence. lia.
Qed.

Lemma apply_effect_ok st e st' v : state_ok st → effect_ok e → apply_effect st e = Ok (st', v) →
  state_ok st' ∧ same_frame st st' ∧ (∀ ep, balance st' ep = balance st ep + delta e ep) ∧
  (∀ ep, endpoint_of e = Some ep → 0 <= balance st' ep).
Proof.
  intros Hs He H. destruct (apply_effect_inv st e st' v Hs He H) as [Ev Hap].
  destruct (Validate_shape e Ev) as [_ Hd].
  destruct Hap as [aid m a H1 H2 Ha Ht Hc Hm|hid q h H1 H2 H2' Hh Ht Hm|Ht H1 H2 ->].
  - destruct (apply_money_spec st e aid a m Hs (proj1 He m H2) H1 H2 Ha Ht Hc Hd) as (Hep & Hok & Hres).
    destruct (Hres st' v Hm) as (F1 & F2 & _ & F3). split; [done|]. split; [done|].
    pose proof (proj1 Hok ltac:(by rewrite Hm)) as Hr. split.
    + intros ep. rewrite F3. unfold delta. rewrite Hep. unfold magnitude. rewrite H2.
      apply endpoint_shift.
    + intros ep. rewrite Hep. intros [= <-]. rewrite F3, bool_decide_eq_true_2 by done. lia.
  - destruct (apply_quantity_spec st e hid h q Hs (proj2 He q H2) H1 H2 Hh Hd) as (Hok & Hres).
    destruct (Hres st' v Hm) as (F1 & F2 & _ & F3). split; [done|]. split; [done|].
    pose proof (proj1 Hok ltac:(by rewrite Hm)) as Hr.
    assert (Hep : endpoint_of e = Some (EpHolding hid)) by (unfold endpoint_of; by rewrite Ht, H1).
    split.
    + intros ep. rewrite F3. unfold delta. rewrite Hep. unfold magnitude. rewrite H2', H2.
      apply endpoint_shift.
    + intros ep. rewrite Hep. intros [= <-]. rewrite F3, bool_decide_eq_true_2 by done. lia.
  - split; [done|]. split; [reflexivity|]. unfold delta, endpoint_of. rewrite Ht. split; [|done].
    intros ep. rewrite bool_decide_eq_false_2 by done. lia.
Qed.

(** The loop without its views. *)
Fixpoint run (st : ChangeState) (effects : list ActivityEffect) : Result ChangeState :=
  match effects with
  | [] => Ok st
  | e :: effects => '(st, _) ← apply_effect st e; run st effects
  end.

Lemma apply_loop_run st views effects :
  (λ r, r.1) <$> apply_loop st views effects = run st effects.
Proof.
  revert st views. induction effects as [|e l IH]; intros st views; [done|]. cbn [apply_loop run].
  destruct (apply_effect st e) as [[st' v]|err]; [|done]. rewrite !bind_Ok_l. apply IH.
Qed.

Lemma ApplyEffects_run st effects st' :
  (∃ views, ApplyEffects st effects = Ok (st', views)) ↔ run st effects = Ok st'.
Proof.
  unfold ApplyEffects. rewrite <-(apply_loop_run st []), fmap_Ok. split.
  - intros [views ->]. by exists (st', views).
  - intros ([s views] & -> & ->). by exists views.
Qed.

Lemma run_app st l1 l2 : run st (l1 ++ l2) = (s ← run st l1; run s l2).
Proof.
  revert st. induction l1 as [|e l1 IH]; intros st; [done|]. cbn [run app].
  destruct (apply_effect st e) as [[st' v]|err]; [|done]. rewrite !bind_Ok_l. apply IH.
Qed.

Lemma run_ok st effects st' : state_ok st → Forall effect_ok effects → run st effects = Ok st' →
  state_ok st' ∧ same_frame st st' ∧
  (∀ ep, balance st' ep = balance st ep + sumZ (λ e, delta e ep) effects).
Proof.
  intros Hs He. revert st Hs. induction He as [|e l He Hl IH]; intros st Hs H.
  - injection H as <-. split; [done|]. split; [reflexivity|]. intros ep. cbn. lia.
  - cbn [run] in H. destruct (apply_effect st e) as [[s v]|err] eqn:E; [|discriminate].
    rewrite bind_Ok_l in H. destruct (apply_effect_ok st e s v Hs He E) as (Hs' & Hf & Hb & _).
    destruct (IH s Hs' H) as (Hs2 & Hf2 & Hb2). split; [done|]. split; [by transitivity s|].
    intros ep. rewrite Hb2, Hb, sumZ_cons. lia.
Qed.

(** ** Inverses *)

Definition is_inverse (e e' : ActivityEffect) : Prop :=
  ∃ id act seq, id ≠ ""%string ∧ act ≠ ""%string ∧ 1 <= seq ∧ e' = inverse_effect id act seq e.

Lemma inverse_valid e e' : is_inverse e e' → Validate e = Ok tt → Target e ≠ EffectTargetHoldingCost →
  Validate e' = Ok tt.
Proof.
  intros (id & act & seq & Hid & Hact & Hseq & ->) Hv Ht. revert Hv. unfold Validate, inverse_effect. cbn.
  destruct (_ || _ || _) in |- *; [discriminate|].
  rewrite (proj2 (Z.ltb_ge seq 1)), !(bool_decide_eq_false_2 (_ = ""%string)) by done. cbn [orb].
  destruct (negb _ && negb _) eqn:Ed in |- *; [discriminate|].
  assert (negb (bool_decide (flip_direction (Direction e) = EffectAdded)) &&
          negb (bool_decide (flip_direction (Direction e) = EffectRemoved)) = false) as ->.
  { unfold flip_direction. by case_bool_decide. }
  by rewrite (bool_decide_eq_false_2 (Target e = EffectTargetHoldingCost)).
Qed.

Lemma inverse_post e b m : Direction e = EffectAdded ∨ Direction e = EffectRemoved →
  post_units (flip_direction (Direction e)) (post_units (Direction e) b m) m = b.
Proof.
  intros [-> | ->]; unfold post_units, flip_direction.
  - rewrite (bool_decide_eq_true_2 (EffectAdded = EffectAdded)) by done.
    rewrite bool_decide_eq_false_2 by done. lia.
  - rewrite (bool_decide_eq_false_2 (EffectRemoved = EffectAdded)) by done.
    rewrite bool_decide_eq_true_2 by done. lia.
Qed.

Lemma static_lookup_account s t id a : same_frame s t → Accounts s !! id = Some a →
  ∃ a', Accounts t !! id = Some a' ∧ static_account a' = static_account a.
Proof.
  intros (_ & _ & _ & _ & _ & Ha & _) H. specialize (Ha id). rewrite H in Ha.
  destruct (Accounts t !! id) as [a'|]; [|done]. exists a'. split; [done|]. by apply (inj Some) in Ha.
Qed.

Lemma static_lookup_holding s t id h : same_frame s t → Holdings s !! id = Some h →
  ∃ h', Holdings t !! id = Some h' ∧ static_holding h' = static_holding h.
Proof.
  intros (_ & _ & _ & _ & _ & _ & Hh) H. specialize (Hh id). rewrite H in Hh.
  destruct (Holdings t !! id) as [h'|]; [|done]. exists h'. split; [done|]. by apply (inj Some) in Hh.
Qed.
End RunFacts.

(** ** The laws *)

Section Laws.
Context `{HD : DecimalAPI} {HL : DecimalLaws}.

(** Undoing one effect on any state that looks like its result. *)
Lemma inverse_step s e s1 v t1 e' :
  state_ok s → effect_ok e → Target e ≠ EffectTargetHoldingCost → apply_effect s e = Ok (s1, v) →
  state_ok t1 → state_equiv s1 t1 → is_inverse e e' →
  ∃ t v', apply_effect t1 e' = Ok (t, v') ∧ state_ok t ∧ state_equiv s t.
Proof.
  intros Hs He Hnc H Ht1 Heq Hinv. destruct (apply_effect_inv s e s1 v Hs He H) as [Ev Hap].
  pose proof (inverse_valid e e' Hinv Ev Hnc) as Ev'. destruct (Validate_shape e Ev) as [_ Hd].
  destruct (apply_effect_ok s e s1 v Hs He H) as (Hs1 & Hf1 & Hb1 & _).
  destruct Heq as [Hf Hb]. assert (Hframe : same_frame s t1) by (by transitivity s1).
  destruct Hinv as (id & act & seq & Hid & Hact & Hseq & He').
  assert (Hep' : endpoint_of e' = endpoint_of e) by (by rewrite He').
  assert (Hdir : Direction e' = flip_direction (Direction e)) by (by rewrite He').
  assert (Hmag : magnitude e' = magnitude e) by (by rewrite He').
  assert (He'ok : effect_ok e') by (by rewrite He').
  assert (Hsame : ef_AccountID e' = ef_AccountID e ∧ ef_HoldingID e' = ef_HoldingID e ∧
    ef_Money e' = ef_Money e ∧ ef_Quantity e' = ef_Quantity e ∧ Target e' = Target e) by (by rewrite He').
  destruct Hsame as (Sa & Sh & Sm & Sq & St). clear He'.
  assert (Hd' : Direction e' = EffectAdded ∨ Direction e' = EffectRemoved).
  { rewrite Hdir. unfold flip_direction. case_bool_decide; [by right|by left]. }
  assert (Hdelta : ∀ ep, delta e ep + delta e' ep = 0).
  { intros ep. unfold delta. rewrite Hep', Hmag, Hdir. case_bool_decide; [|done].
    pose proof (inverse_post e 0 (magnitude e) Hd) as Hi. revert Hi. unfold post_units.
    repeat case_bool_decide; lia. }
  assert (Hfin : ∀ t v', apply_effect t1 e' = Ok (t, v') → state_ok t ∧ state_equiv s t).
  { intros t v' Ht. destruct (apply_effect_ok t1 e' t v' Ht1 He'ok Ht) as (H1 & H2 & H3 & _).
    split; [done|]. split; [by transitivity t1|]. intros ep. rewrite H3, Hb, Hb1.
    specialize (Hdelta ep). lia. }
  enough (is_ok (apply_effect t1 e') = true) as Hok.
  { destruct (apply_effect t1 e') as [[t v']|] eqn:E; [|done]. exists t, v'. split; [done|]. by apply (Hfin t v'). }
  destruct Hap as [aid m a H1 H2 Ha Ht Hc Hm|hid q h H1 H2 H2' Hh Ht Hm|Ht]; [| |done].
  - destruct (apply_money_spec s e aid a m Hs (proj1 He m H2) H1 H2 Ha Ht Hc Hd) as (Hep & _ & Hres).
    destruct (Hres s1 v Hm) as (_ & _ & _ & F3).
    destruct (static_lookup_account s t1 aid a Hframe Ha) as (a' & Ha' & Hst).
    unfold static_account in Hst. injection Hst as I1 I2 I3 I4 I5 I6.
    rewrite (apply_effect_money t1 e' m Ev') by congruence.
    destruct (apply_money_spec t1 e' aid a' m Ht1 (proj1 He m H2)) as (_ & Hok & _); [congruence..| | |done|].
    { rewrite St, Ht. unfold accountTarget. by rewrite I4. }
    { by rewrite I3, I4. }
    apply Hok. rewrite Hdir.
    assert (account_endpoint a' (currency m) = account_endpoint a (currency m)) as ->
      by (unfold account_endpoint; by rewrite I1, I4).
    rewrite Hb, F3, bool_decide_eq_true_2, inverse_post by done.
    clear -Hs Ha HL. unfold account_endpoint. case_bool_decide; cbn [balance].
    + apply cash_current_ok, Hs.
    + destruct (accounts_ok s Hs aid a Ha) as (-> & Hm & _). rewrite Ha. by apply Money_ok_units.
  - destruct (apply_quantity_spec s e hid h q Hs (proj2 He q H2) H1 H2 Hh Hd) as (_ & Hres).
    destruct (Hres s1 v Hm) as (_ & _ & _ & F3).
    destruct (static_lookup_holding s t1 hid h Hframe Hh) as (h' & Hh' & _).
    rewrite (apply_effect_quantity t1 e' Ev') by congruence.
    destruct (apply_quantity_spec t1 e' hid h' q Ht1 (proj2 He q H2)) as (Hok & _); [congruence..|done|].
    apply Hok. rewrite Hdir.
    rewrite Hb, F3, bool_decide_eq_true_2, inverse_post by done. cbn [balance]. rewrite Hh.
    destruct (holdings_ok s Hs hid h Hh) as (_ & _ & Hq). done.
Qed.

Lemma inverse_run effects inv s s' t' :
  state_ok s → Forall effect_ok effects → Forall (λ e, Target e ≠ EffectTargetHoldingCost) effects →
  run s effects = Ok s' → state_ok t' → state_equiv s' t' → Forall2 is_inverse (rev effects) inv →
  ∃ t, run t' inv = Ok t ∧ state_ok t ∧ state_equiv s t.
Proof.
  intros Hs He. revert inv s s' t' Hs. induction He as [|e l He Hl IH]; intros inv s s' t' Hs Hnc H Ht' Heq Hinv.
  - cbn in Hinv. apply Forall2_nil_inv_l in Hinv as ->. injection H as <-. by exists t'.
  - apply Forall_cons in Hnc as [Hne Hnc]. cbn [run] in H.
    destruct (apply_effect s e) as [[s1 v]|] eqn:E; [|discriminate]. rewrite bind_Ok_l in H.
    destruct (apply_effect_ok s e s1 v Hs He E) as (Hs1 & _).
    cbn [rev] in Hinv. apply Forall2_app_inv_l in Hinv as (i1 & i2 & Hi1 & Hi2 & ->).
    apply Forall2_cons_inv_l in Hi2 as (e' & ? & Hi & Hnil & ->). apply Forall2_nil_inv_l in Hnil as ->.
    destruct (IH i1 s1 s' t' Hs1 Hnc H Ht' Heq Hi1) as (t1 & Hr1 & Hok1 & Heq1).
    destruct (inverse_step s e s1 v t1 e' Hs He Hne E Hok1 Heq1 Hi) as (t & v' & Ha & Hokt & Heqt).
    exists t. split; [|done]. rewrite run_app, Hr1, bind_Ok_l. cbn [run]. by rewrite Ha, bind_Ok_l.
Qed.

(** Claim C3.  Effects conserve: from a well-formed state, if [ApplyEffects]
    succeeds then the result is again well formed (no balance is negative or out of
    range), nothing but current amounts changed, and every balance moved by exactly
    the signed sum of the effects that name it, to the last decimal place. *)
Theorem ApplyEffects_conserves st effects st' views :
  state_ok st → Forall effect_ok effects → ApplyEffects st effects = Ok (st', views) →
  state_ok st' ∧ same_frame st st' ∧
  ∀ ep, balance st' ep = balance st ep + sumZ (λ e, delta e ep) effects.
Proof.
  intros Hs He H. apply run_ok; [done..|]. apply ApplyEffects_run. by exists views.
Qed.

(** Claim C2.  Undo restores: whatever effects were applied to a well-formed state
    (no cost correction among them), inverting them as [InverseChangeAt] does on
    the state they produced always succeeds whenever a reversal activity may be
    created at that time, and applying the inverse gives back every balance of the
    original state. *)
Theorem InverseChangeAt_restores `{TZ : TimeZones} newID st effects st' views original at_ act :
  (∀ k, newID k ≠ ""%string) →
  state_ok st → Forall effect_ok effects → Forall (λ e, Target e ≠ EffectTargetHoldingCost) effects →
  ApplyEffects st effects = Ok (st', views) → Kind original ≠ ActivityCostAdjustment →
  newActivity st' (newID 0%nat) (act_HouseholdID original) ActivityReversal ReasonOther at_ None = Ok act →
  ∃ p st'' views', InverseChangeAt newID st' original effects at_ = Ok p ∧
    ApplyEffects st' (pv_Effects p) = Ok (st'', views') ∧ state_ok st'' ∧ state_equiv st st'' ∧
    ReversesActivityID (pv_Activity p) = Some (act_ID original) ∧ pv_Resulting p = views'.
Proof.
  intros Hid Hs He Hnc H Hk Hact.
  assert (Hrun : run st effects = Ok st') by (apply ApplyEffects_run; by exists views).
  destruct (run_ok st effects st' Hs He Hrun) as (Hs' & _).
  unfold InverseChangeAt. rewrite bool_decide_eq_false_2, Hact, bind_Ok_l by done.
  assert (Haid : act_ID (with_reverses act (act_ID original)) = newID 0%nat).
  { unfold newActivity in Hact. clear -Hact. inv_ok. destruct (bool_decide (TrimSpace _ = _)); [discriminate|].
    destruct (LoadLocation _); [|discriminate]. inv_ok. by subst. }
  rewrite Haid. set (inv := inverse_effects newID (newID 0%nat) effects).
  assert (Hinv : Forall2 is_inverse (rev effects) inv).
  { apply Forall2_same_length_lookup. unfold inv, inverse_effects. split; [by rewrite length_imap|].
    intros i e e' Hi Hi'. rewrite list_lookup_imap, Hi in Hi'. injection Hi' as <-.
    exists (newID (S i)), (newID 0%nat), (Z.of_nat i + 1). split; [done|]. split; [done|]. split; [lia|done]. }
  destruct (inverse_run effects inv st st' st' Hs He Hnc Hrun Hs' ltac:(reflexivity) Hinv) as (t & Hr & Hok & Heq).
  apply ApplyEffects_run in Hr as [views' Hr]. rewrite Hr, bind_Ok_l.
  eexists _, t, views'. split; [done|]. cbn. done.
Qed.
End Laws.
