(* ===== verification/Change.v ===== *)
(** * The changes a household records

    The builders of [change.go], one per kind of command, and [PreviewChange],
    which dispatches to them.  Each builder checks its command against the state
    and returns the activity, its effects and the resulting endpoint views without
    touching the state.

    The identifiers drawn inside a call are [newID 0] (the activity), [newID 1] to
    [newID 3] (its effects) and [newID 4] (a new holding); [order] is the order
    in which the Go runtime happens to iterate the map of holdings, which decides
    the holding of a trade that names none. *)

From S2P Require Export ChangeLaws.
From S2P Require Import DecimalModel.
From Stdlib Require Import String Ascii.

#[global] Open Scope Z_scope.

Section Commands.
Context `{HD : DecimalAPI}.

Record MoneyAddedInput := mkMoneyAdded {
  ma_HouseholdID : HouseholdID; ma_AccountID : AccountID; ma_Amount : Money;
  ma_Reason : ActivityReason; ma_EffectiveAt : Time; ma_Note : option string }.
Record MoneyRemovedInput := mkMoneyRemoved {
  mr_HouseholdID : HouseholdID; mr_AccountID : AccountID; mr_HoldingID : option HoldingID;
  mr_Amount : Money; mr_Reason : ActivityReason; mr_EffectiveAt : Time; mr_Note : option string }.
Record CashDividendInput := mkCashDividend {
  cd_HouseholdID : HouseholdID; cd_HoldingID : HoldingID; cd_Amount : Money;
  cd_EffectiveAt : Time; cd_Note : option string }.
Record CashTransferInput := mkCashTransfer {
  ct_HouseholdID : HouseholdID; ct_FromAccountID : AccountID; ct_ToAccountID : AccountID;
  ct_Sent : Money; ct_Received : Money; ct_Fee : option Money; ct_EffectiveAt : Time;
  ct_Note : option string }.
Record FXConversionInput := mkFXConversion {
  fx_HouseholdID : HouseholdID; fx_AccountID : AccountID; fx_Sold : Money; fx_Bought : Money;
  fx_Fee : option Money; fx_EffectiveAt : Time; fx_Note : option string }.
Record PositionTransferInput := mkPositionTransfer {
  pt_HouseholdID : HouseholdID; pt_FromHoldingID : HoldingID; pt_ToHoldingID : HoldingID;
  pt_ToAccountID : option AccountID; pt_Quantity : Quantity; pt_EffectiveAt : Time;
  pt_Note : option string }.
Record PositionAdjustmentInput := mkPositionAdjustment {
  pa_HouseholdID : HouseholdID; pa_HoldingID : HoldingID; pa_Quantity : Quantity; pa_Added : bool;
  pa_UnitCost : option UnitPrice; pa_EffectiveAt : Time; pa_Note : option string }.
Record PositionCostAdjustmentInput := mkPositionCostAdjustment {
  pc_HouseholdID : HouseholdID; pc_HoldingID : HoldingID; pc_UnitCost : UnitPrice;
  pc_EffectiveAt : Time; pc_Note : option string }.
Record TradeInput := mkTrade {
  tr_HouseholdID : HouseholdID; tr_Side : TradeSide; tr_SettlementAccountID : AccountID;
  tr_HoldingID : HoldingID; tr_InstrumentID : InstrumentID; tr_Quantity : Quantity; tr_Gross : Money;
  tr_Fee : option Money; tr_EffectiveAt : Time; tr_Note : option string }.
Record ValueUpdateInput := mkValueUpdate {
  vu_HouseholdID : HouseholdID; vu_AccountID : AccountID; vu_NewValue : Money;
  vu_Reason : ActivityReason; vu_EffectiveAt : Time; vu_Note : option string }.
Record DebtDrawInput := mkDebtDraw {
  dr_HouseholdID : HouseholdID; dr_DebtAccountID : AccountID; dr_CashAccountID : AccountID;
  dr_Principal : Money; dr_EffectiveAt : Time; dr_Note : option string }.
Record DebtPaymentInput := mkDebtPayment {
  dp_HouseholdID : HouseholdID; dp_DebtAccountID : AccountID; dp_CashAccountID : AccountID;
  dp_Principal : Money; dp_InterestOrFee : option Money; dp_EffectiveAt : Time;
  dp_Note : option string }.

Inductive Command :=
| MoneyAdded (i : MoneyAddedInput) | MoneyRemoved (i : MoneyRemovedInput)
| CashDividend (i : CashDividendInput) | CashTransfer (i : CashTransferInput)
| FXConversion (i : FXConversionInput) | PositionTransfer (i : PositionTransferInput)
| PositionAdjustment (i : PositionAdjustmentInput)
| PositionCostAdjustment (i : PositionCostAdjustmentInput)
| Trade (i : TradeInput) | ValueUpdate (i : ValueUpdateInput)
| DebtDraw (i : DebtDrawInput) | DebtPayment (i : DebtPaymentInput).

(** ** Effect constructors *)

Definition accountEffect (id : string) (activityID : ActivityID) (sequence : Z) (role : EffectRole)
    (direction : EffectDirection) (target : EffectTarget) (classification : ActivityClassification)
    (accountID : AccountID) (amt : Money) (quantity : option Quantity) : ActivityEffect :=
  mkEffect id activityID sequence role direction target classification (Some accountID) None None
    (Some amt) quantity None.

Definition cashEffect (id : string) (activityID : ActivityID) (sequence : Z) (role : EffectRole)
    (direction : EffectDirection) (classification : ActivityClassification)
    (accountID : AccountID) (amt : Money) : ActivityEffect :=
  mkEffect id activityID sequence role direction EffectTargetAccountCash classification (Some accountID)
    None None (Some amt) None None.

Definition holdingEffect (id : string) (activityID : ActivityID) (sequence : Z) (role : EffectRole)
    (direction : EffectDirection) (classification : ActivityClassification)
    (holding : ChangeHoldingState) (quantity : Quantity) : ActivityEffect :=
  mkEffect id activityID sequence role direction EffectTargetHoldingQuantity classification None
    (Some (ch_ID holding)) (Some (ch_InstrumentID holding)) None (Some quantity) None.

Definition with_cost (e : ActivityEffect) (p : option UnitPrice) : ActivityEffect :=
  mkEffect (ef_ID e) (ef_ActivityID e) (Sequence e) (Role e) (Direction e) (Target e) (Classification e)
    (ef_AccountID e) (ef_HoldingID e) (ef_InstrumentID e) (ef_Money e) (ef_Quantity e) p.

Definition quantity_view (h : ChangeHoldingState) (q : Quantity) : EndpointView :=
  mkView EffectTargetHoldingQuantity None (Some (ch_ID h)) None (h_SelectionLabel h) "" (q_canonical q) "".

Definition with_dividend (a : Activity) (d : option DividendDetail) : Activity :=
  mkActivity (act_ID a) (act_HouseholdID a) (Kind a) (Reason a) (EffectiveAt a) (EffectiveLocalDate a)
    (act_CreatedAt a) (act_Note a) (ReversesActivityID a) (CorrectionGroupID a) (TransactionFXRate a)
    (act_TradeDetail a) d (Resulting a) (Effects a) (RecordedEffects a).
Definition with_trade (a : Activity) (d : TradeDetail) : Activity :=
  mkActivity (act_ID a) (act_HouseholdID a) (Kind a) (Reason a) (EffectiveAt a) (EffectiveLocalDate a)
    (act_CreatedAt a) (act_Note a) (ReversesActivityID a) (CorrectionGroupID a) (TransactionFXRate a)
    (Some d) (act_DividendDetail a) (Resulting a) (Effects a) (RecordedEffects a).
Definition with_rate (a : Activity) (r : FxRate) : Activity :=
  mkActivity (act_ID a) (act_HouseholdID a) (Kind a) (Reason a) (EffectiveAt a) (EffectiveLocalDate a)
    (act_CreatedAt a) (act_Note a) (ReversesActivityID a) (CorrectionGroupID a) (Some r)
    (act_TradeDetail a) (act_DividendDetail a) (Resulting a) (Effects a) (RecordedEffects a).

Definition preview (a : Activity) (effects : list ActivityEffect) (views : list EndpointView) : ChangePreview :=
  mkPreview (with_effects a effects) effects views None None.

(** ** Money added and removed *)

Definition activityKind (added : bool) : ActivityKind := if added then ActivityCashIn else ActivityCashOut.

Definition classifyMoney (reason : ActivityReason) (added : bool) : ActivityClassification :=
  if bool_decide (reason = ReasonReconciliation) then ClassificationRemeasurement
  else if added && bool_decide (reason = ReasonIncome) then ClassificationIncome
  else if negb added && (bool_decide (reason = ReasonFee) || bool_decide (reason = ReasonTax))
  then ClassificationFee
  else if added then ClassificationExternalInflow else ClassificationExternalOutflow.

Definition card_reason (reason : ActivityReason) : bool :=
  bool_decide (reason = ReasonCardPurchase) || bool_decide (reason = ReasonCardRefund).

(** The reason check of [buildMoneyChange]. *)
Definition money_reason_ok (account : ChangeAccountState) (reason : ActivityReason) (added : bool) : Result unit :=
  if card_reason reason && (negb (Liability account) || negb (bool_decide (Mode account = TrackingBalance)) ||
       negb (Bool.eqb (bool_decide (reason = ReasonCardPurchase)) added))
  then Fail (changeError ErrInvalidChange "reason" "purchase increases liability and refund reduces liability; both require a Balance liability Account")
  else if card_reason reason then Ok tt
  else if added then
    if negb (bool_decide (reason ∈ [ReasonIncome; ReasonInterest; ReasonContribution; ReasonGift; ReasonOther;
                                    ReasonReconciliation])) &&
       negb (Liability account && bool_decide (reason = ReasonFee))
    then Fail (changeError ErrInvalidChange "reason" "reason is not allowed for Money added") else Ok tt
  else if negb (bool_decide (reason ∈ [ReasonExpense; ReasonFee; ReasonTax; ReasonInterest; ReasonOther;
                                       ReasonReconciliation]))
  then Fail (changeError ErrInvalidChange "reason" "reason is not allowed for Money removed") else Ok tt.

Definition money_classification (account : ChangeAccountState) (reason : ActivityReason) (added : bool)
    : ActivityClassification :=
  let c := classifyMoney reason added in
  let c := if bool_decide (reason = ReasonCardPurchase) then ClassificationExternalOutflow else c in
  let c := if bool_decide (reason = ReasonCardRefund) then ClassificationExternalInflow else c in
  if Liability account && added && (bool_decide (reason = ReasonInterest) || bool_decide (reason = ReasonFee))
  then ClassificationFee else c.

Definition must_be_positive (field : string) : goerror :=
  changeError ErrInvalidChange field "must be greater than zero".
End Commands.

Section Builders.
Context `{HD : DecimalAPI} `{TZ : TimeZones} (newID : nat → string) (order : list HoldingID).

(** [buildMoneyChange]; the two input types differ in the holding association. *)
Definition buildMoneyChange (st : ChangeState) (household : HouseholdID) (accountID : AccountID)
    (amt : Money) (reason : ActivityReason) (effectiveAt : Time) (note : option string)
    (holdingID : option HoldingID) (added : bool) : Result ChangePreview :=
  let reason := if bool_decide (reason = ReasonEmpty) then ReasonOther else reason in
  account ← st_account st accountID household;
  _ ← money_reason_ok account reason added;
  if negb (is_none holdingID) &&
     (added || (negb (bool_decide (reason = ReasonTax)) && negb (bool_decide (reason = ReasonFee))))
  then Fail (changeError ErrInvalidChange "holdingId" "holding association is only allowed for Money removed tax or fee")
  else
  holding ← match holdingID with
            | None => Ok None
            | Some hid =>
              holding ← st_holding st hid household;
              if negb (bool_decide (Mode account = TrackingHoldings)) ||
                 negb (bool_decide (ch_AccountID holding = ca_ID account))
              then Fail (changeError ErrInvalidChange "holdingId" "holding must belong to the cash Account")
              else Ok (Some holding)
            end;
  if m_isZero amt then Fail (must_be_positive "amount")
  else if negb (bool_decide (Mode account = TrackingHoldings)) &&
          negb (bool_decide (currency amt = ca_Currency account))
  then Fail (changeError ErrInvalidChange "amount" "currency must match the Account")
  else
  activity ← newActivity st (newID 0) household (activityKind added) reason effectiveAt note;
  let direction := if added then EffectAdded else EffectRemoved in
  let effect := accountEffect (newID 1) (act_ID activity) 1 EffectRoleAmount direction (accountTarget account)
                  (money_classification account reason added) (ca_ID account) amt None in
  result ← accountAmount st account amt direction;
  let activity := with_dividend activity
    ((λ h, mkDividendDetail (ch_ID h) (ch_InstrumentID h) amt) <$> holding) in
  Ok (preview activity [effect] [result]).

Definition buildCashDividend (st : ChangeState) (input : CashDividendInput) : Result ChangePreview :=
  holding ← st_holding st (cd_HoldingID input) (cd_HouseholdID input);
  account ← st_account st (ch_AccountID holding) (cd_HouseholdID input);
  if negb (bool_decide (Mode account = TrackingHoldings))
  then Fail (changeError ErrInvalidChange "holdingId" "cash dividends require a Holdings Account")
  else if m_isZero (cd_Amount input) then Fail (must_be_positive "amount")
  else
  activity ← newActivity st (newID 0) (cd_HouseholdID input) ActivityCashDividend ReasonIncome
               (cd_EffectiveAt input) (cd_Note input);
  let effect := cashEffect (newID 1) (act_ID activity) 1 EffectRoleAmount EffectAdded ClassificationIncome
                  (ca_ID account) (cd_Amount input) in
  result ← st_cash st (ca_ID account) (cd_Amount input) EffectAdded;
  let activity := with_dividend activity
    (Some (mkDividendDetail (ch_ID holding) (ch_InstrumentID holding) (cd_Amount input))) in
  Ok (preview activity [effect] [result]).

(** ** Transfers and conversions *)

Definition fee_ok (fee : option Money) (c : CurrencyCode) (what : string) : Result unit :=
  match fee with
  | None => Ok tt
  | Some f =>
    if m_isZero f then Fail (changeError ErrInvalidChange "fee" "fee must be greater than zero")
    else if negb (bool_decide (currency f = c))
    then Fail (changeError ErrInvalidChange "fee" ("fee currency must match " +:+ what +:+ " currency"))
    else Ok tt
  end.

Definition total_with_fee (sent : Money) (fee : option Money) : Result Money :=
  match fee with None => Ok sent | Some f => m_add sent f end.

Definition buildCashTransfer (st : ChangeState) (input : CashTransferInput) : Result ChangePreview :=
  from ← st_account st (ct_FromAccountID input) (ct_HouseholdID input);
  to ← st_account st (ct_ToAccountID input) (ct_HouseholdID input);
  if Liability from then Fail (changeError ErrInvalidChange "fromAccountId" "cash transfer source must be a non-liability Account; use a debt draw or payment for debt principal")
  else if Liability to then Fail (changeError ErrInvalidChange "toAccountId" "cash transfer destination must be a non-liability Account; use a debt draw or payment for debt principal")
  else if m_isZero (ct_Sent input) || m_isZero (ct_Received input)
  then Fail (changeError ErrTransferMismatch "amount" "sent and received amounts must be greater than zero")
  else if bool_decide (ct_FromAccountID input = ct_ToAccountID input)
  then Fail (changeError ErrTransferMismatch "accountId" "source and destination Accounts must differ")
  else if bool_decide (currency (ct_Sent input) = currency (ct_Received input)) &&
          negb (dEqual (amount (ct_Sent input)) (amount (ct_Received input)))
  then Fail (changeError ErrTransferMismatch "received" "same-currency transfers must conserve their amount")
  else
  _ ← fee_ok (ct_Fee input) (currency (ct_Sent input)) "sent";
  rate ← NewFxRate (dRound (dDiv (amount (ct_Received input)) (amount (ct_Sent input))) 12);
  activity ← newActivity st (newID 0) (ct_HouseholdID input) ActivityCashTransfer ReasonOther
               (ct_EffectiveAt input) (ct_Note input);
  totalSent ← total_with_fee (ct_Sent input) (ct_Fee input);
  fromView ← accountAmount st from totalSent EffectRemoved;
  toView ← accountAmount st to (ct_Received input) EffectAdded;
  let aid := act_ID activity in
  let effects :=
    [accountEffect (newID 1) aid 1 EffectRoleTransferFrom EffectRemoved (accountTarget from)
       ClassificationInternalTransfer (ca_ID from) (ct_Sent input) None;
     accountEffect (newID 2) aid 2 EffectRoleTransferTo EffectAdded (accountTarget to)
       ClassificationInternalTransfer (ca_ID to) (ct_Received input) None] in
  let effects := match ct_Fee input with
    | None => effects
    | Some fee => effects ++ [accountEffect (newID 3) aid 3 EffectRoleFee EffectRemoved (accountTarget from)
                                ClassificationFee (ca_ID from) fee None]
    end in
  Ok (mkPreview (with_effects (with_rate activity rate) effects) effects [fromView; toView] (Some rate) None).

Definition buildFXConversion (st : ChangeState) (input : FXConversionInput) : Result ChangePreview :=
  account ← st_account st (fx_AccountID input) (fx_HouseholdID input);
  if negb (bool_decide (Mode account = TrackingHoldings))
  then Fail (changeError ErrInvalidChange "accountId" "FX conversion requires a multi-currency cash account")
  else if m_isZero (fx_Sold input) || m_isZero (fx_Bought input)
  then Fail (changeError ErrInvalidChange "amount" "sold and bought amounts must be greater than zero")
  else if bool_decide (currency (fx_Sold input) = currency (fx_Bought input))
  then Fail (changeError ErrInvalidChange "currency" "sold and bought currencies must differ")
  else
  _ ← fee_ok (fx_Fee input) (currency (fx_Sold input)) "sold";
  totalSold ← total_with_fee (fx_Sold input) (fx_Fee input);
  fromView ← accountAmount st account totalSold EffectRemoved;
  toView ← accountAmount st account (fx_Bought input) EffectAdded;
  rate ← NewFxRate (dRound (dDiv (amount (fx_Bought input)) (amount (fx_Sold input))) 12);
  activity ← newActivity st (newID 0) (fx_HouseholdID input) ActivityFXConversion ReasonOther
               (fx_EffectiveAt input) (fx_Note input);
  let aid := act_ID activity in
  let effects :=
    [cashEffect (newID 1) aid 1 EffectRoleTransferFrom EffectRemoved ClassificationInternalTransfer
       (ca_ID account) (fx_Sold input);
     cashEffect (newID 2) aid 2 EffectRoleTransferTo EffectAdded ClassificationInternalTransfer
       (ca_ID account) (fx_Bought input)] in
  let effects := match fx_Fee input with
    | None => effects
    | Some fee => effects ++ [cashEffect (newID 3) aid 3 EffectRoleFee EffectRemoved ClassificationFee
                                (ca_ID account) fee]
    end in
  Ok (mkPreview (with_effects (with_rate activity rate) effects) effects [fromView; toView] (Some rate) None).

(** ** Positions *)

Definition insufficient_quantity (message : string) : goerror :=
  domainErr ErrInsufficientQuantity "quantity" message.

Definition buildPositionTransfer (st : ChangeState) (input : PositionTransferInput) : Result ChangePreview :=
  let toEmpty := bool_decide (pt_ToHoldingID input = ""%string) in
  if Bool.eqb toEmpty (is_none (pt_ToAccountID input))
  then Fail (changeError ErrValidation "toAccountId" "provide exactly one of toAccountId or toHoldingId")
  else if bool_decide (pt_FromHoldingID input = pt_ToHoldingID input)
  then Fail (changeError ErrTransferMismatch "toHoldingId" "destination Holding must differ from source")
  else
  from ← st_holding st (pt_FromHoldingID input) (pt_HouseholdID input);
  to ← st_holding st (pt_ToHoldingID input) (pt_HouseholdID input);
  if bool_decide (ch_AccountID from = ch_AccountID to)
  then Fail (changeError ErrTransferMismatch "toHoldingId" "position transfer requires a different destination Account")
  else if match pt_ToAccountID input with
          | Some a => negb (bool_decide (ch_AccountID to = a)) | None => false end
  then Fail (changeError ErrTransferMismatch "toAccountId" "destination Account does not match the Holding")
  else if negb (bool_decide (ch_InstrumentID from = ch_InstrumentID to))
  then Fail (changeError ErrTransferMismatch "instrumentId" "position transfer requires the same Instrument")
  else if q_isZero (pt_Quantity input)
  then Fail (changeError ErrTransferMismatch "quantity" "quantity must be greater than zero")
  else if dLessThan (q_value (ch_Current from)) (q_value (pt_Quantity input))
  then Fail (insufficient_quantity "source Holding does not have enough quantity")
  else
  activity ← newActivity st (newID 0) (pt_HouseholdID input) ActivityPositionTransfer ReasonOther
               (pt_EffectiveAt input) (pt_Note input);
  fromQty ← NewQuantity (dSub (q_value (ch_Current from)) (q_value (pt_Quantity input)));
  toQty ← NewQuantity (dAdd (q_value (ch_Current to)) (q_value (pt_Quantity input)));
  let aid := act_ID activity in
  let effects :=
    [holdingEffect (newID 1) aid 1 EffectRoleTransferFrom EffectRemoved ClassificationInternalTransfer
       from (pt_Quantity input);
     holdingEffect (newID 2) aid 2 EffectRoleTransferTo EffectAdded ClassificationInternalTransfer
       to (pt_Quantity input)] in
  Ok (preview activity effects [quantity_view from fromQty; quantity_view to toQty]).

Definition buildPositionAdjustment (st : ChangeState) (input : PositionAdjustmentInput) : Result ChangePreview :=
  holding ← st_holding st (pa_HoldingID input) (pa_HouseholdID input);
  if q_isZero (pa_Quantity input)
  then Fail (changeError ErrInvalidChange "quantity" "quantity must be greater than zero")
  else if pa_Added input && is_none (pa_UnitCost input) && negb (CostBasisAvailable holding)
  then Fail (domainErr ErrCostBasisRequired "unitCost" "a per-unit cost is required when added quantity has no existing cost")
  else
  let direction := if pa_Added input then EffectAdded else EffectRemoved in
  let current := q_value (ch_Current holding) in
  current ← (if negb (pa_Added input) then
               let current := dSub current (q_value (pa_Quantity input)) in
               if dIsNegative current then Fail (insufficient_quantity "Holding does not have enough quantity")
               else Ok current
             else Ok (dAdd current (q_value (pa_Quantity input))));
  quantity ← NewQuantity current;
  activity ← newActivity st (newID 0) (pa_HouseholdID input) ActivityPositionTransfer ReasonReconciliation
               (pa_EffectiveAt input) (pa_Note input);
  let effect := holdingEffect (newID 1) (act_ID activity) 1 EffectRoleQuantity direction
                  ClassificationRemeasurement holding (pa_Quantity input) in
  let cost := if pa_Added input then pa_UnitCost input else None in
  let effect := match cost with Some _ => with_cost effect cost | None => effect end in
  Ok (mkPreview (with_effects activity [effect]) [effect] [quantity_view holding quantity] None cost).

Definition buildPositionCostAdjustment (st : ChangeState) (input : PositionCostAdjustmentInput) : Result ChangePreview :=
  holding ← st_holding st (pc_HoldingID input) (pc_HouseholdID input);
  if q_isZero (ch_Current holding)
  then Fail (changeError ErrCostBasisRequired "holdingId" "cost correction requires a positive Holding quantity")
  else
  _ ← ParseUnitPrice (p_canonical (pc_UnitCost input));
  activity ← newActivity st (newID 0) (pc_HouseholdID input) ActivityCostAdjustment ReasonReconciliation
               (pc_EffectiveAt input) (pc_Note input);
  let effect := mkEffect (newID 1) (act_ID activity) 1 EffectRoleCost EffectAdded EffectTargetHoldingCost
    ClassificationRemeasurement None (Some (ch_ID holding)) (Some (ch_InstrumentID holding)) None None
    (Some (pc_UnitCost input)) in
  let view := mkView EffectTargetHoldingCost None (Some (ch_ID holding)) (Some (pc_UnitCost input))
    (h_SelectionLabel holding) "" (q_canonical (ch_Current holding)) "" in
  Ok (mkPreview (with_effects activity [effect]) [effect] [view] None (Some (pc_UnitCost input))).

(** ** Trades *)

(** The search over the map of holdings stops at the first match in [order]. *)
Definition find_holding (st : ChangeState) (accountID : AccountID) (instrumentID : InstrumentID)
    : option ChangeHoldingState :=
  List.find (λ h, negb (ch_Archived h) && bool_decide (ch_AccountID h = accountID) &&
                  bool_decide (ch_InstrumentID h = instrumentID))
    (omap (λ k, Holdings st !! k) order).

Definition trade_holding_of (id : HoldingID) (accountID : AccountID) (instrument : Instrument)
    (zero : Quantity) : ChangeHoldingState :=
  mkHoldingState id accountID (i_ID instrument) (i_Name instrument)
    (stringPointerValue (Symbol instrument)) (i_ShortName instrument)
    (stringPointerValue (ISIN instrument)) (stringPointerValue (MarketCode instrument))
    (QuantityUnit instrument) (stringPointerValue (ProviderKey instrument))
    (stringPointerValue (ProviderSymbol instrument)) (i_QuoteCurrency instrument) false zero false.

(** The holding a trade works on: the named one, else any open one of the account
    in the instrument, else for a purchase a new empty one (draw 4). *)
Definition trade_holding (st : ChangeState) (account : ChangeAccountState) (input : TradeInput)
    : Result ChangeHoldingState :=
  match st_holding st (tr_HoldingID input) (tr_HouseholdID input) with
  | Ok holding => Ok holding
  | Fail err =>
    let unnamed := bool_decide (tr_HoldingID input = ""%string) in
    let found := if unnamed && bool_decide (tr_HouseholdID input = st_HouseholdID st)
                 then find_holding st (ca_ID account) (tr_InstrumentID input) else None in
    match found with
    | Some holding => Ok holding
    | None =>
      if negb unnamed || negb (bool_decide (tr_Side input = TradeBuy)) then Fail err
      else match Instruments st !! tr_InstrumentID input with
      | None => Fail (domainErr ErrNotFound "instrumentId" "Instrument was not found")
      | Some instrument =>
        if negb (bool_decide (i_HouseholdID instrument = st_HouseholdID st))
        then Fail (changeError ErrInvalidChange "instrumentId" "Instrument does not belong to the Household")
        else if negb (is_none (i_ArchivedAt instrument))
        then Fail (domainErr ErrConflict "instrumentId" "Instrument is archived")
        else
          zero ← NewQuantity dZero;
          Ok (trade_holding_of (newID 4) (ca_ID account) instrument zero)
      end
    end
  end.

(** [ChangeState.cashAfter] *)
Definition cashAfter (st : ChangeState) (accountID : AccountID) (amt : Money) (direction : EffectDirection)
    (first : Money) (firstDirection : EffectDirection) : Result EndpointView :=
  firstView ← st_cash st accountID first firstDirection;
  match dNewFromString (ev_Amount firstView) with
  | None => Fail (OtherErr ("can't convert " +:+ ev_Amount firstView +:+ " to decimal"))
  | Some current =>
    let current := if bool_decide (direction = EffectAdded) then dAdd current (amount amt)
                   else dSub current (amount amt) in
    if dIsNegative current
    then Fail (domainErr ErrInsufficientBalance "fee" "Account does not have enough cash for the trade and fee")
    else
      updated ← NewMoney current (currency amt);
      Ok (mkView (ev_Target firstView) (ev_AccountID firstView) (ev_HoldingID firstView)
            (ev_CostUnitPrice firstView) (ev_Name firstView) (CanonicalAmount updated)
            (ev_Quantity firstView) (currency updated))
  end.

Definition invalid_trade (field message : string) : goerror := domainErr ErrInvalidTrade field message.

Definition fee_positive (fee : option Money) : option Money :=
  match fee with Some f => if m_isZero f then None else Some f | None => None end.

Definition buildTrade (st : ChangeState) (input : TradeInput) : Result ChangePreview :=
  if negb (bool_decide (tr_Side input = TradeBuy)) && negb (bool_decide (tr_Side input = TradeSell))
  then Fail (invalid_trade "side" "trade side is not supported")
  else
  account ← st_account st (tr_SettlementAccountID input) (tr_HouseholdID input);
  holding ← trade_holding st account input;
  if negb (bool_decide (ch_AccountID holding = ca_ID account)) ||
     negb (bool_decide (ch_InstrumentID holding = tr_InstrumentID input)) ||
     q_isZero (tr_Quantity input) || m_isZero (tr_Gross input)
  then Fail (invalid_trade "trade" "Holding, Instrument, quantity, and gross total must match")
  else if negb (bool_decide (Mode account = TrackingHoldings))
  then Fail (invalid_trade "settlementAccountId" "trades require a Holdings Account")
  else if negb (bool_decide (currency (tr_Gross input) = ch_Currency holding))
  then Fail (invalid_trade "gross" "settlement currency must match the Instrument quote currency")
  else if match tr_Fee input with
          | Some f => negb (bool_decide (currency f = currency (tr_Gross input))) || dIsNegative (amount f)
          | None => false end
  then Fail (invalid_trade "fee" "fee currency must match the settlement currency")
  else
  unitPrice ← UnitPriceFromExact (dDiv (amount (tr_Gross input)) (q_value (tr_Quantity input)));
  let sell := bool_decide (tr_Side input = TradeSell) in
  activity ← newActivity st (newID 0) (tr_HouseholdID input) (if sell then ActivitySell else ActivityBuy)
               ReasonPrincipal (tr_EffectiveAt input) (tr_Note input);
  let quantityDirection := if sell then EffectRemoved else EffectAdded in
  let cashDirection := if sell then EffectAdded else EffectRemoved in
  if sell && dLessThan (q_value (ch_Current holding)) (q_value (tr_Quantity input))
  then Fail (insufficient_quantity "Holding does not have enough quantity")
  else
  let current := q_value (ch_Current holding) in
  let current := if sell then dSub current (q_value (tr_Quantity input))
                 else dAdd current (q_value (tr_Quantity input)) in
  newQuantity ← NewQuantity current;
  cashView ← st_cash st (ca_ID account) (tr_Gross input) cashDirection;
  let aid := act_ID activity in
  let effects :=
    [holdingEffect (newID 1) aid 1 EffectRoleQuantity quantityDirection ClassificationTradePrincipal
       holding (tr_Quantity input);
     cashEffect (newID 2) aid 2 EffectRolePrincipal cashDirection ClassificationTradePrincipal
       (ca_ID account) (tr_Gross input)] in
  '(effects, cashView) ←
    match fee_positive (tr_Fee input) with
    | None => Ok (effects, cashView)
    | Some fee =>
      feeView ← cashAfter st (ca_ID account) fee EffectRemoved (tr_Gross input) cashDirection;
      Ok (effects ++ [cashEffect (newID 3) aid 3 EffectRoleFee EffectRemoved ClassificationFee
                        (ca_ID account) fee], feeView)
    end;
  let detail := mkTradeDetail (tr_Side input) (tr_InstrumentID input) (ch_ID holding) (tr_Quantity input)
                  (tr_Gross input) unitPrice (tr_Fee input) in
  Ok (mkPreview (with_effects (with_trade activity detail) effects) effects
        [cashView; quantity_view holding newQuantity] None (Some unitPrice)).

(** ** Value updates *)

Definition buildValueUpdateWithZero (st : ChangeState) (input : ValueUpdateInput) (allowZero : bool)
    : Result ChangePreview :=
  account ← st_account st (vu_AccountID input) (vu_HouseholdID input);
  if bool_decide (Mode account = TrackingHoldings) ||
     negb (bool_decide (currency (vu_NewValue input) = ca_Currency account))
  then Fail (changeError ErrInvalidChange "newValue" "value update requires a matching non-Holdings Account")
  else
  let reason := if bool_decide (vu_Reason input = ReasonEmpty) then ReasonReconciliation else vu_Reason input in
  if negb (bool_decide (reason = ReasonInterest)) && negb (bool_decide (reason = ReasonReconciliation)) &&
     negb (bool_decide (reason = ReasonOther))
  then Fail (changeError ErrInvalidChange "reason" "reason is not allowed for a value update")
  else
  activity ← newActivity st (newID 0) (vu_HouseholdID input) ActivityValueUpdate reason
               (vu_EffectiveAt input) (vu_Note input);
  let dlt := dSub (amount (vu_NewValue input)) (amount (ca_Current account)) in
  if dIsZero dlt && negb allowZero
  then Fail (domainErr ErrNoChange "" "the new value is unchanged")
  else
  amt ← NewMoney (dAbs dlt) (ca_Currency account);
  let direction := if dIsNegative dlt then EffectRemoved else EffectAdded in
  let effect := accountEffect (newID 1) (act_ID activity) 1 EffectRoleAmount direction (accountTarget account)
                  ClassificationRemeasurement (ca_ID account) amt None in
  result ← applyMoney account amt direction;
  Ok (preview activity [effect] [result]).

Definition buildValueUpdate (st : ChangeState) (input : ValueUpdateInput) : Result ChangePreview :=
  buildValueUpdateWithZero st input false.
Definition PreviewValueUpdateCorrection (st : ChangeState) (input : ValueUpdateInput) : Result ChangePreview :=
  buildValueUpdateWithZero st input true.

(** ** Debts *)

Definition validateDebtEndpoints (st : ChangeState) (householdID : HouseholdID) (debtID cashID : AccountID)
    (principal : Money) : Result (ChangeAccountState * ChangeAccountState) :=
  debt ← st_account st debtID householdID;
  cash ← st_account st cashID householdID;
  if bool_decide (ca_ID debt = ca_ID cash)
  then Fail (changeError ErrInvalidChange "cashAccountId" "debt and cash Accounts must differ")
  else if negb (Liability debt)
  then Fail (changeError ErrInvalidChange "debtAccountId" "debt Account must be a liability")
  else if Liability cash || (negb (bool_decide (Mode cash = TrackingBalance)) &&
                             negb (bool_decide (Mode cash = TrackingHoldings)))
  then Fail (changeError ErrInvalidChange "cashAccountId" "cash Account must be a non-liability Balance or Holdings Account")
  else if negb (bool_decide (ca_Currency cash = currency principal))
  then Fail (changeError ErrTransferMismatch "principal" "principal currency must match the cash Account")
  else if m_isZero principal
  then Fail (changeError ErrInvalidChange "principal" "principal must be greater than zero")
  else Ok (debt, cash).

Definition subtractFromEndpoint (view : EndpointView) (amt : Money) : Result EndpointView :=
  if m_isZero amt || negb (bool_decide (currency amt = ev_Currency view))
  then Fail (changeError ErrInvalidChange "interestOrFee" "interest or fee currency must match principal")
  else match dNewFromString (ev_Amount view) with
  | None => Fail (domainErr ErrIntegrity "" "cash endpoint amount is invalid")
  | Some current =>
    let current := dSub current (amount amt) in
    if dIsNegative current
    then Fail (domainErr ErrInsufficientBalance "interestOrFee" "cash Account does not have enough money for principal and fee")
    else
      updated ← NewMoney current (ev_Currency view);
      Ok (mkView (ev_Target view) (ev_AccountID view) (ev_HoldingID view) (ev_CostUnitPrice view)
            (ev_Name view) (CanonicalAmount updated) (ev_Quantity view) (ev_Currency view))
  end.

Definition buildDebtDraw (st : ChangeState) (input : DebtDrawInput) : Result ChangePreview :=
  '(debt, cash) ← validateDebtEndpoints st (dr_HouseholdID input) (dr_DebtAccountID input)
                    (dr_CashAccountID input) (dr_Principal input);
  activity ← newActivity st (newID 0) (dr_HouseholdID input) ActivityDebtDraw ReasonPrincipal
               (dr_EffectiveAt input) (dr_Note input);
  debtView ← applyMoney debt (dr_Principal input) EffectAdded;
  cashView ← accountAmount st cash (dr_Principal input) EffectAdded;
  let aid := act_ID activity in
  let effects :=
    [accountEffect (newID 1) aid 1 EffectRoleDebt EffectAdded EffectTargetAccountValue
       ClassificationDebtPrincipal (ca_ID debt) (dr_Principal input) None;
     accountEffect (newID 2) aid 2 EffectRolePrincipal EffectAdded (accountTarget cash)
       ClassificationDebtPrincipal (ca_ID cash) (dr_Principal input) None] in
  Ok (preview activity effects [debtView; cashView]).

Definition buildDebtPayment (st : ChangeState) (input : DebtPaymentInput) : Result ChangePreview :=
  '(debt, cash) ← validateDebtEndpoints st (dp_HouseholdID input) (dp_DebtAccountID input)
                    (dp_CashAccountID input) (dp_Principal input);
  activity ← newActivity st (newID 0) (dp_HouseholdID input) ActivityDebtPayment ReasonPrincipal
               (dp_EffectiveAt input) (dp_Note input);
  debtView ← applyMoney debt (dp_Principal input) EffectRemoved;
  cashView ← (if bool_decide (Mode cash = TrackingHoldings)
              then st_cash st (ca_ID cash) (dp_Principal input) EffectRemoved
              else accountAmount st cash (dp_Principal input) EffectRemoved);
  let aid := act_ID activity in
  let effects :=
    [accountEffect (newID 1) aid 1 EffectRoleDebt EffectRemoved EffectTargetAccountValue
       ClassificationDebtPrincipal (ca_ID debt) (dp_Principal input) None;
     accountEffect (newID 2) aid 2 EffectRolePrincipal EffectRemoved (accountTarget cash)
       ClassificationDebtPrincipal (ca_ID cash) (dp_Principal input) None] in
  '(effects, cashView) ←
    match fee_positive (dp_InterestOrFee input) with
    | None => Ok (effects, cashView)
    | Some fee =>
      if negb (bool_decide (currency fee = currency (dp_Principal input)))
      then Fail (changeError ErrInvalidChange "interestOrFee" "interest or fee currency must match principal")
      else
        feeView ← subtractFromEndpoint cashView fee;
        Ok (effects ++ [accountEffect (newID 3) aid 3 EffectRoleFee EffectRemoved (accountTarget cash)
                          ClassificationFee (ca_ID cash) fee None], feeView)
    end;
  Ok (preview activity effects [debtView; cashView]).

(** ** Dispatch *)

Definition PreviewChange (st : ChangeState) (command : Command) : Result ChangePreview :=
  match command with
  | MoneyAdded i => buildMoneyChange st (ma_HouseholdID i) (ma_AccountID i) (ma_Amount i) (ma_Reason i)
                      (ma_EffectiveAt i) (ma_Note i) None true
  | MoneyRemoved i => buildMoneyChange st (mr_HouseholdID i) (mr_AccountID i) (mr_Amount i) (mr_Reason i)
                        (mr_EffectiveAt i) (mr_Note i) (mr_HoldingID i) false
  | CashDividend i => buildCashDividend st i
  | CashTransfer i => buildCashTransfer st i
  | FXConversion i => buildFXConversion st i
  | PositionTransfer i => buildPositionTransfer st i
  | PositionAdjustment i => buildPositionAdjustment st i
  | PositionCostAdjustment i => buildPositionCostAdjustment st i
  | Trade i => buildTrade st i
  | ValueUpdate i => buildValueUpdate st i
  | DebtDraw i => buildDebtDraw st i
  | DebtPayment i => buildDebtPayment st i
  end.
End Builders.
