(* ===== verification/ChangeAgree.v ===== *)
(** * Previews agree with application

    [PreviewChange] computes the resulting endpoint views itself; undo, repair and
    persistence run [ApplyEffects] on the effects it emitted.  The theorems show
    that the two always agree, so that every accepted command is applicable, its
    effects are valid evidence, and what the user is shown is what is stored. *)

From S2P Require Export Change.
From S2P Require Import DecimalModel.
From Stdlib Require Import String Ascii.

#[global] Open Scope Z_scope.

Section Steps.
Context `{HD : DecimalAPI} {HL : DecimalLaws}.

(** ** The effects the builders emit are valid *)

Lemma accountEffect_valid id act seq role d target c aid m :
  id ≠ ""%string → act ≠ ""%string → 1 <= seq → d = EffectAdded ∨ d = EffectRemoved →
  target = EffectTargetAccountValue ∨ target = EffectTargetAccountCash →
  m_isZero m = false ∨ (target = EffectTargetAccountValue ∧ role = EffectRoleAmount ∧
                        c = ClassificationRemeasurement) →
  Validate (accountEffect id act seq role d target c aid m None) = Ok tt.
Proof.
  intros Hid Hact Hseq Hd Ht Hz. unfold Validate, accountEffect. cbn.
  rewrite (proj2 (Z.ltb_ge seq 1)), !(bool_decide_eq_false_2 (_ = ""%string)) by done. cbn [orb].
  assert (negb (bool_decide (d = EffectAdded)) && negb (bool_decide (d = EffectRemoved)) = false) as ->
    by (by destruct Hd as [-> | ->]).
  rewrite bool_decide_eq_false_2 by (by destruct Ht as [-> | ->]). rewrite orb_false_r.
  destruct Hz as [->|(-> & -> & ->)]; [cbn [andb]; by destruct Ht as [-> | ->]|].
  rewrite !bool_decide_eq_true_2 by done. by destruct (m_isZero m).
Qed.

Lemma holdingEffect_valid id act seq role d c h q cost :
  id ≠ ""%string → act ≠ ""%string → 1 <= seq → d = EffectAdded ∨ d = EffectRemoved →
  q_isZero q = false → Validate (with_cost (holdingEffect id act seq role d c h q) cost) = Ok tt.
Proof.
  intros Hid Hact Hseq Hd Hz. unfold Validate, with_cost, holdingEffect. cbn.
  rewrite (proj2 (Z.ltb_ge seq 1)), !(bool_decide_eq_false_2 (_ = ""%string)) by done. cbn [orb].
  assert (negb (bool_decide (d = EffectAdded)) && negb (bool_decide (d = EffectRemoved)) = false) as ->
    by (by destruct Hd as [-> | ->]).
  rewrite Hz. by destruct cost.
Qed.

Lemma newActivity_id `{TZ : TimeZones} st id hh k r t note a :
  newActivity st id hh k r t note = Ok a → act_ID a = id.
Proof.
  unfold newActivity. intros H. inv_ok. destruct (bool_decide (TrimSpace _ = _)); [discriminate|].
  destruct (LoadLocation _); [|discriminate]. inv_ok. by subst.
Qed.

Lemma newActivity_fields `{TZ : TimeZones} st id hh k r t note a :
  newActivity st id hh k r t note = Ok a → Kind a = k ∧ act_HouseholdID a = hh.
Proof.
  unfold newActivity. intros H. inv_ok. destruct (bool_decide (TrimSpace _ = _)); [discriminate|].
  destruct (LoadLocation _); [|discriminate]. inv_ok. by subst.
Qed.

(** The guards read only what no effect touches. *)
Lemma newActivity_frame `{TZ : TimeZones} st st' id hh k r t note :
  same_frame st st' → newActivity st' id hh k r t note = newActivity st id hh k r t note.
Proof. intros (H1 & H2 & H3 & H4 & _). unfold newActivity. by rewrite H1, H2, H3, H4. Qed.

Lemma st_account_ok st id hh a : st_account st id hh = Ok a → Accounts st !! id = Some a.
Proof.
  unfold st_account. intros H. inv_ok. destruct (Accounts st !! id) as [b|]; [|discriminate]. by inv_ok.
Qed.

Lemma st_holding_ok st id hh h : st_holding st id hh = Ok h → Holdings st !! id = Some h.
Proof.
  unfold st_holding. intros H. inv_ok. destruct (Holdings st !! id) as [b|]; [|discriminate]. by inv_ok.
Qed.

(** ** Single steps *)

(** An account effect that the preview could show is applied with that view. *)
Lemma account_step s id act seq role d target c aid a m v :
  state_ok s → Money_ok m → Accounts s !! aid = Some a →
  id ≠ ""%string → act ≠ ""%string → 1 <= seq → d = EffectAdded ∨ d = EffectRemoved →
  target = accountTarget a →
  m_isZero m = false ∨ (target = EffectTargetAccountValue ∧ role = EffectRoleAmount ∧
                        c = ClassificationRemeasurement) →
  accountAmount s a m d = Ok v →
  ∃ s', apply_effect s (accountEffect id act seq role d target c aid m None) = Ok (s', v) ∧
    state_ok s' ∧ same_frame s s' ∧
    ∀ ep, balance s' ep = if bool_decide (ep = account_endpoint a (currency m))
                          then post_units d (balance s (account_endpoint a (currency m))) (munits m)
                          else balance s ep.
Proof.
  intros Hs Hm Ha Hid Hact Hseq Hd Ht Hz Hv.
  set (e := accountEffect _ _ _ _ _ _ _ _ _ _).
  assert (Ev : Validate e = Ok tt).
  { apply accountEffect_valid; try done. rewrite Ht. unfold accountTarget.
    case_bool_decide; [by right|by left]. }
  rewrite (apply_effect_money s e m Ev) by done.
  pose proof (accountAmount_inv s aid a m d v Hs Ha Hm Hv) as Hc.
  destruct (apply_money_spec s e aid a m Hs Hm) as (_ & Hok & Hres); try done.
  rewrite (accountAmount_spec s aid a m d Hs Ha Hm Hc) in Hv. apply amount_spec_ok in Hv as Hv'.
  destruct (apply_money s e m) as [[s' v']|err] eqn:E.
  2:{ exfalso. apply diff_false_true, (proj2 Hok), Hv'. }
  destruct (Hres s' v' eq_refl) as (F1 & F2 & F3 & F4). exists s'.
  change (Direction e) with d in F3. rewrite (accountAmount_spec s aid a m d Hs Ha Hm Hc) in F3. rewrite Hv in F3. injection F3 as <-. done.
Qed.

Lemma holding_step s id act seq role d c h q cost nq :
  state_ok s → qty_ok q → Holdings s !! ch_ID h = Some h →
  id ≠ ""%string → act ≠ ""%string → 1 <= seq → d = EffectAdded ∨ d = EffectRemoved →
  q_isZero q = false →
  NewQuantity (if bool_decide (d = EffectAdded) then dAdd (q_value (ch_Current h)) (q_value q)
               else dSub (q_value (ch_Current h)) (q_value q)) = Ok nq →
  ∃ s', apply_effect s (with_cost (holdingEffect id act seq role d c h q) cost) = Ok (s', quantity_view h nq) ∧
    state_ok s' ∧ same_frame s s' ∧
    ∀ ep, balance s' ep = if bool_decide (ep = EpHolding (ch_ID h))
                          then post_units d (balance s (EpHolding (ch_ID h))) (qunits q)
                          else balance s ep.
Proof.
  intros Hs Hq Hh Hid Hact Hseq Hd Hz Hn. set (e := with_cost _ _).
  assert (Ev : Validate e = Ok tt) by (by apply holdingEffect_valid).
  rewrite (apply_effect_quantity s e Ev) by done.
  destruct (apply_quantity_spec s e (ch_ID h) h q Hs Hq) as (Hok & Hres); try done.
  destruct (holdings_ok s Hs _ h Hh) as (_ & Hce & Hc0 & Hc1). destruct Hq as [Hqe Hq0].
  change (Direction e) with d in *.
  assert (Hr : 0 <= post_units d (balance s (EpHolding (ch_ID h))) (qunits q) <= max_qunits).
  { pose proof Hn as Hn'. apply NewQuantity_ok in Hn' as [-> _].
    apply NewQuantity_exact in Hn; [|case_bool_decide; rewrite ?dAdd_expo, ?dSub_expo; lia].
    cbn [balance]. rewrite Hh. unfold post_units. revert Hn.
    case_bool_decide; [rewrite units_add by lia|rewrite units_sub by lia]; done. }
  destruct (apply_quantity s e) as [[s' v']|err] eqn:E.
  2:{ exfalso. by apply diff_false_true, (proj2 Hok). }
  destruct (Hres s' v' eq_refl) as (F1 & F2 & (nq' & En & ->) & F4). rewrite Hn in En. injection En as <-.
  exists s'. done.
Qed.

(** ** Carrying a preview over to a later state *)

(** The view of an endpoint depends only on its account and its balance. *)
Lemma accountAmount_transport s s1 id a a1 m d v :
  state_ok s → state_ok s1 → same_frame s s1 → Money_ok m →
  Accounts s !! id = Some a → Accounts s1 !! id = Some a1 →
  balance s1 (account_endpoint a (currency m)) = balance s (account_endpoint a (currency m)) →
  accountAmount s a m d = Ok v → accountAmount s1 a1 m d = Ok v.
Proof.
  intros Hs Hs1 Hf Hm Ha Ha1 Hb Hv. pose proof (accountAmount_inv s id a m d v Hs Ha Hm Hv) as Hc.
  destruct (static_lookup_account s s1 id a Hf Ha) as (a1' & Ha1' & Hst).
  rewrite Ha1 in Ha1'. injection Ha1' as <-. unfold static_account in Hst. injection Hst as I1 I2 I3 I4 I5 I6.
  rewrite (accountAmount_spec s id a m d Hs Ha Hm Hc) in Hv.
  rewrite (accountAmount_spec s1 id a1 m d Hs1 Ha1 Hm) by (by rewrite I3, I4). rewrite <-Hv.
  assert (account_endpoint a1 (currency m) = account_endpoint a (currency m)) as ->
    by (unfold account_endpoint; by rewrite I1, I4).
  unfold accountTarget. by rewrite Hb, I2, I4.
Qed.

(** Taking an amount and then a fee from an endpoint shows what taking both at
    once shows. *)
Lemma total_with_fee_ok sent fee total :
  Money_ok sent → (∀ f, fee = Some f → Money_ok f) → total_with_fee sent fee = Ok total →
  Money_ok total ∧ currency total = currency sent ∧
  munits total = munits sent + match fee with Some f => munits f | None => 0 end ∧
  (∀ f, fee = Some f → currency f = currency sent).
Proof.
  intros Hs Hf. unfold total_with_fee. destruct fee as [f|].
  - unfold m_add. case_bool_decide as Hc; cbn [negb]; [|discriminate]. intros H.
    pose proof (NewMoney_ok _ _ _ H) as Hok. specialize (Hf f eq_refl).
    assert (-4 <= dExponent (dAdd (amount sent) (amount f)))
      by (rewrite dAdd_expo; pose proof (proj1 Hs); pose proof (proj1 Hf); lia).
    destruct (NewMoney_exact_inv _ _ _ ltac:(eassumption) H) as (Hu & _ & Hp & _).
    rewrite ParseCurrency_id in Hp by apply Hs. injection Hp as Hp.
    split; [done|]. split; [done|]. split; [|intros g [= <-]; done].
    rewrite Hu. apply units_add; [apply Hs|apply Hf].
  - intros [= <-]. split; [done|]. split; [done|]. split; [lia|done].
Qed.

Lemma amount_spec_sub target id name suffix c bal x y v :
  0 <= x → 0 <= y → bal <= max_units →
  amount_spec target id name suffix c bal (x + y) EffectRemoved = Ok v →
  (∃ w, amount_spec target id name suffix c bal x EffectRemoved = Ok w) ∧
  amount_spec target id name suffix c (bal - x) y EffectRemoved = Ok v.
Proof.
  intros Hx Hy Hb H. apply amount_spec_ok in H as [Hr ->].
  change (post_units EffectRemoved bal (x + y)) with (bal - (x + y)) in *.
  split.
  - eexists. apply amount_spec_ok. change (post_units EffectRemoved bal x) with (bal - x). split; [lia|done].
  - apply amount_spec_ok. change (post_units EffectRemoved (bal - x) y) with (bal - x - y).
    split; [lia|]. by replace (bal - x - y) with (bal - (x + y)) by lia.
Qed.
End Steps.

(** ** Fees on an endpoint that was just changed *)

Section Fees.
Context `{HD : DecimalAPI} {HL : DecimalLaws}.

Lemma money_text_decimal u : 0 <= u <= max_units →
  ∃ d, dNewFromString (money_text u) = Some d ∧ -4 <= dExponent d ∧ units 4 d = u.
Proof.
  intros Hu. destruct (ParseMoney_money_text u "USD" Hu eq_refl) as (m & Hp & Hmu & _ & Hok).
  unfold ParseMoney in Hp. destruct (ParseCurrency "USD"); [|discriminate].
  destruct (negb _); [discriminate|]. destruct (dNewFromString (money_text u)) as [d|]; [|discriminate].
  destruct (_ || _); [discriminate|]. injection Hp as <-. exists d. split; [done|]. split; [apply Hok|exact Hmu].
Qed.

(** The arithmetic that [subtractFromEndpoint] and [cashAfter] do on a view. *)
Lemma subtract_units u fee err c name id target suffix v :
  0 <= u <= max_units → Money_ok fee → currency_ok c = true →
  (∃ d, dNewFromString (money_text u) = Some d ∧
     (let current := dSub d (amount fee) in
      if dIsNegative current then Fail err
      else updated ← NewMoney current c;
           Ok (mkView target (Some id) None None name (CanonicalAmount updated) "" c)) = Ok v) →
  amount_spec target id name suffix c u (munits fee) EffectRemoved = Ok v.
Proof.
  intros Hu Hf Hc (d & Hd & H). destruct (money_text_decimal u Hu) as (d' & Hd' & He & Hdu).
  rewrite Hd in Hd'. injection Hd' as <-.
  pose proof (money_step target id name suffix c d fee EffectRemoved Hc He ltac:(lia) Hf) as Hs.
  rewrite Hdu in Hs. rewrite <-Hs. cbn zeta in *. rewrite bool_decide_eq_false_2 by done.
  destruct (dIsNegative _); [discriminate|]. rewrite <-H.
  destruct (NewMoney (dSub d (amount fee)) c) as [m|] eqn:E; [|done]. rewrite !bind_Ok_l.
  destruct (NewMoney_range _ _ _ E) as (_ & _ & Hp). rewrite ParseCurrency_id in Hp by done.
  by injection Hp as <-.
Qed.

Lemma amount_spec_view target id name suffix c bal mag d v :
  amount_spec target id name suffix c bal mag d = Ok v →
  ev_Target v = target ∧ ev_AccountID v = Some id ∧ ev_HoldingID v = None ∧ ev_Currency v = c.
Proof. intros H. by apply amount_spec_ok in H as [_ ->]. Qed.

(** The endpoint of an account's view. *)
Lemma accountAmount_view s id a m d v :
  state_ok s → Accounts s !! id = Some a → Money_ok m → accountAmount s a m d = Ok v →
  ev_Target v = accountTarget a ∧ ev_AccountID v = Some id ∧ ev_HoldingID v = None ∧
  ev_Currency v = currency m.
Proof.
  intros Hs Ha Hm H. pose proof (accountAmount_inv s id a m d v Hs Ha Hm H) as Hc.
  rewrite (accountAmount_spec s id a m d Hs Ha Hm Hc) in H. by apply amount_spec_view in H.
Qed.

Lemma accountAmount_split s id a total x y v :
  state_ok s → Accounts s !! id = Some a → Money_ok total → Money_ok x → Money_ok y →
  currency x = currency total → munits total = munits x + munits y →
  accountAmount s a total EffectRemoved = Ok v → ∃ w, accountAmount s a x EffectRemoved = Ok w.
Proof.
  intros Hs Ha Ht Hx Hy Hcx Hu H. pose proof (accountAmount_inv s id a total _ v Hs Ha Ht H) as Hc.
  rewrite (accountAmount_spec s id a total _ Hs Ha Ht Hc), Hu in H.
  rewrite (accountAmount_spec s id a x _ Hs Ha Hx) by (by rewrite Hcx). rewrite Hcx.
  apply amount_spec_sub in H as [H _]; [exact H|apply Hx|apply Hy|].
  unfold account_endpoint. case_bool_decide; cbn [balance]; [by apply cash_current_ok|].
  destruct (accounts_ok s Hs id a Ha) as (-> & Hm & _). rewrite Ha. by apply Money_ok_units.
Qed.

(** The rest of a total, on a later state that has already lost the first part. *)
Lemma accountAmount_rest s s1 id a a1 total x y v :
  state_ok s → state_ok s1 → same_frame s s1 → Accounts s !! id = Some a → Accounts s1 !! id = Some a1 →
  Money_ok total → Money_ok x → Money_ok y → currency y = currency total → munits total = munits x + munits y →
  balance s1 (account_endpoint a (currency total)) = balance s (account_endpoint a (currency total)) - munits x →
  accountAmount s a total EffectRemoved = Ok v → accountAmount s1 a1 y EffectRemoved = Ok v.
Proof.
  intros Hs Hs1 Hf Ha Ha1 Ht Hx Hy Hcy Hu Hb H. pose proof (accountAmount_inv s id a total _ v Hs Ha Ht H) as Hc.
  destruct (static_lookup_account s s1 id a Hf Ha) as (a1' & Ha1' & Hst).
  rewrite Ha1 in Ha1'. injection Ha1' as <-. unfold static_account in Hst. injection Hst as I1 I2 I3 I4 I5 I6.
  rewrite (accountAmount_spec s id a total _ Hs Ha Ht Hc), Hu in H.
  rewrite (accountAmount_spec s1 id a1 y _ Hs1 Ha1 Hy) by (by rewrite Hcy, I3, I4). rewrite Hcy.
  assert (account_endpoint a1 (currency total) = account_endpoint a (currency total)) as ->
    by (unfold account_endpoint; by rewrite I1, I4).
  rewrite Hb. unfold accountTarget. rewrite I2, I4.
  apply amount_spec_sub in H as [_ H]; [exact H|apply Hx|apply Hy|].
  clear -Hs Ha HL. unfold account_endpoint. case_bool_decide; cbn [balance]; [by apply cash_current_ok|].
  destruct (accounts_ok s Hs id a Ha) as (-> & Hm & _). rewrite Ha. by apply Money_ok_units.
Qed.

(** ** A transfer between two endpoints, with an optional fee on the source *)

Definition agrees (st : ChangeState) (effects : list ActivityEffect) (views : list EndpointView) : Prop :=
  ∃ st' applied, ApplyEffects st effects = Ok (st', applied) ∧ applied ≡ₚ views.

Lemma same_endpoint_account v w : ev_AccountID v = ev_AccountID w → is_Some (ev_AccountID v) →
  ev_Target v = ev_Target w → ev_Currency v = ev_Currency w → same_endpoint v w = true.
Proof.
  intros Ha [x Hx] Ht Hc. unfold same_endpoint. rewrite Ht, Hc, <-Ha, Hx.
  by rewrite !bool_decide_eq_true_2 by done.
Qed.

Lemma same_endpoint_differ v w : ev_HoldingID v = None →
  (ev_Target v ≠ ev_Target w ∨ ev_AccountID v ≠ ev_AccountID w ∨ ev_Currency v ≠ ev_Currency w) →
  same_endpoint v w = false.
Proof.
  intros Hh Hd. unfold same_endpoint. rewrite Hh, orb_false_r. apply andb_false_iff.
  destruct Hd as [Hd|Hd]; [left; by apply bool_decide_eq_false_2|right].
  destruct (ev_AccountID v) as [x|], (ev_AccountID w) as [y|]; try done.
  apply andb_false_iff. destruct Hd as [Hd|Hd]; [left|right]; apply bool_decide_eq_false_2; congruence.
Qed.

Lemma endpoint_of_views s id1 id2 a1 a2 m1 m2 d1 d2 v1 v2 :
  state_ok s → Accounts s !! id1 = Some a1 → Accounts s !! id2 = Some a2 → Money_ok m1 → Money_ok m2 →
  account_endpoint a1 (currency m1) ≠ account_endpoint a2 (currency m2) →
  accountAmount s a1 m1 d1 = Ok v1 → accountAmount s a2 m2 d2 = Ok v2 → same_endpoint v1 v2 = false.
Proof.
  intros Hs Ha1 Ha2 Hm1 Hm2 Hne H1 H2.
  destruct (accountAmount_view _ _ _ _ _ _ Hs Ha1 Hm1 H1) as (T1 & A1 & B1 & C1).
  destruct (accountAmount_view _ _ _ _ _ _ Hs Ha2 Hm2 H2) as (T2 & A2 & B2 & C2).
  apply same_endpoint_differ; [done|]. rewrite T1, T2, A1, A2, C1, C2.
  destruct (accounts_ok s Hs _ _ Ha1) as (I1 & _). destruct (accounts_ok s Hs _ _ Ha2) as (I2 & _).
  unfold account_endpoint, accountTarget in *. rewrite I1, I2 in Hne.
  destruct (decide (id1 = id2)) as [<-|Hid]; [|right; left; congruence].
  rewrite Ha1 in Ha2. injection Ha2 as ->. right. right. intros Hcc. apply Hne. by rewrite Hcc.
Qed.
End Fees.

Section Agree.
Context `{HD : DecimalAPI} {HL : DecimalLaws} `{TZ : TimeZones}.
Context (newID : nat → string) (order : list HoldingID) (newID_ne : ∀ k, newID k ≠ ""%string).

Lemma m_isZero_units m : -4 <= dExponent (amount m) → m_isZero m = true ↔ munits m = 0.
Proof.
  intros He. unfold m_isZero, munits. rewrite dIsZero_val.
  assert (-4 <= dExponent dZero) by (rewrite dZero_expo; lia).
  assert ((dval (amount m) == 0)%Q ↔ (dval (amount m) == dval dZero)%Q) as -> by by rewrite dval_dzero.
  by rewrite (units_eq 4), units_dZero by lia.
Qed.

(** The views an upsert sequence leaves for two endpoints, the first touched twice. *)
Lemma upsert_two v1 v2 : same_endpoint v1 v2 = false →
  upsertEndpointView (upsertEndpointView [] v1) v2 = [v1; v2].
Proof. intros H. cbn. by rewrite H. Qed.

Lemma transfer_agrees s id1 id2 a1 a2 sent received fee total v1 v2 act seq1 seq2 seq3 e1 e2 c1 c2 r1 r2 :
  state_ok s → Accounts s !! id1 = Some a1 → Accounts s !! id2 = Some a2 →
  Money_ok sent → Money_ok received → (∀ f, fee = Some f → Money_ok f ∧ m_isZero f = false) →
  m_isZero sent = false → m_isZero received = false → act ≠ ""%string →
  1 <= seq1 → 1 <= seq2 → 1 <= seq3 →
  account_endpoint a1 (currency sent) ≠ account_endpoint a2 (currency received) →
  total_with_fee sent fee = Ok total →
  accountAmount s a1 total EffectRemoved = Ok v1 → accountAmount s a2 received EffectAdded = Ok v2 →
  e1 = accountEffect (newID 1) act seq1 r1 EffectRemoved (accountTarget a1) c1 id1 sent None →
  e2 = accountEffect (newID 2) act seq2 r2 EffectAdded (accountTarget a2) c2 id2 received None →
  agrees s (match fee with
            | None => [e1; e2]
            | Some f => [e1; e2] ++ [accountEffect (newID 3) act seq3 EffectRoleFee EffectRemoved
                                       (accountTarget a1) ClassificationFee id1 f None]
            end) [v1; v2].
Proof.
  intros Hs Ha1 Ha2 Hsent Hrecv Hfee Hz1 Hz2 Hact Hq1 Hq2 Hq3 Hep Htot Hv1 Hv2 -> ->.
  destruct (total_with_fee_ok sent fee total Hsent (λ f Hf, proj1 (Hfee f Hf)) Htot) as (Htok & Htc & Htu & Hfc).
  (* first leg *)
  assert (∃ w, accountAmount s a1 sent EffectRemoved = Ok w ∧ (fee = None → w = v1)) as (w & Hw & Hwv).
  { destruct fee as [f|]; [|injection Htot as <-; by exists v1].
    destruct (accountAmount_split s id1 a1 total sent f v1) as [w Hw]; try done; try apply Hfee; try done.
    by exists w. }
  destruct (account_step s (newID 1) act seq1 r1 EffectRemoved (accountTarget a1) c1 id1 a1 sent w)
    as (s1 & E1 & Hs1 & Hf1 & Hb1); try done; try (by right); try (by left).
  (* second leg *)
  destruct (static_lookup_account s s1 id2 a2 Hf1 Ha2) as (a2' & Ha2' & Hst2).
  assert (Hv2' : accountAmount s1 a2' received EffectAdded = Ok v2).
  { apply (accountAmount_transport s s1 id2 a2); try done. rewrite Hb1, bool_decide_eq_false_2; congruence. }
  assert (Ht2 : accountTarget a2' = accountTarget a2).
  { unfold static_account in Hst2. injection Hst2 as _ _ _ I4 _ _. unfold accountTarget. by rewrite I4. }
  destruct (account_step s1 (newID 2) act seq2 r2 EffectAdded (accountTarget a2) c2 id2 a2' received v2)
    as (s2 & E2 & Hs2 & Hf2 & Hb2); try done; try (by left).
  assert (Hdiff : same_endpoint w v2 = false).
  { by apply (endpoint_of_views s id1 id2 a1 a2 sent received EffectRemoved EffectAdded). }
  unfold agrees, ApplyEffects. destruct fee as [f|].
  2:{ specialize (Hwv eq_refl) as ->. exists s2, [v1; v2]. split; [|done].
      cbn [apply_loop]. rewrite E1, bind_Ok_l, E2, bind_Ok_l. by rewrite upsert_two. }
  (* fee *)
  destruct (Hfee f eq_refl) as [Hfok Hfz]. specialize (Hfc f eq_refl).
  assert (Hf02 : same_frame s s2) by (by transitivity s1).
  destruct (static_lookup_account s s2 id1 a1 Hf02 Ha1) as (a1' & Ha1' & Hst1).
  pose proof Hst1 as Hst1'. unfold static_account in Hst1'. injection Hst1' as I1 _ _ I4 _ _.
  pose proof Hst2 as Hst2'. unfold static_account in Hst2'. injection Hst2' as J1 _ _ J4 _ _.
  assert (Hv1' : accountAmount s2 a1' f EffectRemoved = Ok v1).
  { apply (accountAmount_rest s s2 id1 a1 a1' total sent f); try done; [congruence|].
    rewrite Htc, Hb2, bool_decide_eq_false_2, Hb1, bool_decide_eq_true_2; [done|done|].
    unfold account_endpoint at 2. rewrite J1, J4. done. }
  destruct (account_step s2 (newID 3) act seq3 EffectRoleFee EffectRemoved (accountTarget a1) ClassificationFee
              id1 a1' f v1) as (s3 & E3 & Hs3 & _ & _); try done; try (by right); try (by left).
  { unfold accountTarget. by rewrite I4. }
  exists s3, [v1; v2]. split; [|done]. cbn [app apply_loop].
  rewrite E1, bind_Ok_l, E2, bind_Ok_l, E3, bind_Ok_l, upsert_two by done. cbn [upsertEndpointView].
  assert (same_endpoint w v1 = true) as ->; [|done].
  destruct (accountAmount_view _ _ _ _ _ _ Hs Ha1 Hsent Hw) as (T1 & A1 & B1 & C1).
  destruct (accountAmount_view _ _ _ _ _ _ Hs Ha1 Htok Hv1) as (T2 & A2 & B2 & C2).
  apply same_endpoint_account; [congruence|by rewrite A1|congruence|congruence].
Qed.

(** Two account effects, then an optional fee on the second endpoint. *)
Lemma fee_after_account s id a a0 m f suffix w v act seq :
  state_ok s → Accounts s !! id = Some a → static_account a0 = static_account a →
  Money_ok f → m_isZero f = false → currency f = currency m →
  (Mode a = TrackingHoldings ∨ currency m = ca_Currency a) → act ≠ ""%string → 1 <= seq →
  ev_Target w = accountTarget a → ev_AccountID w = Some id → ev_Currency w = currency m →
  suffix = (if bool_decide (Mode a = TrackingHoldings) then cash_suffix else balance_suffix) →
  amount_spec (accountTarget a) id (ca_Name a) suffix (currency m)
    (balance s (account_endpoint a (currency m))) (munits f) EffectRemoved = Ok v →
  ∃ s', apply_effect s (accountEffect (newID 3) act seq EffectRoleFee EffectRemoved (accountTarget a0)
          ClassificationFee id f None) = Ok (s', v) ∧ same_endpoint w v = true.
Proof.
  intros Hs Ha Hst Hf Hz Hcf Hc Hact Hseq Hw1 Hw2 Hw3 -> Hv.
  destruct (amount_spec_view _ _ _ _ _ _ _ _ _ Hv) as (V1 & V2 & _ & V4).
  assert (Hv' : accountAmount s a f EffectRemoved = Ok v).
  { rewrite (accountAmount_spec s id a f _ Hs Ha Hf) by (by rewrite Hcf). by rewrite Hcf. }
  assert (Ht : accountTarget a0 = accountTarget a).
  { unfold static_account in Hst. injection Hst as _ _ _ I4 _ _. unfold accountTarget. by rewrite I4. }
  destruct (account_step s (newID 3) act seq EffectRoleFee EffectRemoved (accountTarget a0) ClassificationFee
              id a f v) as (s' & E & _); try done; try (by right); try (by left).
  exists s'. split; [done|]. apply same_endpoint_account; [congruence|by rewrite Hw2|congruence|congruence].
Qed.

Lemma pair_agrees s id1 id2 a1 a2 m1 m2 d1 d2 v1 v2 act c1 c2 r1 r2 fee v3 :
  state_ok s → Accounts s !! id1 = Some a1 → Accounts s !! id2 = Some a2 →
  Money_ok m1 → Money_ok m2 → m_isZero m1 = false → m_isZero m2 = false → act ≠ ""%string →
  d1 = EffectAdded ∨ d1 = EffectRemoved → d2 = EffectAdded ∨ d2 = EffectRemoved →
  account_endpoint a1 (currency m1) ≠ account_endpoint a2 (currency m2) →
  accountAmount s a1 m1 d1 = Ok v1 → accountAmount s a2 m2 d2 = Ok v2 →
  match fee with
  | None => v3 = v2
  | Some f => Money_ok f ∧ m_isZero f = false ∧ currency f = currency m2 ∧
      amount_spec (accountTarget a2) id2 (ca_Name a2)
        (if bool_decide (Mode a2 = TrackingHoldings) then cash_suffix else balance_suffix) (currency m2)
        (post_units d2 (balance s (account_endpoint a2 (currency m2))) (munits m2)) (munits f)
        EffectRemoved = Ok v3
  end →
  agrees s ([accountEffect (newID 1) act 1 r1 d1 (accountTarget a1) c1 id1 m1 None;
             accountEffect (newID 2) act 2 r2 d2 (accountTarget a2) c2 id2 m2 None] ++
            match fee with
            | None => []
            | Some f => [accountEffect (newID 3) act 3 EffectRoleFee EffectRemoved (accountTarget a2)
                           ClassificationFee id2 f None]
            end) [v1; v3].
Proof.
  intros Hs Ha1 Ha2 Hm1 Hm2 Hz1 Hz2 Hact Hd1 Hd2 Hep Hv1 Hv2 Hfee.
  destruct (account_step s (newID 1) act 1 r1 d1 (accountTarget a1) c1 id1 a1 m1 v1)
    as (s1 & E1 & Hs1 & Hf1 & Hb1); try done; try (by left).
  destruct (static_lookup_account s s1 id2 a2 Hf1 Ha2) as (a2' & Ha2' & Hst2).
  assert (Hv2' : accountAmount s1 a2' m2 d2 = Ok v2).
  { apply (accountAmount_transport s s1 id2 a2); try done. rewrite Hb1, bool_decide_eq_false_2; congruence. }
  pose proof Hst2 as Hst2'. unfold static_account in Hst2'. injection Hst2' as J1 J2 J3 J4 _ _.
  assert (Ht2 : accountTarget a2' = accountTarget a2) by (unfold accountTarget; by rewrite J4).
  assert (He2 : account_endpoint a2' (currency m2) = account_endpoint a2 (currency m2))
    by (unfold account_endpoint; by rewrite J1, J4).
  destruct (account_step s1 (newID 2) act 2 r2 d2 (accountTarget a2) c2 id2 a2' m2 v2)
    as (s2 & E2 & Hs2 & Hf2 & Hb2); try done; try (by left).
  assert (Hdiff : same_endpoint v1 v2 = false)
    by (by apply (endpoint_of_views s id1 id2 a1 a2 m1 m2 d1 d2)).
  unfold agrees, ApplyEffects. destruct fee as [f|].
  2:{ subst v3. exists s2, [v1; v2]. split; [|done]. cbn [app apply_loop].
      rewrite E1, bind_Ok_l, E2, bind_Ok_l. by rewrite upsert_two. }
  destruct Hfee as (Hfok & Hfz & Hfc & Hv3).
  destruct (static_lookup_account s1 s2 id2 a2' Hf2 Ha2') as (a2b & Ha2b & Hst3).
  destruct (accountAmount_view _ _ _ _ _ _ Hs Ha2 Hm2 Hv2) as (T2 & A2 & _ & C2).
  pose proof Hst3 as Hst3'. unfold static_account in Hst3'. injection Hst3' as K1 K2 K3 K4 _ _.
  destruct (fee_after_account s2 id2 a2b a2 m2 f
    (if bool_decide (Mode a2b = TrackingHoldings) then cash_suffix else balance_suffix) v2 v3 act 3)
    as (s3 & E3 & Hsame); try done.
  - by rewrite Hst3.
  - rewrite K3, K4, J3, J4. by apply (accountAmount_inv s id2 a2 m2 d2 v2).
  - unfold accountTarget in *. by rewrite K4, J4.
  - assert (account_endpoint a2b (currency m2) = account_endpoint a2' (currency m2)) as ->
      by (unfold account_endpoint; by rewrite K1, K4).
    rewrite Hb2, (bool_decide_eq_true_2 (account_endpoint a2' _ = _)) by done.
    rewrite He2, Hb1, (bool_decide_eq_false_2 (account_endpoint a2 _ = _)) by congruence.
    unfold accountTarget. rewrite K4, K2, J4, J2. exact Hv3.
  - exists s3, [v1; v3]. split; [|done]. cbn [app apply_loop].
    rewrite E1, bind_Ok_l, E2, bind_Ok_l, E3, bind_Ok_l, upsert_two by done. cbn [upsertEndpointView].
    rewrite Hsame. destruct (accountAmount_view _ _ _ _ _ _ Hs Ha1 Hm1 Hv1) as (T1 & A1 & B1 & C1).
    destruct (amount_spec_view _ _ _ _ _ _ _ _ _ Hv3) as (V1 & V2 & V3 & V4).
    assert (same_endpoint v1 v3 = false) as ->; [|done].
    rewrite <-Hdiff. unfold same_endpoint.
    destruct (accountAmount_view _ _ _ _ _ _ Hs Ha2 Hm2 Hv2) as (_ & _ & B2 & _).
    by rewrite V1, V2, V3, V4, T2, A2, B2, C2.
Qed.

(** One account effect. *)
Lemma single_agrees s id a m d act r c v :
  state_ok s → Accounts s !! id = Some a → Money_ok m → act ≠ ""%string →
  d = EffectAdded ∨ d = EffectRemoved → accountAmount s a m d = Ok v →
  m_isZero m = false ∨ (accountTarget a = EffectTargetAccountValue ∧ r = EffectRoleAmount ∧
                        c = ClassificationRemeasurement) →
  agrees s [accountEffect (newID 1) act 1 r d (accountTarget a) c id m None] [v].
Proof.
  intros Hs Ha Hm Hact Hd Hv Hz.
  destruct (account_step s (newID 1) act 1 r d (accountTarget a) c id a m v) as (s1 & E1 & _); try done.
  exists s1, [v]. split; [|done]. unfold ApplyEffects. cbn [apply_loop]. by rewrite E1.
Qed.
End Agree.

(** ** Every builder agrees *)

Section Builders.
Context `{HD : DecimalAPI} {HL : DecimalLaws} `{TZ : TimeZones}.
Context (newID : nat → string) (order : list HoldingID) (newID_ne : ∀ k, newID k ≠ ""%string).

Definition opt_money_ok (m : option Money) : Prop := ∀ x, m = Some x → Money_ok x.

(** Amounts and quantities as the boundary parsers build them. *)
Definition command_ok (c : Command) : Prop :=
  match c with
  | MoneyAdded i => Money_ok (ma_Amount i)
  | MoneyRemoved i => Money_ok (mr_Amount i)
  | CashDividend i => Money_ok (cd_Amount i)
  | CashTransfer i => Money_ok (ct_Sent i) ∧ Money_ok (ct_Received i) ∧ opt_money_ok (ct_Fee i)
  | FXConversion i => Money_ok (fx_Sold i) ∧ Money_ok (fx_Bought i) ∧ opt_money_ok (fx_Fee i)
  | PositionTransfer i => qty_ok (pt_Quantity i)
  | PositionAdjustment i => qty_ok (pa_Quantity i)
  | PositionCostAdjustment i => True
  | Trade i => qty_ok (tr_Quantity i) ∧ Money_ok (tr_Gross i) ∧ opt_money_ok (tr_Fee i)
  | ValueUpdate i => Money_ok (vu_NewValue i)
  | DebtDraw i => Money_ok (dr_Principal i)
  | DebtPayment i => Money_ok (dp_Principal i) ∧ opt_money_ok (dp_InterestOrFee i)
  end.

(** Liabilities are Balance accounts, as the table of legal combinations says. *)
Definition liabilities_balance (st : ChangeState) : Prop :=
  ∀ id a, Accounts st !! id = Some a → Liability a = true → Mode a = TrackingBalance.

(** The state the effects apply to: a first purchase needs its new, empty holding. *)
Definition ready (st : ChangeState) (c : Command) : ChangeState :=
  match c with
  | Trade i =>
    match Accounts st !! tr_SettlementAccountID i with
    | Some a => match trade_holding newID order st a i with
                | Ok h => set_holding st (ch_ID h) h
                | Fail _ => st
                end
    | None => st
    end
  | _ => st
  end.

Ltac account_facts :=
  repeat match goal with
  | H : st_account ?st ?id _ = Ok ?a, Hs : state_ok ?st |- _ =>
      let Ha := fresh "Ha" in let Hi := fresh "Hi" in
      apply st_account_ok in H as Ha; clear H;
      pose proof (accounts_ok st Hs id a Ha) as (Hi & _ & _)
  | H : st_holding ?st ?id _ = Ok ?a, Hs : state_ok ?st |- _ =>
      let Ha := fresh "Ha" in let Hi := fresh "Hi" in
      apply st_holding_ok in H as Ha; clear H;
      pose proof (holdings_ok st Hs id a Ha) as (Hi & _)
  | H : newActivity _ (newID 0) _ _ _ _ _ = Ok ?a |- _ =>
      let Ha := fresh "Hact" in pose proof (newActivity_id _ _ _ _ _ _ _ _ H) as Ha; clear H
  end.

Lemma buildMoneyChange_agrees st hh aid m r t note hid added p :
  state_ok st → Money_ok m → buildMoneyChange newID st hh aid m r t note hid added = Ok p →
  agrees st (pv_Effects p) (pv_Resulting p).
Proof.
  intros Hs Hm H. unfold buildMoneyChange in H. inv_ok. prop_bool. cbn [preview pv_Effects pv_Resulting].
  match goal with H : match hid with _ => _ end = Ok _ |- _ => clear H end.
  account_facts. rewrite Hact, Hi. apply single_agrees; try done; [by destruct added; [left|right]|by left].
Qed.

Lemma buildCashDividend_agrees st i p :
  state_ok st → Money_ok (cd_Amount i) → buildCashDividend newID st i = Ok p →
  agrees st (pv_Effects p) (pv_Resulting p).
Proof.
  intros Hs Hm H. unfold buildCashDividend in H. inv_ok. prop_bool. cbn [preview pv_Effects pv_Resulting].
  account_facts. rewrite Hact.
  match goal with Ha : Accounts st !! _ = Some ?a, Hmode : Mode ?a = TrackingHoldings |- _ =>
    assert (EffectTargetAccountCash = accountTarget a) as Ht by (unfold accountTarget; by rewrite Hmode);
    unfold cashEffect; rewrite Ht;
    match goal with Hi : ca_ID a = _ |- _ => rewrite Hi in * end;
    apply (single_agrees newID newID_ne st _ a); try done; [by left| |by left];
    unfold accountAmount; rewrite bool_decide_eq_true_2 by done end.
  by match goal with Hi : ca_ID _ = _ |- _ => rewrite Hi end.
Qed.

Lemma fee_ok_spec fee c what u : fee_ok fee c what = Ok u →
  ∀ f, fee = Some f → m_isZero f = false ∧ currency f = c.
Proof.
  unfold fee_ok. intros H f ->. destruct (m_isZero f); [discriminate|].
  by case_bool_decide.
Qed.

Lemma fee_with_ok fee c what u : fee_ok fee c what = Ok u → opt_money_ok fee →
  ∀ f, fee = Some f → Money_ok f ∧ m_isZero f = false.
Proof. intros H Ho f Hf. split; [by apply Ho|]. by apply (fee_ok_spec _ _ _ _ H). Qed.

Lemma buildCashTransfer_agrees st i p :
  state_ok st → command_ok (CashTransfer i) → buildCashTransfer newID st i = Ok p →
  agrees st (pv_Effects p) (pv_Resulting p).
Proof.
  intros Hs (Hm1 & Hm2 & Hmf) H. unfold buildCashTransfer in H. inv_ok. prop_bool.
  cbn [pv_Effects pv_Resulting]. account_facts. rewrite Hact.
  match goal with H : fee_ok _ _ _ = Ok _ |- _ => pose proof (fee_with_ok _ _ _ _ H Hmf) as Hfee; clear H end.
  match goal with Ha : Accounts st !! ct_FromAccountID i = Some ?a, Hb : Accounts st !! ct_ToAccountID i = Some ?b,
      Hi : ca_ID ?a = _, Hj : ca_ID ?b = _ |- _ =>
    rewrite Hi, Hj;
    eapply (transfer_agrees newID newID_ne st (ct_FromAccountID i) (ct_ToAccountID i) a b
             (ct_Sent i) (ct_Received i) (ct_Fee i) _ _ _ _ 1 2 3 _ _ _ _ _ _ Hs Ha Hb); try done;
    unfold account_endpoint; rewrite Hi, Hj end.
  repeat case_bool_decide; congruence.
Qed.

Lemma buildFXConversion_agrees st i p :
  state_ok st → command_ok (FXConversion i) → buildFXConversion newID st i = Ok p →
  agrees st (pv_Effects p) (pv_Resulting p).
Proof.
  intros Hs (Hm1 & Hm2 & Hmf) H. unfold buildFXConversion in H. inv_ok. prop_bool.
  cbn [pv_Effects pv_Resulting]. account_facts. rewrite Hact.
  match goal with H : fee_ok _ _ _ = Ok _ |- _ => pose proof (fee_with_ok _ _ _ _ H Hmf) as Hfee; clear H end.
  match goal with Ha : Accounts st !! fx_AccountID i = Some ?a, Hi : ca_ID ?a = _,
      Hmode : Mode ?a = TrackingHoldings |- _ =>
    assert (EffectTargetAccountCash = accountTarget a) as Ht by (unfold accountTarget; by rewrite Hmode);
    unfold cashEffect; rewrite Hi, Ht;
    eapply (transfer_agrees newID newID_ne st (fx_AccountID i) (fx_AccountID i) a a
             (fx_Sold i) (fx_Bought i) (fx_Fee i) _ _ _ _ 1 2 3 _ _ _ _ _ _ Hs Ha Ha); try done;
    unfold account_endpoint; rewrite Hmode, bool_decide_eq_true_2 by done end.
  congruence.
Qed.

Lemma holding_step_other s e s' v k hid : apply_quantity s e = Ok (s', v) → ef_HoldingID e = Some hid →
  state_ok s → k ≠ hid → Holdings s' !! k = Holdings s !! k.
Proof.
  intros H Hh Hs Hk. unfold apply_quantity in H. rewrite Hh in H. destruct (ef_Quantity e) as [q|]; [|discriminate].
  destruct (Holdings s !! hid) as [h|] eqn:Eh; [|discriminate].
  destruct (holdings_ok s Hs hid h Eh) as (Hid & _).
  destruct (if bool_decide _ then _ else _) as [cur|]; [|discriminate]. rewrite bind_Ok_l in H.
  destruct (NewQuantity cur) as [u|]; [|discriminate]. injection H as <- _. cbn.
  by rewrite Hid, lookup_insert_ne.
Qed.

Lemma buildPositionTransfer_agrees st i p :
  state_ok st → qty_ok (pt_Quantity i) → buildPositionTransfer newID st i = Ok p →
  agrees st (pv_Effects p) (pv_Resulting p).
Proof.
  intros Hs Hq H. unfold buildPositionTransfer in H. inv_ok. prop_bool.
  cbn [preview pv_Effects pv_Resulting]. account_facts. rewrite Hact.
  match goal with Ha : Holdings st !! pt_FromHoldingID i = Some ?h1, Hb : Holdings st !! pt_ToHoldingID i = Some ?h2,
      H1 : NewQuantity (dSub _ _) = Ok ?n1, H2 : NewQuantity (dAdd _ _) = Ok ?n2,
      Hi1 : ch_ID ?h1 = _, Hi2 : ch_ID ?h2 = _ |- _ =>
    rename h1 into from; rename h2 into to; rename n1 into q1; rename n2 into q2;
    rename Hi1 into If; rename Hi2 into It; rename Ha into Hfrom; rename Hb into Hto;
    rename H1 into N1; rename H2 into N2 end.
  set (e1 := holdingEffect (newID 1) _ 1 _ _ _ _ _). set (e2 := holdingEffect (newID 2) _ 2 _ _ _ _ _).
  destruct (holding_step st (newID 1) (newID 0) 1 EffectRoleTransferFrom EffectRemoved
    ClassificationInternalTransfer from (pt_Quantity i) None q1) as (s1 & E1 & Hs1 & Hf1 & Hb1);
    try done; [by rewrite If|by right|].
  change (with_cost (holdingEffect _ _ _ _ _ _ _ _) None) with e1 in E1.
  assert (Hto1 : Holdings s1 !! ch_ID to = Some to).
  { rewrite It, <-Hto. apply (holding_step_other st e1 s1 (quantity_view from q1) _ (pt_FromHoldingID i)); [| |done|congruence].
    - rewrite <-(apply_effect_quantity st e1); [done| |done].
      by apply (holdingEffect_valid _ _ _ _ _ _ _ _ None); try done; right.
    - unfold e1. cbn. by rewrite If. }
  destruct (holding_step s1 (newID 2) (newID 0) 2 EffectRoleTransferTo EffectAdded
    ClassificationInternalTransfer to (pt_Quantity i) None q2) as (s2 & E2 & _); try done; [by left|].
  change (with_cost (holdingEffect _ _ _ _ _ _ _ _) None) with e2 in E2.
  exists s2, [quantity_view from q1; quantity_view to q2]. split; [|done].
  unfold ApplyEffects. cbn [apply_loop]. rewrite E1, bind_Ok_l, E2, bind_Ok_l.
  rewrite upsert_two; [done|]. unfold same_endpoint, quantity_view. cbn.
  rewrite (bool_decide_eq_false_2 (ch_ID from = ch_ID to)) by congruence. apply andb_false_r.
Qed.

Lemma buildPositionAdjustment_agrees st i p :
  state_ok st → qty_ok (pa_Quantity i) → buildPositionAdjustment newID st i = Ok p →
  agrees st (pv_Effects p) (pv_Resulting p).
Proof.
  intros Hs Hq H. unfold buildPositionAdjustment in H. inv_ok. prop_bool.
  cbn [pv_Effects pv_Resulting]. account_facts. rewrite Hact.
  match goal with H : NewQuantity _ = Ok ?n |- _ => rename H into Hn; rename n into nq end.
  match goal with Hh : Holdings st !! _ = Some ?x |- _ => rename x into h; rename Hh into Hlook end.
  set (d := if pa_Added i then EffectAdded else EffectRemoved).
  set (cost := if pa_Added i then pa_UnitCost i else None).
  assert (Heff : match cost with
                 | Some _ => with_cost (holdingEffect (newID 1) (newID 0) 1 EffectRoleQuantity d
                     ClassificationRemeasurement h (pa_Quantity i)) cost
                 | None => holdingEffect (newID 1) (newID 0) 1 EffectRoleQuantity d
                     ClassificationRemeasurement h (pa_Quantity i)
                 end = with_cost (holdingEffect (newID 1) (newID 0) 1 EffectRoleQuantity d
                     ClassificationRemeasurement h (pa_Quantity i)) cost) by (by destruct cost).
  rewrite Heff.
  destruct (holding_step st (newID 1) (newID 0) 1 EffectRoleQuantity d ClassificationRemeasurement h
              (pa_Quantity i) cost nq) as (s1 & E1 & _); try done.
  - by match goal with Hi : ch_ID h = _ |- _ => rewrite Hi end.
  - unfold d. by destruct (pa_Added i); [left|right].
  - unfold d. destruct (pa_Added i); cbn [negb] in *.
    + rewrite bool_decide_eq_true_2 by done. by inv_ok.
    + rewrite bool_decide_eq_false_2 by done. by inv_ok.
  - exists s1, [quantity_view h nq]. split; [|done]. unfold ApplyEffects. cbn [apply_loop]. by rewrite E1.
Qed.

Lemma buildPositionCostAdjustment_agrees st i p :
  state_ok st → buildPositionCostAdjustment newID st i = Ok p → agrees st (pv_Effects p) (pv_Resulting p).
Proof.
  intros Hs H. unfold buildPositionCostAdjustment in H. inv_ok. prop_bool.
  cbn [pv_Effects pv_Resulting]. account_facts. rewrite Hact.
  match goal with Hh : Holdings st !! _ = Some ?x |- _ => rename x into h; rename Hh into Hlook end.
  set (e := mkEffect _ _ _ _ _ _ _ _ _ _ _ _ _).
  assert (Ev : Validate e = Ok tt).
  { unfold Validate, e. cbn. by rewrite !(bool_decide_eq_false_2 (_ = ""%string)) by done. }
  eexists st, _. split; [|reflexivity]. unfold ApplyEffects. cbn [apply_loop].
  unfold apply_effect. rewrite Ev, bind_Ok_l, bool_decide_eq_true_2 by done.
  unfold apply_cost, e. cbn [ef_HoldingID ef_InstrumentID].
  match goal with Hi : ch_ID h = _ |- _ => rewrite Hi, Hlook end.
  rewrite (bool_decide_eq_true_2 (ch_InstrumentID h = _)) by done. cbn [negb orb].
  match goal with Hz : q_isZero (ch_Current h) = false |- _ => rewrite Hz end.
  by match goal with Hi : ch_ID h = _ |- _ => rewrite Hi end.
Qed.

(** The sub-unit exponent of a difference of amounts. *)
Lemma delta_units a b : Money_ok a → Money_ok b →
  -4 <= dExponent (dSub (amount a) (amount b)) ∧
  units 4 (dSub (amount a) (amount b)) = munits a - munits b.
Proof.
  intros (Ha & _) (Hb & _). split; [rewrite dSub_expo; lia|]. by apply units_sub.
Qed.

Lemma buildValueUpdateWithZero_agrees st i allowZero p :
  state_ok st → Money_ok (vu_NewValue i) → buildValueUpdateWithZero newID st i allowZero = Ok p →
  agrees st (pv_Effects p) (pv_Resulting p).
Proof.
  intros Hs Hm H. unfold buildValueUpdateWithZero in H. inv_ok. prop_bool.
  cbn [preview pv_Effects pv_Resulting]. account_facts. rewrite Hact.
  match goal with Ha : Accounts st !! _ = Some ?a, Hv : applyMoney ?a ?m ?d = Ok ?v, Hn : NewMoney _ _ = Ok ?m,
      Hmode : Mode ?a ≠ TrackingHoldings, Hi : ca_ID ?a = _ |- _ =>
    assert (accountAmount st a m d = Ok v) as Hv' by (unfold accountAmount; by rewrite bool_decide_eq_false_2);
    rewrite Hi; apply (single_agrees newID newID_ne st _ a); try done; [by eapply NewMoney_ok| |];
    [destruct (dIsNegative _); [by right|by left]|] end.
  right. split; [|done]. unfold accountTarget. by rewrite bool_decide_eq_false_2.
Qed.

Lemma validateDebtEndpoints_ok st hh d c m debt cash :
  state_ok st → liabilities_balance st → validateDebtEndpoints st hh d c m = Ok (debt, cash) →
  Accounts st !! d = Some debt ∧ Accounts st !! c = Some cash ∧ ca_ID debt = d ∧ ca_ID cash = c ∧ d ≠ c ∧
  accountTarget debt = EffectTargetAccountValue ∧ m_isZero m = false ∧
  (∀ x dir, accountAmount st debt x dir = applyMoney debt x dir) ∧
  ∀ k k', account_endpoint debt k ≠ account_endpoint cash k'.
Proof.
  intros Hs Hl H. unfold validateDebtEndpoints in H. inv_ok. prop_bool. account_facts.
  subst debt cash.
  match goal with Ha : Accounts st !! d = Some ?x |- _ =>
    assert (Mode x = TrackingBalance) as Hmode by (by apply (Hl d)) end.
  split; [done|]. split; [done|]. split; [done|]. split; [done|]. split; [congruence|].
  unfold accountTarget, accountAmount, account_endpoint. rewrite Hmode.
  split; [done|]. split; [done|]. split; [done|]. intros k k'.
  repeat case_bool_decide; congruence.
Qed.

Lemma buildDebtDraw_agrees st i p :
  state_ok st → liabilities_balance st → Money_ok (dr_Principal i) → buildDebtDraw newID st i = Ok p →
  agrees st (pv_Effects p) (pv_Resulting p).
Proof.
  intros Hs Hl Hm H. unfold buildDebtDraw in H. apply bind_Ok in H as ([debt cash] & Hval & H).
  destruct (validateDebtEndpoints_ok _ _ _ _ _ _ _ Hs Hl Hval) as (Ha & Hb & Hi & Hj & Hne & Ht & Hz & Hd & Hep).
  inv_ok. cbn [preview pv_Effects pv_Resulting]. account_facts. rewrite Hact, Hi, Hj, <-Ht.
  eapply (pair_agrees newID newID_ne st _ _ debt cash (dr_Principal i) (dr_Principal i) EffectAdded EffectAdded
    _ _ _ _ _ _ _ None _ Hs Ha Hb); try done; [by left..|by rewrite Hd].
Qed.

Lemma fee_positive_spec fee f : fee_positive fee = Some f → fee = Some f ∧ m_isZero f = false.
Proof. unfold fee_positive. destruct fee as [g|]; [|done]. destruct (m_isZero g) eqn:E; [done|]. by intros [= ->]. Qed.

Lemma subtractFromEndpoint_spec target id name suffix c u fee v :
  0 <= u <= max_units → Money_ok fee → currency_ok c = true →
  subtractFromEndpoint (mkView target (Some id) None None name (money_text u) "" c) fee = Ok v →
  currency fee = c ∧ amount_spec target id name suffix c u (munits fee) EffectRemoved = Ok v.
Proof.
  intros Hu Hf Hc H. unfold subtractFromEndpoint in H. cbn [ev_Amount ev_Currency] in H. inv_ok. prop_bool.
  split; [done|]. destruct (dNewFromString (money_text u)) as [d|] eqn:Ed; [|discriminate].
  eapply (subtract_units u fee _ c name id target suffix v Hu Hf Hc). exists d. split; [done|exact H].
Qed.

Lemma buildDebtPayment_agrees st i p :
  state_ok st → liabilities_balance st → command_ok (DebtPayment i) → buildDebtPayment newID st i = Ok p →
  agrees st (pv_Effects p) (pv_Resulting p).
Proof.
  intros Hs Hl [Hm Hmf] H. unfold buildDebtPayment in H. apply bind_Ok in H as ([debt cash] & Hval & H).
  destruct (validateDebtEndpoints_ok _ _ _ _ _ _ _ Hs Hl Hval) as (Ha & Hb & Hi & Hj & Hne & Ht & Hz & Hd & Hep).
  apply bind_Ok in H as (act & Hact & H). apply newActivity_id in Hact.
  apply bind_Ok in H as (dv & Hdv & H). apply bind_Ok in H as (cv & Hcv & H).
  assert (accountAmount st cash (dp_Principal i) EffectRemoved = Ok cv) as Hcv'.
  { rewrite <-Hcv. unfold accountAmount. by case_bool_decide. }
  clear Hcv. apply bind_Ok in H as ([effs cv'] & Hfee & H). injection H as <-.
  cbn [preview pv_Effects pv_Resulting]. rewrite <-Hd in Hdv. rewrite Hact, Hi, Hj, <-Ht in Hfee.
  pose proof (accountAmount_inv st _ cash _ _ _ Hs Hb Hm Hcv') as Hc.
  pose proof Hcv' as Hspec. rewrite (accountAmount_spec st _ cash _ _ Hs Hb Hm Hc) in Hspec.
  apply amount_spec_ok in Hspec as [Hr Hview].
  destruct (fee_positive (dp_InterestOrFee i)) as [f|] eqn:Ef.
  - apply fee_positive_spec in Ef as [Ef Hfz]. specialize (Hmf f Ef). revert Hfee.
    case_bool_decide as Hfc; [|discriminate]. cbn [negb]. intros Hfee. apply bind_Ok in Hfee as (fv & Hsub & Hfee).
    injection Hfee as <- <-. rewrite Hview in Hsub.
    destruct (subtractFromEndpoint_spec _ _ _
      (if bool_decide (Mode cash = TrackingHoldings) then cash_suffix else balance_suffix) _ _ _ _ Hr Hmf
      ltac:(apply Hm) Hsub) as [_ Hv].
    eapply (pair_agrees newID newID_ne st _ _ debt cash (dp_Principal i) (dp_Principal i) EffectRemoved
      EffectRemoved dv cv _ _ _ _ _ (Some f) fv Hs Ha Hb); try done; by right.
  - injection Hfee as <- <-.
    eapply (pair_agrees newID newID_ne st _ _ debt cash (dp_Principal i) (dp_Principal i) EffectRemoved
      EffectRemoved dv cv _ _ _ _ _ None cv Hs Ha Hb); try done; by right.
Qed.

(** ** Trades *)

Lemma trade_holding_ok st a i h : state_ok st → trade_holding newID order st a i = Ok h →
  qty_ok (ch_Current h) ∧ state_ok (set_holding st (ch_ID h) h).
Proof.
  intros Hs H. assert (qty_ok (ch_Current h)) as Hq.
  { unfold trade_holding in H. destruct (st_holding st _ _) as [g|e] eqn:E.
    - injection H as <-. apply st_holding_ok in E. by destruct (holdings_ok st Hs _ _ E).
    - destruct (if _ && _ then _ else _) as [g|] eqn:Ef.
      + injection H as <-. destruct (_ && _); [|discriminate].
        apply List.find_some in Ef as [Hin _]. apply list_elem_of_In, list_elem_of_omap in Hin as (k & _ & Hk).
        by destruct (holdings_ok st Hs _ _ Hk).
      + destruct (_ || _); [discriminate|]. destruct (Instruments st !! _) as [ins|]; [|discriminate].
        inv_ok. match goal with H : NewQuantity _ = Ok _ |- _ => apply NewQuantity_ok in H as [-> _] end.
        cbn. unfold qty_ok, qunits. cbn. rewrite dZero_expo, units_dZero by lia. unfold max_qunits. lia. }
  split; [done|]. split; [apply Hs|apply Hs|]. intros k g. cbn. destruct (decide (ch_ID h = k)) as [<-|Hne].
  - rewrite lookup_insert_eq. by intros [= <-].
  - rewrite lookup_insert_ne by done. apply Hs.
Qed.

Lemma cashAfter_spec st id a fee first d v :
  state_ok st → Accounts st !! id = Some a → Money_ok fee → Money_ok first → currency fee = currency first →
  cashAfter st id fee EffectRemoved first d = Ok v →
  ∃ w, st_cash st id first d = Ok w ∧
    amount_spec EffectTargetAccountCash id (ca_Name a) cash_suffix (currency first)
      (post_units d (balance st (EpCash id (currency first))) (munits first)) (munits fee) EffectRemoved = Ok v.
Proof.
  intros Hs Ha Hf Hm Hc H. unfold cashAfter in H. apply bind_Ok in H as (w & Hw & H). exists w. split; [done|].
  rewrite (st_cash_spec st id a first d Hs Ha Hm) in Hw. apply amount_spec_ok in Hw as [Hr ->].
  cbn [ev_Amount ev_Target ev_AccountID ev_HoldingID ev_CostUnitPrice ev_Name ev_Quantity] in H.
  destruct (dNewFromString _) as [cur|] eqn:Ed; [|discriminate].
  rewrite bool_decide_eq_false_2 in H by done.
  eapply (subtract_units _ fee (OtherErr "") (currency first) (ca_Name a) id EffectTargetAccountCash cash_suffix v Hr Hf);
    [apply Hm|]. exists cur. split; [done|]. cbn zeta.
  destruct (dIsNegative _); [discriminate|]. rewrite <-H, Hc.
  destruct (NewMoney _ (currency first)) as [m|] eqn:E; [|done]. rewrite !bind_Ok_l.
  destruct (NewMoney_range _ _ _ E) as (_ & _ & Hp). rewrite ParseCurrency_id in Hp by apply Hm.
  by injection Hp as <-.
Qed.

(** A quantity step, a cash step and an optional fee on the same cash. *)
Lemma trade_agrees s id a h q nq gross dq dc fee v1 v2 act :
  state_ok s → Accounts s !! id = Some a → Mode a = TrackingHoldings → Holdings s !! ch_ID h = Some h →
  qty_ok q → q_isZero q = false → Money_ok gross → m_isZero gross = false → act ≠ ""%string →
  dq = EffectAdded ∨ dq = EffectRemoved → dc = EffectAdded ∨ dc = EffectRemoved →
  NewQuantity (if bool_decide (dq = EffectAdded) then dAdd (q_value (ch_Current h)) (q_value q)
               else dSub (q_value (ch_Current h)) (q_value q)) = Ok nq →
  st_cash s id gross dc = Ok v1 →
  match fee with
  | None => v2 = v1
  | Some f => Money_ok f ∧ m_isZero f = false ∧ currency f = currency gross ∧
      amount_spec EffectTargetAccountCash id (ca_Name a) cash_suffix (currency gross)
        (post_units dc (balance s (EpCash id (currency gross))) (munits gross)) (munits f) EffectRemoved = Ok v2
  end →
  agrees s ([holdingEffect (newID 1) act 1 EffectRoleQuantity dq ClassificationTradePrincipal h q;
             cashEffect (newID 2) act 2 EffectRolePrincipal dc ClassificationTradePrincipal id gross] ++
            match fee with
            | None => []
            | Some f => [cashEffect (newID 3) act 3 EffectRoleFee EffectRemoved ClassificationFee id f]
            end) [v2; quantity_view h nq].
Proof.
  intros Hs Ha Hmode Hh Hq Hqz Hg Hgz Hact Hdq Hdc Hn Hv Hfee.
  pose proof (accounts_ok s Hs id a Ha) as (Hid & _ & _).
  assert (Ht : accountTarget a = EffectTargetAccountCash) by (unfold accountTarget; by rewrite Hmode).
  assert (He : ∀ c, account_endpoint a c = EpCash id c)
    by (intros c; unfold account_endpoint; by rewrite Hmode, Hid).
  assert (Hva : accountAmount s a gross dc = Ok v1)
    by (unfold accountAmount; by rewrite Hmode, Hid).
  destruct (holding_step s (newID 1) act 1 EffectRoleQuantity dq ClassificationTradePrincipal h q None nq)
    as (s1 & E1 & Hs1 & Hf1 & Hb1); try done.
  change (with_cost (holdingEffect ?x1 ?x2 ?x3 ?x4 ?x5 ?x6 ?x7 ?x8) None) with (holdingEffect x1 x2 x3 x4 x5 x6 x7 x8) in E1.
  destruct (static_lookup_account s s1 id a Hf1 Ha) as (a1 & Ha1 & Hst).
  pose proof Hst as Hst'. unfold static_account in Hst'. injection Hst' as J1 J2 J3 J4 _ _.
  assert (Hv1 : accountAmount s1 a1 gross dc = Ok v1).
  { apply (accountAmount_transport s s1 id a); try done. by rewrite Hb1, He, bool_decide_eq_false_2. }
  assert (Ht1 : accountTarget a1 = EffectTargetAccountCash) by (unfold accountTarget; by rewrite J4, Hmode).
  assert (He1 : ∀ c, account_endpoint a1 c = EpCash id c)
    by (intros c; unfold account_endpoint; by rewrite J4, Hmode, J1, Hid).
  destruct (account_step s1 (newID 2) act 2 EffectRolePrincipal dc EffectTargetAccountCash
    ClassificationTradePrincipal id a1 gross v1) as (s2 & E2 & Hs2 & Hf2 & Hb2); try done; [by left|].
  destruct (accountAmount_view _ _ _ _ _ _ Hs Ha Hg Hva) as (T1 & A1 & B1 & C1).
  assert (Hqv : ∀ w, ev_HoldingID w = None → same_endpoint (quantity_view h nq) w = false).
  { intros w Hw. unfold same_endpoint, quantity_view. cbn. rewrite Hw. apply andb_false_r. }
  unfold agrees, ApplyEffects, cashEffect. destruct fee as [f|].
  2:{ subst v2. exists s2, [quantity_view h nq; v1]. split; [|apply Permutation_swap]. cbn [app apply_loop].
      rewrite E1, bind_Ok_l. change (mkEffect (newID 2) _ _ _ _ _ _ _ _ _ _ _ _) with
        (accountEffect (newID 2) act 2 EffectRolePrincipal dc EffectTargetAccountCash
           ClassificationTradePrincipal id gross None). rewrite E2, bind_Ok_l. by rewrite upsert_two by by apply Hqv. }
  destruct Hfee as (Hfok & Hfz & Hfc & Hv2).
  destruct (static_lookup_account s1 s2 id a1 Hf2 Ha1) as (a2 & Ha2 & Hst2).
  pose proof Hst2 as Hst2'. unfold static_account in Hst2'. injection Hst2' as K1 K2 K3 K4 _ _.
  destruct (fee_after_account newID newID_ne s2 id a2 a1 gross f cash_suffix v1 v2 act 3) as (s3 & E3 & Hsame); try done.
  - left. by rewrite K4, J4.
  - unfold accountTarget. by rewrite K4, J4, Hmode, T1, Ht.
  - by rewrite K4, J4, Hmode.
  - unfold accountTarget, account_endpoint. rewrite K1, K2, K4, J1, J2, J4, Hmode, Hid.
    rewrite !(bool_decide_eq_true_2 (TrackingHoldings = TrackingHoldings)) by done.
    rewrite Hb2, He1, (bool_decide_eq_true_2 (EpCash _ _ = _)), Hb1 by done.
    by rewrite (bool_decide_eq_false_2 (EpCash _ _ = _)) by done.
  - exists s3, [quantity_view h nq; v2]. split; [|apply Permutation_swap]. cbn [app apply_loop].
    rewrite E1, bind_Ok_l. change (mkEffect (newID 2) _ _ _ _ _ _ _ _ _ _ _ _) with
        (accountEffect (newID 2) act 2 EffectRolePrincipal dc EffectTargetAccountCash
           ClassificationTradePrincipal id gross None). rewrite E2, bind_Ok_l.
    change (mkEffect (newID 3) _ _ _ _ _ _ _ _ _ _ _ _) with
        (accountEffect (newID 3) act 3 EffectRoleFee EffectRemoved EffectTargetAccountCash
           ClassificationFee id f None). rewrite <-Ht1, E3, bind_Ok_l.
    rewrite upsert_two by by apply Hqv. cbn [upsertEndpointView]. rewrite Hsame.
    destruct (amount_spec_view _ _ _ _ _ _ _ _ _ Hv2) as (_ & _ & V3 & _). by rewrite Hqv.
Qed.

Lemma buildTrade_agrees st i p :
  state_ok st → command_ok (Trade i) → buildTrade newID order st i = Ok p →
  agrees (ready st (Trade i)) (pv_Effects p) (pv_Resulting p).
Proof.
  intros Hs (Hq & Hg & Hmf) H. unfold buildTrade in H.
  destruct (negb _ && negb _) eqn:Cs in H; [discriminate|].
  apply bind_Ok in H as (a & Ha & H). apply st_account_ok in Ha.
  apply bind_Ok in H as (h & Hh & H). cbn [ready]. rewrite Ha, Hh.
  destruct (trade_holding_ok st a i h Hs Hh) as [Hhq Hs']. set (s := set_holding st (ch_ID h) h) in *.
  pose proof (accounts_ok st Hs _ a Ha) as (Hid & _ & _).
  destruct (_ || _ || _ || _) eqn:C1 in H; [discriminate|]. destruct (negb (bool_decide (Mode _ = _))) eqn:C2 in H; [discriminate|].
  destruct (negb (bool_decide (currency _ = _))) eqn:C3 in H; [discriminate|].
  match type of H with (if ?b then Fail _ else _) = _ => destruct b eqn:C4; [discriminate|] end.
  apply bind_Ok in H as (up & _ & H). set (sell := bool_decide (tr_Side i = TradeSell)) in *.
  cbn zeta in H. apply bind_Ok in H as (act & Hact & H). apply newActivity_id in Hact.
  destruct (sell && _) eqn:C5 in H; [discriminate|]. apply bind_Ok in H as (nq & Hnq & H).
  apply bind_Ok in H as (cv & Hcv & H). apply bind_Ok in H as ([effs cv'] & Hfee & H). injection H as <-.
  cbn [pv_Effects pv_Resulting]. prop_bool.
  set (dq := if sell then EffectRemoved else EffectAdded) in *. set (dc := if sell then EffectAdded else EffectRemoved) in *.
  assert (Hdq : dq = EffectAdded ∨ dq = EffectRemoved) by (unfold dq; destruct sell; [by right|by left]).
  assert (Hdc : dc = EffectAdded ∨ dc = EffectRemoved) by (unfold dc; destruct sell; [by left|by right]).
  assert (Hnq' : NewQuantity (if bool_decide (dq = EffectAdded) then dAdd (q_value (ch_Current h)) (q_value (tr_Quantity i))
               else dSub (q_value (ch_Current h)) (q_value (tr_Quantity i))) = Ok nq).
  { rewrite <-Hnq. unfold dq. by destruct sell. }
  rewrite Hid, Hact in *. assert (Hlook : Holdings s !! ch_ID h = Some h) by apply lookup_insert_eq.
  assert (Hact0 : newID 0 ≠ ""%string) by done.
  destruct (fee_positive (tr_Fee i)) as [f|] eqn:Ef.
  - apply fee_positive_spec in Ef as [Ef Hfz]. specialize (Hmf f Ef). rewrite Ef in C4. prop_bool.
    apply bind_Ok in Hfee as (fv & Hfv & Hfee). injection Hfee as <- <-.
    destruct (cashAfter_spec st _ a f (tr_Gross i) dc fv Hs Ha Hmf Hg ltac:(done) Hfv) as (w & _ & Hv2).
    by apply (trade_agrees s _ a h (tr_Quantity i) nq (tr_Gross i) dq dc (Some f) cv fv (newID 0) Hs' Ha).
  - injection Hfee as <- <-.
    by apply (trade_agrees s _ a h (tr_Quantity i) nq (tr_Gross i) dq dc None cv cv (newID 0) Hs' Ha).
Qed.
End Builders.
