(* ===== verification/ChangeSpec.v ===== *)
(** * The ledger specification of a change, and its implementation

    [legs] is the abstract specification: the signed amounts a command moves, per
    endpoint, in units of the last decimal place.  The refinement theorem says that
    every command [PreviewChange] accepts is applicable, keeps the state well
    formed and moves exactly its legs; the others draw its consequences
    (conservation, absolute value updates, guards on time, trade prices). *)

From S2P Require Export ChangeAgree.
From S2P Require Import DecimalModel.
From Stdlib Require Import String Ascii.

#[global] Open Scope Z_scope.

Section Spec.
Context `{HD : DecimalAPI}.

Abbreviation Leg := (prod Endpoint Z).

(** What a list of legs does to one endpoint. *)
Definition legs_total (l : list Leg) (ep : Endpoint) : Z :=
  sumZ (λ '(e, z), if bool_decide (e = ep) then z else 0) l.

Definition leg_of (e : ActivityEffect) : option Leg :=
  match endpoint_of e with
  | Some ep => Some (ep, post_units (Direction e) 0 (magnitude e))
  | None => None
  end.

(** Where the money of an account lives. *)
Definition money_endpoint (st : ChangeState) (id : AccountID) (c : CurrencyCode) : Endpoint :=
  match Accounts st !! id with Some a => account_endpoint a c | None => EpValue id end.

Definition fee_leg (ep : Endpoint) (fee : option Money) : list Leg :=
  match fee with Some f => [(ep, - munits f)] | None => [] end.

Definition legs (newID : nat → string) (order : list HoldingID) (st : ChangeState) (c : Command) : list Leg :=
  match c with
  | MoneyAdded i => [(money_endpoint st (ma_AccountID i) (currency (ma_Amount i)), munits (ma_Amount i))]
  | MoneyRemoved i => [(money_endpoint st (mr_AccountID i) (currency (mr_Amount i)), - munits (mr_Amount i))]
  | CashDividend i =>
    match Holdings st !! cd_HoldingID i with
    | Some h => [(EpCash (ch_AccountID h) (currency (cd_Amount i)), munits (cd_Amount i))]
    | None => []
    end
  | CashTransfer i =>
    let from := money_endpoint st (ct_FromAccountID i) (currency (ct_Sent i)) in
    [(from, - munits (ct_Sent i));
     (money_endpoint st (ct_ToAccountID i) (currency (ct_Received i)), munits (ct_Received i))] ++
    fee_leg from (ct_Fee i)
  | FXConversion i =>
    let from := EpCash (fx_AccountID i) (currency (fx_Sold i)) in
    [(from, - munits (fx_Sold i));
     (EpCash (fx_AccountID i) (currency (fx_Bought i)), munits (fx_Bought i))] ++ fee_leg from (fx_Fee i)
  | PositionTransfer i =>
    [(EpHolding (pt_FromHoldingID i), - qunits (pt_Quantity i));
     (EpHolding (pt_ToHoldingID i), qunits (pt_Quantity i))]
  | PositionAdjustment i =>
    [(EpHolding (pa_HoldingID i), if pa_Added i then qunits (pa_Quantity i) else - qunits (pa_Quantity i))]
  | PositionCostAdjustment i => []
  | Trade i =>
    match Accounts st !! tr_SettlementAccountID i with
    | Some a =>
      match trade_holding newID order st a i with
      | Ok h =>
        let cash := EpCash (tr_SettlementAccountID i) (currency (tr_Gross i)) in
        let sell := bool_decide (tr_Side i = TradeSell) in
        [(EpHolding (ch_ID h), if sell then - qunits (tr_Quantity i) else qunits (tr_Quantity i));
         (cash, if sell then munits (tr_Gross i) else - munits (tr_Gross i))] ++
        fee_leg cash (fee_positive (tr_Fee i))
      | Fail _ => []
      end
    | None => []
    end
  | ValueUpdate i =>
    [(EpValue (vu_AccountID i), munits (vu_NewValue i) - balance st (EpValue (vu_AccountID i)))]
  | DebtDraw i =>
    [(EpValue (dr_DebtAccountID i), munits (dr_Principal i));
     (money_endpoint st (dr_CashAccountID i) (currency (dr_Principal i)), munits (dr_Principal i))]
  | DebtPayment i =>
    let cash := money_endpoint st (dp_CashAccountID i) (currency (dp_Principal i)) in
    [(EpValue (dp_DebtAccountID i), - munits (dp_Principal i)); (cash, - munits (dp_Principal i))] ++
    fee_leg (money_endpoint st (dp_CashAccountID i)
               (match fee_positive (dp_InterestOrFee i) with Some f => currency f | None => "" end))
      (fee_positive (dp_InterestOrFee i))
  end.
End Spec.

Section SpecFacts.
Context `{HD : DecimalAPI} {HL : DecimalLaws} `{TZ : TimeZones}.
Context (newID : nat → string) (order : list HoldingID).

Lemma legs_of_effects effects ep :
  sumZ (λ e, delta e ep) effects = legs_total (omap leg_of effects) ep.
Proof.
  induction effects as [|e l IH]; [done|]. rewrite sumZ_cons, IH. unfold delta. cbn [omap list_omap].
  unfold leg_of at 2. destruct (endpoint_of e) as [ep'|].
  - unfold legs_total. rewrite sumZ_cons. f_equal.
    destruct (decide (ep' = ep)) as [->|Hne]; [by rewrite !bool_decide_eq_true_2|].
    by rewrite !bool_decide_eq_false_2 by congruence.
  - by rewrite bool_decide_eq_false_2.
Qed.

(** The leg of an account effect. *)
Lemma leg_account st id act seq role d aid a c m :
  Accounts st !! aid = Some a → ca_ID a = aid →
  leg_of (accountEffect id act seq role d (accountTarget a) c aid m None)
  = Some (money_endpoint st aid (currency m), post_units d 0 (munits m)).
Proof.
  intros Ha Hid. unfold leg_of, endpoint_of, money_endpoint, accountTarget, account_endpoint. rewrite Ha, Hid.
  by case_bool_decide.
Qed.

Ltac open_builder H :=
  inv_ok; prop_bool; cbn [preview pv_Effects];
  repeat match goal with
  | H : st_account ?st ?id _ = Ok ?a, Hs : state_ok ?st |- _ =>
      let Ha := fresh "Ha" in let Hi := fresh "Hi" in
      apply st_account_ok in H as Ha; clear H;
      pose proof (accounts_ok st Hs id a Ha) as (Hi & _ & _)
  | H : st_holding ?st ?id _ = Ok ?a, Hs : state_ok ?st |- _ =>
      let Ha := fresh "Ha" in let Hi := fresh "Hi" in
      apply st_holding_ok in H as Ha; clear H;
      pose proof (holdings_ok st Hs id a Ha) as (Hi & _)
  end.

Ltac rewrite_ids := repeat match goal with
  | H : ca_ID ?a = _ |- context [ca_ID ?a] => rewrite H
  | H : ch_ID ?a = _ |- context [ch_ID ?a] => rewrite H end.

Lemma omap_cons' {A B} (f : A → option B) x l : omap f (x :: l) =
  match f x with Some y => y :: omap f l | None => omap f l end.
Proof. reflexivity. Qed.

Lemma leg_cash id act seq role d c aid m :
  leg_of (cashEffect id act seq role d c aid m) = Some (EpCash aid (currency m), post_units d 0 (munits m)).
Proof. reflexivity. Qed.

Lemma leg_holding id act seq role d c h q :
  leg_of (holdingEffect id act seq role d c h q) = Some (EpHolding (ch_ID h), post_units d 0 (qunits q)).
Proof. reflexivity. Qed.

Lemma buildMoneyChange_legs st hh aid m r t note hid added p :
  state_ok st → buildMoneyChange newID st hh aid m r t note hid added = Ok p →
  omap leg_of (pv_Effects p) =
  [(money_endpoint st aid (currency m), if added then munits m else - munits m)].
Proof.
  intros Hs H. unfold buildMoneyChange in H.
  open_builder H. rewrite_ids. rewrite omap_cons', (leg_account st) by done. by destruct added.
Qed.

Lemma buildCashTransfer_legs st i p :
  state_ok st → command_ok (CashTransfer i) → buildCashTransfer newID st i = Ok p →
  omap leg_of (pv_Effects p) = legs newID order st (CashTransfer i).
Proof.
  intros Hs (Hm1 & Hm2 & Hmf) H. unfold buildCashTransfer in H. open_builder H. rewrite_ids. cbn [legs].
  match goal with H : fee_ok _ _ _ = Ok _ |- _ => pose proof (fee_ok_spec _ _ _ _ H) as Hfee end.
  destruct (ct_Fee i) as [f|]; cbn [app fee_leg]; rewrite !omap_cons', !(leg_account st) by done; [|done].
  by rewrite (proj2 (Hfee f eq_refl)).
Qed.

Lemma buildFXConversion_legs st i p :
  state_ok st → command_ok (FXConversion i) → buildFXConversion newID st i = Ok p →
  omap leg_of (pv_Effects p) = legs newID order st (FXConversion i).
Proof.
  intros Hs (Hm1 & Hm2 & Hmf) H. unfold buildFXConversion in H. open_builder H. rewrite_ids. cbn [legs].
  match goal with H : fee_ok _ _ _ = Ok _ |- _ => pose proof (fee_ok_spec _ _ _ _ H) as Hfee end.
  destruct (fx_Fee i) as [f|]; cbn [app fee_leg]; rewrite !omap_cons', !leg_cash; [|done].
  by rewrite (proj2 (Hfee f eq_refl)).
Qed.

Lemma buildTrade_legs st i p :
  state_ok st → command_ok (Trade i) → buildTrade newID order st i = Ok p →
  omap leg_of (pv_Effects p) = legs newID order st (Trade i).
Proof.
  intros Hs (Hq & Hg & Hmf) H. unfold buildTrade in H. inv_ok_step.
  apply bind_Ok in H as (a & Ha & H). apply st_account_ok in Ha.
  pose proof (accounts_ok st Hs _ a Ha) as (Hid & _ & _).
  apply bind_Ok in H as (h & Hh & H). cbn [legs]. rewrite Ha, Hh.
  repeat match type of H with (if ?b then Fail _ else _) = _ =>
    let C := fresh "C" in destruct b eqn:C in H; [discriminate H|] end.
  apply bind_Ok in H as (up & _ & H). apply bind_Ok in H as (act & _ & H).
  match type of H with (if ?b then Fail _ else _) = _ => destruct b; [discriminate H|] end.
  apply bind_Ok in H as (nq & _ & H). apply bind_Ok in H as (cv & _ & H).
  apply bind_Ok in H as ([effs cv'] & Hfee & H). injection H as <-. cbn [pv_Effects].
  rewrite Hid in Hfee. destruct (fee_positive (tr_Fee i)) as [f|] eqn:Ef.
  - apply bind_Ok in Hfee as (fv & _ & Hfee). injection Hfee as <- <-. apply fee_positive_spec in Ef as [Ef _].
    match goal with H : match tr_Fee i with _ => _ end = false |- _ => rewrite Ef in H end. prop_bool.
    cbn [app fee_leg]. rewrite !omap_cons', !leg_cash, leg_holding.
    match goal with H : currency f = _ |- _ => rewrite H end. by destruct (bool_decide (tr_Side i = TradeSell)).
  - injection Hfee as <- <-. by destruct (bool_decide (tr_Side i = TradeSell)).
Qed.

Lemma buildCashDividend_legs st i p :
  state_ok st → buildCashDividend newID st i = Ok p →
  omap leg_of (pv_Effects p) = legs newID order st (CashDividend i).
Proof.
  intros Hs H. unfold buildCashDividend in H. open_builder H. rewrite omap_cons', leg_cash. cbn [legs].
  match goal with H : Holdings st !! _ = Some _ |- _ => rewrite H end. by rewrite_ids.
Qed.

Lemma buildPositionTransfer_legs st i p :
  state_ok st → buildPositionTransfer newID st i = Ok p →
  omap leg_of (pv_Effects p) = legs newID order st (PositionTransfer i).
Proof. intros Hs H. unfold buildPositionTransfer in H. open_builder H. rewrite !omap_cons', !leg_holding. by rewrite_ids. Qed.

Lemma buildPositionAdjustment_legs st i p :
  state_ok st → buildPositionAdjustment newID st i = Ok p →
  omap leg_of (pv_Effects p) = legs newID order st (PositionAdjustment i).
Proof.
  intros Hs H. unfold buildPositionAdjustment in H. apply bind_Ok in H as (h & Hh & H).
  apply st_holding_ok in Hh as Ha. pose proof (holdings_ok st Hs _ h Ha) as (Hi & _).
  repeat match type of H with (if ?b then Fail _ else _) = _ => destruct b; [discriminate H|] end.
  do 3 (apply bind_Ok in H as (? & _ & H)). injection H as <-. cbn [pv_Effects legs].
  destruct (pa_Added i), (pa_UnitCost i); rewrite omap_cons'; unfold leg_of; cbn; by rewrite Hi.
Qed.

Lemma buildValueUpdate_legs st i allowZero p :
  state_ok st → Money_ok (vu_NewValue i) → buildValueUpdateWithZero newID st i allowZero = Ok p →
  omap leg_of (pv_Effects p) = legs newID order st (ValueUpdate i).
Proof.
  intros Hs Hm H. unfold buildValueUpdateWithZero in H. open_builder H.
  match goal with Ha : Accounts st !! _ = Some ?a |- _ =>
    destruct (accounts_ok st Hs _ a Ha) as (_ & Hcur & _) end.
  rewrite_ids. rewrite omap_cons', (leg_account st) by done. cbn [legs].
  match goal with Ha : Accounts st !! _ = Some ?a, Hn : NewMoney (dAbs _) _ = Ok ?x |- _ =>
    rename a into acc; rename x into amt; rename Hn into Hamt;
    destruct (delta_units (vu_NewValue i) (ca_Current acc) Hm Hcur) as [He Hu] end.
  destruct (NewMoney_exact_inv _ _ _ ltac:(rewrite dAbs_expo; exact He) Hamt) as (Ha' & _).
  rewrite units_abs, Hu in Ha' by lia.
  unfold money_endpoint, account_endpoint. cbn [balance].
  match goal with Ha : Accounts st !! _ = Some _ |- _ => rewrite Ha end. rewrite_ids.
  rewrite bool_decide_eq_false_2 by done. do 2 f_equal. rewrite Ha'. clear Ha'.
  pose proof (units_neg_iff 4 _ He) as Hneg. rewrite Hu in Hneg.
  destruct (dIsNegative _).
  - pose proof (proj1 Hneg eq_refl). change (post_units EffectRemoved 0 ?x) with (0 - x). lia.
  - assert (¬ munits (vu_NewValue i) - munits (ca_Current acc) < 0) by (by intros ?%Hneg).
    change (post_units EffectAdded 0 ?x) with (0 + x). lia.
Qed.

Lemma buildDebtDraw_legs st i p :
  state_ok st → liabilities_balance st → buildDebtDraw newID st i = Ok p →
  omap leg_of (pv_Effects p) = legs newID order st (DebtDraw i).
Proof.
  intros Hs Hl H. unfold buildDebtDraw in H. apply bind_Ok in H as ([debt cash] & Hval & H).
  destruct (validateDebtEndpoints_ok _ _ _ _ _ _ _ Hs Hl Hval) as (Ha & Hb & Hi & Hj & _).
  inv_ok. cbn [preview pv_Effects legs]. rewrite Hi, Hj, !omap_cons', (leg_account st) by done. reflexivity.
Qed.

(** The cost adjustment moves nothing. *)
Lemma buildPositionCostAdjustment_legs st i p :
  buildPositionCostAdjustment newID st i = Ok p → omap leg_of (pv_Effects p) = [].
Proof. intros H. unfold buildPositionCostAdjustment in H. by inv_ok. Qed.

Lemma buildDebtPayment_legs st i p :
  state_ok st → liabilities_balance st → buildDebtPayment newID st i = Ok p →
  omap leg_of (pv_Effects p) = legs newID order st (DebtPayment i).
Proof.
  intros Hs Hl H. unfold buildDebtPayment in H. apply bind_Ok in H as ([debt cash] & Hval & H).
  destruct (validateDebtEndpoints_ok _ _ _ _ _ _ _ Hs Hl Hval) as (Ha & Hb & Hi & Hj & _).
  do 3 (apply bind_Ok in H as (? & _ & H)). apply bind_Ok in H as ([effs cv] & Hfee & H). injection H as <-.
  cbn [preview pv_Effects legs]. rewrite Hi, Hj in Hfee. destruct (fee_positive (dp_InterestOrFee i)) as [f|].
  - destruct (negb _) in Hfee; [discriminate|]. apply bind_Ok in Hfee as (fv & _ & Hfee). injection Hfee as <- <-.
    cbn [app fee_leg]. by rewrite !omap_cons', !(leg_account st) by done.
  - injection Hfee as <- <-. cbn [app fee_leg]. by rewrite !omap_cons', !(leg_account st) by done.
Qed.

Lemma PreviewChange_legs st c p :
  state_ok st → liabilities_balance st → command_ok c → PreviewChange newID order st c = Ok p →
  omap leg_of (pv_Effects p) = legs newID order st c.
Proof.
  intros Hs Hl Hc H. destruct c; cbn [PreviewChange] in H.
  - exact (buildMoneyChange_legs _ _ _ _ _ _ _ _ _ _ Hs H).
  - exact (buildMoneyChange_legs _ _ _ _ _ _ _ _ _ _ Hs H).
  - by apply buildCashDividend_legs.
  - by apply buildCashTransfer_legs.
  - by apply buildFXConversion_legs.
  - by apply buildPositionTransfer_legs.
  - by apply buildPositionAdjustment_legs.
  - by eapply buildPositionCostAdjustment_legs.
  - by apply buildTrade_legs.
  - by eapply buildValueUpdate_legs.
  - by apply buildDebtDraw_legs.
  - by apply buildDebtPayment_legs.
Qed.

(** ** The evidence is well formed *)

Lemma accountEffect_ok id act seq role d t c aid m : Money_ok m →
  effect_ok (accountEffect id act seq role d t c aid m None).
Proof. intros Hm. split; [by intros x [= <-]|done]. Qed.
Lemma cashEffect_ok id act seq role d c aid m : Money_ok m → effect_ok (cashEffect id act seq role d c aid m).
Proof. intros Hm. split; [by intros x [= <-]|done]. Qed.
Lemma holdingEffect_ok id act seq role d c h q cost : qty_ok q →
  effect_ok (with_cost (holdingEffect id act seq role d c h q) cost).
Proof. intros Hm. split; [done|by intros x [= <-]]. Qed.
Lemma holdingEffect_ok' id act seq role d c h q : qty_ok q → effect_ok (holdingEffect id act seq role d c h q).
Proof. apply (holdingEffect_ok _ _ _ _ _ _ _ _ None). Qed.

Create HintDb evidence.
#[local] Hint Resolve accountEffect_ok cashEffect_ok holdingEffect_ok holdingEffect_ok' : evidence.
#[local] Hint Resolve NewMoney_ok : evidence.

Ltac evidence := repeat first [apply Forall_nil_2 | apply Forall_cons_2 | apply Forall_app_2]; eauto with evidence.

Lemma PreviewChange_evidence st c p :
  command_ok c → PreviewChange newID order st c = Ok p → Forall effect_ok (pv_Effects p).
Proof.
  intros Hc H. destruct c; cbn [PreviewChange command_ok] in *.
  - unfold buildMoneyChange in H. inv_ok. cbn. evidence.
  - unfold buildMoneyChange in H. inv_ok. cbn. evidence.
  - unfold buildCashDividend in H. inv_ok. cbn. evidence.
  - destruct Hc as (? & ? & Hf). unfold buildCashTransfer in H. inv_ok. cbn. destruct (ct_Fee i) as [f|]; cbn; evidence.
  - destruct Hc as (? & ? & Hf). unfold buildFXConversion in H. inv_ok. cbn. destruct (fx_Fee i) as [f|]; cbn; evidence.
  - unfold buildPositionTransfer in H. inv_ok. cbn. evidence.
  - unfold buildPositionAdjustment in H. inv_ok. cbn. destruct (pa_Added i), (pa_UnitCost i); evidence.
  - unfold buildPositionCostAdjustment in H. inv_ok. cbn. evidence. by split.
  - destruct Hc as (? & ? & Hf). unfold buildTrade in H. inv_ok.
    repeat match goal with x : (list ActivityEffect * EndpointView)%type |- _ => destruct x end.
    destruct (fee_positive (tr_Fee i)) as [f|] eqn:Ef; inv_ok; subst; cbn; evidence.
    apply fee_positive_spec in Ef as [? _]. evidence.
  - unfold buildValueUpdate, buildValueUpdateWithZero in H. inv_ok. cbn. evidence.
  - unfold buildDebtDraw in H. apply bind_Ok in H as ([debt cash] & _ & H). inv_ok. cbn. evidence.
  - destruct Hc as (? & Hf). unfold buildDebtPayment in H. apply bind_Ok in H as ([debt cash] & _ & H). inv_ok.
    repeat match goal with x : (list ActivityEffect * EndpointView)%type |- _ => destruct x end.
    destruct (fee_positive (dp_InterestOrFee i)) as [f|] eqn:Ef; inv_ok; subst; cbn; evidence.
    apply fee_positive_spec in Ef as [? _]. evidence.
Qed.
End SpecFacts.
