(* ===== verification/ChangeSamples.v ===== *)
(** * A concrete household

    One state and a few commands on the executable decimals, in a zone eight hours
    east of UTC, at which the theorems about changes are instantiated: a balance
    account, a card (a liability), a broker account with cash and two accounts
    holding the same fund. *)

From S2P Require Export ChangeAgree.
From S2P Require Import DecimalModel.
From Stdlib Require Import String Ascii.

#[global] Open Scope Z_scope.

#[export] Instance sample_zones : TimeZones :=
  {| LoadLocation name := if bool_decide (name = "UTC"%string) then Some UTC
       else if bool_decide (name = "Asia/Shanghai"%string) then Some (mkLocation (λ _, (28800, None)))
       else None |}.

Definition cents (u : Z) (c : CurrencyCode) : Money := mkMoney (mkDec u (-2)) c.
Definition usd (u : Z) : Money := cents u "USD".
Definition eur (u : Z) : Money := cents u "EUR".
Definition qty (u : Z) : Quantity := mkQuantity (mkDec u (-2)).
Definition qty8 (u : Z) : Quantity := mkQuantity (mkDec u (-8)).
Definition price8 (u : Z) : UnitPrice := mkUnitPrice (mkDec u (-8)).

Definition sample_account (id : string) (mode : TrackingMode) (liability : bool) (m : Money) : ChangeAccountState :=
  mkAccountState id id (currency m) mode liability false m.
Definition sample_holding (id account : string) (q : Quantity) : ChangeHoldingState :=
  mkHoldingState id account "fund" "A fund" "FND" "FND" "" "" "share" "" "" "USD" false q true.

Definition sample_accounts : gmap AccountID ChangeAccountState :=
  <["bank" := sample_account "bank" TrackingBalance false (usd 100000)]>
  (<["save" := sample_account "save" TrackingBalance false (usd 500)]>
  (<["card" := sample_account "card" TrackingBalance true (usd 25050)]>
  (<["broker" := sample_account "broker" TrackingHoldings false (usd 0)]>
  (<["other" := sample_account "other" TrackingHoldings false (usd 0)]> ∅)))).
Definition sample_cash : gmap AccountID (gmap CurrencyCode Money) :=
  <["broker" := <["USD" := usd 200000]> (<["EUR" := eur 1000]> ∅)]> ∅.
Definition sample_holdings : gmap HoldingID ChangeHoldingState :=
  <["h1" := sample_holding "h1" "broker" (qty 1000)]>
  (<["h2" := sample_holding "h2" "other" (qty 250)]> ∅).

(** 2024-06-01T20:00:00Z, which is 2 June in Shanghai. *)
Definition sample_now : Time := days_of_civil 2024 6 1 * Day + 20 * Hour.
Definition sample_origin : Time := days_of_civil 2024 1 1 * Day.
Definition sample_state : ChangeState :=
  mkState "home" sample_origin "Asia/Shanghai" sample_now sample_accounts sample_cash sample_holdings ∅.

Definition sample_id (k : nat) : string := String "i" (String (ascii_of_nat (48 + k)) "").

Lemma sample_id_ne k : sample_id k ≠ ""%string.
Proof. done. Qed.

Lemma cents_ok u c : currency_ok c = true → 0 <= u <= 1000000000000 → Money_ok (cents u c).
Proof.
  intros Hc Hu. unfold Money_ok, max_units. change (munits (cents u c)) with (u * 100).
  split; [by apply Z.leb_le|]. split; [lia|done].
Qed.

Lemma hundredths_ok u : 0 <= u <= 1000000000000 → qty_ok (qty u).
Proof.
  intros Hu. unfold qty_ok, max_qunits. change (qunits (qty u)) with (u * 1000000). split; [by apply Z.leb_le|lia].
Qed.

Ltac entries H := repeat (apply lookup_insert_Some in H as [[<- <-]|[_ H]]; [|]); try (by rewrite lookup_empty in H).

Lemma sample_state_ok : state_ok sample_state.
Proof.
  split.
  - intros id a H. cbn in H. unfold sample_accounts in H.
    entries H; (split; [done|split; [by apply cents_ok|done]]).
  - intros id byc c m H H'. cbn in H. unfold sample_cash in H. entries H. entries H';
      (split; [by apply cents_ok|done]).
  - intros id h H. cbn in H. unfold sample_holdings in H. entries H; (split; [done|by apply hundredths_ok]).
Qed.

Lemma sample_liabilities : liabilities_balance sample_state.
Proof. intros id a H. cbn in H. unfold sample_accounts in H. entries H; done. Qed.

(** Two hundred dollars from the bank to the broker, with a fee of one dollar. *)
Definition sample_transfer : CashTransferInput :=
  mkCashTransfer "home" "bank" "broker" (usd 20000) (usd 20000) (Some (usd 100)) 0 None.
(** Two shares for fifty dollars each. *)
Definition sample_buy : TradeInput :=
  mkTrade "home" TradeBuy "broker" "h1" "fund" (qty 200) (usd 10000) (Some (usd 50)) 0 None.
Definition sample_update : ValueUpdateInput :=
  mkValueUpdate "home" "save" (usd 475) ReasonEmpty 0 None.

(** What a preview shows: per endpoint, the resulting amount or quantity. *)
Definition outcome (r : Result ChangePreview) : option (list (string * string)) :=
  match r with
  | Ok p => Some ((λ v, (default (default "" (ev_HoldingID v)) (ev_AccountID v), ev_Amount v +:+ ev_Quantity v))
                  <$> pv_Resulting p)
  | Fail _ => None
  end.

Lemma outcome_ok r x : outcome r = Some x → ∃ p, r = Ok p.
Proof. destruct r as [p|e]; [by exists p|done]. Qed.

Lemma sample_transfer_outcome :
  outcome (PreviewChange sample_id [] sample_state (CashTransfer sample_transfer))
  = Some [("bank", "799"); ("broker", "2200")].
Proof. by vm_compute. Qed.

Lemma sample_buy_outcome :
  outcome (PreviewChange sample_id [] sample_state (Trade sample_buy))
  = Some [("broker", "1899.5"); ("h1", "12")].
Proof. by vm_compute. Qed.

Lemma sample_update_outcome :
  outcome (PreviewChange sample_id [] sample_state (ValueUpdate sample_update)) = Some [("save", "4.75")].
Proof. by vm_compute. Qed.
