(* ===== verification/ChangeCorrect.v ===== *)
(** * What a recorded change does

    The refinement theorem: every command [PreviewChange] accepts is applicable,
    keeps the state well formed and moves exactly the legs of [ChangeSpec]; and its
    consequences (conservation by transfers, absolute value updates), the guards of
    [newActivity], the acceptance condition of a transfer, and the prices of
    trades.  Every theorem is instantiated at the household of [ChangeSamples]. *)

From S2P Require Export ChangeSpec ChangeSamples.
From S2P Require Import DecimalModel.
From Stdlib Require Import String Ascii.

#[global] Open Scope Z_scope.

Section Refinement.
Context `{HD : DecimalAPI} {HL : DecimalLaws} `{TZ : TimeZones}.
Context (newID : nat → string) (order : list HoldingID) (newID_ne : ∀ k, newID k ≠ ""%string).

Lemma PreviewChange_agrees st c p :
  state_ok st → liabilities_balance st → command_ok c → PreviewChange newID order st c = Ok p →
  agrees (ready newID order st c) (pv_Effects p) (pv_Resulting p).
Proof.
  intros Hs Hl Hc H. destruct c; cbn [PreviewChange ready] in *.
  - by eapply buildMoneyChange_agrees.
  - by eapply buildMoneyChange_agrees.
  - by eapply buildCashDividend_agrees.
  - by eapply buildCashTransfer_agrees.
  - by eapply buildFXConversion_agrees.
  - by eapply buildPositionTransfer_agrees.
  - by eapply buildPositionAdjustment_agrees.
  - by eapply buildPositionCostAdjustment_agrees.
  - by apply buildTrade_agrees.
  - by eapply buildValueUpdateWithZero_agrees.
  - by eapply buildDebtDraw_agrees.
  - by eapply buildDebtPayment_agrees.
Qed.

(** The holding a trade works on is in the state, or new and empty. *)
Lemma trade_holding_balance st a i h : state_ok st → Holdings st !! newID 4%nat = None →
  trade_holding newID order st a i = Ok h →
  Holdings st !! ch_ID h = Some h ∨ (Holdings st !! ch_ID h = None ∧ qunits (ch_Current h) = 0).
Proof.
  intros Hs Hfresh H. unfold trade_holding in H. destruct (st_holding st _ _) as [g|e] eqn:E.
  - injection H as <-. apply st_holding_ok in E. left. destruct (holdings_ok st Hs _ _ E) as (-> & _). done.
  - destruct (if _ && _ then _ else _) as [g|] eqn:Ef.
    + injection H as <-. destruct (_ && _); [|discriminate]. left.
      apply List.find_some in Ef as [Hin _]. apply list_elem_of_In, list_elem_of_omap in Hin as (k & _ & Hk).
      destruct (holdings_ok st Hs _ _ Hk) as (-> & _). done.
    + destruct (_ || _); [discriminate|]. destruct (Instruments st !! _) as [ins|]; [|discriminate].
      inv_ok. match goal with H : NewQuantity _ = Ok _ |- _ => apply NewQuantity_ok in H as [-> _] end.
      right. split; [done|]. unfold qunits. cbn. by apply units_dZero.
Qed.

Lemma ready_facts st c : state_ok st → Holdings st !! newID 4%nat = None →
  state_ok (ready newID order st c) ∧ (∀ ep, balance (ready newID order st c) ep = balance st ep) ∧
  Accounts (ready newID order st c) = Accounts st.
Proof.
  intros Hs Hfresh. destruct c; try done. cbn [ready].
  destruct (Accounts st !! _) as [a|]; [|done]. destruct (trade_holding _ _ _ _ _) as [h|] eqn:E; [|done].
  split; [by apply (trade_holding_ok newID order st a i)|]. split; [|done].
  intros [x|x y|x]; [done|done|]. cbn. destruct (decide (ch_ID h = x)) as [<-|Hne].
  - rewrite lookup_insert_eq. by destruct (trade_holding_balance _ _ _ _ Hs Hfresh E) as [->|[-> ->]].
  - by rewrite lookup_insert_ne.
Qed.

Lemma PreviewChange_run st c p :
  state_ok st → liabilities_balance st → command_ok c → Holdings st !! newID 4%nat = None →
  PreviewChange newID order st c = Ok p →
  ∃ st' views, ApplyEffects (ready newID order st c) (pv_Effects p) = Ok (st', views) ∧
    views ≡ₚ pv_Resulting p ∧ state_ok st' ∧ same_frame (ready newID order st c) st' ∧
    ∀ ep, balance st' ep = balance st ep + legs_total (legs newID order st c) ep.
Proof.
  intros Hs Hl Hc Hfresh H. destruct (ready_facts st c Hs Hfresh) as (Hs0 & Hb0 & _).
  destruct (PreviewChange_agrees st c p Hs Hl Hc H) as (st' & views & Ha & Hperm).
  pose proof (proj1 (ApplyEffects_run _ _ _) (ex_intro _ views Ha)) as Hrun.
  destruct (run_ok _ _ _ Hs0 (PreviewChange_evidence newID order st c p Hc H) Hrun) as (Hs' & Hf & Hb).
  exists st', views. split; [done|]. split; [done|]. split; [done|]. split; [done|].
  intros ep. rewrite Hb, Hb0, legs_of_effects. by rewrite (PreviewChange_legs newID order st c p).
Qed.
End Refinement.

(** ** Consequences on totals *)

Lemma sumZ_indicator (ep : Endpoint) z eps : NoDup eps → ep ∈ eps →
  sumZ (λ e, if bool_decide (ep = e) then z else 0) eps = z.
Proof.
  intros Hnd. induction Hnd as [|e l Hni Hnd IH]; intros Hin; [by apply elem_of_nil in Hin|].
  rewrite sumZ_cons. apply elem_of_cons in Hin as [->|Hin].
  - rewrite bool_decide_eq_true_2 by done.
    rewrite (sumZ_ext _ (λ _, 0)); [|intros x Hx; rewrite bool_decide_eq_false_2 by set_solver; done].
    assert (sumZ (λ _ : Endpoint, 0) l = 0) as ->; [|lia]. clear. induction l; [done|by rewrite sumZ_cons].
  - rewrite bool_decide_eq_false_2 by set_solver. by rewrite IH.
Qed.

Lemma sumZ_add {A} (f g : A → Z) l : sumZ (λ x, f x + g x) l = sumZ f l + sumZ g l.
Proof. induction l as [|x l IH]; [done|]. rewrite !sumZ_cons, IH. lia. Qed.

(** Over endpoints that contain all the legs, the legs sum up. *)
Lemma legs_total_sum (l : list (Endpoint * Z)) eps : NoDup eps → (∀ e, e ∈ l.*1 → e ∈ eps) →
  sumZ (legs_total l) eps = sumZ snd l.
Proof.
  intros Hnd. induction l as [|[e z] l IH]; intros Hin.
  - clear. induction eps; [done|by rewrite sumZ_cons].
  - rewrite sumZ_cons, <-IH by set_solver.
    rewrite (sumZ_ext _ (λ ep, (if bool_decide (e = ep) then z else 0) + legs_total l ep)) by done.
    rewrite sumZ_add, sumZ_indicator by set_solver. done.
Qed.

Section Theorems.
Context `{HD : DecimalAPI} {HL : DecimalLaws} `{TZ : TimeZones}.

(** Claim C1.  Refinement: every command that [PreviewChange] accepts on a
    well-formed state is applicable.  Applying its effects succeeds (a first
    purchase having created its empty holding), shows exactly the resulting
    endpoint views of the preview, leaves the state well formed with nothing but
    current amounts changed, and changes the balance of every endpoint by exactly
    the legs of the ledger specification. *)
Theorem PreviewChange_refines newID order st c p :
  (∀ k, newID k ≠ ""%string) → state_ok st → liabilities_balance st → command_ok c →
  Holdings st !! newID 4%nat = None → PreviewChange newID order st c = Ok p →
  ∃ st' views, ApplyEffects (ready newID order st c) (pv_Effects p) = Ok (st', views) ∧
    views ≡ₚ pv_Resulting p ∧ state_ok st' ∧ same_frame (ready newID order st c) st' ∧
    ∀ ep, balance st' ep = balance st ep + legs_total (legs newID order st c) ep.
Proof. intros. by apply PreviewChange_run. Qed.

(** A cash transfer within one currency and a position transfer conserve
    the total: over any endpoints that include those of the transfer, what is
    lost is the fee and nothing else. *)
Theorem transfers_conserve newID order st c p st' views eps :
  (∀ k, newID k ≠ ""%string) → state_ok st → liabilities_balance st → command_ok c →
  Holdings st !! newID 4%nat = None → PreviewChange newID order st c = Ok p →
  ApplyEffects st (pv_Effects p) = Ok (st', views) →
  NoDup eps → (∀ ep, ep ∈ (legs newID order st c).*1 → ep ∈ eps) →
  match c with
  | CashTransfer i => currency (ct_Sent i) = currency (ct_Received i) →
      sumZ (balance st') eps = sumZ (balance st) eps - match ct_Fee i with Some f => munits f | None => 0 end
  | PositionTransfer i => sumZ (balance st') eps = sumZ (balance st) eps
  | _ => True
  end.
Proof.
  intros Hid Hs Hl Hc Hfresh H Ha Hnd Hin.
  assert (Hsum : ready newID order st c = st →
    sumZ (balance st') eps = sumZ (balance st) eps + sumZ snd (legs newID order st c)).
  { intros Hr. destruct (PreviewChange_run newID order Hid st c p Hs Hl Hc Hfresh H) as (s & v & Ha' & _ & _ & _ & Hb).
    rewrite Hr, Ha in Ha'. injection Ha' as <- <-.
    rewrite <-(legs_total_sum _ eps Hnd Hin). rewrite <-(sumZ_add (balance st)). by apply sumZ_ext. }
  destruct c; try done; specialize (Hsum eq_refl).
  - intros Hcur. rewrite Hsum. destruct Hc as (Hm1 & Hm2 & _). cbn [PreviewChange legs] in *.
    unfold buildCashTransfer in H. inv_ok. prop_bool.
    assert (munits (ct_Sent i) = munits (ct_Received i)) as Heq.
    { match goal with C : bool_decide _ && negb _ = false |- _ =>
        rewrite bool_decide_eq_true_2 in C by done; cbn in C; apply negb_false_iff, dEqual_val in C;
        apply (units_eq 4) in C; [done|apply Hm1|apply Hm2] end. }
    destruct (ct_Fee i); cbn; lia.
  - rewrite Hsum. cbn. lia.
Qed.

(** ** Value updates *)

Definition update_reason (i : ValueUpdateInput) : ActivityReason :=
  if bool_decide (vu_Reason i = ReasonEmpty) then ReasonReconciliation else vu_Reason i.

Lemma delta_post a b : Money_ok a → Money_ok b →
  post_units (if dIsNegative (dSub (amount a) (amount b)) then EffectRemoved else EffectAdded)
    (munits b) (Z.abs (munits a - munits b)) = munits a.
Proof.
  intros Ha Hb. destruct (delta_units a b Ha Hb) as [He Hu].
  pose proof (units_neg_iff 4 _ He) as Hneg. rewrite Hu in Hneg. unfold post_units. destruct (dIsNegative _).
  - pose proof (proj1 Hneg eq_refl). rewrite bool_decide_eq_false_2 by done. lia.
  - assert (¬ munits a - munits b < 0) by (by intros ?%Hneg). rewrite bool_decide_eq_true_2 by done. lia.
Qed.

Lemma value_update_accepted newID st i allowZero acc act :
  state_ok st → Money_ok (vu_NewValue i) →
  st_account st (vu_AccountID i) (vu_HouseholdID i) = Ok acc → Mode acc ≠ TrackingHoldings →
  currency (vu_NewValue i) = ca_Currency acc → update_reason i ∈ ValueUpdateReasons →
  newActivity st (newID 0%nat) (vu_HouseholdID i) ActivityValueUpdate (update_reason i)
    (vu_EffectiveAt i) (vu_Note i) = Ok act →
  if bool_decide (munits (vu_NewValue i) = munits (ca_Current acc)) && negb allowZero
  then code_of (buildValueUpdateWithZero newID st i allowZero) = Some ErrNoChange
  else is_ok (buildValueUpdateWithZero newID st i allowZero) = true.
Proof.
  intros Hs Hm Hacc Hmode Hcur Hr Hact. unfold buildValueUpdateWithZero. rewrite Hacc, bind_Ok_l.
  apply st_account_ok in Hacc. pose proof (accounts_ok st Hs _ acc Hacc) as Hok.
  destruct Hok as (Hid & Hcm & Hcc) eqn:Eok. clear Eok.
  destruct (delta_units (vu_NewValue i) (ca_Current acc) Hm Hcm) as [He Hu].
  rewrite (bool_decide_eq_false_2 (Mode acc = _)), (bool_decide_eq_true_2 (currency _ = _)) by done. cbn [negb orb].
  fold (update_reason i). cbn zeta.
  assert (negb (bool_decide (update_reason i = ReasonInterest)) &&
          negb (bool_decide (update_reason i = ReasonReconciliation)) &&
          negb (bool_decide (update_reason i = ReasonOther)) = false) as ->.
  { unfold ValueUpdateReasons in Hr. set_unfold in Hr. destruct Hr as [-> |[-> |[-> |[]]]]; done. }
  rewrite Hact, bind_Ok_l.
  assert (dIsZero (dSub (amount (vu_NewValue i)) (amount (ca_Current acc))) =
          bool_decide (munits (vu_NewValue i) = munits (ca_Current acc))) as ->.
  { apply eq_true_iff_eq. rewrite bool_decide_eq_true.
    pose proof (m_isZero_units (mkMoney (dSub (amount (vu_NewValue i)) (amount (ca_Current acc))) "") He) as Hz.
    unfold m_isZero, munits in Hz. cbn [amount] in Hz. rewrite Hz, Hu. unfold munits. lia. }
  destruct (_ && negb allowZero) eqn:Ez; [done|].
  destruct (NewMoney_exact (dAbs (dSub (amount (vu_NewValue i)) (amount (ca_Current acc)))) (ca_Currency acc)
    (ca_Currency acc)) as (amt & Hamt & Hau & Hac & Hao).
  { apply ParseCurrency_id. rewrite <-Hcur. apply Hm. }
  { by rewrite dAbs_expo. }
  { rewrite units_abs, Hu by done. pose proof (proj1 (proj2 Hm)). pose proof (proj1 (proj2 Hcm)). lia. }
  rewrite Hamt, bind_Ok_l. rewrite (applyMoney_spec (vu_AccountID i)) by (try done; by eapply NewMoney_ok).
  rewrite bool_decide_eq_true_2 by done.
  match goal with |- is_ok (mbind _ ?r) = true => assert (∃ v, r = Ok v) as [v ->]; [eexists|done] end.
  apply amount_spec_ok. split; [|reflexivity].
  rewrite Hau, units_abs, Hu by done. rewrite delta_post by done. apply Hm.
Qed.

(** A value update sets the value: an update with an admissible reason
    on an account tracked by value either is refused because the value is
    unchanged, or is accepted, and applying it leaves the account with exactly the
    new value and every other balance as it was.  The correction path, which
    allows an unchanged value, always does the latter. *)
Theorem buildValueUpdate_correct newID st i allowZero acc act :
  (∀ k, newID k ≠ ""%string) → state_ok st → Money_ok (vu_NewValue i) →
  st_account st (vu_AccountID i) (vu_HouseholdID i) = Ok acc → Mode acc ≠ TrackingHoldings →
  currency (vu_NewValue i) = ca_Currency acc → update_reason i ∈ ValueUpdateReasons →
  newActivity st (newID 0%nat) (vu_HouseholdID i) ActivityValueUpdate (update_reason i)
    (vu_EffectiveAt i) (vu_Note i) = Ok act →
  if bool_decide (munits (vu_NewValue i) = munits (ca_Current acc)) && negb allowZero
  then code_of (buildValueUpdateWithZero newID st i allowZero) = Some ErrNoChange
  else ∃ p st' views, buildValueUpdateWithZero newID st i allowZero = Ok p ∧
    ApplyEffects st (pv_Effects p) = Ok (st', views) ∧ views ≡ₚ pv_Resulting p ∧ state_ok st' ∧
    ∀ ep, balance st' ep = if bool_decide (ep = EpValue (vu_AccountID i)) then munits (vu_NewValue i)
                           else balance st ep.
Proof.
  intros Hid Hs Hm Hacc Hmode Hcur Hr Hact.
  pose proof (value_update_accepted newID st i allowZero acc act Hs Hm Hacc Hmode Hcur Hr Hact) as H.
  destruct (_ && _); [done|]. destruct (buildValueUpdateWithZero newID st i allowZero) as [p|] eqn:E; [|done].
  destruct (buildValueUpdateWithZero_agrees newID Hid st i allowZero p Hs Hm E) as (st' & views & Ha & Hp).
  assert (Forall effect_ok (pv_Effects p)) as He.
  { unfold buildValueUpdateWithZero in E. inv_ok. cbn. apply Forall_singleton, accountEffect_ok.
    by eapply NewMoney_ok. }
  destruct (run_ok st (pv_Effects p) st' Hs He) as (Hs' & _ & Hb); [apply ApplyEffects_run; by exists views|].
  exists p, st', views. do 4 (split; [done|]). intros ep.
  rewrite Hb, legs_of_effects, (buildValueUpdate_legs newID [] st i allowZero p) by done.
  unfold legs_total. cbn [legs sumZ foldr]. destruct (decide (ep = EpValue (vu_AccountID i))) as [->|Hne].
  - rewrite !bool_decide_eq_true_2 by done. lia.
  - rewrite !bool_decide_eq_false_2 by done. lia.
Qed.

(** ** The guards every activity passes *)

(** An activity is recorded exactly when the household is the state's,
    the clock is set, the household's time zone is known, the time (the clock,
    when none is given) is neither after the clock nor before the starting point,
    at millisecond resolution, and the note is acceptable.  What is recorded then
    is that time and its calendar date in the household's zone. *)
Theorem newActivity_correct st id household kind reason at_ note a :
  newActivity st id household kind reason at_ note = Ok a ↔
  household = st_HouseholdID st ∧ Now st ≠ 0 ∧
  ∃ l clean, LoadLocation (TrimSpace (Timezone st)) = Some l ∧ TrimSpace (Timezone st) ≠ ""%string ∧
    validateNote "note" note = Ok clean ∧
    let t := normalizeTime (if timeIsZero at_ then Now st else at_) in
    t <= normalizeTime (Now st) ∧ (OriginAt st ≠ 0 → normalizeTime (OriginAt st) <= t) ∧
    a = mkActivity id household kind reason t (format_days (day_of (wall l t))) (normalizeTime (Now st)) clean
          None None None None None [] [] None.
Proof.
  unfold newActivity, timeIsZero. cbn zeta. set (t := normalizeTime (if at_ =? 0 then Now st else at_)).
  split.
  - intros H. destruct (LoadLocation (TrimSpace (Timezone st))) as [l|] eqn:El; inv_ok; prop_bool.
    split; [done|]. split; [done|]. eexists l, _. split; [done|]. split; [done|]. split; [eassumption|].
    split; [done|]. split; [|done]. intros Ho. apply Z.eqb_neq in Ho.
    match goal with C : negb _ && _ = false |- _ => rewrite Ho in C; cbn in C; by apply Z.ltb_ge in C end.
  - intros (-> & Hn & l & c & Hl & Hz & Hc & Ht & Ho & ->). rewrite bool_decide_eq_true_2 by done. cbn [negb].
    rewrite (proj2 (Z.eqb_neq _ _) Hn), bool_decide_eq_false_2, Hl, (proj2 (Z.ltb_ge _ _) Ht) by done.
    assert (negb (OriginAt st =? 0) && (t <? normalizeTime (OriginAt st)) = false) as ->.
    { destruct (Z.eqb_spec (OriginAt st) 0) as [|Hne]; [done|]. by apply Z.ltb_ge, Ho. }
    by rewrite Hc, bind_Ok_l.
Qed.

(** ** Which transfers are accepted *)

Definition fee_units (fee : option Money) : Z := match fee with Some f => munits f | None => 0 end.

(** The condition in terms of balances. *)
Definition transfer_admissible (st : ChangeState) (i : CashTransferInput) (from to : ChangeAccountState) : Prop :=
  let sent := ct_Sent i in let received := ct_Received i in
  Liability from = false ∧ Liability to = false ∧ ct_FromAccountID i ≠ ct_ToAccountID i ∧
  0 < munits sent ∧ 0 < munits received ∧
  (currency sent = currency received → munits sent = munits received) ∧
  (∀ f, ct_Fee i = Some f → 0 < munits f ∧ currency f = currency sent) ∧
  is_ok (NewFxRate (dRound (dDiv (amount received) (amount sent)) 12)) = true ∧
  (Mode from = TrackingHoldings ∨ currency sent = ca_Currency from) ∧
  (Mode to = TrackingHoldings ∨ currency received = ca_Currency to) ∧
  munits sent + fee_units (ct_Fee i) <= balance st (account_endpoint from (currency sent)) ∧
  balance st (account_endpoint to (currency received)) + munits received <= max_units.

Lemma is_ok_iff {A} (r : Result A) : is_ok r = true ↔ ∃ a, r = Ok a.
Proof. destruct r; [split; [by eexists|done]|split; [done|by intros [? ?]]]. Qed.

Lemma m_isZero_pos m : Money_ok m → m_isZero m = false ↔ 0 < munits m.
Proof.
  intros (He & Hr & _). pose proof (m_isZero_units m He) as Hz. destruct (m_isZero m).
  - pose proof (proj1 Hz eq_refl). split; [done|lia].
  - split; [intros _|done]. assert (munits m ≠ 0) by (by intros ?%Hz). lia.
Qed.

Lemma fee_ok_iff fee c what : opt_money_ok fee →
  is_ok (fee_ok fee c what) = true ↔ ∀ f, fee = Some f → 0 < munits f ∧ currency f = c.
Proof.
  intros Hf. unfold fee_ok. destruct fee as [f|]; [|split; [intros _ ?; done|done]].
  pose proof (m_isZero_pos f (Hf f eq_refl)) as Hz. destruct (m_isZero f).
  - split; [done|]. intros H. destruct (H f eq_refl) as [H1 _]. by apply Hz in H1.
  - case_bool_decide; cbn; (split; [|by intros H'; destruct (H' f eq_refl)]); [|done].
    intros _ g [= <-]. split; [by apply Hz|done].
Qed.

(** A signed step on an account is accepted exactly within the range. *)
Lemma accountAmount_ok st id a amt d :
  state_ok st → Accounts st !! id = Some a → Money_ok amt →
  is_ok (accountAmount st a amt d) = true ↔
  (Mode a = TrackingHoldings ∨ currency amt = ca_Currency a) ∧
  0 <= post_units d (balance st (account_endpoint a (currency amt))) (munits amt) <= max_units.
Proof.
  intros Hs Ha Hm. rewrite is_ok_iff. split.
  - intros [v Hv]. pose proof (accountAmount_inv st id a amt d v Hs Ha Hm Hv) as Hc. split; [done|].
    rewrite (accountAmount_spec st id a amt d Hs Ha Hm Hc) in Hv. by apply amount_spec_ok in Hv as [? _].
  - intros [Hc Hr]. eexists. rewrite (accountAmount_spec st id a amt d Hs Ha Hm Hc).
    apply amount_spec_ok. split; [done|reflexivity].
Qed.

Lemma balance_account st id a c : state_ok st → Accounts st !! id = Some a →
  0 <= balance st (account_endpoint a c) <= max_units.
Proof.
  intros Hs Ha. destruct (accounts_ok st Hs id a Ha) as (Hid & Hm & _).
  unfold account_endpoint. case_bool_decide; cbn [balance]; [by apply cash_current_ok|].
  rewrite Hid, Ha. apply Hm.
Qed.

Lemma total_with_fee_accepts sent fee : Money_ok sent → opt_money_ok fee →
  (∀ f, fee = Some f → currency f = currency sent) → munits sent + fee_units fee <= max_units →
  is_ok (total_with_fee sent fee) = true.
Proof.
  intros Hs Hf Hc Hr. unfold total_with_fee. destruct fee as [f|]; [|done].
  specialize (Hf f eq_refl). specialize (Hc f eq_refl). cbn [fee_units] in Hr.
  unfold m_add. rewrite bool_decide_eq_true_2 by done. cbn [negb].
  destruct (NewMoney_exact (dAdd (amount sent) (amount f)) (currency sent) (currency sent)) as (m & -> & _).
  - apply ParseCurrency_id, Hs.
  - rewrite dAdd_expo. pose proof (proj1 Hs). pose proof (proj1 Hf). lia.
  - rewrite units_add by (apply Hs || apply Hf). pose proof (proj1 (proj2 Hs)). pose proof (proj1 (proj2 Hf)).
    unfold munits in *. lia.
  - done.
Qed.

Lemma transfer_equal_units i : Money_ok (ct_Sent i) → Money_ok (ct_Received i) →
  bool_decide (currency (ct_Sent i) = currency (ct_Received i)) &&
    negb (dEqual (amount (ct_Sent i)) (amount (ct_Received i))) = false ↔
  (currency (ct_Sent i) = currency (ct_Received i) → munits (ct_Sent i) = munits (ct_Received i)).
Proof.
  intros (He1 & _) (He2 & _). unfold munits. rewrite <-(units_eq 4) by done. rewrite <-dEqual_val.
  case_bool_decide as Hc; cbn [andb]; [|by split]. rewrite negb_false_iff. split; [done|by intros H; apply H].
Qed.

Lemma transfer_sound newID st i from to p : state_ok st → command_ok (CashTransfer i) →
  st_account st (ct_FromAccountID i) (ct_HouseholdID i) = Ok from →
  st_account st (ct_ToAccountID i) (ct_HouseholdID i) = Ok to →
  buildCashTransfer newID st i = Ok p → transfer_admissible st i from to.
Proof.
  intros Hs (Hm1 & Hm2 & Hf) Hfrom Hto H. unfold buildCashTransfer in H.
  rewrite Hfrom, bind_Ok_l, Hto, bind_Ok_l in H. apply st_account_ok in Hfrom, Hto.
  inv_ok. prop_bool. unfold transfer_admissible. cbn zeta.
  match goal with E : fee_ok _ _ _ = Ok _ |- _ =>
    assert (is_ok (fee_ok (ct_Fee i) (currency (ct_Sent i)) "sent") = true) as Hfee by (by rewrite E) end.
  pose proof (proj1 (fee_ok_iff _ _ _ Hf) Hfee) as Hfee'. clear Hfee.
  match goal with E : total_with_fee _ _ = Ok ?t, Hv : accountAmount st from ?t _ = Ok _,
      Hw : accountAmount st to _ _ = Ok _ |- _ =>
    destruct (total_with_fee_ok _ _ t Hm1 Hf E) as (Ht & Htc & Htu & _);
    pose proof (proj1 (accountAmount_ok st _ from t EffectRemoved Hs Hfrom Ht) (proj2 (is_ok_iff _) (ex_intro _ _ Hv)))
      as [H1 H2];
    pose proof (proj1 (accountAmount_ok st _ to _ EffectAdded Hs Hto Hm2) (proj2 (is_ok_iff _) (ex_intro _ _ Hw)))
      as [H3 H4]; rewrite Htc in H1, H2; unfold post_units in H2, H4;
    rewrite bool_decide_eq_false_2 in H2 by done; rewrite bool_decide_eq_true_2 in H4 by done; rewrite Htu in H2 end.
  pose proof (proj1 (m_isZero_pos _ Hm1) ltac:(assumption)) as Hp1.
  pose proof (proj1 (m_isZero_pos _ Hm2) ltac:(assumption)) as Hp2.
  repeat (split; [done|]). split; [by apply transfer_equal_units|]. split; [done|].
  split; [by match goal with E : NewFxRate _ = Ok _ |- _ => rewrite E end|].
  repeat (split; [done|]). unfold fee_units. lia.
Qed.

Lemma transfer_complete newID st i from to act : state_ok st → command_ok (CashTransfer i) →
  st_account st (ct_FromAccountID i) (ct_HouseholdID i) = Ok from →
  st_account st (ct_ToAccountID i) (ct_HouseholdID i) = Ok to →
  newActivity st (newID 0%nat) (ct_HouseholdID i) ActivityCashTransfer ReasonOther (ct_EffectiveAt i)
    (ct_Note i) = Ok act →
  transfer_admissible st i from to → is_ok (buildCashTransfer newID st i) = true.
Proof.
  intros Hs (Hm1 & Hm2 & Hf) Hfrom Hto Hact (L1 & L2 & Hne & Hp1 & Hp2 & Heq & Hfee & Hrate & Hc1 & Hc2 & Hb1 & Hb2).
  unfold buildCashTransfer. rewrite Hfrom, bind_Ok_l, Hto, bind_Ok_l, L1, L2.
  apply st_account_ok in Hfrom, Hto.
  rewrite (proj2 (m_isZero_pos _ Hm1) Hp1), (proj2 (m_isZero_pos _ Hm2) Hp2). cbn [orb].
  rewrite (bool_decide_eq_false_2 (ct_FromAccountID i = _)), (proj2 (transfer_equal_units i Hm1 Hm2) Heq) by done.
  pose proof (proj2 (fee_ok_iff (ct_Fee i) _ "sent" Hf) Hfee) as (u & ->)%is_ok_iff.
  apply is_ok_iff in Hrate as (r & Hr). rewrite bind_Ok_l, Hr, bind_Ok_l, Hact, bind_Ok_l.
  pose proof (balance_account st _ from (currency (ct_Sent i)) Hs Hfrom) as Hbf.
  pose proof (balance_account st _ to (currency (ct_Received i)) Hs Hto) as Hbt.
  assert (is_ok (total_with_fee (ct_Sent i) (ct_Fee i)) = true) as (t & Ht)%is_ok_iff.
  { apply total_with_fee_accepts; [done|done|by apply Hfee|lia]. }
  destruct (total_with_fee_ok _ _ t Hm1 Hf Ht) as (Htm & Htc & Htu & _). rewrite Ht, bind_Ok_l.
  assert (is_ok (accountAmount st from t EffectRemoved) = true) as (v & ->)%is_ok_iff.
  { apply (accountAmount_ok st (ct_FromAccountID i)); [done..|]. rewrite Htc, Htu. split; [done|].
    unfold post_units. rewrite bool_decide_eq_false_2 by done. unfold fee_units in Hb1.
    pose proof (proj1 (proj2 Hm1)). destruct (ct_Fee i) as [f|]; [pose proof (proj1 (Hfee f eq_refl))|]; lia. }
  assert (is_ok (accountAmount st to (ct_Received i) EffectAdded) = true) as (w & ->)%is_ok_iff.
  { apply (accountAmount_ok st (ct_ToAccountID i)); [done..|]. split; [done|].
    unfold post_units. rewrite bool_decide_eq_true_2 by done. lia. }
  done.
Qed.

(** A cash transfer between two accounts of the household, at a time at
    which an activity may be recorded, is accepted exactly when it is admissible:
    neither side is a liability, the accounts differ, the amounts are positive
    (equal within one currency, at a representable rate across two), the fee is
    positive and in the source's currency, each currency fits its account, the
    source covers the amount and the fee, and the destination stays in range. *)
Theorem buildCashTransfer_accepts newID st i from to act :
  state_ok st → command_ok (CashTransfer i) →
  st_account st (ct_FromAccountID i) (ct_HouseholdID i) = Ok from →
  st_account st (ct_ToAccountID i) (ct_HouseholdID i) = Ok to →
  newActivity st (newID 0%nat) (ct_HouseholdID i) ActivityCashTransfer ReasonOther (ct_EffectiveAt i)
    (ct_Note i) = Ok act →
  is_ok (buildCashTransfer newID st i) = true ↔ transfer_admissible st i from to.
Proof.
  intros Hs Hc Hfrom Hto Hact. split.
  - intros (p & H)%is_ok_iff. by eapply transfer_sound.
  - by eapply transfer_complete.
Qed.

(** ** The price of a trade *)

(** [UnitPriceFromExact] rounds half-even to eight places. *)
Lemma UnitPriceFromExact_units v p : UnitPriceFromExact v = Ok p →
  units 8 (p_value p) = round_half_even (dval v * p10 8).
Proof.
  unfold UnitPriceFromExact. pose proof (scale_nonneg v) as [_ Hs].
  destruct (decimalShape v) as [sc dg]. cbn [fst] in Hs.
  intros H. apply NewUnitPrice_ok in H as [-> _]. cbn [p_value]. destruct (Z.ltb_spec 8 sc) as [Hlt|Hle].
  - unfold units, cunits. rewrite dRoundBank_coef, dRoundBank_expo. change (-8 + 8) with 0. lia.
  - destruct Hs as [Hz|He].
    + assert (dCoefficient v = 0) as Hc by (by apply dval_zero_coef).
      unfold units, cunits. rewrite Hc, Hz. done.
    + by rewrite dval_units, round_half_even_Z by lia.
Qed.

Lemma quotient_denominator8 g q : -4 <= dExponent g → dExponent q <= 0 → ¬ (dval q == 0)%Q →
  ∃ N, (dval g / dval q * p10 8 * inject_Z (Z.abs (dCoefficient q)) == inject_Z N)%Q.
Proof.
  intros Hg Hq Hz. destruct (quotient_denominator g q 4 Hg ltac:(lia) Hz) as [N HN].
  set (E := Z.max 0 (4 + dExponent q)) in *. exists (N * 10 ^ (4 - E)).
  rewrite inject_Z_mult, <-HN, inject_Z_mult, <-!p10_Z by lia.
  rewrite <-!Qmult_assoc, <-p10_add. replace (E + (4 - E)) with 4 by lia.
  rewrite (Qmult_comm (inject_Z _) (p10 4)), (Qmult_assoc (p10 4)), <-p10_add. reflexivity.
Qed.

Lemma dDiv_scaled g q : ¬ (dval q == 0)%Q →
  (dval (dDiv g q) * p10 8 ==
   inject_Z (round_half_away (dval g / dval q * p10 8 * inject_Z (Zpos 100000000))) / inject_Z (Zpos 100000000))%Q.
Proof.
  intros Hz. rewrite dDiv_divround by done. unfold dval at 1, cval. rewrite dDivRound_coef, dDivRound_expo by done.
  assert ((dval g / dval q * p10 16 == dval g / dval q * p10 8 * inject_Z 100000000)%Q) as ->.
  { rewrite <-Qmult_assoc. change 100000000 with (10 ^ 8). rewrite <-p10_Z, <-p10_add by lia. reflexivity. }
  rewrite <-Qmult_assoc, <-p10_add. change (Z.opp 16 + 8) with (Z.opp 8).
  unfold Qdiv. apply Qmult_comp; reflexivity.
Qed.

Lemma unit_price_half_even g q p : -4 <= dExponent g → dExponent q <= 0 → ¬ (dval q == 0)%Q →
  Z.abs (dCoefficient q) < 10 ^ 8 → UnitPriceFromExact (dDiv g q) = Ok p →
  is_half_even (dval g / dval q * p10 8) (units 8 (p_value p)).
Proof.
  intros Hg Hq Hz Hc Hp. rewrite (UnitPriceFromExact_units _ _ Hp), (dDiv_scaled g q Hz).
  destruct (quotient_denominator8 g q Hg Hq Hz) as [N HN].
  assert (dCoefficient q ≠ 0) as Hnz by (intros H0; apply Hz; by apply dval_zero_coef).
  rewrite (double_rounding _ N (Z.to_pos (Z.abs (dCoefficient q))) 100000000).
  - apply round_half_even_spec.
  - by rewrite Z2Pos.id by lia.
  - assert (Zpos (Z.to_pos (Z.abs (dCoefficient q))) < 100000000) by (by rewrite Z2Pos.id by lia). lia.
  - done.
Qed.

Lemma unit_price_close g q p : ¬ (dval q == 0)%Q → UnitPriceFromExact (dDiv g q) = Ok p →
  (2 * Qabs (inject_Z (units 8 (p_value p)) - dval g / dval q * p10 8) <= 1 + p10 (-8))%Q.
Proof.
  intros Hz Hp. rewrite (UnitPriceFromExact_units _ _ Hp).
  destruct (round_half_even_spec (dval (dDiv g q) * p10 8)) as [[H1 H2] _].
  set (u := inject_Z (round_half_even _)) in *. rewrite (dDiv_scaled g q Hz) in H1, H2.
  set (x := (dval g / dval q * p10 8)%Q) in *.
  destruct (round_half_away_spec (x * inject_Z (Zpos 100000000))) as [[H3 H4] _].
  set (r := inject_Z (round_half_away _)) in *. clearbody u r x. clear -H1 H2 H3 H4.
  assert ((p10 (-8) == 1 # 100000000)%Q) as -> by reflexivity.
  change (inject_Z (Zpos 100000000)) with (100000000 # 1)%Q in *. unfold Qdiv in *.
  change (/ (100000000 # 1))%Q with (1 # 100000000)%Q in *.
  rewrite <-(Qabs_pos 2) at 1 by done. rewrite <-Qabs_Qmult. apply Qabs_Qle_condition. split; lra.
Qed.

(** The unit price a trade records is the gross amount over the quantity,
    off by at most half a unit of the eighth place and half a unit of the
    sixteenth; when the quantity is written with at most eight significant digits
    it is the exact quotient rounded half-even once, as the doc of
    [UnitPriceFromExact] says. *)
Theorem trade_price_correct newID order st i p :
  command_ok (Trade i) → buildTrade newID order st i = Ok p →
  ∃ up, DerivedUnitPrice p = Some up ∧
    let exact := (dval (amount (tr_Gross i)) / dval (q_value (tr_Quantity i)) * p10 8)%Q in
    (2 * Qabs (inject_Z (units 8 (p_value up)) - exact) <= 1 + p10 (-8))%Q ∧
    (dExponent (q_value (tr_Quantity i)) <= 0 → Z.abs (dCoefficient (q_value (tr_Quantity i))) < 10 ^ 8 →
     is_half_even exact (units 8 (p_value up))).
Proof.
  intros (Hq & Hg & _) H. unfold buildTrade in H. inv_ok. prop_bool.
  repeat match goal with x : (list ActivityEffect * EndpointView)%type |- _ => destruct x end. inv_ok.
  eexists. cbn [DerivedUnitPrice]. split; [done|].
  match goal with Hz : q_isZero _ = false |- _ => unfold q_isZero in Hz; apply iszero_false in Hz end.
  split; [by apply unit_price_close|]. intros. by apply unit_price_half_even; [apply Hg|..].
Qed.
End Theorems.

(** Beyond eight significant digits the price can be rounded twice,
    against the doc of [UnitPriceFromExact]: a purchase of
    19999999999.99999999 units for 100 has an exact price just above half a unit of
    the eighth place, the sixteen-place quotient is exactly half of it, and the
    recorded price is zero. *)
Theorem trade_price_rounds_twice :
  let g := usd 10000 in let q := qty8 1999999999999999999 in
  Money_ok g ∧ qty_ok q ∧ ∃ p, UnitPriceFromExact (dDiv (amount g) (q_value q)) = Ok p ∧ dString (p_value p) = "0"%string ∧
    let exact := (dval (amount g) / dval (q_value q) * p10 8)%Q in
    round_half_even exact = 1 ∧ ¬ is_half_even exact (units 8 (p_value p)).
Proof.
  split; [by apply cents_ok|]. split; [split; [by apply Z.leb_le|by vm_compute]|].
  exists (price8 0). split; [reflexivity|]. split; [reflexivity|]. split; [by vm_compute|].
  intros [[_ H] _]. revert H. vm_compute. by intros H; apply H.
Qed.

(** ** Witnesses *)

Lemma sample_transfer_ok : command_ok (CashTransfer sample_transfer).
Proof.
  change (Money_ok (usd 20000) ∧ Money_ok (usd 20000) ∧ opt_money_ok (Some (usd 100))).
  split; [by apply cents_ok|]. split; [by apply cents_ok|]. intros x [= <-]. by apply cents_ok.
Qed.
Lemma sample_buy_ok : command_ok (Trade sample_buy).
Proof.
  change (qty_ok (qty 200) ∧ Money_ok (usd 10000) ∧ opt_money_ok (Some (usd 50))).
  split; [by apply hundredths_ok|]. split; [by apply cents_ok|]. intros x [= <-]. by apply cents_ok.
Qed.

Lemma PreviewChange_refines_witness :
  ∃ p st' views, PreviewChange sample_id [] sample_state (Trade sample_buy) = Ok p ∧
    ApplyEffects (ready sample_id [] sample_state (Trade sample_buy)) (pv_Effects p) = Ok (st', views) ∧
    balance st' (EpCash "broker" "USD") =
    balance sample_state (EpCash "broker" "USD") +
      legs_total (legs sample_id [] sample_state (Trade sample_buy)) (EpCash "broker" "USD").
Proof.
  destruct (outcome_ok _ _ sample_buy_outcome) as [p Hp].
  destruct (PreviewChange_refines sample_id [] sample_state (Trade sample_buy) p sample_id_ne sample_state_ok
    sample_liabilities) as (st' & views & Ha & _ & _ & _ & Hb).
  - exact sample_buy_ok.
  - reflexivity.
  - exact Hp.
  - exists p, st', views. split; [exact Hp|]. split; [exact Ha|]. apply Hb.
Defined.


(** The two sides of the sample transfer. *)
Definition sample_sides : list Endpoint := [EpValue "bank"; EpCash "broker" "USD"].

Lemma sample_legs :
  (legs sample_id [] sample_state (CashTransfer sample_transfer)).*1
  = [EpValue "bank"; EpCash "broker" "USD"; EpValue "bank"].
Proof. by vm_compute. Qed.

Lemma transfers_conserve_witness :
  ∃ p st' views, PreviewChange sample_id [] sample_state (CashTransfer sample_transfer) = Ok p ∧
    ApplyEffects sample_state (pv_Effects p) = Ok (st', views) ∧
    sumZ (balance st') sample_sides = sumZ (balance sample_state) sample_sides - 10000.
Proof.
  destruct (outcome_ok _ _ sample_transfer_outcome) as [p Hp].
  destruct (PreviewChange_run sample_id [] sample_id_ne sample_state _ p sample_state_ok sample_liabilities
    sample_transfer_ok eq_refl Hp) as (st' & views & Ha & _).
  exists p, st', views. split; [exact Hp|]. split; [exact Ha|].
  refine (transfers_conserve sample_id [] sample_state (CashTransfer sample_transfer) p st' views sample_sides
    sample_id_ne sample_state_ok sample_liabilities sample_transfer_ok eq_refl Hp Ha _ _ eq_refl).
  - by apply (bool_decide_unpack _).
  - rewrite sample_legs. apply Forall_forall. by apply (bool_decide_unpack _).
Defined.

Lemma sample_activity kind reason : ∃ a, newActivity sample_state (sample_id 0) "home" kind reason 0 None = Ok a.
Proof. by eexists. Qed.

Lemma buildCashTransfer_accepts_witness :
  transfer_admissible sample_state sample_transfer
    (sample_account "bank" TrackingBalance false (usd 100000))
    (sample_account "broker" TrackingHoldings false (usd 0)).
Proof.
  destruct (sample_activity ActivityCashTransfer ReasonOther) as [act Hact].
  apply (buildCashTransfer_accepts sample_id sample_state sample_transfer _ _ act sample_state_ok
    sample_transfer_ok eq_refl eq_refl Hact).
  destruct (outcome_ok _ _ sample_transfer_outcome) as [p Hp]. apply is_ok_iff. exists p. exact Hp.
Defined.

Lemma buildValueUpdate_correct_witness :
  ∃ p st' views, buildValueUpdateWithZero sample_id sample_state sample_update false = Ok p ∧
    ApplyEffects sample_state (pv_Effects p) = Ok (st', views) ∧ balance st' (EpValue "save") = 47500.
Proof.
  destruct (sample_activity ActivityValueUpdate ReasonReconciliation) as [act Hact].
  destruct (buildValueUpdate_correct sample_id sample_state sample_update false
    (sample_account "save" TrackingBalance false (usd 500)) act sample_id_ne sample_state_ok
    (cents_ok 475 "USD" eq_refl ltac:(lia)) eq_refl ltac:(discriminate) eq_refl
    ltac:(by right; left) Hact) as (p & st' & views & Hp & Ha & _ & _ & Hb).
  exists p, st', views. split; [exact Hp|]. split; [exact Ha|]. apply (Hb (EpValue "save")).
Defined.

Lemma trade_price_correct_witness :
  ∃ p up, buildTrade sample_id [] sample_state sample_buy = Ok p ∧ DerivedUnitPrice p = Some up ∧
    is_half_even (dval (amount (usd 10000)) / dval (q_value (qty 200)) * p10 8) (units 8 (p_value up)).
Proof.
  destruct (outcome_ok _ _ sample_buy_outcome) as [p Hp]. cbn [PreviewChange] in Hp.
  destruct (trade_price_correct sample_id [] sample_state sample_buy p sample_buy_ok Hp) as (up & Hup & _ & Hh).
  exists p, up. split; [exact Hp|]. split; [exact Hup|]. apply Hh; by vm_compute.
Defined.

Lemma ApplyEffects_conserves_witness :
  ∃ p st' views, ApplyEffects sample_state (pv_Effects p) = Ok (st', views) ∧
    balance st' (EpValue "bank") =
    balance sample_state (EpValue "bank") + sumZ (λ e, delta e (EpValue "bank")) (pv_Effects p).
Proof.
  destruct (outcome_ok _ _ sample_transfer_outcome) as [p Hp].
  destruct (PreviewChange_run sample_id [] sample_id_ne sample_state _ p sample_state_ok sample_liabilities
    sample_transfer_ok eq_refl Hp) as (st' & views & Ha & _).
  exists p, st', views. split; [exact Ha|].
  apply (ApplyEffects_conserves sample_state (pv_Effects p) st' views sample_state_ok
    (PreviewChange_evidence sample_id [] sample_state _ p sample_transfer_ok Hp) Ha).
Defined.

(** The sample transfer undone. *)
Lemma transfer_evidence `{HD : DecimalAPI} `{TZ : TimeZones} newID st i p :
  buildCashTransfer newID st i = Ok p →
  Forall (λ e, Target e ≠ EffectTargetHoldingCost) (pv_Effects p) ∧
  Kind (pv_Activity p) = ActivityCashTransfer ∧ act_HouseholdID (pv_Activity p) = ct_HouseholdID i.
Proof.
  intros H. unfold buildCashTransfer in H. inv_ok.
  match goal with E : newActivity _ _ _ _ _ _ _ = Ok ?a |- _ => apply newActivity_fields in E as [? ?] end.
  cbn [pv_Effects pv_Activity]. split; [|done].
  assert (∀ a, accountTarget a ≠ EffectTargetHoldingCost) as Ht by
    (intros a; unfold accountTarget; by destruct (bool_decide (Mode a = _))).
  destruct (ct_Fee i); cbn [app]; repeat (apply Forall_cons_2; [apply Ht|]); apply Forall_nil_2.
Qed.

Lemma InverseChangeAt_restores_witness :
  ∃ p st' views q st'', ApplyEffects sample_state (pv_Effects p) = Ok (st', views) ∧
    InverseChangeAt sample_id st' (pv_Activity p) (pv_Effects p) 0 = Ok q ∧ state_equiv sample_state st''.
Proof.
  destruct (outcome_ok _ _ sample_transfer_outcome) as [p Hp].
  destruct (PreviewChange_run sample_id [] sample_id_ne sample_state _ p sample_state_ok sample_liabilities
    sample_transfer_ok eq_refl Hp) as (st' & views & Ha & _ & _ & Hf & _).
  pose proof Hp as Hb. cbn [PreviewChange] in Hb.
  destruct (transfer_evidence sample_id sample_state sample_transfer p Hb) as (Hnc & Hk & Hh).
  destruct (sample_activity ActivityReversal ReasonOther) as [act Hact].
  rewrite <-(newActivity_frame _ _ _ _ _ _ _ _ Hf) in Hact.
  change "home"%string with (ct_HouseholdID sample_transfer) in Hact. rewrite <-Hh in Hact.
  destruct (InverseChangeAt_restores sample_id sample_state (pv_Effects p) st' views (pv_Activity p) 0 act
    sample_id_ne sample_state_ok (PreviewChange_evidence sample_id [] sample_state _ p sample_transfer_ok Hp)
    Hnc Ha ltac:(rewrite Hk; discriminate) Hact) as (q & st'' & v'' & Hq & _ & _ & He & _).
  exists p, st', views, q, st''. split; [exact Ha|]. split; [exact Hq|exact He].
Defined.
