(* ===== verification/CostBasis.v ===== *)
(** * Average cost

    [cost_basis.go]: the replay of a holding's cost events into its current lot
    (quantity and average unit cost) and the realised gain of every sale.

    Events are the immutable facts of one holding in replay order.  The loop of
    [ReplayCostBasis] is [replay_loop]; one pass of its body is [replay_event].
    Pointers to values are options, and the default branch of the event kind is
    [KindRaw]. *)

From S2P Require Export ChangeLaws.
From S2P Require Import DecimalModel.
From Stdlib Require Import String Ascii.

#[global] Open Scope Z_scope.

Inductive CostBasisEventKind :=
| CostBasisStartingPoint | CostBasisBuy | CostBasisSell | CostBasisTransferIn | CostBasisTransferOut
| CostBasisAdjustmentIn | CostBasisAdjustmentOut | CostBasisCostAdjustment | CostKindRaw (s : string).
#[export] Instance CostBasisEventKind_eq_dec : EqDecision CostBasisEventKind.
Proof. solve_decision. Defined.

(** [invalidCostBasis] *)
Definition invalidCostBasis (field message : string) : goerror := domainErr ErrInvalidChange field message.
Definition cost_required (message : string) : goerror := domainErr ErrCostBasisRequired "unitCost" message.

Section CostBasis.
Context `{HD : DecimalAPI}.

Record CostBasisEvent := mkCostEvent {
  ce_ActivityID : ActivityID; ce_EffectiveAt : Time; ce_CreatedAt : Time; OrderingID : ActivityID;
  ce_Sequence : Z; ce_Kind : CostBasisEventKind; ce_Quantity : Quantity; ce_UnitPrice : option UnitPrice;
  ce_UnitCost : option UnitPrice; SourceHoldingID : option HoldingID; ce_Gross : option Money;
  ce_Fee : option Money; ce_Currency : CurrencyCode; ce_ReversesActivityID : option ActivityID }.

(** ** Replay positions *)

Record CostBasisBoundary := mkBoundary {
  b_EffectiveAt : Time; b_CreatedAt : Time; b_OrderingID : ActivityID }.

Definition Boundary (e : CostBasisEvent) : CostBasisBoundary :=
  mkBoundary (ce_EffectiveAt e) (ce_CreatedAt e) (OrderingID e).

Definition Before (e : CostBasisEvent) (boundary : CostBasisBoundary) : bool :=
  if negb (ce_EffectiveAt e =? b_EffectiveAt boundary) then ce_EffectiveAt e <? b_EffectiveAt boundary
  else if negb (ce_CreatedAt e =? b_CreatedAt boundary) then ce_CreatedAt e <? b_CreatedAt boundary
  else String.ltb (OrderingID e) (b_OrderingID boundary).

(** ** Lots *)

Record CostLot := mkLot { AverageUnitCost : UnitPrice; l_Quantity : Quantity }.

Record RealizedGainEvent := mkGain {
  g_ActivityID : ActivityID; g_EffectiveAt : Time; g_Quantity : Quantity; g_UnitCost : UnitPrice;
  UnitProceeds : UnitPrice; g_Fee : option Money; RealizedGain : SignedMoney }.

Record CostBasisResult := mkCostResult { Current : CostLot; Realized : list RealizedGainEvent }.

(** Half-even rounding from the truncated quotient and its exact remainder. *)
Definition nonNegativeUnitCostQuotient (total divisor : Decimal) : Result UnitPrice :=
  let '(quotient, remainder) := dQuoRem total divisor 8 in
  let step := dNew 1 (-8) in
  let comparison := dCmp (dMul remainder (dNew 2 0)) (dMul divisor step) in
  let quotient :=
    if (0 <? comparison) || ((comparison =? 0) && Z.testbit (dBigInt (dShift quotient 8)) 0)
    then dAdd quotient step else quotient in
  NewUnitPrice quotient.

Definition quantity_required : goerror :=
  invalidCostBasis "quantity" "cost-basis event quantity must be greater than zero".

Definition buyAcquisitionUnitCostFromGross (quantity : Quantity) (gross : Decimal) (fee : option Money)
    : Result UnitPrice :=
  if q_isZero quantity then Fail quantity_required
  else
    let total := match fee with Some f => dAdd gross (amount f) | None => gross end in
    nonNegativeUnitCostQuotient total (q_value quantity).

Definition BuyAcquisitionUnitCost (quantity : Quantity) (unitPrice : UnitPrice) (fee : option Money)
    : Result UnitPrice :=
  if q_isZero quantity then Fail quantity_required
  else
    gross ← q_multiply quantity unitPrice;
    buyAcquisitionUnitCostFromGross quantity gross fee.

Definition eventTradeGross (e : CostBasisEvent) : Result Decimal :=
  match ce_Gross e with
  | Some gross =>
    if negb (bool_decide (currency gross = ce_Currency e))
    then Fail (invalidCostBasis "gross" "trade gross currency must match settlement currency")
    else if match ce_Fee e with Some f => negb (bool_decide (currency f = currency gross)) | None => false end
    then Fail (invalidCostBasis "fee" "trade fee currency must match settlement currency")
    else Ok (amount gross)
  | None =>
    match ce_UnitPrice e with
    | None => Fail (invalidCostBasis "unitPrice" "trade requires a unit price")
    | Some p => q_multiply (ce_Quantity e) p
    end
  end.

Definition eventUnitCost (e : CostBasisEvent) : Result UnitPrice :=
  match ce_Kind e with
  | CostBasisBuy =>
    match ce_UnitCost e with
    | Some c => Ok c
    | None =>
      match ce_UnitPrice e with
      | None => Fail (invalidCostBasis "unitPrice" "Buy requires a unit price")
      | Some _ =>
        gross ← eventTradeGross e;
        buyAcquisitionUnitCostFromGross (ce_Quantity e) gross (ce_Fee e)
      end
    end
  | CostBasisTransferIn | CostBasisAdjustmentIn =>
    match ce_UnitCost e with
    | None => Fail (cost_required "an incoming quantity requires a per-unit cost")
    | Some c => Ok c
    end
  | _ => Fail (invalidCostBasis "kind" "event does not provide an incoming cost")
  end.

Definition blendCost (current : CostLot) (incoming : option UnitPrice) (incomingQuantity : Quantity)
    (hasCost : bool) : Result CostLot :=
  match incoming with
  | None => Fail (cost_required "an incoming quantity requires a per-unit cost")
  | Some incoming =>
    total ← NewQuantity (dAdd (q_value (l_Quantity current)) (q_value incomingQuantity));
    if q_isZero (l_Quantity current) || negb hasCost then Ok (mkLot incoming total)
    else
      oldValue ← q_multiply (l_Quantity current) (AverageUnitCost current);
      incomingValue ← q_multiply incomingQuantity incoming;
      average ← nonNegativeUnitCostQuotient (dAdd oldValue incomingValue) (q_value total);
      Ok (mkLot average total)
  end.

Definition reduceCost (current : CostLot) (quantity : Quantity) : Result CostLot :=
  if dLessThan (q_value (l_Quantity current)) (q_value quantity)
  then Fail (domainErr ErrInsufficientQuantity "quantity" "quantity reduction exceeds the current cost-basis quantity")
  else
    remaining ← NewQuantity (dSub (q_value (l_Quantity current)) (q_value quantity));
    if q_isZero remaining then
      zero ← ParseUnitPrice "0";
      Ok (mkLot zero remaining)
    else Ok (mkLot (AverageUnitCost current) remaining).

(** ** Replay *)

Definition mark_reversed (excluded : gset ActivityID) (e : CostBasisEvent) : gset ActivityID :=
  match ce_ReversesActivityID e with
  | None => excluded
  | Some id => {[id]} ∪ ({[ce_ActivityID e]} ∪ excluded)
  end.

Definition reversedActivityIDs (events : list CostBasisEvent) : gset ActivityID :=
  foldl mark_reversed ∅ events.

(** The variables of the loop. *)
Record ReplayState := mkReplay { rs_result : CostBasisResult; started : bool; hasCost : bool }.

Definition set_lot (r : CostBasisResult) (lot : CostLot) : CostBasisResult := mkCostResult lot (Realized r).

(** The gain of a sale at the current average cost. *)
Definition sale_gain (lot : CostLot) (e : CostBasisEvent) (proceeds : UnitPrice) (cur : CurrencyCode)
    : Result SignedMoney :=
  gainValue ←
    match ce_Gross e with
    | None => Ok (dMul (dSub (p_value proceeds) (p_value (AverageUnitCost lot))) (q_value (ce_Quantity e)))
    | Some _ =>
      gross ← eventTradeGross e;
      Ok (dSub gross (dMul (p_value (AverageUnitCost lot)) (q_value (ce_Quantity e))))
    end;
  let gainValue := match ce_Fee e with Some f => dSub gainValue (amount f) | None => gainValue end in
  NewSignedMoney gainValue cur.

Definition replay_sell (s : ReplayState) (e : CostBasisEvent) : Result ReplayState :=
  let lot := Current (rs_result s) in
  if q_isZero (ce_Quantity e) then Fail quantity_required
  else if negb (hasCost s) || q_isZero (l_Quantity lot)
  then Fail (cost_required "a Sell requires a resolvable average cost")
  else if dLessThan (q_value (l_Quantity lot)) (q_value (ce_Quantity e))
  then Fail (domainErr ErrInsufficientQuantity "quantity" "Sell exceeds the cost-basis quantity")
  else match ce_UnitPrice e with
  | None => Fail (invalidCostBasis "unitPrice" "Sell requires a unit price")
  | Some proceeds =>
    match ParseCurrency (ce_Currency e) with
    | Fail _ => Fail (invalidCostBasis "currency" "Sell requires a settlement currency")
    | Ok cur =>
      if match ce_Fee e with Some f => negb (bool_decide (currency f = cur)) | None => false end
      then Fail (invalidCostBasis "fee" "Sell fee currency must match settlement currency")
      else
        gain ← sale_gain lot e proceeds cur;
        let realized := mkGain (ce_ActivityID e) (ce_EffectiveAt e) (ce_Quantity e) (AverageUnitCost lot)
                          proceeds (ce_Fee e) gain in
        lot' ← reduceCost lot (ce_Quantity e);
        Ok (mkReplay (mkCostResult lot' (Realized (rs_result s) ++ [realized])) (started s)
              (negb (q_isZero (l_Quantity lot'))))
    end
  end.

(** The body of the loop, for an event that is not excluded. *)
Definition replay_event (startingCost : option UnitPrice) (s : ReplayState) (e : CostBasisEvent)
    : Result ReplayState :=
  let r := rs_result s in
  let lot := Current r in
  match ce_Kind e with
  | CostBasisStartingPoint =>
    if started s then Fail (invalidCostBasis "event" "only one Starting Point is allowed")
    else if q_isZero (ce_Quantity e) then Ok (mkReplay r true (hasCost s))
    else match (match startingCost with Some c => Some c | None => ce_UnitCost e end) with
    | None => Fail (cost_required "a per-unit cost is required for a positive Starting Point quantity")
    | Some cost => Ok (mkReplay (set_lot r (mkLot cost (ce_Quantity e))) true true)
    end
  | CostBasisBuy | CostBasisTransferIn | CostBasisAdjustmentIn =>
    if q_isZero (ce_Quantity e) then Fail quantity_required
    else
      incoming ← eventUnitCost e;
      lot' ← blendCost lot (Some incoming) (ce_Quantity e) (hasCost s);
      Ok (mkReplay (set_lot r lot') (started s) true)
  | CostBasisSell => replay_sell s e
  | CostBasisTransferOut | CostBasisAdjustmentOut =>
    if q_isZero (ce_Quantity e)
    then Fail (invalidCostBasis "quantity" "quantity-reducing event must be greater than zero")
    else if negb (hasCost s) || q_isZero (l_Quantity lot)
    then Fail (cost_required "a quantity reduction requires a resolvable average cost")
    else
      lot' ← reduceCost lot (ce_Quantity e);
      Ok (mkReplay (set_lot r lot') (started s) (negb (q_isZero (l_Quantity lot'))))
  | CostBasisCostAdjustment =>
    match ce_UnitCost e with
    | Some cost =>
      if negb (hasCost s) || q_isZero (l_Quantity lot) || negb (q_isZero (ce_Quantity e))
      then Fail (invalidCostBasis "unitCost" "cost adjustment requires a positive Holding and target unit cost")
      else Ok (mkReplay (set_lot r (mkLot cost (l_Quantity lot))) (started s) (hasCost s))
    | None => Fail (invalidCostBasis "unitCost" "cost adjustment requires a positive Holding and target unit cost")
    end
  | CostKindRaw _ => Fail (invalidCostBasis "kind" "cost-basis event kind is not supported")
  end.

Fixpoint replay_loop (startingCost : option UnitPrice) (excluded : gset ActivityID) (s : ReplayState)
    (events : list CostBasisEvent) : Result ReplayState :=
  match events with
  | [] => Ok s
  | e :: events =>
    if bool_decide (ce_ActivityID e ∈ excluded) then replay_loop startingCost excluded s events
    else
      s' ← replay_event startingCost s e;
      replay_loop startingCost excluded s' events
  end.

Definition ReplayCostBasis (startingCost : option UnitPrice) (events : list CostBasisEvent)
    : Result CostBasisResult :=
  currentQuantity ← ParseQuantity "0";
  zeroCost ← ParseUnitPrice "0";
  let result := mkCostResult (mkLot zeroCost currentQuantity) [] in
  match events with
  | [] =>
    match startingCost with
    | Some _ => Fail (invalidCostBasis "startingCost" "a Starting Point quantity is required")
    | None => Ok result
    end
  | _ :: _ =>
    s ← replay_loop startingCost (reversedActivityIDs events) (mkReplay result false false) events;
    if negb (is_none startingCost) && negb (started s)
    then Fail (invalidCostBasis "startingCost" "startingCost requires a Starting Point event")
    else Ok (rs_result s)
  end.
End CostBasis.
