(* ===== verification/CostBasisLaws.v ===== *)
(** * Average cost: rounding, blending and replay

    The quotient of [CostBasis] rounds half-even exactly once; a blended average is
    the weighted mean, rounded once, and lies between the two costs; the replay
    refines an integer replay of lots; reversed activities leave no trace. *)

From S2P Require Export CostBasis ChangeSamples.
From S2P Require Import DecimalModel.
From Stdlib Require Import String Ascii.

#[global] Open Scope Z_scope.

(** The largest unit price, in units of [10 ^ -8]. *)
Definition max_punits : Z := 99999999999999999999.

(** Non-negative truncation is the floor. *)
Lemma round_trunc_floor q : (0 <= q)%Q →
  (inject_Z (round_trunc q) <= q)%Q ∧ (q < inject_Z (round_trunc q) + 1)%Q.
Proof.
  destruct q as [n d]. unfold round_trunc, Qle, Qlt, Qplus, inject_Z. cbn. intros Hn.
  rewrite Z.quot_div_nonneg by lia. pose proof (Z.div_mod n (Zpos d) ltac:(lia)).
  pose proof (Z.mod_pos_bound n (Zpos d) ltac:(lia)). split; nia.
Qed.

(** Choosing between the floor and its successor by comparing twice the remainder
    with one rounds half-even. *)
Lemma half_even_of_floor q t : (inject_Z t <= q)%Q → (q < inject_Z t + 1)%Q →
  round_half_even q =
  match (2 * (q - inject_Z t) ?= 1)%Q with Lt => t | Gt => t + 1 | Eq => if Z.odd t then t + 1 else t end.
Proof.
  intros H1 H2. apply (is_half_even_unique q); [apply round_half_even_spec|]. unfold is_half_even.
  destruct (Qcompare_spec (2 * (q - inject_Z t)) 1) as [He|Hl|Hg].
  - destruct (Z.odd t) eqn:Ho.
    + assert (Z.even (t + 1) = true) as Hev by (rewrite Z.even_add, <-Z.negb_odd, Ho; done).
      rewrite inject_Z_plus. change (inject_Z 1) with 1%Q. split; [split; lra|]. by split.
    + assert (Z.even t = true) as Hev by (by rewrite <-Z.negb_odd, Ho). split; [split; lra|]. by split.
  - split; [split; lra|]. split; intros; exfalso; lra.
  - rewrite inject_Z_plus. change (inject_Z 1) with 1%Q. split; [split; lra|]. split; intros; exfalso; lra.
Qed.

Section Quotient.
Context `{HD : DecimalAPI} {HL : DecimalLaws}.

Definition punits (p : UnitPrice) : Z := units 8 (p_value p).
Definition price_ok (p : UnitPrice) : Prop := -8 <= dExponent (p_value p) ∧ 0 <= punits p <= max_punits.

Lemma maxUnitPrice_units : units 8 maxUnitPrice = max_punits.
Proof. unfold units. destruct maxUnitPrice_coef as [-> ->]. reflexivity. Qed.

Lemma NewUnitPrice_exact v : -8 <= dExponent v →
  NewUnitPrice v = Ok (mkUnitPrice v) ↔ 0 <= units 8 v <= max_punits.
Proof.
  intros He. rewrite NewUnitPrice_ok, UnitPrice_ok_spec. cbn [p_value].
  destruct maxUnitPrice_coef as [_ Hme]. rewrite (units_le 8 v maxUnitPrice), maxUnitPrice_units by lia.
  rewrite dval_nonneg_coef. unfold units at 2, cunits.
  pose proof (pow10_pos (dExponent v + 8) ltac:(lia)). split; [intros (_ & ? & ? & _); nia|].
  intros [H1 H2]. split; [done|]. split; [nia|]. split; [done|by right].
Qed.

(** The decimal that [nonNegativeUnitCostQuotient] hands to the constructor. *)
Lemma quotient_value total divisor : (0 <= dval total)%Q → (0 < dval divisor)%Q →
  ∃ v, nonNegativeUnitCostQuotient total divisor = NewUnitPrice v ∧ dExponent v = -8 ∧
       units 8 v = round_half_even (dval total / dval divisor * p10 8).
Proof.
  intros Ht Hd. assert (¬ (dval divisor == 0)%Q) as Hz by (intros H; lra).
  unfold nonNegativeUnitCostQuotient. destruct (dQuoRem total divisor 8) as [q r] eqn:E.
  destruct (dQuoRem_spec _ _ _ _ _ Hz E) as (Hqr & Hc & He).
  set (X := (dval total / dval divisor * p10 8)%Q) in *. set (t := round_trunc X) in *.
  assert (HX : (0 <= X)%Q).
  { unfold X. apply Qmult_le_0_compat; [|apply Qlt_le_weak, p10_pos].
    apply Qle_shift_div_l; [done|]. lra. }
  destruct (round_trunc_floor X HX) as [F1 F2]. fold t in F1, F2.
  assert (Hq : (dval q == inject_Z t * p10 (-8))%Q) by (unfold dval, cval; by rewrite Hc, He).
  assert (Hp : (p10 8 * p10 (-8) == 1)%Q) by (apply (p10_opp 8)).
  assert (Hr : (dval r == dval divisor * p10 (-8) * (X - inject_Z t))%Q).
  { assert (dval r == dval total - dval divisor * dval q)%Q as -> by (rewrite Hqr; ring).
    assert (dval total == dval divisor * X * p10 (-8))%Q as ->.
    { transitivity (dval total * (p10 8 * p10 (-8)))%Q; [rewrite Hp; ring|]. unfold X. by field. }
    rewrite Hq. ring. }
  assert (Hcmp : dCmp (dMul r (dNew 2 0)) (dMul divisor (dNew 1 (-8))) =
                 match (2 * (X - inject_Z t) ?= 1)%Q with Lt => -1 | Eq => 0 | Gt => 1 end).
  { rewrite dCmp_val, !dMul_val, !dval_new, Hr.
    set (k := (dval divisor * p10 (-8))%Q).
    assert (0 < k)%Q as Hk by (apply Qmult_lt_0_compat; [done|apply p10_pos]).
    assert ((k * (X - inject_Z t) * (inject_Z 2 * p10 0) == (2 * (X - inject_Z t)) * k)%Q) as ->
      by (rewrite p10_0; change (inject_Z 2) with 2%Q; unfold k; ring).
    assert ((dval divisor * (inject_Z 1 * p10 (-8)) == 1 * k)%Q) as -> by (change (inject_Z 1) with 1%Q; unfold k; ring).
    assert (((2 * (X - inject_Z t)) * k ?= 1 * k)%Q = (2 * (X - inject_Z t) ?= 1)%Q) as ->; [|done].
    destruct (Qcompare_spec (2 * (X - inject_Z t)) 1) as [He'|Hl|Hg].
    - apply Qeq_alt. by rewrite He'.
    - apply Qlt_alt. by apply Qmult_lt_compat_r.
    - apply Qgt_alt. by apply Qmult_lt_compat_r. }
  assert (Hbit : dBigInt (dShift q 8) = t).
  { rewrite dBigInt_val, dShift_val, Hq, <-Qmult_assoc, (Qmult_comm (p10 (-8))), Hp, Qmult_1_r. apply round_trunc_Z. }
  cbn zeta. rewrite Hcmp, Hbit, (half_even_of_floor X t F1 F2), Z.bit0_odd.
  assert (Hu : units 8 q = t) by (unfold units, cunits; rewrite Hc, He; change (-8 + 8) with 0; lia).
  assert (Hs : units 8 (dAdd q (dNew 1 (-8))) = t + 1).
  { rewrite units_add by (rewrite ?dNew_expo; lia). rewrite Hu, units_new. reflexivity. }
  assert (Hse : dExponent (dAdd q (dNew 1 (-8))) = -8) by (rewrite dAdd_expo, dNew_expo, He; reflexivity).
  destruct (2 * (X - inject_Z t) ?= 1)%Q; cbn [Z.ltb Z.eqb Z.compare orb andb]; [destruct (Z.odd t)|..];
    eexists; (split; [reflexivity|]); done.
Qed.
End Quotient.

(** ** Lots as integers *)

Section Lots.
Context `{HD : DecimalAPI} {HL : DecimalLaws}.

Definition half_even_div (n d : Z) : Z := round_half_even (inject_Z n / inject_Z d).

Definition lot_ok (l : CostLot) : Prop := price_ok (AverageUnitCost l) ∧ qty_ok (l_Quantity l).

Lemma NewUnitPrice_ok_units v p : -8 <= dExponent v → NewUnitPrice v = Ok p →
  p = mkUnitPrice v ∧ price_ok p.
Proof.
  intros He H. pose proof H as H'. apply NewUnitPrice_ok in H' as [-> _].
  split; [done|]. split; [done|]. by apply NewUnitPrice_exact.
Qed.

Lemma NewQuantity_ok_units v q : -8 <= dExponent v → NewQuantity v = Ok q → q = mkQuantity v ∧ qty_ok q.
Proof.
  intros He H. pose proof H as H'. apply NewQuantity_ok in H' as [-> _].
  split; [done|]. split; [done|]. by apply NewQuantity_exact.
Qed.

Lemma zero_price : ∃ p, ParseUnitPrice "0" = Ok p ∧ price_ok p ∧ punits p = 0.
Proof.
  destruct (dNewFromString_literal "0" 0 0 eq_refl) as (d & Hd & Hc & He). unfold ParseUnitPrice.
  change (unitPriceSyntax "0") with true. cbn [negb]. rewrite Hd.
  assert (units 8 d = 0) as Hu by (unfold units, cunits; rewrite Hc; done).
  exists (mkUnitPrice d). rewrite (proj2 (NewUnitPrice_exact d ltac:(lia))) by (rewrite Hu; unfold max_punits; lia).
  split; [done|]. unfold price_ok, punits. cbn [p_value]. rewrite Hu, He. unfold max_punits. split; [lia|done].
Qed.

Lemma zero_quantity : ∃ q, ParseQuantity "0" = Ok q ∧ qty_ok q ∧ qunits q = 0.
Proof.
  destruct (dNewFromString_literal "0" 0 0 eq_refl) as (d & Hd & Hc & He). unfold ParseQuantity.
  change (quantitySyntax "0") with true. cbn [negb]. rewrite Hd.
  assert (units 8 d = 0) as Hu by (unfold units, cunits; rewrite Hc; done).
  exists (mkQuantity d). rewrite (proj2 (NewQuantity_exact d ltac:(lia))) by (rewrite Hu; unfold max_qunits; lia).
  split; [done|]. unfold qty_ok, qunits. cbn [q_value]. rewrite Hu, He. unfold max_qunits. split; [lia|done].
Qed.

Lemma quotient_ok total divisor p : (0 <= dval total)%Q → (0 < dval divisor)%Q →
  nonNegativeUnitCostQuotient total divisor = Ok p →
  price_ok p ∧ punits p = round_half_even (dval total / dval divisor * p10 8).
Proof.
  intros Ht Hd H. destruct (quotient_value total divisor Ht Hd) as (v & Hv & He & Hu). rewrite Hv in H.
  apply NewUnitPrice_ok_units in H as [-> Hp]; [|lia]. by split.
Qed.

Lemma q_isZero_units q : qty_ok q → q_isZero q = bool_decide (qunits q = 0).
Proof.
  intros [He _]. apply eq_true_iff_eq. rewrite bool_decide_eq_true. unfold q_isZero, qunits.
  rewrite dIsZero_val. assert (-8 <= dExponent dZero) by (rewrite dZero_expo; lia).
  pose proof (units_eq 8 (q_value q) dZero He H) as Hu. rewrite dval_dzero, (units_dZero 8) in Hu by lia. exact Hu.
Qed.

Lemma q_isZero_false q : qty_ok q → q_isZero q = false → 0 < qunits q.
Proof. intros Hq. rewrite (q_isZero_units q Hq), bool_decide_eq_false. destruct Hq as [_ ?]. lia. Qed.

Lemma dval_of_units k d : - k <= dExponent d → (dval d == inject_Z (units k d) * p10 (- k))%Q.
Proof. intros H. rewrite <-(dval_units k d H), <-Qmult_assoc, p10_opp. ring. Qed.

Lemma qty_val q : qty_ok q → (dval (q_value q) == inject_Z (qunits q) * p10 (-8))%Q.
Proof. intros [He _]. by apply (dval_of_units 8). Qed.
Lemma price_val p : price_ok p → (dval (p_value p) == inject_Z (punits p) * p10 (-8))%Q.
Proof. intros [He _]. by apply (dval_of_units 8). Qed.

Lemma units_pos_val k d : - k <= dExponent d → 0 < units k d → (0 < dval d)%Q.
Proof.
  intros He Hu. rewrite (dval_of_units k d He). apply Qmult_lt_0_compat; [|apply p10_pos].
  change 0%Q with (inject_Z 0). by rewrite <-Zlt_Qlt.
Qed.

(** The weighted mean of two lots, in units. *)
Lemma weighted_units q1 c1 q2 c2 : 0 < q1 + q2 →
  ((inject_Z q1 * p10 (-8) * (inject_Z c1 * p10 (-8)) + inject_Z q2 * p10 (-8) * (inject_Z c2 * p10 (-8)))
   / (inject_Z (q1 + q2) * p10 (-8)) * p10 8 == inject_Z (q1 * c1 + q2 * c2) / inject_Z (q1 + q2))%Q.
Proof.
  intros Hq. pose proof (p10_opp 8) as Hp. pose proof (p10_nz (-8)) as Hn.
  assert (¬ (inject_Z (q1 + q2) == 0)%Q) as Hz by (unfold Qeq; cbn; lia).
  rewrite !inject_Z_plus, !inject_Z_mult. rewrite inject_Z_plus in Hz.
  transitivity ((inject_Z q1 * inject_Z c1 + inject_Z q2 * inject_Z c2) / (inject_Z q1 + inject_Z q2) * (p10 8 * p10 (-8)))%Q.
  - field. by split.
  - rewrite Hp. field. done.
Qed.

(** Blending on units. *)
Definition blend_units (q c u inc : Z) : Z :=
  if bool_decide (q = 0) then inc else half_even_div (q * c + u * inc) (q + u).

Lemma blendCost_units lot inc q hc lot' :
  lot_ok lot → price_ok inc → qty_ok q → 0 < qunits q → (hc = false → qunits (l_Quantity lot) = 0) →
  blendCost lot (Some inc) q hc = Ok lot' →
  lot_ok lot' ∧ qunits (l_Quantity lot') = qunits (l_Quantity lot) + qunits q ∧
  punits (AverageUnitCost lot') =
    blend_units (qunits (l_Quantity lot)) (punits (AverageUnitCost lot)) (qunits q) (punits inc).
Proof.
  intros [Hc Hl] Hi Hq Hpos Hhc H. unfold blendCost in H. apply bind_Ok in H as (total & Ht & H).
  pose proof (proj1 Hl) as Hle. pose proof (proj1 Hq) as Hqe.
  apply NewQuantity_ok_units in Ht as [-> Htok]; [|rewrite dAdd_expo; lia].
  assert (Hu : qunits (mkQuantity (dAdd (q_value (l_Quantity lot)) (q_value q))) =
               qunits (l_Quantity lot) + qunits q) by (by apply units_add).
  unfold blend_units. rewrite (q_isZero_units _ Hl) in H.
  destruct (bool_decide (qunits (l_Quantity lot) = 0)) eqn:Ez; cbn [orb] in H.
  { injection H as <-. by split. }
  apply bool_decide_eq_false in Ez. destruct hc; cbn [negb] in H; [|by destruct Ez, Hhc].
  apply bind_Ok in H as (v1 & H1 & H). apply bind_Ok in H as (v2 & H2 & H). apply bind_Ok in H as (avg & Ha & H).
  injection H as <-. apply q_multiply_ok in H1 as [V1 P1], H2 as [V2 P2].
  pose proof (proj1 (proj2 Hl)) as Hl0.
  apply quotient_ok in Ha as [Hok Hp].
  - split; [by split|]. split; [done|]. cbn [AverageUnitCost]. rewrite Hp. unfold half_even_div.
    rewrite dAdd_val, V1, V2, (qty_val _ Hl), (qty_val _ Hq), (price_val _ Hc), (price_val _ Hi), (qty_val _ Htok), Hu.
    rewrite weighted_units by lia. done.
  - rewrite dAdd_val. lra.
  - apply (units_pos_val 8); [apply Htok|]. change (0 < qunits (mkQuantity (dAdd (q_value (l_Quantity lot)) (q_value q)))). lia.
Qed.

Lemma reduceCost_units lot q lot' : lot_ok lot → qty_ok q → reduceCost lot q = Ok lot' →
  lot_ok lot' ∧ qunits (l_Quantity lot') = qunits (l_Quantity lot) - qunits q ∧
  punits (AverageUnitCost lot') =
    if bool_decide (qunits (l_Quantity lot) - qunits q = 0) then 0 else punits (AverageUnitCost lot).
Proof.
  intros [Hc Hl] Hq H. unfold reduceCost in H. inv_ok.
  match goal with H : NewQuantity _ = Ok _ |- _ => apply NewQuantity_ok_units in H as [-> Hok] end;
    [|rewrite dSub_expo; pose proof (proj1 Hl); pose proof (proj1 Hq); lia].
  assert (Hu : qunits (mkQuantity (dSub (q_value (l_Quantity lot)) (q_value q))) =
               qunits (l_Quantity lot) - qunits q) by (apply units_sub; [apply Hl|apply Hq]).
  rewrite (q_isZero_units _ Hok), Hu in H. destruct (bool_decide _).
  - inv_ok. destruct zero_price as (z & Hz & Hzok & Hzu).
    match goal with H : ParseUnitPrice "0" = Ok _ |- _ => rewrite Hz in H; injection H as <- end. by split.
  - injection H as <-. by split.
Qed.
End Lots.

(** ** The integer replay *)

Section Replay.
Context `{HD : DecimalAPI} {HL : DecimalLaws}.

(** Events as the loaders build them, from parsed amounts. *)
Definition event_ok (e : CostBasisEvent) : Prop :=
  qty_ok (ce_Quantity e) ∧ (∀ p, ce_UnitPrice e = Some p → price_ok p) ∧
  (∀ p, ce_UnitCost e = Some p → price_ok p) ∧ (∀ m, ce_Gross e = Some m → Money_ok m) ∧
  (∀ m, ce_Fee e = Some m → Money_ok m).

Definition gross_value (e : CostBasisEvent) : Q :=
  match ce_Gross e, ce_UnitPrice e with
  | Some g, _ => dval (amount g)
  | None, Some p => dval (q_value (ce_Quantity e)) * dval (p_value p)
  | None, None => 0
  end.
Definition fee_value (e : CostBasisEvent) : Q :=
  match ce_Fee e with Some f => dval (amount f) | None => 0 end.

(** The unit cost an acquisition brings in: the stated one, else gross and fee
    over the quantity, rounded half-even once. *)
Definition incoming_units (e : CostBasisEvent) : Z :=
  match ce_UnitCost e with
  | Some c => punits c
  | None => round_half_even ((gross_value e + fee_value e) / dval (q_value (ce_Quantity e)) * p10 8)
  end.

(** The gain of a sale at average cost [c], rounded half-even once. *)
Definition gain_units (c : Z) (e : CostBasisEvent) : Z :=
  round_half_even ((gross_value e - inject_Z c * p10 (-8) * dval (q_value (ce_Quantity e)) - fee_value e) * p10 4).

(** Quantity, average cost and gains, as integers. *)
Abbreviation ILot := (prod (prod Z Z) (list Z)).

Definition lot_step (start : option UnitPrice) (s : ILot) (e : CostBasisEvent) : ILot :=
  let '(q, c, gains) := s in
  let u := qunits (ce_Quantity e) in
  match ce_Kind e with
  | CostBasisStartingPoint =>
    if bool_decide (u = 0) then s
    else (u, match start, ce_UnitCost e with Some p, _ | None, Some p => punits p | None, None => 0 end, gains)
  | CostBasisBuy | CostBasisTransferIn | CostBasisAdjustmentIn => (q + u, blend_units q c u (incoming_units e), gains)
  | CostBasisSell => (q - u, if bool_decide (q - u = 0) then 0 else c, gains ++ [gain_units c e])
  | CostBasisTransferOut | CostBasisAdjustmentOut => (q - u, if bool_decide (q - u = 0) then 0 else c, gains)
  | CostBasisCostAdjustment => (q, match ce_UnitCost e with Some p => punits p | None => c end, gains)
  | CostKindRaw _ => s
  end.

(** The relation between the loop's variables and the integer lot. *)
Definition replays (s : ReplayState) (i : ILot) : Prop :=
  let lot := Current (rs_result s) in
  lot_ok lot ∧ i = (qunits (l_Quantity lot), punits (AverageUnitCost lot),
                    (λ g, sm_units (RealizedGain g)) <$> Realized (rs_result s)) ∧
  (hasCost s = false → qunits (l_Quantity lot) = 0).

Lemma eventTradeGross_val e g : eventTradeGross e = Ok g → (dval g == gross_value e)%Q.
Proof.
  unfold eventTradeGross, gross_value. destruct (ce_Gross e) as [m|].
  - destruct (negb _); [done|]. destruct (match ce_Fee e with Some _ => _ | None => _ end); [done|]. by intros [= <-].
  - destruct (ce_UnitPrice e) as [p|]; [|done]. intros H. by apply q_multiply_ok in H as [-> _].
Qed.

Lemma Money_nonneg m : Money_ok m → (0 <= dval (amount m))%Q.
Proof.
  intros (He & Hr & _). rewrite (dval_of_units 4) by done.
  apply Qmult_le_0_compat; [|apply Qlt_le_weak, p10_pos]. change 0%Q with (inject_Z 0). rewrite <-Zle_Qle. apply Hr.
Qed.

Lemma gross_nonneg e g : event_ok e → eventTradeGross e = Ok g → (0 <= dval g)%Q.
Proof.
  intros (_ & _ & _ & Hg & _) H. unfold eventTradeGross in H. destruct (ce_Gross e) as [m|].
  - destruct (negb _); [done|]. destruct (match ce_Fee e with Some _ => _ | None => _ end); [done|].
    injection H as <-. by apply Money_nonneg, Hg.
  - destruct (ce_UnitPrice e) as [p|]; [|done]. by apply q_multiply_ok in H as [_ ?].
Qed.

Lemma eventUnitCost_units e p : event_ok e → q_isZero (ce_Quantity e) = false → eventUnitCost e = Ok p →
  price_ok p ∧ punits p = incoming_units e.
Proof.
  intros He Hz H. pose proof He as (Hq & Hp & Hc & _ & Hf). unfold eventUnitCost in H. unfold incoming_units.
  destruct (ce_Kind e); try done; destruct (ce_UnitCost e) as [c|]; try done;
    try (injection H as <-; split; [by apply Hc|done]).
  destruct (ce_UnitPrice e) as [up|] eqn:Eu; [|done]. apply bind_Ok in H as (g & Hg & H).
  pose proof (eventTradeGross_val e g Hg) as Hgv. pose proof (gross_nonneg e g He Hg) as Hg0.
  unfold buyAcquisitionUnitCostFromGross in H. rewrite Hz in H.
  assert (Ht : (dval (match ce_Fee e with Some f => dAdd g (amount f) | None => g end) == gross_value e + fee_value e)%Q).
  { unfold fee_value. destruct (ce_Fee e); [by rewrite dAdd_val, Hgv|rewrite Hgv; ring]. }
  apply quotient_ok in H as [Hok Hu].
  - split; [done|]. by rewrite Hu, Ht.
  - rewrite Ht, <-Hgv. unfold fee_value. destruct (ce_Fee e) as [f|]; [|lra].
    pose proof (Money_nonneg f (Hf f eq_refl)). lra.
  - apply (units_pos_val 8); [apply Hq|]. by apply (q_isZero_false (ce_Quantity e)).
Qed.

Lemma sale_gain_units lot e p cur g : price_ok (AverageUnitCost lot) → ce_UnitPrice e = Some p →
  sale_gain lot e p cur = Ok g → sm_units g = gain_units (punits (AverageUnitCost lot)) e.
Proof.
  intros Hc Hp H. unfold sale_gain in H. apply bind_Ok in H as (v & Hv & H).
  apply NewSignedMoney_units in H as ->. unfold gain_units. pose proof (price_val _ Hc) as Hcv.
  assert (Hval : (dval v == gross_value e - inject_Z (punits (AverageUnitCost lot)) * p10 (-8) *
                            dval (q_value (ce_Quantity e)))%Q).
  { destruct (ce_Gross e) as [m|] eqn:Eg.
    - apply bind_Ok in Hv as (gr & Hgr & Hv). injection Hv as <-.
      rewrite dSub_val, dMul_val, (eventTradeGross_val _ _ Hgr), Hcv. ring.
    - injection Hv as <-. unfold gross_value. rewrite Eg, Hp, dMul_val, dSub_val, Hcv. ring. }
  unfold fee_value. destruct (ce_Fee e); [rewrite dSub_val|]; rewrite Hval; [done|].
  apply round_half_even_proper. ring.
Qed.

Definition start_ok (start : option UnitPrice) : Prop := ∀ p, start = Some p → price_ok p.

Lemma reduce_step lot q lot' : lot_ok lot → qty_ok q → reduceCost lot q = Ok lot' →
  lot_ok lot' ∧ qunits (l_Quantity lot') = qunits (l_Quantity lot) - qunits q ∧
  punits (AverageUnitCost lot') =
    (if bool_decide (qunits (l_Quantity lot) - qunits q = 0) then 0 else punits (AverageUnitCost lot)) ∧
  (negb (q_isZero (l_Quantity lot')) = false → qunits (l_Quantity lot') = 0).
Proof.
  intros Hl Hq H. destruct (reduceCost_units lot q lot' Hl Hq H) as (Hok & Hu & Hp).
  do 3 (split; [done|]). rewrite negb_false_iff, (q_isZero_units _ (proj2 Hok)). by intros ?%bool_decide_eq_true.
Qed.

Lemma replay_sell_units s e s' i : ce_Kind e = CostBasisSell → event_ok e → replays s i →
  replay_sell s e = Ok s' → replays s' (lot_step None i e).
Proof.
  intros Hk He (Hl & -> & Hc) H. unfold replay_sell in H. inv_ok.
  destruct (ce_UnitPrice e) as [p|] eqn:Ep; [|done]. destruct (ParseCurrency _) as [cur|]; [|done]. inv_ok.
  match goal with H : sale_gain _ _ _ _ = Ok _ |- _ => apply sale_gain_units in H; [|apply Hl|done] end.
  match goal with H : reduceCost _ _ = Ok _ |- _ => apply reduce_step in H as (Hok & Hu & Hp & Hz); [|done|apply He] end.
  unfold lot_step. rewrite Hk. split; [done|]. split; [|done]. cbn [rs_result Current Realized].
  rewrite Hu, Hp, fmap_app. cbn. by match goal with H : sm_units _ = _ |- _ => rewrite H end.
Qed.

(** One event. *)
Lemma replay_event_units start s e s' i : start_ok start → event_ok e → replays s i →
  replay_event start s e = Ok s' → replays s' (lot_step start i e).
Proof.
  intros Hst He Hr H. pose proof Hr as (Hl & Hi & Hc). pose proof He as (Hq & _ & Huc & _).
  assert (Hin : (ce_Kind e = CostBasisBuy ∨ ce_Kind e = CostBasisTransferIn ∨ ce_Kind e = CostBasisAdjustmentIn) →
    (if q_isZero (ce_Quantity e) then Fail quantity_required
     else incoming ← eventUnitCost e; lot' ← blendCost (Current (rs_result s)) (Some incoming) (ce_Quantity e) (hasCost s);
          Ok (mkReplay (set_lot (rs_result s) lot') (started s) true)) = Ok s' → replays s' (lot_step start i e)).
  { intros Hk H'. destruct (q_isZero (ce_Quantity e)) eqn:Ez; [done|].
    apply bind_Ok in H' as (inc & Hinc & H'). apply bind_Ok in H' as (lot' & Hb & H'). injection H' as <-.
    destruct (eventUnitCost_units e inc He Ez Hinc) as [Hio Hiu].
    destruct (blendCost_units _ _ _ _ _ Hl Hio Hq (q_isZero_false _ Hq Ez) Hc Hb) as (Hok & Hu & Hp).
    subst i. unfold lot_step. split; [done|]. split; [|done]. cbn [rs_result set_lot Current Realized].
    rewrite Hu, Hp, Hiu. by destruct Hk as [-> |[-> | ->]]. }
  assert (Hout : (ce_Kind e = CostBasisTransferOut ∨ ce_Kind e = CostBasisAdjustmentOut) → ∀ lot',
    reduceCost (Current (rs_result s)) (ce_Quantity e) = Ok lot' →
    replays (mkReplay (set_lot (rs_result s) lot') (started s) (negb (q_isZero (l_Quantity lot')))) (lot_step start i e)).
  { intros Hk lot' Hb. destruct (reduce_step _ _ _ Hl Hq Hb) as (Hok & Hu & Hp & Hz).
    subst i. unfold lot_step. split; [done|]. split; [|done]. cbn [rs_result set_lot Current Realized].
    rewrite Hu, Hp. by destruct Hk as [-> | ->]. }
  unfold replay_event in H. destruct (ce_Kind e) eqn:Ek.
  - inv_ok. destruct (q_isZero (ce_Quantity e)) eqn:Ez.
    + injection H as <-. rewrite (q_isZero_units _ Hq) in Ez. subst i. unfold lot_step. rewrite Ek, Ez. done.
    + rewrite (q_isZero_units _ Hq) in Ez. subst i. unfold lot_step. rewrite Ek, Ez.
      destruct start as [p|]; [|destruct (ce_UnitCost e) as [p|] eqn:Ec; [|done]];
        injection H as <-; (split; [split; [|done]|split; [done|done]]); [by apply Hst|by apply Huc].
  - by apply Hin; [left|].
  - subst i. apply (replay_sell_units s e s' _ Ek He Hr) in H. revert H. unfold lot_step. by rewrite Ek.
  - by apply Hin; [right; left|].
  - inv_ok. apply Hout; [by left|done].
  - by apply Hin; [right; right|].
  - inv_ok. apply Hout; [by right|done].
  - destruct (ce_UnitCost e) as [c|] eqn:Ec; [|done]. inv_ok. subst i. unfold lot_step. rewrite Ek, Ec.
    split; [split; [by apply Huc|apply Hl]|]. by split.
  - done.
Qed.

Lemma replay_loop_units start excl s events s' i : start_ok start → Forall event_ok events → replays s i →
  replay_loop start excl s events = Ok s' →
  replays s' (foldl (lot_step start) i (filter (λ e, ce_ActivityID e ∉ excl) events)).
Proof.
  intros Hst. revert s i. induction events as [|e l IH]; intros s i He Hr H; [by injection H as <-|].
  apply Forall_cons in He as [He Hl]. cbn [replay_loop] in H. rewrite filter_cons. case_bool_decide as Hx.
  - destruct (decide (ce_ActivityID e ∉ excl)); [done|]. by apply (IH s).
  - destruct (decide (ce_ActivityID e ∉ excl)); [|done]. apply bind_Ok in H as (s1 & H1 & H).
    cbn [foldl]. apply (IH s1); [done| |done]. by apply (replay_event_units start s e).
Qed.

Definition counted (events : list CostBasisEvent) : list CostBasisEvent :=
  filter (λ e, ce_ActivityID e ∉ reversedActivityIDs events) events.

(** Claim C40.  The replay of cost events refines an integer replay: over the events
    that are neither reversals nor reversed, a starting point sets the lot, an
    acquisition adds its quantity and blends its cost as the weighted mean rounded
    half-even once, a reduction keeps the average (zero when nothing is left), and
    every sale realises gross minus cost of the quantity sold minus fee, rounded
    half-even once. *)
Theorem ReplayCostBasis_refines start events r :
  start_ok start → Forall event_ok events → ReplayCostBasis start events = Ok r →
  lot_ok (Current r) ∧
  foldl (lot_step start) (0, 0, []) (counted events) =
    (qunits (l_Quantity (Current r)), punits (AverageUnitCost (Current r)),
     (λ g, sm_units (RealizedGain g)) <$> Realized r).
Proof.
  intros Hst He H. unfold ReplayCostBasis in H.
  destruct zero_quantity as (q0 & Hq0 & Hqok & Hqu), zero_price as (p0 & Hp0 & Hpok & Hpu).
  rewrite Hq0, bind_Ok_l, Hp0, bind_Ok_l in H.
  set (s0 := mkReplay (mkCostResult (mkLot p0 q0) []) false false) in *.
  assert (H0 : replays s0 (0, 0, [])) by (split; [done|]; split; [cbn; by rewrite Hqu, Hpu|done]).
  destruct events as [|e l].
  - destruct start; [done|]. injection H as <-. split; [apply H0|]. cbn. by rewrite Hqu, Hpu.
  - apply bind_Ok in H as (s & Hl & H). apply (replay_loop_units start _ _ _ _ _ Hst He H0) in Hl as (Hok & Hi & _).
    destruct (_ && _); [done|]. injection H as <-. by split.
Qed.

(** Unit costs are rounded half-even exactly once: the quotient of a
    non-negative total by a positive quantity is the exact quotient rounded to
    eight places, ties to even, whatever the number of digits of the operands, and
    the only error is the overflow of the largest unit price. *)
Theorem nonNegativeUnitCostQuotient_correct total divisor :
  (0 <= dval total)%Q → (0 < dval divisor)%Q →
  let u := round_half_even (dval total / dval divisor * p10 8) in
  if u <=? max_punits
  then ∃ p, nonNegativeUnitCostQuotient total divisor = Ok p ∧ price_ok p ∧ punits p = u
  else code_of (nonNegativeUnitCostQuotient total divisor) = Some ErrDecimalOverflow.
Proof.
  intros Ht Hd u. destruct (quotient_value total divisor Ht Hd) as (v & -> & He & Hu). fold u in Hu.
  assert (0 <= u) as H0.
  { unfold u. rewrite <-(round_half_even_Z 0). apply round_half_even_mono.
    apply Qmult_le_0_compat; [apply Qle_shift_div_l; lra|apply Qlt_le_weak, p10_pos]. }
  destruct (Z.leb_spec u max_punits) as [Hle|Hgt].
  - exists (mkUnitPrice v). unfold price_ok, punits. cbn [p_value]. rewrite Hu, He.
    rewrite (proj2 (NewUnitPrice_exact v ltac:(lia))) by lia. split; [done|]. split; [lia|done].
  - unfold NewUnitPrice, validateBoundedDecimal.
    assert (dIsNegative v = false) as ->.
    { destruct (dIsNegative v) eqn:E; [|done]. apply (units_neg_iff 8) in E; [lia|lia]. }
    assert (dGreaterThan v maxUnitPrice = true) as ->; [|done].
    destruct maxUnitPrice_coef as [_ Hme]. apply dGreaterThan_val, (units_lt 8); [lia|lia|].
    by rewrite maxUnitPrice_units, Hu.
Qed.

Lemma half_even_div_between a b q u : 0 < q → 0 < u →
  Z.min a b <= half_even_div (q * a + u * b) (q + u) <= Z.max a b.
Proof.
  intros Hq Hu. unfold half_even_div. apply round_half_even_bounds.
  assert (0 < inject_Z (q + u))%Q as Hp by (change 0%Q with (inject_Z 0); rewrite <-Zlt_Qlt; lia).
  split; [apply Qle_shift_div_l|apply Qle_shift_div_r]; try done; rewrite <-inject_Z_mult, <-Zle_Qle; nia.
Qed.

(** Averaging never leaves the range of its inputs: adding a positive
    quantity at some unit cost to a positive lot gives the sum of the quantities
    at the weighted mean of the two costs, rounded half-even once, and that mean
    lies between the two costs. *)
Theorem blendCost_between lot inc q lot' :
  lot_ok lot → price_ok inc → qty_ok q → 0 < qunits q → 0 < qunits (l_Quantity lot) →
  blendCost lot (Some inc) q true = Ok lot' →
  let c := punits (AverageUnitCost lot) in
  qunits (l_Quantity lot') = qunits (l_Quantity lot) + qunits q ∧
  punits (AverageUnitCost lot') =
    half_even_div (qunits (l_Quantity lot) * c + qunits q * punits inc) (qunits (l_Quantity lot) + qunits q) ∧
  Z.min c (punits inc) <= punits (AverageUnitCost lot') <= Z.max c (punits inc).
Proof.
  intros Hl Hi Hq Hp Hlp H. destruct (blendCost_units lot inc q true lot' Hl Hi Hq Hp ltac:(done) H) as (_ & Hu & Ha).
  unfold blend_units in Ha. rewrite bool_decide_eq_false_2 in Ha by lia.
  split; [done|]. split; [done|]. rewrite Ha. by apply half_even_div_between.
Qed.

(** ** Reversals *)

Lemma reversed_acc events acc x :
  x ∈ foldl mark_reversed acc events ↔
  x ∈ acc ∨ ∃ e id, e ∈ events ∧ ce_ReversesActivityID e = Some id ∧ (x = id ∨ x = ce_ActivityID e).
Proof.
  revert acc. induction events as [|e l IH]; intros acc; cbn [foldl].
  - split; [by left|]. intros [?|(e & id & Hin & _)]; [done|by apply elem_of_nil in Hin].
  - rewrite IH. unfold mark_reversed at 1. destruct (ce_ReversesActivityID e) as [id|] eqn:Er.
    + rewrite !elem_of_union, !elem_of_singleton. split.
      * intros [[->|[->|?]]|(e' & id' & Hin & Hr)]; [right|right|by left|right].
        -- exists e, id. split; [left|]. split; [done|by left].
        -- exists e, id. split; [left|]. split; [done|by right].
        -- exists e', id'. split; [by right|done].
      * intros [?|(e' & id' & [->|Hin]%elem_of_cons & Hr & Hx)]; [by left; right; right| |].
        -- rewrite Er in Hr. injection Hr as <-. left. destruct Hx as [-> | ->]; [by left|by right; left].
        -- right. by exists e', id'.
    + split.
      * intros [?|(e' & id' & Hin & Hr)]; [by left|right]. exists e', id'. split; [by right|done].
      * intros [?|(e' & id' & [->|Hin]%elem_of_cons & Hr & Hx)]; [by left|congruence|right]. by exists e', id'.
Qed.

Lemma counted_not_reversed events : reversedActivityIDs (counted events) = ∅.
Proof.
  apply set_eq. intros x. unfold reversedActivityIDs at 1. rewrite reversed_acc. split; [|set_solver].
  intros [?|(e & id & Hin & Hr & _)]; [done|]. exfalso. apply list_elem_of_filter in Hin as [Hn Hin]. apply Hn.
  apply reversed_acc. right. exists e, id. split; [done|]. split; [done|by right].
Qed.

Lemma replay_loop_filter start excl s events :
  replay_loop start excl s events = replay_loop start ∅ s (filter (λ e, ce_ActivityID e ∉ excl) events).
Proof.
  revert s. induction events as [|e l IH]; intros s; [done|]. cbn [replay_loop]. rewrite filter_cons.
  case_bool_decide as Hx.
  - destruct (decide (ce_ActivityID e ∉ excl)); [done|]. apply IH.
  - destruct (decide (ce_ActivityID e ∉ excl)); [|done]. cbn [replay_loop].
    rewrite bool_decide_eq_false_2 by set_solver. destruct (replay_event start s e) as [s'|]; [|done]. apply IH.
Qed.

(** A reversed activity leaves no trace: the replay of the events is the
    replay of those that are neither reversals nor reversed, with the same result
    or the same error code. *)
Theorem ReplayCostBasis_ignores_reversed start events :
  (∀ r, ReplayCostBasis start events = Ok r ↔ ReplayCostBasis start (counted events) = Ok r) ∧
  code_of (ReplayCostBasis start events) = code_of (ReplayCostBasis start (counted events)).
Proof.
  destruct events as [|e l]; [done|]. unfold ReplayCostBasis.
  destruct (ParseQuantity "0") as [q|]; [rewrite !bind_Ok_l|done].
  destruct (ParseUnitPrice "0") as [p|]; [rewrite !bind_Ok_l|done].
  rewrite replay_loop_filter. fold (counted (e :: l)). pose proof (counted_not_reversed (e :: l)) as Hc.
  destruct (counted (e :: l)) as [|e' l'].
  - cbn [replay_loop]. rewrite bind_Ok_l. by destruct start.
  - by rewrite Hc.
Qed.

(** ** Replay order *)

Lemma string_compare_lt_cons a s b t :
  String.compare (String a s) (String b t) = Lt ↔
  (N_of_ascii a < N_of_ascii b)%N ∨ (a = b ∧ String.compare s t = Lt).
Proof.
  cbn. unfold Ascii.compare. destruct (N.compare_spec (N_of_ascii a) (N_of_ascii b)) as [E|E|E].
  - assert (a = b) as -> by (rewrite <-(ascii_N_embedding a), E; apply ascii_N_embedding).
    split; [by right|]. intros [?|[_ ?]]; [lia|done].
  - split; [by left|done].
  - split; [done|]. intros [?|[-> _]]; lia.
Qed.

Lemma string_compare_lt_trans r s t :
  String.compare r s = Lt → String.compare s t = Lt → String.compare r t = Lt.
Proof.
  revert s t. induction r as [|a r IH]; intros [|b s] [|c t]; try done.
  rewrite !string_compare_lt_cons. intros [?|[-> ?]] [?|[-> ?]]; [left; lia|by left|by left|right].
  split; [done|]. by apply (IH s).
Qed.

Lemma ltb_lt s t : String.ltb s t = true ↔ String.compare s t = Lt.
Proof. unfold String.ltb. by destruct (String.compare s t). Qed.

Lemma string_compare_refl s : String.compare s s ≠ Lt.
Proof. induction s as [|a s IH]; [done|]. rewrite string_compare_lt_cons. intros [?|[_ ?]]; [lia|done]. Qed.

Lemma Before_true (e : CostBasisEvent) b : Before e b = true ↔
  ce_EffectiveAt e < b_EffectiveAt b ∨ (ce_EffectiveAt e = b_EffectiveAt b ∧
    (ce_CreatedAt e < b_CreatedAt b ∨ (ce_CreatedAt e = b_CreatedAt b ∧
      String.compare (OrderingID e) (b_OrderingID b) = Lt))).
Proof.
  unfold Before. destruct (Z.eqb_spec (ce_EffectiveAt e) (b_EffectiveAt b)) as [E|E]; cbn [negb].
  - destruct (Z.eqb_spec (ce_CreatedAt e) (b_CreatedAt b)) as [C|C]; cbn [negb].
    + rewrite ltb_lt. split; [by right; split; [|right]|]. intros [?|[_ [?|[_ ?]]]]; [lia|lia|done].
    + rewrite Z.ltb_lt. split; [by right; split; [|left]|]. intros [?|[_ [?|[? _]]]]; [lia|done|done].
  - rewrite Z.ltb_lt. split; [by left|]. by intros [?|[? _]].
Qed.

(** Replay positions are strictly ordered: no event comes before its own
    boundary, the order is transitive, and of two events exactly one comes before
    the boundary of the other unless both have the same position, so the events
    before a boundary are a well-defined part of the history. *)
Theorem Before_strict_order (e f g : CostBasisEvent) :
  Before e (Boundary e) = false ∧
  (Before e (Boundary f) = true → Before f (Boundary g) = true → Before e (Boundary g) = true) ∧
  (Boundary e = Boundary f ∨ Before e (Boundary f) = negb (Before f (Boundary e))).
Proof.
  split; [|split].
  - apply not_true_is_false. rewrite Before_true. cbn. intros [?|[_ [?|[_ ?%string_compare_refl]]]]; lia || done.
  - rewrite !Before_true. cbn. intros [?|[? [?|[? H1]]]] [?|[? [?|[? H2]]]]; try (left; lia);
      right; (split; [lia|]); [left; lia..|right]. split; [lia|]. by apply (string_compare_lt_trans _ (OrderingID f)).
  - unfold Before, Boundary. cbn. rewrite (Z.eqb_sym (ce_EffectiveAt f)), (Z.eqb_sym (ce_CreatedAt f)).
    destruct (Z.eqb_spec (ce_EffectiveAt e) (ce_EffectiveAt f)) as [E|E]; cbn [negb].
    + destruct (Z.eqb_spec (ce_CreatedAt e) (ce_CreatedAt f)) as [C|C]; cbn [negb].
      * destruct (decide (OrderingID e = OrderingID f)) as [O|O]; [left; by rewrite E, C, O|right].
        by apply ltb_antisym_neq.
      * right. destruct (Z.ltb_spec (ce_CreatedAt e) (ce_CreatedAt f)), (Z.ltb_spec (ce_CreatedAt f) (ce_CreatedAt e)); lia || done.
    + right. destruct (Z.ltb_spec (ce_EffectiveAt e) (ce_EffectiveAt f)), (Z.ltb_spec (ce_EffectiveAt f) (ce_EffectiveAt e)); lia || done.
Qed.
End Replay.

(** ** A concrete holding *)

Definition price (cents : Z) : UnitPrice := mkUnitPrice (mkDec cents (-2)).
Definition sample_event (id : string) (k : CostBasisEventKind) (q : Quantity) (p c : option UnitPrice)
    (gross fee : option Money) (rev : option string) : CostBasisEvent :=
  mkCostEvent id 0 0 id 1 k q p c None gross fee "USD" rev.

(** Ten units at 100, five more for 400 in all, a purchase that is undone, and a sale
    of five for 500 with a fee of 1. *)
Definition sample_events : list CostBasisEvent :=
  [sample_event "a0" CostBasisStartingPoint (qty 1000) None (Some (price 10000)) None None None;
   sample_event "a1" CostBasisBuy (qty 500) (Some (price 8000)) None (Some (usd 40000)) None None;
   sample_event "a2" CostBasisBuy (qty 700) (Some (price 100)) None (Some (usd 700)) None None;
   sample_event "a3" CostBasisSell (qty 500) (Some (price 10000)) None (Some (usd 50000)) (Some (usd 100)) None;
   sample_event "a4" CostBasisAdjustmentOut (qty 700) None None None None (Some "a2"%string)].

Definition lot_summary (r : Result CostBasisResult) : option (Z * Z * list Z) :=
  match r with
  | Ok r => Some (qunits (l_Quantity (Current r)), punits (AverageUnitCost (Current r)),
                  (λ g, sm_units (RealizedGain g)) <$> Realized r)
  | Fail _ => None
  end.

(** The average of the comment on [ReplayCostBasis], 1400 / 15, and the gain. *)
Lemma sample_replay : lot_summary (ReplayCostBasis None sample_events)
  = Some (1000000000, 9333333333, [323333]).
Proof. by vm_compute. Qed.

Lemma price_cents_ok c : 0 <= c <= 1000000000000 → price_ok (price c).
Proof.
  intros Hc. unfold price_ok, max_punits. change (punits (price c)) with (c * 1000000).
  split; [by apply Z.leb_le|lia].
Qed.

Lemma sample_events_ok : Forall event_ok sample_events.
Proof.
  repeat (apply Forall_cons_2; [|]); [..|apply Forall_nil_2];
    (split; [by apply hundredths_ok|split; [|split; [|split]]]; intros x Hx; cbn in Hx;
     (discriminate Hx || (injection Hx as <-; first [by apply price_cents_ok | by apply cents_ok]))).
Qed.

Lemma ReplayCostBasis_refines_witness :
  ∃ r, ReplayCostBasis None sample_events = Ok r ∧ lot_ok (Current r) ∧
    foldl (lot_step None) (0, 0, []) (counted sample_events) = (1000000000, 9333333333, [323333]).
Proof.
  pose proof sample_replay as Hs. destruct (ReplayCostBasis None sample_events) as [r|] eqn:E; [|discriminate Hs].
  destruct (ReplayCostBasis_refines None sample_events r ltac:(intros p; discriminate) sample_events_ok E) as [Hok Hf].
  exists r. split; [reflexivity|]. split; [exact Hok|]. rewrite Hf. cbn [lot_summary] in Hs. by injection Hs as -> -> ->.
Defined.

Lemma blendCost_between_witness :
  ∃ lot, blendCost (mkLot (price 10000) (qty 1000)) (Some (price 8000)) (qty 500) true = Ok lot ∧
    8000000000 <= punits (AverageUnitCost lot) <= 10000000000.
Proof.
  destruct (blendCost (mkLot (price 10000) (qty 1000)) (Some (price 8000)) (qty 500) true) as [lot|] eqn:E.
  - exists lot. split; [reflexivity|].
    apply (blendCost_between (mkLot (price 10000) (qty 1000)) (price 8000) (qty 500) lot
      (conj (price_cents_ok 10000 ltac:(lia)) (hundredths_ok 1000 ltac:(lia))) (price_cents_ok 8000 ltac:(lia))
      (hundredths_ok 500 ltac:(lia)) eq_refl eq_refl E).
  - exfalso. assert (is_ok (blendCost (mkLot (price 10000) (qty 1000)) (Some (price 8000)) (qty 500) true) = true)
      as H by (by vm_compute). by rewrite E in H.
Defined.

Lemma nonNegativeUnitCostQuotient_correct_witness :
  ∃ p, nonNegativeUnitCostQuotient (dInt 1400) (dInt 15) = Ok p ∧ punits p = 9333333333.
Proof.
  destruct (nonNegativeUnitCostQuotient_correct (dInt 1400) (dInt 15) ltac:(by apply Qle_bool_iff)
    ltac:(reflexivity)) as (p & Hp & _ & Hu).
  exists p. split; [exact Hp|exact Hu].
Defined.

Lemma ReplayCostBasis_ignores_reversed_witness :
  code_of (ReplayCostBasis None sample_events) = code_of (ReplayCostBasis None (counted sample_events)).
Proof. apply (ReplayCostBasis_ignores_reversed None sample_events). Defined.
