(* ===== verification/History.v ===== *)
(** * History records

    The part of [history.go] that computes: the Starting point and its components,
    the storage contract of snapshot items, and the trend ranges, which are either
    a name or an explicit interval of civil dates.  The other records of the file are
    carried by the application layer and have no operations here. *)

From S2P Require Export CivilDate ChangeState.
From S2P Require Import DecimalModel.
From Stdlib Require Import String Ascii.

#[global] Open Scope Z_scope.

Record HistoryOrigin := mkOrigin {
  ho_ID : string; ho_HouseholdID : HouseholdID; ho_Timezone : string; StartedAt : Time;
  ho_CreatedAt : Time }.

(** [id] is the fresh identifier. *)
Definition NewHistoryOrigin `{TZ : TimeZones} (id : string) (householdID : HouseholdID) (timezone : string)
    (startedAt createdAt : Time) : Result HistoryOrigin :=
  match ParseHouseholdID householdID with
  | Fail _ => Fail (domainErr ErrValidation "householdId" "must be a valid Household ID")
  | Ok _ =>
    let timezone := TrimSpace timezone in
    if bool_decide (timezone = ""%string)
    then Fail (domainErr ErrHistoryTimezoneRequired "timezone"
                 "confirm a Household timezone before starting history")
    else match LoadLocation timezone with
    | None => Fail (domainErr ErrHistoryTimezoneRequired "timezone" "timezone must be a valid IANA timezone")
    | Some _ =>
      if timeIsZero startedAt then Fail (domainErr ErrValidation "startedAt" "start time is required")
      else
        let createdAt := if timeIsZero createdAt then startedAt else createdAt in
        Ok (mkOrigin id householdID timezone (normalizeTime startedAt) (normalizeTime createdAt))
    end
  end.

Inductive HistoryOriginComponentKind :=
| HistoryOriginAccountValue | HistoryOriginAccountCash | HistoryOriginHoldingQuantity
| OriginKindRaw (s : string).
#[export] Instance HistoryOriginComponentKind_eq_dec : EqDecision HistoryOriginComponentKind.
Proof. solve_decision. Defined.

(** ** Trend ranges *)

(** [strings.Split(s, ":")] when it has exactly two parts. *)
Fixpoint split_colon (s : string) : string * option string :=
  match s with
  | EmptyString => (""%string, None)
  | String c r =>
    if Ascii.eqb c ":" then (""%string, Some r)
    else let '(a, b) := split_colon r in (String c a, b)
  end.
Definition split_pair (s : string) : option (string * string) :=
  match split_colon s with
  | (a, Some r) => match split_colon r with (b, None) => Some (a, b) | _ => None end
  | _ => None
  end.

(** [TrendRange.DateBounds]: dates are day numbers, ordered like the instants. *)
Definition DateBounds (r : string) : option (string * string) :=
  match split_pair r with
  | None => None
  | Some (a, b) =>
    match ParseDate a, ParseDate b with
    | Some from, Some to =>
      if (to <? from) || ((civil_of_days from).1.1 <? 1) then None else Some (a, b)
    | _, _ => None
    end
  end.

Definition AllTrendRanges : list string := ["30d"; "ytd"; "1y"; "all"]%string.

Definition ParseTrendRange (value : string) : Result string :=
  let trendRange := TrimSpace value in
  if bool_decide (trendRange ∈ AllTrendRanges) then Ok trendRange
  else match DateBounds trendRange with
  | Some _ => Ok trendRange
  | None => Fail (validation "range" "trend range is not supported")
  end.

Section History.
Context `{HD : DecimalAPI}.

Record HistoryOriginComponent := mkComponent {
  hc_ID : string; OriginID : string; hc_Kind : HistoryOriginComponentKind; hc_AccountID : option AccountID;
  hc_HoldingID : option HoldingID; hc_InstrumentID : option InstrumentID; hc_Amount : option Money;
  hc_Quantity : option Quantity; hc_UnitCost : option UnitPrice; hc_CreatedAt : Time }.

(** [HistoryOriginComponent.Validate] *)
Definition hc_Validate (c : HistoryOriginComponent) : Result unit :=
  if bool_decide (hc_ID c = ""%string) || bool_decide (OriginID c = ""%string) || timeIsZero (hc_CreatedAt c)
  then Fail (domainErr ErrValidation "component" "component identity and creation time are required")
  else match hc_Kind c with
  | HistoryOriginAccountValue | HistoryOriginAccountCash =>
    if is_none (hc_AccountID c) || is_none (hc_Amount c) || negb (is_none (hc_HoldingID c)) ||
       negb (is_none (hc_InstrumentID c)) || negb (is_none (hc_Quantity c)) || negb (is_none (hc_UnitCost c))
    then Fail (domainErr ErrValidation "component" "Account component requires Account and Money")
    else Ok tt
  | HistoryOriginHoldingQuantity =>
    if is_none (hc_AccountID c) || is_none (hc_HoldingID c) || is_none (hc_InstrumentID c) ||
       is_none (hc_Quantity c) || negb (is_none (hc_Amount c))
    then Fail (domainErr ErrValidation "component"
                 "Holding component requires Account, Holding, Instrument, and Quantity")
    else if quantity_zero (hc_Quantity c) then Ok tt
    else if is_none (hc_UnitCost c)
    then Fail (domainErr ErrCostBasisRequired "unitCost"
                 "a per-unit cost is required when a Holding starts with a positive quantity")
    else Ok tt
  | OriginKindRaw _ => Fail (domainErr ErrValidation "componentKind" "component kind is not supported")
  end.

(** [DailyValuationSnapshotItem.ValidateNativeAmount] and [ValidateBaseAmountExact];
    the argument is the stored text. *)
Definition ValidateNativeAmount (nativeAmount : string) : Result unit :=
  if bool_decide (nativeAmount = ""%string) then Ok tt
  else _ ← ParseNativeAmount nativeAmount; Ok tt.
Definition ValidateBaseAmountExact (baseAmountExact : string) : Result unit :=
  if bool_decide (baseAmountExact = ""%string) then Ok tt
  else _ ← ParseBaseAmountExact baseAmountExact; Ok tt.
End History.
