(* ===== verification/ActivityReplay.v ===== *)
(** * Replaying the ledger

    [activity_replay.go]: when an earlier fact changes, the recorded activities are
    replayed over the balances of the Starting point.  A value update is an
    observation: its amount stays and its delta is recomputed.  An undo inverts the
    recomputed delta of the activity it reverses.

    [ReplayMoneyEffects] runs with the background context, which is never
    cancelled, so the checks of [ctx.Err()] are left out.  The running balances are
    a map keyed by the text [target:account:currency], where an absent key reads as
    the zero value of [decimal.Decimal].  Slices are fresh copies in the source, so
    nothing here is shared between activities. *)

From S2P Require Export History ChangeLaws.
From S2P Require Import DecimalModel.
From Stdlib Require Import String Ascii.

#[global] Open Scope Z_scope.

Definition EffectTarget_String (t : EffectTarget) : string :=
  match t with
  | EffectTargetAccountValue => "account_value" | EffectTargetAccountCash => "account_cash"
  | EffectTargetHoldingQuantity => "holding_quantity" | EffectTargetHoldingCost => "holding_cost"
  | TargetRaw s => s
  end.

Definition replayMoneyKey (target : EffectTarget) (account : AccountID) (cur : CurrencyCode) : string :=
  EffectTarget_String target +:+ ":" +:+ account +:+ ":" +:+ cur.

Section Replay.
Context `{HD : DecimalAPI}.

Abbreviation Balances := (gmap string Decimal).

(** [balances[key]] *)
Definition balance_at (balances : Balances) (key : string) : Decimal := default (dNew 0 0) (balances !! key).

Definition with_money (e : ActivityEffect) (d : EffectDirection) (m : option Money) (q : option Quantity)
    : ActivityEffect :=
  mkEffect (ef_ID e) (ef_ActivityID e) (Sequence e) (Role e) d (Target e) (Classification e)
    (ef_AccountID e) (ef_HoldingID e) (ef_InstrumentID e) m q (CostUnitPrice e).
Definition with_replayed (a : Activity) (effects recorded : list ActivityEffect) : Activity :=
  mkActivity (act_ID a) (act_HouseholdID a) (Kind a) (Reason a) (EffectiveAt a) (EffectiveLocalDate a)
    (act_CreatedAt a) (act_Note a) (ReversesActivityID a) (CorrectionGroupID a) (TransactionFXRate a)
    (act_TradeDetail a) (act_DividendDetail a) (Resulting a) effects (Some recorded).

Definition sameReplayEndpoint (a b : ActivityEffect) : bool :=
  if negb (bool_decide (Target a = Target b)) || negb (bool_decide (Role a = Role b)) then false
  else match ef_HoldingID a, ef_HoldingID b with
  | Some ha, Some hb => bool_decide (ha = hb)
  | _, _ =>
    match ef_AccountID a, ef_AccountID b, ef_Money a, ef_Money b with
    | Some aa, Some ab, Some ma, Some mb => bool_decide (aa = ab) && bool_decide (currency ma = currency mb)
    | _, _, _, _ => false
    end
  end.

(** ** Origin balances *)

Definition origin_step (balances : Balances) (c : HistoryOriginComponent) : Balances :=
  match hc_AccountID c, hc_Amount c with
  | Some account, Some amt =>
    let target := if bool_decide (hc_Kind c = HistoryOriginAccountCash) then EffectTargetAccountCash
                  else EffectTargetAccountValue in
    <[replayMoneyKey target account (currency amt) := amount amt]> balances
  | _, _ => balances
  end.
Definition origin_balances (components : list HistoryOriginComponent) : Balances :=
  foldl origin_step ∅ components.

(** ** One effect *)

(** The observation of a value update on the endpoint of an effect. *)
Definition observes (account : AccountID) (e : ActivityEffect) (m : Money) (v : EndpointView) : bool :=
  match ev_AccountID v with
  | Some id => bool_decide (id = account) && bool_decide (ev_Target v = Target e) &&
               bool_decide (ev_Currency v = currency m)
  | None => false
  end.
Fixpoint observation (account : AccountID) (e : ActivityEffect) (m : Money) (views : list EndpointView)
    : option EndpointView :=
  match views with
  | [] => None
  | v :: views => if observes account e m v then Some v else observation account e m views
  end.

Definition number_error : goerror := OtherErr "can't convert to decimal".

(** The magnitude and direction that take [bal] to the observed amount. *)
Definition observe (e : ActivityEffect) (v : EndpointView) (bal : Decimal) : Result (Money * EffectDirection) :=
  match dNewFromString (ev_Amount v) with
  | None => Fail number_error
  | Some target =>
    let delta := dSub target bal in
    money ← NewMoney (dAbs delta) (ev_Currency v);
    Ok (money, if dIsNegative delta then EffectRemoved else EffectAdded)
  end.

(** The body of the loop over the effects; [None] is [continue]. *)
Definition replay_effect (kind : ActivityKind) (resulting : list EndpointView) (balances : Balances)
    (e : ActivityEffect) : Result (Balances * option ActivityEffect) :=
  match ef_Money e, ef_AccountID e with
  | Some m, Some account =>
    let key := replayMoneyKey (Target e) account (currency m) in
    '(m', d) ←
      match (if bool_decide (kind = ActivityValueUpdate) then observation account e m resulting else None) with
      | Some v => observe e v (balance_at balances key)
      | None => Ok (m, Direction e)
      end;
    if m_isZero m' then Ok (balances, None)
    else
      let delta := if bool_decide (d = EffectRemoved) then dNeg (amount m') else amount m' in
      Ok (<[key := dAdd (balance_at balances key) delta]> balances,
          Some (with_money e d (Some m') (ef_Quantity e)))
  | _, _ => Ok (balances, Some e)
  end.

Fixpoint replay_effects (kind : ActivityKind) (resulting : list EndpointView) (balances : Balances)
    (effects : list ActivityEffect) : Result (Balances * list ActivityEffect) :=
  match effects with
  | [] => Ok (balances, [])
  | e :: effects =>
    '(balances, e') ← replay_effect kind resulting balances e;
    '(balances, rest) ← replay_effects kind resulting balances effects;
    Ok (balances, match e' with Some e' => e' :: rest | None => rest end)
  end.

(** ** One activity *)

Fixpoint replayed_endpoint (e : ActivityEffect) (original : list ActivityEffect) : option ActivityEffect :=
  match original with
  | [] => None
  | o :: original => if sameReplayEndpoint e o then Some o else replayed_endpoint e original
  end.

(** An effect of an undo takes the magnitude of the effect it undoes. *)
Definition undo_effect (original : list ActivityEffect) (e : ActivityEffect) : ActivityEffect :=
  match replayed_endpoint e original with
  | Some o =>
    with_money e (if bool_decide (Direction o = EffectAdded) then EffectRemoved else EffectAdded)
      (ef_Money o) (ef_Quantity o)
  | None => e
  end.

Definition start_effects (prior : gmap ActivityID (list ActivityEffect)) (a : Activity)
    (recorded : list ActivityEffect) : list ActivityEffect :=
  match ReversesActivityID a with
  | None => recorded
  | Some id =>
    match prior !! id with
    | None => recorded
    | Some [] => []
    | Some original => undo_effect original <$> recorded
    end
  end.

Record Replaying := mkReplaying {
  rp_balances : Balances; rp_prior : gmap ActivityID (list ActivityEffect); rp_result : list Activity }.

Definition replay_activity (s : Replaying) (a : Activity) : Result Replaying :=
  let recorded := default (Effects a) (RecordedEffects a) in
  '(balances, effects) ← replay_effects (Kind a) (Resulting a) (rp_balances s)
                            (start_effects (rp_prior s) a recorded);
  Ok (mkReplaying balances (<[act_ID a := effects]> (rp_prior s))
        (rp_result s ++ [with_replayed a effects recorded])).

Fixpoint replay_activities (s : Replaying) (activities : list Activity) : Result Replaying :=
  match activities with
  | [] => Ok s
  | a :: activities =>
    s ← replay_activity s a;
    replay_activities s activities
  end.

Definition ReplayMoneyEffects (activities : list Activity) (components : list HistoryOriginComponent)
    : Result (list Activity) :=
  s ← replay_activities (mkReplaying (origin_balances components) ∅ []) activities;
  Ok (rp_result s).
End Replay.
