(* ===== verification/ActivityReplayLaws.v ===== *)
(** * What a replay of the ledger guarantees

    Balances are followed in integer units per key.  The theorems: after every
    value update the replayed ledger shows exactly the observed amount; a replay of
    a replayed ledger changes nothing; and an undo takes back exactly what the
    replay made of the activity it reverses. *)

From S2P Require Export ActivityReplay ChangeSamples.
From S2P Require Import DecimalModel.
From Stdlib Require Import String Ascii.

#[global] Open Scope Z_scope.

(** ** Keys *)

Definition not_colon (c : ascii) : bool := negb (Ascii.eqb c ":").
Definition no_colon (s : string) : bool := all_bytes not_colon s.

Lemma split_colon_app a r : no_colon a = true → split_colon (a +:+ String ":" r) = (a, Some r).
Proof.
  unfold no_colon. induction a as [|c a IH]; [done|]. rewrite str_app_cons. cbn [all_bytes split_colon]. intros H. prop_bool.
  unfold not_colon in H. prop_bool. rewrite H. by rewrite IH.
Qed.

Lemma key_inj t a c t' a' c' :
  no_colon (EffectTarget_String t) = true → no_colon (EffectTarget_String t') = true →
  no_colon a = true → no_colon a' = true →
  replayMoneyKey t a c = replayMoneyKey t' a' c' →
  EffectTarget_String t = EffectTarget_String t' ∧ a = a' ∧ c = c'.
Proof.
  intros Ht Ht' Ha Ha' H. unfold replayMoneyKey in H. rewrite !str_app_cons, !str_app_nil in H.
  pose proof (f_equal split_colon H) as E. rewrite !split_colon_app in E by done. injection E as Et E.
  pose proof (f_equal split_colon E) as F. rewrite !split_colon_app in F by done. by injection F as -> ->.
Qed.

Definition known_target (t : EffectTarget) : bool := match t with TargetRaw _ => false | _ => true end.

Lemma known_target_no_colon t : known_target t = true → no_colon (EffectTarget_String t) = true.
Proof. by destruct t. Qed.

Lemma known_target_inj t t' : known_target t = true → known_target t' = true →
  EffectTarget_String t = EffectTarget_String t' → t = t'.
Proof. by destruct t, t'. Qed.

Section Laws.
Context `{HD : DecimalAPI} {HL : DecimalLaws}.

Abbreviation Balances := (gmap string Decimal).

(** ** Well-formed histories *)

(** The key of a money effect on an account. *)
Definition key_of (e : ActivityEffect) : option string :=
  match ef_Money e, ef_AccountID e with
  | Some m, Some a => Some (replayMoneyKey (Target e) a (currency m))
  | _, _ => None
  end.

(** Effects as they are loaded: valid amounts on accounts with a canonical
    identifier, and a target of the program. *)
Definition ledger_effect (e : ActivityEffect) : Prop :=
  (∀ m, ef_Money e = Some m → Money_ok m) ∧ (∀ a, ef_AccountID e = Some a → no_colon a = true) ∧
  known_target (Target e) = true.
(** Recorded amounts have at most four fractional digits. *)
Definition ledger_view (v : EndpointView) : Prop :=
  ∀ d, dNewFromString (ev_Amount v) = Some d → -4 <= dExponent d.
Definition recorded_effects (a : Activity) : list ActivityEffect := default (Effects a) (RecordedEffects a).
Definition ledger_activity (a : Activity) : Prop :=
  Forall ledger_effect (recorded_effects a) ∧ Forall ledger_view (Resulting a).
Definition ledger_component (c : HistoryOriginComponent) : Prop := ∀ m, hc_Amount c = Some m → Money_ok m.

Definition balances_ok (b : Balances) : Prop := ∀ k, -4 <= dExponent (balance_at b k).
Definition bunits (b : Balances) (k : string) : Z := units 4 (balance_at b k).

(** The signed change an effect makes to the balance of a key. *)
Definition signed (e : ActivityEffect) : Z :=
  match ef_Money e with
  | Some m => if bool_decide (Direction e = EffectRemoved) then - munits m else munits m
  | None => 0
  end.
Definition moves (k : string) (e : ActivityEffect) : Z := if bool_decide (key_of e = Some k) then signed e else 0.

Lemma moves_none k e : key_of e = None → moves k e = 0.
Proof. unfold moves. by intros ->. Qed.

Lemma balance_at_insert (b : Balances) k d k' :
  balance_at (<[k := d]> b) k' = if bool_decide (k = k') then d else balance_at b k'.
Proof.
  unfold balance_at. case_bool_decide as Hk; [subst; by rewrite lookup_insert_eq|by rewrite lookup_insert_ne].
Qed.

Lemma balances_ok_insert (b : Balances) k d : balances_ok b → -4 <= dExponent d → balances_ok (<[k := d]> b).
Proof. intros Hb Hd k'. rewrite balance_at_insert. by destruct (bool_decide _). Qed.

Lemma origin_balances_ok comps : Forall ledger_component comps → balances_ok (origin_balances comps).
Proof.
  unfold origin_balances. assert (H : balances_ok ∅).
  { intros k. unfold balance_at. rewrite lookup_empty. cbn. rewrite dNew_expo. lia. }
  revert H. generalize (∅ : Balances). induction comps as [|c l IH]; intros b Hb Hl; [done|].
  apply Forall_cons in Hl as [Hc Hl]. cbn [foldl]. apply IH; [|done]. unfold origin_step.
  destruct (hc_AccountID c); [|done]. destruct (hc_Amount c) as [m|] eqn:E; [|done].
  apply balances_ok_insert; [done|]. apply (Hc m E).
Qed.

(** ** One effect *)

Lemma observe_units e v bal m d : ledger_view v → -4 <= dExponent bal → observe e v bal = Ok (m, d) →
  ∃ target, dNewFromString (ev_Amount v) = Some target ∧ Money_ok m ∧ ParseCurrency (ev_Currency v) = Ok (currency m) ∧
    (if bool_decide (d = EffectRemoved) then - munits m else munits m) = units 4 target - units 4 bal.
Proof.
  intros Hv Hb. unfold observe. destruct (dNewFromString (ev_Amount v)) as [target|] eqn:Et; [|done]. intros H.
  pose proof (Hv _ Et) as Ht. inv_ok. subst.
  assert (He : -4 <= dExponent (dSub target bal)) by (rewrite dSub_expo; lia).
  pose proof (NewMoney_ok _ _ _ E) as Hok.
  apply NewMoney_exact_inv in E as (Hu & _ & Hc & _); [|by rewrite dAbs_expo].
  exists target. split; [done|]. split; [done|]. split; [done|].
  rewrite units_abs, units_sub in Hu by done. pose proof (units_neg_iff 4 (dSub target bal) He) as Hn.
  rewrite units_sub in Hn by done.
  destruct (dIsNegative (dSub target bal)).
  - rewrite bool_decide_eq_true_2 by done. pose proof (proj1 Hn eq_refl). lia.
  - rewrite bool_decide_eq_false_2 by done.
    assert (¬ units 4 target - units 4 bal < 0) by (intros ?%Hn; done). lia.
Qed.

Lemma observation_spec acct e m vs v : observation acct e m vs = Some v →
  v ∈ vs ∧ ev_Currency v = currency m.
Proof.
  induction vs as [|w vs IH]; [done|]. cbn [observation]. destruct (observes acct e m w) eqn:E.
  - intros [= ->]. split; [left|]. unfold observes in E. destruct (ev_AccountID v); [|done]. by prop_bool.
  - intros H. destruct (IH H). split; [by right|done].
Qed.

(** What the loop body keeps: the identity of an effect. *)
Definition same_identity (e e' : ActivityEffect) : Prop :=
  ∃ d m, e' = with_money e d m (ef_Quantity e) ∧ currency <$> m = currency <$> ef_Money e.

Lemma same_identity_refl e : same_identity e e.
Proof. exists (Direction e), (ef_Money e). by destruct e. Qed.

Lemma same_identity_key e e' : same_identity e e' → key_of e' = key_of e.
Proof.
  intros (d & m & -> & Hm). unfold key_of. cbn. destruct (ef_Money e), m; try done. cbn in Hm. by injection Hm as ->.
Qed.

(** The change of the balances is the change the replayed effect states. *)
Definition moves_opt (k : string) (o : option ActivityEffect) : Z := match o with Some e => moves k e | None => 0 end.

Lemma post_effect (b : Balances) k0 m d e (o : option ActivityEffect) b' :
  balances_ok b → Money_ok m → key_of e = Some k0 → currency <$> ef_Money e = Some (currency m) →
  (if m_isZero m then Ok (b, None)
   else Ok (<[k0 := dAdd (balance_at b k0) (if bool_decide (d = EffectRemoved) then dNeg (amount m) else amount m)]> b,
            Some (with_money e d (Some m) (ef_Quantity e)))) = Ok (b', o) →
  balances_ok b' ∧ (∀ k, bunits b' k = bunits b k + moves_opt k o) ∧
  bunits b' k0 = bunits b k0 + (if bool_decide (d = EffectRemoved) then - munits m else munits m) ∧
  (∀ e', o = Some e' → same_identity e e' ∧ ∀ m', ef_Money e' = Some m' → Money_ok m').
Proof.
  intros Hb Hm Hk Hc H. destruct (Money_ok_units m Hm) as [He _].
  destruct (m_isZero m) eqn:Ez.
  - injection H as <- <-. split; [done|]. unfold m_isZero in Ez. apply dIsZero_val, dval_zero_coef in Ez.
    assert (munits m = 0) as ->. { unfold munits, units, cunits. rewrite Ez. lia. }
    split; [intros k; cbn; lia|]. split; [by destruct (bool_decide _); lia|done].
  - injection H as <- <-.
    set (x := if bool_decide _ then dNeg _ else _).
    assert (Hx : -4 <= dExponent x ∧ units 4 x = if bool_decide (d = EffectRemoved) then - munits m else munits m).
    { unfold x, munits. destruct (bool_decide _); [|done]. rewrite dNeg_expo, units_neg by done. done. }
    destruct Hx as [Hx Hu].
    assert (Hset : ∀ k, bunits (<[k0 := dAdd (balance_at b k0) x]> b) k =
      bunits b k + (if bool_decide (k0 = k) then units 4 x else 0)).
    { intros k. unfold bunits. rewrite balance_at_insert. destruct (bool_decide_reflect (k0 = k)) as [->|]; [|lia].
      by rewrite units_add. }
    assert (Hid : same_identity e (with_money e d (Some m) (ef_Quantity e))) by (exists d, (Some m); by rewrite Hc).
    split; [apply balances_ok_insert; [done|]; rewrite dAdd_expo; specialize (Hb k0); lia|].
    split; [intros k|split].
    + rewrite Hset. f_equal. cbn [moves_opt]. unfold moves. rewrite (same_identity_key _ _ Hid), Hk.
      unfold signed. cbn. rewrite Hu. destruct (bool_decide_reflect (k0 = k)) as [->|Hn].
      * by rewrite (bool_decide_eq_true_2 (Some k = Some k)).
      * rewrite (bool_decide_eq_false_2 (Some k0 = Some k)); [done|]. by intros [= ->].
    + by rewrite Hset, (bool_decide_eq_true_2 (k0 = k0)), Hu.
    + intros e' [= <-]. split; [done|]. by intros m' [= <-].
Qed.

Lemma kept_ledger e (o : option ActivityEffect) : ledger_effect e →
  (∀ e', o = Some e' → same_identity e e' ∧ ∀ m', ef_Money e' = Some m' → Money_ok m') →
  ∀ e', o = Some e' → same_identity e e' ∧ ledger_effect e'.
Proof.
  intros (_ & Ha & Ht) H e' He'. destruct (H e' He') as [(d & m & -> & Hm) Hok]. split; [by exists d, m|].
  by split.
Qed.

Lemma replay_effect_units kind views b e b' o :
  balances_ok b → ledger_effect e → Forall ledger_view views → replay_effect kind views b e = Ok (b', o) →
  balances_ok b' ∧ (∀ k, bunits b' k = bunits b k + moves_opt k o) ∧
  (∀ e', o = Some e' → same_identity e e' ∧ ledger_effect e') ∧
  (kind = ActivityValueUpdate → ∀ m a v, ef_Money e = Some m → ef_AccountID e = Some a →
     observation a e m views = Some v → ∃ target, dNewFromString (ev_Amount v) = Some target ∧
     bunits b' (replayMoneyKey (Target e) a (currency m)) = units 4 target).
Proof.
  intros Hb He Hv H. pose proof (proj1 He) as Hm. unfold replay_effect in H.
  destruct (ef_Money e) as [m|] eqn:Em.
  2: { injection H as <- <-. split; [done|]. split; [|split; [|done]].
       - intros k. cbn. rewrite moves_none; [lia|]. unfold key_of. by rewrite Em.
       - intros e' [= <-]. split; [apply same_identity_refl|done]. }
  destruct (ef_AccountID e) as [a|] eqn:Ea.
  2: { injection H as <- <-. split; [done|]. split; [|split; [|done]].
       - intros k. cbn. rewrite moves_none; [lia|]. unfold key_of. by rewrite Em, Ea.
       - intros e' [= <-]. split; [apply same_identity_refl|done]. }
  assert (Hk : key_of e = Some (replayMoneyKey (Target e) a (currency m))) by (unfold key_of; by rewrite Em, Ea).
  destruct (if bool_decide (kind = ActivityValueUpdate) then observation a e m views else None) as [v|] eqn:Ev.
  - destruct (bool_decide_reflect (kind = ActivityValueUpdate)) as [_|]; [|done].
    apply bind_Ok in H as ([m' d] & Ho & H). destruct (observation_spec _ _ _ _ _ Ev) as [Hin Hc].
    apply observe_units in Ho as (target & Ht & Hok & Hcur & Hu); [|by apply (proj1 (Forall_forall _ _) Hv)|apply Hb].
    assert (currency m' = currency m) as Hcm.
    { rewrite Hc, (ParseCurrency_id (currency m)) in Hcur by (by apply (Hm m)). by injection Hcur as ->. }
    apply (post_effect _ _ _ _ _ _ _ Hb Hok Hk) in H as (Hb' & Hmv & Hto & Hid); [|by rewrite Em; cbn; rewrite Hcm].
    split; [done|]. split; [done|]. split; [by apply (kept_ledger e o)|]. intros _ m0 a0 v0 [= <-] [= <-] Hv0. rewrite Ev in Hv0. injection Hv0 as <-.
    exists target. split; [done|]. rewrite Hto, Hu. unfold bunits. lia.
  - rewrite bind_Ok_l in H.
    apply (post_effect _ _ _ _ _ _ _ Hb (Hm m eq_refl) Hk) in H as (Hb' & Hmv & _ & Hid); [|by rewrite Em].
    split; [done|]. split; [done|]. split; [by apply (kept_ledger e o)|]. intros -> m0 a0 v0 [= <-] [= <-] Hv0.
    rewrite bool_decide_eq_true_2 in Ev by done. congruence.
Qed.

Lemma replay_effects_units kind views effects b b' es :
  balances_ok b → Forall ledger_effect effects → Forall ledger_view views →
  replay_effects kind views b effects = Ok (b', es) →
  balances_ok b' ∧ Forall ledger_effect es ∧ ∀ k, bunits b' k = bunits b k + sumZ (moves k) es.
Proof.
  revert b es. induction effects as [|e effects IH]; intros b es Hb He Hv H; cbn [replay_effects] in H.
  { injection H as <- <-. split; [done|]. split; [by apply Forall_nil|]. intros k. cbn. lia. }
  apply Forall_cons in He as [He Hes]. apply bind_Ok in H as ([b1 o] & H1 & H). apply bind_Ok in H as ([b2 rest] & H2 & H).
  injection H as <- <-. apply replay_effect_units in H1 as (Hb1 & Hm1 & Hk1 & _); [|done..].
  apply IH in H2 as (Hb2 & Hl2 & Hm2); [|done..]. split; [done|]. split.
  { destruct o as [e'|]; [|done]. apply Forall_cons. split; [by apply Hk1|done]. }
  intros k. rewrite Hm2, Hm1. destruct o; cbn [moves_opt]; [rewrite sumZ_cons|]; lia.
Qed.

(** ** Observations hold *)

Lemma ledger_key_inj e e' k : ledger_effect e → ledger_effect e' → key_of e = Some k → key_of e' = Some k →
  Target e = Target e' ∧ ef_AccountID e = ef_AccountID e' ∧ currency <$> ef_Money e = currency <$> ef_Money e'.
Proof.
  intros (_ & Ha & Ht) (_ & Ha' & Ht'). unfold key_of.
  destruct (ef_Money e) as [m|]; [|done]. destruct (ef_AccountID e) as [a|]; [|done].
  destruct (ef_Money e') as [m'|]; [|done]. destruct (ef_AccountID e') as [a'|]; [|done].
  intros [= Hk] [= Hk']. rewrite <-Hk in Hk'. symmetry in Hk'. specialize (Ha a eq_refl). specialize (Ha' a' eq_refl).
  apply key_inj in Hk' as (Hs & -> & Hc); [|by try apply known_target_no_colon..].
  apply known_target_inj in Hs; [|done..]. split; [done|]. split; [done|cbn; by rewrite Hc].
Qed.

Lemma observation_ext a e e' m m' vs : Target e = Target e' → currency m = currency m' →
  observation a e m vs = observation a e' m' vs.
Proof.
  intros Ht Hc. induction vs as [|v vs IH]; [done|]. cbn [observation].
  unfold observes. by rewrite Ht, Hc, IH.
Qed.

(** After the effects of a value update, an observed key shows the observation. *)
Lemma replay_effects_observed views effects b b' es k target :
  balances_ok b → Forall ledger_effect effects → Forall ledger_view views →
  replay_effects ActivityValueUpdate views b effects = Ok (b', es) →
  (∀ e, e ∈ effects → key_of e = Some k → ∃ m a v d, ef_Money e = Some m ∧ ef_AccountID e = Some a ∧
     observation a e m views = Some v ∧ dNewFromString (ev_Amount v) = Some d ∧ units 4 d = target) →
  (∃ e, e ∈ effects ∧ key_of e = Some k) ∨ bunits b k = target → bunits b' k = target.
Proof.
  revert b es. induction effects as [|e effects IH]; intros b es Hb He Hv H Hk Hor; cbn [replay_effects] in H.
  { injection H as <- <-. destruct Hor as [(e & Hin & _)|]; [by apply elem_of_nil in Hin|done]. }
  apply Forall_cons in He as [He Hes]. apply bind_Ok in H as ([b1 o] & H1 & H). apply bind_Ok in H as ([b2 rest] & H2 & H).
  injection H as <- <-. pose proof H1 as H1'. apply replay_effect_units in H1 as (Hb1 & Hm1 & Hid & Hobs); [|done..].
  apply (IH b1 rest); [done..| |].
  { intros e' Hin. apply Hk. by right. }
  destruct (decide (key_of e = Some k)) as [Hke|Hke].
  - right. destruct (Hk e (list_elem_of_here _ _) Hke) as (m & a & v & d & Hm & Ha & Hv' & Hd & Hu).
    destruct (Hobs eq_refl m a v Hm Ha Hv') as (t & Ht & Hb1k). unfold key_of in Hke. rewrite Hm, Ha in Hke.
    injection Hke as <-. rewrite Hb1k. congruence.
  - destruct Hor as [(e' & Hin & Hk')|Hb0].
    + apply elem_of_cons in Hin as [->|Hin]; [done|]. left. by exists e'.
    + right. rewrite Hm1, Hb0. destruct o as [e'|]; cbn [moves_opt]; [|lia]. unfold moves.
      rewrite (same_identity_key _ _ (proj1 (Hid e' eq_refl))). rewrite bool_decide_eq_false_2 by done. lia.
Qed.

(** ** The loop over the activities *)

Lemma undo_effect_ledger original e : Forall ledger_effect original → ledger_effect e → ledger_effect (undo_effect original e).
Proof.
  intros Ho (Hm & Ha & Ht). unfold undo_effect. destruct (replayed_endpoint e original) as [o|] eqn:E; [|done].
  assert (ledger_effect o) as (Hom & _).
  { induction original as [|x l IH]; [done|]. apply Forall_cons in Ho as [Hx Hl]. cbn [replayed_endpoint] in E.
    destruct (sameReplayEndpoint e x); [by injection E as ->|by apply IH]. }
  by split.
Qed.

Definition prior_ok (prior : gmap ActivityID (list ActivityEffect)) : Prop := map_Forall (λ _, Forall ledger_effect) prior.

Lemma start_effects_ledger prior a recorded : prior_ok prior → Forall ledger_effect recorded →
  Forall ledger_effect (start_effects prior a recorded).
Proof.
  intros Hp Hr. unfold start_effects. destruct (ReversesActivityID a) as [id|]; [|done].
  destruct (prior !! id) as [[|o l]|] eqn:E; [by apply Forall_nil| |done].
  apply Forall_fmap. eapply Forall_impl; [exact Hr|]. intros e He. apply undo_effect_ledger; [|done].
  apply (map_Forall_lookup_1 _ _ _ _ Hp E).
Qed.

(** The state of the replay after some activities. *)
Record replaying_ok (origin : Balances) (s : Replaying) : Prop := {
  rk_balances : balances_ok (rp_balances s);
  rk_prior : prior_ok (rp_prior s);
  rk_moves : ∀ k, bunits (rp_balances s) k =
    bunits origin k + sumZ (λ a, sumZ (moves k) (Effects a)) (rp_result s) }.

Lemma replay_activity_ok origin s a s' : replaying_ok origin s → ledger_activity a → replay_activity s a = Ok s' →
  replaying_ok origin s' ∧ ∃ es,
    replay_effects (Kind a) (Resulting a) (rp_balances s) (start_effects (rp_prior s) a (recorded_effects a))
      = Ok (rp_balances s', es) ∧
    s' = mkReplaying (rp_balances s') (<[act_ID a := es]> (rp_prior s))
           (rp_result s ++ [with_replayed a es (recorded_effects a)]).
Proof.
  intros [Hb Hp Hm] [Hr Hv] H. unfold replay_activity in H. apply bind_Ok in H as ([b es] & He & H). injection H as <-.
  pose proof He as He'. apply replay_effects_units in He' as (Hb' & Hl & Hm'); [|done|by apply start_effects_ledger|done].
  split; [|by exists es]. split; cbn [rp_balances rp_prior rp_result]; [done| |].
  - by apply map_Forall_insert_2.
  - intros k. rewrite Hm', Hm, sumZ_app, sumZ_single. cbn [Effects with_replayed]. lia.
Qed.

Lemma replay_activities_app s xs ys :
  replay_activities s (xs ++ ys) = (s1 ← replay_activities s xs; replay_activities s1 ys).
Proof.
  revert s. induction xs as [|x xs IH]; intros s; [done|]. cbn [app replay_activities].
  destruct (replay_activity s x) as [s1|]; [|done]. rewrite !bind_Ok_l. apply IH.
Qed.

Lemma replay_activities_ok origin s activities s' : replaying_ok origin s → Forall ledger_activity activities →
  replay_activities s activities = Ok s' →
  replaying_ok origin s' ∧ ∃ l, rp_result s' = rp_result s ++ l ∧ List.length l = List.length activities.
Proof.
  revert s. induction activities as [|a activities IH]; intros s Hs Hok H; cbn [replay_activities] in H.
  - injection H as <-. split; [done|]. exists []. by rewrite app_nil_r.
  - apply Forall_cons in Hok as [Ha Hok]. apply bind_Ok in H as (s1 & H1 & H).
    apply (replay_activity_ok origin) in H1 as (Hs1 & es & _ & E); [|done..].
    apply IH in H as (Hs' & l & Hr & Hl); [|done..]. split; [done|].
    exists (with_replayed a es (recorded_effects a) :: l). rewrite Hr, E. cbn. rewrite <-app_assoc. split; [done|].
    by rewrite Hl.
Qed.

(** The states around an activity of the result. *)
Lemma replay_activities_split origin s activities s' pre a post : replaying_ok origin s →
  Forall ledger_activity activities → replay_activities s activities = Ok s' →
  rp_result s' = rp_result s ++ pre ++ a :: post →
  ∃ xs s1 s2 a0 rest, replaying_ok origin s1 ∧ ledger_activity a0 ∧
    replay_activities s xs = Ok s1 ∧ rp_result s1 = rp_result s ++ pre ∧
    replay_activity s1 a0 = Ok s2 ∧ rp_result s2 = rp_result s1 ++ [a] ∧
    replaying_ok origin s2 ∧ Forall ledger_activity rest ∧ replay_activities s2 rest = Ok s' ∧
    rp_result s' = rp_result s2 ++ post.
Proof.
  intros Hs Hok H Hr.
  pose proof (replay_activities_ok _ _ _ _ Hs Hok H) as (_ & l & Hl & Hlen). rewrite Hr in Hl. apply app_inv_head in Hl.
  assert (List.length pre < List.length activities)%nat as Hlt by (rewrite <-Hlen, <-Hl, length_app; cbn; lia).
  destruct (lookup_lt_is_Some_2 activities (List.length pre) Hlt) as [a0 Ha0].
  rewrite <-(take_drop_middle _ _ _ Ha0) in Hok, H. apply Forall_app in Hok as [Hpre Hok].
  apply Forall_cons in Hok as [Ha Hrest]. rewrite replay_activities_app in H. apply bind_Ok in H as (s1 & H1 & H).
  cbn [replay_activities] in H. apply bind_Ok in H as (s2 & H2 & H). pose proof H1 as H1'.
  apply (replay_activities_ok origin) in H1' as (Hs1 & l1 & Hl1 & Hlen1); [|done..].
  pose proof H2 as H2'. apply (replay_activity_ok origin) in H2' as (Hs2 & es & _ & E2); [|done..].
  pose proof H as H'. apply (replay_activities_ok origin) in H' as (_ & l3 & Hl3 & _); [|done..].
  rewrite Hr, E2 in Hl3. cbn in Hl3. rewrite Hl1, <-!app_assoc in Hl3. apply app_inv_head in Hl3. cbn in Hl3.
  rewrite length_take in Hlen1. apply app_inj_1 in Hl3 as [<- Hl3]; [|lia]. injection Hl3 as -> Hl3.
  exists (take (List.length pre) activities), s1, s2, a0, (drop (S (List.length pre)) activities).
  do 4 (split; [done|]). split; [done|]. split; [by rewrite E2|]. do 3 (split; [done|]).
  rewrite E2, Hr, Hl1. cbn. by rewrite <-!app_assoc.
Qed.

Lemma replay_start_ok components : Forall ledger_component components →
  replaying_ok (origin_balances components) (mkReplaying (origin_balances components) ∅ []).
Proof.
  intros Hc. split; cbn [rp_balances rp_prior rp_result]; [by apply origin_balances_ok|by apply map_Forall_empty|].
  intros k. cbn. lia.
Qed.

(** Observed balances survive a replay: in the replayed ledger, the
    balance of the Starting point plus everything that happened up to and including
    a value update is exactly the amount that the update recorded, whatever was
    inserted, changed or undone before it. *)
Theorem ReplayMoneyEffects_observations activities components res pre a post e m acct v target :
  Forall ledger_activity activities → Forall ledger_component components →
  ReplayMoneyEffects activities components = Ok res → res = pre ++ a :: post →
  Kind a = ActivityValueUpdate → ReversesActivityID a = None → e ∈ recorded_effects a →
  ef_Money e = Some m → ef_AccountID e = Some acct → observation acct e m (Resulting a) = Some v →
  dNewFromString (ev_Amount v) = Some target →
  let key := replayMoneyKey (Target e) acct (currency m) in
  bunits (origin_balances components) key + sumZ (λ x, sumZ (moves key) (Effects x)) (pre ++ [a]) = units 4 target.
Proof.
  intros Ha Hc H Hres Hk Hrev He Hm Hacct Hv Ht key. unfold ReplayMoneyEffects in H.
  apply bind_Ok in H as (s & H & Hs). injection Hs as <-.
  apply (replay_activities_split (origin_balances components) _ _ _ pre a post) in H
    as (xs & s1 & s2 & a0 & rest & Hs1 & Ha0 & _ & Hr1 & H2 & Hr2 & _); [|by apply replay_start_ok|done..].
  cbn in Hr1. rewrite Hr1 in Hr2.
  pose proof H2 as H2'. apply (replay_activity_ok (origin_balances components)) in H2' as (Hs2 & es & Hes & E2); [|done..].
  rewrite <-Hr2, <-(rk_moves _ _ Hs2). rewrite E2 in Hr2. cbn in Hr2. rewrite Hr1 in Hr2.
  apply app_inv_head in Hr2. injection Hr2 as <-. cbn in Hk, Hrev, He, Hv, Ha0 |- *.
  unfold start_effects in Hes. rewrite Hrev, Hk in Hes. destruct Ha0 as [Hle Hlv].
  unfold recorded_effects at 1 in He. cbn in He. pose proof (proj1 (Forall_forall _ _) Hle) as Hall.
  apply (replay_effects_observed _ _ _ _ _ key (units 4 target)) in Hes; [done|apply Hs1|done|done| |].
  - intros e' Hin Hk'. assert (key_of e = Some key) as Hke by (unfold key_of; by rewrite Hm, Hacct).
    destruct (ledger_key_inj e' e key (Hall e' Hin) (Hall e He) Hk' Hke) as (Ht' & Ha' & Hc').
    rewrite Hm, Hacct in *. destruct (ef_Money e') as [m'|] eqn:Em; [|done]. cbn in Hc'. injection Hc' as Hc'.
    exists m', acct, v, target. by rewrite (observation_ext acct e' e m' m).
  - left. exists e. split; [done|]. unfold key_of. by rewrite Hm, Hacct.
Qed.

(** ** Replaying again *)

Lemma with_replayed_twice a es es' r r' : with_replayed (with_replayed a es r) es' r' = with_replayed a es' r'.
Proof. done. Qed.

Lemma replay_activity_again s a s' a' : replay_activity s a = Ok s' → rp_result s' = rp_result s ++ [a'] →
  replay_activity s a' = Ok s'.
Proof.
  intros H Hr. unfold replay_activity in H |- *. apply bind_Ok in H as ([b es] & He & H). injection H as <-.
  cbn in Hr. apply app_inv_head in Hr. injection Hr as <-. cbn. unfold start_effects in *. cbn. by rewrite He.
Qed.

Lemma replay_activity_result s a s' : replay_activity s a = Ok s' → ∃ es,
  rp_result s' = rp_result s ++ [with_replayed a es (recorded_effects a)].
Proof.
  unfold replay_activity. intros H. apply bind_Ok in H as ([b es] & _ & H). injection H as <-. by exists es.
Qed.

(** What a replay does not touch: everything but the current effects. *)
Definition evidence (a : Activity) : Activity := with_replayed a [] (recorded_effects a).

Lemma replay_activities_again s activities s' : replay_activities s activities = Ok s' →
  ∃ l, rp_result s' = rp_result s ++ l ∧ replay_activities s l = Ok s' ∧ (evidence <$> l) = (evidence <$> activities).
Proof.
  revert s. induction activities as [|a activities IH]; intros s H; cbn [replay_activities] in H.
  - injection H as <-. exists []. by rewrite app_nil_r.
  - apply bind_Ok in H as (s1 & H1 & H). destruct (replay_activity_result _ _ _ H1) as (es & Hr1).
    destruct (IH _ H) as (l & Hr & Hl & He). exists (with_replayed a es (recorded_effects a) :: l).
    split; [by rewrite Hr, Hr1, <-app_assoc|]. split; [|cbn; by rewrite He].
    cbn [replay_activities]. by rewrite (replay_activity_again _ _ _ _ H1 Hr1).
Qed.

(** A replay keeps the recorded evidence and is idempotent: every activity
    of the result is the given one with recomputed effects (identity, order, time,
    observations and recorded effects are unchanged), and replaying the result over
    the same Starting point gives it back. *)
Theorem ReplayMoneyEffects_idempotent activities components res :
  ReplayMoneyEffects activities components = Ok res →
  (evidence <$> res) = (evidence <$> activities) ∧ ReplayMoneyEffects res components = Ok res.
Proof.
  unfold ReplayMoneyEffects. intros H. apply bind_Ok in H as (s & H & Hs). injection Hs as <-.
  destruct (replay_activities_again _ _ _ H) as (l & Hr & Hl & He). cbn in Hr. subst.
  split; [done|]. by rewrite Hl.
Qed.
(** ** Undoing *)

Lemma replay_activities_prior s xs s1 pre id : replay_activities s xs = Ok s1 → rp_result s1 = rp_result s ++ pre →
  (∀ x, x ∈ pre → act_ID x ≠ id) → rp_prior s1 !! id = rp_prior s !! id.
Proof.
  revert s pre. induction xs as [|x xs IH]; intros s pre H Hr Hne; cbn [replay_activities] in H.
  - by injection H as <-.
  - apply bind_Ok in H as (s' & H1 & H). pose proof (replay_activities_again _ _ _ H) as (l & Hl & _).
    unfold replay_activity in H1. apply bind_Ok in H1 as ([b es] & _ & H1). injection H1 as <-.
    cbn [rp_result] in Hl. rewrite Hr, <-app_assoc in Hl. apply app_inv_head in Hl. cbn in Hl. subst pre.
    rewrite (IH _ l H); [|cbn [rp_result]; by rewrite Hr, <-app_assoc|intros y Hy; apply Hne; by right].
    cbn. apply lookup_insert_ne. apply (Hne _ (list_elem_of_here _ _)).
Qed.

(** The endpoints of an activity are told apart by target, role and owner. *)
Definition distinct_endpoints (l : list ActivityEffect) : Prop :=
  ∀ i j r s, l !! i = Some r → l !! j = Some s → sameReplayEndpoint r s = true ↔ i = j.

Lemma same_identity_endpoint x e e' : same_identity e e' → sameReplayEndpoint x e' = sameReplayEndpoint x e.
Proof.
  intros (d & m & -> & Hm). unfold sameReplayEndpoint. cbn.
  destruct (ef_Money e), m; try done. cbn in Hm. by injection Hm as ->.
Qed.

Lemma replay_effects_identity kind views effects b b' es :
  balances_ok b → Forall ledger_effect effects → Forall ledger_view views →
  replay_effects kind views b effects = Ok (b', es) →
  (List.length es <= List.length effects)%nat ∧
  (List.length es = List.length effects → Forall2 same_identity effects es).
Proof.
  revert b es. induction effects as [|e effects IH]; intros b es Hb He Hv H; cbn [replay_effects] in H.
  { injection H as <- <-. split; [done|]. by constructor. }
  apply Forall_cons in He as [He Hes]. apply bind_Ok in H as ([b1 o] & H1 & H). apply bind_Ok in H as ([b2 rest] & H2 & H).
  injection H as <- <-. apply replay_effect_units in H1 as (Hb1 & _ & Hid & _); [|done..].
  apply IH in H2 as (Hle & Hf); [|done..]. destruct o as [e'|]; cbn; split; try lia.
  intros [= Hlen]. constructor; [apply (Hid e' eq_refl)|by apply Hf].
Qed.

Lemma replayed_endpoint_at original effects e i o r : Forall2 same_identity original effects →
  (∀ x, sameReplayEndpoint e x = sameReplayEndpoint r x) →
  original !! i = Some r → effects !! i = Some o →
  (∀ j s, original !! j = Some s → sameReplayEndpoint r s = true ↔ i = j) →
  replayed_endpoint e effects = Some o.
Proof.
  intros Hf Her. revert i. induction Hf as [|x y original effects Hxy Hf IH]; intros i Hi Ho Hd; [done|].
  cbn [replayed_endpoint]. rewrite Her, (same_identity_endpoint _ _ _ Hxy).
  destruct (sameReplayEndpoint r x) eqn:E.
  - apply (Hd 0%nat x eq_refl) in E as ->. cbn in Ho. by rewrite Ho.
  - destruct i as [|i].
    + pose proof (proj2 (Hd 0%nat x eq_refl) eq_refl). congruence.
    + cbn in Hi, Ho. apply (IH i Hi Ho). intros j s Hj. rewrite (Hd (S j) s Hj). split; [by intros [= ->]|by intros ->].
Qed.

(** Outside value updates, the loop only drops effects that move nothing. *)
Lemma replay_effects_plain kind views effects b b' es ep : kind ≠ ActivityValueUpdate →
  replay_effects kind views b effects = Ok (b', es) → sumZ (λ e, delta e ep) es = sumZ (λ e, delta e ep) effects.
Proof.
  intros Hk. revert b es. induction effects as [|e effects IH]; intros b es H; cbn [replay_effects] in H.
  { by injection H as <- <-. }
  apply bind_Ok in H as ([b1 o] & H1 & H). apply bind_Ok in H as ([b2 rest] & H2 & H). injection H as <- <-.
  apply IH in H2. rewrite sumZ_cons, <-H2. unfold replay_effect in H1.
  destruct (ef_Money e) as [m|] eqn:Em; [|injection H1 as <- <-; by rewrite sumZ_cons].
  destruct (ef_AccountID e) as [a|] eqn:Ea; [|injection H1 as <- <-; by rewrite sumZ_cons].
  rewrite bool_decide_eq_false_2 in H1 by done. rewrite bind_Ok_l in H1. destruct (m_isZero m) eqn:Ez; injection H1 as <- <-.
  - unfold m_isZero in Ez. apply dIsZero_val, dval_zero_coef in Ez.
    assert (delta e ep = 0) as ->; [|lia]. unfold delta, magnitude. rewrite Em. unfold munits, units, cunits. rewrite Ez.
    unfold post_units. by destruct (bool_decide (endpoint_of e = Some ep)), (bool_decide (Direction e = EffectAdded)).
  - rewrite sumZ_cons. f_equal. unfold delta, endpoint_of, magnitude. cbn. by rewrite Em.
Qed.

(** An undone effect moves every balance back by what was replayed. *)
Lemma undo_delta original effects id aid n r o i ep : Forall2 same_identity original effects →
  distinct_endpoints original → original !! i = Some r → effects !! i = Some o →
  delta (undo_effect effects (inverse_effect id aid n r)) ep = - delta o ep.
Proof.
  intros Hf Hd Hi Ho. unfold undo_effect.
  rewrite (replayed_endpoint_at original effects _ i o r); [|done..|by intros j s Hj; apply Hd].
  destruct (Forall2_lookup_lr _ _ _ _ _ _ Hf Hi Ho) as (d & m & -> & Hm).
  unfold delta, endpoint_of, magnitude, with_money, inverse_effect. cbn.
  destruct (bool_decide _); [|done]. unfold post_units.
  destruct (bool_decide_reflect (d = EffectAdded)) as [->|Hn]; [done|].
  rewrite (bool_decide_eq_true_2 (EffectAdded = EffectAdded)) by done. lia.
Qed.

Lemma undo_deltas original effects newID aid ep : Forall2 same_identity original effects →
  distinct_endpoints original →
  sumZ (λ e, delta e ep) (undo_effect effects <$> inverse_effects newID aid original) = - sumZ (λ e, delta e ep) effects.
Proof.
  intros Hf Hd. rewrite sumZ_fmap. unfold inverse_effects.
  set (h r := - delta (default r (replayed_endpoint r effects)) ep).
  rewrite <-sumZ_opp, <-(sumZ_Forall2 h (λ e, - delta e ep) original).
  - rewrite (sumZ_permutation h _ _ (Permutation_rev original)).
    apply sumZ_imap. intros i r Hin. cbn.
    apply list_elem_of_In, in_rev, list_elem_of_In, list_elem_of_lookup in Hin as [j Hj].
    destruct (Forall2_lookup_l _ _ _ _ _ Hf Hj) as (o & Ho & _).
    rewrite (undo_delta original effects _ _ _ r o j) by done. unfold h.
    by rewrite (replayed_endpoint_at original effects r j o r Hf) by (done || intros j' s Hj'; by apply Hd).
  - apply Forall2_same_length_lookup_2; [by apply (Forall2_length same_identity)|]. intros j r o Hj Ho. unfold h.
    by rewrite (replayed_endpoint_at original effects r j o r Hf) by (done || intros j' s Hj'; by apply Hd).
Qed.

(** Undoing follows the replay: when an activity and a later undo of it are
    replayed, the undo moves every balance, money or quantity, back by exactly what
    the replay made of the activity, even where the replay changed its magnitude or
    found that it no longer changes anything. *)
Theorem ReplayMoneyEffects_undoes activities components res pre a mid b post newID id ep :
  Forall ledger_activity activities → Forall ledger_component components →
  ReplayMoneyEffects activities components = Ok res → res = pre ++ a :: mid ++ b :: post →
  (∀ x, x ∈ mid → act_ID x ≠ act_ID a) → ReversesActivityID a = None →
  ReversesActivityID b = Some (act_ID a) → Kind b ≠ ActivityValueUpdate →
  recorded_effects b = inverse_effects newID id (recorded_effects a) →
  distinct_endpoints (recorded_effects a) →
  Effects a = [] ∨ List.length (Effects a) = List.length (recorded_effects a) →
  sumZ (λ e, delta e ep) (Effects b) = - sumZ (λ e, delta e ep) (Effects a).
Proof.
  intros Hact Hc H Hres Hmid Hra Hrb Hkb Hrec Hd Hall. unfold ReplayMoneyEffects in H.
  apply bind_Ok in H as (s & H & Hs). injection Hs as <-.
  apply (replay_activities_split (origin_balances components) _ _ _ pre a (mid ++ b :: post)) in H
    as (xs & s1 & s2 & a0 & rest & Hs1 & Ha0 & _ & _ & H2 & Hr2 & Hs2 & Hrest & H & Hr); [|by apply replay_start_ok|done..].
  apply (replay_activity_ok (origin_balances components)) in H2 as (_ & ea & Hea & E2); [|done..].
  rewrite E2 in Hr2. cbn in Hr2. apply app_inv_head in Hr2. injection Hr2 as <-.
  apply (replay_activities_split (origin_balances components) _ _ _ mid b post) in H
    as (ys & s3 & s4 & b0 & rest' & Hs3 & Hb0 & H23 & Hr3 & H4 & Hr4 & _); [|done..].
  pose proof (replay_activities_prior _ _ _ _ _ H23 Hr3 Hmid) as Hp.
  apply (replay_activity_ok (origin_balances components)) in H4 as (_ & eb & Heb & E4); [|done..].
  rewrite E4 in Hr4. cbn in Hr4. apply app_inv_head in Hr4. injection Hr4 as <-.
  cbn in Hrb, Hra, Hkb, Hp. cbn [Effects with_replayed].
  rewrite (replay_effects_plain _ _ _ _ _ _ ep Hkb Heb).
  rewrite E2 in Hp. cbn in Hp. rewrite lookup_insert_eq in Hp. unfold start_effects. rewrite Hrb, Hp.
  destruct ea as [|o ea]; [done|]. destruct Hall as [|Hlen]; [done|]. set (es := o :: ea) in *.
  unfold start_effects in Hea. rewrite Hra in Hea. destruct Ha0 as [Hle Hlv].
  apply replay_effects_identity in Hea as [_ Hf]; [|apply Hs1|done|done]. specialize (Hf Hlen).
  change (recorded_effects (with_replayed b0 eb (recorded_effects b0))) with (recorded_effects b0) in Hrec.
  change (recorded_effects (with_replayed a0 es (recorded_effects a0))) with (recorded_effects a0) in Hrec, Hd.
  rewrite Hrec. by apply undo_deltas.
Qed.
End Laws.

(** ** A concrete ledger *)

(** An account worth 100 at the Starting point, a deposit of 50 that was entered
    late, an observation of 120 that used to be a gain of 20, and its undo. *)
Definition wallet : AccountID := "0f0e0d0c-0b0a-4908-8706-050403020100".
Definition wallet_effect (id activity : string) (d : EffectDirection) (cls : ActivityClassification) (m : Money)
    : ActivityEffect :=
  mkEffect id activity 1 EffectRoleAmount d EffectTargetAccountValue cls (Some wallet) None None (Some m) None None.
Definition wallet_view (amt : string) : EndpointView :=
  mkView EffectTargetAccountValue (Some wallet) None None "wallet" amt "" "USD".
Definition wallet_activity (id : string) (k : ActivityKind) (rev : option string) (vs : list EndpointView)
    (es : list ActivityEffect) : Activity :=
  mkActivity id "home" k ReasonOther 0 "2024-06-01" 0 None rev None None None None vs es None.

Definition sample_deposit : Activity :=
  wallet_activity "a1" ActivityCashIn None [wallet_view "150"]
    [wallet_effect "e1" "a1" EffectAdded ClassificationIncome (usd 5000)].
Definition sample_observation : Activity :=
  wallet_activity "a2" ActivityValueUpdate None [wallet_view "120"]
    [wallet_effect "e2" "a2" EffectAdded ClassificationRemeasurement (usd 2000)].
Definition sample_undo : Activity :=
  wallet_activity "a3" ActivityReversal (Some "a2"%string) [wallet_view "150"]
    (inverse_effects sample_id "a3" (Effects sample_observation)).
Definition sample_ledger : list Activity := [sample_deposit; sample_observation; sample_undo].
Definition sample_components : list HistoryOriginComponent :=
  [mkComponent "c1" "o1" HistoryOriginAccountValue (Some wallet) None None (Some (usd 10000)) None None 1].

Definition money4 (u : Z) : Money := mkMoney (mkDec u (-4)) "USD".
Definition replayed_observation : Activity :=
  with_replayed sample_observation
    [wallet_effect "e2" "a2" EffectRemoved ClassificationRemeasurement (money4 300000)] (Effects sample_observation).
Definition replayed_undo : Activity :=
  with_replayed sample_undo
    (undo_effect (Effects replayed_observation) <$> Effects sample_undo) (Effects sample_undo).
Definition sample_replayed : list Activity :=
  [with_replayed sample_deposit (Effects sample_deposit) (Effects sample_deposit); replayed_observation; replayed_undo].

Lemma sample_ledger_replayed : ReplayMoneyEffects sample_ledger sample_components = Ok sample_replayed.
Proof. vm_cast_no_check (@eq_refl (Result (list Activity)) (Ok sample_replayed)). Qed.

Lemma wallet_effect_ok id activity d cls m : Money_ok m → ledger_effect (wallet_effect id activity d cls m).
Proof. intros Hm. split; [by intros ? [= <-]|]. split; [by intros ? [= <-]|done]. Qed.

Lemma sample_ledger_ok : Forall ledger_activity sample_ledger ∧ Forall ledger_component sample_components.
Proof.
  assert (Hv : ∀ amt, (∃ d, dNewFromString amt = Some d ∧ -4 <= dExponent d) → ledger_view (wallet_view amt)).
  { intros amt (d & Hd & He) d' Hd'. cbn [ev_Amount wallet_view] in Hd'. congruence. }
  split.
  - apply Forall_cons_2; [|apply Forall_cons_2; [|apply Forall_singleton]];
      (split; apply Forall_singleton; [apply wallet_effect_ok; by apply cents_ok|apply Hv]).
    + exists (mkDec 150 0). split; [reflexivity|by apply Z.leb_le].
    + exists (mkDec 120 0). split; [reflexivity|by apply Z.leb_le].
    + exists (mkDec 150 0). split; [reflexivity|by apply Z.leb_le].
  - apply Forall_singleton. intros m [= <-]. by apply cents_ok.
Qed.

Lemma ReplayMoneyEffects_observations_witness :
  bunits (origin_balances sample_components)
    (replayMoneyKey EffectTargetAccountValue wallet (currency (usd 2000))) +
  sumZ (λ x, sumZ (moves (replayMoneyKey EffectTargetAccountValue wallet (currency (usd 2000)))) (Effects x))
    ([with_replayed sample_deposit (Effects sample_deposit) (Effects sample_deposit)] ++ [replayed_observation])
  = 1200000.
Proof.
  apply (ReplayMoneyEffects_observations sample_ledger sample_components sample_replayed
    [with_replayed sample_deposit (Effects sample_deposit) (Effects sample_deposit)] replayed_observation
    [replayed_undo] (wallet_effect "e2" "a2" EffectAdded ClassificationRemeasurement (usd 2000)) (usd 2000) wallet
    (wallet_view "120") (mkDec 120 0) (proj1 sample_ledger_ok) (proj2 sample_ledger_ok) sample_ledger_replayed
    eq_refl eq_refl eq_refl (list_elem_of_here _ _) eq_refl eq_refl eq_refl eq_refl).
Defined.

Lemma ReplayMoneyEffects_idempotent_witness : ReplayMoneyEffects sample_replayed sample_components = Ok sample_replayed.
Proof. apply (ReplayMoneyEffects_idempotent sample_ledger sample_components sample_replayed sample_ledger_replayed). Defined.

Lemma sample_observation_distinct : distinct_endpoints (Effects sample_observation).
Proof. intros [|i] [|j] r s Hr Hs; try done. injection Hr as <-. injection Hs as <-. split; [done|]. intros _. by vm_compute. Qed.

Lemma ReplayMoneyEffects_undoes_witness :
  sumZ (λ e, delta e (EpValue wallet)) (Effects replayed_undo) = 300000.
Proof.
  exact (ReplayMoneyEffects_undoes sample_ledger sample_components sample_replayed
    [with_replayed sample_deposit (Effects sample_deposit) (Effects sample_deposit)] replayed_observation []
    replayed_undo [] sample_id "a3" (EpValue wallet) (proj1 sample_ledger_ok) (proj2 sample_ledger_ok)
    sample_ledger_replayed eq_refl (λ x (H : x ∈ []), False_ind _ (not_elem_of_nil x H)) eq_refl eq_refl
    ltac:(discriminate) eq_refl sample_observation_distinct (or_intror eq_refl)).
Defined.
