(* ===== verification/LocalTime.v ===== *)
(** * From a wall clock to an instant

    [ResolveLocalDateTime] of [change.go]: a date and a time of day in a household's
    zone are converted to the instant they denote, and refused when the zone skips
    or repeats that wall time.

    [DateIn l w] is [time.Date] in location [l] of the fields of the wall clock [w]
    (written as the instant at which a clock in UTC shows them): Go subtracts the
    offset in force at [w] read as UTC, and looks the offset up again if the result
    falls outside that offset's period. *)

From S2P Require Export CivilDate.
From S2P Require Import Identity ChangeState.
From Stdlib Require Import String Ascii.

#[global] Open Scope Z_scope.

Definition Minute : Z := 60 * Second.

Definition DateIn (l : Location) (w : Time) : Time :=
  w - zoneOffset l (w - zoneOffset l w * Second) * Second.

(** [time.Parse("15:04", s)]: one or two digits, a colon, two digits. *)
Definition ParseClock (s : string) : option (Z * Z) :=
  let finish h m1 m2 :=
    if is_digit m1 && is_digit m2 then
      let m := 10 * digit_val m1 + digit_val m2 in
      if (h <? 24) && (m <? 60) then Some (h, m) else None
    else None in
  match list_ascii_of_string s with
  | [h1; c; m1; m2] =>
    if is_digit h1 && Ascii.eqb c ":" then finish (digit_val h1) m1 m2 else None
  | [h1; h2; c; m1; m2] =>
    if is_digit h1 && is_digit h2 && Ascii.eqb c ":" then finish (10 * digit_val h1 + digit_val h2) m1 m2 else None
  | _ => None
  end.

(** [Format("15:04")] and [Format("2006-01-02 15:04")] of a wall clock. *)
Definition FormatClock (w : Time) : string :=
  pad_digits 2 (w mod Day / Hour) +:+ String ":" (pad_digits 2 (w mod Hour / Minute)).
Definition FormatMinute (w : Time) : string := FormatDate w +:+ String " " (FormatClock w).

(** The wall clock without its seconds. *)
Definition to_minute (w : Time) : Time := w - w mod Minute.

(** The offsets sampled every quarter of an hour, 36 hours either way. *)
Definition sample_offsets (l : Location) (t : Time) : list Z :=
  remove_dups ((λ k, zoneOffset l (t - 36 * Hour + Z.of_nat k * (15 * Minute))) <$> seq 0 289).

Definition wall_candidates (l : Location) (wallText : string) (w : Time) (offsets : list Z) : list Time :=
  filter (λ t, FormatMinute (wall l t) = wallText) ((λ o, w - o * Second) <$> offsets).

Definition time_error (field message : string) : goerror := domainErr ErrInvalidChangeTime field message.

(** Of the candidates only the first of one is used, so sorting them is left out. *)
Definition ResolveLocalDateTime `{TZ : TimeZones} (date clock timezone : string) : Result Time :=
  let timezoneName := TrimSpace timezone in
  if bool_decide (timezoneName = ""%string) then Fail timezone_required
  else match LoadLocation timezoneName with
  | None => Fail (time_error "timezone" "timezone must be a valid IANA timezone")
  | Some location =>
    match ParseDate (TrimSpace date) with
    | None => Fail (time_error "date" "date must use YYYY-MM-DD")
    | Some day =>
      let parsedDate := DateIn location (utc_midnight day) in
      match ParseClock (TrimSpace clock) with
      | None => Fail (time_error "time" "time must use HH:MM")
      | Some (hour, minute) =>
        let t := DateIn location (utc_midnight (day_of (wall location parsedDate)) + hour * Hour + minute * Minute) in
        let wallText := TrimSpace date +:+ String " " (TrimSpace clock) in
        match wall_candidates location wallText (to_minute (wall location t)) (sample_offsets location t) with
        | [] => Fail (time_error "time" "local time does not exist in the selected timezone")
        | [candidate] => Ok (normalizeTime candidate)
        | _ => Fail (time_error "time" "local time is ambiguous in the selected timezone")
        end
      end
    end
  end.

(** ** Text *)

Lemma str_app_inj a b c d : slen a = slen c → (a +:+ b)%string = (c +:+ d)%string → a = c ∧ b = d.
Proof.
  revert c. induction a as [|x a IH]; intros [|y c]; rewrite ?slen_cons; intros Hl H.
  - done.
  - pose proof (slen_nonneg c). change (slen "") with 0 in Hl. lia.
  - pose proof (slen_nonneg a). change (slen "") with 0 in Hl. lia.
  - rewrite !str_app_cons in H. injection H as -> H. destruct (IH c ltac:(lia) H) as [-> ->]. done.
Qed.

Lemma pad2_inj x y : 0 <= x < 100 → 0 <= y < 100 → pad_digits 2 x = pad_digits 2 y → x = y.
Proof.
  intros Hx Hy H. apply (f_equal digits_val) in H. rewrite !pad_digits_val in H.
  change (10 ^ Z.of_nat 2) with 100 in H. by rewrite !Z.mod_small in H by done.
Qed.

Lemma FormatClock_inj v w : v mod Minute = 0 → w mod Minute = 0 → FormatClock v = FormatClock w →
  v mod Day = w mod Day.
Proof.
  unfold FormatClock. intros Hv Hw H. apply str_app_inj in H as [Hh H]; [|by rewrite !pad_digits_len].
  assert (Hm := f_equal (λ s, match s with String _ r => r | EmptyString => s end) H). cbv beta iota in Hm.
  unfold Day, Hour, Minute, Second in *.
  apply pad2_inj in Hh; [|split; [apply Z.div_pos; [apply Z.mod_pos_bound|]; lia|apply Z.div_lt_upper_bound; [lia|]]..].
  2,3: match goal with |- ?x mod ?d < _ => pose proof (Z.mod_pos_bound x d ltac:(lia)); lia end.
  apply pad2_inj in Hm; [|split; [apply Z.div_pos; [apply Z.mod_pos_bound|]; lia|apply Z.div_lt_upper_bound; [lia|]]..].
  2,3: match goal with |- ?x mod ?d < _ => pose proof (Z.mod_pos_bound x d ltac:(lia)); lia end.
  Z.div_mod_to_equations. lia.
Qed.

Lemma FormatClock_len w : slen (FormatClock w) = 5.
Proof. unfold FormatClock. by rewrite slen_app, slen_cons, !pad_digits_len. Qed.

(** Two wall clocks on the minute with the same text are equal. *)
Lemma FormatMinute_inj v w : v mod Minute = 0 → w mod Minute = 0 → FormatMinute v = FormatMinute w → v = w.
Proof.
  intros Hv Hw H. unfold FormatMinute, FormatDate in H. apply str_app_inj in H as [H1 H2].
  - assert (H3 := f_equal (λ s, match s with String _ r => r | EmptyString => s end) H2). cbv beta iota in H3.
    apply FormatClock_inj in H3; [|done..]. apply format_days_inj in H1. unfold day_of in H1.
    rewrite (Z.div_mod v Day), (Z.div_mod w Day) by (unfold Day, Hour, Second; lia). lia.
  - apply (f_equal slen) in H. rewrite !slen_app, !slen_cons, !FormatClock_len in H. lia.
Qed.

Lemma ParseClock_range s h m : ParseClock s = Some (h, m) → 0 <= h < 24 ∧ 0 <= m < 60.
Proof.
  assert (∀ a, is_digit a = true → 0 <= digit_val a) as Hd.
  { intros a Ha. unfold is_digit, in_range in Ha. unfold digit_val. lia. }
  unfold ParseClock. repeat case_match; intros H'; try discriminate; injection H' as <- <-;
    repeat match goal with H : _ && _ = true |- _ => apply andb_prop in H as [] end;
    repeat match goal with H : is_digit _ = true |- _ => apply Hd in H end; lia.
Qed.

(** ** Zones around a date

    Offsets are less than 26 hours (the range of the TZif format), and within five days of the date
    the zone changes its offset at most once, by whole minutes and at most 36 hours. *)

Definition zone_near (l : Location) (day : Time) : Prop :=
  (∀ t, - (26 * 3600) < zoneOffset l t < 26 * 3600) ∧
  ∃ T a b, (a - b) mod 60 = 0 ∧ - (36 * 3600) <= a - b <= 36 * 3600 ∧
    ∀ t, day - 5 * Day <= t <= day + 5 * Day → zoneOffset l t = if t <? T then a else b.

Ltac units_of_time := unfold utc_midnight, to_minute, wall, DateIn, Day, Hour, Minute, Second in *.

Lemma zone_near_minute l day t u : zone_near l day → day - 5 * Day <= t <= day + 5 * Day → day - 5 * Day <= u <= day + 5 * Day →
  (zoneOffset l t - zoneOffset l u) mod 60 = 0.
Proof.
  intros (_ & T & a & b & Hm & _ & Hz) Ht Hu. rewrite !Hz by done. destruct (t <? T), (u <? T); [by rewrite Z.sub_diag|done| |by rewrite Z.sub_diag].
  replace (b - a) with (- (a - b)) by lia. by apply Z_mod_zero_opp_full.
Qed.

(** Offsets in nanoseconds, with the length of an hour left abstract. *)
Lemma zone_near_offsets l day : zone_near l day → ∃ H T A B, 0 < H ∧ Hour = H ∧ Day = 24 * H ∧
  (∀ t, - (26 * H) <= zoneOffset l t * Second <= 26 * H) ∧ - (36 * H) <= A - B <= 36 * H ∧
  ∀ t, day - 120 * H <= t <= day + 120 * H → zoneOffset l t * Second = if t <? T then A else B.
Proof.
  intros (Hb & T & a & b & _ & Hab & Hz). exists Hour, T, (a * Second), (b * Second).
  split; [done|]. split; [done|]. split; [done|]. split; [|split].
  - intros t. specialize (Hb t). unfold Hour, Second. lia.
  - unfold Hour, Second. lia.
  - intros t Ht. rewrite Hz by (unfold Day; lia). by destruct (t <? T).
Qed.

(** [time.Date] finds a wall time that exists. *)
Lemma DateIn_exists l day w u : zone_near l day → day - Day <= w <= day + 2 * Day → wall l u = w →
  wall l (DateIn l w) = w.
Proof.
  intros Hz Hw Hu. destruct (zone_near_offsets l day Hz) as (H & T & A & B & HH & _ & HD & Hb & _ & Ho).
  rewrite HD in Hw. unfold wall, DateIn in *. pose proof (Hb u). pose proof (Hb w).
  pose proof (Hb (w - zoneOffset l w * Second)). set (p := w - zoneOffset l w * Second) in *.
  set (r := w - zoneOffset l p * Second) in *. pose proof (Hb r).
  assert (Hou := Ho u ltac:(lia)). assert (How := Ho w ltac:(lia)). assert (Hop := Ho p ltac:(lia)).
  assert (Hor := Ho r ltac:(lia)). clear Ho Hb Hz.
  destruct (Z.ltb_spec u T), (Z.ltb_spec w T), (Z.ltb_spec p T), (Z.ltb_spec r T); lia.
Qed.

Lemma DateIn_near l day w : zone_near l day → w - 26 * Hour <= DateIn l w <= w + 26 * Hour.
Proof. intros (Hb & _). pose proof (Hb (w - zoneOffset l w * Second)). units_of_time. lia. Qed.

Lemma quarters k : (k < 289)%nat → 0 <= Z.of_nat k * (15 * Minute) <= 72 * Hour.
Proof.
  intros Hk. assert (0 <= Z.of_nat k <= 288) as H by lia. revert H. generalize (Z.of_nat k). clear.
  intros z Hz. unfold Hour, Minute, Second. lia.
Qed.

Lemma sample_offsets_elem l t o :
  o ∈ sample_offsets l t ↔ ∃ k, o = zoneOffset l (t - 36 * Hour + Z.of_nat k * (15 * Minute)) ∧ (k < 289)%nat.
Proof.
  unfold sample_offsets. rewrite elem_of_remove_dups, list_elem_of_fmap.
  split; intros (k & -> & Hk); exists k; (split; [done|]); apply elem_of_seq in Hk || apply elem_of_seq; lia.
Qed.

(** The sampled offsets are those in force within 36 hours. *)
Lemma sample_offsets_complete l day t u : zone_near l day → day - 2 * Day <= t <= day + 3 * Day →
  t - 36 * Hour <= u <= t + 36 * Hour → zoneOffset l u ∈ sample_offsets l t.
Proof.
  intros (_ & T & a & b & _ & _ & Hz) Ht Hu. apply sample_offsets_elem.
  set (f k := t - 36 * Hour + Z.of_nat k * (15 * Minute)).
  assert (H0 : f 0%nat = t - 36 * Hour) by (unfold f; lia).
  assert (H1 : f 288%nat = t + 36 * Hour) by (unfold f; units_of_time; lia).
  assert (Hu5 := Hz u ltac:(units_of_time; lia)). rewrite Hu5.
  assert (Hz0 := Hz (f 0%nat) ltac:(rewrite H0; units_of_time; lia)).
  assert (Hz1 := Hz (f 288%nat) ltac:(rewrite H1; units_of_time; lia)).
  destruct (Z.ltb_spec u T).
  - exists 0%nat. split; [|lia]. change (a = zoneOffset l (f 0%nat)).
    rewrite Hz0, H0. by rewrite (proj2 (Z.ltb_lt _ _)) by lia.
  - exists 288%nat. split; [|lia]. change (b = zoneOffset l (f 288%nat)).
    rewrite Hz1, H1. by rewrite (proj2 (Z.ltb_ge _ _)) by lia.
Qed.

Lemma sample_offsets_sound l day t o : day - 3 * Day <= t <= day + 3 * Day →
  o ∈ sample_offsets l t → ∃ u, o = zoneOffset l u ∧ day - 5 * Day <= u <= day + 5 * Day.
Proof.
  intros Ht Ho. apply sample_offsets_elem in Ho as (k & -> & Hk). eexists. split; [reflexivity|].
  pose proof (quarters k ltac:(lia)) as Hq. clear Hk. unfold Day in *.
  revert Hq Ht. generalize (Z.of_nat k * (15 * Minute)), Hour. intros. lia.
Qed.

Lemma mod_minute_sub x y : x mod Minute = 0 → y mod Minute = 0 → (x - y) mod Minute = 0.
Proof. intros Hx Hy. by rewrite Zminus_mod, Hx, Hy. Qed.
Lemma mod_minute_add x y : x mod Minute = 0 → y mod Minute = 0 → (x + y) mod Minute = 0.
Proof. intros Hx Hy. by rewrite Zplus_mod, Hx, Hy. Qed.
Lemma mod_minute_offset o : o mod 60 = 0 → (o * Second) mod Minute = 0.
Proof. intros Ho. unfold Minute. rewrite Zmult_mod_distr_r, Ho. done. Qed.
Lemma mod_minute_trunc x : to_minute x mod Minute = 0.
Proof. unfold to_minute. rewrite Zminus_mod, Zmod_mod, Z.sub_diag. done. Qed.

(** A candidate shows the wall clock whose text it was matched with. *)
Lemma wall_candidates_sound l day v w c : zone_near l day → day - Day <= w < day + Day → v mod Minute = 0 →
  c ∈ wall_candidates l (FormatMinute v) (to_minute (wall l (DateIn l w))) (sample_offsets l (DateIn l w)) →
  wall l c = v ∧ ∃ o, c = to_minute (wall l (DateIn l w)) - o * Second ∧ o ∈ sample_offsets l (DateIn l w).
Proof.
  intros Hz Hw Hm. set (t := DateIn l w). pose proof (DateIn_near l day w Hz) as Ht. fold t in Ht.
  destruct (zone_near_offsets l day Hz) as (H & _ & _ & _ & HH & HH' & HD & Hb & _ & _). rewrite HH' in Ht.
  unfold wall_candidates. rewrite list_elem_of_filter, list_elem_of_fmap.
  intros (Htext & o & Ec & Ho). split; [|by exists o].
  apply (sample_offsets_sound l day) in Ho as (u & -> & Hu); [|lia].
  assert (wall l t - H <= to_minute (wall l t) <= wall l t) as Hmin.
  { unfold to_minute. rewrite <-HH'. pose proof (Z.mod_pos_bound (wall l t) Minute ltac:(done)).
    assert (Minute <= Hour) by (unfold Minute, Hour, Second; lia). lia. }
  pose proof (Hb t). pose proof (Hb u). assert (Hwt : wall l t = t + zoneOffset l t * Second) by done.
  apply FormatMinute_inj; [|done|done].
  assert (wall l c = to_minute (wall l t) + (zoneOffset l c - zoneOffset l u) * Second) as -> by (unfold wall at 1; lia).
  apply mod_minute_add; [apply mod_minute_trunc|]. apply mod_minute_offset, (zone_near_minute l day); [done|lia|done].
Qed.

(** The candidates are exactly the instants with that wall clock. *)
Lemma wall_candidates_spec l day w c : zone_near l day → day <= w < day + Day → w mod Minute = 0 →
  let t := DateIn l w in
  c ∈ wall_candidates l (FormatMinute w) (to_minute (wall l t)) (sample_offsets l t) ↔ wall l c = w.
Proof.
  intros Hz Hw Hm t. pose proof (DateIn_near l day w Hz) as Ht. fold t in Ht.
  destruct (zone_near_offsets l day Hz) as (H & T & A & B & HH & HH' & HD & Hb & HAB & Ho). rewrite HH' in Ht. split.
  { intros Hc. apply (wall_candidates_sound l day w w c); (done || lia). }
  intros Hc. unfold wall_candidates. rewrite list_elem_of_filter, list_elem_of_fmap.
  split; [by rewrite Hc|]. exists (zoneOffset l c).
  assert (wall l t = w) as Hwt by (apply (DateIn_exists l day w c); done || lia). rewrite Hwt.
  assert (to_minute w = w) as -> by (unfold to_minute; lia). split; [unfold wall in Hc; lia|].
  apply (sample_offsets_complete l day); [done|lia|]. rewrite HH'. pose proof (Hb c). pose proof (Hb t). unfold wall in Hc, Hwt.
  pose proof (Ho c ltac:(lia)). pose proof (Ho t ltac:(lia)). destruct (c <? T), (t <? T); lia.
Qed.

Lemma wall_candidates_nodup l text w t : NoDup (wall_candidates l text w (sample_offsets l t)).
Proof.
  unfold wall_candidates. apply NoDup_filter. apply NoDup_fmap_2; [|apply NoDup_remove_dups].
  intros x y Hxy. unfold Second in Hxy. lia.
Qed.

Lemma to_wall_day day h m : (0 <= h < 24) → (0 <= m < 60) →
  let w := day + h * Hour + m * Minute in day <= w < day + Day.
Proof. unfold Day, Hour, Minute, Second. lia. Qed.

Lemma wall_minute n h m : (utc_midnight n + h * Hour + m * Minute) mod Minute = 0.
Proof.
  unfold utc_midnight, Day, Hour, Minute. apply Z.mod_divide; [done|]. exists (n * 24 * 60 + h * 60 + m). lia.
Qed.

(** The text that the candidates are matched with. *)
Lemma wall_text date clock n h m : ParseDate (TrimSpace date) = Some n →
  FormatClock (h * Hour + m * Minute) = TrimSpace clock → 0 <= h < 24 → 0 <= m < 60 →
  (TrimSpace date +:+ String " " (TrimSpace clock))%string = FormatMinute (utc_midnight n + h * Hour + m * Minute).
Proof.
  intros Hd Hfc Hh Hm. pose proof (to_wall_day (utc_midnight n) h m Hh Hm) as Hw. cbv zeta in Hw.
  set (w := utc_midnight n + h * Hour + m * Minute) in *. assert (0 < Day) as HD by done.
  unfold FormatMinute, FormatDate. rewrite <-Hfc. f_equal; [|f_equal].
  - rewrite <-(format_days_of_parse _ _ Hd). f_equal. unfold day_of, w in *. unfold utc_midnight in *.
    apply Z.div_unique with (h * Hour + m * Minute); lia.
  - unfold FormatClock. assert (w mod Day = (h * Hour + m * Minute) mod Day) as ->.
    { unfold w, utc_midnight. rewrite <-Z.add_assoc, Z.add_comm. apply Z.mod_add. lia. }
    assert (w mod Hour = (h * Hour + m * Minute) mod Hour) as ->; [|done].
    unfold w, utc_midnight, Day. rewrite <-Z.add_assoc, Z.add_comm, Z.mul_assoc. apply Z.mod_add. done.
Qed.

(** Claim C35.  A wall clock is converted to the instant it denotes, or refused.  Take a valid
    date and a time of day written as [HH:MM], in a known zone whose offsets are always less than 26 hours, and
    suppose that the midnight of the date exists and that within five days of it the zone changes
    its offset at most once, by whole minutes and by no more than 36 hours (the offsets themselves
    may have seconds, as local mean time has).  Then the result is the only instant at which the
    zone shows that date and time, and the error means that the zone shows it never (a gap) or at
    two different instants (a repeated hour). *)
Theorem ResolveLocalDateTime_correct `{TZ : TimeZones} date clock timezone l n h m :
  TrimSpace timezone ≠ ""%string → LoadLocation (TrimSpace timezone) = Some l →
  ParseDate (TrimSpace date) = Some n → ParseClock (TrimSpace clock) = Some (h, m) →
  FormatClock (h * Hour + m * Minute) = TrimSpace clock →
  zone_near l (utc_midnight n) → (∃ u, wall l u = utc_midnight n) →
  let w := utc_midnight n + h * Hour + m * Minute in
  match ResolveLocalDateTime date clock timezone with
  | Ok t => wall l t = w ∧ ∀ u, wall l u = w → u = t
  | Fail (DomainErr e) => Code e = ErrInvalidChangeTime ∧
      ((∀ u, wall l u ≠ w) ∨ ∃ u v, u ≠ v ∧ wall l u = w ∧ wall l v = w)
  | Fail (OtherErr _) => False
  end.
Proof.
  intros Htz Hl Hd Hc Hfc Hz [u Hu] w. destruct (ParseClock_range _ _ _ Hc) as [Hh Hm]. unfold ResolveLocalDateTime.
  rewrite bool_decide_eq_false_2, Hl, Hd, Hc by done.
  rewrite (DateIn_exists l (utc_midnight n) (utc_midnight n) u) by (done || unfold Day, Hour, Second; lia).
  assert (0 < Day) as HD by (unfold Day, Hour, Second; lia).
  assert (day_of (utc_midnight n) = n) as -> by (unfold day_of, utc_midnight; by apply Z.div_mul; lia). fold w.
  assert (Hw : utc_midnight n <= w < utc_midnight n + Day) by (by apply to_wall_day).
  assert (Hw0 : w mod Minute = 0) by apply wall_minute.
  rewrite (wall_text date clock n h m) by done.
  pose proof (λ c, wall_candidates_spec l (utc_midnight n) w c Hz Hw Hw0) as Hs.
  pose proof (wall_candidates_nodup l (FormatMinute w) (to_minute (wall l (DateIn l w))) (DateIn l w)) as Hnd.
  cbv zeta in Hs. destruct (wall_candidates _ _ _ _) as [|c [|c' cs]].
  - split; [done|]. left. intros v Hv. apply Hs in Hv. by apply elem_of_nil in Hv.
  - assert (normalizeTime c = c) as ->.
    { unfold normalizeTime. assert (c mod Millisecond = 0) as ->; [|lia].
      assert (wall l c = w) as Hcw by (apply Hs; left). unfold wall in Hcw.
      assert (c = w - zoneOffset l c * Second) as -> by lia. unfold Second. apply Z.mod_divide; [done|].
      apply Z.mod_divide in Hw0 as [k ->]; [|done].
      exists (k * 60000 - zoneOffset l c * 1000). unfold Minute, Second, Millisecond. lia. }
    split; [apply Hs; left|]. intros v Hv. apply Hs in Hv. by apply list_elem_of_singleton in Hv.
  - split; [done|]. right. exists c, c'. split; [|split; apply Hs; [left|right; left]].
    intros ->. apply NoDup_cons in Hnd as [Hn _]. apply Hn. left.
Qed.

(** ** A midnight that the zone skips *)

(** The clock of a zone [k] seconds west of UTC jumps from 00:00 to 01:00. *)
Definition skipping_midnight (n k : Z) : Location := spring_zone (utc_midnight n + k * Second) (- k).

Lemma skipping_offset n k t :
  zoneOffset (skipping_midnight n k) t = if t <? utc_midnight n + k * Second then - k else - k + 3600.
Proof. unfold skipping_midnight, spring_zone, zoneOffset. cbn. by destruct (_ <? _). Qed.

Lemma skipping_near n k d : 0 < k <= 18 * 3600 → zone_near (skipping_midnight n k) d.
Proof.
  intros Hk. split.
  - intros t. rewrite skipping_offset. destruct (_ <? _); lia.
  - exists (utc_midnight n + k * Second), (- k), (- k + 3600). assert (- k - (- k + 3600) = -3600) as -> by lia.
    split; [done|]. split; [done|]. intros t _. apply skipping_offset.
Qed.

(** The midnight is resolved to an instant of the day before. *)
Lemma skipped_date n k : 0 < k <= 18 * 3600 →
  day_of (wall (skipping_midnight n k) (DateIn (skipping_midnight n k) (utc_midnight n))) = n - 1.
Proof.
  intros Hk. unfold wall, DateIn. rewrite (skipping_offset n k (utc_midnight n)).
  rewrite (proj2 (Z.ltb_lt (utc_midnight n) _)) by (unfold Second; lia).
  rewrite (skipping_offset n k (utc_midnight n - - k * Second)), (proj2 (Z.ltb_ge _ _)) by lia.
  rewrite skipping_offset, (proj2 (Z.ltb_lt _ _)) by (unfold Second; lia).
  unfold day_of, utc_midnight. symmetry. apply Z.div_unique with (23 * Hour); unfold Day, Hour, Second; lia.
Qed.

(** A defect of the conversion: [ResolveLocalDateTime] takes the date from
    its midnight in the zone, so west of UTC, on the day whose midnight the clock
    skips (00:00 to 01:00, as in Santiago or Havana), every time of day is refused as
    one that does not exist, although each from 01:00 on denotes an instant. *)
Theorem ResolveLocalDateTime_skipped_midnight `{TZ : TimeZones} date clock timezone n k h m :
  TrimSpace timezone ≠ ""%string → LoadLocation (TrimSpace timezone) = Some (skipping_midnight n k) →
  0 < k <= 18 * 3600 →
  ParseDate (TrimSpace date) = Some n → ParseClock (TrimSpace clock) = Some (h, m) →
  FormatClock (h * Hour + m * Minute) = TrimSpace clock →
  code_of (ResolveLocalDateTime date clock timezone) = Some ErrInvalidChangeTime ∧
  (1 <= h → ∃ u, wall (skipping_midnight n k) u = utc_midnight n + h * Hour + m * Minute).
Proof.
  intros Htz Hl Hk Hd Hc Hfc. destruct (ParseClock_range _ _ _ Hc) as [Hh Hm]. set (l := skipping_midnight n k) in *.
  pose proof (to_wall_day (utc_midnight n) h m Hh Hm) as Hw. cbv zeta in Hw.
  set (w := utc_midnight n + h * Hour + m * Minute) in *. split.
  - unfold ResolveLocalDateTime. rewrite bool_decide_eq_false_2, Hl, Hd, Hc, (wall_text date clock n h m) by done.
    fold w.
    assert (day_of (wall l (DateIn l (utc_midnight n))) = n - 1) as -> by (by apply skipped_date). set (w' := utc_midnight (n - 1) + h * Hour + m * Minute).
    assert (w' = w - Day) as Hw' by (unfold w', w, utc_midnight; lia).
    destruct (wall_candidates _ _ _ _) as [|c cs] eqn:E; [done|exfalso].
    assert (c ∈ wall_candidates l (FormatMinute w) (to_minute (wall l (DateIn l w'))) (sample_offsets l (DateIn l w')))
      as Hin by (rewrite E; left).
    apply (wall_candidates_sound l (utc_midnight n)) in Hin as (Hcw & o & -> & Ho);
      [|by apply skipping_near|lia|apply wall_minute].
    apply sample_offsets_elem in Ho as (j & -> & _).
    pose proof (Z.mod_pos_bound (wall l (DateIn l w')) Minute ltac:(done)).
    unfold to_minute, wall, DateIn, l in *. rewrite !skipping_offset in *. unfold Day, Hour, Second in *.
    repeat match goal with H : context [if ?b then _ else _] |- _ => destruct b end; lia.
  - intros H1. exists (w - (- k + 3600) * Second). unfold wall, l. rewrite skipping_offset.
    rewrite (proj2 (Z.ltb_ge _ _)); [lia|]. unfold w, Hour, Minute, Second in *. lia.
Qed.

(** ** Concrete zones *)

Definition test_date : string := "2024-09-08".
Definition test_day : Z := days_of_civil 2024 9 8.
Definition shanghai : Location := mkLocation (λ _, (28800, None)).
(** In Santiago 8 September 2024 begins at 01:00. *)
Definition santiago : Location := skipping_midnight test_day 14400.
Definition test_zones : TimeZones :=
  {| LoadLocation name := if bool_decide (name = "Asia/Shanghai"%string) then Some shanghai
       else if bool_decide (name = "America/Santiago"%string) then Some santiago else None |}.

Lemma shanghai_near d : zone_near shanghai d.
Proof. split; [intros t; by cbn|]. exists 0, 28800, 28800. split; [done|]. split; [done|]. intros t _. cbn. by destruct (t <? 0). Qed.

Lemma ResolveLocalDateTime_correct_witness :
  match @ResolveLocalDateTime test_zones test_date "04:05" "Asia/Shanghai" with
  | Ok t => wall shanghai t = utc_midnight test_day + 4 * Hour + 5 * Minute ∧
      ∀ u, wall shanghai u = utc_midnight test_day + 4 * Hour + 5 * Minute → u = t
  | Fail (DomainErr e) => Code e = ErrInvalidChangeTime ∧
      ((∀ u, wall shanghai u ≠ utc_midnight test_day + 4 * Hour + 5 * Minute) ∨
       ∃ u v, u ≠ v ∧ wall shanghai u = utc_midnight test_day + 4 * Hour + 5 * Minute ∧
              wall shanghai v = utc_midnight test_day + 4 * Hour + 5 * Minute)
  | Fail (OtherErr _) => False
  end.
Proof.
  apply (@ResolveLocalDateTime_correct test_zones test_date "04:05" "Asia/Shanghai" shanghai test_day 4 5).
  - by apply (bool_decide_unpack _).
  - reflexivity.
  - reflexivity.
  - reflexivity.
  - reflexivity.
  - apply shanghai_near.
  - exists (utc_midnight test_day - 28800 * Second). unfold wall. cbn. lia.
Defined.

Lemma ResolveLocalDateTime_skipped_midnight_witness :
  code_of (@ResolveLocalDateTime test_zones test_date "10:00" "America/Santiago") = Some ErrInvalidChangeTime ∧
  ∃ u, wall santiago u = utc_midnight test_day + 10 * Hour + 0 * Minute.
Proof.
  destruct (@ResolveLocalDateTime_skipped_midnight test_zones test_date "10:00" "America/Santiago" test_day 14400 10 0)
    as [He Hu].
  - by apply (bool_decide_unpack _).
  - reflexivity.
  - lia.
  - reflexivity.
  - reflexivity.
  - reflexivity.
  - split; [exact He|]. apply Hu. lia.
Defined.

(** Why changes have to be whole minutes: before a change by eight seconds (Calcutta at the end of
    June 1854) the two offsets give two instants in the same minute, and for a day and a half
    every time of day is refused as ambiguous, although it denotes one instant. *)
Definition calcutta : Location := mkLocation (λ t, (if t <? utc_midnight (days_of_civil 1854 6 28) then 21208 else 21200, None)).
Definition calcutta_zones : TimeZones := {| LoadLocation _ := Some calcutta |}.

Example fraction_of_a_minute :
  let w := utc_midnight (days_of_civil 1854 6 27) + 12 * Hour in
  code_of (@ResolveLocalDateTime calcutta_zones "1854-06-27" "12:00" "Asia/Kolkata") = Some ErrInvalidChangeTime ∧
  wall calcutta (w - 21208 * Second) = w.
Proof. split; by vm_compute. Qed.
