(* ===== verification/Product.v ===== *)
(** * Managed products

    [product_contract.go] and the kinds of [product_operation.go]: term deposits and
    locked products, their annual rates, the contract invariant, the forecast of
    unpaid interest and the record that is written as JSON.  The JSON text itself is
    produced by [encoding/json]; what the package decides is the payload record and
    how a contract is rebuilt from it.

    A Go string type with named constants keeps every other text as a [Raw]
    constructor, because the validators are called on unchecked values. *)

From S2P Require Export ChangeState.
From S2P Require Import DecimalModel.
From Stdlib Require Import String Ascii.

#[global] Open Scope Z_scope.

Abbreviation ProductContractID := string (only parsing).
Abbreviation LiquidityPolicyID := string (only parsing).
Abbreviation LiquidityReservationID := string (only parsing).
Abbreviation ProductOperationID := string (only parsing).

(** Replace the error of a failing check. *)
Definition or_fail {A} (r : Result A) (e : goerror) : Result A :=
  match r with Ok a => Ok a | Fail _ => Fail e end.

(** ** Kinds, states, interest modes *)

Inductive ProductKind := ProductTermDeposit | ProductLockedProduct | ProductKindRaw (s : string).
#[export] Instance ProductKind_eq_dec : EqDecision ProductKind.
Proof. solve_decision. Defined.
Definition ProductKind_String (k : ProductKind) : string :=
  match k with
  | ProductTermDeposit => "term_deposit" | ProductLockedProduct => "locked_product" | ProductKindRaw s => s
  end.
Definition AllProductKinds : list ProductKind := [ProductTermDeposit; ProductLockedProduct].
Definition ParseProductKind : string → Result ProductKind :=
  parse_enum AllProductKinds ProductKind_String (validation "kind" "must be term_deposit or locked_product").

Inductive ProductContractState :=
| ProductStateOpen | ProductStateSettled | ProductStateCancelled | ProductStateRaw (s : string).
#[export] Instance ProductContractState_eq_dec : EqDecision ProductContractState.
Proof. solve_decision. Defined.
Definition ProductContractState_String (s : ProductContractState) : string :=
  match s with
  | ProductStateOpen => "open" | ProductStateSettled => "settled" | ProductStateCancelled => "cancelled"
  | ProductStateRaw s => s
  end.
Definition ParseProductContractState : string → Result ProductContractState :=
  parse_enum [ProductStateOpen; ProductStateSettled; ProductStateCancelled] ProductContractState_String
    (validation "state" "must be open, settled, or cancelled").

Inductive InterestMode :=
| InterestNone | InterestManualMaturityAmount | InterestSimpleAct365 | InterestSimpleAct360
| InterestModeRaw (s : string).
#[export] Instance InterestMode_eq_dec : EqDecision InterestMode.
Proof. solve_decision. Defined.
Definition InterestMode_String (m : InterestMode) : string :=
  match m with
  | InterestNone => "none" | InterestManualMaturityAmount => "manual_maturity_amount"
  | InterestSimpleAct365 => "simple_act_365" | InterestSimpleAct360 => "simple_act_360"
  | InterestModeRaw s => s
  end.
Definition AllInterestModes : list InterestMode :=
  [InterestNone; InterestManualMaturityAmount; InterestSimpleAct365; InterestSimpleAct360].
Definition ParseInterestMode : string → Result InterestMode :=
  parse_enum AllInterestModes InterestMode_String (validation "interestMode" "is not supported").

Inductive ProductDisplayState :=
| ProductDisplayNeedsInfo | ProductDisplayLocked | ProductDisplayRedeemable
| ProductDisplayDueUnconfirmed | ProductDisplaySettled | ProductDisplayCancelled.
#[export] Instance ProductDisplayState_eq_dec : EqDecision ProductDisplayState.
Proof. solve_decision. Defined.

Inductive ProductOperationKind :=
| ProductOpOpen | ProductOpRecordExisting | ProductOpReceiveInterest | ProductOpSettle | ProductOpRenew
| ProductOpUndo | ProductOpValueObservation.
Definition ProductOperationKind_String (k : ProductOperationKind) : string :=
  match k with
  | ProductOpOpen => "open" | ProductOpRecordExisting => "record_existing"
  | ProductOpReceiveInterest => "receive_interest" | ProductOpSettle => "settle"
  | ProductOpRenew => "renew" | ProductOpUndo => "undo" | ProductOpValueObservation => "value_observation"
  end.
Definition ParseProductOperationKind : string → Result ProductOperationKind :=
  parse_enum [ProductOpOpen; ProductOpRecordExisting; ProductOpReceiveInterest; ProductOpSettle; ProductOpRenew;
              ProductOpUndo; ProductOpValueObservation] ProductOperationKind_String
    (validation "kind" "is not a supported product operation").

Inductive ProductOperationRole :=
| ProductRoleOpened | ProductRoleSettled | ProductRoleIncome | ProductRoleReopened | ProductRoleCancelled
| ProductRoleValued.
Definition ProductOperationRole_String (r : ProductOperationRole) : string :=
  match r with
  | ProductRoleOpened => "opened" | ProductRoleSettled => "settled" | ProductRoleIncome => "income"
  | ProductRoleReopened => "reopened" | ProductRoleCancelled => "cancelled" | ProductRoleValued => "valued"
  end.
Definition ParseProductOperationRole : string → Result ProductOperationRole :=
  parse_enum [ProductRoleOpened; ProductRoleSettled; ProductRoleIncome; ProductRoleReopened;
              ProductRoleCancelled; ProductRoleValued] ProductOperationRole_String
    (validation "role" "is not a supported product operation role").

Inductive ProductActivityPurpose :=
| ProductPurposeAcquisition | ProductPurposeExistingPosition | ProductPurposeRedemption
| ProductPurposeInterest | ProductPurposeReversal.
#[export] Instance ProductActivityPurpose_eq_dec : EqDecision ProductActivityPurpose.
Proof. solve_decision. Defined.
Definition ProductActivityPurpose_String (p : ProductActivityPurpose) : string :=
  match p with
  | ProductPurposeAcquisition => "acquisition" | ProductPurposeExistingPosition => "existing_position"
  | ProductPurposeRedemption => "redemption" | ProductPurposeInterest => "interest"
  | ProductPurposeReversal => "reversal"
  end.
Definition ParseProductActivityPurpose : string → Result ProductActivityPurpose :=
  parse_enum [ProductPurposeAcquisition; ProductPurposeExistingPosition; ProductPurposeRedemption;
              ProductPurposeInterest; ProductPurposeReversal] ProductActivityPurpose_String
    (validation "purpose" "is not a supported product activity purpose").

Definition optionalCivilDate (field : string) (value : option string) : Result (option string) :=
  match value with
  | None => Ok None
  | Some value => parsed ← ParseCivilDate field value; Ok (Some parsed)
  end.

(** [strings.TrimSuffix(s, "%")] *)
Definition trim_percent (s : string) : string :=
  match srev s with
  | String c r => if Ascii.eqb c "%" then srev r else s
  | EmptyString => s
  end.

Section Product.
Context `{HD : DecimalAPI}.

(** ** Annual rates *)

Record AnnualRate := mkAnnualRate { ar_value : Decimal }.

Definition NewAnnualRate (value : Decimal) : Result AnnualRate :=
  if dIsNegative value || dGreaterThan value (dInt 1)
  then Fail (validation "annualRate" "must be a ratio between 0 and 1")
  else match dNewFromString (canonicalDecimal value) with
  | None => Fail (validation "annualRate" "must be a canonical decimal ratio")
  | Some canonical =>
    let '(scale, integerDigits) := decimalShape canonical in
    if (1 <? integerDigits) || (8 <? scale)
    then Fail (domainErr ErrDecimalOverflow "annualRate" "must have at most eight fractional digits")
    else Ok (mkAnnualRate canonical)
  end.

Definition ParseAnnualRateRatio (value : string) : Result AnnualRate :=
  match dNewFromString (TrimSpace value) with
  | None => Fail (validation "annualRate" "must be a canonical decimal ratio")
  | Some parsed => NewAnnualRate parsed
  end.

Definition ParseAnnualRatePercent (value : string) : Result AnnualRate :=
  match dNewFromString (trim_percent (TrimSpace value)) with
  | None => Fail (validation "annualRate" "must be a percent between 0 and 100")
  | Some parsed =>
    if dIsNegative parsed || dGreaterThan parsed (dInt 100)
    then Fail (validation "annualRate" "must be a percent between 0 and 100")
    else NewAnnualRate (dDiv parsed (dInt 100))
  end.

(** [AnnualRate.Canonical] *)
Definition ar_Canonical (r : AnnualRate) : string := if dIsZero (ar_value r) then "0" else dString (ar_value r).

(** ** Contracts *)

Record ProductContract := mkContract {
  prod_ID : ProductContractID; prod_HouseholdID : HouseholdID; prod_AccountID : AccountID; prod_HoldingID : HoldingID;
  prod_InstrumentID : InstrumentID; prod_Kind : ProductKind; prod_ShortName : string; prod_Name : string;
  prod_Note : option string; prod_Currency : CurrencyCode; prod_Principal : Money; StartOn : string;
  MaturityOn : option string; prod_InterestMode : InterestMode; prod_AnnualRate : option AnnualRate;
  MaturityInterest : option Money; InterestPaidThroughOn : option string;
  RenewedFromID : option ProductContractID; prod_State : ProductContractState;
  OpenedOperationID : ProductOperationID; ClosedOperationID : option ProductOperationID;
  prod_Revision : Z; prod_CreatedAt : Time; prod_UpdatedAt : Time }.

Definition validateInterestFields (kind : ProductKind) (mode : InterestMode) (rate : option AnnualRate)
    (maturityInterest : option Money) (paidThrough : option string) (startOn : string)
    (maturity : option string) (cur : CurrencyCode) : Result unit :=
  match mode with
  | InterestNone =>
    if negb (is_none rate) then Fail (validation "annualRate" "must be empty when interest mode is none")
    else if negb (is_none maturityInterest)
    then Fail (validation "maturityInterest" "must be empty when interest mode is none")
    else if negb (is_none paidThrough)
    then Fail (validation "interestPaidThroughOn" "must be empty when interest mode is none")
    else Ok tt
  | InterestManualMaturityAmount =>
    if negb (is_none rate)
    then Fail (validation "annualRate" "must be empty for a manual maturity-interest amount")
    else match maturityInterest with
    | None => Fail (validation "maturityInterest" "is required for a manual maturity-interest amount")
    | Some interest =>
      if negb (bool_decide (currency interest = cur))
      then Fail (validation "maturityInterest" "must use the contract currency")
      else if negb (is_none paidThrough)
      then Fail (validation "interestPaidThroughOn" "must be empty for a manual maturity-interest amount")
      else Ok tt
    end
  | InterestSimpleAct365 | InterestSimpleAct360 =>
    if negb (bool_decide (kind = ProductTermDeposit))
    then Fail (validation "interestMode" "simple interest is only supported for term deposits")
    else if is_none rate then Fail (validation "annualRate" "is required for simple interest")
    else if negb (is_none maturityInterest)
    then Fail (validation "maturityInterest" "must be empty for simple interest")
    else match paidThrough with
    | None => Fail (validation "interestPaidThroughOn" "is required for simple interest")
    | Some paidThrough =>
      paid ← ParseCivilDate "interestPaidThroughOn" paidThrough;
      match maturity with
      | None => Fail (validation "maturityOn" "is required for simple interest")
      | Some maturity =>
        if (compareCivilDates paid startOn <? 0) || (0 <? compareCivilDates paid maturity)
        then Fail (validation "interestPaidThroughOn" "must fall on or between startOn and maturityOn")
        else Ok tt
      end
    end
  | InterestModeRaw _ => Ok tt
  end.

(** [ProductContract.NormalizeCivilDates] of a non-nil receiver. *)
Definition NormalizeCivilDates (c : ProductContract) : Result ProductContract :=
  startOn ← ParseCivilDate "startOn" (StartOn c);
  maturityOn ← optionalCivilDate "maturityOn" (MaturityOn c);
  paidThroughOn ← optionalCivilDate "interestPaidThroughOn" (InterestPaidThroughOn c);
  Ok (mkContract (prod_ID c) (prod_HouseholdID c) (prod_AccountID c) (prod_HoldingID c) (prod_InstrumentID c) (prod_Kind c)
        (prod_ShortName c) (prod_Name c) (prod_Note c) (prod_Currency c) (prod_Principal c) startOn maturityOn
        (prod_InterestMode c) (prod_AnnualRate c) (MaturityInterest c) paidThroughOn (RenewedFromID c) (prod_State c)
        (OpenedOperationID c) (ClosedOperationID c) (prod_Revision c) (prod_CreatedAt c) (prod_UpdatedAt c)).

Definition uuid_msg : string := "must be a lowercase UUID".

Definition maturity_follows (kind : ProductKind) (startOn : string) (maturity : option string) : Result unit :=
  match maturity with
  | None =>
    if bool_decide (kind = ProductTermDeposit)
    then Fail (validation "maturityOn" "is required for a term deposit") else Ok tt
  | Some maturity =>
    if 0 <=? compareCivilDates startOn maturity
    then Fail (validation "maturityOn" "must be after startOn") else Ok tt
  end.

(** The checks after the state and the revision: the identifiers of operations. *)
Definition validate_operations (c : ProductContract) : Result unit :=
  _ ← or_fail (ParseProductOperationID (OpenedOperationID c)) (validation "openedOperationId" uuid_msg);
  _ ← match ClosedOperationID c with
      | Some id => _ ← or_fail (ParseProductOperationID id) (validation "closedOperationId" uuid_msg); Ok tt
      | None => Ok tt
      end;
  _ ← match RenewedFromID c with
      | Some id =>
        _ ← or_fail (ParseProductContractID id) (validation "renewedFromId" uuid_msg);
        if bool_decide (id = prod_ID c)
        then Fail (validation "renewedFromId" "must not reference the same contract") else Ok tt
      | None => Ok tt
      end;
  if bool_decide (prod_State c = ProductStateOpen) && negb (is_none (ClosedOperationID c))
  then Fail (validation "closedOperationId" "must be empty while the contract is open")
  else if (bool_decide (prod_State c = ProductStateSettled) || bool_decide (prod_State c = ProductStateCancelled)) &&
          is_none (ClosedOperationID c)
  then Fail (validation "closedOperationId" "is required after settlement or cancellation")
  else Ok tt.

(** [ProductContract.Validate] *)
Definition prod_Validate (c : ProductContract) : Result unit :=
  _ ← NormalizeInstrumentShortName (prod_ShortName c);
  _ ← or_fail (ParseHouseholdID (prod_HouseholdID c)) (validation "householdId" uuid_msg);
  _ ← or_fail (ParseAccountID (prod_AccountID c)) (validation "accountId" uuid_msg);
  _ ← or_fail (ParseHoldingID (prod_HoldingID c)) (validation "holdingId" uuid_msg);
  _ ← or_fail (ParseInstrumentID (prod_InstrumentID c)) (validation "instrumentId" uuid_msg);
  kind ← ParseProductKind (ProductKind_String (prod_Kind c));
  _ ← validateName "name" (prod_Name c);
  _ ← validateNote "note" (prod_Note c);
  if m_isZero (prod_Principal c) then Fail (validation "principal" "must be greater than zero")
  else if negb (bool_decide (currency (prod_Principal c) = prod_Currency c))
  then Fail (validation "principal" "must use the contract currency")
  else
    startOn ← ParseCivilDate "startOn" (StartOn c);
    maturity ← optionalCivilDate "maturityOn" (MaturityOn c);
    _ ← maturity_follows kind startOn maturity;
    mode ← ParseInterestMode (InterestMode_String (prod_InterestMode c));
    _ ← validateInterestFields kind mode (prod_AnnualRate c) (MaturityInterest c) (InterestPaidThroughOn c)
          startOn maturity (prod_Currency c);
    _ ← ParseProductContractState (ProductContractState_String (prod_State c));
    if prod_Revision c <? 1 then Fail (validation "revision" "must be a positive integer")
    else validate_operations c.

(** [NewProductContract]: the input is the contract before its defaults; its
    identifier and times are set here, [id] being the fresh one. *)
Definition with_defaults (id : ProductContractID) (input : ProductContract) (now : Time) : ProductContract :=
  mkContract id (prod_HouseholdID input) (prod_AccountID input) (prod_HoldingID input) (prod_InstrumentID input)
    (prod_Kind input) (trimInstrumentLabel (prod_ShortName input)) (prod_Name input) (prod_Note input)
    (prod_Currency input) (prod_Principal input) (StartOn input) (MaturityOn input) (prod_InterestMode input)
    (prod_AnnualRate input) (MaturityInterest input) (InterestPaidThroughOn input) (RenewedFromID input)
    (if bool_decide (ProductContractState_String (prod_State input) = ""%string) then ProductStateOpen
     else prod_State input)
    (OpenedOperationID input) (ClosedOperationID input)
    (if prod_Revision input =? 0 then 1 else prod_Revision input) (normalizeTime now) (normalizeTime now).

Definition NewProductContract (id : ProductContractID) (input : ProductContract) (now : Time)
    : Result ProductContract :=
  contract ← NormalizeCivilDates (with_defaults id input now);
  _ ← prod_Validate contract;
  Ok contract.

(** ** Forecast interest *)

Definition SimpleInterest (principal : Money) (rate : AnnualRate) (days basis : Z) : Result Money :=
  if days <? 0 then Fail (validation "days" "must not be negative")
  else if negb (basis =? 360) && negb (basis =? 365) then Fail (validation "dayBasis" "must be 360 or 365")
  else if (days =? 0) || dIsZero (ar_value rate) || m_isZero principal
  then NewMoney dZero (currency principal)
  else
    let raw := dDiv (dMul (dMul (amount principal) (ar_value rate)) (dInt days)) (dInt basis) in
    let rounded := dRound raw 4 in
    if dIsNegative rounded || dGreaterThan rounded maxMoney
    then Fail (domainErr ErrDecimalOverflow "interest" "interest is outside the supported range")
    else ParseMoney (canonicalDecimal rounded) (currency principal).

Definition EstimatedUnpaidMaturityInterest (c : ProductContract) : Result Money :=
  match prod_InterestMode c with
  | InterestNone => NewMoney dZero (prod_Currency c)
  | InterestManualMaturityAmount =>
    match MaturityInterest c with
    | None => Fail (validation "maturityInterest" "is required")
    | Some interest => Ok interest
    end
  | InterestSimpleAct365 | InterestSimpleAct360 =>
    match prod_AnnualRate c, InterestPaidThroughOn c, MaturityOn c with
    | Some rate, Some paid, Some maturity =>
      days ← CivilDaysBetween paid maturity;
      let basis := if bool_decide (prod_InterestMode c = InterestSimpleAct360) then 360 else 365 in
      SimpleInterest (prod_Principal c) rate days basis
    | _, _, _ => Fail (validation "interestMode" "simple interest is missing required fields")
    end
  | InterestModeRaw _ => Fail (validation "interestMode" "is not supported")
  end.

(** [ForecastGrossProceeds]; the interest is never nil when there is no error. *)
Definition ForecastGrossProceeds (c : ProductContract) : Result (option Money) :=
  if bool_decide (prod_Kind c = ProductLockedProduct) then Ok None
  else
    interest ← EstimatedUnpaidMaturityInterest c;
    total ← m_add (prod_Principal c) interest;
    Ok (Some total).

Definition ProductAccountEligible (account : Account) : Result unit :=
  if negb (is_none (ArchivedAt account)) then Fail (domainErr ErrConflict "accountId" "account is archived")
  else if IsLiability account then Fail (validation "accountId" "products require an asset-side account")
  else if negb (bool_decide (TrackingMode' account = TrackingHoldings))
  then Fail (validation "accountId" "product details require a Holdings Account")
  else if bool_decide (AccountType' account = TypeCashOnHand)
  then Fail (validation "accountId" "cash on hand cannot hold products")
  else Ok tt.

Definition ManagedPositionConflict (field message : string) : goerror :=
  domainErr ErrManagedPosition field
    (if bool_decide (message = ""%string) then "this position is managed by a product contract" else message).

(** ** The stored record *)

Record productContractJSON := mkContractJSON {
  pj_id : string; pj_householdId : string; pj_accountId : string; pj_holdingId : string; pj_instrumentId : string;
  pj_kind : string; pj_shortName : string; pj_name : string; pj_note : option string; pj_currency : string;
  pj_principal : string; pj_startOn : string; pj_maturityOn : option string; pj_interestMode : string;
  pj_annualRate : option string; pj_maturityInterest : option string; pj_interestPaidThroughOn : option string;
  pj_renewedFromId : option string; pj_state : string; pj_openedOperationId : string;
  pj_closedOperationId : option string; pj_revision : Z; pj_createdAt : Time; pj_updatedAt : Time }.

(** [ProductContract.MarshalJSON], before the text encoding. *)
Definition contract_payload (c : ProductContract) : productContractJSON :=
  mkContractJSON (prod_ID c) (prod_HouseholdID c) (prod_AccountID c) (prod_HoldingID c) (prod_InstrumentID c)
    (ProductKind_String (prod_Kind c)) (prod_ShortName c) (prod_Name c) (prod_Note c) (prod_Currency c)
    (CanonicalAmount (prod_Principal c)) (StartOn c) (MaturityOn c) (InterestMode_String (prod_InterestMode c))
    (ar_Canonical <$> prod_AnnualRate c) (CanonicalAmount <$> MaturityInterest c) (InterestPaidThroughOn c)
    (RenewedFromID c) (ProductContractState_String (prod_State c)) (OpenedOperationID c) (ClosedOperationID c)
    (prod_Revision c) (prod_CreatedAt c) (prod_UpdatedAt c).

Definition optional {A B} (f : A → Result B) (o : option A) : Result (option B) :=
  match o with None => Ok None | Some a => b ← f a; Ok (Some b) end.

(** [ProductContract.UnmarshalJSON], after the text decoding. *)
Definition contract_of_payload (p : productContractJSON) : Result ProductContract :=
  id ← ParseProductContractID (pj_id p);
  householdID ← ParseHouseholdID (pj_householdId p);
  accountID ← ParseAccountID (pj_accountId p);
  holdingID ← ParseHoldingID (pj_holdingId p);
  instrumentID ← ParseInstrumentID (pj_instrumentId p);
  kind ← ParseProductKind (pj_kind p);
  cur ← ParseCurrency (pj_currency p);
  principal ← ParseMoney (pj_principal p) cur;
  mode ← ParseInterestMode (pj_interestMode p);
  state ← ParseProductContractState (pj_state p);
  openedID ← ParseProductOperationID (pj_openedOperationId p);
  rate ← optional ParseAnnualRateRatio (pj_annualRate p);
  interest ← optional (λ a, ParseMoney a cur) (pj_maturityInterest p);
  renewed ← optional ParseProductContractID (pj_renewedFromId p);
  closed ← optional ParseProductOperationID (pj_closedOperationId p);
  Ok (mkContract id householdID accountID holdingID instrumentID kind (pj_shortName p) (pj_name p) (pj_note p) cur
        principal (pj_startOn p) (pj_maturityOn p) mode rate interest (pj_interestPaidThroughOn p) renewed state
        openedID closed (pj_revision p) (pj_createdAt p) (pj_updatedAt p)).
End Product.
