(* ===== verification/ProductLaws.v ===== *)
(** * What product contracts guarantee

    Simple interest is the exact product rounded once, although the division of the
    decimal library rounds before the rounding to cents of the source; and a contract
    that passes its own checks survives being written and read back. *)

From S2P Require Export Product CostBasisLaws.
From S2P Require Import DecimalModel.
From Stdlib Require Import String Ascii.

#[global] Open Scope Z_scope.

(** ** Two roundings that act as one *)

Lemma half_away_div a b : 0 <= a → 0 < b → round_half_away (inject_Z a / inject_Z b) = (2 * a + b) / (2 * b).
Proof.
  intros Ha Hb. assert (inject_Z a / inject_Z b == Qmake a (Z.to_pos b))%Q as ->.
  { unfold Qdiv, Qinv, inject_Z. cbn. destruct b as [|b|b]; try lia. cbn. unfold Qeq, Qmult. cbn. lia. }
  unfold round_half_away. cbn [Qnum Qden]. rewrite Z2Pos.id by done. rewrite Z.abs_eq by done.
  destruct (Z.eq_dec a 0) as [->|Hn].
  - cbn. symmetry. apply Z.div_small. lia.
  - rewrite Z.sgn_pos by lia. lia.
Qed.

(** Rounding [n * 10^4 / b] to an integer and then to a multiple of [10^12] is
    rounding once: below the ties the quotient stays a full step of [10^4 / b] away. *)
Lemma double_round_away n b : 0 <= n → 0 < b < 20000 →
  (2 * ((2 * (n * 10000) + b) / (2 * b)) + 1000000000000) / (2 * 1000000000000) =
  (2 * (n * 10000) + 1000000000000 * b) / (2 * (1000000000000 * b)).
Proof.
  intros Hn Hb. set (c := (2 * (n * 10000) + b) / (2 * b)).
  set (z := (2 * (n * 10000) + 1000000000000 * b) / (2 * (1000000000000 * b))).
  pose proof (Z.div_mod (2 * (n * 10000) + b) (2 * b) ltac:(lia)) as Hc. fold c in Hc.
  pose proof (Z.mod_pos_bound (2 * (n * 10000) + b) (2 * b) ltac:(lia)) as Hcr.
  pose proof (Z.div_mod (2 * (n * 10000) + 1000000000000 * b) (2 * (1000000000000 * b)) ltac:(lia)) as Hz. fold z in Hz.
  pose proof (Z.mod_pos_bound (2 * (n * 10000) + 1000000000000 * b) (2 * (1000000000000 * b)) ltac:(lia)) as Hzr.
  set (r1 := (2 * (n * 10000) + b) mod (2 * b)) in *. set (r2 := (2 * (n * 10000) + 1000000000000 * b) mod _) in *.
  clearbody c z r1 r2. symmetry. apply Z.div_unique with (2 * c + 1000000000000 - 2 * 1000000000000 * z); [left|lia].
  set (t := 500000000000 * (2 * z - 1)).
  assert (Hlo : t <= c).
  { assert (2 * b * t <= 2 * (n * 10000)) by (unfold t; nia). nia. }
  assert (Hhi : c < t + 1000000000000); [|unfold t in *; lia].
  destruct (Z.lt_ge_cases c (t + 1000000000000)) as [|Hge]; [done|exfalso].
  assert (2 * (n * 10000) < 2 * b * (t + 1000000000000)) by (unfold t; nia).
  assert (2 * b * (t + 1000000000000) <= 2 * (n * 10000) + b) by nia.
  unfold t in *. assert (10000 * (n - 50000000 * b * (2 * z + 1)) < 0) by lia. lia.
Qed.

Lemma round_half_away_nonneg q : (0 <= q)%Q → 0 <= round_half_away q.
Proof. intros H. rewrite <-(round_half_away_Z 0). by apply round_half_away_mono. Qed.

Section Interest.
Context `{HD : DecimalAPI} {HL : DecimalLaws}.

(** A rate as the parsers leave it: a ratio in [0, 1] with at most eight places. *)
Definition rate_ok (r : AnnualRate) : Prop :=
  -8 <= dExponent (ar_value r) <= 0 ∧ 0 <= units 8 (ar_value r) <= 100000000.

(** The exact interest, in units of [10 ^ -4], rounded half away from zero once. *)
Definition interest_units (p : Money) (r : AnnualRate) (days basis : Z) : Z :=
  round_half_away (dval (amount p) * dval (ar_value r) * inject_Z days / inject_Z basis * p10 4).

Lemma interest_product p r days : Money_ok p → rate_ok r →
  (dval (dMul (dMul (amount p) (ar_value r)) (dInt days)) ==
   inject_Z (munits p * units 8 (ar_value r) * days) * p10 (-12))%Q.
Proof.
  intros (Hp & _) ([Hr _] & _). rewrite !dMul_val, dval_int, (dval_of_units 4), (dval_of_units 8) by done.
  unfold munits. rewrite !inject_Z_mult. change (-12) with (- (4) + - (8)). rewrite p10_add. ring.
Qed.

Lemma raw_interest p r days basis : Money_ok p → rate_ok r → 0 <= days → 0 < basis < 20000 →
  let raw := dDiv (dMul (dMul (amount p) (ar_value r)) (dInt days)) (dInt basis) in
  dCoefficient (dRound raw 4) = interest_units p r days basis ∧ dExponent (dRound raw 4) = -4.
Proof.
  intros Hp Hr Hd Hb raw. split; [|apply dRound_expo]. rewrite dRound_coef.
  set (n := munits p * units 8 (ar_value r) * days).
  assert (0 <= n) as Hn by (apply Z.mul_nonneg_nonneg; [apply Z.mul_nonneg_nonneg; [apply Hp|apply Hr]|done]).
  assert (Hbv : ¬ (dval (dInt basis) == 0)%Q).
  { rewrite dval_int. intros H. apply (inject_Z_injective basis 0) in H. lia. }
  assert (Hbz : ¬ (inject_Z basis == 0)%Q).
  { intros H. apply (inject_Z_injective basis 0) in H. lia. }
  assert (Hraw : (dval raw == inject_Z ((2 * (n * 10000) + basis) / (2 * basis)) * p10 (-16))%Q).
  { unfold raw. rewrite dDiv_divround by done. unfold dval at 1, cval. rewrite dDivRound_expo, dDivRound_coef by done.
    rewrite interest_product, dval_int by done. fold n.
    assert (inject_Z n * p10 (-12) / inject_Z basis * p10 16 == inject_Z (n * 10000) / inject_Z basis)%Q as ->.
    { rewrite inject_Z_mult. change (inject_Z 10000) with (inject_Z (10 ^ 4)). rewrite <-p10_Z by done.
      change 16 with (12 + 4). rewrite p10_add. pose proof (p10_opp 12). unfold Qdiv.
      transitivity (inject_Z n * (p10 12 * p10 (-12)) * / inject_Z basis * p10 4)%Q; [ring|]. rewrite H. ring. }
    rewrite half_away_div by lia. reflexivity. }
  assert (H12 : (p10 (-16) * p10 4 == / inject_Z (10 ^ 12))%Q).
  { rewrite <-p10_add. change (-16 + 4) with (- (12)). by rewrite p10_inv, p10_Z. }
  rewrite Hraw, <-Qmult_assoc, H12. unfold interest_units.
  set (c := (2 * (n * 10000) + basis) / (2 * basis)).
  assert (0 <= c) as Hc by (apply Z.div_pos; lia).
  change (inject_Z c * / inject_Z (10 ^ 12))%Q with (inject_Z c / inject_Z (10 ^ 12))%Q.
  rewrite half_away_div by done. change (10 ^ 12) with 1000000000000. unfold c.
  rewrite double_round_away by done.
  assert (dval (amount p) * dval (ar_value r) * inject_Z days / inject_Z basis * p10 4 ==
          inject_Z (n * 10000) / inject_Z (1000000000000 * basis))%Q as ->.
  { pose proof (interest_product p r days Hp Hr) as E. rewrite !dMul_val, dval_int in E. rewrite E. fold n.
    rewrite !inject_Z_mult. change (inject_Z 10000) with (inject_Z (10 ^ 4)).
    change (inject_Z 1000000000000) with (inject_Z (10 ^ 12)). rewrite <-!p10_Z by done.
    change (-12) with (- (12)). rewrite p10_inv. pose proof (p10_nz 12). field. done. }
  rewrite half_away_div by lia. done.
Qed.

Lemma interest_units_zero p r days basis : Money_ok p → rate_ok r →
  munits p * units 8 (ar_value r) * days = 0 → interest_units p r days basis = 0.
Proof.
  intros Hp Hr H. unfold interest_units. pose proof (interest_product p r days Hp Hr) as E.
  rewrite !dMul_val, dval_int, H in E. rewrite E. 
  assert (inject_Z 0 * p10 (-12) / inject_Z basis * p10 4 == 0)%Q as ->; [|done].
  unfold Qdiv. change (inject_Z 0) with 0%Q. ring.
Qed.

(** Forecast interest is exact before it is rounded: principal times rate
    times days over 360 or 365, rounded half away from zero to four places once (the
    intermediate rounding of the division to sixteen places never shows), and the only
    error is the overflow of the largest amount. *)
Theorem SimpleInterest_correct p r days basis :
  Money_ok p → rate_ok r → 0 <= days → basis = 360 ∨ basis = 365 →
  let u := interest_units p r days basis in
  if u <=? max_units
  then ∃ m, SimpleInterest p r days basis = Ok m ∧ munits m = u ∧ currency m = currency p
  else code_of (SimpleInterest p r days basis) = Some ErrDecimalOverflow.
Proof.
  intros Hp Hr Hd Hb u. pose proof (proj1 (proj2 Hp)) as Hpu. pose proof (proj2 Hr) as Hru.
  assert (Hcur : ParseCurrency (currency p) = Ok (currency p)) by (apply ParseCurrency_id, Hp).
  unfold SimpleInterest. rewrite (proj2 (Z.ltb_ge days 0)) by lia.
  assert (negb (basis =? 360) && negb (basis =? 365) = false) as -> by (by destruct Hb as [-> | ->]).
  destruct ((days =? 0) || dIsZero (ar_value r) || m_isZero p) eqn:Ez.
  - assert (u = 0) as ->.
    { apply interest_units_zero; [done..|]. apply orb_true_iff in Ez as [Ez|Ez]; [apply orb_true_iff in Ez as [Ez|Ez]|].
      - apply Z.eqb_eq in Ez as ->. lia.
      - apply dIsZero_val, dval_zero_coef in Ez. unfold units, cunits. rewrite Ez. lia.
      - unfold m_isZero in Ez. apply dIsZero_val, dval_zero_coef in Ez. unfold munits, units at 1, cunits. rewrite Ez. lia. }
    destruct (NewMoney_exact dZero (currency p) _ Hcur) as (m & Hm & Hmu & Hmc & _).
    + unfold dZero. rewrite dNew_expo. lia.
    + rewrite units_dZero by lia. unfold max_units. lia.
    + exists m. split; [done|]. by rewrite Hmu, units_dZero.
  - set (raw := dDiv _ _). destruct (raw_interest p r days basis Hp Hr Hd ltac:(lia)) as [Hc He]. fold raw u in Hc, He.
    assert (Hu : units 4 (dRound raw 4) = u) by (unfold units, cunits; rewrite Hc, He; lia).
    assert (0 <= u) as H0.
    { unfold u, interest_units. apply (round_half_away_nonneg _). pose proof (interest_product p r days Hp Hr) as E.
      rewrite !dMul_val, dval_int in E. rewrite E. pose proof (p10_pos 4). pose proof (p10_pos (-12)).
      assert (0 <= inject_Z (munits p * units 8 (ar_value r) * days))%Q as Hn.
      { change 0%Q with (inject_Z 0). rewrite <-Zle_Qle. apply Z.mul_nonneg_nonneg; [apply Z.mul_nonneg_nonneg|]; lia. }
      assert (0 < / inject_Z basis)%Q as Hi.
      { apply Qinv_lt_0_compat. change 0%Q with (inject_Z 0). rewrite <-Zlt_Qlt. lia. }
      unfold Qdiv. repeat apply Qmult_le_0_compat; lra. }
    assert (dIsNegative (dRound raw 4) = false) as ->.
    { destruct (dIsNegative _) eqn:E; [|done]. apply (units_neg_iff 4) in E; lia. }
    destruct maxMoney_coef as [_ Hme]. destruct (Z.leb_spec u max_units) as [Hle|Hgt].
    + assert (dGreaterThan (dRound raw 4) maxMoney = false) as ->.
      { apply greater_false, (units_le 4); [lia|lia|]. by rewrite maxMoney_units, Hu. }
      cbn [orb]. destruct (ParseMoney_money_text u (currency p)) as (m & Hm & Hmu & Hmc & _); [lia|apply Hp|].
      exists m. split; [|done]. rewrite <-Hm. f_equal. unfold canonicalDecimal, money_text.
      destruct (dIsZero (dRound raw 4)) eqn:E0.
      * apply dIsZero_val, dval_zero_coef in E0. rewrite Hc in E0. by rewrite E0.
      * by rewrite dString_plain, Hc, He.
    + assert (dGreaterThan (dRound raw 4) maxMoney = true) as ->; [|by rewrite orb_true_r].
      apply dGreaterThan_val, (units_lt 4); [lia|lia|]. by rewrite maxMoney_units, Hu.
Qed.
End Interest.

(** ** Text of rates *)

Lemma digits_graphic s : all_digits s = true → all_bytes is_graphic s = true.
Proof. apply all_bytes_impl. intros c. apply in_range_sub; lia. Qed.

Lemma unsigned_syntax_graphic N M s : unsigned_syntax N M s = true → all_bytes is_graphic s = true.
Proof.
  unfold unsigned_syntax. destruct (split_dot s) as [a b] eqn:E. intros H. prop_bool.
  pose proof (split_dot_inv _ _ _ E) as ->. destruct (int_part_ok_digits _ _ H) as [Ha _].
  destruct b as [f|]; cbn [frac_part_ok] in *; prop_bool.
  - rewrite all_bytes_app, (digits_graphic a Ha). cbn [all_bytes].
    rewrite (digits_graphic f) by done. done.
  - by apply digits_graphic.
Qed.

Section Text.
Context `{HD : DecimalAPI} {HL : DecimalLaws}.

Lemma canonical_rate d : -8 <= dExponent d <= 0 → 0 <= units 8 d <= 100000000 →
  all_bytes is_graphic (canonicalDecimal d) = true ∧
  ∃ d', dNewFromString (canonicalDecimal d) = Some d' ∧ -8 <= dExponent d' <= 0 ∧ units 8 d' = units 8 d.
Proof.
  intros He Hu. unfold canonicalDecimal. destruct (dIsZero d) eqn:Ez.
  - split; [done|]. destruct (dNewFromString_literal "0" 0 0 eq_refl) as (d' & Hd & Hc & Hx).
    exists d'. split; [done|]. split; [lia|]. apply dIsZero_val, dval_zero_coef in Ez.
    unfold units, cunits. by rewrite Hc, Ez.
  - assert (He8 : 10 ^ (dExponent d + 8) = 10 ^ (8 - - dExponent d)) by (f_equal; lia).
    assert (Hc : 0 <= dCoefficient d < 10 ^ (0 + 1 + - dExponent d)).
    { unfold units, cunits in Hu. pose proof (pow10_pos (dExponent d + 8) ltac:(lia)). split; [nia|].
      apply (Z.mul_lt_mono_pos_r (10 ^ (dExponent d + 8))); [done|].
      rewrite <-Z.pow_add_r by lia. replace (0 + 1 + - dExponent d + (dExponent d + 8)) with 9 by lia.
      change (10 ^ 9) with 1000000000. lia. }
    rewrite dString_plain. rewrite <-(Z.opp_involutive (dExponent d)).
    destruct (plain_string_text true (dCoefficient d) (- dExponent d) 0 8 ltac:(lia) ltac:(lia) Hc (or_intror eq_refl))
      as (Hs & c' & e' & Hl & He' & Hv & _).
    split; [by apply (unsigned_syntax_graphic 0 8)|]. destruct (dNewFromString_literal _ _ _ Hl) as (d' & Hd & Hc' & Hx).
    exists d'. split; [done|]. split; [lia|]. unfold units, cunits. rewrite Hc', Hx, Hv, <-Z.mul_assoc, <-Z.pow_add_r by lia.
    do 2 f_equal. lia.
Qed.

Lemma NewAnnualRate_ok d : -8 <= dExponent d <= 0 → 0 <= units 8 d <= 100000000 →
  ∃ r, NewAnnualRate d = Ok r ∧ rate_ok r ∧ units 8 (ar_value r) = units 8 d.
Proof.
  intros He Hu. unfold NewAnnualRate.
  assert (dIsNegative d = false) as ->.
  { destruct (dIsNegative d) eqn:E; [|done]. apply (units_neg_iff 8) in E; lia. }
  assert (dGreaterThan d (dInt 1) = false) as ->.
  { apply greater_false, (units_le 8); unfold dInt; rewrite ?dNew_expo, ?units_new; lia. }
  cbn [orb]. destruct (canonical_rate d He Hu) as (_ & d' & -> & He' & Hu').
  destruct (decimalShape d') as [scale digits] eqn:Es. exists (mkAnnualRate d').
  assert (Hsh : digits <= 1 ∧ scale <= 8).
  { destruct (dIsZero d') eqn:Ez; [unfold decimalShape in Es; rewrite Ez in Es; injection Es as <- <-; lia|].
    apply iszero_false in Ez. rewrite dval_zero_coef in Ez.
    assert (0 < dCoefficient d') as Hc.
    { unfold units at 1, cunits in Hu'. pose proof (pow10_pos (dExponent d' + 8) ltac:(lia)).
      assert (0 <= dCoefficient d') by nia. lia. }
    assert (dval d' * p10 8 < inject_Z (10 ^ (1 + 8)))%Q as Hlt.
    { rewrite dval_units by lia. rewrite <-Zlt_Qlt, Hu'. change (10 ^ (1 + 8)) with 1000000000. lia. }
    destruct (decimalShape_digits d' 1 8 ltac:(lia) ltac:(lia) Hc Hlt ltac:(lia)) as [H1 H2].
    rewrite Es in H1, H2. by split. }
  rewrite (proj2 (Z.ltb_ge _ _)), (proj2 (Z.ltb_ge _ _)) by lia. split; [done|]. split; [|done].
  split; cbn; [done|lia].
Qed.

(** The text of a rate reads back as the same ratio. *)
Lemma rate_text_roundtrip r : rate_ok r →
  ∃ r', ParseAnnualRateRatio (ar_Canonical r) = Ok r' ∧ rate_ok r' ∧ units 8 (ar_value r') = units 8 (ar_value r).
Proof.
  intros [He Hu]. destruct (canonical_rate _ He Hu) as (Hg & d & Hd & He' & Hu'). unfold ParseAnnualRateRatio.
  change (ar_Canonical r) with (canonicalDecimal (ar_value r)). rewrite TrimSpace_graphic, Hd by done.
  destruct (NewAnnualRate_ok d He' ltac:(lia)) as (r' & -> & Hr & Hur). exists r'. by rewrite Hur.
Qed.
End Text.

(** ** Reading a stored contract back *)

Section Stored.
Context `{HD : DecimalAPI} {HL : DecimalLaws}.

(** A contract whose identifiers, kinds and amounts are canonical, as the constructor
    leaves them when it is given parsed values. *)
Record canonical_contract (c : ProductContract) : Prop := {
  cc_ids : Forall (λ id, parseID id "" = Ok id)
    ([prod_ID c; prod_HouseholdID c; prod_AccountID c; prod_HoldingID c; prod_InstrumentID c; OpenedOperationID c] ++
     option_list (RenewedFromID c) ++ option_list (ClosedOperationID c));
  cc_kind : prod_Kind c ∈ AllProductKinds;
  cc_mode : prod_InterestMode c ∈ AllInterestModes;
  cc_state : prod_State c ∈ [ProductStateOpen; ProductStateSettled; ProductStateCancelled];
  cc_currency : currency_ok (prod_Currency c) = true;
  cc_principal : Money_ok (prod_Principal c) ∧ dExponent (amount (prod_Principal c)) <= 0 ∧ currency (prod_Principal c) = prod_Currency c;
  cc_rate : ∀ r, prod_AnnualRate c = Some r → rate_ok r;
  cc_interest : ∀ m, MaturityInterest c = Some m →
    Money_ok m ∧ dExponent (amount m) <= 0 ∧ currency m = prod_Currency c }.

(** Equal amounts, in units, of the same currency. *)
Definition same_money (m m' : Money) : Prop := munits m' = munits m ∧ currency m' = currency m.
Definition same_rate (r r' : AnnualRate) : Prop := units 8 (ar_value r') = units 8 (ar_value r).

(** Equal contracts, up to how the decimals are represented. *)
Definition same_contract (c c' : ProductContract) : Prop :=
  c' = mkContract (prod_ID c) (prod_HouseholdID c) (prod_AccountID c) (prod_HoldingID c) (prod_InstrumentID c) (prod_Kind c)
         (prod_ShortName c) (prod_Name c) (prod_Note c) (prod_Currency c) (prod_Principal c') (StartOn c) (MaturityOn c)
         (prod_InterestMode c) (prod_AnnualRate c') (MaturityInterest c') (InterestPaidThroughOn c) (RenewedFromID c)
         (prod_State c) (OpenedOperationID c) (ClosedOperationID c) (prod_Revision c) (prod_CreatedAt c) (prod_UpdatedAt c) ∧
  same_money (prod_Principal c) (prod_Principal c') ∧
  option_Forall2 same_rate (prod_AnnualRate c) (prod_AnnualRate c') ∧
  option_Forall2 same_money (MaturityInterest c) (MaturityInterest c').

Lemma parseID_any_field id f g : parseID id f = Ok id → parseID id g = Ok id.
Proof. unfold parseID. destruct (negb _); [done|]. by intros [= ->]. Qed.

Lemma money_text_back m cur : Money_ok m → dExponent (amount m) <= 0 → currency m = cur → currency_ok cur = true →
  ∃ m', ParseMoney (CanonicalAmount m) cur = Ok m' ∧ same_money m m'.
Proof.
  intros Hm He Hc Hok. destruct (ParseMoney_CanonicalAmount m cur cur Hm He (ParseCurrency_id cur Hok)) as (d & Hp & Hu & _).
  exists (mkMoney d cur). split; [done|]. split; [exact Hu|]. by rewrite Hc.
Qed.

Lemma optional_id (f : string → Result string) (o : option string) :
  (∀ id, o = Some id → f id = Ok id) → optional f o = Ok o.
Proof. intros H. destruct o as [id|]; [|done]. cbn. by rewrite (H id eq_refl). Qed.

Ltac members H := repeat (apply elem_of_cons in H as [->|H]; [done|]); by apply elem_of_nil in H.

Lemma kind_text_back k : k ∈ AllProductKinds → ParseProductKind (ProductKind_String k) = Ok k.
Proof. intros Hk. members Hk. Qed.
Lemma mode_text_back m : m ∈ AllInterestModes → ParseInterestMode (InterestMode_String m) = Ok m.
Proof. intros Hm. members Hm. Qed.
Lemma state_text_back s : s ∈ [ProductStateOpen; ProductStateSettled; ProductStateCancelled] →
  ParseProductContractState (ProductContractState_String s) = Ok s.
Proof. intros Hs. members Hs. Qed.

Lemma rate_back (o : option AnnualRate) : (∀ r, o = Some r → rate_ok r) →
  ∃ o', optional ParseAnnualRateRatio (ar_Canonical <$> o) = Ok o' ∧ option_Forall2 same_rate o o'.
Proof.
  intros H. destruct o as [r|]; [|exists None; split; [done|constructor]].
  destruct (rate_text_roundtrip r (H r eq_refl)) as (r' & Hp & _ & Hu). exists (Some r').
  cbn. rewrite Hp. split; [done|]. by constructor.
Qed.

Lemma money_back (o : option Money) cur : currency_ok cur = true →
  (∀ m, o = Some m → Money_ok m ∧ dExponent (amount m) <= 0 ∧ currency m = cur) →
  ∃ o', optional (λ a, ParseMoney a cur) (CanonicalAmount <$> o) = Ok o' ∧ option_Forall2 same_money o o'.
Proof.
  intros Hc H. destruct o as [m|]; [|exists None; split; [done|constructor]].
  destruct (H m eq_refl) as (Hm & He & Hcur). destruct (money_text_back m cur Hm He Hcur Hc) as (m' & Hp & Hs).
  exists (Some m'). cbn. rewrite Hp. split; [done|]. by constructor.
Qed.

(** A stored contract is read back unchanged: rebuilding a canonical contract
    from the record it is written as succeeds and gives the same contract, with the
    same principal, rate and interest, so undoing an operation from its evidence
    restores the exact terms. *)
Theorem ProductContract_roundtrip c : canonical_contract c →
  ∃ c', contract_of_payload (contract_payload c) = Ok c' ∧ same_contract c c'.
Proof.
  intros [Hids Hk Hmode Hst Hcur (Hp & Hpe & Hpc) Hrate Hint].
  apply Forall_app in Hids as [Hids Hopt]. apply Forall_app in Hopt as [Hren Hclo].
  repeat (apply Forall_cons in Hids as [? Hids]).
  destruct (money_text_back _ _ Hp Hpe Hpc Hcur) as (p' & Hp' & Hps).
  destruct (rate_back _ Hrate) as (r' & Hr' & Hrs). destruct (money_back _ _ Hcur Hint) as (i' & Hi' & His).
  unfold contract_of_payload, ParseProductContractID, ParseHouseholdID, ParseAccountID, ParseHoldingID,
    ParseInstrumentID, ParseProductOperationID.
  cbn [contract_payload pj_id pj_householdId pj_accountId pj_holdingId pj_instrumentId pj_kind pj_shortName pj_name
    pj_note pj_currency pj_principal pj_startOn pj_maturityOn pj_interestMode pj_annualRate pj_maturityInterest
    pj_interestPaidThroughOn pj_renewedFromId pj_state pj_openedOperationId pj_closedOperationId pj_revision
    pj_createdAt pj_updatedAt].
  repeat match goal with H : parseID ?i "" = Ok ?i |- context [parseID ?i ?g] => rewrite (parseID_any_field i "" g H) end.
  rewrite kind_text_back, mode_text_back, state_text_back, (ParseCurrency_id (prod_Currency c)) by done.
  rewrite !bind_Ok_l, Hp', !bind_Ok_l, Hr', bind_Ok_l, Hi', bind_Ok_l.
  assert (Ho : ∀ o f, Forall (λ id, parseID id "" = Ok id) (option_list o) → optional (λ v, parseID v f) o = Ok o).
  { intros o f Ho. apply optional_id. intros id ->. apply Forall_cons in Ho as [Ho _]. by apply (parseID_any_field _ ""). }
  rewrite (Ho _ _ Hren), bind_Ok_l, (Ho _ _ Hclo), bind_Ok_l. eexists. split; [reflexivity|]. by split.
Qed.
End Stored.

(** ** A concrete deposit *)

(** Ten thousand dollars at 2.5 percent for 2024. *)
Definition sample_rate : AnnualRate := mkAnnualRate (mkDec 25 (-3)).
Definition sample_uuid (n : Z) : string := "0f0e0d0c-0b0a-4908-8706-05040302010" +:+ pad_digits 1 n.
Definition sample_contract : ProductContract :=
  mkContract (sample_uuid 0) (sample_uuid 1) (sample_uuid 2) (sample_uuid 3) (sample_uuid 4) ProductTermDeposit
    "" "One year" None "USD" (usd 1000000) "2024-01-01" (Some "2024-12-31"%string) InterestSimpleAct365
    (Some sample_rate) None (Some "2024-01-01"%string) None ProductStateOpen (sample_uuid 5) None 1 1 1.

Lemma sample_rate_ok : rate_ok sample_rate.
Proof. split; [by split; apply Z.leb_le|]. by split; apply Z.leb_le. Qed.

Lemma SimpleInterest_correct_witness :
  ∃ m, SimpleInterest (usd 1000000) sample_rate 365 365 = Ok m ∧ munits m = 2500000 ∧ currency m = "USD"%string.
Proof.
  exact (SimpleInterest_correct (usd 1000000) sample_rate 365 365 (cents_ok 1000000 "USD" eq_refl ltac:(lia))
    sample_rate_ok ltac:(lia) (or_intror eq_refl)).
Defined.

(** The contract passes its own checks, and its forecast is for 365 days. *)
Example sample_contract_valid : prod_Validate sample_contract = Ok tt.
Proof. vm_compute. reflexivity. Qed.
Example sample_contract_forecast :
  munits <$> EstimatedUnpaidMaturityInterest sample_contract = Ok 2500000.
Proof. vm_compute. reflexivity. Qed.

Lemma sample_contract_canonical : canonical_contract sample_contract.
Proof.
  split.
  - repeat (apply Forall_cons_2; [reflexivity|]). apply Forall_nil_2.
  - left.
  - by apply (bool_decide_unpack _).
  - left.
  - done.
  - split; [by apply cents_ok|]. split; [by apply Z.leb_le|done].
  - intros r [= <-]. apply sample_rate_ok.
  - discriminate.
Qed.

Lemma ProductContract_roundtrip_witness :
  ∃ c, contract_of_payload (contract_payload sample_contract) = Ok c ∧ same_contract sample_contract c.
Proof. exact (ProductContract_roundtrip sample_contract sample_contract_canonical). Defined.
