(* ===== verification/Liquidity.v ===== *)
(** * Liquidity policies

    [liquidity.go], [liquidity_precision.go] and the quote evidence of
    [valuation.go]: what a source of money is, when and at what cost its owner may
    take it out, what is set aside by reservations, and the policy that applies
    when the owner stated none.  The evaluation over horizons is in
    [LiquidityEvaluate].

    A nil pointer is [None].  A Go string type with named constants keeps every
    other text as a [Raw] constructor, because the validators trim the text they
    test but the stored value stays as it was. *)

From S2P Require Export Product.
From S2P Require Import DecimalModel.
From Stdlib Require Import String Ascii.

#[global] Open Scope Z_scope.

(** ** Kinds *)

Inductive LiquiditySourceKind := SourceAccountValue | SourceAccountCash | SourceHolding | SourceKindRaw (s : string).
#[export] Instance LiquiditySourceKind_eq_dec : EqDecision LiquiditySourceKind.
Proof. solve_decision. Defined.
Definition LiquiditySourceKind_String (k : LiquiditySourceKind) : string :=
  match k with
  | SourceAccountValue => "account_value" | SourceAccountCash => "account_cash" | SourceHolding => "holding"
  | SourceKindRaw s => s
  end.
Definition ParseLiquiditySourceKind : string → Result LiquiditySourceKind :=
  parse_enum [SourceAccountValue; SourceAccountCash; SourceHolding] LiquiditySourceKind_String
    (validation "sourceKind" "must be account_value, account_cash, or holding").

Inductive AccessKind := AccessOnRequest | AccessOnDate | AccessUnknown | AccessExcluded | AccessKindRaw (s : string).
#[export] Instance AccessKind_eq_dec : EqDecision AccessKind.
Proof. solve_decision. Defined.
Definition AccessKind_String (k : AccessKind) : string :=
  match k with
  | AccessOnRequest => "on_request" | AccessOnDate => "on_date" | AccessUnknown => "unknown"
  | AccessExcluded => "excluded" | AccessKindRaw s => s
  end.
Definition ParseAccessKind : string → Result AccessKind :=
  parse_enum [AccessOnRequest; AccessOnDate; AccessUnknown; AccessExcluded] AccessKind_String
    (validation "accessKind" "is not supported").

#[export] Instance DayBasis_eq_dec : EqDecision DayBasis.
Proof. solve_decision. Defined.
Definition DayBasis_String (b : DayBasis) : string :=
  match b with DayBasisCalendar => "calendar" | DayBasisWeekdays => "weekdays" | DayBasisRaw s => s end.
Definition ParseDayBasis : string → Result DayBasis :=
  parse_enum [DayBasisCalendar; DayBasisWeekdays] DayBasis_String
    (validation "dayBasis" "must be calendar or weekdays").

Inductive EarlyKind := EarlyNotAllowed | EarlyAllowed | EarlyUnknown | EarlyKindRaw (s : string).
#[export] Instance EarlyKind_eq_dec : EqDecision EarlyKind.
Proof. solve_decision. Defined.
Definition EarlyKind_String (k : EarlyKind) : string :=
  match k with
  | EarlyNotAllowed => "not_allowed" | EarlyAllowed => "allowed" | EarlyUnknown => "unknown" | EarlyKindRaw s => s
  end.
Definition ParseEarlyKind : string → Result EarlyKind :=
  parse_enum [EarlyNotAllowed; EarlyAllowed; EarlyUnknown] EarlyKind_String
    (validation "earlyKind" "is not supported").

Inductive EarlyAmountMode := EarlyAmountCurrentValue | EarlyAmountFixedGross | EarlyAmountModeRaw (s : string).
#[export] Instance EarlyAmountMode_eq_dec : EqDecision EarlyAmountMode.
Proof. solve_decision. Defined.
Definition EarlyAmountMode_String (m : EarlyAmountMode) : string :=
  match m with
  | EarlyAmountCurrentValue => "current_value" | EarlyAmountFixedGross => "fixed_gross" | EarlyAmountModeRaw s => s
  end.
Definition ParseEarlyAmountMode : string → Result EarlyAmountMode :=
  parse_enum [EarlyAmountCurrentValue; EarlyAmountFixedGross] EarlyAmountMode_String
    (validation "earlyAmountMode" "is not supported").

(** [OriginUnset] and [StatusUnset] are the empty text of a zero value. *)
Inductive PolicyOrigin := PolicyOriginAssumed | PolicyOriginExplicit | PolicyOriginContract | OriginUnset.
#[export] Instance PolicyOrigin_eq_dec : EqDecision PolicyOrigin.
Proof. solve_decision. Defined.

Inductive CompletenessStatus := StatusComplete | StatusPartial | StatusUnavailable | StatusUnset.
#[export] Instance CompletenessStatus_eq_dec : EqDecision CompletenessStatus.
Proof. solve_decision. Defined.

Inductive RouteKind := RouteNormal | RouteEarly.
#[export] Instance RouteKind_eq_dec : EqDecision RouteKind.
Proof. solve_decision. Defined.

Inductive LiquidityAssumption :=
| AssumptionBankCashToday | AssumptionWeekdaysNoHolidays | AssumptionCurrentPricesAndFX
| AssumptionForecastInterest | AssumptionExcludedShortTerm | AssumptionDueUnconfirmed
| AssumptionFeeExceedsGross | AssumptionMissingFX | AssumptionMissingPrice | AssumptionUnknownAccess
| AssumptionUnknownFee | AssumptionUnknownTiming | AssumptionUnknownEarly | AssumptionRestrictedAccount
| AssumptionOutstandingDebtOmitted | AssumptionAssetsOnly.
#[export] Instance LiquidityAssumption_eq_dec : EqDecision LiquidityAssumption.
Proof. solve_decision. Defined.

(** ** The identity of a source *)

Record LiquiditySourceRef := mkRef {
  ref_Kind : LiquiditySourceKind; ref_AccountID : AccountID;
  ref_HoldingID : option HoldingID; ref_Currency : option CurrencyCode }.

(** [LiquiditySourceRef.Key] *)
Definition ref_Key (r : LiquiditySourceRef) : string :=
  match ref_Kind r with
  | SourceAccountValue => "account_value:" +:+ ref_AccountID r
  | SourceAccountCash =>
    "account_cash:" +:+ ref_AccountID r +:+ ":" +:+ default ""%string (ref_Currency r)
  | SourceHolding => "holding:" +:+ default ""%string (ref_HoldingID r)
  | SourceKindRaw s => s
  end.

(** [LiquiditySourceRef.Validate] *)
Definition ref_Validate (r : LiquiditySourceRef) : Result unit :=
  kind ← ParseLiquiditySourceKind (LiquiditySourceKind_String (ref_Kind r));
  _ ← or_fail (ParseAccountID (ref_AccountID r)) (validation "accountId" uuid_msg);
  match kind with
  | SourceAccountValue =>
    if negb (is_none (ref_HoldingID r))
    then Fail (validation "holdingId" "must be empty for an account_value source")
    else if negb (is_none (ref_Currency r))
    then Fail (validation "currency" "must be empty for an account_value source")
    else Ok tt
  | SourceAccountCash =>
    if negb (is_none (ref_HoldingID r))
    then Fail (validation "holdingId" "must be empty for an account_cash source")
    else match ref_Currency r with
    | None => Fail (validation "currency" "is required for an account_cash source")
    | Some cur => _ ← ParseCurrency cur; Ok tt
    end
  | SourceHolding =>
    match ref_HoldingID r with
    | None => Fail (validation "holdingId" "is required for a holding source")
    | Some id => _ ← ParseHoldingID id; Ok tt
    end
  | SourceKindRaw _ => Ok tt
  end.

Definition AccountValueSourceRef (accountID : AccountID) : LiquiditySourceRef :=
  mkRef SourceAccountValue accountID None None.
Definition AccountCashSourceRef (accountID : AccountID) (cur : CurrencyCode) : LiquiditySourceRef :=
  mkRef SourceAccountCash accountID None (Some cur).
Definition HoldingSourceRef (accountID : AccountID) (holdingID : HoldingID) : LiquiditySourceRef :=
  mkRef SourceHolding accountID (Some holdingID) None.

(** ** Quote freshness *)

Inductive Freshness := FreshnessFresh | FreshnessDelayed | FreshnessStale | FreshnessManual | FreshnessUnavailable.
#[export] Instance Freshness_eq_dec : EqDecision Freshness.
Proof. solve_decision. Defined.

Definition QuoteClockSkewTolerance : Z := 5 * 60 * Second.
Definition ProviderObservationEarliest : Time := utc_midnight (days_of_civil 2000 1 1).

Definition QuoteFreshness (source : QuoteSourceKind) (delayed : bool) (quotedAt now : Time) (ttl : Z) : Freshness :=
  if bool_decide (source = QuoteSourceManual) then FreshnessManual
  else if timeIsZero quotedAt || timeIsZero now || (quotedAt <? ProviderObservationEarliest)
  then FreshnessUnavailable
  else
    let age := timeSub now quotedAt in
    if now + QuoteClockSkewTolerance <? quotedAt then FreshnessUnavailable
    else
      let ttl := if ttl <=? 0 then 12 * Hour else ttl in
      if ttl <=? age then FreshnessStale
      else if delayed then FreshnessDelayed else FreshnessFresh.

Record QuoteEvidenceView := mkEvidence {
  ev_EffectiveDate : string; ev_ValueEffectiveAt : Time; ev_FetchedAt : Time; ev_ClosedCarry : bool;
  ev_Carried : bool; ev_ObservationID : string; ev_Source : QuoteSourceKind; ev_SourceKey : string;
  ev_QuotedAt : Time; ev_Freshness : Freshness; ev_Delayed : bool }.

Definition restrictedAccountType (t : AccountType) : bool :=
  match t with
  | TypeBrokerage | TypeInvestmentAccount | TypeCryptoExchange | TypeDigitalWallet | TypePension
  | TypeInsurancePolicy | TypeOther => true
  | _ => false
  end.

Section Liquidity.
Context `{HD : DecimalAPI}.

(** ** Policies and reservations *)

Record LiquidityPolicy := mkPolicy {
  pol_ID : LiquidityPolicyID; pol_HouseholdID : HouseholdID; pol_Source : LiquiditySourceRef;
  pol_AccessKind : AccessKind; UnlockOn : option string; SettlementDays : option Z; pol_DayBasis : option DayBasis;
  ReceiptOnOverride : option string; AccessibleAmountCap : option Money; NormalExitFee : option Money;
  pol_EarlyKind : EarlyKind; EarlySettlementDays : option Z; EarlyDayBasis : option DayBasis;
  EarlyFee : option Money; pol_EarlyAmountMode : option EarlyAmountMode; EarlyGrossAmount : option Money;
  pol_ConfirmedAt : option Time; pol_Note : option string; pol_Revision : Z;
  pol_CreatedAt : Time; pol_UpdatedAt : Time }.

Definition days_in_range (field : string) (days : Z) : Result unit :=
  if (days <? 0) || (365 <? days) then Fail (validation field "must be between 0 and 365") else Ok tt.

Definition source_currency (field : string) (value : option Money) (source : LiquiditySourceRef) : Result unit :=
  match value, ref_Currency source with
  | Some m, Some cur =>
    if negb (bool_decide (currency m = cur)) then Fail (validation field "must use the source currency") else Ok tt
  | _, _ => Ok tt
  end.

(** The fields that allowed early access requires. *)
Definition validate_early (p : LiquidityPolicy) (early : EarlyKind) : Result unit :=
  if bool_decide (early = EarlyAllowed) then
    match EarlySettlementDays p, EarlyDayBasis p, EarlyFee p, pol_EarlyAmountMode p with
    | Some days, Some basis, Some _, Some mode =>
      _ ← days_in_range "earlySettlementDays" days;
      _ ← ParseDayBasis (DayBasis_String basis);
      _ ← ParseEarlyAmountMode (EarlyAmountMode_String mode);
      if bool_decide (mode = EarlyAmountFixedGross) && is_none (EarlyGrossAmount p)
      then Fail (validation "earlyGrossAmount" "is required for a fixed-gross early amount") else Ok tt
    | _, _, _, _ => Fail (validation "earlyKind" "allowed early access requires settlement, fee, and amount fields")
    end
  else Ok tt.

(** [LiquidityPolicy.Validate] *)
Definition pol_Validate (p : LiquidityPolicy) (managed : bool) : Result unit :=
  _ ← or_fail (ParseHouseholdID (pol_HouseholdID p)) (validation "householdId" uuid_msg);
  _ ← ref_Validate (pol_Source p);
  access ← ParseAccessKind (AccessKind_String (pol_AccessKind p));
  _ ← (if bool_decide (access = AccessOnDate) && is_none (UnlockOn p)
       then Fail (validation "unlockOn" "is required for on_date access") else Ok tt);
  _ ← optionalCivilDate "unlockOn" (UnlockOn p);
  _ ← match SettlementDays p with
      | Some days =>
        _ ← days_in_range "settlementDays" days;
        match pol_DayBasis p with
        | None => Fail (validation "dayBasis" "is required when settlementDays is set")
        | Some basis => _ ← ParseDayBasis (DayBasis_String basis); Ok tt
        end
      | None => Ok tt
      end;
  _ ← optionalCivilDate "receiptOnOverride" (ReceiptOnOverride p);
  if managed && negb (is_none (AccessibleAmountCap p))
  then Fail (validation "accessibleAmountCap" "is not accepted for a managed product")
  else
    _ ← source_currency "accessibleAmountCap" (AccessibleAmountCap p) (pol_Source p);
    _ ← source_currency "normalExitFee" (NormalExitFee p) (pol_Source p);
    early ← ParseEarlyKind (EarlyKind_String (pol_EarlyKind p));
    _ ← validate_early p early;
    if pol_Revision p <? 1 then Fail (validation "revision" "must be a positive integer")
    else _ ← validateNote "note" (pol_Note p); Ok tt.

Record LiquidityReservation := mkReservation {
  rsv_ID : LiquidityReservationID; rsv_HouseholdID : HouseholdID; rsv_Source : LiquiditySourceRef;
  rsv_Label : string; rsv_Amount : Money; rsv_Currency : CurrencyCode; rsv_Revision : Z;
  rsv_CreatedAt : Time; rsv_UpdatedAt : Time; ReleasedAt : option Time }.

(** [LiquidityReservation.Validate] *)
Definition rsv_Validate (r : LiquidityReservation) : Result unit :=
  _ ← or_fail (ParseHouseholdID (rsv_HouseholdID r)) (validation "householdId" uuid_msg);
  _ ← ref_Validate (rsv_Source r);
  _ ← validateName "label" (rsv_Label r);
  if m_isZero (rsv_Amount r) then Fail (validation "amount" "must be greater than zero")
  else if negb (bool_decide (currency (rsv_Amount r) = rsv_Currency r))
  then Fail (validation "currency" "must match the reservation amount")
  else
    _ ← match ref_Currency (rsv_Source r) with
        | Some cur => if negb (bool_decide (rsv_Currency r = cur))
                      then Fail (validation "currency" "must match the source currency") else Ok tt
        | None => Ok tt
        end;
    if rsv_Revision r <? 1 then Fail (validation "revision" "must be a positive integer") else Ok tt.

(** [LiquidityReservation.Active] *)
Definition rsv_Active (r : LiquidityReservation) : bool := is_none (ReleasedAt r).

(** ** Sources *)

Record LiquiditySource := mkSource {
  src_Ref : LiquiditySourceRef; src_AccountID : AccountID; src_ProductID : option ProductContractID;
  src_DisplayName : string; NativeCurrency : CurrencyCode; CurrentNativeValue : option Money;
  CurrentBaseValue : option Decimal; CurrentNativeAmount : string; ValueAsOf : option Time;
  PriceEvidence : option QuoteEvidenceView; FXEvidence : option QuoteEvidenceView;
  src_IncludeInNetWorth : bool; Archived : bool; Liability : bool; QuantityZero : bool;
  src_AccountType : AccountType; src_TrackingMode : TrackingMode; src_InstrumentType : option InstrumentType;
  Managed : bool; Contract : option ProductContract; ExplicitPolicy : option LiquidityPolicy }.

(** ** The policy that applies *)

(** [LiquidityPolicy{AccessKind: a, SettlementDays: d, DayBasis: b, EarlyKind: e, Revision: 1}] *)
Definition plain_policy (access : AccessKind) (days : option Z) (basis : option DayBasis) (early : EarlyKind)
    : LiquidityPolicy :=
  mkPolicy "" "" (mkRef (SourceKindRaw "") "" None None) access None days basis None None None early
    None None None None None None None 1 0 0.

Definition DefaultLiquidityPolicy (accountType : AccountType) (tracking : TrackingMode)
    (sourceKind : LiquiditySourceKind) (managed : bool)
    : LiquidityPolicy * PolicyOrigin * list LiquidityAssumption :=
  if managed
  then (plain_policy AccessUnknown None None EarlyNotAllowed, PolicyOriginContract, [AssumptionUnknownAccess])
  else
    let on_request := plain_policy AccessOnRequest (Some 0) (Some DayBasisCalendar) EarlyNotAllowed in
    if bool_decide (accountType = TypeCashOnHand) && negb (bool_decide (sourceKind = SourceHolding))
    then (on_request, PolicyOriginAssumed, [])
    else if bool_decide (accountType = TypeBankAccount) &&
            (bool_decide (sourceKind = SourceAccountValue) || bool_decide (sourceKind = SourceAccountCash))
    then (on_request, PolicyOriginAssumed, [AssumptionBankCashToday])
    else if bool_decide (accountType = TypeProperty) || bool_decide (accountType = TypeVehicle) ||
            bool_decide (accountType = TypeCollectible)
    then (plain_policy AccessExcluded None None EarlyNotAllowed, PolicyOriginAssumed, [AssumptionExcludedShortTerm])
    else (plain_policy AccessUnknown None None EarlyUnknown, PolicyOriginAssumed,
          AssumptionUnknownAccess :: (if restrictedAccountType accountType then [AssumptionRestrictedAccount] else [])).

Definition set_access (p : LiquidityPolicy) (a : AccessKind) : LiquidityPolicy :=
  mkPolicy (pol_ID p) (pol_HouseholdID p) (pol_Source p) a (UnlockOn p) (SettlementDays p) (pol_DayBasis p)
    (ReceiptOnOverride p) (AccessibleAmountCap p) (NormalExitFee p) (pol_EarlyKind p) (EarlySettlementDays p)
    (EarlyDayBasis p) (EarlyFee p) (pol_EarlyAmountMode p) (EarlyGrossAmount p) (pol_ConfirmedAt p) (pol_Note p)
    (pol_Revision p) (pol_CreatedAt p) (pol_UpdatedAt p).

Definition set_exit_fee (p : LiquidityPolicy) (fee : Money) : LiquidityPolicy :=
  mkPolicy (pol_ID p) (pol_HouseholdID p) (pol_Source p) (pol_AccessKind p) (UnlockOn p) (SettlementDays p)
    (pol_DayBasis p) (ReceiptOnOverride p) (AccessibleAmountCap p) (Some fee) (pol_EarlyKind p)
    (EarlySettlementDays p) (EarlyDayBasis p) (EarlyFee p) (pol_EarlyAmountMode p) (EarlyGrossAmount p)
    (pol_ConfirmedAt p) (pol_Note p) (pol_Revision p) (pol_CreatedAt p) (pol_UpdatedAt p).

(** [attachAssumedZeroExitFee] of a non-nil policy. *)
Definition attachAssumedZeroExitFee (policy : LiquidityPolicy) (origin : PolicyOrigin) (cur : CurrencyCode)
    : LiquidityPolicy :=
  if negb (bool_decide (origin = PolicyOriginAssumed)) || negb (is_none (NormalExitFee policy)) then policy
  else if negb (bool_decide (pol_AccessKind policy = AccessOnRequest)) || bool_decide (cur = ""%string) then policy
  else match NewMoney dZero cur with
  | Fail _ => policy
  | Ok zero => set_exit_fee policy zero
  end.

(** The origin and the assumptions are returned with an error too. *)
Definition ResolveLiquidityPolicy (source : LiquiditySource)
    : PolicyOrigin * list LiquidityAssumption * Result LiquidityPolicy :=
  match ExplicitPolicy source with
  | None =>
    if Managed source
    then (PolicyOriginContract, [AssumptionUnknownAccess],
          Fail (validation "policy" "a managed product requires an explicit contract policy"))
    else
      let '(policy, origin, assumptions) :=
        DefaultLiquidityPolicy (src_AccountType source) (src_TrackingMode source) (ref_Kind (src_Ref source)) false in
      let '(policy, origin, assumptions) :=
        if restrictedAccountType (src_AccountType source) && bool_decide (ref_Kind (src_Ref source) = SourceHolding)
        then (set_access policy AccessUnknown, PolicyOriginAssumed,
              [AssumptionUnknownAccess; AssumptionRestrictedAccount])
        else (policy, origin, assumptions) in
      (origin, assumptions, Ok (attachAssumedZeroExitFee policy origin (NativeCurrency source)))
  | Some policy =>
    if Managed source then
      match pol_Validate policy true with
      | Fail e => (PolicyOriginContract, [], Fail e)
      | Ok _ => (PolicyOriginContract, [], Ok policy)
      end
    else
      match pol_Validate policy false with
      | Fail e => (PolicyOriginExplicit, [], Fail e)
      | Ok _ => (PolicyOriginExplicit, [AssumptionRestrictedAccount], Ok policy)
      end
  end.

(** ** When the money can be asked for, and when it arrives *)

(** The later of [today] and an optional unlock date. *)
Definition after_unlock (today : string) (unlockOn : option string) : Result string :=
  match unlockOn with
  | None => Ok today
  | Some unlockOn =>
    unlock ← ParseCivilDate "unlockOn" unlockOn;
    Ok (if compareCivilDates today unlock <? 0 then unlock else today)
  end.

Definition contract_maturity (contract : option ProductContract) : option string :=
  c ← contract; MaturityOn c.

(** [LiquidityPolicy.actionEligibleOn]: the assumptions come with an error too. *)
Definition actionEligibleOn (p : LiquidityPolicy) (today : string) (early : bool)
    (contract : option ProductContract) : list LiquidityAssumption * Result string :=
  if early then
    match contract with
    | Some c => if bool_decide (prod_Kind c = ProductLockedProduct)
                then ([], after_unlock today (UnlockOn p)) else ([], Ok today)
    | None => ([], Ok today)
    end
  else match contract_maturity contract with
  | Some maturityOn =>
    ([], maturity ← ParseCivilDate "maturityOn" maturityOn;
         Ok (if 0 <? compareCivilDates today maturity then today else maturity))
  | None =>
    match pol_AccessKind p with
    | AccessOnRequest => ([], after_unlock today (UnlockOn p))
    | AccessOnDate =>
      match UnlockOn p with
      | None => ([AssumptionUnknownTiming], Fail (validation "unlockOn" "is required"))
      | Some unlockOn =>
        ([], unlock ← ParseCivilDate "unlockOn" unlockOn;
             Ok (if 0 <? compareCivilDates today unlock then today else unlock))
      end
    | _ => ([AssumptionUnknownAccess], Fail (OtherErr "access is not scheduled"))
    end
  end.

(** [LiquidityPolicy.ValidateProductDates] *)
Definition ValidateProductDates (p : LiquidityPolicy) (kind : ProductKind) (maturity : option string) : Result unit :=
  let deposit_mismatch :=
    match maturity, UnlockOn p with
    | Some m, Some u => negb (bool_decide (u = m))
    | _, _ => true
    end in
  if bool_decide (kind = ProductTermDeposit) && deposit_mismatch
  then Fail (validation "unlockOn" "must equal deposit maturity")
  else if match maturity, UnlockOn p with Some m, Some u => String.ltb m u | _, _ => false end
  then Fail (validation "unlockOn" "cannot follow maturity")
  else match ReceiptOnOverride p with
  | None => Ok tt
  | Some receipt =>
    if match maturity with Some m => String.ltb receipt m | None => false end
    then Fail (validation "receiptOnOverride" "cannot precede maturity")
    else if match UnlockOn p with Some u => String.ltb receipt u | None => false end
    then Fail (validation "receiptOnOverride" "cannot precede unlock")
    else Ok tt
  end.

(** The settlement lag that applies, in days and their basis. *)
Definition settlement_lag (p : LiquidityPolicy) (early : bool) : Result (Z * DayBasis) :=
  if early then
    match EarlySettlementDays p, EarlyDayBasis p with
    | Some days, Some basis => Ok (days, basis)
    | _, _ => Fail (validation "earlySettlementDays" "is required")
    end
  else match SettlementDays p with
  | None => Fail (validation "settlementDays" "is unknown")
  | Some days => Ok (days, default DayBasisCalendar (pol_DayBasis p))
  end.

(** [LiquidityPolicy.receiptOn]; on success the pointer is never nil. *)
Definition receiptOn (p : LiquidityPolicy) (today : string) (early : bool) (contract : option ProductContract)
    : list LiquidityAssumption * Result string :=
  let today := if early then today else default today (contract_maturity contract) in
  match (if early then None else ReceiptOnOverride p) with
  | Some text =>
    match ParseCivilDate "receiptOnOverride" text with
    | Fail e => ([], Fail e)
    | Ok override =>
      let anchor := default override (contract_maturity contract) in
      match (actionEligibleOn p anchor false contract).2 with
      | Ok eligible =>
        if compareCivilDates override eligible <? 0
        then ([], Fail (validation "receiptOnOverride" "cannot precede action eligibility"))
        else ([], Ok override)
      | Fail _ => ([], Ok override)
      end
    end
  | None =>
    let '(assumptions, eligible) := actionEligibleOn p today early contract in
    match eligible with
    | Fail e => (assumptions, Fail e)
    | Ok eligible =>
      match settlement_lag p early with
      | Fail e => ([AssumptionUnknownTiming], Fail e)
      | Ok (days, basis) =>
        match SettlementReceiptOn eligible days basis with
        | Fail e => ([], Fail e)
        | Ok receipt =>
          (if bool_decide (basis = DayBasisWeekdays) then [AssumptionWeekdaysNoHolidays] else [], Ok receipt)
        end
      end
    end
  end.

(** ** Exact amounts *)

Definition liquiditySourcePositiveOrUnknown (source : LiquiditySource) : bool :=
  if negb (bool_decide (CurrentNativeAmount source = ""%string))
  then match dNewFromString (CurrentNativeAmount source) with
       | Some value => dIsPositive value
       | None => dIsPositive (dInt 0)
       end
  else match CurrentNativeValue source with None => true | Some m => dIsPositive (amount m) end.

(** The error of [decimal.NewFromString], whose text is the library's. *)
Definition decimal_error : goerror := OtherErr "decimal".

(** What [applyLiquidityFee] returns: the net amount and its exact value, or an
    unknown fee; and whether the fee exceeds the gross amount. *)
Record FeeResult := mkFeeResult {
  fee_net : option Money; fee_exact : option Decimal; fee_unknown : bool; fee_exceeds : bool }.

Definition applyLiquidityFee (source : LiquiditySource) (policy : LiquidityPolicy) (basis : string)
    (gross : Money) (fee : option Money) : Result FeeResult :=
  exact ← (if bool_decide (basis = "current_value"%string) &&
              negb (bool_decide (CurrentNativeAmount source = ""%string)) then
             match dNewFromString (CurrentNativeAmount source) with
             | None => Fail decimal_error
             | Some value =>
               Ok match AccessibleAmountCap policy with
                  | Some cap => if Managed source then value else dMin value (amount cap)
                  | None => value
                  end
             end
           else Ok (amount gross));
  match fee with
  | None => Ok (mkFeeResult None None true false)
  | Some fee =>
    if negb (bool_decide (currency fee = currency gross)) then Ok (mkFeeResult None None true false)
    else
      let diff := dSub exact (amount fee) in
      let exceeds := dIsNegative diff in
      let diff := if exceeds then dZero else diff in
      net ← NewMoney diff (currency gross);
      Ok (mkFeeResult (Some net) (Some diff) false exceeds)
  end.

(** A failing [NewMoney] whose error is ignored leaves the zero [Money]. *)
Definition zeroMoney : Money := mkMoney (dInt 0) "".
Definition ignore_err (r : Result Money) : Money := match r with Ok m => m | Fail _ => zeroMoney end.

(** (applied, unreserved, shortfall, exactApplied) *)
Definition applyLiquidityReservation (net : Decimal) (cur : CurrencyCode) (requested : Money)
    : Money * Money * Money * Decimal :=
  let exactApplied := dMin net (amount requested) in
  let applied := ignore_err (NewMoney exactApplied cur) in
  let displayedNet := ignore_err (NewMoney net cur) in
  let unreserved := ignore_err (NewMoney (dSub (amount displayedNet) (amount applied)) cur) in
  let shortfall := ignore_err (NewMoney (dMax (dSub (amount requested) net) dZero) cur) in
  (applied, unreserved, shortfall, exactApplied).

(** A nil amount without an error means that the rate is missing. *)
Definition ConvertToBase : Type := Decimal → CurrencyCode → Result (option Decimal * bool).

Definition convertLiquidityExact (convert : ConvertToBase) : ConvertToBase := λ amt cur,
  if dIsZero amt then Ok (Some dZero, true) else convert amt cur.

End Liquidity.
