(* ===== verification/LiquidityEvaluate.v ===== *)
(** * The evaluation of liquidity

    [liquidity_evaluate.go]: the routes by which the money of a source can be
    taken out, the route chosen for each horizon, the totals per currency and in
    the household's base currency, and the overview that the application shows. *)

From S2P Require Export Liquidity.
From S2P Require Import DecimalModel.
From Stdlib Require Import String Ascii.

#[global] Open Scope Z_scope.

Section Evaluate.
Context `{HD : DecimalAPI}.

(** ** Data *)

Record LiquidityQuery := mkQuery {
  lq_AsOf : Time; lq_Timezone : string; lq_BaseCurrency : CurrencyCode; CustomHorizonOn : option string;
  IncludeEarlyWithdrawal : bool }.

Record LiquidityRoute := mkRoute {
  rt_netExact : option Decimal; rt_Kind : RouteKind; rt_EligibleOn : option string; rt_ReceiptOn : option string;
  GrossNative : option Money; FeeNative : option Money; rt_NetNative : option Money;
  rt_Status : CompletenessStatus; AmountBasis : string; ActionRequired : string;
  rt_Assumptions : list LiquidityAssumption; MissingReasons : list string }.

Record LiquidityBucketResult := mkRow {
  row_netExact : option Decimal; row_reserveExact : option Decimal; row_nativeStatus : CompletenessStatus;
  row_HorizonOn : string; SelectedRoute : option LiquidityRoute; row_NetNative : option Money;
  row_NetBase : option Decimal; AppliedReserveNative : option Money; UnreservedNative : option Money;
  ReserveShortfallNative : option Money; row_Status : CompletenessStatus; row_Reasons : list string }.

Record LiquiditySourceResult := mkSourceResult {
  res_Ref : LiquiditySourceRef; SourceKey : string; res_AccountID : AccountID;
  res_ProductID : option ProductContractID; DisplayName : string; res_NativeCurrency : CurrencyCode;
  res_CurrentNativeValue : option Money; res_ValueAsOf : option Time;
  res_PriceEvidence : option QuoteEvidenceView; res_FXEvidence : option QuoteEvidenceView;
  res_PolicyOrigin : PolicyOrigin; res_Policy : option LiquidityPolicy;
  ContractState : option ProductContractState; DisplayState : option ProductDisplayState;
  ReservationRequested : Money; NormalRoute : option LiquidityRoute; EarlyRoute : option LiquidityRoute;
  BucketResults : list LiquidityBucketResult; res_Reasons : list string;
  res_Assumptions : list LiquidityAssumption; Excluded : bool; DueUnconfirmed : bool }.

Record NativeCurrencyGroup := mkGroup {
  grp_Currency : CurrencyCode; grp_Status : CompletenessStatus; grp_FullAvailable : option Money;
  grp_KnownAvailable : option Money; grp_AppliedReserve : option Money; grp_FullUnreserved : option Money;
  grp_KnownUnreserved : option Money }.

(** The five subtotals of a bucket. *)
Record Subtotals := mkSubtotals {
  FullAvailable : option Money; KnownAvailableSubtotal : option Money; AppliedReserveSubtotal : option Money;
  FullUnreserved : option Money; KnownUnreservedSubtotal : option Money }.

Record LiquidityBucket := mkBucket {
  bkt_HorizonOn : string; bkt_Status : CompletenessStatus; bkt_Subtotals : Subtotals;
  UnknownSourceCount : Z; ExcludedSourceCount : Z; EstimatedSourceCount : Z;
  NativeCurrencyGroups : list NativeCurrencyGroup; Warnings : list string }.

Record UnresolvedReservation := mkUnresolved { unr_Reservation : LiquidityReservation; unr_Reason : string }.

Record LiquidityOverview := mkOverview {
  ov_AsOf : Time; LocalDate : string; ov_Timezone : string; ov_BaseCurrency : CurrencyCode;
  ov_Assumptions : list LiquidityAssumption; Buckets : list LiquidityBucket;
  Sources : list LiquiditySourceResult; UnresolvedReservations : list UnresolvedReservation }.

Definition appendUniqueAssumption (values : list LiquidityAssumption) (next : LiquidityAssumption)
    : list LiquidityAssumption :=
  if bool_decide (next ∈ values) then values else values ++ [next].

Definition add_if (b : bool) (values : list LiquidityAssumption) (next : LiquidityAssumption)
    : list LiquidityAssumption :=
  if b then appendUniqueAssumption values next else values.

(** A pointer to an amount that is dereferenced: the callers test it first. *)
Definition exact_or (exact : option Decimal) (shown : option Money) : Decimal :=
  match exact with
  | Some d => d
  | None => match shown with Some m => amount m | None => dInt 0 end
  end.
Definition routeNativeExact (r : LiquidityRoute) : Decimal := exact_or (rt_netExact r) (rt_NetNative r).
Definition bucketNativeExact (r : LiquidityBucketResult) : Decimal := exact_or (row_netExact r) (row_NetNative r).
Definition bucketReserveExact (r : LiquidityBucketResult) : Decimal :=
  match row_reserveExact r with
  | Some d => d
  | None => match AppliedReserveNative r with Some m => amount m | None => dZero end
  end.

(** ** Routes *)

Definition is_term_deposit (contract : option ProductContract) : bool :=
  match contract with Some c => bool_decide (prod_Kind c = ProductTermDeposit) | None => false end.

(** The smaller of an amount and an optional cap. *)
Definition cap_gross (gross : Money) (cap : option Money) : Money :=
  match cap with
  | Some cap => if dLessThan (amount cap) (amount gross) then cap else gross
  | None => gross
  end.

Definition normalGross (source : LiquiditySource) (policy : LiquidityPolicy) : Result (option Money * string) :=
  match Contract source with
  | Some contract =>
    if Managed source && bool_decide (prod_Kind contract = ProductTermDeposit) then
      gross ← ForecastGrossProceeds contract;
      Ok (gross, "principal_plus_unpaid_interest"%string)
    else Ok ((λ g, cap_gross g (AccessibleAmountCap policy)) <$> CurrentNativeValue source, "current_value"%string)
  | None => Ok ((λ g, cap_gross g (AccessibleAmountCap policy)) <$> CurrentNativeValue source, "current_value"%string)
  end.

Definition earlyGross (source : LiquiditySource) (policy : LiquidityPolicy) : Result (option Money * string) :=
  let cap := if Managed source then None else AccessibleAmountCap policy in
  if bool_decide (pol_EarlyAmountMode policy = Some EarlyAmountFixedGross)
  then Ok ((λ g, cap_gross g cap) <$> EarlyGrossAmount policy, "fixed_gross"%string)
  else Ok ((λ g, cap_gross g cap) <$> CurrentNativeValue source, "current_value"%string).

Definition buildNormalRoute (today : string) (source : LiquiditySource) (policy : LiquidityPolicy)
    : Result LiquidityRoute :=
  if bool_decide (pol_AccessKind policy = AccessUnknown)
  then Ok (mkRoute None RouteNormal None None None None None StatusUnavailable "current_value" "none"
             [AssumptionUnknownAccess] ["access policy is unknown"])
  else
    let '(assumptions, eligible) := actionEligibleOn policy today false (Contract source) in
    match eligible with
    | Fail _ => Ok (mkRoute None RouteNormal None None None None None StatusUnavailable "current_value" "none"
                      assumptions ["access timing is unknown"])
    | Ok eligible =>
      let '(receiptAssumptions, receipt) := receiptOn policy today false (Contract source) in
      let assumptions := assumptions ++ receiptAssumptions in
      match receipt with
      | Fail _ =>
        Ok (mkRoute None RouteNormal (Some eligible) None None None None StatusPartial "current_value" "none"
              (appendUniqueAssumption assumptions AssumptionUnknownTiming) ["receipt timing is unknown"])
      | Ok receipt =>
        '(gross, basis) ← normalGross source policy;
        match gross with
        | None =>
          Ok (mkRoute None RouteNormal (Some eligible) (Some receipt) None None None StatusUnavailable
                "current_value" "none"
                (add_if (is_none (CurrentNativeValue source) && is_none (PriceEvidence source))
                   assumptions AssumptionMissingPrice) ["amount is unknown"])
        | Some gross =>
          let assumptions := add_if (Managed source && is_term_deposit (Contract source))
                               assumptions AssumptionForecastInterest in
          fee ← applyLiquidityFee source policy basis gross (NormalExitFee policy);
          if fee_unknown fee then
            Ok (mkRoute None RouteNormal (Some eligible) (Some receipt) (Some gross) None None StatusPartial
                  basis "none" (appendUniqueAssumption assumptions AssumptionUnknownFee) ["exit fee is unknown"])
          else
            Ok (mkRoute (fee_exact fee) RouteNormal (Some eligible) (Some receipt) (Some gross)
                  (NormalExitFee policy) (fee_net fee) StatusComplete basis
                  (if Managed source then "redeem"
                   else if bool_decide (ref_Kind (src_Ref source) = SourceHolding) then "sell" else "withdraw")
                  (add_if (fee_exceeds fee) assumptions AssumptionFeeExceedsGross) [])
        end
      end
    end.

(** A managed term deposit that has matured by [date] has no early route. *)
Definition matured_deposit (source : LiquiditySource) (date : string) : bool :=
  match Contract source with
  | Some contract =>
    match MaturityOn contract with
    | Some maturity =>
      Managed source && bool_decide (prod_Kind contract = ProductTermDeposit) &&
      (0 <=? compareCivilDates date maturity)
    | None => false
    end
  | None => false
  end.

Definition buildEarlyRoute (today : string) (source : LiquiditySource) (policy : LiquidityPolicy)
    : Result (option LiquidityRoute) :=
  if bool_decide (pol_EarlyKind policy = EarlyNotAllowed) then Ok None
  else if matured_deposit source today then Ok None
  else
    let action : string := "early_withdrawal" in
    let '(assumptions, eligible) := actionEligibleOn policy today true (Contract source) in
    match eligible with
    | Fail _ => Ok (Some (mkRoute None RouteEarly None None None None None StatusUnavailable "current_value" action
                            assumptions []))
    | Ok eligible =>
      if matured_deposit source eligible then Ok None
      else if bool_decide (pol_EarlyKind policy = EarlyUnknown)
      then Ok (Some (mkRoute None RouteEarly (Some eligible) None None None None StatusUnavailable "current_value"
                       action [AssumptionUnknownEarly] ["early access is unknown"]))
      else
        let '(receiptAssumptions, receipt) := receiptOn policy today true (Contract source) in
        match receipt with
        | Fail _ =>
          Ok (Some (mkRoute None RouteEarly (Some eligible) None None None None StatusPartial "current_value" action
                      (assumptions ++ receiptAssumptions) ["early receipt timing is unknown"]))
        | Ok receipt =>
          '(gross, basis) ← earlyGross source policy;
          match gross with
          | None =>
            Ok (Some (mkRoute None RouteEarly (Some eligible) (Some receipt) None None None StatusUnavailable
                        "current_value" action receiptAssumptions ["early amount is unknown"]))
          | Some gross =>
            fee ← applyLiquidityFee source policy basis gross (EarlyFee policy);
            if fee_unknown fee then
              Ok (Some (mkRoute None RouteEarly (Some eligible) (Some receipt) (Some gross) None None StatusPartial
                          basis action (appendUniqueAssumption receiptAssumptions AssumptionUnknownFee)
                          ["early fee is unknown"]))
            else
              Ok (Some (mkRoute (fee_exact fee) RouteEarly (Some eligible) (Some receipt) (Some gross)
                          (EarlyFee policy) (fee_net fee) StatusComplete basis action
                          (add_if (fee_exceeds fee) receiptAssumptions AssumptionFeeExceedsGross) []))
          end
        end
    end.

(** ** Display state *)

Definition productReceiptUnconfirmed (contract : option ProductContract) (policy : LiquidityPolicy)
    (today : string) (normal : option LiquidityRoute) : bool :=
  match contract, normal with
  | Some c, Some route =>
    bool_decide (prod_State c = ProductStateOpen) &&
    (negb (is_none (MaturityOn c)) || negb (is_none (ReceiptOnOverride policy))) &&
    negb (bool_decide (pol_AccessKind policy = AccessUnknown)) &&
    negb (bool_decide (pol_AccessKind policy = AccessExcluded)) &&
    match rt_ReceiptOn route with Some receipt => compareCivilDates receipt today <=? 0 | None => false end
  | _, _ => false
  end.

Definition deriveDisplayState (source : LiquiditySource) (policy : LiquidityPolicy) (today : string) (due : bool)
    (normal : option LiquidityRoute) : ProductDisplayState :=
  let open_state :=
    if due then ProductDisplayDueUnconfirmed
    else if bool_decide (pol_AccessKind policy = AccessExcluded) then ProductDisplayLocked
    else if match normal ≫= rt_EligibleOn with
            | Some eligible => compareCivilDates today eligible <? 0
            | None => false
            end then ProductDisplayLocked
    else if bool_decide (pol_AccessKind policy = AccessUnknown) || is_none (normal ≫= rt_ReceiptOn)
    then ProductDisplayNeedsInfo
    else ProductDisplayRedeemable in
  match Contract source with
  | Some c =>
    match prod_State c with
    | ProductStateSettled => ProductDisplaySettled
    | ProductStateCancelled => ProductDisplayCancelled
    | _ => open_state
    end
  | None => open_state
  end.

(** [LiquiditySource{Managed: true, Contract: &contract}]; the account type and tracking
    mode are empty there and are not read. *)
Definition contract_source (contract : ProductContract) : LiquiditySource :=
  mkSource (mkRef (SourceKindRaw "") "" None None) "" None "" "" None None "" None None None false false false false
    TypeOther TrackingHoldings None true (Some contract) None.

Definition ProductAvailabilityState (contract : ProductContract) (policy : LiquidityPolicy) (today : string)
    : Result ProductDisplayState :=
  let source := contract_source contract in
  normal ← buildNormalRoute today source policy;
  Ok (deriveDisplayState source policy today
        (productReceiptUnconfirmed (Some contract) policy today (Some normal)) (Some normal)).

(** ** The route chosen for a horizon *)

(** One candidate of the loop of [selectRouteForHorizon]; the state is the route
    chosen so far and whether an eligible route has unknown proceeds. *)
Definition select_step (horizon : string) (st : option LiquidityRoute * bool) (candidate : LiquidityRoute)
    : option LiquidityRoute * bool :=
  let '(selected, unknownEligible) := st in
  if match rt_EligibleOn candidate with Some e => String.ltb horizon e | None => false end then st
  else match rt_ReceiptOn candidate with
  | None => (selected, unknownEligible || negb (bool_decide (rt_Status candidate = StatusComplete)))
  | Some receipt =>
    if 0 <? compareCivilDates receipt horizon then st
    else if is_none (rt_NetNative candidate) then (selected, true)
    else match selected with
    | None => (Some candidate, unknownEligible)
    | Some s =>
      if dGreaterThan (routeNativeExact candidate) (routeNativeExact s) then (Some candidate, unknownEligible)
      else if dEqual (routeNativeExact candidate) (routeNativeExact s) then
        if bool_decide (rt_Kind candidate = RouteNormal) && negb (bool_decide (rt_Kind s = RouteNormal))
        then (Some candidate, unknownEligible)
        else if match rt_ReceiptOn s with Some r => compareCivilDates receipt r <? 0 | None => false end &&
                bool_decide (rt_Kind candidate = rt_Kind s)
        then (Some candidate, unknownEligible)
        else st
      else st
    end
  end.

Definition candidates (source : LiquiditySourceResult) (due : bool) : list LiquidityRoute :=
  (if due then [] else option_list (NormalRoute source)) ++ option_list (EarlyRoute source).

(** What the reservation does to the chosen net amount:
    (mismatch, applied, unreserved, shortfall, exact reserve). *)
Definition reserve_part (net : Money) (exactNet : Decimal) (requested : Money)
    : bool * Money * Money * Money * option Decimal :=
  let zero := ignore_err (NewMoney dZero (currency net)) in
  if bool_decide (currency requested = ""%string) then (false, zero, net, zero, None)
  else if negb (bool_decide (currency requested = currency net)) then (true, zero, net, zero, None)
  else
    let '(applied, unreserved, shortfall, exactReserve) :=
      applyLiquidityReservation exactNet (currency net) requested in
    (false, applied, unreserved, shortfall, Some exactReserve).

Definition selectRouteForHorizon (horizon : string) (source : LiquiditySourceResult) (due : bool)
    (requestedReserve : Money) (convert : option ConvertToBase) : LiquidityBucketResult :=
  let '(selected, unknownEligible) := foldl (select_step horizon) (None, false) (candidates source due) in
  match selected with
  | None =>
    mkRow None None StatusUnset horizon None None None None None None
      (if unknownEligible then StatusPartial else StatusComplete)
      (if unknownEligible then ["an eligible route has unknown proceeds"] else [])
  | Some selected =>
    match rt_NetNative selected with
    | None => (* unreachable: a chosen route has a net amount *)
      mkRow (Some (routeNativeExact selected)) None (rt_Status selected) horizon (Some selected) None None None None
        None (rt_Status selected) []
    | Some net =>
      let exactNet := routeNativeExact selected in
      let '(mismatch, applied, unreserved, shortfall, reserveExact) :=
        reserve_part net exactNet requestedReserve in
      let reasons :=
        (if mismatch then ["reservation currency does not match the source"] else []) ++
        (if unknownEligible then ["another eligible alternative has unknown proceeds"] else []) in
      let nativeStatus :=
        if mismatch || unknownEligible then StatusPartial else rt_Status selected in
      let row netBase status reasons :=
        mkRow (Some exactNet) reserveExact nativeStatus horizon (Some selected) (Some net) netBase (Some applied)
          (Some unreserved) (Some shortfall) status reasons in
      match convert with
      | None => row None nativeStatus reasons
      | Some convert =>
        match convertLiquidityExact convert exactNet (currency net) with
        | Ok (converted, true) => row converted nativeStatus reasons
        | _ => row None StatusPartial (reasons ++ ["base FX is missing"])
        end
      end
    end
  end.

(** Native completeness is captured before base FX conversion. *)
Definition nativeResultComplete (row : LiquidityBucketResult) : bool :=
  if bool_decide (row_nativeStatus row = StatusUnset)
  then bool_decide (row_Status row = StatusComplete)
  else bool_decide (row_nativeStatus row = StatusComplete).

Definition displayMoney (value : Decimal) (cur : CurrencyCode) : Result Money := NewMoney value cur.

Definition emptyBucketResults (horizons : list string) : list LiquidityBucketResult :=
  (λ h, mkRow None None StatusUnset h None None None None None None StatusComplete ["excluded"]) <$> horizons.
Definition excludedBucketResults (horizons : list string) : list LiquidityBucketResult := emptyBucketResults horizons.
Definition unknownBucketResults (horizons : list string) : list LiquidityBucketResult :=
  (λ h, mkRow None None StatusUnset h None None None None None None StatusUnavailable ["unknown"]) <$> horizons.

(** ** One source *)

(** The fields that [evaluateSource] copies from its source. *)
Definition source_result (source : LiquiditySource) (requested : Money) (origin : PolicyOrigin)
    (policy : option LiquidityPolicy) (contractState : option ProductContractState)
    (display : option ProductDisplayState) (normal early : option LiquidityRoute)
    (rows : list LiquidityBucketResult) (reasons : list string) (assumptions : list LiquidityAssumption)
    (excluded due : bool) : LiquiditySourceResult :=
  mkSourceResult (src_Ref source) (ref_Key (src_Ref source)) (src_AccountID source) (src_ProductID source)
    (src_DisplayName source) (NativeCurrency source) (CurrentNativeValue source) (ValueAsOf source)
    (PriceEvidence source) (FXEvidence source) origin policy contractState display requested normal early rows
    reasons assumptions excluded due.

Definition reservation_requested (source : LiquiditySource) (requested : Money) : Result Money :=
  if bool_decide (currency requested = ""%string) && negb (bool_decide (NativeCurrency source = ""%string))
  then NewMoney dZero (NativeCurrency source) else Ok requested.

Definition due_reason : string := "due — receipt unconfirmed".

Definition evaluateSource (query : LiquidityQuery) (today : string) (horizons : list string)
    (source : LiquiditySource) (requestedReserve : Money) (convert : option ConvertToBase)
    : Result LiquiditySourceResult :=
  requested ← reservation_requested source requestedReserve;
  if Archived source || Liability source || QuantityZero source then
    Ok (source_result source requested OriginUnset None None None None None (emptyBucketResults horizons)
          ["source is archived, a liability, or has zero quantity"] [] true false)
  else
    let '(origin, assumptions, resolved) := ResolveLiquidityPolicy source in
    match resolved with
    | Fail e =>
      if bool_decide (origin = PolicyOriginContract) && Managed source then
        Ok (source_result source requested origin None None None None None (unknownBucketResults horizons)
              ["managed product policy is missing"] assumptions false false)
      else Fail e
    | Ok policy =>
      let state := prod_State <$> Contract source in
      if bool_decide (pol_AccessKind policy = AccessExcluded) then
        Ok (source_result source requested origin (Some policy) state (Some ProductDisplayLocked) None None
              (excludedBucketResults horizons) ["explicitly excluded from short-term access"]
              (appendUniqueAssumption assumptions AssumptionExcludedShortTerm) true false)
      else
        normal ← buildNormalRoute today source policy;
        early ← (if IncludeEarlyWithdrawal query then buildEarlyRoute today source policy else Ok None);
        let due := productReceiptUnconfirmed (Contract source) policy today (Some normal) in
        let result rows :=
          source_result source requested origin (Some policy) state
            (Some (deriveDisplayState source policy today due (Some normal))) (Some normal) early rows
            (if due then [due_reason] else []) (add_if due assumptions AssumptionDueUnconfirmed) false due in
        Ok (result ((λ h, selectRouteForHorizon h (result []) due requestedReserve convert) <$> horizons))
    end.

(** ** The totals of a horizon *)

(** The running totals of one native currency.  The sum of unreserved amounts and
    the sums over all currencies are computed by the source but never read, so
    they have no field here. *)
Record nativeAcc := mkAcc {
  knownAvailable : Decimal; knownReserve : Decimal; acc_complete : bool; acc_hasKnown : bool; acc_unknown : bool }.

Record aggregate := mkAgg {
  ag_native : gmap string nativeAcc; ag_excluded : Z; ag_estimated : Z; ag_unknown : Z;
  baseComplete : bool; baseHasKnown : bool; baseUnknown : bool; baseFXMissing : bool }.

Definition row_at (horizon : string) (source : LiquiditySourceResult) : option LiquidityBucketResult :=
  List.find (λ r, bool_decide (row_HorizonOn r = horizon)) (BucketResults source).

(** One source of the first loop of [aggregateBucket]. *)
Definition aggregate_step (horizon : string) (convert : option ConvertToBase) (st : aggregate)
    (source : LiquiditySourceResult) : Result aggregate :=
  if Excluded source
  then Ok (mkAgg (ag_native st) (ag_excluded st + 1) (ag_estimated st) (ag_unknown st)
             (baseComplete st) (baseHasKnown st) (baseUnknown st) (baseFXMissing st))
  else match row_at horizon source with
  | None => Ok st
  | Some row =>
    let acc := default (mkAcc (dInt 0) (dInt 0) true false false) (ag_native st !! res_NativeCurrency source) in
    let put acc := <[res_NativeCurrency source := acc]> (ag_native st) in
    let estimated := if bool_decide (res_PolicyOrigin source = PolicyOriginAssumed)
                     then ag_estimated st + 1 else ag_estimated st in
    match row_NetNative row with
    | None =>
      if bool_decide (row_Status row = StatusComplete)
      then Ok (mkAgg (put acc) (ag_excluded st) estimated (ag_unknown st)
                 (baseComplete st) (baseHasKnown st) (baseUnknown st) (baseFXMissing st))
      else Ok (mkAgg (put (mkAcc (knownAvailable acc) (knownReserve acc) false (acc_hasKnown acc) true))
                 (ag_excluded st) estimated (ag_unknown st + 1) false (baseHasKnown st) true (baseFXMissing st))
    | Some net =>
      let available := dAdd (knownAvailable acc) (bucketNativeExact row) in
      let reserve := if is_none (AppliedReserveNative row) then knownReserve acc
                     else dAdd (knownReserve acc) (bucketReserveExact row) in
      let incomplete := negb (nativeResultComplete row) in
      let unknown := incomplete && (bool_decide (row_Status row = StatusUnavailable) ||
                                    bool_decide (row_Status row = StatusPartial)) in
      let acc := mkAcc available reserve (acc_complete acc && negb incomplete) true (acc_unknown acc || unknown) in
      let finish missing :=
        Ok (mkAgg (put acc) (ag_excluded st) estimated (ag_unknown st)
              (baseComplete st && negb incomplete && negb missing) true (baseUnknown st || unknown)
              (baseFXMissing st || missing)) in
      match convert with
      | None => finish false
      | Some convert =>
        match convertLiquidityExact convert (bucketNativeExact row) (currency net) with
        | Fail e => Fail e
        | Ok (_, ok) => finish (negb ok)
        end
      end
    end
  end.

Definition initial_aggregate : aggregate := mkAgg ∅ 0 0 0 true false false false.

(** (available, reserve, unreserved) as shown. *)
Definition shown_amounts (available reserve : Decimal) (cur : CurrencyCode) : Result (Money * Money * Money) :=
  available ← displayMoney available cur;
  reserve ← displayMoney reserve cur;
  let unreservedAmount := dSub (amount available) (amount reserve) in
  let unreservedAmount := if dIsNegative unreservedAmount then dZero else unreservedAmount in
  unreserved ← displayMoney unreservedAmount cur;
  Ok (available, reserve, unreserved).

Definition native_group (entry : CurrencyCode * nativeAcc) : Result NativeCurrencyGroup :=
  let '(cur, acc) := entry in
  if acc_hasKnown acc then
    '(available, reserve, unreserved) ← shown_amounts (knownAvailable acc) (knownReserve acc) cur;
    Ok (if acc_complete acc && negb (acc_unknown acc)
        then mkGroup cur StatusComplete (Some available) (Some available) (Some reserve) (Some unreserved)
               (Some unreserved)
        else mkGroup cur StatusPartial None (Some available) (Some reserve) None (Some unreserved))
  else if acc_unknown acc then Ok (mkGroup cur StatusUnavailable None None None None None)
  else
    zero ← NewMoney dZero cur;
    Ok (mkGroup cur StatusComplete (Some zero) (Some zero) (Some zero) (Some zero) (Some zero)).

(** The second loop: (available, reserve, every conversion succeeded, some did). *)
Definition convert_step (horizon : string) (convert : ConvertToBase) (st : Decimal * Decimal * bool * bool)
    (source : LiquiditySourceResult) : Result (Decimal * Decimal * bool * bool) :=
  let '(sumAvailable, sumReserve, convertedOK, hasConverted) := st in
  if Excluded source then Ok st
  else match row_at horizon source with
  | None => Ok st
  | Some row =>
    match row_NetNative row with
    | None => Ok st
    | Some net =>
      match convertLiquidityExact convert (bucketNativeExact row) (currency net) with
      | Fail e => Fail e
      | Ok (Some converted, true) =>
        let sumAvailable := dAdd sumAvailable converted in
        match AppliedReserveNative row with
        | None => Ok (sumAvailable, sumReserve, convertedOK, true)
        | Some reserve =>
          match convertLiquidityExact convert (bucketReserveExact row) (currency reserve) with
          | Fail e => Fail e
          | Ok (Some convertedReserve, true) =>
            Ok (sumAvailable, dAdd sumReserve convertedReserve, convertedOK, true)
          | Ok _ => Ok (sumAvailable, sumReserve, convertedOK, true)
          end
        end
      | Ok _ => Ok (sumAvailable, sumReserve, false, hasConverted)
      end
    end
  end.

Definition no_subtotals : Subtotals := mkSubtotals None None None None None.
Definition zero_subtotals (zero : Money) : Subtotals :=
  mkSubtotals (Some zero) (Some zero) (Some zero) (Some zero) (Some zero).
Definition group_subtotals (g : NativeCurrencyGroup) : Subtotals :=
  mkSubtotals (grp_FullAvailable g) (grp_KnownAvailable g) (grp_AppliedReserve g) (grp_FullUnreserved g)
    (grp_KnownUnreserved g).

(** The status and subtotals when a conversion to the base currency is given. *)
Definition converted_bucket (base : CurrencyCode) (ag : aggregate) (sums : Decimal * Decimal * bool * bool)
    : Result (CompletenessStatus * Subtotals) :=
  let '(sumAvailable, sumReserve, convertedOK, hasConverted) := sums in
  if hasConverted || (negb (baseHasKnown ag) && negb (baseUnknown ag)) then
    '(available, reserve, unreserved) ← shown_amounts sumAvailable sumReserve base;
    Ok (if convertedOK && baseComplete ag && negb (baseFXMissing ag) && negb (baseUnknown ag)
        then (StatusComplete, mkSubtotals (Some available) (Some available) (Some reserve) (Some unreserved)
                                (Some unreserved))
        else (if baseUnknown ag && negb (baseHasKnown ag) && negb convertedOK
              then StatusUnavailable else StatusPartial,
              mkSubtotals None (Some available) (Some reserve) None (Some unreserved)))
  else Ok (if baseUnknown ag && negb (baseHasKnown ag) then StatusUnavailable else StatusPartial, no_subtotals).

(** The status and subtotals from the native sums alone.  The source also notes here
    that a rate is missing, but reads that only when a conversion is given. *)
Definition native_bucket (base : CurrencyCode) (ag : aggregate) (groups : list NativeCurrencyGroup)
    : Result (CompletenessStatus * Subtotals) :=
  let unknown_only := baseUnknown ag && negb (baseHasKnown ag) in
  let nothing := negb (baseHasKnown ag) && negb (baseUnknown ag) in
  let same := match groups with
              | [g] => if bool_decide (grp_Currency g = base) then Some g else None
              | _ => None
              end in
  match same with
  | Some group =>
    if nothing then zero ← NewMoney dZero base; Ok (StatusComplete, zero_subtotals zero)
    else
      let s := group_subtotals group in
      Ok (if unknown_only
          then (StatusUnavailable, mkSubtotals None (KnownAvailableSubtotal s) (AppliedReserveSubtotal s) None
                                     (KnownUnreservedSubtotal s))
          else (grp_Status group, s))
  | None =>
    if baseHasKnown ag then Ok (StatusPartial, no_subtotals)
    else if baseUnknown ag then Ok (StatusUnavailable, no_subtotals)
    else zero ← NewMoney dZero base; Ok (StatusComplete, zero_subtotals zero)
  end.

Definition group_less (a b : NativeCurrencyGroup) : bool := String.ltb (grp_Currency a) (grp_Currency b).

(** The Go map of currencies is visited in an unspecified order; the groups are
    sorted afterwards by a key that is unique, so only the choice of the error
    among several failing currencies could depend on it. *)
Definition aggregateBucket (horizon : string) (base : CurrencyCode) (sources : list LiquiditySourceResult)
    (convert : option ConvertToBase) : Result LiquidityBucket :=
  ag ← foldM (aggregate_step horizon convert) initial_aggregate sources;
  groups ← mapM native_group (map_to_list (ag_native ag));
  let groups := stable_sort group_less groups in
  let bucket status subtotals warnings :=
    mkBucket horizon status subtotals (ag_unknown ag) (ag_excluded ag) (ag_estimated ag) groups warnings in
  match convert with
  | Some convert =>
    sums ← foldM (convert_step horizon convert) (dZero, dZero, true, false) sources;
    '(status, subtotals) ← converted_bucket base ag sums;
    Ok (if baseFXMissing ag
        then bucket (if bool_decide (status = StatusComplete) then StatusPartial else status) subtotals
               ["missing base FX"]
        else bucket status subtotals [])
  | None =>
    '(status, subtotals) ← native_bucket base ag groups;
    Ok (bucket status subtotals [])
  end.

(** ** The overview *)

(** The loop of [assertCumulativeMonotonic]: the last known amounts. *)
Definition not_below (prev : option Decimal) (next : option Money) (message : string) : Result (option Decimal) :=
  match next with
  | None => Ok prev
  | Some m =>
    if match prev with Some p => dLessThan (amount m) p | None => false end
    then Fail (validation "availability" message) else Ok (Some (amount m))
  end.

Definition monotonic_step (st : option Decimal * option Decimal) (bucket : LiquidityBucket)
    : Result (option Decimal * option Decimal) :=
  let s := bkt_Subtotals bucket in
  available ← not_below st.1 (KnownAvailableSubtotal s) "cumulative known available amounts cannot decrease";
  unreserved ← not_below st.2 (KnownUnreservedSubtotal s) "cumulative known unreserved amounts cannot decrease";
  Ok (available, unreserved).

Definition assertCumulativeMonotonic (buckets : list LiquidityBucket) : Result unit :=
  _ ← foldM monotonic_step (None, None) buckets;
  Ok tt.

Definition result_less (a b : LiquiditySourceResult) : bool :=
  if bool_decide (DisplayName a = DisplayName b) then String.ltb (SourceKey a) (SourceKey b)
  else String.ltb (DisplayName a) (DisplayName b).

Definition eligible_source (s : LiquiditySource) : bool :=
  negb (Archived s) && negb (Liability s) && negb (QuantityZero s) && liquiditySourcePositiveOrUnknown s.

Definition eligibleSourceKeys (sources : list LiquiditySource) : gset string :=
  list_to_set ((λ s, ref_Key (src_Ref s)) <$> List.filter eligible_source sources).

Definition unresolved_reason : string := "source is missing, archived, or no longer positive".

(** One reservation: (active amounts by source, unresolved reservations). *)
Definition reservation_step (eligible : gset string) (st : gmap string Money * list UnresolvedReservation)
    (reservation : LiquidityReservation) : Result (gmap string Money * list UnresolvedReservation) :=
  let '(activeBySource, unresolved) := st in
  match rsv_Validate reservation with
  | Fail e => Fail e
  | Ok _ =>
    if negb (rsv_Active reservation) then Ok st
    else
      let key := ref_Key (rsv_Source reservation) in
      if negb (bool_decide (key ∈ eligible))
      then Ok (activeBySource, unresolved ++ [mkUnresolved reservation unresolved_reason])
      else match activeBySource !! key with
      | None => Ok (<[key := rsv_Amount reservation]> activeBySource, unresolved)
      | Some current =>
        match m_add current (rsv_Amount reservation) with
        | Fail e => Fail e
        | Ok sum => Ok (<[key := sum]> activeBySource, unresolved)
        end
      end
  end.

Definition validate_native_amount (source : LiquiditySource) : Result unit :=
  if bool_decide (CurrentNativeAmount source = ""%string) then Ok tt
  else _ ← ParseNativeAmount (CurrentNativeAmount source); Ok tt.

Definition EvaluateLiquidity `{TZ : TimeZones} (query : LiquidityQuery) (sources : list LiquiditySource)
    (reservations : list LiquidityReservation) (convert : option ConvertToBase) : Result LiquidityOverview :=
  '(localDate, timezone) ← LocalCivilDate (lq_AsOf query) (lq_Timezone query);
  horizons ← LiquidityHorizons localDate (CustomHorizonOn query);
  _ ← mapM validate_native_amount sources;
  '(activeBySource, unresolved) ←
    foldM (reservation_step (eligibleSourceKeys sources)) (∅, []) reservations;
  results ← mapM (λ source,
      _ ← ref_Validate (src_Ref source);
      evaluateSource query localDate horizons source
        (default zeroMoney (activeBySource !! ref_Key (src_Ref source))) convert) sources;
  let results := stable_sort result_less results in
  buckets ← mapM (λ horizon, aggregateBucket horizon (lq_BaseCurrency query) results convert) horizons;
  _ ← assertCumulativeMonotonic buckets;
  Ok (mkOverview (lq_AsOf query) localDate timezone (lq_BaseCurrency query)
        [AssumptionCurrentPricesAndFX; AssumptionAssetsOnly; AssumptionOutstandingDebtOmitted]
        buckets results unresolved).

End Evaluate.
