(* ===== verification/LiquidityLaws.v ===== *)
(** * What the liquidity evaluation guarantees

    The identity of a source, the arithmetic of reservations, the choice of a
    route, and the order of the totals over time. *)

From S2P Require Export LiquidityEvaluate.
From S2P Require Import DecimalModel.
From Stdlib Require Import String Ascii.

#[global] Open Scope Z_scope.

(** ** The identity of a source *)

(** What a reference denotes: a holding is the same whatever account is named
    with it. *)
Definition ref_identity (r : LiquiditySourceRef) : LiquiditySourceKind * string * string :=
  match ref_Kind r with
  | SourceHolding => (SourceHolding, default ""%string (ref_HoldingID r), ""%string)
  | SourceAccountValue => (SourceAccountValue, ref_AccountID r, ""%string)
  | SourceAccountCash => (SourceAccountCash, ref_AccountID r, default ""%string (ref_Currency r))
  | SourceKindRaw s => (SourceKindRaw s, ""%string, ""%string)
  end.

Definition named_kind (k : LiquiditySourceKind) : bool :=
  match k with SourceKindRaw _ => false | _ => true end.

Definition no_colon (c : ascii) : bool := negb (Ascii.eqb c ":").

Lemma split_colon a b x y : all_bytes no_colon a = true → all_bytes no_colon b = true →
  (a +:+ String ":" x)%string = (b +:+ String ":" y)%string → a = b ∧ x = y.
Proof.
  revert b. induction a as [|c a IH]; intros [|d b]; rewrite ?str_app_nil, ?str_app_cons;
    cbn [all_bytes]; intros Ha Hb H; prop_bool.
  - split; [done|]. by apply (f_equal (λ s, match s with String _ r => r | _ => s end)) in H.
  - exfalso. pose proof (f_equal (λ s, match s with String e _ => Some e | _ => None end) H) as E.
    cbn in E. injection E as <-. done.
  - exfalso. pose proof (f_equal (λ s, match s with String e _ => Some e | _ => None end) H) as E.
    cbn in E. injection E as ->. done.
  - pose proof (f_equal (λ s, match s with String e _ => Some e | _ => None end) H) as E. cbn in E.
    injection E as ->. apply (f_equal (λ s, match s with String _ r => r | _ => s end)) in H. cbn in H.
    destruct (IH b ltac:(done) ltac:(done) H) as [-> ->]. done.
Qed.

Lemma str_app_cancel p x y : (p +:+ x)%string = (p +:+ y)%string → x = y.
Proof.
  induction p as [|c p IH]; rewrite ?str_app_nil, ?str_app_cons; [done|]. intros H. apply IH.
  by apply (f_equal (λ s, match s with String _ r => r | _ => s end)) in H.
Qed.

(** A reference as the constructors build it from parsed identifiers. *)
Definition ref_ok (r : LiquiditySourceRef) : Prop :=
  ref_Validate r = Ok tt ∧ named_kind (ref_Kind r) = true ∧ uuidPattern (ref_AccountID r) = true.

Lemma uuid_no_colon s : uuidPattern s = true → all_bytes no_colon s = true.
Proof.
  intros H. apply uuidPattern_bytes in H. revert H. apply all_bytes_impl. intros c Hc.
  unfold no_colon. destruct (Ascii.eqb_spec c ":"); [|done]. subst. exact Hc.
Qed.

Lemma kinds_parse k : named_kind k = true → ParseLiquiditySourceKind (LiquiditySourceKind_String k) = Ok k.
Proof. destruct k; [by intros _; vm_compute..|discriminate]. Qed.

(** Two valid source references have the same key exactly when they denote
    the same source: the same kind and account (and currency, for cash), or the same
    holding.  Reservations and sources are matched by this key. *)
Theorem ref_Key_identity a b :
  ref_ok a → ref_ok b → (ref_Key a = ref_Key b ↔ ref_identity a = ref_identity b).
Proof.
  intros (Va & Na & Ua) (Vb & Nb & Ub). unfold ref_Validate in Va, Vb.
  rewrite kinds_parse in Va, Vb by done. apply uuid_no_colon in Ua, Ub.
  unfold ref_Key, ref_identity. destruct a as [ka aa ha ca], b as [kb ab hb cb]. cbn in *.
  destruct ka, kb; try discriminate; (split; [|try discriminate]).
  all: try (intros H; discriminate H).
  - intros H%str_app_cancel. by subst.
  - by intros [= ->].
  - intros H%str_app_cancel. apply split_colon in H as [-> H]; [|done..]. by rewrite H.
  - by intros [= -> ->].
  - intros H%str_app_cancel. by rewrite H.
  - by intros [= ->].
Qed.

Definition sample_uuid : string := "6ba7b810-9dad-11d1-80b4-00c04fd430c8".
Definition other_uuid : string := "6ba7b811-9dad-11d1-80b4-00c04fd430c8".

Lemma ref_Key_identity_witness :
  ref_Key (AccountCashSourceRef sample_uuid "USD") = ref_Key (AccountCashSourceRef sample_uuid "USD") ↔
  ref_identity (AccountCashSourceRef sample_uuid "USD") = ref_identity (AccountCashSourceRef sample_uuid "USD").
Proof. apply ref_Key_identity; repeat split; by vm_compute. Defined.

(** ** Reservations *)

Section Reservations.
Context `{HD : DecimalAPI} {HL : DecimalLaws}.

Lemma munits_mono x y cx cy mx my : NewMoney x cx = Ok mx → NewMoney y cy = Ok my →
  (dval x <= dval y)%Q → munits mx <= munits my.
Proof.
  intros Hx Hy Hle. pose proof (NewMoney_range _ _ _ Hx) as (X0 & X1 & Cx).
  pose proof (NewMoney_range _ _ _ Hy) as (Y0 & Y1 & Cy).
  destruct (NewMoney_rounds x cx _ Cx X0 X1) as (dx & Ex & Xe & Xc).
  destruct (NewMoney_rounds y cy _ Cy Y0 Y1) as (dy & Ey & Ye & Yc).
  rewrite Hx in Ex. rewrite Hy in Ey. injection Ex as ->. injection Ey as ->.
  unfold munits, units, cunits. cbn. rewrite Xe, Xc, Ye, Yc. change (10 ^ (-4 + 4)) with 1. rewrite !Z.mul_1_r.
  apply round_half_even_mono. pose proof (p10_pos 4). nra.
Qed.

Lemma NewMoney_zero cur c : ParseCurrency cur = Ok c →
  ∃ m, NewMoney dZero cur = Ok m ∧ munits m = 0 ∧ currency m = c.
Proof.
  intros Hc. destruct (NewMoney_exact dZero cur c Hc) as (m & E & U & C & _).
  - unfold dZero. rewrite dNew_expo. lia.
  - unfold dZero. rewrite units_new. unfold max_units. lia.
  - exists m. split; [done|]. split; [|done]. rewrite U. unfold dZero. by rewrite units_new.
Qed.

Lemma in_range_money v cur c : ParseCurrency cur = Ok c → (0 <= dval v)%Q → (dval v <= dval maxMoney)%Q →
  ∃ m, NewMoney v cur = Ok m ∧ currency m = c.
Proof.
  intros Hc H0 H1. destruct (NewMoney_rounds v cur c Hc H0 H1) as (d & E & _). rewrite E. eauto.
Qed.

Lemma money_val_range m : Money_ok m → (0 <= dval (amount m))%Q ∧ (dval (amount m) <= dval maxMoney)%Q.
Proof.
  intros (He & [H0 H1] & _). destruct maxMoney_coef as [_ Hme]. split.
  - apply dval_nonneg_coef. unfold munits, units, cunits in H0.
    pose proof (pow10_pos (dExponent (amount m) + 4) ltac:(lia)). nia.
  - apply (units_le 4); [lia|lia|]. by rewrite maxMoney_units.
Qed.

(** Setting money aside from a net amount in range never fails, although
    the source ignores the errors: the reservation takes the smaller of the exact
    amounts, what is shown as applied and as unreserved adds up to the shown net
    amount, and a shortfall is shown only when the request exceeds it.  A request that
    is covered is applied in full; one that is not leaves nothing unreserved. *)
Theorem applyLiquidityReservation_correct net cur c requested :
  ParseCurrency cur = Ok c → (0 <= dval net)%Q → (dval net <= dval maxMoney)%Q → Money_ok requested →
  ∃ shown applied unreserved shortfall exact,
    applyLiquidityReservation net cur requested = (applied, unreserved, shortfall, exact) ∧
    NewMoney net cur = Ok shown ∧ NewMoney exact cur = Ok applied ∧
    ((dval exact == dval net)%Q ∨ (dval exact == dval (amount requested))%Q) ∧
    (dval exact <= dval net)%Q ∧ (dval exact <= dval (amount requested))%Q ∧
    munits applied + munits unreserved = munits shown ∧ 0 <= munits unreserved ∧ 0 <= munits shortfall ∧
    currency applied = c ∧ currency unreserved = c ∧ currency shortfall = c ∧
    ((dval (amount requested) <= dval net)%Q → munits applied = munits requested ∧ munits shortfall = 0) ∧
    ((dval net <= dval (amount requested))%Q → munits unreserved = 0).
Proof.
  intros Hc H0 H1 Hr. destruct (money_val_range _ Hr) as [R0 R1]. destruct Hr as (Re & Ru & Rc).
  destruct (dMin_le net (amount requested)) as [L1 L2].
  assert (X0 : (0 <= dval (dMin net (amount requested)))%Q)
    by (destruct (dMin_arg net (amount requested)) as [->| ->]; done).
  destruct (in_range_money _ _ _ Hc H0 H1) as (shown & Es & Cs).
  destruct (in_range_money _ _ _ Hc X0 (Qle_trans _ _ _ L1 H1)) as (applied & Ea & Ca).
  pose proof (munits_mono _ _ _ _ _ _ Ea Es L1) as Hle.
  pose proof (NewMoney_ok _ _ _ Es) as (Se & Su & _). pose proof (NewMoney_ok _ _ _ Ea) as (Ae & Au & _).
  destruct (NewMoney_exact (dSub (amount shown) (amount applied)) cur c Hc) as (unres & Eu & Uu & Cu & _).
  { rewrite dSub_expo. lia. } { rewrite units_sub by lia. unfold munits in *. lia. }
  rewrite units_sub in Uu by lia. fold (munits shown) (munits applied) in Uu.
  set (gap := dMax (dSub (amount requested) net) dZero).
  destruct (dMax_ge (dSub (amount requested) net) dZero) as [G1 G2]. rewrite dval_dzero in G2. rewrite dSub_val in G1.
  assert (Hgap : (dval gap == dval (amount requested) - dval net)%Q ∨ (dval gap == 0)%Q).
  { unfold gap. destruct (dMax_arg (dSub (amount requested) net) dZero) as [->| ->];
      [left; by rewrite dSub_val|right; apply dval_dzero]. }
  assert (dval gap <= dval maxMoney)%Q as Gm by (destruct Hgap as [->| ->]; lra).
  destruct (in_range_money gap _ _ Hc G2 Gm) as (short & Eg & Cg). fold gap in Eg.
  pose proof (NewMoney_ok _ _ _ Eg) as (_ & Gu & _).
  exists shown, applied, unres, short, (dMin net (amount requested)).
  split. { unfold applyLiquidityReservation. cbn zeta. fold gap. rewrite Ea, Es, Eg. cbn [ignore_err]. by rewrite Eu. }
  split; [done|]. split; [done|].
  split. { destruct (dMin_arg net (amount requested)) as [->| ->]; [left|right]; reflexivity. }
  split; [done|]. split; [done|]. split; [lia|]. split; [lia|]. split; [lia|].
  split; [done|]. split; [done|]. split; [done|]. split.
  - intros Hcov. split.
    + apply (NewMoney_exact (amount requested) cur c Hc) in Ru as (m & Em & Um & _); [|done].
      change (munits m = munits requested) in Um. rewrite <-Um.
      assert (dval (dMin net (amount requested)) == dval (amount requested))%Q as E.
      { destruct (dMin_arg net (amount requested)) as [E'|E']; rewrite E' in *; lra. }
      apply Z.le_antisymm; [apply (munits_mono _ _ _ _ _ _ Ea Em)|apply (munits_mono _ _ _ _ _ _ Em Ea)]; lra.
    + destruct (NewMoney_zero _ _ Hc) as (z & Ez & Uz & _). apply Z.le_antisymm; [|lia]. rewrite <-Uz.
      apply (munits_mono _ _ _ _ _ _ Eg Ez). rewrite dval_dzero. destruct Hgap as [->| ->]; lra.
  - intros Hex. rewrite Uu. enough (munits shown <= munits applied) by lia.
    apply (munits_mono _ _ _ _ _ _ Es Ea).
    destruct (dMin_arg net (amount requested)) as [E'|E']; rewrite E' in *; lra.
Qed.

End Reservations.

Definition sample_money (units : Z) (cur : CurrencyCode) : Money := mkMoney (dNew units (-4)) cur.

Lemma applyLiquidityReservation_correct_witness :
  ∃ shown applied unreserved shortfall exact,
    applyLiquidityReservation (dNew 105005 (-5)) "USD" (sample_money 20000 "USD") =
      (applied, unreserved, shortfall, exact) ∧
    NewMoney (dNew 105005 (-5)) "USD" = Ok shown ∧ munits applied + munits unreserved = munits shown ∧
    munits unreserved = 0.
Proof.
  destruct (applyLiquidityReservation_correct (dNew 105005 (-5)) "USD" "USD" (sample_money 20000 "USD"))
    as (s & a & u & g & x & E & Es & _ & _ & _ & _ & S & _ & _ & _ & _ & _ & _ & U).
  - by vm_compute.
  - done.
  - done.
  - split; [done|]. split; [done|by vm_compute].
  - exists s, a, u, g, x. split; [done|]. split; [done|]. split; [done|]. apply U. done.
Defined.

(** ** The choice of a route *)

Lemma compareCivilDates_pos s t : (0 <? compareCivilDates s t) = String.ltb t s.
Proof.
  unfold compareCivilDates, String.ltb. rewrite (String.compare_antisym s t).
  by destruct (String.compare t s).
Qed.

Section Selection.
Context `{HD : DecimalAPI} {HL : DecimalLaws}.

Definition net_value (r : LiquidityRoute) : Q := dval (routeNativeExact r).

(** The route can be started and its money received by the horizon, and the amount
    is known. *)
Definition admissible (horizon : string) (r : LiquidityRoute) : Prop :=
  match rt_EligibleOn r with Some e => sle e horizon | None => True end ∧
  match rt_ReceiptOn r with Some d => sle d horizon | None => False end ∧
  rt_NetNative r ≠ None.

Definition best_of (horizon : string) (rs : list LiquidityRoute) (selected : option LiquidityRoute) : Prop :=
  match selected with
  | None => ∀ r, r ∈ rs → ¬ admissible horizon r
  | Some s => s ∈ rs ∧ admissible horizon s ∧
      ∀ r, r ∈ rs → admissible horizon r →
        (net_value r <= net_value s)%Q ∧
        ((net_value r == net_value s)%Q → rt_Kind r = RouteNormal → rt_Kind s = RouteNormal)
  end.

Lemma best_skip h rs sel r : ¬ admissible h r → best_of h rs sel → best_of h (rs ++ [r]) sel.
Proof.
  intros Hn. destruct sel as [s|]; cbn.
  - intros (Hin & Ha & Hall). split; [apply elem_of_app; by left|]. split; [done|].
    intros r' [Hr|Hr%list_elem_of_singleton]%elem_of_app; [by apply Hall|by subst].
  - intros Hb r' [Hr|Hr%list_elem_of_singleton]%elem_of_app; [by apply Hb|by subst].
Qed.

Lemma best_keep h rs s r :
  best_of h rs (Some s) → (net_value r <= net_value s)%Q →
  ((net_value r == net_value s)%Q → rt_Kind r = RouteNormal → rt_Kind s = RouteNormal) →
  best_of h (rs ++ [r]) (Some s).
Proof.
  intros (Hin & Ha & Hb) Hle Hk. split; [apply elem_of_app; by left|]. split; [done|].
  intros r' [Hr|Hr%list_elem_of_singleton]%elem_of_app; [by apply Hb|by subst].
Qed.

Lemma best_take h rs sel r :
  best_of h rs sel → admissible h r →
  (∀ s, sel = Some s → (net_value s <= net_value r)%Q ∧
        ((net_value s == net_value r)%Q → rt_Kind s = RouteNormal → rt_Kind r = RouteNormal)) →
  best_of h (rs ++ [r]) (Some r).
Proof.
  intros Hb Ha Hs. split; [apply elem_of_app; right; by apply list_elem_of_singleton|]. split; [done|].
  intros r' [Hr|Hr%list_elem_of_singleton]%elem_of_app Ha'; [|subst; split; [apply Qle_refl|done]].
  destruct sel as [s|]; [|by destruct (Hb r' Hr)].
  destruct Hb as (_ & _ & Hb). destruct (Hb r' Hr Ha') as [H1 H2]. destruct (Hs s eq_refl) as [H3 H4].
  split; [lra|]. intros E Hk. apply H4; [lra|]. apply H2; [lra|done].
Qed.

Lemma select_step_best h rs st r :
  best_of h rs st.1 → best_of h (rs ++ [r]) (select_step h st r).1.
Proof.
  destruct st as [sel unk]. cbn [fst]. intros Hb. unfold select_step.
  destruct (match rt_EligibleOn r with Some e => String.ltb h e | None => false end) eqn:Ee.
  { apply best_skip; [|done]. intros (H & _). destruct (rt_EligibleOn r); [|done].
    unfold sle in H. congruence. }
  destruct (rt_ReceiptOn r) as [d|] eqn:Er; cbn [fst].
  2:{ apply best_skip; [|done]. intros (_ & H & _). by rewrite Er in H. }
  rewrite compareCivilDates_pos. destruct (String.ltb h d) eqn:Ed; cbn [fst].
  { apply best_skip; [|done]. intros (_ & H & _). rewrite Er in H. unfold sle in H. congruence. }
  destruct (rt_NetNative r) as [m|] eqn:Em; cbn [is_none fst].
  2:{ apply best_skip; [|done]. intros (_ & _ & H). by rewrite Em in H. }
  assert (Ha : admissible h r).
  { unfold admissible. rewrite Er, Em. split; [|done]. destruct (rt_EligibleOn r); done. }
  destruct sel as [s|]; cbn [fst]; [|apply (best_take _ _ None); [done|done|intros ? [=]]].
  destruct (dGreaterThan (routeNativeExact r) (routeNativeExact s)) eqn:Eg.
  { apply dGreaterThan_val in Eg. cbn [fst]. apply (best_take _ _ (Some s)); [done|done|].
    intros ? [= <-]. unfold net_value. split; [lra|]. intros; lra. }
  apply greater_false in Eg. fold (net_value r) (net_value s) in Eg.
  destruct (dEqual (routeNativeExact r) (routeNativeExact s)) eqn:Eq; cbn [fst].
  2:{ apply best_keep; [done|done|]. intros E. exfalso. rewrite (proj2 (dEqual_val _ _)) in Eq; done. }
  apply dEqual_val in Eq. fold (net_value r) (net_value s) in Eq.
  destruct (bool_decide (rt_Kind r = RouteNormal)) eqn:Kr, (bool_decide (rt_Kind s = RouteNormal)) eqn:Ks;
    prop_bool; cbn [andb negb].
  all: try match goal with |- context [if ?b then (Some _, _) else _] => destruct b eqn:Et end; prop_bool; cbn [fst].
  all: first [ apply best_keep; [done|done|intuition congruence]
             | apply (best_take _ _ (Some s)); [done|done|intros ? [= <-]; split; [lra|intuition congruence]] ].
Qed.

Lemma select_best h rs : best_of h rs (foldl (select_step h) (None, false) rs).1.
Proof.
  induction rs as [|r rs IH] using rev_ind.
  - intros r Hr. by apply not_elem_of_nil in Hr.
  - rewrite foldl_app. cbn [foldl]. by apply select_step_best.
Qed.

(** The route chosen for a horizon is one of the candidates, can be started
    and paid out by the horizon, and no such route yields more; between equal amounts
    the normal route is preferred.  No route is chosen exactly when none is ready. *)
Theorem selectRouteForHorizon_best h source due requested convert :
  best_of h (candidates source due) (SelectedRoute (selectRouteForHorizon h source due requested convert)).
Proof.
  pose proof (select_best h (candidates source due)) as Hb. unfold selectRouteForHorizon.
  destruct (foldl _ _ _) as [sel unk]. cbn [fst] in Hb. destruct sel as [s|]; [|done].
  destruct Hb as (Hin & Ha & Hb). destruct (rt_NetNative s) as [net|] eqn:En; [|by destruct Ha as (_ & _ & ?)].
  destruct (reserve_part _ _ _) as [[[[? ?] ?] ?] ?].
  destruct convert as [cv|]; [|done]. destruct (convertLiquidityExact _ _ _) as [[? []]|]; done.
Qed.
End Selection.
