(* ===== verification/LiquidityOrder.v ===== *)
(** * Availability over time

    The amounts that a source offers never decrease from one horizon to a later one,
    and neither do the totals that the evaluation shows, whatever the conversion to
    the base currency, as long as it is monotone. *)

From S2P Require Export LiquidityLaws.
From S2P Require Import DecimalModel.
From Stdlib Require Import String Ascii Sorted.

#[global] Open Scope Z_scope.

Lemma StronglySorted_Forall2 {A B} (R : A → A → Prop) (Q : B → B → Prop) (P : A → B → Prop) l k :
  Forall2 P l k → StronglySorted R l →
  (∀ x y a b, x ∈ l → y ∈ l → R x y → P x a → P y b → Q a b) → StronglySorted Q k.
Proof.
  induction 1 as [|x a l k Hxa HF IH]; intros Hs Hq; [constructor|].
  apply StronglySorted_inv in Hs as [Hs Hx]. constructor.
  - apply IH; [done|]. intros y z b c Hy Hz. apply Hq; by right.
  - apply Forall_forall. intros b Hb. apply list_elem_of_lookup in Hb as [i Hi].
    destruct (Forall2_lookup_r _ _ _ _ _ HF Hi) as (y & Hy & Hyb). apply list_elem_of_lookup_2 in Hy.
    apply (Hq x y); [by left|by right| |done..]. by apply (proj1 (Forall_forall _ _) Hx).
Qed.

Section Order.
Context `{HD : DecimalAPI} {HL : DecimalLaws}.

(** ** Rows *)

Lemma admissible_later h1 h2 r : sle h1 h2 → admissible h1 r → admissible h2 r.
Proof.
  intros Hle (He & Hr & Hn). split; [|split; [|done]].
  - destruct (rt_EligibleOn r); [by etrans|done].
  - destruct (rt_ReceiptOn r); [by etrans|done].
Qed.

Lemma best_later h1 h2 rs s1 o2 : sle h1 h2 → best_of h1 rs (Some s1) → best_of h2 rs o2 →
  ∃ s2, o2 = Some s2 ∧ (net_value s1 <= net_value s2)%Q.
Proof.
  intros Hle (Hin & Ha & _) H2. apply (admissible_later _ h2) in Ha; [|done].
  destruct o2 as [s2|]; [|by destruct (H2 s1 Hin)].
  destruct H2 as (_ & _ & Hb). exists s2. split; [done|]. by apply Hb.
Qed.

Lemma select_row h source due requested convert :
  let row := selectRouteForHorizon h source due requested convert in
  row_HorizonOn row = h ∧ row_NetNative row = SelectedRoute row ≫= rt_NetNative ∧
  ∀ s, SelectedRoute row = Some s → bucketNativeExact row = routeNativeExact s.
Proof.
  cbn zeta. unfold selectRouteForHorizon. destruct (foldl _ _ _) as [[s|] unk]; [|done].
  destruct (rt_NetNative s) as [net|] eqn:En.
  - destruct (reserve_part _ _ _) as [[[[? ?] ?] ?] ?]. destruct convert as [cv|].
    + destruct (convertLiquidityExact _ _ _) as [[? []]|]; cbn [row_HorizonOn row_NetNative SelectedRoute mbind
        option_bind]; rewrite En; (split; [done|]; split; [done|]; by intros ? [= <-]).
    + cbn. rewrite En. split; [done|]. split; [done|]. by intros ? [= <-].
  - cbn. rewrite En. split; [done|]. split; [done|]. by intros ? [= <-].
Qed.

(** A route as the builders leave it: the shown net amount rounds the exact one. *)
Definition route_ok (cur : CurrencyCode) (r : LiquidityRoute) : Prop :=
  ∀ m, rt_NetNative r = Some m → currency m = cur ∧ ∃ d, rt_netExact r = Some d ∧ NewMoney d cur = Ok m.

Lemma route_ok_nonneg cur r m : route_ok cur r → rt_NetNative r = Some m → (0 <= net_value r)%Q.
Proof.
  intros Hr Hm. destruct (Hr m Hm) as (_ & d & Ed & En). unfold net_value, routeNativeExact.
  rewrite Ed. by apply (NewMoney_range _ _ _ En).
Qed.

(** The rows of one source at an earlier and a later horizon. *)
Definition row_grows (cur : CurrencyCode) (row1 row2 : LiquidityBucketResult) : Prop :=
  (∀ m, row_NetNative row1 = Some m → currency m = cur ∧ (0 <= dval (bucketNativeExact row1))%Q ∧
     row_NetNative row2 ≠ None ∧ (dval (bucketNativeExact row1) <= dval (bucketNativeExact row2))%Q) ∧
  (∀ m, row_NetNative row2 = Some m → currency m = cur ∧ (0 <= dval (bucketNativeExact row2))%Q).

Lemma select_grows h1 h2 cur source due requested convert : sle h1 h2 →
  (∀ r, r ∈ candidates source due → route_ok cur r) →
  row_grows cur (selectRouteForHorizon h1 source due requested convert)
                (selectRouteForHorizon h2 source due requested convert).
Proof.
  intros Hle Hok.
  pose proof (selectRouteForHorizon_best h1 source due requested convert) as B1.
  pose proof (selectRouteForHorizon_best h2 source due requested convert) as B2.
  destruct (select_row h1 source due requested convert) as (_ & N1 & X1).
  destruct (select_row h2 source due requested convert) as (_ & N2 & X2).
  set (row1 := selectRouteForHorizon h1 _ _ _ _) in *. set (row2 := selectRouteForHorizon h2 _ _ _ _) in *.
  clearbody row1 row2.
  assert (Hval : ∀ row h, best_of h (candidates source due) (SelectedRoute row) →
     row_NetNative row = SelectedRoute row ≫= rt_NetNative →
     (∀ s, SelectedRoute row = Some s → bucketNativeExact row = routeNativeExact s) →
     ∀ m, row_NetNative row = Some m → currency m = cur ∧ (0 <= dval (bucketNativeExact row))%Q).
  { intros row h B N X m Hm. rewrite N in Hm. destruct (SelectedRoute row) as [s|]; [|done].
    rewrite (X s eq_refl). cbn in Hm. destruct B as (Hin & _). specialize (Hok s Hin).
    split; [by apply (Hok m)|by apply (route_ok_nonneg cur s m)]. }
  split; [|by apply (Hval row2 h2)]. intros m Hm. destruct (Hval row1 h1 B1 N1 X1 m Hm) as [Hc H0].
  split; [done|]. split; [done|].
  rewrite N1 in Hm. destruct (SelectedRoute row1) as [s1|]; [|done].
  destruct (best_later h1 h2 _ s1 _ Hle B1 B2) as (s2 & E2 & Hnet).
  rewrite N2, E2 in *. rewrite (X1 s1 eq_refl), (X2 s2 eq_refl).
  destruct B2 as (_ & (_ & _ & Hn) & _). split; [exact Hn|exact Hnet].
Qed.

Definition grows (horizons : list string) (s : LiquiditySourceResult) : Prop :=
  Excluded s = true ∨
  ∀ h1 h2, h1 ∈ horizons → h2 ∈ horizons → sle h1 h2 →
    ∃ row1 row2, row_at h1 s = Some row1 ∧ row_at h2 s = Some row2 ∧ row_grows (res_NativeCurrency s) row1 row2.

Lemma find_row (f : string → LiquidityBucketResult) horizons h :
  (∀ h, row_HorizonOn (f h) = h) → h ∈ horizons →
  List.find (λ r, bool_decide (row_HorizonOn r = h)) (f <$> horizons) = Some (f h).
Proof.
  intros Hf. induction horizons as [|x l IH]; intros Hin; [by apply not_elem_of_nil in Hin|].
  cbn. rewrite Hf. case_bool_decide as E; [by subst|]. apply IH.
  apply elem_of_cons in Hin as [->|]; done.
Qed.

(** ** The routes of a source *)

(** Every amount of the source is in its native currency. *)
Definition in_currency (cur : CurrencyCode) (o : option Money) : Prop := ∀ m, o = Some m → currency m = cur.

Definition one_currency (s : LiquiditySource) : Prop :=
  let cur := NativeCurrency s in
  currency_ok cur = true ∧ in_currency cur (CurrentNativeValue s) ∧
  in_currency cur (ExplicitPolicy s ≫= AccessibleAmountCap) ∧
  in_currency cur (ExplicitPolicy s ≫= EarlyGrossAmount) ∧ in_currency cur (prod_Principal <$> Contract s).

Definition policy_in (cur : CurrencyCode) (p : LiquidityPolicy) : Prop :=
  in_currency cur (AccessibleAmountCap p) ∧ in_currency cur (EarlyGrossAmount p).

Lemma attach_policy_in cur p o c : policy_in cur p → policy_in cur (attachAssumedZeroExitFee p o c).
Proof.
  unfold attachAssumedZeroExitFee. intros H. destruct (_ || _); [done|]. destruct (_ || _); [done|].
  by destruct (NewMoney dZero c).
Qed.

Lemma default_policy_in cur t m k b : policy_in cur (DefaultLiquidityPolicy t m k b).1.1.
Proof.
  unfold DefaultLiquidityPolicy.
  repeat match goal with |- context [if ?b then _ else _] => destruct b end; by split.
Qed.

Lemma resolve_policy_in s o a p :
  one_currency s → ResolveLiquidityPolicy s = (o, a, Ok p) → policy_in (NativeCurrency s) p.
Proof.
  intros (_ & _ & Hcap & Hearly & _). unfold ResolveLiquidityPolicy.
  destruct (ExplicitPolicy s) as [q|]; cbn in Hcap, Hearly.
  - destruct (Managed s), (pol_Validate q _); intros [= <- <- <-]; by split.
  - destruct (Managed s); [discriminate|].
    pose proof (default_policy_in (NativeCurrency s) (src_AccountType s) (src_TrackingMode s)
      (ref_Kind (src_Ref s)) false) as Hd.
    destruct (DefaultLiquidityPolicy _ _ _ _) as [[q qo] qa]. cbn [fst] in Hd.
    destruct (_ && _); intros [= <- <- <-]; by apply attach_policy_in.
Qed.

Lemma cap_in cur g cap : currency g = cur → in_currency cur cap → currency (cap_gross g cap) = cur.
Proof. intros Hg Hc. destruct cap as [c|]; cbn; [destruct (dLessThan _ _)|]; auto. Qed.

Lemma fmap_cap_in cur o cap : in_currency cur o → in_currency cur cap →
  in_currency cur ((λ g, cap_gross g cap) <$> o).
Proof. intros Ho Hc m Hm. apply fmap_Some in Hm as (g & -> & ->). apply cap_in; [by apply Ho|done]. Qed.

Lemma m_add_currency a b t : m_add a b = Ok t → currency_ok (currency a) = true → currency t = currency a.
Proof.
  unfold m_add. intros H Hc. inv_ok. destruct (NewMoney_range _ _ _ H) as (_ & _ & E).
  rewrite ParseCurrency_id in E by done. by injection E as <-.
Qed.

Lemma normalGross_in s p g basis : one_currency s → policy_in (NativeCurrency s) p →
  normalGross s p = Ok (Some g, basis) → currency g = NativeCurrency s.
Proof.
  intros (Hok & Hv & _ & _ & Hp) [Hcap _]. unfold normalGross. destruct (Contract s) as [c|].
  - destruct (_ && _); [|intros [= E _]; by apply (fmap_cap_in _ _ _ Hv Hcap)].
    unfold ForecastGrossProceeds. destruct (bool_decide _); [discriminate|]. intros H. inv_ok. simplify_eq.
    specialize (Hp _ eq_refl). rewrite <-Hp. eapply m_add_currency; [done|by rewrite Hp].
  - intros [= E _]. by apply (fmap_cap_in _ _ _ Hv Hcap).
Qed.

Lemma earlyGross_in s p g basis : one_currency s → policy_in (NativeCurrency s) p →
  earlyGross s p = Ok (Some g, basis) → currency g = NativeCurrency s.
Proof.
  intros (Hok & Hv & _ & _ & Hp) [Hcap He]. unfold earlyGross.
  assert (Hc : in_currency (NativeCurrency s) (if Managed s then None else AccessibleAmountCap p))
    by (destruct (Managed s); [intros ? [=]|done]).
  destruct (bool_decide _); intros [= E _]; [by apply (fmap_cap_in _ _ _ He Hc)|by apply (fmap_cap_in _ _ _ Hv Hc)].
Qed.

Lemma fee_route_ok s p basis gross fee r :
  currency_ok (currency gross) = true → applyLiquidityFee s p basis gross fee = Ok r → fee_unknown r = false →
  ∃ d net, fee_exact r = Some d ∧ fee_net r = Some net ∧ currency net = currency gross ∧
           NewMoney d (currency gross) = Ok net.
Proof.
  unfold applyLiquidityFee. intros Hc H Hu. inv_ok. destruct fee as [f|]; [|inv_ok; by subst].
  destruct (negb (bool_decide (currency f = currency gross))); [inv_ok; by subst|]. inv_ok. cbn in *.
  match goal with E : NewMoney _ _ = Ok ?n |- _ => exists (if dIsNegative (dSub x (amount f)) then dZero
    else dSub x (amount f)), n; destruct (NewMoney_range _ _ _ E) as (_ & _ & Ec);
    rewrite ParseCurrency_id in Ec by done; injection Ec as Ec end. by subst.
Qed.

Lemma no_net_ok cur k e r g s b a l m : route_ok cur (mkRoute None k e r g None None s b a l m).
Proof. by intros ? [=]. Qed.
Hint Resolve no_net_ok : core.

Lemma normal_route_ok today s p r : one_currency s → policy_in (NativeCurrency s) p →
  buildNormalRoute today s p = Ok r → route_ok (NativeCurrency s) r.
Proof.
  intros Hone Hp. unfold buildNormalRoute. destruct (bool_decide _); [intros H; inv_ok; auto|].
  destruct (actionEligibleOn _ _ _ _) as [a [eligible|]]; [|intros H; inv_ok; auto].
  destruct (receiptOn _ _ _ _) as [b [receipt|]]; [|intros H; inv_ok; auto].
  intros H. inv_ok. destruct x as [[g|] basis]; [|inv_ok; auto]. inv_ok.
  match goal with E : normalGross _ _ = _ |- _ => pose proof (normalGross_in _ _ _ _ Hone Hp E) as Hg end.
  match goal with E : applyLiquidityFee _ _ _ _ _ = Ok ?f |- _ => destruct (fee_unknown f) eqn:Eu; inv_ok; [auto|];
    apply fee_route_ok in E as (d & net & Ed & En & Hc & Hm); [|by rewrite Hg; apply Hone|done] end.
  rewrite Hg in *. intros m. cbn. rewrite En, Ed. intros [= <-]. eauto.
Qed.

Lemma early_route_ok today s p r : one_currency s → policy_in (NativeCurrency s) p →
  buildEarlyRoute today s p = Ok (Some r) → route_ok (NativeCurrency s) r.
Proof.
  intros Hone Hp. unfold buildEarlyRoute. destruct (bool_decide _); [discriminate|].
  destruct (matured_deposit s today); [discriminate|].
  destruct (actionEligibleOn _ _ _ _) as [a [eligible|]]; [|intros [= <-]; auto].
  destruct (matured_deposit s eligible); [discriminate|].
  destruct (bool_decide _); [intros [= <-]; auto|].
  destruct (receiptOn _ _ _ _) as [b [receipt|]]; [|intros [= <-]; auto].
  intros H. inv_ok. destruct x as [[g|] basis]; [|injection H as <-; auto]. inv_ok.
  match goal with E : earlyGross _ _ = _ |- _ => pose proof (earlyGross_in _ _ _ _ Hone Hp E) as Hg end.
  match goal with E : applyLiquidityFee _ _ _ _ _ = Ok ?f |- _ =>
    destruct (fee_unknown f) eqn:Eu; injection H as <-; [auto|];
    apply fee_route_ok in E as (d & net & Ed & En & Hc & Hm); [|by rewrite Hg; apply Hone|done] end.
  rewrite Hg in *. intros m. cbn. rewrite En, Ed. intros [= <-]. eauto.
Qed.

(** No row of an unknown or excluded source has an amount. *)
Lemma const_grows cur (f : string → LiquidityBucketResult) horizons h1 h2 :
  (∀ h, row_HorizonOn (f h) = h ∧ row_NetNative (f h) = None) → h1 ∈ horizons → h2 ∈ horizons →
  ∃ row1 row2, List.find (λ r, bool_decide (row_HorizonOn r = h1)) (f <$> horizons) = Some row1 ∧
    List.find (λ r, bool_decide (row_HorizonOn r = h2)) (f <$> horizons) = Some row2 ∧ row_grows cur row1 row2.
Proof.
  intros Hf H1 H2. exists (f h1), (f h2).
  rewrite !find_row by (intros; apply Hf || done). split; [done|]. split; [done|].
  unfold row_grows. rewrite (proj2 (Hf h1)), (proj2 (Hf h2)). by split; intros ? [=].
Qed.

Lemma candidates_ok cur (normal : LiquidityRoute) early s due :
  NormalRoute s = Some normal → EarlyRoute s = early → route_ok cur normal →
  (∀ r, early = Some r → route_ok cur r) → ∀ r, r ∈ candidates s due → route_ok cur r.
Proof.
  intros En Ee Hn He r. unfold candidates. rewrite En, Ee, elem_of_app. intros [Hr|Hr].
  - destruct due; [by apply not_elem_of_nil in Hr|]. by apply list_elem_of_singleton in Hr as ->.
  - destruct early as [e|]; cbn in Hr; [|by apply not_elem_of_nil in Hr].
    apply list_elem_of_singleton in Hr as ->. by apply He.
Qed.

Lemma evaluateSource_grows query today horizons s requested convert r :
  one_currency s → evaluateSource query today horizons s requested convert = Ok r → grows horizons r.
Proof.
  intros Hone. unfold evaluateSource. intros H. inv_ok. destruct (_ || _ || _).
  { inv_ok. by left. }
  destruct (ResolveLiquidityPolicy s) as [[origin assumptions] [policy|e]] eqn:Er.
  2:{ destruct (_ && _); [|discriminate]. inv_ok. right. intros h1 h2 H1 H2 _. unfold row_at. cbn.
      by apply const_grows. }
  apply resolve_policy_in in Er; [|done]. destruct (bool_decide _); [inv_ok; by left|]. inv_ok. right.
  intros h1 h2 H1 H2 Hle. unfold row_at. cbn [BucketResults source_result].
  match goal with |- context [?F <$> horizons] => exists (F h1), (F h2) end.
  rewrite !find_row by (done || intros; apply select_row). split; [done|]. split; [done|].
  cbn [res_NativeCurrency source_result].
  match goal with E : buildNormalRoute _ _ _ = Ok _ |- _ => pose proof (normal_route_ok _ _ _ _ Hone Er E) as Hn end.
  apply select_grows; [done|]. eapply candidates_ok; [done|done|done|].
  intros e He. cbn in He. subst. destruct (IncludeEarlyWithdrawal query); [by eapply early_route_ok|discriminate].
Qed.

(** ** Totals *)

(** What the theorems need of the conversion: whether a rate is known depends on the
    currency only, and a larger amount is never worth less.  A linear conversion under
    one fixed snapshot, which the source asks for, is one such; errors are allowed. *)
Record monotone_conversion (convert : ConvertToBase) : Prop := {
  mc_known c : (∀ d r, convert d c = Ok r → ∃ x, r = (Some x, true)) ∨
               (∀ d r, convert d c = Ok r → r = (None, false));
  mc_le c a b x y : convert a c = Ok (Some x, true) → convert b c = Ok (Some y, true) →
    (dval a <= dval b)%Q → (dval x <= dval y)%Q;
  mc_nonneg c a x : convert a c = Ok (Some x, true) → (0 <= dval a)%Q → (0 <= dval x)%Q }.

(** A table of rates, zero rates included, is monotone. *)
Definition rate_conversion (rate : CurrencyCode → option Decimal) : ConvertToBase := λ d c,
  match rate c with Some q => Ok (Some (dMul d q), true) | None => Ok (None, false) end.

Lemma rate_conversion_monotone rate :
  (∀ c q, rate c = Some q → (0 <= dval q)%Q) → monotone_conversion (rate_conversion rate).
Proof.
  intros Hr. unfold rate_conversion. split; intros c.
  - destruct (rate c); [left|right]; intros x r [= <-]; [by eexists|done].
  - specialize (Hr c). destruct (rate c) as [q|]; [|discriminate]. specialize (Hr q eq_refl).
    intros a b x y [= <-] [= <-] H. rewrite !dMul_val. by apply Qmult_le_compat_r.
  - specialize (Hr c). destruct (rate c) as [q|]; [|discriminate]. specialize (Hr q eq_refl).
    intros a x [= <-] H. rewrite dMul_val. by apply Qmult_le_0_compat.
Qed.

(** What a conversion adds to the total. *)
Definition contribution (r : option Decimal * bool) : Q :=
  match r with (Some x, true) => dval x | _ => 0%Q end.

Lemma converted_grows cv c a b ra rb : monotone_conversion cv →
  (0 <= dval a)%Q → (dval a <= dval b)%Q →
  convertLiquidityExact cv a c = Ok ra → convertLiquidityExact cv b c = Ok rb →
  (0 <= contribution ra)%Q ∧ (contribution ra <= contribution rb)%Q.
Proof.
  intros [Hk Hle Hnn] H0 Hab. unfold convertLiquidityExact.
  assert (Hb : ∀ d r, (0 <= dval d)%Q → cv d c = Ok r → (0 <= contribution r)%Q).
  { intros d [[x|] []] Hd E; cbn; [by apply (Hnn c d)|lra..]. }
  destruct (dIsZero a) eqn:Za, (dIsZero b) eqn:Zb.
  - intros [= <-] [= <-]. cbn. rewrite dval_dzero. lra.
  - intros [= <-] E. cbn. rewrite dval_dzero. split; [lra|]. apply (Hb b); [lra|done].
  - apply dIsZero_val in Zb. apply iszero_false in Za. intros. exfalso. apply Za. lra.
  - intros Ea Eb. split; [by apply (Hb a)|]. destruct (Hk c) as [K|K].
    + destruct (K _ _ Ea) as (x & ->). destruct (K _ _ Eb) as (y & ->). by apply (Hle c a b).
    + rewrite (K _ _ Ea), (K _ _ Eb). cbn. lra.
Qed.

Definition acc_at (st : aggregate) (c : CurrencyCode) : nativeAcc :=
  default (mkAcc (dInt 0) (dInt 0) true false false) (ag_native st !! c).

Definition acc_le (a b : nativeAcc) : Prop :=
  (0 <= dval (knownAvailable a))%Q ∧ (dval (knownAvailable a) <= dval (knownAvailable b))%Q ∧
  (acc_hasKnown a = true → acc_hasKnown b = true).

Definition aggregate_le (s t : aggregate) : Prop :=
  (baseHasKnown s = true → baseHasKnown t = true) ∧ ∀ c, acc_le (acc_at s c) (acc_at t c).

(** One step of the first loop, seen from the totals. *)
Definition native_at (h : string) (s : LiquiditySourceResult) : option Q :=
  if Excluded s then None else row ← row_at h s; _ ← row_NetNative row; Some (dval (bucketNativeExact row)).

Lemma aggregate_step_known h cv st s st' : aggregate_step h cv st s = Ok st' →
  baseHasKnown st' = baseHasKnown st || negb (is_none (native_at h s)) ∧
  ∀ c, if bool_decide (c = res_NativeCurrency s)
       then (dval (knownAvailable (acc_at st' c)) ==
             dval (knownAvailable (acc_at st c)) + default 0%Q (native_at h s))%Q ∧
            acc_hasKnown (acc_at st' c) = acc_hasKnown (acc_at st c) || negb (is_none (native_at h s))
       else acc_at st' c = acc_at st c.
Proof.
  unfold aggregate_step, native_at. destruct (Excluded s).
  { intros H. inv_ok. cbn. rewrite orb_false_r. split; [done|]. intros c. unfold acc_at. cbn.
    rewrite orb_false_r. case_bool_decide; [|done]. split; [ring|done]. }
  destruct (row_at h s) as [row|]; cbn [mbind option_bind].
  2:{ intros H. inv_ok. cbn. rewrite orb_false_r. split; [done|]. intros c. rewrite orb_false_r.
      case_bool_decide; [|done]. split; [ring|done]. }
  assert (Hput : ∀ m acc c, default (mkAcc (dInt 0) (dInt 0) true false false)
      (<[res_NativeCurrency s:=acc]> m !! c) = if decide (c = res_NativeCurrency s) then acc
      else default (mkAcc (dInt 0) (dInt 0) true false false) ((m : gmap string nativeAcc) !! c)).
  { intros m acc c. destruct (decide _) as [->|E]; [by rewrite lookup_insert_eq|].
    by rewrite lookup_insert_ne. }
  destruct (row_NetNative row) as [net|]; cbn [mbind option_bind default is_none negb].
  - intros H. assert (∃ b1 b2 b3, st' = mkAgg
      (<[res_NativeCurrency s := mkAcc (dAdd (knownAvailable (acc_at st (res_NativeCurrency s))) (bucketNativeExact row))
          (if is_none (AppliedReserveNative row) then knownReserve (acc_at st (res_NativeCurrency s))
           else dAdd (knownReserve (acc_at st (res_NativeCurrency s))) (bucketReserveExact row))
          (acc_complete (acc_at st (res_NativeCurrency s)) && negb (negb (nativeResultComplete row))) true
          (acc_unknown (acc_at st (res_NativeCurrency s)) || (negb (nativeResultComplete row) &&
             (bool_decide (row_Status row = StatusUnavailable) || bool_decide (row_Status row = StatusPartial))))]>
        (ag_native st)) (ag_excluded st)
      (if bool_decide (res_PolicyOrigin s = PolicyOriginAssumed) then ag_estimated st + 1 else ag_estimated st)
      (ag_unknown st) b1 true b2 b3) as (b1 & b2 & b3 & ->).
    { destruct cv as [cv|]; [destruct (convertLiquidityExact _ _ _) as [[? ok]|]; [|discriminate]|];
        injection H as <-; unfold acc_at; eauto. }
    cbn [baseHasKnown]. rewrite orb_true_r. split; [done|]. intros c. unfold acc_at. cbn [ag_native].
    rewrite Hput. destruct (decide _) as [->|E]; [rewrite bool_decide_eq_true_2 by done|by rewrite bool_decide_eq_false_2].
    cbn [knownAvailable acc_hasKnown]. rewrite dAdd_val, orb_true_r. split; [reflexivity|done].
  - intros H. case_bool_decide; injection H as <-; cbn [baseHasKnown]; rewrite orb_false_r; (split; [done|]);
      intros c; unfold acc_at; cbn [ag_native]; rewrite Hput;
      (destruct (decide _) as [->|E]; [rewrite bool_decide_eq_true_2 by done|by rewrite bool_decide_eq_false_2]);
      cbn [knownAvailable acc_hasKnown]; rewrite orb_false_r; (split; [unfold acc_at; ring|done]).
Qed.

Section TwoHorizons.
Context (horizons : list string) (h1 h2 : string).
Context (In1 : h1 ∈ horizons) (In2 : h2 ∈ horizons) (Hle : sle h1 h2).

Lemma native_at_grows s : grows horizons s →
  (∀ q1, native_at h1 s = Some q1 → (0 <= q1)%Q ∧ ∃ q2, native_at h2 s = Some q2 ∧ (q1 <= q2)%Q) ∧
  (∀ q2, native_at h2 s = Some q2 → (0 <= q2)%Q).
Proof.
  unfold native_at. intros [E|Hg]; [rewrite E; by split|].
  destruct (Excluded s); [by split|].
  destruct (Hg h1 h2 In1 In2 Hle) as (row1 & row2 & -> & -> & G1 & G2). cbn. split.
  - intros q1. destruct (row_NetNative row1) as [m|] eqn:E1; cbn; [|done]. intros [= <-].
    destruct (G1 m eq_refl) as (_ & H0 & Hn & Hm). split; [done|].
    destruct (row_NetNative row2); [|done]. cbn. eauto.
  - intros q2. destruct (row_NetNative row2) as [m|]; cbn; [|done]. intros [= <-]. by apply (G2 m).
Qed.

Lemma aggregate_grows cv sources st1 st2 : Forall (grows horizons) sources →
  foldM (aggregate_step h1 cv) initial_aggregate sources = Ok st1 →
  foldM (aggregate_step h2 cv) initial_aggregate sources = Ok st2 → aggregate_le st1 st2.
Proof.
  intros Hg. apply foldM_rel.
  2:{ split; [done|]. intros c. unfold acc_at, acc_le. cbn [initial_aggregate ag_native]. rewrite lookup_empty.
      cbn [default from_option knownAvailable acc_hasKnown].
      split; [|split; [apply Qle_refl|done]]. rewrite dval_int. apply Qle_refl. }
  intros s s1 s2 t1 t2 Hs [Hb Ha] E1 E2. rewrite Forall_forall in Hg.
  destruct (native_at_grows s (Hg s Hs)) as [N1 N2].
  apply aggregate_step_known in E1 as [B1 A1]. apply aggregate_step_known in E2 as [B2 A2]. split.
  - rewrite B1, B2, !orb_true_iff. intros [H|H]; [left; auto|right].
    destruct (native_at h1 s) as [q1|]; [|done]. by destruct (N1 q1 eq_refl) as (_ & q2 & -> & _).
  - intros c. specialize (A1 c). specialize (A2 c). destruct (Ha c) as (H0 & H1 & Hk).
    destruct (decide (c = res_NativeCurrency s)) as [E|E].
    2:{ rewrite bool_decide_eq_false_2 in A1, A2 by done. rewrite A1, A2. by split. }
    rewrite bool_decide_eq_true_2 in A1, A2 by done. destruct A1 as [V1 K1], A2 as [V2 K2].
    unfold acc_le. rewrite V1, V2, K1, K2.
    destruct (native_at h1 s) as [q1|].
    + destruct (N1 q1 eq_refl) as (P & q2 & -> & Q). cbn. split; [lra|]. split; [lra|].
      intros _. apply orb_true_r.
    + destruct (native_at h2 s) as [q2|]; cbn; [specialize (N2 q2 eq_refl)|]; split; try lra; (split; [lra|]);
        rewrite orb_false_r; intros H; rewrite Hk by done; done.
Qed.

(** The second loop: converted totals. *)
Definition converted_at (cv : ConvertToBase) (h : string) (s : LiquiditySourceResult) : option (Result (option Decimal * bool)) :=
  if Excluded s then None
  else row ← row_at h s; net ← row_NetNative row;
       Some (convertLiquidityExact cv (bucketNativeExact row) (currency net)).

Lemma convert_step_total h cv st s st' : convert_step h cv st s = Ok st' →
  match converted_at cv h s with
  | None => (dval st'.1.1.1 == dval st.1.1.1)%Q
  | Some (Ok r) => (dval st'.1.1.1 == dval st.1.1.1 + contribution r)%Q
  | Some (Fail _) => False
  end.
Proof.
  destruct st as [[[a b] ok] some]. unfold convert_step, converted_at. cbn [fst].
  destruct (Excluded s); [intros H; inv_ok; reflexivity|].
  destruct (row_at h s) as [row|]; cbn [mbind option_bind]; [|intros H; inv_ok; reflexivity].
  destruct (row_NetNative row) as [net|]; cbn [mbind option_bind]; [|intros H; inv_ok; reflexivity].
  destruct (convertLiquidityExact cv (bucketNativeExact row) (currency net)) as [[[x|] []]|]; [..|discriminate].
  - destruct (AppliedReserveNative row) as [reserve|]; [|intros H; inv_ok; cbn; by rewrite dAdd_val].
    destruct (convertLiquidityExact cv (bucketReserveExact row) (currency reserve)) as [[[y|] []]|]; [..|discriminate];
      intros H; inv_ok; cbn; by rewrite dAdd_val.
  - intros H; inv_ok; cbn; ring.
  - intros H; inv_ok; cbn; ring.
  - intros H; inv_ok; cbn; ring.
Qed.

Lemma converted_sum_grows cv sources st1 st2 : monotone_conversion cv → Forall (grows horizons) sources →
  foldM (convert_step h1 cv) (dZero, dZero, true, false) sources = Ok st1 →
  foldM (convert_step h2 cv) (dZero, dZero, true, false) sources = Ok st2 →
  (0 <= dval st1.1.1.1)%Q ∧ (dval st1.1.1.1 <= dval st2.1.1.1)%Q.
Proof.
  intros Hcv Hg.
  apply (foldM_rel _ _ (λ s t : Decimal * Decimal * bool * bool,
    (0 <= dval s.1.1.1)%Q ∧ (dval s.1.1.1 <= dval t.1.1.1)%Q)).
  2:{ cbn [fst]. rewrite dval_dzero. lra. }
  intros s s1 s2 t1 t2 Hs [H0 H1] E1 E2. rewrite Forall_forall in Hg. specialize (Hg s Hs).
  apply convert_step_total in E1. apply convert_step_total in E2. unfold converted_at in E1, E2.
  destruct Hg as [Hx|Hg]; [rewrite Hx in E1, E2; lra|]. destruct (Excluded s); [lra|].
  destruct (Hg h1 h2 In1 In2 Hle) as (row1 & row2 & R1 & R2 & G1 & G2). rewrite R1 in E1. rewrite R2 in E2.
  cbn [mbind option_bind] in E1, E2.
  destruct (row_NetNative row1) as [n1|] eqn:N1; cbn [mbind option_bind] in E1.
  - destruct (G1 n1 eq_refl) as (C1 & P & Hn & Q). destruct (row_NetNative row2) as [n2|] eqn:N2; [|done].
    cbn [mbind option_bind] in E2. destruct (G2 n2 eq_refl) as [C2 _]. rewrite C1 in E1. rewrite C2 in E2.
    destruct (convertLiquidityExact cv (bucketNativeExact row1) _) as [r1|] eqn:V1; [|done].
    destruct (convertLiquidityExact cv (bucketNativeExact row2) _) as [r2|] eqn:V2; [|done].
    destruct (converted_grows cv _ _ _ _ _ Hcv P Q V1 V2). lra.
  - destruct (row_NetNative row2) as [n2|] eqn:N2; cbn [mbind option_bind] in E2; [|lra].
    destruct (G2 n2 eq_refl) as [C2 P2].
    destruct (convertLiquidityExact cv (bucketNativeExact row2) _) as [r2|] eqn:V2; [|done].
    destruct (converted_grows cv _ _ _ _ _ Hcv P2 (Qle_refl _) V2 V2). lra.
Qed.
End TwoHorizons.

(** ** Shown totals *)

Lemma shown_available a r c x y z : shown_amounts a r c = Ok (x, y, z) → NewMoney a c = Ok x.
Proof. unfold shown_amounts, displayMoney. intros H. inv_ok. congruence. Qed.

Lemma native_group_spec c acc g : native_group (c, acc) = Ok g →
  grp_Currency g = c ∧ ∀ m, grp_KnownAvailable g = Some m →
    NewMoney (if acc_hasKnown acc then knownAvailable acc else dZero) c = Ok m.
Proof.
  unfold native_group. destruct (acc_hasKnown acc).
  - intros H. inv_ok. destruct x as [[a r] u]. apply shown_available in E.
    destruct (_ && _); inv_ok; cbn; (split; [done|]); by intros m [= <-].
  - destruct (acc_unknown acc); intros H; inv_ok; cbn; (split; [done|]); [done|]. by intros m [= <-].
Qed.

Lemma groups_single (m : gmap string nativeAcc) gs g :
  mapM native_group (map_to_list m) = Ok gs → stable_sort group_less gs = [g] →
  ∃ acc, m !! grp_Currency g = Some acc ∧ native_group (grp_Currency g, acc) = Ok g.
Proof.
  intros Hm Hs. pose proof (stable_sort_perm group_less gs) as Hp. rewrite Hs in Hp.
  apply Permutation_singleton_l in Hp. subst gs. apply mapM_Forall2 in Hm.
  destruct (map_to_list m) as [|[c acc] l] eqn:El; [by apply Forall2_nil_inv_l in Hm|].
  apply Forall2_cons in Hm as [Hg _]. destruct (native_group_spec _ _ _ Hg) as [-> _].
  exists acc. split; [|done]. apply elem_of_map_to_list. rewrite El. by left.
Qed.

Lemma aggregate_has_known h cv sources ag : foldM (aggregate_step h cv) initial_aggregate sources = Ok ag →
  ∀ c, acc_hasKnown (acc_at ag c) = true → baseHasKnown ag = true.
Proof.
  apply (foldM_inv _ (λ _ st, ∀ c, acc_hasKnown (acc_at st c) = true → baseHasKnown st = true)).
  - intros _ s x s' Hi _ E c. apply aggregate_step_known in E as [-> A]. specialize (A c).
    destruct (bool_decide _); [destruct A as [_ ->]|rewrite A; intros H; by rewrite (Hi c H)].
    rewrite !orb_true_iff. intros [H|H]; [left; by apply (Hi c)|by right].
  - intros c. unfold acc_at. cbn [initial_aggregate ag_native]. by rewrite lookup_empty.
Qed.

(** Where a shown total comes from, without a conversion ... *)
Lemma native_bucket_known base ag gs status s m :
  (∀ c, acc_hasKnown (acc_at ag c) = true → baseHasKnown ag = true) →
  mapM native_group (map_to_list (ag_native ag)) = Ok gs →
  native_bucket base ag (stable_sort group_less gs) = Ok (status, s) → KnownAvailableSubtotal s = Some m →
  NewMoney (if acc_hasKnown (acc_at ag base) then knownAvailable (acc_at ag base) else dZero) base = Ok m.
Proof.
  intros Hk Hm. unfold native_bucket.
  assert (Hz : baseHasKnown ag = false → acc_hasKnown (acc_at ag base) = false).
  { intros H. destruct (acc_hasKnown (acc_at ag base)) eqn:E; [|done]. by rewrite (Hk base E) in H. }
  destruct (match stable_sort group_less gs with [g] => _ | _ => None end) as [g|] eqn:Eg.
  - assert (stable_sort group_less gs = [g] ∧ grp_Currency g = base) as [Hs <-].
    { destruct (stable_sort group_less gs) as [|g' [|]]; try done. case_bool_decide; [|done].
      by injection Eg as ->. }
    destruct (groups_single _ _ _ Hm Hs) as (acc & El & Hg). apply native_group_spec in Hg as [_ Hg].
    assert (acc_at ag (grp_Currency g) = acc) as Ea by (unfold acc_at; by rewrite El).
    destruct (negb (baseHasKnown ag) && negb (baseUnknown ag)) eqn:En.
    + intros H K. inv_ok. prop_bool. simplify_eq. injection K as <-. by rewrite Hz.
    + intros [= H]. rewrite Ea. destruct (baseUnknown ag && _); injection H as _ <-; apply Hg.
  - destruct (baseHasKnown ag) eqn:Eb; [intros [= _ <-]; done|].
    destruct (baseUnknown ag); [intros [= _ <-]; done|]. intros H K. inv_ok. simplify_eq.
    injection K as <-. by rewrite Hz.
Qed.

(** ... and with one. *)
Lemma converted_bucket_known base ag sums status s m :
  converted_bucket base ag sums = Ok (status, s) → KnownAvailableSubtotal s = Some m →
  NewMoney sums.1.1.1 base = Ok m.
Proof.
  destruct sums as [[[a r] ok] some]. unfold converted_bucket. cbn [fst]. destruct (_ || _).
  - intros H K. inv_ok. destruct x as [[x y] z]. apply shown_available in E.
    destruct (_ && _ && _ && _); simplify_eq; by injection K as <-.
  - intros [= _ <-]. done.
Qed.

(** The known total of a later horizon is never below that of an earlier
    one, in any currency mix and whatever conversions are missing, provided that the
    conversion is monotone and each source's rows grow (which [evaluateSource]
    guarantees). *)
Lemma aggregateBucket_grows horizons h1 h2 base sources cv b1 b2 m1 m2 :
  h1 ∈ horizons → h2 ∈ horizons → sle h1 h2 → Forall (grows horizons) sources →
  (∀ c, cv = Some c → monotone_conversion c) →
  aggregateBucket h1 base sources cv = Ok b1 → aggregateBucket h2 base sources cv = Ok b2 →
  KnownAvailableSubtotal (bkt_Subtotals b1) = Some m1 → KnownAvailableSubtotal (bkt_Subtotals b2) = Some m2 →
  munits m1 <= munits m2.
Proof.
  intros In1 In2 Hle Hg Hcv H1 H2. unfold aggregateBucket in H1, H2. inv_ok.
  destruct cv as [cv|]; inv_ok.
  - repeat match goal with x : _ * _ |- _ => destruct x as [? ?] end.
    match goal with A : foldM (convert_step h1 _) _ _ = Ok _, B : foldM (convert_step h2 _) _ _ = Ok _ |- _ =>
      destruct (converted_sum_grows horizons h1 h2 In1 In2 Hle cv sources _ _ (Hcv cv eq_refl) Hg A B) as [P Q] end.
    injection H1 as <-. injection H2 as <-. intros K1 K2.
    assert (Hif : ∀ (c : bool) x y, bkt_Subtotals x = bkt_Subtotals y → bkt_Subtotals (if c then x else y) = bkt_Subtotals y)
      by (by intros [] ? ? ?).
    rewrite Hif in K1, K2 by done. cbn in K1, K2.
    match goal with A : converted_bucket _ _ ?s1 = Ok (_, ?t1), B : converted_bucket _ _ ?s2 = Ok (_, ?t2) |- _ =>
      apply (converted_bucket_known _ _ _ _ _ m1) in A; [|done];
      apply (converted_bucket_known _ _ _ _ _ m2) in B; [|done];
      by apply (munits_mono _ _ _ _ _ _ A B) end.
  - repeat match goal with x : CompletenessStatus * _ |- _ => destruct x as [? ?] end. inv_ok. cbn [bkt_Subtotals].
    intros K1 K2.
    match goal with A : foldM (aggregate_step h1 _) _ _ = Ok ?st1, B : foldM (aggregate_step h2 _) _ _ = Ok ?st2 |- _ =>
      destruct (aggregate_grows horizons h1 h2 In1 In2 Hle None sources _ _ Hg A B) as [_ Hacc];
      pose proof (aggregate_has_known _ _ _ _ A) as Hk1; pose proof (aggregate_has_known _ _ _ _ B) as Hk2 end.
    match goal with A : native_bucket _ ?x1 _ = Ok (_, ?s1), B : native_bucket _ ?x2 _ = Ok (_, ?s2),
        G1 : mapM _ (map_to_list (ag_native ?x1)) = Ok _, G2 : mapM _ (map_to_list (ag_native ?x2)) = Ok _,
        Hacc : ∀ c, acc_le (acc_at ?x1 c) (acc_at ?x2 c) |- _ =>
      pose proof (native_bucket_known _ _ _ _ _ _ Hk1 G1 A K1) as M1;
      pose proof (native_bucket_known _ _ _ _ _ _ Hk2 G2 B K2) as M2; destruct (Hacc base) as (P & Q & Hk);
      apply (munits_mono _ _ _ _ _ _ M1 M2) end.
    destruct (acc_hasKnown (acc_at x1 base)); [by rewrite Hk|].
    rewrite dval_dzero. destruct (acc_hasKnown _); [lra|]. rewrite dval_dzero. lra.
Qed.

(** ** The check of the overview *)

Definition available_error : goerror := validation "availability" "cumulative known available amounts cannot decrease".
Definition unreserved_error : goerror := validation "availability" "cumulative known unreserved amounts cannot decrease".

Definition known_le (b1 b2 : LiquidityBucket) : Prop :=
  ∀ m1 m2, KnownAvailableSubtotal (bkt_Subtotals b1) = Some m1 → KnownAvailableSubtotal (bkt_Subtotals b2) = Some m2 →
    dLessThan (amount m2) (amount m1) = false.

Lemma monotonic_available buckets prev prevU :
  StronglySorted known_le buckets →
  (∀ d, prev = Some d → Forall (λ b, ∀ m, KnownAvailableSubtotal (bkt_Subtotals b) = Some m →
      dLessThan (amount m) d = false) buckets) →
  (∃ st, foldM monotonic_step (prev, prevU) buckets = Ok st) ∨
  foldM monotonic_step (prev, prevU) buckets = Fail unreserved_error.
Proof.
  revert prev prevU. induction buckets as [|b bs IH]; intros prev prevU Hs Hp; [left; by eexists|].
  apply StronglySorted_inv in Hs as [Hs Hb].
  cbn [foldM]. unfold monotonic_step at 1 3. cbn [fst snd].
  assert (∃ prev', not_below prev (KnownAvailableSubtotal (bkt_Subtotals b))
      "cumulative known available amounts cannot decrease" = Ok prev' ∧
      ∀ d, prev' = Some d → Forall (λ b, ∀ m, KnownAvailableSubtotal (bkt_Subtotals b) = Some m →
      dLessThan (amount m) d = false) bs) as (prev' & -> & Hp').
  { unfold not_below. destruct (KnownAvailableSubtotal (bkt_Subtotals b)) as [m|] eqn:Em.
    - destruct prev as [p|]; [specialize (Hp p eq_refl); apply Forall_cons in Hp as [Hm _]; rewrite (Hm m Em)|];
        (eexists; split; [done|]); intros d [= <-]; apply Forall_forall;
        intros b2 Hin m2 E2; by apply (proj1 (Forall_forall _ _) Hb b2 Hin m m2).
    - eexists. split; [done|]. intros d ->. specialize (Hp d eq_refl). by apply Forall_cons in Hp as [_ ?]. }
  cbn [mbind Result_bind]. unfold not_below at 1 2.
  destruct (KnownUnreservedSubtotal (bkt_Subtotals b)) as [u|]; [|by apply IH].
  destruct (match prevU with Some p => _ | None => false end); [by right|]. by apply IH.
Qed.

Lemma money_not_less m1 m2 : Money_ok m1 → Money_ok m2 → munits m1 <= munits m2 →
  dLessThan (amount m2) (amount m1) = false.
Proof. intros (E1 & _) (E2 & _) H. apply less_false, (units_le 4); [lia|lia|done]. Qed.

Lemma subtotal_ok h base sources cv b m : aggregateBucket h base sources cv = Ok b →
  KnownAvailableSubtotal (bkt_Subtotals b) = Some m → Money_ok m.
Proof.
  unfold aggregateBucket. intros H K. inv_ok. pose proof (aggregate_has_known _ _ _ _ E) as Hk.
  destruct cv as [cv|]; inv_ok.
  - destruct x2 as [status s]. injection H as <-.
    assert (KnownAvailableSubtotal s = Some m) as Hm by (by destruct (baseFXMissing x)).
    match goal with A : converted_bucket _ _ _ = Ok _ |- _ =>
      apply (converted_bucket_known _ _ _ _ _ m) in A; [|done]; by apply NewMoney_ok in A end.
  - match goal with A : native_bucket _ _ _ = Ok ?p |- _ => destruct p as [status s]; inv_ok;
      apply (native_bucket_known _ _ _ _ _ m Hk) in A; [|done..]; by apply NewMoney_ok in A end.
Qed.

(** Claim C31.  Over ascending horizons the evaluation never contradicts itself on what
    is available: once the sources and the totals are computed, the final check of the
    overview either passes or complains about the unreserved totals only.  The sources
    hold one currency each, conversions may be missing, and the order in which the
    sources are shown does not matter. *)
Theorem evaluated_totals_grow query today base horizons sources requested convert results buckets :
  StronglySorted sle horizons → Forall one_currency sources →
  (∀ c, convert = Some c → monotone_conversion c) →
  mapM (λ s, evaluateSource query today horizons s (requested s) convert) sources = Ok results →
  mapM (λ h, aggregateBucket h base (stable_sort result_less results) convert) horizons = Ok buckets →
  assertCumulativeMonotonic buckets = Ok tt ∨ assertCumulativeMonotonic buckets = Fail unreserved_error.
Proof.
  intros Hs Hone Hcv Hr Hb. apply mapM_Forall2 in Hr, Hb.
  assert (Hg : Forall (grows horizons) (stable_sort result_less results)).
  { rewrite stable_sort_perm. clear -HL Hr Hone. induction Hr as [|s r ss rs Hsr _ IH]; [constructor|].
    apply Forall_cons in Hone as [? ?]. constructor; [by eapply evaluateSource_grows|by apply IH]. }
  assert (Hsb : StronglySorted known_le buckets).
  { apply (StronglySorted_Forall2 _ _ _ _ _ Hb Hs). intros h1 h2 b1 b2 In1 In2 Hle B1 B2 m1 m2 K1 K2.
    apply money_not_less; [exact (subtotal_ok _ _ _ _ _ _ B1 K1)|exact (subtotal_ok _ _ _ _ _ _ B2 K2)|].
    exact (aggregateBucket_grows _ _ _ _ _ _ _ _ _ _ In1 In2 Hle Hg Hcv B1 B2 K1 K2). }
  unfold assertCumulativeMonotonic.
  destruct (monotonic_available buckets None None Hsb) as [[st ->]| ->]; [by intros ? [=]|by left|by right].
Qed.

End Order.
