(* ===== verification/LiquidityTime.v ===== *)
(** * When money arrives

    The dates of a policy: money with an unlock date and a settlement lag arrives on
    the expected day and stays available afterwards; cash with no stated policy is
    available at once. *)

From S2P Require Export LiquidityOrder.
From S2P Require Import DecimalModel.
From Stdlib Require Import String Ascii.

#[global] Open Scope Z_scope.

(** ** Dates as day numbers *)

Lemma compare_dates s t n k : is_date s n → is_date t k →
  compareCivilDates s t = match n ?= k with Lt => -1 | Eq => 0 | Gt => 1 end.
Proof. intros Hs Ht. by rewrite compareCivilDates_scompare, (date_compare _ _ _ _ Hs Ht). Qed.

Lemma sle_dates s t n k : is_date s n → is_date t k → sle s t ↔ n <= k.
Proof.
  intros Hs Ht. unfold sle. rewrite <-compareCivilDates_pos, (compare_dates _ _ _ _ Hs Ht).
  destruct (Z.compare_spec n k); cbn; split; (done || lia).
Qed.

Lemma format_is_date n : days_before_year 0 <= n < days_before_year 10000 → is_date (format_days n) n.
Proof. intros H. by apply ParseDate_format_days. Qed.

Section Arrival.
Context `{HD : DecimalAPI} {HL : DecimalLaws}.

Lemma later_unlock today unlock n k : is_date today n → is_date unlock k →
  ∃ e, is_date e (Z.max n k) ∧
    (u ← ParseCivilDate "unlockOn" unlock; Ok (if 0 <? compareCivilDates today u then today else u)) = Ok e.
Proof.
  intros Hn Hk. rewrite (ParseCivilDate_id _ _ _ Hk). cbn. rewrite (compare_dates _ _ _ _ Hn Hk).
  destruct (Z.compare_spec n k) as [->|H|H]; cbn; eexists; (split; [|done]).
  - by rewrite Z.max_id.
  - by rewrite Z.max_r by lia.
  - by rewrite Z.max_l by lia.
Qed.

Lemma calendar_receipt e n days : is_date e n → 0 <= days <= 365 → n + days < days_before_year 10000 →
  ∃ r, SettlementReceiptOn e days DayBasisCalendar = Ok r ∧ is_date r (n + days).
Proof.
  intros He Hd Hmax. pose proof (is_date_range _ _ He). unfold SettlementReceiptOn.
  rewrite (proj2 (Z.ltb_ge days 0)), (proj2 (Z.ltb_ge 365 days)) by lia. cbn [orb].
  destruct (Z.eqb_spec days 0) as [->|].
  - exists e. rewrite (ParseCivilDate_id _ _ _ He), Z.add_0_r. done.
  - unfold AddCalendarDays. rewrite (parseCivilTime_id _ _ _ He). eexists. split; [done|].
    apply format_is_date. lia.
Qed.

(** An exact amount less a fee, never below zero. *)
Lemma fee_route s p basis g f :
  CurrentNativeAmount s = ""%string → Money_ok g → Money_ok f → currency f = currency g →
  ∃ r d net, applyLiquidityFee s p basis g (Some f) = Ok r ∧ fee_unknown r = false ∧ fee_exact r = Some d ∧
    fee_net r = Some net ∧ (dval d == if Qlt_le_dec (dval (amount g)) (dval (amount f)) then 0
                                     else dval (amount g) - dval (amount f))%Q.
Proof.
  intros Hn Hg Hf Hc. unfold applyLiquidityFee. rewrite Hn, (bool_decide_eq_true_2 (""%string = _)), andb_false_r by done.
  cbn [negb mbind Result_bind]. rewrite Hc, bool_decide_eq_true_2 by done. cbn [negb].
  destruct (money_val_range _ Hg) as [G0 G1], (money_val_range _ Hf) as [F0 F1].
  pose proof (ParseCurrency_id (currency g) ltac:(apply Hg)) as Ec.
  set (d := if dIsNegative (dSub (amount g) (amount f)) then dZero else dSub (amount g) (amount f)).
  assert (Hd : (dval d == if Qlt_le_dec (dval (amount g)) (dval (amount f)) then 0
                          else dval (amount g) - dval (amount f))%Q).
  { unfold d. destruct (dIsNegative _) eqn:E.
    - apply dIsNegative_val in E. rewrite dSub_val in E. rewrite dval_dzero.
      destruct (Qlt_le_dec _ _); [reflexivity|lra].
    - apply isneg_false in E. rewrite dSub_val in *. destruct (Qlt_le_dec _ _); [lra|reflexivity]. }
  destruct (in_range_money d (currency g) _ Ec) as (net & En & _).
  1,2: rewrite Hd; destruct (Qlt_le_dec _ _); lra.
  rewrite En. cbn. eexists _, d, net. done.
Qed.

(** A source without a contract whose policy gives access on an unlock date: the settlement lag
    is known and counts calendar days, which is the default; the policy sets neither another date
    of receipt nor a cap; the value is an amount of money without a more exact one beside it, and
    the fee is known, in the same currency. *)
Record scheduled (s : LiquiditySource) (p : LiquidityPolicy) (unlock : string) (days : Z) (value fee : Money) : Prop := {
  sch_access : pol_AccessKind p = AccessOnDate; sch_unlock : UnlockOn p = Some unlock;
  sch_days : SettlementDays p = Some days; sch_basis : default DayBasisCalendar (pol_DayBasis p) = DayBasisCalendar;
  sch_override : ReceiptOnOverride p = None; sch_contract : Contract s = None;
  sch_value : CurrentNativeValue s = Some value; sch_amount : CurrentNativeAmount s = ""%string;
  sch_cap : AccessibleAmountCap p = None; sch_fee : NormalExitFee p = Some fee;
  sch_ok : Money_ok value; sch_fee_ok : Money_ok fee; sch_currency : currency fee = currency value }.

(** Claim C32.  Money with a plain schedule arrives.  Take a source without a contract, whose
    policy gives access on an unlock date, with a settlement lag of at most 365 calendar days, no
    other date of receipt and no cap, whose value is known as well-formed money only and whose fee
    is well-formed money of the same currency; let today, the unlock date and the horizon be civil
    dates.  Its normal route is complete, and its receipt is the unlock date (or today,
    when that is later) plus the lag; at every horizon from that day on, any result with this
    normal route has a route chosen that yields at least the value less the fee. *)
Theorem scheduled_money_arrives s p unlock days value fee today n k h m :
  scheduled s p unlock days value fee → is_date today n → is_date unlock k → 0 <= days <= 365 →
  is_date h m → Z.max n k + days <= m →
  ∃ route receipt, buildNormalRoute today s p = Ok route ∧ rt_Status route = StatusComplete ∧
    rt_ReceiptOn route = Some receipt ∧ is_date receipt (Z.max n k + days) ∧
    ∀ result requested convert, NormalRoute result = Some route →
      ∃ chosen, SelectedRoute (selectRouteForHorizon h result false requested convert) = Some chosen ∧
        (dval (amount value) - dval (amount fee) <= net_value chosen)%Q ∧ (0 <= net_value route)%Q.
Proof.
  intros [A U D B O C V N K F Hv Hf Hc] Hn Hk Hd Hh Hm. pose proof (is_date_range _ _ Hh).
  destruct (later_unlock today unlock n k Hn Hk) as (e & He & Ee).
  destruct (calendar_receipt e _ days He Hd ltac:(lia)) as (r & Er & Hr).
  destruct (fee_route s p "current_value" value fee N Hv Hf Hc) as (fr & d & net & Ef & Fu & Fe & Fn & Fv).
  assert (Hel : actionEligibleOn p today false None = ([], Ok e)).
  { unfold actionEligibleOn. cbn [contract_maturity mbind option_bind]. rewrite A, U. by rewrite Ee. }
  assert (Hre : receiptOn p today false None = ([], Ok r)).
  { unfold receiptOn. cbn [contract_maturity mbind option_bind default from_option]. rewrite O, Hel.
    assert (settlement_lag p false = Ok (days, DayBasisCalendar)) as -> by (unfold settlement_lag; by rewrite D, B).
    by rewrite Er. }
  assert (Hgross : normalGross s p = Ok (Some value, "current_value"%string)).
  { unfold normalGross. rewrite C, V, K. done. }
  eexists (mkRoute (Some d) RouteNormal (Some e) (Some r) (Some value) (Some fee) (Some net) StatusComplete _ _ _ []), r.
  split.
  { unfold buildNormalRoute. rewrite A, C. rewrite bool_decide_eq_false_2 by done. rewrite Hel, Hre, Hgross.
    cbn [mbind Result_bind]. rewrite F, Ef. cbn [mbind Result_bind]. rewrite Fu, Fe, Fn. reflexivity. }
  split; [done|]. split; [done|]. split; [done|]. intros result requested convert Hres.
  pose proof (selectRouteForHorizon_best h result false requested convert) as Hb.
  set (route := mkRoute _ _ _ _ _ _ _ _ _ _ _ _) in *.
  assert (Hin : route ∈ candidates result false) by (unfold candidates; rewrite Hres; by left).
  assert (Ha : admissible h route).
  { unfold admissible. cbn. split; [|split; [|done]].
    - apply (sle_dates _ _ _ _ He Hh). lia.
    - apply (sle_dates _ _ _ _ Hr Hh). lia. }
  destruct (SelectedRoute _) as [chosen|]; [|by destruct (Hb route)].
  exists chosen. split; [done|]. destruct Hb as (_ & _ & Hb). destruct (Hb route Hin Ha) as [Hle _].
  assert (net_value route = dval d) as Enet by reflexivity. rewrite Enet in *.
  destruct (Qlt_le_dec _ _); split; lra.
Qed.
End Arrival.
