(* ===== verification/LiquiditySamples.v ===== *)
(** * Liquidity on concrete households

    Evaluations of [EvaluateLiquidity] with the decimal model: an ordinary overview, the
    inputs with which the theorems of the other files are applied, and two households
    for which the overview fails although its figures are right. *)

From S2P Require Export LiquidityTime.
From S2P Require Import DecimalModel.
From Stdlib Require Import String Ascii Sorted.

#[global] Open Scope Z_scope.

(** ** Inputs *)

Definition home_id : string := "6ba7b810-9dad-11d1-80b4-00c04fd430c8".
Definition bank_id : string := "6ba7b811-9dad-11d1-80b4-00c04fd430c8".
Definition fund_id : string := "6ba7b812-9dad-11d1-80b4-00c04fd430c8".
Definition bond_id : string := "6ba7b813-9dad-11d1-80b4-00c04fd430c8".

Definition test_today : string := "2026-03-02".
Definition test_now : Time := utc_midnight (days_of_civil 2026 3 2) + 9 * Hour.

Definition money (units : Z) (cur : CurrencyCode) : Money := mkMoney (dNew units (-4)) cur.

Definition test_source (name : string) (ref : LiquiditySourceRef) (type : AccountType) (value : Money)
    (exact : string) (policy : option LiquidityPolicy) : LiquiditySource :=
  mkSource ref (ref_AccountID ref) None name (currency value) (Some value) None exact None None None true false false
    false type TrackingHoldings None false None policy.

(** An explicit policy with a zero fee and no settlement lag. *)
Definition test_policy (ref : LiquiditySourceRef) (access : AccessKind) (unlock : option string) (fee : Money)
    : LiquidityPolicy :=
  mkPolicy "" home_id ref access unlock (Some 0) (Some DayBasisCalendar) None None (Some fee) EarlyNotAllowed None None
    None None None None None 1 0 0.

Definition cash_ref : LiquiditySourceRef := AccountCashSourceRef bank_id "USD".
Definition fund_ref : LiquiditySourceRef := HoldingSourceRef bank_id fund_id.
Definition bond_ref : LiquiditySourceRef := HoldingSourceRef bank_id bond_id.

(** Cash in a bank, and a bond that can be sold from 7 March on. *)
Definition test_cash : LiquiditySource :=
  test_source "Cash" cash_ref TypeBankAccount (money 2500000 "USD") "" None.
Definition test_bond : LiquiditySource :=
  test_source "Bond" bond_ref TypeBrokerage (money 1000000 "EUR") ""
    (Some (test_policy bond_ref AccessOnDate (Some "2026-03-07"%string) (money 0 "EUR"))).
Definition test_sources : list LiquiditySource := [test_cash; test_bond].

Definition test_reservation (ref : LiquiditySourceRef) (amt : Money) : LiquidityReservation :=
  mkReservation "" home_id ref "Holiday" amt (currency amt) 1 0 0 None.

Definition test_query (custom : option string) : LiquidityQuery := mkQuery test_now "" "USD" custom true.

Definition test_rates (c : CurrencyCode) : option Decimal :=
  if bool_decide (c = "USD"%string) then Some (dNew 1 0)
  else if bool_decide (c = "EUR"%string) then Some (dNew 11 (-1)) else None.
Definition test_convert : ConvertToBase := rate_conversion test_rates.

Lemma test_rates_nonneg c q : test_rates c = Some q → (0 <= dval q)%Q.
Proof. unfold test_rates. repeat case_bool_decide; intros [= <-]; apply dval_nonneg_coef; by apply Z.leb_le. Qed.

(** What the overview shows per horizon: the known available and unreserved totals; or
    the message of the failure. *)
Definition shown_total (o : option Money) : string :=
  match o with Some m => CanonicalAmount m | None => "unknown" end.
Definition shown (r : Result LiquidityOverview) : list (string * string * string) + string :=
  match r with
  | Ok ov => inl ((λ b, (bkt_HorizonOn b, shown_total (KnownAvailableSubtotal (bkt_Subtotals b)),
                         shown_total (KnownUnreservedSubtotal (bkt_Subtotals b)))) <$> Buckets ov)
  | Fail (DomainErr e) => inr (Message e)
  | Fail (OtherErr m) => inr m
  end.

Lemma shown_fail r m : shown r = inr m → ∃ e, r = Fail e.
Proof. destruct r as [|e]; [done|eauto]. Qed.

(** The cash is available today, the bond from the second horizon on; a reservation of
    the bond's money is not counted as free. *)
Example overview_sample `{TZ : TimeZones} :
  shown (EvaluateLiquidity (test_query None) test_sources
           [test_reservation bond_ref (money 400000 "EUR")] (Some test_convert)) =
  inl [("2026-03-02", "250", "250"); ("2026-03-09", "360", "316"); ("2026-04-01", "360", "316")]%string.
Proof. by vm_compute. Qed.

(** ** Two overviews that fail *)

(** A custom date before the thirty-day horizon is appended after it, so the totals of
    the last horizon are those of an earlier day and the check of the overview takes
    them for a contradiction: asking for 5 March fails, asking for 5 April does not. *)
Theorem early_custom_horizon_fails `{TZ : TimeZones} :
  shown (EvaluateLiquidity (test_query (Some "2026-03-05"%string)) test_sources [] (Some test_convert)) =
    inr "cumulative known available amounts cannot decrease"%string ∧
  shown (EvaluateLiquidity (test_query (Some "2026-04-05"%string)) test_sources [] (Some test_convert)) =
    inl [("2026-03-02", "250", "250"); ("2026-03-09", "360", "360"); ("2026-04-01", "360", "360");
         ("2026-04-05", "360", "360")]%string.
Proof. split; by vm_compute. Qed.

(** Holdings are valued exactly, to sixteen digits; a fund worth 10.00008 that can be
    sold today and one worth 1.00006 that can be sold in five days and is reserved. *)
Definition exact_fund : LiquiditySource :=
  test_source "Fund" fund_ref TypeBrokerage (money 100001 "USD") "10.00008"
    (Some (test_policy fund_ref AccessOnRequest None (money 0 "USD"))).
Definition exact_bond : LiquiditySource :=
  test_source "Bond" bond_ref TypeBrokerage (money 10001 "USD") "1.00006"
    (Some (test_policy bond_ref AccessOnDate (Some "2026-03-07"%string) (money 0 "USD"))).

(** The free total is shown as the difference of two rounded amounts: 10.0001 today,
    11.0001 - 1.0001 = 10.0000 in a week.  Nothing was lost, but the overview fails. *)
Theorem rounded_unreserved_fails `{TZ : TimeZones} :
  shown (EvaluateLiquidity (test_query None) [exact_fund; exact_bond]
           [test_reservation bond_ref (money 10001 "USD")] None) =
    inr "cumulative known unreserved amounts cannot decrease"%string ∧
  shown (EvaluateLiquidity (test_query None) [exact_fund; exact_bond] [] None) =
    inl [("2026-03-02", "10.0001", "10.0001"); ("2026-03-09", "11.0001", "11.0001");
         ("2026-04-01", "11.0001", "11.0001")]%string.
Proof. split; by vm_compute. Qed.

(** ** The theorems applied *)

Definition test_horizons : list string := ["2026-03-02"; "2026-03-09"; "2026-04-01"]%string.

Example test_horizons_of_today : LiquidityHorizons test_today None = Ok test_horizons.
Proof. by vm_compute. Qed.

Lemma test_horizons_sorted : StronglySorted sle test_horizons.
Proof. repeat constructor; by vm_compute. Qed.

Definition requested_none : LiquiditySource → Money := λ _, zeroMoney.

Definition test_results : Result (list LiquiditySourceResult) :=
  mapM (λ s, evaluateSource (test_query None) test_today test_horizons s (requested_none s) (Some test_convert))
    test_sources.
Definition test_buckets (results : list LiquiditySourceResult) : Result (list LiquidityBucket) :=
  mapM (λ h, aggregateBucket h "USD" (stable_sort result_less results) (Some test_convert)) test_horizons.

Lemma computes_ok {A} (r : Result A) : is_ok r = true → ∃ a, r = Ok a.
Proof. destruct r; [eauto|done]. Qed.

Lemma test_one_currency : Forall one_currency test_sources.
Proof. repeat constructor; try done; by intros m [= <-]. Qed.

Lemma evaluated_totals_grow_witness :
  ∃ results buckets, test_results = Ok results ∧ test_buckets results = Ok buckets ∧
    (assertCumulativeMonotonic buckets = Ok tt ∨ assertCumulativeMonotonic buckets = Fail unreserved_error).
Proof.
  destruct (computes_ok test_results) as [results Hr]; [by vm_compute|].
  destruct (computes_ok (test_buckets results)) as [buckets Hb].
  { assert (is_ok (test_results ≫= test_buckets) = true) as H by by vm_compute. by rewrite Hr in H. }
  exists results, buckets. split; [done|]. split; [done|].
  apply (evaluated_totals_grow (test_query None) test_today "USD" test_horizons test_sources requested_none
           (Some test_convert) results buckets); [|exact test_one_currency| |exact Hr|exact Hb].
  - exact test_horizons_sorted.
  - intros c [= <-]. apply rate_conversion_monotone, test_rates_nonneg.
Defined.

Lemma scheduled_money_arrives_witness :
  ∃ route receipt, buildNormalRoute test_today test_bond
      (test_policy bond_ref AccessOnDate (Some "2026-03-07"%string) (money 0 "EUR")) = Ok route ∧
    rt_Status route = StatusComplete ∧ rt_ReceiptOn route = Some receipt ∧ is_date receipt (Z.max 739676 739681 + 0) ∧
    ∀ result requested convert, NormalRoute result = Some route →
      ∃ chosen, SelectedRoute (selectRouteForHorizon "2026-03-09" result false requested convert) = Some chosen ∧
        (dval (amount (money 1000000 "EUR")) - dval (amount (money 0 "EUR")) <= net_value chosen)%Q ∧
        (0 <= net_value route)%Q.
Proof.
  apply (scheduled_money_arrives test_bond
           (test_policy bond_ref AccessOnDate (Some "2026-03-07"%string) (money 0 "EUR"))
           "2026-03-07" 0 (money 1000000 "EUR") (money 0 "EUR") test_today 739676 739681 "2026-03-09" 739683).
  - split; try done; (split; [done|split; [by vm_compute|done]]).
  - by vm_compute.
  - by vm_compute.
  - done.
  - by vm_compute.
  - done.
Defined.

Lemma selectRouteForHorizon_best_witness :
  ∃ result, evaluateSource (test_query None) test_today test_horizons test_bond zeroMoney None = Ok result ∧
    best_of "2026-03-09" (candidates result false)
      (SelectedRoute (selectRouteForHorizon "2026-03-09" result false zeroMoney None)).
Proof.
  destruct (computes_ok (evaluateSource (test_query None) test_today test_horizons test_bond zeroMoney None))
    as [result Hr]; [by vm_compute|].
  exists result. split; [exact Hr|]. apply (selectRouteForHorizon_best "2026-03-09" result false zeroMoney None).
Defined.
