(* ===== verification/MarketDates.v ===== *)
(** * Market dates and sessions

    The calendar of market data: date labels and ranges ([marketdata_clock.go]), the
    sessions of exchanges ([marketdata_session.go]), daily bars of crypto assets and
    metals ([marketdata_history_support.go], [precious_metal.go]), the days on which
    an instrument publishes no price ([instrument_calendar.go],
    [marketdata_inferred_closure.go]) and the recorded coverage of a history
    ([history.go]). *)

From S2P Require Export Portfolio LocalTime History.
From S2P Require Import DecimalModel.
From Stdlib Require Import String Ascii.

#[global] Open Scope Z_scope.

(** ** Labels and ranges *)

Definition ParseMarketDate (value : string) : Result string :=
  let trimmed := TrimSpace value in
  match ParseDate trimmed with
  | Some parsed =>
    if bool_decide (format_days parsed = trimmed) then Ok trimmed
    else Fail (validation "marketDate" "must use YYYY-MM-DD")
  | None => Fail (validation "marketDate" "must use YYYY-MM-DD")
  end.

(** The loop of [InclusiveMarketDates]: the cursor is moved by one day per turn. *)
Fixpoint dates_from (fuel : nat) (cursor last : Z) : list string :=
  match fuel with
  | O => []
  | S f => if last <? cursor then [] else format_days cursor :: dates_from f (cursor + 1) last
  end.

Definition InclusiveMarketDates (start end_ : string) : Result (list string) :=
  startDate ← ParseMarketDate start;
  endDate ← ParseMarketDate end_;
  if String.ltb endDate startDate then Fail (validation "dateRange" "start must not follow end")
  else match ParseDate startDate with
  | None => Fail (validation "dateRange" "start must use YYYY-MM-DD")
  | Some cursor =>
    match ParseDate endDate with
    | None => Fail (validation "dateRange" "end must use YYYY-MM-DD")
    | Some last => Ok (dates_from (Z.to_nat (last - cursor + 1)) cursor last)
    end
  end.

(** ** The clock of a household *)

Record MarketDataClock := mkClock { Now : Time; HouseholdTimezone : string }.

Definition timezone_invalid : goerror :=
  domainErr ErrHistoryTimezoneRequired "timezone" "timezone must be a valid IANA timezone".

Section Clock.
Context `{TZ : TimeZones}.

Definition NewMarketDataClock (now : Time) (timezone : string) : Result MarketDataClock :=
  let timezone := TrimSpace timezone in
  if bool_decide (timezone = ""%string)
  then Fail (domainErr ErrHistoryTimezoneRequired "timezone"
               "confirm a Household timezone before valuing market data")
  else match LoadLocation timezone with
  | None => Fail timezone_invalid
  | Some _ =>
    if timeIsZero now then Fail (validation "now" "backend clock is required")
    else Ok (mkClock now timezone)
  end.

Definition TodayLocal (c : MarketDataClock) : Result string :=
  match LoadLocation (HouseholdTimezone c) with
  | None => Fail timezone_invalid
  | Some location => Ok (FormatDate (wall location (Now c)))
  end.

Definition HouseholdDayCutoff (localDate timezone : string) : Result Time :=
  _ ← ParseMarketDate localDate;
  match ParseDate localDate with
  | None => Fail (validation "localDate" "local date must use YYYY-MM-DD")
  | Some parsed =>
    let nextLocal := format_days (parsed + 1) in
    nextMidnight ← ResolveLocalDateTime nextLocal "00:00" timezone;
    Ok (nextMidnight - Millisecond)
  end.
End Clock.

Definition ObservationEligible (valueEffectiveAt cutoff : Time) : bool :=
  if timeIsZero valueEffectiveAt || timeIsZero cutoff then false
  else negb (cutoff <? valueEffectiveAt).

(** ** Exchange sessions *)

Record EquitySessionSchedule := mkSchedule {
  sch_Timezone : string; sch_CloseClock : string; sch_EarlyClock : string; sch_Policy : string }.

Definition us_markets : list string :=
  ["US"; "US_EQUITY"; "XNYS"; "XNAS"; "XASE"; "ARCX"; "BATS"; "EDGX"; "IEXG"; "NYSE"; "NASDAQ";
   "AMEX"; "ARCA"; "BZX"; "IEX"]%string.

(** The cases of the switch, in order. *)
Definition equity_sessions : list (list string * EquitySessionSchedule) :=
  [ (us_markets, mkSchedule "America/New_York" "16:00" "13:00" "us_equity_regular_close_v1");
    (["CN"; "SSE"; "SZSE"; "BSE"; "XSHG"; "XSHE"]%string,
       mkSchedule "Asia/Shanghai" "15:00" "" "cn_equity_regular_close_v1");
    (["HK"; "HKEX"; "XHKG"]%string, mkSchedule "Asia/Hong_Kong" "16:00" "" "hk_equity_regular_close_v1");
    (["SG"; "SGX"; "XSES"]%string, mkSchedule "Asia/Singapore" "17:00" "" "sg_equity_regular_close_v1");
    (["JP"; "TSE"; "XTKS"]%string, mkSchedule "Asia/Tokyo" "15:30" "" "jp_equity_regular_close_v1");
    (["TW"; "TWSE"; "XTAI"]%string, mkSchedule "Asia/Taipei" "13:30" "" "tw_equity_regular_close_v1");
    (["KR"; "KRX"; "XKRX"]%string, mkSchedule "Asia/Seoul" "15:30" "" "kr_equity_regular_close_v1");
    (["AU"; "ASX"; "XASX"]%string, mkSchedule "Australia/Sydney" "16:00" "" "au_equity_regular_close_v1");
    (["GB"; "UK"; "LSE"; "XLON"]%string, mkSchedule "Europe/London" "16:30" "" "gb_equity_regular_close_v1");
    (["DE"; "XETRA"; "XFRA"]%string, mkSchedule "Europe/Berlin" "17:30" "" "de_equity_regular_close_v1");
    (["EURONEXT"; "XPAR"]%string, mkSchedule "Europe/Paris" "17:30" "" "eu_equity_regular_close_v1");
    (["CH"; "SIX"; "XSWX"]%string, mkSchedule "Europe/Zurich" "17:30" "" "ch_equity_regular_close_v1") ].

Definition EquitySessionScheduleForMarket (market : string) : option EquitySessionSchedule :=
  let market := ToUpper (TrimSpace market) in
  snd <$> List.find (λ c : list string * EquitySessionSchedule, bool_decide (market ∈ c.1)) equity_sessions.

Definition USListedEquityMarket (market : string) : bool :=
  bool_decide (ToUpper (TrimSpace market) ∈ us_markets).

Inductive SessionKind := SessionKindRegular | SessionKindEarlyClose | SessionKindUnknown | SessionKindRaw (raw : string).
#[export] Instance SessionKind_eq_dec : EqDecision SessionKind.
Proof. solve_decision. Defined.

Record SessionEvidence := mkSessionEvidence {
  se_Kind : SessionKind; se_Timezone : string; se_CloseClock : string; se_Policy : string }.

Record SessionResolution := mkResolution {
  sr_Status : string; sr_Reason : string; CloseInstant : Time; sr_TimestampBasis : string; sr_Policy : string }.

Definition uncertain (reason : string) : SessionResolution := mkResolution "uncertain" reason 0 "unknown" "".
Definition unsupported (reason : string) : SessionResolution := mkResolution "unsupported" reason 0 "" "".

Section Sessions.
Context `{TZ : TimeZones}.

(** The checks after the switch on the kind; [kind] is regular or early close. *)
Definition resolve_session (date : string) (early : bool) (evidence : SessionEvidence)
    (schedule : EquitySessionSchedule) : SessionResolution :=
  let timezone := TrimSpace (se_Timezone evidence) in
  if negb (bool_decide (timezone = ""%string)) && negb (bool_decide (timezone = sch_Timezone schedule))
  then uncertain "session_timezone_mismatch"
  else
    let timezone := if bool_decide (timezone = ""%string) then sch_Timezone schedule else timezone in
    let clock := TrimSpace (se_CloseClock evidence) in
    let given := negb (bool_decide (clock = ""%string)) in
    if negb given && early && bool_decide (sch_EarlyClock schedule = ""%string)
    then uncertain "early_close_clock_unverified"
    else
      let clock := if given then clock
                   else if early then sch_EarlyClock schedule else sch_CloseClock schedule in
      if negb early && negb (bool_decide (clock = sch_CloseClock schedule))
      then uncertain "session_close_clock_unverified"
      else if early && (bool_decide (sch_EarlyClock schedule = ""%string) ||
                        bool_decide (clock = sch_CloseClock schedule) ||
                        negb (bool_decide (clock = sch_EarlyClock schedule)))
      then uncertain "early_close_clock_unverified"
      else match ResolveLocalDateTime date clock timezone with
      | Fail _ => uncertain "session_clock_not_resolvable"
      | Ok closeInstant =>
        let policy := TrimSpace (se_Policy evidence) in
        if negb (bool_decide (policy = ""%string)) && negb (bool_decide (policy = sch_Policy schedule))
        then uncertain "session_policy_unverified"
        else mkResolution "mapped" "" closeInstant "session_close"
               (if bool_decide (policy = ""%string) then sch_Policy schedule else policy)
      end.

Definition ResolveEquitySessionClose (marketDate market : string) (evidence : SessionEvidence)
    : Result SessionResolution :=
  date ← ParseMarketDate marketDate;
  match EquitySessionScheduleForMarket (TrimSpace market) with
  | None => Ok (unsupported "market_not_supported_for_session_policy")
  | Some schedule =>
    match se_Kind evidence with
    | SessionKindUnknown => Ok (uncertain "session_timing_unknown")
    | SessionKindRegular => Ok (resolve_session date false evidence schedule)
    | SessionKindEarlyClose => Ok (resolve_session date true evidence schedule)
    | SessionKindRaw raw =>
      if bool_decide (raw = ""%string) then Ok (uncertain "session_timing_unknown")
      else Ok (unsupported "session_kind_unsupported")
    end
  end.

(** [t.In(l).AddDate(0, 0, days)] keeps the wall clock where it exists. *)
Definition AddDays (l : Location) (t : Time) (days : Z) : Time := DateIn l (wall l t + days * Day).

(** The loop of [LastFinalizedEquityMarketDate] from [i], with the turns left. *)
Fixpoint last_finalized (turns : nat) (i : Z) (location : Location) (now : Time) (market : string)
    (evidence : SessionEvidence) : Result string :=
  match turns with
  | O => Fail (validation "session" "no finalized equity close is available")
  | S turns =>
    let date := FormatDate (wall location (AddDays location now (- i))) in
    session ← ResolveEquitySessionClose date market evidence;
    if bool_decide (sr_Status session = "mapped"%string) && (CloseInstant session <? now) then Ok date
    else last_finalized turns (i + 1) location now market evidence
  end.

Definition LastFinalizedEquityMarketDate (now : Time) (market : string) : Result string :=
  if timeIsZero now then Fail (validation "now" "backend clock is required")
  else match EquitySessionScheduleForMarket market with
  | None => Fail (validation "market" "market is not supported for session policy")
  | Some schedule =>
    match LoadLocation (sch_Timezone schedule) with
    | None => Fail (OtherErr "unknown time zone")
    | Some location =>
      let evidence := mkSessionEvidence SessionKindRegular (sch_Timezone schedule)
                        (sch_CloseClock schedule) (sch_Policy schedule) in
      last_finalized 14 0 location now market evidence
    end
  end.
End Sessions.

(** ** Daily bars *)

Definition CryptoDailyBarMarket (market : string) : bool :=
  bool_decide (ToUpper (TrimSpace market) ∈ ["CRYPTO"; "CCC"; "CC"; "COIN"; "CRYPTOCURRENCY"]%string).

Definition InstrumentUsesCryptoDailyBar (instrumentType market : string) : bool :=
  match ParseInstrumentType instrumentType with
  | Ok parsed => bool_decide (parsed = InstrumentCrypto)
  | Fail _ => bool_decide (TrimSpace instrumentType = ""%string) && CryptoDailyBarMarket market
  end.

Definition endOfUTCCalendarDay (dateLabel field : string) : Result Time :=
  date ← ParseMarketDate dateLabel;
  match ParseDate date with
  | None => Fail (validation field "must use YYYY-MM-DD")
  | Some parsed => Ok (utc_midnight (parsed + 1) - Millisecond)
  end.

Definition CryptoDailyBarEligibleAt (marketDate : string) : Result Time :=
  endOfUTCCalendarDay marketDate "marketDate".
Definition FrankfurterReferenceEligibleAt (referenceDate : string) : Result Time :=
  endOfUTCCalendarDay referenceDate "referenceDate".

(** The loop over the last three days. *)
Fixpoint last_crypto_bar (turns : nat) (i : Z) (now : Time) : Result string :=
  match turns with
  | O => Fail (validation "session" "no finalized crypto daily bar is available")
  | S turns =>
    let date := FormatDate (now - i * Day) in
    eligible ← CryptoDailyBarEligibleAt date;
    if eligible <? now then Ok date else last_crypto_bar turns (i + 1) now
  end.

Definition LastFinalizedCryptoMarketDate (now : Time) : Result string :=
  if timeIsZero now then Fail (validation "now" "backend clock is required")
  else last_crypto_bar 3 1 now.

(** [strings.EqualFold], exact when one of the texts is ASCII: the only other runes
    that fold into ASCII are U+017F (long s) and U+212A (Kelvin sign). *)
Fixpoint FoldCase (s : string) : string :=
  match s with
  | EmptyString => ""
  | String a r =>
    match r with
    | String b r1 =>
      if (byteZ a =? 197) && (byteZ b =? 191) then String "s" (FoldCase r1)
      else match r1 with
      | String c r2 =>
        if (byteZ a =? 226) && (byteZ b =? 132) && (byteZ c =? 170) then String "k" (FoldCase r2)
        else String (lower_byte a) (FoldCase r)
      | EmptyString => String (lower_byte a) (FoldCase r)
      end
    | EmptyString => String (lower_byte a) ""
    end
  end.
Definition EqualFold (s t : string) : bool := bool_decide (FoldCase s = FoldCase t).

Definition UsesMetalFuturesHistory (instrumentType market : string) : bool :=
  bool_decide (instrumentType = InstrumentType_String InstrumentPreciousMetal) && EqualFold market MetalFuturesMarket.

Definition UsesMetalConversion (i : Instrument) : bool :=
  bool_decide (i_Type i = InstrumentPreciousMetal) &&
  negb (bool_decide (MetalProviderSymbol (MetalTemplate i) = ""%string)).

(** Saturdays and Sundays among the dates that parse. *)
Definition weekend_date (date : string) : bool :=
  match ParseDate date with Some day => is_weekend day | None => false end.

Definition MetalDailyReferenceClosedDate (instrumentType market symbol date : string) : bool :=
  if negb (UsesMetalFuturesHistory instrumentType market) ||
     (negb (bool_decide (symbol = "GC=F"%string)) && negb (bool_decide (symbol = "SI=F"%string)))
  then false else weekend_date date.

Definition new_york : string := "America/New_York".

Section Metal.
Context `{TZ : TimeZones}.

Definition MetalDailyBarEligibleAt (date : string) : Result Time :=
  _ ← ParseMarketDate date;
  match LoadLocation new_york with
  | None => Fail (OtherErr "unknown time zone")
  | Some loc =>
    match ParseDate date with
    | None => Fail (OtherErr "cannot parse the date")
    | Some day => Ok (AddDays loc (DateIn loc (utc_midnight day)) 1 - Millisecond)
    end
  end.

Definition LastFinalizedMetalMarketDate (now : Time) : Result string :=
  match LoadLocation new_york with
  | None => Fail (OtherErr "unknown time zone")
  | Some loc => Ok (FormatDate (wall loc (AddDays loc now (-1))))
  end.
End Metal.

(** ** Which provider may supply a history *)

Record InstrumentRoute := mkRoute { rt_ProviderKey : string; rt_Status : string; rt_Reason : string }.

Definition InstrumentRouteOK : string := "ok".
Definition InstrumentRouteUnsupported : string := "unsupported".
Definition InstrumentRouteBindingMissing : string := "binding_missing".

Definition InstrumentTypeUnsupported : string := "instrument_type_unsupported".
Definition MarketSessionUnsupported : string := "market_not_supported_for_session_policy".

Definition ResolveInstrumentHistorySupport (instrumentType market providerKey : string) : InstrumentRoute :=
  let provider := ToLower (TrimSpace providerKey) in
  let parsed := match ParseInstrumentType instrumentType with
    | Ok t => Some t
    | Fail _ =>
      if bool_decide (TrimSpace instrumentType = ""%string) then
        match EquitySessionScheduleForMarket market with
        | Some _ => Some InstrumentStock
        | None => if CryptoDailyBarMarket market then Some InstrumentCrypto else None
        end
      else None
    end in
  match parsed with
  | None => mkRoute provider InstrumentRouteUnsupported InstrumentTypeUnsupported
  | Some parsed =>
    let yahoo := bool_decide (provider = YahooFinanceProviderKey) in
    let coingecko := bool_decide (provider = CoinGeckoProviderKey) in
    if UsesMetalFuturesHistory instrumentType market && yahoo then mkRoute provider InstrumentRouteOK ""
    else if coingecko && negb (bool_decide (parsed = InstrumentCrypto))
    then mkRoute "" InstrumentRouteUnsupported "coingecko_crypto_only"
    else match parsed with
    | InstrumentStock | InstrumentETF =>
      match EquitySessionScheduleForMarket market with
      | None => mkRoute provider InstrumentRouteUnsupported MarketSessionUnsupported
      | Some _ =>
        if negb (bool_decide (provider = ""%string)) && negb yahoo
        then mkRoute "" InstrumentRouteUnsupported "provider_not_selectable"
        else mkRoute provider InstrumentRouteOK ""
      end
    | InstrumentCrypto =>
      if coingecko || yahoo || bool_decide (provider = ""%string)
      then mkRoute (if bool_decide (provider = ""%string) then YahooFinanceProviderKey else provider)
             InstrumentRouteOK ""
      else mkRoute "" InstrumentRouteUnsupported "provider_not_selectable"
    | _ => mkRoute provider InstrumentRouteUnsupported InstrumentTypeUnsupported
    end
  end.

(** ** Days without a price *)

(** Crypto assets and other instruments have no default weekend. *)
Definition DefaultInstrumentClosedDate (kind : option InstrumentType) (date : string) : bool :=
  match kind with
  | Some (InstrumentStock | InstrumentETF | InstrumentMutualFund | InstrumentBankInvestmentProduct
         | InstrumentBond | InstrumentPreciousMetal) => weekend_date date
  | _ => false
  end.

Record InstrumentClosure := mkClosure {
  ic_ID : string; ic_InstrumentID : InstrumentID; ic_Date : string; ic_EffectiveAt : Time;
  ic_Timezone : string; ic_CreatedAt : Time }.

Definition HasInstrumentClosure (id : InstrumentID) (date : string) (closures : list InstrumentClosure) : bool :=
  existsb (λ c, bool_decide (ic_InstrumentID c = id) && bool_decide (ic_Date c = date)) closures.

(** Of the instrument only [ID] and [Type] are read; [None] is a type outside the list
    of known ones. *)
Definition InstrumentClosedCarry (id : InstrumentID) (kind : option InstrumentType) (from to : string)
    (closures : list InstrumentClosure) : bool :=
  if bool_decide (from = ""%string) || bool_decide (to = ""%string) || String.ltb to from then false
  else if bool_decide (from = to)
  then DefaultInstrumentClosedDate kind to || HasInstrumentClosure id to closures
  else match InclusiveMarketDates from to with
  | Fail _ => false
  | Ok dates =>
    let closed : gset string :=
      list_to_set (ic_Date <$> List.filter (λ c, bool_decide (ic_InstrumentID c = id)) closures) in
    forallb (λ date, bool_decide (date = from) || DefaultInstrumentClosedDate kind date ||
                     bool_decide (date ∈ closed)) dates
  end.

(** ** Recorded coverage *)

Record InstrumentHistoryCoverage := mkCoverage {
  ClosedDates : list string; hc_InstrumentID : InstrumentID; hc_InstrumentType : string;
  hc_ProviderKey : string; hc_ProviderSymbol : string; Market : string; hc_QuoteCurrency : CurrencyCode;
  hc_BindingRevision : Z; hc_SourcePolicyVersion : string; CloseMarketDates : list string;
  CloseFetchedAt : gmap string Time; UnverifiedDates : list string; NoObservationDates : list string;
  hc_NoObservationExpiresAt : gmap string Time; hc_NoObservationCheckedAt : gmap string Time }.

Record FXHistoryCoverage := mkFXCoverage {
  fc_BaseCurrency : CurrencyCode; fc_QuoteCurrency : CurrencyCode; fc_ProviderKey : string;
  fc_SourcePolicyVersion : string; DailyReferenceDates : list string;
  DailyReferenceFetchedAt : gmap string Time; fc_UnverifiedDates : list string;
  fc_NoObservationDates : list string; fc_NoObservationExpiresAt : gmap string Time;
  fc_NoObservationCheckedAt : gmap string Time }.

(** The loop over the known closes keeps two flags and ends at the date itself. *)
Fixpoint closes_around (date : string) (closes : list string) (before after : bool) : bool :=
  match closes with
  | [] => before && after
  | close :: closes =>
    if bool_decide (close = date) then false
    else closes_around date closes (before || String.ltb close date) (after || String.ltb date close)
  end.

Definition InferredInstrumentClosure (coverage : InstrumentHistoryCoverage) (date : string) : bool :=
  if InstrumentUsesCryptoDailyBar (hc_InstrumentType coverage) (Market coverage) then false
  else match EquitySessionScheduleForMarket (Market coverage) with
  | None => false
  | Some _ =>
    if existsb (λ pending, bool_decide (pending = date)) (UnverifiedDates coverage) then false
    else closes_around date (CloseMarketDates coverage) false false
  end.

(** [domain.InstrumentType(text)] is a conversion without a check. *)
Definition instrument_type (text : string) : option InstrumentType :=
  List.find (λ t, bool_decide (InstrumentType_String t = text)) AllInstrumentTypes.

Definition instrumentKnownClosedDate (coverage : InstrumentHistoryCoverage) (date : string) : bool :=
  if existsb (λ closed, bool_decide (closed = date)) (ClosedDates coverage) then true
  else if DefaultInstrumentClosedDate (instrument_type (hc_InstrumentType coverage)) date then true
  else if InstrumentUsesCryptoDailyBar (hc_InstrumentType coverage) (Market coverage) then false
  else if MetalDailyReferenceClosedDate (hc_InstrumentType coverage) (Market coverage)
            (hc_ProviderSymbol coverage) date then true
  else match EquitySessionScheduleForMarket (Market coverage) with
  | None => false
  | Some _ => weekend_date date
  end.

(** ** Archived sources *)

Definition archivedRawCloseBasis (basis : string) : bool := bool_decide (basis = "tiingo_raw_close_v1"%string).

(** Whether the source is an archived one, and whether its evidence is complete. *)
Definition ArchivedInstrumentQuality (source basis policy timestamp : string) : bool * bool :=
  if negb (bool_decide (source = "tiingo"%string)) then (false, false)
  else (true, archivedRawCloseBasis basis && bool_decide (policy = basis) &&
              bool_decide (timestamp = "session_close"%string)).

(** ** Properties *)

Lemma is_date_format s n : is_date s n → format_days n = s.
Proof. apply format_days_of_parse. Qed.

Lemma is_date_inj s n k : is_date s n → is_date s k → n = k.
Proof. unfold is_date. congruence. Qed.

Lemma is_date_text s t n : is_date s n → is_date t n → s = t.
Proof. intros Hs Ht. by rewrite <-(is_date_format s n), <-(is_date_format t n). Qed.

Lemma is_date_between s t a b n : is_date s a → is_date t b → a <= n <= b → is_date (format_days n) n.
Proof.
  intros Hs Ht Hn. apply is_date_range in Hs, Ht. apply ParseDate_format_days. lia.
Qed.

Lemma date_ltb s t n k : is_date s n → is_date t k → String.ltb s t = (n <? k).
Proof.
  intros Hs Ht. unfold String.ltb. change (String.compare s t) with (scompare s t).
  rewrite (date_compare s t n k) by done. rewrite Z.ltb_compare. by destruct (n ?= k).
Qed.

Lemma date_eqb s t n k : is_date s n → is_date t k → bool_decide (s = t) = (n =? k).
Proof.
  intros Hs Ht. destruct (Z.eqb_spec n k) as [->|Hne].
  - apply bool_decide_eq_true. by apply (is_date_text s t k).
  - apply bool_decide_eq_false. intros ->. by apply Hne, (is_date_inj t).
Qed.

Lemma ParseMarketDate_id s n : is_date s n → ParseMarketDate s = Ok s.
Proof.
  intros H. destruct (date_graphic s n H) as [Hg Hne]. unfold ParseMarketDate.
  rewrite TrimSpace_graphic by done. pose proof H as E. unfold is_date in E. rewrite E.
  by rewrite bool_decide_eq_true_2 by by apply is_date_format.
Qed.

(** Enough turns: the loop lists every day between its ends. *)
Lemma dates_from_seqZ fuel a b : b - a + 1 <= Z.of_nat fuel → dates_from fuel a b = format_days <$> seqZ a (b - a + 1).
Proof.
  revert a. induction fuel as [|f IH]; intros a Hf; cbn [dates_from].
  - by rewrite seqZ_nil by lia.
  - destruct (Z.ltb_spec b a); [by rewrite seqZ_nil by lia|].
    rewrite IH by lia. rewrite (seqZ_cons a) by lia. cbn. repeat f_equal; lia.
Qed.

Lemma InclusiveMarketDates_seqZ s t a b : is_date s a → is_date t b → a <= b →
  InclusiveMarketDates s t = Ok (format_days <$> seqZ a (b - a + 1)).
Proof.
  intros Hs Ht Hab. unfold InclusiveMarketDates.
  rewrite (ParseMarketDate_id s a), (ParseMarketDate_id t b) by done. cbn.
  rewrite (date_ltb t s b a) by done. destruct (Z.ltb_spec b a); [lia|].
  unfold is_date in Hs, Ht. rewrite Hs, Ht. by rewrite dates_from_seqZ by lia.
Qed.

Lemma ParseMarketDate_spec v :
  match ParseMarketDate v with
  | Ok s => s = TrimSpace v ∧ ∃ n, is_date (TrimSpace v) n
  | Fail _ => ¬ ∃ n, is_date (TrimSpace v) n
  end.
Proof.
  unfold ParseMarketDate. destruct (ParseDate (TrimSpace v)) as [n|] eqn:E.
  - rewrite bool_decide_eq_true_2 by by apply is_date_format. split; [done|by exists n].
  - intros [n Hn]. unfold is_date in Hn. congruence.
Qed.

(** The two ends as days, and the dates between them; refused otherwise. *)
Lemma InclusiveMarketDates_spec start end_ :
  match InclusiveMarketDates start end_ with
  | Ok dates => ∃ a b, is_date (TrimSpace start) a ∧ is_date (TrimSpace end_) b ∧ a <= b ∧
                       dates = format_days <$> seqZ a (b - a + 1)
  | Fail _ => ¬ ∃ a b, is_date (TrimSpace start) a ∧ is_date (TrimSpace end_) b ∧ a <= b
  end.
Proof.
  unfold InclusiveMarketDates.
  pose proof (ParseMarketDate_spec start) as Hs. pose proof (ParseMarketDate_spec end_) as Ht.
  destruct (ParseMarketDate start) as [s|]; cbn [mbind Result_bind]; [|naive_solver].
  destruct (ParseMarketDate end_) as [t|]; cbn [mbind Result_bind]; [|naive_solver].
  destruct Hs as [-> [a Ha]], Ht as [-> [b Hb]]. rewrite (date_ltb _ _ b a) by done.
  destruct (Z.ltb_spec b a) as [Hlt|Hle].
  - intros (a' & b' & Ha' & Hb' & Hle). rewrite (is_date_inj _ _ _ Ha Ha'), (is_date_inj _ _ _ Hb Hb') in Hlt. lia.
  - pose proof Ha as Ea. pose proof Hb as Eb. unfold is_date in Ea, Eb. rewrite Ea, Eb.
    rewrite dates_from_seqZ by lia. by exists a, b.
Qed.

(** A range of market dates lists exactly the calendar days between its ends,
    both included, each once and in ascending order; it is refused exactly when an end is
    not a date or the start follows the end. *)
Theorem InclusiveMarketDates_correct start end_ :
  match InclusiveMarketDates start end_ with
  | Ok dates => ∃ a b, is_date (TrimSpace start) a ∧ is_date (TrimSpace end_) b ∧
      Z.of_nat (List.length dates) = b - a + 1 ∧
      (∀ d, d ∈ dates ↔ ∃ n, is_date d n ∧ a <= n <= b) ∧
      (∀ (i j : nat) d e, (i < j)%nat → dates !! i = Some d → dates !! j = Some e → String.ltb d e = true)
  | Fail _ => ¬ ∃ a b, is_date (TrimSpace start) a ∧ is_date (TrimSpace end_) b ∧ a <= b
  end.
Proof.
  pose proof (InclusiveMarketDates_spec start end_) as H.
  destruct (InclusiveMarketDates start end_) as [dates|]; [|done].
  destruct H as (a & b & Ha & Hb & Hab & ->). exists a, b. rewrite length_fmap, length_seqZ.
  split; [done|]. split; [done|]. split; [lia|]. split.
  - intros d. rewrite list_elem_of_fmap. setoid_rewrite elem_of_seqZ. split.
    + intros (n & -> & Hn). exists n. split; [|lia]. by eapply is_date_between; [apply Ha|apply Hb|lia].
    + intros (n & Hd & Hn). exists n. rewrite (is_date_format d n) by done. split; [done|lia].
  - intros i j d e Hij Hd He. apply list_lookup_fmap_Some in Hd as (n & -> & Hn).
    apply list_lookup_fmap_Some in He as (k & -> & Hk). apply lookup_seqZ in Hn as [-> Hi], Hk as [-> Hj].
    rewrite (date_ltb _ _ (a + Z.of_nat i) (a + Z.of_nat j)) by (eapply is_date_between; [apply Ha|apply Hb|lia]).
    apply Z.ltb_lt. lia.
Qed.

(** The day [n] is one on which the instrument publishes no price. *)
Definition closed_day (id : InstrumentID) (kind : option InstrumentType) (closures : list InstrumentClosure) (n : Z) : bool :=
  DefaultInstrumentClosedDate kind (format_days n) || HasInstrumentClosure id (format_days n) closures.

Lemma closed_set_spec id closures date :
  bool_decide (date ∈ (list_to_set (ic_Date <$> List.filter (λ c, bool_decide (ic_InstrumentID c = id)) closures) : gset string))
  = HasInstrumentClosure id date closures.
Proof.
  apply eq_true_iff_eq. rewrite bool_decide_eq_true, elem_of_list_to_set, list_elem_of_fmap.
  unfold HasInstrumentClosure. rewrite existsb_exists. split.
  - intros (c & -> & Hc). apply list_elem_of_In, List.filter_In in Hc as [Hc Hid].
    exists c. split; [done|]. rewrite Hid. by rewrite bool_decide_eq_true_2.
  - intros (c & Hc & H). apply andb_true_iff in H as [Hid Hd]. apply bool_decide_eq_true in Hd.
    exists c. split; [done|]. apply list_elem_of_In, List.filter_In. done.
Qed.

(** A price is carried from one date to another exactly when every day after
    the first, up to and including the second, is closed for the instrument, by the weekend
    of its type or by a recorded closure; on a single date, when that date is closed. *)
Theorem InstrumentClosedCarry_correct id kind from to closures a b :
  is_date from a → is_date to b →
  InstrumentClosedCarry id kind from to closures = true ↔
  (a < b ∧ ∀ n, a < n <= b → closed_day id kind closures n = true) ∨
  (a = b ∧ closed_day id kind closures b = true).
Proof.
  intros Ha Hb. unfold InstrumentClosedCarry.
  rewrite (bool_decide_eq_false_2 (from = _)), (bool_decide_eq_false_2 (to = _)) by (by eapply date_graphic).
  cbn [orb]. rewrite (date_ltb to from b a), (date_eqb from to a b) by done.
  destruct (Z.ltb_spec b a) as [Hlt|Hle]; [split; [done|lia]|].
  destruct (Z.eqb_spec a b) as [->|Hne].
  - unfold closed_day. rewrite (is_date_format to b) by done. intuition lia.
  - rewrite (InclusiveMarketDates_seqZ from to a b) by (done || lia). rewrite forallb_forall. split.
    + intros H. left. split; [lia|]. intros n Hn. specialize (H (format_days n)).
      rewrite closed_set_spec in H. unfold closed_day.
      assert (Hin : In (format_days n) (format_days <$> seqZ a (b - a + 1))).
      { apply list_elem_of_In, list_elem_of_fmap. exists n. rewrite elem_of_seqZ. split; [done|lia]. }
      specialize (H Hin). rewrite (date_eqb _ from n a) in H by (done || by eapply is_date_between; [apply Ha|apply Hb|lia]).
      destruct (Z.eqb_spec n a); [lia|]. done.
    + intros [[_ H]|[? _]]; [|lia]. intros d Hd. apply list_elem_of_In, list_elem_of_fmap in Hd as (n & -> & Hn).
      apply elem_of_seqZ in Hn. rewrite closed_set_spec.
      rewrite (date_eqb _ from n a) by (done || by eapply is_date_between; [apply Ha|apply Hb|lia]).
      destruct (Z.eqb_spec n a); [done|]. apply (H n). lia.
Qed.

Lemma closes_around_spec date closes before after :
  closes_around date closes before after = true ↔
  date ∉ closes ∧ (before = true ∨ ∃ c, c ∈ closes ∧ String.ltb c date = true) ∧
  (after = true ∨ ∃ c, c ∈ closes ∧ String.ltb date c = true).
Proof.
  revert before after. induction closes as [|c closes IH]; intros before after; cbn [closes_around].
  - rewrite andb_true_iff. set_solver.
  - case_bool_decide as Hc; [set_solver|]. rewrite IH, !orb_true_iff. set_solver.
Qed.

(** An empty date is taken for a closed day exactly when the instrument trades
    on a known equity market, the date is not awaiting verification, it has no close, and
    there are known closes both before and after it: the beginning of a history and its open
    end are never inferred to be closed. *)
Theorem InferredInstrumentClosure_correct coverage date :
  InferredInstrumentClosure coverage date = true ↔
  InstrumentUsesCryptoDailyBar (hc_InstrumentType coverage) (Market coverage) = false ∧
  (∃ schedule, EquitySessionScheduleForMarket (Market coverage) = Some schedule) ∧
  date ∉ UnverifiedDates coverage ∧ date ∉ CloseMarketDates coverage ∧
  (∃ c, c ∈ CloseMarketDates coverage ∧ String.ltb c date = true) ∧
  (∃ c, c ∈ CloseMarketDates coverage ∧ String.ltb date c = true).
Proof.
  unfold InferredInstrumentClosure. destruct (InstrumentUsesCryptoDailyBar _ _); [naive_solver|].
  destruct (EquitySessionScheduleForMarket _); [|naive_solver].
  destruct (existsb _ _) eqn:E.
  - apply existsb_exists in E as (d & Hd & E). apply bool_decide_eq_true in E as ->.
    apply list_elem_of_In in Hd. naive_solver.
  - rewrite closes_around_spec.
    assert (date ∉ UnverifiedDates coverage).
    { intros Hin. rewrite <-not_true_iff_false, existsb_exists in E. apply E. exists date.
      rewrite <-list_elem_of_In. split; [done|by apply bool_decide_eq_true]. }
    naive_solver.
Qed.
