(* ===== verification/MarketPolicy.v ===== *)
(** * Market-data policies

    Which provider a listing is fetched from and when a cached answer is due again
    ([marketdata_sync.go]), what a batch of a history proves about the dates that were
    asked for ([marketdata_completeness.go]), and the rate that a stored observation
    gives for a pair of currencies ([marketdata_fx.go]). *)

From S2P Require Export MarketDates.
From S2P Require Import DecimalModel.
From Stdlib Require Import String Ascii Sorted.

#[global] Open Scope Z_scope.

(** ** Routes *)

Definition FrankfurterProviderKey : string := "frankfurter".

Definition binding_missing (provider : string) : InstrumentRoute :=
  mkRoute provider InstrumentRouteBindingMissing "binding_missing".
Definition route_unsupported (reason : string) : InstrumentRoute := mkRoute "" InstrumentRouteUnsupported reason.

Definition ResolveInstrumentRoute (market preferredProvider providerSymbol : string) : InstrumentRoute :=
  let preferred := ToLower (TrimSpace preferredProvider) in
  let symbol := TrimSpace providerSymbol in
  let unbound := bool_decide (symbol = ""%string) in
  let unset := bool_decide (preferred = ""%string) in
  let yahoo := bool_decide (preferred = YahooFinanceProviderKey) in
  if bool_decide (preferred = CoinGeckoProviderKey) then
    if negb (CryptoDailyBarMarket market) then route_unsupported "coingecko_crypto_only"
    else if unbound then binding_missing preferred
    else mkRoute preferred InstrumentRouteOK ""
  else if bool_decide (preferred = FrankfurterProviderKey) then route_unsupported "frankfurter_is_fx_only"
  else if USListedEquityMarket market then
    if unset then if unbound then binding_missing "" else mkRoute YahooFinanceProviderKey InstrumentRouteOK ""
    else if yahoo then if unbound then binding_missing preferred else mkRoute preferred InstrumentRouteOK ""
    else route_unsupported "provider_not_selectable"
  else if negb unset && negb yahoo then route_unsupported "provider_not_selectable"
  else if unbound || unset then binding_missing YahooFinanceProviderKey
  else mkRoute preferred InstrumentRouteOK "".

(** ** Caches *)

Definition RecentNoObservationWindow : Z := 7.
Definition RecentCorrectionWindow : Z := 3.
Definition RecentNoObservationTTL : Z := 24 * Hour.
Definition OlderNoObservationTTL : Z := 30 * 24 * Hour.
Definition RecentCorrectionTTL : Z := 24 * Hour.

Definition LastNInclusiveDates (end_ : string) (n : Z) : Result (list string) :=
  if n <=? 0 then Fail (validation "count" "must be positive")
  else
    endDate ← ParseMarketDate end_;
    match ParseDate endDate with
    | None => Fail (validation "marketDate" "must use YYYY-MM-DD")
    | Some parsed => InclusiveMarketDates (format_days (parsed - (n - 1))) endDate
    end.

Definition DateInLastN (date lastFinalized : string) (n : Z) : Result bool :=
  window ← LastNInclusiveDates lastFinalized n;
  date ← ParseMarketDate date;
  Ok (existsb (λ item, bool_decide (item = date)) window).

Definition NoObservationExpiresAt `{TZ : TimeZones} (marketDate : string) (checkedAt : Time) : Result Time :=
  if timeIsZero checkedAt then Fail (validation "checkedAt" "checked time is required")
  else match LastFinalizedEquityMarketDate checkedAt "US" with
  | Fail _ => Ok (checkedAt + RecentNoObservationTTL)
  | Ok lastFinalized =>
    recent ← DateInLastN marketDate lastFinalized RecentNoObservationWindow;
    Ok (checkedAt + (if (recent : bool) then RecentNoObservationTTL else OlderNoObservationTTL))
  end.

Definition LatestRequestDue (lastSuccessfulCheck now : Time) (ttl : Z) (force : bool) : bool :=
  if force then true
  else if (ttl <=? 0) || timeIsZero lastSuccessfulCheck then true
  else negb (now <? lastSuccessfulCheck + ttl).

Inductive HistoryFetchAction := HistoryFetch | HistorySkipExistingClose | HistorySkipNoObservation.
#[export] Instance HistoryFetchAction_eq_dec : EqDecision HistoryFetchAction.
Proof. solve_decision. Defined.

Record HistoryFetchDecision := mkDecision { fd_Action : HistoryFetchAction; fd_Reason : string }.

Record HistoryFetchInput := mkFetchInput {
  fi_Date : string; LastFinalized : string; fi_Now : Time; ForceRecheck : bool; HasClose : bool;
  fi_CloseFetchedAt : Time; HasNoObservation : bool; fi_NoObservationExpiresAt : Time;
  NoObservationHasExpiry : bool; fi_NoObservationCheckedAt : Time }.

Definition DecideHistoryFetch (input : HistoryFetchInput) : HistoryFetchDecision :=
  if ForceRecheck input then mkDecision HistoryFetch "force_recheck"
  else match DateInLastN (fi_Date input) (LastFinalized input) RecentCorrectionWindow with
  | Fail _ => mkDecision HistoryFetch "invalid_date"
  | Ok inCorrection =>
    let correctionDue lastChecked :=
      if negb inCorrection then false
      else LatestRequestDue lastChecked (fi_Now input) RecentCorrectionTTL false in
    if HasClose input then
      if correctionDue (fi_CloseFetchedAt input) then mkDecision HistoryFetch "recent_correction"
      else mkDecision HistorySkipExistingClose "existing_close"
    else if HasNoObservation input then
      if NoObservationHasExpiry input && negb (timeIsZero (fi_NoObservationExpiresAt input)) &&
         negb (fi_Now input <? fi_NoObservationExpiresAt input)
      then mkDecision HistoryFetch "no_observation_expired"
      else if correctionDue (fi_NoObservationCheckedAt input)
      then mkDecision HistoryFetch "recent_correction"
      else mkDecision HistorySkipNoObservation "unexpired_no_observation"
    else mkDecision HistoryFetch "coverage_gap"
  end.

(** ** What a batch proves *)

Record InclusiveDateRange := mkRange { Start : string; End' : string }.

Record HistoryCompleteness := mkCompleteness {
  VerifiedRanges : list InclusiveDateRange; PendingRanges : list InclusiveDateRange;
  UncertainRanges : list InclusiveDateRange; co_Status : string; co_Reason : string }.

Definition addMarketDays (date : string) (days : Z) : Result string :=
  parsed ← ParseMarketDate date;
  match ParseDate parsed with
  | None => Fail (validation "marketDate" "must use YYYY-MM-DD")
  | Some value => Ok (format_days (value + days))
  end.

(** The loop of [collapseDates] with its variables [start] and [prev]. *)
Fixpoint collapse_from (start prev : string) (dates : list string) : list InclusiveDateRange :=
  match dates with
  | [] => [mkRange start prev]
  | date :: dates =>
    let adjacent := match addMarketDays prev 1 with Ok next => bool_decide (date = next) | Fail _ => false end in
    if adjacent then collapse_from start date dates
    else mkRange start prev :: collapse_from date date dates
  end.
Definition collapseDates (dates : list string) : list InclusiveDateRange :=
  match dates with [] => [] | date :: dates => collapse_from date date dates end.

Inductive DateClass := DateVerified | DatePending | DateUncertain.
#[export] Instance DateClass_eq_dec : EqDecision DateClass.
Proof. solve_decision. Defined.

(** The switch of the last loop. *)
Definition classify_date (pending : gset string) (finalized date : string) : DateClass :=
  if bool_decide (date ∈ pending) then DatePending
  else if negb (String.ltb finalized date) then DateVerified
  else DateUncertain.

Definition dates_of (pending : gset string) (finalized : string) (c : DateClass) (dates : list string) : list string :=
  List.filter (λ d, bool_decide (classify_date pending finalized d = c)) dates.

Definition ClassifyHistoryCompleteness (requestedStart requestedEnd lastFinalized : string)
    (pendingDates : list string) (truncated malformed : bool) : Result HistoryCompleteness :=
  if malformed then Ok (mkCompleteness [] [] [] "invalid" "invalid_batch")
  else
    dates ← InclusiveMarketDates requestedStart requestedEnd;
    pendingSet ← foldM (λ set date, parsed ← ParseMarketDate date; Ok ({[parsed]} ∪ set)) (∅ : gset string) pendingDates;
    if truncated
    then Ok (mkCompleteness [] [] [mkRange requestedStart requestedEnd] "uncertain" "truncated_response")
    else if bool_decide (TrimSpace lastFinalized = ""%string)
    then Ok (mkCompleteness [] [mkRange requestedStart requestedEnd] [] "pending" "publication_not_ready")
    else
      finalized ← ParseMarketDate lastFinalized;
      let ranges c := collapseDates (dates_of pendingSet finalized c dates) in
      Ok (mkCompleteness (ranges DateVerified) (ranges DatePending) (ranges DateUncertain) "classified" "").

(** ** Rates of a pair *)

Section FXMapping.
Context `{DecimalAPI}.

Inductive FXMappingStatus := FXMappingIdentity | FXMappingDirect | FXMappingReciprocal | FXMappingUnsupported.

(** The zero [FxRate] of an unsupported pair is [None]. *)
Record FXMapping := mkMapping {
  fm_Status : FXMappingStatus; fm_Rate : option FxRate; fm_Base : CurrencyCode; fm_Quote : CurrencyCode;
  Derived : bool; fm_Reason : string }.

Definition fxInversionIntermediateScale : Z := 24.

Definition InvertFxRateHalfEven (rate : FxRate) : Result FxRate :=
  if dIsZero (r_value rate) then Fail (validation "fxRate" "must be greater than zero")
  else
    let shifted := dRoundBank (dDiv (dShift (dInt 1) fxInversionIntermediateScale) (r_value rate)) 0 in
    let intermediate := dShift shifted (- fxInversionIntermediateScale) in
    NewFxRate (dRoundBank intermediate 12).

Definition isSupportedFXCurrency (code : CurrencyCode) : bool :=
  existsb (λ supported, bool_decide (supported = code)) SupportedCurrencies.

Definition MapFXRate (base quote storedBase storedQuote : CurrencyCode) (storedRate : string) : Result FXMapping :=
  base ← ParseCurrency base;
  quote ← ParseCurrency quote;
  let unsupported reason := Ok (mkMapping FXMappingUnsupported None base quote false reason) in
  if bool_decide (base = quote) then
    identity ← ParseFxRate "1";
    Ok (mkMapping FXMappingIdentity (Some identity) base quote false "")
  else if negb (isSupportedFXCurrency base) || negb (isSupportedFXCurrency quote)
  then unsupported "unsupported_currency_pair"
  else
    let storedRate := TrimSpace storedRate in
    if bool_decide (storedRate = ""%string) then unsupported "rate_missing"
    else match ParseFxRate storedRate with
    | Fail _ => unsupported "malformed_rate"
    | Ok rate =>
      storedBase ← ParseCurrency storedBase;
      storedQuote ← ParseCurrency storedQuote;
      if bool_decide (storedBase = base) && bool_decide (storedQuote = quote)
      then Ok (mkMapping FXMappingDirect (Some rate) base quote false "")
      else if bool_decide (storedBase = quote) && bool_decide (storedQuote = base) then
        inverted ← InvertFxRateHalfEven rate;
        Ok (mkMapping FXMappingReciprocal (Some inverted) base quote true "")
      else unsupported "no_application_triangulation"
    end.
End FXMapping.

(** ** Properties *)

(** The days of a list of ranges. *)
Definition covered (ranges : list InclusiveDateRange) (n : Z) : Prop :=
  ∃ r a b, r ∈ ranges ∧ is_date (Start r) a ∧ is_date (End' r) b ∧ a <= n <= b.

(** Neighbouring ranges leave at least one day between them. *)
Definition separated (ranges : list InclusiveDateRange) : Prop :=
  ∀ i r r', ranges !! i = Some r → ranges !! S i = Some r' →
    ∃ b a, is_date (End' r) b ∧ is_date (Start r') a ∧ b + 1 < a.

Lemma covered_cons r a b rs n : is_date (Start r) a → is_date (End' r) b →
  covered (r :: rs) n ↔ a <= n <= b ∨ covered rs n.
Proof.
  intros Ha Hb. split.
  - intros (q & a' & b' & Hq & Ha' & Hb' & Hn). apply elem_of_cons in Hq as [->|Hq].
    + left. by rewrite (is_date_inj _ _ _ Ha Ha'), (is_date_inj _ _ _ Hb Hb').
    + right. by exists q, a', b'.
  - intros [Hn|(q & a' & b' & Hq & H)]; [by exists r, a, b; rewrite elem_of_cons; auto|].
    exists q, a', b'. rewrite elem_of_cons. tauto.
Qed.

Definition valid_days (ns : list Z) : Prop := ∀ n, n ∈ ns → is_date (format_days n) n.

(** The first range of the loop begins at its start. *)
Lemma collapse_from_head start prev dates : ∃ r rs, collapse_from start prev dates = r :: rs ∧ Start r = start.
Proof.
  revert start prev. induction dates as [|d dates IH]; intros start prev; cbn [collapse_from]; [by eauto|].
  destruct (match addMarketDays prev 1 with Ok next => _ | Fail _ => _ end); [apply IH|by eauto].
Qed.

Lemma collapse_adjacent prev p n : is_date prev p → is_date (format_days n) n → p < n →
  match addMarketDays prev 1 with Ok next => bool_decide (format_days n = next) | Fail _ => false end = (n =? p + 1).
Proof.
  intros Hp Hn Hlt. unfold addMarketDays. rewrite (ParseMarketDate_id prev p) by done. cbn.
  unfold is_date in Hp. rewrite Hp. apply date_eqb; [done|].
  apply (is_date_between prev (format_days n) p n); [done|done|lia].
Qed.

Lemma collapse_from_spec ns start prev a p :
  is_date start a → is_date prev p → a <= p → StronglySorted Z.lt (p :: ns) → valid_days ns →
  (∀ n, covered (collapse_from start prev (format_days <$> ns)) n ↔ a <= n <= p ∨ n ∈ ns) ∧
  separated (collapse_from start prev (format_days <$> ns)).
Proof.
  revert start prev a p. induction ns as [|m ns IH]; intros start prev a p Ha Hp Hle Hs Hv; cbn.
  - split; [|by intros i r r' _ [=]].
    intros n. rewrite covered_cons by done. unfold covered. split.
    + intros [?|(r & ? & ? & Hr & _)]; [by left|by apply elem_of_nil in Hr].
    + intros [?|Hn]; [by left|by apply elem_of_nil in Hn].
  - apply StronglySorted_inv in Hs as [Hs Hall]. apply Forall_cons in Hall as [Hpm _].
    assert (Hm : is_date (format_days m) m) by (apply Hv; by left).
    assert (Hv' : valid_days ns) by (intros x Hx; apply Hv; by right).
    rewrite (collapse_adjacent prev p m) by done. destruct (Z.eqb_spec m (p + 1)) as [->|Hne].
    + destruct (IH start (format_days (p + 1)) a (p + 1)) as [Hc Hsep]; [done|done|lia|done|done|].
      split; [|done]. intros n. rewrite Hc, elem_of_cons. intuition lia.
    + destruct (IH (format_days m) (format_days m) m m) as [Hc Hsep]; [done|done|lia|done|done|].
      split.
      * intros n. rewrite covered_cons by done. rewrite Hc, elem_of_cons. intuition lia.
      * intros [|i] r r' Hr Hr'; cbn in Hr, Hr'; [|by apply (Hsep i)].
        destruct (collapse_from_head (format_days m) (format_days m) (format_days <$> ns)) as (q & qs & Hq & Hst).
        rewrite Hq in Hr'. injection Hr as <-. injection Hr' as <-. exists p, m. rewrite Hst. cbn. split_and!; [done|done|lia].
Qed.

(** Collapsing ascending dates into ranges loses no date and adds none. *)
Lemma collapseDates_spec ns : StronglySorted Z.lt ns → valid_days ns →
  (∀ n, covered (collapseDates (format_days <$> ns)) n ↔ n ∈ ns) ∧ separated (collapseDates (format_days <$> ns)).
Proof.
  destruct ns as [|m ns]; intros Hs Hv; cbn.
  - split; [|by intros i r r' [=]]. intros n. split; [|set_solver]. intros (r & ? & ? & Hr & _). set_solver.
  - assert (Hm : is_date (format_days m) m) by (apply Hv; set_solver).
    destruct (collapse_from_spec ns (format_days m) (format_days m) m m) as [Hc Hsep];
      [done|done|lia|done|intros x Hx; apply Hv; set_solver|].
    split; [|done]. intros n. rewrite Hc, elem_of_cons. intuition lia.
Qed.

Lemma filter_fmap {A B} (f : B → bool) (g : A → B) l : List.filter f (g <$> l) = g <$> List.filter (λ x, f (g x)) l.
Proof. induction l as [|x l IH]; [done|]. cbn. rewrite IH. by destruct (f (g x)). Qed.

Lemma filter_sorted {A} (R : A → A → Prop) f (l : list A) : StronglySorted R l → StronglySorted R (List.filter f l).
Proof.
  induction 1 as [|x l Hs IH Hall]; [constructor|]. cbn. destruct (f x); [|done]. constructor; [done|].
  apply Forall_forall. intros y Hy. apply list_elem_of_In, List.filter_In in Hy as [Hy _].
  rewrite Forall_forall in Hall. apply Hall. by apply list_elem_of_In.
Qed.

Lemma seqZ_sorted a n : StronglySorted Z.lt (seqZ a n).
Proof.
  destruct (Z.le_gt_cases 0 n) as [Hn|Hn]; [|by rewrite seqZ_nil by lia; constructor].
  revert a. pattern n. apply natlike_ind; [|clear n Hn; intros n Hn IH|done]; intros a; [by rewrite seqZ_nil by lia; constructor|].
  rewrite seqZ_cons, Z.pred_succ by lia. constructor; [apply IH|]. apply Forall_forall. intros x Hx.
  apply elem_of_seqZ in Hx. lia.
Qed.

(** One class of the classification, as ranges. *)
Lemma classified_ranges s t a b pending finalized c : is_date s a → is_date t b →
  let ranges := collapseDates (dates_of pending finalized c (format_days <$> seqZ a (b - a + 1))) in
  (∀ n, covered ranges n ↔ a <= n <= b ∧ classify_date pending finalized (format_days n) = c) ∧ separated ranges.
Proof.
  intros Hs Ht. unfold dates_of. rewrite filter_fmap.
  set (ns := List.filter _ (seqZ a (b - a + 1))).
  assert (Hin : ∀ n, n ∈ ns ↔ a <= n <= b ∧ classify_date pending finalized (format_days n) = c).
  { intros n. unfold ns. rewrite list_elem_of_In, List.filter_In, <-list_elem_of_In, elem_of_seqZ, bool_decide_eq_true.
    split; intros [? ?]; (split; [lia|done]). }
  destruct (collapseDates_spec ns) as [Hc Hsep].
  - apply filter_sorted, seqZ_sorted.
  - intros n Hn. apply Hin in Hn as [Hn _]. by eapply is_date_between; [apply Hs|apply Ht|].
  - split; [|done]. intros n. by rewrite Hc, Hin.
Qed.

Lemma pending_set_spec pendingDates set d :
  foldM (λ set date, parsed ← ParseMarketDate date; Ok ({[parsed]} ∪ set)) (∅ : gset string) pendingDates = Ok set →
  d ∈ set ↔ d ∈ TrimSpace <$> pendingDates.
Proof.
  intros H. revert d. refine (foldM_inv _ (λ l set, ∀ d, d ∈ set ↔ d ∈ TrimSpace <$> l) _ _ _ _ _ H); [|set_solver].
  intros pre s x s' Hi _ Hx d. apply bind_Ok in Hx as (parsed & Hx & [= <-]). pose proof (ParseMarketDate_spec x) as Hs.
  rewrite Hx in Hs. destruct Hs as [-> _].
  rewrite fmap_app, elem_of_app, elem_of_union, elem_of_singleton, Hi. cbn. rewrite list_elem_of_singleton. tauto.
Qed.

(** A classified batch splits the requested days: a day of the range is pending
    when the provider listed it as pending, else verified up to the last finalized day and
    uncertain after it; nothing outside the range is claimed, and the ranges of each class
    are as large as possible. *)
Theorem ClassifyHistoryCompleteness_correct start end_ last pendingDates truncated malformed c a b :
  is_date (TrimSpace start) a → is_date (TrimSpace end_) b →
  ClassifyHistoryCompleteness start end_ last pendingDates truncated malformed = Ok c →
  co_Status c = "classified"%string →
  let pending n := format_days n ∈ TrimSpace <$> pendingDates in
  ∃ f, is_date (TrimSpace last) f ∧
    (∀ n, covered (PendingRanges c) n ↔ a <= n <= b ∧ pending n) ∧
    (∀ n, covered (VerifiedRanges c) n ↔ a <= n <= b ∧ ¬ pending n ∧ n <= f) ∧
    (∀ n, covered (UncertainRanges c) n ↔ a <= n <= b ∧ ¬ pending n ∧ f < n) ∧
    separated (PendingRanges c) ∧ separated (VerifiedRanges c) ∧ separated (UncertainRanges c).
Proof.
  intros Ha Hb H Hst pending. unfold ClassifyHistoryCompleteness in H.
  destruct malformed; [injection H as <-; discriminate|].
  apply bind_Ok in H as (dates & Hd & H). apply bind_Ok in H as (set & Hset & H).
  destruct truncated; [injection H as <-; discriminate|].
  case_bool_decide; [injection H as <-; discriminate|].
  apply bind_Ok in H as (finalized & Hf & [= <-]). cbn [PendingRanges VerifiedRanges UncertainRanges].
  pose proof (ParseMarketDate_spec last) as Hs. rewrite Hf in Hs. destruct Hs as [-> [f Hdf]].
  pose proof (InclusiveMarketDates_spec start end_) as Hr. rewrite Hd in Hr. destruct Hr as (a' & b' & Ha' & Hb' & Hab & ->).
  rewrite (is_date_inj _ _ _ Ha' Ha), (is_date_inj _ _ _ Hb' Hb) in *.
  pose proof (λ cl, classified_ranges _ _ a b set (TrimSpace last) cl Ha Hb) as Hcl. cbv zeta in Hcl.
  assert (Hclass : ∀ n, a <= n <= b → classify_date set (TrimSpace last) (format_days n) =
    if bool_decide (pending n) then DatePending else if n <=? f then DateVerified else DateUncertain).
  { intros n Hn. unfold classify_date, pending. rewrite (bool_decide_ext _ _ (pending_set_spec _ _ (format_days n) Hset)).
    case_bool_decide; [done|]. rewrite (date_ltb _ _ f n) by (done || by eapply is_date_between; [apply Ha|apply Hb|]).
    destruct (Z.ltb_spec f n), (Z.leb_spec n f); done || lia. }
  exists f. split; [done|]. split_and!; try apply Hcl; intros n; rewrite (proj1 (Hcl _)); split.
  all: intros [Hn Hc]; rewrite ?Hclass in * by done.
  all: repeat case_bool_decide; destruct (Z.leb_spec n f); intuition (done || lia).
Qed.

Lemma DateInLastN_spec date last n d f :
  is_date (TrimSpace date) d → is_date (TrimSpace last) f → 0 < n → days_before_year 0 <= f - (n - 1) →
  DateInLastN date last n = Ok ((f - n <? d) && (d <=? f)).
Proof.
  intros Hd Hf Hn Hr. unfold DateInLastN, LastNInclusiveDates. destruct (Z.leb_spec n 0); [lia|].
  assert (Hparse : ∀ v k, is_date (TrimSpace v) k → ParseMarketDate v = Ok (TrimSpace v)).
  { intros v k Hk. pose proof (ParseMarketDate_spec v) as H0. destruct (ParseMarketDate v); [by destruct H0 as [-> _]|].
    destruct H0. by exists k. }
  rewrite (Hparse last f Hf), (Hparse date d Hd). cbn [mbind Result_bind].
  pose proof Hf as E. unfold is_date in E. rewrite E. clear E.
  assert (Hs : is_date (format_days (f - (n - 1))) (f - (n - 1))).
  { apply ParseDate_format_days. pose proof (is_date_range _ _ Hf). lia. }
  rewrite (InclusiveMarketDates_seqZ _ _ (f - (n - 1)) f) by (done || lia). cbn. f_equal.
  apply eq_true_iff_eq. rewrite existsb_exists, andb_true_iff, Z.ltb_lt, Z.leb_le. split.
  - intros (x & Hx & Heq). apply bool_decide_eq_true in Heq as ->.
    apply list_elem_of_In, list_elem_of_fmap in Hx as (k & Hk & Hin). apply elem_of_seqZ in Hin.
    assert (is_date (TrimSpace date) k) as Hdk.
    { rewrite Hk. apply (is_date_between (format_days (f - (n - 1))) (TrimSpace last) (f - (n - 1)) f); done || lia. }
    rewrite (is_date_inj _ _ _ Hd Hdk). lia.
  - intros Hk. exists (TrimSpace date). split; [|by apply bool_decide_eq_true].
    apply list_elem_of_In, list_elem_of_fmap. exists d. rewrite elem_of_seqZ. split; [|lia].
    symmetry. by apply is_date_format.
Qed.

(** A missing observation is never cached for ever: an omission checked at [t]
    whose expiry was computed by the policy is fetched again at the latest thirty days later,
    and within seven days of the last finalized session already after twenty-four hours. *)
Theorem no_observation_retried `{TZ : TimeZones} input checked expires :
  HasClose input = false → NoObservationHasExpiry input = true → 0 < checked →
  NoObservationExpiresAt (fi_Date input) checked = Ok expires → fi_NoObservationExpiresAt input = expires →
  (checked + RecentNoObservationTTL <= expires <= checked + OlderNoObservationTTL) ∧
  (expires <= fi_Now input → fd_Action (DecideHistoryFetch input) = HistoryFetch) ∧
  (∀ d f, LastFinalizedEquityMarketDate checked "US" = Ok f → ∀ k, is_date (TrimSpace f) k →
     is_date (TrimSpace (fi_Date input)) d → days_before_year 0 <= k - 6 →
     (expires = checked + RecentNoObservationTTL ↔ k - 7 < d <= k)).
Proof.
  intros Hc He Hpos Hx Hi. unfold NoObservationExpiresAt in Hx.
  destruct (Z.eqb_spec checked 0) as [|Hz]; [lia|]. unfold timeIsZero in Hx. rewrite (proj2 (Z.eqb_neq checked 0)) in Hx by done.
  assert (Hb : checked + RecentNoObservationTTL <= expires <= checked + OlderNoObservationTTL).
  { unfold RecentNoObservationTTL, OlderNoObservationTTL, Hour, Second in *.
    destruct (LastFinalizedEquityMarketDate checked "US"); [|injection Hx as <-; lia].
    apply bind_Ok in Hx as ([|] & _ & [= <-]); lia. }
  split_and!; [apply Hb..| |].
  - intros Hnow. unfold DecideHistoryFetch. destruct (ForceRecheck input); [done|].
    destruct (DateInLastN _ _ _); [|done]. rewrite Hc. destruct (HasNoObservation input); [|done].
    rewrite He, Hi. unfold timeIsZero.
    assert (0 < expires) by (unfold RecentNoObservationTTL, Hour, Second in Hb; lia).
    rewrite (proj2 (Z.eqb_neq expires 0)), (proj2 (Z.ltb_ge (fi_Now input) expires)) by lia. done.
  - intros d f Hf k Hk Hd Hr. rewrite Hf in Hx. unfold RecentNoObservationWindow in Hx.
    rewrite (DateInLastN_spec (fi_Date input) f 7 d k) in Hx by (done || lia). cbn in Hx.
    destruct (Z.ltb_spec (k - 7) d), (Z.leb_spec d k); cbn in Hx; injection Hx as <-;
      unfold RecentNoObservationTTL, OlderNoObservationTTL, Hour, Second; intuition lia.
Qed.

Section FXTheorems.
Context `{HL : DecimalLaws}.

Lemma cval_scaled z k : (cval z (- k) == inject_Z z * p10 (- k))%Q.
Proof. done. Qed.

(** A value and its integer neighbour differ by at most a half. *)
Lemma round_half_even_near q : (- (1 # 2) <= q - inject_Z (round_half_even q) <= 1 # 2)%Q.
Proof. destruct (round_half_even_spec q) as [Hn _]. lra. Qed.
Lemma round_half_away_near q : (- (1 # 2) <= q - inject_Z (round_half_away q) <= 1 # 2)%Q.
Proof. destruct (round_half_away_spec q) as [Hn _]. lra. Qed.

(** Rounding at the scale [p] moves a value by at most half a unit of that scale. *)
Lemma scaled_near v z p : (- (1 # 2) <= v * p10 p - inject_Z z <= 1 # 2)%Q →
  (Qabs (cval z (- p) - v) <= (1 # 2) * p10 (- p))%Q.
Proof.
  intros Hn. unfold cval. pose proof (p10_opp p) as Hp. pose proof (p10_pos (- p)) as Hq.
  apply Qabs_Qle_condition.
  assert (E : (inject_Z z * p10 (- p) - v == - ((v * p10 p - inject_Z z) * p10 (- p)))%Q).
  { transitivity (inject_Z z * p10 (- p) - v * (p10 p * p10 (- p)))%Q; [rewrite Hp|]; ring. }
  rewrite E. set (x := (v * p10 p - inject_Z z)%Q) in *. split; nra.
Qed.

Lemma dRoundBank_near d p : (Qabs (dval (dRoundBank d p) - dval d) <= (1 # 2) * p10 (- p))%Q.
Proof.
  unfold dval at 1. rewrite dRoundBank_coef, dRoundBank_expo. apply scaled_near, round_half_even_near.
Qed.

Lemma dDiv_near a b : ¬ (dval b == 0)%Q → (Qabs (dval (dDiv a b) - dval a / dval b) <= (1 # 2) * p10 (-16))%Q.
Proof.
  intros Hb. rewrite dDiv_divround by done. unfold dval at 1. rewrite dDivRound_coef, dDivRound_expo by done.
  change (-16) with (- (16)). apply scaled_near, round_half_away_near.
Qed.

Lemma scale_le z t : (0 <= t)%Q → (-1 <= z <= 1)%Q → (- t <= z * t <= t)%Q.
Proof. intros Ht Hz. split; nra. Qed.

(** The derived reciprocal of a stored rate is a valid rate within a little more
    than half of the twelfth decimal place of the exact reciprocal (the three roundings on
    the way add up to less), and it is refused only when the exact reciprocal is above the
    largest rate or rounds past it. *)
Theorem InvertFxRateHalfEven_correct r : FxRate_ok r →
  let eps := ((1 # 2) * p10 (-12) + p10 (-24))%Q in
  match InvertFxRateHalfEven r with
  | Ok inverse => FxRate_ok inverse ∧ (Qabs (dval (r_value inverse) - 1 / dval (r_value r)) <= eps)%Q
  | Fail _ => (dval maxFxRate - eps < 1 / dval (r_value r))%Q
  end.
Proof.
  intros Hr eps. apply FxRate_ok_spec in Hr as (Hpos & Hmax & _). unfold InvertFxRateHalfEven, fxInversionIntermediateScale.
  set (x := dval (r_value r)) in *.
  assert (Hnz : ¬ (x == 0)%Q) by lra.
  destruct (dIsZero (r_value r)) eqn:Hz; [apply dIsZero_val in Hz; done|].
  set (q := dDiv (dShift (dInt 1) 24) (r_value r)). set (s := dRoundBank q 0).
  set (i := dShift s (- (24))). set (v := dRoundBank i 12).
  assert (Hone : (dval (dInt 1) == 1)%Q) by (unfold dval, cval, dInt; rewrite dNew_coef, dNew_expo; reflexivity).
  assert (Hq : (Qabs (dval q - p10 24 / x) <= (1 # 2) * p10 (-16))%Q).
  { pose proof (dDiv_near (dShift (dInt 1) 24) (r_value r) Hnz) as H0. fold q in H0. fold x in H0.
    rewrite dShift_val, Hone, Qmult_1_l in H0. done. }
  assert (Hs : (Qabs (dval s - dval q) <= (1 # 2) * p10 (- 0))%Q) by apply dRoundBank_near.
  assert (Hi : (dval i == dval s * p10 (- (24)))%Q) by apply dShift_val.
  assert (Hv : (Qabs (dval v - dval i) <= (1 # 2) * p10 (- (12)))%Q) by apply dRoundBank_near.
  assert (Hnear : (Qabs (dval v - 1 / x) <= eps)%Q).
  { apply Qabs_Qle_condition in Hq, Hs, Hv. apply Qabs_Qle_condition.
    assert (H24 : (p10 24 / x * p10 (- (24)) == 1 / x)%Q).
    { unfold Qdiv. assert (Heq : (p10 24 * / x * p10 (- (24)) == (p10 24 * p10 (- (24))) * / x)%Q) by ring; rewrite Heq; clear Heq.
      by rewrite p10_opp. }
    pose proof (p10_pos (- (24))) as P24.
    assert (He : (dval i - 1 / x == ((dval s - dval q) + (dval q - p10 24 / x)) * p10 (- (24)))%Q).
    { rewrite Hi, <-H24. ring. }
    change (p10 (- 0)) with 1%Q in Hs. assert (Hu16 : (p10 (-16) < 1)%Q) by reflexivity.
    unfold eps. change (-12) with (- (12)). change (-24) with (- (24)).
    set (t := p10 (- (24))) in *. set (u := (p10 (- (12)))%Q) in *.
    assert (Hit : (- t <= dval i - 1 / x <= t)%Q) by (rewrite He; apply scale_le; [lra|split; lra]).
    revert Hv Hit. generalize (1 / x)%Q. intros y Hv Hit. split; lra. }
  assert (Hmaxv : (dval maxFxRate < 100000000)%Q).
  { unfold dval. destruct maxFxRate_coef as [-> ->]. reflexivity. }
  assert (Hinv : (1 # 100000000 < 1 / x)%Q).
  { assert (Heq : (1 / x == / x)%Q) by (unfold Qdiv; ring); rewrite Heq; clear Heq.
    apply (Qmult_lt_r _ _ x); [done|]. rewrite (Qmult_comm (/ x)), Qmult_inv_r by done. lra. }
  apply Qabs_Qle_condition in Hnear as Hn.
  assert (Heps : (eps < 1 # 100000000)%Q) by reflexivity.
  destruct (NewFxRate v) as [inverse|e] eqn:E.
  - apply NewFxRate_ok in E as [-> Hok]. split; [exact Hok|exact Hnear].
  - destruct (Qlt_le_dec (dval maxFxRate) (dval v)) as [Hbig|Hsmall]; [lra|].
    assert (FxRate_ok (mkFxRate v)) as Hok.
    { apply FxRate_ok_spec. cbn. unfold v at 3. rewrite dRoundBank_expo. split_and!; [lra|done|lia]. }
    pose proof (proj2 (NewFxRate_ok v (mkFxRate v)) (conj eq_refl Hok)) as H0. rewrite E in H0. discriminate H0.
Qed.
Lemma ParseFxRate_valid s r : ParseFxRate s = Ok r → FxRate_ok r.
Proof.
  unfold ParseFxRate. destruct (negb _); [discriminate|]. destruct (dNewFromString s); [|discriminate].
  intros Hr. by apply NewFxRate_ok in Hr as [_ Hr].
Qed.

(** One stored observation serves both directions of its pair: where the
    requested direction is the stored one it gives the stored rate, and the opposite request
    then gives the derived reciprocal, within the error of its roundings, or fails because
    the reciprocal is above the largest rate. *)
Theorem MapFXRate_both_ways base quote storedBase storedQuote storedRate m :
  MapFXRate base quote storedBase storedQuote storedRate = Ok m → fm_Status m = FXMappingDirect →
  ∃ r, ParseFxRate (TrimSpace storedRate) = Ok r ∧ fm_Rate m = Some r ∧ Derived m = false ∧ fm_Base m ≠ fm_Quote m ∧
    let eps := ((1 # 2) * p10 (-12) + p10 (-24))%Q in
    match MapFXRate quote base storedBase storedQuote storedRate with
    | Ok m' => fm_Status m' = FXMappingReciprocal ∧ Derived m' = true ∧ fm_Base m' = fm_Quote m ∧ fm_Quote m' = fm_Base m ∧
        ∃ r', fm_Rate m' = Some r' ∧ FxRate_ok r' ∧ (Qabs (dval (r_value r') - 1 / dval (r_value r)) <= eps)%Q
    | Fail _ => (dval maxFxRate - eps < 1 / dval (r_value r))%Q
    end.
Proof.
  intros Hm Hst. unfold MapFXRate in *.
  destruct (ParseCurrency base) as [b|]; [|discriminate]. destruct (ParseCurrency quote) as [q|]; [|discriminate].
  cbn [mbind Result_bind] in *. case_bool_decide as Hbq.
  { apply bind_Ok in Hm as (? & _ & [= <-]). discriminate. }
  rewrite (bool_decide_eq_false_2 (q = b)) by congruence.
  rewrite (orb_comm (negb (isSupportedFXCurrency q))). destruct (negb (isSupportedFXCurrency b) || _); [by injection Hm as <-|].
  case_bool_decide; [by injection Hm as <-|].
  destruct (ParseFxRate (TrimSpace storedRate)) as [r|] eqn:Hr; [|by injection Hm as <-].
  destruct (ParseCurrency storedBase) as [sb|]; [|discriminate]. destruct (ParseCurrency storedQuote) as [sq|]; [|discriminate].
  cbn [mbind Result_bind] in *.
  destruct (bool_decide (sb = b) && bool_decide (sq = q)) eqn:Hd.
  - injection Hm as <-. exists r. split_and!; try done. apply andb_true_iff in Hd as [Hb Hq].
    apply bool_decide_eq_true in Hb as ->, Hq as ->.
    rewrite (bool_decide_eq_false_2 (b = q)) by done. cbn [andb].
    pose proof (InvertFxRateHalfEven_correct r (ParseFxRate_valid _ _ Hr)) as Hinv. cbv zeta in Hinv.
    destruct (InvertFxRateHalfEven r) as [inverse|]; cbn [mbind Result_bind]; [|exact Hinv].
    split_and!; try done. exists inverse. split; [done|exact Hinv].
  - destruct (bool_decide (sb = q) && _); [|by injection Hm as <-].
    apply bind_Ok in Hm as (? & _ & [= <-]). discriminate.
Qed.
End FXTheorems.
