(* ===== verification/MarketSamples.v ===== *)
(** * Market dates and policies on concrete inputs

    The theorems of [MarketDates] and [MarketPolicy] applied to a weekend, a batch of daily
    closes, an omission and a stored rate. *)

From S2P Require Export MarketPolicy.
From S2P Require Import DecimalModel.
From Stdlib Require Import String Ascii.

#[global] Open Scope Z_scope.

Definition sixth_of_march : Z := days_of_civil 2026 3 6.

(** Friday's price of a share counts on Sunday. *)
Lemma InstrumentClosedCarry_correct_witness :
  InstrumentClosedCarry "i" (Some InstrumentStock) "2026-03-06" "2026-03-08" [] = true ∧
  ∀ n, sixth_of_march < n <= sixth_of_march + 2 → closed_day "i" (Some InstrumentStock) [] n = true.
Proof.
  split; [vm_compute; reflexivity|].
  destruct (proj1 (InstrumentClosedCarry_correct "i" (Some InstrumentStock) "2026-03-06" "2026-03-08" [] sixth_of_march (sixth_of_march + 2)
    ltac:(vm_compute; reflexivity) ltac:(vm_compute; reflexivity)) ltac:(vm_compute; reflexivity)) as [[_ Hn]|[Hn _]]; [exact Hn|].
  vm_compute in Hn. discriminate Hn.
Defined.

Lemma ClassifyHistoryCompleteness_correct_witness : ∃ c,
  ClassifyHistoryCompleteness "2026-03-02" "2026-03-06" "2026-03-05" ["2026-03-03"%string] false false = Ok c ∧
  ∃ f, is_date "2026-03-05" f ∧
    ∀ n, covered (UncertainRanges c) n ↔
         days_of_civil 2026 3 2 <= n <= days_of_civil 2026 3 6 ∧ ¬ format_days n ∈ TrimSpace <$> ["2026-03-03"%string] ∧ f < n.
Proof.
  eexists. split; [vm_compute; reflexivity|].
  match goal with |- context [UncertainRanges ?c] =>
    destruct (ClassifyHistoryCompleteness_correct "2026-03-02" "2026-03-06" "2026-03-05" ["2026-03-03"%string] false false c
      (days_of_civil 2026 3 2) (days_of_civil 2026 3 6) ltac:(vm_compute; reflexivity) ltac:(vm_compute; reflexivity)
      ltac:(vm_compute; reflexivity) eq_refl) as (f & Hf & _ & _ & Hu & _) end.
  exists f. split; [exact Hf|exact Hu].
Defined.

Definition utc_zones : TimeZones := {| LoadLocation _ := Some UTC |}.

(** An omission of 3 March, checked on 5 March, one day and two days later. *)
Definition checked_at : Time := utc_midnight (days_of_civil 2026 3 5).
Definition omission (now : Time) : HistoryFetchInput :=
  mkFetchInput "2026-03-03" "2026-03-04" now false false 0 true (checked_at + 24 * Hour) true checked_at.

Lemma no_observation_retried_witness :
  @NoObservationExpiresAt utc_zones "2026-03-03" checked_at = Ok (checked_at + 24 * Hour) ∧
  fd_Action (DecideHistoryFetch (omission (checked_at + 23 * Hour))) ≠ HistoryFetch ∧
  fd_Action (DecideHistoryFetch (omission (checked_at + 24 * Hour))) = HistoryFetch.
Proof.
  split; [vm_compute; reflexivity|]. split; [vm_compute; discriminate|].
  refine (proj1 (proj2 (@no_observation_retried utc_zones (omission (checked_at + 24 * Hour)) checked_at (checked_at + 24 * Hour)
    eq_refl eq_refl _ _ eq_refl)) _).
  - vm_compute. reflexivity.
  - vm_compute. reflexivity.
  - apply Z.le_refl.
Defined.

Lemma MapFXRate_both_ways_witness : ∃ m,
  MapFXRate "EUR" "USD" "EUR" "USD" "1.09" = Ok m ∧
  ∃ r, fm_Rate m = Some r ∧ Derived m = false ∧
    (is_ok (MapFXRate "USD" "EUR" "EUR" "USD" "1.09") = true).
Proof.
  destruct (is_ok_some (MapFXRate "EUR" "USD" "EUR" "USD" "1.09")) as [m E]; [vm_compute; reflexivity|].
  assert (Hs : match MapFXRate "EUR" "USD" "EUR" "USD" "1.09" with Ok m => fm_Status m | Fail _ => FXMappingUnsupported end = FXMappingDirect)
    by (vm_compute; reflexivity).
  rewrite E in Hs. exists m. split; [done|].
  destruct (MapFXRate_both_ways "EUR" "USD" "EUR" "USD" "1.09" m E Hs) as (r & _ & Hr & Hd & _).
  exists r. split; [exact Hr|]. split; [exact Hd|]. vm_compute. reflexivity.
Defined.
