(* ===== verification/QuoteSelect.v ===== *)
(** * The current observation

    Which stored quote values an instrument or a currency pair now
    ([current_quote_selection.go] and the current selectors of [valuation.go], package
    [application]).  Observations fall into three slots: realtime prices, daily closes
    or references, and prices converted from a metal's dollar price.  Each slot keeps
    its latest observation by an order of its own, and the winners are compared by time.

    The JSON evidence of a converted price is decoded by a library, the parameter
    [decodeConversion] of [MetalEvidence]. *)

From S2P Require Export MarketDates Ordering.
From S2P Require Import DecimalModel.
From Stdlib Require Import String Ascii.

#[global] Open Scope Z_scope.

(** ** Kinds of observations (stored as text) *)

Definition InstrumentObservationManual : string := "manual".
Definition InstrumentObservationClose : string := "close".
Definition FXObservationManual : string := "manual".
Definition FXObservationDailyReference : string := "daily_reference".

Definition MetalConversionPolicy : string := "metal_usd_troy_ounce_v1".

(** [jsoncodec.Unmarshal] into the fields [policy] and [rawQuotedAt]. *)
Class MetalEvidence := { decodeConversion : string → option (string * Time) }.

Definition MetalConversionRawQuotedAt `{MetalEvidence} (value : string) : Time * bool :=
  match decodeConversion value with
  | None => (0, false)
  | Some (policy, rawQuotedAt) =>
    if negb (bool_decide (policy = MetalConversionPolicy)) || timeIsZero rawQuotedAt then (0, false)
    else (rawQuotedAt, true)
  end.

(** ** Orders *)

Record currentQuoteOrder := mkQuoteOrder {
  source : QuoteSourceKind; quotedAt : Time; createdAt : Time; qo_id : string; qo_date : string;
  rawAt : Time; revision : Z }.

Definition quoteLater (quoted created : Time) (id : string) (otherQuoted otherCreated : Time) (otherID : string) : bool :=
  if negb (quoted =? otherQuoted) then otherQuoted <? quoted
  else if negb (created =? otherCreated) then otherCreated <? created
  else String.ltb otherID id.

Definition isAgent (k : QuoteSourceKind) : bool := bool_decide (k = QuoteSourceAgent).

Definition currentQuoteLater (src : QuoteSourceKind) (quoted created : Time) (id : string)
    (otherSrc : QuoteSourceKind) (otherQuoted otherCreated : Time) (otherID : string) : bool :=
  if negb (quoted =? otherQuoted) then otherQuoted <? quoted
  else if negb (bool_decide (src = otherSrc)) && (isAgent src || isAgent otherSrc) then isAgent src
  else quoteLater quoted created id otherQuoted otherCreated otherID.

Inductive slot := Realtime | Daily | ConvertedMetal.
#[export] Instance slot_eq_dec : EqDecision slot.
Proof. solve_decision. Defined.

Definition order_slot (order : currentQuoteOrder) : slot :=
  if negb (bool_decide (qo_date order = ""%string)) then Daily
  else if negb (timeIsZero (rawAt order)) then ConvertedMetal
  else Realtime.

Definition later_of (order previous : currentQuoteOrder) : bool :=
  currentQuoteLater (source order) (quotedAt order) (createdAt order) (qo_id order)
    (source previous) (quotedAt previous) (createdAt previous) (qo_id previous).

(** The switch of [add], for the slot [kind]. *)
Definition slot_later (kind : slot) (order previous : currentQuoteOrder) : bool :=
  match kind with
  | Daily =>
    if negb (bool_decide (qo_date order = qo_date previous)) then String.ltb (qo_date previous) (qo_date order)
    else if negb (bool_decide (source order = source previous)) && (isAgent (source order) || isAgent (source previous))
    then isAgent (source order)
    else later_of order previous
  | ConvertedMetal =>
    if negb (rawAt order =? rawAt previous) then rawAt previous <? rawAt order
    else if negb (revision order =? revision previous) then revision previous <? revision order
    else (createdAt previous <? createdAt order) ||
         ((createdAt order =? createdAt previous) && String.ltb (qo_id previous) (qo_id order))
  | Realtime => later_of order previous
  end.

(** ** The selection of three slots *)

Section Selection.
Context {T : Type}.

Record currentQuoteSelection := mkSelection {
  sel_realtime : option (T * currentQuoteOrder); sel_daily : option (T * currentQuoteOrder);
  sel_metal : option (T * currentQuoteOrder) }.

Definition emptySelection : currentQuoteSelection := mkSelection None None None.

Definition slot_of (s : currentQuoteSelection) (kind : slot) : option (T * currentQuoteOrder) :=
  match kind with Realtime => sel_realtime s | Daily => sel_daily s | ConvertedMetal => sel_metal s end.

Definition set_slot (s : currentQuoteSelection) (kind : slot) (v : option (T * currentQuoteOrder)) : currentQuoteSelection :=
  match kind with
  | Realtime => mkSelection v (sel_daily s) (sel_metal s)
  | Daily => mkSelection (sel_realtime s) v (sel_metal s)
  | ConvertedMetal => mkSelection (sel_realtime s) (sel_daily s) v
  end.

Definition sel_add (s : currentQuoteSelection) (value : T) (order : currentQuoteOrder) : currentQuoteSelection :=
  let kind := order_slot order in
  match slot_of s kind with
  | Some (_, previous) => if slot_later kind order previous then set_slot s kind (Some (value, order)) else s
  | None => set_slot s kind (Some (value, order))
  end.

(** One turn of the loop of [selected] with its variables [value] and [best]. *)
Definition select_slot (best candidate : option (T * currentQuoteOrder)) : option (T * currentQuoteOrder) :=
  match candidate with
  | None => best
  | Some (_, order) =>
    match best with
    | None => candidate
    | Some (_, b) => if later_of order b then candidate else best
    end
  end.

Definition sel_selected (s : currentQuoteSelection) : option T :=
  fst <$> fold_left select_slot [sel_realtime s; sel_daily s; sel_metal s] None.
End Selection.
Arguments currentQuoteSelection : clear implicits.

Section Selectors.
Context `{HD : DecimalAPI} `{HM : MetalEvidence}.

Definition instrumentQuoteOrder (q : InstrumentQuote) : currentQuoteOrder :=
  let order date raw := mkQuoteOrder (iq_SourceKind q) (iq_QuotedAt q) (iq_CreatedAt q) (iq_ID q) date raw (iq_Revision q) in
  if bool_decide (iq_ObservationKind q = InstrumentObservationClose) then order (iq_EffectiveDate q) 0
  else if bool_decide (iq_SourceKind q = QuoteSourceProvider)
  then order ""%string (MetalConversionRawQuotedAt (iq_ConversionJSON q)).1
  else order ""%string 0.

Definition fxQuoteOrder (q : FXQuote) : currentQuoteOrder :=
  mkQuoteOrder (fq_SourceKind q) (fq_QuotedAt q) (fq_CreatedAt q) (fq_ID q)
    (if bool_decide (fq_ObservationKind q = FXObservationDailyReference) then fq_EffectiveDate q else ""%string) 0 0.

Definition quoteSourceAllowed (preference src : QuoteSourceKind) : bool :=
  if isAgent src then true else bool_decide (preference = src).

(** The guard of the loop of [selectInstrumentQuote]. *)
Definition instrument_eligible (instrument : Instrument) (q : InstrumentQuote) : bool :=
  bool_decide (iq_InstrumentID q = i_ID instrument) && quoteSourceAllowed (QuoteSource instrument) (iq_SourceKind q) &&
  bool_decide (iq_Currency q = i_QuoteCurrency instrument).

Definition selectInstrumentQuote (instrument : Instrument) (quotes : list InstrumentQuote) : option InstrumentQuote :=
  sel_selected (fold_left (λ s q, if instrument_eligible instrument q then sel_add s q (instrumentQuoteOrder q) else s)
    quotes emptySelection).

(** The pair of a quote is the requested one, in either orientation. *)
Definition same_pair (q : FXQuote) (native base : CurrencyCode) : bool :=
  (bool_decide (BaseCurrency q = native) && bool_decide (QuoteCurrency q = base)) ||
  (bool_decide (BaseCurrency q = base) && bool_decide (QuoteCurrency q = native)).

(** The guards of the loop of [selectFXQuote], in order; [providerKey] is normalised. *)
Definition fx_eligible (preference : FXPreference) (native householdBase : CurrencyCode) (providerKey : string)
    (cutoff : option Time) (q : FXQuote) : bool :=
  if negb (bool_decide (fq_HouseholdID q = fp_HouseholdID preference)) ||
     negb (quoteSourceAllowed (fp_SourceKind preference) (fq_SourceKind q)) then false
  else if match cutoff with Some c => c <? fq_QuotedAt q | None => false end then false
  else if bool_decide (fq_SourceKind q = QuoteSourceProvider) && negb (bool_decide (providerKey = ""%string)) &&
          negb (bool_decide (ToLower (TrimSpace (fq_SourceKey q)) = providerKey)) then false
  else same_pair q native householdBase.

Definition selectFXQuote (preference : FXPreference) (quotes : list FXQuote) (native householdBase : CurrencyCode)
    (providerKey : string) (cutoff : option Time) : option FXQuote :=
  let providerKey := ToLower (TrimSpace providerKey) in
  sel_selected (fold_left (λ s q, if fx_eligible preference native householdBase providerKey cutoff q
                                  then sel_add s q (fxQuoteOrder q) else s) quotes emptySelection).

Definition findFXPreference (preferences : list FXPreference) (first second : CurrencyCode) : option FXPreference :=
  match NormalizeFXPair first second with
  | Fail _ => None
  | Ok (a, b) => List.find (λ p, bool_decide (CurrencyA p = a) && bool_decide (CurrencyB p = b)) preferences
  end.

Definition convertedMetalRequiresFX (instrument : Instrument) (quote : option InstrumentQuote) : bool :=
  match quote with
  | None => false
  | Some quote =>
    if negb (UsesMetalConversion instrument) || bool_decide (i_QuoteCurrency instrument = "USD"%string) ||
       negb (bool_decide (iq_SourceKind quote = QuoteSourceProvider)) then false
    else (MetalConversionRawQuotedAt (iq_ConversionJSON quote)).2
  end.
End Selectors.

(** ** The orders are lexicographic *)

Definition tie_cmp : currentQuoteOrder → currentQuoteOrder → comparison :=
  lex (by_key createdAt Z.compare) (by_key qo_id String.compare).
Definition agent_cmp : currentQuoteOrder → currentQuoteOrder → comparison :=
  by_key (λ o, isAgent (source o)) bool_cmp.

(** Later instants first, then agents, then later records. *)
Definition current_cmp : currentQuoteOrder → currentQuoteOrder → comparison :=
  lex (by_key quotedAt Z.compare) (lex agent_cmp tie_cmp).

Definition slot_cmp (kind : slot) : currentQuoteOrder → currentQuoteOrder → comparison :=
  match kind with
  | Realtime => current_cmp
  | Daily => lex (by_key qo_date String.compare) (lex agent_cmp (lex (by_key quotedAt Z.compare) tie_cmp))
  | ConvertedMetal => lex (by_key rawAt Z.compare) (lex (by_key revision Z.compare) tie_cmp)
  end.

#[export] Instance tie_ordered : Ordered tie_cmp := _.
#[export] Instance current_ordered : Ordered current_cmp := _.
#[export] Instance slot_ordered kind : Ordered (slot_cmp kind).
Proof. destruct kind; apply _. Qed.

Lemma Z_test x y (b : bool) : (if negb (x =? y) then y <? x else b) = is_gt (match x ?= y with Eq => if b then Gt else Lt | c => c end).
Proof.
  destruct (Z.compare_spec x y) as [->|Hl|Hl]; [rewrite Z.eqb_refl; by destruct b|..].
  all: rewrite (proj2 (Z.eqb_neq x y)) by lia; cbn; first [apply Z.ltb_ge; lia | apply Z.ltb_lt; lia].
Qed.

Lemma string_test s t (b : bool) :
  (if negb (bool_decide (s = t)) then String.ltb t s else b) = is_gt (match String.compare s t with Eq => if b then Gt else Lt | c => c end).
Proof.
  destruct (String.compare s t) eqn:E; [apply string_compare_eq in E as ->|..].
  { rewrite bool_decide_eq_true_2 by done. by destruct b. }
  all: rewrite bool_decide_eq_false_2 by (intros ->; by rewrite (cmp_refl String.compare) in E).
  all: cbn; rewrite <-is_gt_string; unfold is_gt; by rewrite E.
Qed.

(** An agent wins over another source. *)
Lemma agent_test k k' (b : bool) :
  (if negb (bool_decide (k = k')) && (isAgent k || isAgent k') then isAgent k else b) =
  is_gt (match bool_cmp (isAgent k) (isAgent k') with Eq => if b then Gt else Lt | c => c end).
Proof. by destruct k, k', b. Qed.

Lemma is_gt_if (c : comparison) b : b = is_gt c → is_gt (if b then Gt else Lt) = is_gt c.
Proof. intros ->. by destruct c. Qed.

Lemma is_gt_bool b : is_gt (if (b : bool) then Gt else Lt) = b.
Proof. by destruct b. Qed.

Lemma lex_gt {A} (cmp cmp' : A → A → comparison) x y b : b = is_gt (cmp' x y) →
  is_gt (match cmp x y with Eq => if b then Gt else Lt | c => c end) = is_gt (lex cmp cmp' x y).
Proof. intros Hb. unfold lex. destruct (cmp x y); [by apply is_gt_if|done|done]. Qed.

Lemma quoteLater_cmp a b :
  quoteLater (quotedAt a) (createdAt a) (qo_id a) (quotedAt b) (createdAt b) (qo_id b) =
  is_gt (lex (by_key quotedAt Z.compare) tie_cmp a b).
Proof.
  unfold quoteLater. rewrite Z_test, Z_test. apply (lex_gt (by_key quotedAt Z.compare)).
  apply (lex_gt (by_key createdAt Z.compare)). symmetry. apply is_gt_string.
Qed.

Lemma later_of_cmp a b : later_of a b = is_gt (current_cmp a b).
Proof.
  unfold later_of, currentQuoteLater, current_cmp. unfold lex at 1, by_key at 1.
  destruct (Z.compare_spec (quotedAt a) (quotedAt b)) as [E|Hl|Hl].
  - rewrite E, Z.eqb_refl. cbn [negb]. rewrite agent_test. apply (lex_gt agent_cmp).
    rewrite <-E at 1. rewrite quoteLater_cmp. unfold lex at 1, by_key at 1. by rewrite E, Z.compare_refl.
  - rewrite (proj2 (Z.eqb_neq _ _)) by lia. apply Z.ltb_ge. lia.
  - rewrite (proj2 (Z.eqb_neq _ _)) by lia. apply Z.ltb_lt. lia.
Qed.

Lemma current_no_agent a b : agent_cmp a b = Eq → current_cmp a b = lex (by_key quotedAt Z.compare) tie_cmp a b.
Proof. intros E. unfold current_cmp, lex at 1 2 3. by rewrite E. Qed.

Lemma slot_later_cmp kind a b : slot_later kind a b = is_gt (slot_cmp kind a b).
Proof.
  destruct kind; cbn [slot_later slot_cmp]; [apply later_of_cmp|..].
  - rewrite string_test. apply (lex_gt (by_key qo_date String.compare)). rewrite agent_test.
    unfold lex at 1. change (bool_cmp _ _) with (agent_cmp a b). destruct (agent_cmp a b) eqn:E; [|done|done].
    rewrite later_of_cmp, current_no_agent by done. by apply is_gt_if.
  - rewrite !Z_test. apply (lex_gt (by_key rawAt Z.compare)), (lex_gt (by_key revision Z.compare)).
    unfold tie_cmp, lex, by_key. destruct (Z.compare_spec (createdAt a) (createdAt b)) as [E|E|E].
    + rewrite E, Z.ltb_irrefl, Z.eqb_refl. cbn. symmetry. apply is_gt_string.
    + rewrite (proj2 (Z.ltb_ge _ _)), (proj2 (Z.eqb_neq _ _)) by lia. done.
    + rewrite (proj2 (Z.ltb_lt _ _)) by lia. done.
Qed.

(** ** The slots together find one observation *)

Section Winners.
Context {T : Type} (ord : T → currentQuoteOrder) (elig : T → bool).

Definition run (l : list T) : currentQuoteSelection T :=
  fold_left (λ s q, if elig q then sel_add s q (ord q) else s) l emptySelection.

Definition candidates (kind : slot) (l : list T) : list T :=
  List.filter (λ q, elig q && bool_decide (order_slot (ord q) = kind)) l.
Definition by_slot (kind : slot) (a b : T) : bool := slot_later kind (ord a) (ord b).
Definition by_time (a b : T) : bool := later_of (ord a) (ord b).
Definition winner (kind : slot) (l : list T) : option T := fold_left (keep_later (by_slot kind)) (candidates kind l) None.
Definition winners (l : list T) : list T := omap (λ kind, winner kind l) [Realtime; Daily; ConvertedMetal].

Definition with_order (q : T) : T * currentQuoteOrder := (q, ord q).

Lemma slot_set (s : currentQuoteSelection T) kind kind' v : slot_of (set_slot s kind v) kind' = if bool_decide (kind = kind') then v else slot_of s kind'.
Proof. by destruct kind, kind'. Qed.

Lemma run_slots l kind : slot_of (run l) kind = with_order <$> winner kind l.
Proof.
  assert (Hgen : ∀ s acc, slot_of s kind = with_order <$> acc →
    slot_of (fold_left (λ s q, if elig q then sel_add s q (ord q) else s) l s) kind =
    with_order <$> fold_left (keep_later (by_slot kind)) (candidates kind l) acc); [|apply (Hgen emptySelection None); by destruct kind].
  induction l as [|q l IH]; intros s acc Hs; [done|]. cbn [fold_left candidates List.filter].
  destruct (elig q); cbn [andb]; [|by apply IH]. fold (candidates kind l).
  assert (Hadd : slot_of (sel_add s q (ord q)) kind =
    if bool_decide (order_slot (ord q) = kind) then with_order <$> keep_later (by_slot kind) acc q else slot_of s kind).
  { unfold sel_add. case_bool_decide as Hk.
    - rewrite Hk, Hs. destruct acc as [a|]; cbn; [unfold by_slot; destruct (slot_later kind _ _)|];
        rewrite ?slot_set, ?bool_decide_eq_true_2 by done; done.
    - destruct (slot_of s (order_slot (ord q))) as [[v previous]|]; [destruct (slot_later _ _ _)|];
        rewrite ?slot_set, ?bool_decide_eq_false_2 by done; done. }
  revert Hadd. case_bool_decide; intros Hadd; cbn [fold_left]; apply IH; by rewrite Hadd.
Qed.

Lemma selected_winners l : sel_selected (run l) = fold_left (keep_later by_time) (winners l) None.
Proof.
  unfold sel_selected, winners.
  pose proof (run_slots l Realtime) as H1. pose proof (run_slots l Daily) as H2. pose proof (run_slots l ConvertedMetal) as H3.
  cbn [slot_of] in H1, H2, H3. rewrite H1, H2, H3. cbn [omap list_omap].
  assert (Hgen : ∀ ws acc, fold_left select_slot ((λ w, with_order <$> w) <$> ws) (with_order <$> acc) =
    with_order <$> fold_left (keep_later by_time) (omap id ws) acc).
  { induction ws as [|[w|] ws IH]; intros acc; [done| |apply IH]. cbn. rewrite <-IH. f_equal.
    destruct acc as [a|]; [|done]. cbn. unfold by_time. by destruct (later_of _ _). }
  pose proof (Hgen [winner Realtime l; winner Daily l; winner ConvertedMetal l] None) as E. cbn [fmap list_fmap option_fmap option_map] in E.
  rewrite E. clear E. destruct (winner Realtime l), (winner Daily l), (winner ConvertedMetal l); cbn [omap list_omap id];
    match goal with |- fst <$> (with_order <$> ?x) = _ => by destruct x end.
Qed.

Definition unique_ids (l : list T) : Prop := ∀ p q, p ∈ l → q ∈ l → qo_id (ord p) = qo_id (ord q) → p = q.

Lemma lex_eq {A} (cmp cmp' : A → A → comparison) x y : lex cmp cmp' x y = Eq → cmp' x y = Eq.
Proof. unfold lex. by destruct (cmp x y). Qed.

Lemma slot_id kind a b : slot_cmp kind a b = Eq → qo_id a = qo_id b.
Proof.
  destruct kind; cbn [slot_cmp]; unfold current_cmp; intros E; repeat apply lex_eq in E; by apply string_compare_eq in E.
Qed.

Lemma candidates_in kind l q : q ∈ candidates kind l ↔ q ∈ l ∧ elig q = true ∧ order_slot (ord q) = kind.
Proof.
  unfold candidates. rewrite list_elem_of_In, List.filter_In, <-list_elem_of_In, andb_true_iff, bool_decide_eq_true. done.
Qed.

Lemma by_slot_chain kind l : unique_ids l → chain (by_slot kind) (candidates kind l).
Proof.
  intros Hu. apply (ordered_chain (by_key ord (slot_cmp kind))); [intros x y _ _; apply slot_later_cmp|].
  intros x y Hx Hy E. apply candidates_in in Hx as [Hx _], Hy as [Hy _]. apply Hu; [done..|]. by apply (slot_id kind).
Qed.

Lemma by_time_chain l k : unique_ids l → (∀ x, x ∈ k → x ∈ l) → chain by_time k.
Proof.
  intros Hu Hk. apply (ordered_chain (by_key ord current_cmp)); [intros x y _ _; apply later_of_cmp|].
  intros x y Hx Hy E. apply Hu; [by apply Hk..|]. by apply (slot_id Realtime).
Qed.

(** [q] is the last of its slot among the eligible observations. *)
Definition wins (l : list T) (q : T) : Prop :=
  q ∈ l ∧ elig q = true ∧ ∀ p, p ∈ l → elig p = true → order_slot (ord p) = order_slot (ord q) →
    p = q ∨ slot_cmp (order_slot (ord q)) (ord q) (ord p) = Gt.

Lemma is_gt_true c : is_gt c = true ↔ c = Gt.
Proof. by destruct c. Qed.

Lemma winners_spec l q : unique_ids l → q ∈ winners l ↔ wins l q.
Proof.
  intros Hu. unfold winners. rewrite list_elem_of_omap. unfold winner.
  assert (Hw : ∀ kind, fold_left (keep_later (by_slot kind)) (candidates kind l) None = Some q ↔ wins l q ∧ order_slot (ord q) = kind).
  { intros kind. rewrite keep_later_greatest by by apply by_slot_chain. unfold greatest. rewrite candidates_in. split.
    - intros ((Hq & He & Hk) & Hg). split; [|done]. split_and!; [done|done|]. intros p Hp Hep Hs.
      destruct (Hg p) as [->|H0]; [apply candidates_in; by rewrite Hs, Hk|by left|right].
      unfold by_slot in H0. by rewrite Hk, <-is_gt_true, <-slot_later_cmp.
    - intros ((Hq & He & Hg) & Hk). split; [done|]. intros p Hp. apply candidates_in in Hp as (Hp & Hep & Hs).
      destruct (Hg p Hp Hep) as [->|H0]; [congruence|by left|right]. unfold by_slot. by rewrite slot_later_cmp, is_gt_true, <-Hk. }
  split.
  - intros (kind & _ & H0). by apply Hw in H0 as [? _].
  - intros H0. exists (order_slot (ord q)). split; [|by apply Hw].
    destruct (order_slot (ord q)); [by left|by right; left|by right; right; left].
Qed.

Lemma selected_spec l q : unique_ids l →
  sel_selected (run l) = Some q ↔ wins l q ∧ ∀ p, wins l p → p = q ∨ current_cmp (ord q) (ord p) = Gt.
Proof.
  intros Hu. rewrite selected_winners, keep_later_greatest.
  - unfold greatest. setoid_rewrite winners_spec; [|done..]. unfold by_time. setoid_rewrite later_of_cmp. setoid_rewrite is_gt_true.
    split; intros [? Hg]; (split; [done|]); intros p Hp; destruct (Hg p Hp); auto.
  - apply (by_time_chain l); [done|]. intros x Hx. by apply winners_spec in Hx as [? _].
Qed.

Lemma wins_perm l k q : l ≡ₚ k → wins l q → wins k q.
Proof. intros Hp (Hq & He & Hw). split_and!; [by rewrite <-Hp|done|]. intros p. rewrite <-Hp. apply Hw. Qed.

Lemma selected_perm l k : unique_ids l → l ≡ₚ k → sel_selected (run l) = sel_selected (run k).
Proof.
  intros Hu Hp. assert (Hu' : unique_ids k) by (intros p q; rewrite <-!Hp; apply Hu).
  assert (Hsome : ∀ q, sel_selected (run l) = Some q ↔ sel_selected (run k) = Some q).
  { intros q. rewrite !selected_spec by done.
    split; intros [Hw Hg]; (split; [by eapply wins_perm|]); intros p Hq; apply Hg; by eapply wins_perm. }
  destruct (sel_selected (run l)) as [q|]; [symmetry; by apply Hsome|].
  destruct (sel_selected (run k)) as [q|]; [by apply Hsome|done].
Qed.

Lemma selected_in l q : sel_selected (run l) = Some q → q ∈ l ∧ elig q = true.
Proof.
  rewrite selected_winners. intros Hs. apply keep_later_in in Hs as [Hs|]; [|done]. unfold winners in Hs.
  apply list_elem_of_omap in Hs as (kind & _ & Hw). apply keep_later_in in Hw as [Hw|]; [|done].
  by apply candidates_in in Hw as (? & ? & _).
Qed.

Lemma selected_none l : sel_selected (run l) = None ↔ ∀ q, q ∈ l → elig q = false.
Proof.
  rewrite selected_winners, keep_later_none. unfold winners, winner. split.
  - intros H0 q Hq. destruct (elig q) eqn:He; [|done]. exfalso.
    assert (Hin : q ∈ candidates (order_slot (ord q)) l) by by apply candidates_in.
    destruct (fold_left (keep_later (by_slot (order_slot (ord q)))) (candidates (order_slot (ord q)) l) None) as [w|] eqn:E.
    + assert (Hw : w ∈ omap (λ kind, fold_left (keep_later (by_slot kind)) (candidates kind l) None) [Realtime; Daily; ConvertedMetal]).
      { apply list_elem_of_omap. exists (order_slot (ord q)). split; [|done].
        destruct (order_slot (ord q)); [by left|by right; left|by right; right; left]. }
      rewrite H0 in Hw. by apply elem_of_nil in Hw.
    + apply keep_later_none in E. rewrite E in Hin. by apply elem_of_nil in Hin.
  - intros H0. assert (Hc : ∀ kind, candidates kind l = []).
    { intros kind. destruct (candidates kind l) as [|q r] eqn:E; [done|].
      assert (Hq : q ∈ candidates kind l) by (rewrite E; by left). apply candidates_in in Hq as (Hq & He & _).
      by rewrite H0 in He. }
    cbn. by rewrite !Hc.
Qed.
End Winners.

(** ** What is selected *)

Definition same_record {A} (id : A → string) (l : list A) : Prop := ∀ p q, p ∈ l → q ∈ l → id p = id q → p = q.

Section Theorems.
Context `{HD : DecimalAPI} `{HM : MetalEvidence}.

Lemma instrument_id q : qo_id (instrumentQuoteOrder q) = iq_ID q.
Proof. unfold instrumentQuoteOrder. by repeat case_bool_decide. Qed.

Lemma instrument_unique quotes : same_record iq_ID quotes → unique_ids instrumentQuoteOrder quotes.
Proof. intros Hu p q Hp Hq. rewrite !instrument_id. by apply Hu. Qed.

Lemma fx_unique quotes : same_record fq_ID quotes → unique_ids fxQuoteOrder quotes.
Proof. intros Hu p q Hp Hq. by apply Hu. Qed.

(** Claim C28.  The current price of an instrument is the observation that is the last of its
    slot, by date for daily closes, by the dollar observation for converted metals, by time
    otherwise, and that precedes the last observation of no other slot in time; there is one
    exactly when some observation is eligible (of the instrument, in its currency, from its
    source or from an agent), whatever the order in which the observations were loaded. *)
Theorem selectInstrumentQuote_correct instrument quotes : same_record iq_ID quotes →
  let ord := instrumentQuoteOrder in
  let last q := q ∈ quotes ∧ instrument_eligible instrument q = true ∧
    ∀ p, p ∈ quotes → instrument_eligible instrument p = true → order_slot (ord p) = order_slot (ord q) →
      p = q ∨ slot_cmp (order_slot (ord q)) (ord q) (ord p) = Gt in
  (∀ q, selectInstrumentQuote instrument quotes = Some q ↔
     last q ∧ ∀ p, last p → p = q ∨ current_cmp (ord q) (ord p) = Gt) ∧
  (selectInstrumentQuote instrument quotes = None ↔ ∀ q, q ∈ quotes → instrument_eligible instrument q = false) ∧
  (∀ quotes', quotes ≡ₚ quotes' → selectInstrumentQuote instrument quotes' = selectInstrumentQuote instrument quotes).
Proof.
  intros Hu ord last. apply instrument_unique in Hu. split_and!.
  - intros q. apply (selected_spec _ _ _ _ Hu).
  - apply selected_none.
  - intros quotes' Hp. symmetry. by apply (selected_perm _ (instrument_eligible instrument)).
Qed.

(** The current rate of a pair does not depend on the order in which the stored
    observations are visited, nor on the orientation in which the pair is asked for, and one
    is found exactly when some observation of the pair is eligible. *)
Theorem selectFXQuote_order_free preference quotes quotes' native base key cutoff :
  same_record fq_ID quotes → quotes ≡ₚ quotes' →
  selectFXQuote preference quotes' base native key cutoff = selectFXQuote preference quotes native base key cutoff ∧
  (selectFXQuote preference quotes native base key cutoff = None ↔
   ∀ q, q ∈ quotes → fx_eligible preference native base (ToLower (TrimSpace key)) cutoff q = false).
Proof.
  intros Hu Hp. apply fx_unique in Hu. split; [|apply selected_none].
  assert (Hsym : ∀ q, fx_eligible preference base native (ToLower (TrimSpace key)) cutoff q =
                      fx_eligible preference native base (ToLower (TrimSpace key)) cutoff q).
  { intros q. unfold fx_eligible, same_pair. by rewrite (orb_comm (_ && _)). }
  unfold selectFXQuote. symmetry. transitivity (sel_selected (run fxQuoteOrder
    (fx_eligible preference native base (ToLower (TrimSpace key)) cutoff) quotes')); [by apply selected_perm|].
  unfold run. clear Hu Hp. generalize (@emptySelection FXQuote). induction quotes' as [|q l IH]; intros s; [done|].
  cbn [fold_left]. rewrite Hsym. apply IH.
Qed.
End Theorems.

(** ** Concrete observations *)

Definition no_evidence : MetalEvidence := {| decodeConversion _ := None |}.

(** A quote of one instrument in dollars: source, price, time, observation kind, date. *)
Definition sample_quote (id : string) (src : QuoteSourceKind) (price : Z) (at_ : Time) (kind date : string) : InstrumentQuote :=
  mkInstrumentQuote id "gold-etf" (mkUnitPrice (dInt price)) "USD" src "yahoo_finance" at_ at_ false kind date
    0 0 at_ 1 "yahoo_close_v1" "yahoo_close_v1" "session_close" 1 None "" "" "".

Definition sample_instrument (preference : QuoteSourceKind) : Instrument :=
  mkInstrument "gold-etf" "home" "A fund" "" InstrumentETF "" "share" "USD" None (Some "NYSE"%string) None None None None 0
    preference (Some "yahoo_finance"%string) (Some "GLD"%string) 1 None 0 0 None.

(** A late provider close of an earlier day, an agent's correction of a day, a realtime price. *)
Definition sample_quotes : list InstrumentQuote :=
  [ sample_quote "q1" QuoteSourceProvider 100 5000 "close" "2026-03-02";
    sample_quote "q2" QuoteSourceProvider 101 9000 "close" "2026-03-03";
    sample_quote "q3" QuoteSourceAgent 102 8000 "close" "2026-03-03";
    sample_quote "q4" QuoteSourceProvider 103 7000 "realtime" "";
    sample_quote "q5" QuoteSourceManual 104 9999 "manual" "" ].

Lemma sample_quotes_distinct : same_record iq_ID sample_quotes.
Proof.
  intros p q Hp Hq. unfold sample_quotes in *. rewrite !list_elem_of_In in *. cbn in Hp, Hq.
  destruct Hp as [<-|[<-|[<-|[<-|[<-|[]]]]]], Hq as [<-|[<-|[<-|[<-|[<-|[]]]]]]; cbn; done.
Qed.

Lemma selectInstrumentQuote_correct_witness :
  let e := no_evidence in
  let i := sample_instrument QuoteSourceProvider in
  (iq_ID <$> selectInstrumentQuote i sample_quotes) = Some "q3"%string ∧
  selectInstrumentQuote i (rev sample_quotes) = selectInstrumentQuote i sample_quotes.
Proof.
  split; [reflexivity|].
  apply (proj2 (proj2 (@selectInstrumentQuote_correct _ no_evidence (sample_instrument QuoteSourceProvider) sample_quotes sample_quotes_distinct))).
  apply Permutation_rev.
Defined.

Definition sample_rate (id base quote : string) (src : QuoteSourceKind) (rate : Z) (at_ : Time) (kind date : string) : FXQuote :=
  mkFXQuote id "home" base quote (mkFxRate (dNew rate (-2))) src "frankfurter" at_ at_ false kind date 0 at_
    "frankfurter-v2-blended-v1" "policy_derived" 1 None.

Definition sample_rates : list FXQuote :=
  [ sample_rate "r1" "EUR" "USD" QuoteSourceProvider 110 5000 "daily_reference" "2026-03-02";
    sample_rate "r2" "USD" "EUR" QuoteSourceProvider 90 6000 "latest" "";
    sample_rate "r3" "GBP" "USD" QuoteSourceProvider 130 9000 "latest" "" ].

Lemma selectFXQuote_order_free_witness :
  let pref := mkFXPreference "home" "EUR" "USD" QuoteSourceProvider 0 0 None in
  (fq_ID <$> selectFXQuote pref sample_rates "EUR" "USD" "frankfurter" None) = Some "r2"%string ∧
  selectFXQuote pref (rev sample_rates) "USD" "EUR" "frankfurter" None =
  selectFXQuote pref sample_rates "EUR" "USD" "frankfurter" None.
Proof.
  split; [reflexivity|]. refine (proj1 (selectFXQuote_order_free _ sample_rates (rev sample_rates) "EUR" "USD" "frankfurter" None _ _)).
  - intros p q Hp Hq. unfold sample_rates in *. rewrite !list_elem_of_In in *. cbn in Hp, Hq.
    destruct Hp as [<-|[<-|[<-|[]]]], Hq as [<-|[<-|[<-|[]]]]; cbn; done.
  - apply Permutation_rev.
Defined.
