(* ===== verification/QuoteHistory.v ===== *)
(** * Observations of a closed day

    The selectors of [valuation.go] (package [application]) for a past market date:
    realtime prices are left out, only closes and references with a date label count, and
    a value that is carried to the date must be explained by the recorded coverage of the
    days in between. *)

From S2P Require Export QuoteSelect.
From S2P Require Import MarketPolicy DecimalModel.
From Stdlib Require Import String Ascii.

#[global] Open Scope Z_scope.

(** ** Evidence that a stored observation is a daily value *)

Definition blank_text (s : string) : bool := bool_decide (TrimSpace s = ""%string).

Definition PriceBasisYahooClose : string := "yahoo_close_v1".
Definition PriceBasisYahooCloseUnverified : string := "yahoo_close_unverified".
Definition PriceBasisUnsupported : string := "unsupported".
Definition TimestampBasisSessionClose : string := "session_close".
Definition TimestampBasisPolicyDerived : string := "policy_derived".
Definition TimestampBasisObservedPublication : string := "observed_publication".
Definition CoinGeckoDailyPriceBasis : string := "coingecko_daily_reference_v1".
Definition FrankfurterV2BlendedPolicy : string := "frankfurter-v2-blended-v1".

Section Evidence.
Context `{HD : DecimalAPI}.

Definition historicalAgentInstrumentQualityMatches (q : InstrumentQuote) : bool :=
  negb (blank_text (iq_SourcePolicyVersion q)) && negb (blank_text (iq_PriceBasis q)) &&
  negb (blank_text (iq_TimestampBasis q)).

Definition historicalInstrumentQualityMatches (q : InstrumentQuote) : bool :=
  let priceBasis := TrimSpace (iq_PriceBasis q) in
  let policy := TrimSpace (iq_SourcePolicyVersion q) in
  let timestampBasis := TrimSpace (iq_TimestampBasis q) in
  let key := ToLower (TrimSpace (iq_SourceKey q)) in
  if bool_decide (priceBasis = ""%string) || bool_decide (policy = ""%string) || bool_decide (timestampBasis = ""%string) ||
     bool_decide (priceBasis = PriceBasisUnsupported) || bool_decide (priceBasis = PriceBasisYahooCloseUnverified)
  then false
  else
    let '(archived, valid) := ArchivedInstrumentQuality key priceBasis policy timestampBasis in
    if archived then valid
    else if bool_decide (key = CoinGeckoProviderKey) then
      bool_decide (timestampBasis = TimestampBasisObservedPublication) &&
      bool_decide (priceBasis = CoinGeckoDailyPriceBasis) && bool_decide (policy = CoinGeckoDailyPriceBasis)
    else if bool_decide (key = YahooFinanceProviderKey) then
      if negb (bool_decide (priceBasis = PriceBasisYahooClose)) || negb (bool_decide (policy = PriceBasisYahooClose))
      then false
      else bool_decide (timestampBasis = TimestampBasisSessionClose) || bool_decide (timestampBasis = TimestampBasisPolicyDerived)
    else bool_decide (timestampBasis = TimestampBasisSessionClose).

Definition historicalFXQualityMatches (q : FXQuote) (providerKey : string) : bool :=
  let timestampBasis := TrimSpace (fq_TimestampBasis q) in
  let policy := TrimSpace (fq_SourcePolicyVersion q) in
  if bool_decide (timestampBasis = ""%string) || bool_decide (policy = ""%string) then false
  else if EqualFold (TrimSpace providerKey) FrankfurterProviderKey || EqualFold (TrimSpace (fq_SourceKey q)) FrankfurterProviderKey
  then bool_decide (timestampBasis = TimestampBasisPolicyDerived) && bool_decide (policy = FrankfurterV2BlendedPolicy)
  else true.

End Evidence.

(** ** Which of two observations is the later one *)

(** The fields that the comparisons read; instruments and pairs have the same rules. *)
Record observation := mkObservation {
  ob_source : QuoteSourceKind; ob_date : string; ob_effective : Time; ob_created : Time;
  ob_revision : Z; ob_id : string }.

Definition effective_at (valueEffectiveAt quotedAt : Time) : Time :=
  if timeIsZero valueEffectiveAt then quotedAt else valueEffectiveAt.

Section Views.
Context `{HD : DecimalAPI}.

Definition instrument_observation (q : InstrumentQuote) : observation :=
  mkObservation (iq_SourceKind q) (iq_EffectiveDate q) (effective_at (iq_ValueEffectiveAt q) (iq_QuotedAt q))
    (iq_CreatedAt q) (iq_Revision q) (iq_ID q).
Definition fx_observation (q : FXQuote) : observation :=
  mkObservation (fq_SourceKind q) (fq_EffectiveDate q) (effective_at (fq_ValueEffectiveAt q) (fq_QuotedAt q))
    (fq_CreatedAt q) (fq_Revision q) (fq_ID q).

End Views.

(** [historicalQuoteLater] and [historicalFXQuoteLater]. *)
Definition historicalQuoteLater (candidate selected : observation) : bool :=
  if negb (ob_effective candidate =? ob_effective selected) then ob_effective selected <? ob_effective candidate
  else if negb (ob_created candidate =? ob_created selected) then ob_created selected <? ob_created candidate
  else if negb (ob_revision candidate =? ob_revision selected) then ob_revision selected <? ob_revision candidate
  else String.ltb (ob_id selected) (ob_id candidate).

(** [historicalMarketDateQuoteLater] and [historicalMarketDateFXQuoteLater]. *)
Definition historicalMarketDateQuoteLater (candidate selected : observation) : bool :=
  if negb (bool_decide (ob_date candidate = ob_date selected)) then String.ltb (ob_date selected) (ob_date candidate)
  else if negb (ob_revision candidate =? ob_revision selected) then ob_revision selected <? ob_revision candidate
  else if negb (ob_created candidate =? ob_created selected) then ob_created selected <? ob_created candidate
  else String.ltb (ob_id selected) (ob_id candidate).

Definition agent_on (marketDate : string) (o : observation) : bool :=
  isAgent (ob_source o) && bool_decide (ob_date o = marketDate).
Definition is_manual (o : observation) : bool := bool_decide (ob_source o = QuoteSourceManual).

(** The tests after the instants or dates were found equal. *)
Definition historical_tie (candidate selected : observation) : bool :=
  if negb (bool_decide (ob_source candidate = ob_source selected)) &&
     (isAgent (ob_source candidate) || isAgent (ob_source selected)) then isAgent (ob_source candidate)
  else if is_manual candidate then historicalQuoteLater candidate selected
  else historicalMarketDateQuoteLater candidate selected.

(** [historicalInstrumentQuoteLater] and [historicalFXQuoteLaterWithAgent]. *)
Definition historicalLater (marketDate : string) (candidate selected : observation) : bool :=
  if agent_on marketDate candidate && negb (agent_on marketDate selected) then true
  else if agent_on marketDate selected && negb (agent_on marketDate candidate) then false
  else if is_manual candidate || is_manual selected then
    if negb (ob_effective candidate =? ob_effective selected) then ob_effective selected <? ob_effective candidate
    else historical_tie candidate selected
  else if negb (bool_decide (ob_date candidate = ob_date selected)) then String.ltb (ob_date selected) (ob_date candidate)
  else historical_tie candidate selected.

(** ** Coverage of the days in between *)

Definition closureFactsFromCoverage (id : InstrumentID) (coverage : list InstrumentHistoryCoverage) : list InstrumentClosure :=
  c ← List.filter (λ c, bool_decide (hc_InstrumentID c = id)) coverage;
  (λ date, mkClosure "" id date 0 "" 0) <$> ClosedDates c.

Definition set_of (dates : list string) : gset string := list_to_set dates.

Definition instrumentMarket (i : Instrument) : string :=
  match MarketCode i with None => ""%string | Some code => TrimSpace code end.

Section Coverage.
Context `{HD : DecimalAPI}.

Definition agentInstrumentClosureCoverage (i : Instrument) (quotes : list InstrumentQuote)
    (coverage : list InstrumentHistoryCoverage) : InstrumentHistoryCoverage :=
  let own := List.filter (λ c, bool_decide (hc_InstrumentID c = i_ID i)) coverage in
  let agent_dates := iq_EffectiveDate <$> List.filter (λ q,
    bool_decide (iq_InstrumentID q = i_ID i) && isAgent (iq_SourceKind q) &&
    bool_decide (iq_ObservationKind q = InstrumentObservationClose) && negb (timeIsZero (iq_ValueEffectiveAt q)) &&
    negb (bool_decide (iq_EffectiveDate q = ""%string)) && historicalAgentInstrumentQualityMatches q) quotes in
  let bound := match QuoteSource i, ProviderKey i with
    | QuoteSourceProvider, Some key =>
      List.filter (λ c, EqualFold (hc_ProviderKey c) key && (hc_BindingRevision c =? ProviderBindingRevision i)) own
    | _, _ => []
    end in
  mkCoverage (mjoin (ClosedDates <$> own)) (i_ID i) (InstrumentType_String (i_Type i)) ""
    (default ""%string (ProviderSymbol i)) (instrumentMarket i) "" 0 ""
    (agent_dates ++ mjoin (CloseMarketDates <$> bound)) ∅
    (mjoin (UnverifiedDates <$> bound)) (mjoin (NoObservationDates <$> bound)) ∅ ∅.

Definition agentInstrumentCarryComplete (selected : InstrumentQuote) (closure : InstrumentHistoryCoverage)
    (marketDate : string) : bool :=
  if bool_decide (iq_EffectiveDate selected = marketDate) then true
  else if InstrumentClosedCarry (iq_InstrumentID selected) (instrument_type (hc_InstrumentType closure))
            (iq_EffectiveDate selected) marketDate (closureFactsFromCoverage (iq_InstrumentID selected) [closure]) then true
  else if negb (bool_decide (iq_PriceBasis selected = "agent_raw_close_v1"%string)) then false
  else match InclusiveMarketDates (iq_EffectiveDate selected) marketDate with
  | Fail _ => false
  | Ok dates =>
    forallb (λ date, bool_decide (date = iq_EffectiveDate selected) ||
      bool_decide (date ∈ set_of (CloseMarketDates closure)) || bool_decide (date ∈ set_of (NoObservationDates closure)) ||
      instrumentKnownClosedDate closure date || InferredInstrumentClosure closure date) dates
  end.

(** The inner loop of [historicalInstrumentCoverageCompleteAtMarketDate] for one coverage. *)
Definition coverage_explains (item : InstrumentHistoryCoverage) (dates : list string) : bool :=
  forallb (λ date,
    if bool_decide (date ∈ set_of (CloseMarketDates item)) then true
    else if bool_decide (date ∈ set_of (UnverifiedDates item)) then false
    else if bool_decide (date ∈ set_of (NoObservationDates item)) then true
    else instrumentKnownClosedDate item date || InferredInstrumentClosure item date) dates.

(** A non-blank provider key and a binding. *)
Definition bound_provider (i : Instrument) : option string :=
  match ProviderKey i with
  | Some key => if blank_text key || (ProviderBindingRevision i <=? 0) then None else Some (TrimSpace key)
  | None => None
  end.

Definition historicalInstrumentCoverageCompleteAtMarketDate (i : Instrument) (quote : InstrumentQuote)
    (coverage : list InstrumentHistoryCoverage) (marketDate : string) : bool :=
  match bound_provider i with
  | None => false
  | Some providerKey =>
    let policy := TrimSpace (iq_SourcePolicyVersion quote) in
    let startDate := TrimSpace (iq_EffectiveDate quote) in
    let marketDate := TrimSpace marketDate in
    if bool_decide (startDate = ""%string) || bool_decide (marketDate = ""%string) || String.ltb marketDate startDate
    then false
    else match InclusiveMarketDates startDate marketDate with
    | Fail _ => false
    | Ok dates =>
      match List.find (λ item, bool_decide (hc_InstrumentID item = i_ID i) &&
              EqualFold (TrimSpace (hc_ProviderKey item)) providerKey &&
              (hc_BindingRevision item =? ProviderBindingRevision i) &&
              bool_decide (TrimSpace (hc_SourcePolicyVersion item) = policy)) coverage with
      | None => false
      | Some item => coverage_explains item dates
      end
    end
  end.

Definition fx_coverage_explains (item : FXHistoryCoverage) (dates : list string) : bool :=
  forallb (λ date,
    if bool_decide (date ∈ set_of (DailyReferenceDates item)) then true
    else if bool_decide (date ∈ set_of (fc_UnverifiedDates item)) then false
    else bool_decide (date ∈ set_of (fc_NoObservationDates item))) dates.

Definition historicalFXCoverageCompleteAtMarketDate (coverage : list FXHistoryCoverage) (quote : FXQuote)
    (marketDate : string) : bool :=
  if InstrumentClosedCarry "" (Some InstrumentStock) (fq_EffectiveDate quote) marketDate [] then true
  else match fq_SourceKind quote with
  | QuoteSourceAgent => bool_decide (fq_EffectiveDate quote = marketDate)
  | QuoteSourceManual => true
  | QuoteSourceProvider =>
    if bool_decide (fq_SourcePolicyVersion quote = ""%string) then false
    else
      let startDate := TrimSpace (fq_EffectiveDate quote) in
      let marketDate := TrimSpace marketDate in
      if bool_decide (startDate = ""%string) || bool_decide (marketDate = ""%string) || String.ltb marketDate startDate
      then false
      else match InclusiveMarketDates startDate marketDate with
      | Fail _ => false
      | Ok dates =>
        match List.find (λ item,
                EqualFold (TrimSpace (fc_ProviderKey item)) (TrimSpace (fq_SourceKey quote)) &&
                bool_decide (TrimSpace (fc_SourcePolicyVersion item) = TrimSpace (fq_SourcePolicyVersion quote)) &&
                ((bool_decide (fc_BaseCurrency item = BaseCurrency quote) && bool_decide (fc_QuoteCurrency item = QuoteCurrency quote)) ||
                 (bool_decide (fc_BaseCurrency item = QuoteCurrency quote) && bool_decide (fc_QuoteCurrency item = BaseCurrency quote))))
                coverage with
        | None => false
        | Some item => fx_coverage_explains item dates
        end
      end
  end.

End Coverage.

(** ** The selectors *)

(** An empty date is the day of the cutoff. *)
Definition market_date_of (marketDate : string) (cutoff : Time) : string :=
  let marketDate := TrimSpace marketDate in
  if bool_decide (marketDate = ""%string) && negb (timeIsZero cutoff) then FormatDate cutoff else marketDate.

Section Selectors.
Context `{HD : DecimalAPI}.

(** The guards of the loop of [selectHistoricalInstrumentQuoteWithCoverageAtMarketDate]. *)
Definition instrument_daily_evidence (i : Instrument) (marketDate : string) (q : InstrumentQuote) : bool :=
  match iq_SourceKind q with
  | QuoteSourceManual =>
    bool_decide (iq_ObservationKind q = ""%string) || bool_decide (iq_ObservationKind q = InstrumentObservationManual)
  | QuoteSourceAgent =>
    bool_decide (iq_ObservationKind q = InstrumentObservationClose) && negb (timeIsZero (iq_ValueEffectiveAt q)) &&
    negb (blank_text (iq_EffectiveDate q)) && negb (String.ltb marketDate (iq_EffectiveDate q)) &&
    historicalAgentInstrumentQualityMatches q
  | QuoteSourceProvider =>
    bool_decide (iq_ObservationKind q = InstrumentObservationClose) && negb (timeIsZero (iq_ValueEffectiveAt q)) &&
    match ProviderKey i with
    | None => false
    | Some key => negb (blank_text key) &&
        bool_decide (ToLower (TrimSpace (iq_SourceKey q)) = ToLower (TrimSpace key))
    end &&
    (0 <? ProviderBindingRevision i) && (iq_BindingRevision q =? ProviderBindingRevision i) &&
    historicalInstrumentQualityMatches q &&
    negb (blank_text (iq_EffectiveDate q)) && negb (String.ltb marketDate (TrimSpace (iq_EffectiveDate q)))
  end.

(** The instant is known, and a manual value was known by the cutoff. *)
Definition known_by (cutoff : Time) (o : observation) : bool :=
  negb (timeIsZero (ob_effective o)) && negb (is_manual o && (cutoff <? ob_effective o)).

Definition historical_instrument_eligible (i : Instrument) (marketDate : string) (cutoff : Time) (q : InstrumentQuote) : bool :=
  bool_decide (iq_InstrumentID q = i_ID i) && bool_decide (iq_Currency q = i_QuoteCurrency i) &&
  quoteSourceAllowed (QuoteSource i) (iq_SourceKind q) && instrument_daily_evidence i marketDate q &&
  known_by cutoff (instrument_observation q).

Record historicalInstrumentSelection := mkHistSelection {
  hs_quote : option InstrumentQuote; coverageComplete : bool }.

(** The loop over the quotes, generic in the kind of observation. *)
Definition select_historical {T} (view : T → observation) (elig : T → bool) (marketDate : string) (quotes : list T) : option T :=
  fold_left (λ selected q, if elig q then keep_later (λ a b, historicalLater marketDate (view a) (view b)) selected q
                           else selected) quotes None.

Definition selectHistoricalInstrumentQuoteWithCoverageAtMarketDate (i : Instrument) (quotes : list InstrumentQuote)
    (coverage : list InstrumentHistoryCoverage) (marketDate : string) (cutoff : Time) : historicalInstrumentSelection :=
  let marketDate := market_date_of marketDate cutoff in
  let selected := select_historical instrument_observation (historical_instrument_eligible i marketDate cutoff) marketDate quotes in
  match selected with
  | None => mkHistSelection None true
  | Some q =>
    if InstrumentClosedCarry (i_ID i) (Some (i_Type i)) (iq_EffectiveDate q) marketDate
         (closureFactsFromCoverage (i_ID i) coverage)
    then mkHistSelection selected true
    else if bool_decide (QuoteSource i = QuoteSourceManual) then mkHistSelection selected true
    else mkHistSelection selected
      match iq_SourceKind q with
      | QuoteSourceProvider => historicalInstrumentCoverageCompleteAtMarketDate i q coverage marketDate
      | QuoteSourceAgent =>
        agentInstrumentCarryComplete q (agentInstrumentClosureCoverage i quotes coverage) marketDate
      | QuoteSourceManual => true
      end
  end.

Definition fx_daily_evidence (providerKey marketDate : string) (q : FXQuote) : bool :=
  match fq_SourceKind q with
  | QuoteSourceManual =>
    bool_decide (fq_ObservationKind q = ""%string) || bool_decide (fq_ObservationKind q = FXObservationManual)
  | QuoteSourceAgent =>
    bool_decide (fq_ObservationKind q = FXObservationDailyReference) && negb (blank_text (fq_EffectiveDate q)) &&
    negb (String.ltb marketDate (fq_EffectiveDate q)) && negb (timeIsZero (fq_ValueEffectiveAt q)) &&
    negb (blank_text (fq_SourcePolicyVersion q)) && negb (blank_text (fq_TimestampBasis q))
  | QuoteSourceProvider =>
    bool_decide (fq_ObservationKind q = FXObservationDailyReference) && negb (blank_text (fq_SourcePolicyVersion q)) &&
    (bool_decide (providerKey = ""%string) || bool_decide (ToLower (TrimSpace (fq_SourceKey q)) = providerKey)) &&
    historicalFXQualityMatches q providerKey &&
    negb (blank_text (fq_EffectiveDate q)) && negb (String.ltb marketDate (TrimSpace (fq_EffectiveDate q)))
  end.

Definition historical_fx_eligible (preference : FXPreference) (native householdBase : CurrencyCode)
    (providerKey marketDate : string) (cutoff : Time) (q : FXQuote) : bool :=
  bool_decide (fq_HouseholdID q = fp_HouseholdID preference) && same_pair q native householdBase &&
  quoteSourceAllowed (fp_SourceKind preference) (fq_SourceKind q) && fx_daily_evidence providerKey marketDate q &&
  known_by cutoff (fx_observation q).

Definition selectHistoricalFXQuoteAtMarketDate (preference : FXPreference) (quotes : list FXQuote)
    (native householdBase : CurrencyCode) (providerKey marketDate : string) (cutoff : Time) : option FXQuote :=
  let providerKey := ToLower (TrimSpace providerKey) in
  let marketDate := market_date_of marketDate cutoff in
  select_historical fx_observation (historical_fx_eligible preference native householdBase providerKey marketDate cutoff)
    marketDate quotes.

End Selectors.

(** ** The order of observations of a closed day *)

Definition first_rev (o : observation) : Z := if is_manual o then ob_created o else ob_revision o.
Definition second_rev (o : observation) : Z := if is_manual o then ob_revision o else ob_created o.

(** Among equal sources; manual values compare creation first, daily values revision. *)
Definition record_cmp : observation → observation → comparison :=
  lex (by_key first_rev Z.compare) (lex (by_key second_rev Z.compare) (by_key ob_id String.compare)).
Definition agent_first : observation → observation → comparison := by_key (λ o, isAgent (ob_source o)) bool_cmp.
Definition tail_cmp : observation → observation → comparison := lex agent_first record_cmp.

(** An agent's value of the very day first, then the time of the values. *)
Definition day_cmp (marketDate : string) (time : observation → observation → comparison) : observation → observation → comparison :=
  lex (by_key (agent_on marketDate) bool_cmp) (lex time tail_cmp).

#[export] Instance tail_ordered : Ordered tail_cmp := _.
#[export] Instance day_ordered d time : Ordered time → Ordered (day_cmp d time) := _.

(** Two daily values are compared by their dates, others by their instants: not an order. *)
Definition mixed_time (a b : observation) : comparison :=
  if is_manual a || is_manual b then Z.compare (ob_effective a) (ob_effective b) else String.compare (ob_date a) (ob_date b).

(** Sources that are both agents or both not are the same. *)
Definition same_kind (a b : observation) : Prop := isAgent (ob_source a) = isAgent (ob_source b) → is_manual a = is_manual b.

Lemma historicalQuoteLater_cmp a b : is_manual a = true → is_manual b = true → ob_effective a = ob_effective b →
  historicalQuoteLater a b = is_gt (record_cmp a b).
Proof.
  intros Ha Hb He. unfold historicalQuoteLater. rewrite He, Z.eqb_refl. cbn [negb]. rewrite !Z_test.
  unfold record_cmp, lex, by_key, first_rev, second_rev. rewrite Ha, Hb.
  destruct (Z.compare (ob_created a) _); [|done|done]. destruct (Z.compare (ob_revision a) _); [|done|done].
  rewrite !is_gt_bool. symmetry. apply is_gt_string.
Qed.

Lemma historicalMarketDateQuoteLater_cmp a b : is_manual a = false → is_manual b = false → ob_date a = ob_date b →
  historicalMarketDateQuoteLater a b = is_gt (record_cmp a b).
Proof.
  intros Ha Hb He. unfold historicalMarketDateQuoteLater. rewrite bool_decide_eq_true_2 by done. cbn [negb]. rewrite !Z_test.
  unfold record_cmp, lex, by_key, first_rev, second_rev. rewrite Ha, Hb.
  destruct (Z.compare (ob_revision a) _); [|done|done]. destruct (Z.compare (ob_created a) _); [|done|done].
  rewrite !is_gt_bool. symmetry. apply is_gt_string.
Qed.

Lemma historical_tie_cmp a b : same_kind a b → mixed_time a b = Eq → historical_tie a b = is_gt (tail_cmp a b).
Proof.
  intros Hk Ht. unfold historical_tie. rewrite agent_test. unfold tail_cmp, lex at 1.
  change (bool_cmp _ _) with (agent_first a b). destruct (agent_first a b) eqn:E; [|done|done].
  assert (Hm : is_manual a = is_manual b).
  { apply Hk. unfold agent_first, by_key in E. by destruct (isAgent (ob_source a)), (isAgent (ob_source b)). }
  unfold mixed_time in Ht. rewrite <-Hm in Ht. destruct (is_manual a) eqn:Ha; cbn [orb] in Ht; apply is_gt_if.
  - apply Z.compare_eq_iff in Ht. by apply historicalQuoteLater_cmp.
  - apply string_compare_eq in Ht. by apply historicalMarketDateQuoteLater_cmp.
Qed.

Lemma historicalLater_cmp d a b : same_kind a b → historicalLater d a b = is_gt (day_cmp d mixed_time a b).
Proof.
  intros Hk. unfold historicalLater, day_cmp, lex at 1, by_key.
  destruct (agent_on d a) eqn:Ea, (agent_on d b) eqn:Eb; cbn [andb negb bool_cmp]; try done.
  all: pose proof (historical_tie_cmp a b Hk) as Ht; unfold mixed_time in Ht; unfold lex at 1, mixed_time.
  all: destruct (is_manual a || is_manual b);
    [rewrite Z_test; destruct (Z.compare _ _); [|done|done]|rewrite string_test; destruct (String.compare _ _); [|done|done]].
  all: rewrite <-Ht by done; by destruct (historical_tie a b).
Qed.

Lemma record_id a b : tail_cmp a b = Eq → ob_id a = ob_id b.
Proof. unfold tail_cmp, record_cmp. intros E. repeat apply lex_eq in E. by apply string_compare_eq in E. Qed.

Section Historical.
Context {T : Type} (view : T → observation) (elig : T → bool) (d : string).

Let later (a b : T) : bool := historicalLater d (view a) (view b).

(** The times of the observations of the list are those of a comparison. *)
Definition ordered_by (time : observation → observation → comparison) (l : list T) : Prop :=
  ∀ p q, p ∈ l → q ∈ l → elig p = true → elig q = true →
    same_kind (view p) (view q) ∧ mixed_time (view p) (view q) = time (view p) (view q).

Lemma select_filter l : select_historical view elig d l = fold_left (keep_later later) (List.filter elig l) None.
Proof.
  unfold select_historical. generalize (@None T). induction l as [|q l IH]; intros acc; [done|].
  cbn [fold_left List.filter]. destruct (elig q); apply IH.
Qed.

Lemma filter_in l q : q ∈ List.filter elig l ↔ q ∈ l ∧ elig q = true.
Proof. by rewrite list_elem_of_In, List.filter_In, <-list_elem_of_In. Qed.

Lemma historical_chain time l : Ordered time → ordered_by time l → same_record (λ q, ob_id (view q)) l →
  chain later (List.filter elig l).
Proof.
  intros HO Hl Hu. apply (ordered_chain (by_key view (day_cmp d time))).
  - intros x y Hx Hy. apply filter_in in Hx as [Hx Ex], Hy as [Hy Ey]. destruct (Hl x y) as [Hk Ht]; [done..|].
    unfold later. rewrite historicalLater_cmp by done. unfold by_key, day_cmp, lex. by rewrite Ht.
  - intros x y Hx Hy E. apply filter_in in Hx as [Hx _], Hy as [Hy _]. apply Hu; [done..|].
    apply record_id. unfold by_key, day_cmp in E. by do 2 apply lex_eq in E.
Qed.

Lemma select_historical_spec time l q : Ordered time → ordered_by time l → same_record (λ q, ob_id (view q)) l →
  select_historical view elig d l = Some q ↔
  (q ∈ l ∧ elig q = true) ∧ ∀ p, p ∈ l → elig p = true → p = q ∨ day_cmp d time (view q) (view p) = Gt.
Proof.
  intros HO Hl Hu. rewrite select_filter, keep_later_greatest by (by eapply historical_chain).
  unfold greatest. rewrite filter_in. split; intros [[Hq Eq] Hg]; (split; [done|]).
  - intros p Hp Ep. destruct (Hg p) as [->|Hgt]; [by apply filter_in|by left|right].
    destruct (Hl q p) as [Hk Ht]; [done..|]. unfold later in Hgt. rewrite historicalLater_cmp, is_gt_true in Hgt by done.
    unfold day_cmp, lex in *. by rewrite <-Ht.
  - intros p Hp. apply filter_in in Hp as [Hp Ep]. destruct (Hg p Hp Ep) as [->|Hgt]; [by left|right].
    destruct (Hl q p) as [Hk Ht]; [done..|]. unfold later. rewrite historicalLater_cmp, is_gt_true by done.
    unfold day_cmp, lex in *. by rewrite Ht.
Qed.

Lemma select_historical_perm time l k : Ordered time → ordered_by time l → same_record (λ q, ob_id (view q)) l →
  l ≡ₚ k → select_historical view elig d l = select_historical view elig d k.
Proof.
  intros HO Hl Hu Hp. rewrite !select_filter. apply keep_later_perm; [by eapply historical_chain|].
  clear Hl Hu. induction Hp as [|x l k _ IH|x y l|l k m _ IH1 _ IH2]; cbn; [done| | |by etransitivity].
  - destruct (elig x); [by constructor|done].
  - destruct (elig x), (elig y); try done. constructor.
Qed.

Lemma select_historical_elig l q : select_historical view elig d l = Some q → q ∈ l ∧ elig q = true.
Proof.
  rewrite select_filter. intros Hs. rewrite <-filter_in. revert Hs.
  assert (Hgen : ∀ l acc, fold_left (keep_later later) l acc = Some q → acc = Some q ∨ q ∈ l); [|intros Hs; by destruct (Hgen _ _ Hs)].
  clear l. induction l as [|x l IH]; intros acc Hs; [by left|]. cbn in Hs. apply IH in Hs as [Hs|Hs]; [|right; by right].
  destruct acc as [s|]; cbn in Hs; [destruct (later x s)|]; injection Hs as <-; [right; by left|by left|right; by left].
Qed.

Lemma select_historical_none l : select_historical view elig d l = None ↔ ∀ q, q ∈ l → elig q = false.
Proof.
  rewrite select_filter, keep_later_none. split.
  - intros E q Hq. destruct (elig q) eqn:Eq; [|done]. assert (Hin : q ∈ List.filter elig l) by by apply filter_in.
    rewrite E in Hin. by apply elem_of_nil in Hin.
  - intros Ha. destruct (List.filter elig l) as [|q r] eqn:E; [done|].
    assert (Hin : q ∈ List.filter elig l) by (rewrite E; by left). apply filter_in in Hin as [Hq Eq]. by rewrite Ha in Eq.
Qed.
End Historical.

(** ** The value of a closed day *)

(** The time that orders the eligible observations of a preference. *)
Definition day_time (preference : QuoteSourceKind) : observation → observation → comparison :=
  match preference with
  | QuoteSourceManual => by_key ob_effective Z.compare
  | _ => by_key ob_date String.compare
  end.
#[export] Instance day_time_ordered k : Ordered (day_time k).
Proof. destruct k; apply _. Qed.

Definition dates_follow_instants (l : list observation) : Prop :=
  ∀ a b, a ∈ l → b ∈ l → isAgent (ob_source a) = true → isAgent (ob_source b) = true →
    String.compare (ob_date a) (ob_date b) = Z.compare (ob_effective a) (ob_effective b).

Lemma source_allowed preference k : quoteSourceAllowed preference k = true → k = QuoteSourceAgent ∨ k = preference.
Proof. destruct preference, k; auto; discriminate. Qed.

Lemma day_time_spec preference a b : quoteSourceAllowed preference (ob_source a) = true →
  quoteSourceAllowed preference (ob_source b) = true →
  (preference = QuoteSourceManual → isAgent (ob_source a) = true → isAgent (ob_source b) = true →
     String.compare (ob_date a) (ob_date b) = Z.compare (ob_effective a) (ob_effective b)) →
  same_kind a b ∧ mixed_time a b = day_time preference a b.
Proof.
  intros Ha Hb Hc. apply source_allowed in Ha, Hb. unfold same_kind, mixed_time, is_manual, day_time, by_key.
  destruct preference, (ob_source a), (ob_source b); (destruct Ha, Hb; try discriminate); (split; [done|]); try done; by apply Hc.
Qed.

Section HistoricalTheorems.
Context `{HD : DecimalAPI}.
Variables (instrument : Instrument) (quotes : list InstrumentQuote) (marketDate : string) (cutoff : Time).

Let md := market_date_of marketDate cutoff.
Let eligible := historical_instrument_eligible instrument md cutoff.

Lemma instrument_ordered_by :
  (QuoteSource instrument = QuoteSourceManual → dates_follow_instants (instrument_observation <$> quotes)) →
  ordered_by instrument_observation eligible (day_time (QuoteSource instrument)) quotes.
Proof.
  intros Hc p q Hp Hq Ep Eq.
  assert (Hallowed : ∀ x, eligible x = true → quoteSourceAllowed (QuoteSource instrument) (iq_SourceKind x) = true).
  { intros x Hx. unfold eligible, historical_instrument_eligible in Hx. rewrite !andb_true_iff in Hx. tauto. }
  apply day_time_spec; [by apply Hallowed..|]. intros Hm. apply (Hc Hm); apply list_elem_of_fmap; eauto.
Qed.

Lemma historical_quote coverage : hs_quote (selectHistoricalInstrumentQuoteWithCoverageAtMarketDate instrument quotes coverage marketDate cutoff) =
  select_historical instrument_observation eligible md quotes.
Proof.
  unfold selectHistoricalInstrumentQuoteWithCoverageAtMarketDate. fold md. fold eligible.
  destruct (select_historical _ _ _ _); [|done]. destruct (InstrumentClosedCarry _ _ _ _ _); [done|]. by case_bool_decide.
Qed.

(** Claim C29.  The value of a closed day is the eligible daily observation that is last in
    the order of its preference: an agent's value of the very day, then the latest date
    (instant, if manual values compete), then agents, then the latest record; it does not
    depend on the order in which the observations were loaded.  For a manual preference
    this needs the dates of agent values to follow their instants. *)
Theorem historical_selection_correct coverage :
  same_record iq_ID quotes →
  (QuoteSource instrument = QuoteSourceManual → dates_follow_instants (instrument_observation <$> quotes)) →
  let select l := hs_quote (selectHistoricalInstrumentQuoteWithCoverageAtMarketDate instrument l coverage marketDate cutoff) in
  let cmp p q := day_cmp (market_date_of marketDate cutoff) (day_time (QuoteSource instrument))
                   (instrument_observation p) (instrument_observation q) in
  let ok := historical_instrument_eligible instrument (market_date_of marketDate cutoff) cutoff in
  (∀ q, select quotes = Some q ↔ (q ∈ quotes ∧ ok q = true) ∧ ∀ p, p ∈ quotes → ok p = true → p = q ∨ cmp q p = Gt) ∧
  (select quotes = None ↔ ∀ q, q ∈ quotes → ok q = false) ∧
  (∀ quotes', quotes ≡ₚ quotes' → select quotes' = select quotes).
Proof.
  intros Hu Hc select cmp ok. pose proof (instrument_ordered_by Hc) as Ho. split_and!.
  - intros q. unfold select. rewrite historical_quote. by apply select_historical_spec; [apply _|..].
  - unfold select. rewrite historical_quote. apply select_historical_none.
  - intros quotes' Hp. symmetry. unfold select. rewrite historical_quote.
    transitivity (select_historical instrument_observation eligible md quotes').
    + by eapply select_historical_perm; [apply _|apply Ho|..].
    + unfold selectHistoricalInstrumentQuoteWithCoverageAtMarketDate. fold md. fold eligible.
      destruct (select_historical _ _ _ _); [|done]. destruct (InstrumentClosedCarry _ _ _ _ _); [done|]. by case_bool_decide.
Qed.

(** Day [n] has a close, or is known or verified to have none. *)
Definition explained (item : InstrumentHistoryCoverage) (n : Z) : Prop :=
  let date := format_days n in
  date ∈ CloseMarketDates item ∨
  ((date ∉ UnverifiedDates item) ∧
   (date ∈ NoObservationDates item ∨ instrumentKnownClosedDate item date = true ∨ InferredInstrumentClosure item date = true)).

Lemma coverage_explains_spec item s t a b : is_date s a → is_date t b →
  coverage_explains item (format_days <$> seqZ a (b - a + 1)) = true ↔ ∀ n, a <= n <= b → explained item n.
Proof.
  intros Hs Ht. unfold coverage_explains. rewrite forallb_forall. unfold explained.
  assert (Hd : ∀ n, (if bool_decide (format_days n ∈ set_of (CloseMarketDates item)) then true
    else if bool_decide (format_days n ∈ set_of (UnverifiedDates item)) then false
    else if bool_decide (format_days n ∈ set_of (NoObservationDates item)) then true
    else instrumentKnownClosedDate item (format_days n) || InferredInstrumentClosure item (format_days n)) = true ↔ explained item n).
  { intros n. unfold explained, set_of. rewrite !(bool_decide_ext _ _ (elem_of_list_to_set _ _)).
    repeat case_bool_decide; rewrite ?orb_true_iff; intuition discriminate. }
  split.
  - intros Hf n Hn. apply Hd, Hf, list_elem_of_In, list_elem_of_fmap. exists n. rewrite elem_of_seqZ. split; [done|lia].
  - intros Hf x Hx. apply list_elem_of_In, list_elem_of_fmap in Hx as (n & -> & Hn). apply elem_of_seqZ in Hn. apply Hd, Hf. lia.
Qed.

(** Claim C30.  A provider's value that is reported as complete for a closed day was not
    taken from the future, and every day after the date of the value is explained: all of
    them are closed days of the instrument, or one recorded coverage of the same binding and
    policy has for each of them a close, a verified absence, or a known or inferred closed
    day that is not awaiting verification. *)
Theorem complete_value_explained coverage q a b :
  let s := selectHistoricalInstrumentQuoteWithCoverageAtMarketDate instrument quotes coverage marketDate cutoff in
  hs_quote s = Some q → iq_SourceKind q = QuoteSourceProvider → coverageComplete s = true →
  is_date (iq_EffectiveDate q) a → is_date (market_date_of marketDate cutoff) b →
  a <= b ∧
  ((∀ n, a < n <= b → closed_day (i_ID instrument) (Some (i_Type instrument)) (closureFactsFromCoverage (i_ID instrument) coverage) n = true) ∨
   ∃ item, item ∈ coverage ∧ hc_InstrumentID item = i_ID instrument ∧
     hc_BindingRevision item = ProviderBindingRevision instrument ∧
     TrimSpace (hc_SourcePolicyVersion item) = TrimSpace (iq_SourcePolicyVersion q) ∧
     ∀ n, a < n <= b → explained item n).
Proof.
  intros s Hq Hk Hcomp Ha Hb. unfold s in *. rewrite historical_quote in Hq.
  destruct (select_historical_elig _ _ _ _ _ Hq) as [Hin Hel].
  assert (Htrim : TrimSpace (iq_EffectiveDate q) = iq_EffectiveDate q) by (apply TrimSpace_graphic; by eapply date_graphic).
  unfold eligible, historical_instrument_eligible, instrument_daily_evidence in Hel. rewrite Hk in Hel.
  rewrite !andb_true_iff, !negb_true_iff, Htrim, (date_ltb md _ b a) in Hel by done.
  assert (Hab : a <= b) by (destruct Hel as [[_ Hel] _]; destruct Hel as [_ Hel]; by apply Z.ltb_ge in Hel).
  split; [done|].
  assert (Hallowed : QuoteSource instrument = QuoteSourceProvider).
  { destruct Hel as [[[[_ _] Hel] _] _]. apply source_allowed in Hel as [|]; done. }
  unfold selectHistoricalInstrumentQuoteWithCoverageAtMarketDate in Hcomp. fold md in Hcomp. fold eligible in Hcomp. rewrite Hq in Hcomp.
  destruct (InstrumentClosedCarry _ _ _ _ _) eqn:Ec.
  { left. apply (InstrumentClosedCarry_correct _ _ _ _ _ a b) in Ec as [[_ Ec]|[-> Ec]]; [exact Ec|intros n Hn; lia|done..]. }
  rewrite Hallowed, Hk, bool_decide_eq_false_2 in Hcomp by done. cbn [coverageComplete] in Hcomp. right.
  unfold historicalInstrumentCoverageCompleteAtMarketDate in Hcomp. destruct (bound_provider instrument) as [key|]; [|done].
  rewrite Htrim in Hcomp. destruct (_ || _ || _); [done|].
  assert (Htm : TrimSpace md = md) by (apply TrimSpace_graphic; by eapply date_graphic). rewrite Htm in Hcomp.
  rewrite (InclusiveMarketDates_seqZ _ _ a b) in Hcomp by done.
  destruct (List.find _ _) as [item|] eqn:Ef; [|done]. apply List.find_some in Ef as [Hitem Ef].
  rewrite !andb_true_iff, !bool_decide_eq_true, Z.eqb_eq in Ef. destruct Ef as [[[Hid _] Hrev] Hpol].
  exists item. split_and!; [by apply list_elem_of_In|done..|]. intros n Hn.
  rewrite coverage_explains_spec in Hcomp by done. apply Hcomp. lia.
Qed.
End HistoricalTheorems.

(** ** Concrete histories *)

Definition history_day (d : Z) : Time := utc_midnight (days_of_civil 2026 3 d).

(** An agent's close without a price is recorded at the start of its day. *)
Definition agent_close (id : string) (price : Z) (at_ created : Time) (date : string) : InstrumentQuote :=
  mkInstrumentQuote id "gold-etf" (mkUnitPrice (dInt price)) "USD" QuoteSourceAgent "agent" at_ created false "close" date
    at_ created at_ 1 "agent_supplied_v1" "agent_raw_close_v1" "date_label" 0 None "" "" "".

(** 3 March: a close at 20:00; a correction of that day without a time; a manual price at noon. *)
Definition evening : InstrumentQuote := agent_close "a1" 100 (history_day 3 + 20 * Hour) (history_day 3 + 21 * Hour) "2026-03-03".
Definition correction : InstrumentQuote := agent_close "a2" 101 (history_day 3) (history_day 3 + 22 * Hour) "2026-03-03".
Definition noon : InstrumentQuote := sample_quote "m1" QuoteSourceManual 102 (history_day 3 + 12 * Hour) "manual" "".

Definition value_on_4_march (quotes : list InstrumentQuote) : option string :=
  iq_ID <$> hs_quote (selectHistoricalInstrumentQuoteWithCoverageAtMarketDate (sample_instrument QuoteSourceManual)
    quotes [] "2026-03-04" (history_day 5)).

(** For a manual preference the comparison of historical observations is not an
    order: the correction replaces the evening close of its day, the evening close is later
    than the manual price, and the manual price is later than the correction.  The value of
    the next day then depends on the order in which the rows are read. *)
Theorem historical_selection_cycle :
  let later a b := historicalLater "2026-03-04" (instrument_observation a) (instrument_observation b) in
  later correction evening = true ∧ later evening noon = true ∧ later noon correction = true ∧
  value_on_4_march [evening; correction; noon] = Some "m1"%string ∧
  value_on_4_march [correction; noon; evening] = Some "a1"%string.
Proof. vm_compute. repeat split. Qed.

Definition two_sources : list InstrumentQuote :=
  [sample_quote "q1" QuoteSourceProvider 100 (history_day 2) "close" "2026-03-02";
   agent_close "a1" 101 (history_day 3) (history_day 3) "2026-03-03"].

Lemma two_sources_distinct : same_record iq_ID two_sources.
Proof.
  intros p q Hp Hq. unfold two_sources in *. rewrite !list_elem_of_In in *. cbn in Hp, Hq.
  destruct Hp as [<-|[<-|[]]], Hq as [<-|[<-|[]]]; cbn; done.
Qed.

Definition value_on_3_march (quotes : list InstrumentQuote) : option InstrumentQuote :=
  hs_quote (selectHistoricalInstrumentQuoteWithCoverageAtMarketDate (sample_instrument QuoteSourceProvider)
    quotes [] "2026-03-03" (history_day 4)).

Lemma historical_selection_correct_witness :
  (iq_ID <$> value_on_3_march two_sources) = Some "a1"%string ∧
  value_on_3_march (rev two_sources) = value_on_3_march two_sources.
Proof.
  split; [vm_compute; reflexivity|].
  exact (proj2 (proj2 (historical_selection_correct (sample_instrument QuoteSourceProvider) two_sources "2026-03-03"
    (history_day 4) [] two_sources_distinct (λ E : QuoteSourceProvider = QuoteSourceManual, ltac:(discriminate E))))
    (rev two_sources) (Permutation_rev two_sources)).
Defined.

(** A Friday close carried to Monday, on which the exchange had a verified absence. *)
Definition friday : Z := days_of_civil 2026 3 6.
Definition monday : Z := days_of_civil 2026 3 9.
Definition friday_quote : InstrumentQuote := sample_quote "q1" QuoteSourceProvider 100 (history_day 6) "close" "2026-03-06".
Definition monday_item : InstrumentHistoryCoverage :=
  mkCoverage [] "gold-etf" "etf" "yahoo_finance" "GLD" "NYSE" "USD" 1 "yahoo_close_v1"
    ["2026-03-06"]%string ∅ [] ["2026-03-09"]%string ∅ ∅.
Definition monday_value : historicalInstrumentSelection :=
  selectHistoricalInstrumentQuoteWithCoverageAtMarketDate (sample_instrument QuoteSourceProvider) [friday_quote] [monday_item]
    "2026-03-09" (history_day 10).

Lemma complete_value_explained_witness :
  coverageComplete monday_value = true ∧
  ((∀ n, friday < n <= monday → closed_day "gold-etf" (Some InstrumentETF) (closureFactsFromCoverage "gold-etf" [monday_item]) n = true) ∨
   ∃ item, item ∈ [monday_item] ∧ hc_InstrumentID item = "gold-etf"%string ∧ hc_BindingRevision item = 1 ∧
     TrimSpace (hc_SourcePolicyVersion item) = TrimSpace (iq_SourcePolicyVersion friday_quote) ∧
     ∀ n, friday < n <= monday → explained item n).
Proof.
  split; [vm_compute; reflexivity|].
  assert (E : historical_instrument_eligible (sample_instrument QuoteSourceProvider)
    (market_date_of "2026-03-09" (history_day 10)) (history_day 10) friday_quote = true) by (vm_compute; reflexivity).
  pose proof (complete_value_explained (sample_instrument QuoteSourceProvider) [friday_quote] "2026-03-09" (history_day 10)
    [monday_item] friday_quote friday monday) as T. cbv zeta in T.
  destruct T as [_ T].
  - rewrite historical_quote. unfold select_historical. cbn [fold_left]. by rewrite E.
  - reflexivity.
  - vm_compute. reflexivity.
  - vm_compute. reflexivity.
  - vm_compute. reflexivity.
  - exact T.
Defined.
