(* ===== verification/Valuation.v ===== *)
(** * Valuation of a household

    The authoritative reader of current and historical values ([valuation.go], package
    [application], with the records of [domain/valuation.go]): a balance or a holding is
    valued in its own currency and converted to the base currency, an input that is
    missing is reported instead of guessed, and the accounts of a snapshot are added up.

    A service is a record: its callbacks (clock, provider key, cache lifetime) are values,
    and the cancellation of a context is left out.  Where the source fills a map of lists
    keyed by account, the list of an account is a filter of the whole list. *)

From S2P Require Export QuoteHistory Liquidity.
From S2P Require Import DecimalModel.
From Stdlib Require Import String Ascii.

#[global] Open Scope Z_scope.

(** ** Views *)

Record MoneyView := mkView { mv_Amount : string; mv_Currency : CurrencyCode }.

Inductive MissingInputKind :=
| MissingInstrumentPrice | MissingInstrument' | MissingFXRate | MissingAccountValue | MissingHistoryCoverage
| MissingHoldingAmount.
#[export] Instance MissingInputKind_eq_dec : EqDecision MissingInputKind.
Proof. solve_decision. Defined.

Definition MissingInputKind_String (k : MissingInputKind) : string :=
  match k with
  | MissingInstrumentPrice => "instrument_price" | MissingInstrument' => "missing_instrument"
  | MissingFXRate => "fx_rate" | MissingAccountValue => "account_value"
  | MissingHistoryCoverage => "history_coverage" | MissingHoldingAmount => "holding_amount"
  end.

(** A source that is not set is [None]. *)
Record MissingInputView := mkMissing {
  mi_Kind : MissingInputKind; mi_AccountID : AccountID; mi_AccountName : string;
  mi_InstrumentID : option InstrumentID; mi_InstrumentName : string; mi_InstrumentShortName : string;
  mi_InstrumentSymbol : string; mi_QuoteSource : option QuoteSourceKind;
  mi_BaseCurrency : CurrencyCode; mi_QuoteCurrency : CurrencyCode }.

Record ValuationComponent := mkValuationComponent {
  vc_InstrumentType : option InstrumentType; vc_MissingInputs : list MissingInputView; vc_AccountID : AccountID;
  vc_HoldingID : option HoldingID; vc_InstrumentID : option InstrumentID;
  vc_StateObservationID : option string; vc_FXPreferenceObservationID : option string;
  vc_InstrumentName : string; vc_InstrumentShortName : string; vc_InstrumentSymbol : string;
  vc_NativeAmount : string; vc_NativeCurrency : CurrencyCode; vc_BaseAmount : option MoneyView;
  vc_BaseAmountExact : string; vc_PriceEvidence : option QuoteEvidenceView;
  vc_FXEvidence : option QuoteEvidenceView; vc_PreferenceObservationID : option string; vc_Available : bool }.

(** The account-page projections (composition, display value) are computed elsewhere. *)
Record AccountValuation := mkAccountValuation {
  val_Account : Account; val_Ownership : Ownership; val_InstitutionName : string; val_GroupName : string;
  val_BaseValue : option MoneyView; val_Complete : bool; val_Components : list ValuationComponent;
  val_MissingInputs : list MissingInputView }.

Record AllocationView := mkAllocation {
  al_Key : string; al_Label : string; al_Amount : MoneyView; al_ShareBPS : Z }.

Section Valuation.
Context `{HD : DecimalAPI} `{HM : MetalEvidence} `{TZ : TimeZones}.

Record AccountRecord := mkAccountRecord {
  rec_Account : Account; rec_Ownership : Ownership; rec_LatestValue : option AccountValue;
  rec_StateObservationID : option string; rec_InstitutionName : string; rec_GroupName : string }.

(** The parts of [PortfolioSnapshot] that valuation reads. *)
Record PortfolioSnapshot := mkSnapshot {
  ps_InstrumentClosures : list InstrumentClosure; ps_Household : option Household; ps_Origin : option HistoryOrigin;
  ps_Accounts : list AccountRecord; ps_Instruments : list Instrument; ps_Holdings : list Holding;
  ps_CashValues : list AccountCashValue; ps_InstrumentQuotes : list InstrumentQuote; ps_FXQuotes : list FXQuote;
  ps_FXPreferences : list FXPreference; ps_InstrumentHistoryCoverage : list InstrumentHistoryCoverage;
  ps_FXHistoryCoverage : list FXHistoryCoverage }.

(** [clockLocation] is the location that the instants of the clock carry. *)
Record ValuationService := mkValuationService {
  v_now : Time; clockLocation : Location; fxProviderKey : option string; quoteCacheTTL : option Z;
  historical : bool; historicalMarketDate : string;
  historicalInstrumentSelections : option (gmap InstrumentID historicalInstrumentSelection) }.

Variable v : ValuationService.

Definition quoteTTL : Z :=
  match quoteCacheTTL v with Some ttl => if 0 <? ttl then ttl else 12 * Hour | None => 12 * Hour end.

Definition historicalDate : string :=
  let marketDate := TrimSpace (historicalMarketDate v) in
  if bool_decide (marketDate = ""%string) then FormatDate (v_now v) else marketDate.

Definition providerKey : string :=
  match fxProviderKey v with None => ""%string | Some key => ToLower (TrimSpace key) end.

Definition displayDate (snapshot : PortfolioSnapshot) : string :=
  let own := FormatDate (wall (clockLocation v) (v_now v)) in
  match ps_Origin snapshot with
  | Some origin => match LoadLocation (ho_Timezone origin) with Some loc => FormatDate (wall loc (v_now v)) | None => own end
  | None => own
  end.

Definition targetDate (snapshot : PortfolioSnapshot) : string :=
  if historical v then historicalDate else displayDate snapshot.

Definition moneyView (value : Decimal) (cur : CurrencyCode) : Result MoneyView :=
  money ← NewMoney value cur;
  Ok (mkView (CanonicalAmount money) (currency money)).

Definition quoteEvidence (id : string) (src : QuoteSourceKind) (key : string) (quoted : Time) (delayed : bool)
    (now ttl : Z) : QuoteEvidenceView :=
  mkEvidence "" 0 0 false false id src key quoted (QuoteFreshness src delayed quoted now ttl) delayed.

(** ** Conversion to the base currency *)

Definition implicitFXPreferenceTo (household : Household) (snapshot : PortfolioSnapshot) (native base : CurrencyCode) : FXPreference :=
  match findFXPreference (ps_FXPreferences snapshot) native base with
  | Some preference => preference
  | None => mkFXPreference (h_ID household) native base QuoteSourceProvider 0 0 None
  end.

Definition selectFXQuoteTo (household : Household) (snapshot : PortfolioSnapshot) (quotes : list FXQuote)
    (native target : CurrencyCode) (cutoff : option Time) : option FXQuote :=
  let preference := implicitFXPreferenceTo household snapshot native target in
  if historical v then
    selectHistoricalFXQuoteAtMarketDate preference quotes native target providerKey historicalDate (default (v_now v) cutoff)
  else selectFXQuote preference quotes native target providerKey cutoff.

(** A household's value on a past date carried over a weekend counts as fresh. *)
Definition closed_evidence (carry : bool) (carried : bool) (e : QuoteEvidenceView) : QuoteEvidenceView :=
  mkEvidence (ev_EffectiveDate e) (ev_ValueEffectiveAt e) (ev_FetchedAt e) carry carried (ev_ObservationID e)
    (ev_Source e) (ev_SourceKey e) (ev_QuotedAt e) (if carry then FreshnessFresh else ev_Freshness e) (ev_Delayed e).

Definition dated_evidence (date : string) (valueAt fetchedAt : Time) (e : QuoteEvidenceView) : QuoteEvidenceView :=
  mkEvidence date valueAt fetchedAt (ev_ClosedCarry e) (ev_Carried e) (ev_ObservationID e)
    (ev_Source e) (ev_SourceKey e) (ev_QuotedAt e) (ev_Freshness e) (ev_Delayed e).

Definition quoteEvidenceForFXConversion (household : Household) (snapshot : PortfolioSnapshot) (q : FXQuote) : QuoteEvidenceView :=
  let e := dated_evidence (fq_EffectiveDate q) (fq_ValueEffectiveAt q) (fq_FetchedAt q)
    (quoteEvidence (fq_ID q) (fq_SourceKind q) (fq_SourceKey q) (fq_QuotedAt q) (fq_Delayed q) (v_now v) quoteTTL) in
  let target := targetDate snapshot in
  let preference := implicitFXPreferenceTo household snapshot (BaseCurrency q) (QuoteCurrency q) in
  let anchor := selectHistoricalFXQuoteAtMarketDate preference [q] (BaseCurrency q) (QuoteCurrency q) providerKey target (v_now v) in
  let manual := bool_decide (fq_SourceKind q = QuoteSourceManual) in
  let carry := negb (bool_decide (fp_SourceKind preference = QuoteSourceManual)) && negb manual &&
    match anchor with Some _ => true | None => false end &&
    InstrumentClosedCarry "" (Some InstrumentStock) (fq_EffectiveDate q) target [] in
  closed_evidence carry (negb carry && negb manual && negb (bool_decide (fq_EffectiveDate q = ""%string)) &&
                         String.ltb (fq_EffectiveDate q) target) e.

(** A converted amount with its evidence, or the input that is missing. *)
Definition convertUsingFXQuote (household : Household) (snapshot : PortfolioSnapshot) (accountID : AccountID)
    (amt : Decimal) (cur base : CurrencyCode) (quote : option FXQuote)
    : Result (Decimal * option QuoteEvidenceView + MissingInputView) :=
  match quote with
  | None =>
    Ok (inr (mkMissing MissingFXRate accountID "" None "" "" ""
               (Some (fp_SourceKind (implicitFXPreferenceTo household snapshot cur base))) base cur))
  | Some q =>
    converted ← ConvertFXAmount amt cur base q;
    Ok (inl (converted, Some (quoteEvidenceForFXConversion household snapshot q)))
  end.

Definition convertTo (household : Household) (snapshot : PortfolioSnapshot) (accountID : AccountID) (native : Decimal)
    (cur base : CurrencyCode) : Result (Decimal * option QuoteEvidenceView + MissingInputView) :=
  if bool_decide (cur = base) then Ok (inl (native, None))
  else convertUsingFXQuote household snapshot accountID native cur base
         (selectFXQuoteTo household snapshot (ps_FXQuotes snapshot) cur base None).

(** ** One amount *)

(** The component that starts from an amount in its own currency, before the conversion. *)
Definition native_component (accountID : AccountID) (instrumentID : option InstrumentID) (nativeAmount : string)
    (cur : CurrencyCode) (fxPreference : option string) (evidence : option QuoteEvidenceView) : ValuationComponent :=
  mkValuationComponent None [] accountID None instrumentID None fxPreference "" "" "" nativeAmount cur None "" evidence None None true.

Definition unavailable (c : ValuationComponent) : ValuationComponent :=
  mkValuationComponent (vc_InstrumentType c) (vc_MissingInputs c) (vc_AccountID c) (vc_HoldingID c) (vc_InstrumentID c)
    (vc_StateObservationID c) (vc_FXPreferenceObservationID c) (vc_InstrumentName c) (vc_InstrumentShortName c)
    (vc_InstrumentSymbol c) (vc_NativeAmount c) (vc_NativeCurrency c) (vc_BaseAmount c) (vc_BaseAmountExact c)
    (vc_PriceEvidence c) (vc_FXEvidence c) (vc_PreferenceObservationID c) false.

Definition with_base (c : ValuationComponent) (base : Decimal) (view : MoneyView) (fx : option QuoteEvidenceView) : ValuationComponent :=
  mkValuationComponent (vc_InstrumentType c) (vc_MissingInputs c) (vc_AccountID c) (vc_HoldingID c) (vc_InstrumentID c)
    (vc_StateObservationID c) (vc_FXPreferenceObservationID c) (vc_InstrumentName c) (vc_InstrumentShortName c)
    (vc_InstrumentSymbol c) (vc_NativeAmount c) (vc_NativeCurrency c) (Some view) (dString base)
    (vc_PriceEvidence c) fx (vc_PreferenceObservationID c) (vc_Available c).

Definition valueNative (household : Household) (snapshot : PortfolioSnapshot) (accountID : AccountID)
    (instrumentID : option InstrumentID) (native : Decimal) (cur : CurrencyCode) (priceEvidence : option QuoteEvidenceView)
    : Result (ValuationComponent * list MissingInputView) :=
  nativeAmount ← ParseNativeAmount (dString native);
  let base := h_BaseCurrency household in
  let component := native_component accountID instrumentID nativeAmount cur
    (match findFXPreference (ps_FXPreferences snapshot) cur base with Some p => fp_ObservationID p | None => None end)
    priceEvidence in
  converted ← convertTo household snapshot accountID native cur base;
  match converted with
  | inr missing => Ok (unavailable component, [missing])
  | inl (value, fxEvidence) =>
    view ← moneyView value base;
    let component := with_base component value view fxEvidence in
    let missing :=
      if historical v && negb (bool_decide (cur = base)) then
        match selectFXQuoteTo household snapshot (ps_FXQuotes snapshot) cur base None with
        | Some q =>
          if negb (historicalFXCoverageCompleteAtMarketDate (ps_FXHistoryCoverage snapshot) q historicalDate)
          then [mkMissing MissingHistoryCoverage accountID "" instrumentID "" "" "" (Some (fq_SourceKind q)) base cur]
          else []
        | None => []
        end
      else [] in
    Ok (component, missing)
  end.
(** ** One holding *)

Definition instrumentIdentity (i : Instrument) : string * string :=
  (TrimSpace (i_Name i), match Symbol i with Some symbol => TrimSpace symbol | None => ""%string end).

(** The fields of a component that come from the holding and its instrument. *)
Definition holding_component (type : option InstrumentType) (accountID : AccountID) (holding : Holding) (i : Instrument)
    (price : option QuoteEvidenceView) : ValuationComponent :=
  let '(name, symbol) := instrumentIdentity i in
  mkValuationComponent type [] accountID (Some (hd_ID holding)) (Some (i_ID i)) None None name (i_ShortName i) symbol
    "" (i_QuoteCurrency i) None "" price None (i_PreferenceObservationID i) false.

Definition holding_missing (kind : MissingInputKind) (accountID : AccountID) (i : Instrument) (src : option QuoteSourceKind)
    (base quote : CurrencyCode) : MissingInputView :=
  let '(name, symbol) := instrumentIdentity i in
  mkMissing kind accountID "" (Some (i_ID i)) name (i_ShortName i) symbol src base quote.

Definition zero_component (accountID : AccountID) (holding : Holding) (i : Instrument) (view : MoneyView) : ValuationComponent :=
  let c := holding_component None accountID holding i None in
  mkValuationComponent None [] accountID (vc_HoldingID c) (vc_InstrumentID c) None None (vc_InstrumentName c)
    (vc_InstrumentShortName c) (vc_InstrumentSymbol c) "0" (i_QuoteCurrency i) (Some view) "0" None None
    (i_PreferenceObservationID i) true.

(** The quote of a holding and whether its history is complete. *)
Definition holdingQuote (snapshot : PortfolioSnapshot) (i : Instrument) : option InstrumentQuote * bool :=
  if historical v then
    let selection := match historicalInstrumentSelections v with
      | Some selections => default (mkHistSelection None false) (selections !! i_ID i)
      | None =>
        let coverage := ps_InstrumentHistoryCoverage snapshot ++
          ((λ c, mkCoverage [ic_Date c] (ic_InstrumentID c) "" "" "" "" "" 0 "" [] ∅ [] [] ∅ ∅) <$> ps_InstrumentClosures snapshot) in
        selectHistoricalInstrumentQuoteWithCoverageAtMarketDate i (ps_InstrumentQuotes snapshot) coverage historicalDate (v_now v)
      end in
    (hs_quote selection, coverageComplete selection)
  else (selectInstrumentQuote i (ps_InstrumentQuotes snapshot), true).

Definition holdingEvidence (snapshot : PortfolioSnapshot) (i : Instrument) (q : InstrumentQuote) : QuoteEvidenceView :=
  let e := dated_evidence (iq_EffectiveDate q) (iq_ValueEffectiveAt q) (iq_FetchedAt q)
    (quoteEvidence (iq_ID q) (iq_SourceKind q) (iq_SourceKey q) (iq_QuotedAt q) (iq_Delayed q) (v_now v) quoteTTL) in
  let target := targetDate snapshot in
  let anchor := hs_quote (selectHistoricalInstrumentQuoteWithCoverageAtMarketDate i [q] [] target (v_now v)) in
  let manual := bool_decide (QuoteSource i = QuoteSourceManual) || bool_decide (iq_SourceKind q = QuoteSourceManual) in
  let carry := negb manual && match anchor with Some _ => true | None => false end &&
    InstrumentClosedCarry (i_ID i) (Some (i_Type i)) (iq_EffectiveDate q) target (ps_InstrumentClosures snapshot) in
  let carried := negb carry && negb manual && negb (bool_decide (iq_EffectiveDate q = ""%string)) &&
    String.ltb (iq_EffectiveDate q) target in
  let e := closed_evidence carry carried e in
  if bool_decide (QuoteSource i = QuoteSourceManual)
  then mkEvidence (ev_EffectiveDate e) (ev_ValueEffectiveAt e) (ev_FetchedAt e) (ev_ClosedCarry e) (ev_Carried e)
         (ev_ObservationID e) (ev_Source e) (ev_SourceKey e) (ev_QuotedAt e) FreshnessManual (ev_Delayed e)
  else e.

(** The fields that [valueHolding] adds to the component of the converted amount. *)
Definition as_holding (holding : Holding) (i : Instrument) (price : QuoteEvidenceView) (c : ValuationComponent) : ValuationComponent :=
  let '(name, symbol) := instrumentIdentity i in
  mkValuationComponent (Some (i_Type i)) (vc_MissingInputs c) (vc_AccountID c) (Some (hd_ID holding)) (vc_InstrumentID c)
    (vc_StateObservationID c) (vc_FXPreferenceObservationID c) name (i_ShortName i) symbol (vc_NativeAmount c)
    (vc_NativeCurrency c) (vc_BaseAmount c) (vc_BaseAmountExact c) (Some price) (vc_FXEvidence c)
    (i_PreferenceObservationID i) (vc_Available c).

Definition is_overflow (e : goerror) : bool :=
  match e with DomainErr e => bool_decide (Code e = ErrDecimalOverflow) | OtherErr _ => false end.

(** A converted metal price without a current dollar rate. *)
Definition metal_rate_missing (household : Household) (snapshot : PortfolioSnapshot) (i : Instrument)
    (quote : option InstrumentQuote) : option QuoteSourceKind :=
  if negb (historical v) && convertedMetalRequiresFX i quote then
    let preference := match findFXPreference (ps_FXPreferences snapshot) "USD" (i_QuoteCurrency i) with
      | Some p => p
      | None => mkFXPreference (h_ID household) "" "" QuoteSourceProvider 0 0 None
      end in
    match selectFXQuote preference (ps_FXQuotes snapshot) "USD" (i_QuoteCurrency i) providerKey None with
    | None => Some (fp_SourceKind preference)
    | Some _ => None
    end
  else None.

Definition valueHolding (household : Household) (snapshot : PortfolioSnapshot) (accountID : AccountID) (holding : Holding)
    (i : Instrument) : Result (ValuationComponent * list MissingInputView) :=
  if q_isZero (hd_Quantity holding) then
    baseView ← moneyView dZero (h_BaseCurrency household);
    Ok (zero_component accountID holding i baseView, [])
  else
    let '(quote, historyCoverageComplete) := holdingQuote snapshot i in
    let coverage_missing :=
      if historical v && negb historyCoverageComplete
      then [holding_missing MissingHistoryCoverage accountID i (Some (QuoteSource i)) "" (i_QuoteCurrency i)] else [] in
    match metal_rate_missing household snapshot i quote with
    | Some src =>
      Ok (holding_component None accountID holding i None,
          [holding_missing MissingFXRate accountID i (Some src) "USD" (i_QuoteCurrency i)])
    | None =>
      match quote with
      | None =>
        Ok (holding_component None accountID holding i None,
            [holding_missing MissingInstrumentPrice accountID i (Some (QuoteSource i)) "" (i_QuoteCurrency i)])
      | Some q =>
        let evidence := holdingEvidence snapshot i q in
        match q_multiply (hd_Quantity holding) (iq_UnitPrice q) with
        | Fail e =>
          if is_overflow e then
            Ok (holding_component (Some (i_Type i)) accountID holding i (Some evidence),
                holding_missing MissingHoldingAmount accountID i None "" (i_QuoteCurrency i) :: coverage_missing)
          else Fail e
        | Ok native =>
          '(component, missing) ← valueNative household snapshot accountID (Some (hd_InstrumentID holding)) native
                                    (i_QuoteCurrency i) (Some evidence);
          Ok (as_holding holding i evidence component, missing ++ coverage_missing)
        end
      end
    end.

Definition valueCash (household : Household) (snapshot : PortfolioSnapshot) (accountID : AccountID) (cash : AccountCashValue)
    : Result (ValuationComponent * list MissingInputView) :=
  valueNative household snapshot accountID None (amount (cv_Amount cash)) (currency (cv_Amount cash)) None.
End Valuation.
