(* ===== verification/ValuationDisplay.v ===== *)
(** * What a valuation may show

    [valuation_quality.go] of package [application]: the components of an aggregate are
    counted as valued or unpriced, the reasons for doubt are collected, and a total is
    published only when nothing is missing.  The records are those of
    [domain/valuation_quality.go].

    Instants of stored evidence are in UTC, the zone in which their date is printed. *)

From S2P Require Export Valuation.
From S2P Require Import DecimalModel.
From Stdlib Require Import String Ascii.

#[global] Open Scope Z_scope.

Inductive ValuationAvailability := ValuationFull | ValuationPartial | ValuationNone.
Inductive ValuationCoverage := CoverageVerified | CoverageProvisional | CoverageUnavailable.
Inductive ValuationReason :=
| ReasonCarriedNAV | ReasonCarriedPrice | ReasonCarriedFX | ReasonHistoryUnverified | ReasonPriceMissing
| ReasonFXMissing | ReasonAccountValueMissing | ReasonEvidenceUnavailable.
#[export] Instance ValuationAvailability_eq_dec : EqDecision ValuationAvailability.
Proof. solve_decision. Defined.
#[export] Instance ValuationCoverage_eq_dec : EqDecision ValuationCoverage.
Proof. solve_decision. Defined.
#[export] Instance ValuationReason_eq_dec : EqDecision ValuationReason.
Proof. solve_decision. Defined.

Definition ValuationReason_String (r : ValuationReason) : string :=
  match r with
  | ReasonCarriedNAV => "carried_nav" | ReasonCarriedPrice => "carried_price" | ReasonCarriedFX => "carried_fx"
  | ReasonHistoryUnverified => "history_unverified" | ReasonPriceMissing => "price_missing"
  | ReasonFXMissing => "fx_missing" | ReasonAccountValueMissing => "account_value_missing"
  | ReasonEvidenceUnavailable => "evidence_unavailable"
  end.

Record ValuationQuality := mkQuality {
  Availability : ValuationAvailability; Coverage : ValuationCoverage; IncludedCount : Z; ValuedCount : Z;
  UnpricedCount : Z; ProvisionalCount : Z; CarriedCount : Z; StaleCount : Z;
  OldestMarketDate : option string; NewestMarketDate : option string; Reasons : list ValuationReason }.

Record ValuationAmount := mkValuationAmount {
  va_Currency : CurrencyCode; va_Total : option MoneyView; KnownSubtotal : option MoneyView; Quality : ValuationQuality }.

Record HouseholdDisplayValuation := mkHouseholdDisplay {
  Assets : ValuationAmount; Liabilities : ValuationAmount; NetWorth : ValuationAmount }.

Section Display.
Context `{HD : DecimalAPI}.

Record displayAccumulator := mkAccumulator { quality : ValuationQuality; acc_sum : Decimal; uncertain' : bool }.

(** The zero values of Go; the availability of an accumulator is never read. *)
Definition emptyQuality : ValuationQuality := mkQuality ValuationNone CoverageUnavailable 0 0 0 0 0 0 None None [].
Definition emptyAccumulator : displayAccumulator := mkAccumulator emptyQuality dZero false.

Definition add_reason (rs : list ValuationReason) (r : ValuationReason) : list ValuationReason :=
  if bool_decide (r ∈ rs) then rs else rs ++ [r].

(** The variables of the method [add]. *)
Record add_state := mkAddState {
  as_available : bool; as_provisional : bool; as_carried : bool; as_stale : bool;
  as_oldest : option string; as_newest : option string; as_reasons : list ValuationReason }.

Definition add_missing (st : add_state) (m : MissingInputView) : add_state :=
  let with_ available provisional r :=
    mkAddState available provisional (as_carried st) (as_stale st) (as_oldest st) (as_newest st) (add_reason (as_reasons st) r) in
  match mi_Kind m with
  | MissingHistoryCoverage => with_ (as_available st) true ReasonHistoryUnverified
  | MissingInstrumentPrice | MissingInstrument' => with_ false (as_provisional st) ReasonPriceMissing
  | MissingFXRate => with_ false (as_provisional st) ReasonFXMissing
  | MissingAccountValue => with_ false (as_provisional st) ReasonAccountValueMissing
  | MissingHoldingAmount => with_ false (as_provisional st) ReasonEvidenceUnavailable
  end.

Definition evidence_date (e : QuoteEvidenceView) : string :=
  let date := ev_EffectiveDate e in
  let date := if bool_decide (date = ""%string) && negb (timeIsZero (ev_ValueEffectiveAt e))
              then FormatDate (ev_ValueEffectiveAt e) else date in
  if bool_decide (date = ""%string) && negb (timeIsZero (ev_QuotedAt e)) then FormatDate (ev_QuotedAt e) else date.

Definition not_manual (e : QuoteEvidenceView) : bool :=
  negb (bool_decide (ev_Source e = QuoteSourceManual)) && negb (bool_decide (ev_Freshness e = FreshnessManual)).

(** One turn of the loop over the two pieces of evidence; [price] for the first. *)
Definition add_evidence (c : ValuationComponent) (target : string) (current price : bool) (st : add_state)
    (evidence : option QuoteEvidenceView) : add_state :=
  match evidence with
  | None => st
  | Some e =>
    let doubtful := not_manual e && negb (ev_ClosedCarry e) in
    let provisional := as_provisional st || (current && doubtful) in
    let date := evidence_date e in
    let dated := negb (bool_decide (date = ""%string)) in
    let oldest := match as_oldest st with
      | None => if dated then Some date else None
      | Some d => if dated && String.ltb date d then Some date else Some d end in
    let newest := match as_newest st with
      | None => if dated then Some date else None
      | Some d => if dated && String.ltb d date then Some date else Some d end in
    let carried := dated && negb (bool_decide (target = ""%string)) && String.ltb date target && doubtful in
    let reasons :=
      if negb carried then as_reasons st
      else if price then
        let rs := add_reason (as_reasons st) ReasonCarriedPrice in
        if bool_decide (vc_InstrumentType c = Some InstrumentMutualFund) ||
           bool_decide (vc_InstrumentType c = Some InstrumentBankInvestmentProduct)
        then add_reason rs ReasonCarriedNAV else rs
      else add_reason (as_reasons st) ReasonCarriedFX in
    mkAddState (as_available st) provisional (as_carried st || carried)
      (as_stale st || (bool_decide (ev_Freshness e = FreshnessStale) && negb (ev_ClosedCarry e))) oldest newest reasons
  end.

Definition count (b : bool) (n : Z) : Z := if b then n + 1 else n.

Definition acc_add (a : displayAccumulator) (c : ValuationComponent) (missing : list MissingInputView) (target : string)
    (current : bool) : Result displayAccumulator :=
  let q := quality a in
  let st := mkAddState (vc_Available c && negb (bool_decide (vc_BaseAmountExact c = ""%string))) false false false
              (OldestMarketDate q) (NewestMarketDate q) (Reasons q) in
  let st := fold_left add_missing missing st in
  let st := add_evidence c target current true st (vc_PriceEvidence c) in
  let st := add_evidence c target current false st (vc_FXEvidence c) in
  let finish valued reasons sum :=
    Ok (mkAccumulator (mkQuality (Availability q) (Coverage q) (IncludedCount q + 1) (count valued (ValuedCount q))
          (count (negb valued) (UnpricedCount q)) (count (as_provisional st) (ProvisionalCount q))
          (count (as_carried st) (CarriedCount q)) (count (as_stale st) (StaleCount q)) (as_oldest st) (as_newest st) reasons)
          sum (uncertain' a)) in
  if as_available st then
    match dNewFromString (vc_BaseAmountExact c) with
    | None => Fail (domainErr ErrIntegrity "" "display valuation amount is invalid")
    | Some value => finish true (as_reasons st) (dAdd (acc_sum a) value)
    end
  else finish false (match missing with [] => add_reason (as_reasons st) ReasonEvidenceUnavailable | _ => as_reasons st end) (acc_sum a).

(** [omitUnknown]: a cash sleeve that replay could not materialise. *)
Definition omitUnknown (a : displayAccumulator) : displayAccumulator :=
  let q := quality a in
  mkAccumulator (mkQuality (Availability q) (Coverage q) (IncludedCount q + 1) (ValuedCount q) (UnpricedCount q + 1)
    (ProvisionalCount q) (CarriedCount q) (StaleCount q) (OldestMarketDate q) (NewestMarketDate q)
    (add_reason (Reasons q) ReasonAccountValueMissing)) (acc_sum a) (uncertain' a).

Definition reason_less (a b : ValuationReason) : bool := String.ltb (ValuationReason_String a) (ValuationReason_String b).

(** The first four tests of [amount]: availability and coverage from the counts. *)
Definition published (q : ValuationQuality) : ValuationAvailability * ValuationCoverage :=
  let '(av, cov) := if 0 <? UnpricedCount q then (ValuationPartial, CoverageProvisional) else (ValuationFull, CoverageVerified) in
  let '(av, cov) := if (0 <? IncludedCount q) && (ValuedCount q =? 0) then (ValuationNone, CoverageUnavailable) else (av, cov) in
  (av, if (0 <? ProvisionalCount q) && bool_decide (cov = CoverageVerified) then CoverageProvisional else cov).

Definition acc_view (sum : Decimal) (cur : CurrencyCode) (signed : bool) : Result MoneyView :=
  if signed then m ← NewSignedMoney sum cur; Ok (mkView (dString (s_amount m)) cur)
  else m ← NewMoney sum cur; Ok (mkView (CanonicalAmount m) cur).

Definition acc_amount (a : displayAccumulator) (cur : CurrencyCode) (signed : bool) : Result ValuationAmount :=
  let q := quality a in
  let '(av, cov) := published q in
  let reasons := stable_sort reason_less (Reasons q) in
  let doubt := uncertain' a && bool_decide (av = ValuationFull) in
  let av := if doubt then ValuationPartial else av in
  let cov := if doubt then CoverageProvisional else cov in
  let reasons := if doubt then reasons ++ [ReasonEvidenceUnavailable] else reasons in
  let q := mkQuality av cov (IncludedCount q) (ValuedCount q) (UnpricedCount q) (ProvisionalCount q) (CarriedCount q)
             (StaleCount q) (OldestMarketDate q) (NewestMarketDate q) reasons in
  if (0 <? ValuedCount q) || (IncludedCount q =? 0) then
    value ← acc_view (acc_sum a) cur signed;
    Ok (mkValuationAmount cur (if bool_decide (av = ValuationFull) then Some value else None) (Some value) q)
  else Ok (mkValuationAmount cur None None q).

(** The earlier (later) of two optional dates, keeping the first on a tie. *)
Definition merge_date (better : string → string → bool) (mine other : option string) : option string :=
  match other, mine with
  | Some o, Some m => if better o m then Some o else Some m
  | Some o, None => Some o
  | None, _ => mine
  end.

Definition net_accumulator (assets liabilities : displayAccumulator) : displayAccumulator :=
  let a := quality assets in let l := quality liabilities in
  mkAccumulator (mkQuality (Availability a) (Coverage a) (IncludedCount a + IncludedCount l) (ValuedCount a + ValuedCount l)
      (UnpricedCount a + UnpricedCount l) (ProvisionalCount a + ProvisionalCount l) (CarriedCount a + CarriedCount l)
      (StaleCount a + StaleCount l)
      (merge_date (λ o m, String.ltb o m) (OldestMarketDate a) (OldestMarketDate l))
      (merge_date (λ o m, String.ltb m o) (NewestMarketDate a) (NewestMarketDate l))
      (fold_left add_reason (Reasons l) (Reasons a)))
    (dSub (acc_sum assets) (acc_sum liabilities)) (uncertain' assets || uncertain' liabilities).

Definition householdDisplay (assets liabilities : displayAccumulator) (cur : CurrencyCode) : Result HouseholdDisplayValuation :=
  a ← acc_amount assets cur false;
  l ← acc_amount liabilities cur false;
  net ← acc_amount (net_accumulator assets liabilities) cur true;
  Ok (mkHouseholdDisplay a l net).

(** The components of the accounts of net worth, assets and liabilities apart. *)
Definition display_account (today : string) (st : displayAccumulator * displayAccumulator) (account : AccountValuation)
    : Result (displayAccumulator * displayAccumulator) :=
  if negb (AccountEligibleForNetWorth (val_Account account)) then Ok st
  else foldM (λ st c, let '(assets, liabilities) := st in
      if IsLiability (val_Account account)
      then l ← acc_add liabilities c (vc_MissingInputs c) today true; Ok (assets, l)
      else a ← acc_add assets c (vc_MissingInputs c) today true; Ok (a, liabilities)) st (val_Components account).

Definition currentHouseholdDisplay (accounts : list AccountValuation) (today : string) (base : CurrencyCode)
    : Result HouseholdDisplayValuation :=
  '(assets, liabilities) ← foldM (display_account today) (emptyAccumulator, emptyAccumulator) accounts;
  householdDisplay assets liabilities base.

Definition currentPortfolioDisplay (accounts : list AccountValuation) (today : string) (base : CurrencyCode)
    : Result ValuationAmount :=
  a ← foldM (λ a account, foldM (λ a c, match vc_InstrumentID c with
                                        | None => Ok a
                                        | Some _ => acc_add a c (vc_MissingInputs c) today true
                                        end) a (val_Components account)) emptyAccumulator accounts;
  acc_amount a base false.
End Display.
