(* ===== verification/ValuationTotals.v ===== *)
(** * Accounts and portfolio of a snapshot

    The second half of [valuation.go] (package [application]): [valueAccount] adds the
    components of one account, [evaluate] values the accounts of a snapshot, and
    [PortfolioSnapshot] adds the investments up and splits them by currency, country and
    type with shares of the whole in basis points.

    The read context of the service is never cancelled here.  The unstable [sort.Slice] is
    a stable sort: elements that compare equal differ only in fields that the sorted list
    does not show, or have the same identifier. *)

From S2P Require Export ValuationDisplay.
From S2P Require Import DecimalModel.
From Stdlib Require Import String Ascii.

#[global] Open Scope Z_scope.

(** ** Classes of components ([account_type.go]) *)

Definition BucketCash : string := "cash".

Definition ClassifyCashBalance (account : Account) : AssetClass :=
  mkAssetClass (BalanceSheetRole' account) BucketCash false false "".

Definition ClassifyHolding (account : Account) (instrument : option Instrument) : AssetClass :=
  match instrument with
  | None => mkAssetClass (BalanceSheetRole' account) "" true true ""
  | Some i => mkAssetClass (BalanceSheetRole' account) (InstrumentType_String (i_Type i)) false false ""
  end.

Definition ClassifyAccountComponent (account : Account) (instrument : option Instrument) (cash : bool) : Result AssetClass :=
  if bool_decide (TrackingMode' account = TrackingHoldings)
  then Ok (if cash then ClassifyCashBalance account else ClassifyHolding account instrument)
  else ClassifySimpleAccount (AccountType' account) (BalanceSheetRole' account) (TrackingMode' account).

(** ** Missing inputs *)

Definition optional_id (id : option InstrumentID) : string := default ""%string id.

Definition missing_less (left right : MissingInputView) : bool :=
  if negb (bool_decide (mi_Kind left = mi_Kind right))
  then String.ltb (MissingInputKind_String (mi_Kind left)) (MissingInputKind_String (mi_Kind right))
  else if negb (bool_decide (mi_AccountID left = mi_AccountID right)) then String.ltb (mi_AccountID left) (mi_AccountID right)
  else if negb (bool_decide (optional_id (mi_InstrumentID left) = optional_id (mi_InstrumentID right)))
  then String.ltb (optional_id (mi_InstrumentID left)) (optional_id (mi_InstrumentID right))
  else if negb (bool_decide (mi_BaseCurrency left = mi_BaseCurrency right))
  then String.ltb (mi_BaseCurrency left) (mi_BaseCurrency right)
  else String.ltb (mi_QuoteCurrency left) (mi_QuoteCurrency right).

Definition sortMissing : list MissingInputView → list MissingInputView := stable_sort missing_less.

(** The fields joined by a bar. *)
Definition missing_key (m : MissingInputView) : string :=
  (MissingInputKind_String (mi_Kind m) +:+ "|" +:+ mi_AccountID m +:+ "|" +:+ optional_id (mi_InstrumentID m) +:+ "|" +:+
   mi_BaseCurrency m +:+ "|" +:+ mi_QuoteCurrency m)%string.

Definition deduplicate_step (st : gset string * list MissingInputView) (item : MissingInputView)
    : gset string * list MissingInputView :=
  let '(seen, result) := st in
  if bool_decide (missing_key item ∈ seen) then st else ({[missing_key item]} ∪ seen, result ++ [item]).

Definition deduplicateMissing (missing : list MissingInputView) : list MissingInputView :=
  (fold_left deduplicate_step missing (∅, [])).2.

Definition missingForAccounts (accounts : list AccountValuation) : list MissingInputView :=
  deduplicateMissing (sortMissing (accounts ≫= val_MissingInputs)).

Definition missingForInstrumentComponents (missing : list MissingInputView) (holdings : list ValuationComponent)
    : list MissingInputView :=
  let currencies : gset string := list_to_set (vc_NativeCurrency <$> holdings) in
  let instruments : gset string := list_to_set (omap vc_InstrumentID holdings) in
  List.filter (λ item, match mi_Kind item with
    | MissingAccountValue => false
    | MissingInstrumentPrice | MissingInstrument' | MissingHoldingAmount =>
      match mi_InstrumentID item with Some id => bool_decide (id ∈ instruments) | None => false end
    | MissingFXRate => bool_decide (mi_QuoteCurrency item ∈ currencies)
    | MissingHistoryCoverage => true
    end) missing.

(** ** Instruments *)

Definition compositionInstruments (instruments : list Instrument) : gmap InstrumentID Instrument :=
  fold_left (λ m i, <[i_ID i := i]> m) instruments ∅.

Definition instrumentByID (instruments : list Instrument) (id : InstrumentID) : option Instrument :=
  List.find (λ i, bool_decide (i_ID i = id)) instruments.

Section Totals.
Context `{HD : DecimalAPI} `{HM : MetalEvidence} `{TZ : TimeZones}.

(** ** Cash sleeves *)

Definition cash_later (value current : AccountCashValue) : bool :=
  quoteLater (cv_EffectiveAt value) (cv_CreatedAt value) (cv_ID value)
    (cv_EffectiveAt current) (cv_CreatedAt current) (cv_ID current).

Definition latest_step (latest : gmap CurrencyCode AccountCashValue) (value : AccountCashValue)
    : gmap CurrencyCode AccountCashValue :=
  match latest !! currency (cv_Amount value) with
  | Some current => if cash_later value current then <[currency (cv_Amount value) := value]> latest else latest
  | None => <[currency (cv_Amount value) := value]> latest
  end.

Definition cash_less (a b : AccountCashValue) : bool :=
  if negb (bool_decide (currency (cv_Amount a) = currency (cv_Amount b)))
  then String.ltb (currency (cv_Amount a)) (currency (cv_Amount b))
  else String.ltb (cv_ID a) (cv_ID b).

Definition latestCashValues (values : list AccountCashValue) : list AccountCashValue :=
  stable_sort cash_less (map_to_list (fold_left latest_step values ∅)).*2.

(** ** One account *)

Definition holding_less (a b : Holding) : bool :=
  if negb (hd_SortOrder a =? hd_SortOrder b) then hd_SortOrder a <? hd_SortOrder b
  else String.ltb (hd_ID a) (hd_ID b).

Record valuedAccount := mkValuedAccount {
  componentMissing : list (list MissingInputView); va_model : AccountValuation; baseExact : Decimal; hasBase : bool }.

(** The variables that the closure [add] changes. *)
Record account_state := mkAccountState {
  st_components : list ValuationComponent; st_componentMissing : list (list MissingInputView);
  st_missing : list MissingInputView; st_complete : bool; st_total : Decimal; st_hasBase : bool }.

Definition with_state (observation : option string) (missing : list MissingInputView) (c : ValuationComponent) : ValuationComponent :=
  mkValuationComponent (vc_InstrumentType c) missing (vc_AccountID c) (vc_HoldingID c) (vc_InstrumentID c)
    observation (vc_FXPreferenceObservationID c) (vc_InstrumentName c) (vc_InstrumentShortName c)
    (vc_InstrumentSymbol c) (vc_NativeAmount c) (vc_NativeCurrency c) (vc_BaseAmount c) (vc_BaseAmountExact c)
    (vc_PriceEvidence c) (vc_FXEvidence c) (vc_PreferenceObservationID c) (vc_Available c).

(** The amount of a component that counts: an empty or unreadable text is left out. *)
Definition component_amount (c : ValuationComponent) : option Decimal :=
  if bool_decide (vc_BaseAmountExact c = ""%string) then None else dNewFromString (vc_BaseAmountExact c).

Definition account_add (observation : option string) (st : account_state)
    (input : ValuationComponent * list MissingInputView) : account_state :=
  let '(component, missing) := input in
  let total := match component_amount component with Some value => dAdd (st_total st) value | None => st_total st end in
  mkAccountState (st_components st ++ [with_state observation missing component]) (st_componentMissing st ++ [missing])
    (st_missing st ++ missing)
    (st_complete st && vc_Available component && bool_decide (missing = []))
    total (st_hasBase st || match component_amount component with Some _ => true | None => false end).

Definition bare_component (accountID : AccountID) (holding : option Holding) (cur : CurrencyCode) : ValuationComponent :=
  mkValuationComponent None [] accountID (hd_ID <$> holding) (hd_InstrumentID <$> holding) None None "" "" "" "" cur
    None "" None None None false.

Variable v : ValuationService.

(** The components of an account with what each of them misses, in order. *)
Definition account_inputs (household : Household) (snapshot : PortfolioSnapshot) (record : AccountRecord)
    (instruments : gmap InstrumentID Instrument) (holdings : list Holding) (cash : list AccountCashValue)
    : Result (list (ValuationComponent * list MissingInputView)) :=
  let account := rec_Account record in
  if bool_decide (TrackingMode' account = TrackingHoldings) then
    held ← mapM (λ holding, match instruments !! hd_InstrumentID holding with
        | None => Ok (bare_component (ID account) (Some holding) (DefaultCurrency account),
            [mkMissing MissingInstrument' (ID account) "" (Some (hd_InstrumentID holding)) "" "" "" None "" ""])
        | Some i => valueHolding v household snapshot (ID account) holding i
        end)
      (List.filter (λ holding, bool_decide (hd_ArchivedAt holding = None)) (stable_sort holding_less holdings));
    sleeves ← mapM (valueCash v household snapshot (ID account)) (latestCashValues cash);
    Ok (held ++ sleeves)
  else match rec_LatestValue record with
  | None => Ok [(bare_component (ID account) None (DefaultCurrency account),
      [mkMissing MissingAccountValue (ID account) "" None "" "" "" None "" (DefaultCurrency account)])]
  | Some value =>
    input ← valueNative v household snapshot (ID account) None (amount (av_Amount value)) (currency (av_Amount value)) None;
    Ok [input]
  end.

Definition valueAccount (household : Household) (snapshot : PortfolioSnapshot) (record : AccountRecord)
    (instruments : gmap InstrumentID Instrument) (holdings : list Holding) (cash : list AccountCashValue)
    : Result valuedAccount :=
  inputs ← account_inputs household snapshot record instruments holdings cash;
  let st := fold_left (account_add (rec_StateObservationID record)) inputs (mkAccountState [] [] [] true dZero false) in
  baseValue ← (if st_hasBase st then view ← moneyView (st_total st) (h_BaseCurrency household); Ok (Some view)
               else if st_complete st then view ← moneyView dZero (h_BaseCurrency household); Ok (Some view)
               else Ok None);
  Ok (mkValuedAccount (st_componentMissing st)
        (mkAccountValuation (rec_Account record) (rec_Ownership record) (rec_InstitutionName record) (rec_GroupName record)
           baseValue (st_complete st) (st_components st) (deduplicateMissing (sortMissing (st_missing st))))
        (st_total st) (st_hasBase st)).

(** ** The accounts of a snapshot *)

Definition holdings_of (snapshot : PortfolioSnapshot) (id : AccountID) : list Holding :=
  List.filter (λ h, bool_decide (hd_ArchivedAt h = None) && bool_decide (hd_AccountID h = id)) (ps_Holdings snapshot).
Definition cash_of (snapshot : PortfolioSnapshot) (id : AccountID) : list AccountCashValue :=
  List.filter (λ c, bool_decide (cv_AccountID c = id)) (ps_CashValues snapshot).

Definition evaluate (snapshot : PortfolioSnapshot) : Result (list valuedAccount * list MissingInputView) :=
  match ps_Household snapshot with
  | None => Ok ([], [])
  | Some household =>
    let instruments := compositionInstruments (ps_Instruments snapshot) in
    valued ← mapM (λ record, valueAccount household snapshot record instruments
                     (holdings_of snapshot (ID (rec_Account record))) (cash_of snapshot (ID (rec_Account record))))
      (List.filter (λ record, bool_decide (ArchivedAt (rec_Account record) = None)) (ps_Accounts snapshot));
    Ok (valued, missingForAccounts (va_model <$> valued))
  end.

Definition ValueAccounts (snapshot : PortfolioSnapshot) : Result (list AccountValuation * list MissingInputView) :=
  '(valued, missing) ← evaluate snapshot;
  Ok (va_model <$> (valued : list valuedAccount), missing).

Definition exactBaseAmount (account : AccountValuation) : Result Decimal :=
  foldM (λ total c, if negb (vc_Available c) || bool_decide (vc_BaseAmountExact c = ""%string) then Ok total
                    else match dNewFromString (vc_BaseAmountExact c) with
                    | None => Fail (domainErr ErrIntegrity "amount" "stored valuation amount is invalid")
                    | Some value => Ok (dAdd total value)
                    end) dZero (val_Components account).

(** ** Shares of a whole *)

Definition amount_at (values : gmap string Decimal) (key : string) : Decimal := default dZero (values !! key).

Definition remainder_less (a b : string * Decimal) : bool :=
  if dEqual a.2 b.2 then String.ltb a.1 b.1 else dGreaterThan a.2 b.2.

(** The exact share of a key in basis points, to sixteen places. *)
Definition exact_share (values : gmap string Decimal) (denominator : Decimal) (key : string) : Decimal :=
  dDiv (dMul (amount_at values key) (dInt TotalOwnershipBPS)) denominator.

Definition floor_share (values : gmap string Decimal) (denominator : Decimal) (key : string) : Z :=
  dBigInt (exact_share values denominator key).

Definition remainder_of (values : gmap string Decimal) (denominator : Decimal) (key : string) : Decimal :=
  dSub (exact_share values denominator key) (dInt (floor_share values denominator key)).

(** The keys that are rounded up: as many as basis points are left, greatest remainder first. *)
Definition rounded_up (values : gmap string Decimal) (denominator : Decimal) (keys : list string) : list string :=
  let remaining := TotalOwnershipBPS - sumZ (floor_share values denominator) keys in
  (take (Z.to_nat remaining)
     (stable_sort remainder_less ((λ key, (key, remainder_of values denominator key)) <$> keys))).*1.

Definition allocation_shares (values : gmap string Decimal) (denominator : Decimal) (keys : list string) (key : string) : Z :=
  if dIsZero denominator then 0
  else floor_share values denominator key +
       (if bool_decide (key ∈ rounded_up values denominator keys) then 1 else 0).

Definition allocation_less (a b : AllocationView) : bool :=
  match dNewFromString (mv_Amount (al_Amount a)), dNewFromString (mv_Amount (al_Amount b)) with
  | Some l, Some r => if dEqual l r then String.ltb (al_Key a) (al_Key b) else dGreaterThan l r
  | _, _ => String.ltb (al_Key a) (al_Key b)
  end.

Definition makeAllocations (values : gmap string Decimal) (labels : gmap string string) (denominator : Decimal)
    (cur : CurrencyCode) : Result (list AllocationView) :=
  let keys := stable_sort String.ltb (map_to_list values).*1 in
  result ← mapM (λ key,
      view ← moneyView (amount_at values key) cur;
      let label := default ""%string (labels !! key) in
      Ok (mkAllocation key (if bool_decide (label = ""%string) then key else label) view
            (allocation_shares values denominator keys key))) keys;
  Ok (stable_sort allocation_less result).

(** ** The investments *)

Record PortfolioValuation := mkPortfolioValuation {
  DisplayValuation : ValuationAmount; pv_Currency : CurrencyCode; ValuedSubtotal : option MoneyView; pv_Complete : bool;
  pv_Accounts : list AccountValuation; pv_MissingInputs : list MissingInputView; ByCurrency : list AllocationView;
  ByCountry : list AllocationView; ByInstrumentType : list AllocationView }.

(** Amounts by a key with the labels of the keys. *)
Record breakdown := mkBreakdown { bd_values : gmap string Decimal; bd_labels : gmap string string }.
Definition no_breakdown : breakdown := mkBreakdown ∅ ∅.
Definition bd_add (b : breakdown) (key label : string) (amount : Decimal) : breakdown :=
  mkBreakdown (<[key := dAdd (amount_at (bd_values b) key) amount]> (bd_values b)) (<[key := label]> (bd_labels b)).

(** The variables of the loops: of the whole portfolio, and of one account. *)
Record portfolio_state := mkPortfolioState {
  po_currency : breakdown; po_country : breakdown; po_type : breakdown; po_total : Decimal; po_hasValue : bool;
  po_complete : bool; po_accounts : list AccountValuation }.
Record holding_state := mkHoldingState {
  hs_portfolio : portfolio_state; hs_components : list ValuationComponent; hs_total : Decimal; hs_hasValue : bool;
  hs_complete : bool }.

(** A component with an amount, in the three breakdowns; an instrument that the snapshot
    does not list counts by currency only and leaves the portfolio incomplete. *)
Definition portfolio_amount (snapshot : PortfolioSnapshot) (account : Account) (c : ValuationComponent) (id : InstrumentID)
    (baseAmount : Decimal) (st : portfolio_state) : Result portfolio_state :=
  let byCurrency := bd_add (po_currency st) (vc_NativeCurrency c) (vc_NativeCurrency c) baseAmount in
  let instrument := instrumentByID (ps_Instruments snapshot) id in
  let country := match instrument with Some i => CountryCode i | None => None end in
  class ← ClassifyAccountComponent account instrument false;
  if MissingInstrument class
  then Ok (mkPortfolioState byCurrency (po_country st) (po_type st) (po_total st) (po_hasValue st) false (po_accounts st))
  else
    let bucket := Bucket class in
    Ok (mkPortfolioState byCurrency
          (bd_add (po_country st) (default "unknown"%string country) (default "Unknown"%string country) baseAmount)
          (bd_add (po_type st) (if bool_decide (bucket = ""%string) then "manual" else bucket)
             (if bool_decide (bucket = ""%string) then "Manual" else bucket) baseAmount)
          (po_total st) (po_hasValue st) (po_complete st) (po_accounts st)).

Definition portfolio_component (snapshot : PortfolioSnapshot) (account : Account) (st : holding_state) (c : ValuationComponent)
    : Result holding_state :=
  match vc_InstrumentID c with
  | None => Ok st
  | Some id =>
    let components := hs_components st ++ [c] in
    let complete := hs_complete st && vc_Available c in
    if bool_decide (vc_BaseAmount c = None) || bool_decide (vc_BaseAmountExact c = ""%string)
    then Ok (mkHoldingState (hs_portfolio st) components (hs_total st) (hs_hasValue st) complete)
    else match dNewFromString (vc_BaseAmountExact c) with
    | None => Fail (domainErr ErrIntegrity "amount" "stored valuation amount is invalid")
    | Some baseAmount =>
      portfolio ← portfolio_amount snapshot account c id baseAmount (hs_portfolio st);
      Ok (mkHoldingState portfolio components (dAdd (hs_total st) baseAmount) true complete)
    end
  end.

Definition portfolio_account (household : Household) (snapshot : PortfolioSnapshot) (st : portfolio_state)
    (item : valuedAccount) : Result portfolio_state :=
  let model := va_model item in
  let account := val_Account model in
  if IsLiability account || negb (bool_decide (ArchivedAt account = None)) then Ok st
  else
    hs ← foldM (portfolio_component snapshot account) (mkHoldingState st [] dZero false true) (val_Components model);
    let st := hs_portfolio hs in
    match hs_components hs with
    | [] => Ok st
    | components =>
      baseValue ← (if hs_hasValue hs then view ← moneyView (hs_total hs) (h_BaseCurrency household); Ok (Some view) else Ok None);
      let model := mkAccountValuation account (val_Ownership model) (val_InstitutionName model) (val_GroupName model)
        baseValue (hs_complete hs) components (missingForInstrumentComponents (val_MissingInputs model) components) in
      Ok (mkPortfolioState (po_currency st) (po_country st) (po_type st)
            (if hs_hasValue hs then dAdd (po_total st) (hs_total hs) else po_total st) (po_hasValue st || hs_hasValue hs)
            (po_complete st && hs_complete hs) (po_accounts st ++ [model]))
    end.

Definition accountBaseAmount (account : AccountValuation) : Decimal :=
  match val_BaseValue account with
  | None => dZero
  | Some view => if bool_decide (mv_Amount view = ""%string) then dZero else default dZero (dNewFromString (mv_Amount view))
  end.

Definition account_less (a b : AccountValuation) : bool :=
  if dEqual (accountBaseAmount a) (accountBaseAmount b) then String.ltb (Name (val_Account a)) (Name (val_Account b))
  else dGreaterThan (accountBaseAmount a) (accountBaseAmount b).

Definition sortAccountValuations : list AccountValuation → list AccountValuation := stable_sort account_less.

(** The date that [currentPortfolioDisplay] compares market dates with is [displayDate]. *)
Definition portfolioOf (snapshot : PortfolioSnapshot) : Result (option PortfolioValuation) :=
  match ps_Household snapshot with
  | None => Ok None
  | Some household =>
    let base := h_BaseCurrency household in
    '(valued, _all) ← evaluate snapshot;
    st ← foldM (portfolio_account household snapshot)
           (mkPortfolioState no_breakdown no_breakdown no_breakdown dZero false true []) valued;
    display ← currentPortfolioDisplay (po_accounts st) (displayDate v snapshot) base;
    let missing := missingForAccounts (po_accounts st) in
    subtotal ← (if po_hasValue st then view ← moneyView (po_total st) base; Ok (Some view)
                else if bool_decide (missing = []) then view ← moneyView dZero base; Ok (Some view)
                else Ok None);
    byCurrency ← makeAllocations (bd_values (po_currency st)) (bd_labels (po_currency st)) (po_total st) base;
    byCountry ← makeAllocations (bd_values (po_country st)) (bd_labels (po_country st)) (po_total st) base;
    byType ← makeAllocations (bd_values (po_type st)) (bd_labels (po_type st)) (po_total st) base;
    Ok (Some (mkPortfolioValuation display base subtotal (po_complete st) (sortAccountValuations (po_accounts st)) missing
                byCurrency byCountry byType))
  end.
End Totals.
