(* ===== verification/ValuationShares.v ===== *)
(** * Shares of a portfolio

    [makeAllocations] gives every category its share of the whole in basis points by the
    method of largest remainders.  The shares add up to the whole, each is within one basis
    point of the exact one, and an empty category gets nothing. *)

From S2P Require Export ValuationTotals.
From S2P Require Import DecimalModel.
From Stdlib Require Import String Ascii Sorted.

#[global] Open Scope Z_scope.

(** ** Largest remainders on integers *)

Lemma sumZ_chosen (keys chosen : list string) : NoDup keys → NoDup chosen → (∀ k, k ∈ chosen → k ∈ keys) →
  sumZ (λ k, if bool_decide (k ∈ chosen) then 1 else 0) keys = Z.of_nat (List.length chosen).
Proof.
  revert chosen. induction keys as [|k keys IH]; intros chosen Hk Hc Hsub.
  - destruct chosen as [|x r]; [done|]. specialize (Hsub x ltac:(by left)). by apply elem_of_nil in Hsub.
  - apply NoDup_cons in Hk as [Hnk Hk]. rewrite sumZ_cons. case_bool_decide as Hin.
    + apply list_elem_of_split in Hin as (l1 & l2 & ->). apply NoDup_app in Hc as (Hc1 & Hd & Hc2).
      apply NoDup_cons in Hc2 as [Hn2 Hc2].
      rewrite (sumZ_ext _ (λ x, if bool_decide (x ∈ l1 ++ l2) then 1 else 0)).
      * rewrite IH; [rewrite !length_app; cbn; lia|done| |].
        -- apply NoDup_app. split_and!; [done| |done]. intros x Hx Hx2. apply (Hd x Hx). by right.
        -- intros x Hx. assert (Hx' : x ∈ l1 ++ k :: l2) by (rewrite !elem_of_app, elem_of_cons in *; tauto).
           specialize (Hsub x Hx'). apply elem_of_cons in Hsub as [->|]; [|done].
           apply elem_of_app in Hx as [Hx|Hx]; [|done]. exfalso. apply (Hd k Hx). by left.
      * intros x Hx. rewrite (bool_decide_ext (x ∈ l1 ++ k :: l2) (x ∈ l1 ++ l2)); [done|]. rewrite !elem_of_app, elem_of_cons.
        split; [|tauto]. intros [?|[->|?]]; [by left|done|by right].
    + rewrite IH; [lia|done|done|]. intros x Hx. specialize (Hsub x Hx). apply elem_of_cons in Hsub as [->|]; done.
Qed.

Section Remainders.
Context (c : string → Z) (keys : list string) (D T : Z).
Context (HD0 : 0 < D) (Hc : ∀ k, k ∈ keys → 0 <= c k).

Definition left_over : Z := T - sumZ (λ k, c k / D) keys.
Definition fractional : list string := List.filter (λ k, 0 <? c k mod D) keys.

Lemma sumZ_divmod : sumZ c keys = D * sumZ (λ k, c k / D) keys + sumZ (λ k, c k mod D) keys.
Proof.
  clear Hc. induction keys as [|k l IH]; [cbn; lia|]. rewrite !sumZ_cons, IH. pose proof (Z.div_mod (c k) D). lia.
Qed.

Lemma fractional_bounds :
  0 <= sumZ (λ k, c k mod D) keys <= (D - 1) * Z.of_nat (List.length fractional).
Proof.
  clear Hc. unfold fractional. induction keys as [|k l IH]; [cbn; lia|]. rewrite sumZ_cons. cbn [List.filter].
  pose proof (Z.mod_pos_bound (c k) D HD0). destruct (Z.ltb_spec 0 (c k mod D)); cbn [List.length]; lia.
Qed.

(** As many units are left over as there are remainders, at most, when the sum is nearly
    the whole. *)
Lemma left_over_bounds : 2 * Z.abs (sumZ c keys - T * D) <= Z.of_nat (List.length keys) →
  Z.of_nat (List.length keys) < 2 * D → 0 <= left_over <= Z.of_nat (List.length fractional).
Proof.
  intros Hs Hn. pose proof sumZ_divmod as E. pose proof fractional_bounds as [F0 F1]. unfold left_over.
  set (m := Z.of_nat (List.length fractional)) in *. set (r := sumZ (λ k, c k mod D) keys) in *.
  set (f := sumZ (λ k, c k / D) keys) in *. set (n := Z.of_nat (List.length keys)) in *. split.
  - destruct (Z.le_gt_cases f T); [lia|]. exfalso. assert (D * (T + 1) <= D * f) by (apply Z.mul_le_mono_nonneg_l; lia). lia.
  - destruct (Z.le_gt_cases (T - f) m); [done|]. exfalso. assert (D * (m + 1) <= D * (T - f)) by (apply Z.mul_le_mono_nonneg_l; lia).
    assert (0 <= m) by lia. lia.
Qed.
End Remainders.

(** ** The shares *)

Section Shares.
Context `{HD : DecimalAPI} {HL : DecimalLaws}.

Definition scale16 : Z := 10 ^ 16.

(** By descending remainder, then by key. *)
Definition remainder_cmp : string * Decimal → string * Decimal → comparison :=
  lex (by_key (λ p, dval p.2) (λ x y, Qcompare y x)) (by_key fst String.compare).

Lemma remainder_less_cmp x y : remainder_less x y = is_gt (remainder_cmp y x).
Proof.
  unfold remainder_less, remainder_cmp, lex, by_key.
  destruct (dEqual x.2 y.2) eqn:E.
  - apply dEqual_val in E. apply Qeq_alt in E. rewrite E. symmetry. apply is_gt_string.
  - assert (Hne : ¬ (dval x.2 == dval y.2)%Q) by (intros Heq; apply dEqual_val in Heq; congruence).
    destruct (dGreaterThan x.2 y.2) eqn:G.
    + apply dGreaterThan_val, Qgt_alt in G. by rewrite G.
    + destruct (dval x.2 ?= dval y.2)%Q eqn:C; [by apply Qeq_alt in C|done|].
      apply Qgt_alt, dGreaterThan_val in C. congruence.
Qed.

Context (values : gmap string Decimal) (denominator : Decimal).
Context (Hpos : (0 < dval denominator)%Q).
Context (Hnonneg : ∀ k, (0 <= dval (amount_at values k))%Q).

(** The exact share, in units of ten to the minus sixteen basis points. *)
Definition exact_units (k : string) : Q := (dval (amount_at values k) * 10000 / dval denominator * p10 16)%Q.
Definition share_units (k : string) : Z := round_half_away (exact_units k).

Lemma denominator_nz : ¬ (dval denominator == 0)%Q.
Proof. lra. Qed.

Lemma exact_units_nonneg k : (0 <= exact_units k)%Q.
Proof.
  unfold exact_units. pose proof (Hnonneg k). pose proof (p10_pos 16).
  apply Qmult_le_0_compat; [|lra]. unfold Qdiv. apply Qmult_le_0_compat; [lra|].
  apply Qlt_le_weak, Qinv_lt_0_compat. done.
Qed.

Lemma share_units_nonneg k : 0 <= share_units k.
Proof. rewrite <-(round_half_away_Z 0). apply round_half_away_mono, exact_units_nonneg. Qed.

Lemma exact_share_coef k : dCoefficient (exact_share values denominator k) = share_units k.
Proof.
  unfold exact_share. rewrite dDiv_divround by apply denominator_nz. rewrite dDivRound_coef by apply denominator_nz.
  unfold share_units, exact_units. apply round_half_away_proper. rewrite dMul_val, dval_int. reflexivity.
Qed.

Lemma exact_share_val k : (dval (exact_share values denominator k) == inject_Z (share_units k) / inject_Z scale16)%Q.
Proof.
  unfold dval, cval. rewrite exact_share_coef. unfold exact_share. rewrite dDiv_divround, dDivRound_expo by apply denominator_nz.
  rewrite p10_inv, p10_Z by lia. reflexivity.
Qed.

Lemma floor_share_val k : floor_share values denominator k = share_units k / scale16.
Proof.
  unfold floor_share. rewrite dBigInt_val. pose proof (share_units_nonneg k).
  rewrite (round_trunc_proper _ (Qmake (share_units k) (Z.to_pos scale16))).
  - unfold round_trunc. cbn [Qnum Qden]. rewrite Z2Pos.id by done. apply Z.quot_div_nonneg; [done|done].
  - rewrite exact_share_val, (Qmake_Qdiv _ (Z.to_pos scale16)). reflexivity.
Qed.

Lemma remainder_val k : (dval (remainder_of values denominator k) == inject_Z (share_units k mod scale16) / inject_Z scale16)%Q.
Proof.
  unfold remainder_of. rewrite dSub_val, dval_int, exact_share_val, floor_share_val.
  rewrite Zmod_eq_full by done. unfold Z.sub. rewrite inject_Z_plus, inject_Z_opp, inject_Z_mult. field. done.
Qed.

(** ** The keys rounded up *)

Context (keys : list string) (Hnd : NoDup keys).
Context (Hsum : 2 * Z.abs (sumZ share_units keys - TotalOwnershipBPS * scale16) <= Z.of_nat (List.length keys)).
Context (Hsmall : Z.of_nat (List.length keys) < 2 * scale16).

Definition remainder_pairs : list (string * Decimal) :=
  stable_sort remainder_less ((λ key, (key, remainder_of values denominator key)) <$> keys).

Lemma remainder_pairs_keys : remainder_pairs.*1 ≡ₚ keys.
Proof. unfold remainder_pairs. rewrite stable_sort_perm, <-list_fmap_compose. by rewrite list_fmap_id. Qed.

Lemma remainder_pairs_in p : p ∈ remainder_pairs → p.1 ∈ keys ∧ p.2 = remainder_of values denominator p.1.
Proof. unfold remainder_pairs. rewrite stable_sort_perm, list_elem_of_fmap. by intros (k & -> & Hk). Qed.

Definition has_remainder (p : string * Decimal) : bool := 0 <? share_units p.1 mod scale16.

Lemma fractional_pairs : List.length (List.filter has_remainder remainder_pairs) = List.length (fractional share_units keys scale16).
Proof.
  assert (Hp : ∀ l, List.length (List.filter has_remainder l) = List.length (fractional share_units l.*1 scale16)).
  { intros l. unfold fractional. induction l as [|p l IH]; [done|]. cbn [fmap list_fmap List.filter]. unfold has_remainder at 1.
    destruct (0 <? _); cbn [List.length]; by rewrite IH. }
  rewrite Hp. unfold fractional.
  assert (Hperm : ∀ l k : list string, l ≡ₚ k → List.length (List.filter (λ k, 0 <? share_units k mod scale16) l) =
     List.length (List.filter (λ k, 0 <? share_units k mod scale16) k)).
  { induction 1 as [|x l k _ IH|x y l|l k m _ IH1 _ IH2]; cbn; repeat destruct (0 <? _); cbn; congruence. }
  apply Hperm, remainder_pairs_keys.
Qed.

Lemma left_over_floor : left_over share_units keys scale16 TotalOwnershipBPS =
  TotalOwnershipBPS - sumZ (floor_share values denominator) keys.
Proof. unfold left_over. f_equal. apply sumZ_ext. intros k _. by rewrite floor_share_val. Qed.

Lemma left_over_range : 0 <= TotalOwnershipBPS - sumZ (floor_share values denominator) keys <=
  Z.of_nat (List.length (List.filter has_remainder remainder_pairs)).
Proof.
  rewrite fractional_pairs, <-left_over_floor. by apply left_over_bounds.
Qed.

Lemma filter_length_le {A} (f : A → bool) l : (List.length (List.filter f l) <= List.length l)%nat.
Proof. induction l as [|x l IH]; cbn; [lia|]. destruct (f x); cbn; lia. Qed.

(** Only keys with a remainder are rounded up. *)
Lemma rounded_up_remainder k : k ∈ rounded_up values denominator keys → k ∈ keys ∧ 0 < share_units k mod scale16.
Proof.
  unfold rounded_up. fold remainder_pairs. pose proof left_over_range as Hr.
  set (R := TotalOwnershipBPS - sumZ (floor_share values denominator) keys) in *.
  rewrite list_elem_of_fmap. intros (p & -> & Hp). pose proof Hp as Hin. apply elem_of_take in Hin as (i & Hi & Hlt).
  assert (Hpin : p ∈ remainder_pairs) by (by eapply list_elem_of_lookup_2).
  apply remainder_pairs_in in Hpin as [Hk Hv]. split; [done|].
  pose proof (Z.mod_pos_bound (share_units p.1) scale16 ltac:(done)) as Hm.
  destruct (Z.eq_dec (share_units p.1 mod scale16) 0) as [H0|]; [exfalso|lia].
  rewrite <-(take_drop (Z.to_nat R) remainder_pairs), List.filter_app, length_app in Hr.
  assert (Hd : List.filter has_remainder (drop (Z.to_nat R) remainder_pairs) = []).
  { destruct (List.filter has_remainder (drop (Z.to_nat R) remainder_pairs)) as [|q r] eqn:E; [done|exfalso].
    assert (Hq : q ∈ List.filter has_remainder (drop (Z.to_nat R) remainder_pairs)) by (rewrite E; by left).
    apply list_elem_of_In, List.filter_In in Hq as [Hq Hhas]. apply list_elem_of_In in Hq.
    pose proof (sorted_split remainder_cmp (take (Z.to_nat R) remainder_pairs) (drop (Z.to_nat R) remainder_pairs) p q) as Hs.
    rewrite take_drop in Hs. specialize (Hs (stable_sort_sorted remainder_cmp remainder_less remainder_less_cmp _) Hp Hq).
    apply Hs. unfold remainder_cmp, lex, by_key.
    assert (Hlt' : (dval p.2 < dval q.2)%Q).
    { rewrite Hv. assert (Hqin : q ∈ remainder_pairs) by (rewrite <-(take_drop (Z.to_nat R)); apply elem_of_app; by right).
      apply remainder_pairs_in in Hqin as [_ ->]. rewrite !remainder_val, H0. unfold has_remainder in Hhas. apply Z.ltb_lt in Hhas.
      unfold Qdiv. apply Qmult_lt_r; [done|]. by rewrite <-Zlt_Qlt. }
    apply Qgt_alt in Hlt'. by rewrite Hlt'. }
  rewrite Hd in Hr. cbn in Hr.
  assert (Hlt2 : (List.length (List.filter has_remainder (take (Z.to_nat R) remainder_pairs)) < List.length (take (Z.to_nat R) remainder_pairs))%nat).
  { apply list_elem_of_split in Hp as (l1 & l2 & ->). rewrite List.filter_app, !length_app. cbn [List.filter].
    unfold has_remainder at 2. rewrite H0. cbn. pose proof (filter_length_le has_remainder l1). pose proof (filter_length_le has_remainder l2). lia. }
  rewrite length_take in Hlt2. lia.
Qed.

Lemma rounded_up_nodup : NoDup (rounded_up values denominator keys).
Proof.
  unfold rounded_up. fold remainder_pairs. rewrite fmap_take.
  assert (Hn : NoDup remainder_pairs.*1) by by rewrite remainder_pairs_keys.
  rewrite <-(take_drop (Z.to_nat (TotalOwnershipBPS - sumZ (floor_share values denominator) keys))) in Hn.
  by apply NoDup_app in Hn as [Hn _].
Qed.

Lemma rounded_up_length : Z.of_nat (List.length (rounded_up values denominator keys)) =
  TotalOwnershipBPS - sumZ (floor_share values denominator) keys.
Proof.
  unfold rounded_up. fold remainder_pairs. rewrite length_fmap, length_take.
  pose proof left_over_range. pose proof (filter_length_le has_remainder remainder_pairs). lia.
Qed.

Lemma share_unfold k : allocation_shares values denominator keys k =
  share_units k / scale16 + (if bool_decide (k ∈ rounded_up values denominator keys) then 1 else 0).
Proof.
  unfold allocation_shares. destruct (dIsZero denominator) eqn:E; [|by rewrite floor_share_val].
  apply dIsZero_val in E. by apply denominator_nz in E.
Qed.

(** The shares of the keys are the whole. *)
Lemma shares_sum : sumZ (allocation_shares values denominator keys) keys = TotalOwnershipBPS.
Proof.
  rewrite (sumZ_ext _ (λ k, floor_share values denominator k + if bool_decide (k ∈ rounded_up values denominator keys) then 1 else 0)).
  - assert (Hadd : ∀ (f g : string → Z) l, sumZ (λ k, f k + g k) l = sumZ f l + sumZ g l).
    { intros f g l. induction l as [|x l IH]; [done|]. rewrite !sumZ_cons, IH. lia. }
    rewrite Hadd, sumZ_chosen; [rewrite rounded_up_length; lia|done|apply rounded_up_nodup|].
    intros k Hk. by apply rounded_up_remainder in Hk as [Hk _].
  - intros k _. by rewrite share_unfold, floor_share_val.
Qed.

(** A share in units of ten to the minus sixteen is less than a basis point from its units. *)
Lemma share_units_close k : Z.abs (allocation_shares values denominator keys k * scale16 - share_units k) <= scale16 - 1.
Proof.
  rewrite share_unfold. pose proof (Z.div_mod (share_units k) scale16 ltac:(done)) as E.
  pose proof (Z.mod_pos_bound (share_units k) scale16 ltac:(done)) as Hm.
  case_bool_decide as Hin; [apply rounded_up_remainder in Hin as [_ Hin]|]; lia.
Qed.

(** A share is within less than a basis point of the exact one, and not negative. *)
Lemma share_close k : (Qabs (inject_Z (allocation_shares values denominator keys k) - dval (amount_at values k) * 10000 / dval denominator) < 1)%Q ∧
  0 <= allocation_shares values denominator keys k ∧
  ((dval (amount_at values k) == 0)%Q → allocation_shares values denominator keys k = 0).
Proof.
  pose proof (share_units_close k) as Hc. pose proof (share_units_nonneg k) as H0. split_and!.
  - set (S := allocation_shares values denominator keys k) in *. set (x := (dval (amount_at values k) * 10000 / dval denominator)%Q).
    pose proof (round_half_away_spec (exact_units k)) as [Hr _]. fold (share_units k) in Hr.
    assert (He : (exact_units k == x * inject_Z scale16)%Q) by (unfold exact_units; rewrite p10_Z by lia; reflexivity).
    rewrite He in Hr.
    assert (Hz : (- (inject_Z scale16 - 1) <= inject_Z S * inject_Z scale16 - inject_Z (share_units k) <= inject_Z scale16 - 1)%Q).
    { rewrite <-inject_Z_mult. change 1%Q with (inject_Z 1). unfold Qminus. rewrite <-!inject_Z_opp, <-!inject_Z_plus, <-inject_Z_opp, <-!Zle_Qle. lia. }
    assert (Hd : (1 < inject_Z scale16)%Q) by done.
    apply Qabs_Qlt_condition. generalize dependent (inject_Z scale16). intros d Hr He Hz Hd. split; nra.
  - rewrite share_unfold. pose proof (Z.div_pos (share_units k) scale16 H0 ltac:(done)). destruct (bool_decide _); lia.
  - intros Hv. assert (Hs : share_units k = 0).
    { unfold share_units. rewrite (round_half_away_proper _ (inject_Z 0)); [done|]. unfold exact_units. rewrite Hv.
      unfold Qdiv. change (inject_Z 0) with 0%Q. ring. }
    rewrite share_unfold, Hs. case_bool_decide as Hin; [|done]. apply rounded_up_remainder in Hin as [_ Hin]. by rewrite Hs in Hin.
Qed.
End Shares.

(** ** The allocations *)

(** What the categories hold together. *)
Definition allocated_total `{HD : DecimalAPI} (values : gmap string Decimal) : Q :=
  sumQ (λ kv : string * Decimal, dval kv.2) (map_to_list values).

Section Allocations.
Context `{HD : DecimalAPI} {HL : DecimalLaws}.

Lemma amount_at_zero values k : values !! k = None → (dval (amount_at values k) == 0)%Q.
Proof. intros E. unfold amount_at. rewrite E. apply dval_dzero. Qed.

Definition allocation_keys (values : gmap string Decimal) : list string := stable_sort String.ltb (map_to_list values).*1.

Lemma allocation_keys_perm values : allocation_keys values ≡ₚ (map_to_list values).*1.
Proof. apply stable_sort_perm. Qed.

Lemma allocation_keys_nodup values : NoDup (allocation_keys values).
Proof. rewrite allocation_keys_perm. apply NoDup_fst_map_to_list. Qed.

Lemma allocation_keys_in values k : k ∈ allocation_keys values ↔ is_Some (values !! k).
Proof.
  rewrite allocation_keys_perm, list_elem_of_fmap. split.
  - intros ([k' x] & -> & Hin). apply elem_of_map_to_list in Hin. by exists x.
  - intros [x Hx]. exists (k, x). split; [done|]. by apply elem_of_map_to_list.
Qed.

Lemma allocated_by_keys values : (sumQ (λ k, dval (amount_at values k)) (allocation_keys values) == allocated_total values)%Q.
Proof.
  rewrite (sumQ_perm _ _ _ (allocation_keys_perm values)), sumQ_fmap. unfold allocated_total. apply sumQ_ext.
  intros [k x] Hin. apply elem_of_map_to_list in Hin. unfold amount_at. cbn. rewrite Hin. reflexivity.
Qed.

Lemma shares_sum_units values denominator : (0 < dval denominator)%Q → (allocated_total values == dval denominator)%Q →
  2 * Z.abs (sumZ (share_units values denominator) (allocation_keys values) - TotalOwnershipBPS * scale16) <=
  Z.of_nat (List.length (allocation_keys values)).
Proof.
  intros Hpos Hs. pose proof (sumQ_rounded (exact_units values denominator) (allocation_keys values)) as Hr.
  assert (He : (sumQ (exact_units values denominator) (allocation_keys values) == inject_Z (TotalOwnershipBPS * scale16))%Q).
  { rewrite (sumQ_ext _ (λ k, dval (amount_at values k) * (10000 / dval denominator * p10 16))%Q).
    - rewrite sumQ_scale, allocated_by_keys, Hs, inject_Z_mult, p10_Z by lia. fold scale16.
      change (inject_Z TotalOwnershipBPS) with 10000%Q. field. lra.
    - intros k _. unfold exact_units. unfold Qdiv. ring. }
  rewrite He in Hr. apply Qabs_Qle_condition in Hr. unfold share_units at 1.
  set (s := sumZ _ _) in *. change 2%Q with (inject_Z 2) in Hr. unfold Qminus in Hr.
  rewrite <-!inject_Z_opp, <-!inject_Z_plus, <-!inject_Z_mult, <-!Zle_Qle in Hr. lia.
Qed.

Lemma moneyView_nonneg value cur view : moneyView value cur = Ok view → (0 <= dval value)%Q.
Proof.
  unfold moneyView, NewMoney. intros H0. destruct (dIsNegative value) eqn:E; [discriminate|].
  by apply isneg_false.
Qed.

(** The rows of an allocation, before they are sorted by amount. *)
Lemma allocation_rows values labels denominator cur views :
  makeAllocations values labels denominator cur = Ok views →
  ∃ rows, views ≡ₚ rows ∧ al_Key <$> rows = allocation_keys values ∧ (∀ k, (0 <= dval (amount_at values k))%Q) ∧
    Forall2 (λ k a, moneyView (amount_at values k) cur = Ok (al_Amount a) ∧ al_Key a = k ∧
                    al_ShareBPS a = allocation_shares values denominator (allocation_keys values) k) (allocation_keys values) rows.
Proof.
  intros Hok. unfold makeAllocations in Hok. fold (allocation_keys values) in Hok.
  apply bind_Ok in Hok as (rows & Hrows & Hok). injection Hok as <-. apply mapM_Forall2 in Hrows.
  exists rows. split; [apply stable_sort_perm|]. match goal with |- _ ∧ _ ∧ ?F => assert (Hrow : F) end.
  { eapply Forall2_impl; [exact Hrows|]. intros k a Ha. apply bind_Ok in Ha as (view & Hv & Ha). by injection Ha as <-. }
  split_and!; [| |done].
  - clear -Hrow. induction Hrow as [|k a ks rows (_ & <- & _) _ IH]; [done|]. by rewrite fmap_cons, IH.
  - intros k. destruct (values !! k) as [x|] eqn:E.
    + assert (Hk : k ∈ allocation_keys values) by (apply allocation_keys_in; by exists x).
      apply list_elem_of_lookup in Hk as [i Hi]. destruct (Forall2_lookup_l _ _ _ _ _ Hrow Hi) as (a & _ & Hv & _).
      by apply moneyView_nonneg in Hv.
    + rewrite amount_at_zero by done. lra.
Qed.

Lemma allocations_whole values labels denominator cur views :
  makeAllocations values labels denominator cur = Ok views →
  (allocated_total values == dval denominator)%Q → (0 < dval denominator)%Q → Z.of_nat (List.length views) < 2 * 10 ^ 16 →
  sumZ al_ShareBPS views = TotalOwnershipBPS.
Proof.
  intros Hok Htot Hpos Hlen. destruct (allocation_rows _ _ _ _ _ Hok) as (rows & Hp & Hkeys & Hnonneg & Hrow).
  rewrite (sumZ_permutation _ _ _ Hp). rewrite Hp, <-(length_fmap al_Key), Hkeys in Hlen.
  rewrite <-(sumZ_Forall2 (allocation_shares values denominator (allocation_keys values)) _ (allocation_keys values)).
  - apply shares_sum; try done; [apply allocation_keys_nodup|by apply shares_sum_units].
  - eapply Forall2_impl; [exact Hrow|]. by intros k a (_ & _ & ->).
Qed.

(** Claim C8.  When the categories add up to a positive whole, [makeAllocations] gives every
    category once, with its amount rounded to money; the shares add up to exactly 10,000
    basis points, none is negative, each is less than one basis point away from the exact
    share, and a category without value has none. *)
Theorem makeAllocations_correct values labels denominator cur views :
  makeAllocations values labels denominator cur = Ok views →
  (0 < dval denominator)%Q → (allocated_total values == dval denominator)%Q →
  Z.of_nat (List.length views) < 2 * 10 ^ 16 →
  (al_Key <$> views) ≡ₚ (map_to_list values).*1 ∧
  sumZ al_ShareBPS views = TotalOwnershipBPS ∧
  ∀ a, a ∈ views →
    moneyView (amount_at values (al_Key a)) cur = Ok (al_Amount a) ∧ 0 <= al_ShareBPS a ∧
    (Qabs (inject_Z (al_ShareBPS a) - dval (amount_at values (al_Key a)) * 10000 / dval denominator) < 1)%Q ∧
    ((dval (amount_at values (al_Key a)) == 0)%Q → al_ShareBPS a = 0).
Proof.
  intros Hok Hpos Htot Hlen. split_and!; [| by eapply allocations_whole|];
    destruct (allocation_rows _ _ _ _ _ Hok) as (rows & Hp & Hkeys & Hnonneg & Hrow).
  - rewrite Hp, Hkeys. apply allocation_keys_perm.
  - intros a. rewrite Hp in *. intros Ha. apply list_elem_of_lookup in Ha as [i Hi].
    destruct (Forall2_lookup_r _ _ _ _ _ Hrow Hi) as (k & _ & Hv & -> & ->). split; [done|].
    assert (Hlen' : Z.of_nat (List.length (allocation_keys values)) < 2 * scale16) by by rewrite <-Hkeys, length_fmap.
    destruct (share_close values denominator Hpos Hnonneg (allocation_keys values)
      (shares_sum_units values denominator Hpos Htot) Hlen' k) as (H1 & H2 & H3). done.
Qed.
End Allocations.

(** ** The investments of a snapshot *)

(** The amount with which a component counts in the portfolio. *)
Definition counted_amount `{HD : DecimalAPI} (c : ValuationComponent) : Q :=
  if bool_decide (vc_BaseAmount c = None) then 0%Q
  else match component_amount c with Some value => dval value | None => 0%Q end.

Definition account_amount `{HD : DecimalAPI} (a : AccountValuation) : Q := sumQ counted_amount (val_Components a).

Section Portfolio.
Context `{HD : DecimalAPI} {HL : DecimalLaws} `{HM : MetalEvidence} `{TZ : TimeZones}.

Lemma allocated_insert m k x : m !! k = None → (allocated_total (<[k := x]> m) == allocated_total m + dval x)%Q.
Proof. intros Hk. unfold allocated_total. rewrite (sumQ_perm _ _ _ (map_to_list_insert m k x Hk)), sumQ_cons. cbn. ring. Qed.

Lemma allocated_add b k l x : (allocated_total (bd_values (bd_add b k l x)) == allocated_total (bd_values b) + dval x)%Q.
Proof.
  unfold bd_add. cbn [bd_values]. set (m := bd_values b). destruct (m !! k) as [y|] eqn:E.
  - rewrite <-insert_delete_eq, allocated_insert by apply lookup_delete_eq. rewrite dAdd_val.
    rewrite <-(insert_id m k y E) at 3. rewrite <-insert_delete_eq, allocated_insert by apply lookup_delete_eq.
    unfold amount_at. rewrite E. cbn. ring.
  - rewrite allocated_insert, dAdd_val, amount_at_zero by done. ring.
Qed.

(** The breakdowns add up to the total and what the account at hand adds to it. *)
Definition balanced (st : portfolio_state) (extra : Q) : Prop :=
  (allocated_total (bd_values (po_currency st)) == dval (po_total st) + extra)%Q ∧
  (po_complete st = true → (allocated_total (bd_values (po_country st)) == dval (po_total st) + extra)%Q ∧
                           (allocated_total (bd_values (po_type st)) == dval (po_total st) + extra)%Q).

Lemma balanced_proper st x y : (x == y)%Q → balanced st x → balanced st y.
Proof. intros E [H1 H2]. unfold balanced. rewrite <-E. done. Qed.

Ltac proj := cbn [hs_portfolio hs_components hs_total hs_hasValue hs_complete po_currency po_country po_type po_total
  po_hasValue po_complete po_accounts val_Components val_Account] in *.

Lemma counted_none c : bool_decide (vc_BaseAmount c = None) || bool_decide (vc_BaseAmountExact c = ""%string) = true →
  counted_amount c = 0%Q.
Proof. unfold counted_amount, component_amount. destruct (bool_decide (vc_BaseAmount c = None)); [done|]. cbn [orb]. by intros ->. Qed.

Lemma counted_some c x : bool_decide (vc_BaseAmount c = None) || bool_decide (vc_BaseAmountExact c = ""%string) = false →
  dNewFromString (vc_BaseAmountExact c) = Some x → counted_amount c = dval x.
Proof. intros E Ex. apply orb_false_iff in E as [E1 E2]. unfold counted_amount, component_amount. by rewrite E1, E2, Ex. Qed.

(** What a component leaves alone. *)
Definition same_accounts (st st' : portfolio_state) : Prop :=
  po_total st' = po_total st ∧ po_hasValue st' = po_hasValue st ∧ po_accounts st' = po_accounts st.

Lemma portfolio_amount_balanced snapshot account c id x st st' extra :
  portfolio_amount snapshot account c id x st = Ok st' → balanced st extra →
  balanced st' (extra + dval x) ∧ same_accounts st st'.
Proof.
  unfold portfolio_amount, balanced. intros Hok [H1 H2]. apply bind_Ok in Hok as (class & _ & Hok).
  destruct (MissingInstrument class); injection Hok as <-; cbn [po_currency po_country po_type po_total po_complete].
  - rewrite allocated_add, H1. split; [|done]. split; [ring|done].
  - rewrite !allocated_add, H1. split; [|done]. split; [ring|]. intros Hc. destruct (H2 Hc) as [-> ->]. split; ring.
Qed.

Definition holding_inv (st0 : portfolio_state) (hs : holding_state) : Prop :=
  balanced (hs_portfolio hs) (dval (hs_total hs)) ∧ same_accounts st0 (hs_portfolio hs) ∧
  (hs_hasValue hs = false → hs_total hs = dZero) ∧ (dval (hs_total hs) == sumQ counted_amount (hs_components hs))%Q ∧
  Forall (λ c, vc_InstrumentID c ≠ None) (hs_components hs).

Lemma portfolio_component_inv snapshot account st0 hs c hs' :
  portfolio_component snapshot account hs c = Ok hs' → holding_inv st0 hs → holding_inv st0 hs'.
Proof.
  unfold portfolio_component. intros Hok Hi. destruct (vc_InstrumentID c) as [id|] eqn:Hid; [|by injection Hok as <-].
  destruct Hi as (Hb & Hs & Hz & Hv & Hf).
  assert (Hf' : Forall (λ c, vc_InstrumentID c ≠ None) (hs_components hs ++ [c])).
  { apply Forall_app. split; [done|]. constructor; [by rewrite Hid|done]. }
  destruct (bool_decide (vc_BaseAmount c = None) || bool_decide (vc_BaseAmountExact c = ""%string)) eqn:E.
  - injection Hok as <-. split_and!; proj; try done. rewrite sumQ_snoc, Hv, (counted_none c E). ring.
  - destruct (dNewFromString (vc_BaseAmountExact c)) as [x|] eqn:Ex; [|discriminate].
    apply bind_Ok in Hok as (st' & Hst & Hok). injection Hok as <-.
    destruct (portfolio_amount_balanced _ _ _ _ _ _ _ _ Hst Hb) as [Hb' Hs']. split_and!; proj; try done.
    + refine (balanced_proper _ _ _ _ Hb'). by rewrite dAdd_val.
    + destruct Hs as (? & ? & ?), Hs' as (? & ? & ?). repeat split; congruence.
    + rewrite sumQ_snoc, dAdd_val, Hv, (counted_some c x E Ex). ring.
Qed.

Definition portfolio_inv (st : portfolio_state) : Prop :=
  balanced st 0 ∧ (po_hasValue st = false → po_total st = dZero) ∧
  (dval (po_total st) == sumQ account_amount (po_accounts st))%Q ∧
  Forall (λ a, IsLiability (val_Account a) = false ∧ Forall (λ c, vc_InstrumentID c ≠ None) (val_Components a)) (po_accounts st).

Lemma portfolio_account_inv household snapshot st item st' :
  portfolio_account household snapshot st item = Ok st' → portfolio_inv st → portfolio_inv st'.
Proof.
  unfold portfolio_account. set (account := val_Account (va_model item)). intros Hok Hi.
  destruct (IsLiability account || _) eqn:E; [by injection Hok as <-|]. apply orb_false_iff in E as [El _].
  apply bind_Ok in Hok as (hs & Hhs & Hok).
  assert (Hh : holding_inv st hs).
  { apply (foldM_inv _ (λ _ hs, holding_inv st hs)) in Hhs; [done|intros; by eapply portfolio_component_inv|].
    destruct Hi as (Hb & _). split_and!; try done; proj; [|apply dval_dzero].
    refine (balanced_proper _ _ _ _ Hb). by rewrite dval_dzero. }
  destruct Hh as (Hb & (Ht & Hhv & Ha) & Hz & Hv & Hf), Hi as (_ & Hz0 & Hsum & Hall).
  destruct (hs_components hs) as [|c0 rest] eqn:Ec.
  - injection Hok as <-. split_and!; [|by rewrite Hhv, Ht|by rewrite Ht, Ha|by rewrite Ha].
    apply (balanced_proper _ _ _ Hv Hb).
  - rewrite <-Ec in *. clear Ec c0 rest. apply bind_Ok in Hok as (view & _ & Hok). injection Hok as <-. split_and!; proj.
    + destruct Hb as [H1 H2]. destruct (hs_hasValue hs) eqn:Ehv.
      * split; proj; [rewrite dAdd_val, H1; ring|]. intros Hc. apply andb_prop in Hc as [Hc _]. destruct (H2 Hc) as [-> ->].
        rewrite dAdd_val. split; ring.
      * rewrite (Hz eq_refl), dval_dzero in H1, H2. split; proj; [done|]. intros Hc. apply andb_prop in Hc as [Hc _]. by apply H2.
    + intros E. apply orb_false_iff in E as [E1 E2]. rewrite E2, Ht. apply Hz0. by rewrite <-Hhv.
    + rewrite Ha, sumQ_snoc, <-Hsum. unfold account_amount. proj. rewrite <-Hv.
      destruct (hs_hasValue hs) eqn:Ehv; [by rewrite dAdd_val, Ht|]. rewrite (Hz eq_refl), dval_dzero, Ht. ring.
    + rewrite Ha. apply Forall_app. split; [done|]. repeat constructor; done.
Qed.

(** Claim C7.  The portfolio of a snapshot shows accounts that are not liabilities, with
    their investments only; its subtotal is the sum of the exact amounts of the components
    shown, rounded once; where that sum is positive the shares by currency are exactly the
    whole, and so are the shares by country and by type when the portfolio is complete. *)
Theorem portfolioOf_correct (v : ValuationService) snapshot household p :
  portfolioOf v snapshot = Ok (Some p) → ps_Household snapshot = Some household →
  let few (views : list AllocationView) := Z.of_nat (List.length views) < 2 * 10 ^ 16 in
  Forall (λ a, IsLiability (val_Account a) = false ∧ Forall (λ c, vc_InstrumentID c ≠ None) (val_Components a)) (pv_Accounts p) ∧
  ∃ total, (dval total == sumQ account_amount (pv_Accounts p))%Q ∧
    (∀ view, ValuedSubtotal p = Some view → moneyView total (h_BaseCurrency household) = Ok view) ∧
    ((0 < dval total)%Q →
       (few (ByCurrency p) → sumZ al_ShareBPS (ByCurrency p) = TotalOwnershipBPS) ∧
       (pv_Complete p = true →
          (few (ByCountry p) → sumZ al_ShareBPS (ByCountry p) = TotalOwnershipBPS) ∧
          (few (ByInstrumentType p) → sumZ al_ShareBPS (ByInstrumentType p) = TotalOwnershipBPS))).
Proof.
  intros Hok Hh few. unfold portfolioOf in Hok. rewrite Hh in Hok.
  apply bind_Ok in Hok as ((valued & all) & _ & Hok). apply bind_Ok in Hok as (st & Hst & Hok).
  apply bind_Ok in Hok as (display & _ & Hok). apply bind_Ok in Hok as (subtotal & Hsub & Hok).
  apply bind_Ok in Hok as (byCurrency & Hcur & Hok). apply bind_Ok in Hok as (byCountry & Hcou & Hok).
  apply bind_Ok in Hok as (byType & Htyp & Hok). injection Hok as <-.
  cbn [pv_Accounts pv_Complete ByCurrency ByCountry ByInstrumentType ValuedSubtotal].
  assert (Hi : portfolio_inv st).
  { apply (foldM_inv _ (λ _ st, portfolio_inv st)) in Hst; [done|intros; by eapply portfolio_account_inv|].
    split_and!; proj; try done; [|apply dval_dzero]. split; proj; rewrite dval_dzero; done. }
  destruct Hi as ((Hb1 & Hb2) & Hz & Hsum & Hall).
  pose proof (stable_sort_perm account_less (po_accounts st)) as Hp. fold (sortAccountValuations (po_accounts st)) in Hp.
  split; [by rewrite Hp|]. exists (po_total st). split_and!.
  - by rewrite Hsum, (sumQ_perm _ _ _ Hp).
  - intros view ->. destruct (po_hasValue st).
    + apply bind_Ok in Hsub as (view' & Hv & Hsub). by injection Hsub as ->.
    + destruct (bool_decide (missingForAccounts (po_accounts st) = [])); [|discriminate]. rewrite (Hz eq_refl).
      apply bind_Ok in Hsub as (view' & Hv & Hsub). by injection Hsub as ->.
  - intros Hpos. rewrite Qplus_0_r in Hb1, Hb2. split.
    + intros Hf. by apply (allocations_whole _ _ _ _ _ Hcur).
    + intros Hc. destruct (Hb2 Hc) as [H2 H3].
      split; intros Hf; [by apply (allocations_whole _ _ _ _ _ Hcou)|by apply (allocations_whole _ _ _ _ _ Htyp)].
Qed.
End Portfolio.
