(* ===== verification/ValuationLaws.v ===== *)
(** * The valuation is right

    What the values of [Valuation] and [ValuationTotals] mean: a component that is not
    available says what it misses, an amount in the base currency is the exact amount
    rounded to money once, and an account is the sum of its components. *)

From S2P Require Export ValuationShares.
From S2P Require Import DecimalModel.
From Stdlib Require Import String Ascii.

#[global] Open Scope Z_scope.

(** ** One amount *)

Section Amounts.
Context `{HD : DecimalAPI} {HL : DecimalLaws} `{HM : MetalEvidence} `{TZ : TimeZones}.

(** [view] shows [x] rounded half-even to four places. *)
Definition rounded_view (x : Q) (cur : CurrencyCode) (view : MoneyView) : Prop :=
  ∃ m, Money_ok m ∧ ParseCurrency cur = Ok (currency m) ∧ munits m = round_half_even (x * p10 4) ∧
       view = mkView (CanonicalAmount m) (currency m).

Lemma NewMoney_same d cur m x : NewMoney d cur = Ok m → same_money (dval d) x →
  Money_ok m ∧ ParseCurrency cur = Ok (currency m) ∧ munits m = round_half_even (x * p10 4).
Proof.
  intros Hm Hs. destruct (NewMoney_range _ _ _ Hm) as (H0 & H1 & Hc). pose proof (NewMoney_ok _ _ _ Hm) as Hok.
  destruct (NewMoney_rounds d cur _ Hc H0 H1) as (e & Hn & He & Hcoef). rewrite Hm in Hn. injection Hn as Hn.
  split; [done|]. split; [done|].
  rewrite Hn. unfold munits, units, cunits. cbn [amount]. rewrite He, Hcoef, Hs. lia.
Qed.

Lemma moneyView_rounds d cur view x : moneyView d cur = Ok view → same_money (dval d) x → rounded_view x cur view.
Proof.
  unfold moneyView. intros Hv Hs. apply bind_Ok in Hv as (m & Hm & Hv). injection Hv as <-.
  destruct (NewMoney_same _ _ _ _ Hm Hs) as (H1 & H2 & H3). by exists m.
Qed.

(** A component is available with a readable exact amount, or says what it misses. *)
Definition valid_input (p : ValuationComponent * list MissingInputView) : Prop :=
  if vc_Available p.1 then is_Some (component_amount p.1) ∧ vc_BaseAmount p.1 ≠ None
  else component_amount p.1 = None ∧ vc_BaseAmount p.1 = None ∧ p.2 ≠ [].

Lemma amount_of_string c d : vc_BaseAmountExact c = dString d →
  ∃ x, component_amount c = Some x ∧ (dval x == dval d)%Q.
Proof.
  unfold component_amount. intros ->. destruct (dString_reads d) as [Hne (x & Hx & Hv)].
  rewrite bool_decide_eq_false_2 by done. by exists x.
Qed.

Variable v : ValuationService.

(** What [valueNative] makes of a conversion. *)
Lemma valueNative_inv household snapshot accountID instrumentID native cur price c missing :
  valueNative v household snapshot accountID instrumentID native cur price = Ok (c, missing) →
  ∃ text converted, ParseNativeAmount (dString native) = Ok text ∧
    convertTo v household snapshot accountID native cur (h_BaseCurrency household) = Ok converted ∧
    let component := native_component accountID instrumentID text cur
      (match findFXPreference (ps_FXPreferences snapshot) cur (h_BaseCurrency household) with Some p => fp_ObservationID p | None => None end) price in
    match converted with
    | inr m => c = unavailable component ∧ missing = [m]
    | inl (value, fx) => ∃ view, moneyView value (h_BaseCurrency household) = Ok view ∧
        c = with_base component value view fx ∧ (historical v = false → missing = [])
    end.
Proof.
  unfold valueNative. intros Hok. apply bind_Ok in Hok as (text & Ht & Hok). apply bind_Ok in Hok as (converted & Hc & Hok).
  exists text, converted. split; [done|]. split; [done|]. destruct converted as [[value fx]|m].
  - apply bind_Ok in Hok as (view & Hv & Hok). injection Hok as <- <-. exists view. split; [done|]. split; [done|].
    intros Hh. by rewrite Hh.
  - by injection Hok as <- <-.
Qed.

Lemma valueNative_valid household snapshot accountID instrumentID native cur price p :
  valueNative v household snapshot accountID instrumentID native cur price = Ok p → valid_input p.
Proof.
  destruct p as [c missing]. intros Hok. apply valueNative_inv in Hok as (text & converted & _ & _ & Hc). cbv zeta in Hc.
  destruct converted as [[value fx]|m].
  - destruct Hc as (view & _ & -> & _). unfold valid_input. cbn [fst vc_Available with_base native_component]. split; [|done].
    edestruct (amount_of_string (with_base (native_component accountID instrumentID text cur
      (match findFXPreference (ps_FXPreferences snapshot) cur (h_BaseCurrency household) with Some p => fp_ObservationID p | None => None end) price) value view fx) value)
      as (x & Hx & _); [done|]. by exists x.
  - by destruct Hc as [-> ->].
Qed.

Lemma as_holding_valid holding i price c missing k : valid_input (c, missing) → valid_input (as_holding holding i price c, missing ++ k).
Proof.
  unfold valid_input, as_holding, component_amount. cbn. destruct (vc_Available c); [done|]. intros (? & ? & Hm).
  split_and!; [done|done|]. by destruct missing.
Qed.

Lemma dZero_text : ∃ d, dNewFromString "0" = Some d ∧ (dval d == 0)%Q.
Proof.
  destruct (dNewFromString_literal "0" 0 0 eq_refl) as (d & Hd & Hc & _). exists d. split; [done|]. by apply dval_zero_coef.
Qed.

Lemma valueHolding_valid household snapshot accountID holding i p :
  valueHolding v household snapshot accountID holding i = Ok p → valid_input p.
Proof.
  unfold valueHolding. intros Hok. destruct (q_isZero (hd_Quantity holding)).
  - apply bind_Ok in Hok as (view & _ & Hok). injection Hok as <-. destruct dZero_text as (d & Hd & _).
    split; [|done]. exists d. done.
  - destruct (holdingQuote v snapshot i) as [quote complete].
    destruct (metal_rate_missing v household snapshot i quote); [by injection Hok as <-|].
    destruct quote as [q|]; [|by injection Hok as <-].
    destruct (q_multiply (hd_Quantity holding) (iq_UnitPrice q)) as [native|e].
    + apply bind_Ok in Hok as ([c missing] & Hn & Hok). injection Hok as <-. apply as_holding_valid. by eapply valueNative_valid.
    + destruct (is_overflow e); [by injection Hok as <-|discriminate].
Qed.

Lemma account_inputs_valid household snapshot record instruments holdings cash inputs :
  account_inputs v household snapshot record instruments holdings cash = Ok inputs → Forall valid_input inputs.
Proof.
  unfold account_inputs. intros Hok. case_bool_decide.
  - apply bind_Ok in Hok as (held & Hh & Hok). apply bind_Ok in Hok as (sleeves & Hs & Hok). injection Hok as <-.
    apply Forall_app. split.
    + apply mapM_Forall2 in Hh. eapply Forall2_Forall_r; [exact Hh|]. apply Forall_forall. intros holding _ p Hp.
      destruct (instruments !! hd_InstrumentID holding); [by eapply valueHolding_valid|by injection Hp as <-].
    + apply mapM_Forall2 in Hs. eapply Forall2_Forall_r; [exact Hs|]. apply Forall_forall. intros cv _ p Hp.
      by eapply valueNative_valid.
  - destruct (rec_LatestValue record); [|injection Hok as <-; by constructor].
    apply bind_Ok in Hok as (p & Hp & Hok). injection Hok as <-. constructor; [by eapply valueNative_valid|done].
Qed.
End Amounts.

(** ** Missing inputs *)

(** One missing input for each key, and none that was not there. *)
Definition reports (l reported : list MissingInputView) : Prop :=
  NoDup (missing_key <$> reported) ∧ (∀ m, m ∈ reported → m ∈ l) ∧
  ∀ m, m ∈ l → ∃ r, r ∈ reported ∧ missing_key r = missing_key m.

Lemma deduplicate_reports l : reports l (deduplicateMissing l).
Proof.
  unfold deduplicateMissing.
  assert (Hgen : ∀ todo pre st, (∀ k, k ∈ st.1 ↔ k ∈ missing_key <$> st.2) → reports pre st.2 →
    reports (pre ++ todo) (fold_left deduplicate_step todo st).2).
  { induction todo as [|m todo IH]; intros pre [seen result] Hk Hr; [by rewrite app_nil_r|]. cbn [fold_left].
    rewrite cons_middle, app_assoc. apply IH; unfold deduplicate_step; case_bool_decide as Hs; cbn [fst snd] in *; try done.
    - intros k. rewrite fmap_app, elem_of_union, elem_of_app, Hk. cbn. rewrite list_elem_of_singleton, elem_of_singleton. tauto.
    - destruct Hr as (H1 & H2 & H3). apply Hk, list_elem_of_fmap in Hs as (r & Hr & Hin). split_and!; [done| |].
      + intros x Hx. apply elem_of_app. left. by apply H2.
      + intros x Hx. apply elem_of_app in Hx as [Hx|Hx]; [by apply H3|]. apply list_elem_of_singleton in Hx as ->. by exists r.
    - destruct Hr as (H1 & H2 & H3). split_and!.
      + rewrite fmap_app. apply NoDup_app. split_and!; [done| |by apply NoDup_singleton].
        intros k Hk1 Hk2. cbn in Hk2. apply list_elem_of_singleton in Hk2 as ->. apply Hs. by apply Hk.
      + intros x. rewrite !elem_of_app, list_elem_of_singleton. intros [Hx| ->]; [left; by apply H2|by right].
      + intros x. rewrite elem_of_app, list_elem_of_singleton. intros [Hx| ->].
        * destruct (H3 x Hx) as (r & Hr & Hkr). exists r. split; [|done]. apply elem_of_app. by left.
        * exists m. split; [|done]. apply elem_of_app. right. by left. }
  apply (Hgen l [] (∅, [])).
  { intros k. cbn. split; intros Hk; [by apply not_elem_of_empty in Hk|by apply elem_of_nil in Hk]. }
  split_and!; [constructor|done|]. intros m Hm. by apply elem_of_nil in Hm.
Qed.

Lemma sorted_reports l : reports l (deduplicateMissing (sortMissing l)).
Proof.
  destruct (deduplicate_reports (sortMissing l)) as (H1 & H2 & H3). pose proof (stable_sort_perm missing_less l) as Hp.
  unfold sortMissing in *. split_and!; [done| |]; intros m; [intros Hm; rewrite <-Hp; by apply H2|].
  rewrite <-Hp. apply H3.
Qed.

Lemma reports_nil l r : reports l r → r = [] ↔ l = [].
Proof.
  intros (_ & H2 & H3). split; intros ->.
  - destruct l as [|m l]; [done|]. destruct (H3 m ltac:(by left)) as (r & Hr & _). by apply elem_of_nil in Hr.
  - destruct r as [|m r]; [done|]. specialize (H2 m ltac:(by left)). by apply elem_of_nil in H2.
Qed.

(** ** One account *)

Section Accounts.
Context `{HD : DecimalAPI} {HL : DecimalLaws} `{HM : MetalEvidence} `{TZ : TimeZones}.

(** The exact amount of a component, zero when it has none. *)
Definition exact_value (c : ValuationComponent) : Q := match component_amount c with Some x => dval x | None => 0%Q end.

(** The state of the closure [add] after some components. *)
Definition added (observation : option string) (inputs : list (ValuationComponent * list MissingInputView)) (st : account_state) : Prop :=
  st_components st = (λ p : ValuationComponent * list MissingInputView, with_state observation p.2 p.1) <$> inputs ∧
  st_componentMissing st = inputs.*2 ∧ st_missing st = inputs ≫= snd ∧
  (st_complete st = true ↔ Forall (λ p : ValuationComponent * list MissingInputView, vc_Available p.1 = true ∧ p.2 = []) inputs) ∧
  (dval (st_total st) == sumQ exact_value (st_components st))%Q ∧
  (st_hasBase st = false ↔ Forall (λ c, component_amount c = None) (st_components st)) ∧
  (st_hasBase st = false → st_total st = dZero).

Lemma exact_with_state observation missing c : exact_value (with_state observation missing c) = exact_value c.
Proof. done. Qed.

Lemma account_added observation inputs :
  added observation inputs (fold_left (account_add observation) inputs (mkAccountState [] [] [] true dZero false)).
Proof.
  induction inputs as [|p inputs IH] using rev_ind.
  - split_and!; cbn; try done. apply dval_dzero.
  - rewrite fold_left_app. cbn [fold_left]. revert IH. generalize (fold_left (account_add observation) inputs (mkAccountState [] [] [] true dZero false)).
    intros st (H1 & H2 & H3 & H4 & H5 & H6 & H7). destruct p as [c missing]. unfold account_add.
    split_and!; cbn [st_components st_componentMissing st_missing st_complete st_total st_hasBase].
    + rewrite H1, fmap_app. done.
    + by rewrite H2, fmap_app.
    + rewrite H3, bind_app. cbn. by rewrite app_nil_r.
    + rewrite !andb_true_iff, bool_decide_eq_true, H4, Forall_app, Forall_singleton. cbn. tauto.
    + rewrite sumQ_snoc, <-H5, exact_with_state. unfold exact_value. destruct (component_amount c) as [x|]; [apply dAdd_val|ring].
    + rewrite orb_false_iff, H6, Forall_app, Forall_singleton. unfold with_state, component_amount. cbn.
      fold (component_amount c). destruct (component_amount c); split; intros [? ?]; done.
    + rewrite orb_false_iff. intros [E1 E2]. destruct (component_amount c); [done|]. by apply H7.
Qed.

(** What the valuation of an account promises of its record. *)
Record account_valued (base : CurrencyCode) (item : valuedAccount) : Prop := {
  av_sum : (dval (baseExact item) == sumQ exact_value (val_Components (va_model item)))%Q;
  av_exact : ∃ d, exactBaseAmount (va_model item) = Ok d ∧ (dval d == dval (baseExact item))%Q;
  av_base : match val_BaseValue (va_model item) with
            | Some view => rounded_view (dval (baseExact item)) base view
            | None => val_Complete (va_model item) = false ∧
                      Forall (λ c, vc_BaseAmount c = None) (val_Components (va_model item))
            end;
  av_complete : val_Complete (va_model item) = true ↔ val_MissingInputs (va_model item) = [];
  av_available : val_Complete (va_model item) = true → Forall (λ c, vc_Available c = true) (val_Components (va_model item));
  av_missing : reports (val_Components (va_model item) ≫= vc_MissingInputs) (val_MissingInputs (va_model item)) }.

Lemma exactBaseAmount_sum m : Forall (λ c, if vc_Available c then is_Some (component_amount c) else component_amount c = None) (val_Components m) →
  ∃ d, exactBaseAmount m = Ok d ∧ (dval d == sumQ exact_value (val_Components m))%Q.
Proof.
  unfold exactBaseAmount. intros Hf.
  assert (Hgen : ∀ l t, Forall (λ c, if vc_Available c then is_Some (component_amount c) else component_amount c = None) l →
    ∃ d, foldM (λ total c, if negb (vc_Available c) || bool_decide (vc_BaseAmountExact c = ""%string) then Ok total
                    else match dNewFromString (vc_BaseAmountExact c) with
                    | None => Fail (domainErr ErrIntegrity "amount" "stored valuation amount is invalid")
                    | Some value => Ok (dAdd total value)
                    end) t l = Ok d ∧ (dval d == dval t + sumQ exact_value l)%Q).
  { induction l as [|c l IH]; intros t Hl; [exists t; split; [done|cbn; ring]|]. apply Forall_cons in Hl as [Hc Hl].
    cbn [foldM]. setoid_rewrite sumQ_cons. unfold exact_value at 1. unfold component_amount in Hc |- * at 1.
    destruct (vc_Available c); cbn [negb orb].
    - case_bool_decide; [by destruct Hc|]. destruct Hc as [x Hx]. rewrite Hx.
      destruct (IH (dAdd t x) Hl) as (d & Hd & Hv). exists d. split; [done|]. rewrite Hv, dAdd_val. ring.
    - rewrite Hc. destruct (IH t Hl) as (d & Hd & Hv). exists d. split; [done|]. rewrite Hv. ring. }
  destruct (Hgen _ dZero Hf) as (d & Hd & Hv). exists d. split; [done|]. rewrite Hv, dval_dzero. ring.
Qed.

Lemma moneyView_self d cur view : moneyView d cur = Ok view → rounded_view (dval d) cur view.
Proof. intros Hv. by apply (moneyView_rounds d cur view). Qed.

Lemma valueAccount_valued (v : ValuationService) household snapshot record instruments holdings cash item :
  valueAccount v household snapshot record instruments holdings cash = Ok item →
  account_valued (h_BaseCurrency household) item ∧ val_Account (va_model item) = rec_Account record.
Proof.
  unfold valueAccount. intros Hok. apply bind_Ok in Hok as (inputs & Hin & Hok).
  pose proof (account_inputs_valid _ _ _ _ _ _ _ _ Hin) as Hvalid. clear Hin.
  pose proof (account_added (rec_StateObservationID record) inputs) as Hst. revert Hok Hst.
  generalize (fold_left (account_add (rec_StateObservationID record)) inputs (mkAccountState [] [] [] true dZero false)).
  intros st Hok (H1 & H2 & H3 & H4 & H5 & H6 & H7). apply bind_Ok in Hok as (base & Hb & Hok). injection Hok as <-.
  split; [|done]. rewrite Forall_forall in Hvalid.
  assert (Hcomp : Forall (λ c, if vc_Available c then is_Some (component_amount c) ∧ vc_BaseAmount c ≠ None
                               else component_amount c = None ∧ vc_BaseAmount c = None) (st_components st)).
  { rewrite H1. apply Forall_fmap, Forall_forall. intros p Hp. specialize (Hvalid p Hp). unfold valid_input in Hvalid. cbn.
    destruct (vc_Available p.1); [done|tauto]. }
  assert (Hmiss : st_missing st = st_components st ≫= vc_MissingInputs).
  { rewrite H3, H1. clear. induction inputs as [|p l IH]; [done|]. cbn. by rewrite IH. }
  assert (Hcm : st_complete st = true ↔ st_missing st = []).
  { rewrite H4, H3, Forall_forall. split.
    - intros Hf. destruct (inputs ≫= snd) as [|m l] eqn:E; [done|exfalso].
      assert (Hm : m ∈ inputs ≫= snd) by (rewrite E; by left). apply list_elem_of_bind in Hm as (p & Hm & Hp).
      destruct (Hf p Hp) as [_ Hnil]. rewrite Hnil in Hm. by apply elem_of_nil in Hm.
    - intros Hnil p Hp. assert (Hp2 : p.2 = []).
      { destruct p.2 as [|m l] eqn:E; [done|exfalso]. assert (Hm : m ∈ inputs ≫= snd).
        { apply list_elem_of_bind. exists p. split; [rewrite E; by left|done]. }
        rewrite Hnil in Hm. by apply elem_of_nil in Hm. }
      split; [|done]. specialize (Hvalid p Hp). unfold valid_input in Hvalid. destruct (vc_Available p.1); [done|].
      by destruct Hvalid as (_ & _ & Hne). }
  split; cbn [va_model val_Components val_BaseValue val_Complete val_MissingInputs baseExact].
  - done.
  - destruct (exactBaseAmount_sum (mkAccountValuation (rec_Account record) (rec_Ownership record) (rec_InstitutionName record)
      (rec_GroupName record) base (st_complete st) (st_components st) (deduplicateMissing (sortMissing (st_missing st))))) as (d & Hd & Hv).
    + cbn. eapply Forall_impl; [exact Hcomp|]. intros c. cbn. destruct (vc_Available c); tauto.
    + exists d. split; [done|]. by rewrite Hv, H5.
  - destruct (st_hasBase st) eqn:Ehb.
    + apply bind_Ok in Hb as (view & Hv & Hb). injection Hb as <-. by apply moneyView_self.
    + rewrite (H7 eq_refl). destruct (st_complete st) eqn:Ec.
      * apply bind_Ok in Hb as (view & Hv & Hb). injection Hb as <-. by apply moneyView_self.
      * injection Hb as <-. split; [done|]. pose proof (proj1 H6 eq_refl) as Hnone. clear Ehb. rename Hnone into Ehb. rewrite Forall_forall in *. intros c Hc.
        specialize (Hcomp c Hc). specialize (Ehb c Hc). cbn in *. destruct (vc_Available c); [|tauto].
        destruct Hcomp as [[x Hx] _]. congruence.
  - rewrite Hcm. symmetry. apply reports_nil, sorted_reports.
  - intros Hc. rewrite H1. apply Forall_fmap. apply H4 in Hc. eapply Forall_impl; [exact Hc|]. by intros p [? _].
  - rewrite <-Hmiss. apply sorted_reports.
Qed.
End Accounts.

(** ** The accounts of a snapshot *)

Section Evaluate.
Context `{HD : DecimalAPI} {HL : DecimalLaws} `{HM : MetalEvidence} `{TZ : TimeZones}.

(** Claim C4.  [evaluate] values the accounts that are not archived, in their order.  The exact
    value of each is the sum of its components, rereading them gives the same number, and its
    base value is that sum rounded once; it is absent only when no component has an amount and
    the account is incomplete.  An account is complete exactly when it reports no missing
    input, and then all its components are available; the snapshot reports every missing input
    of every account once, so it reports none exactly when every account is complete. *)
Theorem evaluate_correct (v : ValuationService) snapshot household valued missing :
  evaluate v snapshot = Ok (valued, missing) → ps_Household snapshot = Some household →
  (λ item, val_Account (va_model item)) <$> valued =
    rec_Account <$> List.filter (λ record, bool_decide (ArchivedAt (rec_Account record) = None)) (ps_Accounts snapshot) ∧
  Forall (account_valued (h_BaseCurrency household)) valued ∧
  reports (valued ≫= λ item, val_MissingInputs (va_model item)) missing ∧
  (missing = [] ↔ Forall (λ item, val_Complete (va_model item) = true) valued).
Proof.
  unfold evaluate. intros Hok Hh. rewrite Hh in Hok. apply bind_Ok in Hok as (items & Hitems & Hok).
  injection Hok as <- <-. apply mapM_Forall2 in Hitems.
  set (records := List.filter _ (ps_Accounts snapshot)) in *.
  assert (Hall : Forall2 (λ record item, account_valued (h_BaseCurrency household) item ∧
                                         val_Account (va_model item) = rec_Account record) records items).
  { eapply Forall2_impl; [exact Hitems|]. intros record item Hv. exact (valueAccount_valued _ _ _ _ _ _ _ _ Hv). }
  assert (Hvals : Forall (account_valued (h_BaseCurrency household)) items).
  { eapply Forall2_Forall_r; [exact Hall|]. apply Forall_forall. by intros record _ item [? _]. }
  assert (Hrep : reports (items ≫= λ item, val_MissingInputs (va_model item)) (missingForAccounts (va_model <$> items))).
  { unfold missingForAccounts. assert (E : (va_model <$> items) ≫= val_MissingInputs = items ≫= λ item, val_MissingInputs (va_model item)).
    { clear. induction items as [|x l IH]; [done|]. cbn. by rewrite IH. }
    rewrite E. apply sorted_reports. }
  split; [|split; [done|split; [done|]]].
  - clear -Hall. induction Hall as [|record item records items [_ He] _ IH]; [done|]. cbn. by rewrite He, IH.
  - rewrite (reports_nil _ _ Hrep), Forall_forall. rewrite Forall_forall in Hvals. split.
    + intros Hnil item Hin. apply (av_complete _ _ (Hvals item Hin)).
      destruct (val_MissingInputs (va_model item)) as [|m l] eqn:E; [done|exfalso].
      assert (Hm : m ∈ items ≫= λ item, val_MissingInputs (va_model item)).
      { apply list_elem_of_bind. exists item. split; [rewrite E; by left|done]. }
      rewrite Hnil in Hm. by apply elem_of_nil in Hm.
    + intros Hc. destruct (items ≫= λ item, val_MissingInputs (va_model item)) as [|m l] eqn:E; [done|exfalso].
      assert (Hm : m ∈ items ≫= λ item, val_MissingInputs (va_model item)) by (rewrite E; by left).
      apply list_elem_of_bind in Hm as (item & Hm & Hin). specialize (Hc item Hin).
      apply (av_complete _ _ (Hvals item Hin)) in Hc. rewrite Hc in Hm. by apply elem_of_nil in Hm.
Qed.

(** ** Current values *)

(** The factor from a currency to the base currency now. *)
Definition spot (v : ValuationService) (household : Household) (snapshot : PortfolioSnapshot) (cur : CurrencyCode) : option Q :=
  let base := h_BaseCurrency household in
  if bool_decide (cur = base) then Some 1%Q
  else match selectFXQuoteTo v household snapshot (ps_FXQuotes snapshot) cur base None with
       | Some q => leg_factor cur base q
       | None => None
       end.

Lemma selectFXQuote_eligible preference quotes native base key cutoff q : selectFXQuote preference quotes native base key cutoff = Some q →
  q ∈ quotes ∧ same_pair q native base = true.
Proof.
  intros Hs. apply (selected_in fxQuoteOrder) in Hs as [Hin He]. split; [done|]. unfold fx_eligible in He.
  repeat match type of He with (if ?b then _ else _) = true => destruct b; [discriminate|] end. done.
Qed.

Lemma same_pair_factor q native base : same_pair q native base = true → is_Some (leg_factor native base q).
Proof.
  unfold same_pair, leg_factor. rewrite orb_true_iff, !andb_true_iff, !bool_decide_eq_true. intros Hp.
  repeat case_bool_decide; [by eexists..|]. tauto.
Qed.

Definition stored_rates_ok (snapshot : PortfolioSnapshot) : Prop := Forall (λ q, FxRate_ok (Rate q)) (ps_FXQuotes snapshot).

Lemma convertTo_current (v : ValuationService) household snapshot accountID native cur converted :
  historical v = false → stored_rates_ok snapshot →
  convertTo v household snapshot accountID native cur (h_BaseCurrency household) = Ok converted →
  match spot v household snapshot cur with
  | None => ∃ m, converted = inr m ∧ mi_Kind m = MissingFXRate ∧ mi_AccountID m = accountID ∧
                 mi_BaseCurrency m = h_BaseCurrency household ∧ mi_QuoteCurrency m = cur
  | Some f => ∃ x fx, converted = inl (x, fx) ∧ same_money (dval x) (dval native * f)
  end.
Proof.
  intros Hh Hrates. unfold convertTo, spot. case_bool_decide as Ec; intros Hok.
  - injection Hok as <-. exists native, None. split; [done|]. unfold same_money. by rewrite Qmult_1_r.
  - assert (Hsel : ∀ q, selectFXQuoteTo v household snapshot (ps_FXQuotes snapshot) cur (h_BaseCurrency household) None = Some q →
      q ∈ ps_FXQuotes snapshot ∧ same_pair q cur (h_BaseCurrency household) = true).
    { intros q. unfold selectFXQuoteTo. rewrite Hh. apply selectFXQuote_eligible. }
    destruct (selectFXQuoteTo v household snapshot (ps_FXQuotes snapshot) cur (h_BaseCurrency household) None) as [q|];
      cbn [convertUsingFXQuote] in Hok; [|injection Hok as <-; by eexists].
    apply bind_Ok in Hok as (x & Hx & Hok). injection Hok as <-. destruct (Hsel q eq_refl) as [Hin Hpair].
    unfold stored_rates_ok in Hrates. rewrite Forall_forall in Hrates.
    destruct (ConvertFXAmount_same _ _ _ _ _ (Hrates q Hin) Ec Hx) as (f & -> & Hs). by exists x, (Some (quoteEvidenceForFXConversion v household snapshot q)).
Qed.

(** What a component shows of an amount of [native] units of [cur]. *)
Definition shows (base : CurrencyCode) (native : Q) (factor : option Q) (c : ValuationComponent) (missing : list MissingInputView) : Prop :=
  match factor with
  | Some f => vc_Available c = true ∧ missing = [] ∧
      (∃ view, vc_BaseAmount c = Some view ∧ rounded_view (native * f) base view) ∧
      (∃ x, component_amount c = Some x ∧ same_money (dval x) (native * f))
  | None => vc_Available c = false ∧ vc_BaseAmount c = None ∧ component_amount c = None ∧
      ∃ m, missing = [m] ∧ mi_Kind m = MissingFXRate ∧ mi_BaseCurrency m = base ∧ mi_QuoteCurrency m = vc_NativeCurrency c
  end.

Lemma valueNative_current (v : ValuationService) household snapshot accountID instrumentID native cur price c missing :
  historical v = false → stored_rates_ok snapshot →
  valueNative v household snapshot accountID instrumentID native cur price = Ok (c, missing) →
  shows (h_BaseCurrency household) (dval native) (spot v household snapshot cur) c missing ∧ vc_NativeCurrency c = cur.
Proof.
  intros Hh Hrates Hok. apply valueNative_inv in Hok as (text & converted & _ & Hc & Hcase). cbv zeta in Hcase.
  apply (convertTo_current _ _ _ _ _ _ _ Hh Hrates) in Hc. unfold shows. destruct (spot v household snapshot cur) as [f|].
  - destruct Hc as (x & fx & -> & Hs). destruct Hcase as (view & Hv & -> & Hm). split; [|done]. split_and!; [done|by apply Hm| |].
    + exists view. split; [done|]. by eapply moneyView_rounds.
    + set (comp := with_base _ _ _ _). destruct (amount_of_string comp x) as (y & Hy & Hxy); [done|]. exists y. split; [done|].
      unfold same_money. by rewrite Hxy.
  - destruct Hc as (m & -> & Hk & _ & Hb & Hq). destruct Hcase as [-> ->]. split; [|done]. split_and!; [done..|].
    exists m. done.
Qed.

(** Claim C5.  The current value of a holding is quantity times selected price times the
    factor of the selected exchange rate, in exact arithmetic, rounded half-even to money once.
    It is available exactly when there is a price, a current dollar rate for a converted metal
    price, a product within the range of money and a rate to the base currency; otherwise the
    component says which of them is missing.  A holding of nothing is worth nothing and needs
    neither price nor rate. *)
Theorem valueHolding_current (v : ValuationService) household snapshot accountID holding i c missing :
  historical v = false → stored_rates_ok snapshot →
  valueHolding v household snapshot accountID holding i = Ok (c, missing) →
  let base := h_BaseCurrency household in
  let quote := selectInstrumentQuote i (ps_InstrumentQuotes snapshot) in
  let gone kind := vc_Available c = false ∧ component_amount c = None ∧ vc_BaseAmount c = None ∧
                   mi_Kind <$> missing = [kind] in
  if q_isZero (hd_Quantity holding)
  then vc_Available c = true ∧ missing = [] ∧ ∃ view, vc_BaseAmount c = Some view ∧ rounded_view 0 base view
  else match metal_rate_missing v household snapshot i quote, quote with
  | Some _, _ => gone MissingFXRate
  | None, None => gone MissingInstrumentPrice
  | None, Some q =>
    match q_multiply (hd_Quantity holding) (iq_UnitPrice q) with
    | Fail _ => gone MissingHoldingAmount
    | Ok _ => shows base (dval (q_value (hd_Quantity holding)) * dval (p_value (iq_UnitPrice q)))
                    (spot v household snapshot (i_QuoteCurrency i)) c missing
    end
  end.
Proof.
  intros Hh Hrates Hok base quote gone. unfold valueHolding, holdingQuote in Hok. rewrite Hh in Hok. fold quote in Hok. cbn [andb] in Hok.
  destruct (q_isZero (hd_Quantity holding)).
  - apply bind_Ok in Hok as (view & Hv & Hok). injection Hok as <- <-. split_and!; [done..|]. exists view. split; [done|].
    apply (moneyView_rounds dZero); [done|]. unfold same_money. by rewrite dval_dzero.
  - destruct (metal_rate_missing v household snapshot i quote) as [src|]; [by injection Hok as <- <-|].
    destruct quote as [q|]; [|by injection Hok as <- <-].
    destruct (q_multiply (hd_Quantity holding) (iq_UnitPrice q)) as [native|e] eqn:Em.
    + apply bind_Ok in Hok as ([c' m'] & Hn & Hok). injection Hok as <- <-.
      destruct (valueNative_current _ _ _ _ _ _ _ _ _ _ Hh Hrates Hn) as [Hs Hcur].
      rewrite app_nil_r. apply q_multiply_ok in Em as [Em _].
      unfold shows in *. destruct (spot v household snapshot (i_QuoteCurrency i)) as [f|].
      * destruct Hs as (H1 & H2 & (view & Hv & Hr) & (x & Hx & Hm)). split_and!; [done|done| |].
        -- exists view. split; [done|]. destruct Hr as (m & R1 & R2 & R3 & R4). exists m. split; [done|]. split; [done|]. split; [by rewrite R3, Em|done].
        -- exists x. split; [done|]. unfold same_money in *. by rewrite Hm, Em.
      * done.
    + destruct (is_overflow e); [by injection Hok as <- <-|discriminate].
Qed.
End Evaluate.
