(* ===== verification/ValuationOrder.v ===== *)
(** * Row order does not matter

    A snapshot is loaded by queries whose rows may come in any order.  The current valuation
    of its accounts depends on the rows only: holdings are sorted, the latest cash of every
    currency and the current quotes are found wherever they stand. *)

From S2P Require Export ValuationLaws.
From S2P Require Import DecimalModel.
From Stdlib Require Import String Ascii Sorted.

#[global] Open Scope Z_scope.

Section Order.
Context `{HD : DecimalAPI} `{HM : MetalEvidence} `{TZ : TimeZones}.

(** ** Holdings *)

Definition holding_cmp : Holding → Holding → comparison :=
  lex (by_key hd_SortOrder Z.compare) (by_key hd_ID String.compare).

Lemma holding_less_cmp x y : holding_less x y = is_gt (holding_cmp y x).
Proof.
  unfold holding_less. rewrite Z.eqb_sym, Z_test. apply (lex_gt (by_key hd_SortOrder Z.compare)). symmetry. apply is_gt_string.
Qed.

Lemma sorted_holdings l k : same_record hd_ID l → l ≡ₚ k → stable_sort holding_less l = stable_sort holding_less k.
Proof.
  intros Hu Hp. apply (stable_sort_eq holding_cmp holding_less holding_less_cmp); [|done].
  intros x y Hx Hy E. apply lex_eq in E. apply string_compare_eq in E. by apply Hu.
Qed.

(** ** Cash *)

Definition cash_order (c : AccountCashValue) : currentQuoteOrder :=
  mkQuoteOrder QuoteSourceManual (cv_EffectiveAt c) (cv_CreatedAt c) (cv_ID c) "" 0 0.
Definition cash_cmp : AccountCashValue → AccountCashValue → comparison :=
  by_key cash_order (lex (by_key quotedAt Z.compare) tie_cmp).

Lemma cash_later_cmp x y : cash_later x y = is_gt (cash_cmp x y).
Proof. apply (quoteLater_cmp (cash_order x) (cash_order y)). Qed.

Lemma cash_chain l : same_record cv_ID l → chain cash_later l.
Proof.
  intros Hu. apply (ordered_chain cash_cmp); [intros x y _ _; apply cash_later_cmp|].
  intros x y Hx Hy E. apply Hu; [done..|]. unfold cash_cmp, by_key at 1 in E. repeat apply lex_eq in E.
  by apply string_compare_eq in E.
Qed.

Definition in_currency (c : CurrencyCode) (l : list AccountCashValue) : list AccountCashValue :=
  List.filter (λ x, bool_decide (currency (cv_Amount x) = c)) l.

(** The map holds the last cash of every currency. *)
Lemma latest_lookup l c : fold_left latest_step l ∅ !! c = fold_left (keep_later cash_later) (in_currency c l) None.
Proof.
  assert (Hgen : ∀ m acc, m !! c = acc → fold_left latest_step l m !! c = fold_left (keep_later cash_later) (in_currency c l) acc);
    [|by apply Hgen].
  induction l as [|x l IH]; intros m acc Hm; [done|]. unfold in_currency. cbn [fold_left List.filter].
  fold (in_currency c l). unfold latest_step at 2. case_bool_decide as Hc.
  - rewrite Hc, Hm. cbn [fold_left]. apply IH. destruct acc as [s|]; cbn; [destruct (cash_later x s)|];
      rewrite ?lookup_insert_eq; done.
  - apply IH. destruct (m !! currency (cv_Amount x)) as [s|]; [destruct (cash_later x s)|]; rewrite ?lookup_insert_ne; done.
Qed.

Lemma same_record_filter {A} (id : A → string) (f : A → bool) l : same_record id l → same_record id (List.filter f l).
Proof.
  intros Hu p q Hp Hq. apply list_elem_of_In, List.filter_In in Hp as [Hp _], Hq as [Hq _].
  apply Hu; by apply list_elem_of_In.
Qed.

Lemma latest_cash l k : same_record cv_ID l → l ≡ₚ k → latestCashValues l = latestCashValues k.
Proof.
  intros Hu Hp. unfold latestCashValues. do 3 f_equal. apply map_eq. intros c. rewrite !latest_lookup.
  apply keep_later_perm; [apply cash_chain; by apply same_record_filter|]. by apply List_filter_perm.
Qed.

(** ** Snapshots with the same rows *)

Record same_rows (s s' : PortfolioSnapshot) : Prop := {
  sr_household : ps_Household s' = ps_Household s;
  sr_origin : ps_Origin s' = ps_Origin s;
  sr_accounts : ps_Accounts s' = ps_Accounts s;
  sr_instruments : ps_Instruments s' = ps_Instruments s;
  sr_closures : ps_InstrumentClosures s' = ps_InstrumentClosures s;
  sr_preferences : ps_FXPreferences s' = ps_FXPreferences s;
  sr_holdings : ps_Holdings s ≡ₚ ps_Holdings s';
  sr_cash : ps_CashValues s ≡ₚ ps_CashValues s';
  sr_quotes : ps_InstrumentQuotes s ≡ₚ ps_InstrumentQuotes s';
  sr_rates : ps_FXQuotes s ≡ₚ ps_FXQuotes s' }.

(** Identifiers are primary keys. *)
Definition unique_rows (s : PortfolioSnapshot) : Prop :=
  same_record hd_ID (ps_Holdings s) ∧ same_record cv_ID (ps_CashValues s) ∧
  same_record iq_ID (ps_InstrumentQuotes s) ∧ same_record fq_ID (ps_FXQuotes s).

Section Rows.
Context (v : ValuationService) (s s' : PortfolioSnapshot) (household : Household).
Context (Hh : historical v = false) (Hu : unique_rows s) (Hr : same_rows s s').

Lemma same_price i : selectInstrumentQuote i (ps_InstrumentQuotes s') = selectInstrumentQuote i (ps_InstrumentQuotes s).
Proof.
  destruct Hu as (_ & _ & Hq & _). symmetry. apply (selected_perm _ (instrument_eligible i)); [by apply instrument_unique|apply Hr].
Qed.

Lemma same_rate preference native base key cutoff :
  selectFXQuote preference (ps_FXQuotes s') native base key cutoff = selectFXQuote preference (ps_FXQuotes s) native base key cutoff.
Proof.
  destruct Hu as (_ & _ & _ & Hq). symmetry. apply (selected_perm _ (fx_eligible preference native base (ToLower (TrimSpace key)) cutoff));
    [by apply fx_unique|apply Hr].
Qed.

Lemma same_target : targetDate v s' = targetDate v s.
Proof. unfold targetDate, displayDate. by rewrite (sr_origin _ _ Hr). Qed.

Lemma same_preference cur base : implicitFXPreferenceTo household s' cur base = implicitFXPreferenceTo household s cur base.
Proof. unfold implicitFXPreferenceTo. by rewrite (sr_preferences _ _ Hr). Qed.

Lemma same_selection cur base cutoff :
  selectFXQuoteTo v household s' (ps_FXQuotes s') cur base cutoff = selectFXQuoteTo v household s (ps_FXQuotes s) cur base cutoff.
Proof. unfold selectFXQuoteTo. rewrite Hh, same_preference. apply same_rate. Qed.

Lemma same_conversion accountID native cur base :
  convertTo v household s' accountID native cur base = convertTo v household s accountID native cur base.
Proof.
  unfold convertTo. case_bool_decide; [done|]. rewrite same_selection. unfold convertUsingFXQuote.
  rewrite same_preference. destruct (selectFXQuoteTo _ _ _ _ _ _ _) as [q|]; [|done].
  unfold quoteEvidenceForFXConversion. by rewrite same_target, same_preference.
Qed.

Lemma same_native accountID instrumentID native cur price :
  valueNative v household s' accountID instrumentID native cur price = valueNative v household s accountID instrumentID native cur price.
Proof. unfold valueNative. by rewrite same_conversion, (sr_preferences _ _ Hr), Hh. Qed.

Lemma same_evidence i q : holdingEvidence v s' i q = holdingEvidence v s i q.
Proof. unfold holdingEvidence. by rewrite same_target, (sr_closures _ _ Hr). Qed.

Lemma same_metal i quote : metal_rate_missing v household s' i quote = metal_rate_missing v household s i quote.
Proof. unfold metal_rate_missing. by rewrite (sr_preferences _ _ Hr), same_rate. Qed.

Lemma same_holding accountID holding i : valueHolding v household s' accountID holding i = valueHolding v household s accountID holding i.
Proof.
  unfold valueHolding, holdingQuote. rewrite Hh, same_price. destruct (q_isZero (hd_Quantity holding)); [done|].
  rewrite same_metal. destruct (metal_rate_missing _ _ _ _ _); [done|]. destruct (selectInstrumentQuote i (ps_InstrumentQuotes s)) as [q|]; [|done].
  rewrite same_evidence. destruct (q_multiply _ _); [|done]. by rewrite same_native.
Qed.

Lemma mapM_ext' {A B} (f g : A → Result B) l : (∀ x, f x = g x) → mapM f l = mapM g l.
Proof. intros He. induction l as [|x l IH]; [done|]. cbn. by rewrite He, IH. Qed.

Lemma same_inputs record instruments holdings holdings' cash cash' :
  same_record hd_ID holdings → same_record cv_ID cash → holdings ≡ₚ holdings' → cash ≡ₚ cash' →
  account_inputs v household s' record instruments holdings' cash' = account_inputs v household s record instruments holdings cash.
Proof.
  intros Huh Huc Hph Hpc. unfold account_inputs. rewrite <-(sorted_holdings _ _ Huh Hph), <-(latest_cash _ _ Huc Hpc).
  case_bool_decide.
  - rewrite (mapM_ext' _ (λ holding, match instruments !! hd_InstrumentID holding with
        | None => Ok (bare_component (ID (rec_Account record)) (Some holding) (DefaultCurrency (rec_Account record)),
            [mkMissing MissingInstrument' (ID (rec_Account record)) "" (Some (hd_InstrumentID holding)) "" "" "" None "" ""])
        | Some i => valueHolding v household s (ID (rec_Account record)) holding i
        end)).
    + by rewrite (mapM_ext' _ _ _ (λ c, same_native (ID (rec_Account record)) None (amount (cv_Amount c)) (currency (cv_Amount c)) None)).
    + intros holding. destruct (instruments !! hd_InstrumentID holding); [apply same_holding|done].
  - destruct (rec_LatestValue record); [|done]. by rewrite same_native.
Qed.
End Rows.

(** Claim C6.  The current valuation of a snapshot does not depend on the order in which its
    holdings, cash observations, prices and exchange rates were loaded: as long as identifiers
    are unique, permuting these rows leaves every account value, component, piece of evidence
    and missing input the same, in the same order. *)
Theorem evaluate_order_free (v : ValuationService) s s' :
  historical v = false → unique_rows s → same_rows s s' → evaluate v s' = evaluate v s.
Proof.
  intros Hh Hu Hr. unfold evaluate. rewrite (sr_household _ _ Hr), (sr_accounts _ _ Hr), (sr_instruments _ _ Hr).
  destruct (ps_Household s) as [household|]; [|done].
  erewrite mapM_ext'; [reflexivity|]. intros record. unfold valueAccount. destruct Hu as (Huh & Huc & Huq & Huf).
  by erewrite (same_inputs v s s' household Hh (conj Huh (conj Huc (conj Huq Huf))) Hr);
    [reflexivity|apply same_record_filter|apply same_record_filter|apply List_filter_perm, Hr|apply List_filter_perm, Hr].
Qed.
End Order.
