(* ===== verification/ValuationDisplayLaws.v ===== *)
(** * Only full totals are published

    The figures of the household overview: every component counts once, as valued or as
    unpriced; the known subtotal is the sum of the valued ones, and it is published as the
    total exactly when nothing is unpriced. *)

From S2P Require Export ValuationLaws.
From S2P Require Import DecimalModel.
From Stdlib Require Import String Ascii.

#[global] Open Scope Z_scope.

Section DisplayLaws.
Context `{HD : DecimalAPI} {HL : DecimalLaws}.

(** Kinds that leave a component without a value. *)
Definition blocks (m : MissingInputView) : bool :=
  match mi_Kind m with MissingHistoryCoverage => false | _ => true end.

(** The component has a usable amount and nothing that it misses takes it away. *)
Definition priced (c : ValuationComponent) : bool :=
  vc_Available c && negb (bool_decide (vc_BaseAmountExact c = ""%string)) && negb (existsb blocks (vc_MissingInputs c)).

Definition priced_value (c : ValuationComponent) : Q := if priced c then exact_value c else 0%Q.
Definition how_many (f : ValuationComponent → bool) (cs : list ValuationComponent) : Z := sumZ (λ c, if f c then 1 else 0) cs.

Lemma how_many_split f cs : how_many f cs + how_many (λ c, negb (f c)) cs = Z.of_nat (List.length cs).
Proof.
  unfold how_many. induction cs as [|c cs IH]; [done|]. rewrite !sumZ_cons. cbn [List.length]. rewrite Nat2Z.inj_succ.
  destruct (f c); cbn [negb]; lia.
Qed.

Lemma how_many_range f cs : 0 <= how_many f cs <= Z.of_nat (List.length cs).
Proof.
  unfold how_many. induction cs as [|c cs IH]; [cbn; lia|]. rewrite !sumZ_cons. cbn [List.length]. destruct (f c); lia.
Qed.

(** An accumulator after the components [cs]. *)
Definition counted (cs : list ValuationComponent) (a : displayAccumulator) : Prop :=
  IncludedCount (quality a) = Z.of_nat (List.length cs) ∧
  ValuedCount (quality a) = how_many priced cs ∧
  UnpricedCount (quality a) = how_many (λ c, negb (priced c)) cs ∧
  (dval (acc_sum a) == sumQ priced_value cs)%Q ∧ uncertain' a = false.

Lemma counted_empty : counted [] emptyAccumulator.
Proof. split; [done|]. split; [done|]. split; [done|]. split; [apply dval_dzero|done]. Qed.

Lemma add_missing_available missing st : as_available (fold_left add_missing missing st) =
  as_available st && negb (existsb blocks missing).
Proof.
  revert st. induction missing as [|m l IH]; intros st; [cbn; by rewrite andb_true_r|]. cbn [fold_left existsb]. rewrite IH.
  unfold add_missing, blocks. by destruct (mi_Kind m); cbn [as_available orb negb andb]; rewrite ?andb_false_r.
Qed.

Lemma add_evidence_available c target current price st e : as_available (add_evidence c target current price st e) = as_available st.
Proof. by destruct e. Qed.

Lemma acc_add_counted cs a c target current a' : acc_add a c (vc_MissingInputs c) target current = Ok a' →
  counted cs a → counted (cs ++ [c]) a'.
Proof.
  intros Hok (H1 & H2 & H3 & H4 & H5). unfold acc_add in Hok. rewrite !add_evidence_available, add_missing_available in Hok.
  cbn [as_available] in Hok. fold (priced c) in Hok.
  assert (Hs : ∀ f : ValuationComponent → bool, how_many f (cs ++ [c]) = how_many f cs + if f c then 1 else 0)
    by (intros f; unfold how_many; rewrite sumZ_app, sumZ_single; done).
  unfold counted. rewrite !Hs, sumQ_snoc, length_app, Nat2Z.inj_add. unfold priced_value at 2.
  destruct (priced c) eqn:Ep; cbn [negb].
  - destruct (dNewFromString (vc_BaseAmountExact c)) as [x|] eqn:Ex; [|discriminate]. injection Hok as <-.
    cbn [quality acc_sum uncertain' IncludedCount ValuedCount UnpricedCount count negb]. rewrite H1, H2, H3, dAdd_val, H4.
    split; [done|]. split; [done|]. split; [lia|]. split; [|done].
    unfold exact_value, component_amount. unfold priced in Ep. rewrite !andb_true_iff, negb_true_iff in Ep. destruct Ep as [[_ ->] _].
    rewrite Ex. reflexivity.
  - injection Hok as <-. cbn [quality acc_sum uncertain' IncludedCount ValuedCount UnpricedCount count negb]. rewrite H1, H2, H3, H4.
    split; [done|]. split; [lia|]. split; [done|]. split; [ring|done].
Qed.

Definition is_full (q : ValuationQuality) : Prop := UnpricedCount q = 0.

(** The amount of an accumulator: the subtotal where something is known, the total where
    nothing is unpriced. *)
Lemma acc_amount_published a cur signed out : acc_amount a cur signed = Ok out →
  uncertain' a = false → 0 <= ValuedCount (quality a) → 0 <= UnpricedCount (quality a) →
  IncludedCount (quality a) = ValuedCount (quality a) + UnpricedCount (quality a) →
  IncludedCount (Quality out) = IncludedCount (quality a) ∧ ValuedCount (Quality out) = ValuedCount (quality a) ∧
  UnpricedCount (Quality out) = UnpricedCount (quality a) ∧
  (if (0 <? ValuedCount (quality a)) || (IncludedCount (quality a) =? 0)
   then ∃ view, KnownSubtotal out = Some view ∧ acc_view (acc_sum a) cur signed = Ok view else KnownSubtotal out = None) ∧
  va_Total out = (if UnpricedCount (quality a) =? 0 then KnownSubtotal out else None) ∧
  (Availability (Quality out) = ValuationFull ↔ UnpricedCount (quality a) = 0).
Proof.
  intros Hok Hu Hv Hup Hi. unfold acc_amount in Hok. rewrite Hu in Hok. cbv zeta in Hok. cbn [andb] in Hok.
  destruct (published (quality a)) as [av cov] eqn:Ep.
  assert (Hav : av = ValuationFull ↔ UnpricedCount (quality a) = 0).
  { unfold published in Ep. destruct (Z.ltb_spec 0 (UnpricedCount (quality a)));
      destruct (Z.ltb_spec 0 (IncludedCount (quality a))); destruct (Z.eqb_spec (ValuedCount (quality a)) 0);
      cbn [andb] in Ep; injection Ep as <- _; split; intros E; try done; lia. }
  cbn [IncludedCount ValuedCount] in Hok.
  destruct ((0 <? ValuedCount (quality a)) || (IncludedCount (quality a) =? 0)) eqn:Eb.
  - apply bind_Ok in Hok as (view & Hview & Hok). injection Hok as <-. cbn [Quality va_Total KnownSubtotal IncludedCount ValuedCount UnpricedCount Availability].
    split; [done|]. split; [done|]. split; [done|]. split; [by exists view|]. split; [|done].
    destruct (Z.eqb_spec (UnpricedCount (quality a)) 0) as [E|E].
    + by rewrite bool_decide_eq_true_2 by by apply Hav.
    + rewrite bool_decide_eq_false_2; [done|]. by rewrite Hav.
  - injection Hok as <-. cbn [Quality va_Total KnownSubtotal IncludedCount ValuedCount UnpricedCount Availability].
    split; [done|]. split; [done|]. split; [done|]. split; [done|]. split; [|exact Hav]. by destruct (UnpricedCount (quality a) =? 0).
Qed.

(** ** The household *)

(** The components of the accounts of net worth on one side of the balance sheet. *)
Definition side_components (liabilities : bool) (accounts : list AccountValuation) : list ValuationComponent :=
  List.filter (λ a, AccountEligibleForNetWorth (val_Account a) && Bool.eqb (IsLiability (val_Account a)) liabilities) accounts
    ≫= val_Components.

Definition both_counted (accounts : list AccountValuation) (st : displayAccumulator * displayAccumulator) : Prop :=
  counted (side_components false accounts) st.1 ∧ counted (side_components true accounts) st.2.

Lemma side_snoc liabilities accounts a : side_components liabilities (accounts ++ [a]) =
  side_components liabilities accounts ++
  (if AccountEligibleForNetWorth (val_Account a) && Bool.eqb (IsLiability (val_Account a)) liabilities then val_Components a else []).
Proof.
  unfold side_components. rewrite List.filter_app, bind_app. f_equal. cbn [List.filter].
  destruct (_ && _); [|done]. cbn. by rewrite app_nil_r.
Qed.

Lemma display_account_counted today accounts a st st' : display_account today st a = Ok st' →
  both_counted accounts st → both_counted (accounts ++ [a]) st'.
Proof.
  unfold display_account, both_counted. rewrite !side_snoc. intros Hok Hc.
  destruct (AccountEligibleForNetWorth (val_Account a)); cbn [negb andb] in *; [|injection Hok as <-; by rewrite !app_nil_r].
  destruct (IsLiability (val_Account a)); cbn [Bool.eqb]; rewrite app_nil_r.
  - apply (foldM_inv _ (λ done st, counted (side_components false accounts) st.1 ∧ counted (side_components true accounts ++ done) st.2)) in Hok;
      [done| |by rewrite app_nil_r].
    intros pre [x y] c s' [H1 H2] _ Hs. apply bind_Ok in Hs as (l & Hl & Hs). injection Hs as <-. split; [done|].
    rewrite app_assoc. by apply (acc_add_counted _ _ _ _ _ _ Hl).
  - apply (foldM_inv _ (λ done st, counted (side_components false accounts ++ done) st.1 ∧ counted (side_components true accounts) st.2)) in Hok;
      [done| |by rewrite app_nil_r].
    intros pre [x y] c s' [H1 H2] _ Hs. apply bind_Ok in Hs as (l & Hl & Hs). injection Hs as <-. split; [|done].
    rewrite app_assoc. by apply (acc_add_counted _ _ _ _ _ _ Hl).
Qed.

(** The text of [x] rounded to money, with the currency as it was asked for. *)
Definition shown_amount (x : Q) (cur : CurrencyCode) (view : MoneyView) : Prop :=
  ∃ m, Money_ok m ∧ munits m = round_half_even (x * p10 4) ∧ view = mkView (CanonicalAmount m) cur.

Lemma acc_view_unsigned sum cur view x : acc_view sum cur false = Ok view → (dval sum == x)%Q → shown_amount x cur view.
Proof.
  unfold acc_view. intros Hv Hx. apply bind_Ok in Hv as (m & Hm & Hv). injection Hv as <-.
  destruct (NewMoney_same _ _ _ x Hm) as (H1 & _ & H3); [unfold same_money; by rewrite Hx|]. by exists m.
Qed.

(** One published amount over the components [cs]. *)
Definition publishes (cs : list ValuationComponent) (cur : CurrencyCode) (out : ValuationAmount) : Prop :=
  IncludedCount (Quality out) = Z.of_nat (List.length cs) ∧ ValuedCount (Quality out) = how_many priced cs ∧
  IncludedCount (Quality out) = ValuedCount (Quality out) + UnpricedCount (Quality out) ∧
  (match KnownSubtotal out with
   | Some view => shown_amount (sumQ priced_value cs) cur view
   | None => cs ≠ [] ∧ Forall (λ c, priced c = false) cs
   end) ∧
  va_Total out = (if forallb priced cs then KnownSubtotal out else None).

Lemma how_many_none f cs : how_many f cs = 0 → Forall (λ c, f c = false) cs.
Proof.
  induction cs as [|c cs IH]; [constructor|]. unfold how_many. rewrite sumZ_cons. fold (how_many f cs). pose proof (how_many_range f cs).
  destruct (f c) eqn:E; [lia|]. intros H0. constructor; [done|]. apply IH. lia.
Qed.

Lemma all_priced cs : (how_many (λ c, negb (priced c)) cs =? 0) = forallb priced cs.
Proof.
  induction cs as [|c cs IH]; [done|]. cbn [forallb]. rewrite <-IH. unfold how_many. rewrite sumZ_cons. fold (how_many (λ c, negb (priced c)) cs).
  pose proof (how_many_range (λ c, negb (priced c)) cs). destruct (priced c); cbn [negb andb]; [done|]. apply Z.eqb_neq. lia.
Qed.

Lemma counted_publishes cs a cur out : counted cs a → acc_amount a cur false = Ok out → publishes cs cur out.
Proof.
  intros (H1 & H2 & H3 & H4 & H5) Hok. pose proof (how_many_split priced cs) as Hs.
  pose proof (how_many_range priced cs) as Hr1. pose proof (how_many_range (λ c, negb (priced c)) cs) as Hr2.
  destruct (acc_amount_published _ _ _ _ Hok H5) as (P1 & P2 & P3 & P4 & P5 & _); [rewrite ?H1, ?H2, ?H3; lia..|].
  rewrite H1, H2, H3 in *. unfold publishes. rewrite P1, P2, P3, all_priced in *. split; [done|]. split; [done|]. split; [lia|]. split; [|done].
  destruct (Z.ltb_spec 0 (how_many priced cs)) as [Hv|Hv]; cbn [orb] in P4.
  - destruct P4 as (view & -> & Hview). by apply (acc_view_unsigned _ _ _ _ Hview).
  - destruct (Z.eqb_spec (Z.of_nat (List.length cs)) 0) as [Hl|Hl].
    + destruct P4 as (view & -> & Hview). by apply (acc_view_unsigned _ _ _ _ Hview).
    + rewrite P4. split; [by intros ->|]. apply how_many_none. lia.
Qed.

Lemma acc_view_signed sum cur view : acc_view sum cur true = Ok view →
  ∃ m, view = mkView (dString (s_amount m)) cur ∧ sm_units m = round_half_even (dval sum * p10 4).
Proof.
  unfold acc_view. intros Hv. apply bind_Ok in Hv as (m & Hm & Hv). injection Hv as <-. exists m. split; [done|].
  by apply NewSignedMoney_units in Hm.
Qed.

(** Claim C9.  In the household overview every component of an account of net worth counts
    once, as valued or as unpriced, among the assets or the liabilities; the known subtotal of a
    side is the sum of its valued components rounded once, and absent only when there are
    components and none is valued; it is the total exactly when none is unpriced.  Net worth
    has the counts of both sides, publishes a total exactly when both sides do, and its known
    subtotal is the difference of the exact sums rounded once, negative amounts included. *)
Theorem currentHouseholdDisplay_correct accounts today base d :
  currentHouseholdDisplay accounts today base = Ok d →
  let assets := side_components false accounts in let debts := side_components true accounts in
  publishes assets base (Assets d) ∧ publishes debts base (Liabilities d) ∧
  IncludedCount (Quality (NetWorth d)) = Z.of_nat (List.length assets) + Z.of_nat (List.length debts) ∧
  ValuedCount (Quality (NetWorth d)) = how_many priced assets + how_many priced debts ∧
  va_Total (NetWorth d) = (if forallb priced (assets ++ debts) then KnownSubtotal (NetWorth d) else None) ∧
  (va_Total (NetWorth d) ≠ None ↔ va_Total (Assets d) ≠ None ∧ va_Total (Liabilities d) ≠ None) ∧
  (∀ view, KnownSubtotal (NetWorth d) = Some view →
     ∃ m, view = mkView (dString (s_amount m)) base ∧
          sm_units m = round_half_even ((sumQ priced_value assets - sumQ priced_value debts) * p10 4)).
Proof.
  intros Hok assets debts. unfold currentHouseholdDisplay in Hok. apply bind_Ok in Hok as ([a l] & Hst & Hok).
  apply (foldM_inv _ both_counted) in Hst; [|intros; by eapply display_account_counted|by split; apply counted_empty].
  destruct Hst as [Ha Hl]. fold assets in Ha. fold debts in Hl. cbn [fst snd] in Ha, Hl.
  unfold householdDisplay in Hok. apply bind_Ok in Hok as (oa & Hoa & Hok). apply bind_Ok in Hok as (ol & Hol & Hok).
  apply bind_Ok in Hok as (net & Hnet & Hok). injection Hok as <-. cbn [Assets Liabilities NetWorth].
  pose proof (counted_publishes _ _ _ _ Ha Hoa) as Pa. pose proof (counted_publishes _ _ _ _ Hl Hol) as Pl.
  split; [done|]. split; [done|].
  destruct Ha as (A1 & A2 & A3 & A4 & A5), Hl as (L1 & L2 & L3 & L4 & L5).
  pose proof (how_many_range priced assets). pose proof (how_many_range (λ c, negb (priced c)) assets).
  pose proof (how_many_range priced debts). pose proof (how_many_range (λ c, negb (priced c)) debts).
  pose proof (how_many_split priced assets) as Sa. pose proof (how_many_split priced debts) as Sl.
  destruct (acc_amount_published _ _ _ _ Hnet) as (N1 & N2 & N3 & N4 & N5 & _);
    unfold net_accumulator in *; cbn [uncertain' quality acc_sum IncludedCount ValuedCount UnpricedCount] in *; rewrite ?A1, ?A2, ?A3, ?L1, ?L2, ?L3 in *;
    [by rewrite A5, L5|lia..|].
  assert (Hfull : (how_many (λ c, negb (priced c)) assets + how_many (λ c, negb (priced c)) debts =? 0) = forallb priced (assets ++ debts)).
  { rewrite forallb_app, <-!all_priced. destruct (Z.eqb_spec (how_many (λ c, negb (priced c)) assets) 0) as [->|]; cbn [andb].
    - by rewrite Z.add_0_l.
    - apply Z.eqb_neq. lia. }
  rewrite Hfull in N5. split; [done|]. split; [done|]. split; [done|]. split.
  - destruct Pa as (_ & _ & _ & Ka & ->), Pl as (_ & _ & _ & Kl & ->). rewrite N5, forallb_app.
    assert (Hknown : ∀ (cs : list ValuationComponent) out,
      match KnownSubtotal out with Some view => shown_amount (sumQ priced_value cs) base view | None => cs ≠ [] ∧ Forall (λ c, priced c = false) cs end →
      forallb priced cs = true → KnownSubtotal out ≠ None).
    { intros cs out Hk Hp. destruct (KnownSubtotal out); [done|]. destruct Hk as [Hne Hf]. destruct cs as [|c cs]; [done|].
      apply Forall_cons in Hf as [Hf _]. cbn in Hp. by rewrite Hf in Hp. }
    pose proof (Hknown assets oa Ka) as Ya. pose proof (Hknown debts ol Kl) as Yl.
    destruct (forallb priced assets) eqn:Ea, (forallb priced debts) eqn:El; cbn [andb]; try (split; [by intros []|by intros []]).
    split; [intros _; split; auto|intros _].
    rewrite <-all_priced in Ea, El. apply Z.eqb_eq in Ea, El.
    destruct ((0 <? _) || _) eqn:Eb in N4; [by destruct N4 as (view & -> & _)|exfalso].
    apply orb_false_iff in Eb as [E1 E2]. apply Z.ltb_ge in E1. apply Z.eqb_neq in E2. lia.
  - intros view Hk. destruct ((0 <? _) || _) in N4; [|congruence]. destruct N4 as (view' & Hk' & Hv).
    assert (view' = view) as -> by congruence. destruct (acc_view_signed _ _ _ Hv) as (m & -> & Hm). exists m. split; [done|].
    by rewrite Hm, dSub_val, A4, L4.
Qed.
End DisplayLaws.
