(* ===== verification/AccountPage.v ===== *)
(** * The account page

    [account_composition.go] and [account_display_value.go] of the application, with the records of
    [domain/account_composition.go]: the composition of an account by type and by position, with
    shares of the whole, and the value of an account in its own currency; and the theorems on them:
    the two partitions of an account, by type and by position, and the slices of the second have the
    same total, and the same hundred percent. *)

From S2P Require Export ValuationShares.
From S2P Require Import Portfolio Accounts Fx DecimalModel Ordering.
From Stdlib Require Import String Ascii.

#[global] Open Scope Z_scope.

Inductive CompositionStatus := StatusReady | StatusPartial | StatusEmpty | StatusUnavailable | StatusInvalid | StatusUnsupported.
#[export] Instance CompositionStatus_eq_dec : EqDecision CompositionStatus.
Proof. solve_decision. Defined.

Record AccountCompositionItem := mkCompositionItem {
  ci_Key : string; TypeKey : string; ci_Label : string; IdentityLabel : string; DetailRefs : list string;
  ci_BaseAmount : option MoneyView; ci_BaseAmountExact : string; ci_ShareBPS : Z; ci_NativeAmount : string;
  ci_NativeCurrency : CurrencyCode; ci_ValuedCount : Z; ci_MissingCount : Z }.

Record AccountComposition := mkComposition {
  co_Currency : CurrencyCode; co_TotalExact : string; co_Complete : bool; co_Status : CompositionStatus;
  co_ValuedCount : Z; co_MissingCount : Z; Types : list AccountCompositionItem; Details : list AccountCompositionItem;
  DetailSlices : list AccountCompositionItem }.

Record AccountDisplayValue := mkDisplayValue {
  dv_Currency : CurrencyCode; dv_Value : option MoneyView; dv_TotalExact : string; dv_Complete : bool; dv_ValuedCount : Z;
  dv_MissingCount : Z; dv_MissingInputs : list MissingInputView; dv_FXEvidence : list QuoteEvidenceView }.

Section Composition.
Context `{HD : DecimalAPI} `{HM : MetalEvidence} `{TZ : TimeZones}.

Definition accountCompositionRemainderKey : string := "account-composition:remainder".
Definition accountCompositionDetailLimit : nat := 10.

(** An error of [decimal.NewFromString] is dropped: the amount is zero. *)
Definition text_amount (s : string) : Decimal := match dNewFromString s with Some d => d | None => dZero end.
Definition has_amount (i : AccountCompositionItem) : bool := negb (bool_decide (ci_BaseAmountExact i = ""%string)).

(** [Instrument.SelectionLabel] *)
Definition i_SelectionLabel (i : Instrument) : string :=
  InstrumentSelectionLabel (i_Name i) (stringPointerValue (Symbol i)) (i_ShortName i)
    [stringPointerValue (MarketCode i); i_QuoteCurrency i; stringPointerValue (ISIN i); QuantityUnit i; stringPointerValue (ProviderKey i);
     stringPointerValue (ProviderSymbol i)].

(** ** Items *)

(** The key of a component and the type it counts in. *)
Definition component_key (c : ValuationComponent) : string :=
  match vc_InstrumentID c, vc_HoldingID c with
  | None, _ => "account-composition:cash:" +:+ vc_NativeCurrency c
  | Some _, Some h => "account-composition:holding:" +:+ h
  | Some i, None => "account-composition:instrument:" +:+ i
  end.

Definition type_key (instruments : gmap InstrumentID Instrument) (c : ValuationComponent) : string :=
  match vc_InstrumentID c with
  | None => "cash"
  | Some id => match instruments !! id with Some i => InstrumentType_String (i_Type i) | None => "unknown" end
  end.

Definition item_label (c : ValuationComponent) : string :=
  match vc_InstrumentID c with
  | None => vc_NativeCurrency c
  | Some id =>
    let label := InstrumentDisplayLabel (vc_InstrumentName c) (vc_InstrumentSymbol c) (Some (vc_InstrumentShortName c)) in
    if bool_decide (label = ""%string) then id else label
  end.

Definition identity_label (instruments : gmap InstrumentID Instrument) (c : ValuationComponent) : string :=
  match vc_InstrumentID c ≫= λ id, instruments !! id with Some i => i_SelectionLabel i | None => "" end.

(** The item of a component; [None] is an amount that is not available. *)
Definition composition_item (instruments : gmap InstrumentID Instrument) (c : ValuationComponent) (amount : option Decimal)
    : AccountCompositionItem :=
  mkCompositionItem (component_key c) (type_key instruments c) (item_label c) (identity_label instruments c) [component_key c]
    (match amount with Some _ => vc_BaseAmount c | None => None end) (match amount with Some a => dString a | None => "" end) 0
    (vc_NativeAmount c) (vc_NativeCurrency c) (match amount with Some _ => 1 | None => 0 end) (match amount with Some _ => 0 | None => 1 end).

Definition addCompositionItem (group item : AccountCompositionItem) : AccountCompositionItem :=
  mkCompositionItem (ci_Key group) (TypeKey group) (ci_Label group) (IdentityLabel group) (DetailRefs group ++ DetailRefs item)
    (ci_BaseAmount group)
    (if has_amount item
     then dString (dAdd (if has_amount group then text_amount (ci_BaseAmountExact group) else dZero) (text_amount (ci_BaseAmountExact item)))
     else ci_BaseAmountExact group)
    (ci_ShareBPS group + ci_ShareBPS item) (ci_NativeAmount group) (ci_NativeCurrency group)
    (ci_ValuedCount group + ci_ValuedCount item) (ci_MissingCount group + ci_MissingCount item).

Definition empty_item (key typeKey label : string) : AccountCompositionItem := mkCompositionItem key typeKey label "" [] None "" 0 "" "" 0 0.
Definition type_group (typeKey : string) : AccountCompositionItem := empty_item ("account-composition:type:" +:+ typeKey) typeKey typeKey.

(** ** The loop over the components *)

Record compositionState := mkCompositionState {
  cs_total : Decimal; cs_invalid : bool; cs_valued : Z; cs_missing : Z; cs_details : list AccountCompositionItem;
  cs_groups : gmap string AccountCompositionItem }.

Definition invalid_amount : goerror := domainErr ErrIntegrity "amount" "stored valuation amount is invalid".
Definition available_amount (c : ValuationComponent) : Result (option Decimal) :=
  if vc_Available c && negb (bool_decide (vc_BaseAmountExact c = ""%string)) then
    match dNewFromString (vc_BaseAmountExact c) with None => Fail invalid_amount | Some amount => Ok (Some amount) end
  else Ok None.

Definition composition_step (instruments : gmap InstrumentID Instrument) (st : compositionState) (c : ValuationComponent)
    : Result compositionState :=
  amount ← available_amount c;
  let item := composition_item instruments c amount in
  let group := default (type_group (TypeKey item)) (cs_groups st !! TypeKey item) in
  Ok (mkCompositionState
        (match amount with Some a => dAdd (cs_total st) a | None => cs_total st end)
        (cs_invalid st || match amount with Some a => dIsNegative a | None => false end)
        (cs_valued st + ci_ValuedCount item) (cs_missing st + ci_MissingCount item)
        (cs_details st ++ [item]) (<[TypeKey item := addCompositionItem group item]> (cs_groups st))).

(** ** Order, shares and slices *)

Definition composition_less (left right : AccountCompositionItem) : bool :=
  if negb (Bool.eqb (has_amount left) (has_amount right)) then has_amount left
  else
    let l := text_amount (ci_BaseAmountExact left) in
    let r := text_amount (ci_BaseAmountExact right) in
    if negb (dEqual l r) then dGreaterThan l r else String.ltb (ci_Key left) (ci_Key right).
(** The keys of rows are different, so that stability does not matter. *)
Definition sortCompositionItems : list AccountCompositionItem → list AccountCompositionItem := stable_sort composition_less.

Definition sort_refs (i : AccountCompositionItem) : AccountCompositionItem :=
  mkCompositionItem (ci_Key i) (TypeKey i) (ci_Label i) (IdentityLabel i) (stable_sort String.ltb (DetailRefs i)) (ci_BaseAmount i)
    (ci_BaseAmountExact i) (ci_ShareBPS i) (ci_NativeAmount i) (ci_NativeCurrency i) (ci_ValuedCount i) (ci_MissingCount i).

Definition with_share (share : Z) (i : AccountCompositionItem) : AccountCompositionItem :=
  mkCompositionItem (ci_Key i) (TypeKey i) (ci_Label i) (IdentityLabel i) (DetailRefs i) (ci_BaseAmount i)
    (ci_BaseAmountExact i) share (ci_NativeAmount i) (ci_NativeCurrency i) (ci_ValuedCount i) (ci_MissingCount i).

(** The values of the rows that have an amount; a later row of the same key replaces an earlier one. *)
Definition row_values (rows : list AccountCompositionItem) : gmap string Decimal :=
  (λ i, text_amount (ci_BaseAmountExact i)) <$> index_last ci_Key (List.filter has_amount rows).

Definition allocate_rows (total : Decimal) (cur : CurrencyCode) (rows : list AccountCompositionItem) : Result (list AccountCompositionItem) :=
  allocations ← makeAllocations (row_values rows) ∅ total cur;
  let shares := index_last al_Key allocations in
  Ok ((λ i, with_share (match shares !! ci_Key i with Some a => al_ShareBPS a | None => 0 end) i) <$> rows).

(** The ten greatest positions, and one row for the rest. *)
Definition detail_slices (details : list AccountCompositionItem) : list AccountCompositionItem :=
  if (accountCompositionDetailLimit <? List.length details)%nat
  then take accountCompositionDetailLimit details ++
         [fold_left addCompositionItem (drop accountCompositionDetailLimit details) (empty_item accountCompositionRemainderKey "" "")]
  else details.

Definition with_money (cur : CurrencyCode) (i : AccountCompositionItem) : Result AccountCompositionItem :=
  if negb (has_amount i) then Ok i
  else
    signed ← NewSignedMoney (text_amount (ci_BaseAmountExact i)) cur;
    Ok (mkCompositionItem (ci_Key i) (TypeKey i) (ci_Label i) (IdentityLabel i) (DetailRefs i)
          (Some (mkView (dString (s_amount signed)) (s_currency signed)))
          (ci_BaseAmountExact i) (ci_ShareBPS i) (ci_NativeAmount i) (ci_NativeCurrency i) (ci_ValuedCount i) (ci_MissingCount i)).

Definition composition_status (st : compositionState) : CompositionStatus :=
  if cs_invalid st then StatusInvalid
  else if (cs_valued st =? 0) && (0 <? cs_missing st) then StatusUnavailable
  else if dIsPositive (cs_total st) && (0 <? cs_missing st) then StatusPartial
  else if dIsPositive (cs_total st) then StatusReady else StatusEmpty.

(** [visit] is the order in which the map of groups is read. *)
Definition projectAccountComposition (visit : gmap string AccountCompositionItem → list AccountCompositionItem) (account : AccountValuation)
    (instruments : gmap InstrumentID Instrument) (cur : CurrencyCode) : Result AccountComposition :=
  if IsLiability (val_Account account) || negb (bool_decide (TrackingMode' (val_Account account) = TrackingHoldings))
  then Ok (mkComposition cur "" (val_Complete account) StatusUnsupported 0 0 [] [] [])
  else
    st ← foldM (composition_step instruments) (mkCompositionState dZero false 0 0 [] ∅) (val_Components account);
    let types := sortCompositionItems (sort_refs <$> visit (cs_groups st)) in
    let details := sortCompositionItems (cs_details st) in
    let shared := negb (cs_invalid st) && dIsPositive (cs_total st) in
    types ← (if shared then allocate_rows (cs_total st) cur types else Ok types);
    details ← (if shared then allocate_rows (cs_total st) cur details else Ok details);
    let slices := detail_slices details in
    types ← mapM (with_money cur) types;
    details ← mapM (with_money cur) details;
    slices ← mapM (with_money cur) slices;
    Ok (mkComposition cur (if 0 <? cs_valued st then dString (cs_total st) else "") (val_Complete account && (cs_missing st =? 0))
          (composition_status st) (cs_valued st) (cs_missing st) types details slices).

(** ** The value in the currency of the account *)

Section Display.
Variables (v : ValuationService) (household : Household) (snapshot : PortfolioSnapshot).

(** An amount with its evidence, or the input that is missing. *)
Definition convertAccountDisplay (accountID : AccountID) (native : Decimal) (from to : CurrencyCode)
    : Result (Decimal * list QuoteEvidenceView + MissingInputView) :=
  if dIsZero native || bool_decide (from = to) then Ok (inl (native, []))
  else
    direct ← convertTo v household snapshot accountID native from to;
    match direct with
    | inl (amount, evidence) => Ok (inl (amount, option_list evidence))
    | inr missing =>
      let base := h_BaseCurrency household in
      if bool_decide (from = base) || bool_decide (to = base) || negb (is_none (findFXPreference (ps_FXPreferences snapshot) from to))
      then Ok (inr missing)
      else
        let firstQuote := selectFXQuoteTo v household snapshot (ps_FXQuotes snapshot) from base None in
        first ← convertUsingFXQuote v household snapshot accountID native from base firstQuote;
        match first with
        | inr missing => Ok (inr missing)
        | inl (_, firstEvidence) =>
          let secondQuote := selectFXQuoteTo v household snapshot (ps_FXQuotes snapshot) base to None in
          second ← convertUsingFXQuote v household snapshot accountID dZero base to secondQuote;
          match second, firstQuote, secondQuote with
          | inr missing, _, _ => Ok (inr missing)
          | inl (_, secondEvidence), Some q1, Some q2 =>
            converted ← ConvertFXAmountViaQuotes native from base to q1 q2;
            Ok (inl (converted, option_list firstEvidence ++ option_list secondEvidence))
          | _, _, _ => Ok (inr missing)
          end
        end
    end.

Record displayState := mkDisplayState {
  ds_total : Decimal; ds_valued : Z; ds_missing : Z; ds_inputs : list MissingInputView; ds_evidence : list QuoteEvidenceView }.

Definition invalid_native : goerror := domainErr ErrIntegrity "amount" "stored native valuation amount is invalid".

Definition for_instrument (id : option InstrumentID) (m : MissingInputView) : MissingInputView :=
  mkMissing (mi_Kind m) (mi_AccountID m) (mi_AccountName m) id (mi_InstrumentName m) (mi_InstrumentShortName m) (mi_InstrumentSymbol m)
    (mi_QuoteSource m) (mi_BaseCurrency m) (mi_QuoteCurrency m).

(** Evidence of an observation is kept once. *)
Definition add_evidence (seen : list QuoteEvidenceView) (e : QuoteEvidenceView) : list QuoteEvidenceView :=
  if existsb (λ x, bool_decide (ev_ObservationID x = ev_ObservationID e)) seen then seen else seen ++ [e].

Definition display_step (account : AccountValuation) (st : displayState) (c : ValuationComponent) : Result displayState :=
  if bool_decide (vc_NativeAmount c = ""%string) then
    Ok (mkDisplayState (ds_total st) (ds_valued st) (ds_missing st + 1)
          (ds_inputs st ++ List.filter (λ m, bool_decide (mi_InstrumentID m = vc_InstrumentID c)) (val_MissingInputs account)) (ds_evidence st))
  else match dNewFromString (vc_NativeAmount c) with
  | None => Fail invalid_native
  | Some native =>
    converted ← convertAccountDisplay (ID (val_Account account)) native (vc_NativeCurrency c) (DefaultCurrency (val_Account account));
    Ok match converted with
    | inr missing =>
      mkDisplayState (ds_total st) (ds_valued st) (ds_missing st + 1) (ds_inputs st ++ [for_instrument (vc_InstrumentID c) missing]) (ds_evidence st)
    | inl (amount, evidence) =>
      mkDisplayState (dAdd (ds_total st) amount) (ds_valued st + 1) (ds_missing st) (ds_inputs st) (fold_left add_evidence evidence (ds_evidence st))
    end
  end.

Definition projectAccountDisplayValue (account : AccountValuation) : Result AccountDisplayValue :=
  st ← foldM (display_step account) (mkDisplayState dZero 0 0 [] []) (val_Components account);
  let cur := DefaultCurrency (val_Account account) in
  let complete := ds_missing st =? 0 in
  let shown := (0 <? ds_valued st) || complete in
  value ← (if shown then view ← moneyView (ds_total st) cur; Ok (Some view) else Ok None);
  Ok (mkDisplayValue cur value (if shown then dString (ds_total st) else "") complete (ds_valued st) (ds_missing st)
        (deduplicateMissing (sortMissing (ds_inputs st))) (ds_evidence st)).
End Display.

(** ** The accounts of the page *)

Record accountPage := mkAccountPage { ap_account : AccountValuation; ap_Composition : option AccountComposition; ap_DisplayValue : option AccountDisplayValue }.

Definition ValueAccountCompositions (v : ValuationService) (visit : gmap string AccountCompositionItem → list AccountCompositionItem)
    (snapshot : PortfolioSnapshot) : Result (list accountPage * list MissingInputView) :=
  '(accounts, missing) ← ValueAccounts v snapshot;
  match ps_Household snapshot with
  | None => Ok ((λ a, mkAccountPage a None None) <$> accounts, missing)
  | Some household =>
    let instruments := compositionInstruments (ps_Instruments snapshot) in
    pages ← mapM (λ account,
      composition ← projectAccountComposition visit account instruments (h_BaseCurrency household);
      display ← projectAccountDisplayValue v household snapshot account;
      Ok (mkAccountPage account (Some composition) (Some display))) accounts;
    Ok (pages, missing)
  end.
End Composition.

Section Laws.
Context `{HD : DecimalAPI} {HL : DecimalLaws} `{HM : MetalEvidence} `{TZ : TimeZones}.

(** ** Values of rows *)

Definition item_value (i : AccountCompositionItem) : Q := if has_amount i then dval (text_amount (ci_BaseAmountExact i)) else 0%Q.
Definition component_value (c : ValuationComponent) : Q :=
  match available_amount c with Ok (Some a) => dval a | _ => 0%Q end.
Definition value_of_type (k : string) (i : AccountCompositionItem) : Q := if bool_decide (TypeKey i = k) then item_value i else 0%Q.

Lemma text_amount_dString d : (dval (text_amount (dString d)) == dval d)%Q.
Proof. destruct (dString_reads d) as (_ & d' & E & H). unfold text_amount. by rewrite E. Qed.

Lemma dString_not_empty d : bool_decide (dString d = ""%string) = false.
Proof. apply bool_decide_eq_false. by destruct (dString_reads d). Qed.

Lemma type_group_value k : (item_value (type_group k) == 0)%Q.
Proof. unfold item_value, has_amount. cbn [ci_BaseAmountExact type_group empty_item]. by rewrite bool_decide_eq_true_2. Qed.

Lemma composition_item_value instruments c a : available_amount c = Ok a → (item_value (composition_item instruments c a) == component_value c)%Q.
Proof.
  intros Ha. unfold item_value, component_value, has_amount, composition_item. rewrite Ha. cbn [ci_BaseAmountExact].
  destruct a as [d|]; [|done]. rewrite dString_not_empty. apply text_amount_dString.
Qed.

Lemma add_item_value g i : (item_value (addCompositionItem g i) == item_value g + item_value i)%Q.
Proof.
  unfold item_value. unfold has_amount at 1. unfold addCompositionItem. cbn [ci_BaseAmountExact]. destruct (has_amount i).
  - rewrite dString_not_empty. cbn [negb]. rewrite text_amount_dString, dAdd_val. destruct (has_amount g); rewrite ?dval_dzero; ring.
  - fold (has_amount g). destruct (has_amount g); ring.
Qed.

Lemma fold_items_value l g : (item_value (fold_left addCompositionItem l g) == item_value g + sumQ item_value l)%Q.
Proof.
  revert g. induction l as [|i l IH]; intros g; cbn [fold_left]; [cbn; ring|]. rewrite IH, add_item_value, sumQ_cons. ring.
Qed.

Lemma fold_items_share l g : ci_ShareBPS (fold_left addCompositionItem l g) = ci_ShareBPS g + sumZ ci_ShareBPS l.
Proof. revert g. induction l as [|i l IH]; intros g; cbn [fold_left]; [cbn; lia|]. rewrite IH, sumZ_cons. cbn. lia. Qed.

(** ** Sums over the values of a map *)

Definition map_sum (m : gmap string AccountCompositionItem) : Q := sumQ item_value (map_to_list m).*2.

Lemma map_sum_insert m k g g' x : (item_value g == match m !! k with Some y => item_value y | None => 0 end)%Q →
  (item_value g' == item_value g + x)%Q → (map_sum (<[k := g']> m) == map_sum m + x)%Q.
Proof.
  assert (∀ m, m !! k = None → ∀ z, (map_sum (<[k := z]> m) == item_value z + map_sum m)%Q) as Hnew.
  { intros m' Hk z. unfold map_sum. rewrite (sumQ_perm _ _ _ (fmap_Permutation snd _ _ (map_to_list_insert _ _ z Hk))), fmap_cons. apply sumQ_cons. }
  intros Hg Hg'. destruct (m !! k) as [y|] eqn:E.
  - rewrite <-insert_delete_eq, Hnew by apply lookup_delete_eq. rewrite <-(insert_id m k y E) at 2. rewrite <-insert_delete_eq, Hnew by apply lookup_delete_eq.
    rewrite Hg', Hg. ring.
  - rewrite Hnew, Hg', Hg by done. ring.
Qed.

(** ** The loop over the components *)

Record loop_inv (instruments : gmap InstrumentID Instrument) (done_ : list ValuationComponent) (st : compositionState) : Prop := {
  inv_items : Forall2 (λ c i, ∃ a, available_amount c = Ok a ∧ i = composition_item instruments c a) done_ (cs_details st);
  inv_total : (dval (cs_total st) == sumQ component_value done_)%Q;
  inv_groups : (map_sum (cs_groups st) == sumQ item_value (cs_details st))%Q;
  inv_group : ∀ k g, cs_groups st !! k = Some g →
    TypeKey g = k ∧ ci_Key g = ("account-composition:type:" +:+ k)%string ∧ (item_value g == sumQ (value_of_type k) (cs_details st))%Q;
  inv_rest : ∀ k, cs_groups st !! k = None → (sumQ (value_of_type k) (cs_details st) == 0)%Q;
  inv_size : (size (cs_groups st) <= List.length (cs_details st))%nat;
  inv_missing : cs_missing st = Z.of_nat (List.length (List.filter (λ i, negb (has_amount i)) (cs_details st)));
  inv_valid : cs_invalid st = false → ∀ c, c ∈ done_ → (0 <= component_value c)%Q }.

Lemma item_has_amount instruments c a : has_amount (composition_item instruments c a) = negb (is_none a).
Proof. unfold has_amount. cbn. destruct a; [by rewrite dString_not_empty|done]. Qed.

Lemma step_inv instruments done_ st c st' : loop_inv instruments done_ st → composition_step instruments st c = Ok st' →
  loop_inv instruments (done_ ++ [c]) st'.
Proof.
  intros [H1 H2 H3 H4 H5 Hs H6 H7] H. unfold composition_step in H. apply bind_Ok in H as (a & Ha & [= <-]).
  pose proof (composition_item_value instruments c a Ha) as Hi. set (i := composition_item instruments c a) in *.
  set (g := default (type_group (TypeKey i)) (cs_groups st !! TypeKey i)).
  assert (TypeKey g = TypeKey i ∧ ci_Key g = ("account-composition:type:" +:+ TypeKey i)%string ∧
          (item_value g == sumQ (value_of_type (TypeKey i)) (cs_details st))%Q) as (Hg1 & Hg2 & Hg3).
  { unfold g. destruct (cs_groups st !! TypeKey i) as [g0|] eqn:E; [by apply H4|]. split; [done|]. split; [done|].
    cbn [default]. rewrite H5 by done. apply type_group_value. }
  assert (item_value g == match cs_groups st !! TypeKey i with Some y => item_value y | None => 0 end)%Q as HG.
  { unfold g. destruct (cs_groups st !! TypeKey i); cbn [default]; [reflexivity|apply type_group_value]. }
  split; cbn [cs_details cs_total cs_groups cs_missing cs_invalid].
  - apply Forall2_app; [done|]. constructor; [|constructor]. by exists a.
  - rewrite sumQ_snoc, <-H2. unfold component_value. rewrite Ha. destruct a; [by rewrite dAdd_val|ring].
  - rewrite sumQ_snoc, <-H3. apply (map_sum_insert _ _ g); [exact HG|apply add_item_value].
  - intros k x [[<- <-]|[Hne Hx]]%lookup_insert_Some.
    + split; [done|]. split; [done|]. etransitivity; [apply (add_item_value g i)|]. rewrite Hg3, sumQ_snoc. unfold value_of_type at 3. by rewrite bool_decide_eq_true_2.
    + destruct (H4 _ _ Hx) as (? & ? & Hv). split; [done|]. split; [done|]. rewrite sumQ_snoc, Hv. unfold value_of_type at 3.
      rewrite bool_decide_eq_false_2 by done. ring.
  - intros k [Hx Hne]%lookup_insert_None. rewrite sumQ_snoc, H5 by done. unfold value_of_type. rewrite bool_decide_eq_false_2 by done. ring.
  - rewrite map_size_insert, length_app. cbn [List.length]. destruct (cs_groups st !! _); cbn [id]; lia.
  - rewrite List.filter_app, length_app, Nat2Z.inj_add, <-H6. cbn [List.filter]. rewrite (item_has_amount instruments c a : has_amount i = _). by destruct a.
  - intros [Hinv Hneg]%orb_false_iff x [Hx|Hx%list_elem_of_singleton]%elem_of_app; [by apply H7|]. subst x. unfold component_value. rewrite Ha.
    destruct a as [d|]; [|done]. by apply isneg_false.
Qed.

Lemma components_inv instruments components st :
  foldM (composition_step instruments) (mkCompositionState dZero false 0 0 [] ∅) components = Ok st → loop_inv instruments components st.
Proof.
  apply (foldM_inv _ (loop_inv instruments)); [intros done_ s c s' Hs _; by apply step_inv|]. split; cbn.
  - constructor.
  - by rewrite dval_dzero.
  - unfold map_sum. by rewrite map_to_list_empty.
  - intros k g Hk. by rewrite lookup_empty in Hk.
  - done.
  - by rewrite map_size_empty.
  - done.
  - by intros _ c Hc%elem_of_nil.
Qed.

(** ** Shares *)

Lemma sumZ_filtered {A} (f : A → bool) (g : A → Z) l : (∀ x, x ∈ l → f x = false → g x = 0) → sumZ g l = sumZ g (List.filter f l).
Proof.
  induction l as [|x l IH]; intros H; [done|]. rewrite sumZ_cons, IH by (intros; apply H; [by right|done]). cbn [List.filter].
  destruct (f x) eqn:E; [by rewrite sumZ_cons|]. rewrite (H x) by (done || by left). lia.
Qed.

Lemma valued_filtered l : (sumQ item_value (List.filter has_amount l) == sumQ item_value l)%Q.
Proof.
  induction l as [|x l IH]; [done|]. rewrite sumQ_cons, <-IH. cbn [List.filter]. destruct (has_amount x) eqn:E; [apply sumQ_cons|].
  unfold item_value at 2. rewrite E. ring.
Qed.

Lemma row_values_keys rows : NoDup (ci_Key <$> rows) → (map_to_list (row_values rows)).*1 ≡ₚ ci_Key <$> List.filter has_amount rows.
Proof.
  intros Hn. unfold row_values. rewrite map_to_list_fmap, <-list_fmap_compose.
  rewrite (list_fmap_ext (fst ∘ prod_map id _) fst) by done. rewrite <-index_last_keys.
  apply fmap_Permutation, index_last_values. by apply sublist_keys.
Qed.

Lemma row_values_total rows : NoDup (ci_Key <$> rows) → (allocated_total (row_values rows) == sumQ item_value rows)%Q.
Proof.
  intros Hn. rewrite <-valued_filtered. unfold allocated_total, row_values. rewrite map_to_list_fmap, sumQ_fmap.
  rewrite <-(sumQ_perm _ _ _ (index_last_values ci_Key _ (sublist_keys has_amount ci_Key rows Hn))), sumQ_fmap.
  apply sumQ_ext. intros [k i] Hi%elem_of_map_to_list. cbn. apply index_last_Some in Hi as [Hi _].
  apply elem_of_List_filter in Hi as [_ Hi]. unfold item_value. by rewrite Hi.
Qed.

Lemma allocate_rows_shares total cur rows rows' : allocate_rows total cur rows = Ok rows' → ∃ share, rows' = (λ i, with_share (share i) i) <$> rows.
Proof. intros H. unfold allocate_rows in H. apply bind_Ok in H as (views & _ & [= <-]). by eexists. Qed.

Lemma allocate_rows_whole total cur rows rows' : allocate_rows total cur rows = Ok rows' → NoDup (ci_Key <$> rows) →
  (dval total == sumQ item_value rows)%Q → (0 < dval total)%Q → Z.of_nat (List.length rows) < 2 * 10 ^ 16 →
  sumZ ci_ShareBPS rows' = TotalOwnershipBPS.
Proof.
  intros H Hn Htot Hpos Hlen. unfold allocate_rows in H. apply bind_Ok in H as (views & Hviews & [= <-]).
  destruct (allocation_rows _ _ _ _ _ Hviews) as (sorted & Hp & Hkeys & _).
  assert (al_Key <$> views ≡ₚ ci_Key <$> List.filter has_amount rows) as Hk.
  { rewrite Hp, Hkeys, allocation_keys_perm. by apply row_values_keys. }
  assert (NoDup (al_Key <$> views)) as Hnv by (rewrite Hk; by apply sublist_keys).
  assert (List.length views <= List.length rows)%nat as Hl.
  { rewrite <-(length_fmap al_Key), Hk, length_fmap. apply List.filter_length_le. }
  rewrite <-(allocations_whole _ _ _ _ _ Hviews) by (rewrite ?row_values_total; (done || lia)).
  set (share := λ k, match index_last al_Key views !! k with Some a => al_ShareBPS a | None => 0 end).
  rewrite sumZ_fmap. change (sumZ (share ∘ ci_Key) rows = sumZ al_ShareBPS views). rewrite (sumZ_filtered has_amount).
  - rewrite <-sumZ_fmap, <-(sumZ_permutation share _ _ Hk), sumZ_fmap. apply sumZ_ext. intros a Ha. unfold share, compose.
    by rewrite index_last_lookup.
  - intros i Hi Hno. unfold compose, share. destruct (index_last al_Key views !! ci_Key i) as [a|] eqn:E; [exfalso|done].
    apply index_last_Some in E as [Ha E]. assert (al_Key a ∈ ci_Key <$> List.filter has_amount rows) as Hin.
    { rewrite <-Hk. by apply list_elem_of_fmap_2. }
    apply list_elem_of_fmap in Hin as (j & Ej & Hj). apply elem_of_List_filter in Hj as [Hj Hyes].
    pose proof (index_last_lookup ci_Key rows i Hn Hi). pose proof (index_last_lookup ci_Key rows j Hn Hj). congruence.
Qed.

(** ** The rows that are shown *)

(** Two rows with the same key, type, exact amount and share. *)
Definition same_item (i j : AccountCompositionItem) : Prop :=
  ci_Key i = ci_Key j ∧ TypeKey i = TypeKey j ∧ ci_BaseAmountExact i = ci_BaseAmountExact j ∧ ci_ShareBPS i = ci_ShareBPS j.

Lemma with_money_same cur i j : with_money cur i = Ok j → same_item i j.
Proof. unfold with_money. intros H. case_match; [by injection H as <-|]. by apply bind_Ok in H as (signed & _ & [= <-]). Qed.

Lemma money_rows cur l k : mapM (with_money cur) l = Ok k → Forall2 same_item l k.
Proof. intros H%mapM_Forall2. eapply Forall2_impl; [exact H|]. intros i j. apply with_money_same. Qed.

Lemma same_value i j : same_item i j → item_value i = item_value j.
Proof. intros (_ & _ & E & _). unfold item_value, has_amount. by rewrite E. Qed.

Lemma same_rows l k : Forall2 same_item l k →
  ci_Key <$> l = ci_Key <$> k ∧ sumZ ci_ShareBPS l = sumZ ci_ShareBPS k ∧ List.length l = List.length k ∧
  ∀ f, (∀ i j, same_item i j → (f i == f j)%Q) → (sumQ f l == sumQ f k)%Q.
Proof.
  induction 1 as [|i j l k Hij _ (IH1 & IH2 & IH3 & IH4)]; [done|]. destruct (Hij) as (E1 & _ & _ & E2).
  rewrite !fmap_cons, !sumZ_cons, IH1, IH2, E1, E2. cbn [List.length]. rewrite IH3. split_and!; [done..|].
  intros f Hf. by rewrite !sumQ_cons, (IH4 f Hf), (Hf _ _ Hij).
Qed.

Lemma detail_slices_share l : sumZ ci_ShareBPS (detail_slices l) = sumZ ci_ShareBPS l.
Proof.
  unfold detail_slices. case_match; [|done]. rewrite sumZ_app, sumZ_single, fold_items_share. cbn [ci_ShareBPS empty_item].
  rewrite Z.add_0_l, <-sumZ_app. f_equal. apply take_drop.
Qed.

Lemma detail_slices_value l : (sumQ item_value (detail_slices l) == sumQ item_value l)%Q.
Proof.
  unfold detail_slices. case_match; [|done]. rewrite sumQ_snoc, fold_items_value.
  assert (∀ k, (item_value (empty_item k "" "") == 0)%Q) as -> by (intros; apply (type_group_value "")).
  rewrite Qplus_0_l, <-sumQ_app, take_drop. reflexivity.
Qed.

Lemma detail_slices_length l : (List.length (detail_slices l) <= S accountCompositionDetailLimit)%nat.
Proof.
  unfold detail_slices. case_match eqn:E; [rewrite length_app, length_take; cbn [List.length]; lia|].
  apply Nat.ltb_ge in E. lia.
Qed.

Lemma loop_types instruments done_ st : loop_inv instruments done_ st →
  NoDup (TypeKey <$> (map_to_list (cs_groups st)).*2) ∧ NoDup (ci_Key <$> (map_to_list (cs_groups st)).*2).
Proof.
  intros H. pose proof (NoDup_fst_map_to_list (cs_groups st)) as Hn.
  assert (∀ f g : _ → string, (∀ k x, cs_groups st !! k = Some x → f x = g k) → f <$> (map_to_list (cs_groups st)).*2 = g <$> (map_to_list (cs_groups st)).*1) as Hf.
  { intros f g Hfg. rewrite <-!list_fmap_compose. apply list_fmap_ext. intros i [k x] Hi%list_elem_of_lookup_2%elem_of_map_to_list. by apply Hfg. }
  rewrite (Hf TypeKey id), (Hf ci_Key (String.append "account-composition:type:")), list_fmap_id; [split; [done|by apply (NoDup_fmap_2 _), Hn]|..];
    intros k x Hx; by destruct (inv_group _ _ _ H k x Hx) as (? & ? & _).
Qed.

Lemma loop_details instruments done_ st : loop_inv instruments done_ st →
  ci_Key <$> cs_details st = component_key <$> done_ ∧ List.length (cs_details st) = List.length done_ ∧
  (sumQ item_value (cs_details st) == sumQ component_value done_)%Q.
Proof.
  intros H. generalize (inv_items _ _ _ H). generalize (cs_details st). clear H.
  induction 1 as [|c i l k (a & Ha & ->) _ (IH1 & IH2 & IH3)]; [done|].
  rewrite !fmap_cons, IH1, !sumQ_cons, IH3, (composition_item_value _ _ _ Ha). cbn [List.length]. by rewrite IH2.
Qed.

Lemma loop_complete instruments done_ st : loop_inv instruments done_ st → cs_missing st <= 0 →
  ∀ c, c ∈ done_ → ∃ a, available_amount c = Ok (Some a).
Proof.
  intros H Hm. rewrite (inv_missing _ _ _ H) in Hm.
  assert (List.filter (λ i, negb (has_amount i)) (cs_details st) = []) as Hf by (apply nil_length_inv; lia).
  intros c [n Hn]%list_elem_of_lookup. destruct (Forall2_lookup_l _ _ _ _ _ (inv_items _ _ _ H) Hn) as (i & Hi & a & Ha & ->).
  destruct a as [a|]; [by exists a|]. exfalso. apply list_elem_of_lookup_2 in Hi.
  assert (composition_item instruments c None ∈ List.filter (λ i, negb (has_amount i)) (cs_details st)) as Hin.
  { apply elem_of_List_filter. by rewrite item_has_amount. }
  rewrite Hf in Hin. by apply elem_of_nil in Hin.
Qed.

Lemma shared_rows (b : bool) total cur rows rows' : (if b then allocate_rows total cur rows else Ok rows) = Ok rows' →
  ∃ share, rows' = (λ i, with_share (share i) i) <$> rows.
Proof.
  destruct b; [apply allocate_rows_shares|]. intros [= ->]. exists ci_ShareBPS. rewrite <-(list_fmap_id rows') at 1. apply list_fmap_ext.
  by intros _ [] _.
Qed.

(** What the projection of a positive account returns. *)
Lemma projection_inv visit account instruments cur r :
  IsLiability (val_Account account) = false → TrackingMode' (val_Account account) = TrackingHoldings →
  projectAccountComposition visit account instruments cur = Ok r →
  ∃ st types details,
    loop_inv instruments (val_Components account) st ∧
    (∃ f, types = (λ i, with_share (f i) i) <$> sortCompositionItems (sort_refs <$> visit (cs_groups st))) ∧
    (∃ f, details = (λ i, with_share (f i) i) <$> sortCompositionItems (cs_details st)) ∧
    Forall2 same_item types (Types r) ∧ Forall2 same_item details (Details r) ∧ Forall2 same_item (detail_slices details) (DetailSlices r) ∧
    co_Status r = composition_status st ∧
    (cs_invalid st = false → dIsPositive (cs_total st) = true →
      allocate_rows (cs_total st) cur (sortCompositionItems (sort_refs <$> visit (cs_groups st))) = Ok types ∧
      allocate_rows (cs_total st) cur (sortCompositionItems (cs_details st)) = Ok details).
Proof.
  intros Hl Ht H. unfold projectAccountComposition in H. rewrite Hl, Ht, bool_decide_eq_true_2 in H by done. cbn [orb negb] in H.
  apply bind_Ok in H as (st & Hst & H). apply bind_Ok in H as (types & Htypes & H). apply bind_Ok in H as (details & Hdetails & H).
  apply bind_Ok in H as (types' & H1 & H). apply bind_Ok in H as (details' & H2 & H). apply bind_Ok in H as (slices' & H3 & [= <-]).
  exists st, types, details. apply components_inv in Hst. apply money_rows in H1, H2, H3.
  split_and!; [done|by eapply shared_rows|by eapply shared_rows|done..|].
  intros Hv Hp. rewrite Hv, Hp in Htypes, Hdetails. done.
Qed.

Lemma status_shared st : composition_status st = StatusReady ∨ composition_status st = StatusPartial →
  cs_invalid st = false ∧ dIsPositive (cs_total st) = true.
Proof. unfold composition_status. destruct (cs_invalid st), (dIsPositive (cs_total st)); repeat case_match; naive_solver. Qed.

Lemma status_ready st : composition_status st = StatusReady → cs_missing st <= 0.
Proof.
  unfold composition_status. destruct (cs_invalid st), (dIsPositive (cs_total st)); repeat case_match; try done.
  cbn in *. intros _. lia.
Qed.

(** Rows that differ in their shares only. *)
Lemma shared_same (f : AccountCompositionItem → Z) l :
  ci_Key <$> ((λ i, with_share (f i) i) <$> l) = ci_Key <$> l ∧ TypeKey <$> ((λ i, with_share (f i) i) <$> l) = TypeKey <$> l ∧
  (∀ g, (∀ i, g (with_share (f i) i) = g i) → (sumQ g ((λ i, with_share (f i) i) <$> l) == sumQ g l)%Q).
Proof.
  rewrite <-!list_fmap_compose. split_and!; [by apply list_fmap_ext..|]. intros g Hg. rewrite sumQ_fmap. apply sumQ_ext.
  intros i _. by rewrite Hg.
Qed.

Lemma sorted_types visit instruments done_ st : (∀ m, visit m ≡ₚ (map_to_list m).*2) → loop_inv instruments done_ st →
  let types := sortCompositionItems (sort_refs <$> visit (cs_groups st)) in
  NoDup (TypeKey <$> types) ∧ NoDup (ci_Key <$> types) ∧ (List.length types <= List.length done_)%nat ∧
  (sumQ item_value types == sumQ component_value done_)%Q ∧
  ∀ t, t ∈ types → (item_value t == sumQ (value_of_type (TypeKey t)) (cs_details st))%Q.
Proof.
  intros Hv H types. destruct (loop_types _ _ _ H) as [Hn1 Hn2]. destruct (loop_details _ _ _ H) as (_ & Hlen & Htot).
  assert (types ≡ₚ sort_refs <$> (map_to_list (cs_groups st)).*2) as Hp.
  { unfold types, sortCompositionItems. by rewrite stable_sort_perm, Hv. }
  rewrite (sumQ_perm _ _ _ Hp), sumQ_fmap, !Hp, <-!list_fmap_compose. split_and!.
  - by rewrite <-list_fmap_compose in Hn1.
  - by rewrite <-list_fmap_compose in Hn2.
  - rewrite length_fmap, length_map_to_list, <-Hlen. apply (inv_size _ _ _ H).
  - rewrite sumQ_fmap, <-Htot, <-(inv_groups _ _ _ H). unfold map_sum. by rewrite sumQ_fmap.
  - intros t. rewrite Hp. intros (i & -> & Hi)%list_elem_of_fmap. apply list_elem_of_fmap in Hi as ([k g] & -> & Hg).
    apply elem_of_map_to_list in Hg. destruct (inv_group _ _ _ H k g Hg) as (E & _ & Hval). cbn. by rewrite E.
Qed.

(** Claim C10.  The composition of an account of holdings has one row for every component and one
    row for every type; a type is worth the sum of its components; the rows by type, the rows by
    component and the at most eleven slices that are shown are worth the same total, the sum of the
    available components.  When the status is ready or partial no component is negative, and each of
    the three lists carries exactly 10,000 basis points; when it is ready every component is
    available. *)
Theorem projectAccountComposition_correct visit account instruments cur r :
  (∀ m, visit m ≡ₚ (map_to_list m).*2) → NoDup (component_key <$> val_Components account) →
  Z.of_nat (List.length (val_Components account)) < 2 * 10 ^ 16 →
  IsLiability (val_Account account) = false → TrackingMode' (val_Account account) = TrackingHoldings →
  projectAccountComposition visit account instruments cur = Ok r →
  let total := sumQ component_value (val_Components account) in
  (ci_Key <$> Details r) ≡ₚ (component_key <$> val_Components account) ∧ NoDup (TypeKey <$> Types r) ∧
  (∀ t, t ∈ Types r → (item_value t == sumQ (value_of_type (TypeKey t)) (Details r))%Q) ∧
  (sumQ item_value (Types r) == total)%Q ∧ (sumQ item_value (Details r) == total)%Q ∧ (sumQ item_value (DetailSlices r) == total)%Q ∧
  (List.length (DetailSlices r) <= S accountCompositionDetailLimit)%nat ∧
  (co_Status r = StatusReady ∨ co_Status r = StatusPartial →
    (∀ c, c ∈ val_Components account → (0 <= component_value c)%Q) ∧
    sumZ ci_ShareBPS (Types r) = TotalOwnershipBPS ∧ sumZ ci_ShareBPS (Details r) = TotalOwnershipBPS ∧
    sumZ ci_ShareBPS (DetailSlices r) = TotalOwnershipBPS) ∧
  (co_Status r = StatusReady → ∀ c, c ∈ val_Components account → ∃ a, available_amount c = Ok (Some a)).
Proof.
  intros Hv Hn Hlen Hl Ht H total.
  destruct (projection_inv _ _ _ _ _ Hl Ht H) as (st & types & details & Hst & [f Ef] & [h Eh] & H1 & H2 & H3 & Hs & Hshare).
  destruct (loop_details _ _ _ Hst) as (Hk & Hlen' & Htot). destruct (sorted_types _ _ _ _ Hv Hst) as (Hn1 & Hn2 & Hlt & Htt & Hval).
  set (T := sortCompositionItems (sort_refs <$> visit (cs_groups st))) in *. set (D := sortCompositionItems (cs_details st)) in *.
  assert (D ≡ₚ cs_details st) as HD' by apply stable_sort_perm.
  destruct (same_rows _ _ H1) as (T1 & T2 & _ & T4). destruct (same_rows _ _ H2) as (D1 & D2 & _ & D4).
  destruct (same_rows _ _ H3) as (_ & S2 & S3 & S4). destruct (shared_same f T) as (F1 & F2 & F3). destruct (shared_same h D) as (G1 & G2 & G3).
  rewrite <-Ef in F1, F2, F3. rewrite <-Eh in G1, G2, G3.
  assert (∀ i j, same_item i j → (item_value i == item_value j)%Q) as Hsame by (intros i j E; by rewrite (same_value _ _ E)).
  assert (sumQ item_value details == total)%Q as HQ by (rewrite (G3 item_value) by done; by rewrite (sumQ_perm _ _ _ HD')).
  split_and!.
  - by rewrite <-D1, G1, HD', Hk.
  - replace (TypeKey <$> Types r) with (TypeKey <$> types) by (by apply list_eq_Forall2, Forall2_fmap, (Forall2_impl _ _ _ _ H1); intros i j (_ & E & _)).
    by rewrite F2.
  - intros t [n Hn']%list_elem_of_lookup. destruct (Forall2_lookup_r _ _ _ _ _ H1 Hn') as (i & Hi & E).
    rewrite <-(Hsame _ _ E). destruct E as (_ & <- & _). rewrite Ef, list_lookup_fmap in Hi. apply fmap_Some in Hi as (j & Hj & ->).
    apply list_elem_of_lookup_2, Hval in Hj. etransitivity; [exact Hj|].
    rewrite <-(D4 (value_of_type _)) by (intros x y Exy; unfold value_of_type; destruct (Exy) as (_ & -> & _); by rewrite (same_value _ _ Exy)).
    rewrite (G3 (value_of_type _)) by done. by rewrite (sumQ_perm _ _ _ HD').
  - rewrite <-(T4 _ Hsame), (F3 item_value) by done. exact Htt.
  - by rewrite <-(D4 _ Hsame).
  - by rewrite <-(S4 _ Hsame), detail_slices_value.
  - rewrite <-S3. apply detail_slices_length.
  - rewrite Hs. intros [Hok Hpos]%status_shared. destruct (Hshare Hok Hpos) as [A1 A2]. split; [by apply (inv_valid _ _ _ Hst)|].
    pose proof (proj1 (dIsPositive_val _) Hpos) as Hpos'.
    assert (dval (cs_total st) == total)%Q as Htotal by apply (inv_total _ _ _ Hst).
    assert (sumZ ci_ShareBPS details = TotalOwnershipBPS) as HS.
    { apply (allocate_rows_whole _ _ _ _ A2); rewrite ?HD', ?Hk; [done| |done|lia]. by rewrite Htotal, (sumQ_perm _ _ _ HD'), Htot. }
    rewrite <-T2, <-D2, <-S2, detail_slices_share, HS. split_and!; [|done..].
    apply (allocate_rows_whole _ _ _ _ A1); [done| |done|lia]. by rewrite Htotal, Htt.
  - rewrite Hs. intros Hready. apply (loop_complete _ _ _ Hst). by apply status_ready.
Qed.
End Laws.
