(* ===== verification/ValuationSamples.v ===== *)
(** * The valuation of a concrete household

    A brokerage account with two funds and two currencies, a bank account and a loan, in
    euros: the theorems on the valuation applied to it. *)

From S2P Require Export ValuationOrder ValuationDisplayLaws AccountPage.
From S2P Require Import DecimalModel.
From Stdlib Require Import String Ascii.

#[global] Open Scope Z_scope.

Module Sample.
Definition home : Household := mkHousehold "home" "Home" "EUR" 0 0.

Definition march (day : Z) : Time := utc_midnight (days_of_civil 2026 3 day).

Definition account (id name : string) (type : AccountType) (role : BalanceSheetRole) (tracking : TrackingMode) (cur : string) : Account :=
  mkAccount id "home" None None name type role tracking cur None None true true false None None 0 0 0 None.

Definition cash_at (units : Z) (cur : CurrencyCode) : Money := mkMoney (dNew units (-4)) cur.

Definition broker : AccountRecord :=
  mkAccountRecord (account "a1" "Broker" TypeBrokerage RoleAsset TrackingHoldings "USD") [] None (Some "o1"%string) "" "".
Definition bank : AccountRecord :=
  mkAccountRecord (account "a2" "Bank" TypeBankAccount RoleAsset TrackingBalance "USD") []
    (Some (mkAccountValue "v1" "a2" TrackingBalance (cash_at 1000000 "USD") (march 1) (march 1))) None "" "".
Definition loan : AccountRecord :=
  mkAccountRecord (account "a3" "Loan" TypeLoan RoleLiability TrackingBalance "EUR") []
    (Some (mkAccountValue "v2" "a3" TrackingBalance (cash_at 500001 "EUR") (march 1) (march 1))) None "" "".

Definition fund (id cur : string) : Instrument :=
  mkInstrument id "home" "A fund" "" InstrumentETF "" "share" cur None (Some "NYSE"%string) (Some "US"%string) None None None 0
    QuoteSourceProvider (Some "yahoo_finance"%string) (Some "GLD"%string) 1 None 0 0 None.

Definition price (id instrument cur : string) (coefficient : Z) : InstrumentQuote :=
  mkInstrumentQuote id instrument (mkUnitPrice (dNew coefficient (-2))) cur QuoteSourceProvider "yahoo_finance" (march 2) (march 2)
    false "close" "2026-03-02" 0 0 (march 2) 1 "yahoo_close_v1" "yahoo_close_v1" "session_close" 1 None "" "" "".

Definition rate (id base quote : string) (coefficient : Z) : FXQuote :=
  mkFXQuote id "home" base quote (mkFxRate (dNew coefficient (-2))) QuoteSourceProvider "frankfurter" (march 2) (march 2) false
    "daily_reference" "2026-03-02" 0 (march 2) "frankfurter-v2-blended-v1" "policy_derived" 1 None.

Definition holding (id instrument : string) (quantity order : Z) : Holding :=
  mkHolding id "a1" instrument (mkQuantity (dNew quantity 0)) None order 0 0 None.

Definition sleeve (id cur : string) (units : Z) (at_ : Time) : AccountCashValue :=
  mkCashValue id "a1" (cash_at units cur) at_ at_ "baseline" None None None None None None.

Definition holdings : list Holding := [holding "h1" "i1" 3 1; holding "h2" "i2" 7 0].
Definition sleeves : list AccountCashValue :=
  [sleeve "c1" "EUR" 20000 (march 1); sleeve "c2" "USD" 33333 (march 1); sleeve "c3" "EUR" 40000 (march 2)].
Definition prices : list InstrumentQuote := [price "q1" "i1" "USD" 12345; price "q2" "i2" "EUR" 1001].
Definition rates : list FXQuote := [rate "r1" "EUR" "USD" 109; rate "r2" "GBP" "USD" 125].

Definition snapshot (holdings : list Holding) (sleeves : list AccountCashValue) (prices : list InstrumentQuote) (rates : list FXQuote)
    : PortfolioSnapshot :=
  mkSnapshot [] (Some home) None [broker; bank; loan] [fund "i1" "USD"; fund "i2" "EUR"] holdings sleeves prices rates [] [] [].
Definition full : PortfolioSnapshot := snapshot holdings sleeves prices rates.
Definition shuffled : PortfolioSnapshot := snapshot (rev holdings) (rev sleeves) (rev prices) (rev rates).

Definition service : ValuationService := mkValuationService (march 3) UTC (Some "frankfurter"%string) None false "" None.

Definition zones : TimeZones := {| LoadLocation _ := None |}.
#[export] Existing Instance zones.
#[export] Existing Instance no_evidence.

Ltac distinct := intros p q Hp Hq; rewrite !list_elem_of_In in *; cbn in Hp, Hq; intuition (subst; done).

Lemma unique : unique_rows full.
Proof. repeat split; distinct. Qed.

Lemma rates_ok : stored_rates_ok full.
Proof. repeat constructor; vm_compute; done. Qed.
End Sample.
Import Sample.

Definition base_values (r : Result (list valuedAccount * list MissingInputView)) : list (option string) :=
  match r with Ok (items, _) => (λ item, mv_Amount <$> val_BaseValue (va_model item)) <$> items | Fail _ => [] end.

Example full_values : base_values (evaluate service full) = [Some "416.8987"; Some "91.7431"; Some "50.0001"]%string.
Proof. vm_compute. reflexivity. Qed.

Lemma evaluate_correct_witness : ∃ valued missing,
  evaluate service full = Ok (valued, missing) ∧ Forall (account_valued "EUR"%string) valued ∧
  (missing = [] ↔ Forall (λ item, val_Complete (va_model item) = true) valued).
Proof.
  destruct (is_ok_some (evaluate service full)) as [[valued missing] E]; [vm_compute; reflexivity|].
  exists valued, missing. split; [done|].
  destruct (evaluate_correct service full home valued missing E eq_refl) as (_ & H1 & _ & H2). exact (conj H1 H2).
Defined.

Lemma evaluate_order_free_witness : evaluate service shuffled = evaluate service full.
Proof.
  refine (evaluate_order_free service full shuffled eq_refl unique _).
  split; [reflexivity..|apply Permutation_rev|apply Permutation_rev|apply Permutation_rev|apply Permutation_rev].
Defined.

Lemma valueHolding_current_witness : ∃ c missing,
  valueHolding service home full "a1" (holding "h1" "i1" 3 1) (fund "i1" "USD") = Ok (c, missing) ∧
  shows "EUR" (dval (dNew 3 0) * dval (dNew 12345 (-2))) (spot service home full "USD") c missing.
Proof.
  destruct (is_ok_some (valueHolding service home full "a1" (holding "h1" "i1" 3 1) (fund "i1" "USD"))) as [[c missing] E];
    [vm_compute; reflexivity|].
  exists c, missing. split; [done|].
  exact (valueHolding_current service home full "a1" (holding "h1" "i1" 3 1) (fund "i1" "USD") c missing eq_refl rates_ok E).
Defined.

Lemma portfolioOf_correct_witness : ∃ p, portfolioOf service full = Ok (Some p) ∧
  List.length (pv_Accounts p) = 1%nat ∧ pv_Complete p = true ∧
  ∃ total, (dval total == sumQ account_amount (pv_Accounts p))%Q ∧
    ((0 < dval total)%Q → sumZ al_ShareBPS (ByCurrency p) = TotalOwnershipBPS).
Proof.
  destruct (is_ok_some (portfolioOf service full)) as [[p|] E]; [vm_compute; reflexivity| |].
  2: { assert (H0 : match portfolioOf service full with Ok (Some _) => true | _ => false end = true) by (vm_compute; reflexivity).
       rewrite E in H0. discriminate H0. }
  assert (H0 : match portfolioOf service full with
    | Ok (Some p) => (List.length (pv_Accounts p) =? 1)%nat && pv_Complete p && (List.length (ByCurrency p) =? 2)%nat | _ => false end = true)
    by (vm_compute; reflexivity).
  rewrite E in H0. apply andb_prop in H0 as [H0 H3]. apply andb_prop in H0 as [H1 H2]. apply Nat.eqb_eq in H1, H3.
  exists p. split; [done|]. split; [done|]. split; [done|].
  destruct (portfolioOf_correct service full home p E eq_refl) as (_ & total & T1 & _ & T3). exists total. split; [exact T1|].
  intros Hp. apply (proj1 (T3 Hp)). rewrite H3. done.
Defined.

Definition thirds : gmap string Decimal := list_to_map [("cash"%string, dNew 1 0); ("etf"%string, dNew 1 0); ("fund"%string, dNew 1 0)].

Lemma makeAllocations_correct_witness : ∃ views, makeAllocations thirds ∅ (dNew 3 0) "EUR" = Ok views ∧
  (al_ShareBPS <$> views) = [3334; 3333; 3333] ∧ sumZ al_ShareBPS views = TotalOwnershipBPS.
Proof.
  destruct (is_ok_some (makeAllocations thirds ∅ (dNew 3 0) "EUR")) as [views E]; [vm_compute; reflexivity|].
  assert (H0 : match makeAllocations thirds ∅ (dNew 3 0) "EUR" with Ok views => al_ShareBPS <$> views | Fail _ => [] end = [3334; 3333; 3333])
    by (vm_compute; reflexivity).
  rewrite E in H0. exists views. split; [done|]. split; [done|].
  refine (proj1 (proj2 (makeAllocations_correct thirds ∅ (dNew 3 0) "EUR" views E _ _ _))).
  - vm_compute. reflexivity.
  - vm_compute. reflexivity.
  - rewrite <-(length_fmap al_ShareBPS views), H0. done.
Defined.

Definition full_models : list AccountValuation :=
  match evaluate service full with Ok (items, _) => va_model <$> items | Fail _ => [] end.

Lemma currentHouseholdDisplay_correct_witness : ∃ d, currentHouseholdDisplay full_models "2026-03-03" "EUR" = Ok d ∧
  (mv_Amount <$> va_Total (NetWorth d)) = Some "458.6417"%string ∧
  (va_Total (NetWorth d) ≠ None ↔ va_Total (Assets d) ≠ None ∧ va_Total (Liabilities d) ≠ None).
Proof.
  destruct (is_ok_some (currentHouseholdDisplay full_models "2026-03-03" "EUR")) as [d E]; [vm_compute; reflexivity|].
  assert (H0 : match currentHouseholdDisplay full_models "2026-03-03" "EUR" with Ok d => mv_Amount <$> va_Total (NetWorth d) | Fail _ => None end
    = Some "458.6417"%string) by (vm_compute; reflexivity).
  rewrite E in H0. exists d. split; [done|]. split; [done|].
  exact (proj1 (proj2 (proj2 (proj2 (proj2 (proj2 (currentHouseholdDisplay_correct full_models "2026-03-03" "EUR" d E))))))).
Defined.

(** ** The account page of the broker *)

Definition by_keys (m : gmap string AccountCompositionItem) : list AccountCompositionItem := (map_to_list m).*2.
Definition broker_value : AccountValuation :=
  mkAccountValuation (account "a1" "Broker" TypeBrokerage RoleAsset TrackingHoldings "USD") [] "" "" None true
    (full_models ≫= (λ a, if bool_decide (ID (val_Account a) = "a1") then val_Components a else [])) [].
Definition broker_page : Result AccountComposition :=
  projectAccountComposition by_keys broker_value (compositionInstruments (ps_Instruments full)) "EUR".

Definition shares_of (r : Result AccountComposition) : list (list Z) :=
  match r with Ok c => [ci_ShareBPS <$> Types c; ci_ShareBPS <$> Details c] | Fail _ => [] end.
Definition is_ready (r : Result AccountComposition) : bool := match r with Ok c => bool_decide (co_Status c = StatusReady) | Fail _ => false end.

Example broker_shares : shares_of broker_page = [[9831; 169]; [8150; 1681; 96; 73]].
Proof. vm_compute. reflexivity. Qed.

Lemma projectAccountComposition_correct_witness : ∃ c, broker_page = Ok c ∧ co_Status c = StatusReady ∧
  sumZ ci_ShareBPS (Types c) = TotalOwnershipBPS ∧ sumZ ci_ShareBPS (Details c) = TotalOwnershipBPS ∧
  sumZ ci_ShareBPS (DetailSlices c) = TotalOwnershipBPS.
Proof.
  destruct (is_ok_some broker_page) as [c E]; [vm_compute; reflexivity|].
  assert (H0 : is_ready broker_page = true) by (vm_compute; reflexivity). rewrite E in H0. apply bool_decide_eq_true_1 in H0.
  exists c. split; [exact E|]. split; [exact H0|]. unfold broker_page in E.
  refine (proj2 (proj1 (proj2 (proj2 (proj2 (proj2 (proj2 (proj2 (proj2
    (projectAccountComposition_correct by_keys broker_value _ "EUR" c _ _ _ _ _ E)))))))) (or_introl H0))).
  - reflexivity.
  - apply (bool_decide_eq_true_1 _). vm_compute. reflexivity.
  - vm_compute. reflexivity.
  - reflexivity.
  - reflexivity.
Defined.
