(* ===== verification/ReviewPolicy.v ===== *)
(** * Trigger policies of review rules

    [review_daily_policy.go]: a review rule votes once per civil day, true, false or
    unknown; a trigger policy turns the votes of a window of days into one verdict.  The
    source computes it twice, for one day from a table of votes, and for every day of a
    chronology in one pass over a ring buffer; the two agree. *)

From S2P Require Export CivilDate.
From Stdlib Require Import String Ascii.

#[global] Open Scope Z_scope.

(** ** Three-valued votes *)

(** The zero value is [ReviewUnknown]; [ReviewOther] is any other text. *)
Inductive ReviewTruth := ReviewUnknown | ReviewTrue | ReviewFalse | ReviewOther (text : string).
#[export] Instance ReviewTruth_eq_dec : EqDecision ReviewTruth.
Proof. solve_decision. Defined.

Definition truth_valid (v : ReviewTruth) : bool := match v with ReviewOther _ => false | _ => true end.

Fixpoint ReviewAll_from (result : ReviewTruth) (values : list ReviewTruth) : ReviewTruth :=
  match values with
  | [] => result
  | v :: values =>
    if bool_decide (v = ReviewFalse) then ReviewFalse
    else ReviewAll_from (if bool_decide (v = ReviewTrue) then result else ReviewUnknown) values
  end.
Definition ReviewAll : list ReviewTruth → ReviewTruth := ReviewAll_from ReviewTrue.

Fixpoint ReviewAny_from (result : ReviewTruth) (values : list ReviewTruth) : ReviewTruth :=
  match values with
  | [] => result
  | v :: values =>
    if bool_decide (v = ReviewTrue) then ReviewTrue
    else ReviewAny_from (if bool_decide (v = ReviewFalse) then result else ReviewUnknown) values
  end.
Definition ReviewAny : list ReviewTruth → ReviewTruth := ReviewAny_from ReviewFalse.

(** ** Policies *)

Record ReviewTriggerPolicy := mkTriggerPolicy { tp_Kind : string; tp_Count : Z; tp_WindowDays : Z; tp_MinHits : Z }.

Definition single_policy : ReviewTriggerPolicy := mkTriggerPolicy "single" 0 0 0.

Definition NormalizeTriggerPolicy (p : ReviewTriggerPolicy) : Result ReviewTriggerPolicy :=
  let refused := Fail (validation "triggerPolicy" "use single, consecutive(1–365), or rolling(1–365 days, 1–windowDays hits) without unrelated parameters") in
  if bool_decide (tp_Kind p = "single"%string) then
    if (tp_Count p =? 0) && (tp_WindowDays p =? 0) && (tp_MinHits p =? 0) then Ok p else refused
  else if bool_decide (tp_Kind p = "consecutive"%string) then
    if (1 <=? tp_Count p) && (tp_Count p <=? 365) && (tp_WindowDays p =? 0) && (tp_MinHits p =? 0)
    then if tp_Count p =? 1 then Ok single_policy else Ok p else refused
  else if bool_decide (tp_Kind p = "rolling"%string) then
    if (tp_Count p =? 0) && (1 <=? tp_WindowDays p) && (tp_WindowDays p <=? 365) &&
       (1 <=? tp_MinHits p) && (tp_MinHits p <=? tp_WindowDays p)
    then if tp_WindowDays p =? 1 then Ok single_policy else Ok p else refused
  else refused.

(** [width, required] of a normalised policy. *)
Definition policy_window (p : ReviewTriggerPolicy) : Z * Z :=
  if bool_decide (tp_Kind p = "consecutive"%string) then (tp_Count p, tp_Count p)
  else if bool_decide (tp_Kind p = "rolling"%string) then (tp_WindowDays p, tp_MinHits p)
  else (1, 1).

Record ReviewPolicyWindow := mkPolicyWindow {
  Truth : ReviewTruth; WindowStart : string; WindowEnd : string; HitCount : Z; FalseCount : Z;
  UnknownCount : Z; ConsecutiveCount : Z }.

(** The last [switch] of both evaluators. *)
Definition verdict (required hits unknown : Z) : ReviewTruth :=
  if required <=? hits then ReviewTrue
  else if hits + unknown <? required then ReviewFalse
  else ReviewUnknown.

(** ** The verdict of one day *)

Definition vote (days : gmap string ReviewTruth) (n : Z) : ReviewTruth := default ReviewUnknown (days !! format_days n).

Definition bad_vote : goerror := validation "dailyPredicate" "contains an unsupported truth value".
Definition out_of_turns : goerror := OtherErr "the search for the start of a streak did not end".

(** The counters of the first loop: hits, falses, unknowns, streak, and whether the
    streak still goes on. *)
Definition count_vote (days : gmap string ReviewTruth) (end_ : Z) (st : Z * Z * Z * Z * bool) (offset : Z)
    : Result (Z * Z * Z * Z * bool) :=
  let '(hits, falses, unknown, streak, suffix) := st in
  let v := vote days (end_ - offset) in
  if negb (truth_valid v) then Fail bad_vote
  else match v with
  | ReviewTrue => Ok (hits + 1, falses, unknown, if suffix then streak + 1 else streak, suffix)
  | ReviewFalse => Ok (hits, falses + 1, unknown, streak, false)
  | _ => Ok (hits, falses, unknown + 1, streak, false)
  end.

(** The second loop goes back from a day for as long as the votes are true.  Every turn but
    the last finds a key of the table, so one turn more than the table has keys is enough. *)
Fixpoint extend_streak (turns : nat) (days : gmap string ReviewTruth) (day : Z) (streak : Z) : Result Z :=
  match turns with
  | O => Fail out_of_turns
  | S turns =>
    let v := vote days day in
    if negb (truth_valid v) then Fail bad_vote
    else if bool_decide (v = ReviewTrue) then extend_streak turns days (day - 1) (streak + 1)
    else Ok streak
  end.

Definition EvaluateReviewPolicy (p : ReviewTriggerPolicy) (latestClosedDay : string) (days : gmap string ReviewTruth)
    : Result ReviewPolicyWindow :=
  p ← NormalizeTriggerPolicy p;
  match ParseDate latestClosedDay with
  | None => Fail (validation "latestClosedDay" "must be a valid ISO civil date")
  | Some end_ =>
    let '(width, required) := policy_window p in
    st ← foldM (count_vote days end_) (0, 0, 0, 0, true) (seqZ 0 width);
    let '(hits, falses, unknown, streak, _) := st in
    streak ← (if streak =? width then extend_streak (S (size days)) days (end_ - width) streak else Ok streak);
    Ok (mkPolicyWindow (verdict required hits unknown) (format_days (end_ + (1 - width))) latestClosedDay
          hits falses unknown streak)
  end.

(** ** The verdicts of a chronology *)

(** The variables of [EvaluateReviewPolicyTimeline]. *)
Record timeline := mkTimeline {
  tl_window : list ReviewTruth; tl_unknown : Z; tl_hits : Z; tl_falses : Z; tl_head : nat; tl_streak : Z;
  tl_latest : gmap string ReviewPolicyWindow; tl_previous : Time }.

Definition process (width required : Z) (st : timeline) (on : string) (truth : ReviewTruth)
    : Result (timeline * ReviewPolicyWindow) :=
  if negb (truth_valid truth) then Fail bad_vote
  else
    let old := default ReviewUnknown (tl_window st !! tl_head st) in
    let '(hits, falses, unknown) := match old with
      | ReviewTrue => (tl_hits st - 1, tl_falses st, tl_unknown st)
      | ReviewFalse => (tl_hits st, tl_falses st - 1, tl_unknown st)
      | _ => (tl_hits st, tl_falses st, tl_unknown st - 1)
      end in
    let '(hits, falses, unknown, streak) := match truth with
      | ReviewTrue => (hits + 1, falses, unknown, tl_streak st + 1)
      | ReviewFalse => (hits, falses + 1, unknown, 0)
      | _ => (hits, falses, unknown + 1, 0)
      end in
    match ParseDate on with
    | None => Fail (validation "latestClosedDay" "must be a valid ISO civil date")
    | Some day =>
      Ok (mkTimeline (<[tl_head st := truth]> (tl_window st)) unknown hits falses
            (Nat.modulo (tl_head st + 1) (Z.to_nat width)) streak (tl_latest st) (tl_previous st),
          mkPolicyWindow (verdict required hits unknown) (format_days (day + (1 - width))) on hits falses unknown streak)
    end.

(** One day of the chronology, after the days that are missing before it. *)
Definition timeline_day (width required : Z) (st : timeline) (day : string * ReviewTruth) : Result timeline :=
  let '(on, truth) := day in
  match ParseDate on with
  | None => Fail (validation "on" "must be a valid ISO civil date")
  | Some current =>
    st ← (if timeIsZero (tl_previous st) then Ok st
          else if negb (tl_previous st <? utc_midnight current)
          then Fail (validation "on" "timeline dates must be strictly increasing")
          else
            let missing := seqZ (day_of (tl_previous st) + 1) (current - (day_of (tl_previous st) + 1)) in
            foldM (λ st n, r ← process width required st (format_days n) ReviewUnknown; Ok r.1) st missing);
    '(st, result) ← process width required st on truth;
    Ok (mkTimeline (tl_window st) (tl_unknown st) (tl_hits st) (tl_falses st) (tl_head st) (tl_streak st)
          (<[on := result]> (tl_latest st)) (utc_midnight current))
  end.

(** Of a [ReviewDailyResult] only the date and the vote are read. *)
Definition EvaluateReviewPolicyTimeline (p : ReviewTriggerPolicy) (days : list (string * ReviewTruth))
    : Result (gmap string ReviewPolicyWindow) :=
  p ← NormalizeTriggerPolicy p;
  let '(width, required) := policy_window p in
  st ← foldM (timeline_day width required)
         (mkTimeline (replicate (Z.to_nat width) ReviewUnknown) width 0 0 0 0 ∅ 0) days;
  Ok (tl_latest st).
