(* ===== verification/ReviewPolicyLaws.v ===== *)
(** * What a trigger policy decides

    The verdict of a window is true (false) exactly when every way of resolving its unknown
    votes triggers (does not trigger) the policy, and the pass over a chronology computes for
    each of its days what the evaluation of that day computes. *)

From S2P Require Export ReviewPolicy.
From S2P Require Import MarketPolicy.
From Stdlib Require Import String Ascii Sorted.

#[global] Open Scope Z_scope.

(** ** Kleene logic *)

Lemma ReviewAll_correct values :
  (ReviewAll values = ReviewTrue ↔ Forall (λ v, v = ReviewTrue) values) ∧
  (ReviewAll values = ReviewFalse ↔ ReviewFalse ∈ values).
Proof.
  unfold ReviewAll.
  assert (H : ∀ r, r = ReviewTrue ∨ r = ReviewUnknown →
    (ReviewAll_from r values = ReviewTrue ↔ r = ReviewTrue ∧ Forall (λ v, v = ReviewTrue) values) ∧
    (ReviewAll_from r values = ReviewFalse ↔ ReviewFalse ∈ values)).
  { induction values as [|v values IH]; intros r Hr; cbn [ReviewAll_from].
    - split; [naive_solver|]. split; [naive_solver|]. intros H. by apply elem_of_nil in H.
    - case_bool_decide as Hf; [subst; split; split; try done; [intros [_ H]; by inversion H|left]|].
      rewrite Forall_cons, elem_of_cons. destruct (IH (if bool_decide (v = ReviewTrue) then r else ReviewUnknown)) as [I1 I2].
      { case_bool_decide; [done|by right]. }
      rewrite I1, I2. case_bool_decide; split; naive_solver. }
  destruct (H ReviewTrue) as [H1 H2]; [by left|]. rewrite H1, H2. naive_solver.
Qed.

Lemma ReviewAny_correct values :
  (ReviewAny values = ReviewFalse ↔ Forall (λ v, v = ReviewFalse) values) ∧
  (ReviewAny values = ReviewTrue ↔ ReviewTrue ∈ values).
Proof.
  unfold ReviewAny.
  assert (H : ∀ r, r = ReviewFalse ∨ r = ReviewUnknown →
    (ReviewAny_from r values = ReviewFalse ↔ r = ReviewFalse ∧ Forall (λ v, v = ReviewFalse) values) ∧
    (ReviewAny_from r values = ReviewTrue ↔ ReviewTrue ∈ values)).
  { induction values as [|v values IH]; intros r Hr; cbn [ReviewAny_from].
    - split; [naive_solver|]. split; [naive_solver|]. intros H. by apply elem_of_nil in H.
    - case_bool_decide as Hf; [subst; split; split; try done; [intros [_ H]; by inversion H|left]|].
      rewrite Forall_cons, elem_of_cons. destruct (IH (if bool_decide (v = ReviewFalse) then r else ReviewUnknown)) as [I1 I2].
      { case_bool_decide; [done|by right]. }
      rewrite I1, I2. case_bool_decide; split; naive_solver. }
  destruct (H ReviewFalse) as [H1 H2]; [by left|]. rewrite H1, H2. naive_solver.
Qed.

(** ** Votes of a window *)

(** The last [w] days up to [n], the latest first. *)
Definition window_days (n w : Z) : list Z := (λ i, n - i) <$> seqZ 0 w.

Definition tally (v : ReviewTruth) (f : Z → ReviewTruth) (days : list Z) : Z :=
  sumZ (λ m, if bool_decide (f m = v) then 1 else 0) days.

(** [c] is the number of days up to [n] that are all true. *)
Definition streak_of (f : Z → ReviewTruth) (n c : Z) : Prop :=
  0 <= c ∧ (∀ i, 0 <= i < c → f (n - i) = ReviewTrue) ∧ f (n - c) ≠ ReviewTrue.

Lemma streak_of_unique f n c d : streak_of f n c → streak_of f n d → c = d.
Proof.
  intros (Hc & Tc & Fc) (Hd & Td & Fd). destruct (Z.lt_trichotomy c d) as [H|[H|H]]; [|done|].
  - by rewrite Td in Fc by lia.
  - by rewrite Tc in Fd by lia.
Qed.

(** A policy's window as the source describes it. *)
Definition is_window (width required : Z) (f : Z → ReviewTruth) (n : Z) (w : ReviewPolicyWindow) : Prop :=
  let days := window_days n width in
  Truth w = verdict required (tally ReviewTrue f days) (tally ReviewUnknown f days) ∧
  WindowStart w = format_days (n + (1 - width)) ∧ WindowEnd w = format_days n ∧
  HitCount w = tally ReviewTrue f days ∧ FalseCount w = tally ReviewFalse f days ∧
  UnknownCount w = tally ReviewUnknown f days ∧ streak_of f n (ConsecutiveCount w).

Lemma is_window_unique width required f n w w' :
  is_window width required f n w → is_window width required f n w' → w = w'.
Proof.
  intros (?&?&?&?&?&?&S) (?&?&?&?&?&?&S'). pose proof (streak_of_unique _ _ _ _ S S').
  destruct w, w'. cbn in *. congruence.
Qed.

Lemma window_days_snoc n w : 0 <= w → window_days n (w + 1) = window_days n w ++ [n - w].
Proof. intros H. unfold window_days. rewrite seqZ_app by lia. by rewrite fmap_app. Qed.

Lemma window_days_cons n w : 0 <= w → window_days (n + 1) (w + 1) = (n + 1) :: window_days n w.
Proof.
  intros H. unfold window_days. rewrite seqZ_cons by lia. cbn [fmap list_fmap]. f_equal; [lia|].
  replace (Z.pred (w + 1)) with w by lia. rewrite <-(fmap_add_seqZ 1 0), <-list_fmap_compose.
  apply list_fmap_ext. intros i x _. cbn. lia.
Qed.

Lemma tally_app v f l k : tally v f (l ++ k) = tally v f l + tally v f k.
Proof. apply sumZ_app. Qed.
Lemma tally_one v f n : tally v f [n] = if bool_decide (f n = v) then 1 else 0.
Proof. apply sumZ_single. Qed.

(** The window slides by one day. *)
Lemma tally_slide v f n w : 1 <= w →
  tally v f (window_days (n + 1) w) =
  tally v f (window_days n w) - (if bool_decide (f (n - w + 1) = v) then 1 else 0) + (if bool_decide (f (n + 1) = v) then 1 else 0).
Proof.
  intros Hw. replace w with (w - 1 + 1) at 1 2 by lia. rewrite window_days_cons, window_days_snoc by lia.
  change ((n + 1) :: window_days n (w - 1)) with ([n + 1] ++ window_days n (w - 1)). rewrite !tally_app, !tally_one.
  replace (n - (w - 1)) with (n - w + 1) by lia. lia.
Qed.

Lemma tally_bound v f l : 0 <= tally v f l <= Z.of_nat (List.length l).
Proof.
  unfold tally. induction l as [|m l IH]; [done|]. rewrite sumZ_cons. cbn [List.length]. case_bool_decide; lia.
Qed.

Lemma tally_total f l : (∀ m, truth_valid (f m) = true) →
  tally ReviewTrue f l + tally ReviewFalse f l + tally ReviewUnknown f l = Z.of_nat (List.length l).
Proof.
  intros Hv. unfold tally. induction l as [|m l IH]; [done|]. rewrite !sumZ_cons. cbn [List.length].
  specialize (Hv m). destruct (f m); cbn [bool_decide]; repeat case_bool_decide; try done; lia.
Qed.

(** ** Resolutions of unknown votes *)

Definition resolves (f : Z → ReviewTruth) (g : Z → bool) : Prop :=
  ∀ m, (f m = ReviewTrue → g m = true) ∧ (f m = ReviewFalse → g m = false).

(** A policy is triggered by votes that are all known. *)
Definition triggered (p : ReviewTriggerPolicy) (g : Z → bool) (n : Z) : Prop :=
  (policy_window p).2 <= sumZ (λ m, if g m then 1 else 0) (window_days n (policy_window p).1).

Lemma verdict_true required f l : (∀ m, truth_valid (f m) = true) →
  verdict required (tally ReviewTrue f l) (tally ReviewUnknown f l) = ReviewTrue ↔
  ∀ g, resolves f g → required <= sumZ (λ m, if g m then 1 else 0) l.
Proof.
  intros Hv. unfold verdict. destruct (Z.leb_spec required (tally ReviewTrue f l)) as [H|H].
  - split; [|done]. intros _ g Hg. etransitivity; [exact H|]. apply sumZ_le. intros m _.
    case_bool_decide as E; [by rewrite (proj1 (Hg m) E)|by destruct (g m)].
  - split; [by case_match|]. intros Hg. exfalso.
    specialize (Hg (λ m, bool_decide (f m = ReviewTrue))). unfold tally in H. apply Z.lt_nge in H. apply H, Hg.
    intros m. split; intros E; rewrite E; by case_bool_decide.
Qed.

Lemma verdict_false required f l : (∀ m, truth_valid (f m) = true) →
  verdict required (tally ReviewTrue f l) (tally ReviewUnknown f l) = ReviewFalse ↔
  ∀ g, resolves f g → ¬ required <= sumZ (λ m, if g m then 1 else 0) l.
Proof.
  intros Hv.
  assert (Hmax : ∀ g, resolves f g → sumZ (λ m, if g m then 1 else 0) l <= tally ReviewTrue f l + tally ReviewUnknown f l).
  { intros g Hg. unfold tally. induction l as [|m l IH]; [done|]. rewrite !sumZ_cons. destruct (Hg m) as [H1 H2].
    specialize (Hv m). destruct (f m); try done; repeat case_bool_decide; try done; rewrite ?H2 by done; try case_match; lia. }
  assert (Hex : ∃ g, resolves f g ∧ sumZ (λ m, if g m then 1 else 0) l = tally ReviewTrue f l + tally ReviewUnknown f l).
  { exists (λ m, negb (bool_decide (f m = ReviewFalse))). split.
    - intros m. split; intros E; rewrite E; by case_bool_decide.
    - unfold tally. clear Hmax. induction l as [|m l IH]; [done|]. rewrite !sumZ_cons, IH.
      specialize (Hv m). destruct (f m); try done; repeat case_bool_decide; try done; cbn [negb]; lia. }
  unfold verdict. destruct (Z.leb_spec required (tally ReviewTrue f l)) as [H|H].
  - split; [done|]. intros Hg. destruct Hex as (g & Hr & E). exfalso. apply (Hg g Hr). rewrite E.
    pose proof (tally_bound ReviewUnknown f l). lia.
  - destruct (Z.ltb_spec (tally ReviewTrue f l + tally ReviewUnknown f l) required); split; try done.
    + intros _ g Hg. specialize (Hmax g Hg). lia.
    + intros Hg. destruct Hex as (g & Hr & E). exfalso. apply (Hg g Hr). lia.
Qed.

(** ** Normalised policies *)

Lemma NormalizeTriggerPolicy_window p q : NormalizeTriggerPolicy p = Ok q →
  1 <= (policy_window q).2 <= (policy_window q).1 ∧ (policy_window q).1 <= 365.
Proof.
  unfold NormalizeTriggerPolicy. intros H.
  assert (Hs : 1 <= (policy_window single_policy).2 <= (policy_window single_policy).1 ∧ (policy_window single_policy).1 <= 365) by done.
  case_bool_decide as E1; [|case_bool_decide as E2; [|case_bool_decide as E3; [|discriminate]]]; inv_ok; prop_bool.
  - unfold policy_window. rewrite E1. done.
  - destruct (tp_Count p =? 1); injection H as <-; [done|]. unfold policy_window. rewrite E2. repeat case_bool_decide; try congruence. cbn [fst snd]. lia.
  - destruct (tp_WindowDays p =? 1); injection H as <-; [done|]. unfold policy_window. rewrite E3. repeat case_bool_decide; try congruence. cbn [fst snd]. lia.
Qed.

(** ** The verdict of one day *)

Section OneDay.
Context (days : gmap string ReviewTruth).
Let f := vote days.

Lemma vote_key n : f n = ReviewTrue → format_days n ∈ dom days.
Proof.
  unfold f, vote. intros H. apply elem_of_dom. destruct (days !! format_days n) as [v|] eqn:E; [by exists v|discriminate].
Qed.

(** A streak is not longer than the table. *)
Lemma streak_bound n k : (∀ i, 0 <= i < Z.of_nat k → f (n - i) = ReviewTrue) → (k <= size days)%nat.
Proof.
  intros H. rewrite <-size_dom.
  assert (Hl : k = size (list_to_set ((λ i, format_days (n - i)) <$> seqZ 0 (Z.of_nat k)) : gset string)).
  { rewrite size_list_to_set, length_fmap, length_seqZ; [lia|].
    apply (NoDup_fmap_2_strong); [|apply NoDup_seqZ]. intros i j _ _ E. apply format_days_inj in E. lia. }
  rewrite Hl. apply subseteq_size. intros key. rewrite elem_of_list_to_set, list_elem_of_fmap.
  intros (i & -> & Hi). apply elem_of_seqZ in Hi. apply vote_key, H. lia.
Qed.

Hypothesis valid : ∀ m, truth_valid (f m) = true.

Lemma extend_streak_spec turns day s : (size days < turns)%nat → ∃ c, extend_streak turns days day s = Ok (s + c) ∧ streak_of f day c.
Proof.
  assert (H : ∀ turns day k s, (∀ i, 0 <= i < Z.of_nat k → f (day + Z.of_nat k - i) = ReviewTrue) → (size days < k + turns)%nat →
    ∃ c, extend_streak turns days day s = Ok (s + c) ∧ streak_of f day c).
  { clear turns day s. induction turns as [|turns IH]; intros day k s Hk Hs; cbn [extend_streak].
    - pose proof (streak_bound _ _ Hk). lia.
    - fold f. rewrite valid. cbn [negb]. case_bool_decide as E.
      + destruct (IH (day - 1) (S k) (s + 1)) as (c & -> & Hc & Tc & Fc); [|lia|].
        * intros i Hi. destruct (Z.eq_dec i (Z.of_nat k)) as [->|]; [by replace (_ - _) with day by lia|].
          rewrite <-(Hk i) by lia. f_equal. lia.
        * exists (1 + c). split; [f_equal; lia|]. split; [lia|]. split.
          -- intros i Hi. destruct (Z.eq_dec i 0) as [->|]; [by rewrite Z.sub_0_r|].
             rewrite <-(Tc (i - 1)) by lia. f_equal. lia.
          -- by replace (day - (1 + c)) with (day - 1 - c) by lia.
      + exists 0. split; [f_equal; lia|]. split; [done|]. split; [lia|]. by rewrite Z.sub_0_r. }
  intros Hs. apply (H turns day 0%nat s); [lia|done].
Qed.

(** The counters after the first [k] offsets. *)
Definition counted (n k : Z) (st : Z * Z * Z * Z * bool) : Prop :=
  let '(hits, falses, unknown, streak, suffix) := st in
  let days := window_days n k in
  hits = tally ReviewTrue f days ∧ falses = tally ReviewFalse f days ∧ unknown = tally ReviewUnknown f days ∧
  if suffix then streak = k ∧ (∀ i, 0 <= i < k → f (n - i) = ReviewTrue) else streak < k ∧ streak_of f n streak.

Lemma count_vote_counted n k st : 0 <= k → counted n k st → ∃ st', count_vote days n st k = Ok st' ∧ counted n (k + 1) st'.
Proof.
  intros Hk. destruct st as [[[[h fs] u] s] suffix]. unfold counted, count_vote. rewrite window_days_snoc by done.
  intros (-> & -> & -> & Hs). fold f. rewrite valid. cbn [negb]. rewrite !tally_app, !tally_one.
  assert (Hend : f (n - k) ≠ ReviewTrue → (if suffix then s = k ∧ (∀ i, 0 <= i < k → f (n - i) = ReviewTrue)
      else s < k ∧ streak_of f n s) → s < k + 1 ∧ streak_of f n s).
  { intros Hf H. destruct suffix; [destruct H as [-> H]; split; [lia|by split_and!]|]. destruct H. split; [lia|done]. }
  pose proof (valid (n - k)) as Hv. destruct (f (n - k)) eqn:E; [..|done]; eexists (_, _, _, _, _);
    (split; [reflexivity|]); repeat case_bool_decide; try done; (do 3 (split; [lia|])); try (by apply Hend).
  destruct suffix; [|by split; [lia|]; destruct Hs]. destruct Hs as [-> Hs]. split; [done|]. intros i Hi.
  destruct (Z.eq_dec i k) as [->|]; [done|]. apply Hs. lia.
Qed.

Lemma count_votes n w : 0 <= w → ∃ st, foldM (count_vote days n) (0, 0, 0, 0, true) (seqZ 0 w) = Ok st ∧ counted n w st.
Proof.
  intros Hw. assert (H : ∀ todo k st, counted n (Z.of_nat k) st →
    ∃ st', foldM (count_vote days n) st (seqZ (Z.of_nat k) (Z.of_nat todo)) = Ok st' ∧ counted n (Z.of_nat k + Z.of_nat todo) st').
  { induction todo as [|todo IH]; intros k st Hst.
    - exists st. cbn. by rewrite Z.add_0_r.
    - rewrite seqZ_cons by lia. cbn [foldM]. destruct (count_vote_counted n (Z.of_nat k) st) as (st' & -> & Hst'); [lia|done|].
      replace (Z.succ (Z.of_nat k)) with (Z.of_nat (S k)) by lia. replace (Z.pred (Z.of_nat (S todo))) with (Z.of_nat todo) by lia.
      destruct (IH (S k) st') as (st'' & -> & H''); [by replace (Z.of_nat (S k)) with (Z.of_nat k + 1) by lia|].
      exists st''. split; [done|]. by replace (Z.of_nat k + Z.of_nat (S todo)) with (Z.of_nat (S k) + Z.of_nat todo) by lia. }
  destruct (H (Z.to_nat w) 0%nat (0, 0, 0, 0, true)) as (st & Hst & C); [do 4 (split; [done|]); intros i Hi; lia|].
  rewrite Z2Nat.id in Hst, C by done. by exists st.
Qed.

Lemma EvaluateReviewPolicy_window p q latest n : NormalizeTriggerPolicy p = Ok q → is_date latest n →
  ∃ w, EvaluateReviewPolicy p latest days = Ok w ∧ is_window (policy_window q).1 (policy_window q).2 f n w.
Proof.
  intros Hq Hn. pose proof (NormalizeTriggerPolicy_window _ _ Hq) as Hw. unfold EvaluateReviewPolicy.
  rewrite Hq. cbn [mbind Result_bind]. unfold is_date in Hn. rewrite Hn. destruct (policy_window q) as [width required]. cbn [fst snd] in *.
  destruct (count_votes n width ltac:(lia)) as (st & -> & C). cbn [mbind Result_bind].
  destruct st as [[[[h fs] u] s] suffix]. destruct C as (-> & -> & -> & Hs).
  assert (Hstreak : ∃ c, (if s =? width then extend_streak (S (size days)) days (n - width) s else Ok s) = Ok c ∧ streak_of f n c).
  { destruct suffix; [|rewrite (proj2 (Z.eqb_neq _ _)) by lia; exists s; by destruct Hs].
    destruct Hs as [-> Hs]. rewrite Z.eqb_refl. destruct (extend_streak_spec (S (size days)) (n - width) width) as (c & -> & Hc & Tc & Fc); [lia|].
    exists (width + c). split; [done|]. split; [lia|]. split; [|by replace (n - (width + c)) with (n - width - c) by lia].
    intros i Hi. destruct (Z.lt_ge_cases i width); [apply Hs; lia|]. rewrite <-(Tc (i - width)) by lia. f_equal. lia. }
  destruct Hstreak as (c & -> & Hc). cbn [mbind Result_bind]. eexists. split; [reflexivity|].
  unfold is_window. cbn [Truth WindowStart WindowEnd HitCount FalseCount UnknownCount ConsecutiveCount].
  split_and!; try done. by rewrite (format_days_of_parse _ _ Hn).
Qed.
End OneDay.

(** Claim C22.  The verdict of a day is true exactly when the votes that are known decide the policy in
    favour, whatever the unknown votes turn out to be, and false exactly when they decide
    against it.  The counts cover the window, and the streak is the number of days up to the
    last one that are all true, however long. *)
Theorem EvaluateReviewPolicy_correct p q latest n days :
  NormalizeTriggerPolicy p = Ok q → is_date latest n → (∀ m, truth_valid (vote days m) = true) →
  ∃ w, EvaluateReviewPolicy p latest days = Ok w ∧
    (Truth w = ReviewTrue ↔ ∀ g, resolves (vote days) g → triggered q g n) ∧
    (Truth w = ReviewFalse ↔ ∀ g, resolves (vote days) g → ¬ triggered q g n) ∧
    HitCount w + FalseCount w + UnknownCount w = (policy_window q).1 ∧
    streak_of (vote days) n (ConsecutiveCount w).
Proof.
  intros Hq Hn Hv. pose proof (NormalizeTriggerPolicy_window _ _ Hq) as Hw.
  destruct (EvaluateReviewPolicy_window days Hv p q latest n Hq Hn) as (w & Hw' & Ht & _ & _ & Hh & Hf & Hu & Hs).
  exists w. split; [done|]. rewrite Ht. split; [by apply verdict_true|]. split; [by apply verdict_false|]. split; [|done].
  rewrite Hh, Hf, Hu, tally_total by done. unfold window_days. rewrite length_fmap, length_seqZ. lia.
Qed.

(** ** The ring buffer *)

Section Timeline.
Context (width required : Z) (f : Z → ReviewTruth) (Hwidth : 1 <= width).

(** The state once the votes up to day [n] have been seen: the buffer holds the last
    [width] of them, the oldest at the head. *)
Definition at_day (n : Z) (st : timeline) : Prop :=
  List.length (tl_window st) = Z.to_nat width ∧ (tl_head st < Z.to_nat width)%nat ∧
  (∀ i, (i < Z.to_nat width)%nat →
     tl_window st !! Nat.modulo (tl_head st + i) (Z.to_nat width) = Some (f (n - width + 1 + Z.of_nat i))) ∧
  tl_hits st = tally ReviewTrue f (window_days n width) ∧ tl_falses st = tally ReviewFalse f (window_days n width) ∧
  tl_unknown st = tally ReviewUnknown f (window_days n width) ∧ streak_of f n (tl_streak st).

Lemma ring_lookup (buffer : list ReviewTruth) head (g : nat → ReviewTruth) w v : (0 < w)%nat → (head < w)%nat → List.length buffer = w →
  (∀ i, (i < w)%nat → buffer !! Nat.modulo (head + i) w = Some (g i)) → g w = v →
  ∀ i, (i < w)%nat → <[head := v]> buffer !! Nat.modulo (Nat.modulo (head + 1) w + i) w = Some (g (S i)).
Proof.
  intros Hw Hh Hl Hb Hv i Hi. rewrite Nat.Div0.add_mod_idemp_l. replace (head + 1 + i)%nat with (head + S i)%nat by lia.
  destruct (Nat.eq_dec (S i) w) as [E|E].
  - rewrite E. replace (head + w)%nat with (head + 1 * w)%nat by lia. rewrite Nat.Div0.mod_add, Nat.mod_small by done.
    rewrite list_lookup_insert_eq by lia. congruence.
  - rewrite list_lookup_insert_ne; [apply Hb; lia|]. intros E'. apply E. clear E.
    destruct (Nat.lt_ge_cases (head + S i) w) as [H|H]; [rewrite Nat.mod_small in E' by done; lia|].
    replace (head + S i)%nat with ((head + S i - w) + 1 * w)%nat in E' by lia.
    rewrite Nat.Div0.mod_add, Nat.mod_small in E' by lia. lia.
Qed.

Lemma streak_next n c : streak_of f n c → streak_of f (n + 1) (if bool_decide (f (n + 1) = ReviewTrue) then c + 1 else 0).
Proof.
  intros (Hc & Tc & Fc). case_bool_decide as E; (split; [lia|]).
  - split; [|by replace (n + 1 - (c + 1)) with (n - c) by lia]. intros i Hi.
    destruct (Z.eq_dec i 0) as [->|]; [by rewrite Z.sub_0_r|]. rewrite <-(Tc (i - 1)) by lia. f_equal. lia.
  - split; [lia|]. by rewrite Z.sub_0_r.
Qed.

Hypothesis valid : ∀ m, truth_valid (f m) = true.

(** Decide equations between votes that are constructors. *)
Ltac decide_votes :=
  repeat match goal with
  | H : context [bool_decide (?a = ?b :> ReviewTruth)] |- _ =>
      let v := eval vm_compute in (bool_decide (a = b)) in
      match v with true => idtac | false => idtac end; change (bool_decide (a = b)) with v in H; cbn iota in H
  end.

Lemma process_day n st on : at_day n st → is_date on (n + 1) →
  ∃ st' w, process width required st on (f (n + 1)) = Ok (st', w) ∧ at_day (n + 1) st' ∧ is_window width required f (n + 1) w ∧
           tl_latest st' = tl_latest st ∧ tl_previous st' = tl_previous st.
Proof.
  intros (Hl & Hh & Hb & Eh & Ef & Eu & Hs) Hon. unfold process. rewrite valid. cbn [negb].
  pose proof (Hb 0%nat ltac:(lia)) as H0. rewrite Nat.add_0_r, Nat.mod_small, Z.add_0_r in H0 by done. rewrite H0. cbn [default].
  rewrite Eh, Ef, Eu. unfold is_date in Hon. rewrite Hon. pose proof (streak_next _ _ Hs) as Hs'.
  pose proof (ring_lookup (tl_window st) (tl_head st) (λ i, f (n - width + 1 + Z.of_nat i)) (Z.to_nat width) (f (n + 1))
                ltac:(lia) Hh Hl Hb ltac:(cbn beta; f_equal; lia)) as Hring. cbn beta in Hring.
  pose proof (valid (n - width + 1)) as Vo. pose proof (valid (n + 1)) as Vn.
  assert (Hslide : ∀ v, tally v f (window_days (n + 1) width) = tally v f (window_days n width)
     - (if bool_decide (f (n - width + 1) = v) then 1 else 0) + (if bool_decide (f (n + 1) = v) then 1 else 0)) by (intros; by apply tally_slide).
  pose proof (Hslide ReviewTrue) as HT. pose proof (Hslide ReviewFalse) as HF. pose proof (Hslide ReviewUnknown) as HU.
  pose proof (format_days_of_parse _ _ Hon) as Et. unfold at_day, is_window.
  destruct (f (n - width + 1)); try done; destruct (f (n + 1)); try done; decide_votes; do 2 eexists;
    (split; [reflexivity|]); cbn [tl_window tl_head tl_hits tl_falses tl_unknown tl_streak tl_latest tl_previous Truth WindowStart
      WindowEnd HitCount FalseCount UnknownCount ConsecutiveCount];
    rewrite HT, HF, HU; (split; [|split; [|done]]);
    repeat match goal with |- _ ∧ _ => split end;
    first [lia|done|by rewrite length_insert|apply Nat.mod_upper_bound; lia|by symmetry|f_equal; lia|
      (intros i Hi; rewrite Hring by done; do 2 f_equal; lia)].
Qed.

Lemma process_gap a k st : at_day a st → days_before_year 0 <= a + 1 → a + Z.of_nat k < days_before_year 10000 →
  (∀ m, a < m <= a + Z.of_nat k → f m = ReviewUnknown) →
  ∃ st', foldM (λ st n, r ← process width required st (format_days n) ReviewUnknown; Ok r.1) st (seqZ (a + 1) (Z.of_nat k)) = Ok st' ∧
         at_day (a + Z.of_nat k) st' ∧ tl_latest st' = tl_latest st.
Proof.
  revert a st. induction k as [|k IH]; intros a st Hst Ha Hk Hf.
  - exists st. cbn. by rewrite Z.add_0_r.
  - rewrite seqZ_cons by lia. cbn [foldM].
    destruct (process_day a st (format_days (a + 1)) Hst) as (st1 & w & Hp & H1 & _ & L1 & P1); [apply ParseDate_format_days; lia|].
    rewrite Hf in Hp by lia. rewrite Hp. cbn [mbind Result_bind fst].
    replace (Z.succ (a + 1)) with (a + 1 + 1) by lia. replace (Z.pred (Z.of_nat (S k))) with (Z.of_nat k) by lia.
    destruct (IH (a + 1) st1) as (st2 & H2 & A2 & L2); [done|lia..| |].
    + intros m Hm. apply Hf. lia.
    + exists st2. rewrite H2. split; [done|]. split; [by replace (a + Z.of_nat (S k)) with (a + 1 + Z.of_nat k) by lia|]. congruence.
Qed.

(** One day of the chronology, [a] being the last day seen, or the day before if none was. *)
Lemma timeline_day_step a n st on : at_day a st → is_date on n → a < n →
  tl_previous st = 0 ∧ a = n - 1 ∨ tl_previous st = utc_midnight a ∧ a ≠ 0 ∧ days_before_year 0 <= a →
  (∀ m, a < m < n → f m = ReviewUnknown) →
  ∃ st' w, timeline_day width required st (on, f n) = Ok st' ∧ at_day n st' ∧ tl_previous st' = utc_midnight n ∧
           tl_latest st' = <[on := w]> (tl_latest st) ∧ is_window width required f n w.
Proof.
  intros Hst Hon Han Hp Hf. pose proof (is_date_range _ _ Hon) as Hr. unfold timeline_day. unfold is_date in Hon. rewrite Hon.
  assert (Hgap : ∃ st1, (if timeIsZero (tl_previous st) then Ok st
     else if negb (tl_previous st <? utc_midnight n) then Fail (validation "on" "timeline dates must be strictly increasing")
     else foldM (λ st n, r ← process width required st (format_days n) ReviewUnknown; Ok r.1) st
            (seqZ (day_of (tl_previous st) + 1) (n - (day_of (tl_previous st) + 1)))) = Ok st1 ∧ at_day (n - 1) st1 ∧ tl_latest st1 = tl_latest st).
  { destruct Hp as [[-> ->]|(-> & H0 & Ha)]; [by exists st|].
    unfold timeIsZero, day_of, utc_midnight. rewrite (proj2 (Z.eqb_neq _ _)) by (unfold Day, Hour, Second; lia).
    rewrite (proj2 (Z.ltb_lt _ _)) by (unfold Day, Hour, Second; lia). rewrite Z.div_mul by done. cbn [negb].
    replace (n - (a + 1)) with (Z.of_nat (Z.to_nat (n - (a + 1)))) by lia.
    destruct (process_gap a (Z.to_nat (n - (a + 1))) st Hst) as (st1 & -> & A1 & L1); [lia..|intros m Hm; apply Hf; lia|].
    exists st1. split; [done|]. split; [|done]. by replace (n - 1) with (a + Z.of_nat (Z.to_nat (n - (a + 1)))) by lia. }
  destruct Hgap as (st1 & -> & A1 & L1). cbn [mbind Result_bind].
  destruct (process_day (n - 1) st1 on A1) as (st2 & w & H2 & A2 & W2 & L2 & P2); [by rewrite Z.sub_add|].
  rewrite Z.sub_add in *. rewrite H2. do 2 eexists. split; [reflexivity|]. cbn [tl_latest tl_previous].
  split; [exact A2|]. split; [done|]. split; [by rewrite L2, L1|done].
Qed.
End Timeline.

(** ** The whole chronology *)

(** Dated votes in strictly ascending order. *)
Definition chronology (days : list (string * ReviewTruth)) (ns : list Z) : Prop :=
  Forall2 (λ day n, is_date day.1 n) days ns ∧ StronglySorted Z.lt ns ∧ Forall (λ day, truth_valid day.2 = true) days.

Lemma chronology_keys days ns : chronology days ns → days.*1 = format_days <$> ns.
Proof.
  intros [H _]. induction H as [|[on t] n days ns Hn _ IH]; [done|]. cbn. rewrite IH. f_equal. symmetry. by apply format_days_of_parse.
Qed.

Lemma chronology_NoDup days ns : chronology days ns → NoDup days.*1.
Proof.
  intros H. rewrite (chronology_keys _ _ H). destruct H as (_ & H & _). apply (NoDup_fmap_2_strong).
  - intros m n _ _ E. by apply format_days_inj.
  - induction H as [|n ns Hs IH Hn]; constructor; [|done]. intros Hin. rewrite Forall_forall in Hn. specialize (Hn n Hin). lia.
Qed.

Lemma chronology_vote days ns on t n : chronology days ns → (on, t) ∈ days → is_date on n → vote (list_to_map days) n = t.
Proof.
  intros H Hin Hn. unfold vote. rewrite (format_days_of_parse _ _ Hn).
  by rewrite (elem_of_list_to_map_1 days on t) by (eauto using chronology_NoDup).
Qed.

Lemma chronology_unknown days ns m : chronology days ns → m ∉ ns → vote (list_to_map days) m = ReviewUnknown.
Proof.
  intros H Hm. unfold vote. rewrite (proj1 (not_elem_of_list_to_map days _)); [done|].
  rewrite (chronology_keys _ _ H), list_elem_of_fmap. intros (k & E & Hk). apply format_days_inj in E as ->. done.
Qed.

Lemma chronology_valid days ns m : chronology days ns → truth_valid (vote (list_to_map days) m) = true.
Proof.
  intros (_ & _ & H). unfold vote. destruct (list_to_map days !! format_days m) as [v|] eqn:E; [|done].
  apply elem_of_list_to_map_2 in E. rewrite Forall_forall in H. by apply (H _ E).
Qed.

(** Before the first day every vote of the buffer is unknown. *)
Lemma initial_state width f a : 1 <= width → (∀ m, m <= a → f m = ReviewUnknown) →
  at_day width f a (mkTimeline (replicate (Z.to_nat width) ReviewUnknown) width 0 0 0 0 ∅ 0).
Proof.
  intros Hw Hf.
  assert (Ht : ∀ v, tally v f (window_days a width) = if bool_decide (v = ReviewUnknown) then width else 0).
  { intros v. transitivity ((if bool_decide (v = ReviewUnknown) then 1 else 0) * Z.of_nat (List.length (window_days a width))).
    - assert (Hl : ∀ m, m ∈ window_days a width → f m = ReviewUnknown).
      { intros m Hm. apply list_elem_of_fmap in Hm as (i & -> & Hi). apply elem_of_seqZ in Hi. apply Hf. lia. }
      unfold tally. induction (window_days a width) as [|m l IH]; [cbn; lia|]. rewrite sumZ_cons, IH, (Hl m) by set_solver.
      cbn [List.length]. repeat case_bool_decide; subst; try done; lia.
    - unfold window_days. rewrite length_fmap, length_seqZ. case_bool_decide; lia. }
  unfold at_day. cbn [tl_window tl_head tl_hits tl_falses tl_unknown tl_streak]. rewrite length_replicate, !Ht.
  split; [done|]. split; [lia|]. split; [|do 3 (split; [done|]); split; [done|]; split; [lia|by rewrite Hf by lia]].
  intros i Hi. rewrite Nat.mod_small by done. cbn. rewrite Hf by lia. by apply lookup_replicate_2.
Qed.

Lemma timeline_days width required f todo ns : 1 <= width → (∀ m, truth_valid (f m) = true) →
  Forall2 (λ day n, is_date day.1 n ∧ day.2 = f n) todo ns → StronglySorted Z.lt ns → 0 ∉ ns →
  ∀ a st, at_day width f a st → Forall (Z.lt a) ns →
  ((tl_previous st = 0 ∧ ∀ n, head ns = Some n → n = a + 1) ∨ tl_previous st = utc_midnight a ∧ a ≠ 0 ∧ days_before_year 0 <= a) →
  (∀ m, a < m → m ∉ ns → f m = ReviewUnknown) →
  ∃ st', foldM (timeline_day width required) st todo = Ok st' ∧ dom (tl_latest st') = dom (tl_latest st) ∪ list_to_set todo.*1 ∧
    (∀ key, key ∉ todo.*1 → tl_latest st' !! key = tl_latest st !! key) ∧
    Forall2 (λ day n, ∃ w, tl_latest st' !! day.1 = Some w ∧ is_window width required f n w) todo ns.
Proof.
  intros Hw Hv Hd. induction Hd as [|[on t] n todo ns [Hn Ht] Hd IH]; intros Hs H0 a st Hst Ha Hp Hf.
  { exists st. split; [done|]. split; [set_solver|]. split; [done|constructor]. }
  cbn [fst snd] in Hn, Ht. subst t. apply StronglySorted_inv in Hs as [Hs Hlt]. apply Forall_cons in Ha as [Han Ha].
  rewrite not_elem_of_cons in H0. destruct H0 as [Hn0 H0]. cbn [foldM].
  destruct (timeline_day_step width required f Hw Hv a n st on Hst Hn Han) as (st1 & w & -> & A1 & P1 & L1 & W1).
  { destruct Hp as [[Hp E]|Hp]; [left|by right]. specialize (E n eq_refl). split; [done|lia]. }
  { intros m Hm. apply Hf; [lia|]. rewrite not_elem_of_cons. split; [lia|]. intros Hin. rewrite Forall_forall in Hlt. specialize (Hlt m Hin). lia. }
  destruct (IH Hs H0 n st1 A1 Hlt) as (st2 & H2 & D2 & K2 & W2).
  { right. split; [done|]. split; [congruence|]. pose proof (is_date_range _ _ Hn). lia. }
  { intros m Hm Hin. apply Hf; [lia|]. rewrite not_elem_of_cons. split; [lia|done]. }
  assert (Hon : on ∉ todo.*1).
  { intros Hin. apply list_elem_of_fmap in Hin as ([on' t'] & E & Hin). cbn in E. subst on'.
    apply list_elem_of_lookup_1 in Hin as [i Hi]. destruct (Forall2_lookup_l _ _ _ _ _ Hd Hi) as (k & Hk & Hdk & _). cbn in Hdk.
    assert (k = n) as -> by (unfold is_date in *; congruence). rewrite Forall_forall in Hlt.
    specialize (Hlt n (list_elem_of_lookup_2 _ _ _ Hk)). lia. }
  exists st2. split; [done|]. split; [|split].
  - rewrite D2, L1, dom_insert_L. cbn. set_solver.
  - intros key Hkey. cbn in Hkey. rewrite not_elem_of_cons in Hkey. rewrite K2, L1 by tauto. apply lookup_insert_ne. naive_solver.
  - constructor; [|done]. exists w. cbn [fst]. rewrite K2, L1 by done. split; [apply lookup_insert_eq|done].
Qed.

(** Claim C23.  Over dated votes in ascending order the chronological pass succeeds and gives every day the
    verdict, counts, window and streak that the evaluation of that day alone gives; days
    without a vote count as unknown in both. *)
Theorem EvaluateReviewPolicyTimeline_agrees p q days ns :
  NormalizeTriggerPolicy p = Ok q → chronology days ns → 0 ∉ ns →
  ∃ windows, EvaluateReviewPolicyTimeline p days = Ok windows ∧ dom windows = list_to_set days.*1 ∧
    ∀ on, on ∈ days.*1 → ∃ w, windows !! on = Some w ∧ EvaluateReviewPolicy p on (list_to_map days) = Ok w.
Proof.
  intros Hq Hc H0. pose proof (NormalizeTriggerPolicy_window _ _ Hq) as Hw. unfold EvaluateReviewPolicyTimeline. rewrite Hq.
  cbn [mbind Result_bind]. set (f := vote (list_to_map days)). pose proof (λ m, chronology_valid _ _ m Hc : truth_valid (f m) = true) as Hv.
  assert (Hd : Forall2 (λ day n, is_date day.1 n ∧ day.2 = f n) days ns).
  { destruct Hc as (H & Hs & Ht). apply Forall2_same_length_lookup_2; [by eapply Forall2_length|]. intros i [on t] n Hi Hn.
    pose proof (Forall2_lookup_lr _ _ _ _ _ _ H Hi Hn) as Hon. split; [done|]. symmetry.
    by apply (chronology_vote days ns on); [|apply list_elem_of_lookup_2 with i|]. }
  destruct (policy_window q) as [width required] eqn:Eq. cbn [fst snd] in Hw.
  destruct (timeline_days width required f days ns ltac:(lia) Hv Hd (proj1 (proj2 Hc)) H0
              (default 0 (head ns) - 1) (mkTimeline (replicate (Z.to_nat width) ReviewUnknown) width 0 0 0 0 ∅ 0))
    as (st & -> & D & _ & W).
  - apply initial_state; [lia|]. intros m Hm. apply (chronology_unknown days ns); [done|]. intros Hin.
    destruct ns as [|n ns]; [by apply elem_of_nil in Hin|]. cbn in Hm. destruct Hc as (_ & Hs & _).
    apply StronglySorted_inv in Hs as [_ Hlt]. rewrite Forall_forall in Hlt.
    apply elem_of_cons in Hin as [->|Hin]; [lia|]. specialize (Hlt m Hin). lia.
  - destruct ns as [|n ns]; [done|]. cbn. destruct Hc as (_ & Hs & _). apply StronglySorted_inv in Hs as [_ Hlt].
    constructor; [lia|]. eapply Forall_impl; [exact Hlt|]. cbn. intros; lia.
  - left. split; [done|]. intros n E. rewrite E. cbn. lia.
  - intros m Hm Hin. by apply (chronology_unknown days ns).
  - cbn [mbind Result_bind]. exists (tl_latest st). split; [done|]. split; [rewrite D; set_solver|].
    intros on Hon. apply list_elem_of_fmap in Hon as ([on' t] & -> & Hin). apply list_elem_of_lookup_1 in Hin as [i Hi].
    destruct (Forall2_lookup_l _ _ _ _ _ W Hi) as (n & Hn & w & Hl & Hwin). exists w. cbn [fst] in *. split; [done|].
    destruct (Forall2_lookup_lr _ _ _ _ _ _ Hd Hi Hn) as [Hdate _].
    destruct (EvaluateReviewPolicy_window (list_to_map days) Hv p q on' n Hq Hdate) as (w' & -> & Hw'). rewrite Eq in Hw'. cbn [fst snd] in Hw'.
    f_equal. by eapply is_window_unique.
Qed.
