(* ===== verification/ReviewRule.v ===== *)
(** * Review rules

    [review_rule_spec.go]: the closed format of a rule, its validation and its normal form;
    [review_priority.go].  The encoder of the repository ([jsoncodec]) wraps a library: the
    texts by which conditions are sorted and hashed are a parameter, and decoding a rule from
    JSON is left to it.  Lists that Go sorts in place are returned sorted. *)

From S2P Require Export ReviewPolicy Portfolio Money.
From S2P Require Import DecimalModel.
From Stdlib Require Import String Ascii.

#[global] Open Scope Z_scope.

(** ** The format *)

(** Types of instruments are texts until they are validated. *)
Record ReviewRuleLeaf := mkLeaf {
  rl_Metric : string; rl_Operator : string; rl_Value : string; rl_Currency : CurrencyCode; rl_FXMode : string;
  rl_LookbackDays : Z; rl_InstrumentIDs : list InstrumentID; rl_Types : list string }.

(** A slice that is not nil is [Some], even when it is empty. *)
Inductive ReviewPredicateNode :=
| mkNode (All Any : option (list ReviewPredicateNode)) (Leaf : option ReviewRuleLeaf).

Definition rn_All (n : ReviewPredicateNode) : option (list ReviewPredicateNode) := let 'mkNode a _ _ := n in a.
Definition rn_Any (n : ReviewPredicateNode) : option (list ReviewPredicateNode) := let 'mkNode _ a _ := n in a.
Definition rn_Leaf (n : ReviewPredicateNode) : option ReviewRuleLeaf := let 'mkNode _ _ l := n in l.

Record ReviewRuleTarget := mkTarget { rt_Kind : string; rt_InstrumentIDs : list InstrumentID }.
Record ReviewRuleSchedule := mkRuleSchedule { rs_Period : string; rs_Timezone : string; rs_CutoffVersion : string }.
Record ReviewRuleDataPolicy := mkDataPolicy {
  Missing : string; Calendar : string; QuoteCarry : string; BaselineMaxGapDays : Z; FXReferenceMaxAgeDays : Z;
  FXTimestampMaxAgeHours : Z }.
#[export] Instance ReviewRuleDataPolicy_eq_dec : EqDecision ReviewRuleDataPolicy.
Proof. solve_decision. Defined.

Record ReviewRuleSpec := mkSpec {
  SpecVersion : Z; MetricPolicyVersion : string; Evaluator : string; rs_Target : ReviewRuleTarget;
  Predicate : ReviewPredicateNode; rs_Schedule : ReviewRuleSchedule; TriggerPolicy : ReviewTriggerPolicy;
  DataPolicy : ReviewRuleDataPolicy }.

Definition ReviewSpecVersion : Z := 1.
Definition ReviewMetricPolicyVersion : string := "daily_metrics_v1".
Definition ReviewEvaluator : string := "daily_predicate_v1".
Definition ReviewCutoffVersion : string := "civil_day_end_v1".
Definition DefaultReviewRuleDataPolicy : ReviewRuleDataPolicy :=
  mkDataPolicy "unknown" "all_civil_days" "forbid_for_daily_signal" 7 7 12.

(** [json.Marshal] of a node, and the hexadecimal SHA-256 digest of [json.Marshal] of a rule. *)
Class ReviewCodec := { MarshalNode : ReviewPredicateNode → string; SpecDigest : ReviewRuleSpec → string }.

(** Performance windows of [quote_performance.go], and the types with an annualised return. *)
Definition QuotePeriodWindows : list Z := [7; 30; 90; 180; 365; 0].
Definition ValidQuotePeriodWindow (days : Z) : bool := existsb (λ window, window =? days) QuotePeriodWindows.
Definition SupportsAnnualizedQuoteReturn (t : string) : bool :=
  bool_decide (t ∈ (InstrumentType_String <$> [InstrumentBankInvestmentProduct; InstrumentMutualFund; InstrumentETF])).

(** ** Sets *)

(** [slices.Compact] *)
Fixpoint Compact (l : list string) : list string :=
  match l with
  | [] => []
  | x :: l' => match l' with
    | [] => [x]
    | y :: _ => if bool_decide (x = y) then Compact l' else x :: Compact l'
    end
  end.
Definition sorted_set (l : list string) : list string := Compact (stable_sort String.ltb l).

Definition normalizeReviewIDs (ids : list InstrumentID) : Result (list InstrumentID) :=
  result ← mapM ParseInstrumentID ids;
  Ok (sorted_set result).

(** ** Conditions *)

Section Rules.
Context `{HD : DecimalAPI}.

Definition reviewPercentSyntax := signed_syntax 4 8.

Definition with_ids (l : ReviewRuleLeaf) (ids : list InstrumentID) : ReviewRuleLeaf :=
  mkLeaf (rl_Metric l) (rl_Operator l) (rl_Value l) (rl_Currency l) (rl_FXMode l) (rl_LookbackDays l) ids (rl_Types l).
Definition with_types (l : ReviewRuleLeaf) (types : list string) : ReviewRuleLeaf :=
  mkLeaf (rl_Metric l) (rl_Operator l) (rl_Value l) (rl_Currency l) (rl_FXMode l) (rl_LookbackDays l) (rl_InstrumentIDs l) types.
Definition with_value (l : ReviewRuleLeaf) (value : string) (cur : CurrencyCode) : ReviewRuleLeaf :=
  mkLeaf (rl_Metric l) (rl_Operator l) value cur (rl_FXMode l) (rl_LookbackDays l) (rl_InstrumentIDs l) (rl_Types l).

Definition is_empty (s : string) : bool := bool_decide (s = ""%string).
Definition no_items {A} (l : list A) : bool := match l with [] => true | _ => false end.
Definition count_of {A} (l : list A) : Z := Z.of_nat (List.length l).

(** No threshold, currency, mode or window. *)
Definition no_numbers (l : ReviewRuleLeaf) : bool :=
  is_empty (rl_Value l) && is_empty (rl_Currency l) && is_empty (rl_FXMode l) && (rl_LookbackDays l =? 0).

Definition normalize_instrument (leaf : ReviewRuleLeaf) : Result ReviewRuleLeaf :=
  if negb (bool_decide (rl_Operator leaf ∈ ["in"; "not_in"]%string))
  then Fail (validation "operator" "instrument condition requires in or not_in")
  else if negb (no_numbers leaf) || negb (no_items (rl_Types leaf)) || no_items (rl_InstrumentIDs leaf) ||
          (200 <? count_of (rl_InstrumentIDs leaf))
  then Fail (validation "condition" "invalid instrument condition fields")
  else ids ← normalizeReviewIDs (rl_InstrumentIDs leaf); Ok (with_ids leaf ids).

Definition normalize_type (leaf : ReviewRuleLeaf) : Result ReviewRuleLeaf :=
  if negb (bool_decide (rl_Operator leaf = "in"%string)) || negb (no_numbers leaf) || negb (no_items (rl_InstrumentIDs leaf)) ||
     no_items (rl_Types leaf) || (count_of AllInstrumentTypes <? count_of (rl_Types leaf))
  then Fail (validation "condition" "type condition requires a type set")
  else
    _ ← mapM ParseInstrumentType (rl_Types leaf);
    Ok (with_types leaf (sorted_set (rl_Types leaf))).

Definition normalize_amount (leaf : ReviewRuleLeaf) : Result ReviewRuleLeaf :=
  if negb (rl_LookbackDays leaf =? 0) || negb (bool_decide (rl_FXMode leaf ∈ ["native"; "convert_on_day"]%string))
  then Fail (validation "condition" "amount and cost require a currency comparison mode")
  else
    currency ← ParseSupportedCurrency (rl_Currency leaf);
    value ← ParseMoney (rl_Value leaf) currency;
    if dExponent (amount value) <? - CurrencyFractionDigits currency
    then Fail (validation "value" "threshold exceeds the currency's minor-unit precision")
    else Ok (with_value leaf (CanonicalAmount value) currency).

Definition normalize_percent (leaf : ReviewRuleLeaf) : Result ReviewRuleLeaf :=
  if negb (is_empty (rl_Currency leaf)) || negb (is_empty (rl_FXMode leaf)) ||
     negb (ValidQuotePeriodWindow (rl_LookbackDays leaf)) || (rl_LookbackDays leaf =? 0) || negb (reviewPercentSyntax (rl_Value leaf))
  then Fail (validation "condition" "invalid performance threshold or lookback")
  else match dNewFromString (rl_Value leaf) with
  | None => Fail (validation "value" "invalid percentage")
  | Some value =>
    if bool_decide (rl_Metric leaf = "price_change"%string) && dLessThan value (dInt (-100))
    then Fail (validation "value" "price change cannot be below -100%")
    else if dGreaterThan value (dInt 10000) || dLessThan value (dInt (-10000))
    then Fail (validation "value" "percentage is outside the supported range")
    else Ok (with_value leaf (canonicalDecimal value) (rl_Currency leaf))
  end.

Definition amount_metrics : list string := ["amount"; "cost"]%string.
Definition numeric_metrics : list string := ["amount"; "cost"; "price_change"; "annualized"]%string.

Definition normalizeReviewLeaf (leaf : ReviewRuleLeaf) : Result ReviewRuleLeaf :=
  if bool_decide (rl_Metric leaf = "instrument"%string) then normalize_instrument leaf
  else if bool_decide (rl_Metric leaf = "type"%string) then normalize_type leaf
  else if bool_decide (rl_Metric leaf ∈ numeric_metrics) then
    if negb (bool_decide (rl_Operator leaf ∈ [">"; ">="; "<"; "<="]%string))
    then Fail (validation "operator" "use >, >=, <, or <=")
    else if negb (no_items (rl_InstrumentIDs leaf)) || negb (no_items (rl_Types leaf))
    then Fail (validation "condition" "numeric condition cannot contain a set")
    else if bool_decide (rl_Metric leaf ∈ amount_metrics) then normalize_amount leaf
    else normalize_percent leaf
  else Fail (validation "metric" "unsupported daily condition").

(** ** Impossible intervals *)

Record bound := mkBound { bd_value : Decimal; bd_strict : bool }.

(** Lower and upper bound per metric, window, currency and mode; the key of the source is the
    text of these four. *)
Definition interval_key : Type := string * Z * CurrencyCode * string.

(** The tighter of a bound and a new one, [better] comparing their values. *)
Definition tighter (better : Decimal → Decimal → bool) (current : option bound) (new : bound) : option bound :=
  match current with
  | None => Some new
  | Some b => if better (bd_value new) (bd_value b) || (dEqual (bd_value new) (bd_value b) && bd_strict new) then Some new else Some b
  end.

Definition interval_step (intervals : gmap interval_key (option bound * option bound)) (child : ReviewPredicateNode)
    : gmap interval_key (option bound * option bound) :=
  match rn_Leaf child with
  | None => intervals
  | Some leaf =>
    if negb (bool_decide (rl_Metric leaf ∈ numeric_metrics)) then intervals
    else
      let value := default dZero (dNewFromString (rl_Value leaf)) in
      let key := (rl_Metric leaf, rl_LookbackDays leaf, rl_Currency leaf, rl_FXMode leaf) in
      let '(lower, upper) := default (None, None) (intervals !! key) in
      let new := mkBound value (bool_decide (rl_Operator leaf ∈ [">"; "<"]%string)) in
      if bool_decide (rl_Operator leaf ∈ [">"; ">="]%string)
      then <[key := (tighter dGreaterThan lower new, upper)]> intervals
      else <[key := (lower, tighter dLessThan upper new)]> intervals
  end.

Definition impossible (interval : option bound * option bound) : bool :=
  match interval with
  | (Some lower, Some upper) =>
    dGreaterThan (bd_value lower) (bd_value upper) ||
    (dEqual (bd_value lower) (bd_value upper) && (bd_strict lower || bd_strict upper))
  | _ => false
  end.

Definition validateReviewNumericIntervals (children : list ReviewPredicateNode) : Result unit :=
  let intervals := fold_left interval_step children ∅ in
  if existsb (λ e, impossible e.2) (map_to_list intervals)
  then Fail (validation "predicate" "numeric conditions have an impossible interval")
  else Ok tt.

(** ** The tree *)

Context `{RC : ReviewCodec}.

Definition node_less (a b : ReviewPredicateNode) : bool := String.ltb (MarshalNode a) (MarshalNode b).

(** [unique]: a child whose text is that of the last one kept is dropped. *)
Definition keep_unique (unique : list ReviewPredicateNode) (item : ReviewPredicateNode) : list ReviewPredicateNode :=
  match last unique with
  | Some previous => if bool_decide (MarshalNode previous = MarshalNode item) then unique else unique ++ [item]
  | None => [item]
  end.
Definition unique_nodes (normalized : list ReviewPredicateNode) : list ReviewPredicateNode :=
  fold_left keep_unique (stable_sort node_less normalized) [].

(** The children one after the other, with the counter of leaves. *)
Definition normalize_children (normalize : ReviewPredicateNode → Z → Result (ReviewPredicateNode * Z)) (children : list ReviewPredicateNode)
    (leaves : Z) : Result (list ReviewPredicateNode * Z) :=
  foldM (λ '(normalized, leaves) child,
    '(item, leaves) ← normalize child leaves; Ok (normalized ++ [item], leaves)) ([], leaves) children.

Definition shapes (node : ReviewPredicateNode) : Z :=
  (if rn_All node then 1 else 0) + (if rn_Any node then 1 else 0) + (if rn_Leaf node then 1 else 0).

Definition no_node : goerror := validation "predicate" "at most two group levels are supported".

(** Groups are refused from depth two, so [levels], the levels that are left, starts at two
    and the recursion ends. *)
Fixpoint normalize_node (levels : nat) (node : ReviewPredicateNode) (depth leaves : Z) : Result (ReviewPredicateNode * Z) :=
  if negb (shapes node =? 1) then Fail (validation "predicate" "each node needs exactly one of all, any, or leaf")
  else match rn_Leaf node with
  | Some leaf =>
    if depth =? 0 then Fail (validation "predicate" "root must be an all or any group")
    else if 20 <? leaves + 1 then Fail (validation "predicate" "at most 20 conditions are supported")
    else leaf ← normalizeReviewLeaf leaf; Ok (mkNode None None (Some leaf), leaves + 1)
  | None =>
    match levels with
    | O => Fail no_node
    | S levels =>
      let children := match rn_Any node with Some any => any | None => default [] (rn_All node) end in
      if no_items children || (20 <? count_of children) then Fail (validation "predicate" "a group needs 1–20 children")
      else
        '(normalized, leaves) ← normalize_children (λ child leaves, normalize_node levels child (depth + 1) leaves) children leaves;
        let unique := unique_nodes normalized in
        match rn_All node with
        | Some _ => _ ← validateReviewNumericIntervals unique; Ok (mkNode (Some unique) None None, leaves)
        | None => Ok (mkNode None (Some unique) None, leaves)
        end
    end
  end.
Definition normalizeReviewPredicate (node : ReviewPredicateNode) : Result (ReviewPredicateNode * Z) := normalize_node 2 node 0 0.

(** A child that limits its siblings to types with an annualised return. *)
Definition type_gate (child : ReviewPredicateNode) : bool :=
  match rn_Leaf child with
  | Some leaf => bool_decide (rl_Metric leaf = "type"%string) && bool_decide (rl_Operator leaf = "in"%string) &&
                 negb (no_items (rl_Types leaf)) && forallb SupportsAnnualizedQuoteReturn (rl_Types leaf)
  | None => false
  end.

Fixpoint reviewAnnualizedScoped (node : ReviewPredicateNode) (supportedOnly : bool) : bool :=
  let 'mkNode all any leaf := node in
  match leaf with
  | Some leaf => negb (bool_decide (rl_Metric leaf = "annualized"%string)) || supportedOnly
  | None =>
    let supportedOnly := match all with Some l => supportedOnly || existsb type_gate l | None => supportedOnly end in
    match any with
    | Some l => forallb (λ child, reviewAnnualizedScoped child supportedOnly) l
    | None => match all with Some l => forallb (λ child, reviewAnnualizedScoped child supportedOnly) l | None => true end
    end
  end.

(** ** The rule *)

Context `{TZ : TimeZones}.

Definition normalize_target (target : ReviewRuleTarget) : Result ReviewRuleTarget :=
  if bool_decide (rt_Kind target = "all_current"%string) then
    if no_items (rt_InstrumentIDs target) then Ok target
    else Fail (validation "target" "all-current target cannot include instrument IDs")
  else if bool_decide (rt_Kind target = "instruments"%string) then
    if no_items (rt_InstrumentIDs target) || (200 <? count_of (rt_InstrumentIDs target))
    then Fail (validation "target" "select 1–200 instrument IDs")
    else ids ← normalizeReviewIDs (rt_InstrumentIDs target); Ok (mkTarget (rt_Kind target) ids)
  else Fail (validation "target" "unsupported target kind").

(** [ReviewRuleSpec.Normalize] *)
Definition NormalizeRuleSpec (s : ReviewRuleSpec) : Result ReviewRuleSpec :=
  let schedule := rs_Schedule s in
  if negb (SpecVersion s =? ReviewSpecVersion) || negb (bool_decide (MetricPolicyVersion s = ReviewMetricPolicyVersion)) ||
     negb (bool_decide (Evaluator s = ReviewEvaluator))
  then Fail (validation "specVersion" "unsupported daily review rule version")
  else if negb (bool_decide (rs_Period schedule = "calendar_day"%string)) ||
          negb (bool_decide (rs_CutoffVersion schedule = ReviewCutoffVersion)) ||
          negb (bool_decide (TrimSpace (rs_Timezone schedule) = rs_Timezone schedule)) || is_empty (rs_Timezone schedule) ||
          bool_decide (rs_Timezone schedule = "Local"%string)
  then Fail (validation "schedule" "a fixed IANA timezone and civil-day cutoff are required")
  else match LoadLocation (rs_Timezone schedule) with
  | None => Fail (validation "timezone" "must be an available IANA timezone")
  | Some _ =>
    if negb (bool_decide (DataPolicy s = DefaultReviewRuleDataPolicy))
    then Fail (validation "dataPolicy" "unsupported daily evidence admission policy")
    else
      policy ← NormalizeTriggerPolicy (TriggerPolicy s);
      target ← normalize_target (rs_Target s);
      '(predicate, _) ← normalizeReviewPredicate (Predicate s);
      if negb (reviewAnnualizedScoped predicate false)
      then Fail (validation "predicate" "annualized conditions require explicit supported price/NAV types in the same all group")
      else Ok (mkSpec (SpecVersion s) (MetricPolicyVersion s) (Evaluator s) target predicate schedule policy (DataPolicy s))
  end.

Definition SemanticHash (s : ReviewRuleSpec) : Result string :=
  normalized ← NormalizeRuleSpec s;
  Ok (SpecDigest normalized).
End Rules.

(** ** Priorities *)

Definition NormalizeReviewPriority (value : string) : string * bool :=
  if bool_decide (value = "p0"%string) then ("p0"%string, true)
  else if bool_decide (value ∈ ["p1"; "warning"]%string) then ("p1"%string, true)
  else if bool_decide (value ∈ ["p2"; "notice"]%string) then ("p2"%string, true)
  else (""%string, false).

Definition ReviewPriorityRank (value : string) : Z :=
  let priority := (NormalizeReviewPriority value).1 in
  if bool_decide (priority = "p0"%string) then 0 else if bool_decide (priority = "p1"%string) then 1 else 2.

Definition ReviewLegacySeverity (value : string) : string :=
  if ReviewPriorityRank value <? 2 then "warning" else "notice".
