(* ===== verification/ReviewEpisode.v ===== *)
(** * Review episodes

    [review_episode.go] and [review_suppression.go] of the domain, with the latest closed day
    and the civil cutoff of [review_daily_evidence.go], and the coordination of a rule's
    episodes in [review_lifecycle_plan.go] of the application.  An episode opens on the first
    day a policy is true, survives days on which nothing is known, and closes when a day is
    proven false, the position is closed or the rule is archived.

    [LoadFinancialLocation] caches [time.LoadLocation]; the cache is not visible.  The fresh
    identifier of a new episode is an argument. *)

From S2P Require Export ReviewPolicy Portfolio.
From S2P Require Import DecimalModel.
From Stdlib Require Import String Ascii.

#[global] Open Scope Z_scope.

(** ** Episodes *)

Record ReviewEpisodeIdentity := mkEpisode {
  ep_ID : string; TriggeredOn : string; FirstDetectedAt : Time; AcknowledgedAt : option Time;
  ResolvedAt : option Time; ResolvedReason : string }.

Record ReviewEpisodeDecision := mkDecision {
  dc_Current : option ReviewEpisodeIdentity; dc_Closed : option ReviewEpisodeIdentity; dc_Opened : bool; dc_State : ReviewTruth }.

Definition bad_policy_vote : goerror := validation "policyByDay" "unsupported policy truth value".

Definition resolved (e : ReviewEpisodeIdentity) (at_ : Time) (reason : string) : ReviewEpisodeIdentity :=
  mkEpisode (ep_ID e) (TriggeredOn e) (FirstDetectedAt e) (AcknowledgedAt e) (Some at_) reason.

(** The loop over the days, with [lastProvenFalse] and [firstTrueSinceFalse]. *)
Definition episode_day (policyByDay : gmap string ReviewTruth) (st : string * string) (day : Z) : Result (string * string) :=
  let '(lastProvenFalse, firstTrueSinceFalse) := st in
  let on := format_days day in
  let state := vote policyByDay day in
  if negb (truth_valid state) then Fail bad_policy_vote
  else if bool_decide (state = ReviewFalse) then Ok (on, ""%string)
  else if bool_decide (state = ReviewTrue) && bool_decide (firstTrueSinceFalse = ""%string) then Ok (lastProvenFalse, on)
  else Ok st.

(** An open episode that is covered from its first day. *)
Definition existing_covered (first last : Z) (e : ReviewEpisodeIdentity) : bool :=
  negb (bool_decide (ep_ID e = ""%string)) && bool_decide (ResolvedAt e = None) &&
  match ParseDate (TriggeredOn e) with Some triggered => (first <=? triggered) && (triggered <=? last) | None => false end.

(** [closeReason], empty when the episode stays open. *)
Definition close_reason (currentQuantityKnown currentHeld archived : bool) (existing : option ReviewEpisodeIdentity)
    (lastProvenFalse : string) : string :=
  if archived then "rule_archived"
  else if currentQuantityKnown && negb currentHeld then "position_closed"
  else match existing with
  | Some e => if negb (String.ltb lastProvenFalse (TriggeredOn e)) then "recovered" else ""
  | None => ""
  end.

Definition close_episode (existing : option ReviewEpisodeIdentity) (closeReason : string) (detectedAt : Time)
    : option ReviewEpisodeIdentity :=
  match existing with
  | Some e => if bool_decide (closeReason = ""%string) then None else Some (resolved e detectedAt closeReason)
  | None => None
  end.

Definition AdvanceReviewEpisode (firstOn latestClosedOn : string) (policyByDay : gmap string ReviewTruth)
    (currentQuantityKnown currentHeld archived : bool) (existing : option ReviewEpisodeIdentity) (nextID : string)
    (detectedAt : Time) : Result ReviewEpisodeDecision :=
  match ParseDate firstOn with
  | None => Fail (validation "firstOn" "must be a valid ISO civil date")
  | Some first =>
  match ParseDate latestClosedOn with
  | None => Fail (validation "latestClosedOn" "must be on or after firstOn")
  | Some last =>
    if last <? first then Fail (validation "latestClosedOn" "must be on or after firstOn")
    else if timeIsZero detectedAt then Fail (validation "detectedAt" "must be an actual reconciliation time")
    else if match existing with Some e => negb (existing_covered first last e) | None => false end
    then Fail (validation "existingEpisode" "needs an open identity and coverage from its trigger date")
    else
      let state := default ReviewUnknown (policyByDay !! latestClosedOn) in
      if negb (truth_valid state) then Fail bad_policy_vote
      else
        '(lastProvenFalse, firstTrueSinceFalse) ← foldM (episode_day policyByDay) (""%string, ""%string) (seqZ first (last - first + 1));
        let closed := close_episode existing (close_reason currentQuantityKnown currentHeld archived existing lastProvenFalse) detectedAt in
        let retained := match closed with Some _ => None | None => existing end in
        if archived || negb currentQuantityKnown || negb currentHeld || negb (bool_decide (state = ReviewTrue))
        then Ok (mkDecision retained closed false state)
        else match retained with
        | Some e => Ok (mkDecision (Some e) closed false state)
        | None =>
          if bool_decide (nextID = ""%string) || bool_decide (firstTrueSinceFalse = ""%string)
          then Fail (validation "nextEpisodeID" "a new episode needs a stable ID and a proven trigger day")
          else Ok (mkDecision (Some (mkEpisode nextID firstTrueSinceFalse detectedAt None None "")) closed true state)
        end
  end
  end.

(** ** Days of a rule *)

Section Calendar.
Context `{TZ : TimeZones}.

Definition ReviewLatestClosedDay (now : Time) (timezone : string) : Result string :=
  if timeIsZero now then Fail (validation "now" "an evaluation time is required")
  else match LoadLocation timezone with
  | None => Fail (validation "timezone" "must be an available IANA timezone")
  | Some location => Ok (format_days (day_of (wall location now) - 1))
  end.

Definition ReviewCivilCutoff (on timezone : string) : Result Time :=
  match ParseDate on with
  | None => Fail (validation "on" "must be a valid ISO civil date")
  | Some day =>
    match LoadLocation timezone with
    | None => Fail (validation "timezone" "must be an available IANA timezone")
    | Some location =>
      last ← ResolveCivilDateCutoff (utc_midnight day) location;
      Ok (last + Millisecond)
    end
  end.

(** ** Suppressions *)

Record ReviewSuppression := mkSuppression {
  sup_ID : string; sup_HouseholdID : HouseholdID; sup_InstrumentID : InstrumentID; sup_RuleID : string; sup_Mode : string;
  UntilOn : string; sup_Timezone : string; sup_Revision : Z; sup_CreatedAt : Time; sup_UpdatedAt : Time }.

Definition ReviewSuppressionUntil (now : Time) (timezone : string) (days : Z) (customUntil : string) : Result string :=
  if timeIsZero now then Fail (validation "now" "an operation time is required")
  else match LoadLocation timezone with
  | None => Fail (validation "timezone" "a fixed IANA timezone is required")
  | Some location =>
    if bool_decide (timezone = "Local"%string) then Fail (validation "timezone" "a fixed IANA timezone is required")
    else if (days =? 0) && bool_decide (customUntil = ""%string) then Ok ""%string
    else if ((negb (days =? 7) && negb (days =? 30)) || negb (bool_decide (customUntil = ""%string))) &&
            (negb (days =? 0) || bool_decide (customUntil = ""%string))
    then Fail (validation "untilOn" "choose permanent, 7/30 days, or one future date")
    else
      let today := day_of (wall location now) in
      let until := if negb (days =? 0) then format_days (today + days) else customUntil in
      _ ← ReviewCivilCutoff until timezone;
      if negb (String.ltb (format_days today) until) then Fail (validation "untilOn" "resume day must be in the future")
      else Ok until
  end.

(** The order in which active suppressions replace one another. *)
Definition stronger (item chosen : ReviewSuppression) : bool :=
  (bool_decide (sup_Mode item = "permanent"%string) && negb (bool_decide (sup_Mode chosen = "permanent"%string))) ||
  (bool_decide (sup_Mode item = sup_Mode chosen) && String.ltb (UntilOn chosen) (UntilOn item)).

Definition suppression_step (instrumentID : InstrumentID) (ruleID : string) (now : Time)
    (chosen : option ReviewSuppression) (item : ReviewSuppression) : Result (option ReviewSuppression) :=
  if negb (bool_decide (sup_InstrumentID item = instrumentID)) ||
     (negb (bool_decide (sup_RuleID item = ""%string)) && negb (bool_decide (sup_RuleID item = ruleID)))
  then Ok chosen
  else match LoadLocation (sup_Timezone item) with
  | None => Fail (validation "timezone" "suppression has an invalid IANA timezone")
  | Some location =>
    if bool_decide (sup_Timezone item = "Local"%string) then Fail (validation "timezone" "suppression has an invalid IANA timezone")
    else
      active ← (if bool_decide (sup_Mode item = "until_date"%string) then
                  _ ← ReviewCivilCutoff (UntilOn item) (sup_Timezone item);
                  Ok (String.ltb (FormatDate (wall location now)) (UntilOn item))
                else if negb (bool_decide (sup_Mode item = "permanent"%string)) || negb (bool_decide (UntilOn item = ""%string))
                then Fail (validation "suppression" "invalid suppression mode or resume date")
                else Ok true);
      if negb active then Ok chosen
      else match chosen with
      | None => Ok (Some item)
      | Some c => Ok (Some (if stronger item c then item else c))
      end
  end.

Definition ActiveReviewSuppression (entries : list ReviewSuppression) (instrumentID : InstrumentID) (ruleID : string)
    (now : Time) : Result (option ReviewSuppression) :=
  if timeIsZero now then Fail (validation "now" "an evaluation time is required")
  else foldM (suppression_step instrumentID ruleID now) None entries.
End Calendar.

Definition ReviewEpisodeActionable (masterEnabled ruleEnabled currentHeld acknowledged : bool) (policyState : ReviewTruth)
    (suppression : option ReviewSuppression) : bool :=
  masterEnabled && ruleEnabled && currentHeld && negb acknowledged &&
  match suppression with Some _ => false | None => true end &&
  bool_decide (policyState = ReviewTrue).
