(* ===== verification/ReviewEpisodeLaws.v ===== *)
(** * What happens to an episode

    Advancing an episode never fails on valid votes; an open episode is closed exactly when the
    rule is archived, the position is gone, or a day since its first one is proven false, and a
    new one opens on the first day since then that is proven true.  The strongest suppression
    that applies wins, whatever the order in which they are stored. *)

From S2P Require Export ReviewEpisode.
From S2P Require Import ReviewPolicyLaws MarketDates Ordering.
From Stdlib Require Import String Ascii.

#[global] Open Scope Z_scope.

(** ** Runs of votes *)

Section Runs.
Context (f : Z → ReviewTruth).

(** The last false day of the range, and the first true day after it. *)
Definition last_false (first last : Z) (o : option Z) : Prop :=
  match o with
  | Some n => first <= n <= last ∧ f n = ReviewFalse ∧ ∀ m, n < m <= last → f m ≠ ReviewFalse
  | None => ∀ m, first <= m <= last → f m ≠ ReviewFalse
  end.

(** [n] opens the run of votes that is not interrupted by a false one up to [last]. *)
Definition opens (first last n : Z) : Prop :=
  first <= n <= last ∧ f n = ReviewTrue ∧ (∀ m, n <= m <= last → f m ≠ ReviewFalse) ∧
  ∀ m, first <= m < n → f m = ReviewTrue → ∃ k, m < k < n ∧ f k = ReviewFalse.

Definition run_open (first last : Z) (o : option Z) : Prop :=
  match o with
  | Some n => opens first last n
  | None => ∀ m, first <= m <= last → f m = ReviewTrue → ∃ k, m < k <= last ∧ f k = ReviewFalse
  end.

Lemma opens_unique first last n m : opens first last n → opens first last m → n = m.
Proof.
  intros (Hn & Tn & Fn & On) (Hm & Tm & Fm & Om). destruct (Z.lt_trichotomy n m) as [H|[H|H]]; [|done|].
  - destruct (Om n ltac:(lia) Tn) as (k & Hk & Ek). by destruct (Fn k ltac:(lia)).
  - destruct (On m ltac:(lia) Tm) as (k & Hk & Ek). by destruct (Fm k ltac:(lia)).
Qed.

Lemma run_open_None first last n : run_open first last None → opens first last n → False.
Proof. intros H (Hn & T & Fn & _). destruct (H n Hn T) as (k & Hk & Ek). by destruct (Fn k ltac:(lia)). Qed.

Definition day_text (o : option Z) : string := match o with Some n => format_days n | None => "" end.

(** One more day. *)
Lemma last_false_next first last o : last_false first last o → first <= last + 1 →
  last_false first (last + 1) (if bool_decide (f (last + 1) = ReviewFalse) then Some (last + 1) else o).
Proof.
  intros H Hl. case_bool_decide as E; [split; [lia|]; split; [done|]; intros; lia|].
  destruct o as [n|]; [destruct H as (Hn & Fn & Gn); split; [lia|]; split; [done|]|];
    intros m Hm; (destruct (Z.eq_dec m (last + 1)) as [->|]; [done|]); [apply Gn|apply H]; lia.
Qed.

Lemma run_open_next first last o : run_open first last o → first <= last + 1 →
  run_open first (last + 1)
    (match f (last + 1) with ReviewFalse => None | ReviewTrue => match o with Some n => Some n | None => Some (last + 1) end | _ => o end).
Proof.
  intros H Hl.
  assert (Hkeep : f (last + 1) ≠ ReviewFalse → ∀ n, opens first last n → opens first (last + 1) n).
  { intros E n (Hn & Tn & Fn & On). split; [lia|]. split; [done|]. split; [|done]. intros m Hm.
    destruct (Z.eq_dec m (last + 1)) as [->|]; [done|]. apply Fn. lia. }
  assert (Hnone : f (last + 1) ≠ ReviewTrue → o = None → run_open first (last + 1) None).
  { intros E -> m Hm Tm. destruct (Z.eq_dec m (last + 1)) as [->|]; [done|]. destruct (H m ltac:(lia) Tm) as (k & Hk & Ek).
    exists k. split; [lia|done]. }
  destruct (f (last + 1)) eqn:E; cbn [run_open].
  - destruct o as [n|]; [by apply Hkeep|by apply Hnone].
  - destruct o as [n|]; [by apply Hkeep|]. split; [lia|]. split; [done|]. split; [intros m Hm; replace m with (last + 1) by lia; congruence|].
    intros m Hm Tm. destruct (H m ltac:(lia) Tm) as (k & Hk & Ek). exists k. split; [lia|done].
  - intros m Hm Tm. destruct (Z.eq_dec m (last + 1)) as [->|]; [congruence|]. exists (last + 1). split; [lia|done].
  - destruct o as [n|]; [by apply Hkeep|by apply Hnone].
Qed.
End Runs.

Lemma format_days_nonempty n : format_days n ≠ ""%string.
Proof.
  unfold format_days. destruct (civil_of_days n) as [[y m] d]. unfold format_civil. intros E. apply (f_equal slen) in E.
  rewrite slen_app, slen_cons in E. change (slen "") with 0 in E. pose proof (slen_nonneg (format_year y)).
  pose proof (slen_nonneg (pad_digits 2 m +:+ String "-" (pad_digits 2 d))). lia.
Qed.

(** The loop over the days finds both. *)
Lemma episode_days policyByDay first k : let f := vote policyByDay in (∀ m, truth_valid (f m) = true) →
  ∃ lastF firstT, foldM (episode_day policyByDay) (""%string, ""%string) (seqZ first (Z.of_nat k)) = Ok (day_text lastF, day_text firstT) ∧
    last_false f first (first + Z.of_nat k - 1) lastF ∧ run_open f first (first + Z.of_nat k - 1) firstT.
Proof.
  intros f Hv.
  induction k as [|k (lastF & firstT & Hf & HF & HT)].
  - exists None, None. split; [done|]. split; intros m Hm; lia.
  - replace (Z.of_nat (S k)) with (Z.of_nat k + 1) by lia. rewrite seqZ_app by lia.
    change (seqZ (first + Z.of_nat k) 1) with [0 + (first + Z.of_nat k)]. rewrite Z.add_0_l.
    rewrite foldM_app, Hf. cbn [foldM]. set (l := first + Z.of_nat k - 1) in *. replace (first + Z.of_nat k) with (l + 1) by (unfold l; lia).
    replace (first + (Z.of_nat k + 1) - 1) with (l + 1) by (unfold l; lia).
    pose proof (last_false_next f first l lastF HF ltac:(unfold l; lia)) as HF'.
    pose proof (run_open_next f first l firstT HT ltac:(unfold l; lia)) as HT'.
    do 2 eexists. split; [|split; [exact HF'|exact HT']]. unfold episode_day. fold f. rewrite Hv. cbn [negb].
    destruct (f (l + 1)) eqn:E; repeat case_bool_decide; try done.
    + destruct firstT as [n|]; [by destruct (format_days_nonempty n)|done].
    + destruct firstT as [n|]; [done|]. cbn in *. done.
Qed.

(** ** One reconciliation *)

(** Why an open episode closes, if it does. *)
Inductive closes (f : Z → ReviewTruth) (known held archived : bool) (triggered last : Z) : string → Prop :=
| closes_archived : archived = true → closes f known held archived triggered last "rule_archived"
| closes_position : archived = false → known = true → held = false → closes f known held archived triggered last "position_closed"
| closes_recovered m : archived = false → known && negb held = false → triggered <= m <= last → f m = ReviewFalse →
    closes f known held archived triggered last "recovered".

Lemma recovered_iff votes first last lastF e t :
  let f := vote votes in
  is_date (format_days first) first → is_date (format_days last) last →
  last_false f first last lastF → is_date (TriggeredOn e) t → first <= t <= last →
  negb (String.ltb (day_text lastF) (TriggeredOn e)) = true ↔ ∃ m, t <= m <= last ∧ f m = ReviewFalse.
Proof.
  intros f Hfirst Hlast HF Ht Hr. destruct lastF as [n|]; cbn [day_text].
  - destruct HF as (Hn & Fn & Gn). rewrite (date_ltb _ _ n t) by eauto using is_date_between.
    rewrite negb_true_iff, Z.ltb_ge. split.
    + intros H. exists n. split; [lia|done].
    + intros (m & Hm & Fm). destruct (Z.le_gt_cases t n); [done|]. by destruct (Gn m ltac:(lia)).
  - split.
    + destruct (date_graphic _ _ Ht) as [_ Hne]. destruct (TriggeredOn e); [done|discriminate].
    + intros (m & Hm & Fm). by destruct (HF m ltac:(lia)).
Qed.

Lemma close_reason_spec votes first last lastF e t known held archived r :
  let f := vote votes in
  is_date (format_days first) first → is_date (format_days last) last →
  last_false f first last lastF → is_date (TriggeredOn e) t → first <= t <= last →
  close_reason known held archived (Some e) (day_text lastF) = r ∧ r ≠ ""%string ↔ closes f known held archived t last r.
Proof.
  intros f Hfirst Hlast HF Ht Hr. pose proof (recovered_iff votes first last lastF e t Hfirst Hlast HF Ht Hr) as Hrec.
  unfold close_reason. destruct archived; [split; [intros [<- _]; by constructor|by inversion 1]|].
  destruct (known && negb held) eqn:Ek.
  - apply andb_prop in Ek as [-> Hh]. apply negb_true_iff in Hh as ->. split; [intros [<- _]; by constructor|by inversion 1].
  - destruct (negb (String.ltb (day_text lastF) (TriggeredOn e))) eqn:El.
    + destruct (proj1 Hrec eq_refl) as (m & Hm & Fm). split; [intros [<- _]; by econstructor|].
      inversion 1 as [|? E1 E2|]; subst; done.
    + split; [intros [<- []]; done|]. inversion 1 as [|? E1 E2|m ? ? Hm Fm]; subst; [done..|].
      exfalso. assert (false = true) by (apply Hrec; by exists m). done.
Qed.

Section Advance.
Context (votes : gmap string ReviewTruth) (firstOn latestOn : string) (first last : Z).
Let f := vote votes.
Context (Hfirst : is_date firstOn first) (Hlast : is_date latestOn last) (Hle : first <= last).
Context (Hvalid : ∀ m, truth_valid (f m) = true).
Context (known held archived : bool) (nextID : string) (at_ : Time) (Hid : nextID ≠ ""%string) (Hat : at_ ≠ 0).

(** What becomes of the episode that is open, and of the one that may open. *)
Definition advanced (existing : option ReviewEpisodeIdentity) (d : ReviewEpisodeDecision) : Prop :=
  match existing with
  | None => dc_Closed d = None
  | Some e => ∀ t c, is_date (TriggeredOn e) t →
      dc_Closed d = Some c ↔ ∃ reason, closes f known held archived t last reason ∧ c = resolved e at_ reason
  end ∧
  match existing, dc_Closed d with
  | Some e, None => dc_Current d = Some e ∧ dc_Opened d = false
  | _, _ =>
    if known && held && negb archived && bool_decide (f last = ReviewTrue)
    then ∃ n, opens f first last n ∧ dc_Opened d = true ∧ dc_Current d = Some (mkEpisode nextID (format_days n) at_ None None "")
    else dc_Current d = None ∧ dc_Opened d = false
  end.

(** The end of the function, [retained] being the episode that stays open. *)
Lemma advance_end retained closed firstT : run_open f first last firstT → ∃ d,
  (if archived || negb known || negb held || negb (bool_decide (f last = ReviewTrue))
   then Ok (mkDecision retained closed false (f last))
   else match retained with
   | Some e => Ok (mkDecision (Some e) closed false (f last))
   | None =>
     if bool_decide (nextID = ""%string) || bool_decide (day_text firstT = ""%string)
     then Fail (validation "nextEpisodeID" "a new episode needs a stable ID and a proven trigger day")
     else Ok (mkDecision (Some (mkEpisode nextID (day_text firstT) at_ None None "")) closed true (f last))
   end) = Ok d ∧ dc_Closed d = closed ∧ dc_State d = f last ∧
  match retained with
  | Some e => dc_Current d = Some e ∧ dc_Opened d = false
  | None =>
    if known && held && negb archived && bool_decide (f last = ReviewTrue)
    then ∃ n, opens f first last n ∧ dc_Opened d = true ∧ dc_Current d = Some (mkEpisode nextID (format_days n) at_ None None "")
    else dc_Current d = None ∧ dc_Opened d = false
  end.
Proof.
  intros HT. destruct (known && held && negb archived && bool_decide (f last = ReviewTrue)) eqn:E.
  - prop_bool. subst. rewrite bool_decide_eq_true_2 by done. cbn [orb negb]. destruct retained as [e|]; [by eexists|].
    rewrite bool_decide_eq_false_2 by done. destruct firstT as [n|].
    + cbn [day_text orb]. rewrite bool_decide_eq_false_2 by apply format_days_nonempty. eexists. split; [reflexivity|].
      do 2 (split; [done|]). by exists n.
    + destruct (HT last ltac:(lia)) as (k & Hk & _); [done|]. lia.
  - assert (archived || negb known || negb held || negb (bool_decide (f last = ReviewTrue)) = true) as ->.
    { revert E. clear. destruct archived, known, held, (bool_decide (f last = ReviewTrue)); done. }
    eexists. split; [reflexivity|]. do 2 (split; [done|]). by destruct retained.
Qed.

Lemma AdvanceReviewEpisode_result existing : match existing with Some e => existing_covered first last e = true | None => True end →
  ∃ d, AdvanceReviewEpisode firstOn latestOn votes known held archived existing nextID at_ = Ok d ∧
    advanced existing d ∧ dc_State d = f last.
Proof.
  intros Hex. unfold AdvanceReviewEpisode.
  pose proof (format_days_of_parse _ _ Hfirst) as Ef. pose proof (format_days_of_parse _ _ Hlast) as El.
  unfold is_date in Hfirst, Hlast. rewrite Hfirst, Hlast, (proj2 (Z.ltb_ge _ _)) by lia.
  unfold timeIsZero. rewrite (proj2 (Z.eqb_neq _ _)) by done.
  assert (match existing with Some e => negb (existing_covered first last e) | None => false end = false) as ->.
  { destruct existing; [by rewrite Hex|done]. }
  assert (default ReviewUnknown (votes !! latestOn) = f last) as -> by (unfold f, vote; by rewrite El).
  rewrite Hvalid. cbn [negb].
  destruct (episode_days votes first (Z.to_nat (last - first + 1)) Hvalid) as (lastF & firstT & Hfold & HF & HT).
  replace (Z.of_nat (Z.to_nat (last - first + 1))) with (last - first + 1) in * by lia.
  replace (first + (last - first + 1) - 1) with last in * by lia. rewrite Hfold. cbn [mbind Result_bind].
  set (closed := close_episode existing _ at_).
  destruct (advance_end (match closed with Some _ => None | None => existing end) closed firstT HT) as (d & -> & Ec & Es & Hd).
  exists d. split; [done|]. split; [|done]. unfold advanced. rewrite Ec. split.
  - destruct existing as [e|]; [|done]. intros t c Ht. unfold existing_covered in Hex. unfold is_date in Ht. rewrite Ht in Hex. prop_bool.
    assert (Hspec : ∀ r, _) by (intros r; exact (close_reason_spec votes first last lastF e t known held archived r
      ltac:(by rewrite Ef) ltac:(by rewrite El) HF Ht ltac:(lia))). cbn zeta in Hspec.
    clear Hd. unfold closed, close_episode. case_bool_decide as Er.
    + split; [done|]. intros (r & Hr & _). apply Hspec in Hr as [Hr Hne]. congruence.
    + split; [intros [= <-]; eexists; split; [apply Hspec; split; [reflexivity|done]|done]|].
      intros (r & Hr & ->). apply Hspec in Hr as [<- _]. done.
  - destruct existing as [e|]; [|done]. by destruct closed.
Qed.
End Advance.

(** Advancing an episode over valid votes always succeeds.  The open episode is closed exactly
    when the rule is archived, the known position is gone, or some day since it was triggered is
    proven false; otherwise it keeps its identity and acknowledgement, unknown days included.
    When none is open any more, the position is held and the last day is true, a new episode
    opens on the first true day since the last false one, and in no other case. *)
Theorem AdvanceReviewEpisode_correct votes firstOn latestOn first last known held archived nextID at_ existing :
  is_date firstOn first → is_date latestOn last → first <= last → (∀ m, truth_valid (vote votes m) = true) →
  nextID ≠ ""%string → at_ ≠ 0 → (∀ e, existing = Some e → existing_covered first last e = true) →
  ∃ d, AdvanceReviewEpisode firstOn latestOn votes known held archived existing nextID at_ = Ok d ∧
    advanced votes first last known held archived nextID at_ existing d ∧ dc_State d = vote votes last.
Proof.
  intros Hf Hl Hle Hv Hid Hat Hex. apply AdvanceReviewEpisode_result; [done..|]. destruct existing as [e|]; [by apply Hex|done].
Qed.
