(* ===== verification/ReviewDaily.v ===== *)
(** * The daily vote of a rule

    [review_daily_evidence.go]: a rule is evaluated on one instrument and one civil day.  What
    is not known on that day stays unknown; a rate is admitted only when it is recent enough.
    The performance of a price over a window is computed elsewhere and arrives as evidence. *)

From S2P Require Export ReviewRule ReviewEpisode MarketPolicy.
From S2P Require Import DecimalModel.
From Stdlib Require Import String Ascii.

#[global] Open Scope Z_scope.

(** The record of [quote_performance.go]. *)
Record QuotePerformance := mkPerformance {
  qp_WindowDays : Z; BaselineOn : string; AsOfOn : string; LatestOn : string; ElapsedDays : Z; PeriodPercent : string;
  AnnualizedPercent : option string }.

Section Daily.
Context `{HD : DecimalAPI} `{TZ : TimeZones} `{RC : ReviewCodec}.

(** ** Admission of an exchange rate *)

Record ReviewSelectedFX := mkSelectedFX { sf_Quote : FXQuote; EconomicKind : string }.

(** An empty direction is [None]. *)
Record ReviewFXAdmission := mkAdmission {
  ad_Known : bool; ad_Rate : string; ad_QuoteID : string; ad_Direction : option FXMappingStatus;
  ad_EffectiveDate : string; ad_EffectiveAt : Time; AgeDays : Z; ad_Reason : string }.

Definition refused_fx (quoteID reason : string) : ReviewFXAdmission := mkAdmission false "" quoteID None "" 0 0 reason.

(** A daily reference, by its date; the result is its date and age or the reason. *)
Definition reference_age (q : FXQuote) (on : string) (policy : ReviewRuleDataPolicy) : string * Z + string :=
  if negb (bool_decide (fq_ObservationKind q ∈ ["close"; "daily_reference"]%string)) then inr "fx_date_untrusted"%string
  else match ParseDate (fq_EffectiveDate q) with
  | None => inr "fx_date_untrusted"%string
  | Some _ =>
    if String.ltb on (fq_EffectiveDate q) then inr "fx_date_untrusted"%string
    else match CivilDaysBetween (fq_EffectiveDate q) on with
    | Fail _ => inr "fx_stale"%string
    | Ok age => if (age <? 0) || (FXReferenceMaxAgeDays policy <? age) then inr "fx_stale"%string else inl (fq_EffectiveDate q, age)
    end
  end.

(** A timestamped rate, by its instant. *)
Definition timestamp_fresh (q : FXQuote) (cutoff : Time) (policy : ReviewRuleDataPolicy) : option string :=
  if timeIsZero (fq_ValueEffectiveAt q) || negb (fq_ValueEffectiveAt q <? cutoff) then Some "fx_time_untrusted"%string
  else if FXTimestampMaxAgeHours policy * Hour <? timeSub cutoff (fq_ValueEffectiveAt q) then Some "fx_stale"%string
  else None.

Definition AdmitReviewFX (native comparison : CurrencyCode) (selected : option ReviewSelectedFX) (on timezone : string)
    (policy : ReviewRuleDataPolicy) : Result ReviewFXAdmission :=
  cutoff ← ReviewCivilCutoff on timezone;
  _ ← ParseSupportedCurrency native;
  _ ← ParseSupportedCurrency comparison;
  if bool_decide (native = comparison) then Ok (mkAdmission true "1" "" (Some FXMappingIdentity) "" 0 0 "")
  else match selected with
  | None => Ok (refused_fx "" "fx_missing")
  | Some selected =>
    let q := sf_Quote selected in
    let evidence : string * Time * Z + string :=
      if bool_decide (EconomicKind selected = "daily_reference"%string) then
        match reference_age q on policy with inl (date, age) => inl (date, 0, age) | inr reason => inr reason end
      else if bool_decide (EconomicKind selected = "timestamped"%string) then
        match timestamp_fresh q cutoff policy with None => inl (""%string, fq_ValueEffectiveAt q, 0) | Some reason => inr reason end
      else inr "fx_date_untrusted"%string in
    match evidence with
    | inr reason => Ok (refused_fx (fq_ID q) reason)
    | inl (date, at_, age) =>
      mapping ← MapFXRate native comparison (BaseCurrency q) (QuoteCurrency q) (r_canonical (Rate q));
      match fm_Status mapping, fm_Rate mapping with
      | FXMappingUnsupported, _ | _, None => Ok (mkAdmission false "" (fq_ID q) None date at_ age (fm_Reason mapping))
      | status, Some rate => Ok (mkAdmission true (r_canonical rate) (fq_ID q) (Some status) date at_ age "")
      end
    end
  end.

(** ** Evidence *)

(** [None] is an unknown fact; types of instruments are texts. *)
Record ReviewDailyInput := mkDailyInput {
  di_On : string; di_InstrumentID : InstrumentID; di_FXProviderKey : string; di_Quantity : option string;
  di_InstrumentType : option string; NativeCurrency : option CurrencyCode; AmountExact : option string;
  CostExact : option string; Performance : gmap Z QuotePerformance; SelectedFX : gmap CurrencyCode ReviewSelectedFX }.

Record ReviewDailyLeafEvidence := mkEvidence {
  le_Metric : string; le_Truth : ReviewTruth; Actual : string; Threshold : string; le_Currency : CurrencyCode;
  le_Reason : string; EffectiveOn : string; le_BaselineOn : string; le_FX : option ReviewFXAdmission }.

(** The field [Predicate], which is set only when a vote is shown, is left out. *)
Record ReviewDailyResult := mkDailyResult { dr_On : string; dr_Truth : ReviewTruth; Leaves : list ReviewDailyLeafEvidence }.

Definition reviewBool (value : bool) : ReviewTruth := if value then ReviewTrue else ReviewFalse.

Definition reviewCompare (actual threshold : Decimal) (op : string) : bool :=
  if bool_decide (op = ">"%string) then dGreaterThan actual threshold
  else if bool_decide (op = ">="%string) then negb (dLessThan actual threshold)
  else if bool_decide (op = "<"%string) then dLessThan actual threshold
  else negb (dGreaterThan actual threshold).

Section Leaf.
Context (leaf : ReviewRuleLeaf) (input : ReviewDailyInput) (spec : ReviewRuleSpec).

Definition leaf_evidence (truth : ReviewTruth) (actual reason baseline : string) (fx : option ReviewFXAdmission) : ReviewDailyLeafEvidence :=
  mkEvidence (rl_Metric leaf) truth actual (rl_Value leaf) (rl_Currency leaf) reason (di_On input) baseline fx.
Definition unknown_leaf (reason : string) : ReviewDailyLeafEvidence := leaf_evidence ReviewUnknown "" reason "" None.

Definition threshold : Decimal := default dZero (dNewFromString (rl_Value leaf)).

(** The amount in the currency of the condition, or the evidence that it is not known. *)
Definition comparison_amount (exact : Decimal) (native : CurrencyCode)
    : Result (Decimal * option ReviewFXAdmission + ReviewDailyLeafEvidence) :=
  if bool_decide (rl_FXMode leaf = "native"%string) then
    if negb (bool_decide (native = rl_Currency leaf)) then Ok (inr (unknown_leaf "currency_mismatch")) else Ok (inl (exact, None))
  else
    fx ← AdmitReviewFX native (rl_Currency leaf) (SelectedFX input !! rl_Currency leaf) (di_On input)
           (rs_Timezone (rs_Schedule spec)) (DataPolicy spec);
    if negb (ad_Known fx) then Ok (inr (leaf_evidence ReviewUnknown "" (ad_Reason fx) "" (Some fx)))
    else Ok (inl (dMul exact (default dZero (dNewFromString (ad_Rate fx))), Some fx)).

Definition evaluate_amount : Result ReviewDailyLeafEvidence :=
  match (if bool_decide (rl_Metric leaf = "cost"%string) then CostExact input else AmountExact input), NativeCurrency input with
  | Some value, Some native =>
    match dNewFromString value with
    | None => Fail (validation (rl_Metric leaf) "historical monetary input is invalid")
    | Some exact =>
      if dIsNegative exact then Fail (validation (rl_Metric leaf) "historical monetary input is invalid")
      else match ParseNativeAmount (dString exact) with
      | Fail _ => Ok (unknown_leaf "historical_amount_unknown")
      | Ok _ =>
        converted ← comparison_amount exact native;
        match converted with
        | inr evidence => Ok evidence
        | inl (exact, fx) =>
          match NewMoney exact (rl_Currency leaf) with
          | Fail (DomainErr e) =>
            if bool_decide (Code e = ErrDecimalOverflow) then Ok (leaf_evidence ReviewUnknown "" "historical_amount_unknown" "" fx)
            else Fail (DomainErr e)
          | Fail e => Fail e
          | Ok money =>
            Ok (leaf_evidence (reviewBool (reviewCompare (amount money) threshold (rl_Operator leaf)))
                  (dStringFixed (amount money) 4) "" "" fx)
          end
        end
      end
    end
  | _, _ => Ok (unknown_leaf "historical_amount_unknown")
  end.

Definition evaluate_percent : Result ReviewDailyLeafEvidence :=
  let annualized := bool_decide (rl_Metric leaf = "annualized"%string) in
  if annualized && negb (match di_InstrumentType input with Some kind => SupportsAnnualizedQuoteReturn kind | None => false end)
  then Ok (unknown_leaf "unsupported_instrument")
  else match Performance input !! rl_LookbackDays leaf with
  | None => Ok (unknown_leaf "daily_performance_unknown")
  | Some performance =>
    if (negb (bool_decide (LatestOn performance = di_On input)) && negb (bool_decide (AsOfOn performance = di_On input))) ||
       negb (qp_WindowDays performance =? rl_LookbackDays leaf) || (ElapsedDays performance <=? 0)
    then Ok (unknown_leaf "daily_performance_unknown")
    else match ParseDate (di_On input) with
    | None => Fail (OtherErr "parsing time")
    | Some endpoint =>
      let too_old := Ok (unknown_leaf "baseline_too_old") in
      match CivilDaysBetween (BaselineOn performance) (format_days (endpoint - rl_LookbackDays leaf)) with
      | Fail _ => too_old
      | Ok gap =>
        if (gap <? 0) || (BaselineMaxGapDays (DataPolicy spec) <? gap) then too_old
        else
          let baseline := BaselineOn performance in
          match (if annualized then AnnualizedPercent performance else Some (PeriodPercent performance)) with
          | None => Ok (leaf_evidence ReviewUnknown "" "annualized_unavailable" baseline None)
          | Some value =>
            match dNewFromString value with
            | None => Fail (validation (rl_Metric leaf) "invalid performance evidence")
            | Some actual =>
              Ok (leaf_evidence (reviewBool (reviewCompare actual threshold (rl_Operator leaf))) (dString actual) "" baseline None)
            end
          end
      end
    end
  end.

Definition evaluateReviewLeaf : Result ReviewDailyLeafEvidence :=
  if bool_decide (rl_Metric leaf = "instrument"%string) then
    let contains := bool_decide (di_InstrumentID input ∈ rl_InstrumentIDs leaf) in
    let contains := if bool_decide (rl_Operator leaf = "not_in"%string) then negb contains else contains in
    Ok (leaf_evidence (reviewBool contains) "" "" "" None)
  else if bool_decide (rl_Metric leaf = "type"%string) then
    match di_InstrumentType input with
    | None => Ok (unknown_leaf "historical_type_unknown")
    | Some kind => Ok (leaf_evidence (reviewBool (bool_decide (kind ∈ rl_Types leaf))) kind "" "" None)
    end
  else if bool_decide (rl_Metric leaf ∈ amount_metrics) then evaluate_amount
  else if bool_decide (rl_Metric leaf ∈ ["price_change"; "annualized"]%string) then evaluate_percent
  else Ok (unknown_leaf "").
End Leaf.

(** ** The vote *)

(** The evidence of the leaves is collected from left to right. *)
Fixpoint evaluateReviewNode (input : ReviewDailyInput) (spec : ReviewRuleSpec) (node : ReviewPredicateNode)
    (evidence : list ReviewDailyLeafEvidence) : Result (ReviewTruth * list ReviewDailyLeafEvidence) :=
  let 'mkNode all any leaf := node in
  let children := fix children (l : list ReviewPredicateNode) (evidence : list ReviewDailyLeafEvidence)
      : Result (list ReviewTruth * list ReviewDailyLeafEvidence) :=
    match l with
    | [] => Ok ([], evidence)
    | child :: l =>
      '(truth, evidence) ← evaluateReviewNode input spec child evidence;
      '(values, evidence) ← children l evidence;
      Ok (truth :: values, evidence)
    end in
  match leaf with
  | Some leaf => item ← evaluateReviewLeaf leaf input spec; Ok (le_Truth item, evidence ++ [item])
  | None =>
    match all, any with
    | Some l, _ => '(values, evidence) ← children l evidence; Ok (ReviewAll values, evidence)
    | None, Some l => '(values, evidence) ← children l evidence; Ok (ReviewAny values, evidence)
    | None, None => Ok (ReviewAny [], evidence)
    end
  end.

Definition EvaluateReviewDaily (spec : ReviewRuleSpec) (input : ReviewDailyInput) : Result ReviewDailyResult :=
  spec ← NormalizeRuleSpec spec;
  match ParseDate (di_On input) with
  | None => Fail (validation "on" "must be a valid ISO civil date")
  | Some _ =>
    let target := rs_Target spec in
    if bool_decide (rt_Kind target = "instruments"%string) && negb (bool_decide (di_InstrumentID input ∈ rt_InstrumentIDs target))
    then Ok (mkDailyResult (di_On input) ReviewFalse [])
    else
      quantity ← match di_Quantity input with
        | None => Ok ReviewUnknown
        | Some text => q ← ParseQuantity text; Ok (reviewBool (dIsPositive (q_value q)))
        end;
      if bool_decide (quantity = ReviewFalse) then Ok (mkDailyResult (di_On input) ReviewFalse [])
      else
        '(predicate, leaves) ← evaluateReviewNode input spec (Predicate spec) [];
        Ok (mkDailyResult (di_On input) (ReviewAll [quantity; predicate]) leaves)
  end.
End Daily.
