(* ===== verification/ReviewDailyLaws.v ===== *)
(** * What the daily vote means

    The vote of a rule is true (false) exactly when its conditions hold (fail) however the
    unknown facts of the day turn out, and the position is known and held. *)

From S2P Require Export ReviewDaily.
From S2P Require Import ReviewPolicyLaws DecimalModel.
From Stdlib Require Import String Ascii.

#[global] Open Scope Z_scope.

(** ** Induction over conditions *)

Section NodeInd.
Context (P : ReviewPredicateNode → Prop).
Context (H : ∀ all any leaf, (∀ l, all = Some l → Forall P l) → (∀ l, any = Some l → Forall P l) → P (mkNode all any leaf)).

Fixpoint node_induction (n : ReviewPredicateNode) : P n :=
  let all_of := fix all_of (l : list ReviewPredicateNode) : Forall P l :=
    match l with [] => Forall_nil_2 P | x :: l => Forall_cons_2 P x l (node_induction x) (all_of l) end in
  match n with
  | mkNode all any leaf =>
    H all any leaf
      (λ l E, match all as o return o = Some l → Forall P l with
              | Some k => λ E, eq_ind k (Forall P) (all_of k) l (f_equal (default k) E) | None => λ E, match E with eq_refl => I end end E)
      (λ l E, match any as o return o = Some l → Forall P l with
              | Some k => λ E, eq_ind k (Forall P) (all_of k) l (f_equal (default k) E) | None => λ E, match E with eq_refl => I end end E)
  end.
End NodeInd.

Section Votes.
Context `{HD : DecimalAPI} `{TZ : TimeZones} `{RC : ReviewCodec}.

(** ** The two-valued meaning of the conditions *)

Fixpoint holds (g : ReviewRuleLeaf → bool) (node : ReviewPredicateNode) : bool :=
  let 'mkNode all any leaf := node in
  match leaf with
  | Some leaf => g leaf
  | None =>
    match all, any with
    | Some l, _ => forallb (holds g) l
    | None, Some l => existsb (holds g) l
    | None, None => false
    end
  end.

Lemma holds_mono g h node : (∀ leaf, g leaf = true → h leaf = true) → holds g node = true → holds h node = true.
Proof.
  intros Hgh. induction node as [all any leaf Ha Hy] using node_induction. cbn [holds].
  destruct leaf as [leaf|]; [apply Hgh|]. destruct all as [l|]; [|destruct any as [l|]; [|done]].
  - specialize (Ha l eq_refl). rewrite !forallb_forall. intros H x Hx. rewrite Forall_forall in Ha.
    apply Ha; [by apply list_elem_of_In|by apply H].
  - specialize (Hy l eq_refl). rewrite !existsb_exists. intros (x & Hx & H). exists x. split; [done|].
    rewrite Forall_forall in Hy. apply Hy; [by apply list_elem_of_In|done].
Qed.

Section Node.
Context (input : ReviewDailyInput) (spec : ReviewRuleSpec).

(** [g] gives the leaves with a known truth that truth. *)
Definition respects (g : ReviewRuleLeaf → bool) : Prop :=
  ∀ leaf item, evaluateReviewLeaf leaf input spec = Ok item →
    (le_Truth item = ReviewTrue → g leaf = true) ∧ (le_Truth item = ReviewFalse → g leaf = false).

Definition leaf_is (v : ReviewTruth) (leaf : ReviewRuleLeaf) : bool :=
  match evaluateReviewLeaf leaf input spec with Ok item => bool_decide (le_Truth item = v) | Fail _ => false end.
Definition least : ReviewRuleLeaf → bool := leaf_is ReviewTrue.
Definition greatest : ReviewRuleLeaf → bool := λ leaf, negb (leaf_is ReviewFalse leaf).

Lemma respects_least : respects least.
Proof. intros leaf item E. unfold least, leaf_is. rewrite E. split; intros Ht; rewrite Ht; by case_bool_decide. Qed.
Lemma respects_greatest : respects greatest.
Proof. intros leaf item E. unfold greatest, leaf_is. rewrite E. split; intros Ht; rewrite Ht; by case_bool_decide. Qed.

Lemma always_holds node : holds least node = true ↔ ∀ g, respects g → holds g node = true.
Proof.
  split; [|intros H; apply H, respects_least]. intros H g Hg. revert H. apply holds_mono. intros leaf. unfold least, leaf_is.
  destruct (evaluateReviewLeaf leaf input spec) as [item|] eqn:E; [|done]. intros Ht. prop_bool. by apply (Hg leaf item E).
Qed.

Lemma never_holds node : holds greatest node = false ↔ ∀ g, respects g → holds g node = false.
Proof.
  split; [|intros H; apply H, respects_greatest]. intros H g Hg. apply not_true_is_false. intros Hn. apply not_true_iff_false in H.
  apply H. revert Hn. apply holds_mono. intros leaf Hl. unfold greatest, leaf_is.
  destruct (evaluateReviewLeaf leaf input spec) as [item|] eqn:E; [|done]. case_bool_decide as Ht; [|done].
  destruct (Hg leaf item E) as [_ Hf]. specialize (Hf Ht). congruence.
Qed.

(** The evaluation of a list of children. *)
Fixpoint evaluate_children (l : list ReviewPredicateNode) (evidence : list ReviewDailyLeafEvidence)
    : Result (list ReviewTruth * list ReviewDailyLeafEvidence) :=
  match l with
  | [] => Ok ([], evidence)
  | child :: l =>
    '(truth, evidence) ← evaluateReviewNode input spec child evidence;
    '(values, evidence) ← evaluate_children l evidence;
    Ok (truth :: values, evidence)
  end.

Lemma evaluateReviewNode_unfold all any leaf evidence :
  evaluateReviewNode input spec (mkNode all any leaf) evidence =
  match leaf with
  | Some leaf => item ← evaluateReviewLeaf leaf input spec; Ok (le_Truth item, evidence ++ [item])
  | None =>
    match all, any with
    | Some l, _ => '(values, evidence) ← evaluate_children l evidence; Ok (ReviewAll values, evidence)
    | None, Some l => '(values, evidence) ← evaluate_children l evidence; Ok (ReviewAny values, evidence)
    | None, None => Ok (ReviewAny [], evidence)
    end
  end.
Proof. reflexivity. Qed.

Definition sound (node : ReviewPredicateNode) (t : ReviewTruth) : Prop :=
  (t = ReviewTrue ↔ holds least node = true) ∧ (t = ReviewFalse ↔ holds greatest node = false).

Lemma evaluate_children_sound l evidence values evidence' :
  Forall (λ node, ∀ evidence t evidence', evaluateReviewNode input spec node evidence = Ok (t, evidence') → sound node t) l →
  evaluate_children l evidence = Ok (values, evidence') → Forall2 sound l values.
Proof.
  intros HF. revert evidence values. induction HF as [|node l Hn _ IH]; intros evidence values H; cbn [evaluate_children] in H.
  - injection H as <- _. constructor.
  - inv_ok. destruct x as [t e1]. cbv beta iota in H. inv_ok. destruct x as [vs e2]. cbv beta iota in H. inv_ok. subst.
    constructor; [by eapply Hn|by eapply IH].
Qed.

Lemma Forall2_exists (l : list ReviewPredicateNode) (values : list ReviewTruth) (v : ReviewTruth) (p : ReviewPredicateNode → bool) :
  Forall2 (λ node t, t = v ↔ p node = true) l values → v ∈ values ↔ existsb p l = true.
Proof.
  induction 1 as [|node t l values Hp _ IH]; cbn [existsb]; [split; [intros H; by apply elem_of_nil in H|done]|].
  rewrite elem_of_cons, orb_true_iff, IH, <-Hp. naive_solver.
Qed.

Lemma evaluateReviewNode_sound node evidence t evidence' :
  evaluateReviewNode input spec node evidence = Ok (t, evidence') → sound node t.
Proof.
  revert evidence t evidence'. induction node as [all any leaf Ha Hy] using node_induction. intros evidence t evidence'.
  rewrite evaluateReviewNode_unfold. unfold sound. cbn [holds]. destruct leaf as [leaf|].
  - intros H. inv_ok. subst. unfold least, greatest, leaf_is. rewrite E, negb_false_iff, !bool_decide_eq_true. done.
  - assert (Hflip : ∀ l values, Forall2 sound l values →
      (Forall (λ v, v = ReviewTrue) values ↔ forallb (holds least) l = true) ∧
      (ReviewFalse ∈ values ↔ forallb (holds greatest) l = false) ∧
      (ReviewTrue ∈ values ↔ existsb (holds least) l = true) ∧
      (Forall (λ v, v = ReviewFalse) values ↔ existsb (holds greatest) l = false)).
    { intros l values H. split_and!.
      - induction H as [|node v l values [H1 H2] _ IH]; [done|]. cbn [forallb]. rewrite Forall_cons, andb_true_iff, IH, H1. done.
      - rewrite (Forall2_exists l values ReviewFalse (λ node, negb (holds greatest node))).
        + clear H. induction l as [|node l IH]; [done|]. cbn [existsb forallb]. destruct (holds greatest node); [exact IH|done].
        + eapply Forall2_impl; [exact H|]. intros node v [_ H2]. by rewrite H2, negb_true_iff.
      - apply Forall2_exists. eapply Forall2_impl; [exact H|]. by intros node v [H1 _].
      - induction H as [|node v l values [H1 H2] _ IH]; [done|]. cbn [existsb]. rewrite Forall_cons, orb_false_iff, IH, H2. done. }
    destruct all as [l|]; [|destruct any as [l|]].
    + intros H. inv_ok. destruct x as [values e1]. cbv beta iota in H. inv_ok. subst.
      destruct (Hflip l values (evaluate_children_sound l _ _ _ (Ha l eq_refl) E)) as (H1 & H2 & _).
      destruct (ReviewAll_correct values) as [-> ->]. done.
    + intros H. inv_ok. destruct x as [values e1]. cbv beta iota in H. inv_ok. subst.
      destruct (Hflip l values (evaluate_children_sound l _ _ _ (Hy l eq_refl) E)) as (_ & _ & H3 & H4).
      destruct (ReviewAny_correct values) as [-> ->]. done.
    + intros [= <- _]. done.
Qed.
End Node.

(** Claim C21.  The vote of a day is true exactly when the instrument is a target, its quantity is known
    to be positive, and the conditions hold however the leaves that are unknown turn out; it is
    false exactly when the instrument is not a target, the quantity is known not to be positive,
    or the conditions fail however the unknown leaves turn out. *)
Theorem EvaluateReviewDaily_correct spec normal input r :
  EvaluateReviewDaily spec input = Ok r → NormalizeRuleSpec spec = Ok normal →
  let target := rs_Target normal in
  let targeted := rt_Kind target = "instruments"%string → di_InstrumentID input ∈ rt_InstrumentIDs target in
  let held b := ∃ text q, di_Quantity input = Some text ∧ ParseQuantity text = Ok q ∧ dIsPositive (q_value q) = b in
  (dr_Truth r = ReviewTrue ↔
     targeted ∧ held true ∧ ∀ g, respects input normal g → holds g (Predicate normal) = true) ∧
  (dr_Truth r = ReviewFalse ↔
     ¬ targeted ∨ held false ∨ targeted ∧ ∀ g, respects input normal g → holds g (Predicate normal) = false).
Proof.
  intros H Hn target targeted held. unfold EvaluateReviewDaily in H. rewrite Hn in H. cbn [mbind Result_bind] in H.
  destruct (ParseDate (di_On input)); [|discriminate]. fold target in H.
  destruct (bool_decide (rt_Kind target = "instruments"%string) && negb (bool_decide (di_InstrumentID input ∈ rt_InstrumentIDs target))) eqn:Et.
  { injection H as <-. prop_bool. assert (¬ targeted) by (unfold targeted; tauto). cbn [dr_Truth]. naive_solver. }
  assert (Htar : targeted).
  { intros Hk. rewrite (bool_decide_eq_true_2 _ Hk) in Et. cbn [andb] in Et. by apply negb_false_iff, bool_decide_eq_true in Et. }
  apply bind_Ok in H as (quantity & Hq & H).
  assert (Hheld : (quantity = ReviewTrue ↔ held true) ∧ (quantity = ReviewFalse ↔ held false)).
  { unfold held. destruct (di_Quantity input) as [text|].
    - apply bind_Ok in Hq as (q & Hp & Hq). injection Hq as <-. unfold reviewBool.
      destruct (dIsPositive (q_value q)) eqn:Ep; split; (split; [intros ?; by exists text, q|]); try done;
        intros (text' & q' & [= <-] & Hp' & Ep'); congruence.
    - injection Hq as <-. split; (split; [done|intros (? & ? & ? & _); done]). }
  destruct Hheld as [Ht Hf]. case_bool_decide as Eq.
  - injection H as <-. cbn [dr_Truth]. assert (held false) by (by apply Hf). assert (¬ held true) by (intros H1; apply Ht in H1; congruence).
    naive_solver.
  - apply bind_Ok in H as ([predicate leaves] & Hp & H). injection H as <-. cbn [dr_Truth].
    apply evaluateReviewNode_sound in Hp as [P1 P2]. rewrite always_holds in P1. rewrite never_holds in P2.
    destruct (ReviewAll_correct [quantity; predicate]) as [-> ->]. rewrite !Forall_cons, Forall_nil, !elem_of_cons, elem_of_nil.
    rewrite Ht, <-P1. split; [naive_solver|]. rewrite <-P2, <-Hf. naive_solver.
Qed.
End Votes.
