(* ===== verification/DailyPrices.v ===== *)
(** * Daily prices and their change

    [quote_performance.go]: one closing price per civil day, chosen by the rank of its source;
    the change of the price over a window, with or without annualisation; the daily series that
    the review of a day reads, and the series that the chart of an instrument shows. *)

From S2P Require Export ReviewDaily MarketDates QuoteHistory.
From S2P Require Import DecimalModel.
From Stdlib Require Import String Ascii.

#[global] Open Scope Z_scope.

(** [sort.Search]: the least index in [i, j) at which [f] holds, or [j]; the interval is
    halved in every turn, so that its length is enough fuel. *)
Fixpoint search_between (turns : nat) (f : nat → bool) (i j : nat) : nat :=
  match turns with
  | O => i
  | S turns =>
    if (i <? j)%nat then
      let h := Nat.div2 (i + j) in
      if f h then search_between turns f i h else search_between turns f (h + 1) j
    else i
  end.
Definition Search (n : nat) (f : nat → bool) : nat := search_between n f 0 n.

Inductive quotePerformanceKind := quotePerformanceNAV | quotePerformancePrice.
#[export] Instance quotePerformanceKind_eq_dec : EqDecision quotePerformanceKind.
Proof. solve_decision. Defined.

(** Every type of the list of known ones is supported; [None] is any other. *)
Definition quotePerformanceMode (t : option InstrumentType) : option quotePerformanceKind :=
  match t with
  | None => None
  | Some (InstrumentMutualFund | InstrumentBankInvestmentProduct) => Some quotePerformanceNAV
  | Some _ => Some quotePerformancePrice
  end.

Definition YahooRawClosePriceBasis : string := "yahoo_close_v1".

Definition performancePriceBasis (t : InstrumentType) (basis : string) : bool :=
  bool_decide (basis = "agent_raw_close_v1"%string) ||
  match t with
  | InstrumentStock | InstrumentETF => archivedRawCloseBasis basis || bool_decide (basis = YahooRawClosePriceBasis)
  | InstrumentPreciousMetal => bool_decide (basis = YahooRawClosePriceBasis)
  | InstrumentCrypto => bool_decide (basis = CoinGeckoDailyPriceBasis) || bool_decide (basis = YahooRawClosePriceBasis)
  | _ => false
  end.

Definition DailyPriceUnit (t : InstrumentType) (basis : string) : string :=
  if performancePriceBasis t basis then "raw_close" else ("basis:" +:+ basis)%string.

(** All three kinds of sources are accepted. *)
Definition performanceSource (source : QuoteSourceKind) : bool :=
  bool_decide (source = QuoteSourceAgent) || bool_decide (source = QuoteSourceManual) || bool_decide (source = QuoteSourceProvider).

Definition performanceTimestamp (t : InstrumentType) (basis : string) : bool :=
  bool_decide (basis ∈ ["date_label"; "source_timestamp"; "session_close"]%string) ||
  match t with
  | InstrumentPreciousMetal => bool_decide (basis = "policy_derived"%string)
  | InstrumentCrypto => bool_decide (basis ∈ ["policy_derived"; "observed_publication"]%string)
  | _ => false
  end.

Definition performanceSourceRank (source : QuoteSourceKind) : Z :=
  match source with QuoteSourceAgent => 3 | QuoteSourceManual => 2 | QuoteSourceProvider => 1 end.

Definition sameDailyPriceUnit (t : InstrumentType) (mode : quotePerformanceKind) (previous current : string) : bool :=
  bool_decide (previous = current) ||
  (bool_decide (mode = quotePerformancePrice) && performancePriceBasis t previous && performancePriceBasis t current).

Section Prices.
Context `{HD : DecimalAPI}.

Definition splitFactorOne (text : string) : bool :=
  match dNewFromString text with Some value => dEqual value (dInt 1) | None => false end.

Definition quoteAdjustmentPresent (text : string) : bool :=
  if bool_decide (text = ""%string) then false
  else match dNewFromString text with Some value => negb (dIsZero value) | None => true end.

(** ** One price per day *)

(** The condition under which a price replaces the one that was kept for its date. *)
Definition replaces (q old : InstrumentQuote) : bool :=
  (performanceSourceRank (iq_SourceKind old) <? performanceSourceRank (iq_SourceKind q)) ||
  (bool_decide (iq_SourceKind q = iq_SourceKind old) &&
   ((iq_Revision old <? iq_Revision q) ||
    ((iq_Revision q =? iq_Revision old) &&
     ((iq_CreatedAt old <? iq_CreatedAt q) ||
      ((iq_CreatedAt q =? iq_CreatedAt old) && String.ltb (iq_ID old) (iq_ID q)))))).

Definition daily_close (q : InstrumentQuote) : bool :=
  match ParseDate (iq_EffectiveDate q) with Some _ => bool_decide (iq_ObservationKind q = "close"%string) | None => false end.

Definition keep_daily (byDate : gmap string InstrumentQuote) (q : InstrumentQuote) : gmap string InstrumentQuote :=
  if daily_close q then
    match byDate !! iq_EffectiveDate q with
    | Some old => if replaces q old then <[iq_EffectiveDate q := q]> byDate else byDate
    | None => <[iq_EffectiveDate q := q]> byDate
    end
  else byDate.

Definition date_less (a b : InstrumentQuote) : bool := String.ltb (iq_EffectiveDate a) (iq_EffectiveDate b).

(** The dates are distinct, so that the order in which a Go map is visited does not show. *)
Definition dailyPerformanceQuotes (quotes : list InstrumentQuote) : list InstrumentQuote :=
  stable_sort date_less (snd <$> map_to_list (fold_left keep_daily quotes ∅)).

(** ** The change over a window *)

Definition priceWindowPercent (base latest : Decimal) (elapsed : Z) : string * string :=
  let period := dMul (dSub (dDivRound latest base 24) (dInt 1)) (dInt 100) in
  let annual := dDivRound (dMul period (dInt 365)) (dInt elapsed) 12 in
  (dString period, dString annual).

Section Instrument.
Context (i : Instrument).

(** The conditions on every price of the window, by mode. *)
Definition comparable_basis (mode : quotePerformanceKind) (q : InstrumentQuote) : bool :=
  let price := p_value (iq_UnitPrice q) in
  let unsplit := negb (quoteAdjustmentPresent (iq_SplitFactor q)) || splitFactorOne (iq_SplitFactor q) in
  match mode with
  | quotePerformanceNAV =>
    dIsPositive price && bool_decide (iq_PriceBasis q = "agent_unit_nav_v1"%string) &&
    negb (quoteAdjustmentPresent (iq_DividendCash q)) && unsplit
  | quotePerformancePrice => negb (dIsNegative price) && performancePriceBasis (i_Type i) (iq_PriceBasis q) && unsplit
  end.

Definition comparable_identity (q : InstrumentQuote) : bool :=
  bool_decide (iq_Currency q = i_QuoteCurrency i) && (iq_BindingRevision q =? ProviderBindingRevision i) &&
  performanceSource (iq_SourceKind q) && performanceTimestamp (i_Type i) (iq_TimestampBasis q).

Definition comparable_quote (mode : quotePerformanceKind) (q : InstrumentQuote) : bool :=
  comparable_identity q && comparable_basis mode q.

(** The number of points up to a date, by binary search among the first [n]. *)
Definition points_through (points : list InstrumentQuote) (n : nat) (date : string) : nat :=
  Search n (λ k, match points !! k with Some q => String.ltb date (iq_EffectiveDate q) | None => true end).

(** One turn of the loop over the windows; [base] is one more than the index. *)
Definition performance_window (mode : quotePerformanceKind) (points : list InstrumentQuote) (latestIndex : nat)
    (latest : InstrumentQuote) (asOf : string) (window : Z) : option QuotePerformance :=
  let anchorDate := if bool_decide (asOf = ""%string) then iq_EffectiveDate latest else asOf in
  let base := if 0 <? window
    then points_through points (latestIndex + 1) (format_days (default 0 (ParseDate anchorDate) - window))
    else 1%nat in
  match base with
  | O => None
  | S base =>
    first ← points !! base;
    match CivilDaysBetween (iq_EffectiveDate first) anchorDate with
    | Fail _ => None
    | Ok elapsed =>
      if (0 <? elapsed) && dIsPositive (p_value (iq_UnitPrice first)) &&
         forallb (comparable_quote mode) (take (latestIndex + 1 - base) (drop base points))
      then
        let '(period, annual) := priceWindowPercent (p_value (iq_UnitPrice first)) (p_value (iq_UnitPrice latest)) elapsed in
        Some (mkPerformance window (iq_EffectiveDate first) asOf (iq_EffectiveDate latest) elapsed period
          (if SupportsAnnualizedQuoteReturn (InstrumentType_String (i_Type i)) then Some annual else None))
      else None
    end
  end.

(** [latestIndex] is [None] below zero. *)
Definition projectQuotePerformanceWindowsAsOf (points : list InstrumentQuote) (latestIndex : option nat) (windows : list Z)
    (asOf : string) : list QuotePerformance :=
  match quotePerformanceMode (Some (i_Type i)), latestIndex with
  | Some mode, Some latestIndex =>
    match points !! latestIndex with
    | None => []
    | Some latest =>
      if (latestIndex <? 1)%nat then [] else omap (performance_window mode points latestIndex latest asOf) windows
    end
  | _, _ => []
  end.

(** [len(points) - 1] *)
Definition last_index (n : nat) : option nat := match n with O => None | S n => Some n end.

Definition ProjectQuotePerformanceWindows (quotes : list InstrumentQuote) (windows : list Z) : list QuotePerformance :=
  let points := dailyPerformanceQuotes quotes in
  projectQuotePerformanceWindowsAsOf points (last_index (List.length points)) windows "".

Definition QuotePerformanceWindows : list Z := [7; 30].
Definition QuoteReturnWindows : list Z := [7; 30; 90; 180; 365].
Definition ProjectQuotePerformance (quotes : list InstrumentQuote) : list QuotePerformance :=
  ProjectQuotePerformanceWindows quotes QuotePerformanceWindows.

Record QuotePerformanceReport := mkReport { rp_Items : list QuotePerformance; UnavailableReason : string }.

Definition ProjectQuotePerformanceReportWindows (quotes : list InstrumentQuote) (windows : list Z) : QuotePerformanceReport :=
  let items := ProjectQuotePerformanceWindows quotes windows in
  match items with
  | _ :: _ => mkReport items ""
  | [] =>
    match quotePerformanceMode (Some (i_Type i)) with
    | None => mkReport items "unsupported_instrument"
    | Some _ =>
      let dates := stable_sort String.ltb (iq_EffectiveDate <$> List.filter daily_close quotes) in
      let long_enough := match dates, last dates with
        | first :: _ :: _, Some latest => match CivilDaysBetween first latest with Ok elapsed => 7 <=? elapsed | Fail _ => false end
        | _, _ => false
        end in
      mkReport items (if long_enough then "incomparable_daily_prices" else "insufficient_daily_history")
    end
  end.
Definition ProjectQuotePerformanceReport (quotes : list InstrumentQuote) : QuotePerformanceReport :=
  ProjectQuotePerformanceReportWindows quotes QuotePerformanceWindows.
End Instrument.

(** ** The series of a review *)

Record ReviewDailyQuoteSeries := mkSeries { ds_points : list InstrumentQuote; ds_closures : list InstrumentClosure }.

Definition NewReviewDailyQuoteSeries (instrumentID : InstrumentID) (quotes : list InstrumentQuote)
    (closures : list InstrumentClosure) : ReviewDailyQuoteSeries :=
  mkSeries (dailyPerformanceQuotes (List.filter (λ q, bool_decide (iq_InstrumentID q = instrumentID)) quotes)) closures.

Section Series.
Context (s : ReviewDailyQuoteSeries) (instrument : Instrument).

(** The index of the last point on or before a date. *)
Definition point_index (on : string) : option nat := last_index (points_through (ds_points s) (List.length (ds_points s)) on).

Definition eligible_close (quote : InstrumentQuote) : bool :=
  match quotePerformanceMode (Some (i_Type instrument)) with
  | None => false
  | Some mode => comparable_quote instrument mode quote
  end.

(** The price of a day, or the reason for which there is none. *)
Definition ResolveDailyClose (on : string) : InstrumentQuote + string :=
  match ParseDate on with
  | None => inr "invalid_request"%string
  | Some _ =>
    match point_index on ≫= λ index, ds_points s !! index with
    | None => inr "daily_close_missing"%string
    | Some quote =>
      if negb (bool_decide (iq_EffectiveDate quote = on)) && negb (bool_decide (QuoteSource instrument = QuoteSourceManual)) &&
         negb (InstrumentClosedCarry (i_ID instrument) (Some (i_Type instrument)) (iq_EffectiveDate quote) on (ds_closures s))
      then inr "daily_close_missing"%string
      else if negb (eligible_close quote) then inr "daily_close_ineligible"%string
      else inl quote
    end
  end.

Definition ResolveDailyPerformance (on : string) (lookbackDays maxBaselineGapDays : Z) : QuotePerformance + string :=
  match ParseDate on with
  | None => inr "invalid_request"%string
  | Some end_ =>
    if negb (ValidQuotePeriodWindow lookbackDays) || (lookbackDays =? 0) || (maxBaselineGapDays <? 0) then inr "invalid_request"%string
    else match ResolveDailyClose on with
    | inr reason => inr reason
    | inl _ =>
      match projectQuotePerformanceWindowsAsOf instrument (ds_points s) (point_index on) [lookbackDays] on with
      | [] => inr "baseline_missing_or_incomparable"%string
      | item :: _ =>
        match CivilDaysBetween (BaselineOn item) (format_days (end_ - lookbackDays)) with
        | Fail _ => inr "baseline_too_old"%string
        | Ok gap => if (gap <? 0) || (maxBaselineGapDays <? gap) then inr "baseline_too_old"%string else inl item
        end
      end
    end
  end.
End Series.

(** [ResolveReviewDailyPerformance] and [ResolveReviewDailyClose] of [review_daily_evidence.go] *)
Definition ResolveReviewDailyPerformance (instrument : Instrument) (quotes : list InstrumentQuote) (on : string)
    (lookbackDays maxBaselineGapDays : Z) : QuotePerformance + string :=
  ResolveDailyPerformance (NewReviewDailyQuoteSeries (i_ID instrument) quotes []) instrument on lookbackDays maxBaselineGapDays.
Definition ResolveReviewDailyClose (instrument : Instrument) (quotes : list InstrumentQuote) (on : string) : InstrumentQuote + string :=
  ResolveDailyClose (NewReviewDailyQuoteSeries (i_ID instrument) quotes []) instrument on.

(** ** The series of the chart *)

Record QuotePerformancePoint := mkPoint {
  pp_Currency : CurrencyCode; pp_ObservationKind : string; pp_EffectiveDate : string; pp_PriceBasis : string;
  pp_TimestampBasis : string; pp_QuotedAt : Time; pp_Value : string; pp_SourceKind : QuoteSourceKind; pp_SourceKey : string;
  pp_Delayed : bool; BreakBefore : bool }.

Record QuotePerformanceSeries := mkChart {
  ps_WindowDays : Z; From : string; To : string; ps_Item : option QuotePerformance; ps_UnavailableReason : string;
  Points : list QuotePerformancePoint }.

Definition chart_point (q : InstrumentQuote) (breakBefore : bool) : QuotePerformancePoint :=
  mkPoint (iq_Currency q) (iq_ObservationKind q) (iq_EffectiveDate q) (iq_PriceBasis q) (iq_TimestampBasis q) (iq_QuotedAt q)
    (p_canonical (iq_UnitPrice q)) (iq_SourceKind q) (iq_SourceKey q) (iq_Delayed q) breakBefore.

(** A point, the one before it in hand. *)
Fixpoint chart_points (t : InstrumentType) (mode : quotePerformanceKind) (previous : option InstrumentQuote)
    (selected : list InstrumentQuote) : list QuotePerformancePoint :=
  match selected with
  | [] => []
  | q :: selected =>
    let breakBefore := match previous with
      | None => false
      | Some p => negb (sameDailyPriceUnit t mode (iq_PriceBasis p) (iq_PriceBasis q))
      end in
    chart_point q breakBefore :: chart_points t mode (Some q) selected
  end.

Definition ProjectQuotePerformanceSeries (i : Instrument) (quotes : list InstrumentQuote) (window : Z) : QuotePerformanceSeries :=
  match quotePerformanceMode (Some (i_Type i)) with
  | None => mkChart window "" "" None "unsupported_instrument" []
  | Some mode =>
    let points := dailyPerformanceQuotes quotes in
    match last points with
    | None => mkChart window "" "" None "insufficient_daily_history" []
    | Some latest =>
      let base := if 0 <? window
        then points_through points (List.length points) (format_days (default 0 (ParseDate (iq_EffectiveDate latest)) - window))
        else 1%nat in
      let covered := (0 <? base)%nat in
      let item := head (ProjectQuotePerformanceWindows i quotes [window]) in
      let reason : string := match item with
        | Some _ => ""
        | None => if (List.length points <? 2)%nat || negb covered then "insufficient_daily_history" else "incomparable_daily_prices"
        end in
      let selected := drop (base - 1) points in
      mkChart window (match selected with first :: _ => iq_EffectiveDate first | [] => "" end) (iq_EffectiveDate latest) item reason
        (chart_points (i_Type i) mode None selected)
    end
  end.
End Prices.
