(* ===== verification/DailyPricesLaws.v ===== *)
(** * What the daily prices promise

    One price per day, the best of its date whatever the order of the history; the change over
    a window is that between the last prices on or before its two ends; evidence that is found
    for a day of a rule is evidence that its condition admits. *)

From S2P Require Export DailyPrices.
From S2P Require Import MarketPolicy QuoteSelect Ordering DecimalModel.
From Stdlib Require Import String Ascii Sorted.

#[global] Open Scope Z_scope.

(** ** Binary search *)

(** [f] stays true once it is true, below [n]. *)
Definition rising (n : nat) (f : nat → bool) : Prop := ∀ a b, (a <= b < n)%nat → f a = true → f b = true.

Lemma search_between_spec turns f n i j : rising n f → (i <= j <= n)%nat → (j - i <= turns)%nat →
  (∀ k, (k < i)%nat → f k = false) → (∀ k, (j <= k < n)%nat → f k = true) →
  let r := search_between turns f i j in (r <= n)%nat ∧ (∀ k, (k < r)%nat → f k = false) ∧ ∀ k, (r <= k < n)%nat → f k = true.
Proof.
  intros Hf. revert i j. induction turns as [|turns IH]; intros i j Hij Ht Hl Hr; cbn [search_between].
  - assert (i = j) as <- by lia. split; [lia|done].
  - destruct (Nat.ltb_spec i j) as [Hlt|Hge]; [|assert (i = j) as <- by lia; split; [lia|done]].
    pose proof (Nat.div2_div (i + j)) as Hh. pose proof (Nat.div_mod (i + j) 2 ltac:(lia)). pose proof (Nat.mod_upper_bound (i + j) 2 ltac:(lia)).
    destruct (f (Nat.div2 (i + j))) eqn:E; apply IH; try lia; try done.
    + intros k Hk. destruct (Nat.le_gt_cases j k); [apply Hr; lia|]. apply (Hf (Nat.div2 (i + j))); [lia|done].
    + intros k Hk. destruct (Nat.lt_ge_cases k i); [by apply Hl|]. destruct (f k) eqn:Ek; [|done].
      rewrite (Hf k (Nat.div2 (i + j))) in E by (lia || done). done.
Qed.

Lemma Search_spec n f : rising n f →
  (Search n f <= n)%nat ∧ (∀ k, (k < Search n f)%nat → f k = false) ∧ ∀ k, (Search n f <= k < n)%nat → f k = true.
Proof. intros Hf. apply (search_between_spec n f n 0 n Hf); lia. Qed.

(** ** One price per day *)

Section Daily.
Context `{HD : DecimalAPI}.

Definition daily_cmp : InstrumentQuote → InstrumentQuote → comparison :=
  lex (by_key (λ q, performanceSourceRank (iq_SourceKind q)) Z.compare)
    (lex (by_key iq_Revision Z.compare) (lex (by_key iq_CreatedAt Z.compare) (by_key iq_ID String.compare))).

Lemma replaces_cmp q old : replaces q old = is_gt (daily_cmp q old).
Proof.
  unfold replaces, daily_cmp, lex, by_key. rewrite <-!is_gt_Z, <-is_gt_string.
  assert (Hk : bool_decide (iq_SourceKind q = iq_SourceKind old) =
    match performanceSourceRank (iq_SourceKind q) ?= performanceSourceRank (iq_SourceKind old) with Eq => true | _ => false end)
    by (destruct (iq_SourceKind q), (iq_SourceKind old); reflexivity).
  rewrite Hk, !Z.eqb_compare. destruct (_ ?= _); try done. cbn [is_gt orb andb].
  destruct (iq_Revision q ?= iq_Revision old); try done. cbn [is_gt orb andb].
  destruct (iq_CreatedAt q ?= iq_CreatedAt old); done.
Qed.

Definition closes_on (on : string) (quotes : list InstrumentQuote) : list InstrumentQuote :=
  List.filter (λ q, daily_close q && bool_decide (iq_EffectiveDate q = on)) quotes.

Lemma closes_on_in on quotes q : q ∈ closes_on on quotes ↔ q ∈ quotes ∧ daily_close q = true ∧ iq_EffectiveDate q = on.
Proof. unfold closes_on. rewrite !list_elem_of_In, filter_In, andb_true_iff, bool_decide_eq_true. done. Qed.

Lemma closes_chain on quotes : same_record iq_ID quotes → chain replaces (closes_on on quotes).
Proof.
  intros Hu. apply (ordered_chain daily_cmp); [intros; apply replaces_cmp|]. intros x y Hx Hy E.
  apply closes_on_in in Hx as [Hx _], Hy as [Hy _]. apply Hu; [done..|]. revert E. unfold daily_cmp, lex, by_key.
  repeat (destruct (_ ?= _); try done). by rewrite string_compare_eq.
Qed.

Lemma kept_daily quotes byDate on :
  fold_left keep_daily quotes byDate !! on = fold_left (keep_later replaces) (closes_on on quotes) (byDate !! on).
Proof.
  revert byDate. induction quotes as [|q quotes IH]; intros byDate; [done|]. cbn [fold_left]. rewrite IH. unfold closes_on. cbn [List.filter].
  unfold keep_daily. destruct (daily_close q); cbn [andb]; [|done]. case_bool_decide as E.
  - cbn [fold_left]. f_equal. subst on. destruct (byDate !! iq_EffectiveDate q) as [old|] eqn:Eo; cbn [keep_later].
    + destruct (replaces q old); [apply lookup_insert_eq|done].
    + apply lookup_insert_eq.
  - f_equal. destruct (byDate !! iq_EffectiveDate q) as [old|]; [destruct (replaces q old); [|done]|]; by apply lookup_insert_ne.
Qed.

(** The best price of a date. *)
Definition best_close (quotes : list InstrumentQuote) (q : InstrumentQuote) : Prop :=
  q ∈ quotes ∧ daily_close q = true ∧
  ∀ q', q' ∈ quotes → daily_close q' = true → iq_EffectiveDate q' = iq_EffectiveDate q → q' = q ∨ replaces q q' = true.

Lemma kept_daily_best quotes on q : same_record iq_ID quotes →
  fold_left keep_daily quotes ∅ !! on = Some q ↔ best_close quotes q ∧ iq_EffectiveDate q = on.
Proof.
  intros Hu. rewrite kept_daily, lookup_empty, keep_later_greatest by by apply closes_chain. unfold greatest. rewrite closes_on_in. split.
  - intros [(Hq & Hd & He) Hg]. split; [|done]. split; [done|]. split; [done|]. intros q' Hq' Hd' He'. apply Hg. rewrite closes_on_in, <-He. done.
  - intros [(Hq & Hd & Hg) He]. split; [done|]. intros q' (Hq' & Hd' & He')%closes_on_in. apply Hg; [done..|congruence].
Qed.

(** The points are in ascending order of their days [ns]. *)
Definition on_days (points : list InstrumentQuote) (ns : list Z) : Prop :=
  Forall2 (λ q n, is_date (iq_EffectiveDate q) n) points ns ∧ StronglySorted Z.lt ns.

Lemma best_close_unique quotes q q' : same_record iq_ID quotes → best_close quotes q → best_close quotes q' →
  iq_EffectiveDate q = iq_EffectiveDate q' → q = q'.
Proof.
  intros Hu Hq Hq' E. pose proof (proj2 (kept_daily_best quotes _ q Hu) (conj Hq eq_refl)) as H1.
  pose proof (proj2 (kept_daily_best quotes _ q' Hu) (conj Hq' eq_refl)) as H2. rewrite E in H1. congruence.
Qed.

Lemma kept_values quotes q : same_record iq_ID quotes →
  q ∈ snd <$> map_to_list (fold_left keep_daily quotes ∅) ↔ best_close quotes q.
Proof.
  intros Hu. rewrite list_elem_of_fmap. split.
  - intros ([on q'] & -> & Hin). apply elem_of_map_to_list, kept_daily_best in Hin as [H _]; done.
  - intros H. exists (iq_EffectiveDate q, q). split; [done|]. by apply elem_of_map_to_list, kept_daily_best.
Qed.

Lemma kept_NoDup quotes : same_record iq_ID quotes → NoDup (iq_EffectiveDate <$> (snd <$> map_to_list (fold_left keep_daily quotes ∅))).
Proof.
  intros Hu. assert (E : iq_EffectiveDate <$> (snd <$> map_to_list (fold_left keep_daily quotes ∅)) = fst <$> map_to_list (fold_left keep_daily quotes ∅)).
  { rewrite <-list_fmap_compose. apply list_fmap_ext. intros k [on q] Hk. apply list_elem_of_lookup_2, elem_of_map_to_list in Hk.
    by apply kept_daily_best in Hk as [_ <-]. }
  rewrite E. apply NoDup_fst_map_to_list.
Qed.

Lemma dailyPerformanceQuotes_in quotes q : same_record iq_ID quotes → q ∈ dailyPerformanceQuotes quotes ↔ best_close quotes q.
Proof. intros Hu. unfold dailyPerformanceQuotes. rewrite stable_sort_perm. by apply kept_values. Qed.

Lemma daily_close_date q : daily_close q = true → ∃ n, is_date (iq_EffectiveDate q) n.
Proof. unfold daily_close, is_date. destruct (ParseDate _) as [n|]; [by exists n|done]. Qed.

(** A list sorted by its texts, all distinct dates, is in the order of its days. *)
Lemma sorted_days points : Forall (λ q, daily_close q = true) points → NoDup (iq_EffectiveDate <$> points) →
  StronglySorted (in_order (by_key iq_EffectiveDate String.compare)) points → ∃ ns, on_days points ns.
Proof.
  intros Hd Hn Hs. induction Hs as [|q l Hs IH Hf]; [exists []; split; constructor|].
  inversion Hd as [|? ? Hq Hl]; subst. cbn in Hn. apply NoDup_cons in Hn as [Hnot Hn]. destruct (IH Hl Hn) as (ns & Hns & Hsort).
  destruct (daily_close_date q Hq) as (n & Hdate). exists (n :: ns). split; [by constructor|]. constructor; [done|].
  rewrite Forall_forall in Hf. rewrite Forall_forall. intros k Hk. apply list_elem_of_lookup_1 in Hk as [i Hi].
  destruct (Forall2_lookup_r _ _ _ _ _ Hns Hi) as (q' & Hq' & Hd'). apply list_elem_of_lookup_2 in Hq'. specialize (Hf q' Hq').
  unfold in_order, by_key in Hf. destruct (Z.lt_trichotomy n k) as [|[->|Hlt]]; [done|exfalso..].
  - apply Hnot. apply list_elem_of_fmap. exists q'. split; [|done]. by apply (is_date_text _ _ k).
  - apply Hf. pose proof (date_ltb _ _ _ _ Hd' Hdate) as E. rewrite (proj2 (Z.ltb_lt _ _)), <-is_gt_string in E by done.
    unfold is_gt in E. by destruct (String.compare (iq_EffectiveDate q) (iq_EffectiveDate q')).
Qed.

Lemma date_less_cmp x y : date_less x y = is_gt (by_key iq_EffectiveDate String.compare y x).
Proof. unfold date_less, by_key. by rewrite is_gt_string. Qed.

Lemma dailyPerformanceQuotes_days quotes : same_record iq_ID quotes → ∃ ns, on_days (dailyPerformanceQuotes quotes) ns.
Proof.
  intros Hu. apply sorted_days.
  - rewrite Forall_forall. intros q Hq. apply dailyPerformanceQuotes_in in Hq as (_ & H & _); done.
  - unfold dailyPerformanceQuotes. rewrite stable_sort_perm. by apply kept_NoDup.
  - apply stable_sort_sorted; [apply _|apply date_less_cmp].
Qed.

Lemma best_close_perm quotes quotes' q : quotes ≡ₚ quotes' → best_close quotes q → best_close quotes' q.
Proof. intros Hp (H1 & H2 & H3). split; [by rewrite <-Hp|]. split; [done|]. intros q'. rewrite <-Hp. apply H3. Qed.

(** The daily series has one price per civil day, in ascending order: the dated close whose
    source ranks highest (agent, then manual, then provider), then the latest revision, creation
    and identifier.  It holds every such best price and nothing else, and does not depend on the
    order in which the history is read. *)
Theorem dailyPerformanceQuotes_correct quotes :
  same_record iq_ID quotes →
  (∃ ns, on_days (dailyPerformanceQuotes quotes) ns) ∧
  (∀ q, q ∈ dailyPerformanceQuotes quotes ↔ best_close quotes q) ∧
  ∀ quotes', quotes ≡ₚ quotes' → dailyPerformanceQuotes quotes' = dailyPerformanceQuotes quotes.
Proof.
  intros Hu. split; [by apply dailyPerformanceQuotes_days|]. split; [intros q; by apply dailyPerformanceQuotes_in|].
  intros quotes' Hp. assert (Hu' : same_record iq_ID quotes') by (intros x y; rewrite <-!Hp; apply Hu).
  apply (stable_sort_eq (by_key iq_EffectiveDate String.compare)); [apply date_less_cmp| |].
  - intros x y. rewrite !kept_values by done. intros Hx Hy E. apply string_compare_eq in E. by apply (best_close_unique quotes').
  - apply NoDup_Permutation; [apply (NoDup_fmap_1 iq_EffectiveDate); by apply kept_NoDup..|].
    intros q. rewrite !kept_values by done. split; apply best_close_perm; [by symmetry|done].
Qed.
End Daily.

(** ** The last price on or before a day *)

Lemma sorted_lookup (ns : list Z) a b m k : StronglySorted Z.lt ns → ns !! a = Some m → ns !! b = Some k → (a < b)%nat → m < k.
Proof.
  intros Hs. revert a b. induction Hs as [|x l Hs IH Hf]; intros a b Ha Hb Hlt; [done|]. destruct b as [|b]; [lia|]. destruct a as [|a].
  - injection Ha as ->. rewrite Forall_forall in Hf. apply Hf. by eapply list_elem_of_lookup_2.
  - apply (IH a b); [done|done|lia].
Qed.

Section Points.
Context `{HD : DecimalAPI} (points : list InstrumentQuote) (ns : list Z) (Hp : on_days points ns).

Lemma point_day k q : points !! k = Some q → ∃ m, is_date (iq_EffectiveDate q) m ∧ ns !! k = Some m.
Proof. destruct Hp as [H _]. intros Hk. destruct (Forall2_lookup_l _ _ _ _ _ H Hk) as (m & Hm & Hd). by exists m. Qed.

Lemma day_order a b q q' m m' : points !! a = Some q → points !! b = Some q' → is_date (iq_EffectiveDate q) m → is_date (iq_EffectiveDate q') m' →
  (a < b)%nat ↔ m < m'.
Proof.
  intros Ha Hb Hm Hm'. destruct (point_day a q Ha) as (k & Hk & Na). destruct (point_day b q' Hb) as (k' & Hk' & Nb).
  rewrite (is_date_inj _ _ _ Hm Hk), (is_date_inj _ _ _ Hm' Hk'). destruct Hp as [_ Hs]. split; [by apply (sorted_lookup ns a b)|].
  intros Hlt. destruct (Nat.lt_trichotomy a b) as [|[->|Hba]]; [done|assert (k = k') by congruence; lia|].
  pose proof (sorted_lookup ns b a k' k Hs Nb Na Hba). lia.
Qed.

Lemma points_through_spec n date d : (n <= List.length points)%nat → is_date date d →
  let r := points_through points n date in
  (r <= n)%nat ∧ ∀ k q m, (k < n)%nat → points !! k = Some q → is_date (iq_EffectiveDate q) m → (k < r)%nat ↔ m <= d.
Proof.
  intros Hn Hd r. set (f := λ k, match points !! k with Some q => String.ltb date (iq_EffectiveDate q) | None => true end).
  assert (Hf : ∀ k q m, points !! k = Some q → is_date (iq_EffectiveDate q) m → f k = (d <? m)).
  { intros k q m Hk Hm. unfold f. rewrite Hk. by apply date_ltb. }
  destruct (Search_spec n f) as (Hr & Hlo & Hhi).
  { intros a b Hab Ha. destruct (lookup_lt_is_Some_2 points a ltac:(lia)) as [qa Qa]. destruct (lookup_lt_is_Some_2 points b ltac:(lia)) as [qb Qb].
    destruct (point_day a qa Qa) as (ma & Ma & _). destruct (point_day b qb Qb) as (mb & Mb & _).
    rewrite (Hf a qa ma Qa Ma), Z.ltb_lt in Ha. rewrite (Hf b qb mb Qb Mb), Z.ltb_lt.
    destruct (Nat.eq_dec a b) as [<-|]; [assert (qa = qb) as <- by congruence; by rewrite (is_date_inj _ _ _ Mb Ma)|].
    pose proof (proj1 (day_order a b qa qb ma mb Qa Qb Ma Mb) ltac:(lia)). lia. }
  split; [exact Hr|]. intros k q m Hk Hq Hm. split.
  - intros Hlt. specialize (Hlo k Hlt). rewrite (Hf k q m Hq Hm) in Hlo. by apply Z.ltb_ge in Hlo.
  - intros Hle. destruct (Nat.lt_ge_cases k r) as [|Hge]; [done|]. specialize (Hhi k (conj Hge Hk)). rewrite (Hf k q m Hq Hm) in Hhi.
    apply Z.ltb_lt in Hhi. lia.
Qed.

(** [q], of day [m], is the last point on or before day [d]. *)
Definition last_point (d : Z) (q : InstrumentQuote) (m : Z) : Prop :=
  q ∈ points ∧ is_date (iq_EffectiveDate q) m ∧ m <= d ∧
  ∀ q' m', q' ∈ points → is_date (iq_EffectiveDate q') m' → m' <= d → m' <= m.

Lemma last_point_unique d q q' m m' : last_point d q m → last_point d q' m' → q = q' ∧ m = m'.
Proof.
  intros (Hq & Dq & Lq & Gq) (Hq' & Dq' & Lq' & Gq'). pose proof (Gq q' m' Hq' Dq' Lq'). pose proof (Gq' q m Hq Dq Lq).
  assert (m = m') as -> by lia. split; [|done]. apply list_elem_of_lookup_1 in Hq as [a Ha], Hq' as [b Hb].
  pose proof (day_order a b q q' m' m' Ha Hb Dq Dq') as H1. pose proof (day_order b a q' q m' m' Hb Ha Dq' Dq) as H2.
  assert (a = b) as -> by lia. congruence.
Qed.

(** The index found by the search is that of the last point; below [n] when all points after
    the first [n] are later than the day. *)
Lemma points_through_last n date d k :
  (n <= List.length points)%nat → is_date date d → (∀ j q m, (n <= j)%nat → points !! j = Some q → is_date (iq_EffectiveDate q) m → d < m) →
  points_through points n date = S k ↔ ∃ q m, points !! k = Some q ∧ last_point d q m.
Proof.
  intros Hn Hd Hlater. pose proof (points_through_spec n date d Hn Hd) as [Hr Hspec]. cbn zeta in *. split.
  - intros E. rewrite E in *. destruct (lookup_lt_is_Some_2 points k ltac:(lia)) as [q Hq]. destruct (point_day k q Hq) as (m & Hm & _).
    exists q, m. split; [done|]. split; [by eapply list_elem_of_lookup_2|]. split; [done|]. split; [apply (Hspec k q m); [lia|done|done|lia]|].
    intros q' m' Hq' Hm' Hle. apply list_elem_of_lookup_1 in Hq' as [j Hj]. destruct (Nat.lt_ge_cases j n) as [Hjn|Hjn].
    + assert (Hjk : (j < S k)%nat) by (by apply (Hspec j q' m')). destruct (Nat.eq_dec j k) as [->|].
      * assert (q' = q) as -> by congruence. rewrite (is_date_inj _ _ _ Hm' Hm). lia.
      * pose proof (proj1 (day_order j k q' q m' m Hj Hq Hm' Hm) ltac:(lia)). lia.
    + pose proof (Hlater j q' m' Hjn Hj Hm'). lia.
  - intros (q & m & Hk & Hq & Hm & Hle & Hg).
    assert (Hkn : (k < n)%nat). { destruct (Nat.lt_ge_cases k n); [done|]. pose proof (Hlater k q m ltac:(lia) Hk Hm). lia. }
    assert (Hkr : (k < points_through points n date)%nat) by (by apply (Hspec k q m)).
    destruct (Nat.eq_dec (points_through points n date) (S k)) as [|Hne]; [done|exfalso].
    destruct (lookup_lt_is_Some_2 points (S k) ltac:(lia)) as [q' Hq']. destruct (point_day (S k) q' Hq') as (m' & Hm' & _).
    assert (m' <= d) by (apply (Hspec (S k) q' m'); [lia|done|done|lia]).
    pose proof (proj1 (day_order k (S k) q q' m m' Hk Hq' Hm Hm') ltac:(lia)). pose proof (Hg q' m' ltac:(by eapply list_elem_of_lookup_2) Hm' ltac:(done)). lia.
Qed.
End Points.

(** ** The change over a window *)

Section Window.
Context `{HD : DecimalAPI} (i : Instrument) (points : list InstrumentQuote) (ns : list Z) (Hp : on_days points ns).

(** The record of the change from [base], of day [b], to [latest], as of day [n]. *)
Definition change_between (window : Z) (base : InstrumentQuote) (b : Z) (latest : InstrumentQuote) (on : string) (n : Z) : QuotePerformance :=
  let elapsed := Z.min (n - b) 106751 in
  let '(period, annual) := priceWindowPercent (p_value (iq_UnitPrice base)) (p_value (iq_UnitPrice latest)) elapsed in
  mkPerformance window (iq_EffectiveDate base) on (iq_EffectiveDate latest) elapsed period
    (if SupportsAnnualizedQuoteReturn (InstrumentType_String (i_Type i)) then Some annual else None).

(** All prices from day [b] to day [l] measure the same unit. *)
Definition all_comparable (mode : quotePerformanceKind) (b l : Z) : Prop :=
  ∀ q m, q ∈ points → is_date (iq_EffectiveDate q) m → b <= m <= l → comparable_quote i mode q = true.

Lemma forallb_range mode B L b l base latest :
  points !! B = Some base → is_date (iq_EffectiveDate base) b → points !! L = Some latest → is_date (iq_EffectiveDate latest) l → (B <= L)%nat →
  forallb (comparable_quote i mode) (take (L + 1 - B) (drop B points)) = true ↔ all_comparable mode b l.
Proof.
  intros HB Db HL Dl Hle. rewrite forallb_forall. split.
  - intros H q m Hq Hm Hr. apply H, list_elem_of_In. apply list_elem_of_lookup_1 in Hq as [k Hk].
    pose proof (day_order points ns Hp k B q base m b Hk HB Hm Db). pose proof (day_order points ns Hp L k latest q l m HL Hk Dl Hm).
    apply list_elem_of_lookup_2 with (k - B)%nat. rewrite lookup_take_lt by lia. rewrite lookup_drop. by replace (B + (k - B))%nat with k by lia.
  - intros H q Hq. apply list_elem_of_In, list_elem_of_lookup_1 in Hq as [k Hk]. apply lookup_take_Some in Hk as [Hk Hlt]. rewrite lookup_drop in Hk.
    destruct (point_day points ns Hp _ q Hk) as (m & Hm & _). apply (H q m); [by eapply list_elem_of_lookup_2|done|].
    pose proof (day_order points ns Hp (B + k) B q base m b Hk HB Hm Db). pose proof (day_order points ns Hp L (B + k) latest q l m HL Hk Dl Hm). lia.
Qed.

Lemma performance_window_spec mode L latest l on n window item :
  points !! L = Some latest → is_date on n → last_point points n latest l → 0 < window → days_before_year 0 <= n - window →
  performance_window i mode points L latest on window = Some item ↔
  ∃ base b, last_point points (n - window) base b ∧ dIsPositive (p_value (iq_UnitPrice base)) = true ∧ all_comparable mode b l ∧
    item = change_between window base b latest on n.
Proof.
  intros HL Hon Hlast Hw Hrange. pose proof Hlast as (_ & Dl & Hln & Hgl). destruct (date_graphic _ _ Hon) as [_ Hne].
  unfold performance_window. rewrite (bool_decide_eq_false_2 _ Hne). rewrite (proj2 (Z.ltb_lt _ _)) by done.
  pose proof (is_date_range _ _ Hon) as Hn. unfold is_date in Hon. rewrite Hon. change (default 0 (Some n)) with n.
  assert (Ht : is_date (format_days (n - window)) (n - window)) by (apply ParseDate_format_days; lia).
  assert (HLn : (L + 1 <= List.length points)%nat) by (apply lookup_lt_Some in HL; lia).
  assert (Hlater : ∀ j q m, (L + 1 <= j)%nat → points !! j = Some q → is_date (iq_EffectiveDate q) m → n - window < m).
  { intros j q m Hj Hq Hm. pose proof (proj1 (day_order points ns Hp L j latest q l m HL Hq Dl Hm) ltac:(lia)).
    destruct (Z.le_gt_cases m n) as [Hmn|]; [|lia]. pose proof (Hgl q m ltac:(by eapply list_elem_of_lookup_2) Hm Hmn). lia. }
  pose proof (λ k, points_through_last points ns Hp (L + 1) _ _ k HLn Ht Hlater) as Hthrough.
  destruct (points_through points (L + 1) (format_days (n - window))) as [|B] eqn:EB.
  - split; [discriminate|]. intros (base & b & Hbase & _). pose proof Hbase as (Hin & _). apply list_elem_of_lookup_1 in Hin as [k Hk].
    discriminate (proj2 (Hthrough k) (ex_intro _ base (ex_intro _ b (conj Hk Hbase)))).
  - destruct (proj1 (Hthrough B) eq_refl) as (base & b & HB & Hbase). rewrite HB. cbn [mbind option_bind].
    pose proof Hbase as (_ & Db & Hbn & _). rewrite (CivilDaysBetween_forward _ _ b n) by (done || lia).
    rewrite (proj2 (Z.ltb_lt 0 (Z.min (n - b) 106751))) by lia. cbn [andb].
    assert (HBL : (B <= L)%nat). { pose proof (proj1 (points_through_spec points ns Hp (L + 1) _ _ HLn Ht)). lia. }
    pose proof (forallb_range mode B L b l base latest HB Db HL Dl HBL) as Hcomp.
    change (let '(period, annual) := priceWindowPercent (p_value (iq_UnitPrice base)) (p_value (iq_UnitPrice latest)) (Z.min (n - b) 106751) in
      Some (mkPerformance window (iq_EffectiveDate base) on (iq_EffectiveDate latest) (Z.min (n - b) 106751) period
        (if SupportsAnnualizedQuoteReturn (InstrumentType_String (i_Type i)) then Some annual else None)))
      with (Some (change_between window base b latest on n)).
    split.
    + intros H. destruct (dIsPositive _) eqn:Epos; [|done]. cbn [andb] in H. destruct (forallb _ _); [|done]. injection H as <-.
      exists base, b. split; [done|]. split; [done|]. split; [by apply Hcomp|done].
    + intros (base' & b' & Hbase' & Hpos & Hall & ->). destruct (last_point_unique points ns Hp _ _ _ _ _ Hbase Hbase') as [<- <-].
      rewrite Hpos. apply Hcomp in Hall as ->. done.
Qed.
End Window.

(** ** The evidence of a day *)

Section Evidence.
Context `{HD : DecimalAPI} (s : ReviewDailyQuoteSeries) (instrument : Instrument) (ns : list Z) (Hp : on_days (ds_points s) ns).
Context (on : string) (n : Z) (Hon : is_date on n).

(** The price that stands for day [n]: the last one, of that very day unless it may be carried. *)
Definition admitted_close (latest : InstrumentQuote) (l : Z) : Prop :=
  last_point (ds_points s) n latest l ∧
  (l = n ∨ QuoteSource instrument = QuoteSourceManual ∨
   InstrumentClosedCarry (i_ID instrument) (Some (i_Type instrument)) (iq_EffectiveDate latest) on (ds_closures s) = true) ∧
  eligible_close instrument latest = true.

Lemma point_index_spec k : point_index s on = Some k ↔ ∃ q m, ds_points s !! k = Some q ∧ last_point (ds_points s) n q m.
Proof.
  unfold point_index. rewrite <-(points_through_last (ds_points s) ns Hp (List.length (ds_points s)) on n k); [|lia|done|].
  - destruct (points_through _ _ _) as [|j]; cbn [last_index]; split; congruence.
  - intros j q m Hj Hq. apply lookup_lt_Some in Hq. lia.
Qed.

Lemma ResolveDailyClose_spec q : ResolveDailyClose s instrument on = inl q ↔ ∃ l, admitted_close q l.
Proof.
  unfold ResolveDailyClose, admitted_close. pose proof Hon as Hon'. unfold is_date in Hon'. rewrite Hon'.
  assert (Hday : ∀ q l, last_point (ds_points s) n q l → bool_decide (iq_EffectiveDate q = on) = bool_decide (l = n)).
  { intros q' l (_ & Dl & _). apply bool_decide_ext. split; [intros E; rewrite E in Dl; by apply (is_date_inj on)|intros ->; by apply (is_date_text _ _ n)]. }
  split.
  - destruct (point_index s on) as [k|] eqn:Ek; cbn [mbind option_bind]; [|discriminate].
    apply point_index_spec in Ek as (q' & l & Hk & Hl). rewrite Hk, (Hday _ _ Hl).
    destruct (negb (bool_decide (l = n)) && _ && _) eqn:Ea; [discriminate|]. destruct (eligible_close instrument q') eqn:Ee; [|discriminate].
    intros [= <-]. exists l. split; [done|]. split; [|done].
    rewrite !andb_false_iff, !negb_false_iff, !bool_decide_eq_true in Ea. tauto.
  - intros (l & Hl & Hc & He). pose proof Hl as (Hin & _). apply list_elem_of_lookup_1 in Hin as [k Hk].
    rewrite (proj2 (point_index_spec k)) by eauto. cbn [mbind option_bind]. rewrite Hk, (Hday _ _ Hl), He.
    assert (negb (bool_decide (l = n)) && negb (bool_decide (QuoteSource instrument = QuoteSourceManual)) &&
      negb (InstrumentClosedCarry (i_ID instrument) (Some (i_Type instrument)) (iq_EffectiveDate q) on (ds_closures s)) = false) as ->; [|done].
    rewrite !andb_false_iff, !negb_false_iff, !bool_decide_eq_true. tauto.
Qed.

Definition earlier_point (l : Z) : Prop := ∃ q m, q ∈ ds_points s ∧ is_date (iq_EffectiveDate q) m ∧ m < l.

Lemma earlier_index L latest l : ds_points s !! L = Some latest → is_date (iq_EffectiveDate latest) l → earlier_point l ↔ (1 <= L)%nat.
Proof.
  intros HL Dl. split.
  - intros (q & m & Hq & Hm & Hlt). apply list_elem_of_lookup_1 in Hq as [k Hk].
    pose proof (day_order _ ns Hp k L q latest m l Hk HL Hm Dl). lia.
  - intros Hle. destruct (lookup_lt_is_Some_2 (ds_points s) 0 ltac:(apply lookup_lt_Some in HL; lia)) as [q Hq].
    destruct (point_day _ ns Hp _ _ Hq) as (m & Hm & _). exists q, m. split; [by eapply list_elem_of_lookup_2|]. split; [done|].
    apply (day_order _ ns Hp 0 L q latest m l Hq HL Hm Dl). lia.
Qed.

Definition valid_lookback (days : Z) : Prop := days ∈ QuoteReturnWindows.

Lemma valid_lookback_spec days : negb (ValidQuotePeriodWindow days) || (days =? 0) = false ↔ valid_lookback days.
Proof.
  unfold valid_lookback, QuoteReturnWindows, ValidQuotePeriodWindow, QuotePeriodWindows. cbn [existsb].
  rewrite orb_false_iff, negb_false_iff, !orb_true_iff, !Z.eqb_eq, Z.eqb_neq, !elem_of_cons, elem_of_nil. intuition lia.
Qed.

(** What [ResolveDailyPerformance] finds. *)
Definition evidence (lookback maxGap : Z) (item : QuotePerformance) : Prop :=
  valid_lookback lookback ∧ 0 <= maxGap ∧ ∃ mode base b latest l,
    quotePerformanceMode (Some (i_Type instrument)) = Some mode ∧
    admitted_close latest l ∧ earlier_point l ∧
    last_point (ds_points s) (n - lookback) base b ∧ Z.min (n - lookback - b) 106751 <= maxGap ∧
    dIsPositive (p_value (iq_UnitPrice base)) = true ∧ all_comparable instrument (ds_points s) mode b l ∧
    item = change_between instrument lookback base b latest on n.

Lemma change_between_baseline window base b latest :
  BaselineOn (change_between instrument window base b latest on n) = iq_EffectiveDate base.
Proof. unfold change_between, priceWindowPercent. done. Qed.

Lemma projected_spec mode latest l lookback item : valid_lookback lookback → days_before_year 0 <= n - lookback →
  quotePerformanceMode (Some (i_Type instrument)) = Some mode → last_point (ds_points s) n latest l →
  head (projectQuotePerformanceWindowsAsOf instrument (ds_points s) (point_index s on) [lookback] on) = Some item ↔
  earlier_point l ∧ ∃ base b, last_point (ds_points s) (n - lookback) base b ∧ dIsPositive (p_value (iq_UnitPrice base)) = true ∧
    all_comparable instrument (ds_points s) mode b l ∧ item = change_between instrument lookback base b latest on n.
Proof.
  intros Hlook Hrange Hmode Hl. pose proof Hl as (Hin & Dl & _). apply list_elem_of_lookup_1 in Hin as [L HL].
  unfold projectQuotePerformanceWindowsAsOf. rewrite Hmode, (proj2 (point_index_spec L)) by eauto. rewrite HL.
  assert (0 < lookback) by (unfold valid_lookback, QuoteReturnWindows in Hlook; rewrite !elem_of_cons, elem_of_nil in Hlook; lia).
  pose proof (performance_window_spec instrument (ds_points s) ns Hp mode L latest l on n lookback item HL Hon Hl ltac:(lia) Hrange) as Hw.
  rewrite <-Hw, (earlier_index L latest l HL Dl). destruct (Nat.ltb_spec L 1) as [Hlt|Hge]; cbn [omap list_omap head].
  - split; [done|]. intros [? _]. lia.
  - destruct (performance_window _ _ _ _ _ _ _); cbn [head]; naive_solver.
Qed.

Lemma gap_days lookback base b : valid_lookback lookback → days_before_year 0 <= n - lookback →
  last_point (ds_points s) (n - lookback) base b →
  CivilDaysBetween (iq_EffectiveDate base) (format_days (n - lookback)) = Ok (Z.min (n - lookback - b) 106751).
Proof.
  intros Hlook Hrange (_ & Db & Hb & _). apply CivilDaysBetween_forward; [exact Db|apply ParseDate_format_days|done].
  pose proof (is_date_range _ _ Hon). unfold valid_lookback, QuoteReturnWindows in Hlook. rewrite !elem_of_cons, elem_of_nil in Hlook. lia.
Qed.

Lemma performance_evidence lookback maxGap item : days_before_year 0 <= n - lookback →
  ResolveDailyPerformance s instrument on lookback maxGap = inl item → evidence lookback maxGap item.
Proof.
  intros Hrange. unfold ResolveDailyPerformance. pose proof Hon as Hon'. unfold is_date in Hon'. rewrite Hon'.
  destruct (negb (ValidQuotePeriodWindow lookback) || (lookback =? 0)) eqn:Elook; cbn [orb]; [discriminate|].
  apply valid_lookback_spec in Elook. destruct (Z.ltb_spec maxGap 0) as [|Hgap]; [discriminate|].
  destruct (quotePerformanceMode (Some (i_Type instrument))) as [mode|] eqn:Em; [|by destruct (i_Type instrument)].
  destruct (ResolveDailyClose s instrument on) as [latest|] eqn:Ec; [|discriminate]. apply ResolveDailyClose_spec in Ec as [l Hc].
  pose proof (λ it, projected_spec mode latest l lookback it Elook Hrange Em (proj1 Hc)) as Hproj.
  destruct (projectQuotePerformanceWindowsAsOf _ _ _ _ _) as [|it rest]; [discriminate|].
  destruct (proj1 (Hproj it) eq_refl) as (He & base & b & Hb & Hpos & Hall & ->).
  rewrite change_between_baseline, (gap_days lookback base b Elook Hrange Hb). pose proof Hb as (_ & _ & Hbn & _).
  destruct (_ || _) eqn:Eg; [discriminate|]. apply orb_false_iff in Eg as [_ Eg%Z.ltb_ge]. intros [= <-].
  split; [done|]. split; [done|]. exists mode, base, b, latest, l. split_and!; try done; apply Hc.
Qed.

(** The performance that the review of a day reads is found exactly when the day has an
    admitted close, that is, the last price up to the day, of the day itself unless it is manual or
    every day since was closed, and when the last price on or before the start of the window is
    positive, no further before it than the rule allows, and comparable with all prices up to the
    close; the result is the change between the two over the days from the first to the day. *)
Theorem ResolveDailyPerformance_correct lookback maxGap item :
  days_before_year 0 <= n - lookback →
  ResolveDailyPerformance s instrument on lookback maxGap = inl item ↔ evidence lookback maxGap item.
Proof.
  intros Hrange. split; [by apply performance_evidence|].
  intros (Hlook & Hgap & mode & base & b & latest & l & Em & Hc & He & Hb & Hg & Hpos & Hall & ->).
  unfold ResolveDailyPerformance. pose proof Hon as Hon'. unfold is_date in Hon'. rewrite Hon', (proj2 (valid_lookback_spec lookback) Hlook).
  rewrite (proj2 (Z.ltb_ge _ _)) by done. cbn [orb]. rewrite (proj2 (ResolveDailyClose_spec latest)) by eauto.
  pose proof (proj2 (projected_spec mode latest l lookback _ Hlook Hrange Em (proj1 Hc))
    (conj He (ex_intro _ base (ex_intro _ b (conj Hb (conj Hpos (conj Hall eq_refl))))))) as Hhead.
  destruct (projectQuotePerformanceWindowsAsOf _ _ _ _ _) as [|it rest]; [discriminate|]. injection Hhead as ->.
  rewrite change_between_baseline, (gap_days lookback base b Hlook Hrange Hb). pose proof Hb as (_ & _ & Hbn & _).
  rewrite (proj2 (Z.ltb_ge _ 0)) by lia. by rewrite (proj2 (Z.ltb_ge _ _)) by lia.
Qed.
End Evidence.

(** ** The percentages *)

Section Percent.
Context `{HD : DecimalAPI} {HL : DecimalLaws}.

Lemma dDivRound_near a b p : ¬ (dval b == 0)%Q → (Qabs (dval (dDivRound a b p) - dval a / dval b) <= (1 # 2) * p10 (- p))%Q.
Proof.
  intros Hb. unfold dval at 1. rewrite dDivRound_coef, dDivRound_expo by done. apply scaled_near, round_half_away_near.
Qed.

(** The texts denote the change in percent, its quotient rounded at twenty-four places, and that
    change scaled to 365 days, rounded at twelve places. *)
Lemma priceWindowPercent_near base latest elapsed : dIsPositive base = true → 0 < elapsed →
  let '(period, annual) := priceWindowPercent base latest elapsed in
  ∃ p a, dNewFromString period = Some p ∧ dNewFromString annual = Some a ∧
    (Qabs (dval p - 100 * (dval latest / dval base - 1)) <= 50 * p10 (- (24)))%Q ∧
    (Qabs (dval a - dval p * 365 / inject_Z elapsed) <= (1 # 2) * p10 (- (12)))%Q.
Proof.
  intros Hb%dIsPositive_val He. unfold priceWindowPercent. cbv zeta. set (period := dMul _ (dInt 100)).
  assert (Hdiv : ¬ (dval base == 0)%Q) by (intros E; rewrite E in Hb; by apply Qlt_irrefl in Hb).
  assert (Hel : (dval (dInt elapsed) == inject_Z elapsed)%Q) by apply dval_int.
  assert (Hez : ¬ (inject_Z elapsed == 0)%Q) by (unfold Qeq; cbn; lia).
  destruct (dString_reads period) as (_ & p & Ep & Vp).
  destruct (dString_reads (dDivRound (dMul period (dInt 365)) (dInt elapsed) 12)) as (_ & a & Ea & Va).
  exists p, a. do 2 (split; [done|]). rewrite Vp, Va. split.
  - pose proof (dDivRound_near latest base 24 Hdiv) as Hn. unfold period.
    rewrite dMul_val, dSub_val, !dval_int. apply Qabs_Qle_condition in Hn. apply Qabs_Qle_condition.
    revert Hn. generalize (dval (dDivRound latest base 24)) (dval latest / dval base)%Q (p10 (- (24))). intros d r e Hn.
    change (inject_Z 100) with 100%Q. change (inject_Z 1) with 1%Q. lra.
  - pose proof (dDivRound_near (dMul period (dInt 365)) (dInt elapsed) 12 ltac:(by rewrite Hel)) as Hn.
    rewrite Hel, dMul_val, dval_int in Hn. exact Hn.
Qed.

Section Decided.
Context `{TZ : TimeZones}.
Context (s : ReviewDailyQuoteSeries) (instrument : Instrument) (ns : list Z) (Hp : on_days (ds_points s) ns).
Context (leaf : ReviewRuleLeaf) (input : ReviewDailyInput) (spec : ReviewRuleSpec).

(** A price change that the history proves is never thrown away: when the daily series finds a
    performance for a condition on the change of a price, under the rule's own limit on the age of
    the start of the window, the condition is decided, and it compares the exact change in percent
    between the two prices, off by at most 5e-23, with the threshold. *)
Theorem price_change_decided n item :
  is_date (di_On input) n → days_before_year 0 <= n - rl_LookbackDays leaf → rl_Metric leaf = "price_change"%string →
  ResolveDailyPerformance s instrument (di_On input) (rl_LookbackDays leaf) (BaselineMaxGapDays (DataPolicy spec)) = inl item →
  Performance input !! rl_LookbackDays leaf = Some item →
  ∃ e actual base b latest, evaluateReviewLeaf leaf input spec = Ok e ∧
    last_point (ds_points s) (n - rl_LookbackDays leaf) base b ∧ latest ∈ ds_points s ∧
    le_Truth e = reviewBool (reviewCompare actual (threshold leaf) (rl_Operator leaf)) ∧
    (Qabs (dval actual - 100 * (dval (p_value (iq_UnitPrice latest)) / dval (p_value (iq_UnitPrice base)) - 1)) <= 50 * p10 (- (24)))%Q.
Proof.
  intros Hon Hrange Hm Hres Hperf.
  destruct (performance_evidence s instrument ns Hp (di_On input) n Hon _ _ _ Hrange Hres)
    as (Hlook & Hgap & mode & base & b & latest & l & _ & ((Hin & _ & _ & _) & _ & _) & _ & Hb & Hg & Hpos & _ & ->).
  pose proof Hb as (_ & Db & Hbn & _). pose proof (is_date_range _ _ Hon).
  unfold valid_lookback, QuoteReturnWindows in Hlook. rewrite !elem_of_cons, elem_of_nil in Hlook.
  pose proof (priceWindowPercent_near (p_value (iq_UnitPrice base)) (p_value (iq_UnitPrice latest)) (Z.min (n - b) 106751) Hpos ltac:(lia)) as Hnear.
  unfold change_between in Hperf. destruct (priceWindowPercent _ _ _) as [period annual].
  destruct Hnear as (p & a & Ep & _ & Hp' & _). unfold evaluateReviewLeaf. rewrite Hm.
  change (bool_decide ("price_change"%string = "instrument"%string)) with false. change (bool_decide ("price_change"%string = "type"%string)) with false.
  rewrite (bool_decide_eq_false_2 (_ ∈ amount_metrics)) by (unfold amount_metrics; set_solver).
  rewrite (bool_decide_eq_true_2 (_ ∈ _)) by set_solver. unfold evaluate_percent. rewrite Hm.
  change (bool_decide ("price_change"%string = "annualized"%string)) with false. cbn [andb]. rewrite Hperf.
  cbn [LatestOn AsOfOn qp_WindowDays ElapsedDays BaselineOn PeriodPercent].
  rewrite (bool_decide_eq_true_2 (di_On input = di_On input)) by done. rewrite Z.eqb_refl, andb_false_r, (proj2 (Z.leb_gt _ _)) by lia. cbn [negb orb].
  pose proof Hon as Hon'. unfold is_date in Hon'. rewrite Hon'.
  rewrite (CivilDaysBetween_forward _ _ b (n - rl_LookbackDays leaf)) by (try done; apply ParseDate_format_days; lia).
  rewrite (proj2 (Z.ltb_ge _ 0)) by lia. rewrite (proj2 (Z.ltb_ge _ _)) by lia. cbn [orb]. rewrite Ep.
  eexists _, p, base, b, latest. split; [reflexivity|]. split_and!; [done|done|done|exact Hp'].
Qed.
End Decided.
End Percent.
