(* ===== verification/ReviewLifecycle.v ===== *)
(** * The life of a rule's episodes

    [review_lifecycle_plan.go] of the application, with the records it reads from
    [review_projection.go], [review_rule.go], [review_projection_plan.go] and
    [review_position_epochs.go]: how the verdicts of a rule on one instrument, replayed from the
    first day or continued from the last published one, close, keep or open an episode.  The
    identifier of a new episode is an argument; captures keep the fields that are read here. *)

From S2P Require Export ReviewDaily.
From S2P Require Import DecimalModel.
From Stdlib Require Import String Ascii.

#[global] Open Scope Z_scope.

(** ** Records *)

Record ReviewStoredEpisode := mkStored {
  se_ID : string; se_RuleID : string; se_InstrumentID : InstrumentID; PositionEpochID : string; OpenedConditionVersion : Z;
  FirstHitOn : string; se_TriggeredOn : string; TriggerWindow : ReviewPolicyWindow; TriggerResult : option ReviewDailyResult;
  TriggerCoverage : list string; se_FirstDetectedAt : Time; se_AcknowledgedAt : option Time; se_Revision : Z }.

Record ReviewRule := mkRule {
  rr_ID : string; rr_HouseholdID : HouseholdID; rr_Name : string; rr_Enabled : bool; Severity : string; rr_Evaluator : string;
  RowRevision : Z; CurrentConditionVersion : Z; rr_Spec : ReviewRuleSpec; rr_SemanticHash : string; rr_CreatedAt : Time;
  rr_UpdatedAt : Time; rr_ArchivedAt : option Time }.

Record ReviewProjectionControl := mkControl {
  ct_Enabled : bool; ConfigRevision : Z; InputGeneration : Z; ReviewStateRevision : Z; ProjectionStatus : string;
  PublishedOn : string; PublishedFingerprint : string; PublishedTemporalRevision : string }.

(** The fields of [ReviewProjectionCapture] that the plan of an episode reads. *)
Record ReviewProjectionCapture := mkCapture {
  HistoricalFingerprint : string; Control : ReviewProjectionControl; OpenEpisodes : list ReviewStoredEpisode }.

Record ReviewHistoricalCoverage := mkReviewCoverage { cov_On : string; cov_Missing : list string }.

Record ReviewPlannedDay := mkPlannedDay {
  pd_On : string; pd_Input : ReviewDailyInput; pd_Coverage : ReviewHistoricalCoverage; pd_Result : ReviewDailyResult;
  PolicyWindow : ReviewPolicyWindow; InputFingerprint : string }.

Record ReviewPositionEpoch := mkEpoch {
  OpenedAt : option Time; OpenedBy : option ActivityID; ClosedAt : option Time; ClosedBy : option ActivityID; StartUnknown : bool }.

Record ReviewPositionTimeline := mkPosition { pt_Known : bool; pt_Reason : string; pt_Quantity : string; Epochs : list ReviewPositionEpoch }.

Record ReviewRuleInstrumentPlan := mkPlan {
  pl_RuleID : string; ConditionVersion : Z; pl_InstrumentID : InstrumentID; LatestClosedOn : string; Days : list ReviewPlannedDay;
  LatestWindow : ReviewPolicyWindow; LatestResult : option ReviewDailyResult; LatestCoverage : list string; Incremental : bool;
  RecomputedDays : Z; RetainedOutputDays : Z; PreviousLatestOn : string; Position : ReviewPositionTimeline;
  EpochIDs : list string; ActiveSuppression : option ReviewSuppression }.

Record ReviewLifecyclePlan := mkLifecycle {
  CurrentEpochID : string; lc_Current : option ReviewEpisodeIdentity; lc_Closed : list ReviewEpisodeIdentity;
  lc_Opened : bool; Actionable : bool }.

Section Lifecycle.
Context `{HD : DecimalAPI} `{TZ : TimeZones}.
Context (capture : ReviewProjectionCapture) (rule : ReviewRule) (plan : ReviewRuleInstrumentPlan) (now : Time).

(** ** The episodes that are open *)

Definition for_plan (stored : ReviewStoredEpisode) : bool :=
  bool_decide (se_RuleID stored = rr_ID rule) && bool_decide (se_InstrumentID stored = pl_InstrumentID plan).

Definition identity (stored : ReviewStoredEpisode) : ReviewEpisodeIdentity :=
  mkEpisode (se_ID stored) (se_TriggeredOn stored) (se_FirstDetectedAt stored) (se_AcknowledgedAt stored) None "".

(** The reason for which a stored episode closes before the votes are looked at. *)
Definition stored_reason (known held : bool) (currentEpochID : string) (stored : ReviewStoredEpisode) : string :=
  if rr_ArchivedAt rule then "rule_archived"
  else if known && (negb held || negb (bool_decide (PositionEpochID stored = currentEpochID))) then "position_closed"
  else match Days plan with
  | first :: _ => if negb (Incremental plan) && String.ltb (se_TriggeredOn stored) (pd_On first) then "evidence_corrected" else ""
  | [] => ""
  end.

(** The loop over the stored episodes: those that close, and the one that may go on with the
    epoch it belongs to. *)
Definition stored_step (known held : bool) (currentEpochID : string)
    (st : list ReviewEpisodeIdentity * option (ReviewEpisodeIdentity * string)) (stored : ReviewStoredEpisode)
    : Result (list ReviewEpisodeIdentity * option (ReviewEpisodeIdentity * string)) :=
  let '(closed, reusable) := st in
  if negb (for_plan stored) then Ok st
  else
    let reason := stored_reason known held currentEpochID stored in
    if negb (bool_decide (reason = ""%string)) then Ok (closed ++ [resolved (identity stored) now reason], reusable)
    else match reusable with
    | Some _ => Fail (domainErr ErrConflict "episode" "multiple open episodes share one review epoch")
    | None => Ok (closed, Some (identity stored, PositionEpochID stored))
    end.

(** The open epoch at the end of the position's history, and its identifier. *)
Definition current_epoch (held : bool) : option (ReviewPositionEpoch * string) :=
  let epochs := Epochs (Position plan) in
  if held && bool_decide (List.length (EpochIDs plan) = List.length epochs) then
    match last epochs, last (EpochIDs plan) with
    | Some epoch, Some id => if ClosedAt epoch then None else Some (epoch, id)
    | _, _ => None
    end
  else None.

Definition actionable (current : option ReviewEpisodeIdentity) : bool :=
  match current with
  | None => false
  | Some e =>
    ReviewEpisodeActionable (ct_Enabled (Control capture)) (rr_Enabled rule) true (match AcknowledgedAt e with Some _ => true | None => false end)
      (Truth (LatestWindow plan)) (ActiveSuppression plan)
  end.

(** ** Going on from the last published day *)

(** The stored episodes are looked up by identifier. *)
Definition persisted (id : string) : bool :=
  existsb (λ stored, for_plan stored && bool_decide (se_ID stored = id)) (OpenEpisodes capture).

(** [current], [firstTrueAfterLastFalse] and the closed episodes. *)
Definition incremental_day (st : option ReviewEpisodeIdentity * string * list ReviewEpisodeIdentity) (day : ReviewPlannedDay)
    : Result (option ReviewEpisodeIdentity * string * list ReviewEpisodeIdentity) :=
  let '(current, firstTrue, closed) := st in
  if negb (String.ltb (PreviousLatestOn plan) (pd_On day)) then Ok st
  else match Truth (PolicyWindow day) with
  | ReviewFalse =>
    let closed := match current with
      | Some e => if persisted (ep_ID e) then closed ++ [resolved e now "recovered"] else closed
      | None => closed
      end in
    Ok (None, ""%string, closed)
  | ReviewTrue =>
    Ok (current, match current with None => if bool_decide (firstTrue = ""%string) then pd_On day else firstTrue | Some _ => firstTrue end, closed)
  | ReviewUnknown => Ok st
  | ReviewOther _ => Fail (validation "policyByDay" "unsupported incremental policy truth value")
  end.

Definition planReviewLifecycleIncremental (result : ReviewLifecyclePlan) (reusable : option ReviewEpisodeIdentity) (nextID : string)
    : Result ReviewLifecyclePlan :=
  '(current, firstTrue, closed) ← foldM incremental_day (reusable, ""%string, lc_Closed result) (Days plan);
  match current with
  | Some e => Ok (mkLifecycle (CurrentEpochID result) (Some e) closed false (actionable (Some e)))
  | None =>
    if bool_decide (Truth (LatestWindow plan) = ReviewTrue) then
      if bool_decide (firstTrue = ""%string)
      then Fail (domainErr ErrConflict "episode" "incremental trigger has no newly proven true policy date")
      else
        let e := mkEpisode nextID firstTrue now None None "" in
        Ok (mkLifecycle (CurrentEpochID result) (Some e) closed true (actionable (Some e)))
    else Ok (mkLifecycle (CurrentEpochID result) None closed false (actionable None))
  end.

(** ** Replaying every day *)

Definition policyByDay : gmap string ReviewTruth :=
  fold_left (λ votes day, <[pd_On day := Truth (PolicyWindow day)]> votes) (Days plan) ∅.

(** The first day of the interval, from the days of the plan and the opening of the epoch. *)
Definition epoch_first_on (epoch : ReviewPositionEpoch) (firstOn : string) : Result string :=
  match OpenedAt epoch with
  | None => Ok firstOn
  | Some at_ =>
    match LoadLocation (rs_Timezone (rs_Schedule (rr_Spec rule))) with
    | None => Fail (OtherErr "unknown time zone")
    | Some location =>
      let openedOn := FormatDate (wall location at_) in
      Ok (if String.ltb (LatestClosedOn plan) openedOn then LatestClosedOn plan
          else if String.ltb firstOn openedOn then openedOn else firstOn)
    end
  end.

Definition reusable_first_on (reusable : option ReviewEpisodeIdentity) (firstOn : string) : string :=
  match reusable with
  | None => firstOn
  | Some e =>
    let firstOn :=
      if String.ltb firstOn (TriggeredOn e) && bool_decide (PublishedFingerprint (Control capture) = HistoricalFingerprint capture)
      then TriggeredOn e else firstOn in
    if String.ltb (TriggeredOn e) firstOn then TriggeredOn e else firstOn
  end.

(** [reconstructedTrigger] *)
Definition reconstruct_day (firstOn : string) (trigger : string) (day : ReviewPlannedDay) : string :=
  if String.ltb (pd_On day) firstOn then trigger
  else match Truth (PolicyWindow day) with
  | ReviewFalse => ""
  | ReviewTrue => if bool_decide (trigger = ""%string) then pd_On day else trigger
  | _ => trigger
  end.

(** The condition version under which an episode was opened. *)
Definition opened_version (id : string) : Z :=
  match find (λ stored, bool_decide (se_ID stored = id)) (OpenEpisodes capture) with
  | Some stored => OpenedConditionVersion stored
  | None => ConditionVersion plan
  end.

Definition redated (firstOn : string) (e : ReviewEpisodeIdentity) : ReviewEpisodeIdentity :=
  let trigger := fold_left (reconstruct_day firstOn) (Days plan) ""%string in
  if (opened_version (ep_ID e) =? ConditionVersion plan) && negb (bool_decide (trigger = ""%string))
  then mkEpisode (ep_ID e) trigger (FirstDetectedAt e) (AcknowledgedAt e) (ResolvedAt e) (ResolvedReason e)
  else e.

Definition planReviewLifecycleFull (currentEpochID : string) (epoch : ReviewPositionEpoch) (closed : list ReviewEpisodeIdentity)
    (reusable : option ReviewEpisodeIdentity) (firstOn nextID : string) : Result ReviewLifecyclePlan :=
  firstOn ← epoch_first_on epoch firstOn;
  let firstOn := reusable_first_on reusable firstOn in
  if String.ltb (LatestClosedOn plan) firstOn then
    Ok (mkLifecycle currentEpochID reusable closed false (actionable reusable))
  else
    decision ← AdvanceReviewEpisode firstOn (LatestClosedOn plan) policyByDay true true false reusable nextID now;
    let current := redated firstOn <$> dc_Current decision in
    Ok (mkLifecycle currentEpochID current (closed ++ option_list (dc_Closed decision)) (dc_Opened decision) (actionable current)).

(** ** The plan *)

Definition PlanReviewLifecycle (nextID : string) : Result ReviewLifecyclePlan :=
  if negb (bool_decide (rr_ID rule = pl_RuleID plan)) || negb (CurrentConditionVersion rule =? ConditionVersion plan) || timeIsZero now
  then Fail (validation "plan" "rule projection and detection time are required")
  else
    let known := pt_Known (Position plan) in
    held ← (if known then q ← ParseQuantity (pt_Quantity (Position plan)); Ok (dIsPositive (q_value q)) else Ok false);
    let epoch := current_epoch held in
    let currentEpochID := match epoch with Some (_, id) => id | None => ""%string end in
    '(closed, reusable) ← foldM (stored_step known held currentEpochID) ([], None) (OpenEpisodes capture);
    let stopped := Ok (mkLifecycle
      (match reusable with Some (_, id) => if known then currentEpochID else id | None => currentEpochID end)
      (fst <$> reusable) closed false false) in
    match rr_ArchivedAt rule, epoch with
    | None, Some (epoch, _) =>
      if negb known || negb held then stopped
      else if Incremental plan then planReviewLifecycleIncremental (mkLifecycle currentEpochID None closed false false) (fst <$> reusable) nextID
      else match Days plan with
      | [] => stopped
      | first :: _ => planReviewLifecycleFull currentEpochID epoch closed (fst <$> reusable) (pd_On first) nextID
      end
    | _, _ => stopped
    end.
End Lifecycle.
