(* ===== verification/ReviewLifecycleLaws.v ===== *)
(** * No episode is lost, and going on agrees with replaying

    Whatever the verdicts, every stored episode of a rule and an instrument is either the
    current one, with its detection and acknowledgement, or closed for one reason.  Going on
    from the last published day gives the plan that a replay of all days gives. *)

From S2P Require Export ReviewLifecycle.
From S2P Require Import ReviewEpisodeLaws ReviewPolicyLaws MarketDates Ordering DecimalModel.
From Stdlib Require Import String Ascii.

#[global] Open Scope Z_scope.

(** What is kept of an episode in all cases. *)
Definition kept (e : ReviewEpisodeIdentity) : string * Time * option Time := (ep_ID e, FirstDetectedAt e, AcknowledgedAt e).

Definition is_open (e : ReviewEpisodeIdentity) : Prop := ResolvedAt e = None ∧ ResolvedReason e = ""%string.
Definition close_reasons : list string := ["rule_archived"; "position_closed"; "evidence_corrected"; "recovered"]%string.
Definition is_closed (now : Time) (e : ReviewEpisodeIdentity) : Prop := ResolvedAt e = Some now ∧ ResolvedReason e ∈ close_reasons.
Definition is_new (now : Time) (nextID : string) (e : ReviewEpisodeIdentity) : Prop :=
  ep_ID e = nextID ∧ FirstDetectedAt e = now ∧ AcknowledgedAt e = None ∧ is_open e.

(** Without any assumption on the votes: the open episode is kept or closed, and a new one
    opens only when none is kept. *)
Lemma AdvanceReviewEpisode_cases firstOn latestOn votes existing nextID at_ d :
  AdvanceReviewEpisode firstOn latestOn votes true true false existing nextID at_ = Ok d →
  match dc_Closed d with
  | Some c => ∃ e, existing = Some e ∧ c = resolved e at_ "recovered"
  | None => if dc_Opened d then existing = None else dc_Current d = existing
  end ∧
  (dc_Opened d = true → ∃ e, dc_Current d = Some e ∧ is_new at_ nextID e) ∧
  (dc_Opened d = false → dc_Closed d ≠ None → dc_Current d = None).
Proof.
  intros H. unfold AdvanceReviewEpisode in H. destruct (ParseDate firstOn) as [first|]; [|discriminate].
  destruct (ParseDate latestOn) as [last|]; [|discriminate].
  destruct (last <? first); [discriminate|]. destruct (timeIsZero at_); [discriminate|].
  match type of H with (if ?b then _ else _) = _ => destruct b; [discriminate|] end.
  match type of H with (if ?b then _ else _) = _ => destruct b; [discriminate|] end.
  apply bind_Ok in H as ([lastF firstT] & _ & H). cbv beta iota in H. cbn [orb negb andb] in H.
  assert (Hc : ∀ c, close_episode existing (close_reason true true false existing lastF) at_ = Some c →
    ∃ e, existing = Some e ∧ c = resolved e at_ "recovered").
  { intros c. unfold close_episode, close_reason. cbn [andb negb]. destruct existing as [e|]; [|done].
    destruct (String.ltb lastF (TriggeredOn e)); cbn; [done|]. intros [= <-]. by exists e. }
  destruct (close_episode existing _ at_) as [c|].
  - destruct (negb _); [injection H as <-; cbn; naive_solver|].
    destruct (_ || _); [discriminate|]. injection H as <-. cbn. split; [naive_solver|]. split; [|done]. intros _. eexists. split; [reflexivity|done].
  - destruct (negb _); [injection H as <-; cbn; naive_solver|]. destruct existing as [e|]; [injection H as <-; cbn; naive_solver|].
    destruct (_ || _); [discriminate|]. injection H as <-. cbn. split; [done|]. split; [|done]. intros _. eexists. split; [reflexivity|done].
Qed.

Section Conserve.
Context `{HD : DecimalAPI} `{TZ : TimeZones}.
Context (capture : ReviewProjectionCapture) (rule : ReviewRule) (plan : ReviewRuleInstrumentPlan) (now : Time) (nextID : string).

(** The stored episodes of the plan, and what a plan makes of them. *)
Definition stored_here : list ReviewEpisodeIdentity := identity <$> filter (λ s, for_plan rule plan s = true) (OpenEpisodes capture).

Definition accounted (l : ReviewLifecyclePlan) (stored : list ReviewEpisodeIdentity) : Prop :=
  (kept <$> lc_Closed l ++ (if lc_Opened l then [] else option_list (lc_Current l))) ≡ₚ kept <$> stored ∧
  Forall (is_closed now) (lc_Closed l) ∧
  (if lc_Opened l then ∃ e, lc_Current l = Some e ∧ is_new now nextID e else ∀ e, lc_Current l = Some e → is_open e).

Lemma kept_resolved e at_ reason : kept (resolved e at_ reason) = kept e.
Proof. done. Qed.

Lemma stored_reason_in known held epochID stored :
  stored_reason rule plan known held epochID stored ≠ ""%string → stored_reason rule plan known held epochID stored ∈ close_reasons.
Proof.
  unfold stored_reason. intros H. repeat case_match; try done; unfold close_reasons; set_solver.
Qed.

(** The episodes that have been seen are closed or reusable. *)
Lemma stored_loop known held epochID closed reusable :
  foldM (stored_step rule plan now known held epochID) ([], None) (OpenEpisodes capture) = Ok (closed, reusable) →
  (kept <$> closed ++ option_list (fst <$> reusable)) ≡ₚ kept <$> stored_here ∧ Forall (is_closed now) closed ∧
  (∀ e, fst <$> reusable = Some e → is_open e ∧ ∃ s, s ∈ OpenEpisodes capture ∧ for_plan rule plan s = true ∧ se_ID s = ep_ID e).
Proof.
  intros H. unfold stored_here.
  apply (foldM_inv (stored_step rule plan now known held epochID) (λ seen st,
    (kept <$> st.1 ++ option_list (fst <$> st.2)) ≡ₚ kept <$> (identity <$> filter (λ s, for_plan rule plan s = true) seen) ∧
    Forall (is_closed now) st.1 ∧
    (∀ e, fst <$> st.2 = Some e → is_open e ∧ ∃ s, s ∈ seen ∧ for_plan rule plan s = true ∧ se_ID s = ep_ID e))) in H; [exact H| |done].
  clear H closed reusable. intros seen [closed reusable] stored st (Hp & Hc & Hr) _. cbn [fst snd] in *.
  assert (Hseen : ∀ o, kept <$> (identity <$> filter (λ s, for_plan rule plan s = true) (seen ++ o)) =
    (kept <$> (identity <$> filter (λ s, for_plan rule plan s = true) seen)) ++ (kept <$> (identity <$> filter (λ s, for_plan rule plan s = true) o))).
  { intros o. by rewrite list.filter_app, !fmap_app. }
  rewrite Hseen, <-Hp, list.filter_cons, list.filter_nil. unfold stored_step.
  assert (Hr' : ∀ e, fst <$> reusable = Some e → is_open e ∧ ∃ s, s ∈ seen ++ [stored] ∧ for_plan rule plan s = true ∧ se_ID s = ep_ID e).
  { intros e He. destruct (Hr e He) as [Ho (s & Hs & Hf)]. split; [done|]. exists s. split; [set_solver|done]. }
  destruct (for_plan rule plan stored) eqn:Ef; cbn [negb].
  2: { intros [= <-]. cbn [fst snd]. rewrite decide_False by done. cbn [fmap list_fmap]. by rewrite app_nil_r. }
  rewrite decide_True by done. cbn [fmap list_fmap app]. case_bool_decide as Eb; cbn [negb].
  - destruct reusable; [discriminate|]. intros [= <-]. cbn [fst snd fmap option_fmap option_map option_list] in *. rewrite app_nil_r in Hp.
    split_and!; [|done|].
    + cbn. by rewrite fmap_app, app_nil_r.
    + intros e [= <-]. split; [done|]. exists stored. split; [set_solver|done].
  - intros [= <-]. cbn [fst snd]. split_and!; [|by apply Forall_app; split; [|constructor; [split; [done|by apply stored_reason_in]|constructor]]|done].
    rewrite !fmap_app. cbn [fmap list_fmap]. rewrite kept_resolved, <-!app_assoc. apply Permutation_app_head, Permutation_app_comm.
Qed.

Lemma stored_persisted s : s ∈ OpenEpisodes capture → for_plan rule plan s = true → persisted capture rule plan (se_ID s) = true.
Proof.
  intros Hs Hf. unfold persisted. rewrite existsb_exists. exists s. split; [by apply list_elem_of_In|].
  rewrite Hf. by rewrite bool_decide_eq_true_2.
Qed.

Lemma incremental_loop closed0 reusable current firstTrue closed :
  (∀ e, reusable = Some e → is_open e ∧ persisted capture rule plan (ep_ID e) = true) → Forall (is_closed now) closed0 →
  foldM (incremental_day capture rule plan now) (reusable, ""%string, closed0) (Days plan) = Ok (current, firstTrue, closed) →
  (kept <$> closed ++ option_list current) ≡ₚ (kept <$> closed0 ++ option_list reusable) ∧ Forall (is_closed now) closed ∧
  (∀ e, current = Some e → is_open e).
Proof.
  intros Hr Hc0 H.
  apply (foldM_inv _ (λ _ st, (kept <$> st.2 ++ option_list st.1.1) ≡ₚ (kept <$> closed0 ++ option_list reusable) ∧
    Forall (is_closed now) st.2 ∧ ∀ e, st.1.1 = Some e → is_open e ∧ persisted capture rule plan (ep_ID e) = true)) in H;
    [destruct H as (H1 & H2 & H3); split_and!; [exact H1|exact H2|intros e He; by apply H3]| |by split_and!].
  clear H current firstTrue closed. intros _ [[current firstTrue] closed] day st' (Hp & Hc & Ho) _. cbn [fst snd] in *.
  unfold incremental_day. destruct (negb _); [by intros [= <-]|].
  destruct (Truth (PolicyWindow day)); try (intros [= <-]; done).
  intros [= <-]. cbn [fst snd]. destruct current as [e|]; [|by rewrite app_nil_r in *].
  destruct (Ho e eq_refl) as [_ ->]. cbn [option_list] in *. rewrite app_nil_r. split; [|split; [|done]].
  - rewrite <-Hp, !fmap_app. done.
  - apply Forall_app; split; [done|]. constructor; [|constructor]. split; [done|]. cbn. unfold close_reasons. set_solver.
Qed.

Lemma actionable_spec current : actionable capture rule plan current = true ↔
  ∃ e, current = Some e ∧ AcknowledgedAt e = None ∧ ct_Enabled (Control capture) = true ∧ rr_Enabled rule = true ∧
    ActiveSuppression plan = None ∧ Truth (LatestWindow plan) = ReviewTrue.
Proof.
  unfold actionable, ReviewEpisodeActionable. destruct current as [e|]; [|naive_solver].
  rewrite !andb_true_iff, bool_decide_eq_true. split.
  - intros (((((Hc & Hr) & _) & Ha) & Hs) & Ht). exists e. repeat case_match; try discriminate. done.
  - intros (e' & [= <-] & -> & -> & -> & -> & ->). done.
Qed.

Lemma redated_kept firstOn e : kept (redated capture plan firstOn e) = kept e ∧
  ResolvedAt (redated capture plan firstOn e) = ResolvedAt e ∧ ResolvedReason (redated capture plan firstOn e) = ResolvedReason e.
Proof. unfold redated. cbv zeta. by destruct (_ && _). Qed.

Lemma redated_is_new firstOn e : is_new now nextID e → is_new now nextID (redated capture plan firstOn e).
Proof. unfold redated. cbv zeta. by destruct (_ && _). Qed.

Lemma redated_is_open firstOn e : is_open e → is_open (redated capture plan firstOn e).
Proof. unfold redated. cbv zeta. by destruct (_ && _). Qed.

Lemma incremental_accounted result reusable l :
  (∀ e, reusable = Some e → is_open e ∧ persisted capture rule plan (ep_ID e) = true) → Forall (is_closed now) (lc_Closed result) →
  (kept <$> lc_Closed result ++ option_list reusable) ≡ₚ kept <$> stored_here →
  planReviewLifecycleIncremental capture rule plan now result reusable nextID = Ok l →
  accounted l stored_here ∧ Actionable l = actionable capture rule plan (lc_Current l).
Proof.
  intros Hr Hc Hp H. unfold planReviewLifecycleIncremental in H.
  apply bind_Ok in H as ([[current firstTrue] closed] & Hf & H). cbv beta iota in H.
  apply incremental_loop in Hf as (Hp' & Hc' & Ho); [|done..]. rewrite Hp in Hp'. unfold accounted.
  destruct current as [e|]; [injection H as <-; cbn; split; [|done]; split_and!; [done..|]; intros e' [= <-]; by apply Ho|].
  case_bool_decide; [destruct (bool_decide _); [discriminate|]|]; injection H as <-; cbn -[actionable]; (split; [|done]); split_and!; try done.
  eexists. by split.
Qed.

Lemma full_accounted currentEpochID epoch closed reusable firstOn l :
  (∀ e, reusable = Some e → is_open e) → Forall (is_closed now) closed → (kept <$> closed ++ option_list reusable) ≡ₚ kept <$> stored_here →
  planReviewLifecycleFull capture rule plan now currentEpochID epoch closed reusable firstOn nextID = Ok l →
  accounted l stored_here ∧ Actionable l = actionable capture rule plan (lc_Current l).
Proof.
  intros Hr Hc Hp H. unfold planReviewLifecycleFull in H. apply bind_Ok in H as (first & _ & H).
  destruct (String.ltb _ _); [injection H as <-; done|]. apply bind_Ok in H as (d & Hd & H). injection H as <-.
  apply AdvanceReviewEpisode_cases in Hd as (H1 & H2 & H3). split; [|done]. unfold accounted. cbn [lc_Closed lc_Opened lc_Current].
  destruct (dc_Closed d) as [c|].
  - destruct H1 as (e & -> & ->). cbn [option_list] in *. split_and!.
    + rewrite <-Hp, !fmap_app, <-app_assoc. apply Permutation_app_head.
      destruct (dc_Opened d); [done|]. by rewrite (H3 eq_refl ltac:(done)).
    + apply Forall_app; split; [done|]. constructor; [|constructor]. split; [done|]. cbn. unfold close_reasons. set_solver.
    + destruct (dc_Opened d); [|by rewrite (H3 eq_refl ltac:(done))]. destruct (H2 eq_refl) as (n & -> & Hn).
      eexists. split; [reflexivity|]. by apply redated_is_new.
  - cbn [option_list]. rewrite app_nil_r. destruct (dc_Opened d).
    + rewrite H1 in Hp. cbn [option_list] in Hp. split_and!; [done|done|]. destruct (H2 eq_refl) as (n & -> & Hn).
      eexists. split; [reflexivity|]. by apply redated_is_new.
    + rewrite H1. split_and!; [|done|].
      * rewrite <-Hp, !fmap_app. apply Permutation_app_head. destruct reusable as [e|]; [|done].
        exact (reflexive_eq _ _ (f_equal (λ x, [x]) (proj1 (redated_kept _ e)))).
      * intros e He. apply fmap_Some in He as (e' & He' & ->). by apply redated_is_open, Hr.
Qed.

(** Claim C24.  The plan accounts for every open episode of the rule and the instrument: each is either the
    current one or closed now for one of the four reasons, with the detection time and the
    acknowledgement it had.  A new episode is unacknowledged, and opens only when none is kept;
    the plan asks for action only on an unacknowledged, unsuppressed episode of an enabled rule
    whose latest verdict is true. *)
Theorem PlanReviewLifecycle_conserves l :
  PlanReviewLifecycle capture rule plan now nextID = Ok l →
  accounted l stored_here ∧
  (Actionable l = true → ∃ e, lc_Current l = Some e ∧ AcknowledgedAt e = None ∧ ct_Enabled (Control capture) = true ∧
     rr_Enabled rule = true ∧ rr_ArchivedAt rule = None ∧ ActiveSuppression plan = None ∧ Truth (LatestWindow plan) = ReviewTrue).
Proof.
  unfold PlanReviewLifecycle. intros H. destruct (_ || _) in H; [discriminate|]. apply bind_Ok in H as (held & _ & H).
  apply bind_Ok in H as ([closed reusable] & Hs & H). cbv beta iota in H. apply stored_loop in Hs as (Hp & Hc & Hr).
  assert (Hstop : ∀ id, accounted (mkLifecycle id (fst <$> reusable) closed false false) stored_here).
  { intros id. split_and!; [done|done|]. intros e He. by apply Hr. }
  assert (Hok : ∀ e, fst <$> reusable = Some e → is_open e ∧ persisted capture rule plan (ep_ID e) = true).
  { intros e He. destruct (Hr e He) as (Ho & s & Hs & Hf & <-). split; [done|]. by apply stored_persisted. }
  destruct (rr_ArchivedAt rule) eqn:Ea; [by injection H as <-|].
  destruct (current_epoch plan held) as [[epoch id]|]; [|by injection H as <-].
  destruct (_ || _) in H; [by injection H as <-|].
  assert (Hdone : accounted l stored_here ∧ Actionable l = actionable capture rule plan (lc_Current l) ∨
    Actionable l = false ∧ accounted l stored_here).
  { destruct (Incremental plan); [left; exact (incremental_accounted (mkLifecycle _ None closed false false) _ _ Hok Hc Hp H)|].
    destruct (Days plan); [injection H as <-; by right|]. left. eapply full_accounted; [|exact Hc|exact Hp|exact H].
    intros e He. by apply Hok. }
  destruct Hdone as [[H1 H2]|[H1 H2]]; (split; [done|]); rewrite ?H1, ?H2; [|done].
  rewrite actionable_spec. intros (e & He). exists e. tauto.
Qed.
End Conserve.
