(* ===== verification/ReviewLifecycleAgree.v ===== *)
(** * Going on from the last published day agrees with replaying

    The plan that looks only at the days since the last publication is the plan of a replay of
    all days, provided no verdict is pending: a true day after the last false one that opened
    no episode, because nothing was known on the days after it. *)

From S2P Require Export ReviewLifecycleLaws.
From S2P Require Import ReviewEpisodeLaws ReviewPolicyLaws MarketDates Ordering DecimalModel.
From Stdlib Require Import String Ascii.

#[global] Open Scope Z_scope.

(** ** Days in a row *)

(** The days of a plan are the civil days from [h] on. *)
Definition dated (h : Z) (days : list ReviewPlannedDay) : Prop :=
  ∀ i d, days !! i = Some d → is_date (pd_On d) (h + Z.of_nat i).

Lemma dated_app h l k : dated h (l ++ k) ↔ dated h l ∧ dated (h + Z.of_nat (List.length l)) k.
Proof.
  unfold dated. split.
  - intros H. split; intros i d Hi; [apply H; by apply lookup_app_l_Some|].
    replace (h + Z.of_nat (List.length l) + Z.of_nat i) with (h + Z.of_nat (List.length l + i)) by lia.
    apply H. rewrite lookup_app_r by lia. by replace (List.length l + i - List.length l)%nat with i by lia.
  - intros [Hl Hk] i d Hi. apply lookup_app_Some in Hi as [Hi|[Hle Hi]]; [by apply Hl|].
    specialize (Hk _ _ Hi). by replace (h + Z.of_nat i) with (h + Z.of_nat (List.length l) + Z.of_nat (i - List.length l)) by lia.
Qed.

Lemma dated_snoc h l d : dated h (l ++ [d]) ↔ dated h l ∧ is_date (pd_On d) (h + Z.of_nat (List.length l)).
Proof.
  rewrite dated_app. split; intros [Hl Hd]; (split; [done|]).
  - specialize (Hd O d eq_refl). by rewrite Z.add_0_r in Hd.
  - intros [|i] e He; [|done]. injection He as <-. by rewrite Z.add_0_r.
Qed.

Definition day_truth (d : ReviewPlannedDay) : ReviewTruth := Truth (PolicyWindow d).

(** The votes of a plan's days are those of its table. *)
Definition voted (f : Z → ReviewTruth) (h : Z) (days : list ReviewPlannedDay) : Prop :=
  ∀ i d, days !! i = Some d → day_truth d = f (h + Z.of_nat i).

Lemma voted_app f h l k : voted f h (l ++ k) ↔ voted f h l ∧ voted f (h + Z.of_nat (List.length l)) k.
Proof.
  unfold voted. split.
  - intros H. split; intros i d Hi; [apply H; by apply lookup_app_l_Some|].
    replace (h + Z.of_nat (List.length l) + Z.of_nat i) with (h + Z.of_nat (List.length l + i)) by lia.
    apply H. rewrite lookup_app_r by lia. by replace (List.length l + i - List.length l)%nat with i by lia.
  - intros [Hl Hk] i d Hi. apply lookup_app_Some in Hi as [Hi|[Hle Hi]]; [by apply Hl|].
    rewrite (Hk _ _ Hi). f_equal. lia.
Qed.

Lemma voted_last f h l d : voted f h (l ++ [d]) → day_truth d = f (h + Z.of_nat (List.length l)).
Proof. intros H. apply H. rewrite lookup_app_r by lia. by rewrite Nat.sub_diag. Qed.

Definition table (days : list ReviewPlannedDay) : gmap string ReviewTruth :=
  fold_left (λ votes day, <[pd_On day := day_truth day]> votes) days ∅.

Lemma table_voted h days : dated h days → voted (vote (table days)) h days.
Proof.
  intros Hd i d Hi. unfold vote. rewrite (is_date_format _ _ (Hd i d Hi)).
  cut (table days !! pd_On d = Some (day_truth d)); [by intros ->|]. revert Hd i d Hi.
  induction days as [|day days IH] using rev_ind; intros Hd i d Hi; [done|].
  apply dated_snoc in Hd as [Hd Hday]. unfold table. rewrite fold_left_app. cbn [fold_left].
  apply lookup_app_Some in Hi as [Hi|[Hle Hi]].
  - rewrite lookup_insert_ne; [by apply (IH Hd i)|]. intros E. pose proof (Hd i d Hi) as Hdi. rewrite <-E in Hdi.
    pose proof (is_date_inj _ _ _ Hday Hdi). apply lookup_lt_Some in Hi. lia.
  - destruct (i - List.length days)%nat; [|done]. injection Hi as <-. apply lookup_insert_eq.
Qed.

Lemma table_valid days m : Forall (λ d, truth_valid (day_truth d) = true) days → truth_valid (vote (table days) m) = true.
Proof.
  intros H. unfold vote. destruct (table days !! format_days m) as [v|] eqn:E; [|done]. cbn [default].
  revert v E. induction days as [|day days IH] using rev_ind; intros v E; [done|].
  apply Forall_app in H as [H Hday]. unfold table in E. rewrite fold_left_app in E. cbn [fold_left] in E.
  destruct (decide (pd_On day = format_days m)) as [Em|Em].
  - rewrite Em, lookup_insert_eq in E. injection E as <-. by inversion Hday.
  - rewrite lookup_insert_ne in E by done. by apply IH.
Qed.

(** ** The loops *)

Section Loops.
Context `{HD : DecimalAPI} `{TZ : TimeZones}.
Context (capture : ReviewProjectionCapture) (rule : ReviewRule) (plan : ReviewRuleInstrumentPlan) (now : Time).
Context (f : Z → ReviewTruth) (Hvalid : ∀ m, truth_valid (f m) = true).

(** The state of the incremental loop after the days from [a] to [l]. *)
Definition continued (reusable : option ReviewEpisodeIdentity) (closed0 : list ReviewEpisodeIdentity) (a l : Z)
    (st : option ReviewEpisodeIdentity * string * list ReviewEpisodeIdentity) : Prop :=
  ∃ firstT, st.1.2 = day_text firstT ∧
  match st.1.1 with
  | Some e => reusable = Some e ∧ firstT = None ∧ st.2 = closed0 ∧ ∀ m, a <= m <= l → f m ≠ ReviewFalse
  | None => run_open f a l firstT ∧ st.2 = closed0 ++ option_list ((λ e, resolved e now "recovered") <$> reusable) ∧
      (reusable ≠ None → ∃ m, a <= m <= l ∧ f m = ReviewFalse)
  end.

Lemma incremental_next reusable closed0 p l st day :
  (∀ e, reusable = Some e → persisted capture rule plan (ep_ID e) = true) →
  is_date (PreviousLatestOn plan) p → p <= l → is_date (pd_On day) (l + 1) → day_truth day = f (l + 1) →
  continued reusable closed0 (p + 1) l st →
  ∃ st', incremental_day capture rule plan now st day = Ok st' ∧ continued reusable closed0 (p + 1) (l + 1) st'.
Proof.
  intros Hr Hp Hl Hd Ht. destruct st as [[current firstTrue] closed]. intros (firstT & H1 & H2). cbn [fst snd] in *. subst firstTrue.
  unfold incremental_day. rewrite (date_ltb _ _ p (l + 1)) by done. rewrite (proj2 (Z.ltb_lt _ _)) by lia. cbn [negb].
  change (Truth (PolicyWindow day)) with (day_truth day). rewrite Ht.
  assert (Hlast : ∀ m, p + 1 <= m <= l + 1 → m = l + 1 ∨ p + 1 <= m <= l) by lia.
  pose proof (Hvalid (l + 1)) as Hv. destruct (f (l + 1)) as [| | |] eqn:E; [| | |discriminate Hv].
  - exists (current, day_text firstT, closed). split; [done|]. exists firstT. split; [done|]. cbn [fst snd]. destruct current as [e|].
    + destruct H2 as (-> & -> & -> & Hn). split_and!; try done. intros m Hm. destruct (Hlast m Hm) as [->|]; [congruence|auto].
    + destruct H2 as (Ho & -> & He). pose proof (run_open_next f (p + 1) l firstT Ho ltac:(lia)) as Ho'. rewrite E in Ho'.
      split_and!; [done..|]. intros Hne. destruct (He Hne) as (m & Hm & Fm). exists m. split; [lia|done].
  - destruct current as [e|].
    + destruct H2 as (-> & -> & -> & Hn). eexists. split; [reflexivity|]. exists None. split; [done|]. cbn [fst snd]. split_and!; try done.
      intros m Hm. destruct (Hlast m Hm) as [->|]; [congruence|auto].
    + destruct H2 as (Ho & -> & He). pose proof (run_open_next f (p + 1) l firstT Ho ltac:(lia)) as Ho'. rewrite E in Ho'.
      eexists. split; [reflexivity|]. eexists. split; [|cbn [fst snd]; split_and!; [exact Ho'|done|]].
      * cbn [fst snd]. destruct firstT as [n|]; cbn [day_text]; [by rewrite bool_decide_eq_false_2 by apply format_days_nonempty|].
        rewrite bool_decide_eq_true_2 by done. by rewrite (is_date_format _ _ Hd).
      * intros Hne. destruct (He Hne) as (m & Hm & Fm). exists m. split; [lia|done].
  - assert (Hrun : run_open f (p + 1) (l + 1) None).
    { intros m Hm Tm. exists (l + 1). split; [|done]. destruct (Hlast m Hm) as [->|]; [congruence|lia]. }
    eexists. split; [reflexivity|]. exists None. split; [done|]. cbn [fst snd]. split_and!; [done| |intros _; exists (l + 1); split; [lia|done]].
    destruct current as [e|]; [destruct H2 as (-> & _ & -> & _); cbn; by rewrite (Hr e eq_refl)|by destruct H2 as (_ & -> & _)].
Qed.

Lemma incremental_days reusable closed0 p days :
  (∀ e, reusable = Some e → persisted capture rule plan (ep_ID e) = true) →
  is_date (PreviousLatestOn plan) p → dated (p + 1) days → voted f (p + 1) days →
  ∃ st, foldM (incremental_day capture rule plan now) (reusable, ""%string, closed0) days = Ok st ∧
    continued reusable closed0 (p + 1) (p + Z.of_nat (List.length days)) st.
Proof.
  intros Hr Hp. induction days as [|day days IH] using rev_ind; intros Hd Hv.
  - eexists. split; [reflexivity|]. exists None. split; [done|]. cbn [fst snd]. destruct reusable as [e|].
    + split_and!; try done. intros m Hm. cbn in Hm. lia.
    + split_and!; [intros m Hm; cbn in Hm; lia|by rewrite app_nil_r|done].
  - apply dated_snoc in Hd as [Hd Hday]. pose proof (voted_last _ _ _ _ Hv) as Ht. apply voted_app in Hv as [Hv _].
    destruct (IH Hd Hv) as (st & Hf & Hc). rewrite foldM_app, Hf. cbn [foldM].
    replace (p + 1 + Z.of_nat (List.length days)) with (p + Z.of_nat (List.length days) + 1) in * by lia.
    destruct (incremental_next reusable closed0 p (p + Z.of_nat (List.length days)) st day Hr Hp ltac:(lia) Hday Ht Hc) as (st' & -> & Hc').
    exists st'. split; [done|]. rewrite length_app. cbn [List.length].
    by replace (p + Z.of_nat (List.length days + 1)) with (p + Z.of_nat (List.length days) + 1) by lia.
Qed.

(** The reconstructed trigger is the first true day since the last false one. *)
Lemma reconstruct_days h first firstOn days :
  is_date firstOn first → h <= first → dated h days → voted f h days →
  ∃ o, fold_left (reconstruct_day firstOn) days ""%string = day_text o ∧ run_open f first (h + Z.of_nat (List.length days) - 1) o.
Proof.
  intros Hf Hle. induction days as [|day days IH] using rev_ind; intros Hd Hv.
  - exists None. split; [done|]. intros m Hm. cbn in Hm. lia.
  - apply dated_snoc in Hd as [Hd Hday]. pose proof (voted_last _ _ _ _ Hv) as Ht. apply voted_app in Hv as [Hv _].
    destruct (IH Hd Hv) as (o & Ho & Hr). rewrite fold_left_app, Ho, length_app. cbn [fold_left List.length]. unfold reconstruct_day.
    rewrite (date_ltb _ _ _ _ Hday Hf). set (l := h + Z.of_nat (List.length days) - 1) in *.
    replace (h + Z.of_nat (List.length days)) with (l + 1) in * by (unfold l; lia).
    replace (h + Z.of_nat (List.length days + 1) - 1) with (l + 1) by (unfold l; lia).
    destruct (Z.ltb_spec (l + 1) first) as [Hlt|Hge].
    { exists None. destruct o as [n|]; [destruct Hr as (Hn & _); lia|]. split; [done|]. intros m Hm. lia. }
    pose proof (run_open_next f first l o Hr ltac:(lia)) as Hr'. change (Truth (PolicyWindow day)) with (day_truth day). rewrite Ht.
    eexists. split; [|exact Hr']. destruct (f (l + 1)); try done. destruct o as [n|]; cbn [day_text].
    + by rewrite bool_decide_eq_false_2 by apply format_days_nonempty.
    + rewrite bool_decide_eq_true_2 by done. by rewrite (is_date_format _ _ Hday).
Qed.
End Loops.

(** ** Agreement *)

(** The plan of a replay: all days, those before the last publication first. *)
Definition replayed (before : list ReviewPlannedDay) (plan : ReviewRuleInstrumentPlan) : ReviewRuleInstrumentPlan :=
  mkPlan (pl_RuleID plan) (ConditionVersion plan) (pl_InstrumentID plan) (LatestClosedOn plan) (before ++ Days plan)
    (LatestWindow plan) (LatestResult plan) (LatestCoverage plan) false (RecomputedDays plan) (RetainedOutputDays plan)
    (PreviousLatestOn plan) (Position plan) (EpochIDs plan) (ActiveSuppression plan).

Section Agree.
Context `{HD : DecimalAPI} `{TZ : TimeZones}.
Context (capture : ReviewProjectionCapture) (rule : ReviewRule) (plan : ReviewRuleInstrumentPlan) (now : Time) (nextID : string).
Context (before : list ReviewPlannedDay) (h p last : Z).

Definition all_days : list ReviewPlannedDay := before ++ Days plan.
Definition verdicts : Z → ReviewTruth := vote (table all_days).

(** An episode is still open on a day: true on its first day and never false since. *)
Definition unresolved (text : string) (day : Z) : Prop :=
  ∃ t, is_date text t ∧ h <= t <= day ∧ verdicts t = ReviewTrue ∧ ∀ m, t <= m <= day → verdicts m ≠ ReviewFalse.

(** The plan goes on from what was published on day [p] for the same history. *)
Record continues : Prop := {
  c_incremental : Incremental plan = true;
  c_same : PublishedFingerprint (Control capture) = HistoricalFingerprint capture;
  c_dated : dated h all_days;
  c_previous : is_date (PreviousLatestOn plan) p;
  c_before : p = h + Z.of_nat (List.length before) - 1;
  c_nonempty : before ≠ [];
  c_latest : is_date (LatestClosedOn plan) last;
  c_last : last = h + Z.of_nat (List.length all_days) - 1;
  c_valid : Forall (λ d, truth_valid (day_truth d) = true) all_days;
  c_window : Truth (LatestWindow plan) = verdicts last;
  c_open : ∀ s, s ∈ OpenEpisodes capture → for_plan rule plan s = true → unresolved (se_TriggeredOn s) p;
  c_ids : ∀ s, s ∈ OpenEpisodes capture → se_ID s ≠ ""%string ∧ se_ID s ≠ nextID;
  c_next : nextID ≠ ""%string }.

(** No verdict is pending in an epoch: it has an open episode, or every true day of it up to
    the last publication is followed by a false one. *)
Definition settled : Prop :=
  ∀ epoch id, current_epoch plan true = Some (epoch, id) →
  ∃ n, epoch_first_on rule plan epoch (format_days h) = Ok (format_days n) ∧ h <= n <= last ∧ n <= p + 1 ∧
    ((∃ s, s ∈ OpenEpisodes capture ∧ for_plan rule plan s = true ∧ PositionEpochID s = id) ∨ run_open verdicts n p None).

Context (Hc : continues).

Lemma verdicts_valid m : truth_valid (verdicts m) = true.
Proof. apply table_valid, Hc. Qed.

Lemma date_in n : h <= n <= last → is_date (format_days n) n.
Proof.
  intros Hn. pose proof (c_dated Hc O) as Hd. destruct all_days as [|d l] eqn:E; [by apply app_eq_nil in E as [E _]; destruct (c_nonempty Hc)|].
  specialize (Hd d eq_refl). rewrite Z.add_0_r in Hd. exact (is_date_between _ _ h last n Hd (c_latest Hc) Hn).
Qed.

Lemma redated_same first n e :
  is_date first n → h <= n → (∃ m, opens verdicts n last m ∧ TriggeredOn e = format_days m) → redated capture (replayed before plan) first e = e.
Proof.
  intros Hd Hn (m & Hm & He). unfold redated.
  destruct (reconstruct_days verdicts h n first all_days Hd Hn (c_dated Hc) (table_voted _ _ (c_dated Hc))) as (o & Ho & Hr).
  rewrite <-(c_last Hc) in Hr. destruct o as [k|]; [|by destruct (run_open_None _ _ _ _ Hr Hm)].
  rewrite (opens_unique _ _ _ _ _ Hr Hm) in Ho. change (Days (replayed before plan)) with all_days. rewrite Ho. cbn [day_text].
  rewrite <-He. destruct (_ && _); by destruct e.
Qed.

Lemma reusable_first reusable n :
  h <= n <= last → (∀ e, reusable = Some e → unresolved (TriggeredOn e) p) →
  ∃ first, reusable_first_on capture reusable (format_days n) = format_days first ∧ h <= first <= last ∧
    match reusable with Some e => is_date (TriggeredOn e) first | None => first = n end.
Proof.
  intros Hn Hu. destruct reusable as [e|]; [|by exists n]. destruct (Hu e eq_refl) as (t & Ht & Hr & _).
  exists t. assert (p <= last) by (rewrite (c_before Hc), (c_last Hc); unfold all_days; rewrite length_app; lia).
  split; [|split; [lia|done]]. unfold reusable_first_on. rewrite (c_same Hc), bool_decide_eq_true_2 by done. rewrite andb_true_r.
  rewrite (date_ltb (format_days n) (TriggeredOn e) n t) by (try done; by apply date_in). destruct (Z.ltb_spec n t).
  - rewrite (date_ltb _ _ t t) by done. rewrite Z.ltb_irrefl. by rewrite (is_date_format _ _ Ht).
  - rewrite (date_ltb _ _ t n) by (try done; by apply date_in). destruct (Z.ltb_spec t n); [by rewrite (is_date_format _ _ Ht)|].
    by replace n with t by lia.
Qed.

Lemma p_le_last : p <= last.
Proof. rewrite (c_before Hc), (c_last Hc). unfold all_days. rewrite length_app. lia. Qed.

Lemma days_after : dated (p + 1) (Days plan) ∧ voted verdicts (p + 1) (Days plan) ∧ last = p + Z.of_nat (List.length (Days plan)).
Proof.
  pose proof (c_dated Hc) as Hd. pose proof (table_voted _ _ Hd) as Hv. apply dated_app in Hd as [_ Hd]. apply voted_app in Hv as [_ Hv].
  pose proof (c_before Hc). replace (p + 1) with (h + Z.of_nat (List.length before)) by lia. split; [done|]. split; [done|].
  rewrite (c_last Hc). unfold all_days. rewrite length_app. lia.
Qed.

(** The first true day since the last publication is the one that the replay finds. *)
Lemma opening_day (reusable : option ReviewEpisodeIdentity) first firstT :
  first <= p + 1 → first <= last → run_open verdicts (p + 1) last firstT →
  (match reusable with Some _ => ∃ m, p + 1 <= m <= last ∧ verdicts m = ReviewFalse | None => run_open verdicts first p None end) →
  verdicts last = ReviewTrue → ∃ n, firstT = Some n ∧ opens verdicts first last n.
Proof.
  intros Hfirst Hl Hrun Hpast Ht. pose proof p_le_last as Hpl. destruct firstT as [n|].
  - exists n. split; [done|]. destruct Hrun as (Hn & Tn & Fn & On). split; [lia|]. split; [done|]. split; [done|]. intros m Hm Tm.
    destruct (Z.le_gt_cases (p + 1) m); [by apply On; [lia|]|]. destruct reusable.
    + destruct Hpast as (k & Hk & Ek). exists k. split; [|done]. destruct (Z.lt_ge_cases k n); [lia|]. by destruct (Fn k ltac:(lia)).
    + destruct (Hpast m ltac:(lia) Tm) as (k & Hk & Ek). exists k. split; [lia|done].
  - exfalso. destruct (Z.le_gt_cases (p + 1) last) as [Hle|Hgt].
    + destruct (Hrun last ltac:(lia) Ht) as (k & Hk & _). lia.
    + replace last with p in * by lia. destruct reusable; [destruct Hpast as (k & Hk & _); lia|].
      destruct (Hpast p ltac:(lia) Ht) as (k & Hk & _). lia.
Qed.

Lemma full_incremental result epochID epoch reusable n :
  now ≠ 0 → epoch_first_on rule plan epoch (format_days h) = Ok (format_days n) → h <= n <= last → n <= p + 1 →
  (∀ e, reusable = Some e → is_open e ∧ ep_ID e ≠ ""%string ∧ persisted capture rule plan (ep_ID e) = true ∧ unresolved (TriggeredOn e) p) →
  (reusable = None → run_open verdicts n p None) →
  planReviewLifecycleFull capture rule (replayed before plan) now epochID epoch (lc_Closed result) reusable (format_days h) nextID =
  planReviewLifecycleIncremental capture rule plan now (mkLifecycle epochID None (lc_Closed result) false false) reusable nextID.
Proof.
  intros Hnow Hep Hn Hn1 Hre Hpend. pose proof p_le_last as Hpl. destruct days_after as (Hdate & Hvote & Hlen).
  unfold planReviewLifecycleFull. change (epoch_first_on rule (replayed before plan)) with (epoch_first_on rule plan). rewrite Hep.
  cbn [mbind Result_bind]. change (LatestClosedOn (replayed before plan)) with (LatestClosedOn plan).
  change (policyByDay (replayed before plan)) with (table all_days).
  destruct (reusable_first reusable n Hn ltac:(intros e He; by apply Hre)) as (first & -> & Hr & Hfirst).
  rewrite (date_ltb _ _ last first) by (try apply Hc; by apply date_in). rewrite (proj2 (Z.ltb_ge _ _)) by lia.
  assert (Hfp : first <= p + 1).
  { destruct reusable as [e|]; [|lia]. destruct (Hre e eq_refl) as (_ & _ & _ & t & Ht & Htp & _). rewrite (is_date_inj _ _ _ Hfirst Ht). lia. }
  destruct (AdvanceReviewEpisode_result (table all_days) (format_days first) (LatestClosedOn plan) first last (date_in _ Hr) (c_latest Hc)
    ltac:(lia) verdicts_valid true true false nextID now (c_next Hc) Hnow reusable) as (d & -> & [Hcl Hcur] & _).
  { destruct reusable as [e|]; [|done]. destruct (Hre e eq_refl) as ([Ho _] & Hid & _). unfold existing_covered.
    rewrite (bool_decide_eq_false_2 _ Hid), (bool_decide_eq_true_2 _ Ho). cbn [negb andb]. unfold is_date in Hfirst. rewrite Hfirst. lia. }
  unfold planReviewLifecycleIncremental.
  destruct (incremental_days capture rule plan now verdicts verdicts_valid reusable (lc_Closed result) p (Days plan)
    ltac:(intros e He; by apply Hre) (c_previous Hc) Hdate Hvote) as ([[current firstTrue] closed] & Hfold & firstT & HfT & Hst).
  cbn [lc_Closed]. rewrite Hfold. cbn [fst snd mbind Result_bind] in *. subst firstTrue. rewrite <-Hlen in Hst.
  change (λ m, vote (table all_days) m) with verdicts in *. change (vote (table all_days)) with verdicts in *.
  assert (Hact : ∀ c, actionable capture rule (replayed before plan) c = actionable capture rule plan c) by done.
  destruct current as [e|].
  - destruct Hst as (-> & -> & -> & Hnf). destruct (Hre e eq_refl) as (_ & _ & _ & t & Ht & Htp & Tt & Ft).
    rewrite (is_date_inj _ _ _ Ht Hfirst) in *. clear t Ht.
    assert (Hall : ∀ m, first <= m <= last → verdicts m ≠ ReviewFalse).
    { intros m Hm. destruct (Z.le_gt_cases m p); [apply Ft|apply Hnf]; lia. }
    assert (Ec : dc_Closed d = None).
    { destruct (dc_Closed d) as [c|]; [|done]. destruct (proj1 (Hcl first c Hfirst) eq_refl) as (r & Hcloses & _).
      inversion Hcloses as [|? ? ?|m ? ? Hm Fm]; [done..|]. by destruct (Hall m Hm). }
    rewrite Ec in Hcur. destruct Hcur as [-> ->]. rewrite Ec. cbn [fmap option_fmap option_map option_list]. rewrite app_nil_r.
    rewrite redated_same with (n := first); [done|by apply date_in|lia|]. exists first. split; [|by rewrite (is_date_format _ _ Hfirst)].
    split; [lia|]. split; [done|]. split; [done|]. intros m Hm. lia.
  - destruct Hst as (Hrun & -> & Hex).
    assert (Ec : dc_Closed d = (λ e, resolved e now "recovered") <$> reusable).
    { destruct reusable as [e|]; [|done]. destruct (Hex ltac:(done)) as (m & Hm & Fm).
      apply (Hcl first _ Hfirst). eexists. split; [|reflexivity]. apply closes_recovered with m; [done|done|lia|done]. }
    assert (Hcur' : if bool_decide (verdicts last = ReviewTrue)
      then ∃ n, opens verdicts first last n ∧ dc_Opened d = true ∧ dc_Current d = Some (mkEpisode nextID (format_days n) now None None "")
      else dc_Current d = None ∧ dc_Opened d = false) by (rewrite Ec in Hcur; by destruct reusable).
    rewrite Ec, (c_window Hc). case_bool_decide as Et; [|by destruct Hcur' as [-> ->]].
    destruct Hcur' as (k & Hk & -> & ->).
    destruct (opening_day reusable first firstT Hfp ltac:(lia) Hrun) as (k' & -> & Hk'); [|done|].
    { destruct reusable as [e|]; [by apply Hex|]. rewrite Hfirst. by apply Hpend. }
    rewrite (opens_unique _ _ _ _ _ Hk Hk') in *. cbn [day_text]. rewrite (bool_decide_eq_false_2 _ (format_days_nonempty k')).
    cbn [fmap option_fmap option_map].
    rewrite redated_same with (n := first); [done|by apply date_in|lia|by exists k'].
Qed.

Lemma stored_same known held epochID :
  foldM (stored_step rule (replayed before plan) now known held epochID) ([], None) (OpenEpisodes capture) =
  foldM (stored_step rule plan now known held epochID) ([], None) (OpenEpisodes capture).
Proof.
  assert (H : ∀ s, s ∈ OpenEpisodes capture → for_plan rule plan s = true →
    stored_reason rule (replayed before plan) known held epochID s = stored_reason rule plan known held epochID s).
  { intros s Hs Hf. unfold stored_reason. destruct (rr_ArchivedAt rule); [done|]. destruct (_ && _); [done|].
    change (Days (replayed before plan)) with all_days. rewrite (c_incremental Hc). pose proof (c_dated Hc O) as Hd.
    destruct all_days as [|d l]; [by destruct (Days plan)|]. specialize (Hd d eq_refl). rewrite Z.add_0_r in Hd.
    destruct (c_open Hc s Hs Hf) as (t & Ht & Hr & _). cbn [Incremental replayed negb andb].
    rewrite (date_ltb _ _ t h) by done. rewrite (proj2 (Z.ltb_ge _ _)) by lia. by destruct (Days plan). }
  revert H. generalize (@nil ReviewEpisodeIdentity, @None (ReviewEpisodeIdentity * string)).
  induction (OpenEpisodes capture) as [|s l IH]; intros st H; [done|]. cbn [foldM].
  assert (E : stored_step rule (replayed before plan) now known held epochID st s = stored_step rule plan now known held epochID st s).
  { unfold stored_step. destruct st as [closed reusable]. change (for_plan rule (replayed before plan) s) with (for_plan rule plan s).
    destruct (for_plan rule plan s) eqn:Ef; [|done]. cbn [negb]. by rewrite H by (try done; set_solver). }
  rewrite E. destruct (stored_step rule plan now known held epochID st s) as [st'|]; [|done]. apply IH. intros s' Hs'. apply H. set_solver.
Qed.

(** What survives the loop over the stored episodes. *)
Lemma reusable_survives epochID closed reusable :
  rr_ArchivedAt rule = None →
  foldM (stored_step rule plan now true true epochID) ([], None) (OpenEpisodes capture) = Ok (closed, reusable) →
  (∀ e, fst <$> reusable = Some e → is_open e ∧ ep_ID e ≠ ""%string ∧ persisted capture rule plan (ep_ID e) = true ∧ unresolved (TriggeredOn e) p) ∧
  (fst <$> reusable = None → ∀ s, s ∈ OpenEpisodes capture → for_plan rule plan s = true → PositionEpochID s ≠ epochID).
Proof.
  intros Ha H.
  apply (foldM_inv _ (λ seen st,
    (∀ e, fst <$> st.2 = Some e → ∃ s, s ∈ OpenEpisodes capture ∧ for_plan rule plan s = true ∧ e = identity s) ∧
    (fst <$> st.2 = None → ∀ s, s ∈ seen → for_plan rule plan s = true → PositionEpochID s ≠ epochID))) in H; [|
    |split; [done|intros _ s Hs; by apply elem_of_nil in Hs]].
  - destruct H as [H1 H2]. split; [|exact H2]. intros e He. destruct (H1 e He) as (s & Hs & Hf & ->).
    split; [done|]. split; [by apply (c_ids Hc)|]. split; [by apply stored_persisted|by apply (c_open Hc)].
  - clear H closed reusable. intros seen [closed reusable] s st [H1 H2] Hs. cbn [fst snd] in *. unfold stored_step.
    destruct (for_plan rule plan s) eqn:Ef; cbn [negb].
    2: { intros [= <-]. split; [exact H1|]. intros Hn s' [Hs'| ->%list_elem_of_singleton]%elem_of_app; [by apply H2|congruence]. }
    case_bool_decide as Er; cbn [negb].
    + destruct reusable; [discriminate|]. intros [= <-]. split; [|done]. intros e [= <-]. by exists s.
    + intros [= <-]. split; [exact H1|]. intros Hn s' [Hs'| ->%list_elem_of_singleton]%elem_of_app; [by apply H2|]. intros _ Heq.
      apply Er. unfold stored_reason. rewrite Ha, Heq, bool_decide_eq_true_2 by done. cbn [andb negb orb]. rewrite (c_incremental Hc). by destruct (Days plan).
Qed.

(** Claim C25.  Going on from the last published day gives exactly the plan that the replay of all days
    gives, for a rule whose verdicts are settled: the episode that stays open, those that close
    and their reasons, the day on which a new one opens, and whether it asks for action. *)
Theorem PlanReviewLifecycle_incremental_agrees :
  settled → PlanReviewLifecycle capture rule (replayed before plan) now nextID = PlanReviewLifecycle capture rule plan now nextID.
Proof.
  intros Hset. unfold PlanReviewLifecycle. cbn [pl_RuleID ConditionVersion Position replayed].
  destruct (_ || timeIsZero now) eqn:E0; [done|]. apply orb_false_iff in E0 as [_ Hnow%Z.eqb_neq].
  destruct (if pt_Known (Position plan) then _ else _) as [held|]; [|done]. cbn [mbind Result_bind].
  change (current_epoch (replayed before plan)) with (current_epoch plan). rewrite stored_same.
  destruct (foldM _ _ _) as [[closed reusable]|] eqn:Ef; [|done]. cbn [mbind Result_bind].
  destruct (rr_ArchivedAt rule) eqn:Ea; [done|]. destruct (current_epoch plan held) as [[epoch id]|] eqn:Ee; [|done].
  destruct (pt_Known (Position plan)), held; [|done..]. cbn [negb orb]. rewrite (c_incremental Hc).
  change (Incremental (replayed before plan)) with false. change (Days (replayed before plan)) with all_days. pose proof (c_dated Hc O) as Hd.
  destruct all_days as [|d l] eqn:Eall; [by apply app_eq_nil in Eall as [Eb _]; destruct (c_nonempty Hc)|].
  specialize (Hd d eq_refl). rewrite Z.add_0_r in Hd. destruct (reusable_survives id closed reusable Ea Ef) as [H1 H2].
  destruct (Hset epoch id Ee) as (n & Hn & Hnl & Hnp & Hpend). rewrite <-(is_date_format _ _ Hd).
  apply (full_incremental (mkLifecycle id None closed false false) id epoch (fst <$> reusable) n Hnow Hn Hnl Hnp H1).
  intros Hnone. destruct Hpend as [(s & Hs & Hf & Hid)|]; [|done]. by destruct (H2 Hnone s Hs Hf).
Qed.
End Agree.
