(* ===== verification/ReviewPosition.v ===== *)
(** * The position behind an episode

    [review_position_epochs.go] of the application: the epochs in which an instrument was held,
    replayed from the starting point of the history.  The deltas of one activity are added up
    before a zero crossing is looked for, and a gap in the evidence is a reason instead of an
    epoch.  The name-based UUID is an argument; the cancellation of a context is left out.  The
    theorems: the epochs of a known timeline cover exactly the instants at which the replayed
    quantity is positive, and do not depend on the order in which the activities are read. *)

From S2P Require Export ReviewLifecycle.
From S2P Require Import Portfolio ChangeState History Ordering DecimalModel.
From Stdlib Require Import String Ascii Sorted.

#[global] Open Scope Z_scope.

Section Position.
Context `{HD : DecimalAPI}.

(** [uuid.NewSHA1(uuid.NameSpaceURL, data).String()] *)
Definition ReviewPositionEpochID (newSHA1 : string → string) (householdID : HouseholdID) (instrumentID : InstrumentID)
    (originID : string) (epoch : ReviewPositionEpoch) : Result string :=
  let name key := newSHA1 ("nestworth-review-epoch-v1/" +:+ householdID +:+ "/" +:+ instrumentID +:+ "/" +:+ key)%string in
  match StartUnknown epoch, OpenedBy epoch with
  | true, None => Ok (name ("origin/" +:+ originID)%string)
  | false, Some id => Ok (name ("activity/" +:+ id)%string)
  | _, _ => Fail (OtherErr "review position epoch has no reliable opening boundary")
  end.

(** The fields of [HistoricalSnapshotBatch] that are read. *)
Record HistoricalSnapshotBatch := mkBatch {
  hb_Origin : HistoryOrigin; hb_Components : list HistoryOriginComponent; hb_Holdings : list Holding; hb_Activities : list Activity }.

Section Instrument.
Context (batch : HistoricalSnapshotBatch) (instrumentID : InstrumentID) (cutoff : Time).

Definition started : Time := StartedAt (hb_Origin batch).

(** [baselineByHolding] *)
Definition baseline_step (m : gmap HoldingID Quantity) (c : HistoryOriginComponent) : gmap HoldingID Quantity :=
  match hc_Kind c, hc_HoldingID c, hc_InstrumentID c, hc_Quantity c with
  | HistoryOriginHoldingQuantity, Some h, Some i, Some q => if bool_decide (i = instrumentID) then <[h := q]> m else m
  | _, _, _, _ => m
  end.
Definition baselineByHolding : gmap HoldingID Quantity := fold_left baseline_step (hb_Components batch) ∅.

(** [holdingInstrument]; a missing holding reads as the empty identifier. *)
Definition holdingInstrument : gmap HoldingID InstrumentID :=
  fold_left (λ m h, <[hd_ID h := hd_InstrumentID h]> m) (hb_Holdings batch) ∅.
Definition owner_of (id : HoldingID) : InstrumentID := default ""%string (holdingInstrument !! id).

(** The holdings that existed at the starting point; [None] when one has no baseline. *)
Definition opening_step (acc : option Decimal) (h : Holding) : option Decimal :=
  match acc with
  | None => None
  | Some quantity =>
    if negb (bool_decide (hd_InstrumentID h = instrumentID)) || (started <? hd_CreatedAt h) then Some quantity
    else match baselineByHolding !! hd_ID h with
    | None => None
    | Some baseline => Some (dAdd quantity (q_value baseline))
    end
  end.
Definition opening : option Decimal := fold_left opening_step (hb_Holdings batch) (Some dZero).

(** A baseline of a holding that is not one of this instrument. *)
Definition origin_mismatch : bool :=
  negb (bool_decide (map_Forall (λ id _, owner_of id = instrumentID) baselineByHolding)).

(** The order of the replay. *)
Definition activity_before (a b : Activity) : bool :=
  if negb (EffectiveAt a =? EffectiveAt b) then EffectiveAt a <? EffectiveAt b
  else if negb (act_CreatedAt a =? act_CreatedAt b) then act_CreatedAt a <? act_CreatedAt b
  else String.ltb (act_ID a) (act_ID b).
Definition activities : list Activity := stable_sort activity_before (hb_Activities batch).

(** [everEffect] *)
Definition ever_effect (id : HoldingID) : bool :=
  existsb (λ a, existsb (λ e, negb (is_none (ef_Quantity e)) && bool_decide (ef_HoldingID e = Some id)) (Effects a)) activities.

(** The change of the quantity by one effect, or the reason for which it is not known. *)
Definition delta_step (acc : string + Decimal) (e : ActivityEffect) : string + Decimal :=
  match acc with
  | inl reason => inl reason
  | inr delta =>
    match ef_Quantity e, ef_HoldingID e with
    | Some q, Some id =>
      let owner := owner_of id in
      if match ef_InstrumentID e with
         | Some i => negb (bool_decide (owner = ""%string)) && negb (bool_decide (i = owner))
         | None => false
         end
      then inl "holding_instrument_mismatch"%string
      else if negb (bool_decide (owner = instrumentID)) then inr delta
      else match Direction e with
      | EffectAdded => inr (dAdd delta (q_value q))
      | EffectRemoved => inr (dSub delta (q_value q))
      | DirectionRaw _ => inl "quantity_effect_direction"%string
      end
    | _, _ => inr delta
    end
  end.
Definition activity_delta (a : Activity) : string + Decimal := fold_left delta_step (Effects a) (inr dZero).

(** [result.Epochs[last].ClosedAt = ...]: the code indexes the last epoch, which exists when the
    quantity was positive. *)
Definition close_last (a : Activity) (epochs : list ReviewPositionEpoch) : list ReviewPositionEpoch :=
  alter (λ e, mkEpoch (OpenedAt e) (OpenedBy e) (Some (EffectiveAt a)) (Some (act_ID a)) (StartUnknown e))
    (List.length epochs - 1)%nat epochs.

Definition in_window (a : Activity) : bool := negb (EffectiveAt a <? started) && (EffectiveAt a <? cutoff).

(** One turn of the loop: the quantity and the epochs, or a reason and the epochs so far. *)
Definition position_step (st : (string * list ReviewPositionEpoch) + (Decimal * list ReviewPositionEpoch)) (a : Activity)
    : (string * list ReviewPositionEpoch) + (Decimal * list ReviewPositionEpoch) :=
  match st with
  | inl early => inl early
  | inr (before, epochs) =>
    if negb (in_window a) then st
    else match activity_delta a with
    | inl reason => inl (reason, epochs)
    | inr delta =>
      if dIsZero delta then st
      else
        let quantity := dAdd before delta in
        if dIsNegative quantity then inl ("negative_historical_quantity"%string, epochs)
        else
          let epochs :=
            if negb (dIsPositive before) && dIsPositive quantity
            then epochs ++ [mkEpoch (Some (EffectiveAt a)) (Some (act_ID a)) None None false] else epochs in
          let epochs := if dIsPositive before && negb (dIsPositive quantity) then close_last a epochs else epochs in
          inr (quantity, epochs)
    end
  end.

(** A later holding whose quantity no activity explains. *)
Definition unexplained (h : Holding) : bool :=
  bool_decide (hd_InstrumentID h = instrumentID) && (started <? hd_CreatedAt h) && (hd_CreatedAt h <? cutoff) &&
  dIsPositive (q_value (hd_Quantity h)) && negb (ever_effect (hd_ID h)).

Definition unknown (reason : string) (epochs : list ReviewPositionEpoch) : ReviewPositionTimeline :=
  mkPosition false reason "" epochs.

Definition first_epochs (quantity : Decimal) : list ReviewPositionEpoch :=
  if dIsPositive quantity then [mkEpoch None None None None true] else [].

Definition ProjectReviewPositionTimeline : Result ReviewPositionTimeline :=
  if timeIsZero started || negb (started <? cutoff) then Ok (unknown "history_origin" [])
  else match opening with
  | None => Ok (unknown "historical_quantity" [])
  | Some quantity =>
    if origin_mismatch then Ok (unknown "history_origin_mismatch" [])
    else match fold_left position_step activities (inr (quantity, first_epochs quantity)) with
    | inl (reason, epochs) => Ok (unknown reason epochs)
    | inr (quantity, epochs) =>
      if existsb unexplained (hb_Holdings batch) then Ok (unknown "historical_quantity" epochs)
      else
        known ← NewQuantity quantity;
        Ok (mkPosition true "" (q_canonical known) epochs)
    end
  end.
End Instrument.
End Position.

(** ** What the replay computes *)

Section Spec.
Context `{HD : DecimalAPI} (batch : HistoricalSnapshotBatch) (instrumentID : InstrumentID) (cutoff : Time).

(** The exact change of the instrument's quantity by an effect and by an activity. *)
Definition effect_change (e : ActivityEffect) : Q :=
  match ef_Quantity e, ef_HoldingID e with
  | Some q, Some id =>
    if bool_decide (owner_of batch id = instrumentID) then
      match Direction e with EffectAdded => dval (q_value q) | EffectRemoved => - dval (q_value q) | DirectionRaw _ => 0 end
    else 0
  | _, _ => 0
  end%Q.
Definition activity_change (a : Activity) : Q := sumQ effect_change (Effects a).

(** The baselines of the holdings that existed at the starting point. *)
Definition opening_quantity : Q :=
  sumQ (λ h, if bool_decide (hd_InstrumentID h = instrumentID) && (hd_CreatedAt h <=? started batch)
             then match baselineByHolding batch instrumentID !! hd_ID h with Some q => dval (q_value q) | None => 0 end
             else 0)%Q (hb_Holdings batch).

Definition changed_by (T : Time) (l : list Activity) : Q :=
  sumQ (λ a, if in_window batch cutoff a && (EffectiveAt a <=? T) then activity_change a else 0)%Q l.

(** The quantity at an instant: the baselines and every change up to it. *)
Definition quantity_at (T : Time) : Q := (opening_quantity + changed_by T (hb_Activities batch))%Q.

Definition covers (e : ReviewPositionEpoch) (T : Time) : Prop :=
  match OpenedAt e with Some o => o <= T | None => True end ∧
  match ClosedAt e with Some c => T < c | None => True end.

(** An epoch ends, at or before the instant at which the next one begins. *)
Definition followed_by (e e' : ReviewPositionEpoch) : Prop :=
  ∃ c o, ClosedAt e = Some c ∧ OpenedAt e' = Some o ∧ c <= o.
Definition in_sequence (es : list ReviewPositionEpoch) : Prop :=
  ∀ k e e', es !! k = Some e → es !! S k = Some e' → followed_by e e'.

(** A boundary is an activity of the window that changed the quantity in that direction, or it
    is missing altogether. *)
Definition boundary (l : list Activity) (P : Activity → Prop) (at_ : option Time) (by_ : option ActivityID) : Prop :=
  match at_, by_ with
  | None, None => True
  | Some t, Some id => ∃ a, a ∈ l ∧ in_window batch cutoff a = true ∧ t = EffectiveAt a ∧ id = act_ID a ∧ P a
  | _, _ => False
  end.
Definition epoch_of (l : list Activity) (e : ReviewPositionEpoch) : Prop :=
  (StartUnknown e = true ↔ OpenedAt e = None) ∧
  boundary l (λ a, 0 < activity_change a)%Q (OpenedAt e) (OpenedBy e) ∧
  boundary l (λ a, activity_change a < 0)%Q (ClosedAt e) (ClosedBy e).
End Spec.

Section Laws.
Context `{HD : DecimalAPI} {HL : DecimalLaws} (batch : HistoricalSnapshotBatch) (instrumentID : InstrumentID) (cutoff : Time).

Notation change := (activity_change batch instrumentID).
Notation opened := (opening_quantity batch instrumentID).
Notation changed := (changed_by batch instrumentID cutoff).

Lemma activity_delta_val a d : activity_delta batch instrumentID a = inr d → (dval d == change a)%Q.
Proof.
  unfold activity_delta, activity_change.
  enough (∀ d0, fold_left (delta_step batch instrumentID) (Effects a) (inr d0) = inr d →
    (dval d == dval d0 + sumQ (effect_change batch instrumentID) (Effects a))%Q) as Hgen.
  { intros H. rewrite (Hgen _ H), dval_dzero. ring. }
  induction (Effects a) as [|e l IH]; cbn [fold_left]; intros d0.
  - intros [= ->]. cbn. ring.
  - destruct (delta_step batch instrumentID (inr d0) e) as [r|d1] eqn:E.
    { assert (∀ k, fold_left (delta_step batch instrumentID) k (inl r) = inl r) as -> by (by induction k). done. }
    intros H. rewrite (IH _ H), sumQ_cons. revert E. cbn [delta_step]. unfold effect_change.
    destruct (ef_Quantity e) as [q|]; [|intros [= ->]; ring]. destruct (ef_HoldingID e) as [id|]; [|intros [= ->]; ring].
    case_match; [done|]. destruct (bool_decide (owner_of batch id = instrumentID)); cbn [negb]; [|intros [= ->]; ring].
    destruct (Direction e); [intros [= <-]; rewrite dAdd_val; ring|intros [= <-]; rewrite dSub_val; ring|done].
Qed.

Lemma opening_val q : opening batch instrumentID = Some q → (dval q == opened)%Q.
Proof.
  unfold opening, opening_quantity.
  enough (∀ q0, fold_left (opening_step batch instrumentID) (hb_Holdings batch) (Some q0) = Some q → (dval q == dval q0 +
    sumQ (λ h, if bool_decide (hd_InstrumentID h = instrumentID) && (hd_CreatedAt h <=? started batch)
               then match baselineByHolding batch instrumentID !! hd_ID h with Some q => dval (q_value q) | None => 0 end
               else 0) (hb_Holdings batch))%Q) as Hgen.
  { intros H. rewrite (Hgen _ H), dval_dzero. ring. }
  induction (hb_Holdings batch) as [|h l IH]; intros q0; cbn [fold_left].
  - intros [= ->]. cbn. ring.
  - rewrite sumQ_cons. unfold opening_step at 2. rewrite (Z.leb_antisym (started batch) (hd_CreatedAt h)).
    destruct (bool_decide (hd_InstrumentID h = instrumentID)), (started batch <? hd_CreatedAt h); cbn [negb orb andb];
      try (intros H; rewrite (IH _ H); ring).
    destruct (baselineByHolding batch instrumentID !! hd_ID h) as [b|].
    + intros H. rewrite (IH _ H), dAdd_val. ring.
    + assert (∀ k, fold_left (opening_step batch instrumentID) k None = None) as -> by (by induction k). done.
Qed.

Lemma changed_snoc T l a : (changed T (l ++ [a]) ==
  changed T l + if in_window batch cutoff a && (EffectiveAt a <=? T) then change a else 0)%Q.
Proof. unfold changed_by. rewrite sumQ_app, sumQ_cons. cbn [sumQ foldr]. ring. Qed.

(** Nothing happens after the last activity. *)
Lemma changed_late T T' l : Forall (λ b, EffectiveAt b <= T ∧ EffectiveAt b <= T') l → (changed T l == changed T' l)%Q.
Proof.
  intros Hl. apply sumQ_ext. intros b Hb. rewrite Forall_forall in Hl. destruct (Hl b Hb) as [H1 H2].
  rewrite (proj2 (Z.leb_le _ _) H1), (proj2 (Z.leb_le _ _) H2). reflexivity.
Qed.

(** ** The invariant of the loop *)

Definition last_open (es : list ReviewPositionEpoch) : Prop := ∃ e, last es = Some e ∧ ClosedAt e = None.

(** [T0] is an instant that no activity seen so far is after. *)
Record tracked (T0 : Time) (l : list Activity) (q : Decimal) (es : list ReviewPositionEpoch) : Prop := {
  tr_seen : Forall (λ b, EffectiveAt b <= T0) l;
  tr_quantity : (dval q == opened + changed T0 l)%Q;
  tr_nonneg T : (0 <= opened + changed T l)%Q;
  tr_open : (0 < dval q)%Q ↔ last_open es;
  tr_covers T : (0 < opened + changed T l)%Q ↔ ∃ e, e ∈ es ∧ covers e T;
  tr_sequence : in_sequence es;
  tr_epochs : Forall (epoch_of batch instrumentID cutoff l) es }.

Lemma epoch_of_app l k e : epoch_of batch instrumentID cutoff l e → epoch_of batch instrumentID cutoff (l ++ k) e.
Proof.
  assert (Hb : ∀ P t id, boundary batch cutoff l P t id → boundary batch cutoff (l ++ k) P t id).
  { intros P [t|] [id|]; [|done..]. intros (a & Ha & Hw). exists a. split; [|done]. rewrite elem_of_app. by left. }
  intros (H1 & H2 & H3). split_and!; auto.
Qed.

Section Tracked.
Context T0 l q es (Ht : tracked T0 l q es).

Lemma tracked_late T : T0 <= T → (opened + changed T l == dval q)%Q.
Proof.
  intros HT. rewrite (tr_quantity _ _ _ _ Ht), (changed_late T T0 l); [reflexivity|].
  eapply Forall_impl; [exact (tr_seen _ _ _ _ Ht)|]. cbn. lia.
Qed.

Lemma seen_boundary P t id : boundary batch cutoff l P (Some t) id → t <= T0.
Proof.
  destruct id; [|done]. intros (a & Ha & _ & -> & _).
  pose proof (tr_seen _ _ _ _ Ht) as Hs. rewrite Forall_forall in Hs. by apply Hs.
Qed.

(** No boundary is in the future. *)
Lemma tracked_past e : e ∈ es → (∀ o, OpenedAt e = Some o → o <= T0) ∧ (∀ c, ClosedAt e = Some c → c <= T0).
Proof.
  intros He. pose proof (tr_epochs _ _ _ _ Ht) as Hes. rewrite Forall_forall in Hes. destruct (Hes e He) as (_ & Ho & Hc).
  split; intros t Et; rewrite Et in *; by eapply seen_boundary.
Qed.

Lemma tracked_held T : T0 <= T → (∃ e, e ∈ es ∧ covers e T) ↔ (0 < dval q)%Q.
Proof. intros HT. by rewrite <-(tr_covers _ _ _ _ Ht), (tracked_late T HT). Qed.

Lemma tracked_idle a : T0 <= EffectiveAt a → (in_window batch cutoff a = true → (change a == 0)%Q) →
  tracked (EffectiveAt a) (l ++ [a]) q es.
Proof.
  intros Ha Hz. assert (Hsame : ∀ T, (changed T (l ++ [a]) == changed T l)%Q).
  { intros T. rewrite changed_snoc. destruct (in_window batch cutoff a) eqn:E; cbn [andb]; [|ring].
    case_match; [rewrite Hz by done|]; ring. }
  destruct Ht as [H1 H2 H3 H4 H5 H6 H7]. split; [| | | |intros T; by rewrite Hsame|done|].
  - rewrite Forall_app, Forall_singleton. split; [|lia]. eapply Forall_impl; [exact H1|]. cbn. lia.
  - rewrite Hsame. by rewrite (tracked_late _ Ha).
  - intros T. by rewrite Hsame.
  - done.
  - eapply Forall_impl; [exact H7|]. intros e. apply epoch_of_app.
Qed.

Lemma tracked_moves a q' es' : T0 <= EffectiveAt a → in_window batch cutoff a = true →
  (dval q' == dval q + change a)%Q → (0 <= dval q')%Q →
  ((0 < dval q')%Q ↔ last_open es') →
  (∀ T, T < EffectiveAt a → (∃ e, e ∈ es' ∧ covers e T) ↔ ∃ e, e ∈ es ∧ covers e T) →
  (∀ T, EffectiveAt a <= T → (∃ e, e ∈ es' ∧ covers e T) ↔ (0 < dval q')%Q) →
  in_sequence es' → Forall (epoch_of batch instrumentID cutoff (l ++ [a])) es' →
  tracked (EffectiveAt a) (l ++ [a]) q' es'.
Proof.
  intros Ha Hw Hq H0 Hopen Hbefore Hafter Hseq Hes.
  assert (Hlate : ∀ T, EffectiveAt a <= T → (opened + changed T (l ++ [a]) == dval q')%Q).
  { intros T HT. rewrite changed_snoc, Hw, (proj2 (Z.leb_le _ _) HT). cbn [andb].
    rewrite Qplus_assoc, (tracked_late T) by lia. by rewrite Hq. }
  assert (Hearly : ∀ T, T < EffectiveAt a → (changed T (l ++ [a]) == changed T l)%Q).
  { intros T HT. rewrite changed_snoc, Hw, (proj2 (Z.leb_gt _ _) HT). cbn [andb]. ring. }
  split; [| | |done| |done|done].
  - rewrite Forall_app, Forall_singleton. split; [|lia].
    eapply Forall_impl; [exact (tr_seen _ _ _ _ Ht)|]. cbn. lia.
  - by rewrite Hlate by lia.
  - intros T. destruct (Z.lt_ge_cases T (EffectiveAt a)) as [HT|HT].
    + rewrite (Hearly T HT). apply (tr_nonneg _ _ _ _ Ht).
    + by rewrite (Hlate T HT).
  - intros T. destruct (Z.lt_ge_cases T (EffectiveAt a)) as [HT|HT].
    + rewrite (Hearly T HT), Hbefore by done. apply (tr_covers _ _ _ _ Ht).
    + by rewrite (Hlate T HT), Hafter.
Qed.

Definition opened_by (a : Activity) : ReviewPositionEpoch := mkEpoch (Some (EffectiveAt a)) (Some (act_ID a)) None None false.
Definition closed_by (a : Activity) (e : ReviewPositionEpoch) : ReviewPositionEpoch :=
  mkEpoch (OpenedAt e) (OpenedBy e) (Some (EffectiveAt a)) (Some (act_ID a)) (StartUnknown e).

Lemma tracked_kept a q' : T0 <= EffectiveAt a → in_window batch cutoff a = true →
  (dval q' == dval q + change a)%Q → (0 <= dval q')%Q → ((0 < dval q)%Q ↔ (0 < dval q')%Q) →
  tracked (EffectiveAt a) (l ++ [a]) q' es.
Proof.
  intros Ha Hw Hq H0 Hs. apply tracked_moves; [done..| |done| |exact (tr_sequence _ _ _ _ Ht)|].
  - rewrite <-Hs. apply (tr_open _ _ _ _ Ht).
  - intros T HT. rewrite <-Hs. apply tracked_held. lia.
  - eapply Forall_impl; [exact (tr_epochs _ _ _ _ Ht)|]. intros e. apply epoch_of_app.
Qed.

Lemma own_boundary (P : Activity → Prop) a : in_window batch cutoff a = true → P a →
  boundary batch cutoff (l ++ [a]) P (Some (EffectiveAt a)) (Some (act_ID a)).
Proof. intros Hw HP. exists a. split_and!; [|done..]. rewrite elem_of_app, list_elem_of_singleton. by right. Qed.

Lemma tracked_opened a q' : T0 <= EffectiveAt a → in_window batch cutoff a = true →
  (dval q' == dval q + change a)%Q → ¬ (0 < dval q)%Q → (0 < dval q')%Q →
  tracked (EffectiveAt a) (l ++ [a]) q' (es ++ [opened_by a]).
Proof.
  intros Ha Hw Hq Hno Hyes.
  assert (Hcov : ∀ T, (∃ e, e ∈ es ++ [opened_by a] ∧ covers e T) ↔ (∃ e, e ∈ es ∧ covers e T) ∨ EffectiveAt a <= T).
  { intros T. setoid_rewrite elem_of_app. setoid_rewrite list_elem_of_singleton. split.
    - intros (e & [He| ->] & Hc); [left; by exists e|right; exact (proj1 Hc)].
    - intros [(e & He & Hc)|HT]; [exists e; auto|]. exists (opened_by a). split; [by right|]. by split. }
  apply tracked_moves; [done..|by apply Qlt_le_weak| | | | |].
  - split; [|done]. intros _. exists (opened_by a). by rewrite last_snoc.
  - intros T HT. rewrite Hcov. split; [intros [|]; [done|lia]|by left].
  - intros T HT. rewrite Hcov. split; [done|by right].
  - intros k e e' He He'. apply lookup_app_Some in He' as [He'|[Hle He']].
    { rewrite lookup_app_l in He by (apply lookup_lt_Some in He'; lia). by apply (tr_sequence _ _ _ _ Ht k). }
    assert (S k = List.length es) as Hk.
    { destruct (S k - List.length es)%nat eqn:E; [lia|done]. }
    rewrite Hk, Nat.sub_diag in He'. injection He' as <-. rewrite lookup_app_l in He by lia.
    assert (Hl : last es = Some e) by by rewrite last_lookup, <-Hk.
    destruct (ClosedAt e) as [c|] eqn:Ec.
    + exists c, (EffectiveAt a). split_and!; [done..|].
      destruct (tracked_past e (list_elem_of_lookup_2 _ _ _ He)) as [_ Hc]. specialize (Hc c Ec). lia.
    + exfalso. apply Hno, (tr_open _ _ _ _ Ht). by exists e.
  - rewrite Forall_app, Forall_singleton. split.
    + eapply Forall_impl; [exact (tr_epochs _ _ _ _ Ht)|]. intros e. apply epoch_of_app.
    + split_and!; [done| |done]. apply own_boundary; [done|]. clear -Hq Hno Hyes. lra.
Qed.

Lemma close_last_snoc a k e : close_last a (k ++ [e]) = k ++ [closed_by a e].
Proof.
  unfold close_last. rewrite length_app. cbn [List.length]. replace (List.length k + 1 - 1)%nat with (List.length k + 0)%nat by lia.
  by rewrite alter_app_r.
Qed.

Lemma tracked_closed a q' : T0 <= EffectiveAt a → in_window batch cutoff a = true →
  (dval q' == dval q + change a)%Q → (0 < dval q)%Q → (dval q' == 0)%Q →
  tracked (EffectiveAt a) (l ++ [a]) q' (close_last a es).
Proof.
  intros Ha Hw Hq Hyes H0. destruct (proj1 (tr_open _ _ _ _ Ht) Hyes) as (e & Hl & Ec).
  apply last_Some in Hl as (k & Hes). rewrite Hes, close_last_snoc.
  assert (He : e ∈ es) by (rewrite Hes, elem_of_app, list_elem_of_singleton; by right).
  destruct (tracked_past e He) as [Ho _].
  assert (Hone : ∀ T P, (∃ x, x ∈ k ++ [P] ∧ covers x T) ↔ (∃ x, x ∈ k ∧ covers x T) ∨ covers P T).
  { intros T P. setoid_rewrite elem_of_app. setoid_rewrite list_elem_of_singleton. split.
    - intros (x & [Hx| ->] & Hc); [left; by exists x|by right].
    - intros [(x & Hx & Hc)|Hc]; [exists x; auto|exists P; auto]. }
  assert (Hk : ∀ T, T0 <= T → ¬ ∃ x, x ∈ k ∧ covers x T).
  { intros T HT (x & Hx & _ & Hc). apply list_elem_of_lookup in Hx as (j & Hj).
    destruct (k !! S j) as [y|] eqn:Ey.
    - destruct (tr_sequence _ _ _ _ Ht j x y) as (c & o & Ec' & _); [rewrite Hes; by apply lookup_app_l_Some..|].
      rewrite Ec' in Hc. destruct (tracked_past x) as [_ Hp]; [|specialize (Hp c Ec'); lia].
      rewrite Hes, elem_of_app. left. by eapply list_elem_of_lookup_2.
    - assert (S j = List.length k) as Ej by (apply lookup_ge_None in Ey; apply lookup_lt_Some in Hj; lia).
      destruct (tr_sequence _ _ _ _ Ht j x e) as (c & o & Ec' & _);
        [rewrite Hes; by apply lookup_app_l_Some|rewrite Hes, lookup_app_r by lia; by rewrite Ej, Nat.sub_diag|].
      rewrite Ec' in Hc. destruct (tracked_past x) as [_ Hp]; [|specialize (Hp c Ec'); lia].
      rewrite Hes, elem_of_app. left. by eapply list_elem_of_lookup_2. }
  apply tracked_moves; [done..|rewrite H0; apply Qle_refl| | | | |].
  - split; [rewrite H0; intros Hf; by apply Qlt_irrefl in Hf|]. intros (x & Hx & Hc). by rewrite last_snoc in Hx; injection Hx as <-.
  - intros T HT. rewrite Hes, !Hone. unfold covers at 2 4. cbn [OpenedAt ClosedAt closed_by]. rewrite Ec. tauto.
  - intros T HT. rewrite Hone, H0. split; [|intros Hf; by apply Qlt_irrefl in Hf].
    intros [Hx|[_ Hc]]; [by apply Hk in Hx; [|lia]|cbn in Hc; lia].
  - intros j x y Hx Hy. pose proof (tr_sequence _ _ _ _ Ht j) as Hs. rewrite Hes in Hs.
    apply lookup_app_Some in Hx as [Hx|[Hle Hx]].
    2: { apply lookup_lt_Some in Hy. rewrite length_app in Hy. cbn in Hy. lia. }
    apply lookup_app_Some in Hy as [Hy|[Hle Hy]]; [by apply Hs; apply lookup_app_l_Some|].
    assert (S j = List.length k) as Ej by (apply lookup_lt_Some in Hx; lia).
    rewrite Ej, Nat.sub_diag in Hy. injection Hy as <-.
    destruct (Hs x e) as (c & o & ? & ? & ?); [by apply lookup_app_l_Some|rewrite lookup_app_r by lia; by rewrite Ej, Nat.sub_diag|].
    by exists c, o.
  - pose proof (tr_epochs _ _ _ _ Ht) as Hf. rewrite Hes, Forall_app, Forall_singleton in Hf. destruct Hf as [Hf He1].
    rewrite Forall_app, Forall_singleton. split; [eapply Forall_impl; [exact Hf|]; intros x; apply epoch_of_app|].
    destruct (epoch_of_app l [a] e He1) as (E1 & E2 & _). split_and!; [done..|].
    apply own_boundary; [done|]. clear -Hq Hyes H0. lra.
Qed.
End Tracked.

Lemma isneg_pos d : dIsNegative d = false → dIsPositive d = false → (dval d == 0)%Q.
Proof.
  rewrite isneg_false. intros H0 Hp. destruct (Qlt_le_dec 0 (dval d)) as [H|H]; [|lra].
  apply dIsPositive_val in H. congruence.
Qed.

Lemma ispos_false d : dIsPositive d = false ↔ ¬ (0 < dval d)%Q.
Proof. rewrite <-dIsPositive_val. by destruct (dIsPositive d). Qed.

Lemma tracked_step T0 l q es a q' es' : tracked T0 l q es → T0 <= EffectiveAt a →
  position_step batch instrumentID cutoff (inr (q, es)) a = inr (q', es') → tracked (EffectiveAt a) (l ++ [a]) q' es'.
Proof.
  intros Ht Ha. cbn [position_step]. destruct (in_window batch cutoff a) eqn:Ew; cbn [negb].
  2: { intros [= <- <-]. apply (tracked_idle T0 l q es Ht); [done|by rewrite Ew]. }
  destruct (activity_delta batch instrumentID a) as [r|d] eqn:Ed; [done|]. apply activity_delta_val in Ed as Hd.
  destruct (dIsZero d) eqn:Ez.
  { apply dIsZero_val in Ez. intros [= <- <-]. apply (tracked_idle T0 l q es Ht); [done|]. intros _. by rewrite <-Hd. }
  destruct (dIsNegative (dAdd q d)) eqn:En; [done|].
  assert (Hq : (dval (dAdd q d) == dval q + change a)%Q) by by rewrite dAdd_val, Hd.
  pose proof (proj1 (isneg_false _) En) as H0. intros Hstep.
  destruct (dIsPositive q) eqn:Ep, (dIsPositive (dAdd q d)) eqn:Ep'; cbn [negb andb] in Hstep; injection Hstep as <- <-.
  - apply dIsPositive_val in Ep, Ep'. by apply (tracked_kept T0 l q es Ht).
  - apply dIsPositive_val in Ep. apply (tracked_closed T0 l q es Ht); [done..|]. by apply isneg_pos.
  - apply ispos_false in Ep. apply dIsPositive_val in Ep'. by apply (tracked_opened T0 l q es Ht).
  - apply ispos_false in Ep, Ep'. by apply (tracked_kept T0 l q es Ht).
Qed.

Lemma tracked_fold k : ∀ T0 l q es q' es', tracked T0 l q es → StronglySorted (λ a b, EffectiveAt a <= EffectiveAt b) k →
  Forall (λ a, T0 <= EffectiveAt a) k → fold_left (position_step batch instrumentID cutoff) k (inr (q, es)) = inr (q', es') →
  ∃ T1, tracked T1 (l ++ k) q' es'.
Proof.
  induction k as [|a k IH]; intros T0 l q es q' es' Ht Hs Hf; cbn [fold_left].
  { intros [= <- <-]. exists T0. by rewrite app_nil_r. }
  apply Forall_cons in Hf as [Ha Hf]. inversion Hs as [|? ? Hs' Hk]; subst.
  destruct (position_step batch instrumentID cutoff (inr (q, es)) a) as [r|[q1 es1]] eqn:E.
  { assert (∀ j, fold_left (position_step batch instrumentID cutoff) j (inl r) = inl r) as -> by (by induction j). done. }
  intros H. replace (l ++ a :: k) with ((l ++ [a]) ++ k) by by rewrite <-app_assoc.
  eapply IH; [by eapply tracked_step|done|done|exact H].
Qed.

Definition activity_cmp : Activity → Activity → comparison :=
  lex (by_key EffectiveAt Z.compare) (lex (by_key act_CreatedAt Z.compare) (by_key act_ID String.compare)).

Lemma activity_before_cmp a b : activity_before a b = is_gt (activity_cmp b a).
Proof.
  unfold activity_before, activity_cmp, lex, by_key.
  destruct (Z.eqb_spec (EffectiveAt a) (EffectiveAt b)) as [E|E]; cbn [negb].
  - rewrite E, Z.compare_refl. destruct (Z.eqb_spec (act_CreatedAt a) (act_CreatedAt b)) as [E'|E']; cbn [negb].
    + rewrite E', Z.compare_refl. by rewrite <-is_gt_string.
    + rewrite <-is_gt_Z. by destruct (Z.compare_spec (act_CreatedAt b) (act_CreatedAt a)); [lia|..].
  - rewrite <-is_gt_Z. by destruct (Z.compare_spec (EffectiveAt b) (EffectiveAt a)); [lia|..].
Qed.

Lemma activities_sorted : StronglySorted (λ a b, EffectiveAt a <= EffectiveAt b) (activities batch).
Proof.
  pose proof (stable_sort_sorted activity_cmp activity_before activity_before_cmp (hb_Activities batch)) as Hs.
  fold (activities batch) in Hs. induction Hs as [|a l Hs IH Hf]; constructor; [done|].
  eapply Forall_impl; [exact Hf|]. intros b Hb. unfold in_order, activity_cmp, lex, by_key in Hb.
  destruct (Z.compare_spec (EffectiveAt a) (EffectiveAt b)); [lia|lia|done].
Qed.

(** Quantities are not negative, as their constructor guarantees. *)
Definition baselines_valid : Prop := ∀ c q, c ∈ hb_Components batch → hc_Quantity c = Some q → Quantity_ok q.

Lemma baseline_valid id q : baselines_valid → baselineByHolding batch instrumentID !! id = Some q → (0 <= dval (q_value q))%Q.
Proof.
  intros Hv. unfold baselineByHolding.
  enough (∀ l m, (∀ c, c ∈ l → c ∈ hb_Components batch) → (∀ q', m !! id = Some q' → (0 <= dval (q_value q'))%Q) →
    fold_left (baseline_step instrumentID) l m !! id = Some q → (0 <= dval (q_value q))%Q) as Hgen.
  { apply Hgen; [done|]. intros q'. by rewrite lookup_empty. }
  induction l as [|c l IH]; intros m Hin Hm; cbn [fold_left]; [by apply Hm|]. apply IH; [intros x Hx; apply Hin; by right|].
  intros q'. unfold baseline_step. destruct (hc_Kind c), (hc_HoldingID c) as [h|], (hc_InstrumentID c) as [i|];
    destruct (hc_Quantity c) as [q0|] eqn:Eq; try apply Hm. case_match; [|apply Hm].
  intros Hl. apply lookup_insert_Some in Hl as [[_ <-]|[_ Hl]]; [|by apply Hm].
  assert (Hc : c ∈ hb_Components batch) by (apply Hin; by left). apply (Hv c q0 Hc) in Eq. apply Quantity_ok_spec in Eq. tauto.
Qed.

Lemma opened_nonneg : baselines_valid → (0 <= opened)%Q.
Proof.
  intros Hv. unfold opening_quantity. induction (hb_Holdings batch) as [|h l IH]; [apply Qle_refl|]. rewrite sumQ_cons.
  enough (0 <= if bool_decide (hd_InstrumentID h = instrumentID) && (hd_CreatedAt h <=? started batch)
    then match baselineByHolding batch instrumentID !! hd_ID h with Some q => dval (q_value q) | None => 0 end else 0)%Q by lra.
  case_match; [|apply Qle_refl]. destruct (baselineByHolding batch instrumentID !! hd_ID h) eqn:E; [|apply Qle_refl].
  by eapply baseline_valid.
Qed.

Lemma tracked_first T0 q : baselines_valid → opening batch instrumentID = Some q → tracked T0 [] q (first_epochs q).
Proof.
  intros Hv Ho. apply opening_val in Ho as Hq. pose proof (opened_nonneg Hv) as H0.
  assert (Hz : ∀ T, (opened + changed T [] == dval q)%Q) by (intros T; rewrite Hq; cbn; ring).
  assert (Hp : (0 < dval q)%Q ↔ dIsPositive q = true) by by rewrite dIsPositive_val.
  split; [constructor|by rewrite Hz|intros T; by rewrite Hz, Hq|..]; unfold first_epochs.
  - rewrite Hp. unfold last_open. destruct (dIsPositive q); [|by split; [|intros (e & ? & _)]].
    split; [intros _; by eexists|done].
  - intros T. rewrite Hz, Hp. destruct (dIsPositive q).
    + split; [intros _|done]. eexists. split; [by apply list_elem_of_singleton|done].
    + split; [done|]. intros (e & He & _). by apply elem_of_nil in He.
  - destruct (dIsPositive q); intros [|k] e e' He He'; done.
  - destruct (dIsPositive q); repeat constructor.
Qed.

(** ** The theorems *)

Lemma fold_early k r : fold_left (position_step batch instrumentID cutoff) k (inl r) = inl r.
Proof. by induction k. Qed.

Lemma tracked_all q q' es : baselines_valid → opening batch instrumentID = Some q →
  fold_left (position_step batch instrumentID cutoff) (activities batch) (inr (q, first_epochs q)) = inr (q', es) →
  ∃ T1, tracked T1 (activities batch) q' es.
Proof.
  intros Hv Ho Hf. pose proof activities_sorted as Hs. destruct (activities batch) as [|a k] eqn:E.
  - injection Hf as <- <-. exists 0. by apply tracked_first.
  - eapply (tracked_fold (a :: k) (EffectiveAt a) []); [by apply tracked_first|done| |exact Hf].
    constructor; [lia|]. by inversion Hs.
Qed.

Lemma quantity_at_sorted T : (quantity_at batch instrumentID cutoff T == opened + changed T (activities batch))%Q.
Proof. unfold quantity_at, changed_by. by rewrite (sumQ_perm _ _ _ (stable_sort_perm activity_before (hb_Activities batch))). Qed.

Lemma changed_window T T1 l : cutoff <= T → Forall (λ b, EffectiveAt b <= T1) l → (changed T l == changed T1 l)%Q.
Proof.
  intros HT Hl. apply sumQ_ext. intros a Ha. rewrite Forall_forall in Hl. specialize (Hl a Ha).
  rewrite (proj2 (Z.leb_le _ _) Hl). destruct (in_window batch cutoff a) eqn:Ew; [|reflexivity].
  unfold in_window in Ew. prop_bool. destruct (Z.leb_spec (EffectiveAt a) T); [reflexivity|lia].
Qed.

(** Claim C26.  The epochs of a known timeline are the periods in which the instrument is held.
    The quantity at every instant is the baselines of the starting point plus the changes of all
    activities up to it; it is never negative, and it is positive exactly at the instants that one
    of the epochs covers.  The epochs follow one another, so at most the last one is open; the
    opening of an epoch is unknown only when the position is older than the history, and every
    other boundary is an activity of the window that raised (lowered) the quantity as a whole.
    The quantity that is reported is the exact quantity at the cutoff. *)
Theorem ProjectReviewPositionTimeline_correct t :
  baselines_valid → ProjectReviewPositionTimeline batch instrumentID cutoff = Ok t → pt_Known t = true →
  (∀ T, 0 <= quantity_at batch instrumentID cutoff T)%Q ∧
  (∀ T, (0 < quantity_at batch instrumentID cutoff T)%Q ↔ ∃ e, e ∈ Epochs t ∧ covers e T) ∧
  in_sequence (Epochs t) ∧ Forall (epoch_of batch instrumentID cutoff (hb_Activities batch)) (Epochs t) ∧
  (∃ q, pt_Quantity t = canonicalDecimal q ∧ ∀ T, cutoff <= T → (dval q == quantity_at batch instrumentID cutoff T)%Q).
Proof.
  intros Hv. unfold ProjectReviewPositionTimeline. case_match; [by intros [= <-]|].
  destruct (opening batch instrumentID) as [q0|] eqn:Eo; [|by intros [= <-]]. case_match; [by intros [= <-]|].
  destruct (fold_left _ _ _) as [[r es]|[q es]] eqn:Ef; [by intros [= <-]|]. case_match; [by intros [= <-]|].
  intros Hn _. apply bind_Ok in Hn as (known & Hk & [= <-]). cbn [Epochs pt_Quantity].
  apply NewQuantity_ok in Hk as [-> _]. destruct (tracked_all q0 q es Hv Eo Ef) as (T1 & Ht).
  split_and!.
  - intros T. rewrite quantity_at_sorted. apply (tr_nonneg _ _ _ _ Ht).
  - intros T. rewrite quantity_at_sorted. apply (tr_covers _ _ _ _ Ht).
  - apply (tr_sequence _ _ _ _ Ht).
  - eapply Forall_impl; [exact (tr_epochs _ _ _ _ Ht)|]. intros e (H1' & H2' & H3').
    assert (Hb : ∀ P x y, boundary batch cutoff (activities batch) P x y → boundary batch cutoff (hb_Activities batch) P x y).
    { intros P [x|] [y|]; [|done..]. intros (a & Ha & Hr). exists a. split; [|done].
      unfold activities in Ha. by rewrite stable_sort_perm in Ha. }
    split_and!; auto.
  - exists q. split; [done|]. intros T HT.
    rewrite quantity_at_sorted, (changed_window T T1) by (try apply (tr_seen _ _ _ _ Ht); done).
    apply (tr_quantity _ _ _ _ Ht).
Qed.

(** ** When the timeline is not known *)

Lemma activity_delta_reason a r : activity_delta batch instrumentID a = inl r → ∃ e id, e ∈ Effects a ∧ ef_HoldingID e = Some id ∧
  ((r = "holding_instrument_mismatch"%string ∧ ∃ i, ef_InstrumentID e = Some i ∧ owner_of batch id ≠ ""%string ∧ i ≠ owner_of batch id) ∨
   (r = "quantity_effect_direction"%string ∧ owner_of batch id = instrumentID ∧ Direction e ≠ EffectAdded ∧ Direction e ≠ EffectRemoved)).
Proof.
  unfold activity_delta. generalize dZero as d. induction (Effects a) as [|e l IH]; intros d; [done|]. cbn [fold_left].
  destruct (delta_step batch instrumentID (inr d) e) as [r1|d1] eqn:E.
  2: { intros H. destruct (IH d1 H) as (x & id & Hx & Hr). exists x, id. split; [by right|done]. }
  assert (∀ k, fold_left (delta_step batch instrumentID) k (inl r1) = inl r1) as -> by (by induction k). intros [= ->].
  cbn [delta_step] in E. destruct (ef_Quantity e), (ef_HoldingID e) as [id|] eqn:Ei; try done.
  exists e, id. split_and!; [by left|done|]. destruct (ef_InstrumentID e) as [i|] eqn:Einst.
  - destruct (negb (bool_decide (owner_of batch id = ""%string)) && negb (bool_decide (i = owner_of batch id))) eqn:Em.
    + injection E as <-. prop_bool. left. split; [done|]. by exists i.
    + destruct (bool_decide (owner_of batch id = instrumentID)) eqn:Eo; cbn [negb] in E; [|done]. prop_bool.
      destruct (Direction e); [done..|]. injection E as <-. right. by split_and!.
  - destruct (bool_decide (owner_of batch id = instrumentID)) eqn:Eo; cbn [negb] in E; [|done]. prop_bool.
    destruct (Direction e); [done..|]. injection E as <-. right. by split_and!.
Qed.

Lemma opening_missing : opening batch instrumentID = None → ∃ h, h ∈ hb_Holdings batch ∧ hd_InstrumentID h = instrumentID ∧
  hd_CreatedAt h <= started batch ∧ baselineByHolding batch instrumentID !! hd_ID h = None.
Proof.
  unfold opening. generalize dZero as q. induction (hb_Holdings batch) as [|h l IH]; intros q; [done|]. cbn [fold_left].
  destruct (opening_step batch instrumentID (Some q) h) as [q1|] eqn:E.
  - intros H. destruct (IH q1 H) as (x & Hx & Hr). exists x. split; [by right|done].
  - intros _. exists h. cbn [opening_step] in E. case_match eqn:Ec; [done|]. case_match; [done|].
    prop_bool. split_and!; [by left|done..].
Qed.

Lemma tracked_early k : ∀ T0 l q es r, tracked T0 l q es → StronglySorted (λ a b, EffectiveAt a <= EffectiveAt b) k →
  Forall (λ a, T0 <= EffectiveAt a) k → fold_left (position_step batch instrumentID cutoff) k (inr (q, es)) = inl r →
  ∃ i a j, k = i ++ a :: j ∧ in_window batch cutoff a = true ∧
    (activity_delta batch instrumentID a = inl r.1 ∨
     (r.1 = "negative_historical_quantity"%string ∧ (opened + changed (EffectiveAt a) (l ++ i ++ [a]) < 0)%Q)).
Proof.
  induction k as [|a k IH]; intros T0 l q es r Ht Hs Hf; cbn [fold_left]; [done|].
  apply Forall_cons in Hf as [Ha Hf]. inversion Hs as [|? ? Hs' Hk]; subst.
  destruct (position_step batch instrumentID cutoff (inr (q, es)) a) as [r1|[q1 es1]] eqn:E.
  - rewrite fold_early. intros [= ->]. exists [], a, k. split; [done|]. cbn [position_step] in E.
    destruct (in_window batch cutoff a) eqn:Ew; cbn [negb] in E; [|done]. split; [done|].
    destruct (activity_delta batch instrumentID a) as [r2|d] eqn:Ed; [left; by injection E as <-|].
    destruct (dIsZero d); [done|]. destruct (dIsNegative (dAdd q d)) eqn:En; [|by destruct (_ && _), (_ && _)].
    injection E as <-. right. split; [done|]. apply dIsNegative_val in En. apply activity_delta_val in Ed.
    cbn [app]. rewrite changed_snoc, Ew, Z.leb_refl. cbn [andb].
    rewrite Qplus_assoc, (tracked_late T0 l q es Ht) by done. rewrite dAdd_val, Ed in En. done.
  - intros H. destruct (IH (EffectiveAt a) (l ++ [a]) q1 es1 r) as (i & b & j & -> & Hw & Hr);
      [by eapply tracked_step|done|done|done|].
    exists (a :: i), b, j. split_and!; [done|done|]. destruct Hr as [|[? Hr]]; [by left|right]. split; [done|].
    by rewrite <-app_assoc in Hr.
Qed.

(** Claim C27.  A timeline that is not known names a gap that the evidence really has, and no
    quantity: the history does not start before the cutoff; a holding of the starting point has no
    baseline, or a later one has a quantity that no activity explains; a baseline belongs to a
    holding of another instrument; an activity of the window has an effect on a holding of another
    instrument or in no direction; or the replayed quantity is negative after some activity.  The
    projection only fails when the last quantity is outside the range of a quantity. *)
Theorem ProjectReviewPositionTimeline_unknown : baselines_valid →
  match ProjectReviewPositionTimeline batch instrumentID cutoff with
  | Ok t => pt_Known t = false → pt_Quantity t = ""%string ∧
    ((pt_Reason t = "history_origin"%string ∧ (timeIsZero (started batch) = true ∨ cutoff <= started batch)) ∨
     (pt_Reason t = "historical_quantity"%string ∧ ∃ h, h ∈ hb_Holdings batch ∧ hd_InstrumentID h = instrumentID ∧
        ((hd_CreatedAt h <= started batch ∧ baselineByHolding batch instrumentID !! hd_ID h = None) ∨
         (started batch < hd_CreatedAt h < cutoff ∧ (0 < dval (q_value (hd_Quantity h)))%Q ∧ ever_effect batch (hd_ID h) = false))) ∨
     (pt_Reason t = "history_origin_mismatch"%string ∧
        ∃ id q, baselineByHolding batch instrumentID !! id = Some q ∧ owner_of batch id ≠ instrumentID) ∨
     (∃ l a k, activities batch = l ++ a :: k ∧ in_window batch cutoff a = true ∧
        (activity_delta batch instrumentID a = inl (pt_Reason t) ∨
         (pt_Reason t = "negative_historical_quantity"%string ∧ (opened + changed (EffectiveAt a) (l ++ [a]) < 0)%Q))))
  | Fail e => ∃ q, NewQuantity q = Fail e ∧ ∀ T, cutoff <= T → (dval q == quantity_at batch instrumentID cutoff T)%Q
  end.
Proof.
  intros Hv. unfold ProjectReviewPositionTimeline. destruct (_ || _) eqn:Es.
  { intros _. split; [done|]. left. split; [done|]. apply orb_true_iff in Es as [Es|Es]; [by left|right]. apply negb_true_iff, Z.ltb_ge in Es. done. }
  destruct (opening batch instrumentID) as [q0|] eqn:Eo.
  2: { intros _. split; [done|]. right; left. split; [done|]. destruct (opening_missing Eo) as (h & Hh & Hi & Hc & Hb).
       exists h. split_and!; [done..|]. by left. }
  destruct (origin_mismatch batch instrumentID) eqn:Em.
  { intros _. split; [done|]. do 2 right; left. split; [done|]. unfold origin_mismatch in Em. prop_bool.
    apply map_not_Forall in Em as (id & q & Hq & Ho); [|tc_solve]. by exists id, q. }
  destruct (fold_left _ _ _) as [[r es]|[q es]] eqn:Ef.
  { intros _. split; [done|]. do 3 right. cbn [unknown pt_Reason].
    destruct (activities batch) as [|a0 k0] eqn:Ea; [done|]. pose proof activities_sorted as Hs. rewrite Ea in Hs.
    destruct (tracked_early (a0 :: k0) (EffectiveAt a0) [] q0 (first_epochs q0) (r, es)) as (i & a & j & Hk & Hw & Hr);
      [by apply tracked_first|done|constructor; [lia|by inversion Hs]|done|]. by exists i, a, j. }
  destruct (tracked_all q0 q es Hv Eo Ef) as (T1 & Ht).
  destruct (existsb _ _) eqn:Eu.
  { intros _. split; [done|]. right; left. split; [done|]. apply existsb_exists in Eu as (h & Hh & Hu).
    apply list_elem_of_In in Hh. unfold unexplained in Hu. prop_bool. exists h. split_and!; [done..|]. right.
    split_and!; [done|done|by apply dIsPositive_val|done]. }
  destruct (NewQuantity q) as [known|e] eqn:En; [done|]. exists q. split; [done|]. intros T HT.
  rewrite quantity_at_sorted, (changed_window T T1) by (try apply (tr_seen _ _ _ _ Ht); done).
  apply (tr_quantity _ _ _ _ Ht).
Qed.

(** The order in which the activities are read does not matter when their identifiers differ. *)
Lemma activities_order_free (b : HistoricalSnapshotBatch) : NoDup (act_ID <$> hb_Activities batch) →
  hb_Activities b ≡ₚ hb_Activities batch → activities b = activities batch.
Proof.
  intros Hn Hp. apply (stable_sort_eq activity_cmp activity_before activity_before_cmp); [|done].
  intros x y Hx Hy He. rewrite Hp in Hx, Hy. unfold activity_cmp, lex, by_key in He.
  destruct (EffectiveAt x ?= EffectiveAt y); [|done..]. destruct (act_CreatedAt x ?= act_CreatedAt y); [|done..].
  apply string_compare_eq in He. apply list_elem_of_lookup in Hx as (i & Hi), Hy as (j & Hj).
  assert (i = j) as <-; [|congruence]. eapply (NoDup_lookup _ i j); [exact Hn|by rewrite list_lookup_fmap, Hi|].
  by rewrite list_lookup_fmap, Hj, He.
Qed.
End Laws.

(** The projection does not depend on the order in which the activities are read. *)
Lemma ProjectReviewPositionTimeline_order_free `{HD : DecimalAPI} o c h l k instrumentID cutoff :
  NoDup (act_ID <$> l) → k ≡ₚ l →
  ProjectReviewPositionTimeline (mkBatch o c h k) instrumentID cutoff = ProjectReviewPositionTimeline (mkBatch o c h l) instrumentID cutoff.
Proof.
  intros Hn Hp. pose proof (activities_order_free (mkBatch o c h l) (mkBatch o c h k) Hn Hp) as Ha.
  unfold ProjectReviewPositionTimeline, unexplained, ever_effect. by rewrite Ha.
Qed.
