(* ===== verification/AnalysisReturn.v ===== *)
(** * Returns of a period

    [analysis_return.go] and [analysis_civil_date.go] of the application, with the records they
    read from [analysis.go] of the domain and the universe of [analysis_universe.go]: the daily
    Modified Dietz series of an analysis, the geometric link of its rates, and the two ways in
    which component days are folded into groups.  Records keep the fields that are read here; the
    cancellation of a context is left out. *)

From S2P Require Export CivilDate Money Identity.
From S2P Require Import DecimalModel.
From Stdlib Require Import String Ascii.

#[global] Open Scope Z_scope.

(** ** Components *)

Inductive Completeness := CompletenessOK | CompletenessPartial | CompletenessUnavailable | CompletenessRaw (raw : string).
#[export] Instance Completeness_eq_dec : EqDecision Completeness.
Proof. solve_decision. Defined.

Record ComponentID := mkComponentID {
  cid_AccountID : AccountID; cid_HoldingID : option HoldingID; cid_InstrumentID : option InstrumentID;
  cid_Currency : CurrencyCode; AssetClass : string; Cash : bool }.

(** [ComponentID.Key] *)
Definition Key (id : ComponentID) : string :=
  let parts := cid_AccountID id ::
    match cid_HoldingID id with
    | Some h => ["holding:" +:+ h]%string
    | None =>
      if Cash id then "cash"%string :: (if bool_decide (cid_Currency id = ""%string) then [] else ["currency:" +:+ cid_Currency id]%string)
      else ["value"%string]
    end ++ match cid_InstrumentID id with Some i => ["instrument:" +:+ i]%string | None => [] end in
  String.concat "/" parts.

(** The part of [analysisUniverse] that the returns read. *)
Record analysisUniverse := mkUniverse { InvestmentUniverse : list ComponentID; investmentComponentKeys : gset string }.

(** The last lines of [resolveAnalysisUniverse]. *)
Definition investment_universe (components : list ComponentID) : analysisUniverse :=
  mkUniverse components (list_to_set (Key <$> components)).

Definition investmentComponentInUniverse (u : analysisUniverse) (component : ComponentID) : bool :=
  bool_decide (Key component ∈ investmentComponentKeys u).

Definition BucketCash : string := "cash".

Definition returnEligibleComponent (component : ComponentID) (includeCash : bool) : bool :=
  match cid_InstrumentID component with
  | Some _ => true
  | None => includeCash && Cash component &&
            (bool_decide (AssetClass component = ""%string) || bool_decide (AssetClass component = BucketCash))
  end.

Definition analysisInstrumentGroupKey (component : ComponentID) : string :=
  match cid_InstrumentID component with
  | Some i => i
  | None => if bool_decide (cid_Currency component = ""%string) then BucketCash else (BucketCash +:+ ":" +:+ cid_Currency component)%string
  end.

Inductive AnalysisGroupBy := GroupByInstrument | GroupByAccount | GroupByCurrency | GroupByAssetClass | GroupByRaw (raw : string).

Definition returnGroupKey (component : ComponentID) (by_ : AnalysisGroupBy) : string :=
  match by_ with
  | GroupByAccount => cid_AccountID component
  | GroupByCurrency => cid_Currency component
  | GroupByInstrument => analysisInstrumentGroupKey component
  | GroupByAssetClass => if bool_decide (AssetClass component = ""%string) then "unknown" else AssetClass component
  | GroupByRaw _ => ""
  end.

Definition returnGroupCompleteness (complete usable total : Z) : Completeness :=
  if (0 <? total) && (complete =? total) then CompletenessOK
  else if 0 <? usable then CompletenessPartial else CompletenessUnavailable.

(** ** Civil days of an analysis *)

Definition maxAnalysisRangeDays : Z := 36600.

(** The first day and the number of days. *)
Definition analysisDateRange (from to : string) : Result (Z * Z) :=
  match ParseDate from with
  | None => Fail (validation "from" "date must use YYYY-MM-DD")
  | Some start =>
    match ParseDate to with
    | None => Fail (validation "to" "date must use YYYY-MM-DD")
    | Some end_ =>
      let days := end_ - start + 1 in
      if (days <? 1) || (maxAnalysisRangeDays <? days)
      then Fail (validation "range" "analysis range may not exceed 100 years")
      else Ok (start, days)
    end
  end.

Definition nonexistentHistoricalCivilDate (e : goerror) : bool :=
  match e with
  | DomainErr e => bool_decide (Code e = ErrInvalidChangeTime) && bool_decide (Field e = "localDate"%string)
  | OtherErr _ => false
  end.

Definition no_preceding_date : goerror :=
  domainErr ErrInvalidChangeTime "localDate" "cannot find a preceding civil date in the household timezone".

(** The loop over three labels, [label] first. *)
Fixpoint cutoff_at_or_before (tries : nat) (label : Z) (location : Location) : Result Time :=
  match tries with
  | O => Fail no_preceding_date
  | S tries =>
    match ResolveCivilDateCutoff (utc_midnight label) location with
    | Ok cutoff => Ok cutoff
    | Fail e => if nonexistentHistoricalCivilDate e then cutoff_at_or_before tries (label - 1) location else Fail e
    end
  end.
Definition analysisCivilDateCutoffAtOrBefore (day : Z) (location : Location) : Result Time :=
  cutoff_at_or_before 3 day location.

Fixpoint existing_at_or_before (tries : nat) (label : Z) (location : Location) : Result Z :=
  match tries with
  | O => Fail no_preceding_date
  | S tries =>
    match ResolveCivilDateCutoff (utc_midnight label) location with
    | Ok _ => Ok label
    | Fail e => if nonexistentHistoricalCivilDate e then existing_at_or_before tries (label - 1) location else Fail e
    end
  end.
Definition analysisPreviousExistingCivilDateLabel (day : Z) (location : Location) : Result Z :=
  existing_at_or_before 3 (day - 1) location.

(** [None]: the date was skipped. *)
Definition analysisCivilDayBounds (date : Z) (location : Location) : Result (option (Time * Time)) :=
  match ResolveCivilDateCutoff (utc_midnight date) location with
  | Fail e => if nonexistentHistoricalCivilDate e then Ok None else Fail e
  | Ok cutoff =>
    previous ← analysisCivilDateCutoffAtOrBefore (date - 1) location;
    let start := previous + Millisecond in
    let end_ := cutoff + Millisecond in
    if negb (start <? end_)
    then Fail (domainErr ErrInvalidChangeTime "timezone" "civil day bounds did not advance")
    else Ok (Some (start, end_))
  end.

Definition localDayBounds (date : Z) (location : Location) : Time * Time :=
  match analysisCivilDayBounds date location with
  | Ok (Some bounds) => bounds
  | _ => (0, 0)
  end.

Inductive Valuation := ValuationBase | ValuationNative | ValuationRaw (raw : string).
#[export] Instance Valuation_eq_dec : EqDecision Valuation.
Proof. solve_decision. Defined.

Record AnalysisQuery := mkQuery { q_From : string; q_To : string; q_Valuation : Valuation; IncludeCash : bool }.
Record RateCoverage := mkRateCoverage { RatedDays : Z; TotalDays : Z }.

Section Returns.
Context `{HD : DecimalAPI} `{TZ : TimeZones}.

Record DietzCapitalFlow := mkFlow { fl_Amount : SignedMoney; fl_EffectiveAt : Time }.
Record AttributedEffect := mkAttributed { ae_Flow : option DietzCapitalFlow; ae_PotentialFlow : option DietzCapitalFlow }.

Record ComponentDay := mkComponentDay {
  cd_Date : string; cd_Component : ComponentID; DietzCapitalFlows : list DietzCapitalFlow; AttributedEffects : list AttributedEffect;
  BeginningValue : SignedMoney; cd_ReturnAmount : option SignedMoney; cd_InvestedCapital : option SignedMoney; cd_Status : Completeness }.

Record DailyReturn := mkDailyReturn {
  dy_Date : string; dy_Amount : option SignedMoney; AmountExact : option Decimal; dy_InvestedCapital : option SignedMoney;
  dy_Rate : option Decimal; dy_Status : Completeness }.

Record PeriodAnalysisResult := mkPeriod {
  pr_Query : AnalysisQuery; AnalysisDayTimezone : string; pr_Days : list ComponentDay; DailyReturns : list DailyReturn;
  pr_Coverage : RateCoverage; pr_ReturnAmount : option SignedMoney; pr_InvestedCapital : option SignedMoney;
  pr_ReturnRate : option Decimal; pr_Status : Completeness }.

(** ** Rates *)

(** A [decimal.Decimal] that was never set. *)
Definition dUnset : Decimal := dNew 0 0.
Definition dOne : Decimal := dInt 1.

Definition link_step (linked rate : Decimal) : Decimal := dMul linked (dAdd dOne rate).
Definition GeometricLink (rates : list Decimal) : Decimal := dSub (fold_left link_step rates dOne) dOne.

Definition aggregate_step (st : Decimal * Z) (daily : DailyReturn) : Decimal * Z :=
  match dy_Rate daily with
  | Some rate => if bool_decide (dy_Status daily = CompletenessOK) then (link_step st.1 rate, st.2 + 1) else st
  | None => st
  end.
Definition aggregateDailyReturnRate (dailyReturns : list DailyReturn) : option Decimal * RateCoverage :=
  let '(linked, rated) := fold_left aggregate_step dailyReturns (dOne, 0) in
  let total := Z.of_nat (List.length dailyReturns) in
  let coverage := mkRateCoverage rated total in
  if (rated =? 0) || (rated * 2 <? total) then (None, coverage) else (Some (dSub linked dOne), coverage).

Definition dietzFlowWeight (effectiveAt dayStart dayEnd : Time) : Decimal :=
  let dayLength := timeSub dayEnd dayStart in
  if dayLength <=? 0 then dZero
  else
    let remaining := timeSub dayEnd effectiveAt in
    if remaining <? 0 then dZero
    else if dayLength <? remaining then dOne
    else dDiv (dInt remaining) (dInt dayLength).

Definition flow_step (dayStart dayEnd : Time) (capital : Decimal) (flow : DietzCapitalFlow) : Decimal :=
  dAdd capital (dMul (s_amount (fl_Amount flow)) (dietzFlowWeight (fl_EffectiveAt flow) dayStart dayEnd)).

Definition ModifiedDietzRate (beginning returnAmount : Decimal) (flows : list DietzCapitalFlow) (dayStart dayEnd : Time) : Decimal * bool :=
  let capital := fold_left (flow_step dayStart dayEnd) flows beginning in
  if negb (dIsPositive capital) then (dZero, false) else (dDiv returnAmount capital, true).

Definition analysisDayFlowWeight (date timezone : string) (effectiveAt : Time) : Decimal :=
  match LoadLocation timezone with
  | None => dZero
  | Some location =>
    match ParseDate date with
    | None => dZero
    | Some localDate =>
      let '(dayStart, dayEnd) := localDayBounds localDate location in
      dietzFlowWeight effectiveAt dayStart dayEnd
    end
  end.

(** ** The daily series *)

(** The variables of one day's loop over its components, and those of the period. *)
Record dayTotals := mkTotals { dt_amount : Decimal; dt_beginning : Decimal; dt_flows : list DietzCapitalFlow; dt_complete : bool;
  hasKnownAmount : bool; hasKnownBeginning : bool }.
Record periodTotals := mkPeriodTotals { periodReturn : Decimal; periodBeginning : Decimal; hasPeriodBeginning : bool; hasPeriodCurrency : bool }.

Definition component_step (onFrom : bool) (st : dayTotals * periodTotals) (day : ComponentDay) : dayTotals * periodTotals :=
  let '(d, p) := st in
  let complete := dt_complete d && bool_decide (cd_Status day = CompletenessOK) in
  let '(amount, hasAmount, p) := match cd_ReturnAmount day with
    | Some m => (dAdd (dt_amount d) (s_amount m), true, mkPeriodTotals (periodReturn p) (periodBeginning p) (hasPeriodBeginning p) true)
    | None => (dt_amount d, hasKnownAmount d, p)
    end in
  let '(beginning, hasBeginning, p) :=
    if bool_decide (s_currency (BeginningValue day) = ""%string) then (dt_beginning d, hasKnownBeginning d, p)
    else (dAdd (dt_beginning d) (s_amount (BeginningValue day)), true,
          if onFrom then mkPeriodTotals (periodReturn p) (dAdd (periodBeginning p) (s_amount (BeginningValue day))) true true
          else mkPeriodTotals (periodReturn p) (periodBeginning p) (hasPeriodBeginning p) true) in
  (mkTotals amount beginning (dt_flows d ++ DietzCapitalFlows day) complete hasAmount hasBeginning, p).

Definition unavailable_day (date : string) : DailyReturn := mkDailyReturn date None None None None CompletenessUnavailable.

(** The row of a day from its totals. *)
Definition daily_row (date : string) (cur : CurrencyCode) (dayStart dayEnd : Time) (d : dayTotals) : Result DailyReturn :=
  let status := if hasKnownAmount d || hasKnownBeginning d
                then if dt_complete d then CompletenessOK else CompletenessPartial else CompletenessUnavailable in
  amount ← (if hasKnownAmount d then m ← NewSignedMoney (dt_amount d) cur; Ok (Some m) else Ok None);
  let exact := if hasKnownAmount d then Some (dt_amount d) else None in
  let capital := fold_left (flow_step dayStart dayEnd) (dt_flows d) (dt_beginning d) in
  if hasKnownBeginning d then
    capitalMoney ← NewSignedMoney capital cur;
    if dt_complete d && dIsPositive capital
    then Ok (mkDailyReturn date amount exact (Some capitalMoney) (Some (dDiv (dt_amount d) capital)) CompletenessOK)
    else Ok (mkDailyReturn date amount exact (Some capitalMoney) None status)
  else Ok (mkDailyReturn date amount exact None None status).

Definition valuation_currency (u : analysisUniverse) (baseCurrency : CurrencyCode) (query : AnalysisQuery) : CurrencyCode :=
  if bool_decide (q_Valuation query = ValuationNative) then
    match List.find (λ c, negb (bool_decide (cid_Currency c = ""%string))) (InvestmentUniverse u) with
    | Some c => cid_Currency c
    | None => baseCurrency
    end
  else baseCurrency.

Section Finalize.
Context (result : PeriodAnalysisResult) (u : analysisUniverse) (timezone : string) (baseCurrency : CurrencyCode) (query : AnalysisQuery).

(** [byDate[date]] *)
Definition component_days (date : string) : list ComponentDay :=
  List.filter (λ day, investmentComponentInUniverse u (cd_Component day) && bool_decide (cd_Date day = date)) (pr_Days result).

(** One turn of the loop over the days: the rows and the totals of the period. *)
Definition period_day (location : Location) (start : Z) (st : list DailyReturn * periodTotals) (dayIndex : nat)
    : Result (list DailyReturn * periodTotals) :=
  let '(rows, p) := st in
  let date := start + Z.of_nat dayIndex in
  let localDate := format_days date in
  bounds ← analysisCivilDayBounds date location;
  match bounds with
  | None => Ok (rows ++ [unavailable_day localDate], p)
  | Some (dayStart, dayEnd) =>
    let days := component_days localDate in
    let '(d, p) := fold_left (component_step (bool_decide (localDate = q_From query))) days
      (mkTotals dZero dZero [] (0 <? Z.of_nat (List.length days)) false false, p) in
    row ← daily_row localDate (valuation_currency u baseCurrency query) dayStart dayEnd d;
    let p := if hasKnownAmount d
             then mkPeriodTotals (dAdd (periodReturn p) (dt_amount d)) (periodBeginning p) (hasPeriodBeginning p) (hasPeriodCurrency p)
             else p in
    Ok (rows ++ [row], p)
  end.

Definition period_status (rows : list DailyReturn) : Completeness :=
  if existsb (λ d, negb (bool_decide (dy_Status d = CompletenessUnavailable))) rows then
    if existsb (λ d, negb (bool_decide (dy_Status d = CompletenessOK))) rows then CompletenessPartial else CompletenessOK
  else CompletenessUnavailable.

Definition finalizeAnalysisReturns : Result PeriodAnalysisResult :=
  match LoadLocation timezone with
  | None => Fail (OtherErr "unknown time zone")
  | Some location =>
    '(start, totalDays) ← analysisDateRange (q_From query) (q_To query);
    '(rows, p) ← foldM (period_day location start) ([], mkPeriodTotals dZero dZero false false) (seq 0 (Z.to_nat totalDays));
    let cur := valuation_currency u baseCurrency query in
    returnMoney ← (if hasPeriodCurrency p then m ← NewSignedMoney (periodReturn p) cur; Ok (Some m) else Ok (pr_ReturnAmount result));
    beginningMoney ← (if hasPeriodCurrency p && hasPeriodBeginning p then m ← NewSignedMoney (periodBeginning p) cur; Ok (Some m)
                      else Ok (pr_InvestedCapital result));
    let '(rate, coverage) := aggregateDailyReturnRate rows in
    Ok (mkPeriod (pr_Query result) (AnalysisDayTimezone result) (pr_Days result) rows coverage returnMoney beginningMoney rate
          (period_status rows))
  end.
End Finalize.

(** ** Groups *)

Record ReturnGroup := mkGroup {
  rg_Key : string; rg_ReturnAmount : Decimal; AmountKnown : bool; rg_ReturnRate : option Decimal; rg_Coverage : RateCoverage;
  rg_Status : Completeness }.

Definition unsupported_group : goerror := OtherErr "unsupported analysis group".

(** The last lines of both folds: the row of a group from its rates and counts. *)
Definition group_row (key : string) (amount : Decimal) (known : bool) (rates : list Decimal) (complete usable total : Z) : ReturnGroup :=
  let rated := Z.of_nat (List.length rates) in
  mkGroup key amount known
    (if (total <=? rated * 2) && (0 <? rated) then Some (GeometricLink rates) else None)
    (mkRateCoverage rated total) (returnGroupCompleteness complete usable total).

(** The days that take part. *)
Definition eligible (result : PeriodAnalysisResult) (day : ComponentDay) : bool :=
  returnEligibleComponent (cd_Component day) (IncludeCash (pr_Query result)).

Record groupDay := mkGroupDay {
  gd_amount : Decimal; gd_beginning : Decimal; gd_legacy : Decimal; gd_flows : list DietzCapitalFlow;
  gd_complete : bool; gd_usable : bool; gd_known : bool }.
Definition new_group_day : groupDay := mkGroupDay dUnset dUnset dUnset [] true false false.

(** The candidate for a capital leg of an effect. *)
Definition effect_flow (e : AttributedEffect) : option DietzCapitalFlow :=
  match ae_PotentialFlow e with Some f => Some f | None => ae_Flow e end.

Definition legacy_capital (day : ComponentDay) : option Decimal :=
  if bool_decide (List.length (AttributedEffects day) = O) then s_amount <$> cd_InvestedCapital day else None.

Definition bucket_add (b : groupDay) (day : ComponentDay) : groupDay :=
  mkGroupDay
    (match cd_ReturnAmount day with Some m => dAdd (gd_amount b) (s_amount m) | None => gd_amount b end)
    (match legacy_capital day with Some _ => gd_beginning b | None => dAdd (gd_beginning b) (s_amount (BeginningValue day)) end)
    (match legacy_capital day with Some c => dAdd (gd_legacy b) c | None => gd_legacy b end)
    (gd_flows b ++ omap effect_flow (AttributedEffects day))
    (gd_complete b && bool_decide (cd_Status day = CompletenessOK))
    (gd_usable b || negb (bool_decide (cd_Status day = CompletenessUnavailable)))
    (gd_known b || match cd_ReturnAmount day with Some _ => true | None => false end).

Record bucketState := mkBuckets {
  buckets : gmap (string * string) groupDay; datesByGroup : gmap string (list string); datesOrdered : gmap string bool;
  hasFlowMetadata : bool }.

Definition dates_of (st : bucketState) (key : string) : list string := default [] (datesByGroup st !! key).
Definition ordered_of (st : bucketState) (key : string) : bool := default false (datesOrdered st !! key).

Definition bucket_step (result : PeriodAnalysisResult) (by_ : AnalysisGroupBy) (st : bucketState) (day : ComponentDay) : Result bucketState :=
  if negb (eligible result day) then Ok st
  else
    let key := returnGroupKey (cd_Component day) by_ in
    if bool_decide (key = ""%string) then Fail unsupported_group
    else
      let st := match buckets st !! (key, cd_Date day) with
        | Some _ => st
        | None =>
          let dates := dates_of st key in
          let ordered := match last dates with
            | None => true
            | Some previous => if ordered_of st key && String.ltb (cd_Date day) previous then false else ordered_of st key
            end in
          mkBuckets (<[(key, cd_Date day) := new_group_day]> (buckets st)) (<[key := dates ++ [cd_Date day]]> (datesByGroup st))
            (<[key := ordered]> (datesOrdered st)) (hasFlowMetadata st)
        end in
      let bucket := default new_group_day (buckets st !! (key, cd_Date day)) in
      Ok (mkBuckets (<[(key, cd_Date day) := bucket_add bucket day]> (buckets st)) (datesByGroup st) (datesOrdered st)
            (hasFlowMetadata st || negb (bool_decide (omap effect_flow (AttributedEffects day) = [])))).

(** The variables of the loop over the dates of a group. *)
Record groupTotals := mkGroupTotals { gt_amount : Decimal; gt_known : bool; gt_rates : list Decimal; gt_complete : Z; gt_usable : Z }.

Definition bucket_capital (location : option Location) (date : string) (daily : groupDay) : Result Decimal :=
  let capital := dAdd (gd_beginning daily) (gd_legacy daily) in
  match gd_flows daily, location with
  | [], _ => Ok capital
  | flows, Some location =>
    match ParseDate date with
    | None => Fail (OtherErr "parsing time")
    | Some localDate =>
      let '(dayStart, dayEnd) := localDayBounds localDate location in
      Ok (fold_left (flow_step dayStart dayEnd) flows capital)
    end
  | _, None => Fail (OtherErr "nil location")
  end.

Definition group_date_step (location : option Location) (st : bucketState) (key : string) (t : groupTotals) (date : string) : Result groupTotals :=
  let daily := default new_group_day (buckets st !! (key, date)) in
  capital ← bucket_capital location date daily;
  Ok (mkGroupTotals (dAdd (gt_amount t) (gd_amount daily)) (gt_known t || gd_known daily)
    (if gd_complete daily && dIsPositive capital then gt_rates t ++ [dDiv (gd_amount daily) capital] else gt_rates t)
    (if gd_complete daily then gt_complete t + 1 else gt_complete t)
    (if gd_usable daily then gt_usable t + 1 else gt_usable t)).

Definition fold_group (location : option Location) (st : bucketState) (total : Z) (key : string) : Result ReturnGroup :=
  let dates := if ordered_of st key then dates_of st key else stable_sort String.ltb (dates_of st key) in
  t ← foldM (group_date_step location st key) (mkGroupTotals dUnset false [] 0 0) dates;
  Ok (group_row key (gt_amount t) (gt_known t) (gt_rates t) (gt_complete t) (gt_usable t) total).

(** The keys of [datesByGroup], sorted. *)
Definition group_keys (st : bucketState) : list string := stable_sort String.ltb (elements (dom (datesByGroup st))).

(** [FoldReturnGroups] after its first test. *)
Definition foldReturnGroupsByDate (result : PeriodAnalysisResult) (by_ : AnalysisGroupBy) : Result (list ReturnGroup) :=
  st ← foldM (bucket_step result by_) (mkBuckets ∅ ∅ ∅ false) (pr_Days result);
  location ← (if hasFlowMetadata st then
    if bool_decide (AnalysisDayTimezone result = ""%string)
    then Fail (OtherErr "analysis day timezone is required for group Dietz folding")
    else match LoadLocation (AnalysisDayTimezone result) with
    | Some location => Ok (Some location)
    | None => Fail (OtherErr "unknown time zone")
    end
  else Ok None);
  mapM (fold_group location st (TotalDays (pr_Coverage result))) (group_keys st).

(** ** Groups of days in order *)

Definition has_flow (day : ComponentDay) : bool :=
  existsb (λ e, match ae_PotentialFlow e, ae_Flow e with None, None => false | _, _ => true end) (AttributedEffects day).

(** The loop keeps the previous date, [None] after a day that stops it. *)
Definition chronological_step (result : PeriodAnalysisResult) (previous : option string) (day : ComponentDay) : option string :=
  match previous with
  | None => None
  | Some previous =>
    if negb (eligible result day) then Some previous
    else if negb (bool_decide (previous = ""%string)) && String.ltb (cd_Date day) previous then None
    else if has_flow day then None else Some (cd_Date day)
  end.
Definition canFoldReturnGroupsChronologically (result : PeriodAnalysisResult) : bool :=
  match fold_left (chronological_step result) (pr_Days result) (Some ""%string) with Some _ => true | None => false end.

Record groupState := mkGroupState {
  gs_key : string; returnAmount : Decimal; amountKnown : bool; gs_rates : list Decimal; gs_currentDate : string;
  currentAmount : Decimal; currentBeginning : Decimal; currentLegacy : Decimal; currentComplete : bool; currentUsable : bool;
  completeDays : Z; usableDays : Z }.

Record chronoState := mkChrono { groups : list groupState; groupIndexes : gmap string nat; active : list nat; currentDate : string }.

Definition new_group (key : string) : groupState := mkGroupState key dUnset false [] "" dUnset dUnset dUnset false false 0 0.

Definition close_date (g : groupState) : groupState :=
  let capital := dAdd (currentBeginning g) (currentLegacy g) in
  mkGroupState (gs_key g) (returnAmount g) (amountKnown g)
    (if currentComplete g && dIsPositive capital then gs_rates g ++ [dDiv (currentAmount g) capital] else gs_rates g)
    "" dZero dZero dZero true false
    (if currentComplete g then completeDays g + 1 else completeDays g)
    (if currentUsable g then usableDays g + 1 else usableDays g).

Definition finalizeDate (st : chronoState) : chronoState :=
  mkChrono (fold_left (λ groups index, alter close_date index groups) (active st) (groups st)) (groupIndexes st) [] (currentDate st).

Definition group_add (day : ComponentDay) (g : groupState) : groupState :=
  mkGroupState (gs_key g)
    (match cd_ReturnAmount day with Some m => dAdd (returnAmount g) (s_amount m) | None => returnAmount g end)
    (amountKnown g || match cd_ReturnAmount day with Some _ => true | None => false end)
    (gs_rates g) (gs_currentDate g)
    (match cd_ReturnAmount day with Some m => dAdd (currentAmount g) (s_amount m) | None => currentAmount g end)
    (match legacy_capital day with Some _ => currentBeginning g | None => dAdd (currentBeginning g) (s_amount (BeginningValue day)) end)
    (match legacy_capital day with Some c => dAdd (currentLegacy g) c | None => currentLegacy g end)
    (currentComplete g && bool_decide (cd_Status day = CompletenessOK))
    (currentUsable g || negb (bool_decide (cd_Status day = CompletenessUnavailable)))
    (completeDays g) (usableDays g).

(** A group sees its first day of a date. *)
Definition group_open (date : string) (g : groupState) : groupState :=
  mkGroupState (gs_key g) (returnAmount g) (amountKnown g) (gs_rates g) date (currentAmount g) (currentBeginning g) (currentLegacy g)
    true (currentUsable g) (completeDays g) (usableDays g).

Definition chrono_step (result : PeriodAnalysisResult) (by_ : AnalysisGroupBy) (st : chronoState) (day : ComponentDay) : Result chronoState :=
  if negb (eligible result day) then Ok st
  else
    let st := if negb (bool_decide (currentDate st = ""%string)) && negb (bool_decide (cd_Date day = currentDate st))
              then finalizeDate st else st in
    let key := returnGroupKey (cd_Component day) by_ in
    if bool_decide (key = ""%string) then Fail unsupported_group
    else
      let '(index, groups, indexes) := match groupIndexes st !! key with
        | Some index => (index, groups st, groupIndexes st)
        | None => (List.length (groups st), groups st ++ [new_group key], <[key := List.length (groups st)]> (groupIndexes st))
        end in
      let fresh := match groups !! index with Some g => negb (bool_decide (gs_currentDate g = cd_Date day)) | None => false end in
      let groups := if fresh then alter (group_open (cd_Date day)) index groups else groups in
      let active := if fresh then active st ++ [index] else active st in
      Ok (mkChrono (alter (group_add day) index groups) indexes active (cd_Date day)).

Definition chrono_row (total : Z) (g : groupState) : ReturnGroup :=
  group_row (gs_key g) (returnAmount g) (amountKnown g) (gs_rates g) (completeDays g) (usableDays g) total.

(** The indices are sorted by the key of their group. *)
Definition foldReturnGroupsChronologically (result : PeriodAnalysisResult) (by_ : AnalysisGroupBy) : Result (list ReturnGroup) :=
  st ← foldM (chrono_step result by_) (mkChrono [] ∅ [] "") (pr_Days result);
  let st := if bool_decide (currentDate st = ""%string) then st else finalizeDate st in
  Ok (chrono_row (TotalDays (pr_Coverage result)) <$> stable_sort (λ a b, String.ltb (gs_key a) (gs_key b)) (groups st)).

Definition FoldReturnGroups (result : PeriodAnalysisResult) (by_ : AnalysisGroupBy) : Result (list ReturnGroup) :=
  if canFoldReturnGroupsChronologically result then foldReturnGroupsChronologically result by_ else foldReturnGroupsByDate result by_.
End Returns.
