(* ===== verification/AnalysisFold.v ===== *)
(** * Folding component days into groups

    The two folds of [FoldReturnGroups] against a description of a group: its days, the buckets
    of its dates, and the rates of its complete ones.  The fold over days in order, which keeps one
    open date per group, agrees with the fold over a table of buckets. *)

From S2P Require Export AnalysisReturn.
From S2P Require Import Ordering DecimalModel.
From Stdlib Require Import String Ascii Sorted.

#[global] Open Scope Z_scope.

(** ** Strings in order *)

Lemma ltb_compare s t : String.ltb s t = is_gt (String.compare t s).
Proof. by rewrite is_gt_string. Qed.

Lemma in_order_string s t : in_order String.compare s t ↔ String.ltb t s = false.
Proof. unfold in_order. rewrite ltb_compare. by destruct (String.compare s t). Qed.

Lemma filter_none {A} (P : A → Prop) `{∀ x, Decision (P x)} l : Forall (λ x, ¬ P x) l → filter P l = [].
Proof. induction 1 as [|x l Hx _ IH]; [done|]. rewrite filter_cons. by case_decide. Qed.

Lemma filter_every {A} (P : A → Prop) `{∀ x, Decision (P x)} l : Forall P l → filter P l = l.
Proof. induction 1 as [|x l Hx _ IH]; [done|]. rewrite filter_cons, IH. by case_decide. Qed.

Lemma sumQ_plus {A} (f g : A → Q) l : (sumQ (λ x, f x + g x) l == sumQ f l + sumQ g l)%Q.
Proof. induction l as [|x l IH]; [reflexivity|]. rewrite !sumQ_cons, IH. ring. Qed.

Lemma sumQ_zero {A} (f : A → Q) l : (∀ x, x ∈ l → (f x == 0)%Q) → (sumQ f l == 0)%Q.
Proof.
  induction l as [|x l IH]; intros Hf; [reflexivity|]. rewrite sumQ_cons, (Hf x) by by left.
  rewrite IH; [ring|]. intros y Hy. apply Hf. by right.
Qed.

(** ** The days of a group, and of a date *)

Section Spec.
Context `{HD : DecimalAPI} `{TZ : TimeZones} (result : PeriodAnalysisResult) (by_ : AnalysisGroupBy).

Definition key_of (day : ComponentDay) : string := returnGroupKey (cd_Component day) by_.

(** The days of group [g]. *)
Definition mine (g : string) (l : list ComponentDay) : list ComponentDay :=
  filter (λ day, eligible result day = true ∧ key_of day = g) l.
Definition on_date (d : string) (l : list ComponentDay) : list ComponentDay := filter (λ day, cd_Date day = d) l.
Definition off_date (d : string) (l : list ComponentDay) : list ComponentDay := filter (λ day, cd_Date day ≠ d) l.

(** The dates in the order in which they are first seen. *)
Definition seen_date (dates : list string) (day : ComponentDay) : list string :=
  if bool_decide (cd_Date day ∈ dates) then dates else dates ++ [cd_Date day].
Definition dates (l : list ComponentDay) : list string := fold_left seen_date l [].

Definition bucket_of (l : list ComponentDay) : groupDay := fold_left bucket_add l new_group_day.
Definition buckets_of (l : list ComponentDay) : list groupDay := (λ d, bucket_of (on_date d l)) <$> dates l.

Definition return_of (day : ComponentDay) : Q := match cd_ReturnAmount day with Some m => dval (s_amount m) | None => 0%Q end.
Definition has_return (day : ComponentDay) : bool := match cd_ReturnAmount day with Some _ => true | None => false end.

Lemma mine_app g l k : mine g (l ++ k) = mine g l ++ mine g k.
Proof. apply filter_app. Qed.
Lemma on_date_app d l k : on_date d (l ++ k) = on_date d l ++ on_date d k.
Proof. apply filter_app. Qed.
Lemma off_date_app d l k : off_date d (l ++ k) = off_date d l ++ off_date d k.
Proof. apply filter_app. Qed.

Lemma mine_snoc g l day : mine g (l ++ [day]) =
  if eligible result day && bool_decide (key_of day = g) then mine g l ++ [day] else mine g l.
Proof.
  rewrite mine_app. unfold mine at 2. rewrite filter_cons, filter_nil.
  destruct (eligible result day) eqn:Ee; cbn [andb].
  - repeat case_decide; repeat case_bool_decide; try tauto; by rewrite ?app_nil_r.
  - case_decide; [naive_solver|]. by rewrite app_nil_r.
Qed.

Lemma on_date_snoc d l day : on_date d (l ++ [day]) = if bool_decide (cd_Date day = d) then on_date d l ++ [day] else on_date d l.
Proof.
  rewrite on_date_app. unfold on_date at 2. rewrite filter_cons, filter_nil.
  repeat case_decide; repeat case_bool_decide; try done; by rewrite app_nil_r.
Qed.

Lemma off_date_snoc d l day : off_date d (l ++ [day]) = if bool_decide (cd_Date day = d) then off_date d l else off_date d l ++ [day].
Proof.
  rewrite off_date_app. unfold off_date at 2. rewrite filter_cons, filter_nil.
  repeat case_decide; repeat case_bool_decide; try done; by rewrite app_nil_r.
Qed.

Lemma dates_snoc l day : dates (l ++ [day]) = seen_date (dates l) day.
Proof. unfold dates. by rewrite fold_left_app. Qed.

Lemma elem_of_dates d l : d ∈ dates l ↔ ∃ day, day ∈ l ∧ cd_Date day = d.
Proof.
  revert d. induction l as [|day l IH] using rev_ind; intros d.
  - split; [intros H; by apply elem_of_nil in H|]. intros (x & H & _). by apply elem_of_nil in H.
  - rewrite dates_snoc. unfold seen_date. setoid_rewrite elem_of_app. setoid_rewrite list_elem_of_singleton.
    case_bool_decide as Hin; [|rewrite elem_of_app, list_elem_of_singleton]; rewrite IH.
    + apply IH in Hin as (x & Hx & Ex). split; [intros (y & Hy & <-); exists y; auto|].
      intros (y & [Hy| ->] & <-); [by exists y|]. by exists x.
    + split; [intros [(y & Hy & <-)| ->]; [exists y; auto|exists day; auto]|].
      intros (y & [Hy| ->] & <-); [left; by exists y|by right].
Qed.

Lemma NoDup_dates l : NoDup (dates l).
Proof.
  induction l as [|day l IH] using rev_ind; [constructor|]. rewrite dates_snoc. unfold seen_date.
  case_bool_decide; [done|]. apply NoDup_app. split; [done|]. split; [|apply NoDup_singleton].
  intros x Hx Hs. apply list_elem_of_singleton in Hs as ->. done.
Qed.

Lemma on_date_nil d l : on_date d l = [] ↔ d ∉ dates l.
Proof.
  rewrite elem_of_dates. unfold on_date. split.
  - intros H (day & Hd & E). assert (day ∈ filter (λ x, cd_Date x = d) l) as Hin by (by apply list_elem_of_filter).
    rewrite H in Hin. by apply elem_of_nil in Hin.
  - intros H. apply filter_none, Forall_forall. intros day Hd E. apply H. by exists day.
Qed.

(** A date that comes last has a bucket of its own at the end. *)
Lemma buckets_of_snoc past now d : d ∉ dates past → now ≠ [] → Forall (λ day, cd_Date day = d) now →
  buckets_of (past ++ now) = buckets_of past ++ [bucket_of now].
Proof.
  intros Hp Hn Hd.
  assert (Hds : dates (past ++ now) = dates past ++ [d]).
  { destruct now as [|x now]; [done|]. clear Hn. induction now as [|y now IH] using rev_ind.
    - rewrite dates_snoc. unfold seen_date. apply Forall_singleton in Hd as ->. by rewrite bool_decide_eq_false_2.
    - rewrite app_comm_cons, app_assoc, dates_snoc. rewrite app_comm_cons, Forall_app, Forall_singleton in Hd.
      destruct Hd as [Hd Hy]. rewrite IH by done. unfold seen_date. rewrite Hy.
      rewrite bool_decide_eq_true_2; [done|]. rewrite elem_of_app, list_elem_of_singleton. by right. }
  unfold buckets_of. rewrite Hds, fmap_app. cbn [fmap list_fmap]. f_equal.
  - apply list_fmap_ext. intros i x Hx. f_equal. rewrite on_date_app.
    assert (on_date x now = []) as ->; [|by rewrite app_nil_r].
    apply filter_none. eapply Forall_impl; [exact Hd|]. cbn. intros day -> E. subst x.
    apply Hp. by eapply list_elem_of_lookup_2.
  - do 2 f_equal. rewrite on_date_app. rewrite (proj2 (on_date_nil d past) Hp). cbn.
    unfold on_date. by apply filter_every.
Qed.

Lemma bucket_of_snoc l day : bucket_of (l ++ [day]) = bucket_add (bucket_of l) day.
Proof. unfold bucket_of. by rewrite fold_left_app. Qed.

(** ** The table of buckets *)

Definition bad (day : ComponentDay) : bool := eligible result day && bool_decide (key_of day = ""%string).

Record tabled (l : list ComponentDay) (st : bucketState) : Prop := {
  tb_buckets g d : buckets st !! (g, d) = match on_date d (mine g l) with [] => None | k => Some (bucket_of k) end;
  tb_dates g : datesByGroup st !! g = match dates (mine g l) with [] => None | ds => Some ds end;
  tb_ordered g : ordered_of st g = true → StronglySorted (in_order String.compare) (dates (mine g l));
  tb_flows : hasFlowMetadata st = existsb (λ day, eligible result day && negb (bool_decide (omap effect_flow (AttributedEffects day) = []))) l }.

Lemma dates_nil l : dates l = [] ↔ l = [].
Proof.
  split; [|by intros ->]. intros H. destruct l as [|day l]; [done|]. exfalso.
  assert (cd_Date day ∈ dates (day :: l)) as Hin by (apply elem_of_dates; exists day; split; [by left|done]).
  rewrite H in Hin. by apply elem_of_nil in Hin.
Qed.

Lemma tabled_dates l st g : tabled l st → dates_of st g = dates (mine g l).
Proof. intros Ht. unfold dates_of. rewrite (tb_dates _ _ Ht). by destruct (dates (mine g l)). Qed.

Lemma tabled_bucket l st g d : tabled l st → default new_group_day (buckets st !! (g, d)) = bucket_of (on_date d (mine g l)).
Proof. intros Ht. rewrite (tb_buckets _ _ Ht). by destruct (on_date d (mine g l)). Qed.

Lemma sorted_snoc ds d : StronglySorted (in_order String.compare) ds → (∀ p, last ds = Some p → in_order String.compare p d) →
  StronglySorted (in_order String.compare) (ds ++ [d]).
Proof.
  intros Hs Hl. induction Hs as [|x ds Hs IH Hf]; [repeat constructor|]. cbn. constructor.
  - apply IH. intros p Hp. apply Hl. destruct ds; [done|]. by rewrite last_cons_cons.
  - rewrite Forall_app, Forall_singleton. split; [done|]. destruct ds as [|y ds] using rev_ind.
    + by apply Hl.
    + apply (in_order_trans String.compare x y); [by rewrite Forall_app, Forall_singleton in Hf; apply Hf|].
      apply Hl. by rewrite app_comm_cons, last_snoc.
Qed.

Lemma tabled_step l st day st' : tabled l st → bucket_step result by_ st day = Ok st' → tabled (l ++ [day]) st'.
Proof.
  intros Ht. unfold bucket_step. destruct (eligible result day) eqn:Ee; cbn [negb].
  2: { intros [= <-]. destruct Ht as [H1 H2 H3 H4]. split.
    - intros g d. by rewrite mine_snoc, Ee.
    - intros g. by rewrite mine_snoc, Ee.
    - intros g. by rewrite mine_snoc, Ee; apply H3.
    - rewrite existsb_app, <-H4. cbn. by rewrite Ee, orb_false_r. }
  fold (key_of day). destruct (bool_decide (key_of day = ""%string)); [done|]. set (g0 := key_of day). set (d0 := cd_Date day).
  assert (Hm : ∀ g, mine g (l ++ [day]) = if bool_decide (g0 = g) then mine g l ++ [day] else mine g l).
  { intros g. by rewrite mine_snoc, Ee. }
  assert (Hflow : hasFlowMetadata st || negb (bool_decide (omap effect_flow (AttributedEffects day) = [])) =
    existsb (λ day, eligible result day && negb (bool_decide (omap effect_flow (AttributedEffects day) = []))) (l ++ [day])).
  { rewrite existsb_app, <-(tb_flows _ _ Ht). cbn [existsb]. by rewrite Ee, orb_false_r. }
  assert (Hbucket : ∀ m : gmap (string * string) groupDay, m !! (g0, d0) = Some (bucket_of (on_date d0 (mine g0 l))) →
    (∀ g d, (g, d) ≠ (g0, d0) → m !! (g, d) = buckets st !! (g, d)) →
    ∀ g d, <[(g0, d0) := bucket_add (default new_group_day (m !! (g0, d0))) day]> m !! (g, d) =
      match on_date d (mine g (l ++ [day])) with [] => None | k => Some (bucket_of k) end).
  { intros m H1 H2 g d. rewrite Hm. destruct (decide ((g, d) = (g0, d0))) as [[= -> ->]|Hne].
    - rewrite lookup_insert_eq, H1, bool_decide_eq_true_2 by done. cbn [from_option id].
      rewrite on_date_snoc, bool_decide_eq_true_2 by done. rewrite <-bucket_of_snoc.
      by destruct (on_date d0 (mine g0 l)).
    - rewrite lookup_insert_ne by done. rewrite H2, (tb_buckets _ _ Ht) by done.
      destruct (bool_decide_reflect (g0 = g)) as [Eg|]; [|done]. rewrite on_date_snoc.
      destruct (bool_decide_reflect (cd_Date day = d)) as [Ed|]; [|done]. exfalso. apply Hne. by rewrite <-Eg, <-Ed. }
  pose proof (tb_buckets _ _ Ht g0 d0) as Hb0. destruct (buckets st !! (g0, d0)) as [b|] eqn:Eb.
  - intros [= <-]. destruct (on_date d0 (mine g0 l)) as [|x k] eqn:Ek; [done|]. injection Hb0 as ->.
    assert (Hin : d0 ∈ dates (mine g0 l)).
    { destruct (decide (d0 ∈ dates (mine g0 l))) as [|Hn]; [done|]. apply on_date_nil in Hn. congruence. }
    assert (Hdates : ∀ g, dates (mine g (l ++ [day])) = dates (mine g l)).
    { intros g. rewrite Hm. destruct (bool_decide_reflect (g0 = g)) as [<-|]; [|done]. rewrite dates_snoc. unfold seen_date. by rewrite bool_decide_eq_true_2. }
    split; cbn [buckets datesByGroup hasFlowMetadata]; [|intros g; rewrite Hdates; apply (tb_dates _ _ Ht)|
      intros g; rewrite Hdates; apply (tb_ordered _ _ Ht)|done].
    apply Hbucket; [by rewrite Eb|done].
  - intros [= <-]. cbn [buckets datesByGroup datesOrdered hasFlowMetadata].
    assert (Hk : on_date d0 (mine g0 l) = []) by by destruct (on_date d0 (mine g0 l)).
    assert (Hnew : dates (mine g0 l ++ [day]) = dates (mine g0 l) ++ [d0]).
    { rewrite dates_snoc. unfold seen_date. rewrite bool_decide_eq_false_2; [done|]. by apply on_date_nil. }
    split; cbn [buckets datesByGroup hasFlowMetadata].
    + apply Hbucket.
      * by rewrite lookup_insert_eq, Hk.
      * intros g d Hne. by rewrite lookup_insert_ne.
    + intros g. rewrite Hm. destruct (bool_decide_reflect (g0 = g)) as [<-|]; [|by rewrite lookup_insert_ne; [apply (tb_dates _ _ Ht)|]].
      rewrite lookup_insert_eq, (tabled_dates l st) by done. rewrite Hnew. by destruct (dates (mine g0 l)).
    + intros g. rewrite Hm. unfold ordered_of. cbn [datesOrdered]. destruct (bool_decide_reflect (g0 = g)) as [<-|]; [|rewrite lookup_insert_ne by done; apply (tb_ordered _ _ Ht)].
      rewrite lookup_insert_eq. cbn [from_option id]. rewrite (tabled_dates l st) by done. intros Ho. fold (ordered_of st g0) in Ho. rewrite Hnew.
      destruct (last (dates (mine g0 l))) as [p|] eqn:El.
      * destruct (ordered_of st g0) eqn:Eo; cbn [andb] in Ho; [|done].
        destruct (String.ltb d0 p) eqn:Elt; [done|].
        apply sorted_snoc; [by apply (tb_ordered _ _ Ht)|]. intros p' Hp'. rewrite El in Hp'. injection Hp' as <-. by apply in_order_string.
      * apply last_None in El. rewrite El. repeat constructor.
    + done.
Qed.

Lemma tabled_nil : tabled [] (mkBuckets ∅ ∅ ∅ false).
Proof. split; [intros g d|intros g|intros g _; constructor|done]; cbn [buckets datesByGroup]; by rewrite lookup_empty. Qed.

Lemma bucket_step_bad st day : bucket_step result by_ st day = if bad day then Fail unsupported_group else
  match bucket_step result by_ st day with Ok st' => Ok st' | Fail _ => Fail unsupported_group end.
Proof.
  unfold bucket_step, bad, key_of. destruct (eligible result day); [|done]. cbn [negb andb]. by destruct (bool_decide _).
Qed.

(** The table is made, or some day has no key. *)
Lemma buckets_made : match foldM (bucket_step result by_) (mkBuckets ∅ ∅ ∅ false) (pr_Days result) with
  | Ok st => tabled (pr_Days result) st ∧ existsb bad (pr_Days result) = false
  | Fail e => e = unsupported_group ∧ existsb bad (pr_Days result) = true
  end.
Proof.
  generalize (pr_Days result) as l. induction l as [|day l IH] using rev_ind; [split; [apply tabled_nil|done]|].
  rewrite foldM_app, existsb_app. destruct (foldM _ _ l) as [st|e]; [|by destruct IH as [-> ->]].
  destruct IH as [Ht ->]. cbn [foldM existsb orb]. rewrite orb_false_r.
  rewrite bucket_step_bad. destruct (bad day) eqn:Eb; [done|].
  destruct (bucket_step result by_ st day) as [st'|e] eqn:E; [split; [by eapply tabled_step|done]|].
  exfalso. revert E. unfold bucket_step, bad, key_of in *. destruct (eligible result day); [|done]. cbn [negb andb] in *. by rewrite Eb.
Qed.

(** ** The row of a group *)

Definition capital_of (b : groupDay) : Decimal := dAdd (gd_beginning b) (gd_legacy b).
Definition how_many {A} (f : A → bool) (l : list A) : Z := Z.of_nat (List.length (List.filter f l)).

Lemma how_many_app {A} (f : A → bool) l k : how_many f (l ++ k) = how_many f l + how_many f k.
Proof. unfold how_many. rewrite List.filter_app, length_app. lia. Qed.
Lemma how_many_cons {A} (f : A → bool) x l : how_many f (x :: l) = (if f x then 1 else 0) + how_many f l.
Proof. unfold how_many. cbn. destruct (f x); cbn; lia. Qed.

Lemma how_many_fmap {A B} (f : B → bool) (g : A → B) l : how_many f (g <$> l) = how_many (λ x, f (g x)) l.
Proof. induction l as [|x l IH]; [done|]. by rewrite fmap_cons, !how_many_cons, IH. Qed.

Lemma omap_of_fmap {A B C} (f : B → option C) (g : A → B) (l : list A) : omap f (g <$> l) = omap (λ x, f (g x)) l.
Proof. induction l as [|x l IH]; [done|]. rewrite fmap_cons. cbn [omap list_omap]. by rewrite <-IH. Qed.

(** The rate of a date: only for a complete bucket with positive capital. *)
Definition rated (b : groupDay) (capital : Decimal) : option Decimal :=
  if gd_complete b && dIsPositive capital then Some (dDiv (gd_amount b) capital) else None.
Definition dated_rate (location : option Location) (d : string) (b : groupDay) : option Decimal :=
  match bucket_capital location d b with Ok capital => rated b capital | Fail _ => None end.

Context {HL : DecimalLaws}.

Lemma bucket_amount l : (dval (gd_amount (bucket_of l)) == sumQ return_of l)%Q.
Proof.
  induction l as [|day l IH] using rev_ind; [cbn; unfold dUnset; rewrite dval_new; reflexivity|].
  rewrite bucket_of_snoc, sumQ_app, <-IH, sumQ_cons. cbn [gd_amount bucket_add sumQ foldr]. unfold return_of.
  destruct (cd_ReturnAmount day); [rewrite dAdd_val|]; ring.
Qed.

Lemma bucket_known l : gd_known (bucket_of l) = existsb has_return l.
Proof.
  induction l as [|day l IH] using rev_ind; [done|].
  rewrite bucket_of_snoc, existsb_app, <-IH. cbn [gd_known bucket_add existsb]. unfold has_return. by rewrite orb_false_r.
Qed.

Lemma bucket_flows l : gd_flows (bucket_of l) = l ≫= (λ day, omap effect_flow (AttributedEffects day)).
Proof.
  induction l as [|day l IH] using rev_ind; [done|].
  rewrite bucket_of_snoc, bind_app, <-IH. cbn [gd_flows bucket_add mbind list_bind]. by rewrite app_nil_r.
Qed.

Lemma sum_one (c : Q) (e : string) ds : NoDup ds → e ∈ ds → (sumQ (λ d, if bool_decide (e = d) then c else 0) ds == c)%Q.
Proof.
  induction 1 as [|d ds Hd _ IH]; intros He; [by apply elem_of_nil in He|]. rewrite sumQ_cons.
  apply elem_of_cons in He as [<-|He].
  - rewrite bool_decide_eq_true_2 by done. rewrite sumQ_zero; [ring|]. intros x Hx. by rewrite bool_decide_eq_false_2 by (intros ->; done).
  - rewrite IH by done. rewrite bool_decide_eq_false_2 by (intros ->; done). ring.
Qed.

(** A sum is the sum over the parts with the same label. *)
Lemma sum_parts (label : ComponentDay → string) (f : ComponentDay → Q) ds l : NoDup ds → (∀ day, day ∈ l → label day ∈ ds) →
  (sumQ (λ d, sumQ f (filter (λ day, label day = d) l)) ds == sumQ f l)%Q.
Proof.
  intros Hn. induction l as [|day l IH]; intros Hl.
  - clear. induction ds as [|d ds IH]; [reflexivity|]. rewrite sumQ_cons, IH. cbn. ring.
  - rewrite sumQ_cons, <-IH by (intros x Hx; apply Hl; by right).
    rewrite <-(sum_one (f day) (label day) ds Hn) by (apply Hl; by left).
    rewrite <-sumQ_plus. apply sumQ_ext. intros d _. rewrite filter_cons.
    case_decide; [rewrite bool_decide_eq_true_2, sumQ_cons by done; ring|rewrite bool_decide_eq_false_2 by done; ring].
Qed.

(** What the loop over the dates of a group adds up. *)
Lemma dates_totals location st g ds t0 t : foldM (group_date_step location st g) t0 ds = Ok t →
  let bk d := default new_group_day (buckets st !! (g, d)) in
  (dval (gt_amount t) == dval (gt_amount t0) + sumQ (λ d, dval (gd_amount (bk d))) ds)%Q ∧
  gt_known t = gt_known t0 || existsb (λ d, gd_known (bk d)) ds ∧
  gt_rates t = gt_rates t0 ++ omap (λ d, dated_rate location d (bk d)) ds ∧
  gt_complete t = gt_complete t0 + how_many (λ d, gd_complete (bk d)) ds ∧
  gt_usable t = gt_usable t0 + how_many (λ d, gd_usable (bk d)) ds.
Proof.
  intros H bk. revert t0 H. induction ds as [|d ds IH]; intros t0 H.
  - injection H as <-. cbn [omap list_omap existsb]. rewrite app_nil_r, orb_false_r. unfold how_many. cbn.
    split_and!; [ring|done|done|lia|lia].
  - cbn [foldM] in H. destruct (group_date_step location st g t0 d) as [t1|] eqn:E; [|done].
    destruct (IH t1 H) as (H1 & H2 & H3 & H4 & H5). unfold group_date_step in E. apply bind_Ok in E as (capital & Ec & [= <-]).
    cbn [gt_amount gt_known gt_rates gt_complete gt_usable] in *. fold (bk d) in *.
    assert (Hr : dated_rate location d (bk d) = rated (bk d) capital) by (unfold dated_rate; by rewrite Ec).
    rewrite H1, H2, H3, H4, H5, sumQ_cons, !how_many_cons, dAdd_val. cbn [existsb omap list_omap]. rewrite Hr. unfold rated.
    split_and!; [ring|by rewrite orb_assoc| |destruct (gd_complete (bk d)); lia|destruct (gd_usable (bk d)); lia].
    destruct (gd_complete (bk d) && dIsPositive capital); [by rewrite <-app_assoc|done].
Qed.

(** ** Equal values *)

Definition same (a b : Decimal) : Prop := (dval a == dval b)%Q.

Lemma same_positive a b : same a b → dIsPositive a = dIsPositive b.
Proof. intros H. apply eq_true_iff_eq. rewrite !dIsPositive_val. unfold same in H. by rewrite H. Qed.

Lemma same_div a b c d : same a c → same b d → ¬ (dval b == 0)%Q → same (dDiv a b) (dDiv c d).
Proof.
  unfold same. intros H1 H2 Hb. assert (¬ (dval d == 0)%Q) by by rewrite <-H2.
  rewrite !dDiv_divround by done. unfold dval. rewrite !dDivRound_coef, !dDivRound_expo by done. by rewrite H1, H2.
Qed.

Lemma rated_same complete amount capital b : complete = gd_complete b → same amount (gd_amount b) → same capital (capital_of b) →
  option_Forall2 same (if complete && dIsPositive capital then Some (dDiv amount capital) else None) (rated b (capital_of b)).
Proof.
  intros -> Ha Hc. unfold rated. rewrite (same_positive _ _ Hc). destruct (gd_complete b && dIsPositive (capital_of b)) eqn:E; constructor.
  apply andb_true_iff in E as [_ E]. apply dIsPositive_val in E. apply same_div; [done..|].
  unfold same in Hc. rewrite Hc. intros H. rewrite H in E. by apply Qlt_irrefl in E.
Qed.

Lemma same_link l k x y : Forall2 same l k → same x y → same (fold_left link_step l x) (fold_left link_step k y).
Proof.
  intros H. revert x y. induction H as [|a b l k Hab _ IH]; intros x y Hxy; cbn; [done|]. apply IH. unfold same, link_step in *.
  by rewrite !dMul_val, !dAdd_val, Hab, Hxy.
Qed.

Lemma same_geometric l k : Forall2 same l k → same (GeometricLink l) (GeometricLink k).
Proof.
  intros H. pose proof (same_link l k dOne dOne H ltac:(unfold same; reflexivity)) as Hl. unfold same, GeometricLink in *.
  by rewrite !dSub_val, Hl.
Qed.

(** ** One group of the fold over days in order *)

Definition rates_of (bs : list groupDay) : list Decimal := omap (λ b, rated b (capital_of b)) bs.

(** What group [g] holds when its days so far are [m] and the date in progress is [cur]. *)
Record rep (g cur : string) (m : list ComponentDay) (s : groupState) : Prop := {
  rep_key : gs_key s = g;
  rep_split : m = off_date cur m ++ on_date cur m;
  rep_amount : (dval (returnAmount s) == sumQ return_of m)%Q;
  rep_known : amountKnown s = existsb has_return m;
  rep_rates : Forall2 same (gs_rates s) (rates_of (buckets_of (off_date cur m)));
  rep_complete : completeDays s = how_many gd_complete (buckets_of (off_date cur m));
  rep_usable : usableDays s = how_many gd_usable (buckets_of (off_date cur m));
  rep_shut : on_date cur m = [] → gs_currentDate s = ""%string;
  rep_open : on_date cur m ≠ [] → gs_currentDate s = cur ∧ currentComplete s = gd_complete (bucket_of (on_date cur m));
  rep_current : same (currentAmount s) (gd_amount (bucket_of (on_date cur m)));
  rep_beginning : same (currentBeginning s) (gd_beginning (bucket_of (on_date cur m)));
  rep_legacy : same (currentLegacy s) (gd_legacy (bucket_of (on_date cur m)));
  rep_seen : currentUsable s = gd_usable (bucket_of (on_date cur m)) }.

Lemma off_all d m : d ∉ dates m → off_date d m = m ∧ on_date d m = [].
Proof.
  intros Hd. split; [|by apply on_date_nil]. apply filter_every, Forall_forall. intros day Hin E.
  apply Hd, elem_of_dates. by exists day.
Qed.

Lemma same_zero : same dZero dUnset.
Proof. unfold same, dUnset. rewrite dval_dzero, dval_new. reflexivity. Qed.

Lemma rep_new g cur : rep g cur [] (new_group g).
Proof. split; try done; try (unfold same; reflexivity). cbn. unfold dUnset. rewrite dval_new. reflexivity. Qed.

Lemma rep_idle g cur d m s : rep g cur m s → on_date cur m = [] → d ∉ dates m → rep g d m s.
Proof.
  intros [] Hc Hd. destruct (off_all d m Hd) as [H1 H2]. assert (H3 : off_date cur m = m) by (apply off_all; by apply on_date_nil).
  rewrite Hc, H3 in *. by split; rewrite ?H1, ?H2; auto.
Qed.

Lemma rep_close g cur d m s : rep g cur m s → on_date cur m ≠ [] → d ∉ dates m → rep g d m (close_date s).
Proof.
  intros [Hkey Hsplit Hamt Hknown Hrates Hcomp Huse _ Hopen Hcur Hbeg Hleg Hseen] Hc Hd.
  destruct (off_all d m Hd) as [H1 H2]. destruct (Hopen Hc) as [_ Hcc].
  assert (Hb : buckets_of m = buckets_of (off_date cur m) ++ [bucket_of (on_date cur m)]).
  { rewrite Hsplit at 1. apply (buckets_of_snoc _ _ cur); [|done|apply Forall_forall; intros day Hin; apply list_elem_of_filter in Hin; tauto].
    rewrite elem_of_dates. intros (day & Hin & E). by apply list_elem_of_filter in Hin as [Hne _]. }
  split; cbn [gs_key returnAmount amountKnown gs_rates gs_currentDate currentAmount currentBeginning currentLegacy currentComplete
    currentUsable completeDays usableDays close_date]; rewrite ?H1, ?H2, ?app_nil_r; try done.
  - rewrite Hb. unfold rates_of in *. rewrite omap_app. cbn [omap list_omap].
    pose proof (rated_same (currentComplete s) (currentAmount s) (dAdd (currentBeginning s) (currentLegacy s)) (bucket_of (on_date cur m)) Hcc Hcur) as Hr.
    assert (Hs : same (dAdd (currentBeginning s) (currentLegacy s)) (capital_of (bucket_of (on_date cur m)))).
    { unfold same, capital_of in *. by rewrite !dAdd_val, Hbeg, Hleg. }
    specialize (Hr Hs). destruct (currentComplete s && _), (rated _ _); inversion Hr; subst; [|by rewrite app_nil_r].
    apply Forall2_app; [done|by repeat constructor].
  - rewrite Hb, how_many_app, <-Hcomp, Hcc. unfold how_many. cbn. destruct (gd_complete _); cbn; lia.
  - rewrite Hb, how_many_app, <-Huse, Hseen. unfold how_many. cbn. destruct (gd_usable _); cbn; lia.
  - apply same_zero.
  - apply same_zero.
  - apply same_zero.
Qed.

(** The group before it adds a day of date [cur]. *)
Definition group_ready (cur : string) (s : groupState) : groupState :=
  if bool_decide (gs_currentDate s = cur) then s else group_open cur s.

Lemma rep_add g cur m s day : rep g cur m s → cur ≠ ""%string → cd_Date day = cur → rep g cur (m ++ [day]) (group_add day (group_ready cur s)).
Proof.
  intros [Hkey Hsplit Hamt Hknown Hrates Hcomp Huse Hshut Hopen Hcur Hbeg Hleg Hseen] Hne Ed.
  assert (Hon : on_date cur (m ++ [day]) = on_date cur m ++ [day]) by (by rewrite on_date_snoc, bool_decide_eq_true_2).
  assert (Hoff : off_date cur (m ++ [day]) = off_date cur m) by (by rewrite off_date_snoc, bool_decide_eq_true_2).
  assert (Hready : gs_currentDate (group_ready cur s) = cur ∧ currentComplete (group_ready cur s) = gd_complete (bucket_of (on_date cur m)) ∧
    ∀ {A} (f : groupState → A), (∀ s', f (group_open cur s') = f s') → f (group_ready cur s) = f s).
  { unfold group_ready. case_bool_decide as Eb.
    - split; [done|]. split; [|done]. destruct (on_date cur m) eqn:E; [|by apply Hopen]. by rewrite Hshut in Eb by done.
    - split; [done|]. split; [|intros A f Hf; apply Hf]. destruct (on_date cur m) eqn:E; [done|]. exfalso. by apply Eb, Hopen. }
  destruct Hready as (Hd & Hc & Hf).
  split; cbn [gs_key returnAmount amountKnown gs_rates gs_currentDate currentAmount currentBeginning currentLegacy currentComplete
    currentUsable completeDays usableDays group_add]; rewrite ?Hon, ?Hoff, ?bucket_of_snoc;
    rewrite ?(Hf _ gs_key), ?(Hf _ returnAmount), ?(Hf _ amountKnown), ?(Hf _ gs_rates), ?(Hf _ completeDays), ?(Hf _ usableDays),
      ?(Hf _ currentAmount), ?(Hf _ currentBeginning), ?(Hf _ currentLegacy), ?(Hf _ currentUsable), ?Hd, ?Hc by done; try done.
  - by rewrite Hsplit at 1; rewrite <-app_assoc.
  - rewrite sumQ_app, <-Hamt, sumQ_cons. cbn [sumQ foldr]. unfold return_of. destruct (cd_ReturnAmount day); [rewrite dAdd_val|]; ring.
  - rewrite existsb_app, <-Hknown. cbn [existsb]. by rewrite orb_false_r.
  - by destruct (on_date cur m).
  - unfold same in *. cbn [gd_amount bucket_add]. destruct (cd_ReturnAmount day); [by rewrite !dAdd_val, Hcur|done].
  - unfold same in *. cbn [gd_beginning bucket_add]. destruct (legacy_capital day); [done|by rewrite !dAdd_val, Hbeg].
  - unfold same in *. cbn [gd_legacy bucket_add]. destruct (legacy_capital day); [by rewrite !dAdd_val, Hleg|done].
  - cbn [gd_usable bucket_add]. by rewrite Hseen.
Qed.

(** ** All groups of the fold over days in order *)

Record tracking (cur : string) (l : list ComponentDay) (st : chronoState) : Prop := {
  tk_groups i s : groups st !! i = Some s → rep (gs_key s) cur (mine (gs_key s) l) s;
  tk_index g i : groupIndexes st !! g = Some i ↔ gs_key <$> groups st !! i = Some g;
  tk_all g : mine g l ≠ [] → is_Some (groupIndexes st !! g);
  tk_NoDup : NoDup (active st);
  tk_active i : i ∈ active st ↔ ∃ s, groups st !! i = Some s ∧ on_date cur (mine (gs_key s) l) ≠ [] }.

Lemma lookup_close (act : list nat) (gs : list groupState) (i : nat) : NoDup act →
  fold_left (λ gs i, alter close_date i gs) act gs !! i = (if bool_decide (i ∈ act) then close_date <$> gs !! i else gs !! i).
Proof.
  intros Hn. revert gs. induction Hn as [|j act Hj _ IH]; intros gs; cbn [fold_left].
  { by rewrite bool_decide_eq_false_2 by apply not_elem_of_nil. }
  rewrite IH. destruct (decide (i = j)) as [->|Hne].
  - rewrite bool_decide_eq_false_2 by done. rewrite bool_decide_eq_true_2 by by left. apply list_lookup_alter_eq.
  - rewrite list_lookup_alter_ne by done.
    assert (bool_decide (i ∈ j :: act) = bool_decide (i ∈ act)) as ->; [|done].
    apply bool_decide_ext. rewrite elem_of_cons. tauto.
Qed.

Lemma not_seen d g l : (∀ day, day ∈ l → eligible result day = true → cd_Date day ≠ d) → d ∉ dates (mine g l).
Proof. intros H Hin. apply elem_of_dates in Hin as (day & Hd & E). apply list_elem_of_filter in Hd as [[He _] Hd]. by apply (H day). Qed.

Lemma tracking_finalize cur d l st : tracking cur l st → (∀ day, day ∈ l → eligible result day = true → cd_Date day ≠ d) →
  tracking d l (finalizeDate st).
Proof.
  intros [Hg Hi Ha Hn Hact] Hd.
  assert (Hkey : ∀ i, gs_key <$> groups (finalizeDate st) !! i = gs_key <$> groups st !! i).
  { intros i. cbn [groups finalizeDate]. rewrite lookup_close by done. case_bool_decide; [|done]. by destruct (groups st !! i). }
  split; cbn [groupIndexes active finalizeDate]; [|intros g i; by rewrite Hkey|done|constructor|].
  - intros i s. cbn [groups finalizeDate]. rewrite lookup_close by done. case_bool_decide as Hin.
    + intros Hs. destruct (groups st !! i) as [s0|] eqn:E; [|done]. injection Hs as <-.
      apply Hact in Hin as (s1 & Es1 & Hon). rewrite E in Es1. injection Es1 as <-. cbn [gs_key close_date].
      apply (rep_close _ cur); [by apply (Hg i)|done|by apply not_seen].
    + intros Hs. apply (rep_idle _ cur); [by apply (Hg i)| |by apply not_seen].
      destruct (on_date cur (mine (gs_key s) l)) eqn:E; [done|]. exfalso. apply Hin, Hact. exists s. by rewrite E.
  - intros i. split; [intros Hf; by apply elem_of_nil in Hf|]. intros (s & _ & Hon). exfalso. apply Hon, on_date_nil. by apply not_seen.
Qed.

Lemma tracking_new d l st g : tracking d l st → groupIndexes st !! g = None →
  tracking d l (mkChrono (groups st ++ [new_group g]) (<[g := List.length (groups st)]> (groupIndexes st)) (active st) (currentDate st)).
Proof.
  intros [Hg Hi Ha Hn Hact] Hnone.
  assert (Hm : mine g l = []).
  { destruct (mine g l) eqn:E; [done|]. exfalso. destruct (Ha g) as [i Hsome]; [by rewrite E|]. congruence. }
  split; cbn [groups groupIndexes active]; [| | |done|].
  - intros i s Hs. apply lookup_app_Some in Hs as [Hs|[_ Hs]]; [by apply (Hg i)|].
    apply list_lookup_singleton_Some in Hs as [_ <-]. cbn [gs_key new_group]. rewrite Hm. apply rep_new.
  - intros g' i. destruct (decide (g' = g)) as [->|Hne].
    + rewrite lookup_insert_eq. split.
      * intros [= <-]. rewrite lookup_app_r, Nat.sub_diag by lia. done.
      * intros Hs. destruct (groups st !! i) as [s|] eqn:Es.
        -- rewrite (lookup_app_l_Some _ _ _ _ Es) in Hs. exfalso. assert (groupIndexes st !! g = Some i); [|congruence].
           apply Hi. by rewrite Es.
        -- apply lookup_ge_None in Es. rewrite lookup_app_r in Hs by done.
           destruct (i - List.length (groups st))%nat eqn:Ei; [f_equal; lia|done].
    + rewrite lookup_insert_ne, Hi by done. destruct (groups st !! i) as [s|] eqn:Es.
      * by rewrite (lookup_app_l_Some _ _ _ _ Es).
      * apply lookup_ge_None in Es. rewrite lookup_app_r by done.
        destruct (i - List.length (groups st))%nat; [|done]. cbn. split; [done|]. intros [= E]. by destruct Hne.
  - intros g' Hg'. destruct (decide (g' = g)) as [->|Hne]; [rewrite lookup_insert_eq; by eexists|].
    rewrite lookup_insert_ne by done. by apply Ha.
  - intros i. rewrite Hact. split.
    + intros (s & Hs & Hon). exists s. split; [by apply lookup_app_l_Some|done].
    + intros (s & Hs & Hon). apply lookup_app_Some in Hs as [Hs|[_ Hs]]; [by exists s|].
      apply list_lookup_singleton_Some in Hs as [_ <-]. cbn [gs_key new_group] in Hon. by rewrite Hm in Hon.
Qed.

Definition push (day : ComponentDay) (i : nat) (fresh : bool) (st : chronoState) : chronoState :=
  mkChrono (alter (group_add day) i (if fresh then alter (group_open (cd_Date day)) i (groups st) else groups st)) (groupIndexes st)
    (if fresh then active st ++ [i] else active st) (cd_Date day).

Lemma tracking_push l st day i s : tracking (cd_Date day) l st → groups st !! i = Some s → gs_key s = key_of day →
  eligible result day = true → cd_Date day ≠ ""%string →
  tracking (cd_Date day) (l ++ [day]) (push day i (negb (bool_decide (gs_currentDate s = cd_Date day))) st).
Proof.
  intros [Hg Hi Ha Hn Hact] Hs Hk He Hd. set (d := cd_Date day) in *.
  set (fresh := negb (bool_decide (gs_currentDate s = d))).
  assert (Hfresh : fresh = bool_decide (on_date d (mine (key_of day) l) = [])).
  { pose proof (Hg i s Hs) as [_ _ _ _ _ _ _ Hshut Hopen _ _ _ _]. rewrite Hk in *. unfold fresh.
    destruct (bool_decide_reflect (on_date d (mine (key_of day) l) = [])) as [E|E].
    - rewrite Hshut, bool_decide_eq_false_2; [done|congruence|done].
    - by rewrite (proj1 (Hopen E)), bool_decide_eq_true_2. }
  assert (Hlook : ∀ j, groups (push day i fresh st) !! j = if bool_decide (j = i) then Some (group_add day (group_ready d s)) else groups st !! j).
  { intros j. cbn [groups push]. destruct (bool_decide_reflect (j = i)) as [->|Ej].
    - rewrite list_lookup_alter_eq. unfold group_ready. subst fresh. destruct (bool_decide (gs_currentDate s = d)); cbn [negb].
      + by rewrite Hs.
      + rewrite list_lookup_alter_eq, Hs. done.
    - rewrite list_lookup_alter_ne by done. destruct fresh; [by rewrite list_lookup_alter_ne|done]. }
  assert (Hkeys : gs_key (group_add day (group_ready d s)) = key_of day).
  { cbn [gs_key group_add]. unfold group_ready. by destruct (bool_decide _). }
  assert (Hinj : ∀ j s', groups st !! j = Some s' → gs_key s' = key_of day → j = i).
  { intros j s' Hj Hj'. assert (Some j = Some i) as [= ->]; [|done].
    rewrite <-(proj2 (Hi (key_of day) j)) by by rewrite Hj, <-Hj'. apply Hi. by rewrite Hs, <-Hk. }
  assert (Hmine : ∀ g, mine g (l ++ [day]) = if bool_decide (key_of day = g) then mine g l ++ [day] else mine g l).
  { intros g. by rewrite mine_snoc, He. }
  split.
  - intros j s'. rewrite Hlook. destruct (bool_decide_reflect (j = i)) as [->|Ej].
    + intros [= <-]. rewrite Hkeys, Hmine, bool_decide_eq_true_2 by done. apply rep_add; [|done|done]. rewrite <-Hk. by apply (Hg i).
    + intros Hj. rewrite Hmine, bool_decide_eq_false_2; [by apply (Hg j)|]. intros E. by apply Ej, (Hinj j s').
  - intros g j. cbn [groupIndexes push]. rewrite Hi, Hlook. destruct (bool_decide_reflect (j = i)) as [->|]; [|done]. rewrite Hs.
    assert (gs_key <$> Some s = gs_key <$> Some (group_add day (group_ready d s))) as ->; [|done].
    apply (f_equal Some). by rewrite Hkeys.
  - intros g. rewrite Hmine. cbn [groupIndexes push]. destruct (bool_decide_reflect (key_of day = g)) as [<-|]; [|apply Ha]. intros _.
    exists i. apply Hi. by rewrite Hs, <-Hk.
  - cbn [active push]. rewrite Hfresh. destruct (bool_decide_reflect (on_date d (mine (key_of day) l) = [])) as [Eo|]; [|done]. apply NoDup_app. split; [done|]. split; [|apply NoDup_singleton].
    intros j Hj Hj'. apply list_elem_of_singleton in Hj' as ->. apply Hact in Hj as (s' & Hs' & Hon). rewrite Hs in Hs'. injection Hs' as <-.
    by rewrite Hk in Hon.
  - intros j. cbn [active push]. rewrite Hlook.
    destruct (decide (j = i)) as [->|Hne].
    + rewrite bool_decide_eq_true_2 by done. split; [intros _|intros _].
      * exists (group_add day (group_ready d s)). split; [done|]. rewrite Hkeys, Hmine, bool_decide_eq_true_2 by done.
        rewrite on_date_snoc, bool_decide_eq_true_2 by done. by destruct (on_date d _).
      * rewrite Hfresh. destruct (bool_decide_reflect (on_date d (mine (key_of day) l) = [])) as [Eo|Eo]; [rewrite elem_of_app, list_elem_of_singleton; by right|].
        apply Hact. exists s. by rewrite Hk.
    + rewrite bool_decide_eq_false_2 by done.
      assert (j ∈ (if fresh then active st ++ [i] else active st) ↔ j ∈ active st) as ->.
      { destruct fresh; [|done]. rewrite elem_of_app, list_elem_of_singleton. tauto. }
      assert (Hm' : ∀ s', groups st !! j = Some s' → mine (gs_key s') (l ++ [day]) = mine (gs_key s') l).
      { intros s' Hs'. rewrite Hmine, bool_decide_eq_false_2; [done|]. intros E. by apply Hne, (Hinj j s'). }
      rewrite Hact. split; intros (s' & Hs' & Hon); exists s'; (split; [done|]); by rewrite (Hm' s' Hs') in *.
Qed.

Record walked (cur : string) (l : list ComponentDay) (st : chronoState) : Prop := {
  wk_tracking : tracking cur l st;
  wk_current : currentDate st = cur;
  wk_idle i s : groups st !! i = Some s → mine (gs_key s) l ≠ [];
  wk_ahead day : day ∈ l → eligible result day = true → in_order String.compare (cd_Date day) cur;
  wk_blank : cur = ""%string → ∀ day, day ∈ l → eligible result day = false;
  wk_sorted g : StronglySorted (in_order String.compare) (dates (mine g l));
  wk_flows day : day ∈ l → eligible result day = true → has_flow day = false }.

Lemma in_order_refl s : in_order String.compare s s.
Proof. unfold in_order. by rewrite cmp_refl by tc_solve. Qed.

Lemma in_order_antisym s t : in_order String.compare s t → in_order String.compare t s → s = t.
Proof.
  unfold in_order. rewrite (cmp_antisym (cmp := String.compare) s t). destruct (String.compare s t) eqn:E; try done.
  intros _ _. by apply string_compare_eq.
Qed.

Lemma walked_nil : walked "" [] (mkChrono [] ∅ [] "").
Proof.
  assert (Hno : ∀ day : ComponentDay, day ∈ [] → False) by (intros day H; by apply elem_of_nil in H).
  split; [|done|done|intros day H; by apply Hno in H|intros _ day H; by apply Hno in H|intros g; constructor|intros day H; by apply Hno in H].
  split; cbn [groups groupIndexes active]; [done|intros g i; by rewrite lookup_empty|done|constructor|].
  intros i. split; [intros H; by apply elem_of_nil in H|]. by intros (s & Hs & _).
Qed.

(** The groups are brought to the date of the next day. *)
Lemma walked_turn cur l st d : walked cur l st → in_order String.compare cur d →
  tracking d l (if negb (bool_decide (currentDate st = ""%string)) && negb (bool_decide (d = currentDate st)) then finalizeDate st else st).
Proof.
  intros [Ht Hc Hidle Hahead Hblank _ _] Hd. rewrite Hc. destruct (bool_decide_reflect (cur = ""%string)) as [E|E]; cbn [negb andb].
  - destruct Ht as [Hg Hi Ha Hn Hact]. assert (Hnone : ∀ i s, groups st !! i = Some s → False).
    { intros i s Hs. apply (Hidle i s Hs). apply filter_none, Forall_forall. intros day Hin [He _]. rewrite (Hblank E day Hin) in He. done. }
    split; [intros i s Hs; by apply Hnone in Hs|done|done|done|]. intros i. rewrite Hact.
    split; intros (s & Hs & _); by apply Hnone in Hs.
  - destruct (bool_decide_reflect (d = cur)) as [->|Hne]; [done|]. apply (tracking_finalize cur); [done|].
    intros day Hin He <-. apply Hne, in_order_antisym; [by apply Hahead|done].
Qed.

Lemma walked_step cur l st day : walked cur l st → eligible result day = true → in_order String.compare cur (cd_Date day) →
  cd_Date day ≠ ""%string → has_flow day = false →
  match chrono_step result by_ st day with
  | Ok st' => walked (cd_Date day) (l ++ [day]) st' ∧ bad day = false
  | Fail e => e = unsupported_group ∧ bad day = true
  end.
Proof.
  intros Hw He Hd Hne Hf. pose proof (walked_turn cur l st (cd_Date day) Hw Hd) as Ht. unfold chrono_step, bad. rewrite He. cbn [negb andb].
  fold (key_of day). set (st1 := if _ && _ then finalizeDate st else st) in *.
  destruct (bool_decide_reflect (key_of day = ""%string)) as [|Hk]; [done|].
  assert (Hidle1 : ∀ i s, groups st1 !! i = Some s → mine (gs_key s) (l ++ [day]) ≠ []).
  { intros i s Hs. assert (mine (gs_key s) l ≠ []) as Hm.
    { subst st1. destruct (_ && _); [|by apply (wk_idle _ _ _ Hw i)]. cbn [groups finalizeDate] in Hs.
      rewrite lookup_close in Hs by apply (tk_NoDup _ _ _ (wk_tracking _ _ _ Hw)).
      destruct (bool_decide (i ∈ active st)); [|by apply (wk_idle _ _ _ Hw i)].
      destruct (groups st !! i) as [s0|] eqn:E; [|done]. injection Hs as <-. exact (wk_idle _ _ _ Hw i s0 E). }
    rewrite mine_app. by destruct (mine (gs_key s) l). }
  assert (Hdone : ∀ st2 i s, tracking (cd_Date day) l st2 → groups st2 !! i = Some s → gs_key s = key_of day →
    (∀ j s', groups st2 !! j = Some s' → mine (gs_key s') (l ++ [day]) ≠ []) →
    walked (cd_Date day) (l ++ [day]) (push day i (negb (bool_decide (gs_currentDate s = cd_Date day))) st2)).
  { intros st2 i s Ht2 Hs Hks Hidle. pose proof (tracking_push l st2 day i s Ht2 Hs Hks He Hne) as Hp.
    split; [exact Hp|done|..].
    - intros j s' Hj. set (fresh := negb _) in *.
      assert (gs_key <$> groups st2 !! j = Some (gs_key s')) as Hj'.
      { rewrite <-(tk_index _ _ _ Ht2). change (groupIndexes st2) with (groupIndexes (push day i fresh st2)).
        apply (tk_index _ _ _ Hp). by rewrite Hj. }
      apply fmap_Some in Hj' as (s0 & Hs0 & ->). by apply (Hidle j).
    - intros x Hx Hex. apply elem_of_app in Hx as [Hx|Hx].
      + by apply (in_order_trans String.compare _ cur); [apply (wk_ahead _ _ _ Hw)|].
      + apply list_elem_of_singleton in Hx as ->. apply in_order_refl.
    - intros E. by rewrite E in Hne.
    - intros g. rewrite mine_snoc, He. cbn [andb]. destruct (bool_decide (key_of day = g)); [|apply (wk_sorted _ _ _ Hw)].
      rewrite dates_snoc. unfold seen_date. destruct (bool_decide (cd_Date day ∈ dates (mine g l))); [apply (wk_sorted _ _ _ Hw)|].
      apply sorted_snoc; [apply (wk_sorted _ _ _ Hw)|]. intros p Hp'. apply last_Some_elem_of in Hp'.
      apply elem_of_dates in Hp' as (x & Hx & <-). apply list_elem_of_filter in Hx as [[Hex _] Hx].
      by apply (in_order_trans String.compare _ cur); [apply (wk_ahead _ _ _ Hw)|].
    - intros x Hx Hex. apply elem_of_app in Hx as [Hx|Hx]; [by apply (wk_flows _ _ _ Hw)|]. by apply list_elem_of_singleton in Hx as ->. }
  destruct (groupIndexes st1 !! key_of day) as [i|] eqn:Ei.
  - pose proof (proj1 (tk_index _ _ _ Ht _ _) Ei) as Hs. apply fmap_Some in Hs as (s & Hs & Hks). rewrite Hs.
    split; [by apply Hdone|done].
  - pose proof (tracking_new (cd_Date day) l st1 (key_of day) Ht Ei) as Hn.
    rewrite lookup_app_r, Nat.sub_diag by lia. cbn [lookup list_lookup]. split; [|done].
    apply (Hdone _ (List.length (groups st1)) (new_group (key_of day)) Hn); cbn [groups]; [by rewrite lookup_app_r, Nat.sub_diag by lia|done|].
    intros j s' Hj. apply lookup_app_Some in Hj as [Hj|[_ Hj]]; [by apply (Hidle1 j)|]. apply list_lookup_singleton_Some in Hj as [_ <-].
    cbn [gs_key new_group]. rewrite mine_snoc, He, bool_decide_eq_true_2 by done. by destruct (mine _ l).
Qed.

(** Every day that takes part has a date. *)
Definition dated (l : list ComponentDay) : Prop := ∀ day, day ∈ l → eligible result day = true → cd_Date day ≠ ""%string.

Lemma walk l : dated l → match fold_left (chronological_step result) l (Some ""%string) with
  | None => True
  | Some cur => match foldM (chrono_step result by_) (mkChrono [] ∅ [] "") l with
    | Ok st => walked cur l st ∧ existsb bad l = false
    | Fail e => e = unsupported_group ∧ existsb bad l = true
    end
  end.
Proof.
  induction l as [|day l IH] using rev_ind; intros Hd; [split; [apply walked_nil|done]|].
  rewrite fold_left_app, foldM_app, existsb_app. cbn [fold_left existsb]. rewrite orb_false_r.
  assert (Hdl : dated l) by (intros x Hx; apply Hd; rewrite elem_of_app; by left). specialize (IH Hdl).
  destruct (fold_left _ l _) as [cur|]; [|done]. cbn [chronological_step].
  destruct (eligible result day) eqn:He; cbn [negb].
  - destruct (negb (bool_decide (cur = ""%string)) && String.ltb (cd_Date day) cur) eqn:Eo; [done|]. destruct (has_flow day) eqn:Ef; [done|].
    destruct (foldM _ _ l) as [st|e]; [|by destruct IH as [-> ->]]. destruct IH as [Hw ->]. cbn [orb foldM].
    assert (Hin : in_order String.compare cur (cd_Date day)).
    { apply in_order_string. destruct (bool_decide_reflect (cur = ""%string)) as [->|]; [|done]. by destruct (cd_Date day). }
    pose proof (walked_step cur l st day Hw He Hin (Hd day ltac:(rewrite elem_of_app, list_elem_of_singleton; by right) He) Ef) as Hs.
    by destruct (chrono_step result by_ st day).
  - destruct (foldM _ _ l) as [st|e]; [|by destruct IH as [-> ->]]. destruct IH as [Hw ->]. cbn [orb foldM].
    unfold chrono_step. rewrite He. cbn [negb]. unfold bad. rewrite He. cbn [andb]. split; [|done].
    assert (Hm : ∀ g, mine g (l ++ [day]) = mine g l) by (intros g; by rewrite mine_snoc, He).
    destruct Hw as [[Hg Hi Ha Hn Hact] Hc Hidle Hahead Hblank Hsort Hflow]. split; [split; [| |intros g| |]| | | | | |]; try done.
    + intros i s Hs. rewrite Hm. by apply (Hg i).
    + rewrite Hm. apply Ha.
    + intros i. rewrite Hact. by setoid_rewrite Hm.
    + intros i s Hs. rewrite Hm. by apply (Hidle i).
    + intros x Hx Hex. apply elem_of_app in Hx as [Hx|Hx]; [by apply Hahead|]. apply list_elem_of_singleton in Hx as ->. congruence.
    + intros E x Hx. apply elem_of_app in Hx as [Hx|Hx]; [by apply Hblank|]. by apply list_elem_of_singleton in Hx as ->.
    + intros g. by rewrite Hm.
    + intros x Hx Hex. apply elem_of_app in Hx as [Hx|Hx]; [by apply Hflow|]. apply list_elem_of_singleton in Hx as ->. congruence.
Qed.

(** ** Both folds give the same rows *)

(** Two rows are the same up to the representation of their decimals. *)
Definition same_row (a b : ReturnGroup) : Prop :=
  rg_Key a = rg_Key b ∧ same (rg_ReturnAmount a) (rg_ReturnAmount b) ∧ AmountKnown a = AmountKnown b ∧
  option_Forall2 same (rg_ReturnRate a) (rg_ReturnRate b) ∧ rg_Coverage a = rg_Coverage b ∧ rg_Status a = rg_Status b.

Lemma same_group_row g x y known rates rates' complete usable total : same x y → Forall2 same rates rates' →
  same_row (group_row g x known rates complete usable total) (group_row g y known rates' complete usable total).
Proof.
  intros Hx Hr. unfold group_row. rewrite (Forall2_length _ _ _ Hr). split_and!; try done. cbn [rg_ReturnRate].
  destruct (_ && _); constructor. by apply same_geometric.
Qed.

Lemma no_flow day : has_flow day = false → omap effect_flow (AttributedEffects day) = [].
Proof.
  unfold has_flow. induction (AttributedEffects day) as [|e l IH]; [done|]. cbn [existsb omap list_omap].
  intros H. apply orb_false_iff in H as [H1 H2]. unfold effect_flow at 1. destruct (ae_PotentialFlow e); [done|].
  destruct (ae_Flow e); [done|]. by apply IH.
Qed.

Lemma existsb_eq {A B} (f : A → bool) (g : B → bool) l k :
  (∀ x, x ∈ l → f x = true → ∃ y, y ∈ k ∧ g y = true) → (∀ y, y ∈ k → g y = true → ∃ x, x ∈ l ∧ f x = true) → existsb f l = existsb g k.
Proof.
  intros H1 H2. apply eq_true_iff_eq. rewrite !existsb_exists. setoid_rewrite <-list_elem_of_In. split.
  - intros (x & Hx & Hf). by apply (H1 x).
  - intros (y & Hy & Hg). by apply (H2 y).
Qed.

Lemma known_dates m : existsb (λ d, gd_known (bucket_of (on_date d m))) (dates m) = existsb has_return m.
Proof.
  apply existsb_eq.
  - intros d _. rewrite bucket_known, existsb_exists. setoid_rewrite <-list_elem_of_In. intros (day & Hin & Hr).
    apply list_elem_of_filter in Hin as [_ Hin]. by exists day.
  - intros day Hin Hr. exists (cd_Date day). split; [apply elem_of_dates; by exists day|].
    rewrite bucket_known, existsb_exists. exists day. split; [|done]. apply list_elem_of_In, list_elem_of_filter. done.
Qed.

Lemma amount_dates m : (sumQ (λ d, dval (gd_amount (bucket_of (on_date d m)))) (dates m) == sumQ return_of m)%Q.
Proof.
  rewrite <-(sum_parts cd_Date return_of (dates m) m (NoDup_dates m)).
  - apply sumQ_ext. intros d _. apply bucket_amount.
  - intros day Hin. apply elem_of_dates. by exists day.
Qed.

(** The dates of a group, sorted or known to be in order. *)
Definition sorted_dates (g : string) : list string := stable_sort String.ltb (dates (mine g (pr_Days result))).

Lemma string_sort_eq l k : l ≡ₚ k → StronglySorted (in_order String.compare) k → stable_sort String.ltb l = k.
Proof.
  intros Hp Hk. apply (sorted_perm_eq String.compare); [|apply (stable_sort_sorted String.compare); apply ltb_compare|done|by rewrite stable_sort_perm].
  intros x y _ _. apply string_compare_eq.
Qed.

Lemma group_dates st g : tabled (pr_Days result) st →
  (if ordered_of st g then dates_of st g else stable_sort String.ltb (dates_of st g)) = sorted_dates g.
Proof.
  intros Ht. rewrite (tabled_dates _ _ _ Ht). unfold sorted_dates. destruct (ordered_of st g) eqn:E; [|done].
  symmetry. apply string_sort_eq; [done|]. by apply (tb_ordered _ _ Ht).
Qed.

(** The row of a group in the table. *)
Lemma fold_group_row location st total g row : tabled (pr_Days result) st → fold_group location st total g = Ok row →
  let m := mine g (pr_Days result) in
  ∃ amount, (dval amount == sumQ return_of m)%Q ∧
    row = group_row g amount (existsb has_return m)
      (omap (λ d, dated_rate location d (bucket_of (on_date d m))) (sorted_dates g))
      (how_many (λ d, gd_complete (bucket_of (on_date d m))) (sorted_dates g))
      (how_many (λ d, gd_usable (bucket_of (on_date d m))) (sorted_dates g)) total.
Proof.
  intros Ht H m. unfold fold_group in H. rewrite (group_dates st g Ht) in H. apply bind_Ok in H as (t & Hf & [= <-]).
  apply dates_totals in Hf. cbn [gt_amount gt_known gt_rates gt_complete gt_usable] in Hf.
  assert (Hbk : ∀ d, default new_group_day (buckets st !! (g, d)) = bucket_of (on_date d m)) by (intros d; apply (tabled_bucket _ _ _ _ Ht)).
  assert (Hp : sorted_dates g ≡ₚ dates m) by apply stable_sort_perm.
  destruct Hf as (H1 & H2 & H3 & H4 & H5). exists (gt_amount t). split.
  - rewrite H1, (sumQ_perm _ _ _ Hp). unfold dUnset. rewrite dval_new. change (inject_Z 0) with 0%Q. rewrite <-(amount_dates m).
    assert (∀ x y : Q, (x == y)%Q → (0 * p10 0 + x == y)%Q) as Hq by (intros x y ->; ring).
    apply Hq, sumQ_ext. intros d _. by rewrite Hbk.
  - assert (Hk : gt_known t = existsb has_return m).
    { rewrite H2, <-known_dates. cbn [orb]. apply existsb_eq; intros d Hd Hkn; exists d; [rewrite <-Hp, <-Hbk|rewrite Hp, Hbk]; done. }
    assert (Hh : ∀ f : groupDay → bool, how_many (λ d, f (default new_group_day (buckets st !! (g, d)))) (sorted_dates g) =
      how_many (λ d, f (bucket_of (on_date d m))) (sorted_dates g)).
    { intros f. unfold how_many. do 2 f_equal. apply List.filter_ext. intros d. by rewrite Hbk. }
    rewrite Hk, H3, H4, H5, !Hh, !Z.add_0_l. cbn [app]. f_equal. apply list_omap_ext.
    apply Forall_Forall2_diag, Forall_forall. intros d _. by rewrite Hbk.
Qed.

Definition flowless : Prop := ∀ day, day ∈ pr_Days result → eligible result day = true → has_flow day = false.

Lemma flowless_bucket g d : flowless → gd_flows (bucket_of (on_date d (mine g (pr_Days result)))) = [].
Proof.
  intros Hf. rewrite bucket_flows.
  assert (Hall : ∀ day, day ∈ on_date d (mine g (pr_Days result)) → omap effect_flow (AttributedEffects day) = []).
  { intros day Hd. apply list_elem_of_filter in Hd as [_ Hd]. apply list_elem_of_filter in Hd as [[He _] Hd]. by apply no_flow, Hf. }
  induction (on_date d _) as [|day k IH]; [done|]. cbn [mbind list_bind]. rewrite Hall by by left.
  apply IH. intros x Hx. apply Hall. by right.
Qed.

(** Without flows every group has a row, and its rates are those of its buckets. *)
Lemma fold_group_total st total g : tabled (pr_Days result) st → flowless → is_ok (fold_group None st total g) = true.
Proof.
  intros Ht Hf. unfold fold_group. rewrite (group_dates st g Ht).
  enough (∀ ds t0, ∃ t, foldM (group_date_step None st g) t0 ds = Ok t) as Hgen.
  { by destruct (Hgen (sorted_dates g) (mkGroupTotals dUnset false [] 0 0)) as [t ->]. }
  induction ds as [|d ds IH]; intros t0; [by exists t0|]. cbn [foldM]. unfold group_date_step.
  rewrite (tabled_bucket _ _ _ _ Ht). unfold bucket_capital. rewrite (flowless_bucket g d Hf). apply IH.
Qed.

Lemma flowless_rate g d : flowless → let b := bucket_of (on_date d (mine g (pr_Days result))) in dated_rate None d b = rated b (capital_of b).
Proof. intros Hf b. unfold dated_rate, bucket_capital, b. by rewrite (flowless_bucket g d Hf). Qed.

Lemma flowless_table l st : tabled l st → (∀ day, day ∈ l → eligible result day = true → has_flow day = false) → hasFlowMetadata st = false.
Proof.
  intros Ht Hf. rewrite (tb_flows _ _ Ht). apply not_true_iff_false. rewrite existsb_exists. intros (day & Hd & Hb).
  apply list_elem_of_In in Hd. apply andb_true_iff in Hb as [He Hb]. by rewrite (no_flow day (Hf day Hd He)) in Hb.
Qed.

(** The last date is closed as well. *)
Lemma walked_end cur st : dated (pr_Days result) → walked cur (pr_Days result) st →
  tracking "" (pr_Days result) (if bool_decide (currentDate st = ""%string) then st else finalizeDate st).
Proof.
  intros Hd Hw. pose proof (wk_current _ _ _ Hw) as Hc. rewrite Hc. destruct (bool_decide_reflect (cur = ""%string)) as [->|].
  - apply (wk_tracking _ _ _ Hw).
  - apply (tracking_finalize cur); [apply (wk_tracking _ _ _ Hw)|exact Hd].
Qed.

Lemma dated_off g : dated (pr_Days result) → off_date "" (mine g (pr_Days result)) = mine g (pr_Days result).
Proof.
  intros Hd. apply filter_every, Forall_forall. intros day Hin. apply list_elem_of_filter in Hin as [[He _] Hin]. by apply Hd.
Qed.

Lemma rows_same cur st st' total s : dated (pr_Days result) → walked cur (pr_Days result) st → tabled (pr_Days result) st' →
  s ∈ groups (if bool_decide (currentDate st = ""%string) then st else finalizeDate st) →
  ∃ row, fold_group None st' total (gs_key s) = Ok row ∧ same_row (chrono_row total s) row.
Proof.
  intros Hd Hw Ht Hs. assert (Hf : flowless) by (intros day; apply (wk_flows _ _ _ Hw)).
  destruct (is_ok_some _ (fold_group_total st' total (gs_key s) Ht Hf)) as [row Hrow]. exists row. split; [done|].
  apply list_elem_of_lookup in Hs as (i & Hs). pose proof (tk_groups _ _ _ (walked_end cur st Hd Hw) i s Hs) as Hrep.
  destruct (fold_group_row None st' total (gs_key s) row Ht Hrow) as (amount & Ha & ->). set (g := gs_key s) in *.
  destruct Hrep as [Hkey _ Hamt Hknown Hrates Hcomp Huse _ _ _ _ _ _]. rewrite (dated_off g Hd) in *.
  assert (Hsorted : sorted_dates g = dates (mine g (pr_Days result))) by (apply string_sort_eq; [done|apply (wk_sorted _ _ _ Hw)]).
  rewrite Hsorted. unfold chrono_row. rewrite Hknown, Hcomp, Huse. fold g.
  assert (Hcount : ∀ f, how_many f (buckets_of (mine g (pr_Days result))) =
    how_many (λ d, f (bucket_of (on_date d (mine g (pr_Days result))))) (dates (mine g (pr_Days result)))).
  { intros f. apply how_many_fmap. }
  rewrite !Hcount. apply same_group_row; [unfold same; by rewrite Hamt, Ha|].
  assert (omap (λ d, dated_rate None d (bucket_of (on_date d (mine g (pr_Days result))))) (dates (mine g (pr_Days result))) =
    rates_of (buckets_of (mine g (pr_Days result)))) as ->; [|done].
  unfold rates_of, buckets_of. rewrite omap_of_fmap. apply list_omap_ext, Forall_Forall2_diag, Forall_forall. intros d _.
  by rewrite (flowless_rate g d Hf).
Qed.

Lemma mapM_rows {A} (f : A → Result ReturnGroup) (k : list A) rows : Forall2 (λ r s, ∃ row, f s = Ok row ∧ same_row r row) rows k → ∃ rows', mapM f k = Ok rows' ∧ Forall2 same_row rows rows'.
Proof.
  induction 1 as [|r s rows k (row & E & Hr) _ (rows' & E' & Hrs)]; [by exists []|].
  exists (row :: rows'). cbn [mapM]. rewrite E, bind_Ok_l, E', bind_Ok_l. split; [done|by constructor].
Qed.

Lemma keys_agree cur st st' : dated (pr_Days result) → walked cur (pr_Days result) st → tabled (pr_Days result) st' →
  group_keys st' = gs_key <$> stable_sort (λ a b, String.ltb (gs_key a) (gs_key b))
    (groups (if bool_decide (currentDate st = ""%string) then st else finalizeDate st)).
Proof.
  intros Hd Hw Ht. pose proof (walked_end cur st Hd Hw) as Hend. set (st1 := if bool_decide (currentDate st = ""%string) then st else finalizeDate st) in *.
  unfold group_keys. apply string_sort_eq.
  - rewrite (stable_sort_perm (λ a b, String.ltb (gs_key a) (gs_key b)) (groups st1)). apply NoDup_Permutation.
    + apply NoDup_elements.
    + apply NoDup_alt. intros i j g Hi Hj. rewrite list_lookup_fmap in Hi, Hj.
      apply (tk_index _ _ _ Hend) in Hi, Hj. congruence.
    + intros g. rewrite elem_of_elements, elem_of_dom, (tb_dates _ _ Ht).
      assert (is_Some (match dates (mine g (pr_Days result)) with [] => None | s :: l => Some (s :: l) end) ↔ mine g (pr_Days result) ≠ []) as ->.
      { rewrite <-dates_nil. destruct (dates _); split; [by intros [? ?]|done|done|by eexists]. }
      rewrite list_elem_of_fmap. split.
      * intros Hm. destruct (tk_all _ _ _ Hend g Hm) as [i Hi]. apply (tk_index _ _ _ Hend) in Hi.
        apply fmap_Some in Hi as (s & Hs & ->). exists s. split; [done|]. by eapply list_elem_of_lookup_2.
      * intros (s & -> & Hs). apply list_elem_of_lookup in Hs as (i & Hs).
        assert (gs_key <$> groups st !! i = Some (gs_key s)) as Hs'.
        { rewrite <-(tk_index _ _ _ (wk_tracking _ _ _ Hw)).
          assert (groupIndexes st = groupIndexes st1) as -> by (subst st1; by destruct (bool_decide _)).
          apply (tk_index _ _ _ Hend). by rewrite Hs. }
        apply fmap_Some in Hs' as (s0 & Hs0 & ->). by apply (wk_idle _ _ _ Hw i).
  - pose proof (stable_sort_sorted (by_key gs_key String.compare) (λ a b, String.ltb (gs_key a) (gs_key b))
      (λ a b, ltb_compare _ _) (groups st1)) as Hs.
    induction Hs as [|s l Hs IH Hf]; cbn; constructor; [done|]. rewrite Forall_fmap. exact Hf.
Qed.

Lemma folds_agree :
  dated (pr_Days result) → canFoldReturnGroupsChronologically result = true →
  match foldReturnGroupsChronologically result by_, foldReturnGroupsByDate result by_ with
  | Ok fast, Ok slow => Forall2 same_row fast slow
  | Fail e, Fail e' => e = e'
  | _, _ => False
  end.
Proof.
  intros Hd Hcan. unfold canFoldReturnGroupsChronologically in Hcan. pose proof (walk (pr_Days result) Hd) as Hw.
  destruct (fold_left _ _ _) as [cur|]; [|done]. pose proof buckets_made as Hb.
  unfold foldReturnGroupsChronologically, foldReturnGroupsByDate.
  destruct (foldM (chrono_step result by_) _ _) as [st|e], (foldM (bucket_step result by_) _ _) as [st'|e'];
    [|destruct Hw, Hb; congruence|destruct Hw, Hb; congruence|destruct Hw, Hb; rewrite !bind_Fail_l; congruence].
  destruct Hw as [Hw _], Hb as [Ht _]. rewrite !bind_Ok_l.
  rewrite (flowless_table _ _ Ht) by (intros day; apply (wk_flows _ _ _ Hw)). rewrite bind_Ok_l.
  rewrite (keys_agree cur st st' Hd Hw Ht). set (st1 := if bool_decide (currentDate st = ""%string) then st else finalizeDate st).
  set (sorted := stable_sort _ (groups st1)).
  destruct (mapM_rows (fold_group None st' (TotalDays (pr_Coverage result))) (gs_key <$> sorted)
    (chrono_row (TotalDays (pr_Coverage result)) <$> sorted)) as (rows & -> & Hrows); [|done].
  apply Forall2_fmap, Forall_Forall2_diag, Forall_forall. intros s Hs. unfold sorted in Hs. rewrite stable_sort_perm in Hs.
  by apply (rows_same cur st st' _ s Hd Hw Ht).
Qed.

(** Claim C12.  The fold that keeps one open date per group is an optimisation: when the days come
    in order and carry no capital flow, which is the test that selects it, it gives the rows of the
    fold over the table of buckets, one for one and equal in value, and it fails exactly when the
    other one does, with the same error.  Every day that takes part is assumed to have a date. *)
Theorem FoldReturnGroups_agrees :
  dated (pr_Days result) → canFoldReturnGroupsChronologically result = true →
  match foldReturnGroupsChronologically result by_, foldReturnGroupsByDate result by_ with
  | Ok fast, Ok slow => Forall2 same_row fast slow
  | Fail e, Fail e' => e = e'
  | _, _ => False
  end.
Proof. exact folds_agree. Qed.

(** ** What the groups are *)

(** The row of a group: the sum of its returns, and the link of the rates of its dates. *)
Definition row_of (location : option Location) (g : string) : ReturnGroup :=
  let m := mine g (pr_Days result) in
  group_row g (gd_amount (bucket_of m)) (existsb has_return m)
    (omap (λ d, dated_rate location d (bucket_of (on_date d m))) (sorted_dates g))
    (how_many (λ d, gd_complete (bucket_of (on_date d m))) (sorted_dates g))
    (how_many (λ d, gd_usable (bucket_of (on_date d m))) (sorted_dates g)) (TotalDays (pr_Coverage result)).

Lemma same_row_sym a b : same_row a b → same_row b a.
Proof.
  intros (H1 & H2 & H3 & H4 & H5 & H6). split_and!; [done|by unfold same in *|done| |done|done].
  inversion H4 as [x y Hxy Ex Ey|Ex Ey]; constructor. by unfold same in *.
Qed.

Lemma same_row_trans a b c : same_row a b → same_row b c → same_row a c.
Proof.
  intros (H1 & H2 & H3 & H4 & H5 & H6) (K1 & K2 & K3 & K4 & K5 & K6). unfold same in *.
  split_and!; [congruence|unfold same; by rewrite H2|congruence| |congruence|congruence].
  inversion H4 as [x y Hxy Ex Ey|Ex Ey]; rewrite <-Ey in K4; inversion K4; subst; constructor. unfold same. by rewrite Hxy.
Qed.

Lemma same_list_refl l : Forall2 same l l.
Proof. apply Forall_Forall2_diag, Forall_forall. unfold same. reflexivity. Qed.

Lemma table_keys st : tabled (pr_Days result) st →
  StronglySorted (in_order String.compare) (group_keys st) ∧ NoDup (group_keys st) ∧
  ∀ g, g ∈ group_keys st ↔ ∃ day, day ∈ pr_Days result ∧ eligible result day = true ∧ key_of day = g.
Proof.
  intros Ht. unfold group_keys. split; [apply (stable_sort_sorted String.compare); apply ltb_compare|].
  split; [rewrite stable_sort_perm; apply NoDup_elements|]. intros g. rewrite stable_sort_perm, elem_of_elements, elem_of_dom, (tb_dates _ _ Ht).
  assert (is_Some (match dates (mine g (pr_Days result)) with [] => None | s :: l => Some (s :: l) end) ↔ mine g (pr_Days result) ≠ []) as ->.
  { rewrite <-dates_nil. destruct (dates _); split; [by intros [? ?]|done|done|by eexists]. }
  split.
  - intros Hm. destruct (mine g (pr_Days result)) as [|day m] eqn:E; [done|]. exists day.
    assert (day ∈ mine g (pr_Days result)) as Hin by (rewrite E; by left). apply list_elem_of_filter in Hin. tauto.
  - intros (day & Hin & He & Hk) E. assert (day ∈ mine g (pr_Days result)) as Hm by (by apply list_elem_of_filter).
    rewrite E in Hm. by apply elem_of_nil in Hm.
Qed.

Lemma mapM_table location st rows : tabled (pr_Days result) st →
  mapM (fold_group location st (TotalDays (pr_Coverage result))) (group_keys st) = Ok rows →
  Forall2 (λ g row, same_row row (row_of location g)) (group_keys st) rows.
Proof.
  intros Ht H. apply mapM_Forall2 in H. eapply Forall2_impl; [exact H|]. intros g row Hrow.
  destruct (fold_group_row location st _ g row Ht Hrow) as (amount & Ha & ->). apply same_group_row.
  - unfold same. by rewrite Ha, bucket_amount.
  - apply same_list_refl.
Qed.

Definition location_used (location : option Location) : Prop :=
  location = None ∨ location = LoadLocation (AnalysisDayTimezone result).

Lemma groups_described rows : foldReturnGroupsByDate result by_ = Ok rows →
  ∃ location ks, location_used location ∧ StronglySorted (in_order String.compare) ks ∧ NoDup ks ∧
    (∀ g, g ∈ ks ↔ ∃ day, day ∈ pr_Days result ∧ eligible result day = true ∧ key_of day = g) ∧
    Forall2 (λ g row, same_row row (row_of location g)) ks rows.
Proof.
  unfold foldReturnGroupsByDate. pose proof buckets_made as Hb. destruct (foldM _ _ _) as [st|e]; [|done]. destruct Hb as [Ht _].
  rewrite bind_Ok_l. intros H. apply bind_Ok in H as (location & Hl & Hm). exists location, (group_keys st).
  destruct (table_keys st Ht) as (H1 & H2 & H3). split_and!; [|done..|by apply (mapM_table location st)].
  destruct (hasFlowMetadata st); [|injection Hl as <-; by left]. case_match; [done|]. right.
  destruct (LoadLocation _); [by injection Hl as <-|done].
Qed.

(** The keys of the rows and what the rows hold. *)
Definition described (rows : list ReturnGroup) : Prop :=
  ∃ location ks, location_used location ∧ StronglySorted (in_order String.compare) ks ∧ NoDup ks ∧
    (∀ g, g ∈ ks ↔ ∃ day, day ∈ pr_Days result ∧ eligible result day = true ∧ key_of day = g) ∧
    Forall2 (λ g row, same_row row (row_of location g)) ks rows.

Lemma described_same rows rows' : Forall2 same_row rows rows' → described rows' → described rows.
Proof.
  intros Hs (location & ks & H1 & H2 & H3 & H4 & H5). exists location, ks. split_and!; [done..|].
  clear -HL Hs H5. revert rows Hs. induction H5 as [|g row' ks rows' Hr _ IH]; intros rows Hs; inversion Hs; subst; constructor.
  - by eapply same_row_trans.
  - by apply IH.
Qed.

Lemma described_total rows : described rows →
  (sumQ (λ row, dval (rg_ReturnAmount row)) rows == sumQ return_of (filter (λ day, eligible result day = true) (pr_Days result)))%Q.
Proof.
  intros (location & ks & _ & _ & Hn & Hk & Hrows).
  rewrite <-(sum_parts key_of return_of ks) by (done || (intros day Hin; apply list_elem_of_filter in Hin as [He Hin]; apply Hk; by exists day)).
  clear Hn Hk. induction Hrows as [|g row ks rows Hr _ IH]; [reflexivity|]. rewrite !sumQ_cons, IH.
  destruct Hr as (_ & Ha & _). unfold same in Ha. cbn [rg_ReturnAmount row_of group_row] in Ha. rewrite Ha, bucket_amount.
  assert (mine g (pr_Days result) = filter (λ day, key_of day = g) (filter (λ day, eligible result day = true) (pr_Days result))) as ->; [|reflexivity].
  rewrite list_filter_filter. unfold mine. apply list_filter_iff. intros day. tauto.
Qed.

(** Claim C13.  The rows of [FoldReturnGroups], by whichever fold: one per key of a day that takes
    part, in the order of the keys; each row has the amount, the rated and total days, the
    completeness and the linked rate of its own days, where the rates are those of its complete
    dates with positive capital, in the order of the dates.  The amounts of the rows add up to the
    return of all days that take part: no return is lost or counted twice. *)
Theorem FoldReturnGroups_correct rows : dated (pr_Days result) → FoldReturnGroups result by_ = Ok rows →
  described rows ∧
  (sumQ (λ row, dval (rg_ReturnAmount row)) rows ==
   sumQ return_of (filter (λ day, eligible result day = true) (pr_Days result)))%Q.
Proof.
  intros Hd H. enough (described rows) as Hr by (split; [done|by apply described_total]).
  unfold FoldReturnGroups in H. destruct (canFoldReturnGroupsChronologically result) eqn:E; [|by apply groups_described].
  pose proof (folds_agree Hd E) as Ha. rewrite H in Ha. destruct (foldReturnGroupsByDate result by_) as [rows'|e] eqn:E'; [|done].
  by apply (described_same _ rows'), groups_described.
Qed.
End Spec.
