(* ===== verification/AnalysisReturnLaws.v ===== *)
(** * Returns: weights, links and the daily series

    What [AnalysisReturn] computes: the weight of a flow within its day, the geometric link as a
    product, the bounds of civil days that follow one another, and the rows and totals of
    [finalizeAnalysisReturns]. *)

From S2P Require Export AnalysisFold.
From S2P Require Import DecimalModel.
From S2P Require MarketPolicy.
From Stdlib Require Import String Ascii Qreduction.

#[global] Open Scope Z_scope.

Section Weights.
Context `{HD : DecimalAPI} {HL : DecimalLaws}.

Lemma dval_one : (dval dOne == 1)%Q.
Proof. unfold dOne. rewrite dval_int. reflexivity. Qed.

Lemma dDiv_mono a b c : (0 < dval c)%Q → (dval a <= dval b)%Q → (dval (dDiv a c) <= dval (dDiv b c))%Q.
Proof.
  intros Hc Hab. assert (¬ (dval c == 0)%Q) as Hz by (intros H; rewrite H in Hc; by apply Qlt_irrefl in Hc).
  rewrite !dDiv_divround by done. unfold dval at 1 2, cval. rewrite !dDivRound_coef, !dDivRound_expo by done.
  apply Qmult_le_compat_r; [|apply Qlt_le_weak, p10_pos]. rewrite <-Zle_Qle. apply round_half_away_mono.
  apply Qmult_le_compat_r; [|apply Qlt_le_weak, p10_pos]. unfold Qdiv.
  apply Qmult_le_compat_r; [done|]. apply Qlt_le_weak. by apply Qinv_lt_0_compat.
Qed.

Lemma dDiv_int_self z : z ≠ 0 → (dval (dDiv (dInt z) (dInt z)) == 1)%Q.
Proof.
  intros Hz. assert (Hv : (dval (dInt z) == inject_Z z)%Q) by apply dval_int.
  assert (¬ (dval (dInt z) == 0)%Q) as Hnz by (rewrite Hv; intros H; apply (inject_Z_injective z 0) in H; lia).
  rewrite dDiv_divround by done. unfold dval at 1, cval. rewrite dDivRound_coef, dDivRound_expo by done.
  assert (E : (dval (dInt z) / dval (dInt z) * p10 16 == inject_Z (10 ^ 16))%Q).
  { rewrite <-p10_Z by lia. field. done. }
  rewrite E, round_half_away_Z. reflexivity.
Qed.

Lemma dDiv_int_zero z : z ≠ 0 → (dval (dDiv (dInt 0) (dInt z)) == 0)%Q.
Proof.
  intros Hz. assert (¬ (dval (dInt z) == 0)%Q) as Hnz by (rewrite dval_int; intros H; apply (inject_Z_injective z 0) in H; lia).
  rewrite dDiv_divround by done. unfold dval at 1, cval. rewrite dDivRound_coef, dDivRound_expo by done.
  assert (E : (dval (dInt 0) / dval (dInt z) * p10 16 == inject_Z 0)%Q) by (rewrite dval_int; change (inject_Z 0) with 0%Q; field; done).
  rewrite E, round_half_away_Z. reflexivity.
Qed.

Section Day.
Context (dayStart dayEnd : Time) (Hday : 0 < dayEnd - dayStart <= maxDuration).

Notation weight e := (dietzFlowWeight e dayStart dayEnd).

Lemma day_length : timeSub dayEnd dayStart = dayEnd - dayStart.
Proof. unfold timeSub. assert (0 <= maxDuration) by done. lia. Qed.

(** The weight by the position of the instant in the day. *)
Lemma weight_cases e :
  (e < dayStart ∧ (dval (weight e) == 1)%Q) ∨ (dayEnd < e ∧ (dval (weight e) == 0)%Q) ∨
  (dayStart <= e <= dayEnd ∧ weight e = dDiv (dInt (dayEnd - e)) (dInt (dayEnd - dayStart))).
Proof.
  unfold dietzFlowWeight. rewrite day_length. assert (Hm : maxDuration = 2 ^ 63 - 1) by done.
  destruct (Z.leb_spec (dayEnd - dayStart) 0); [lia|]. unfold timeSub.
  destruct (Z.ltb_spec (Z.max (- 2 ^ 63) (Z.min maxDuration (dayEnd - e))) 0).
  - right; left. split; [lia|apply dval_dzero].
  - destruct (Z.ltb_spec (dayEnd - dayStart) (Z.max (- 2 ^ 63) (Z.min maxDuration (dayEnd - e)))).
    + left. split; [lia|apply dval_one].
    + destruct (Z.lt_ge_cases e dayStart) as [He|He].
      * left. split; [done|]. assert (Z.max (- 2 ^ 63) (Z.min maxDuration (dayEnd - e)) = dayEnd - dayStart) as -> by lia.
        apply dDiv_int_self. lia.
      * right; right. split; [lia|]. by replace (Z.max (- 2 ^ 63) (Z.min maxDuration (dayEnd - e))) with (dayEnd - e) by lia.
Qed.

Lemma weight_length : (0 < dval (dInt (dayEnd - dayStart)))%Q.
Proof. rewrite dval_int. change 0%Q with (inject_Z 0). rewrite <-Zlt_Qlt. lia. Qed.

Lemma weight_bounds e : (0 <= dval (weight e) <= 1)%Q.
Proof.
  destruct (weight_cases e) as [[_ E]|[[_ E]|[He E]]]; [rewrite E; lra|rewrite E; lra|rewrite E]. split.
  - rewrite <-(dDiv_int_zero (dayEnd - dayStart)) by lia. apply dDiv_mono; [apply weight_length|].
    rewrite !dval_int, <-Zle_Qle. lia.
  - rewrite <-(dDiv_int_self (dayEnd - dayStart)) by lia. apply dDiv_mono; [apply weight_length|].
    rewrite !dval_int, <-Zle_Qle. lia.
Qed.
End Day.

(** The weight of a flow in a day of positive length is the part of the day that is
    left: between zero and one, one for a flow at or before the start, zero at or after the end,
    within half of the sixteenth decimal place of the exact fraction in between, and never
    larger for a later flow. *)
Theorem dietzFlowWeight_correct dayStart dayEnd e :
  0 < dayEnd - dayStart <= maxDuration →
  let w := dval (dietzFlowWeight e dayStart dayEnd) in
  (0 <= w <= 1)%Q ∧ (e <= dayStart → (w == 1)%Q) ∧ (dayEnd <= e → (w == 0)%Q) ∧
  (dayStart <= e <= dayEnd → (Qabs (w - inject_Z (dayEnd - e) / inject_Z (dayEnd - dayStart)) <= (1 # 2) * p10 (-16))%Q) ∧
  (∀ e', e <= e' → (dval (dietzFlowWeight e' dayStart dayEnd) <= w)%Q).
Proof.
  intros Hday w. pose proof (weight_bounds dayStart dayEnd Hday) as Hb. unfold w.
  split; [apply Hb|]. destruct (weight_cases dayStart dayEnd Hday e) as [[He E]|[[He E]|[He E]]].
  - split_and!; [done|lia|lia|]. intros e' _. rewrite E. apply Hb.
  - split_and!; [lia|done|lia|]. intros e' Hle. rewrite E.
    destruct (weight_cases dayStart dayEnd Hday e') as [[? _]|[[_ E']|[? _]]]; [lia|by rewrite E'; apply Qle_refl|lia].
  - rewrite E. split_and!.
    + intros ?. replace (dayEnd - e) with (dayEnd - dayStart) by lia. apply dDiv_int_self. lia.
    + intros ?. replace (dayEnd - e) with 0 by lia. apply dDiv_int_zero. lia.
    + intros _. pose proof (weight_length dayStart dayEnd Hday) as Hl.
      pose proof (MarketPolicy.dDiv_near (dInt (dayEnd - e)) (dInt (dayEnd - dayStart))) as Hn. rewrite !dval_int in Hn.
      apply Hn. intros H0. rewrite dval_int, H0 in Hl. by apply Qlt_irrefl in Hl.
    + intros e' Hle. destruct (weight_cases dayStart dayEnd Hday e') as [[? _]|[[_ E']|[? E']]]; [lia| |].
      * rewrite E', <-E. apply Hb.
      * rewrite E'. apply dDiv_mono; [by apply weight_length|]. rewrite !dval_int, <-Zle_Qle. lia.
Qed.

(** ** The geometric link *)

Definition growth (rates : list Decimal) : Q := foldr (λ r acc, (1 + dval r) * acc)%Q 1%Q rates.

Lemma growth_cons r rates : growth (r :: rates) = ((1 + dval r) * growth rates)%Q.
Proof. done. Qed.

Lemma link_val rates x : (dval (fold_left link_step rates x) == dval x * growth rates)%Q.
Proof.
  revert x. induction rates as [|r rates IH]; intros x; cbn [fold_left]; [cbn; ring|].
  rewrite growth_cons, IH. unfold link_step. rewrite dMul_val, dAdd_val, dval_one. ring.
Qed.

Lemma GeometricLink_val rates : (dval (GeometricLink rates) == growth rates - 1)%Q.
Proof. unfold GeometricLink. rewrite dSub_val, link_val, dval_one. ring. Qed.

Lemma growth_app l k : (growth (l ++ k) == growth l * growth k)%Q.
Proof.
  induction l as [|r l IH]; cbn [app]; [change (growth []) with 1%Q; ring|]. rewrite !growth_cons, IH. ring.
Qed.

(** Linking is independent of the order of the days, and linking the links of consecutive periods
    is linking all their days. *)
Lemma GeometricLink_perm l k : l ≡ₚ k → same (GeometricLink l) (GeometricLink k).
Proof.
  intros Hp. unfold same. rewrite !GeometricLink_val. enough (growth l == growth k)%Q as -> by reflexivity.
  induction Hp as [|x l k _ IH|x y l|l k j _ IH1 _ IH2]; [reflexivity|by rewrite !growth_cons, IH|rewrite !growth_cons; ring|by rewrite IH1].
Qed.

Lemma GeometricLink_periods (periods : list (list Decimal)) : same (GeometricLink (GeometricLink <$> periods)) (GeometricLink (List.concat periods)).
Proof.
  unfold same. rewrite !GeometricLink_val. enough (growth (GeometricLink <$> periods) == growth (List.concat periods))%Q as -> by reflexivity.
  induction periods as [|l periods IH]; [reflexivity|]. rewrite fmap_cons, growth_cons. cbn [List.concat].
  rewrite growth_app, <-IH, GeometricLink_val. ring.
Qed.

(** The rates that count: those of complete days. *)
Definition day_rate (daily : DailyReturn) : option Decimal :=
  if bool_decide (dy_Status daily = CompletenessOK) then dy_Rate daily else None.

Lemma aggregate_fold rows st : let '(linked, rated) := fold_left aggregate_step rows st in
  linked = fold_left link_step (omap day_rate rows) st.1 ∧ rated = st.2 + Z.of_nat (List.length (omap day_rate rows)).
Proof.
  revert st. induction rows as [|row rows IH]; intros [x n]; [cbn; split; [done|lia]|]. cbn [fold_left omap list_omap].
  specialize (IH (aggregate_step (x, n) row)). destruct (fold_left aggregate_step rows _) as [linked rated]. destruct IH as [-> ->].
  unfold aggregate_step, day_rate. destruct (dy_Rate row), (bool_decide _); cbn [fst snd fold_left List.length]; (split; [done|lia]).
Qed.

(** The rate of the period is the geometric link of the days that have one. *)
Lemma aggregate_link rows :
  aggregateDailyReturnRate rows =
    let rates := omap day_rate rows in
    let rated := Z.of_nat (List.length rates) in
    let total := Z.of_nat (List.length rows) in
    ((if (rated =? 0) || (rated * 2 <? total) then None else Some (GeometricLink rates)), mkRateCoverage rated total).
Proof.
  unfold aggregateDailyReturnRate, GeometricLink. pose proof (aggregate_fold rows (dOne, 0)) as H.
  destruct (fold_left aggregate_step rows (dOne, 0)) as [linked rated]. destruct H as [-> ->]. cbn [fst snd]. rewrite Z.add_0_l.
  by destruct (_ || _).
Qed.
End Weights.

(** ** The daily series *)

Section Series.
Context `{HD : DecimalAPI} {HL : DecimalLaws} `{TZ : TimeZones}.
Context (result : PeriodAnalysisResult) (u : analysisUniverse) (timezone : string) (baseCurrency : CurrencyCode) (query : AnalysisQuery).

Definition has_beginning (day : ComponentDay) : bool := negb (bool_decide (s_currency (BeginningValue day) = ""%string)).
Definition beginning_of (day : ComponentDay) : Q := if has_beginning day then dval (s_amount (BeginningValue day)) else 0%Q.
Definition complete_day (days : list ComponentDay) : bool :=
  (0 <? Z.of_nat (List.length days)) && forallb (λ day, bool_decide (cd_Status day = CompletenessOK)) days.

(** The weighted capital of a day. *)
Definition weighted (s e : Time) (f : DietzCapitalFlow) : Q := (dval (s_amount (fl_Amount f)) * dval (dietzFlowWeight (fl_EffectiveAt f) s e))%Q.
Definition day_capital (s e : Time) (days : list ComponentDay) : Q :=
  (sumQ beginning_of days + sumQ (weighted s e) (days ≫= DietzCapitalFlows))%Q.

(** What the loop over the components of a day adds up. *)
Record summed (onFrom : bool) (days : list ComponentDay) (d : dayTotals) (p : periodTotals) (d' : dayTotals) (p' : periodTotals) : Prop := {
  sm_amount : (dval (dt_amount d') == dval (dt_amount d) + sumQ return_of days)%Q;
  sm_beginning : (dval (dt_beginning d') == dval (dt_beginning d) + sumQ beginning_of days)%Q;
  sm_flows : dt_flows d' = dt_flows d ++ (days ≫= DietzCapitalFlows);
  sm_complete : dt_complete d' = dt_complete d && forallb (λ day, bool_decide (cd_Status day = CompletenessOK)) days;
  sm_hasAmount : hasKnownAmount d' = hasKnownAmount d || existsb has_return days;
  sm_hasBeginning : hasKnownBeginning d' = hasKnownBeginning d || existsb has_beginning days;
  sm_return : periodReturn p' = periodReturn p;
  sm_periodBeginning : (dval (periodBeginning p') == dval (periodBeginning p) + if onFrom then sumQ beginning_of days else 0)%Q;
  sm_hasPeriodBeginning : hasPeriodBeginning p' = hasPeriodBeginning p || (onFrom && existsb has_beginning days);
  sm_currency : hasPeriodCurrency p' = hasPeriodCurrency p || existsb (λ day, has_return day || has_beginning day) days }.

Lemma component_totals onFrom days d p d' p' : fold_left (component_step onFrom) days (d, p) = (d', p') → summed onFrom days d p d' p'.
Proof.
  revert d p. induction days as [|day days IH]; intros d p; cbn [fold_left].
  { intros [= <- <-]. split; cbn; rewrite ?app_nil_r, ?andb_true_r, ?orb_false_r; try done; try ring; [by destruct onFrom; ring|by rewrite andb_false_r, orb_false_r]. }
  destruct (component_step onFrom (d, p) day) as [d1 p1] eqn:E. intros H. specialize (IH d1 p1 H).
  destruct IH as [H1 H2 H3 H4 H5 H6 H7 H8 H9 H10]. revert E. unfold component_step.
  assert (Hb : beginning_of day = if has_beginning day then dval (s_amount (BeginningValue day)) else 0%Q) by done. unfold has_beginning in Hb.
  destruct (cd_ReturnAmount day) as [m|] eqn:Er, (bool_decide (s_currency (BeginningValue day) = ""%string)) eqn:Eb, onFrom; intros [= <- <-];
    (split; cbn [dt_amount dt_beginning dt_flows dt_complete hasKnownAmount hasKnownBeginning periodReturn periodBeginning hasPeriodBeginning
       hasPeriodCurrency existsb forallb mbind list_bind negb andb orb] in *; unfold has_return, has_beginning, return_of in *;
     rewrite ?sumQ_cons, ?Hb, ?Er, ?Eb; cbn [negb];
     [rewrite H1, ?dAdd_val; ring|rewrite H2, ?dAdd_val; ring|by rewrite H3, app_assoc|by rewrite H4, andb_assoc|by rewrite H5, ?orb_true_r|
      by rewrite H6, ?orb_true_r|done|rewrite H8, ?dAdd_val; ring|rewrite H9; by rewrite ?orb_true_r, ?orb_false_r|rewrite H10; by rewrite ?orb_true_r]).
Qed.

Lemma capital_val s e flows x : (dval (fold_left (flow_step s e) flows x) == dval x + sumQ (weighted s e) flows)%Q.
Proof.
  revert x. induction flows as [|f flows IH]; intros x; cbn [fold_left]; [cbn; ring|].
  rewrite IH, sumQ_cons. unfold flow_step, weighted. rewrite dAdd_val, dMul_val. ring.
Qed.

(** A row of an existing day, whose components are [days]. *)
Record row_described (s e : Time) (days : list ComponentDay) (row : DailyReturn) : Prop := {
  rd_amount : if existsb has_return days
    then ∃ a m, AmountExact row = Some a ∧ dy_Amount row = Some m ∧ (dval a == sumQ return_of days)%Q ∧
                sm_units m = round_half_even (sumQ return_of days * p10 4)
    else AmountExact row = None ∧ dy_Amount row = None;
  rd_capital : if existsb has_beginning days
    then ∃ m, dy_InvestedCapital row = Some m ∧ sm_units m = round_half_even (day_capital s e days * p10 4)
    else dy_InvestedCapital row = None;
  rd_rate rate : dy_Rate row = Some rate →
    (0 < day_capital s e days)%Q ∧ (Qabs (dval rate - sumQ return_of days / day_capital s e days) <= (1 # 2) * p10 (-16))%Q;
  rd_rated : is_Some (dy_Rate row) ↔
    complete_day days = true ∧ existsb has_beginning days = true ∧ (0 < day_capital s e days)%Q;
  rd_status : dy_Status row = if existsb has_return days || existsb has_beginning days
                              then if complete_day days then CompletenessOK else CompletenessPartial else CompletenessUnavailable }.

(** The totals of a day that starts from nothing. *)
Definition day_totals (days : list ComponentDay) : dayTotals := mkTotals dZero dZero [] (0 <? Z.of_nat (List.length days)) false false.

Lemma daily_row_described onFrom days p d p' date cur s e row :
  summed onFrom days (day_totals days) p d p' → daily_row date cur s e d = Ok row → dy_Date row = date ∧ row_described s e days row.
Proof.
  intros [H1 H2 H3 H4 H5 H6 _ _ _ _]. cbn [day_totals dt_amount dt_beginning dt_flows dt_complete hasKnownAmount hasKnownBeginning orb app] in *.
  assert (Ha : (dval (dt_amount d) == sumQ return_of days)%Q) by (rewrite H1, dval_dzero; ring).
  assert (Hc : dt_complete d = complete_day days) by exact H4.
  unfold daily_row. set (capital := fold_left (flow_step s e) (dt_flows d) (dt_beginning d)).
  assert (Hcap : (dval capital == day_capital s e days)%Q).
  { unfold capital. rewrite capital_val, H2, H3, dval_dzero. unfold day_capital. ring. }
  rewrite H5, H6, Hc. intros H. apply bind_Ok in H as (amount & Eam & H).
  assert (Hamount : ∀ x i r st, let row := mkDailyReturn x amount (if existsb has_return days then Some (dt_amount d) else None) i r st in
    if existsb has_return days
    then ∃ a m, AmountExact row = Some a ∧ dy_Amount row = Some m ∧ (dval a == sumQ return_of days)%Q ∧
                sm_units m = round_half_even (sumQ return_of days * p10 4)
    else AmountExact row = None ∧ dy_Amount row = None).
  { intros x i r st. cbn. destruct (existsb has_return days); [|by injection Eam as <-].
    apply bind_Ok in Eam as (m & Em & [= <-]). exists (dt_amount d), m. split_and!; [done..|].
    by rewrite (NewSignedMoney_units _ _ _ Em), Ha. }
  destruct (existsb has_beginning days) eqn:Eb.
  - apply bind_Ok in H as (cm & Ecm & H). apply NewSignedMoney_units in Ecm. rewrite Hcap in Ecm.
    destruct (complete_day days) eqn:Ecd; cbn [andb] in H; [destruct (dIsPositive capital) eqn:Ep|]; injection H as <-;
      (split; [done|]); (split; cbn [dy_InvestedCapital dy_Rate dy_Status]; [apply Hamount|by rewrite Eb; exists cm| | |]);
      rewrite ?Eb, ?Ecd, ?orb_true_r; try done; try (split; [by intros [? ?]|by intros (? & ? & ?)]).
    + intros rate [= <-]. apply dIsPositive_val in Ep. rewrite Hcap in Ep. split; [done|].
      pose proof (MarketPolicy.dDiv_near (dt_amount d) capital) as Hn. rewrite Ha, Hcap in Hn. apply Hn. lra.
    + apply dIsPositive_val in Ep. rewrite Hcap in Ep. split; [done|by eexists].
    + split; [by intros [? ?]|]. intros (_ & _ & Hp). rewrite <-Hcap in Hp. apply dIsPositive_val in Hp. congruence.
  - injection H as <-. split; [done|]. split; cbn [dy_InvestedCapital dy_Rate dy_Status]; [apply Hamount|by rewrite Eb|done| |];
      rewrite ?Eb, ?orb_false_r; [|done]. split; [by intros [? ?]|by intros (_ & ? & _)].
Qed.

(** ** The period *)

(** The row of a date: skipped dates have an empty one. *)
Definition row_of_date (location : Location) (date : Z) (row : DailyReturn) : Prop :=
  match analysisCivilDayBounds date location with
  | Ok None => row = unavailable_day (format_days date)
  | Ok (Some (s, e)) => dy_Date row = format_days date ∧ row_described s e (component_days result u (format_days date)) row
  | Fail _ => False
  end.

Definition exact_of (row : DailyReturn) : Q := match AmountExact row with Some a => dval a | None => 0%Q end.

(** The components of a date that exists. *)
Definition existing_days (location : Location) (date : Z) : list ComponentDay :=
  match analysisCivilDayBounds date location with Ok (Some _) => component_days result u (format_days date) | _ => [] end.

(** What day [j] adds to the beginning of the period. *)
Definition beginning_on (location : Location) (start : Z) (j : nat) : Q :=
  let date := start + Z.of_nat j in
  if bool_decide (format_days date = q_From query) then sumQ beginning_of (existing_days location date) else 0%Q.
Definition begins_on (location : Location) (start : Z) (j : nat) : bool :=
  let date := start + Z.of_nat j in
  bool_decide (format_days date = q_From query) && existsb has_beginning (existing_days location date).

(** What is known after the first [i] days. *)
Record passed (location : Location) (start : Z) (i : nat) (rows : list DailyReturn) (p : periodTotals) : Prop := {
  ps_length : List.length rows = i;
  ps_rows j row : rows !! j = Some row → row_of_date location (start + Z.of_nat j) row;
  ps_return : (dval (periodReturn p) == sumQ exact_of rows)%Q;
  ps_beginning : (dval (periodBeginning p) == sumQ (beginning_on location start) (seq 0 i))%Q;
  ps_hasBeginning : hasPeriodBeginning p = existsb (begins_on location start) (seq 0 i);
  ps_currency : hasPeriodCurrency p = existsb (λ j,
    existsb (λ day, has_return day || has_beginning day) (existing_days location (start + Z.of_nat j))) (seq 0 i) }.

Lemma passed_step location start i rows p rows' p' : passed location start i rows p →
  period_day result u baseCurrency query location start (rows, p) i = Ok (rows', p') → passed location start (S i) rows' p'.
Proof.
  intros [H1 H2 H3 H4 H5 H6]. unfold period_day. set (date := start + Z.of_nat i).
  intros H. apply bind_Ok in H as ([[s e]|] & Eb & H).
  - destruct (fold_left _ _ _) as [d p1] eqn:Ef. apply component_totals in Ef as Hs.
    apply bind_Ok in H as (row & Er & H). injection H as <- <-.
    apply (daily_row_described _ _ _ _ _ _ _ _ _ _ Hs) in Er as [Ed Hrow].
    assert (He : existing_days location date = component_days result u (format_days date)) by (unfold existing_days; by rewrite Eb).
    pose proof Hs as [S1 _ _ _ S5 _ S7 S8 S9 S10]. cbn [dt_amount hasKnownAmount orb] in S1, S5.
    split.
    + rewrite length_app. cbn. lia.
    + intros j row' Hj. apply lookup_app_Some in Hj as [Hj|[Hle Hj]]; [by apply H2|].
      apply list_lookup_singleton_Some in Hj as [Hj <-]. replace j with i by lia. fold date. unfold row_of_date. by rewrite Eb.
    + rewrite sumQ_app, sumQ_cons, <-H3. cbn [sumQ foldr]. pose proof (rd_amount _ _ _ _ Hrow) as Ha. rewrite S5.
      unfold exact_of. destruct (existsb has_return _).
      * destruct Ha as (a & m & -> & _ & Ha & _). cbn [periodReturn]. rewrite dAdd_val, S7, Ha, S1, dval_dzero. ring.
      * destruct Ha as [-> _]. rewrite S7. ring.
    + rewrite seq_S, sumQ_app, sumQ_cons. cbn [sumQ foldr plus]. rewrite <-H4. unfold beginning_on. fold date. rewrite He.
      assert (periodBeginning (if hasKnownAmount d then mkPeriodTotals (dAdd (periodReturn p1) (dt_amount d)) (periodBeginning p1)
        (hasPeriodBeginning p1) (hasPeriodCurrency p1) else p1) = periodBeginning p1) as -> by by destruct (hasKnownAmount d).
      rewrite S8. ring.
    + rewrite seq_S, existsb_app. cbn [existsb plus]. rewrite <-H5, orb_false_r. unfold begins_on. fold date. rewrite He, <-S9.
      by destruct (hasKnownAmount d).
    + rewrite seq_S, existsb_app. cbn [existsb plus]. rewrite <-H6, orb_false_r. fold date. rewrite He, <-S10.
      by destruct (hasKnownAmount d).
  - injection H as <- <-. assert (He : existing_days location date = []) by (unfold existing_days; by rewrite Eb).
    split.
    + rewrite length_app. cbn. lia.
    + intros j row' Hj. apply lookup_app_Some in Hj as [Hj|[Hle Hj]]; [by apply H2|].
      apply list_lookup_singleton_Some in Hj as [Hj <-]. replace j with i by lia. fold date. unfold row_of_date. by rewrite Eb.
    + rewrite sumQ_app, sumQ_cons, <-H3. cbn. ring.
    + rewrite seq_S, sumQ_app, sumQ_cons. cbn [sumQ foldr plus]. rewrite <-H4. unfold beginning_on. fold date. rewrite He. case_match; cbn; ring.
    + rewrite seq_S, existsb_app. cbn [existsb plus]. rewrite <-H5, orb_false_r. unfold begins_on. fold date. rewrite He. cbn. by rewrite andb_false_r, orb_false_r.
    + rewrite seq_S, existsb_app. cbn [existsb plus]. rewrite <-H6, orb_false_r. fold date. rewrite He. cbn. by rewrite orb_false_r.
Qed.

Lemma passed_all location start n rows p :
  foldM (period_day result u baseCurrency query location start) ([], mkPeriodTotals dZero dZero false false) (seq 0 n) = Ok (rows, p) →
  passed location start n rows p.
Proof.
  revert rows p. induction n as [|n IH]; intros rows p.
  - intros [= <- <-]. split; try done; [rewrite dval_dzero; reflexivity|rewrite dval_dzero; reflexivity].
  - rewrite seq_S, foldM_app. destruct (foldM _ _ (seq 0 n)) as [[rows1 p1]|] eqn:E; [|done]. cbn [foldM plus].
    destruct (period_day _ _ _ _ _ _ (rows1, p1) n) as [[rows2 p2]|] eqn:E2; [|done]. intros [= <- <-].
    eapply passed_step; [by apply IH|exact E2].
Qed.

(** Only the first day of the range is the day it starts on. *)
Lemma first_date start i : ParseDate (q_From query) = Some start →
  bool_decide (format_days (start + Z.of_nat i) = q_From query) = bool_decide (i = O).
Proof.
  intros Hp. apply bool_decide_ext. rewrite <-(format_days_of_parse _ _ Hp). split; [|intros ->; f_equal; lia].
  intros H. apply format_days_inj in H. lia.
Qed.

Lemma begins_first location start n : ParseDate (q_From query) = Some start → (0 < n)%nat →
  existsb (begins_on location start) (seq 0 n) = existsb has_beginning (existing_days location start).
Proof.
  intros Hp Hn. destruct n as [|n]; [lia|]. cbn [seq existsb]. unfold begins_on at 1. rewrite (first_date start 0 Hp), Z.add_0_r.
  cbn [andb]. rewrite bool_decide_eq_true_2 by done. cbn [andb].
  assert (existsb (begins_on location start) (seq 1 n) = false) as ->; [|apply orb_false_r].
  apply not_true_iff_false. rewrite existsb_exists. intros (j & Hj & Hb). apply in_seq in Hj. unfold begins_on in Hb.
  by rewrite (first_date start j Hp), bool_decide_eq_false_2 in Hb by lia.
Qed.

Lemma beginning_first location start n : ParseDate (q_From query) = Some start → (0 < n)%nat →
  (sumQ (beginning_on location start) (seq 0 n) == sumQ beginning_of (existing_days location start))%Q.
Proof.
  intros Hp Hn. destruct n as [|n]; [lia|]. cbn [seq]. rewrite sumQ_cons. unfold beginning_on at 1.
  rewrite (first_date start 0 Hp), Z.add_0_r, bool_decide_eq_true_2 by done.
  rewrite (sumQ_zero (beginning_on location start)); [ring|]. intros j Hj. apply list_elem_of_In, in_seq in Hj. unfold beginning_on.
  by rewrite (first_date start j Hp), bool_decide_eq_false_2 by lia.
Qed.

(** Claim C11.  The returns of a period.  The range of the query has one row per date, in order;
    the row of a date that the household's zone skipped is empty, and every other one describes the
    components of the investment universe on that date: the exact and the rounded sum of their
    returns, the capital they begin with plus every flow weighted by the rest of its day, and, when
    all of them are complete and that capital is positive, the quotient to sixteen places; otherwise
    there is no rate.  The return of the period rounds the exact sum of the days, its capital is the
    beginning value of the first day, and its rate links the daily rates when at least half of the
    days have one. *)
Theorem finalizeAnalysisReturns_correct r :
  finalizeAnalysisReturns result u timezone baseCurrency query = Ok r →
  ∃ location start n,
    LoadLocation timezone = Some location ∧ analysisDateRange (q_From query) (q_To query) = Ok (start, Z.of_nat n) ∧
    List.length (DailyReturns r) = n ∧
    (∀ i row, DailyReturns r !! i = Some row → row_of_date location (start + Z.of_nat i) row) ∧
    (if existsb (λ i, existsb (λ day, has_return day || has_beginning day) (existing_days location (start + Z.of_nat i))) (seq 0 n)
     then ∃ m, pr_ReturnAmount r = Some m ∧ sm_units m = round_half_even (sumQ exact_of (DailyReturns r) * p10 4)
     else pr_ReturnAmount r = pr_ReturnAmount result) ∧
    (if existsb has_beginning (existing_days location start)
     then ∃ m, pr_InvestedCapital r = Some m ∧ sm_units m = round_half_even (sumQ beginning_of (existing_days location start) * p10 4)
     else pr_InvestedCapital r = pr_InvestedCapital result) ∧
    let rates := omap day_rate (DailyReturns r) in
    let rated := Z.of_nat (List.length rates) in
    pr_Coverage r = mkRateCoverage rated (Z.of_nat n) ∧
    match pr_ReturnRate r with
    | Some rate => 0 < rated ∧ Z.of_nat n <= 2 * rated ∧ (1 + dval rate == growth rates)%Q
    | None => rated = 0 ∨ 2 * rated < Z.of_nat n
    end.
Proof.
  unfold finalizeAnalysisReturns. destruct (LoadLocation timezone) as [location|]; [|done]. intros H.
  apply bind_Ok in H as ([start total] & Er & H). apply bind_Ok in H as ([rows p] & Ef & H).
  apply bind_Ok in H as (returnMoney & Em & H). apply bind_Ok in H as (beginningMoney & Eb & H).
  rewrite aggregate_link in H. injection H as <-. cbn [DailyReturns pr_ReturnAmount pr_InvestedCapital pr_Coverage pr_ReturnRate].
  assert (Hrange : ParseDate (q_From query) = Some start ∧ 1 <= total).
  { unfold analysisDateRange in Er. destruct (ParseDate (q_From query)) as [a|]; [|done]. destruct (ParseDate (q_To query)) as [b|]; [|done].
    destruct (_ || _) eqn:Ed; [done|]. injection Er as <- <-. apply orb_false_iff in Ed as [Ed _]. apply Z.ltb_ge in Ed. done. }
  destruct Hrange as [Hp Ht]. destruct (passed_all location start _ rows p Ef) as [H1 H2 H3 H4 H5 H6].
  exists location, start, (Z.to_nat total). rewrite H1, Z2Nat.id by lia.
  split_and!; [done|done|done|done| | |done|].
  - rewrite <-H6. destruct (hasPeriodCurrency p); [|by injection Em as <-]. apply bind_Ok in Em as (m & Em & [= <-]).
    exists m. split; [done|]. by rewrite (NewSignedMoney_units _ _ _ Em), H3.
  - rewrite (begins_first location start _ Hp) in H5 by lia. rewrite (beginning_first location start _ Hp) in H4 by lia.
    rewrite <-H5. destruct (hasPeriodBeginning p) eqn:Eh; [|by rewrite andb_false_r in Eb; injection Eb as <-].
    assert (hasPeriodCurrency p = true) as Hcur.
    { rewrite H6. apply existsb_exists. exists O. split; [apply in_seq; lia|]. rewrite Z.add_0_r. symmetry in H5.
      apply existsb_exists in H5 as (day & Hd & Hb). apply existsb_exists. exists day. split; [done|]. rewrite Hb. apply orb_true_r. }
    rewrite Hcur in Eb. cbn [andb] in Eb. apply bind_Ok in Eb as (m & Eb & [= <-]).
    exists m. split; [done|]. by rewrite (NewSignedMoney_units _ _ _ Eb), H4.
  - set (rated := Z.of_nat (List.length (omap day_rate rows))).
    destruct (_ || _) eqn:Eo.
    + apply orb_true_iff in Eo as [Eo|Eo]; [left; by apply Z.eqb_eq|right; apply Z.ltb_lt in Eo; lia].
    + apply orb_false_iff in Eo as [E1 E2]. apply Z.eqb_neq in E1. apply Z.ltb_ge in E2.
      split_and!; [unfold rated in *; lia|lia|]. rewrite GeometricLink_val. ring.
Qed.
End Series.

(** ** Civil days follow one another *)

Lemma cutoff_skips location c k : ∀ tries label, (k < tries)%nat →
  (∀ j, (j < k)%nat → ∃ e, ResolveCivilDateCutoff (utc_midnight (label - Z.of_nat j)) location = Fail e ∧ nonexistentHistoricalCivilDate e = true) →
  ResolveCivilDateCutoff (utc_midnight (label - Z.of_nat k)) location = Ok c → cutoff_at_or_before tries label location = Ok c.
Proof.
  induction k as [|k IH]; intros [|tries] label Hk Hskip Hc; try lia; cbn [cutoff_at_or_before].
  - rewrite Z.sub_0_r in Hc. by rewrite Hc.
  - destruct (Hskip O) as (e & He & Hn); [lia|]. rewrite Z.sub_0_r in He. rewrite He, Hn. apply IH; [lia| |].
    + intros j Hj. replace (label - 1 - Z.of_nat j) with (label - Z.of_nat (S j)) by lia. apply Hskip. lia.
    + by replace (label - 1 - Z.of_nat k) with (label - Z.of_nat (S k)) by lia.
Qed.

(** A civil day begins at the instant at which the last existing day before it ended, over at most
    two skipped dates: no instant lies between two days of the analysis. *)
Lemma civil_days_tile location date k s e s' e' : (k <= 2)%nat →
  analysisCivilDayBounds date location = Ok (Some (s, e)) →
  (∀ j, (j < k)%nat → analysisCivilDayBounds (date + 1 + Z.of_nat j) location = Ok None) →
  analysisCivilDayBounds (date + 1 + Z.of_nat k) location = Ok (Some (s', e')) → s' = e ∧ s < e < e'.
Proof.
  intros Hk Hd Hskip Hd'. unfold analysisCivilDayBounds in Hd, Hd'.
  destruct (ResolveCivilDateCutoff (utc_midnight date) location) as [c|err] eqn:Ec; [|by destruct (nonexistentHistoricalCivilDate err)].
  destruct (ResolveCivilDateCutoff (utc_midnight (date + 1 + Z.of_nat k)) location) as [c'|err]; [|by destruct (nonexistentHistoricalCivilDate err)].
  apply bind_Ok in Hd as (p & _ & Hd), Hd' as (p' & Hp' & Hd').
  destruct (p + Millisecond <? c + Millisecond) eqn:E1; cbn [negb] in Hd; [|done].
  destruct (p' + Millisecond <? c' + Millisecond) eqn:E2; cbn [negb] in Hd'; [|done]. injection Hd as <- <-. injection Hd' as <- <-.
  apply Z.ltb_lt in E1, E2. unfold analysisCivilDateCutoffAtOrBefore in Hp'.
  assert (Hc : cutoff_at_or_before 3 (date + 1 + Z.of_nat k - 1) location = Ok c).
  { apply (cutoff_skips location c k); [lia| |by replace (date + 1 + Z.of_nat k - 1 - Z.of_nat k) with date by lia].
    intros j Hj. specialize (Hskip (k - 1 - j)%nat ltac:(lia)). unfold analysisCivilDayBounds in Hskip.
    replace (date + 1 + Z.of_nat (k - 1 - j)) with (date + 1 + Z.of_nat k - 1 - Z.of_nat j) in Hskip by lia.
    destruct (ResolveCivilDateCutoff (utc_midnight (date + 1 + Z.of_nat k - 1 - Z.of_nat j)) location) as [x|err].
    - apply bind_Ok in Hskip as (? & _ & Hskip). by destruct (negb _).
    - exists err. split; [done|]. by destruct (nonexistentHistoricalCivilDate err). }
  rewrite Hc in Hp'. injection Hp' as <-. lia.
Qed.
