(* ===== verification/ReviewSamples.v ===== *)
(** * Concrete votes, episodes and rules

    The theorems on investment reviews applied to a few days of votes, to an episode that
    recovers and opens again, and to a rule on an amount in euros. *)

From S2P Require Export ReviewLifecycleAgree ReviewDailyLaws DailyPricesLaws ReviewPosition.
From S2P Require Import ReviewPolicyLaws ReviewEpisodeLaws MarketDates QuoteSelect History ChangeState Portfolio Money DecimalModel ChangeSamples ReviewLifecycle.
From Stdlib Require Import String Ascii.

#[global] Open Scope Z_scope.

Module ReviewSample.
(** Days of March 2026. *)
Definition march (day : Z) : Z := days_of_civil 2026 3 day.
Definition votes_of (l : list (string * ReviewTruth)) : gmap string ReviewTruth := list_to_map l.

(** True, unknown, true, with a day missing in between. *)
Definition tut : list (string * ReviewTruth) :=
  [("2026-03-01"%string, ReviewTrue); ("2026-03-02"%string, ReviewUnknown); ("2026-03-04"%string, ReviewTrue)].
Lemma tut_chronology : chronology tut [march 1; march 2; march 4].
Proof.
  split; [repeat (constructor; [vm_compute; reflexivity|]); constructor|]. split; [|by repeat constructor].
  repeat (constructor; [|repeat (constructor; [vm_compute; reflexivity|]); constructor]). constructor.
Qed.

Definition two_of_four : ReviewTriggerPolicy := mkTriggerPolicy "rolling" 0 4 2.

Lemma EvaluateReviewPolicy_correct_witness : ∃ w, EvaluateReviewPolicy two_of_four "2026-03-04" (votes_of tut) = Ok w ∧
  Truth w = ReviewTrue ∧ ∀ g, resolves (vote (votes_of tut)) g → triggered two_of_four g (march 4).
Proof.
  destruct (EvaluateReviewPolicy_correct two_of_four two_of_four "2026-03-04" (march 4) (votes_of tut)) as (w & E & Ht & _);
    [reflexivity|vm_compute; reflexivity|intros m; exact (chronology_valid _ _ m tut_chronology)|].
  assert (H0 : match EvaluateReviewPolicy two_of_four "2026-03-04" (votes_of tut) with Ok w => Truth w | Fail _ => ReviewFalse end = ReviewTrue)
    by (vm_compute; reflexivity).
  rewrite E in H0. exists w. split; [done|]. split; [done|]. by apply Ht.
Defined.

Lemma EvaluateReviewPolicyTimeline_agrees_witness : ∃ windows w, EvaluateReviewPolicyTimeline two_of_four tut = Ok windows ∧
  windows !! "2026-03-04"%string = Some w ∧ EvaluateReviewPolicy two_of_four "2026-03-04" (votes_of tut) = Ok w.
Proof.
  destruct (EvaluateReviewPolicyTimeline_agrees two_of_four two_of_four tut [march 1; march 2; march 4] eq_refl tut_chronology)
    as (windows & E & _ & H); [by vm_compute; intros [H|[H|[H|H%elem_of_nil]%elem_of_cons]%elem_of_cons]%elem_of_cons|].
  destruct (H "2026-03-04"%string) as (w & H1 & H2); [by apply (list_elem_of_lookup_2 _ 2)|].
  exists windows, w. exact (conj E (conj H1 H2)).
Defined.

(** An episode that was acknowledged, a day that is proven false, and a true one after it. *)
Definition tft : list (string * ReviewTruth) :=
  [("2026-03-01"%string, ReviewTrue); ("2026-03-02"%string, ReviewFalse); ("2026-03-03"%string, ReviewTrue)].
Lemma tft_chronology : chronology tft [march 1; march 2; march 3].
Proof.
  split; [repeat (constructor; [vm_compute; reflexivity|]); constructor|]. split; [|by repeat constructor].
  repeat (constructor; [|repeat (constructor; [vm_compute; reflexivity|]); constructor]). constructor.
Qed.
Definition noon (day : Z) : Time := utc_midnight (march day) + 12 * Hour.
Definition seen : ReviewEpisodeIdentity := mkEpisode "e1" "2026-03-01" (noon 2) (Some (noon 2)) None "".

Lemma AdvanceReviewEpisode_correct_witness : ∃ d,
  AdvanceReviewEpisode "2026-03-01" "2026-03-03" (votes_of tft) true true false (Some seen) "e2" (noon 4) = Ok d ∧
  dc_Closed d = Some (resolved seen (noon 4) "recovered") ∧ dc_State d = ReviewTrue.
Proof.
  destruct (AdvanceReviewEpisode_correct (votes_of tft) "2026-03-01" "2026-03-03" (march 1) (march 3) true true false "e2" (noon 4) (Some seen))
    as (d & E & [Hc _] & Hs); [vm_compute; reflexivity|vm_compute; reflexivity|vm_compute; discriminate| |done|vm_compute; discriminate| |].
  - intros m. exact (chronology_valid _ _ m tft_chronology).
  - intros e [= <-]. vm_compute. reflexivity.
  - exists d. split; [done|]. split; [|rewrite Hs; vm_compute; reflexivity].
    apply (Hc (march 1)); [vm_compute; reflexivity|]. eexists. split; [|reflexivity].
    apply closes_recovered with (march 2); [done|done|vm_compute; split; discriminate|vm_compute; reflexivity].
Defined.

(** ** Rules *)

#[export] Instance codec : ReviewCodec := {|
  MarshalNode node := match rn_Leaf node with
    | Some leaf => (rl_Metric leaf +:+ rl_Operator leaf +:+ rl_Value leaf)%string | None => ""%string end;
  SpecDigest _ := "digest"%string |}.

Definition amount_above (value : string) : ReviewPredicateNode :=
  mkNode None None (Some (mkLeaf "amount" ">" value "EUR" "native" 0 [] [])).
Definition week_loss : ReviewPredicateNode := mkNode None None (Some (mkLeaf "price_change" "<" "-5" "" "" 7 [] [])).
Definition large_or_falling : ReviewRuleSpec :=
  mkSpec 1 ReviewMetricPolicyVersion ReviewEvaluator (mkTarget "all_current" [])
    (mkNode None (Some [amount_above "100.50"; week_loss]) None)
    (mkRuleSchedule "calendar_day" "UTC" ReviewCutoffVersion) single_policy DefaultReviewRuleDataPolicy.

(** The performance of the week is not known. *)
Definition held_fund (amount : string) : ReviewDailyInput :=
  mkDailyInput "2026-03-03" "i1" "" (Some "2"%string) (Some "etf"%string) (Some "EUR"%string) (Some amount) None ∅ ∅.

Lemma EvaluateReviewDaily_correct_witness : ∃ r normal, EvaluateReviewDaily large_or_falling (held_fund "100.51") = Ok r ∧
  NormalizeRuleSpec large_or_falling = Ok normal ∧ dr_Truth r = ReviewTrue ∧
  ∀ g, respects (held_fund "100.51") normal g → holds g (Predicate normal) = true.
Proof.
  destruct (is_ok_some (EvaluateReviewDaily large_or_falling (held_fund "100.51"))) as [r Er]; [vm_compute; reflexivity|].
  destruct (is_ok_some (NormalizeRuleSpec large_or_falling)) as [normal En]; [vm_compute; reflexivity|].
  assert (H0 : match EvaluateReviewDaily large_or_falling (held_fund "100.51") with Ok r => dr_Truth r | Fail _ => ReviewFalse end = ReviewTrue)
    by (vm_compute; reflexivity).
  rewrite Er in H0. exists r, normal. do 3 (split; [done|]).
  apply (proj1 (EvaluateReviewDaily_correct large_or_falling normal (held_fund "100.51") r Er En)). done.
Defined.

(** Below the amount, the rule stays unknown. *)
Example unknown_loss : match EvaluateReviewDaily large_or_falling (held_fund "100.50") with Ok r => Some (dr_Truth r) | Fail _ => None end
  = Some ReviewUnknown.
Proof. vm_compute. reflexivity. Qed.

(** ** Plans of episodes *)

Definition window (on : string) (truth : ReviewTruth) : ReviewPolicyWindow := mkPolicyWindow truth on on 0 0 0 0.
Definition planned (on : string) (truth : ReviewTruth) : ReviewPlannedDay :=
  mkPlannedDay on (held_fund "1") (mkReviewCoverage on []) (mkDailyResult on truth []) (window on truth) "".
Definition rule : ReviewRule := mkRule "r1" "home" "Loss" true "notice" ReviewEvaluator 1 1 large_or_falling "digest" 0 0 None.
Definition stored : ReviewStoredEpisode :=
  mkStored "e1" "r1" "i1" "epoch" 1 "2026-03-01" "2026-03-01" (window "2026-03-01" ReviewTrue) None [] (noon 2) (Some (noon 2)) 1.
Definition captured (episodes : list ReviewStoredEpisode) : ReviewProjectionCapture :=
  mkCapture "history" (mkControl true 0 0 0 "complete" "2026-03-02" "history" "") episodes.

Definition published : list ReviewPlannedDay := [planned "2026-03-01" ReviewTrue; planned "2026-03-02" ReviewUnknown].
Definition plan_of (days : list ReviewPlannedDay) (latest : string) : ReviewRuleInstrumentPlan :=
  mkPlan "r1" 1 "i1" latest days (window latest ReviewTrue) None [] true 0 0 "2026-03-02"
    (mkPosition true "" "2" [mkEpoch None None None None true]) ["epoch"%string] None.
Definition recovering : ReviewRuleInstrumentPlan :=
  plan_of [planned "2026-03-03" ReviewFalse; planned "2026-03-04" ReviewTrue] "2026-03-04".

Lemma recovering_continues : continues (captured [stored]) rule recovering "e2" published (march 1) (march 2) (march 4).
Proof.
  split; [reflexivity|reflexivity| |vm_compute; reflexivity|vm_compute; reflexivity|done|vm_compute; reflexivity|vm_compute; reflexivity
    |by repeat constructor|vm_compute; reflexivity| | |done].
  - intros i d Hi. repeat (destruct i as [|i]; [injection Hi as <-; vm_compute; reflexivity|]). done.
  - intros s Hs _. apply list_elem_of_singleton in Hs as ->. exists (march 1). split; [vm_compute; reflexivity|].
    split; [vm_compute; split; discriminate|]. split; [vm_compute; reflexivity|]. intros m Hm.
    assert (E : march 2 = march 1 + 1) by (vm_compute; reflexivity). rewrite E in Hm.
    destruct (Z.eq_dec m (march 1)) as [->|]; [vm_compute; discriminate|]. replace m with (march 1 + 1) by lia. vm_compute. discriminate.
  - intros s Hs. apply list_elem_of_singleton in Hs as ->. done.
Qed.

Lemma PlanReviewLifecycle_incremental_agrees_witness :
  PlanReviewLifecycle (captured [stored]) rule (replayed published recovering) (noon 5) "e2" =
  PlanReviewLifecycle (captured [stored]) rule recovering (noon 5) "e2" ∧
  match PlanReviewLifecycle (captured [stored]) rule recovering (noon 5) "e2" with
  | Ok l => (TriggeredOn <$> lc_Current l, ResolvedReason <$> lc_Closed l, lc_Opened l)
  | Fail _ => (None, [], false) end = (Some "2026-03-04"%string, ["recovered"%string], true).
Proof.
  split; [|vm_compute; reflexivity].
  apply (PlanReviewLifecycle_incremental_agrees (captured [stored]) rule recovering (noon 5) "e2" published (march 1) (march 2) (march 4)
    recovering_continues).
  intros epoch id E. vm_compute in E. injection E as <- <-. exists (march 1). split; [vm_compute; reflexivity|].
  split; [vm_compute; split; discriminate|]. split; [vm_compute; discriminate|]. left. exists stored.
  split; [by left|]. split; vm_compute; reflexivity.
Defined.

Lemma PlanReviewLifecycle_conserves_witness : ∃ l,
  PlanReviewLifecycle (captured [stored]) rule recovering (noon 5) "e2" = Ok l ∧ Actionable l = true ∧
  accounted (noon 5) "e2" l (stored_here (captured [stored]) rule recovering) ∧
  ∃ e, lc_Current l = Some e ∧ AcknowledgedAt e = None.
Proof.
  destruct (is_ok_some (PlanReviewLifecycle (captured [stored]) rule recovering (noon 5) "e2")) as [l E]; [vm_compute; reflexivity|].
  assert (Ha : match PlanReviewLifecycle (captured [stored]) rule recovering (noon 5) "e2" with Ok l => Actionable l | Fail _ => false end = true)
    by (vm_compute; reflexivity).
  rewrite E in Ha. exists l. split; [done|]. split; [done|].
  destruct (PlanReviewLifecycle_conserves (captured [stored]) rule recovering (noon 5) "e2" l E) as [H1 H2]. split; [done|].
  destruct (H2 Ha) as (e & He & Hack & _). by exists e.
Defined.

(** A true day, an unknown one that closes a publication, and a true day after it:
    going on dates the episode from the last day, a replay of the same days from the first. *)
Lemma pending_verdict_misdated :
  let going_on := plan_of [planned "2026-03-03" ReviewTrue] "2026-03-03" in
  let trigger plan := match PlanReviewLifecycle (captured []) rule plan (noon 4) "e2" with
    | Ok l => TriggeredOn <$> lc_Current l | Fail _ => None end in
  trigger going_on = Some "2026-03-03"%string ∧ trigger (replayed published going_on) = Some "2026-03-01"%string.
Proof. vm_compute. split; reflexivity. Qed.

(** ** Prices *)

Definition etf : Instrument :=
  mkInstrument "i1" "home" "A fund" "" InstrumentETF "" "share" "EUR" None (Some "NYSE"%string) (Some "US"%string) None None None 0
    QuoteSourceProvider (Some "yahoo_finance"%string) (Some "GLD"%string) 1 None 0 0 None.
Definition close (id on : string) (source : QuoteSourceKind) (coefficient : Z) : InstrumentQuote :=
  mkInstrumentQuote id "i1" (mkUnitPrice (dNew coefficient (-2))) "EUR" source "yahoo_finance" (noon 2) (noon 2)
    false "close" on 0 0 (noon 2) 1 "yahoo_close_v1" "yahoo_close_v1" "session_close" 1 None "" "" "".

(** Two prices of the same day: the manual one ranks higher. *)
Definition closes : list InstrumentQuote :=
  [close "q3" "2026-03-08" QuoteSourceProvider 11000; close "q1" "2026-03-01" QuoteSourceProvider 10000;
   close "q4" "2026-03-08" QuoteSourceManual 12100; close "q2" "2026-02-27" QuoteSourceProvider 9000].
Definition series : ReviewDailyQuoteSeries := NewReviewDailyQuoteSeries "i1" closes [].

Lemma closes_unique : same_record iq_ID closes.
Proof.
  intros p q Hp Hq E. unfold closes in Hp, Hq. rewrite !elem_of_cons, elem_of_nil in Hp, Hq.
  destruct Hp as [->|[->|[->|[->|[]]]]], Hq as [->|[->|[->|[->|[]]]]]; try reflexivity; discriminate E.
Qed.

Lemma dailyPerformanceQuotes_correct_witness :
  iq_ID <$> dailyPerformanceQuotes closes = ["q2"; "q1"; "q4"]%string ∧
  dailyPerformanceQuotes (rev closes) = dailyPerformanceQuotes closes.
Proof.
  split; [vm_compute; reflexivity|].
  exact (proj2 (proj2 (dailyPerformanceQuotes_correct closes closes_unique)) (rev closes) (Permutation_rev closes)).
Defined.

Lemma series_days : on_days (ds_points series) [days_of_civil 2026 2 27; march 1; march 8].
Proof.
  split.
  - apply (Forall2_fmap_l iq_EffectiveDate is_date).
    assert (E : iq_EffectiveDate <$> ds_points series = ["2026-02-27"; "2026-03-01"; "2026-03-08"]%string) by (vm_compute; reflexivity).
    rewrite E. repeat (constructor; [vm_compute; reflexivity|]). constructor.
  - repeat (constructor; [|repeat (constructor; [vm_compute; reflexivity|]); constructor]). constructor.
Qed.

Definition gained (item : QuotePerformance + string) : option (string * Z * string) :=
  match item with inl item => Some (BaselineOn item, ElapsedDays item, PeriodPercent item) | inr _ => None end.

Lemma found : ∃ item, ResolveDailyPerformance series etf "2026-03-08" 7 7 = inl item ∧ gained (inl item) = Some ("2026-03-01"%string, 7, "21"%string).
Proof.
  assert (H : gained (ResolveDailyPerformance series etf "2026-03-08" 7 7) = Some ("2026-03-01"%string, 7, "21"%string)) by (vm_compute; reflexivity).
  destruct (ResolveDailyPerformance series etf "2026-03-08" 7 7) as [item|]; [by exists item|discriminate H].
Qed.

Lemma ResolveDailyPerformance_correct_witness :
  ∃ item, PeriodPercent item = "21"%string ∧ evidence series etf "2026-03-08" (march 8) 7 7 item.
Proof.
  destruct found as (item & E & Hg). exists item. split; [cbn in Hg; congruence|].
  apply (ResolveDailyPerformance_correct series etf _ series_days "2026-03-08" (march 8) ltac:(vm_compute; reflexivity) 7 7 item);
    [vm_compute; discriminate|exact E].
Defined.

Definition week_gain : ReviewRuleLeaf := mkLeaf "price_change" ">=" "21" "" "" 7 [] [].
Definition on_eighth (item : QuotePerformance) : ReviewDailyInput :=
  mkDailyInput "2026-03-08" "i1" "" (Some "2"%string) (Some "etf"%string) (Some "EUR"%string) None None {[7 := item]} ∅.

Lemma price_change_decided_witness : ∃ item e actual, evaluateReviewLeaf week_gain (on_eighth item) large_or_falling = Ok e ∧
  le_Truth e = reviewBool (reviewCompare actual (threshold week_gain) ">=").
Proof.
  destruct found as (item & E & _).
  destruct (price_change_decided series etf _ series_days week_gain (on_eighth item) large_or_falling (march 8) item)
    as (e & actual & _ & _ & _ & H1 & _ & _ & H2 & _);
    [vm_compute; reflexivity|vm_compute; discriminate|reflexivity|exact E|apply lookup_singleton_eq|].
  exists item, e, actual. exact (conj H1 H2).
Defined.

(** ** A position that is sold, and held again after a transfer *)

Definition units_of (n : Z) : Quantity := mkQuantity (dInt n).
Definition leg (d : EffectDirection) (holding : HoldingID) (n : Z) : ActivityEffect :=
  mkEffect "f" "a" 1 EffectRoleQuantity d EffectTargetHoldingQuantity ClassificationTradePrincipal None (Some holding) (Some "i1"%string)
    None (Some (units_of n)) None.
Definition moved (id : ActivityID) (at_ : Time) (effects : list ActivityEffect) : Activity :=
  mkActivity id "hh" ActivitySell ReasonEmpty at_ "" at_ None None None None None None [] effects None.
Definition held_since (id : HoldingID) (n : Z) (at_ : Time) : Holding := mkHolding id "acc" "i1" (units_of n) None 0 at_ at_ None.

Definition sold_and_bought : HistoricalSnapshotBatch := mkBatch
  (mkOrigin "o" "hh" "UTC" (noon 1) (noon 1))
  [mkComponent "c" "o" HistoryOriginHoldingQuantity (Some "acc"%string) (Some "h1"%string) (Some "i1"%string) None (Some (units_of 2)) None (noon 1)]
  [held_since "h1" 3 (noon 1); held_since "h2" 0 (noon 4)]
  [moved "moved" (noon 6) [leg EffectRemoved "h2" 3; leg EffectAdded "h1" 3]; moved "bought" (noon 5) [leg EffectAdded "h2" 3];
   moved "sold" (noon 3) [leg EffectRemoved "h1" 2]].

Definition shown_position (r : Result ReviewPositionTimeline) : option (bool * string * string * list (option Time * option Time)) :=
  match r with
  | Ok t => Some (pt_Known t, pt_Reason t, pt_Quantity t, (λ e, (OpenedAt e, ClosedAt e)) <$> Epochs t)
  | Fail _ => None
  end.

(** The transfer neither closes nor opens an epoch. *)
Example position_epochs : shown_position (ProjectReviewPositionTimeline sold_and_bought "i1" (noon 9)) =
  Some (true, ""%string, "3"%string, [(None, Some (noon 3)); (Some (noon 5), None)]).
Proof. vm_compute. reflexivity. Qed.

Lemma sold_and_bought_valid : baselines_valid sold_and_bought.
Proof. intros c q Hc Hq. apply list_elem_of_singleton in Hc as ->. injection Hq as <-. vm_compute. reflexivity. Qed.

Lemma ProjectReviewPositionTimeline_correct_witness : ∃ t,
  ProjectReviewPositionTimeline sold_and_bought "i1" (noon 9) = Ok t ∧ pt_Quantity t = "3"%string ∧
  ¬ (0 < quantity_at sold_and_bought "i1" (noon 9) (noon 4))%Q ∧ ∃ e, e ∈ Epochs t ∧ covers e (noon 5).
Proof.
  destruct (is_ok_some (ProjectReviewPositionTimeline sold_and_bought "i1" (noon 9))) as [t E]; [vm_compute; reflexivity|].
  assert (H0 : match ProjectReviewPositionTimeline sold_and_bought "i1" (noon 9) with Ok t => (pt_Known t, pt_Quantity t) | Fail _ => (false, ""%string) end
    = (true, "3"%string)) by (vm_compute; reflexivity).
  rewrite E in H0. injection H0 as Hk Hq. exists t. split; [done|]. split; [done|].
  destruct (ProjectReviewPositionTimeline_correct sold_and_bought "i1" (noon 9) t sold_and_bought_valid E Hk) as (_ & Hc & _).
  split; [vm_compute; discriminate|]. apply Hc. vm_compute. reflexivity.
Defined.

Lemma ProjectReviewPositionTimeline_unknown_witness : ∃ t, ProjectReviewPositionTimeline sold_and_bought "i1" (noon 1) = Ok t ∧
  pt_Reason t = "history_origin"%string ∧ pt_Quantity t = ""%string.
Proof.
  exists (unknown "history_origin" []). split; [reflexivity|]. split; [reflexivity|].
  pose proof (ProjectReviewPositionTimeline_unknown sold_and_bought "i1" (noon 1) sold_and_bought_valid) as H.
  change (ProjectReviewPositionTimeline sold_and_bought "i1" (noon 1)) with (Ok (unknown "history_origin" [])) in H.
  exact (proj1 (H eq_refl)).
Defined.
End ReviewSample.
