(* ===== verification/AnalysisBridge.v ===== *)
(** * The bridges of a day

    The part of [analysis_daily.go] of the application that explains how the value of a component
    moved within a day: the change of prices and the change of exchange rates, walked from the
    opening position over the trades of the day, in exact rationals.  With the quotes that the
    snapshots name and the helpers on signed values. *)

From S2P Require Export AnalysisReturn QuoteSelect.
From S2P Require Import Portfolio ChangeState Accounts Fx DecimalModel.
From Stdlib Require Import String Ascii Qreduction.

#[global] Open Scope Z_scope.

(** ** Buckets *)

Inductive AttributionBucket :=
| BucketExternalFlow | BucketIncome | BucketSpending | BucketDividendInterest | BucketPriceChange | BucketFXImpact
| BucketFXConversionSpread | BucketFee | BucketLiabilityImpact | BucketAdjustment | BucketResidual.
#[export] Instance AttributionBucket_eq_dec : EqDecision AttributionBucket.
Proof. solve_decision. Defined.

Inductive ReturnComponent :=
| ReturnPriceChange | ReturnFXImpact | ReturnFXConversionSpread | ReturnDividendInterest | ReturnInvestmentFee.
#[export] Instance ReturnComponent_eq_dec : EqDecision ReturnComponent.
Proof. solve_decision. Defined.

(** [!=] on a map of first occurrences: the loop of [indexStampedQuotes]. *)
Definition index_first {K A} `{Countable K} (key : A → K) (l : list A) : gmap K A :=
  fold_left (λ m x, match m !! key x with Some _ => m | None => <[key x := x]> m end) l ∅.

Section Bridge.
Context `{HD : DecimalAPI} `{HM : MetalEvidence}.

(** ** Records *)

(** The fields of [DailyValuationSnapshotItem] that an analysis reads. *)
Record DailyValuationSnapshotItem := mkItem {
  it_AccountID : AccountID; it_HoldingID : option HoldingID; it_InstrumentID : option InstrumentID;
  it_NativeAmount : string; it_NativeCurrency : CurrencyCode; it_BaseAmount : option Money; it_BaseAmountExact : string;
  it_QuoteID : option string; it_FXQuoteID : option string; it_Complete : bool; it_MissingReason : option string }.

Record classifiedAnalysisEffect := mkClassified {
  ce_activity : Activity; ce_effect : ActivityEffect; ce_component : ComponentID;
  ce_bucket : option AttributionBucket; ce_amount : Decimal; ce_amountKnown : bool;
  ce_returnComponent : option ReturnComponent; ce_returnAmount : Decimal; returnKnown : bool;
  dietzAmount : Decimal; dietzKnown : bool; potentialDietzAmount : Decimal; potentialDietzKnown : bool;
  neutral : bool; relatedHolding : option HoldingID; relatedInstrument : option InstrumentID }.

(** The household, the preferences and the quotes of [AnalysisInputs]. *)
Record AnalysisInputs := mkAnalysisInputs {
  ai_HouseholdID : HouseholdID; ai_base : CurrencyCode; ai_FXPreferences : list FXPreference;
  ai_InstrumentQuotes : list InstrumentQuote; ai_FXQuotes : list FXQuote }.

(** The accounts and the indexed quotes of [analysisUniverse]; [None] is a nil map. *)
Record analysisMaps := mkMaps {
  u_accounts : gmap AccountID Account;
  stampedQuotes : option (gmap (string * InstrumentID * CurrencyCode) InstrumentQuote);
  stampedFXQuotes : option (gmap string FXQuote) }.

Record holdingBridge := mkBridge {
  br_price : Decimal; br_fx : Decimal; exactPrice : option Q; exactFX : option Q; br_partial : bool }.
Definition empty_bridge (partial : bool) : holdingBridge := mkBridge dUnset dUnset None None partial.

(** ** Signed values *)

Definition signedDirection (direction : EffectDirection) (amt : Decimal) : Decimal :=
  if bool_decide (direction = EffectRemoved) then dNeg amt else amt.

(** An account that is not in the map is the zero [Account], which is no liability. *)
Definition is_liability (u : analysisMaps) (id : AccountID) : bool :=
  match u_accounts u !! id with Some a => IsLiability a | None => false end.
Definition signedForAccount (value : Decimal) (liability : bool) : Decimal := if liability then dNeg value else value.

Definition parse_decimal (s : string) : Result Decimal :=
  match dNewFromString s with Some d => Ok d | None => Fail (OtherErr "decimal") end.

Definition snapshotItemValue (item : DailyValuationSnapshotItem) (liability : bool) (valuation : Valuation) : Result (option Decimal) :=
  if negb (it_Complete item) then Ok None
  else if bool_decide (valuation = ValuationNative) then
    if bool_decide (it_NativeAmount item = ""%string) then Ok None
    else value ← parse_decimal (it_NativeAmount item); Ok (Some (signedForAccount value liability))
  else if negb (bool_decide (it_BaseAmountExact item = ""%string)) then
    value ← parse_decimal (it_BaseAmountExact item); Ok (Some (signedForAccount value liability))
  else Ok ((λ m, signedForAccount (amount m) liability) <$> it_BaseAmount item).

Definition valueCurrency (item : DailyValuationSnapshotItem) (valuation : Valuation) (baseCurrency : CurrencyCode) : CurrencyCode :=
  if bool_decide (valuation = ValuationNative) && negb (bool_decide (it_NativeCurrency item = ""%string))
  then it_NativeCurrency item else baseCurrency.

Definition zeroValuationItem (component : ComponentID) (template : DailyValuationSnapshotItem) : DailyValuationSnapshotItem :=
  mkItem (cid_AccountID component) (cid_HoldingID component) (cid_InstrumentID component) "0"
    (if bool_decide (cid_Currency component = ""%string) then it_NativeCurrency template else cid_Currency component)
    None "0" None None true None.

Definition residualTolerance (cur : CurrencyCode) (beginning : Decimal) : Decimal :=
  let floor := dNew 2 (- CurrencyFractionDigits cur) in
  let relative := dMul (dAbs beginning) (dNew 1 (-9)) in
  if dGreaterThan relative floor then relative else floor.

(** [decimalAtMoneyBoundary]: truncated division of the scaled numerator, then the remainder decides. *)
Definition exactMoneyScale : Z := 4.
Definition decimalAtMoneyBoundary (value : option Q) : Decimal :=
  match value with
  | None => dZero
  | Some v =>
    if Qeq_bool v 0 then dZero
    else
      let num := Qnum (Qred v) * 10 ^ exactMoneyScale in
      let den := Zpos (Qden (Qred v)) in
      let quotient := Z.quot num den in
      let comparison := 2 * Z.abs (Z.rem num den) ?= den in
      let up := match comparison with Gt => true | Eq => Z.odd quotient | Lt => false end in
      let quotient := if up then (if Qnum (Qred v) <? 0 then quotient - 1 else quotient + 1) else quotient in
      dNew quotient (- exactMoneyScale)
  end.

Definition newSignedRational (value : Q) (cur : CurrencyCode) : Result SignedMoney :=
  _ ← CheckExactMoneyRange (Some value); NewSignedMoney (decimalAtMoneyBoundary (Some value)) cur.
Definition analysisRationalDecimal (value : Q) : Result Decimal := ExactFXIntermediateDecimal (Some value).

(** ** Quotes *)

Definition in_pair (p : FXPreference) (native base : CurrencyCode) : bool :=
  (bool_decide (CurrencyA p = native) && bool_decide (CurrencyB p = base)) ||
  (bool_decide (CurrencyA p = base) && bool_decide (CurrencyB p = native)).

Definition fx_usable (preferred : option QuoteSourceKind) (householdID : HouseholdID) (native base : CurrencyCode)
    (cutoff : Time) (q : FXQuote) : bool :=
  if negb (bool_decide (fq_HouseholdID q = householdID)) || (cutoff <? fq_QuotedAt q) ||
     match preferred with Some p => negb (quoteSourceAllowed p (fq_SourceKind q)) | None => false end
  then false else same_pair q native base.

Definition fxQuoteAt (quotes : list FXQuote) (preferences : list FXPreference) (householdID : HouseholdID)
    (native base : CurrencyCode) (cutoff : Time) : option FXQuote :=
  let preferred := fp_SourceKind <$>
    List.find (λ p, bool_decide (fp_HouseholdID p = householdID) && in_pair p native base) preferences in
  sel_selected (fold_left (λ s q, if fx_usable preferred householdID native base cutoff q then sel_add s q (fxQuoteOrder q) else s)
    quotes emptySelection).

Definition stamp_key (q : InstrumentQuote) : string * InstrumentID * CurrencyCode := (iq_ID q, iq_InstrumentID q, iq_Currency q).
Definition indexStampedQuotes (u : analysisMaps) (input : AnalysisInputs) : analysisMaps :=
  mkMaps (u_accounts u) (Some (index_first stamp_key (ai_InstrumentQuotes input))) (Some (index_first fq_ID (ai_FXQuotes input))).

Definition price_usable (instrumentID : InstrumentID) (cutoff : Time) (q : InstrumentQuote) : bool :=
  bool_decide (iq_InstrumentID q = instrumentID) && negb (cutoff <? iq_QuotedAt q).

Definition quoteForItem (u : analysisMaps) (item : DailyValuationSnapshotItem) (quotes : list InstrumentQuote) (cutoff : Time)
    : option InstrumentQuote :=
  match it_InstrumentID item with
  | None => None
  | Some instrumentID =>
    match it_QuoteID item with
    | Some id =>
      match stampedQuotes u with
      | Some stamped => stamped !! (id, instrumentID, it_NativeCurrency item)
      | None => List.find (λ q, bool_decide (iq_ID q = id) && bool_decide (iq_InstrumentID q = instrumentID) &&
                                bool_decide (iq_Currency q = it_NativeCurrency item)) quotes
      end
    | None => sel_selected (fold_left (λ s q, if price_usable instrumentID cutoff q then sel_add s q (instrumentQuoteOrder q) else s)
                quotes emptySelection)
    end
  end.

Definition stamped_pair (householdID : HouseholdID) (native base : CurrencyCode) (q : option FXQuote) : option FXQuote * bool :=
  match q with
  | Some q => if bool_decide (fq_HouseholdID q = householdID) && same_pair q native base then (Some q, true) else (None, false)
  | None => (None, false)
  end.

Definition fxQuoteForItem (u : analysisMaps) (item : DailyValuationSnapshotItem) (input : AnalysisInputs) (cutoff : Time)
    : option FXQuote * bool :=
  let base := ai_base input in
  if bool_decide (it_NativeCurrency item = base) then (None, true)
  else match it_FXQuoteID item with
  | Some id =>
    stamped_pair (ai_HouseholdID input) (it_NativeCurrency item) base
      match stampedFXQuotes u with
      | Some stamped => stamped !! id
      | None => List.find (λ q, bool_decide (fq_ID q = id)) (ai_FXQuotes input)
      end
  | None =>
    let quote := fxQuoteAt (ai_FXQuotes input) (ai_FXPreferences input) (ai_HouseholdID input) (it_NativeCurrency item) base cutoff in
    (quote, negb (is_none quote))
  end.

(** ** Conversions; [None] is an amount that is not available *)

Definition convertAtFXQuote (amt : Decimal) (native base : CurrencyCode) (quote : option FXQuote) : Result (option Q) :=
  if bool_decide (native = base) then Ok (Some (RationalFromDecimal amt))
  else match quote with
  | None => Ok None
  | Some q => converted ← ConvertFXAmountExact amt native base q; Ok (Some converted)
  end.

Definition convertForAnalysis (amt : Decimal) (native base : CurrencyCode) (quote : option FXQuote) (valuation : Valuation)
    : Result (option Q) :=
  if bool_decide (valuation = ValuationNative) then Ok (Some (RationalFromDecimal amt)) else convertAtFXQuote amt native base quote.

Definition projectedHoldingBridge (price fx : Q) (partial : bool) : Result holdingBridge :=
  priceProjection ← analysisRationalDecimal price;
  fxProjection ← analysisRationalDecimal fx;
  Ok (mkBridge priceProjection fxProjection (Some price) (Some fx) partial).

(** ** Cash *)

Section Cash.
Variables (component : ComponentID) (u : analysisMaps) (input : AnalysisInputs).

(** The impact on an amount of moving from one rate to another; [None]: a rate is missing. *)
Definition fx_impact (native : Decimal) (fromQuote toQuote : option FXQuote) : Result (option Q) :=
  atTo ← convertAtFXQuote native (cid_Currency component) (ai_base input) toQuote;
  atFrom ← convertAtFXQuote native (cid_Currency component) (ai_base input) fromQuote;
  Ok (t ← atTo; f ← atFrom; Some (t - f)%Q).

Definition event_quote (cur : CurrencyCode) (at_ : Time) : option FXQuote * bool :=
  if bool_decide (cur = ai_base input) then (None, true)
  else let quote := fxQuoteAt (ai_FXQuotes input) (ai_FXPreferences input) (ai_HouseholdID input) cur (ai_base input) at_ in
       (quote, negb (is_none quote)).

Definition cash_target (e : ActivityEffect) : bool :=
  bool_decide (Target e = EffectTargetAccountCash) || bool_decide (Target e = EffectTargetAccountValue).

Definition cash_movement (e : ActivityEffect) (m : Money) : Decimal :=
  let native := signedDirection (Direction e) (amount m) in
  if is_liability u (cid_AccountID component) && bool_decide (Target e = EffectTargetAccountValue) then dNeg native else native.

(** The loop over the effects: the impact and [partial]; [None]: the bridge is only partial. *)
Fixpoint cash_loop (closeFXQuote : option FXQuote) (effects : list classifiedAnalysisEffect) (fxImpact : Q) (partial : bool)
    : Result (option (Q * bool)) :=
  match effects with
  | [] => Ok (Some (fxImpact, partial))
  | effect :: rest =>
    match ef_Money (ce_effect effect) with
    | None => cash_loop closeFXQuote rest fxImpact partial
    | Some m =>
      if negb (ce_amountKnown effect) then cash_loop closeFXQuote rest fxImpact true
      else if negb (cash_target (ce_effect effect)) then cash_loop closeFXQuote rest fxImpact partial
      else
        let '(eventFXQuote, eventOK) := event_quote (cid_Currency component) (EffectiveAt (ce_activity effect)) in
        if negb eventOK then Ok None
        else
          impact ← fx_impact (cash_movement (ce_effect effect) m) eventFXQuote closeFXQuote;
          match impact with
          | None => Ok None
          | Some impact => cash_loop closeFXQuote rest (fxImpact + impact)%Q partial
          end
    end
  end.

Definition computeCashBridge (previous current : DailyValuationSnapshotItem) (previousCutoff currentCutoff : Time)
    (effects : list classifiedAnalysisEffect) (valuation : Valuation) : Result holdingBridge :=
  let base := ai_base input in
  if bool_decide (valuation = ValuationNative) then Ok (empty_bridge false)
  else if bool_decide (it_NativeCurrency previous = base) && bool_decide (it_NativeCurrency current = base) then Ok (empty_bridge false)
  else if bool_decide (it_NativeAmount previous = ""%string) || bool_decide (it_NativeAmount current = ""%string)
  then Ok (empty_bridge true)
  else
    opening ← parse_decimal (it_NativeAmount previous);
    let opening := signedForAccount opening (is_liability u (cid_AccountID component)) in
    let '(openFXQuote, openOK) :=
      if negb (bool_decide (it_NativeCurrency previous = base)) && negb (dIsZero opening)
      then fxQuoteForItem u previous input previousCutoff else (None, true) in
    let '(closeFXQuote, closeOK) :=
      if negb (bool_decide (it_NativeCurrency current = base)) then fxQuoteForItem u current input currentCutoff else (None, true) in
    if negb closeOK || (negb openOK && negb (dIsZero opening)) then Ok (empty_bridge true)
    else
      openingAtClose ← convertAtFXQuote opening (cid_Currency component) base closeFXQuote;
      match openingAtClose with
      | None => Ok (empty_bridge true)
      | Some openingAtClose =>
        openingAtOpen ← (if dIsZero opening then Ok (Some 0%Q)
                         else convertAtFXQuote opening (cid_Currency component) base openFXQuote);
        match openingAtOpen with
        | None => Ok (empty_bridge true)
        | Some openingAtOpen =>
          walked ← cash_loop closeFXQuote effects (openingAtClose - openingAtOpen)%Q false;
          match walked with
          | None => Ok (empty_bridge true)
          | Some (fxImpact, partial) => projectedHoldingBridge 0 fxImpact partial
          end
        end
      end.
End Cash.

(** ** Holdings *)

Section Holding.
Variables (component : ComponentID) (u : analysisMaps) (input : AnalysisInputs) (valuation : Valuation).

Record segment := mkSegment { sg_quantity : Decimal; sg_price : Decimal; sg_quote : option FXQuote }.

Record walk := mkWalk { wk_segments : list segment; wk_expected : Decimal; transferredOut : Decimal; seenTrades : gset ActivityID }.

Definition on_holding (id : option HoldingID) : bool :=
  match id, cid_HoldingID component with Some a, Some b => bool_decide (a = b) | _, _ => false end.

Definition is_base : bool := bool_decide (valuation = ValuationBase).

(** A trade of the holding: walked once per activity. *)
Definition trade_step (w : walk) (a : Activity) (td : TradeDetail) : option walk :=
  let quantity := if bool_decide (td_Side td = TradeSell) then dNeg (q_value (td_Quantity td)) else q_value (td_Quantity td) in
  let '(quote, ok) := if is_base then event_quote input (currency (td_Gross td)) (EffectiveAt a) else (None, true) in
  if negb ok then None
  else Some (mkWalk (wk_segments w ++ [mkSegment quantity (p_value (td_UnitPrice td)) quote]) (dAdd (wk_expected w) quantity)
               (transferredOut w) ({[act_ID a]} ∪ seenTrades w)).

(** A priced adjustment opens a segment of its own. *)
Definition adjustment_step (w : walk) (a : Activity) (e : ActivityEffect) (q : Quantity) : option walk :=
  match CostUnitPrice e with
  | Some price =>
    if bool_decide (Classification e = ClassificationRemeasurement) then
      let quantity := if bool_decide (Direction e = EffectRemoved) then dNeg (q_value q) else q_value q in
      let '(quote, ok) := if is_base then event_quote input (cid_Currency component) (EffectiveAt a) else (None, true) in
      if negb ok then None
      else Some (mkWalk (wk_segments w ++ [mkSegment quantity (p_value price) quote]) (wk_expected w) (transferredOut w) (seenTrades w))
    else Some w
  | None => Some w
  end.

Definition known_adjustment (effect : classifiedAnalysisEffect) : bool :=
  is_none (CostUnitPrice (ce_effect effect)) && bool_decide (ce_bucket effect = Some BucketAdjustment) && ce_amountKnown effect.

Definition transfer_step (w : walk) (effect : classifiedAnalysisEffect) (q : Quantity) : walk :=
  let e := ce_effect effect in
  if bool_decide (Direction e = EffectAdded)
  then mkWalk (wk_segments w) (dAdd (wk_expected w) (q_value q)) (transferredOut w) (seenTrades w)
  else if bool_decide (Classification e = ClassificationInternalTransfer) || known_adjustment effect
  then mkWalk (wk_segments w) (dSub (wk_expected w) (q_value q)) (dAdd (transferredOut w) (q_value q)) (seenTrades w)
  else mkWalk (wk_segments w) (dSub (wk_expected w) (q_value q)) (transferredOut w) (seenTrades w).

(** The trade of an effect that concerns the holding. *)
Definition holding_trade (effect : classifiedAnalysisEffect) : option TradeDetail :=
  td ← act_TradeDetail (ce_activity effect);
  if on_holding (Some (td_HoldingID td)) then Some td else None.

Definition position_quantity (effect : classifiedAnalysisEffect) : option Quantity :=
  if bool_decide (Kind (ce_activity effect) = ActivityPositionTransfer) && on_holding (ef_HoldingID (ce_effect effect))
  then ef_Quantity (ce_effect effect) else None.

(** One turn of the loop over the effects; [None]: a rate is missing. *)
Definition effect_step (w : walk) (effect : classifiedAnalysisEffect) : option walk :=
  let a := ce_activity effect in
  let after (w : walk) : option walk :=
    match position_quantity effect with
    | Some q => w ← adjustment_step w a (ce_effect effect) q; Some (transfer_step w effect q)
    | None => Some w
    end in
  match holding_trade effect with
  | Some td => if bool_decide (act_ID a ∈ seenTrades w) then Some w else w ← trade_step w a td; after w
  | None => after w
  end.

Fixpoint walk_effects (effects : list classifiedAnalysisEffect) (w : walk) : option walk :=
  match effects with [] => Some w | effect :: rest => w ← effect_step w effect; walk_effects rest w end.

(** ** Splits *)

Definition quantity_tolerance : Decimal := dNew 1 (-8).

Definition restating (effect : classifiedAnalysisEffect) : option Decimal :=
  let e := ce_effect effect in
  if negb (is_none (act_TradeDetail (ce_activity effect))) || negb (bool_decide (Kind (ce_activity effect) = ActivityPositionTransfer)) ||
     negb (on_holding (ef_HoldingID e)) || negb (bool_decide (Classification e = ClassificationRemeasurement)) ||
     negb (is_none (CostUnitPrice e))
  then None
  else (λ q, if bool_decide (Direction e = EffectRemoved) then dNeg (q_value q) else q_value q) <$> ef_Quantity e.

Definition corporateActionRestatement (effects : list classifiedAnalysisEffect)
    (openingQuantity closingQuantity openingPrice closingPrice : Decimal) : bool :=
  if dIsZero openingQuantity || dIsZero closingQuantity || dIsZero openingPrice || dIsZero closingPrice ||
     dEqual openingQuantity closingQuantity then false
  else
    let deltas := omap restating effects in
    let quantityDelta := fold_left dAdd deltas dZero in
    match deltas with
    | [] => false
    | _ =>
      if negb (dEqual quantityDelta (dSub closingQuantity openingQuantity)) then false
      else
        let openingNotional := dMul openingQuantity openingPrice in
        let closingNotional := dMul closingQuantity closingPrice in
        let tolerance := dMul quantity_tolerance (dAdd (dMax (dAbs openingNotional) (dAbs closingNotional)) (dInt 1)) in
        negb (dGreaterThan (dAbs (dSub openingNotional closingNotional)) tolerance)
    end.

(** A split restates the one segment, a transfer out shrinks it; [None]: more left than was there. *)
Definition restate (restated : bool) (q0 qc openingPrice : Decimal) (segments : list segment) : list segment :=
  match segments with
  | [s] => if restated then [mkSegment qc (dDiv openingPrice (dDiv qc q0)) (sg_quote s)] else segments
  | _ => segments
  end.
Definition shrink (out : Decimal) (segments : list segment) : option (list segment) :=
  match segments with
  | [s] =>
    if dIsPositive out then
      let quantity := dSub (sg_quantity s) out in
      if dIsNegative quantity then None else Some [mkSegment quantity (sg_price s) (sg_quote s)]
    else Some segments
  | _ => Some segments
  end.

(** ** Valuing the segments *)

Definition segment_price (closePrice : Decimal) (s : segment) : Result (option Q) :=
  convertForAnalysis (dMul (sg_quantity s) (dSub closePrice (sg_price s))) (cid_Currency component) (ai_base input) (sg_quote s) valuation.

Fixpoint value_segments (closePrice : Decimal) (closeFXQuote : option FXQuote) (segments : list segment) (price fx : Q)
    : Result (option (Q * Q)) :=
  match segments with
  | [] => Ok (Some (price, fx))
  | s :: rest =>
    priceBase ← segment_price closePrice s;
    match priceBase with
    | None => Ok None
    | Some priceBase =>
      if is_base then
        impact ← fx_impact component input (dMul (sg_quantity s) closePrice) (sg_quote s) closeFXQuote;
        match impact with
        | None => Ok None
        | Some impact => value_segments closePrice closeFXQuote rest (price + priceBase)%Q (fx + impact)%Q
        end
      else value_segments closePrice closeFXQuote rest (price + priceBase)%Q fx
    end
  end.

(** The rates at the opening and at the close, and whether each of them is there. *)
Definition opening_rates (q0 : Decimal) (previous current : DailyValuationSnapshotItem) (previousCutoff currentCutoff : Time)
    : option FXQuote * bool * (option FXQuote * bool) :=
  if is_base then
    (if dIsZero q0 then (None, true) else fxQuoteForItem u previous input previousCutoff, fxQuoteForItem u current input currentCutoff)
  else (None, true, (None, true)).

(** From the walk to the bridge. *)
Definition finish_holding (effects : list classifiedAnalysisEffect) (openPrice : option Decimal) (q0 qc closePrice : Decimal)
    (closeFXQuote : option FXQuote) (w : walk) : Result holdingBridge :=
  let quantityMismatch := dGreaterThan (dAbs (dSub (wk_expected w) qc)) quantity_tolerance in
  let segments := match openPrice with
    | Some p => restate (corporateActionRestatement effects q0 qc p closePrice) q0 qc p (wk_segments w)
    | None => wk_segments w
    end in
  match shrink (transferredOut w) segments with
  | None => Ok (empty_bridge true)
  | Some segments =>
    valued ← value_segments closePrice closeFXQuote segments 0 0;
    match valued with
    | None => Ok (empty_bridge true)
    | Some (price, fx) => projectedHoldingBridge price fx quantityMismatch
    end
  end.

Definition computeHoldingBridge (previous current : DailyValuationSnapshotItem) (previousCutoff currentCutoff : Time)
    (effects : list classifiedAnalysisEffect) : Result holdingBridge :=
  if bool_decide (it_NativeAmount previous = ""%string) || bool_decide (it_NativeAmount current = ""%string)
  then Ok (empty_bridge true)
  else
    opening ← parse_decimal (it_NativeAmount previous);
    closing ← parse_decimal (it_NativeAmount current);
    if dIsZero opening && dIsZero closing && match effects with [] => true | _ => false end then Ok (empty_bridge false)
    else
      let openQuote := quoteForItem u previous (ai_InstrumentQuotes input) previousCutoff in
      match quoteForItem u current (ai_InstrumentQuotes input) currentCutoff with
      | None => Ok (empty_bridge true)
      | Some closeQuote =>
        if is_none openQuote && negb (dIsZero opening) then Ok (empty_bridge true)
        else
          let openPrice := (λ q, p_value (iq_UnitPrice q)) <$> openQuote in
          let closePrice := p_value (iq_UnitPrice closeQuote) in
          let q0 := match openPrice with Some p => dDiv opening p | None => dZero end in
          let qc := dDiv closing closePrice in
          let '((openFXQuote, openOK), (closeFXQuote, closeOK)) := opening_rates q0 previous current previousCutoff currentCutoff in
          if negb openOK || negb closeOK then Ok (empty_bridge true)
          else
            let first := match openPrice with
              | Some p => if dIsZero q0 then [] else [mkSegment q0 p openFXQuote]
              | None => []
              end in
            match walk_effects effects (mkWalk first q0 dZero ∅) with
            | None => Ok (empty_bridge true)
            | Some w => finish_holding effects openPrice q0 qc closePrice closeFXQuote w
            end
      end.
End Holding.
End Bridge.
