(* ===== verification/AnalysisBridgeLaws.v ===== *)
(** * The bridges as identities

    What [AnalysisBridge] promises: the changes by price and by rate telescope, so that together they
    are the closing value of the positions less what the positions cost at their own rates; the
    indexed quotes are those of a search; and an exact amount is rounded half-even at the boundary. *)

From S2P Require Export AnalysisBridge AnalysisFold.
From S2P Require Import Portfolio ChangeState Accounts Fx DecimalModel.
From S2P Require MarketPolicy.
From Stdlib Require Import String Ascii Qreduction.

#[global] Open Scope Z_scope.

Section Rates.
Context `{HD : DecimalAPI} {HL : DecimalLaws} `{HM : MetalEvidence}.

(** The rate at which an amount counts; a rate that is not there is zero and never used. *)
Definition rate_at (valuation : Valuation) (native base : CurrencyCode) (quote : option FXQuote) : Q :=
  if bool_decide (valuation = ValuationNative) || bool_decide (native = base) then 1%Q
  else match quote with
  | None => 0%Q
  | Some q => match fxConversionFactors native base q with Ok (m, d) => (dval m / dval d)%Q | Fail _ => 0%Q end
  end.

Lemma ConvertFXAmountExact_value amt native base q y : native ≠ base → ConvertFXAmountExact amt native base q = Ok y →
  (y == dval amt * rate_at ValuationBase native base (Some q))%Q.
Proof.
  intros Hne. unfold ConvertFXAmountExact, rate_at. destruct (dGreaterThan _ _); [done|].
  rewrite !bool_decide_eq_false_2 by done. cbn [orb]. destruct (fxConversionFactors native base q) as [[m d]|]; [|done].
  rewrite bind_Ok_l. destruct (CheckExactMoneyRange _); [|done]. intros [= <-].
  destruct (dEqual d (dInt 1)) eqn:E; cbn [negb]; rewrite !RationalFromDecimal_val; [|unfold Qdiv; ring].
  apply dEqual_val in E. rewrite E, dval_int. change (inject_Z 1) with 1%Q. field.
Qed.

Lemma convertAtFXQuote_value amt native base quote y : convertAtFXQuote amt native base quote = Ok (Some y) →
  (y == dval amt * rate_at ValuationBase native base quote)%Q.
Proof.
  unfold convertAtFXQuote. destruct (bool_decide_reflect (native = base)) as [E|E].
  - intros [= <-]. unfold rate_at. rewrite (bool_decide_eq_true_2 _ E), orb_true_r, RationalFromDecimal_val. ring.
  - destruct quote as [q|]; [|done]. intros H. apply bind_Ok in H as (x & Hx & [= <-]). by apply ConvertFXAmountExact_value.
Qed.

Lemma rate_native native base quote : rate_at ValuationNative native base quote = 1%Q.
Proof. unfold rate_at. by rewrite bool_decide_eq_true_2. Qed.

Lemma convertForAnalysis_value amt native base quote v y : v = ValuationBase ∨ v = ValuationNative →
  convertForAnalysis amt native base quote v = Ok (Some y) → (y == dval amt * rate_at v native base quote)%Q.
Proof.
  intros [-> | ->]; unfold convertForAnalysis.
  - rewrite bool_decide_eq_false_2 by done. apply convertAtFXQuote_value.
  - rewrite bool_decide_eq_true_2 by done. intros [= <-]. rewrite rate_native, RationalFromDecimal_val. ring.
Qed.

Section Component.
Variables (component : ComponentID) (u : analysisMaps) (input : AnalysisInputs).

Notation rate v quote := (rate_at v (cid_Currency component) (ai_base input) quote).

Lemma fx_impact_value native from to_ y : fx_impact component input native from to_ = Ok (Some y) →
  (y == dval native * rate ValuationBase to_ - dval native * rate ValuationBase from)%Q.
Proof.
  unfold fx_impact. intros H. apply bind_Ok in H as (t & Ht & H). apply bind_Ok in H as (f & Hf & [= H]).
  apply bind_Some in H as (t' & -> & H). apply bind_Some in H as (f' & -> & [= <-]).
  by rewrite (convertAtFXQuote_value _ _ _ _ _ Ht), (convertAtFXQuote_value _ _ _ _ _ Hf).
Qed.

(** ** Cash *)

(** The movements of the day that count, with the rate of their own instant. *)
Definition movements (effects : list classifiedAnalysisEffect) : list (Decimal * Q) :=
  omap (λ effect,
    m ← ef_Money (ce_effect effect);
    if ce_amountKnown effect && cash_target (ce_effect effect)
    then Some (cash_movement component u (ce_effect effect) m,
               rate ValuationBase (event_quote input (cid_Currency component) (EffectiveAt (ce_activity effect))).1)
    else None) effects.

Lemma cash_loop_value closing effects start partial total partial' :
  cash_loop component u input closing effects start partial = Ok (Some (total, partial')) →
  (total == start + rate ValuationBase closing * sumQ (λ m, dval m.1) (movements effects) - sumQ (λ m, dval m.1 * m.2) (movements effects))%Q.
Proof.
  revert start partial. induction effects as [|effect effects IH]; intros start partial; cbn [cash_loop].
  - intros [= <- <-]. cbn. ring.
  - unfold movements. cbn [omap list_omap]. fold (movements effects). destruct (ef_Money (ce_effect effect)) as [m|]; cbn [mbind option_bind]; [|apply IH].
    destruct (ce_amountKnown effect); cbn [negb andb]; [|apply IH].
    destruct (cash_target (ce_effect effect)); cbn [negb]; [|apply IH].
    destruct (event_quote _ _ _) as [quote ok]. cbn [fst]. destruct ok; cbn [negb]; [|done].
    intros H. apply bind_Ok in H as (impact & Hi & H). destruct impact as [impact|]; [|done]. apply IH in H.
    rewrite H, (fx_impact_value _ _ _ _ Hi), !sumQ_cons. cbn [fst snd]. ring.
Qed.

(** The rates at which a cash balance opens and closes. *)
Definition cash_rate (item : DailyValuationSnapshotItem) (cutoff : Time) : Q :=
  rate ValuationBase (if bool_decide (it_NativeCurrency item = ai_base input) then None else (fxQuoteForItem u item input cutoff).1).

Lemma projected_parts price fx partial b : projectedHoldingBridge price fx partial = Ok b →
  exactPrice b = Some price ∧ exactFX b = Some fx ∧ br_partial b = partial.
Proof. unfold projectedHoldingBridge. intros H. apply bind_Ok in H as (? & _ & H). apply bind_Ok in H as (? & _ & [= <-]). done. Qed.

(** Claim C20.  The bridge of a foreign cash balance is an identity in exact rationals: what the rates
    contribute is the value of the opening balance and the movements of the day at the closing
    rate, less the opening balance at its own rate and each movement at the rate of its instant.
    So if the closing balance is the opening one plus the movements, the change of value is the
    movements as they were booked plus the impact of the rates, and nothing is left over. *)
Theorem computeCashBridge_explains previous current previousCutoff currentCutoff effects b f :
  computeCashBridge component u input previous current previousCutoff currentCutoff effects ValuationBase = Ok b →
  exactFX b = Some f →
  exactPrice b = Some 0%Q ∧
  ∃ native, parse_decimal (it_NativeAmount previous) = Ok native ∧
    let opening := dval (signedForAccount native (is_liability u (cid_AccountID component))) in
    let moved := movements effects in
    (f == cash_rate current currentCutoff * (opening + sumQ (λ m, dval m.1) moved) -
          (cash_rate previous previousCutoff * opening + sumQ (λ m, dval m.1 * m.2) moved))%Q.
Proof.
  unfold computeCashBridge. rewrite bool_decide_eq_false_2 by done.
  destruct (_ && _); [by intros [= <-]|]. destruct (_ || _); [by intros [= <-]|]. intros H.
  apply bind_Ok in H as (native & Hn & H). set (opening := signedForAccount native _) in H.
  unfold cash_rate. set (openNone := bool_decide (it_NativeCurrency previous = _)) in *.
  set (closeNone := bool_decide (it_NativeCurrency current = _)) in *.
  destruct (if negb closeNone then _ else _) as [closeQ closeOK] eqn:Eclose.
  assert ((if closeNone then None else (fxQuoteForItem u current input currentCutoff).1) = closeQ) as ->.
  { destruct closeNone; cbn [negb] in Eclose; [by injection Eclose|by rewrite Eclose]. }
  destruct (if negb openNone && _ then _ else _) as [openQ openOK] eqn:Eopen. cbn [negb] in *.
  destruct (negb closeOK || _) eqn:Eok; [by injection H as <-|].
  apply bind_Ok in H as (atClose & Hc & H). destruct atClose as [atClose|]; [|by injection H as <-].
  apply bind_Ok in H as (atOpen & Ho & H). destruct atOpen as [atOpen|]; [|by injection H as <-].
  apply bind_Ok in H as (walked & Hw & H). destruct walked as [[total partial]|]; [|by injection H as <-].
  apply projected_parts in H as (Hp & Hf & _). intros Hf'. split; [done|]. exists native. split; [done|]. cbn zeta. fold opening.
  assert (f = total) as -> by congruence. rewrite (cash_loop_value _ _ _ _ _ _ Hw), (convertAtFXQuote_value _ _ _ _ _ Hc).
  assert (atOpen == dval opening * rate ValuationBase (if openNone then None else (fxQuoteForItem u previous input previousCutoff).1))%Q as ->; [|ring].
  destruct (dIsZero opening) eqn:Ez.
  - injection Ho as <-. apply dIsZero_val in Ez. rewrite Ez. ring.
  - rewrite (convertAtFXQuote_value _ _ _ _ _ Ho). destruct openNone; cbn [negb andb] in Eopen; [by injection Eopen as <- _|by rewrite Eopen].
Qed.

(** ** Segments *)

Variable valuation : Valuation.
Hypothesis Hvaluation : valuation = ValuationBase ∨ valuation = ValuationNative.

Notation seg_rate s := (rate valuation (sg_quote s)).

(** What a segment costs at its own price and rate. *)
Definition seg_cost (s : segment) : Q := (dval (sg_quantity s) * dval (sg_price s) * seg_rate s)%Q.
Definition held (segments : list segment) : Q := sumQ (λ s, dval (sg_quantity s)) segments.

Lemma value_segments_value closePrice closing segments price fx price' fx' :
  value_segments component input valuation closePrice closing segments price fx = Ok (Some (price', fx')) →
  (price' + fx' == price + fx + rate valuation closing * dval closePrice * held segments - sumQ seg_cost segments)%Q ∧
  (valuation = ValuationNative → fx' = fx).
Proof.
  unfold held. revert price fx. induction segments as [|s segments IH]; intros price fx; cbn [value_segments].
  - intros [= <- <-]. split; [cbn; ring|done].
  - intros H. apply bind_Ok in H as (priceBase & Hp & H). destruct priceBase as [priceBase|]; [|done].
    apply (convertForAnalysis_value _ _ _ _ _ _ Hvaluation) in Hp. rewrite dMul_val, dSub_val in Hp.
    destruct (is_base valuation) eqn:Eb; unfold is_base in Eb.
    + apply bool_decide_eq_true in Eb as Hv. apply bind_Ok in H as (impact & Hi & H). destruct impact as [impact|]; [|done].
      apply fx_impact_value in Hi. rewrite dMul_val in Hi. destruct (IH _ _ H) as [He _]. split; [|by rewrite Hv].
      rewrite He, !sumQ_cons, Hp, Hi. unfold seg_cost. rewrite Hv. ring.
    + apply bool_decide_eq_false in Eb. destruct Hvaluation as [Hv|Hv]; [done|]. destruct (IH _ _ H) as [He Hf]. split; [|done].
      rewrite He, !sumQ_cons, Hp. unfold seg_cost. rewrite Hv, !rate_native. ring.
Qed.

(** ** Days of trades *)

Definition no_transfers (effects : list classifiedAnalysisEffect) : Prop :=
  Forall (λ effect, Kind (ce_activity effect) ≠ ActivityPositionTransfer) effects.

(** The trades of the holding, one for each activity. *)
Fixpoint day_trades (seen : gset ActivityID) (effects : list classifiedAnalysisEffect) : list (Activity * TradeDetail) :=
  match effects with
  | [] => []
  | effect :: rest =>
    match holding_trade component effect with
    | Some td =>
      if bool_decide (act_ID (ce_activity effect) ∈ seen) then day_trades seen rest
      else (ce_activity effect, td) :: day_trades ({[act_ID (ce_activity effect)]} ∪ seen) rest
    | None => day_trades seen rest
    end
  end.

(** A trade as a segment: what was bought or sold, at the price and the rate of its instant. *)
Definition trade_segment (t : Activity * TradeDetail) : segment :=
  let td := t.2 in
  mkSegment (if bool_decide (td_Side td = TradeSell) then dNeg (q_value (td_Quantity td)) else q_value (td_Quantity td))
    (p_value (td_UnitPrice td))
    (if is_base valuation then (event_quote input (currency (td_Gross td)) (EffectiveAt t.1)).1 else None).

Lemma trade_step_value w a td w' : trade_step input valuation w a td = Some w' →
  wk_segments w' = wk_segments w ++ [trade_segment (a, td)] ∧
  (dval (wk_expected w') == dval (wk_expected w) + dval (sg_quantity (trade_segment (a, td))))%Q ∧
  transferredOut w' = transferredOut w ∧ seenTrades w' = {[act_ID a]} ∪ seenTrades w.
Proof.
  unfold trade_step, trade_segment. cbn [fst snd sg_quantity]. destruct (is_base valuation).
  - destruct (event_quote _ _ _) as [quote []]; [|done]. intros [= <-]. cbn. by rewrite dAdd_val.
  - intros [= <-]. cbn. by rewrite dAdd_val.
Qed.

Lemma walk_trades effects w w' : no_transfers effects → walk_effects component input valuation effects w = Some w' →
  let trades := trade_segment <$> day_trades (seenTrades w) effects in
  wk_segments w' = wk_segments w ++ trades ∧ (dval (wk_expected w') == dval (wk_expected w) + held trades)%Q ∧
  transferredOut w' = transferredOut w.
Proof.
  intros Hn. revert w. induction Hn as [|effect effects He _ IH]; intros w; cbn [walk_effects day_trades].
  - intros [= <-]. cbn. rewrite app_nil_r. split; [done|]. split; [ring|done].
  - intros H. apply bind_Some in H as (w1 & H1 & H). apply IH in H as (Hs & Hx & Ht). unfold effect_step in H1.
    assert (∀ w2, match position_quantity component effect with
      | Some q => w ← adjustment_step component input valuation w2 (ce_activity effect) (ce_effect effect) q; Some (transfer_step w effect q)
      | None => Some w2 end = Some w2) as Hafter.
    { intros w2. unfold position_quantity. by rewrite (bool_decide_eq_false_2 _ He). }
    destruct (holding_trade component effect) as [td|].
    + destruct (bool_decide _); [by injection H1 as <-|]. apply bind_Some in H1 as (w2 & H2 & H1). rewrite Hafter in H1. injection H1 as <-.
      apply trade_step_value in H2 as (Hs2 & Hx2 & Ht2 & Hseen). rewrite Hseen in Hs, Hx. cbn [fmap list_fmap]. split; [|split].
      * rewrite Hs, Hs2, <-app_assoc. done.
      * rewrite Hx, Hx2. unfold held. rewrite sumQ_cons. ring.
      * congruence.
    + rewrite Hafter in H1. by injection H1 as <-.
Qed.

Lemma no_restatement effects q0 qc p pc : no_transfers effects → corporateActionRestatement component effects q0 qc p pc = false.
Proof.
  intros Hn. assert (omap (restating component) effects = []) as Hr.
  { induction Hn as [|effect effects He _ IH]; [done|]. cbn. unfold restating at 1. rewrite (bool_decide_eq_false_2 _ He). cbn [negb].
    rewrite orb_true_r. cbn. exact IH. }
  unfold corporateActionRestatement. destruct (_ || _); [done|]. by rewrite Hr.
Qed.

Lemma restate_false q0 qc p segments : restate false q0 qc p segments = segments.
Proof. by destruct segments as [|? []]. Qed.
Lemma shrink_zero out segments : dIsPositive out = false → shrink out segments = Some segments.
Proof. intros H. destruct segments as [|s []]; cbn; by rewrite ?H. Qed.

Lemma finish_trades effects openPrice q0 qc closePrice closing w b p f : no_transfers effects → dIsPositive (transferredOut w) = false →
  finish_holding component input valuation effects openPrice q0 qc closePrice closing w = Ok b →
  exactPrice b = Some p → exactFX b = Some f →
  (p + f == rate valuation closing * dval closePrice * held (wk_segments w) - sumQ seg_cost (wk_segments w))%Q ∧
  (br_partial b = false → Qabs (dval (wk_expected w) - dval qc) <= p10 (-8))%Q ∧
  (valuation = ValuationNative → f = 0%Q).
Proof.
  intros Hn Ht. unfold finish_holding.
  assert (match openPrice with
    | Some p => restate (corporateActionRestatement component effects q0 qc p closePrice) q0 qc p (wk_segments w)
    | None => wk_segments w end = wk_segments w) as ->.
  { destruct openPrice as [p'|]; [|done]. by rewrite (no_restatement _ _ _ _ _ Hn), restate_false. }
  rewrite shrink_zero by done. intros H Hp Hf. apply bind_Ok in H as (valued & Hv & H). destruct valued as [[price fx]|]; [|by injection H as <-].
  apply projected_parts in H as (Hp' & Hf' & Hpart). assert (price = p ∧ fx = f) as [-> ->] by (split; congruence).
  apply value_segments_value in Hv as [Hv Hnat]. split; [rewrite Hv; ring|]. split; [|done].
  rewrite Hpart. intros Hg%greater_false. rewrite dAbs_val, dSub_val in Hg. unfold quantity_tolerance in Hg.
  assert (dval (dNew 1 (-8)) == p10 (-8))%Q as E by (unfold dval, cval; rewrite dNew_coef, dNew_expo; ring). by rewrite E in Hg.
Qed.

(** ** The identity of a day of trades *)

Definition item_rate (item : DailyValuationSnapshotItem) (cutoff : Time) : Q :=
  rate valuation (fxQuoteForItem u item input cutoff).1.
Definition price_of (quote : option InstrumentQuote) : Q :=
  match quote with Some q => dval (p_value (iq_UnitPrice q)) | None => 0%Q end.

(** Positions are found by dividing amounts by prices, to sixteen places. *)
Definition half_place : Q := ((1 # 2) * p10 (-16))%Q.

Lemma Qabs_le_mult a x b : (Qabs x <= b)%Q → (Qabs (a * x) <= Qabs a * b)%Q.
Proof. intros H. rewrite Qabs_Qmult, (Qmult_comm (Qabs a)), (Qmult_comm (Qabs a)). apply Qmult_le_compat_r; [done|apply Qabs_nonneg]. Qed.

(** Telescoping: the rounding of the two positions and the tolerance of their difference. *)
Lemma bridge_error (Rc Ro pc p0 q0 qc T opening closing C : Q) :
  ¬ (pc == 0)%Q → (Qabs (q0 + T - qc) <= p10 (-8))%Q → (Qabs (qc - closing / pc) <= half_place)%Q →
  (Qabs (p0 * q0 - opening) <= Qabs p0 * half_place)%Q →
  (Qabs (Rc * pc * (q0 + T) - (q0 * p0 * Ro + C) - (Rc * closing - Ro * opening - C)) <=
   Qabs (Rc * pc) * (p10 (-8) + half_place) + Qabs Ro * (Qabs p0 * half_place))%Q.
Proof.
  intros Hpc HT Hc Ho.
  assert (Rc * pc * (q0 + T) - (q0 * p0 * Ro + C) - (Rc * closing - Ro * opening - C) ==
          Rc * pc * ((q0 + T - qc) + (qc - closing / pc)) + (- Ro) * (p0 * q0 - opening))%Q as -> by by field.
  eapply Qle_trans; [apply Qabs_triangle|]. apply Qplus_le_compat.
  - apply Qabs_le_mult. eapply Qle_trans; [apply Qabs_triangle|]. by apply Qplus_le_compat.
  - rewrite <-(Qabs_opp Ro). by apply Qabs_le_mult.
Qed.

(** The opening position and what it costs. *)
Lemma opening_segment opening openQuote openFXQuote : (∀ q, openQuote = Some q → (0 < dval (p_value (iq_UnitPrice q)))%Q) →
  (is_none openQuote && negb (dIsZero opening)) = false →
  let openPrice := (λ q, p_value (iq_UnitPrice q)) <$> openQuote in
  let q0 := match openPrice with Some p => dDiv opening p | None => dZero end in
  let first := match openPrice with Some p => if dIsZero q0 then [] else [mkSegment q0 p openFXQuote] | None => [] end in
  (held first == dval q0)%Q ∧ (sumQ seg_cost first == dval q0 * price_of openQuote * rate valuation openFXQuote)%Q ∧
  (Qabs (price_of openQuote * dval q0 - dval opening) <= Qabs (price_of openQuote) * half_place)%Q.
Proof.
  intros Hpos Hsome. destruct openQuote as [q|]; cbn [fmap option_fmap option_map price_of].
  - specialize (Hpos q eq_refl). assert (¬ (dval (p_value (iq_UnitPrice q)) == 0)%Q) as Hnz by (intros E; rewrite E in Hpos; by apply Qlt_irrefl in Hpos).
    pose proof (MarketPolicy.dDiv_near opening _ Hnz) as Hn. set (p := p_value (iq_UnitPrice q)) in *. set (q0 := dDiv opening p) in *.
    unfold held. destruct (dIsZero q0) eqn:Ez.
    + pose proof Ez as Ez'. apply dIsZero_val in Ez'. split; [rewrite Ez'; reflexivity|]. split; [rewrite Ez'; cbn; ring|].
      assert (dval p * dval q0 - dval opening == dval p * (dval q0 - dval opening / dval p))%Q as -> by by field.
      by apply Qabs_le_mult.
    + split; [cbn; ring|]. split; [cbn; unfold seg_cost; cbn; ring|].
      assert (dval p * dval q0 - dval opening == dval p * (dval q0 - dval opening / dval p))%Q as -> by by field.
      by apply Qabs_le_mult.
  - cbn in Hsome. apply negb_false_iff, dIsZero_val in Hsome. unfold held. rewrite !dval_dzero. split; [reflexivity|]. split; [cbn; ring|].
    rewrite Hsome. vm_compute. discriminate.
Qed.

Lemma rates_found q0 previous current previousCutoff currentCutoff openQ openOK closeQ closeOK :
  opening_rates u input valuation q0 previous current previousCutoff currentCutoff = ((openQ, openOK), (closeQ, closeOK)) →
  rate valuation closeQ = item_rate current currentCutoff ∧
  (dval q0 * rate valuation openQ == dval q0 * item_rate previous previousCutoff)%Q.
Proof.
  unfold opening_rates, item_rate. destruct (is_base valuation) eqn:Eb; unfold is_base in Eb.
  - intros [= Ho Hc]. rewrite Hc. split; [done|]. destruct (dIsZero q0) eqn:Ez; [apply dIsZero_val in Ez; rewrite Ez; ring|by rewrite Ho].
  - apply bool_decide_eq_false in Eb. destruct Hvaluation as [Hv|Hv]; [done|]. intros [= <- _ <- _]. rewrite Hv, !rate_native. done.
Qed.

(** Claim C19.  The bridge of a holding on a day of trades explains the change of its value: the changes by
    price and by rate add up to the closing value at the closing rate, less the opening value at
    the opening rate, less every trade of the day at its own price and rate, each trade counted
    once however many effects it has.  The only slack is the division of amounts by prices, half a
    unit of the sixteenth place of a quantity, and the tolerance within which the quantities of
    the day have to agree, without which the bridge is marked as partial.  In the currency of
    the holding there is no impact of rates. *)
Theorem computeHoldingBridge_explains previous current previousCutoff currentCutoff effects b p f :
  let quotes := ai_InstrumentQuotes input in
  let openQuote := quoteForItem u previous quotes previousCutoff in
  let closeQuote := quoteForItem u current quotes currentCutoff in
  (∀ q, openQuote = Some q ∨ closeQuote = Some q → (0 < dval (p_value (iq_UnitPrice q)))%Q) →
  no_transfers effects →
  computeHoldingBridge component u input valuation previous current previousCutoff currentCutoff effects = Ok b →
  exactPrice b = Some p → exactFX b = Some f → br_partial b = false →
  (valuation = ValuationNative → f = 0%Q) ∧
  ∃ opening closing, parse_decimal (it_NativeAmount previous) = Ok opening ∧ parse_decimal (it_NativeAmount current) = Ok closing ∧
    let Ro := item_rate previous previousCutoff in
    let Rc := item_rate current currentCutoff in
    let trades := sumQ seg_cost (trade_segment <$> day_trades ∅ effects) in
    (Qabs (p + f - (Rc * dval closing - Ro * dval opening - trades)) <=
     Qabs (Rc * price_of closeQuote) * (p10 (-8) + half_place) + Qabs Ro * (Qabs (price_of openQuote) * half_place))%Q.
Proof.
  intros quotes openQuote closeQuote Hpos Hn H Hp Hf Hpart. unfold computeHoldingBridge in H.
  destruct (_ || _); [by injection H as <-|]. apply bind_Ok in H as (opening & Ho & H). apply bind_Ok in H as (closing & Hc & H).
  destruct (_ && _); [by injection H as <-|]. fold quotes openQuote closeQuote in H.
  destruct closeQuote as [cq|]; [|by injection H as <-]. destruct (is_none openQuote && _) eqn:Esome; [by injection H as <-|].
  destruct (opening_rates _ _ _ _ _ _ _ _) as [[openQ openOK] [closeQ closeOK]] eqn:Er. destruct (_ || _); [by injection H as <-|].
  apply rates_found in Er as [Hrc Hro]. destruct (walk_effects _ _ _ _ _) as [w|] eqn:Ew; [|by injection H as <-].
  apply walk_trades in Ew as (Hs & Hx & Ht); [|done]. cbn [wk_segments wk_expected transferredOut seenTrades] in Hs, Hx, Ht.
  apply (finish_trades _ _ _ _ _ _ _ _ p f) in H as (Hv & Htol & Hnat); [|done| |done..].
  2:{ rewrite Ht. destruct (dIsPositive dZero) eqn:E; [|done]. apply dIsPositive_val in E. rewrite dval_dzero in E. by apply Qlt_irrefl in E. }
  split; [done|]. exists opening, closing. split; [done|]. split; [done|]. cbn zeta.
  destruct (opening_segment opening openQuote openQ (λ q Hq, Hpos q (or_introl Hq)) Esome) as (Hheld & Hcost & Herr).
  cbn zeta in Hheld, Hcost, Herr. rewrite Hs in Hv. unfold held in Hv. rewrite !sumQ_app in Hv. fold (held (trade_segment <$> day_trades ∅ effects)) in Hv.
  specialize (Hpos cq (or_intror eq_refl)).
  assert (¬ (dval (p_value (iq_UnitPrice cq)) == 0)%Q) as Hnz by (intros E; rewrite E in Hpos; by apply Qlt_irrefl in Hpos).
  specialize (Htol Hpart). rewrite Hx in Htol.
  pose proof (bridge_error (item_rate current currentCutoff) (item_rate previous previousCutoff) (dval (p_value (iq_UnitPrice cq)))
    (price_of openQuote) _ _ (held (trade_segment <$> day_trades ∅ effects)) (dval opening) (dval closing)
    (sumQ seg_cost (trade_segment <$> day_trades ∅ effects)) Hnz Htol (MarketPolicy.dDiv_near closing _ Hnz) Herr) as Hb.
  eapply Qle_trans; [|exact Hb]. apply Qle_lteq. right. apply Qabs_wd. rewrite Hv, Hrc. unfold held in Hheld. rewrite Hheld, Hcost.
  assert (dval _ * price_of openQuote * rate valuation openQ == dval _ * rate valuation openQ * price_of openQuote)%Q as -> by ring.
  rewrite Hro. cbn [price_of]. ring.
Qed.
End Component.
End Rates.
