(* ===== verification/AnalysisClassify.v ===== *)
(** * Classification of the effects of an activity

    [analysis_classifier.go] of the application and the part of [analysis_universe.go] that it
    reads: the component an effect belongs to, its amount in the valuation of an analysis, the
    bucket of asset changes and the component of returns it counts in, the capital flows, and the
    spread of an exchange within the household. *)

From S2P Require Import Product Portfolio ChangeState Accounts Fx DecimalModel.
From S2P Require Export AnalysisBridge.
From Stdlib Require Import String Ascii.

#[global] Open Scope Z_scope.

Section Classify.
Context `{HD : DecimalAPI} `{HM : MetalEvidence}.

(** ** Activities as an analysis reads them *)

(** The fields of [ProductActivityContext] that the classifier reads. *)
Record ProductActivityContext := mkProductContext {
  pc_Purpose : ProductActivityPurpose; pc_HoldingID : HoldingID; pc_InstrumentID : InstrumentID }.

(** An activity with its effects and its [ProductContext]. *)
Record analysedActivity := mkAnalysed { an_activity : Activity; ProductContext : option ProductActivityContext }.

(** The maps of [analysisUniverse]. *)
Record classUniverse := mkClassUniverse {
  un_maps : analysisMaps; un_investment : analysisUniverse; activitiesByID : gmap ActivityID analysedActivity;
  holdingsByID : gmap HoldingID Holding; instrumentsByID : gmap InstrumentID Instrument; componentKeys : gset string }.

Definition accounts_of (u : classUniverse) : gmap AccountID Account := u_accounts (un_maps u).
Definition in_investment (u : classUniverse) (c : ComponentID) : bool := investmentComponentInUniverse (un_investment u) c.
Definition componentInUniverse (u : classUniverse) (c : ComponentID) : bool := bool_decide (Key c ∈ componentKeys u).

Definition itemAssetClass (account : Account) (instrument : option Instrument) (holding : option HoldingID) : string :=
  match instrument with
  | Some i => InstrumentType_String (i_Type i)
  | None =>
    match holding with
    | Some _ => "unknown"
    | None =>
      if bool_decide (TrackingMode' account = TrackingHoldings) then BucketCash
      else match ClassifySimpleAccount (AccountType' account) (BalanceSheetRole' account) (TrackingMode' account) with
      | Ok class => Bucket class
      | Fail _ => "unknown"
      end
    end
  end.

Definition componentIDForItem (item : DailyValuationSnapshotItem) (account : Account) : ComponentID :=
  match it_HoldingID item with
  | Some h => mkComponentID (it_AccountID item) (Some h) (it_InstrumentID item) (it_NativeCurrency item) "" false
  | None => mkComponentID (it_AccountID item) None None (it_NativeCurrency item) "" (bool_decide (itemAssetClass account None None = BucketCash))
  end.

Definition with_currency (c : ComponentID) (cur : CurrencyCode) : ComponentID :=
  mkComponentID (cid_AccountID c) (cid_HoldingID c) (cid_InstrumentID c) cur (AnalysisReturn.AssetClass c) (AnalysisReturn.Cash c).

(** The component under which an item is found; [None]: its account is not known. *)
Definition item_component (accounts : gmap AccountID Account) (instruments : gmap InstrumentID Instrument) (item : DailyValuationSnapshotItem)
    : option ComponentID :=
  (λ account,
    let component := componentIDForItem item account in
    match cid_InstrumentID component ≫= λ i, instruments !! i with
    | Some instrument => with_currency component (i_QuoteCurrency instrument)
    | None => component
    end) <$> accounts !! it_AccountID item.

Definition snapshotItemsByComponent (items : list DailyValuationSnapshotItem) (accounts : gmap AccountID Account)
    (instruments : gmap InstrumentID Instrument) : gmap string DailyValuationSnapshotItem :=
  fold_left (λ result item,
    match item_component accounts instruments item with Some component => <[Key component := item]> result | None => result end) items ∅.

Definition investmentComponents (components : list ComponentID) (includeCash : bool) (accounts : gmap AccountID Account) : list ComponentID :=
  List.filter (λ component,
    negb (is_none (cid_InstrumentID component)) ||
    (includeCash && AnalysisReturn.Cash component &&
     match accounts !! cid_AccountID component with Some account => negb (IsLiability account) | None => false end)) components.

Definition componentForEffect (effect : ActivityEffect) (u : classUniverse) : option ComponentID :=
  match ef_HoldingID effect with
  | Some h =>
    holding ← holdingsByID u !! h;
    _ ← accounts_of u !! hd_AccountID holding;
    match instrumentsByID u !! hd_InstrumentID holding with
    | None => Some (mkComponentID (hd_AccountID holding) (Some h) (Some (hd_InstrumentID holding)) "" "unknown" false)
    | Some i => Some (mkComponentID (hd_AccountID holding) (Some h) (Some (hd_InstrumentID holding)) (i_QuoteCurrency i)
                        (InstrumentType_String (i_Type i)) false)
    end
  | None =>
    id ← ef_AccountID effect;
    m ← ef_Money effect;
    account ← accounts_of u !! id;
    Some (mkComponentID (ID account) None None (currency m) (itemAssetClass account None None)
            (bool_decide (itemAssetClass account None None = BucketCash)))
  end.
Definition noComponent : ComponentID := mkComponentID "" None None "" "" false.

Definition endpointsInUniverse (endpoints : list ComponentID) (u : classUniverse) : bool :=
  match endpoints with [] => false | _ => forallb (componentInUniverse u) endpoints end.
Definition endpointsInInvestmentUniverse (endpoints : list ComponentID) (u : classUniverse) : bool :=
  match endpoints with [] => false | _ => forallb (in_investment u) endpoints end.

(** ** Undone activities and reversed products *)

Definition revise_activity (a : Activity) (kind : ActivityKind) (reason : ActivityReason) (trade : option TradeDetail)
    (dividend : option DividendDetail) : Activity :=
  mkActivity (act_ID a) (act_HouseholdID a) kind reason (EffectiveAt a) (EffectiveLocalDate a) (act_CreatedAt a) (act_Note a)
    (ReversesActivityID a) (CorrectionGroupID a) (TransactionFXRate a) trade dividend (Resulting a) (Effects a) (RecordedEffects a).

Definition reversed_leg (td : TradeDetail) (e : ActivityEffect) : bool :=
  bool_decide (Target e = EffectTargetHoldingQuantity) && bool_decide (ef_HoldingID e = Some (td_HoldingID td)) && negb (is_none (ef_Quantity e)).

(** The trade of an undone activity walks backwards: its side is the one of the quantity leg. *)
Definition undone_trade (a : Activity) (original : TradeDetail) : option (ActivityKind * TradeDetail) :=
  e ← List.find (reversed_leg original) (Effects a);
  q ← ef_Quantity e;
  let sold := bool_decide (Direction e = EffectRemoved) in
  Some (if sold then ActivitySell else ActivityBuy,
        mkTradeDetail (if sold then TradeSell else TradeBuy) (td_InstrumentID original) (td_HoldingID original) q (td_Gross original)
          (td_UnitPrice original) (td_Fee original)).

Definition as_original (u : classUniverse) (a : analysedActivity) : analysedActivity :=
  let act := an_activity a in
  match ProductContext a, ReversesActivityID act with
  | None, Some id =>
    if negb (bool_decide (Kind act = ActivityReversal)) then a
    else match an_activity <$> activitiesByID u !! id with
    | Some original =>
      if bool_decide (Kind original = ActivityReversal) then a
      else
        let '(kind, trade) :=
          match act_TradeDetail original ≫= undone_trade act with
          | Some (kind, trade) => (kind, Some trade)
          | None => (Kind original, act_TradeDetail act)
          end in
        mkAnalysed (revise_activity act kind (Reason original) trade (act_DividendDetail original)) None
    | None => a
    end
  | _, _ => a
  end.

Definition trade_quantity_leg (p : ProductActivityContext) (e : ActivityEffect) : bool :=
  bool_decide (Classification e = ClassificationTradePrincipal) && bool_decide (Target e = EffectTargetHoldingQuantity) &&
  bool_decide (ef_HoldingID e = Some (pc_HoldingID p)) && bool_decide (ef_InstrumentID e = Some (pc_InstrumentID p)) &&
  negb (is_none (ef_Quantity e)).
Definition trade_cash_leg (accountID : AccountID) (e : ActivityEffect) : bool :=
  bool_decide (Classification e = ClassificationTradePrincipal) && bool_decide (Target e = EffectTargetAccountCash) &&
  bool_decide (Role e = EffectRolePrincipal) && bool_decide (ef_AccountID e = Some accountID) && negb (is_none (ef_Money e)).

(** The trade that a reversed product walks backwards, when exactly one leg of each kind shows it. *)
Definition product_trade (p : ProductActivityContext) (holding : Holding) (effects : list ActivityEffect) : option TradeDetail :=
  match List.filter (trade_quantity_leg p) effects, List.filter (trade_cash_leg (hd_AccountID holding)) effects with
  | [quantity], [principal] =>
    q ← ef_Quantity quantity;
    m ← ef_Money principal;
    if bool_decide (Direction quantity = Direction principal) || negb (dEqual (q_value q) (dInt 1)) then None
    else match NewUnitPrice (amount m) with
    | Fail _ => None
    | Ok price => Some (mkTradeDetail (if bool_decide (Direction quantity = EffectRemoved) then TradeSell else TradeBuy) (pc_InstrumentID p)
                          (pc_HoldingID p) q m price None)
    end
  | _, _ => None
  end.

Definition is_product_reversal (p : ProductActivityContext) : bool := bool_decide (pc_Purpose p = ProductPurposeReversal).

Definition productReversalTrade (u : classUniverse) (a : analysedActivity) : analysedActivity :=
  let act := an_activity a in
  match ProductContext a, act_TradeDetail act with
  | Some p, None =>
    if negb (is_product_reversal p) then a
    else match holdingsByID u !! pc_HoldingID p with
    | Some holding =>
      if negb (bool_decide (hd_InstrumentID holding = pc_InstrumentID p)) then a
      else match product_trade p holding (Effects act) with
      | Some trade => mkAnalysed (revise_activity act (Kind act) (Reason act) (Some trade) (act_DividendDetail act)) (ProductContext a)
      | None => a
      end
    | None => a
    end
  | _, _ => a
  end.

(** ** Returns *)

Definition isProductInterestEffect (a : analysedActivity) (e : ActivityEffect) : bool :=
  match ProductContext a with
  | None => false
  | Some p =>
    bool_decide (pc_Purpose p = ProductPurposeInterest) ||
    (is_product_reversal p && negb (is_none (ef_Money e)) && bool_decide (Role e = EffectRoleAmount) &&
     (bool_decide (Classification e = ClassificationIncome) || bool_decide (Classification e = ClassificationExternalInflow)))
  end.

(** The component of returns, with the holding and the instrument that it belongs to. *)
Definition association : Type := ReturnComponent * option HoldingID * option InstrumentID.

Definition product_association (a : analysedActivity) (e : ActivityEffect) : option association :=
  p ← ProductContext a;
  if isProductInterestEffect a e then Some (ReturnDividendInterest, Some (pc_HoldingID p), Some (pc_InstrumentID p))
  else if is_product_reversal p && bool_decide (Role e = EffectRoleFee) && bool_decide (Classification e = ClassificationFee)
  then Some (ReturnInvestmentFee, Some (pc_HoldingID p), Some (pc_InstrumentID p))
  else None.

Definition is_kind (a : Activity) (k : ActivityKind) : bool := bool_decide (Kind a = k).
Definition is_reason (a : Activity) (r : ActivityReason) : bool := bool_decide (Reason a = r).
Definition is_trade (a : Activity) : bool := is_kind a ActivityBuy || is_kind a ActivitySell.
Definition is_interest (a : Activity) : bool := is_kind a ActivityCashIn && is_reason a ReasonInterest.
Definition is_fee_leg (e : ActivityEffect) : bool := bool_decide (Role e = EffectRoleFee).

Definition fee_association (a : Activity) (e : ActivityEffect) : option association :=
  td ← act_TradeDetail a;
  if is_trade a && is_fee_leg e then Some (ReturnInvestmentFee, Some (td_HoldingID td), Some (td_InstrumentID td)) else None.

Definition returnAssociation (a : analysedActivity) (e : ActivityEffect) (component : ComponentID) : option association :=
  let act := an_activity a in
  match product_association a e with
  | Some x => Some x
  | None =>
    if is_interest act && AnalysisReturn.Cash component then Some (ReturnDividendInterest, None, None)
    else match act_DividendDetail act with
    | Some d =>
      if is_kind act ActivityCashDividend then Some (ReturnDividendInterest, Some (dd_HoldingID d), Some (dd_InstrumentID d))
      else if (is_kind act ActivityCashOut || is_kind act ActivityValueUpdate) && (is_reason act ReasonTax || is_reason act ReasonFee)
      then Some (ReturnInvestmentFee, Some (dd_HoldingID d), Some (dd_InstrumentID d))
      else fee_association act e
    | None => fee_association act e
    end
  end.

(** [visit] is the order in which the map of holdings is read. *)
Definition owner_component (u : classUniverse) (holding : Holding) (holdingID : HoldingID) : ComponentID :=
  mkComponentID (hd_AccountID holding) (Some holdingID) (Some (hd_InstrumentID holding))
    (match instrumentsByID u !! hd_InstrumentID holding with Some i => i_QuoteCurrency i | None => "" end) "" false.
Definition returnOwner (visit : gmap HoldingID Holding → list Holding) (u : classUniverse) (holdingID : option HoldingID)
    (instrumentID : option InstrumentID) : option ComponentID :=
  let by_instrument :=
    i ← instrumentID;
    holding ← List.find (λ holding, bool_decide (hd_InstrumentID holding = i)) (visit (holdingsByID u));
    Some (owner_component u holding (hd_ID holding)) in
  match holdingID with
  | Some h =>
    match holdingsByID u !! h with
    | Some holding => Some (owner_component u holding h)
    | None => by_instrument
    end
  | None => by_instrument
  end.

(** ** Amounts; [None] is an amount that is not known *)

Section Amounts.
Variables (u : classUniverse) (input : AnalysisInputs) (valuation : Valuation).

(** The account of a component; one that is not in the map is no liability. *)
Definition liability_of (c : ComponentID) : bool := is_liability (un_maps u) (cid_AccountID c).

Definition native_mismatch : goerror := validation "valuation" "native amount currency does not match the selected universe".
Definition no_rate : goerror := domainErr ErrUnavailable "fxRate" "an FX rate is unavailable for the activity".

Definition convertAmount (value : Decimal) (cur : CurrencyCode) (at_ : Time) (targetCurrency : CurrencyCode) : Result Decimal :=
  if bool_decide (valuation = ValuationNative) then
    if negb (bool_decide (cur = targetCurrency)) then Fail native_mismatch else Ok value
  else if bool_decide (cur = ai_base input) then Ok value
  else match fxQuoteAt (ai_FXQuotes input) (ai_FXPreferences input) (ai_HouseholdID input) cur (ai_base input) at_ with
  | None => Fail no_rate
  | Some quote => ConvertFXAmount value cur (ai_base input) quote
  end.

Definition convertValuationAmount (value : Decimal) (cur : CurrencyCode) (at_ : Time) (targetCurrency : CurrencyCode) : Result (option Decimal) :=
  match convertAmount value cur at_ targetCurrency with
  | Ok converted => Ok (Some converted)
  | Fail e => if bool_decide (valuation = ValuationBase) && negb (bool_decide (cur = ai_base input)) then Ok None else Fail e
  end.

Definition no_holding_quote : goerror := OtherErr "holding quote is unavailable".
Definition inferredQuantity (item : DailyValuationSnapshotItem) (quote : option InstrumentQuote) : Result Decimal :=
  if bool_decide (it_NativeAmount item = "0"%string) then Ok dZero
  else match quote with
  | None => Fail no_holding_quote
  | Some q => value ← parse_decimal (it_NativeAmount item); Ok (dDiv value (p_value (iq_UnitPrice q)))
  end.

(** The part of a position that a transfer moves, at the value of the snapshot. *)
Definition portion_of (item : DailyValuationSnapshotItem) (component : ComponentID) (quantity : Quantity) (cutoff : Time)
    : Result (option Decimal) :=
  value ← snapshotItemValue item (liability_of component) valuation;
  match value with
  | None => Ok None
  | Some value =>
    match quoteForItem (un_maps u) item (ai_InstrumentQuotes input) cutoff with
    | None => Ok None
    | Some quote =>
      endQuantity ← inferredQuantity item (Some quote);
      Ok (Some (if dIsZero endQuantity then value else dDiv (dMul value (q_value quantity)) endQuantity))
    end
  end.

(** The items at the start and the end of a day, the instant at which it ends, and the one of the snapshot before it. *)
Record dayItems := mkDayItems { startItems : gmap string DailyValuationSnapshotItem; endItems : gmap string DailyValuationSnapshotItem; dayCutoff : Time;
  previousCutoff : option Time }.

Definition position_amount (a : Activity) (e : ActivityEffect) (component : ComponentID) (items : dayItems) (quantity : Quantity)
    : Result (option Decimal) :=
  if is_kind a ActivityPositionTransfer then
    match (if bool_decide (Direction e = EffectRemoved) then startItems items else endItems items) !! Key component with
    | Some item => portion_of item component quantity (dayCutoff items)
    | None => Ok None
    end
  else Ok None.

Definition costed_amount (a : Activity) (e : ActivityEffect) (component : ComponentID) (items : dayItems) (quantity : Quantity)
    : Result (option Decimal) :=
  match CostUnitPrice e with
  | Some price =>
    value ← MultiplyQuantityAndUnitPrice quantity price;
    convertValuationAmount value (cid_Currency component) (EffectiveAt a) (cid_Currency component)
  | None => position_amount a e component items quantity
  end.

Definition effectAmount (a : Activity) (e : ActivityEffect) (component : ComponentID) (items : dayItems) : Result (option Decimal) :=
  match ef_Money e with
  | Some m => convertValuationAmount (amount m) (currency m) (EffectiveAt a) (cid_Currency component)
  | None =>
    match ef_Quantity e, ef_HoldingID e with
    | Some quantity, Some h =>
      match act_TradeDetail a with
      | Some td =>
        if bool_decide (td_HoldingID td = h)
        then convertValuationAmount (amount (td_Gross td)) (currency (td_Gross td)) (EffectiveAt a) (cid_Currency component)
        else costed_amount a e component items quantity
      | None => costed_amount a e component items quantity
      end
    | _, _ => Ok None
    end
  end.

(** Without a snapshot: the amount of an effect for the holding that owns its return. *)
Definition effectAmountForComponent (a : Activity) (e : ActivityEffect) (component : ComponentID) : Result (option Decimal) :=
  effectAmount a e component (mkDayItems ∅ ∅ 0 None).
End Amounts.

(** ** Buckets of asset changes *)

Definition is_class (e : ActivityEffect) (c : ActivityClassification) : bool := bool_decide (Classification e = c).
Definition targets_value (e : ActivityEffect) : bool := bool_decide (Target e = EffectTargetAccountValue).

Definition is_principal (a : Activity) (e : ActivityEffect) : bool :=
  is_class e ClassificationExternalInflow || is_class e ClassificationExternalOutflow || is_class e ClassificationTradePrincipal ||
  is_class e ClassificationDebtPrincipal || is_class e ClassificationInternalTransfer ||
  is_reason a ReasonContribution || is_reason a ReasonPrincipal.

(** A position that changes without a price: a split, or an observation. *)
Definition unpriced_position (a : Activity) (e : ActivityEffect) : bool :=
  is_kind a ActivityPositionTransfer && is_class e ClassificationRemeasurement && is_none (CostUnitPrice e).

(** The last part: flows across the boundary of the universe, and liabilities. *)
Definition boundary_bucket (a : Activity) (e : ActivityEffect) (liability : bool) (insideCount endpointCount : Z) : option AttributionBucket :=
  if is_principal a e && ((endpointCount =? 1) || (insideCount <? endpointCount)) then Some BucketExternalFlow
  else if liability && targets_value e && negb (is_class e ClassificationDebtPrincipal) then Some BucketLiabilityImpact
  else None.

Definition assetBucketFor (activity : analysedActivity) (e : ActivityEffect) (component : ComponentID) (insideCount endpointCount : Z)
    (accounts : gmap AccountID Account) : option AttributionBucket :=
  let a := an_activity activity in
  match accounts !! cid_AccountID component with
  | None => None
  | Some account =>
    let liability := IsLiability account in
    if liability && targets_value e && (is_reason a ReasonCardPurchase || is_reason a ReasonCardRefund || is_interest a) then Some BucketSpending
    else if isProductInterestEffect activity e then Some BucketDividendInterest
    else if is_kind a ActivityCashDividend then Some BucketDividendInterest
    else if is_interest a then Some BucketDividendInterest
    else if is_kind a ActivityCashIn && (is_reason a ReasonIncome || is_reason a ReasonGift) then Some BucketIncome
    else if is_kind a ActivityCashOut && is_reason a ReasonExpense then Some BucketSpending
    else if is_kind a ActivityCashOut && is_reason a ReasonInterest then Some BucketSpending
    else if is_kind a ActivityDebtPayment && is_fee_leg e then Some BucketSpending
    else if is_reason a ReasonFee || is_reason a ReasonTax || is_class e ClassificationFee then Some BucketFee
    else if is_kind a ActivityValueUpdate || is_class e ClassificationRemeasurement then
      if unpriced_position a e then None
      else if liability && targets_value e && is_reason a ReasonInterest then Some BucketLiabilityImpact
      else Some BucketAdjustment
    else boundary_bucket a e liability insideCount endpointCount
  end.

(** ** Capital flows *)

Definition potentialInvestmentComponent (u : classUniverse) (component : ComponentID) : bool :=
  negb (is_none (cid_InstrumentID component)) ||
  (AnalysisReturn.Cash component &&
   match accounts_of u !! cid_AccountID component with Some account => negb (IsLiability account) | None => false end).

(** [amt] is [None] when the amount of the effect is not known. *)
Definition potentialDietzCapitalAmount (u : classUniverse) (activity : analysedActivity) (e : ActivityEffect) (amt : option Decimal)
    (component : ComponentID) : option Decimal :=
  let a := an_activity activity in
  if is_none amt || negb (potentialInvestmentComponent u component) then None
  else
    let performance :=
      match returnAssociation activity e component with
      | Some (returned, _, _) => bool_decide (returned = ReturnInvestmentFee) || bool_decide (returned = ReturnDividendInterest)
      | None => false
      end in
    if performance then None
    else if is_kind a ActivityCashDividend || is_kind a ActivityValueUpdate then None
    else if is_class e ClassificationRemeasurement then None
    else if is_interest a then None
    else if is_trade a && is_fee_leg e then None
    else if is_kind a ActivityPositionTransfer then amt
    else if is_none (ef_Money e) && is_none (act_TradeDetail a) then None
    else amt.

(** The kinds of activity that only move capital when one side lies outside the investments. *)
Definition moves_within (activity : analysedActivity) : bool :=
  let a := an_activity activity in
  is_trade a ||
  match ProductContext activity with Some p => is_product_reversal p && negb (is_none (act_TradeDetail a)) | None => false end ||
  is_kind a ActivityCashTransfer || is_kind a ActivityFXConversion || is_kind a ActivityDebtDraw || is_kind a ActivityDebtPayment ||
  is_kind a ActivityPositionTransfer.

Definition dietzCapitalAmount (u : classUniverse) (activity : analysedActivity) (e : ActivityEffect) (amt : option Decimal)
    (component : ComponentID) (endpoints : list ComponentID) : option Decimal :=
  match potentialDietzCapitalAmount u activity e amt component with
  | None => None
  | Some amt =>
    if negb (in_investment u component) then None
    else if moves_within activity && endpointsInInvestmentUniverse endpoints u then None
    else Some amt
  end.

(** ** The spread of an exchange within the household *)

(** The sum of the neutral legs, the receiving one and how many there are; [None]: an amount is not known. *)
Record fxLegs := mkLegs { lg_difference : Decimal; lg_receiver : option nat; lg_count : Z }.
Fixpoint fx_legs (index : nat) (effects : list classifiedAnalysisEffect) (st : fxLegs) : option fxLegs :=
  match effects with
  | [] => Some st
  | effect :: rest =>
    if negb (neutral effect) || is_none (ef_Money (ce_effect effect)) then fx_legs (S index) rest st
    else if negb (ce_amountKnown effect) then None
    else fx_legs (S index) rest
           (mkLegs (dAdd (lg_difference st) (ce_amount effect))
              (if bool_decide (Direction (ce_effect effect) = EffectAdded) then Some index else lg_receiver st) (lg_count st + 1))
  end.

Definition less_difference (difference : Decimal) (leg : classifiedAnalysisEffect) : classifiedAnalysisEffect :=
  mkClassified (ce_activity leg) (ce_effect leg) (ce_component leg) (ce_bucket leg) (dSub (ce_amount leg) difference) (ce_amountKnown leg)
    (ce_returnComponent leg) (ce_returnAmount leg) (returnKnown leg)
    (if dietzKnown leg then dSub (dietzAmount leg) difference else dietzAmount leg) (dietzKnown leg)
    (if potentialDietzKnown leg then dSub (potentialDietzAmount leg) difference else potentialDietzAmount leg) (potentialDietzKnown leg)
    (neutral leg) (relatedHolding leg) (relatedInstrument leg).

(** The effect of a spread is the zero value; its empty role and classification have no constructor of their
    own, and nothing reads them of an effect without an amount and a quantity. *)
Definition noEffect : ActivityEffect :=
  mkEffect "" "" 0 EffectRoleAmount (DirectionRaw "") (TargetRaw "") ClassificationExternalInflow None None None None None None.

Definition fx_spread (u : classUniverse) (a : Activity) (leg : classifiedAnalysisEffect) (difference : Decimal) : classifiedAnalysisEffect :=
  let invested := in_investment u (ce_component leg) in
  mkClassified a noEffect (ce_component leg) (Some BucketFXConversionSpread) difference true
    (if invested then Some ReturnFXConversionSpread else None) (if invested then difference else dUnset) invested
    dUnset false dUnset false false None None.

Definition attributeInternalFXDifference (u : classUniverse) (a : Activity) (effects : list classifiedAnalysisEffect)
    : list classifiedAnalysisEffect :=
  match fx_legs 0 effects (mkLegs dZero None 0) with
  | None => effects
  | Some st =>
    match lg_receiver st with
    | None => effects
    | Some receiver =>
      if negb (lg_count st =? 2) || dIsZero (lg_difference st) then effects
      else match effects !! receiver with
      | None => effects
      | Some leg =>
        let leg := less_difference (lg_difference st) leg in
        <[receiver := leg]> effects ++ [fx_spread u a leg (lg_difference st)]
      end
    end
  end.

(** ** The classification *)

(** The fields of [DailyValuationSnapshot] that an analysis reads. *)
Record DailyValuationSnapshot := mkDailySnapshot {
  sn_LocalDate : string; sn_CutoffAt : Time; sn_Complete : bool; sn_Items : list DailyValuationSnapshotItem }.

Section Activity.
Variables (visit : gmap HoldingID Holding → list Holding) (u : classUniverse) (input : AnalysisInputs) (valuation : Valuation).

Definition day_items (daySnapshot : DailyValuationSnapshot) (previous : option DailyValuationSnapshot) : dayItems :=
  mkDayItems
    (match previous with Some p => snapshotItemsByComponent (sn_Items p) (accounts_of u) (instrumentsByID u) | None => ∅ end)
    (snapshotItemsByComponent (sn_Items daySnapshot) (accounts_of u) (instrumentsByID u)) (sn_CutoffAt daySnapshot) (sn_CutoffAt <$> previous).

Definition bare_effect (a : Activity) (e : ActivityEffect) : classifiedAnalysisEffect :=
  mkClassified a e noComponent None dUnset false None dUnset false dUnset false dUnset false false None None.

Definition quantity_of (item : DailyValuationSnapshotItem) (quote : InstrumentQuote) : option Decimal :=
  match inferredQuantity item (Some quote) with Ok q => Some q | Fail _ => None end.

(** An explicit reconciliation that removes a part of the position, and is no split. *)
Definition isCarryingValueRemoval (a : Activity) (e : ActivityEffect) (component : ComponentID) (items : dayItems) : bool :=
  let removal :=
    previous ← previousCutoff items;
    quantity ← ef_Quantity e;
    start ← startItems items !! Key component;
    end_ ← endItems items !! Key component;
    if negb (it_Complete start && it_Complete end_) then None
    else
      openQuote ← quoteForItem (un_maps u) start (ai_InstrumentQuotes input) previous;
      closeQuote ← quoteForItem (un_maps u) end_ (ai_InstrumentQuotes input) (dayCutoff items);
      q0 ← quantity_of start openQuote;
      if dIsZero q0 || dGreaterThan (q_value quantity) q0 then None
      else
        qc ← quantity_of end_ closeQuote;
        Some (negb (corporateActionRestatement component [bare_effect a e] q0 qc (p_value (iq_UnitPrice openQuote)) (p_value (iq_UnitPrice closeQuote)))) in
  is_reason a ReasonReconciliation && bool_decide (Direction e = EffectRemoved) && default false removal.

(** The account of a component counts its value negatively. *)
Definition account_sign (e : ActivityEffect) (component : ComponentID) (amt : Decimal) : Decimal :=
  if liability_of u component && targets_value e then dNeg amt else amt.
Definition signed_amount (e : ActivityEffect) (component : ComponentID) (amt : option Decimal) : Decimal :=
  account_sign e component (signedDirection (Direction e) (default dZero amt)).

(** The effect in the component to which it belongs. *)
Definition classify_inside (activity : analysedActivity) (e : ActivityEffect) (component : ComponentID) (endpoints : list ComponentID)
    (insideCount : Z) (items : dayItems) : Result classifiedAnalysisEffect :=
  let a := an_activity activity in
  amt ← effectAmount u input valuation a e component items;
  let carryingRemoval := unpriced_position a e && isCarryingValueRemoval a e component items in
  let amt := if unpriced_position a e && negb carryingRemoval then None else amt in
  let bucket :=
    if carryingRemoval then Some BucketAdjustment
    else assetBucketFor activity e component insideCount (Z.of_nat (List.length endpoints)) (accounts_of u) in
  let signedAmount := signed_amount e component amt in
  let known := (λ _, signedAmount) <$> amt in
  let potential := potentialDietzCapitalAmount u activity e known component in
  let dietz := dietzCapitalAmount u activity e known component endpoints in
  let returned :=
    match returnAssociation activity e component with
    | Some (c, None, None) => if in_investment u component then Some c else None
    | _ => None
    end in
  Ok (mkClassified a e component bucket signedAmount (negb (is_none amt))
        returned (match returned with Some _ => signedAmount | None => dUnset end) (match returned with Some _ => negb (is_none amt) | None => false end)
        (default dUnset dietz) (negb (is_none dietz)) (default dZero potential) (negb (is_none potential))
        (is_none bucket && endpointsInUniverse endpoints u) None None).

(** The return of an effect that belongs to a holding elsewhere. *)
Definition classify_return (activity : analysedActivity) (e : ActivityEffect) (component : ComponentID) (inside : bool)
    : Result (list classifiedAnalysisEffect) :=
  let a := an_activity activity in
  match returnAssociation activity e component with
  | None => Ok []
  | Some (returned, holding, instrument) =>
    match returnOwner visit u holding instrument with
    | None => Ok []
    | Some owner =>
      if negb (in_investment u owner) || (inside && bool_decide (Key owner = Key component)) then Ok []
      else
        amt ← effectAmountForComponent u input valuation a e owner;
        Ok [mkClassified a e owner None dUnset false (Some returned) (signed_amount e component amt) (negb (is_none amt))
              dUnset false dUnset false false holding instrument]
    end
  end.

Definition classify_effect (activity : analysedActivity) (endpoints : list ComponentID) (insideCount : Z) (items : dayItems)
    (results : list classifiedAnalysisEffect) (e : ActivityEffect) : Result (list classifiedAnalysisEffect) :=
  if bool_decide (Target e = EffectTargetHoldingCost) then Ok results
  else
    let found := componentForEffect e u in
    let component := default noComponent found in
    let inside := negb (is_none found) && componentInUniverse u component in
    physical ← (if inside then x ← classify_inside activity e component endpoints insideCount items; Ok [x] else Ok []);
    returned ← classify_return activity e component inside;
    Ok (results ++ physical ++ returned).

Definition endpoints_of (effects : list ActivityEffect) : list ComponentID :=
  omap (λ e, if bool_decide (Target e = EffectTargetHoldingCost) then None else componentForEffect e u) effects.

Definition classifyActivity (activity : analysedActivity) (daySnapshot : DailyValuationSnapshot) (previous : option DailyValuationSnapshot)
    : Result (list classifiedAnalysisEffect) :=
  let activity := productReversalTrade u (as_original u activity) in
  let a := an_activity activity in
  let items := day_items daySnapshot previous in
  let endpoints := endpoints_of (Effects a) in
  let insideCount := Z.of_nat (List.length (List.filter (componentInUniverse u) endpoints)) in
  results ← foldM (classify_effect activity endpoints insideCount items) [] (Effects a);
  Ok (if is_kind a ActivityFXConversion && bool_decide (valuation = ValuationBase) && endpointsInUniverse endpoints u
      then attributeInternalFXDifference u a results else results).
End Activity.
End Classify.
