(* ===== verification/AnalysisDay.v ===== *)
(** * The assembly of a component day

    [buildComponentDay] of [analysis_daily.go], with the maps of buckets it fills: the items a day
    starts and ends with, the effects of the day, the bridge, what is left unexplained, and the
    return of the day.  The display of the ending value is left out. *)

From S2P Require Import Portfolio ChangeState Accounts Fx DecimalModel.
From S2P Require Export AnalysisClassify.
From Stdlib Require Import String Ascii.

#[global] Open Scope Z_scope.

(** ** Buckets as keys *)

Definition AttributionBucket_String (b : AttributionBucket) : string :=
  match b with
  | BucketExternalFlow => "external_flow" | BucketIncome => "income" | BucketSpending => "spending"
  | BucketDividendInterest => "dividend_interest" | BucketPriceChange => "price_change" | BucketFXImpact => "fx_impact"
  | BucketFXConversionSpread => "fx_conversion_spread" | BucketFee => "fee" | BucketLiabilityImpact => "liability_impact"
  | BucketAdjustment => "adjustment" | BucketResidual => "residual"
  end.
Definition AllAttributionBuckets : list AttributionBucket :=
  [BucketExternalFlow; BucketIncome; BucketSpending; BucketDividendInterest; BucketPriceChange; BucketFXImpact; BucketFXConversionSpread;
   BucketFee; BucketLiabilityImpact; BucketAdjustment; BucketResidual].
#[export] Program Instance AttributionBucket_countable : Countable AttributionBucket :=
  inj_countable AttributionBucket_String (λ s, List.find (λ b, bool_decide (AttributionBucket_String b = s)) AllAttributionBuckets) _.
Next Obligation. by intros []. Qed.

Definition ReturnComponent_String (c : ReturnComponent) : string :=
  match c with
  | ReturnPriceChange => "price_change" | ReturnFXImpact => "fx_impact" | ReturnFXConversionSpread => "fx_conversion_spread"
  | ReturnDividendInterest => "dividend_interest" | ReturnInvestmentFee => "investment_fee"
  end.
Definition AllReturnComponents : list ReturnComponent :=
  [ReturnPriceChange; ReturnFXImpact; ReturnFXConversionSpread; ReturnDividendInterest; ReturnInvestmentFee].
#[export] Program Instance ReturnComponent_countable : Countable ReturnComponent :=
  inj_countable ReturnComponent_String (λ s, List.find (λ c, bool_decide (ReturnComponent_String c = s)) AllReturnComponents) _.
Next Obligation. by intros []. Qed.

Section Day.
Context `{HD : DecimalAPI} `{HM : MetalEvidence} `{TZ : TimeZones}.

(** ** Adding to the maps of a day *)

Definition unsetSigned : SignedMoney := mkSignedMoney dUnset "".

(** [addBucket] and [addReturn]: the same code for two types of keys. *)
Definition add_signed {K} `{Countable K} (m : gmap K SignedMoney) (key : K) (amt : Decimal) (cur : CurrencyCode) : Result (gmap K SignedMoney) :=
  if dIsZero amt then Ok m
  else
    let current := match m !! key with Some existing => s_amount existing | None => dZero end in
    value ← NewSignedMoney (dAdd current amt) cur;
    Ok (<[key := value]> m).
Definition addBucket : gmap AttributionBucket SignedMoney → AttributionBucket → Decimal → CurrencyCode → Result (gmap AttributionBucket SignedMoney) :=
  add_signed.
Definition addReturn : gmap ReturnComponent SignedMoney → ReturnComponent → Decimal → CurrencyCode → Result (gmap ReturnComponent SignedMoney) :=
  add_signed.

Definition addExactBucket (m : gmap AttributionBucket Decimal) (bucket : AttributionBucket) (amt : Decimal) : gmap AttributionBucket Decimal :=
  if dIsZero amt then m else <[bucket := dAdd (default dUnset (m !! bucket)) amt]> m.

Definition addSignedValues (left right : SignedMoney) (cur : CurrencyCode) : Result SignedMoney :=
  NewSignedMoney (dAdd (s_amount left) (s_amount right)) cur.

(** The amounts of the map in the order in which it is read. *)
Definition sumReturnComponents (values : list SignedMoney) : Result SignedMoney :=
  match values with
  | [] => Ok unsetSigned
  | _ =>
    let '(cur, total) := fold_left (λ st value, (s_currency value, dAdd st.2 (s_amount value))) values (""%string, dZero) in
    NewSignedMoney total cur
  end.

(** ** What a day consists of *)

(** [AttributedEffect]; [None] for the effect of a bridge, which has no source. *)
Record attribution := mkAttribution {
  at_bucket : option AttributionBucket; at_return : option ReturnComponent; at_flow : option DietzCapitalFlow;
  at_potential : option DietzCapitalFlow; at_amount : SignedMoney; SourceEffect : option ActivityEffect; at_component : ComponentID;
  RelatedHoldingID : option HoldingID; RelatedInstrumentID : option InstrumentID }.

Record Residual := mkResidual { rs_Amount : SignedMoney; rs_Tolerance : Decimal; rs_Visible : bool }.

(** The maps and sums that the effects of a day fill. *)
Record dayState := mkDayState {
  AssetBuckets : gmap AttributionBucket SignedMoney; AssetBucketExact : gmap AttributionBucket Decimal;
  ReturnComponents : gmap ReturnComponent SignedMoney; ds_flows : list DietzCapitalFlow; DietzFlow : SignedMoney;
  ds_effects : list attribution; directTotal : Decimal; neutralTotal : Decimal }.
Definition emptyDay : dayState := mkDayState ∅ ∅ ∅ [] unsetSigned [] dZero dZero.

(** The fields of [ComponentDay]. *)
Record dayResult := mkDayResult {
  dr_state : dayState; dr_beginning : SignedMoney; dr_ending : SignedMoney; dr_status : Completeness; dr_residual : option Residual;
  dr_return : option SignedMoney; dr_invested : option SignedMoney; dr_rate : option Decimal; MissingReason : string }.
Definition blankDay (status : Completeness) : dayResult :=
  mkDayResult emptyDay unsetSigned unsetSigned status None None None None "".

(** The day as the returns of a period read it. *)
Definition component_day (date : string) (component : ComponentID) (r : dayResult) : ComponentDay :=
  mkComponentDay date component (ds_flows (dr_state r)) ((λ e, mkAttributed (at_flow e) (at_potential e)) <$> ds_effects (dr_state r))
    (dr_beginning r) (dr_return r) (dr_invested r) (dr_status r).

(** ** Items at the start and at the end *)

Definition noItem : DailyValuationSnapshotItem := mkItem "" None None "" "" None "" None None false None.
Definition missing_item (item : DailyValuationSnapshotItem) : bool := bool_decide (it_AccountID item = ""%string).

Definition fundingCashAfterProductStart : string := "funding cash is recorded after the product start".
Definition is_funding_gap (item : DailyValuationSnapshotItem) : bool := bool_decide (it_MissingReason item = Some fundingCashAfterProductStart).
Definition fundingGapItemReason (items : list DailyValuationSnapshotItem) : string :=
  if existsb is_funding_gap items then fundingCashAfterProductStart else "".

(** The loop of [snapshotFundingGapAnnotated]. *)
Fixpoint gap_annotated (items : list DailyValuationSnapshotItem) (sawGap : bool) : bool :=
  match items with
  | [] => sawGap
  | item :: rest => if negb (it_Complete item) && negb (is_funding_gap item) then false else gap_annotated rest (sawGap || is_funding_gap item)
  end.
Definition snapshotFundingGapAnnotated (snapshot : DailyValuationSnapshot) : bool :=
  if sn_Complete snapshot then true
  else if bool_decide (sn_LocalDate snapshot = ""%string) then false
  else gap_annotated (sn_Items snapshot) false.

Definition applyFundingGapMark (r : dayResult) (previous current : DailyValuationSnapshotItem) : dayResult :=
  let reason := fundingGapItemReason [previous; current] in
  if bool_decide (reason = ""%string) then r
  else mkDayResult (dr_state r) (dr_beginning r) (dr_ending r)
         (if bool_decide (dr_status r = CompletenessOK) then CompletenessPartial else dr_status r)
         (dr_residual r) (dr_return r) (dr_invested r) (dr_rate r) reason.

Definition componentEffectMatches (component : ComponentID) (e : ActivityEffect) : bool :=
  match cid_HoldingID component with
  | Some h => bool_decide (ef_HoldingID e = Some h)
  | None => bool_decide (ef_AccountID e = Some (cid_AccountID component))
  end.

Definition componentHasActivityInRange (component : ComponentID) (activities : list Activity) (from to : string) : bool :=
  existsb (λ a, negb (String.ltb (EffectiveLocalDate a) from || String.ltb to (EffectiveLocalDate a)) &&
                existsb (componentEffectMatches component) (Effects a)) activities.

(** An effect that concerns an account, by itself or through one of its holdings. *)
Definition touches_account (holdings : list Holding) (id : AccountID) (e : ActivityEffect) : bool :=
  bool_decide (ef_AccountID e = Some id) ||
  match ef_HoldingID e with
  | Some h => existsb (λ holding, bool_decide (hd_ID holding = h) && bool_decide (hd_AccountID holding = id)) holdings
  | None => false
  end.

Definition accountAbsentBeforeCreation (account : option Account) (cutoff : Time) (snapshots : list DailyValuationSnapshot)
    (activities : list Activity) (holdings : list Holding) : bool :=
  match account with
  | None => false
  | Some account =>
    if timeIsZero cutoff || timeIsZero (a_CreatedAt account) || negb (cutoff <? a_CreatedAt account) then false
    else negb (existsb (λ s, negb (cutoff <? sn_CutoffAt s) && existsb (λ item, bool_decide (it_AccountID item = ID account)) (sn_Items s)) snapshots ||
               existsb (λ a, negb (cutoff <? EffectiveAt a) && existsb (touches_account holdings (ID account)) (Effects a)) activities)
  end.

(** What [buildComponentDay] reads besides the component: the activities, snapshots and holdings of the inputs, the
    time zone of the origin, and the order in which the map of returns is read. *)
Record dayInputs := mkDayInputs {
  dn_input : AnalysisInputs; dn_activities : list Activity; dn_snapshots : list DailyValuationSnapshot; dn_holdings : list Holding;
  dn_timezone : string; dn_query : AnalysisQuery; dn_visit : gmap ReturnComponent SignedMoney → list SignedMoney }.

Section Build.
Variables (n : dayInputs) (u : classUniverse) (component : ComponentID).

Definition base_currency : CurrencyCode := ai_base (dn_input n).
Definition the_valuation : Valuation := q_Valuation (dn_query n).
Definition currency_of (item : DailyValuationSnapshotItem) : CurrencyCode := valueCurrency item the_valuation base_currency.
Definition value_of (item : DailyValuationSnapshotItem) : Result (option Decimal) :=
  snapshotItemValue item (liability_of u component) the_valuation.

(** ** The items of the day *)

Record settled := mkSettled { se_previous : DailyValuationSnapshotItem; se_current : DailyValuationSnapshotItem; hasPrevious : bool; hasCurrent : bool }.

Definition absent_at (snapshot : DailyValuationSnapshot) : bool :=
  accountAbsentBeforeCreation (accounts_of u !! cid_AccountID component) (sn_CutoffAt snapshot) (dn_snapshots n) (dn_activities n) (dn_holdings n).

(** A complete snapshot before the account existed omits it. *)
Definition before_creation (previousSnapshot currentSnapshot : DailyValuationSnapshot) (s : settled) : settled :=
  let previous :=
    if hasPrevious s && sn_Complete previousSnapshot && missing_item (se_previous s) && absent_at previousSnapshot
    then zeroValuationItem component (se_current s) else se_previous s in
  let current :=
    if hasCurrent s && sn_Complete currentSnapshot && missing_item (se_current s) && absent_at currentSnapshot
    then zeroValuationItem component previous else se_current s in
  mkSettled previous current (hasPrevious s) (hasCurrent s).

Definition opening_known (previousSnapshot currentSnapshot : DailyValuationSnapshot) : bool :=
  (sn_Complete previousSnapshot && sn_Complete currentSnapshot) ||
  (negb (AnalysisReturn.Cash component) && snapshotFundingGapAnnotated previousSnapshot && snapshotFundingGapAnnotated currentSnapshot).

(** An activity proves that a side that is missing is an opening or closing zero. *)
Definition fill_missing (s : settled) : settled :=
  match missing_item (se_previous s), missing_item (se_current s) with
  | true, false =>
    if it_Complete (se_current s) then mkSettled (zeroValuationItem component (se_current s)) (se_current s) true (hasCurrent s) else s
  | false, true =>
    if it_Complete (se_previous s) then mkSettled (se_previous s) (zeroValuationItem component (se_previous s)) (hasPrevious s) true else s
  | true, true =>
    let previous := zeroValuationItem component noItem in
    mkSettled previous (zeroValuationItem component previous) true true
  | false, false => s
  end.

Definition settle (previousSnapshot currentSnapshot : DailyValuationSnapshot) (effects : list classifiedAnalysisEffect) (s : settled) : settled :=
  let s := before_creation previousSnapshot currentSnapshot s in
  let active :=
    match effects with [] => false | _ => true end ||
    componentHasActivityInRange component (dn_activities n) (q_From (dn_query n)) (q_To (dn_query n)) in
  if active && opening_known previousSnapshot currentSnapshot then fill_missing s else s.

(** ** The effects of the day *)

Section Effects.
Variables (date : string) (cur : CurrencyCode).

Definition add_direct (st : dayState) (e : classifiedAnalysisEffect) : Result dayState :=
  if negb (ce_amountKnown e) then Ok st
  else match ce_bucket e with
  | Some bucket =>
    buckets ← addBucket (AssetBuckets st) bucket (ce_amount e) cur;
    Ok (mkDayState buckets (addExactBucket (AssetBucketExact st) bucket (ce_amount e)) (ReturnComponents st) (ds_flows st) (DietzFlow st)
          (ds_effects st) (dAdd (directTotal st) (ce_amount e)) (neutralTotal st))
  | None =>
    if neutral e
    then Ok (mkDayState (AssetBuckets st) (AssetBucketExact st) (ReturnComponents st) (ds_flows st) (DietzFlow st) (ds_effects st)
               (directTotal st) (dAdd (neutralTotal st) (ce_amount e)))
    else Ok st
  end.

Definition add_return (st : dayState) (c : option ReturnComponent) (known : bool) (amt : Decimal) : Result dayState :=
  match c with
  | Some c =>
    if known then
      returns ← addReturn (ReturnComponents st) c amt cur;
      Ok (mkDayState (AssetBuckets st) (AssetBucketExact st) returns (ds_flows st) (DietzFlow st) (ds_effects st) (directTotal st) (neutralTotal st))
    else Ok st
  | None => Ok st
  end.

Definition add_flow (st : dayState) (e : classifiedAnalysisEffect) : Result (dayState * option DietzCapitalFlow) :=
  if negb (dietzKnown e) then Ok (st, None)
  else
    money ← NewSignedMoney (dietzAmount e) cur;
    let flow := mkFlow money (EffectiveAt (ce_activity e)) in
    weightedFlow ← NewSignedMoney (dMul (dietzAmount e) (analysisDayFlowWeight date (dn_timezone n) (EffectiveAt (ce_activity e)))) cur;
    total ← addSignedValues (DietzFlow st) weightedFlow cur;
    Ok (mkDayState (AssetBuckets st) (AssetBucketExact st) (ReturnComponents st) (ds_flows st ++ [flow]) total (ds_effects st)
          (directTotal st) (neutralTotal st), Some flow).

Definition potential_flow (e : classifiedAnalysisEffect) : Result (option DietzCapitalFlow) :=
  if potentialDietzKnown e && negb (dietzKnown e) then
    money ← NewSignedMoney (potentialDietzAmount e) cur;
    Ok (Some (mkFlow money (EffectiveAt (ce_activity e))))
  else Ok None.

Definition add_attribution (st : dayState) (a : attribution) : dayState :=
  mkDayState (AssetBuckets st) (AssetBucketExact st) (ReturnComponents st) (ds_flows st) (DietzFlow st) (ds_effects st ++ [a])
    (directTotal st) (neutralTotal st).

Definition attribute_effect (st : dayState) (e : classifiedAnalysisEffect) (flow potential : option DietzCapitalFlow) : Result dayState :=
  if is_none (ce_bucket e) && is_none (ce_returnComponent e) && negb (dietzKnown e) && is_none potential then Ok st
  else
    money ← NewSignedMoney (if negb (is_none (ce_returnComponent e)) && returnKnown e then ce_returnAmount e else ce_amount e) cur;
    Ok (add_attribution st (mkAttribution (ce_bucket e) (ce_returnComponent e) flow potential money (Some (ce_effect e)) (ce_component e)
          (relatedHolding e) (relatedInstrument e))).

Definition day_effect (st : dayState) (e : classifiedAnalysisEffect) : Result dayState :=
  st ← add_direct st e;
  st ← add_return st (ce_returnComponent e) (returnKnown e) (ce_returnAmount e);
  '(st, flow) ← add_flow st e;
  potential ← potential_flow e;
  attribute_effect st e flow potential.

(** ** The bridge and the residual *)

Definition invested : bool := in_investment u component.

(** The change of prices or of rates: its rounded view in the bucket and in the returns, its value in the exact bucket. *)
Definition add_bridge (bucket : AttributionBucket) (returned : ReturnComponent) (exact : option Q) (value : Decimal) (st : dayState)
    : Result dayState :=
  if dIsZero value then Ok st
  else
    let exact := default (RationalFromDecimal value) exact in
    let amt := decimalAtMoneyBoundary (Some exact) in
    attributed ← newSignedRational exact cur;
    buckets ← addBucket (AssetBuckets st) bucket amt cur;
    let st := mkDayState buckets (addExactBucket (AssetBucketExact st) bucket value) (ReturnComponents st) (ds_flows st) (DietzFlow st)
                (ds_effects st) (directTotal st) (neutralTotal st) in
    st ← add_return st (Some returned) invested amt;
    Ok (add_attribution st (mkAttribution (Some bucket) (if invested then Some returned else None) None None attributed None component None None)).

Definition exact_remainder (delta : Decimal) (st : dayState) (b : holdingBridge) : Q :=
  (RationalFromDecimal delta - RationalFromDecimal (directTotal st) - RationalFromDecimal (neutralTotal st) -
   default (RationalFromDecimal (br_price b)) (exactPrice b) - default (RationalFromDecimal (br_fx b)) (exactFX b))%Q.

(** What neither the effects nor the bridge explain, its money, and whether it exceeds the tolerance. *)
Definition unexplained_of (delta : Decimal) (st : dayState) (b : holdingBridge) (tolerance : Decimal) : Result (Decimal * SignedMoney * bool) :=
  match exactPrice b, exactFX b with
  | None, None =>
    let unexplained := dSub (dSub (dSub (dSub delta (directTotal st)) (neutralTotal st)) (br_price b)) (br_fx b) in
    money ← NewSignedMoney unexplained cur;
    Ok (unexplained, money, dGreaterThan (dAbs unexplained) tolerance)
  | _, _ =>
    let exact := exact_remainder delta st b in
    unexplained ← analysisRationalDecimal exact;
    money ← newSignedRational exact cur;
    Ok (unexplained, money, negb (Qle_bool (Qabs exact) (RationalFromDecimal tolerance)))
  end.

Definition add_residual (st : dayState) (residual : Decimal * SignedMoney * bool) : Result dayState :=
  let '(unexplained, money, visible) := residual in
  if negb visible then Ok st
  else
    buckets ← addBucket (AssetBuckets st) BucketResidual (s_amount money) cur;
    Ok (mkDayState buckets (addExactBucket (AssetBucketExact st) BucketResidual unexplained) (ReturnComponents st) (ds_flows st)
          (DietzFlow st) (ds_effects st) (directTotal st) (neutralTotal st)).
End Effects.

(** ** The day *)

Definition bridge_of (s : settled) (previousSnapshot currentSnapshot : DailyValuationSnapshot) (effects : list classifiedAnalysisEffect)
    : Result holdingBridge :=
  match cid_HoldingID component, cid_InstrumentID component with
  | Some _, _ =>
    computeHoldingBridge component (un_maps u) (dn_input n) the_valuation (se_previous s) (se_current s)
      (sn_CutoffAt previousSnapshot) (sn_CutoffAt currentSnapshot) effects
  | None, None =>
    computeCashBridge component (un_maps u) (dn_input n) (se_previous s) (se_current s)
      (sn_CutoffAt previousSnapshot) (sn_CutoffAt currentSnapshot) effects the_valuation
  | None, Some _ => Ok (empty_bridge false)
  end.

(** The return of the day, its capital and its rate; a sum of capital that is out of range is left out. *)
Definition with_return (r : dayResult) (cur : CurrencyCode) : Result dayResult :=
  total ← sumReturnComponents (dn_visit n (ReturnComponents (dr_state r)));
  returnMoney ← NewSignedMoney (s_amount total) cur;
  let capital := match addSignedValues (dr_beginning r) (DietzFlow (dr_state r)) cur with Ok m => Some m | Fail _ => None end in
  let rate :=
    match capital with
    | Some m => if bool_decide (dr_status r = CompletenessOK) && dIsPositive (s_amount m) then Some (dDiv (s_amount returnMoney) (s_amount m)) else None
    | None => None
    end in
  Ok (mkDayResult (dr_state r) (dr_beginning r) (dr_ending r) (dr_status r) (dr_residual r) (Some returnMoney) capital rate (MissingReason r)).

(** A day whose two ends are known. *)
Definition known_day (date : string) (s : settled) (previousSnapshot currentSnapshot : DailyValuationSnapshot)
    (effects : list classifiedAnalysisEffect) (begin ending : Decimal) : Result dayResult :=
  let cur := currency_of (se_current s) in
  beginning ← NewSignedMoney begin (currency_of (se_previous s));
  ended ← NewSignedMoney ending cur;
  st ← foldM (day_effect date cur) emptyDay effects;
  b ← bridge_of s previousSnapshot currentSnapshot effects;
  st ← add_bridge cur BucketPriceChange ReturnPriceChange (exactPrice b) (br_price b) st;
  st ← add_bridge cur BucketFXImpact ReturnFXImpact (exactFX b) (br_fx b) st;
  let tolerance := residualTolerance cur begin in
  residual ← unexplained_of cur (dSub ending begin) st b tolerance;
  st ← add_residual cur st residual;
  let visible := residual.2 in
  let r := mkDayResult st beginning ended (if visible || br_partial b then CompletenessPartial else CompletenessOK)
             (if visible then Some (mkResidual residual.1.2 tolerance true) else None) None None None "" in
  if invested then with_return r cur else Ok r.

(** A day of which one end is missing; its ending is kept where only the funding cash is late. *)
Definition open_day (s : settled) : Result dayResult :=
  let status :=
    if hasPrevious s && hasCurrent s && (it_Complete (se_previous s) || it_Complete (se_current s))
    then CompletenessPartial else CompletenessUnavailable in
  if negb (bool_decide (fundingGapItemReason [se_previous s; se_current s] = ""%string)) && it_Complete (se_current s) then
    ending ← value_of (se_current s);
    match ending with
    | None => Ok (blankDay status)
    | Some ending =>
      money ← NewSignedMoney ending (currency_of (se_current s));
      Ok (mkDayResult emptyDay unsetSigned money CompletenessPartial None None None None "")
    end
  else Ok (blankDay status).

Definition settled_day (date : string) (s : settled) (previousSnapshot currentSnapshot : DailyValuationSnapshot)
    (effects : list classifiedAnalysisEffect) : Result dayResult :=
  if negb (hasPrevious s) || negb (hasCurrent s) || negb (it_Complete (se_previous s)) || negb (it_Complete (se_current s)) then open_day s
  else
    begin ← value_of (se_previous s);
    ending ← value_of (se_current s);
    match begin, ending with
    | Some begin, Some ending => known_day date s previousSnapshot currentSnapshot effects begin ending
    | _, _ => Ok (blankDay CompletenessPartial)
    end.

Definition buildComponentDay (date : string) (previous current : DailyValuationSnapshotItem)
    (previousSnapshot currentSnapshot : DailyValuationSnapshot) (hasPrev hasCur : bool) (effects : list classifiedAnalysisEffect)
    : Result dayResult :=
  let s := settle previousSnapshot currentSnapshot effects (mkSettled previous current hasPrev hasCur) in
  r ← settled_day date s previousSnapshot currentSnapshot effects;
  Ok (applyFundingGapMark r (se_previous s) (se_current s)).
End Build.
End Day.
