(* ===== verification/AnalysisDayLaws.v ===== *)
(** * A component day adds up

    What [AnalysisDay] promises: the exact buckets of a day are the amounts of its effects, the bridge
    and the residual; together with the neutral effects they are the change of the value, up to the
    tolerance of a day that is called complete, and exactly where a residual is shown. *)

From S2P Require Export AnalysisDay AnalysisFold.
From S2P Require Import Portfolio ChangeState Accounts Fx DecimalModel.
From S2P Require MarketPolicy.
From Stdlib Require Import String Ascii Qreduction.

#[global] Open Scope Z_scope.

Section Laws.
Context `{HD : DecimalAPI} {HL : DecimalLaws} `{HM : MetalEvidence} `{TZ : TimeZones}.

(** ** Decimals of rationals *)

(** Half a unit of the fortieth place. *)
Definition half_digit : Q := ((1 # 2) * p10 (-40))%Q.

Lemma analysisRationalDecimal_near q d : analysisRationalDecimal q = Ok d → (Qabs (dval d - q) <= half_digit)%Q.
Proof.
  unfold analysisRationalDecimal, ExactFXIntermediateDecimal. destruct (Qeq_bool q 0) eqn:E.
  - intros [= <-]. apply Qeq_bool_iff in E. rewrite E, dval_dzero. vm_compute. discriminate.
  - destruct (CheckExactMoneyRange _); [|done]. intros [= <-].
    assert (¬ (dval (dInt (Zpos (Qden (Qred q)))) == 0)%Q) as Hz by (rewrite dval_int; intros H; discriminate H).
    unfold dval at 1. rewrite dDivRound_coef, dDivRound_expo by done. change maxFXConversionInputFractionDigits with 40.
    change (-40) with (- (40)). rewrite !dval_int.
    assert (q == inject_Z (Qnum (Qred q)) / inject_Z (Zpos (Qden (Qred q))))%Q as Hq.
    { rewrite <-(Qred_correct q) at 1. destruct (Qred q) as [num den]. cbn [Qnum Qden]. apply Qmake_Qdiv. }
    set (x := (inject_Z (Qnum (Qred q)) / inject_Z (Zpos (Qden (Qred q))))%Q) in *. clearbody x.
    assert (cval (round_half_away (x * p10 40)) (- (40)) - q == cval (round_half_away (x * p10 40)) (- (40)) - x)%Q as -> by by rewrite Hq.
    apply MarketPolicy.scaled_near, MarketPolicy.round_half_away_near.
Qed.

(** ** The bridge and its decimals *)

(** A decimal of a bridge is the decimal of its exact value. *)
Definition near_exact (value : Decimal) (exact : option Q) : Prop :=
  match exact with Some q => (Qabs (dval value - q) <= half_digit)%Q | None => True end.
Definition bridge_ok (b : holdingBridge) : Prop := near_exact (br_price b) (exactPrice b) ∧ near_exact (br_fx b) (exactFX b).

Lemma empty_bridge_ok partial : bridge_ok (empty_bridge partial).
Proof. done. Qed.

Lemma projected_ok price fx partial b : projectedHoldingBridge price fx partial = Ok b → bridge_ok b.
Proof.
  unfold projectedHoldingBridge. intros H. apply bind_Ok in H as (p & Hp & H). apply bind_Ok in H as (f & Hf & [= <-]).
  split; by apply analysisRationalDecimal_near.
Qed.

Lemma computeCashBridge_ok c m i p k pc kc effects v b : computeCashBridge c m i p k pc kc effects v = Ok b → bridge_ok b.
Proof.
  unfold computeCashBridge. destruct (bool_decide _); [by intros [= <-]|]. destruct (_ && _); [by intros [= <-]|].
  destruct (_ || _); [by intros [= <-]|]. intros H. apply bind_Ok in H as (native & _ & H).
  destruct (if negb _ && _ then _ else _) as [openQ openOK]. destruct (if negb _ then _ else _) as [closeQ closeOK].
  destruct (_ || _); [by injection H as <-|]. apply bind_Ok in H as ([atClose|] & _ & H); [|by injection H as <-].
  apply bind_Ok in H as ([atOpen|] & _ & H); [|by injection H as <-].
  apply bind_Ok in H as ([[total partial]|] & _ & H); [|by injection H as <-]. by eapply projected_ok.
Qed.

Lemma finish_holding_ok c i v effects price q0 qc closePrice quote w b :
  finish_holding c i v effects price q0 qc closePrice quote w = Ok b → bridge_ok b.
Proof.
  unfold finish_holding. destruct (shrink _ _) as [segments|]; [|by intros [= <-]]. intros H.
  apply bind_Ok in H as ([[x y]|] & _ & H); [|by injection H as <-]. by eapply projected_ok.
Qed.

Lemma computeHoldingBridge_ok c m i v p k pc kc effects b : computeHoldingBridge c m i v p k pc kc effects = Ok b → bridge_ok b.
Proof.
  unfold computeHoldingBridge. destruct (_ || _); [by intros [= <-]|]. intros H. apply bind_Ok in H as (x & _ & H).
  apply bind_Ok in H as (y & _ & H). destruct (_ && _); [by injection H as <-|].
  destruct (quoteForItem m k _ _); [|by injection H as <-]. destruct (_ && _); [by injection H as <-|].
  destruct (opening_rates _ _ _ _ _ _ _ _) as [[? ?] [? ?]]. destruct (_ || _); [by injection H as <-|].
  destruct (walk_effects _ _ _ _ _); [|by injection H as <-]. by eapply finish_holding_ok.
Qed.

Lemma bridge_of_ok n u c s ps cs effects b : bridge_of n u c s ps cs effects = Ok b → bridge_ok b.
Proof.
  unfold bridge_of. destruct (cid_HoldingID c), (cid_InstrumentID c); [apply computeHoldingBridge_ok..|by intros [= <-]|apply computeCashBridge_ok].
Qed.

(** ** The buckets of a day *)

Definition exact_in (st : dayState) (k : AttributionBucket) : Q := dval (default dUnset (AssetBucketExact st !! k)).

(** The part of an effect that counts in a bucket, and the part that is neutral. *)
Definition amount_in (k : AttributionBucket) (e : classifiedAnalysisEffect) : Q :=
  if ce_amountKnown e && bool_decide (ce_bucket e = Some k) then dval (ce_amount e) else 0%Q.
Definition neutral_amount (e : classifiedAnalysisEffect) : Q :=
  if ce_amountKnown e && is_none (ce_bucket e) && neutral e then dval (ce_amount e) else 0%Q.
Definition direct_amount (e : classifiedAnalysisEffect) : Q :=
  if ce_amountKnown e && negb (is_none (ce_bucket e)) then dval (ce_amount e) else 0%Q.

Lemma exact_in_add m b amt k :
  (dval (default dUnset (addExactBucket m b amt !! k)) == dval (default dUnset (m !! k)) + (if bool_decide (k = b) then dval amt else 0))%Q.
Proof.
  unfold addExactBucket. destruct (dIsZero amt) eqn:Ez.
  - apply dIsZero_val in Ez. case_bool_decide; [rewrite Ez|]; ring.
  - case_bool_decide as E.
    + subst. rewrite lookup_insert_eq. cbn. by rewrite dAdd_val.
    + rewrite lookup_insert_ne by done. ring.
Qed.

(** The sums of a state that the waterfall reads. *)
Definition sums (st : dayState) : gmap AttributionBucket Decimal * Decimal * Decimal := (AssetBucketExact st, directTotal st, neutralTotal st).

Lemma add_return_sums cur st c known amt st' : add_return cur st c known amt = Ok st' → sums st' = sums st.
Proof.
  unfold add_return. destruct c; [|by intros [= <-]]. destruct known; [|by intros [= <-]]. intros H.
  by apply bind_Ok in H as (x & _ & [= <-]).
Qed.

Lemma day_effect_sums n date cur st e st' : day_effect n date cur st e = Ok st' → ∃ st1, add_direct cur st e = Ok st1 ∧ sums st' = sums st1.
Proof.
  unfold day_effect. intros H. apply bind_Ok in H as (st1 & H1 & H). apply bind_Ok in H as (st2 & H2 & H).
  apply bind_Ok in H as ([st3 flow] & H3 & H). apply bind_Ok in H as (potential & _ & H). exists st1. split; [done|].
  apply add_return_sums in H2. rewrite <-H2. assert (sums st3 = sums st2) as <-.
  { unfold add_flow in H3. destruct (negb _); [by injection H3 as <- _|]. apply bind_Ok in H3 as (? & _ & H3).
    apply bind_Ok in H3 as (? & _ & H3). by apply bind_Ok in H3 as (? & _ & [= <- _]). }
  unfold attribute_effect in H. destruct (_ && _); [by injection H as <-|]. by apply bind_Ok in H as (? & _ & [= <-]).
Qed.

Lemma sums_inj st st' : sums st' = sums st →
  AssetBucketExact st' = AssetBucketExact st ∧ directTotal st' = directTotal st ∧ neutralTotal st' = neutralTotal st.
Proof. unfold sums. by intros [= -> -> ->]. Qed.

Lemma add_direct_value cur st e st' : add_direct cur st e = Ok st' →
  (∀ k, (exact_in st' k == exact_in st k + amount_in k e)%Q) ∧
  (dval (directTotal st') == dval (directTotal st) + direct_amount e)%Q ∧
  (dval (neutralTotal st') == dval (neutralTotal st) + neutral_amount e)%Q.
Proof.
  unfold add_direct, amount_in, direct_amount, neutral_amount. destruct (ce_amountKnown e); cbn [negb andb].
  2:{ intros [= <-]. split; [intros k|split]; ring. }
  destruct (ce_bucket e) as [b|]; cbn [is_none negb andb].
  - intros H. apply bind_Ok in H as (buckets & _ & [= <-]). unfold exact_in. cbn [AssetBucketExact directTotal neutralTotal].
    split; [|split; [by rewrite dAdd_val|ring]]. intros k. rewrite exact_in_add. apply Qplus_inj_l.
    destruct (bool_decide_reflect (k = b)) as [->|Hne]; [by rewrite bool_decide_eq_true_2|].
    rewrite bool_decide_eq_false_2; [done|congruence].
  - destruct (neutral e); intros [= <-]; unfold exact_in;
      cbn [AssetBucketExact directTotal neutralTotal];
      (split; [intros k; rewrite bool_decide_eq_false_2 by done; ring|]); rewrite ?dAdd_val; split; ring.
Qed.

(** The sums of a day are the sums over its effects. *)
Lemma effects_sums n date cur effects st : foldM (day_effect n date cur) emptyDay effects = Ok st →
  (∀ k, (exact_in st k == sumQ (amount_in k) effects)%Q) ∧
  (dval (directTotal st) == sumQ direct_amount effects)%Q ∧ (dval (neutralTotal st) == sumQ neutral_amount effects)%Q.
Proof.
  apply (foldM_inv _ (λ l st, (∀ k, (exact_in st k == sumQ (amount_in k) l)%Q) ∧
    (dval (directTotal st) == sumQ direct_amount l)%Q ∧ (dval (neutralTotal st) == sumQ neutral_amount l)%Q)).
  - intros l s e s' (Hk & Hd & Hn) _ H. apply day_effect_sums in H as (s1 & H1 & (E1 & E2 & E3)%sums_inj).
    apply add_direct_value in H1 as (Hk1 & Hd1 & Hn1). unfold exact_in in *. rewrite E1, E2, E3. split; [intros k|split].
    + by rewrite Hk1, Hk, sumQ_snoc.
    + by rewrite Hd1, Hd, sumQ_snoc.
    + by rewrite Hn1, Hn, sumQ_snoc.
  - unfold exact_in. cbn. split; [intros k; rewrite lookup_empty; cbn; unfold dUnset, dval, cval; rewrite dNew_coef; ring|].
    by rewrite dval_dzero.
Qed.

(** ** The bridge and the residual in the buckets *)

Definition in_bucket (k b : AttributionBucket) (d : Decimal) : Q := if bool_decide (k = b) then dval d else 0%Q.

Lemma add_bridge_value u c cur b returned exact value st st' : add_bridge u c cur b returned exact value st = Ok st' →
  (∀ k, (exact_in st' k == exact_in st k + in_bucket k b value)%Q) ∧ directTotal st' = directTotal st ∧ neutralTotal st' = neutralTotal st.
Proof.
  unfold add_bridge, exact_in, in_bucket. destruct (dIsZero value) eqn:Ez.
  - intros [= <-]. split; [|done]. intros k. apply dIsZero_val in Ez. case_bool_decide; [rewrite Ez|]; ring.
  - intros H. apply bind_Ok in H as (money & _ & H). apply bind_Ok in H as (buckets & _ & H).
    apply bind_Ok in H as (st1 & H1 & [= <-]). apply add_return_sums, sums_inj in H1 as (E1 & E2 & E3).
    unfold add_attribution. cbn [AssetBucketExact directTotal neutralTotal] in *. rewrite E1, E2, E3.
    split; [|done]. intros k. apply exact_in_add.
Qed.

Lemma add_residual_value cur st x money visible st' : add_residual cur st (x, money, visible) = Ok st' →
  (∀ k, (exact_in st' k == exact_in st k + (if visible then in_bucket k BucketResidual x else 0))%Q) ∧
  directTotal st' = directTotal st ∧ neutralTotal st' = neutralTotal st.
Proof.
  unfold add_residual, exact_in, in_bucket. destruct visible; cbn [negb].
  - intros H. apply bind_Ok in H as (buckets & _ & [= <-]). split; [|done]. intros k. apply exact_in_add.
  - intros [= <-]. split; [intros k; ring|done].
Qed.

Lemma half_digit_nonneg : (0 <= half_digit)%Q.
Proof. vm_compute. discriminate. Qed.

Lemma near_default value exact : near_exact value exact →
  (Qabs (default (RationalFromDecimal value) exact - dval value) <= half_digit)%Q.
Proof.
  destruct exact as [q|]; cbn [near_exact default].
  - by rewrite Qabs_Qminus.
  - intros _. rewrite RationalFromDecimal_val. assert (dval value - dval value == 0)%Q as -> by ring. apply half_digit_nonneg.
Qed.

(** What is left after the effects and the decimals of the bridge. *)
Definition left_over (delta : Decimal) (st : dayState) (b : holdingBridge) : Q :=
  (dval delta - dval (directTotal st) - dval (neutralTotal st) - dval (br_price b) - dval (br_fx b))%Q.

(** The exact remainder and the one of the decimals: two roundings of the bridge, one of the remainder. *)
Lemma remainder_near (l p p' f f' y h t : Q) (visible : bool) : (0 <= h)%Q → (Qabs (p' - p) <= h)%Q → (Qabs (f' - f) <= h)%Q →
  (Qabs (y - (l - p' - f')) <= h)%Q → visible = negb (Qle_bool (Qabs (l - p' - f')) t) →
  (Qabs (y - (l - p - f)) <= 3 * h)%Q ∧ (visible = false → Qabs (l - p - f) <= t + 2 * h)%Q ∧ (visible = true → t - h <= Qabs y)%Q.
Proof.
  intros Hh Hp Hf Hy Hv. pose proof (Qabs_triangle_reverse (l - p' - f') y) as Htri. rewrite Qabs_Qminus in Hy.
  assert (visible = false → (Qabs (l - p' - f') <= t)%Q) as Hno by (intros ->; apply Qle_bool_iff; by destruct (Qle_bool _ _)).
  assert (visible = true → (t < Qabs (l - p' - f'))%Q) as Hyes.
  { intros ->. apply Qnot_le_lt. intros Hle%Qle_bool_iff. by rewrite Hle in Hv. }
  split; [|split].
  - rewrite Qabs_Qle_condition in *. lra.
  - intros E. specialize (Hno E). rewrite Qabs_Qle_condition in *. lra.
  - intros E. specialize (Hyes E). lra.
Qed.

Lemma not_le_greater a b (x : Q) : (dval a == x)%Q → dGreaterThan a b = negb (Qle_bool x (dval b)).
Proof.
  intros Hx. destruct (Qle_bool x (dval b)) eqn:E; cbn [negb].
  - apply Qle_bool_iff in E. apply greater_false. by rewrite Hx.
  - apply dGreaterThan_val. apply Qnot_le_lt. rewrite Hx. intros Hle%Qle_bool_iff. congruence.
Qed.

Lemma unexplained_value cur delta st b tolerance x money visible : bridge_ok b →
  unexplained_of cur delta st b tolerance = Ok (x, money, visible) →
  (Qabs (dval x - left_over delta st b) <= 3 * half_digit)%Q ∧
  (visible = false → Qabs (left_over delta st b) <= dval tolerance + 2 * half_digit)%Q ∧
  (visible = true → dval tolerance - half_digit <= Qabs (dval x))%Q.
Proof.
  intros [Hp%near_default Hf%near_default] H. pose proof half_digit_nonneg as Hh. unfold left_over.
  set (l := (dval delta - dval (directTotal st) - dval (neutralTotal st))%Q).
  set (p' := default (RationalFromDecimal (br_price b)) (exactPrice b)) in *. set (f' := default (RationalFromDecimal (br_fx b)) (exactFX b)) in *.
  assert (exact_remainder delta st b == l - p' - f')%Q as He by (unfold exact_remainder, l; by rewrite !RationalFromDecimal_val).
  assert ((Qabs (dval x - (l - p' - f')) <= half_digit)%Q ∧ visible = negb (Qle_bool (Qabs (l - p' - f')) (dval tolerance))) as [Hx Hv].
  2: by apply (remainder_near _ _ p' _ f').
  unfold unexplained_of in H. set (e := exact_remainder delta st b) in *. clearbody e. destruct (exactPrice b), (exactFX b).
  1-3: apply bind_Ok in H as (y & Hy & H); apply bind_Ok in H as (? & _ & H); injection H as <- _ <-; split;
    [by rewrite <-He; apply analysisRationalDecimal_near
    |apply (f_equal negb), Qleb_comp; [by rewrite He|apply RationalFromDecimal_val]].
  apply bind_Ok in H as (? & _ & H). injection H as <- _ <-. cbn [default] in p', f'. split; [|apply not_le_greater];
    rewrite ?dAbs_val, !dSub_val; unfold l, p', f'; rewrite !RationalFromDecimal_val; [|reflexivity].
  match goal with |- (Qabs ?q <= _)%Q => assert (q == 0)%Q as -> by ring end. done.
Qed.

(** ** Sums over the buckets *)

Lemma sumQ_swap {A B} (f : A → B → Q) l k : (sumQ (λ x, sumQ (f x) k) l == sumQ (λ y, sumQ (λ x, f x y) l) k)%Q.
Proof.
  induction l as [|x l IH]; [symmetry; by apply sumQ_zero|]. rewrite sumQ_cons, IH, <-sumQ_plus. apply sumQ_ext. intros y _.
  by rewrite sumQ_cons.
Qed.

Lemma sum_in_bucket b d : (sumQ (λ k, in_bucket k b d) AllAttributionBuckets == dval d)%Q.
Proof. unfold in_bucket. destruct b; cbn; repeat (case_bool_decide; try done); ring. Qed.

Lemma sum_amount_in e : (sumQ (λ k, amount_in k e) AllAttributionBuckets == direct_amount e)%Q.
Proof. unfold amount_in, direct_amount. destruct (ce_amountKnown e), (ce_bucket e) as [[]|]; cbn; repeat (case_bool_decide; try done); ring. Qed.

Lemma sum_exact_effects effects : (sumQ (λ k, sumQ (amount_in k) effects) AllAttributionBuckets == sumQ direct_amount effects)%Q.
Proof. rewrite sumQ_swap. apply sumQ_ext. intros e _. apply sum_amount_in. Qed.

(** ** The waterfall of a day *)

Definition explained (r : dayResult) (effects : list classifiedAnalysisEffect) : Q :=
  (sumQ (exact_in (dr_state r)) AllAttributionBuckets + sumQ neutral_amount effects)%Q.

(** The buckets hold the effects, and with the neutral effects they are the change of the value: within the tolerance if
    no residual is shown, and up to the last digits of a decimal if one is. *)
Record reconciled (r : dayResult) (effects : list classifiedAnalysisEffect) (begin ending tolerance : Decimal) : Prop := {
  reconciled_buckets : ∀ k, k ∉ [BucketPriceChange; BucketFXImpact; BucketResidual] → (exact_in (dr_state r) k == sumQ (amount_in k) effects)%Q;
  reconciled_change :
    (Qabs (dval ending - dval begin - explained r effects) <=
     match dr_residual r with None => dval tolerance + 2 * half_digit | Some _ => 3 * half_digit end)%Q;
  reconciled_visible : ∀ residual, dr_residual r = Some residual →
    rs_Tolerance residual = tolerance ∧ (dval tolerance - half_digit <= Qabs (exact_in (dr_state r) BucketResidual - sumQ (amount_in BucketResidual) effects))%Q;
  reconciled_complete : dr_status r = CompletenessOK → dr_residual r = None }.

Lemma with_return_keeps n r cur r' : with_return n r cur = Ok r' →
  dr_state r' = dr_state r ∧ dr_residual r' = dr_residual r ∧ dr_status r' = dr_status r.
Proof. unfold with_return. intros H. apply bind_Ok in H as (? & _ & H). by apply bind_Ok in H as (? & _ & [= <-]). Qed.

Lemma reconciled_keeps r r' effects begin ending tolerance : dr_state r' = dr_state r → dr_residual r' = dr_residual r →
  (dr_status r' = CompletenessOK → dr_status r = CompletenessOK) →
  reconciled r effects begin ending tolerance → reconciled r' effects begin ending tolerance.
Proof. intros Hs Hr Hc [H1 H2 H3 H4]. unfold explained in *. split; unfold explained; rewrite ?Hs, ?Hr; auto. Qed.

Lemma known_day_reconciled n u c date s ps cs effects begin ending r :
  known_day n u c date s ps cs effects begin ending = Ok r →
  reconciled r effects begin ending (residualTolerance (currency_of n (se_current s)) begin).
Proof.
  unfold known_day. set (cur := currency_of n (se_current s)). set (tol := residualTolerance cur begin). intros H.
  apply bind_Ok in H as (beginning & _ & H). apply bind_Ok in H as (ended & _ & H). apply bind_Ok in H as (st & Hst & H).
  apply bind_Ok in H as (b & Hb & H). apply bind_Ok in H as (st1 & H1 & H). apply bind_Ok in H as (st2 & H2 & H).
  apply bind_Ok in H as ([[x money] visible] & Hx & H). apply bind_Ok in H as (st3 & H3 & H). cbn [fst snd] in H.
  apply effects_sums in Hst as (Hk & Hd & Hn). apply add_bridge_value in H1 as (Hk1 & Hd1 & Hn1).
  apply add_bridge_value in H2 as (Hk2 & Hd2 & Hn2). apply add_residual_value in H3 as (Hk3 & Hd3 & Hn3).
  apply unexplained_value in Hx as (Hnear & Hno & Hyes); [|by eapply bridge_of_ok].
  assert (∀ k, (exact_in st3 k == sumQ (amount_in k) effects + in_bucket k BucketPriceChange (br_price b) + in_bucket k BucketFXImpact (br_fx b) +
            (if visible then in_bucket k BucketResidual x else 0))%Q) as Hall by (intros k; by rewrite Hk3, Hk2, Hk1, Hk).
  assert (reconciled (mkDayResult st3 beginning ended (if visible || br_partial b then CompletenessPartial else CompletenessOK)
            (if visible then Some (mkResidual money tol true) else None) None None None "") effects begin ending tol) as Hrec.
  { split; cbn [dr_state dr_residual dr_status].
    - intros k Hne. rewrite Hall. unfold in_bucket. rewrite !not_elem_of_cons in Hne. destruct Hne as (? & ? & ? & _).
      rewrite !bool_decide_eq_false_2 by done. destruct visible; ring.
    - unfold explained. cbn [dr_state]. rewrite (sumQ_ext _ _ _ (λ k _, Hall k)), !sumQ_plus, sum_exact_effects, !sum_in_bucket.
      unfold left_over in *. rewrite Hd2, Hd1, Hn2, Hn1, Hd, Hn, dSub_val in *. destruct visible.
      + rewrite sum_in_bucket, Qabs_Qminus. eapply Qle_trans; [|exact Hnear]. apply Qle_lteq; right. apply Qabs_wd. ring.
      + eapply Qle_trans; [|exact (Hno eq_refl)]. apply Qle_lteq; right. apply Qabs_wd. rewrite (sumQ_zero (λ _, 0%Q)) by done. ring.
    - intros residual Hr. destruct visible; [|done]. injection Hr as <-. split; [done|]. eapply Qle_trans; [exact (Hyes eq_refl)|].
      apply Qle_lteq; right. apply Qabs_wd. rewrite Hall. unfold in_bucket.
      rewrite !(bool_decide_eq_false_2 (BucketResidual = _)), bool_decide_eq_true_2 by done. ring.
    - by destruct visible. }
  destruct (invested u c); [|by injection H as <-]. apply with_return_keeps in H as (Es & Er & Ec).
  eapply reconciled_keeps; [exact Es|exact Er|by rewrite Ec|exact Hrec].
Qed.

(** Items that are there stay as they are. *)
Lemma settle_present n u c ps cs effects s : missing_item (se_previous s) = false → missing_item (se_current s) = false →
  settle n u c ps cs effects s = s.
Proof.
  intros Hp Hk. destruct s as [previous current hp hc]. cbn [se_previous se_current] in *. unfold settle, before_creation.
  cbn [se_previous se_current hasPrevious hasCurrent]. rewrite Hp, Hk, !andb_false_r. cbn [andb]. unfold fill_missing.
  cbn [se_previous se_current]. rewrite Hp, Hk. by destruct (_ && _).
Qed.

(** A day that is not known is neither complete nor explained. *)
Definition unsettled (r : dayResult) : Prop := dr_status r ≠ CompletenessOK ∧ dr_residual r = None.

Lemma blankDay_unsettled status : status ≠ CompletenessOK → unsettled (blankDay status).
Proof. done. Qed.

Lemma open_day_unsettled n u c s r : open_day n u c s = Ok r → unsettled r.
Proof.
  unfold open_day. set (status := if hasPrevious s && _ && _ then _ else _).
  assert (status ≠ CompletenessOK) as Hs by (unfold status; by destruct (_ && _)). clearbody status. destruct (_ && _).
  - intros H. apply bind_Ok in H as ([ending|] & _ & H); [|injection H as <-; by apply blankDay_unsettled].
    by apply bind_Ok in H as (? & _ & [= <-]).
  - intros [= <-]. by apply blankDay_unsettled.
Qed.

(** The mark of a funding gap only takes completeness away. *)
Lemma applyFundingGapMark_keeps r previous current : let r' := applyFundingGapMark r previous current in
  dr_state r' = dr_state r ∧ dr_residual r' = dr_residual r ∧ (dr_status r' = CompletenessOK → dr_status r = CompletenessOK).
Proof.
  unfold applyFundingGapMark. destruct (bool_decide (fundingGapItemReason _ = _)); [done|]. cbn. split; [done|]. split; [done|].
  by destruct (bool_decide_reflect (dr_status r = CompletenessOK)).
Qed.

(** Claim C16.  A component day adds up.  If a day is called complete, or shows a residual, then both of its
    ends are complete and known, every bucket of asset changes but those of prices, rates and the
    residual holds exactly the known amounts of its effects, and the buckets together with the
    neutral effects are the change of the value: within the tolerance (two units of the smallest
    digit of the currency, or a billionth of the opening value if that is more) where no residual
    is shown, and up to three half units of the fortieth place where one is.  A residual is only
    shown beyond the tolerance, and a complete day has none. *)
Theorem buildComponentDay_reconciles n u c date previous current ps cs hp hc effects r :
  buildComponentDay n u c date previous current ps cs hp hc effects = Ok r →
  dr_status r = CompletenessOK ∨ is_Some (dr_residual r) →
  let s := settle n u c ps cs effects (mkSettled previous current hp hc) in
  it_Complete (se_previous s) = true ∧ it_Complete (se_current s) = true ∧
  ∃ begin ending, value_of n u c (se_previous s) = Ok (Some begin) ∧ value_of n u c (se_current s) = Ok (Some ending) ∧
    reconciled r effects begin ending (residualTolerance (currency_of n (se_current s)) begin).
Proof.
  unfold buildComponentDay. set (s := settle n u c ps cs effects _). intros H Hr. cbn zeta. apply bind_Ok in H as (r0 & H & [= <-]).
  destruct (applyFundingGapMark_keeps r0 (se_previous s) (se_current s)) as (Es & Er & Ec).
  assert (¬ unsettled r0) as Hu by (intros [Hc Hn]; rewrite Er in Hr; destruct Hr as [Hr|[x Hr]]; [by apply Hc, Ec|congruence]).
  unfold settled_day in H. destruct (negb (hasPrevious s) || _ || _ || _) eqn:Eopen; [by apply open_day_unsettled in H|].
  apply orb_false_iff in Eopen as [[[_ _]%orb_false_iff Hp%negb_false_iff]%orb_false_iff Hk%negb_false_iff].
  split; [done|]. split; [done|]. apply bind_Ok in H as (begin & Hb & H). apply bind_Ok in H as (ending & He & H).
  destruct begin as [begin|]; [|injection H as <-; destruct Hu; by apply blankDay_unsettled].
  destruct ending as [ending|]; [|injection H as <-; destruct Hu; by apply blankDay_unsettled].
  exists begin, ending. split; [done|]. split; [done|]. apply known_day_reconciled in H. by eapply reconciled_keeps.
Qed.
End Laws.
