(* ===== verification/AnalysisClassifyLaws.v ===== *)
(** * What a classification keeps

    Theorems on [AnalysisClassify]: an exchange within the household is neutral but for its spread, which
    is shown in a bucket of its own; and a trade within the household is neutral but for its fee. *)

From S2P Require Import Portfolio ChangeState ChangeApply Change Accounts Fx DecimalModel.
From S2P Require Export AnalysisClassify AnalysisFold AnalysisDayLaws.
From Stdlib Require Import String Ascii.

#[global] Open Scope Z_scope.

Section Exchange.
Context `{HD : DecimalAPI} {HL : DecimalLaws} `{HM : MetalEvidence}.

(** A neutral leg in money, and its amount. *)
Definition is_leg (e : classifiedAnalysisEffect) : bool := neutral e && negb (is_none (ef_Money (ce_effect e))).
Definition leg_amount (e : classifiedAnalysisEffect) : Q := if is_leg e then dval (ce_amount e) else 0%Q.
Definition receives (e : classifiedAnalysisEffect) : bool := is_leg e && bool_decide (Direction (ce_effect e) = EffectAdded).
(** The known amount of an effect. *)
Definition known_amount (e : classifiedAnalysisEffect) : Q := if ce_amountKnown e then dval (ce_amount e) else 0%Q.

Definition legs (effects : list classifiedAnalysisEffect) : list classifiedAnalysisEffect := List.filter is_leg effects.
Definition legs_known (effects : list classifiedAnalysisEffect) : bool := forallb (λ e, negb (is_leg e) || ce_amountKnown e) effects.

(** The loop over the legs: their sum, their number, and the last one that receives. *)
Lemma fx_legs_spec index effects st : legs_known effects = true → ∃ st', fx_legs index effects st = Some st' ∧
  (dval (lg_difference st') == dval (lg_difference st) + sumQ leg_amount effects)%Q ∧
  lg_count st' = lg_count st + Z.of_nat (List.length (legs effects)) ∧
  ((lg_receiver st' = lg_receiver st ∧ existsb receives effects = false) ∨
   ∃ j e, lg_receiver st' = Some (index + j)%nat ∧ effects !! j = Some e ∧ receives e = true).
Proof.
  revert index st. induction effects as [|e effects IH]; intros index st Hknown.
  - exists st. cbn. split; [done|]. split; [ring|]. split; [lia|by left].
  - cbn [legs_known forallb] in Hknown. apply andb_true_iff in Hknown as [He Hknown]. cbn [fx_legs].
    assert (negb (neutral e) || is_none (ef_Money (ce_effect e)) = negb (is_leg e)) as -> by (unfold is_leg; by destruct (neutral e), (ef_Money _)).
    unfold legs. cbn [List.filter existsb]. fold (legs effects). destruct (is_leg e) eqn:El; cbn [negb].
    + cbn [negb orb] in He. rewrite He. cbn [negb].
      destruct (IH (S index) (mkLegs (dAdd (lg_difference st) (ce_amount e))
        (if bool_decide (Direction (ce_effect e) = EffectAdded) then Some index else lg_receiver st) (lg_count st + 1)) Hknown)
        as (st' & -> & Hd & Hc & Hr). exists st'. split; [done|]. cbn [lg_difference lg_count lg_receiver] in *. split; [|split].
      * rewrite Hd, dAdd_val, sumQ_cons. unfold leg_amount at 2. rewrite El. ring.
      * rewrite Hc. cbn [List.length]. lia.
      * assert (receives e = bool_decide (Direction (ce_effect e) = EffectAdded)) as Hre by (unfold receives; by rewrite El).
        destruct Hr as [[Hr Hn]|(j & x & Hr & Hj & Hx)]; [|right; exists (S j), x; by rewrite Hr, Nat.add_succ_r].
        rewrite Hre. destruct (bool_decide _) eqn:Ed; [right; exists 0%nat, e; by rewrite Hr, Nat.add_0_r, Hre|by left].
    + assert (receives e = false) as -> by (unfold receives; by rewrite El).
      destruct (IH (S index) st Hknown) as (st' & -> & Hd & Hc & Hr). exists st'. split; [done|]. split; [|split; [done|]].
      * rewrite Hd, sumQ_cons. unfold leg_amount at 2. rewrite El. ring.
      * destruct Hr as [[Hr Hn]|(j & x & Hr & Hj & Hx)]; [by left|right; exists (S j), x; by rewrite Hr, Nat.add_succ_r].
Qed.

Lemma sumQ_insert {A} (f : A → Q) (l : list A) i x y : l !! i = Some x → (sumQ f (<[i := y]> l) == sumQ f l - f x + f y)%Q.
Proof.
  revert i. induction l as [|z l IH]; intros [|i] H; try done.
  - injection H as ->. cbn [insert list_insert]. rewrite !sumQ_cons. ring.
  - cbn [insert list_insert]. rewrite !sumQ_cons, (IH i H). ring.
Qed.

(** Claim C18.  An exchange within the household is neutral.  If the amounts of its two neutral legs are
    known and one of them receives, then after the spread is attributed the legs cancel exactly,
    the bucket of conversion spreads holds exactly what they did not cancel by before, no other
    bucket changes, and the known amounts of the activity add up to what they did. *)
Theorem internal_exchange_neutral u a effects :
  legs_known effects = true → List.length (legs effects) = 2%nat → existsb receives effects = true →
  (∀ e, e ∈ effects → is_leg e = true → ce_bucket e = None) →
  let after := attributeInternalFXDifference u a effects in
  (sumQ leg_amount after == 0)%Q ∧ (sumQ known_amount after == sumQ known_amount effects)%Q ∧
  ∀ k, (sumQ (λ e, amount_in k e) after ==
        sumQ (λ e, amount_in k e) effects + (if bool_decide (k = BucketFXConversionSpread) then sumQ leg_amount effects else 0))%Q.
Proof.
  intros Hknown Hlen Hrec Hbucket. unfold attributeInternalFXDifference.
  destruct (fx_legs_spec 0 effects (mkLegs dZero None 0) Hknown) as (st & -> & Hd & Hc & Hr). cbn [lg_difference lg_count] in Hd, Hc.
  rewrite dval_dzero in Hd. destruct Hr as [[_ Hn]|(j & leg & Hr & Hj & Hleg)]; [congruence|]. rewrite Hr. cbn [plus].
  assert (lg_count st =? 2 = true) as -> by lia. cbn [negb orb]. destruct (dIsZero (lg_difference st)) eqn:Ez.
  - apply dIsZero_val in Ez. rewrite Ez in Hd. assert (sumQ leg_amount effects == 0)%Q as H0 by (rewrite Hd; ring).
    split; [done|]. split; [done|]. intros k. case_bool_decide; [rewrite H0|]; ring.
  - rewrite Hj. set (d := lg_difference st) in *. assert (dval d == sumQ leg_amount effects)%Q as Hd' by (rewrite Hd; ring).
    apply andb_true_iff in Hleg as [Hleg _]. pose proof (list_elem_of_lookup_2 _ _ _ Hj) as Hin.
    assert (ce_amountKnown leg = true) as Hleg'.
    { unfold legs_known in Hknown. rewrite forallb_forall in Hknown. apply list_elem_of_In, Hknown in Hin. by rewrite Hleg in Hin. }
    specialize (Hbucket leg Hin Hleg). cbn zeta. split; [|split; [|intros k]]; rewrite sumQ_snoc, (sumQ_insert _ _ _ _ _ Hj).
    + rewrite <-Hd'. unfold leg_amount, is_leg in *. cbn. rewrite Hleg, dSub_val. ring.
    + unfold known_amount. cbn. rewrite Hleg', dSub_val. ring.
    + unfold amount_in. cbn [less_difference fx_spread ce_amountKnown ce_bucket ce_amount].
      rewrite Hbucket, (bool_decide_eq_false_2 (None = Some k)), !andb_false_r by done. cbn [andb].
      rewrite (bool_decide_ext (Some BucketFXConversionSpread = Some k) (k = BucketFXConversionSpread)) by naive_solver.
      destruct (bool_decide (k = _)); rewrite ?Hd'; ring.
Qed.
End Exchange.

(** ** Trades *)

Section Trade.
Context `{HD : DecimalAPI} {HL : DecimalLaws} `{HM : MetalEvidence} `{TZ : TimeZones}.

(** What the builder of a trade records: a quantity, the cash it costs or brings, and fees in cash. *)
Record trade_shape (a : Activity) (td : TradeDetail) (q c : ActivityEffect) (fees : list ActivityEffect) : Prop := {
  shape_kind : is_trade a = true;
  shape_reason : Reason a = ReasonPrincipal;
  shape_first : ReversesActivityID a = None ∧ act_DividendDetail a = None;
  shape_detail : act_TradeDetail a = Some td;
  shape_effects : Effects a = q :: c :: fees;
  shape_quantity : Target q = EffectTargetHoldingQuantity ∧ ef_HoldingID q = Some (td_HoldingID td) ∧ ef_Money q = None ∧
    is_none (ef_Quantity q) = false ∧ is_fee_leg q = false ∧ Classification q = ClassificationTradePrincipal;
  shape_cash : Target c = EffectTargetAccountCash ∧ ef_Money c = Some (td_Gross td) ∧ is_fee_leg c = false ∧
    Classification c = ClassificationTradePrincipal;
  shape_opposite : bool_decide (Direction q = EffectRemoved) = negb (bool_decide (Direction c = EffectRemoved));
  shape_fees : ∀ e, e ∈ fees → Target e = EffectTargetAccountCash ∧ Classification e = ClassificationFee }.

Lemma newActivity_plain st id hh k r t note a : newActivity st id hh k r t note = Ok a →
  Kind a = k ∧ Reason a = r ∧ ReversesActivityID a = None ∧ act_DividendDetail a = None.
Proof.
  unfold newActivity. intros H. inv_ok. destruct (bool_decide (TrimSpace _ = _)); [discriminate|].
  destruct (LoadLocation _); [|discriminate]. inv_ok. by subst.
Qed.

Lemma built_trade_shape newID order st i p : buildTrade newID order st i = Ok p → ∃ td q c fees, trade_shape (pv_Activity p) td q c fees.
Proof.
  unfold buildTrade. intros H. destruct (_ && _); [done|]. apply bind_Ok in H as (account & _ & H).
  apply bind_Ok in H as (holding & _ & H). destruct (_ || _ || _ || _); [done|]. do 3 (case_match; [done|]).
  apply bind_Ok in H as (price & _ & H). apply bind_Ok in H as (activity & Ha & H).
  apply newActivity_plain in Ha as (Hkind & Hreason & Hrev & Hdiv).
  destruct (_ && dLessThan _ _); [done|]. apply bind_Ok in H as (newQuantity & _ & H). apply bind_Ok in H as (cashView & _ & H).
  set (q := holdingEffect _ _ _ _ _ _ _ _) in H. set (c := cashEffect (newID 2%nat) _ _ _ _ _ _ _) in H.
  apply bind_Ok in H as ([effects view] & Heffects & [= <-]). cbn [pv_Activity].
  assert (∃ fees, effects = q :: c :: fees ∧ ∀ e, e ∈ fees → Target e = EffectTargetAccountCash ∧ Classification e = ClassificationFee)
    as (fees & -> & Hfees).
  { destruct (fee_positive (tr_Fee i)) as [fee|].
    - apply bind_Ok in Heffects as (feeView & _ & [= <- _]). eexists. split; [done|]. intros e ->%list_elem_of_singleton. done.
    - injection Heffects as <- _. exists []. split; [done|]. by intros e He%elem_of_nil. }
  eexists _, q, c, fees. split; try done; unfold is_trade, is_kind; cbn.
  - rewrite Hkind. by destruct (bool_decide (tr_Side i = TradeSell)).
  - by destruct (bool_decide (tr_Side i = TradeSell)).
Qed.

Section Classified.
Variables (visit : gmap HoldingID Holding → list Holding) (u : classUniverse) (input : AnalysisInputs) (valuation : Valuation).

(** Where it succeeds, a conversion does not depend on the component. *)
Lemma convert_agrees v cur at_ c1 c2 x y :
  convertValuationAmount input valuation v cur at_ c1 = Ok x → convertValuationAmount input valuation v cur at_ c2 = Ok y → x = y.
Proof.
  unfold convertValuationAmount, convertAmount. destruct (bool_decide (valuation = ValuationNative)) eqn:E.
  - apply bool_decide_eq_true in E. rewrite (bool_decide_eq_false_2 (valuation = ValuationBase)) by by rewrite E. cbn [andb].
    destruct (negb _), (negb _); intros H1 H2; congruence.
  - intros H1 H2. congruence.
Qed.

Context (a : Activity) (td : TradeDetail) (q c : ActivityEffect) (fees : list ActivityEffect) (Hshape : trade_shape a td q c fees).
Let activity : analysedActivity := mkAnalysed a None.

Lemma trade_kind k : k ≠ ActivityBuy → k ≠ ActivitySell → is_kind a k = false.
Proof.
  intros Hb Hs. pose proof (shape_kind _ _ _ _ _ Hshape) as H. unfold is_trade, is_kind in *.
  destruct (bool_decide_reflect (Kind a = k)) as [<-|]; [|done]. by rewrite !bool_decide_eq_false_2 in H.
Qed.
Lemma trade_reason r : r ≠ ReasonPrincipal → is_reason a r = false.
Proof. intros H. unfold is_reason. rewrite (shape_reason _ _ _ _ _ Hshape). by rewrite bool_decide_eq_false_2. Qed.

Lemma trade_no_return e component : is_fee_leg e = false → returnAssociation activity e component = None.
Proof.
  intros He. unfold returnAssociation, product_association, fee_association, is_interest. cbn.
  rewrite (trade_kind ActivityCashIn) by done. rewrite (proj2 (shape_first _ _ _ _ _ Hshape)), (shape_detail _ _ _ _ _ Hshape). cbn.
  by rewrite He, andb_false_r.
Qed.

(** The two legs of the trade have no bucket when both sides are in the universe. *)
Lemma trade_leg_bucket e component count : Classification e = ClassificationTradePrincipal → targets_value e = false → is_fee_leg e = false → 2 <= count →
  assetBucketFor activity e component count count (accounts_of u) = None.
Proof.
  intros Hc Ht Hf Hn. unfold assetBucketFor, boundary_bucket, is_interest, isProductInterestEffect. cbn [an_activity activity ProductContext].
  destruct (accounts_of u !! cid_AccountID component) as [account|]; [|done].
  rewrite !trade_kind, !trade_reason by done. rewrite Ht, Hf. unfold is_class. rewrite Hc, !andb_false_r. cbn [andb orb].
  assert (count =? 1 = false) as -> by lia. assert (count <? count = false) as -> by lia.
  rewrite !bool_decide_eq_false_2 by done. cbn [andb orb]. by rewrite !andb_false_r.
Qed.

Lemma trade_fee_bucket e component inside count : Classification e = ClassificationFee → targets_value e = false →
  assetBucketFor activity e component inside count (accounts_of u) = None ∨
  assetBucketFor activity e component inside count (accounts_of u) = Some BucketFee.
Proof.
  intros Hc Ht. unfold assetBucketFor, is_interest, isProductInterestEffect. cbn [an_activity activity ProductContext].
  destruct (accounts_of u !! cid_AccountID component) as [account|]; [right|by left].
  rewrite !trade_kind, !trade_reason by done. rewrite Ht. unfold is_class. rewrite Hc, !andb_false_r. cbn [andb orb].
  by rewrite bool_decide_eq_true_2.
Qed.

Lemma trade_priced e : unpriced_position a e = false.
Proof. unfold unpriced_position. by rewrite (trade_kind ActivityPositionTransfer) by done. Qed.

Lemma targets_other e t : Target e = t → t ≠ EffectTargetAccountValue → targets_value e = false.
Proof. intros <- H. unfold targets_value. by rewrite bool_decide_eq_false_2. Qed.

(** Both legs are worth the gross amount of the trade. *)
Lemma trade_amount e component items : e = q ∨ e = c → ∃ cur, effectAmount u input valuation a e component items =
  convertValuationAmount input valuation (amount (td_Gross td)) (currency (td_Gross td)) (EffectiveAt a) cur.
Proof.
  intros He. exists (cid_Currency component). unfold effectAmount. destruct He as [-> | ->].
  - destruct (shape_quantity _ _ _ _ _ Hshape) as (_ & Hh & Hm & Hq & _). rewrite Hm, Hh, (shape_detail _ _ _ _ _ Hshape).
    destruct (ef_Quantity q); [|done]. by rewrite bool_decide_eq_true_2.
  - destruct (shape_cash _ _ _ _ _ Hshape) as (_ & Hm & _). by rewrite Hm.
Qed.

Lemma leg_facts e : e = q ∨ e = c → Classification e = ClassificationTradePrincipal ∧ targets_value e = false ∧ is_fee_leg e = false ∧
  Target e ≠ EffectTargetHoldingCost.
Proof.
  intros [-> | ->].
  - destruct (shape_quantity _ _ _ _ _ Hshape) as (Ht & _ & _ & _ & Hf & Hc). split; [done|]. split; [by eapply targets_other|]. by rewrite Ht.
  - destruct (shape_cash _ _ _ _ _ Hshape) as (Ht & _ & Hf & Hc). split; [done|]. split; [by eapply targets_other|]. by rewrite Ht.
Qed.

(** A leg in a universe that holds every endpoint. *)
Definition neutral_leg (e : ActivityEffect) (x : classifiedAnalysisEffect) : Prop :=
  ce_bucket x = None ∧ neutral x = true ∧ ∃ amt cur,
    convertValuationAmount input valuation (amount (td_Gross td)) (currency (td_Gross td)) (EffectiveAt a) cur = Ok amt ∧
    ce_amountKnown x = negb (is_none amt) ∧ ce_amount x = signedDirection (Direction e) (default dZero amt).

Lemma classify_leg e endpoints items results l : e = q ∨ e = c → (2 <= List.length endpoints)%nat → endpointsInUniverse endpoints u = true →
  (∃ component, componentForEffect e u = Some component ∧ componentInUniverse u component = true) →
  classify_effect visit u input valuation activity endpoints (Z.of_nat (List.length endpoints)) items results e = Ok l →
  ∃ x, l = results ++ [x] ∧ neutral_leg e x.
Proof.
  intros He Hlen Hin (component & Hfound & Hinside). destruct (leg_facts e He) as (Hc & Ht & Hf & Hcost).
  unfold classify_effect. rewrite (bool_decide_eq_false_2 _ Hcost), Hfound. cbn [default from_option id is_none negb]. rewrite Hinside. cbn [andb]. intros H.
  apply bind_Ok in H as (physical & Hp & H). apply bind_Ok in Hp as (x & Hx & [= <-]).
  unfold classify_return in H. rewrite (trade_no_return e component Hf), bind_Ok_l in H. injection H as <-.
  exists x. split; [done|]. unfold classify_inside in Hx. cbn [an_activity activity] in Hx.
  apply bind_Ok in Hx as (amt & Hamt & [= <-]). rewrite trade_priced. cbn [andb]. rewrite trade_leg_bucket by (done || lia).
  unfold neutral_leg. cbn [ce_bucket neutral ce_amountKnown ce_amount is_none andb]. split; [done|]. split; [done|].
  destruct (trade_amount e component items He) as [cur Hcur]. exists amt, cur. split; [by rewrite <-Hcur|]. split; [done|].
  unfold signed_amount, account_sign. by rewrite Ht, andb_false_r.
Qed.

Definition fee_or_return (x : classifiedAnalysisEffect) : Prop := ce_bucket x = None ∨ ce_bucket x = Some BucketFee.

Lemma classify_fee e endpoints count items results l : Target e = EffectTargetAccountCash → Classification e = ClassificationFee →
  classify_effect visit u input valuation activity endpoints count items results e = Ok l →
  ∃ rest, l = results ++ rest ∧ Forall fee_or_return rest.
Proof.
  intros Ht Hc. unfold classify_effect. rewrite Ht, bool_decide_eq_false_2 by done. intros H.
  apply bind_Ok in H as (physical & Hp & H). apply bind_Ok in H as (returned & Hr & [= <-]). exists (physical ++ returned). split; [done|].
  apply Forall_app. split.
  - destruct (negb _ && _); [|by injection Hp as <-]. apply bind_Ok in Hp as (x & Hx & [= <-]). constructor; [|done].
    unfold classify_inside in Hx. cbn [an_activity activity] in Hx. apply bind_Ok in Hx as (amt & _ & [= <-]).
    unfold fee_or_return. cbn [ce_bucket]. rewrite trade_priced. cbn [andb].
    apply trade_fee_bucket; [done|]. by eapply targets_other.
  - unfold classify_return in Hr. destruct (returnAssociation _ _ _) as [[[? ?] ?]|]; [|by injection Hr as <-].
    destruct (returnOwner _ _ _ _); [|by injection Hr as <-]. destruct (_ || _); [by injection Hr as <-|].
    apply bind_Ok in Hr as (amt & _ & [= <-]). constructor; [by left|done].
Qed.

Lemma classify_fees endpoints count items results l : 
  foldM (classify_effect visit u input valuation activity endpoints count items) results fees = Ok l →
  ∃ rest, l = results ++ rest ∧ Forall fee_or_return rest.
Proof.
  apply (foldM_inv _ (λ _ l, ∃ rest, l = results ++ rest ∧ Forall fee_or_return rest)).
  - intros pre s e s' (rest & -> & Hrest) He H. destruct (shape_fees _ _ _ _ _ Hshape e He) as [Ht Hc].
    apply classify_fee in H as (more & -> & Hmore); [|done..]. exists (rest ++ more). rewrite app_assoc. split; [done|]. by apply Forall_app.
  - exists []. by rewrite app_nil_r.
Qed.

Definition all_inside : Prop := ∀ e, e ∈ Effects a → ∃ component, componentForEffect e u = Some component ∧ componentInUniverse u component = true.

Lemma endpoints_inside effects : (∀ e, e ∈ effects → Target e ≠ EffectTargetHoldingCost) →
  (∀ e, e ∈ effects → ∃ component, componentForEffect e u = Some component ∧ componentInUniverse u component = true) →
  List.length (endpoints_of u effects) = List.length effects ∧ forallb (componentInUniverse u) (endpoints_of u effects) = true.
Proof.
  induction effects as [|e effects IH]; intros Hcost Hin; [done|].
  destruct (Hin e ltac:(by left)) as (component & Hfound & Hinside). destruct IH as [Hlen Hall]; [intros x Hx; apply Hcost; by right|intros x Hx; apply Hin; by right|].
  unfold endpoints_of in *. cbn. rewrite bool_decide_eq_false_2 by (apply Hcost; by left). rewrite Hfound. cbn. by rewrite Hlen, Hinside, Hall.
Qed.

Lemma filter_all {A} (f : A → bool) l : forallb f l = true → List.filter f l = l.
Proof. induction l as [|x l IH]; [done|]. cbn. intros [-> H]%andb_true_iff. by rewrite IH. Qed.

Lemma classify_trade daySnapshot previous l : all_inside → classifyActivity visit u input valuation activity daySnapshot previous = Ok l →
  ∃ x y rest, l = x :: y :: rest ∧ neutral_leg q x ∧ neutral_leg c y ∧ Forall fee_or_return rest.
Proof.
  intros Hall. unfold classifyActivity.
  assert (productReversalTrade u (as_original u activity) = activity) as ->.
  { unfold as_original, productReversalTrade. cbn [activity ProductContext an_activity]. by rewrite (proj1 (shape_first _ _ _ _ _ Hshape)). }
  cbn [an_activity activity]. rewrite (trade_kind ActivityFXConversion) by done. cbn [andb]. intros H. apply bind_Ok in H as (results & H & [= <-]).
  unfold all_inside in Hall. rewrite (shape_effects _ _ _ _ _ Hshape) in *.
  destruct (endpoints_inside (q :: c :: fees)) as [Hlen Hin]; [|done|].
  { intros e [->|[->|He]%elem_of_cons]%elem_of_cons; [by apply leg_facts; left|by apply leg_facts; right|].
    destruct (shape_fees _ _ _ _ _ Hshape e He) as [Ht _]. by rewrite Ht. }
  rewrite (filter_all _ _ Hin) in H. set (endpoints := endpoints_of u (q :: c :: fees)) in *.
  assert (endpointsInUniverse endpoints u = true) as He by (unfold endpointsInUniverse; by destruct endpoints).
  assert (2 <= List.length endpoints)%nat as H2 by (rewrite Hlen; cbn [List.length]; lia).
  cbn [foldM] in H. destruct (classify_effect _ _ _ _ _ _ _ _ [] q) as [r1|] eqn:E1; [|done].
  apply classify_leg in E1 as (x & -> & Hx); [|by left|done|done|apply Hall; by left].
  destruct (classify_effect _ _ _ _ _ _ _ _ _ c) as [r2|] eqn:E2; [|done].
  apply classify_leg in E2 as (y & -> & Hy); [|by right|done|done|apply Hall; right; by left].
  apply classify_fees in H as (rest & -> & Hrest). exists x, y, rest. by split.
Qed.

Lemma neutral_legs_cancel x y : neutral_leg q x → neutral_leg c y →
  ce_amountKnown x = ce_amountKnown y ∧ (dval (ce_amount x) + dval (ce_amount y) == 0)%Q.
Proof.
  intros (_ & _ & m1 & c1 & H1 & Hk1 & Ha1) (_ & _ & m2 & c2 & H2 & Hk2 & Ha2). rewrite (convert_agrees _ _ _ _ _ _ _ H1 H2) in Hk1, Ha1.
  split; [congruence|]. rewrite Ha1, Ha2. unfold signedDirection. rewrite (shape_opposite _ _ _ _ _ Hshape).
  destruct (bool_decide (Direction c = EffectRemoved)); cbn [negb]; rewrite dNeg_val; ring.
Qed.
End Classified.

(** Claim C17.  A trade neither makes nor loses value.  When a trade that the household recorded is classified
    in a universe that holds both of its sides, the quantity leg and the cash leg have no bucket and
    are neutral, either both amounts are known or neither is, and the two cancel exactly, in
    whichever currency the analysis counts and whatever the rates of the day; nothing of the
    activity counts in a bucket other than the one of fees. *)
Theorem trade_is_neutral newID order st i p visit u input valuation daySnapshot previous l :
  buildTrade newID order st i = Ok p → all_inside u (pv_Activity p) →
  classifyActivity visit u input valuation (mkAnalysed (pv_Activity p) None) daySnapshot previous = Ok l →
  ∃ x y rest, l = x :: y :: rest ∧ ce_bucket x = None ∧ ce_bucket y = None ∧ neutral x = true ∧ neutral y = true ∧
    ce_amountKnown x = ce_amountKnown y ∧ (dval (ce_amount x) + dval (ce_amount y) == 0)%Q ∧
    ∀ k, k ≠ BucketFee → (sumQ (amount_in k) l == 0)%Q.
Proof.
  intros (td & q & c & fees & Hshape)%built_trade_shape Hall H.
  destruct (classify_trade visit u input valuation _ _ _ _ _ Hshape _ _ _ Hall H) as (x & y & rest & -> & Hx & Hy & Hrest).
  destruct (neutral_legs_cancel _ _ _ _ _ _ _ Hshape _ _ Hx Hy) as [Hk Hc]. exists x, y, rest.
  destruct Hx as (Hbx & Hnx & _), Hy as (Hby & Hny & _). split_and!; try done. intros k Hne. apply sumQ_zero. intros e He.
  assert (ce_bucket e = None ∨ ce_bucket e = Some BucketFee) as Hb.
  { apply elem_of_cons in He as [->|[->|He]%elem_of_cons]; [by left|by left|]. by apply (proj1 (Forall_forall _ _) Hrest). }
  unfold amount_in. destruct (bool_decide_reflect (ce_bucket e = Some k)) as [E|]; [|by rewrite andb_false_r]. exfalso. destruct Hb; congruence.
Qed.
End Trade.
