(* ===== verification/AnalysisPeriod.v ===== *)
(** * The analysis of a period

    The rest of [analysis_universe.go] and the loop over dates of [analysis_daily.go]: the query of
    an analysis and its validation ([analysis.go] of the domain), the components that its filters
    select, and the computation of every component day of the period.  The display of ending
    values is left out. *)

From S2P Require Import Product Portfolio ChangeState Accounts Fx DecimalModel.
From S2P Require Export AnalysisDay.
From Stdlib Require Import String Ascii.

#[global] Open Scope Z_scope.

(** ** Queries *)

Inductive ScopeKind := ScopeHousehold | ScopeAccount | ScopeCurrency | ScopeInstrument | ScopeAssetClass | ScopeRaw (raw : string).
#[export] Instance ScopeKind_eq_dec : EqDecision ScopeKind.
Proof. solve_decision. Defined.
Definition is_raw_scope (k : ScopeKind) : bool := match k with ScopeRaw _ => true | _ => false end.

Record AnalysisScope := mkScope { sc_Kind : ScopeKind; sc_ID : string }.
Record AnalysisFilters := mkFilters {
  fi_AccountID : option AccountID; fi_Currency : option CurrencyCode; fi_AssetClass : string;
  fi_InstrumentID : option InstrumentID; fi_MemberID : option MemberID }.

(** The fields of Go's [AnalysisQuery] that the returns do not read are here. *)
Record ScopedQuery := mkScopedQuery {
  sq_query : AnalysisQuery; sq_Scope : AnalysisScope; sq_Basis : string; Filters : AnalysisFilters }.

Definition ReturnBasisInvestment : string := "investment".

(** [AnalysisScope.Validate] *)
Definition scope_Validate (s : AnalysisScope) : Result unit :=
  let empty := bool_decide (sc_ID s = ""%string) in
  if is_raw_scope (sc_Kind s) then Fail (validation "scope.kind" "is invalid")
  else if bool_decide (sc_Kind s = ScopeHousehold) && negb empty then Fail (validation "scope.id" "must be empty for household scope")
  else if negb (bool_decide (sc_Kind s = ScopeHousehold)) && empty then Fail (validation "scope.id" "is required")
  else match sc_Kind s with
  | ScopeAccount => _ ← or_fail (ParseAccountID (sc_ID s)) (validation "scope.id" "must be a valid account ID"); Ok tt
  | ScopeInstrument => _ ← or_fail (ParseInstrumentID (sc_ID s)) (validation "scope.id" "must be a valid instrument ID"); Ok tt
  | ScopeCurrency => _ ← or_fail (ParseCurrency (sc_ID s)) (validation "scope.id" "must be a valid currency"); Ok tt
  | _ => Ok tt
  end.

Definition canonical_date (value : string) : bool :=
  match ParseDate value with Some day => bool_decide (format_days day = value) | None => false end.
Definition date_field (field_value : string * string) : Result unit :=
  if canonical_date field_value.2 then Ok tt else Fail (validation ("query." +:+ field_value.1) "must use YYYY-MM-DD").

(** [AnalysisQuery.Validate]; [fields] is the order in which the map of the two dates is read. *)
Definition query_Validate (fields : list (string * string) → list (string * string)) (q : ScopedQuery) : Result unit :=
  let from := q_From (sq_query q) in
  let to := q_To (sq_query q) in
  _ ← scope_Validate (sq_Scope q);
  if bool_decide (from = ""%string) || bool_decide (to = ""%string) || String.ltb to from
  then Fail (validation "query.range" "must be a non-empty inclusive range")
  else
    _ ← foldM (λ _, date_field) tt (fields [("from", from); ("to", to)]%string);
    if negb (bool_decide (q_Valuation (sq_query q) = ValuationBase) || bool_decide (q_Valuation (sq_query q) = ValuationNative))
    then Fail (validation "valuation" "is invalid")
    else if negb (bool_decide (sq_Basis q = ReturnBasisInvestment)) then Fail (validation "basis" "is invalid") else Ok tt.

(** ** Asset classes without regard to case

    [strings.EqualFold] against an asset class, which is ASCII: besides the letters of ASCII, only
    U+017F and U+212A fold to one. *)
Fixpoint fold_text (s : string) : string :=
  match s with
  | EmptyString => ""
  | String a r =>
    match r with
    | String b r1 =>
      if (byteZ a =? 197) && (byteZ b =? 191) then String "s" (fold_text r1)
      else match r1 with
      | String c r2 =>
        if (byteZ a =? 226) && (byteZ b =? 132) && (byteZ c =? 170) then String "k" (fold_text r2) else String (lower_byte a) (fold_text r)
      | EmptyString => String (lower_byte a) (fold_text r)
      end
    | EmptyString => String (lower_byte a) ""
    end
  end.
Definition EqualFold (s class : string) : bool := bool_decide (fold_text s = fold_text class).

Section Period.
Context `{HD : DecimalAPI} `{HM : MetalEvidence} `{TZ : TimeZones}.

(** ** What an analysis reads *)

(** [AnalysisInputs] before it is resolved: the records of the portfolio, and the rows of the history. *)
Record storedInputs := mkStored {
  in_Timezone : string; in_Household : option Household; in_Accounts : list (Account * Ownership); in_Instruments : list Instrument;
  in_Holdings : list Holding; in_FXPreferences : list FXPreference; in_Snapshots : list DailyValuationSnapshot;
  in_Activities : list analysedActivity; in_InstrumentQuotes : list InstrumentQuote; in_FXQuotes : list FXQuote }.

Definition accountsByID (input : storedInputs) : gmap AccountID Account := index_last ID (in_Accounts input).*1.
Definition ownershipByID (input : storedInputs) : gmap AccountID (Account * Ownership) := index_last (λ r, ID r.1) (in_Accounts input).
Definition instruments_by_id (input : storedInputs) : gmap InstrumentID Instrument := index_last i_ID (in_Instruments input).
Definition holdings_by_id (input : storedInputs) : gmap HoldingID Holding := index_last hd_ID (in_Holdings input).
Definition activities_by_id (input : storedInputs) : gmap ActivityID analysedActivity := index_last (λ a, act_ID (an_activity a)) (in_Activities input).

(** ** The components of a query *)

Definition ownershipContains (ownership : Ownership) (memberID : MemberID) : bool :=
  existsb (λ share, bool_decide (MemberID' share = memberID)) ownership.

Definition instrumentForItem (item : DailyValuationSnapshotItem) (instruments : gmap InstrumentID Instrument) : option Instrument :=
  it_InstrumentID item ≫= λ i, instruments !! i.

(** A filter that is not set lets every item pass. *)
Definition passes {A} (filter : option A) (test : A → bool) : bool := match filter with Some x => test x | None => true end.

Definition analysisItemMatches (query : ScopedQuery) (account : Account) (instrument : option Instrument) (item : DailyValuationSnapshotItem)
    (ownership : Ownership) : bool :=
  let filters := Filters query in
  let scope := sq_Scope query in
  let class := itemAssetClass account instrument (it_HoldingID item) in
  passes (fi_AccountID filters) (λ id, bool_decide (ID account = id)) &&
  passes (fi_Currency filters) (λ cur, bool_decide (it_NativeCurrency item = cur)) &&
  passes (fi_InstrumentID filters) (λ id, bool_decide (it_InstrumentID item = Some id)) &&
  passes (fi_MemberID filters) (ownershipContains ownership) &&
  (bool_decide (fi_AssetClass filters = ""%string) || EqualFold (fi_AssetClass filters) class) &&
  match sc_Kind scope with
  | ScopeHousehold => true
  | ScopeAccount => bool_decide (ID account = sc_ID scope)
  | ScopeCurrency => bool_decide (it_NativeCurrency item = ToUpper (sc_ID scope))
  | ScopeInstrument => bool_decide (it_InstrumentID item = Some (sc_ID scope))
  | ScopeAssetClass => EqualFold (sc_ID scope) class
  | ScopeRaw _ => false
  end.

Definition with_class (c : ComponentID) (class : string) : ComponentID :=
  mkComponentID (cid_AccountID c) (cid_HoldingID c) (cid_InstrumentID c) (cid_Currency c) class (AnalysisReturn.Cash c).

(** The component of an item that the query selects. *)
Definition selected_component (input : storedInputs) (query : ScopedQuery) (item : DailyValuationSnapshotItem) : option ComponentID :=
  record ← ownershipByID input !! it_AccountID item;
  let account := record.1 in
  if negb (AccountEligibleForNetWorth account) then None
  else
    let instrument := instrumentForItem item (instruments_by_id input) in
    if negb (analysisItemMatches query account instrument item record.2) then None
    else Some (with_class (componentIDForItem item account) (itemAssetClass account instrument (it_HoldingID item))).

Definition all_items (snapshots : list DailyValuationSnapshot) : list DailyValuationSnapshotItem := List.concat (sn_Items <$> snapshots).
Definition componentsByKey (input : storedInputs) (query : ScopedQuery) : gmap string ComponentID :=
  index_last Key (omap (selected_component input query) (all_items (in_Snapshots input))).

(** The dates with an item whose account is not known. *)
Definition unknownAccountDates (input : storedInputs) : gset string :=
  list_to_set (sn_LocalDate <$> List.filter (λ s,
    existsb (λ item, is_none (ownershipByID input !! it_AccountID item)) (sn_Items s)) (in_Snapshots input)).

Definition key_less (a b : ComponentID) : bool := String.ltb (Key a) (Key b).
Definition universe_components (input : storedInputs) (query : ScopedQuery) : list ComponentID :=
  stable_sort key_less (map_to_list (componentsByKey input query)).*2.

Definition componentAssetClass (component : ComponentID) (accounts : gmap AccountID Account) (instruments : gmap InstrumentID Instrument) : string :=
  match cid_InstrumentID component ≫= λ i, instruments !! i with
  | Some instrument => InstrumentType_String (i_Type instrument)
  | None =>
    match accounts !! cid_AccountID component with
    | Some account =>
      if AnalysisReturn.Cash component || is_none (cid_HoldingID component) then itemAssetClass account None None else "unknown"
    | None => "unknown"
    end
  end.

(** The lists of [AnalysisUniverse]: what the components have, without repetitions, sorted. *)
Record contextLists := mkContextLists { cx_Accounts : list string; cx_Instruments : list string; cx_Currencies : list string; AssetClasses : list string }.
Definition sorted_distinct (values : list string) : list string := stable_sort String.ltb (elements (list_to_set values : gset string)).
Definition not_empty (s : string) : bool := negb (bool_decide (s = ""%string)).
Definition context_lists (input : storedInputs) (components : list ComponentID) : contextLists :=
  mkContextLists
    (sorted_distinct (cid_AccountID <$> components))
    (sorted_distinct (omap cid_InstrumentID components))
    (sorted_distinct (List.filter not_empty (cid_Currency <$> components)))
    (sorted_distinct (List.filter not_empty ((λ c, componentAssetClass c (accountsByID input) (instruments_by_id input)) <$> components))).

Record resolvedUniverse := mkResolved {
  ru_components : list ComponentID; ru_lists : contextLists; ru_class : classUniverse; ru_unknown : gset string }.
Definition hasUnknownAccount (u : resolvedUniverse) (localDate : string) : bool := bool_decide (localDate ∈ ru_unknown u).

Definition household_not_found : goerror := domainErr ErrNotFound "" "household was not found".

Definition resolve_components (input : storedInputs) (query : ScopedQuery) : resolvedUniverse :=
  let components := universe_components input query in
  let accounts := accountsByID input in
  mkResolved components (context_lists input components)
    (mkClassUniverse (mkMaps accounts None None)
       (investment_universe (investmentComponents components (IncludeCash (sq_query query)) accounts))
       (activities_by_id input) (holdings_by_id input) (instruments_by_id input) (list_to_set (Key <$> components)))
    (unknownAccountDates input).

Section Compute.
(** The orders in which maps are read: the dates of a query, the holdings, and the returns of a day. *)
Variables (fields : list (string * string) → list (string * string)) (visit : gmap HoldingID Holding → list Holding)
  (returns : gmap ReturnComponent SignedMoney → list SignedMoney).

Definition resolveAnalysisUniverse (input : storedInputs) (query : ScopedQuery) : Result resolvedUniverse :=
  match in_Household input with
  | None => Fail household_not_found
  | Some _ => _ ← query_Validate fields query; Ok (resolve_components input query)
  end.

(** ** The window of snapshots *)

Definition analysisSnapshotBounds (from to : string) (location : Location) : Result (string * string) :=
  match ParseDate from with
  | None => Fail (validation "from" "date must use YYYY-MM-DD")
  | Some parsed => previous ← analysisPreviousExistingCivilDateLabel parsed location; Ok (format_days previous, to)
  end.
Definition snapshotsInAnalysisWindow (snapshots : list DailyValuationSnapshot) (from to : string) (location : Location)
    : Result (list DailyValuationSnapshot) :=
  '(start, end_) ← analysisSnapshotBounds from to location;
  Ok (List.filter (λ s, negb (String.ltb (sn_LocalDate s) start || String.ltb end_ (sn_LocalDate s))) snapshots).

Definition with_snapshots (input : storedInputs) (snapshots : list DailyValuationSnapshot) : storedInputs :=
  mkStored (in_Timezone input) (in_Household input) (in_Accounts input) (in_Instruments input) (in_Holdings input) (in_FXPreferences input)
    snapshots (in_Activities input) (in_InstrumentQuotes input) (in_FXQuotes input).

(** ** The days *)

Definition investmentCurrencies (components : list ComponentID) : gset CurrencyCode :=
  list_to_set (List.filter not_empty (cid_Currency <$> components)).

Record dayRow := mkDayRow { row_date : string; row_component : ComponentID; row_day : dayResult }.
Record periodState := mkPeriodState { previousItems : gmap string DailyValuationSnapshotItem; period_rows : list dayRow }.

Definition noSnapshot : DailyValuationSnapshot := mkDailySnapshot "" 0 false [].

(** A complete day is only partly known where a snapshot has an item of an unknown account. *)
Definition mark_unknown (unknown : bool) (r : dayResult) : dayResult :=
  if bool_decide (dr_status r = CompletenessOK) && unknown
  then mkDayResult (dr_state r) (dr_beginning r) (dr_ending r) CompletenessPartial (dr_residual r) (dr_return r) (dr_invested r) (dr_rate r)
         (MissingReason r)
  else r.

Section Loop.
Variables (location : Location) (start : Z) (n : dayInputs) (activities : list analysedActivity) (u : resolvedUniverse)
  (components : list ComponentID).

Definition byDate : gmap string DailyValuationSnapshot := index_last sn_LocalDate (dn_snapshots n).
Definition activityLocalDate (a : Activity) : string := FormatDate (wall location (EffectiveAt a)).
Definition items_of (s : DailyValuationSnapshot) : gmap string DailyValuationSnapshotItem :=
  snapshotItemsByComponent (sn_Items s) (accounts_of (ru_class u)) (instrumentsByID (ru_class u)).

Definition classified_on (localDate : string) (daySnapshot : DailyValuationSnapshot) (previous : option DailyValuationSnapshot)
    : Result (list classifiedAnalysisEffect) :=
  foldM (λ effects activity,
    classified ← classifyActivity visit (ru_class u) (dn_input n) (q_Valuation (dn_query n)) activity daySnapshot previous;
    Ok (effects ++ classified)) []
    (List.filter (λ a, bool_decide (activityLocalDate (an_activity a) = localDate)) activities).

Definition component_row (localDate previousDate : string) (items : gmap string DailyValuationSnapshotItem)
    (day previous : option DailyValuationSnapshot) (effects : list classifiedAnalysisEffect) (component : ComponentID) : Result dayRow :=
  let key := Key component in
  r ← buildComponentDay n (ru_class u) component localDate (default noItem (items !! key))
        (default noItem (items_of (default noSnapshot day) !! key)) (default noSnapshot previous) (default noSnapshot day)
        (negb (is_none previous)) (negb (is_none day)) (List.filter (λ e, bool_decide (Key (ce_component e) = key)) effects);
  Ok (mkDayRow localDate component (mark_unknown (hasUnknownAccount u localDate || hasUnknownAccount u previousDate) r)).

(** One turn of the loop: a skipped date has no observation, and leaves the items before it in place. *)
Definition period_date (st : periodState) (dayIndex : nat) : Result periodState :=
  let date := start + Z.of_nat dayIndex in
  let localDate := format_days date in
  bounds ← analysisCivilDayBounds date location;
  let civilDateExists := negb (is_none bounds) in
  let day := if civilDateExists then byDate !! localDate else None in
  previousLabel ← analysisPreviousExistingCivilDateLabel date location;
  let previousDate := format_days previousLabel in
  let previous := byDate !! previousDate in
  effects ← match day with Some s => classified_on localDate s previous | None => Ok [] end;
  rows ← mapM (component_row localDate previousDate (previousItems st) day previous effects) components;
  Ok (mkPeriodState (if civilDateExists then items_of (default noSnapshot day) else previousItems st) (period_rows st ++ rows)).

Definition first_items : Result (gmap string DailyValuationSnapshotItem) :=
  label ← analysisPreviousExistingCivilDateLabel start location;
  Ok (match byDate !! format_days label with Some s => items_of s | None => ∅ end).

Definition period_days (totalDays : Z) : Result (list dayRow) :=
  items ← first_items;
  st ← foldM period_date (mkPeriodState items []) (seq 0 (Z.to_nat totalDays));
  Ok (period_rows st).
End Loop.

Definition timezone_required (message : string) : goerror := domainErr ErrHistoryTimezoneRequired "timezone" message.

(** The days of an analysis and its finalized returns. *)
Definition computeAnalysisForValuationUniverse (input : storedInputs) (query : ScopedQuery) (investmentOnly : bool)
    : Result (list dayRow * PeriodAnalysisResult) :=
  let q := sq_query query in
  _ ← query_Validate fields query;
  '(start, totalDays) ← analysisDateRange (q_From q) (q_To q);
  match in_Household input with
  | None => Fail household_not_found
  | Some household =>
    if bool_decide (in_Timezone input = ""%string) then Fail (timezone_required "analysis requires the History Origin timezone")
    else match LoadLocation (in_Timezone input) with
    | None => Fail (timezone_required "analysis requires a valid History Origin timezone")
    | Some location =>
      snapshots ← snapshotsInAnalysisWindow (in_Snapshots input) (q_From q) (q_To q) location;
      let input := with_snapshots input snapshots in
      resolved ← resolveAnalysisUniverse input query;
      let analysed := mkAnalysisInputs (h_ID household) (h_BaseCurrency household) (in_FXPreferences input) (in_InstrumentQuotes input) (in_FXQuotes input) in
      let class := ru_class resolved in
      let indexed := mkClassUniverse (indexStampedQuotes (un_maps class) analysed) (un_investment class) (activitiesByID class) (holdingsByID class)
                       (instrumentsByID class) (componentKeys class) in
      let universe := mkResolved (ru_components resolved) (ru_lists resolved) indexed (ru_unknown resolved) in
      let components := if investmentOnly then InvestmentUniverse (un_investment class) else ru_components resolved in
      if bool_decide (q_Valuation q = ValuationNative) && (1 <? Z.of_nat (size (investmentCurrencies components)))
      then Fail (validation "valuation" "native valuation requires a single component currency")
      else
        let n := mkDayInputs analysed (an_activity <$> in_Activities input) snapshots (in_Holdings input) (in_Timezone input) q returns in
        rows ← period_days location start n (in_Activities input) universe components totalDays;
        let days := (λ row, component_day (row_date row) (row_component row) (row_day row)) <$> rows in
        result ← finalizeAnalysisReturns
          (mkPeriod q (in_Timezone input) days [] (mkRateCoverage 0 totalDays) None None None CompletenessOK)
          (un_investment class) (in_Timezone input) (h_BaseCurrency household) q;
        Ok (rows, result)
    end
  end.
End Compute.
End Period.
