(* ===== verification/AnalysisPeriodLaws.v ===== *)
(** * A period adds up

    Theorems on [AnalysisPeriod]: the components of a universe, the shape of its rows, and the values of a
    component over a period, in which every day opens with what the one before it closed with. *)

From S2P Require Export AnalysisPeriod AnalysisDayLaws.
From S2P Require Import Portfolio ChangeState Accounts Fx DecimalModel Ordering.
From Stdlib Require Import String Ascii Sorted.

#[global] Open Scope Z_scope.

Section Laws.
Context `{HD : DecimalAPI} {HL : DecimalLaws} `{HM : MetalEvidence} `{TZ : TimeZones}.

(** ** The two ends of a day *)

Section Ends.
Variables (n : dayInputs) (u : classUniverse) (c : ComponentID).

Lemma zero_item_value t d : value_of n u c (zeroValuationItem c t) = Ok (Some d) → (dval d == 0)%Q.
Proof.
  assert (∀ x, parse_decimal "0" = Ok x → (dval x == 0)%Q) as Hz.
  { intros x. unfold parse_decimal. destruct (dNewFromString_literal "0" 0 0 eq_refl) as (z & -> & Hc & He). intros [= <-].
    unfold dval, cval. rewrite Hc. ring. }
  unfold value_of, snapshotItemValue, signedForAccount. cbn -[parse_decimal]. destruct (bool_decide (the_valuation n = _)); cbn -[parse_decimal];
    intros H; apply bind_Ok in H as (x & Hx%Hz & [= <-]); destruct (liability_of u c); rewrite ?dNeg_val, Hx; ring.
Qed.

(** An item that is missing is replaced by a zero at most, and one that is there is kept. *)
Definition kept_or_zero (item settled_item : DailyValuationSnapshotItem) : Prop :=
  settled_item = item ∨ (missing_item item = true ∧ ∃ t, settled_item = zeroValuationItem c t).

Lemma settle_sides ps cs effects p k hp hc : let s := settle n u c ps cs effects (mkSettled p k hp hc) in
  kept_or_zero p (se_previous s) ∧ kept_or_zero k (se_current s).
Proof.
  cbn zeta. unfold settle. set (s := before_creation _ _ _ _ _ _).
  assert (kept_or_zero p (se_previous s) ∧ kept_or_zero k (se_current s)) as [Hp Hk].
  { unfold s, before_creation, kept_or_zero. cbn [se_previous se_current hasPrevious hasCurrent].
    split; case_match eqn:E; try (by left); rewrite !andb_true_iff in E; right; split; [tauto|by eexists|tauto|by eexists]. }
  clearbody s. destruct (_ && _); [|done]. unfold fill_missing, kept_or_zero in *.
  assert (missing_item (se_previous s) = true → missing_item p = true) as Hp' by (destruct Hp as [->|[? _]]; auto).
  assert (missing_item (se_current s) = true → missing_item k = true) as Hk' by (destruct Hk as [->|[? _]]; auto).
  destruct (missing_item (se_previous s)), (missing_item (se_current s)); cbn [se_previous se_current]; [|case_match..|done];
    cbn [se_previous se_current]; split; try done; right; (split; [auto|by eexists]).
Qed.

(** The value with which an item leaves one day and enters the next. *)
Definition carried (item : DailyValuationSnapshotItem) (v : Q) : Prop :=
  if missing_item item then (v == 0)%Q else ∃ d, value_of n u c item = Ok (Some d) ∧ (dval d == v)%Q.

Lemma carried_unique item v w : carried item v → carried item w → (v == w)%Q.
Proof.
  unfold carried. destruct (missing_item item); [by intros -> ->|]. intros (d & Hd & <-) (d' & Hd' & <-). rewrite Hd in Hd'. by injection Hd' as ->.
Qed.

Lemma settled_carried item x d : kept_or_zero item x → (missing_item item = true → it_Complete item = false) → it_Complete x = true →
  value_of n u c x = Ok (Some d) → carried item (dval d).
Proof.
  unfold carried. intros Hx Hgood Hcomplete Hd. destruct Hx as [->|[-> [t ->]]].
  - destruct (missing_item item); [by rewrite Hgood in Hcomplete|]. by exists d.
  - by eapply zero_item_value.
Qed.
End Ends.

(** ** One complete day *)

(** What the buckets and the neutral effects of a day account for. *)
Definition accounted (r : dayResult) : Q :=
  (sumQ (exact_in (dr_state r)) AllAttributionBuckets + dval (neutralTotal (dr_state r)))%Q.

(** A day that opens with the exact value [v] and closes with [w], of which all but [d] is accounted. *)
Record day_value (r : dayResult) (v w d : Q) : Prop := {
  day_opens : sm_units (dr_beginning r) = round_half_even (v * p10 4);
  day_closes : sm_units (dr_ending r) = round_half_even (w * p10 4);
  day_explained : (Qabs (w - v - accounted r) <= d)%Q;
  day_tolerance : ∃ cur begin, ParseCurrency cur = Ok (s_currency (dr_ending r)) ∧ (dval begin == v)%Q ∧
    (d == dval (residualTolerance cur begin) + 2 * half_digit)%Q }.

Lemma day_value_proper r v v' w d : (v == v')%Q → day_value r v w d → day_value r v' w d.
Proof.
  intros E [H1 H2 H3 (cur & begin & Hc & Hb & Hd)]. split; [by rewrite H1, E|done|by rewrite <-E|]. exists cur, begin. by rewrite <-E.
Qed.

Lemma NewSignedMoney_currency v cur m : NewSignedMoney v cur = Ok m → ParseCurrency cur = Ok (s_currency m).
Proof. unfold NewSignedMoney. destruct (ParseCurrency cur); [|done]. destruct (dGreaterThan _ _); [done|]. by intros [= <-]. Qed.

Lemma with_return_ends n r cur r' : with_return n r cur = Ok r' → dr_state r' = dr_state r ∧ dr_beginning r' = dr_beginning r ∧ dr_ending r' = dr_ending r.
Proof. unfold with_return. intros H. apply bind_Ok in H as (? & _ & H). by apply bind_Ok in H as (? & _ & [= <-]). Qed.

Lemma known_day_ends n u c date s ps cs effects begin ending r :
  known_day n u c date s ps cs effects begin ending = Ok r →
  sm_units (dr_beginning r) = round_half_even (dval begin * p10 4) ∧ sm_units (dr_ending r) = round_half_even (dval ending * p10 4) ∧
  ParseCurrency (currency_of n (se_current s)) = Ok (s_currency (dr_ending r)) ∧
  (dval (neutralTotal (dr_state r)) == sumQ neutral_amount effects)%Q.
Proof.
  unfold known_day. set (cur := currency_of n (se_current s)). intros H.
  apply bind_Ok in H as (beginning & Hb & H). apply bind_Ok in H as (ended & He & H). apply bind_Ok in H as (st & Hst & H).
  apply bind_Ok in H as (b & _ & H). apply bind_Ok in H as (st1 & H1 & H). apply bind_Ok in H as (st2 & H2 & H).
  apply bind_Ok in H as ([[x money] visible] & _ & H). apply bind_Ok in H as (st3 & H3 & H). cbn [fst snd] in H.
  apply effects_sums in Hst as (_ & _ & Hn). apply add_bridge_value in H1 as (_ & _ & Hn1).
  apply add_bridge_value in H2 as (_ & _ & Hn2). apply add_residual_value in H3 as (_ & _ & Hn3).
  assert (dr_state r = st3 ∧ dr_beginning r = beginning ∧ dr_ending r = ended) as (-> & -> & ->).
  { destruct (invested u c); [|by injection H as <-]. by apply with_return_ends in H. }
  split; [by apply NewSignedMoney_units in Hb|]. split; [by apply NewSignedMoney_units in He|]. split; [by apply NewSignedMoney_currency in He|].
  by rewrite Hn3, Hn2, Hn1, Hn.
Qed.

(** A complete day carries its values from item to item. *)
Lemma complete_day_value n u c date p k ps cs hp hc effects r :
  (missing_item p = true → it_Complete p = false) → (missing_item k = true → it_Complete k = false) →
  buildComponentDay n u c date p k ps cs hp hc effects = Ok r → dr_status r = CompletenessOK →
  ∃ v w d, carried n u c p v ∧ carried n u c k w ∧ day_value r v w d.
Proof.
  unfold buildComponentDay. set (s := settle n u c ps cs effects _). intros Hp Hk H Hr.
  destruct (settle_sides n u c ps cs effects p k hp hc) as [Hps Hks]. fold s in Hps, Hks. clearbody s.
  apply bind_Ok in H as (r0 & H & [= <-]). destruct (applyFundingGapMark_keeps r0 (se_previous s) (se_current s)) as (Es & _ & Ec).
  assert (dr_beginning (applyFundingGapMark r0 (se_previous s) (se_current s)) = dr_beginning r0 ∧
          dr_ending (applyFundingGapMark r0 (se_previous s) (se_current s)) = dr_ending r0) as [Eb Ee]
    by (unfold applyFundingGapMark; by case_match).
  apply Ec in Hr. unfold settled_day in H. destruct (negb (hasPrevious s) || _ || _ || _) eqn:Eopen.
  { apply open_day_unsettled in H as [Hc _]. done. }
  apply orb_false_iff in Eopen as [[_ Hpc%negb_false_iff]%orb_false_iff Hkc%negb_false_iff].
  apply bind_Ok in H as (begin & Hb & H). apply bind_Ok in H as (ending & He & H).
  destruct begin as [begin|]; [|by injection H as <-]. destruct ending as [ending|]; [|by injection H as <-].
  pose proof (known_day_reconciled _ _ _ _ _ _ _ _ _ _ _ H) as [_ Hchange _ Hcomplete]. rewrite (Hcomplete Hr) in Hchange.
  apply known_day_ends in H as (Hu & Hw & Hcur & Hn).
  eexists (dval begin), (dval ending), _. split; [by eapply settled_carried|]. split; [by eapply settled_carried|]. split.
  - by rewrite Eb.
  - by rewrite Ee.
  - unfold accounted, explained in *. rewrite Es, Hn. exact Hchange.
  - eexists _, begin. rewrite Ee. by split.
Qed.

(** ** A chain of days *)

(** The rows of a component in order, from the value [v0] to [v], with what their tolerances add up to. *)
Inductive day_chain (v0 : Q) : list dayResult → Q → Q → Prop :=
| chain_start : day_chain v0 [] v0 0
| chain_day rows v t r w d : day_chain v0 rows v t → day_value r v w d → day_chain v0 (rows ++ [r]) w (t + d)%Q.

Lemma chain_total v0 rows v t : day_chain v0 rows v t → (Qabs (v - v0 - sumQ accounted rows) <= t)%Q.
Proof.
  induction 1 as [|rows v t r w d _ IH [_ _ Hd _]].
  - change (sumQ accounted []) with 0%Q. assert (v0 - v0 - 0 == 0)%Q as -> by ring. discriminate.
  - rewrite sumQ_snoc. assert (w - v0 - (sumQ accounted rows + accounted r) == (v - v0 - sumQ accounted rows) + (w - v - accounted r))%Q as -> by ring.
    eapply Qle_trans; [apply Qabs_triangle|]. by apply Qplus_le_compat.
Qed.

Lemma chain_opens v0 rows v t r : day_chain v0 rows v t → head rows = Some r → sm_units (dr_beginning r) = round_half_even (v0 * p10 4).
Proof.
  induction 1 as [|rows v t x w d Hc IH Hx]; [done|]. destruct rows as [|y rows]; [|exact IH]. intros [= <-].
  inversion Hc as [|rows' ? ? ? ? ? ? ? E]; subst; [by apply day_opens in Hx|]. by destruct rows'.
Qed.

Lemma chain_closes v0 rows v t r : day_chain v0 rows v t → last rows = Some r → sm_units (dr_ending r) = round_half_even (v * p10 4).
Proof. destruct 1 as [|rows v t x w d Hc Hx]; [done|]. rewrite last_snoc. intros [= <-]. by apply day_closes in Hx. Qed.

(** ** The loop over dates *)

Section Loop.
Variables (visit : gmap HoldingID Holding → list Holding) (location : Location) (start : Z) (n : dayInputs)
  (activities : list analysedActivity) (u : resolvedUniverse) (components : list ComponentID).
Let step := period_date visit location start n activities u components.

(** The keys of the rows of one date, and of a period. *)
Definition date_rows (components : list ComponentID) (date : string) : list (string * ComponentID) := (λ c, (date, c)) <$> components.
Definition row_place (r : dayRow) : string * ComponentID := (row_date r, row_component r).

Lemma component_row_place localDate previousDate items day previous effects c r :
  component_row n u localDate previousDate items day previous effects c = Ok r → row_place r = (localDate, c).
Proof. unfold component_row. intros H. by apply bind_Ok in H as (x & _ & [= <-]). Qed.

Lemma component_rows_places localDate previousDate items day previous effects l rows :
  mapM (component_row n u localDate previousDate items day previous effects) l = Ok rows → row_place <$> rows = date_rows l localDate.
Proof.
  intros H%mapM_Forall2. induction H as [|c r l rows Hr _ IH]; [done|]. unfold date_rows in *. cbn. rewrite IH. f_equal.
  by eapply component_row_place.
Qed.

(** What one turn of the loop does. *)
Lemma period_date_inv st i st' : step st i = Ok st' → ∃ bounds previousLabel effects rows,
  let localDate := format_days (start + Z.of_nat i) in
  let day := if negb (is_none bounds) then byDate n !! localDate else None in
  analysisCivilDayBounds (start + Z.of_nat i) location = Ok bounds ∧
  mapM (component_row n u localDate (format_days previousLabel) (previousItems st) day (byDate n !! format_days previousLabel) effects) components = Ok rows ∧
  st' = mkPeriodState (if negb (is_none bounds) then items_of u (default noSnapshot day) else previousItems st) (period_rows st ++ rows).
Proof.
  unfold step, period_date. intros H. apply bind_Ok in H as (bounds & Hb & H). apply bind_Ok in H as (label & _ & H).
  apply bind_Ok in H as (effects & _ & H). apply bind_Ok in H as (rows & Hr & [= <-]). exists bounds, label, effects, rows. by split.
Qed.

Lemma loop_places dates items st : foldM step (mkPeriodState items []) dates = Ok st →
  row_place <$> period_rows st = dates ≫= λ i, date_rows components (format_days (start + Z.of_nat i)).
Proof.
  apply (foldM_inv _ (λ dates st, row_place <$> period_rows st = dates ≫= λ i, date_rows components (format_days (start + Z.of_nat i)))); [|done].
  intros done_ s i s' IH _ (bounds & label & effects & rows & _ & Hr%component_rows_places & ->)%period_date_inv. cbn [period_rows].
  rewrite fmap_app, IH, Hr, bind_app. cbn. by rewrite app_nil_r.
Qed.

(** The complete rows of one component. *)
Definition is_row_of (c : ComponentID) (r : dayRow) : bool := bool_decide (Key (row_component r) = Key c).
Definition complete_row (r : dayRow) : bool := bool_decide (dr_status (row_day r) = CompletenessOK).
Definition complete_rows (c : ComponentID) (rows : list dayRow) : list dayResult :=
  row_day <$> List.filter (λ r, is_row_of c r && complete_row r) rows.

Lemma complete_rows_app c l k : complete_rows c (l ++ k) = complete_rows c l ++ complete_rows c k.
Proof. unfold complete_rows. by rewrite List.filter_app, fmap_app. Qed.

(** Among components with different keys, one row is of a given component. *)
Lemma rows_of_one f c l rows : (∀ x r, f x = Ok r → row_component r = x) → NoDup (Key <$> l) → c ∈ l → mapM f l = Ok rows →
  ∃ r, f c = Ok r ∧ r ∈ rows ∧ List.filter (is_row_of c) rows = [r].
Proof.
  intros Hf Hnd Hc H%mapM_Forall2. induction H as [|x r l rows Hr Hrows IH]; [by apply elem_of_nil in Hc|].
  rewrite fmap_cons in Hnd. apply NoDup_cons in Hnd as [Hx Hnd]. apply elem_of_cons in Hc as [->|Hc].
  - exists r. split; [done|]. split; [by left|]. cbn. unfold is_row_of at 1. rewrite (Hf _ _ Hr), bool_decide_eq_true_2 by done.
    f_equal. clear IH Hr r. induction Hrows as [|y r l rows Hr _ IH]; [done|]. rewrite fmap_cons in Hx, Hnd. cbn [List.filter].
    apply not_elem_of_cons in Hx as [Hne Hx]. apply NoDup_cons in Hnd as [_ Hnd]. unfold is_row_of at 1.
    rewrite (Hf _ _ Hr), bool_decide_eq_false_2 by (intros E; by apply Hne). by apply IH.
  - destruct IH as (r' & H1 & H2 & H3); [done..|]. exists r'. split; [done|]. split; [by right|]. cbn. unfold is_row_of at 1.
    rewrite (Hf _ _ Hr), bool_decide_eq_false_2; [done|]. intros E. apply Hx. rewrite E. by apply list_elem_of_fmap_2.
Qed.

(** ** Days that follow each other *)

Section Chain.
Context (c : ComponentID) (Hkeys : NoDup (Key <$> components)) (Hc : c ∈ components) (Hnamed : accounts_of (ru_class u) !! ""%string = None).

Definition good_items (m : gmap string DailyValuationSnapshotItem) : Prop := ∀ k item, m !! k = Some item → missing_item item = false.
Definition entry (m : gmap string DailyValuationSnapshotItem) : DailyValuationSnapshotItem := default noItem (m !! Key c).

Lemma items_good s : good_items (items_of u s).
Proof.
  unfold items_of, snapshotItemsByComponent. induction (sn_Items s) as [|x items IH] using rev_ind; [done|].
  rewrite fold_left_app. cbn [fold_left]. unfold item_component. destruct (accounts_of (ru_class u) !! it_AccountID x) as [account|] eqn:Ea; [|exact IH].
  cbn [fmap option_fmap option_map]. intros k item [[_ <-]|[_ Hi]]%lookup_insert_Some; [|by eapply IH].
  unfold missing_item. apply bool_decide_eq_false. intros E. congruence.
Qed.

Lemma entry_good m : good_items m → missing_item (entry m) = true → it_Complete (entry m) = false.
Proof. unfold entry. intros Hm. destruct (m !! Key c) as [item|] eqn:E; [|done]. cbn. by rewrite (Hm _ _ E). Qed.

Lemma mark_unknown_complete b r : dr_status (mark_unknown b r) = CompletenessOK → mark_unknown b r = r.
Proof. unfold mark_unknown. by destruct (_ && _). Qed.

(** A date without an observation has no complete row. *)
Lemma no_day_incomplete localDate previousDate items previous effects r :
  component_row n u localDate previousDate items None previous effects c = Ok r → complete_row r = false.
Proof.
  unfold component_row. intros H. apply bind_Ok in H as (x & H & [= <-]). apply bool_decide_eq_false. cbn [row_day].
  intros Hs. rewrite (mark_unknown_complete _ _ Hs) in Hs. unfold buildComponentDay in H. apply bind_Ok in H as (r0 & H & [= <-]).
  apply applyFundingGapMark_keeps in Hs. revert H. cbn [default from_option id is_none negb].
  set (s := settle _ _ _ _ _ _ _). assert (hasCurrent s = false) as Hcur.
  { unfold s, settle, opening_known. cbn [sn_Complete noSnapshot]. unfold snapshotFundingGapAnnotated at 2. cbn [sn_Complete sn_LocalDate noSnapshot].
    rewrite bool_decide_eq_true_2 by done. by rewrite !andb_false_r. }
  unfold settled_day. rewrite Hcur. cbn [negb]. rewrite orb_true_r. cbn [orb]. intros H%open_day_unsettled. by destruct H.
Qed.

Lemma complete_rows_of_one rows r : List.filter (is_row_of c) rows = [r] → complete_rows c rows = if complete_row r then [row_day r] else [].
Proof.
  intros H. assert (List.filter (λ r, is_row_of c r && complete_row r) rows = List.filter complete_row (List.filter (is_row_of c) rows)) as E.
  { clear H. induction rows as [|x rows IH]; [done|]. cbn. destruct (is_row_of c x); cbn; [|done]. by rewrite IH. }
  unfold complete_rows. rewrite E, H. cbn. by destruct (complete_row r).
Qed.

Definition date_exists (i : nat) : Prop := ∃ b, analysisCivilDayBounds (start + Z.of_nat i) location = Ok (Some b).
Definition date_complete (rows : list dayRow) (i : nat) : Prop :=
  ∀ r, r ∈ rows → row_date r = format_days (start + Z.of_nat i) → is_row_of c r = true → complete_row r = true.

(** The complete rows so far form a chain that ends with the items of the last date. *)
Definition chained (dates : list nat) (st : periodState) : Prop :=
  good_items (previousItems st) ∧
  ((∀ i, i ∈ dates → date_exists i → date_complete (period_rows st) i) →
   complete_rows c (period_rows st) = [] ∨
   ∃ v0 v t, day_chain v0 (complete_rows c (period_rows st)) v t ∧ carried n (ru_class u) c (entry (previousItems st)) v).

Lemma chain_extends v0 rows v t r w d items item : day_chain v0 rows v t → carried n (ru_class u) c (entry items) v → carried n (ru_class u) c item w →
  (∃ v', carried n (ru_class u) c (entry items) v' ∧ day_value r v' w d) → day_chain v0 (rows ++ [r]) w (t + d)%Q.
Proof.
  intros Hchain Hv Hw (v' & Hv' & Hd). econstructor; [exact Hchain|]. eapply day_value_proper; [|exact Hd]. by eapply carried_unique.
Qed.

Lemma step_chained dates st i st' : chained dates st → step st i = Ok st' → chained (dates ++ [i]) st'.
Proof.
  intros [Hgood Hchain] (bounds & label & effects & rows & Hb & Hrows & ->)%period_date_inv.
  set (day := if negb (is_none bounds) then _ else _) in *.
  pose proof (rows_of_one _ c _ _ (λ x r H, f_equal snd (component_row_place _ _ _ _ _ _ _ _ H)) Hkeys Hc Hrows) as (r & Hr & Hin & Hone).
  apply complete_rows_of_one in Hone. split; cbn [previousItems period_rows]; [destruct (negb _); [apply items_good|done]|].
  intros Hall. rewrite complete_rows_app, Hone.
  assert (∀ j, j ∈ dates → date_exists j → date_complete (period_rows st) j) as Hbefore.
  { intros j Hj He x Hx. apply (Hall j); [by apply elem_of_app; left|done|by apply elem_of_app; left]. }
  specialize (Hchain Hbefore). destruct bounds as [b|]; cbn [is_none negb] in *.
  - assert (complete_row r = true) as Hcomplete.
    { pose proof (component_row_place _ _ _ _ _ _ _ _ Hr) as Hp. unfold row_place in Hp. injection Hp as Hd Hcomp.
      apply (Hall i); [by apply elem_of_app; right; left|by exists b|by apply elem_of_app; right|done|].
      unfold is_row_of. by rewrite Hcomp, bool_decide_eq_true_2. }
    rewrite Hcomplete. right. apply bool_decide_eq_true in Hcomplete. unfold component_row in Hr. apply bind_Ok in Hr as (x & Hx & [= <-]).
    cbn [row_day] in *. pose proof (mark_unknown_complete _ _ Hcomplete) as Em. rewrite Em in Hcomplete |- *.
    eapply complete_day_value in Hx as (v & w & d & Hv & Hw & Hd); [|by apply entry_good|by apply entry_good, items_good|done].
    destruct Hchain as [->|(v0 & v' & t & Hchain & Hv')].
    + exists v, w, (0 + d)%Q. split; [|exact Hw]. apply (chain_day v [] v 0); [constructor|done].
    + exists v0, w, (t + d)%Q. split; [|exact Hw]. eapply chain_extends; eauto.
  - rewrite (no_day_incomplete _ _ _ _ _ _ Hr), app_nil_r. exact Hchain.
Qed.

Lemma loop_chained dates items st : good_items items → foldM step (mkPeriodState items []) dates = Ok st → chained dates st.
Proof.
  intros Hi. apply (foldM_inv _ chained); [|split; [done|by left]]. intros done_ s i s' Hs _. by apply step_chained.
Qed.

Lemma first_items_good items : first_items location start n u = Ok items → good_items items.
Proof.
  unfold first_items. intros H. apply bind_Ok in H as (label & _ & [= <-]). destruct (byDate n !! _); [apply items_good|by intros k item].
Qed.
End Chain.
End Loop.

(** ** The universe *)

Lemma componentsByKey_keys input query : Key <$> universe_components input query ≡ₚ (map_to_list (componentsByKey input query)).*1.
Proof. unfold universe_components. rewrite stable_sort_perm. unfold componentsByKey. by rewrite index_last_keys. Qed.

Lemma universe_components_NoDup input query : NoDup (Key <$> universe_components input query).
Proof. rewrite componentsByKey_keys. apply NoDup_fst_map_to_list. Qed.

Lemma key_less_cmp x y : key_less x y = is_gt (by_key Key String.compare y x).
Proof. unfold key_less, by_key. by rewrite is_gt_string. Qed.

Lemma sorted_distinct_keys l : StronglySorted (in_order (by_key Key String.compare)) l → NoDup (Key <$> l) →
  StronglySorted (λ a b, String.ltb (Key a) (Key b) = true) l.
Proof.
  induction 1 as [|x l Hl IH Hx]; intros Hnd; [constructor|]. rewrite fmap_cons in Hnd. apply NoDup_cons in Hnd as [Hn Hnd].
  constructor; [by apply IH|]. rewrite Forall_forall in Hx |- *. intros y Hy. specialize (Hx y Hy). unfold in_order, by_key in Hx.
  unfold String.ltb. destruct (String.compare (Key x) (Key y)) eqn:E; [|done..]. apply String.compare_eq_iff in E. exfalso. apply Hn. rewrite E.
  by apply list_elem_of_fmap_2.
Qed.

(** The component of an item of an account, with its asset class. *)
Definition component_of (input : storedInputs) (account : Account) (item : DailyValuationSnapshotItem) : ComponentID :=
  with_class (componentIDForItem item account) (itemAssetClass account (instrumentForItem item (instruments_by_id input)) (it_HoldingID item)).

(** What a query asks of a component, of the owners of its account and of its instrument. *)
Record answers (query : ScopedQuery) (owners : Ownership) (instrument : option InstrumentID) (c : ComponentID) : Prop := {
  ans_account : ∀ id, fi_AccountID (Filters query) = Some id → cid_AccountID c = id;
  ans_currency : ∀ cur, fi_Currency (Filters query) = Some cur → cid_Currency c = cur;
  ans_instrument : ∀ i, fi_InstrumentID (Filters query) = Some i → instrument = Some i;
  ans_member : ∀ m, fi_MemberID (Filters query) = Some m → ∃ share, share ∈ owners ∧ MemberID' share = m;
  ans_class : fi_AssetClass (Filters query) ≠ ""%string → fold_text (fi_AssetClass (Filters query)) = fold_text (AnalysisReturn.AssetClass c);
  ans_scope : match sc_Kind (sq_Scope query) with
    | ScopeHousehold => True
    | ScopeAccount => cid_AccountID c = sc_ID (sq_Scope query)
    | ScopeCurrency => cid_Currency c = ToUpper (sc_ID (sq_Scope query))
    | ScopeInstrument => instrument = Some (sc_ID (sq_Scope query))
    | ScopeAssetClass => fold_text (sc_ID (sq_Scope query)) = fold_text (AnalysisReturn.AssetClass c)
    | ScopeRaw _ => False
    end }.

(** An item contributes a component to a query: the last record of its account counts in the net
    worth and is not archived, and the component answers the query. *)
Definition contributes (input : storedInputs) (query : ScopedQuery) (item : DailyValuationSnapshotItem) (c : ComponentID) : Prop :=
  ∃ account owners, last_with (λ r : Account * Ownership, ID r.1) (in_Accounts input) (it_AccountID item) (account, owners) ∧
    IncludeInNetWorth account = true ∧ ArchivedAt account = None ∧
    c = component_of input account item ∧ answers query owners (it_InstrumentID item) c.

Lemma passes_iff {A} (filter : option A) (test : A → bool) : passes filter test = true ↔ ∀ x, filter = Some x → test x = true.
Proof. destruct filter as [a|]; cbn; [split; [by intros H x [= <-]|by intros H; apply H]|by split]. Qed.

Lemma ownershipContains_iff owners m : ownershipContains owners m = true ↔ ∃ share, share ∈ owners ∧ MemberID' share = m.
Proof.
  unfold ownershipContains. rewrite existsb_exists.
  split; intros (x & Hx%list_elem_of_In & E); exists x; (split; [done|]); [by apply bool_decide_eq_true_1 in E|by apply bool_decide_eq_true_2].
Qed.

Lemma matches_answers input query account owners item : ID account = it_AccountID item →
  analysisItemMatches query account (instrumentForItem item (instruments_by_id input)) item owners = true ↔
  answers query owners (it_InstrumentID item) (component_of input account item).
Proof.
  intros Hid. unfold analysisItemMatches. rewrite !andb_true_iff, !passes_iff, Hid.
  assert (cid_AccountID (component_of input account item) = it_AccountID item) as E1 by (unfold component_of, componentIDForItem; by destruct (it_HoldingID item)).
  assert (cid_Currency (component_of input account item) = it_NativeCurrency item) as E2 by (unfold component_of, componentIDForItem; by destruct (it_HoldingID item)).
  set (class := itemAssetClass _ _ _). assert (AnalysisReturn.AssetClass (component_of input account item) = class) as E3 by done.
  rewrite orb_true_iff. unfold EqualFold. split.
  - intros [[[[[H1 H2] H3] H4] H5] H6]. split; rewrite ?E1, ?E2, ?E3.
    + intros id E. by apply H1, bool_decide_eq_true in E.
    + intros cur E. by apply H2, bool_decide_eq_true in E.
    + intros i E. by apply H3, bool_decide_eq_true in E.
    + intros m E. by apply H4, ownershipContains_iff in E.
    + intros Hne. destruct H5 as [H5|H5]; apply bool_decide_eq_true in H5; [by destruct Hne|done].
    + destruct (sc_Kind _); try apply bool_decide_eq_true in H6; done.
  - intros [H1 H2 H3 H4 H5 H6]. rewrite E1, E2, E3 in *. split_and!.
    + intros id E. by apply bool_decide_eq_true_2, H1.
    + intros cur E. by apply bool_decide_eq_true_2, H2.
    + intros i E. by apply bool_decide_eq_true_2, H3.
    + intros m E. by apply ownershipContains_iff, H4.
    + destruct (decide (fi_AssetClass (Filters query) = ""%string)); [left; by apply bool_decide_eq_true_2|right; by apply bool_decide_eq_true_2, H5].
    + destruct (sc_Kind _); try apply bool_decide_eq_true_2; done.
Qed.

Lemma selected_iff input query item c : selected_component input query item = Some c ↔ contributes input query item c.
Proof.
  unfold selected_component, contributes. split.
  - intros H. apply bind_Some in H as ([account owners] & Hr & H). cbn [fst snd] in H.
    destruct (AccountEligibleForNetWorth account) eqn:He; [|done]. destruct (analysisItemMatches _ _ _ _ _) eqn:Em; [|done]. injection H as <-.
    apply index_last_iff in Hr. exists account, owners. split; [done|]. apply andb_prop in He as [H1 H2%bool_decide_eq_true].
    split; [done|]. split; [done|]. split; [done|]. destruct Hr as (_ & _ & _ & Hid & _). by apply (matches_answers input).
  - intros (account & owners & Hr & H1 & H2 & -> & Ha). pose proof (proj2 (index_last_iff _ _ _ _) Hr) as E. unfold ownershipByID. rewrite E. cbn.
    destruct Hr as (_ & _ & _ & Hid & _). apply (matches_answers input) in Ha; [|done]. rewrite Ha.
    unfold AccountEligibleForNetWorth. by rewrite H1, bool_decide_eq_true_2.
Qed.

Lemma elem_all_items item snapshots : item ∈ all_items snapshots ↔ ∃ snapshot, snapshot ∈ snapshots ∧ item ∈ sn_Items snapshot.
Proof.
  unfold all_items. rewrite list_elem_of_In, in_concat. split.
  - intros (items & Hs & Hi). apply list_elem_of_In, list_elem_of_fmap in Hs as (s & -> & Hs). apply list_elem_of_In in Hi. by exists s.
  - intros (s & Hs & Hi). exists (sn_Items s). split; [by apply list_elem_of_In, list_elem_of_fmap_2|by apply list_elem_of_In].
Qed.

Lemma elem_values {A} (m : gmap string A) x : x ∈ (map_to_list m).*2 ↔ ∃ k, m !! k = Some x.
Proof.
  rewrite list_elem_of_fmap. split.
  - intros ([k y] & -> & H%elem_of_map_to_list). by exists k.
  - intros (k & H). exists (k, x). split; [done|]. by apply elem_of_map_to_list.
Qed.

Lemma universe_from input query c : c ∈ universe_components input query →
  ∃ item, item ∈ all_items (in_Snapshots input) ∧ contributes input query item c.
Proof.
  unfold universe_components. rewrite stable_sort_perm, elem_values. intros (k & Hk).
  apply index_last_Some in Hk as [Hc _]. apply list_elem_of_omap in Hc as (item & Hitem & Hc). exists item. by rewrite <-selected_iff.
Qed.

Lemma universe_has input query item c : item ∈ all_items (in_Snapshots input) → contributes input query item c →
  ∃ x, x ∈ universe_components input query ∧ Key x = Key c.
Proof.
  intros Hitem Hc. assert (is_Some (componentsByKey input query !! Key c)) as [x Hx].
  { apply index_last_is_Some. exists c. split; [|done]. apply list_elem_of_omap. exists item. split; [done|]. by apply selected_iff. }
  exists x. split; [|by apply index_last_Some in Hx as [_ ?]]. unfold universe_components. rewrite stable_sort_perm, elem_values. by eexists.
Qed.

(** What stored items promise: the key of a component determines the account, the holding, the
    instrument and the currency of its items, and only holdings have an instrument. *)
Record coherent (input : storedInputs) : Prop := {
  coh_key : ∀ x y rx ry, x ∈ all_items (in_Snapshots input) → y ∈ all_items (in_Snapshots input) →
    ownershipByID input !! it_AccountID x = Some rx → ownershipByID input !! it_AccountID y = Some ry →
    Key (componentIDForItem x rx.1) = Key (componentIDForItem y ry.1) →
    it_AccountID x = it_AccountID y ∧ it_HoldingID x = it_HoldingID y ∧ it_InstrumentID x = it_InstrumentID y ∧ it_NativeCurrency x = it_NativeCurrency y;
  coh_cash : ∀ x, x ∈ all_items (in_Snapshots input) → it_HoldingID x = None → it_InstrumentID x = None }.

Lemma last_with_unique {K A} `{Countable K} (key : A → K) l k x y : last_with key l k x → last_with key l k y → x = y.
Proof. rewrite <-!index_last_iff. congruence. Qed.

Lemma contributes_unique input q q' x y c d : coherent input → x ∈ all_items (in_Snapshots input) → y ∈ all_items (in_Snapshots input) →
  contributes input q x c → contributes input q' y d → Key c = Key d → c = d.
Proof.
  intros Hcoh Hx Hy (ax & ox & Hrx & _ & _ & -> & _) (ay & oy & Hry & _ & _ & -> & _) Hk.
  destruct (coh_key _ Hcoh x y (ax, ox) (ay, oy) Hx Hy (proj2 (index_last_iff _ _ _ _) Hrx) (proj2 (index_last_iff _ _ _ _) Hry) Hk)
    as (E1 & E2 & E3 & E4). rewrite E1 in Hrx.
  pose proof (last_with_unique _ _ _ _ _ Hrx Hry) as [= -> _]. unfold component_of, componentIDForItem, instrumentForItem.
  by rewrite E1, E2, E3, E4.
Qed.

Lemma universe_contributes input query c : coherent input →
  c ∈ universe_components input query ↔ ∃ item, item ∈ all_items (in_Snapshots input) ∧ contributes input query item c.
Proof.
  intros Hcoh. split; [apply universe_from|]. intros (item & Hitem & Hc). destruct (universe_has _ _ _ _ Hitem Hc) as (x & Hx & E).
  destruct (universe_from _ _ _ Hx) as (y & Hy & Hx'). by rewrite (contributes_unique input query query item y c x).
Qed.

(** The same query for the whole household, without filters. *)
Definition everything (query : ScopedQuery) : ScopedQuery :=
  mkScopedQuery (sq_query query) (mkScope ScopeHousehold "") (sq_Basis query) (mkFilters None None "" None None).

Lemma everything_answers query owners instrument c : answers (everything query) owners instrument c.
Proof. by split. Qed.

(** The instrument of a coherent item is that of its component. *)
Lemma component_instrument input account item : coherent input → item ∈ all_items (in_Snapshots input) →
  cid_InstrumentID (component_of input account item) = it_InstrumentID item.
Proof.
  intros Hcoh Hitem. unfold component_of, componentIDForItem. destruct (it_HoldingID item) eqn:E; [done|]. cbn. by rewrite (coh_cash _ Hcoh item).
Qed.

Lemma component_account input account item : cid_AccountID (component_of input account item) = it_AccountID item.
Proof. unfold component_of, componentIDForItem. by destruct (it_HoldingID item). Qed.

(** The order of the sort on any reading of the map. *)
Lemma universe_any_order input query visited sorted : visited ≡ₚ (map_to_list (componentsByKey input query)).*2 → sorted ≡ₚ visited →
  StronglySorted (λ a b, key_less b a = false) sorted → sorted = universe_components input query.
Proof.
  intros Hv Hp Hs. assert (sorted ≡ₚ universe_components input query) as Hu by (unfold universe_components; by rewrite stable_sort_perm, Hp, Hv).
  apply (sorted_perm_eq (by_key Key String.compare)).
  - intros x y Hx Hy E. assert (NoDup (Key <$> sorted)) as Hn by (rewrite Hu; apply universe_components_NoDup).
    pose proof (index_last_lookup Key sorted x Hn Hx). pose proof (index_last_lookup Key sorted y Hn Hy).
    unfold by_key in E. apply String.compare_eq_iff in E. congruence.
  - clear -Hs. induction Hs as [|x l _ IH Hx]; constructor; [done|]. eapply Forall_impl; [exact Hx|]. intros y H. change (key_less y x = false) in H. unfold in_order. rewrite key_less_cmp in H. intros E. by rewrite E in H.
  - apply stable_sort_sorted; [apply _|apply key_less_cmp].
  - exact Hu.
Qed.

(** Claim C15.  The components of an analysis are those that its query asks for.  Their keys are
    strictly ascending, and the list is the same in whatever order the map of components is read
    and by whatever method it is sorted.  Every component comes from an item of a snapshot whose
    account (its last record) counts in the net worth and is not archived, and it answers every
    filter and the scope; the key of every such item is there.  When the key of a component
    determines the account, holding, instrument and currency of its items, and only holdings have
    an instrument, a query selects from the components of the whole household exactly those that
    answer it. *)
Theorem universe_components_correct input query :
  StronglySorted (λ a b, String.ltb (Key a) (Key b) = true) (universe_components input query) ∧
  (∀ visited sorted, visited ≡ₚ (map_to_list (componentsByKey input query)).*2 → sorted ≡ₚ visited →
     StronglySorted (λ a b, key_less b a = false) sorted → sorted = universe_components input query) ∧
  (∀ c, c ∈ universe_components input query →
     ∃ snapshot item, snapshot ∈ in_Snapshots input ∧ item ∈ sn_Items snapshot ∧ contributes input query item c) ∧
  (∀ snapshot item c, snapshot ∈ in_Snapshots input → item ∈ sn_Items snapshot → contributes input query item c →
     Key c ∈ Key <$> universe_components input query) ∧
  (coherent input → ∀ c, c ∈ universe_components input query ↔
     c ∈ universe_components input (everything query) ∧
     ∃ account owners, last_with (λ r : Account * Ownership, ID r.1) (in_Accounts input) (cid_AccountID c) (account, owners) ∧
       answers query owners (cid_InstrumentID c) c).
Proof.
  split; [|split; [by apply universe_any_order|split; [|split]]].
  - apply sorted_distinct_keys; [|apply universe_components_NoDup]. apply stable_sort_sorted; [apply _|apply key_less_cmp].
  - intros c (item & (s & Hs & Hi)%elem_all_items & Hc)%universe_from. by exists s, item.
  - intros s item c Hs Hi Hc. destruct (universe_has input query item c) as (x & Hx & <-); [apply elem_all_items; by exists s|done|].
    by apply list_elem_of_fmap_2.
  - intros Hcoh c. rewrite !universe_contributes by done. split.
    + intros (item & Hitem & account & owners & Hr & H1 & H2 & -> & Ha). split.
      * exists item. split; [done|]. exists account, owners. split_and!; [done..|apply everything_answers].
      * exists account, owners. rewrite component_account, component_instrument by done. done.
    + intros ((item & Hitem & account & owners & Hr & H1 & H2 & -> & _) & account' & owners' & Hr' & Ha). exists item. split; [done|].
      rewrite component_account in Hr'. rewrite component_instrument in Ha by done.
      pose proof (last_with_unique _ _ _ _ _ Hr Hr') as [= <- <-]. by exists account, owners.
Qed.

(** ** The analysis of a period *)

Section Analysis.
Variables (fields : list (string * string) → list (string * string)) (visit : gmap HoldingID Holding → list Holding)
  (returns : gmap ReturnComponent SignedMoney → list SignedMoney) (input : storedInputs) (query : ScopedQuery) (investmentOnly : bool).

(** The components of the rows of an analysis over some of the snapshots. *)
Definition row_components (snapshots : list DailyValuationSnapshot) : list ComponentID :=
  let all := universe_components (with_snapshots input snapshots) query in
  if investmentOnly then investmentComponents all (IncludeCash (sq_query query)) (accountsByID input) else all.

Lemma row_components_NoDup snapshots : NoDup (Key <$> row_components snapshots).
Proof.
  unfold row_components. pose proof (universe_components_NoDup (with_snapshots input snapshots) query) as H.
  destruct investmentOnly; [|done]. by apply sublist_keys.
Qed.

Lemma compute_inv rows result :
  computeAnalysisForValuationUniverse fields visit returns input query investmentOnly = Ok (rows, result) →
  ∃ location start totalDays snapshots n u,
    LoadLocation (in_Timezone input) = Some location ∧
    analysisDateRange (q_From (sq_query query)) (q_To (sq_query query)) = Ok (start, totalDays) ∧
    snapshotsInAnalysisWindow (in_Snapshots input) (q_From (sq_query query)) (q_To (sq_query query)) location = Ok snapshots ∧
    accounts_of (ru_class u) = accountsByID input ∧
    period_days visit location start n (in_Activities input) u (row_components snapshots) totalDays = Ok rows.
Proof.
  unfold computeAnalysisForValuationUniverse. intros H. apply bind_Ok in H as ([] & Hq & H). apply bind_Ok in H as ([start totalDays] & Hrange & H).
  destruct (in_Household input) as [household|] eqn:Eh; [|done]. destruct (bool_decide (in_Timezone input = _)); [done|].
  destruct (LoadLocation _) as [location|]; [|done]. apply bind_Ok in H as (snapshots & Hs & H). apply bind_Ok in H as (u & Hu & H).
  unfold resolveAnalysisUniverse in Hu. cbn [with_snapshots in_Household] in Hu. rewrite Eh in Hu.
  apply bind_Ok in Hu as (x & _ & [= <-]). destruct (_ && _); [done|]. apply bind_Ok in H as (rows' & Hrows & H).
  apply bind_Ok in H as (result' & _ & [= <- <-]). eexists location, start, totalDays, snapshots, _, _. do 3 (split; [done|]). split; [|exact Hrows]. done.
Qed.

Lemma no_empty_account : (∀ record, record ∈ in_Accounts input → ID record.1 ≠ ""%string) → accountsByID input !! ""%string = None.
Proof.
  intros H. destruct (accountsByID input !! ""%string) as [a|] eqn:E; [|done]. apply index_last_Some in E as [Ha He].
  apply list_elem_of_fmap in Ha as (record & -> & Hr). by apply H in Hr.
Qed.

(** The analysis of a period has one row for every date of its range and every component, in the order
    of the dates and, within a date, of the keys. *)
Theorem analysis_rows rows result :
  computeAnalysisForValuationUniverse fields visit returns input query investmentOnly = Ok (rows, result) →
  ∃ location start totalDays snapshots,
    LoadLocation (in_Timezone input) = Some location ∧
    analysisDateRange (q_From (sq_query query)) (q_To (sq_query query)) = Ok (start, totalDays) ∧
    snapshotsInAnalysisWindow (in_Snapshots input) (q_From (sq_query query)) (q_To (sq_query query)) location = Ok snapshots ∧
    row_place <$> rows = seq 0 (Z.to_nat totalDays) ≫= λ i, date_rows (row_components snapshots) (format_days (start + Z.of_nat i)).
Proof.
  intros (location & start & totalDays & snapshots & n & u & Hl & Hrange & Hs & _ & Hrows)%compute_inv.
  exists location, start, totalDays, snapshots. split; [done|]. split; [done|]. split; [done|]. unfold period_days in Hrows.
  apply bind_Ok in Hrows as (items & _ & Hrows). apply bind_Ok in Hrows as (st & Hst & [= <-]). by eapply loop_places.
Qed.

(** Claim C14.  A period adds up.  If every row of a component is complete on every date of the period that exists in
    the time zone (a date the zone skips has no complete row), then there are exact values of the
    component, one before the first day and one after each, such that every day opens with the
    value that the day before closed with and shows both rounded half to even at the fourth digit;
    and what the buckets and the neutral effects of all days account for is the change from the
    first value to the last, up to the tolerances of the days. *)
Theorem period_adds_up rows result location start totalDays c first last_ :
  computeAnalysisForValuationUniverse fields visit returns input query investmentOnly = Ok (rows, result) →
  LoadLocation (in_Timezone input) = Some location →
  analysisDateRange (q_From (sq_query query)) (q_To (sq_query query)) = Ok (start, totalDays) →
  (∀ record, record ∈ in_Accounts input → ID record.1 ≠ ""%string) →
  c ∈ row_component <$> rows →
  (∀ i, (i < Z.to_nat totalDays)%nat → date_exists location start i → date_complete start c rows i) →
  head (complete_rows c rows) = Some first → last (complete_rows c rows) = Some last_ →
  ∃ v0 v t, day_chain v0 (complete_rows c rows) v t ∧
    sm_units (dr_beginning first) = round_half_even (v0 * p10 4) ∧ sm_units (dr_ending last_) = round_half_even (v * p10 4) ∧
    (Qabs (v - v0 - sumQ accounted (complete_rows c rows)) <= t)%Q.
Proof.
  intros (location' & start' & totalDays' & snapshots & n & u & Hl & Hrange & _ & Hu & Hrows)%compute_inv Hl' Hrange' Hnames Hc Hall Hfirst Hlast.
  rewrite Hl in Hl'. injection Hl' as <-. rewrite Hrange in Hrange'. injection Hrange' as <- <-.
  unfold period_days in Hrows. apply bind_Ok in Hrows as (items & Hitems & Hrows). apply bind_Ok in Hrows as (st & Hst & [= <-]).
  apply no_empty_account in Hnames. rewrite <-Hu in Hnames.
  assert (c ∈ row_components snapshots) as Hc'.
  { apply list_elem_of_fmap in Hc as (r & -> & Hr). apply (list_elem_of_fmap_2 row_place) in Hr. rewrite (loop_places _ _ _ _ _ _ _ _ _ _ Hst) in Hr.
    apply list_elem_of_bind in Hr as (i & Hr & _). apply list_elem_of_fmap in Hr as (x & E & Hx). by injection E as _ ->. }
  pose proof (row_components_NoDup snapshots) as Hkeys.
  apply (loop_chained _ _ _ _ _ _ _ c) in Hst as [_ Hchain]; [|done..|by eapply first_items_good].
  destruct Hchain as [E|(v0 & v & t & Hchain & _)]; [|by rewrite E in Hfirst|].
  { intros i Hi. apply Hall. apply elem_of_seq in Hi. lia. }
  exists v0, v, t. split; [done|]. split; [by eapply chain_opens|]. split; [by eapply chain_closes|]. by apply chain_total.
Qed.
End Analysis.
End Laws.
