(* ===== verification/AnalysisSamples.v ===== *)
(** * Concrete analyses

    The theorems on the returns of a period, on bridges, classification, component days and whole
    periods, applied to small households: two funds over two days; a balance in euros and a fund
    that is sold in part; a purchase and an exchange, classified; two days that do and do not add
    up; and three days of a cash account. *)

From S2P Require Export AnalysisPeriodLaws AnalysisReturnLaws AnalysisBridgeLaws AnalysisClassifyLaws.
From S2P Require Import Portfolio ChangeState ChangeApply Change Accounts Fx DecimalModel ChangeSamples.
From Stdlib Require Import String Ascii.

#[global] Open Scope Z_scope.

(** ** Returns of two days

    The theorems on returns applied to two funds and a cash balance over two days in UTC: a fund
    that gains two percent a day, one that is bought at noon of the second day, and cash. *)

Module AnalysisSample.
Definition signed (u : Z) : SignedMoney := mkSignedMoney (mkDec u (-2)) "USD".
Definition unset_money : SignedMoney := mkSignedMoney dUnset "".
Definition fund (holding instrument : string) : ComponentID := mkComponentID "broker" (Some holding) (Some instrument) "USD" "fund" false.
Definition cash : ComponentID := mkComponentID "bank" None None "USD" "cash" true.

Definition quiet (date : string) (c : ComponentID) (beginning returned : Z) : ComponentDay :=
  mkComponentDay date c [] [] (signed beginning) (Some (signed returned)) None CompletenessOK.
Definition may (day : Z) : string := format_days (days_of_civil 2026 5 day).

(** 2% on the first fund on both days; the cash balance has no return. *)
Definition calm : list ComponentDay :=
  [quiet "2026-05-01" (fund "h1" "i1") 10000 200; quiet "2026-05-01" cash 5000 0;
   quiet "2026-05-02" (fund "h1" "i1") 10200 204; quiet "2026-05-02" (fund "h2" "i2") 0 0].
Definition query : AnalysisQuery := mkQuery "2026-05-01" "2026-05-02" ValuationBase true.
Definition period (days : list ComponentDay) : PeriodAnalysisResult :=
  mkPeriod query "UTC" days [] (mkRateCoverage 0 2) None None None CompletenessUnavailable.

Lemma all_dated days : forallb (λ day, negb (bool_decide (cd_Date day = ""%string))) days = true → dated (period days) days.
Proof. intros H day Hd _. rewrite forallb_forall in H. apply list_elem_of_In, H in Hd. by prop_bool. Qed.

Definition shown_rows (r : Result (list ReturnGroup)) : list (string * string * option string * Z) :=
  match r with Ok rows => (λ g, (rg_Key g, dString (rg_ReturnAmount g), dString <$> rg_ReturnRate g, RatedDays (rg_Coverage g))) <$> rows | Fail _ => [] end.

(** The rate of the first fund is 1.02 times 1.02 less one. *)
Example fast_rows : shown_rows (foldReturnGroupsChronologically (period calm) GroupByInstrument) =
  [("cash:USD", "0", Some "0", 1); ("i1", "4.04", Some "0.0404", 2); ("i2", "0", None, 0)]%string.
Proof. vm_compute. reflexivity. Qed.

Lemma FoldReturnGroups_agrees_witness :
  canFoldReturnGroupsChronologically (period calm) = true ∧
  ∃ fast slow, foldReturnGroupsChronologically (period calm) GroupByInstrument = Ok fast ∧
    foldReturnGroupsByDate (period calm) GroupByInstrument = Ok slow ∧ Forall2 same_row fast slow.
Proof.
  split; [vm_compute; reflexivity|].
  destruct (is_ok_some (foldReturnGroupsChronologically (period calm) GroupByInstrument)) as [fast E1]; [vm_compute; reflexivity|].
  destruct (is_ok_some (foldReturnGroupsByDate (period calm) GroupByInstrument)) as [slow E2]; [vm_compute; reflexivity|].
  pose proof (FoldReturnGroups_agrees (period calm) GroupByInstrument (all_dated calm ltac:(vm_compute; reflexivity))
    ltac:(vm_compute; reflexivity)) as H. rewrite E1, E2 in H.
  exists fast, slow. exact (conj E1 (conj E2 H)).
Defined.

(** *** A purchase at noon *)

Definition noon_of (day : Z) : Time := utc_midnight (days_of_civil 2026 5 day) + 12 * Hour.
Definition bought_flow : DietzCapitalFlow := mkFlow (signed 10000) (noon_of 2).
Definition bought (flow : list DietzCapitalFlow) : list ComponentDay :=
  [quiet "2026-05-02" (fund "h1" "i1") 10200 204;
   mkComponentDay "2026-05-02" (fund "h2" "i2") flow [mkAttributed None (Some bought_flow)] (signed 0) (Some (signed 50)) None CompletenessOK;
   quiet "2026-05-01" (fund "h1" "i1") 10000 200; quiet "2026-05-01" cash 5000 0].

(** Half of the purchase counts as capital of its day: a return of 0.50 on 50.00. *)
Example slow_rows : shown_rows (FoldReturnGroups (period (bought [])) GroupByInstrument) =
  [("cash:USD", "0", Some "0", 1); ("i1", "4.04", Some "0.0404", 2); ("i2", "0.5", Some "0.01", 1)]%string.
Proof. vm_compute. reflexivity. Qed.

Lemma FoldReturnGroups_correct_witness : ∃ rows, FoldReturnGroups (period (bought [])) GroupByInstrument = Ok rows ∧
  described (period (bought [])) GroupByInstrument rows ∧ (sumQ (λ row, dval (rg_ReturnAmount row)) rows == 454 # 100)%Q.
Proof.
  destruct (is_ok_some (FoldReturnGroups (period (bought [])) GroupByInstrument)) as [rows E]; [vm_compute; reflexivity|].
  destruct (FoldReturnGroups_correct (period (bought [])) GroupByInstrument rows
    (all_dated (bought []) ltac:(vm_compute; reflexivity)) E) as [H1 H2].
  exists rows. split; [exact E|]. split; [exact H1|]. rewrite H2. vm_compute. reflexivity.
Defined.

Lemma dietzFlowWeight_correct_witness :
  dString (dietzFlowWeight (noon_of 2) (noon_of 2 - 12 * Hour) (noon_of 2 + 12 * Hour)) = "0.5"%string ∧
  (dval (dietzFlowWeight (noon_of 2 + 1) (noon_of 2 - 12 * Hour) (noon_of 2 + 12 * Hour)) <=
   dval (dietzFlowWeight (noon_of 2) (noon_of 2 - 12 * Hour) (noon_of 2 + 12 * Hour)))%Q.
Proof.
  split; [vm_compute; reflexivity|].
  destruct (dietzFlowWeight_correct (noon_of 2 - 12 * Hour) (noon_of 2 + 12 * Hour) (noon_of 2)) as (_ & _ & _ & _ & H);
    [vm_compute; split; [reflexivity|discriminate]|].
  apply H. lia.
Defined.

Definition everything : analysisUniverse := investment_universe [fund "h1" "i1"; fund "h2" "i2"].
Definition finalized : Result PeriodAnalysisResult :=
  finalizeAnalysisReturns (period (bought [bought_flow])) everything "UTC" "USD" query.
Definition shown_days (r : Result PeriodAnalysisResult) : list (string * option string * option string) * option string :=
  match r with
  | Ok r => ((λ d, (dy_Date d, dString <$> AmountExact d, dString <$> dy_Rate d)) <$> DailyReturns r, dString <$> pr_ReturnRate r)
  | Fail _ => ([], None)
  end.

(** 2.54 on 102.00 and half of 100.00 on the second day. *)
Example two_days : shown_days finalized =
  ([("2026-05-01", Some "2", Some "0.02"); ("2026-05-02", Some "2.54", Some "0.0167105263157895")]%string, Some "0.03704473684210529"%string).
Proof. vm_compute. reflexivity. Qed.

Lemma finalizeAnalysisReturns_correct_witness : ∃ r, finalized = Ok r ∧ List.length (DailyReturns r) = 2%nat ∧
  ∃ m, pr_ReturnAmount r = Some m.
Proof.
  destruct (is_ok_some finalized) as [r E]; [vm_compute; reflexivity|]. exists r. split; [exact E|].
  destruct (finalizeAnalysisReturns_correct _ _ _ _ _ r E) as (location & start & n & H1 & H2 & H3 & _ & H5 & _).
  assert (El : location = UTC) by (vm_compute in H1; injection H1 as <-; reflexivity).
  assert (Er : analysisDateRange "2026-05-01" "2026-05-02" = Ok (days_of_civil 2026 5 1, 2)) by (vm_compute; reflexivity).
  cbn [q_From q_To query] in H2. rewrite Er in H2. injection H2 as <- Hn. assert (n = 2%nat) as -> by lia. split; [exact H3|].
  rewrite El in H5. revert H5. match goal with |- (if ?b then _ else _) → _ => assert (b = true) as -> by (vm_compute; reflexivity) end.
  intros (m & Hm & _). exists m. exact Hm.
Defined.
End AnalysisSample.

(** ** The bridges of two positions

    The theorems on bridges applied to a balance in euros that grows at noon while the euro rises,
    and to a fund of which part is sold at noon, in a household that counts in dollars. *)

Module BridgeSample.
#[local] Instance evidence : MetalEvidence := no_evidence.

Lemma some_value {A} (o : option A) d : is_none o = false → o = Some (default d o).
Proof. by destruct o. Qed.

(** A dollar price of the fund, and a rate of the euro in dollars; both in hundredths. *)
Definition input : AnalysisInputs := mkAnalysisInputs "home" "USD" []
  [sample_quote "opening" QuoteSourceProvider 100 5000 "close" "2026-03-02";
   sample_quote "closing" QuoteSourceProvider 106 9000 "close" "2026-03-03"]
  [sample_rate "r1" "EUR" "USD" QuoteSourceProvider 110 5000 "latest" "";
   sample_rate "r2" "EUR" "USD" QuoteSourceProvider 115 7000 "latest" "";
   sample_rate "r3" "EUR" "USD" QuoteSourceProvider 120 9000 "latest" ""].
Definition universe : analysisMaps := indexStampedQuotes (mkMaps ∅ None None) input.

Definition activity (id : string) (kind : ActivityKind) (trade : option TradeDetail) : Activity :=
  mkActivity id "home" kind ReasonPrincipal 7500 "2026-03-03" 7500 None None None None trade None [] [] None.
Definition effect (direction : EffectDirection) (target : EffectTarget) (holding : option HoldingID) (m : option Money) (q : option Quantity)
    : ActivityEffect :=
  mkEffect "e" "a" 1 EffectRolePrincipal direction target ClassificationExternalInflow (Some "bank"%string) holding None m q None.
Definition classified (c : ComponentID) (a : Activity) (e : ActivityEffect) : classifiedAnalysisEffect :=
  mkClassified a e c (Some BucketExternalFlow) dZero true None dZero false dZero false dZero false false None None.

(** *** Cash *)

Definition euros : ComponentID := mkComponentID "bank" None None "EUR" "cash" true.
Definition balance (native : string) (rate : string) : DailyValuationSnapshotItem :=
  mkItem "bank" None None native "EUR" None "" None (Some rate) true None.
Definition payment : classifiedAnalysisEffect :=
  classified euros (activity "a1" ActivityCashIn None) (effect EffectAdded EffectTargetAccountCash None (Some (mkMoney (dInt 50) "EUR")) None).

Definition cash_day : Result holdingBridge :=
  computeCashBridge euros universe input (balance "100" "r1") (balance "150" "r3") 5000 9000 [payment] ValuationBase.

(** A hundred euros gain ten cents each and fifty gain five: 12.5 dollars. *)
Lemma computeCashBridge_explains_witness : ∃ b f, cash_day = Ok b ∧ exactFX b = Some f ∧ (f == 25 # 2)%Q.
Proof.
  pose (b := match cash_day with Ok b => b | Fail _ => empty_bridge true end). pose (f := default 0%Q (exactFX b)).
  assert (cash_day = Ok b) as Hb by (apply ok_value; vm_compute; reflexivity).
  assert (exactFX b = Some f) as Hf by (apply some_value; vm_compute; reflexivity).
  exists b, f. split; [exact Hb|]. split; [exact Hf|].
  destruct (computeCashBridge_explains _ _ _ _ _ _ _ _ _ _ Hb Hf) as (_ & native & Hn & E).
  assert (parse_decimal "100" = Ok match parse_decimal "100" with Ok x => x | Fail _ => dZero end) as Hp
    by (apply ok_value; vm_compute; reflexivity).
  cbn [it_NativeAmount balance] in Hn. rewrite Hp in Hn. injection Hn as <-. cbn zeta in E. rewrite E. vm_compute. reflexivity.
Defined.

(** *** A holding *)

Lemma positive_price (o : option InstrumentQuote) q : o = Some q →
  match o with Some q => dIsPositive (p_value (iq_UnitPrice q)) | None => true end = true → dIsPositive (p_value (iq_UnitPrice q)) = true.
Proof. by intros ->. Qed.

Definition fund : ComponentID := mkComponentID "broker" (Some "h1"%string) (Some "gold-etf"%string) "USD" "fund" false.
Definition position (native quote : string) : DailyValuationSnapshotItem :=
  mkItem "broker" (Some "h1"%string) (Some "gold-etf"%string) native "USD" None "" (Some quote) None true None.
Definition sale : TradeDetail :=
  mkTradeDetail TradeSell "gold-etf" "h1" (mkQuantity (dInt 4)) (mkMoney (dInt 412) "USD") (mkUnitPrice (dInt 103)) None.
Definition sold (target : EffectTarget) : classifiedAnalysisEffect :=
  classified fund (activity "a2" ActivitySell (Some sale)) (effect EffectRemoved target (Some "h1"%string) None (Some (mkQuantity (dInt 4)))).
Definition holding_day : Result holdingBridge :=
  computeHoldingBridge fund universe input ValuationBase (position "1000" "opening") (position "636" "closing") 5000 9000
    [sold EffectTargetHoldingQuantity; sold EffectTargetAccountCash].

(** Ten shares gain six dollars each, of which the four that are sold keep three: 48 dollars, though the
    sale has two effects. *)
Lemma computeHoldingBridge_explains_witness : ∃ b p f,
  holding_day = Ok b ∧ exactPrice b = Some p ∧ exactFX b = Some f ∧ (p + f == 48)%Q ∧
  (Qabs (p + f - (636 - 1000 + 412)) <= 106 * (p10 (-8) + half_place) + 100 * half_place)%Q.
Proof.
  pose (b := match holding_day with Ok b => b | Fail _ => empty_bridge true end). pose (p := default 0%Q (exactPrice b)). pose (f := default 0%Q (exactFX b)).
  assert (holding_day = Ok b) as Hb by (apply ok_value; vm_compute; reflexivity).
  assert (exactPrice b = Some p) as Hp by (apply some_value; vm_compute; reflexivity).
  assert (exactFX b = Some f) as Hf by (apply some_value; vm_compute; reflexivity).
  assert (br_partial b = false) as Hpart by (vm_compute; reflexivity).
  exists b, p, f. split; [exact Hb|]. split; [exact Hp|]. split; [exact Hf|]. split; [vm_compute; reflexivity|].
  destruct (computeHoldingBridge_explains fund universe input ValuationBase (or_introl eq_refl) (position "1000" "opening") (position "636" "closing")
    5000 9000 [sold EffectTargetHoldingQuantity; sold EffectTargetAccountCash] b p f) as (_ & opening & closing & Ho & Hc & E); [| |exact Hb|done..|].
  - intros q [H|H]; apply dIsPositive_val.
    + exact (positive_price _ _ H ltac:(vm_compute; reflexivity)).
    + exact (positive_price _ _ H ltac:(vm_compute; reflexivity)).
  - by repeat constructor.
  - cbn [it_NativeAmount position] in Ho, Hc. rewrite (ok_value (parse_decimal "1000") dZero) in Ho by (vm_compute; reflexivity).
    rewrite (ok_value (parse_decimal "636") dZero) in Hc by (vm_compute; reflexivity). injection Ho as <-. injection Hc as <-. cbn zeta in E.
    refine (Qle_trans _ _ _ _ (Qle_trans _ _ _ E _)); vm_compute; discriminate.
Defined.
End BridgeSample.

(** ** A trade and an exchange, classified

    The theorems on classification applied to the purchase of [ChangeSamples] in the household that
    recorded it, and to an exchange of euros at a rate that is not the one of the day. *)

Module ClassifySample.
#[local] Existing Instance BridgeSample.evidence.

Definition broker : Account :=
  mkAccount "broker" "home" None None "Broker" TypeBrokerage RoleAsset TrackingHoldings "USD" None None true true true None None 0 0 0 None.
Definition shares : Holding := mkHolding "h1" "broker" "fund" (qty 1000) None 0 0 0 None.
Definition instrument : Instrument :=
  mkInstrument "fund" "home" "A fund" "FND" InstrumentETF "" "share" "USD" None None None None None None 0 QuoteSourceManual None None 1 None 0 0 None.
Definition position : ComponentID := mkComponentID "broker" (Some "h1"%string) (Some "fund"%string) "USD" "etf" false.
Definition cash (cur : CurrencyCode) : ComponentID := mkComponentID "broker" None None cur "cash" true.

Definition universe : classUniverse :=
  mkClassUniverse (mkMaps {["broker" := broker]} None None) (investment_universe [position]) ∅ {["h1" := shares]} {["fund" := instrument]}
    {[Key position; Key (cash "USD"); Key (cash "EUR")]}.
Definition day : DailyValuationSnapshot := mkDailySnapshot "2024-06-02" sample_now true [].
Definition inputs : AnalysisInputs := mkAnalysisInputs "home" "USD" [] [] [].

(** *** The purchase *)

Definition purchase : Result ChangePreview := buildTrade sample_id [] sample_state sample_buy.
Definition recorded : ChangePreview :=
  match purchase with Ok p => p | Fail _ => mkPreview (mkActivity "" "" ActivityBuy ReasonEmpty 0 "" 0 None None None None None None [] [] None) [] [] None None end.
Definition classify : Result (list classifiedAnalysisEffect) :=
  classifyActivity (λ m, (map_to_list m).*2) universe inputs ValuationBase (mkAnalysed (pv_Activity recorded) None) day None.
Definition found : list classifiedAnalysisEffect := match classify with Ok l => l | Fail _ => [] end.

Definition shown (l : list classifiedAnalysisEffect) : list (string * option string * string * bool) :=
  (λ e, (Key (ce_component e), AttributionBucket_String <$> ce_bucket e, dString (ce_amount e), neutral e)) <$> l.

(** A hundred dollars of shares for a hundred dollars of cash, and a fee that the shares also bear as a return. *)
Example shown_purchase : shown found =
  [("broker/holding:h1/instrument:fund", None, "100", true); ("broker/cash/currency:USD", None, "-100", true);
   ("broker/cash/currency:USD", Some "fee", "-0.5", false); ("broker/holding:h1/instrument:fund", None, "0", false)]%string.
Proof. vm_compute. reflexivity. Qed.

Definition placed (e : ActivityEffect) : bool :=
  match componentForEffect e universe with Some c => componentInUniverse universe c | None => false end.
Lemma all_placed effects : forallb placed effects = true →
  ∀ e, e ∈ effects → ∃ c, componentForEffect e universe = Some c ∧ componentInUniverse universe c = true.
Proof.
  rewrite forallb_forall. intros H e He. apply list_elem_of_In, H in He. unfold placed in He.
  destruct (componentForEffect e universe) as [c|]; [by exists c|done].
Qed.

Lemma trade_is_neutral_witness : (∀ k, k ≠ BucketFee → (sumQ (amount_in k) found == 0)%Q) ∧ (sumQ (amount_in BucketFee) found == - (1 # 2))%Q.
Proof.
  assert (purchase = Ok recorded) as Hp by (apply ok_value; vm_compute; reflexivity).
  assert (classify = Ok found) as Hc by (apply ok_value; vm_compute; reflexivity).
  assert (all_inside universe (pv_Activity recorded)) as Hall by (refine (all_placed _ _); vm_compute; reflexivity).
  unfold purchase in Hp. unfold classify in Hc.
  destruct (trade_is_neutral _ _ _ _ _ _ _ _ _ _ _ _ Hp Hall Hc) as (x & y & rest & _ & _ & _ & _ & _ & _ & _ & Hk).
  split; [exact Hk|]. vm_compute. reflexivity.
Defined.

(** *** The exchange *)

(** A hundred euros for a hundred and twenty dollars, when a euro is worth 1.15. *)
Definition leg (direction : EffectDirection) (cur : CurrencyCode) (native : Z) (dollars : Z) : classifiedAnalysisEffect :=
  mkClassified (BridgeSample.activity "a3" ActivityFXConversion None)
    (mkEffect "e" "a3" 1 EffectRoleAmount direction EffectTargetAccountCash ClassificationInternalTransfer (Some "broker"%string) None None
       (Some (mkMoney (dInt native) cur)) None None)
    (cash cur) None (dInt dollars) true None dUnset false dUnset false dUnset false true None None.
Definition exchange : list classifiedAnalysisEffect := [leg EffectRemoved "EUR" 100 (-115); leg EffectAdded "USD" 120 120].
Definition attributed : list classifiedAnalysisEffect :=
  attributeInternalFXDifference universe (BridgeSample.activity "a3" ActivityFXConversion None) exchange.

Example shown_exchange : shown attributed =
  [("broker/cash/currency:EUR", None, "-115", true); ("broker/cash/currency:USD", None, "115", true);
   ("broker/cash/currency:USD", Some "fx_conversion_spread", "5", false)]%string.
Proof. vm_compute. reflexivity. Qed.

Lemma internal_exchange_neutral_witness :
  (sumQ leg_amount attributed == 0)%Q ∧ (sumQ known_amount attributed == 5)%Q ∧ (sumQ (amount_in BucketFXConversionSpread) attributed == 5)%Q.
Proof.
  destruct (internal_exchange_neutral universe (BridgeSample.activity "a3" ActivityFXConversion None) exchange) as (H0 & H1 & Hk);
    [vm_compute; reflexivity..| |].
  - intros e [->|[->|He]%elem_of_cons]%elem_of_cons _; [reflexivity..|by apply elem_of_nil in He].
  - split; [exact H0|]. split; [eapply Qeq_trans; [exact H1|]; vm_compute; reflexivity|].
    eapply Qeq_trans; [exact (Hk BucketFXConversionSpread)|]. vm_compute. reflexivity.
Defined.

(** *** A transfer out of an unstamped position *)

(** Ten shares, valued at a hundred dollars each when the day begins; the price rises to a hundred and six. *)
Definition start (quote : option string) : DailyValuationSnapshotItem :=
  mkItem "broker" (Some "h1"%string) (Some "gold-etf"%string) "1000" "USD" None "1000" quote None true None.
Definition moved (quote : option string) : option string :=
  match portion_of universe BridgeSample.input ValuationBase (start quote) position (mkQuantity (dInt 4)) 9000 with
  | Ok amt => (λ d, dString (dRound d 2)) <$> amt
  | Fail _ => None
  end.

(** Four of them carry four hundred dollars, if the item names its quote; if not, the code divides the opening value
    by the closing price, and they carry four hundred and twenty-four. *)
Example unstamped_removal_misvalued : moved (Some "opening"%string) = Some "400"%string ∧ moved None = Some "424"%string.
Proof. vm_compute. done. Qed.
End ClassifySample.

(** ** Two days of a household that counts in dollars

    The theorems on component days applied to the balance in euros of [BridgeSample]: a day on
    which the payment is recorded, and one on which it is not. *)

Module DaySample.
Import BridgeSample.
#[local] Existing Instance evidence.
#[local] Instance zones : TimeZones := {| LoadLocation _ := None |}.

Definition universe : classUniverse := mkClassUniverse BridgeSample.universe (investment_universe [euros]) ∅ ∅ ∅ {[Key euros]}.
Definition inputs : dayInputs :=
  mkDayInputs input [] [] [] "UTC" (mkQuery "2026-03-03" "2026-03-03" ValuationBase true) (λ m, (map_to_list m).*2).

Definition worth (native exact rate : string) : DailyValuationSnapshotItem :=
  mkItem "bank" None None native "EUR" None exact None (Some rate) true None.
Definition opening : DailyValuationSnapshotItem := worth "100" "110" "r1".
Definition closing : DailyValuationSnapshotItem := worth "150" "180" "r3".
Definition snapshot (date : string) (cutoff : Time) (item : DailyValuationSnapshotItem) : DailyValuationSnapshot :=
  mkDailySnapshot date cutoff true [item].
Definition paid (dollars : Z) : classifiedAnalysisEffect :=
  mkClassified (ce_activity payment) (ce_effect payment) euros (Some BucketExternalFlow) (dNew dollars (-2)) true None dZero false dZero false
    dZero false false None None.
Definition day (effects : list classifiedAnalysisEffect) : Result dayResult :=
  buildComponentDay inputs universe euros "2026-03-03" opening closing (snapshot "2026-03-02" 5000 opening) (snapshot "2026-03-03" 9000 closing)
    true true effects.

Definition shown (r : Result dayResult) : list (string * string) * Completeness :=
  match r with
  | Ok r => ((λ kd, (AttributionBucket_String kd.1, dString kd.2)) <$> map_to_list (AssetBucketExact (dr_state r)), dr_status r)
  | Fail _ => ([], CompletenessUnavailable)
  end.

(** Fifty euros at 1.15 dollars and the rise of the euro are the seventy dollars of the day; without the payment the
    sixty dollars it is worth at the close are left over. *)
Example recorded : shown (day [paid 5750]) = ([("external_flow", "57.5"); ("fx_impact", "12.5")], CompletenessOK)%string.
Proof. vm_compute. reflexivity. Qed.
Example unrecorded : shown (day []) = ([("fx_impact", "10"); ("residual", "60")], CompletenessPartial)%string.
Proof. vm_compute. reflexivity. Qed.

Definition known (r : Result (option Decimal)) : Decimal := match r with Ok (Some d) => d | _ => dZero end.
Definition complete_day : dayResult := match day [paid 5750] with Ok r => r | Fail _ => blankDay CompletenessUnavailable end.
Definition is_complete (r : dayResult) : bool := bool_decide (dr_status r = CompletenessOK).

Lemma buildComponentDay_reconciles_witness :
  dr_status complete_day = CompletenessOK ∧ dr_residual complete_day = None ∧
  (exact_in (dr_state complete_day) BucketExternalFlow == 115 # 2)%Q ∧
  (Qabs (180 - 110 - explained complete_day [paid 5750]) <= (2 # 100) + 2 * half_digit)%Q.
Proof.
  assert (day [paid 5750] = Ok complete_day) as H by (apply ok_value; vm_compute; reflexivity).
  assert (dr_status complete_day = CompletenessOK) as Hs by (apply (bool_decide_eq_true (dr_status complete_day = CompletenessOK)); vm_compute; reflexivity).
  pose proof H as Hbuild. unfold day in Hbuild. clear H.
  pose proof (buildComponentDay_reconciles _ _ _ _ _ _ _ _ _ _ _ _ Hbuild (or_introl Hs)) as Hday.
  rewrite settle_present in Hday by reflexivity. cbn [se_previous se_current] in Hday.
  destruct Hday as (_ & _ & begin & ending & Hb & He & [Hbuckets Hchange _ Hcomplete]).
  assert (begin = known (value_of inputs universe euros opening)) as -> by (unfold known; by rewrite Hb).
  assert (ending = known (value_of inputs universe euros closing)) as -> by (unfold known; by rewrite He).
  specialize (Hcomplete Hs). rewrite Hcomplete in Hchange. split; [exact Hs|]. split; [exact Hcomplete|]. split.
  - assert (BucketExternalFlow ∉ [BucketPriceChange; BucketFXImpact; BucketResidual]) as Hne by (clear; set_solver).
    eapply Qeq_trans; [exact (Hbuckets _ Hne)|]. vm_compute. reflexivity.
  - assert (dval (known (value_of inputs universe euros closing)) == 180)%Q as E1 by (vm_compute; reflexivity).
    assert (dval (known (value_of inputs universe euros opening)) == 110)%Q as E2 by (vm_compute; reflexivity).
    rewrite E1, E2 in Hchange. eapply Qle_trans; [exact Hchange|]. vm_compute. discriminate.
Defined.
End DaySample.

(** ** Three days of a cash account

    The theorems on periods applied to an account that earns fifty dollars on the first day and
    spends thirty on the third. *)

Module PeriodSample.
Import ClassifySample.
#[local] Existing Instance BridgeSample.evidence.

Definition day_number (d : Z) : Z := days_of_civil 2026 3 d.
Definition date (d : Z) : string := format_days (day_number d).
Definition noon (d : Z) : Time := utc_midnight (day_number d) + 12 * Hour.
Definition balance (amt : string) : DailyValuationSnapshotItem := mkItem "broker" None None amt "USD" None amt None None true None.
Definition closing (d : Z) (amt : string) : DailyValuationSnapshot :=
  mkDailySnapshot (date d) (utc_midnight (day_number (d + 1)) - Millisecond) true [balance amt].

Definition moved (id : string) (d : Z) (kind : ActivityKind) (reason : ActivityReason) (direction : EffectDirection)
    (class : ActivityClassification) (dollars : Z) : analysedActivity :=
  mkAnalysed (mkActivity id "home" kind reason (noon d) (date d) (noon d) None None None None None None []
    [mkEffect "e" id 1 EffectRoleAmount direction EffectTargetAccountCash class (Some "broker"%string) None None (Some (mkMoney (dInt dollars) "USD")) None None]
    None) None.

Definition home : Household := mkHousehold "home" "Home" "USD" 0 0.
Definition stored : storedInputs :=
  mkStored "UTC" (Some home) [(broker, [])] [] [] [] [closing 1 "100"; closing 2 "150"; closing 3 "150"; closing 4 "120"]
    [moved "earned" 2 ActivityCashIn ReasonIncome EffectAdded ClassificationExternalInflow 50;
     moved "spent" 4 ActivityCashOut ReasonExpense EffectRemoved ClassificationExternalOutflow 30] [] [].
Definition query : ScopedQuery :=
  mkScopedQuery (mkQuery (date 2) (date 4) ValuationBase true) (mkScope ScopeHousehold "") "investment" (mkFilters None None "" None None).

Definition analysis : Result (list dayRow * PeriodAnalysisResult) :=
  computeAnalysisForValuationUniverse id (λ m, (map_to_list m).*2) (λ m, (map_to_list m).*2) stored query false.
Definition nothing : list dayRow * PeriodAnalysisResult :=
  ([], mkPeriod (sq_query query) "" [] [] (mkRateCoverage 0 0) None None None CompletenessUnavailable).
Definition computed : list dayRow * PeriodAnalysisResult := match analysis with Ok p => p | Fail _ => nothing end.
Definition found : list dayRow := computed.1.
Definition result : PeriodAnalysisResult := computed.2.

Definition shown_row (r : dayRow) : string * string * list (string * string) * Completeness :=
  (row_date r, Key (row_component r),
   (λ kd, (AttributionBucket_String kd.1, dString kd.2)) <$> map_to_list (AssetBucketExact (dr_state (row_day r))), dr_status (row_day r)).

Example shown_period : shown_row <$> found =
  [("2026-03-02", "broker/cash/currency:USD", [("income", "50")], CompletenessOK);
   ("2026-03-03", "broker/cash/currency:USD", [], CompletenessOK);
   ("2026-03-04", "broker/cash/currency:USD", [("spending", "-30")], CompletenessOK)]%string.
Proof. vm_compute. reflexivity. Qed.
Lemma analysis_computed : analysis = Ok computed.
Proof. unfold computed. apply ok_value. vm_compute. reflexivity. Qed.
Lemma analysis_found : analysis = Ok (found, result).
Proof. exact (eq_trans analysis_computed (f_equal Ok (surjective_pairing computed))). Qed.

Lemma range_found : analysisDateRange (q_From (sq_query query)) (q_To (sq_query query)) = Ok (day_number 2, 3).
Proof. vm_compute. reflexivity. Qed.

Lemma analysis_rows_witness : row_place <$> found = [(date 2, cash "USD"); (date 3, cash "USD"); (date 4, cash "USD")].
Proof.
  pose proof analysis_found as H. unfold analysis in H.
  destruct (analysis_rows _ _ _ _ _ _ _ _ H) as (location & start & totalDays & snapshots & Hl & Hrange & Hs & E).
  rewrite E. clear E. rewrite range_found in Hrange. injection Hrange as <- <-.
  assert (location = UTC) as -> by (by injection Hl).
  assert (match snapshotsInAnalysisWindow (in_Snapshots stored) (q_From (sq_query query)) (q_To (sq_query query)) UTC with
    | Ok s => seq 0 (Z.to_nat 3) ≫= λ i, date_rows (row_components stored query false s) (format_days (day_number 2 + Z.of_nat i))
    | Fail _ => []
    end = [(date 2, cash "USD"); (date 3, cash "USD"); (date 4, cash "USD")]) as Hw by (vm_compute; reflexivity).
  rewrite Hs in Hw. exact Hw.
Defined.

(** The account is worth a hundred dollars at first and a hundred and twenty at last, of which the days explain twenty. *)
Lemma period_adds_up_witness : ∃ v0 v t, day_chain v0 (complete_rows (cash "USD") found) v t ∧
  round_half_even (v0 * p10 4) = 1000000 ∧ round_half_even (v * p10 4) = 1200000 ∧ (Qabs (v - v0 - 20) <= t)%Q.
Proof.
  set (days := complete_rows (cash "USD") found).
  destruct (head days) as [first|] eqn:Hfirst; [|exfalso; apply (f_equal is_none) in Hfirst; revert Hfirst; vm_compute; discriminate].
  destruct (last days) as [last_|] eqn:Hlast; [|exfalso; apply (f_equal is_none) in Hlast; revert Hlast; vm_compute; discriminate].
  pose proof analysis_found as H. unfold analysis in H.
  destruct (period_adds_up _ _ _ _ _ _ _ _ UTC (day_number 2) 3 (cash "USD") first last_ H) as (v0 & v & t & Hchain & Hopen & Hclose & Hsum).
  - reflexivity.
  - exact range_found.
  - intros record ->%list_elem_of_singleton. discriminate.
  - assert (row_component <$> found = [cash "USD"; cash "USD"; cash "USD"]) as -> by (vm_compute; reflexivity). by left.
  - assert (forallb complete_row found = true) as Hall by (vm_compute; reflexivity). rewrite forallb_forall in Hall.
    intros i _ _ r Hr _ _. exact (Hall r (proj1 (list_elem_of_In _ _) Hr)).
  - exact Hfirst.
  - exact Hlast.
  - exists v0, v, t. split; [exact Hchain|].
    assert (option_map (λ r, sm_units (dr_beginning r)) (head days) = Some 1000000) as Hf by (vm_compute; reflexivity).
    assert (option_map (λ r, sm_units (dr_ending r)) (last days) = Some 1200000) as Hk by (vm_compute; reflexivity).
    rewrite Hfirst in Hf. rewrite Hlast in Hk. injection Hf as Hf. injection Hk as Hk.
    split; [exact (eq_trans (eq_sym Hopen) Hf)|]. split; [exact (eq_trans (eq_sym Hclose) Hk)|].
    assert (sumQ accounted days == 20)%Q as E by (vm_compute; reflexivity). unfold days in E. rewrite E in Hsum. exact Hsum.
Defined.

(** ** What a query selects

    The broker holds a fund in dollars, dollars and euros; another account is archived. *)

Definition closed_account : Account :=
  mkAccount "old" "home" None None "Old" TypeBrokerage RoleAsset TrackingHoldings "USD" None None true true true None None 0 0 0 (Some (noon 1)).
Definition fund_item : DailyValuationSnapshotItem := mkItem "broker" (Some "h1"%string) (Some "fund"%string) "100" "USD" None "100" None None true None.
Definition euro_item : DailyValuationSnapshotItem := mkItem "broker" None None "50" "EUR" None "55" None None true None.
Definition old_item : DailyValuationSnapshotItem := mkItem "old" None None "7" "EUR" None "8" None None true None.
Definition mixed_items : list DailyValuationSnapshotItem := [fund_item; balance "100"; euro_item; old_item].
Definition mixed : storedInputs :=
  mkStored "UTC" (Some home) [(broker, []); (closed_account, [])] [instrument] [] [] [mkDailySnapshot (date 1) 0 true mixed_items] [] [] [].
Definition asks (scope : AnalysisScope) (filters : AnalysisFilters) : ScopedQuery := mkScopedQuery (sq_query query) scope "investment" filters.
Definition all_of_it : AnalysisScope := mkScope ScopeHousehold "".
Definition in_euros : ScopedQuery := asks all_of_it (mkFilters None (Some "EUR"%string) "" None None).
Definition selected (q : ScopedQuery) : list string := Key <$> universe_components mixed q.

Example selected_keys :
  selected (everything in_euros) = ["broker/cash/currency:EUR"; "broker/cash/currency:USD"; "broker/holding:h1/instrument:fund"]%string ∧
  selected in_euros = ["broker/cash/currency:EUR"]%string ∧
  selected (asks (mkScope ScopeCurrency "usd") (mkFilters None None "CASH" None None)) = ["broker/cash/currency:USD"]%string ∧
  selected (asks (mkScope ScopeInstrument "fund") (mkFilters None None "" None None)) = ["broker/holding:h1/instrument:fund"]%string ∧
  selected (asks (mkScope ScopeAccount "old") (mkFilters None None "" None None)) = [].
Proof. vm_compute. done. Qed.

Lemma mixed_coherent : coherent mixed.
Proof.
  split.
  - intros x y rx ry Hx Hy Hrx Hry. change (x ∈ mixed_items) in Hx. change (y ∈ mixed_items) in Hy.
    rewrite !list_elem_of_In in Hx, Hy. cbn in Hx, Hy.
    destruct Hx as [<-|[<-|[<-|[<-|[]]]]], Hy as [<-|[<-|[<-|[<-|[]]]]]; vm_compute in Hrx, Hry; injection Hrx as <-; injection Hry as <-;
      intros Hk; vm_compute in Hk; try discriminate Hk; repeat split.
  - intros x Hx. change (x ∈ mixed_items) in Hx. rewrite list_elem_of_In in Hx. cbn in Hx.
    destruct Hx as [<-|[<-|[<-|[<-|[]]]]]; (discriminate || reflexivity).
Qed.

(** The dollars of the household are not selected, as they do not answer the filter. *)
Lemma universe_components_correct_witness :
  with_class (cash "USD") BucketCash ∈ universe_components mixed (everything in_euros) ∧
  with_class (cash "USD") BucketCash ∉ universe_components mixed in_euros.
Proof.
  split.
  - assert (with_class (cash "USD") BucketCash ∈ [with_class (cash "EUR") BucketCash; with_class (cash "USD") BucketCash; with_class position "etf"])
      as H by (right; left).
    assert (universe_components mixed (everything in_euros) =
      [with_class (cash "EUR") BucketCash; with_class (cash "USD") BucketCash; with_class position "etf"]) as E by (vm_compute; reflexivity).
    rewrite E. exact H.
  - intros H. apply (proj2 (proj2 (proj2 (proj2 (universe_components_correct mixed in_euros)))) mixed_coherent) in H as (_ & account & owners & _ & Ha).
    pose proof (ans_currency _ _ _ _ Ha "EUR" eq_refl) as E. discriminate E.
Defined.
End PeriodSample.
