(* ===== verification/Upcoming.v ===== *)
(** * Upcoming actions

    [upcoming_actions.go]: what the household should look at within the next thirty days, projected
    from an evaluated liquidity overview: scheduled receipts, deposits that are due, reservations
    that are not covered, and gaps in the data.  The JSON text of a target, by which targets are
    compared and sorted, and the digest of an occurrence are read through a class.  The Go map of
    data checks is visited in an order that is an argument. *)

From S2P Require Export LiquidityEvaluate.
From S2P Require Import Valuation Portfolio Ordering DecimalModel.
From Stdlib Require Import String Ascii.

#[global] Open Scope Z_scope.

(** ** Texts *)

Definition LiquidityAssumption_String (a : LiquidityAssumption) : string :=
  match a with
  | AssumptionBankCashToday => "assumed_bank_cash_today"
  | AssumptionWeekdaysNoHolidays => "weekdays_no_holidays"
  | AssumptionCurrentPricesAndFX => "current_prices_and_fx"
  | AssumptionForecastInterest => "future_interest_is_forecast"
  | AssumptionExcludedShortTerm => "excluded_from_short_term"
  | AssumptionDueUnconfirmed => "due_unconfirmed"
  | AssumptionFeeExceedsGross => "fee_exceeds_gross"
  | AssumptionMissingFX => "missing_fx"
  | AssumptionMissingPrice => "missing_price"
  | AssumptionUnknownAccess => "unknown_access"
  | AssumptionUnknownFee => "unknown_fee"
  | AssumptionUnknownTiming => "unknown_timing"
  | AssumptionUnknownEarly => "unknown_early_access"
  | AssumptionRestrictedAccount => "account_restrictions_may_apply"
  | AssumptionOutstandingDebtOmitted => "outstanding_debt_not_subtracted"
  | AssumptionAssetsOnly => "based_on_current_assets"
  end.

Definition empty_list {A} (l : list A) : bool := match l with [] => true | _ => false end.

(** The keys of a Go map, sorted. *)
Definition upcomingStrings (v : list string) : list string :=
  stable_sort String.ltb (elements (list_to_set v : gset string)).

Definition upcomingDate (v : option string) : string := default ""%string v.

(** ** Targets *)

Record UpcomingTarget := mkTarget {
  tg_Kind : string; tg_ProductID : option ProductContractID; tg_SourceRef : option LiquiditySourceRef;
  tg_ReservationID : option LiquidityReservationID }.

(** [jsoncodec.Marshal] of a target and of a list of texts, and the hexadecimal SHA-256. *)
Class UpcomingCodec := {
  MarshalTarget : UpcomingTarget → string; MarshalStrings : list string → string; Sum256Hex : string → string }.

Section Targets.
Context `{UC : UpcomingCodec}.

Definition appendUpcomingTarget (targets : list UpcomingTarget) (target : UpcomingTarget) : list UpcomingTarget :=
  if bool_decide (tg_Kind target = ""%string) then targets
  else if existsb (λ existing, bool_decide (MarshalTarget existing = MarshalTarget target)) targets then targets
  else targets ++ [target].

Definition sortUpcomingTargets (targets : list UpcomingTarget) : list UpcomingTarget :=
  stable_sort (λ a b, String.ltb (MarshalTarget a) (MarshalTarget b)) targets.

Definition upcomingHash (v : list string) : string := Sum256Hex (MarshalStrings v).
End Targets.

(** ** Data *)

Section Upcoming.
Context `{HD : DecimalAPI} `{UC : UpcomingCodec}.

(** [UpcomingAction]; the fields that are set after the action was built come last. *)
Record UpcomingAction := mkAction {
  ua_ID : string; ua_OccurrenceKey : string; ua_Kind : string; ua_Phase : string; ua_Group : string;
  ua_Priority : Z; ua_SortOn : option string; ua_AccountID : AccountID; ua_ProductID : option ProductContractID;
  ua_ProductKind : option ProductKind; ua_SourceKey : string; ua_SourceRef : option LiquiditySourceRef;
  ua_ReservationIDs : list string; ua_ReservationLabels : list string; ua_DisplayName : string;
  ua_AnchorKind : string; ua_AnchorOn : option string; ua_MaturityOn : option string;
  ua_EligibilityOn : option string; ua_EstimatedReceiptOn : option string; ua_ReceiptBasis : string;
  ua_Amount : option Money; ua_RequestedReserve : option Money; ua_AmountRole : string;
  ua_PrimaryTarget : UpcomingTarget; ua_DaysFromToday : option Z; ua_PolicyRevision : Z;
  ua_AccountName : option string; ua_ReasonCodes : list string; ua_AmountStatus : string;
  ua_Assumptions : list string; ua_Targets : list UpcomingTarget; ua_CoverageStatus : string;
  ua_ReferenceOn : option string }.

Record UpcomingDataCheck := mkCheck {
  ck_ID : string; ck_SourceKey : string; ck_Category : string; ck_ProductID : option ProductContractID;
  ck_DisplayName : string; ck_ReasonCodes : list string; ck_RelatedActionID : option string;
  ck_AnchorOn : option string; ck_CoverageStatus : string; ck_Target : UpcomingTarget;
  ck_Targets : list UpcomingTarget; ck_ReferenceOn : option string }.

Record UpcomingCounts := mkCounts {
  cn_Total : Z; Attention : Z; ReceiptDue : Z; ReservationIssues : Z; Scheduled : Z; Eligible : Z;
  cn_DataChecks : Z; ScopeNotes : Z }.

Record UpcomingActions := mkActions {
  up_AsOf : Time; up_LocalDate : string; up_Timezone : string; WindowStartOn : string; WindowEndOn : string;
  up_BaseCurrency : CurrencyCode; up_Completeness : CompletenessStatus; Counts : UpcomingCounts;
  Items : list UpcomingAction; DataChecks : list UpcomingDataCheck; ScopeWarnings : list string }.

Record LiquiditySnapshot := mkLiquiditySnapshot {
  ls_Portfolio : PortfolioSnapshot; ls_Contracts : list ProductContract; ls_Policies : list LiquidityPolicy;
  ls_Reservations : list LiquidityReservation }.

Definition revise (a : UpcomingAction) (name : option string) (reasons : list string) (status : string)
    (assumptions : list string) (targets : list UpcomingTarget) (coverage : string) (reference : option string)
    : UpcomingAction :=
  mkAction (ua_ID a) (ua_OccurrenceKey a) (ua_Kind a) (ua_Phase a) (ua_Group a) (ua_Priority a) (ua_SortOn a)
    (ua_AccountID a) (ua_ProductID a) (ua_ProductKind a) (ua_SourceKey a) (ua_SourceRef a) (ua_ReservationIDs a)
    (ua_ReservationLabels a) (ua_DisplayName a) (ua_AnchorKind a) (ua_AnchorOn a) (ua_MaturityOn a)
    (ua_EligibilityOn a) (ua_EstimatedReceiptOn a) (ua_ReceiptBasis a) (ua_Amount a) (ua_RequestedReserve a)
    (ua_AmountRole a) (ua_PrimaryTarget a) (ua_DaysFromToday a) (ua_PolicyRevision a)
    name reasons status assumptions targets coverage reference.

(** ** The schedule of one source *)

(** [raw.Managed && raw.Contract != nil] *)
Definition managed_contract (raw : LiquiditySource) : option ProductContract := if Managed raw then Contract raw else None.

(** The dates that a source is scheduled by. *)
Record ScheduleDates := mkDates {
  sd_managed : bool; sd_maturity : option string; sd_unlock : option string; sd_override : option string;
  knownAccess : bool; sd_anchorKind : string; sd_anchor : option string; timingKnown : bool;
  sd_receipt : option string }.

Definition schedule_dates (s : LiquiditySourceResult) (raw : LiquiditySource) : ScheduleDates :=
  let contract := managed_contract raw in
  let managed := negb (is_none contract) in
  let maturity := contract ≫= MaturityOn in
  let unlock := res_Policy s ≫= UnlockOn in
  let override := res_Policy s ≫= ReceiptOnOverride in
  let known := match res_Policy s with
    | Some p => negb (bool_decide (pol_AccessKind p = AccessUnknown)) && negb (bool_decide (pol_AccessKind p = AccessExcluded))
    | None => false end in
  let second := is_none maturity && known && negb (is_none (ExplicitPolicy raw)) in
  let '(kind, anchor) :=
    if second then ("eligibility"%string, unlock) else ("maturity"%string, maturity) in
  let '(kind, anchor) :=
    if is_none anchor && managed && known then ("scheduled_receipt"%string, override) else (kind, anchor) in
  let receipt := NormalRoute s ≫= rt_ReceiptOn in
  let timing := known && negb (is_none (NormalRoute s ≫= rt_EligibleOn)) && negb (is_none receipt) in
  mkDates managed maturity unlock override known kind anchor timing receipt.

Definition later_than (d : option string) (today : string) : bool :=
  match d with Some d => String.ltb today d | None => false end.
Definition earlier_than (d : option string) (today : string) : bool :=
  match d with Some d => String.ltb d today | None => false end.

(** The last [switch] of [upcomingSchedule]: phase, group, priority and the date to sort by. *)
Definition schedule_phase (due : bool) (d : ScheduleDates) (anchor today end_ : string)
    : option (string * string * Z * option string) :=
  if due && sd_managed d && negb (is_none (sd_receipt d))
  then Some ("receipt_due", "attention", 0, sd_receipt d)%string
  else if sd_managed d && negb (is_none (sd_maturity d)) && negb (timingKnown d)
  then if later_than (sd_maturity d) end_ then None
       else if later_than (sd_maturity d) today then Some ("blocked", "scheduled", 4, sd_maturity d)%string
       else Some ("blocked", "attention", 2, sd_maturity d)%string
  else if negb (knownAccess d) then None
  else if bool_decide (anchor = today) then Some ("today", "scheduled", 3, Some anchor)%string
  else if earlier_than (sd_maturity d) today && later_than (sd_receipt d) today
  then Some ("awaiting_receipt", "scheduled", 4, sd_receipt d)%string
  else if sd_managed d && is_none (sd_maturity d) && timingKnown d && later_than (sd_override d) today &&
          (earlier_than (sd_unlock d) today || is_none (sd_unlock d) && negb (later_than (sd_override d) end_))
  then Some ("scheduled_receipt", "scheduled", 4, sd_receipt d)%string
  else if String.ltb today anchor && negb (String.ltb end_ anchor)
  then Some ("upcoming", "scheduled", 4, Some anchor)%string
  else if is_none (sd_maturity d) && bool_decide (sd_anchorKind d = "eligibility"%string) && String.ltb anchor today &&
          (negb (sd_managed d) || is_none (sd_override d))
  then Some ("eligible", "eligible", 5, Some anchor)%string
  else None.

(** An error of [CivilDaysBetween] is ignored: the count is zero. *)
Definition days_or_zero (r : Result Z) : Z := match r with Ok days => days | Fail _ => 0 end.
Definition days_from (today date : string) : Z :=
  if String.ltb date today then - days_or_zero (CivilDaysBetween date today) else days_or_zero (CivilDaysBetween today date).

Definition receipt_basis (d : ScheduleDates) (today : string) : string :=
  if timingKnown d && (sd_managed d || is_none (sd_override d))
  then if negb (is_none (sd_maturity d)) || sd_managed d && negb (is_none (sd_override d)) then "fixed_schedule"
       else match sd_unlock d with
       | Some unlock => if String.ltb unlock today then "request_today" else "request_on_eligible_date"
       | None => "request_today"
       end
  else "unknown".

Definition upcomingSchedule (s : LiquiditySourceResult) (raw : LiquiditySource) (today end_ : string) : option UpcomingAction :=
  let d := schedule_dates s raw in
  anchor ← sd_anchor d;
  '(phase, group, priority, sortOn) ← schedule_phase (DueUnconfirmed s) d anchor today end_;
  let '(identity, id, kind, productID, productKind, target) :=
    match managed_contract raw with
    | Some c => (prod_ID c, ("ua1/product/" +:+ prod_ID c +:+ "/normal")%string, "product_schedule"%string, Some (prod_ID c),
                 Some (prod_Kind c), mkTarget "product" (Some (prod_ID c)) None None)
    | None => (SourceKey s, ("ua1/source/" +:+ SourceKey s +:+ "/normal")%string, "source_access"%string, res_ProductID s,
               None, mkTarget "source_policy" None (Some (res_Ref s)) None)
    end in
  let key := upcomingHash [identity; sd_anchorKind d; upcomingDate (sd_maturity d); upcomingDate (sd_unlock d); upcomingDate (sd_override d)] in
  let amount := NormalRoute s ≫= rt_NetNative in
  Some (mkAction id key kind phase group priority sortOn (res_AccountID s) productID productKind (SourceKey s)
    (Some (res_Ref s)) [] [] (DisplayName s) (sd_anchorKind d) (Some anchor) (sd_maturity d) (sd_unlock d)
    (if sd_managed d || is_none (sd_override d) then sd_receipt d else None) (receipt_basis d today) amount None
    (if is_none (NormalRoute s) then "unknown" else "estimated_net_proceeds")
    target (days_from today <$> sortOn) (match res_Policy s with Some p => pol_Revision p | None => 0 end)
    None [] (if is_none amount then "unknown" else "known")
    (match NormalRoute s with Some r => LiquidityAssumption_String <$> rt_Assumptions r | None => [] end)
    [] "" None).

Definition reason_if (b : bool) (reason : string) : list string := if b then [reason] else [].

Definition upcomingMissing (s : LiquiditySourceResult) (raw : LiquiditySource) (base : CurrencyCode) : list string :=
  upcomingStrings (
    match res_Policy s with
    | None => ["missing_policy"%string]
    | Some p => reason_if (bool_decide (pol_AccessKind p = AccessUnknown)) "unknown_access"
    end ++
    reason_if (is_none (NormalRoute s ≫= rt_ReceiptOn)) "unknown_receipt_timing" ++
    reason_if (is_none (NormalRoute s ≫= rt_NetNative)) "unknown_amount" ++
    match res_Policy s with Some p => reason_if (is_none (NormalExitFee p)) "unknown_fee" | None => [] end ++
    reason_if (negb (bool_decide (res_NativeCurrency s = base)) && is_none (res_FXEvidence s) &&
               match CurrentNativeValue raw with Some value => negb (m_isZero value) | None => false end) "missing_fx").

(** ** The state of the projection *)

Record Projection := mkProjection {
  pj_Completeness : CompletenessStatus; pj_Items : list UpcomingAction; pj_Warnings : list string;
  checks : gmap string UpcomingDataCheck; actionBySource : gmap string nat }.

Definition no_target : UpcomingTarget := mkTarget "" None None None.
Definition no_check : UpcomingDataCheck := mkCheck "" "" "" None "" [] None None "" no_target [] None.

Definition partial_if (b : bool) (c : CompletenessStatus) : CompletenessStatus := if b then StatusPartial else c.
Definition check_id (key category : string) : string := ("ua1/check/" +:+ key +:+ "/" +:+ category)%string.

Definition addCheck (end_ : string) (st : Projection) (s : LiquiditySourceResult) (category coverage : string)
    (reasons : list string) (anchor : option string) (target : UpcomingTarget) : Projection :=
  match reasons with
  | [] => st
  | _ =>
    let id := check_id (SourceKey s) category in
    let c := default no_check (checks st !! id) in
    let c := mkCheck id (SourceKey s) category (res_ProductID s) (DisplayName s)
      (upcomingStrings (ck_ReasonCodes c ++ reasons)) (ck_RelatedActionID c)
      (match anchor with Some _ => anchor | None => ck_AnchorOn c end) coverage
      (if bool_decide (tg_Kind (ck_Target c) = ""%string) then target else ck_Target c)
      (appendUpcomingTarget (ck_Targets c) target)
      (if bool_decide (coverage = ""%string) then ck_ReferenceOn c else Some end_) in
    mkProjection (partial_if (bool_decide (category = "data_issue"%string)) (pj_Completeness st)) (pj_Items st) (pj_Warnings st)
      (<[id := c]> (checks st)) (actionBySource st)
  end.

(** ** What the projection reads *)

Record Inputs := mkInputs {
  in_base : CurrencyCode; in_today : string; in_end : string; in_raw : gmap string LiquiditySource;
  in_accounts : gmap AccountID Account; in_holdings : gmap HoldingID Holding;
  in_reservations : string → list LiquidityReservation }.

Definition index_by {A} (key : A → string) (l : list A) : gmap string A := fold_left (λ m x, <[key x := x]> m) l ∅.

(** The active reservations of a source that the overview resolved, by identifier. *)
Definition source_reservations (overview : LiquidityOverview) (snapshot : LiquiditySnapshot) (key : string)
    : list LiquidityReservation :=
  let unresolved := (λ u, rsv_ID (unr_Reservation u)) <$> UnresolvedReservations overview in
  stable_sort (λ a b, String.ltb (rsv_ID a) (rsv_ID b))
    (List.filter (λ r, rsv_Active r && negb (bool_decide (rsv_ID r ∈ unresolved)) && bool_decide (ref_Key (rsv_Source r) = key))
       (ls_Reservations snapshot)).

Definition projection_inputs (overview : LiquidityOverview) (sources : list LiquiditySource) (snapshot : LiquiditySnapshot)
    (end_ : string) : Inputs :=
  mkInputs (ov_BaseCurrency overview) (LocalDate overview) end_ (index_by (λ s, ref_Key (src_Ref s)) sources)
    (index_by ID (rec_Account <$> ps_Accounts (ls_Portfolio snapshot)))
    (index_by hd_ID (ps_Holdings (ls_Portfolio snapshot))) (source_reservations overview snapshot).

Variable i : Inputs.

Definition account_name (id : AccountID) : option string := Name <$> in_accounts i !! id.

(** ** Reservations without a source *)

Definition unresolved_cause (ref : LiquiditySourceRef) : string :=
  match in_accounts i !! ref_AccountID ref with
  | None => "source_missing"
  | Some a =>
    if negb (is_none (ArchivedAt a)) then "source_archived"
    else if IsLiability a then "source_liability"
    else match in_raw i !! ref_Key ref with
    | Some s => if QuantityZero s then "source_zero_quantity"
                else if negb (liquiditySourcePositiveOrUnknown s) then "source_non_positive" else "source_unavailable"
    | None =>
      match ref_HoldingID ref ≫= (in_holdings i !!.) with
      | Some h => if negb (is_none (hd_ArchivedAt h)) then "source_archived"
                  else if q_isZero (hd_Quantity h) then "source_zero_quantity" else "source_missing"
      | None => "source_missing"
      end
    end
  end.

Definition unresolved_action (u : UnresolvedReservation) : UpcomingAction :=
  let r := unr_Reservation u in
  let ref := rsv_Source r in
  let id := ("ua1/reservation/" +:+ rsv_ID r +:+ "/unresolved")%string in
  mkAction id (upcomingHash [id]) "reservation_unresolved" "current_issue" "attention" 1 None (ref_AccountID ref) None None
    (ref_Key ref) (Some ref) [rsv_ID r] [rsv_Label r] (rsv_Label r) "none" None None None None "unknown"
    (Some (rsv_Amount r)) None "reservation_requested" (mkTarget "reservations" None None (Some (rsv_ID r))) None 0
    (account_name (ref_AccountID ref)) [unresolved_cause ref] "known" [] [] "source_unresolved" None.

(** ** One source *)

Definition product_target (id : ProductContractID) : UpcomingTarget := mkTarget "product" (Some id) None None.
Definition policy_target (s : LiquiditySourceResult) : UpcomingTarget := mkTarget "source_policy" None (Some (res_Ref s)) None.
Definition source_target (s : LiquiditySourceResult) (r : LiquiditySource) : UpcomingTarget :=
  match Contract r with Some c => product_target (prod_ID c) | None => policy_target s end.

Definition add_warning (st : Projection) (warning : string) : Projection :=
  mkProjection (pj_Completeness st) (pj_Items st) (pj_Warnings st ++ [warning]) (checks st) (actionBySource st).

(** A source with an action: the action is appended and, unless [keep], becomes the one of its source. *)
Definition add_action (st : Projection) (key : string) (keep partial : bool) (item : UpcomingAction) : Projection :=
  mkProjection (partial_if partial (pj_Completeness st)) (pj_Items st ++ [item]) (pj_Warnings st) (checks st)
    (if keep && negb (is_none (actionBySource st !! key)) then actionBySource st
     else <[key := List.length (pj_Items st)]> (actionBySource st)).

Definition is_excluded (s : LiquiditySourceResult) : bool :=
  match res_Policy s with Some p => bool_decide (pol_AccessKind p = AccessExcluded) | None => false end.

Definition excluded_anchor (s : LiquiditySourceResult) (r : LiquiditySource) : option string :=
  let anchor := if is_none (ExplicitPolicy r) then None else res_Policy s ≫= UnlockOn in
  match managed_contract r with
  | Some c => match MaturityOn c with
    | Some m => Some m
    | None => match anchor with Some a => Some a | None => res_Policy s ≫= ReceiptOnOverride end
    end
  | None => anchor
  end.

Definition excluded_step (st : Projection) (s : LiquiditySourceResult) (r : LiquiditySource) : Projection :=
  let st := add_warning st "excluded_sources_omitted" in
  match excluded_anchor s r with
  | Some anchor => addCheck (in_end i) st s "scope_note" "" ["schedule_excluded"%string] (Some anchor) (source_target s r)
  | None => st
  end.

(** The schedule of a source, or what is missing to have one. *)
Definition scheduled_action (s : LiquiditySourceResult) (item : UpcomingAction) (reasons : list string) : UpcomingAction :=
  let reasons := upcomingStrings reasons in
  revise item (account_name (ua_AccountID item)) reasons
    (if negb (is_none (ua_Amount item)) && negb (empty_list reasons) then "partial" else ua_AmountStatus item)
    (ua_Assumptions item) (ua_Targets item) (ua_CoverageStatus item) (ua_ReferenceOn item).

Definition schedule_step (st : Projection) (s : LiquiditySourceResult) (r : LiquiditySource) : Projection :=
  let reasons := upcomingMissing s r (in_base i) in
  match upcomingSchedule s r (in_today i) (in_end i) with
  | Some item => add_action st (SourceKey s) false (negb (empty_list reasons)) (scheduled_action s item reasons)
  | None =>
    if negb (is_none (managed_contract r)) || negb (empty_list (in_reservations i (SourceKey s))) ||
       negb (is_none (ExplicitPolicy r ≫= UnlockOn))
    then addCheck (in_end i) st s "data_issue" "" reasons None (source_target s r)
    else st
  end.

(** How the reservations of a source are covered on the last day of the window: coverage,
    category and reason. *)
Definition beyond (end_ : string) (route : option LiquidityRoute) : bool :=
  match route with
  | Some r => later_than (rt_EligibleOn r) end_ || later_than (rt_ReceiptOn r) end_
  | None => false
  end.

Definition shortfall_of (bucket : option LiquidityBucketResult) : option Money :=
  row ← bucket;
  route ← SelectedRoute row;
  if bool_decide (rt_Kind route = RouteNormal) && nativeResultComplete row then ReserveShortfallNative row else None.

Definition reservation_coverage (s : LiquiditySourceResult) (rs : list LiquidityReservation) : string * string * string :=
  if existsb (λ r, negb (bool_decide (rsv_Currency r = res_NativeCurrency s)) ||
                   negb (bool_decide (currency (rsv_Amount r) = res_NativeCurrency s))) rs
  then ("currency_mismatch", "data_issue", "currency_mismatch")%string
  else if is_excluded s then ("excluded_source", "scope_note", "reservation_excluded")%string
  else if DueUnconfirmed s then ("due_route_suppressed", "information", "due_route_suppressed")%string
  else if beyond (in_end i) (NormalRoute s) then ("not_available_by_E", "information", "not_available_by_E")%string
  else match shortfall_of (row_at (in_end i) s) with
  | Some shortfall => (if dIsPositive (amount shortfall) then "short" else "covered", "data_issue", "reservation_coverage_unknown")%string
  | None => ("amount_unknown", "data_issue", "reservation_coverage_unknown")%string
  end.

Definition shortfall_action (s : LiquiditySourceResult) (rs : list LiquidityReservation) (missing : bool) : UpcomingAction :=
  let id := ("ua1/reserve/" +:+ SourceKey s +:+ "/" +:+ res_NativeCurrency s)%string in
  mkAction id (upcomingHash [id]) "reservation_shortfall" "current_issue" "attention" 1 None (res_AccountID s) (res_ProductID s) None
    (SourceKey s) (Some (res_Ref s)) (rsv_ID <$> rs) (rsv_Label <$> rs) (DisplayName s) "none" None None None None "unknown"
    (row_at (in_end i) s ≫= ReserveShortfallNative) (Some (ReservationRequested s)) "reserve_shortfall"
    (mkTarget "reservations" None (Some (res_Ref s)) None) None 0
    (account_name (res_AccountID s)) (reason_if missing "missing_fx") (if missing then "partial" else "known") [] [] "short"
    (Some (in_end i)).

Definition reserve_step (st : Projection) (s : LiquiditySourceResult) : Projection :=
  match in_reservations i (SourceKey s) with
  | [] => st
  | rs =>
    let '(coverage, category, reason) := reservation_coverage s rs in
    if bool_decide (coverage = "covered"%string) then st
    else if negb (bool_decide (coverage = "short"%string))
    then addCheck (in_end i) st s category coverage [reason] None (mkTarget "reservations" None (Some (res_Ref s)) None)
    else
      let missing := negb (bool_decide (res_NativeCurrency s = in_base i)) && is_none (row_at (in_end i) s ≫= row_NetBase) in
      add_action st (SourceKey s) true missing (shortfall_action s rs missing)
  end.

(** A managed product is followed while it is open and of a kind that is known. *)
Definition followed (r : LiquiditySource) : bool :=
  match managed_contract r with
  | Some c => bool_decide (prod_State c = ProductStateOpen) && bool_decide (prod_Kind c ∈ [ProductTermDeposit; ProductLockedProduct])
  | None => true
  end.
Definition open_contract (r : LiquiditySource) : bool :=
  match Contract r with Some c => bool_decide (prod_State c = ProductStateOpen) | None => false end.

(** One turn of the loop over [overview.Sources]. *)
Definition source_step (st : Projection) (s : LiquiditySourceResult) : Projection :=
  match in_raw i !! SourceKey s with
  | None => st
  | Some r =>
    if Archived r || Liability r || QuantityZero r then
      if QuantityZero r && open_contract r
      then addCheck (in_end i) st s "data_issue" "" ["invalid_product_quantity"%string] None (mkTarget "data_health" None None None)
      else st
    else if negb (followed r) then st
    else reserve_step (if is_excluded s then excluded_step st s r else schedule_step st s r) s
  end.

(** ** Checks that concern an action *)

Definition merge_check (item : UpcomingAction) (c : UpcomingDataCheck) : UpcomingAction :=
  revise item (ua_AccountName item) (upcomingStrings (ua_ReasonCodes item ++ ck_ReasonCodes c)) (ua_AmountStatus item)
    (ua_Assumptions item) (fold_left appendUpcomingTarget (ck_Targets c) (ua_Targets item))
    (if bool_decide (ck_CoverageStatus c = ""%string) then ua_CoverageStatus item else ck_CoverageStatus c)
    (if bool_decide (ck_CoverageStatus c = ""%string) then ua_ReferenceOn item else ck_ReferenceOn c).

Definition merge_step (by_source : gmap string nat) (st : list UpcomingAction * list UpcomingDataCheck) (c : UpcomingDataCheck)
    : list UpcomingAction * list UpcomingDataCheck :=
  match (if bool_decide (ck_Category c = "data_issue"%string) then by_source !! ck_SourceKey c else None) with
  | Some index => (alter (λ item, merge_check item c) index st.1, st.2)
  | None => (st.1, st.2 ++ [c])
  end.

(** ** The lists that are shown *)

Definition finish_action (item : UpcomingAction) : UpcomingAction :=
  let reasons := upcomingStrings (ua_ReasonCodes item) in
  revise item (ua_AccountName item) reasons
    (if negb (is_none (ua_Amount item)) && negb (empty_list reasons) then "partial" else ua_AmountStatus item)
    (upcomingStrings (ua_Assumptions item))
    (sortUpcomingTargets (appendUpcomingTarget (ua_Targets item) (ua_PrimaryTarget item)))
    (ua_CoverageStatus item) (ua_ReferenceOn item).

Definition finish_check (c : UpcomingDataCheck) : UpcomingDataCheck :=
  mkCheck (ck_ID c) (ck_SourceKey c) (ck_Category c) (ck_ProductID c) (ck_DisplayName c) (ck_ReasonCodes c) (ck_RelatedActionID c)
    (ck_AnchorOn c) (ck_CoverageStatus c) (ck_Target c) (sortUpcomingTargets (ck_Targets c)) (ck_ReferenceOn c).

Definition has_kind (kinds : list string) (item : UpcomingAction) : bool := bool_decide (ua_Kind item ∈ kinds).
Definition in_group (group : string) (item : UpcomingAction) : bool := bool_decide (ua_Group item = group).
Definition add_flag (b : bool) (n : Z) : Z := if b then n + 1 else n.

Definition count_action (n : UpcomingCounts) (item : UpcomingAction) : UpcomingCounts :=
  if in_group "eligible" item
  then mkCounts (cn_Total n) (Attention n) (ReceiptDue n) (ReservationIssues n) (Scheduled n) (Eligible n + 1) (cn_DataChecks n) (ScopeNotes n)
  else mkCounts (cn_Total n + 1) (add_flag (in_group "attention" item) (Attention n))
         (add_flag (bool_decide (ua_Phase item = "receipt_due"%string)) (ReceiptDue n))
         (add_flag (has_kind ["reservation_shortfall"; "reservation_unresolved"]%string item) (ReservationIssues n))
         (add_flag (negb (in_group "attention" item)) (Scheduled n)) (Eligible n) (cn_DataChecks n) (ScopeNotes n).

Definition count_check (n : UpcomingCounts) (c : UpcomingDataCheck) : UpcomingCounts :=
  let issue := bool_decide (ck_Category c = "data_issue"%string) in
  mkCounts (cn_Total n) (Attention n) (ReceiptDue n) (ReservationIssues n) (Scheduled n) (Eligible n)
    (add_flag issue (cn_DataChecks n)) (add_flag (negb issue) (ScopeNotes n)).

Definition no_counts : UpcomingCounts := mkCounts 0 0 0 0 0 0 0 0.

Definition weekday_warnings (item : UpcomingAction) : list string :=
  if in_group "eligible" item then []
  else (λ _, "weekdays_no_holidays"%string) <$>
       List.filter (λ a, bool_decide (a = LiquidityAssumption_String AssumptionWeekdaysNoHolidays)) (ua_Assumptions item).

Definition shortfall_last (item : UpcomingAction) : Z := if has_kind ["reservation_shortfall"%string] item then 1 else 0.

Definition action_less (a b : UpcomingAction) : bool :=
  if negb (ua_Priority a =? ua_Priority b) then ua_Priority a <? ua_Priority b
  else if negb (shortfall_last a =? shortfall_last b) then shortfall_last a <? shortfall_last b
  else if negb (bool_decide (upcomingDate (ua_SortOn a) = upcomingDate (ua_SortOn b)))
  then String.ltb (upcomingDate (ua_SortOn a)) (upcomingDate (ua_SortOn b))
  else String.ltb (ua_ID a) (ua_ID b).

Definition check_less (a b : UpcomingDataCheck) : bool :=
  if negb (bool_decide (ck_Category a = ck_Category b)) then String.ltb (ck_Category a) (ck_Category b)
  else if negb (bool_decide (ck_SourceKey a = ck_SourceKey b)) then String.ltb (ck_SourceKey a) (ck_SourceKey b)
  else String.ltb (ck_ID a) (ck_ID b).
End Upcoming.

Section Project.
Context `{HD : DecimalAPI} `{UC : UpcomingCodec}.

(** The state after both loops over the overview. *)
Definition initial_projection (i : Inputs) (overview : LiquidityOverview) : Projection :=
  mkProjection StatusComplete (unresolved_action i <$> UnresolvedReservations overview) ["normal_routes_only"%string] ∅ ∅.
Definition project_sources (i : Inputs) (overview : LiquidityOverview) : Projection :=
  fold_left (source_step i) (Sources overview) (initial_projection i overview).

(** [visit] is the order in which the Go map of checks is read. *)
Definition ProjectUpcomingActions (visit : gmap string UpcomingDataCheck → list UpcomingDataCheck)
    (overview : LiquidityOverview) (sources : list LiquiditySource) (snapshot : LiquiditySnapshot) : Result UpcomingActions :=
  end_ ← AddCalendarDays (LocalDate overview) 30;
  let st := project_sources (projection_inputs overview sources snapshot end_) overview in
  let '(items, data) := fold_left (merge_step (actionBySource st)) (visit (checks st)) (pj_Items st, []) in
  let items := finish_action <$> items in
  let shown := stable_sort action_less items in
  let data := finish_check <$> stable_sort check_less data in
  Ok (mkActions (ov_AsOf overview) (LocalDate overview) (ov_Timezone overview) (LocalDate overview) end_ (ov_BaseCurrency overview)
        (pj_Completeness st) (fold_left count_check data (fold_left count_action items no_counts)) shown data
        (upcomingStrings (pj_Warnings st ++ (items ≫= weekday_warnings)))).
End Project.
