(* ===== verification/UpcomingShown.v ===== *)
(** * Upcoming actions: the lists that are shown

    The counts and the completeness of a projection against the actions and checks that it shows,
    and the reservations whose cover is not proven, each of which is visible. *)

From S2P Require Export UpcomingLaws.
From S2P Require Import Valuation Portfolio Ordering DecimalModel.
From Stdlib Require Import String Ascii Sorted.

#[global] Open Scope Z_scope.

(** ** Counting *)

Definition count_if {A} (f : A → bool) (l : list A) : Z := Z.of_nat (List.length (List.filter f l)).

Lemma count_if_cons {A} (f : A → bool) x l : count_if f (x :: l) = add_flag (f x) (count_if f l).
Proof. unfold count_if, add_flag. cbn. destruct (f x); cbn; lia. Qed.

Lemma count_if_perm {A} (f : A → bool) l k : l ≡ₚ k → count_if f l = count_if f k.
Proof. intros H. unfold count_if. by rewrite (Permutation_length (List_filter_perm f _ _ H)). Qed.

Lemma add_flag_plus b n m : add_flag b n + m = n + add_flag b m.
Proof. destruct b; cbn; lia. Qed.

Section Shown.
Context `{HD : DecimalAPI} `{UC : UpcomingCodec}.
Implicit Types (st : Projection) (c : UpcomingDataCheck) (item : UpcomingAction) (items : list UpcomingAction).

Definition counted (kind : UpcomingAction → bool) item : bool := negb (in_group "eligible" item) && kind item.
Definition has_phase (phase : string) item : bool := bool_decide (ua_Phase item = phase).

(** The numbers that describe the two lists. *)
Definition counts_of items (data : list UpcomingDataCheck) : UpcomingCounts :=
  mkCounts (count_if (counted (λ _, true)) items) (count_if (counted (in_group "attention")) items)
    (count_if (counted (has_phase "receipt_due")) items)
    (count_if (counted (has_kind ["reservation_shortfall"; "reservation_unresolved"]%string)) items)
    (count_if (counted (λ item, negb (in_group "attention" item))) items) (count_if (in_group "eligible") items)
    (count_if is_issue data) (count_if (λ c, negb (is_issue c)) data).

Definition plus_counts (a b : UpcomingCounts) : UpcomingCounts :=
  mkCounts (cn_Total a + cn_Total b) (Attention a + Attention b) (ReceiptDue a + ReceiptDue b)
    (ReservationIssues a + ReservationIssues b) (Scheduled a + Scheduled b) (Eligible a + Eligible b)
    (cn_DataChecks a + cn_DataChecks b) (ScopeNotes a + ScopeNotes b).

Lemma count_actions items n : fold_left count_action items n = plus_counts n (counts_of items []).
Proof.
  revert n. induction items as [|item items IH]; intros n.
  - destruct n. unfold plus_counts, counts_of, count_if. cbn. f_equal; lia.
  - cbn [fold_left]. rewrite IH. unfold plus_counts, counts_of, count_action. rewrite !count_if_cons. unfold counted.
    unfold has_phase. destruct (in_group "eligible" item); cbn; f_equal; try lia; apply add_flag_plus.
Qed.

Lemma count_checks data n : fold_left count_check data n = plus_counts n (counts_of [] data).
Proof.
  revert n. induction data as [|c data IH]; intros n.
  - destruct n. unfold plus_counts, counts_of, count_if. cbn. f_equal; lia.
  - cbn [fold_left]. rewrite IH. unfold plus_counts, counts_of, count_check. rewrite !count_if_cons. unfold is_issue.
    cbn; f_equal; try lia; apply add_flag_plus.
Qed.

Lemma counts_shown items data : fold_left count_check data (fold_left count_action items no_counts) = counts_of items data.
Proof. rewrite count_checks, count_actions. unfold plus_counts, counts_of, no_counts, count_if. cbn. f_equal; lia. Qed.

(** Every action is counted in one of the three groups. *)
Lemma counts_add_up items data : let n := counts_of items data in
  cn_Total n = Attention n + Scheduled n ∧ cn_Total n + Eligible n = Z.of_nat (List.length items) ∧
  cn_DataChecks n + ScopeNotes n = Z.of_nat (List.length data).
Proof.
  cbn. split; [|split].
  - induction items as [|item items IH]; [done|]. rewrite !count_if_cons. unfold counted at 1 3 5.
    destruct (in_group "eligible" item), (in_group "attention" item); cbn; lia.
  - induction items as [|item items IH]; [done|]. rewrite !count_if_cons. unfold counted at 1.
    destruct (in_group "eligible" item); cbn; lia.
  - induction data as [|c data IH]; [done|]. rewrite !count_if_cons. destruct (is_issue c); cbn; lia.
Qed.

(** ** Actions after the merge *)

(** The merge adds reasons to an action and changes nothing that identifies it. *)
Record grown item item' : Prop := {
  grown_id : ua_ID item' = ua_ID item; grown_kind : ua_Kind item' = ua_Kind item;
  grown_source : ua_SourceKey item' = ua_SourceKey item; grown_ids : ua_ReservationIDs item' = ua_ReservationIDs item;
  grown_reasons : ua_ReasonCodes item ⊆ ua_ReasonCodes item' }.

#[export] Instance grown_preorder : PreOrder grown.
Proof.
  split; [by constructor|]. intros a b c [] []. constructor; [congruence..|]. by etrans.
Qed.

Lemma merge_grown item c : grown item (merge_check item c) ∧ ck_ReasonCodes c ⊆ ua_ReasonCodes (merge_check item c).
Proof. split; [constructor; try done|]; cbn; intros x; rewrite upcomingStrings_elem; set_solver. Qed.

Lemma finish_grown item : grown item (finish_action item).
Proof. constructor; try done. cbn. intros x. by rewrite upcomingStrings_elem. Qed.

Lemma has_gap_grown item item' : grown item item' → has_gap item = true → has_gap item' = true.
Proof.
  intros [_ Hk _ _ Hr]. unfold has_gap, has_kind. rewrite Hk, !andb_true_iff. intros [Hg He]. split; [done|].
  destruct (ua_ReasonCodes item) as [|x l]; [done|]. destruct (ua_ReasonCodes item') as [|y l']; [|done].
  exfalso. apply (not_elem_of_nil x), Hr. by left.
Qed.

Lemma merged_grown by_source cs items : Forall2 grown items (fold_left (merge_item by_source) cs items).
Proof.
  revert items. induction cs as [|c cs IH]; intros items; cbn; [reflexivity|].
  trans (merge_item by_source items c); [|apply IH]. unfold merge_item. destruct (merge_index by_source c) as [n|]; [|reflexivity].
  clear. induction items as [|item items IH] in n |- *; [done|]. destruct n; cbn; constructor; [by destruct (merge_grown item c)|reflexivity..|apply IH].
Qed.

Lemma merged_reasons by_source cs items c n item : c ∈ cs → merge_index by_source c = Some n → items !! n = Some item →
  ∃ item', fold_left (merge_item by_source) cs items !! n = Some item' ∧ grown item item' ∧ ck_ReasonCodes c ⊆ ua_ReasonCodes item'.
Proof.
  intros Hc Hn. revert items item. induction cs as [|c' cs IH]; intros items item Hi; [by apply not_elem_of_nil in Hc|].
  cbn. apply elem_of_cons in Hc as [->|Hc].
  - assert (merge_item by_source items c' !! n = Some (merge_check item c')) as H.
    { unfold merge_item. rewrite Hn, list_lookup_alter_eq, Hi. done. }
    destruct (Forall2_lookup_l _ _ _ _ _ (merged_grown by_source cs _) H) as (item' & H' & Hg).
    destruct (merge_grown item c') as [Hg' Hr]. exists item'. split; [done|]. split; [by trans (merge_check item c')|].
    by trans (ua_ReasonCodes (merge_check item c')); [|apply Hg].
  - destruct (Forall2_lookup_l _ _ _ _ _ (merged_grown by_source [c'] items) Hi) as (item1 & H1 & Hg1).
    destruct (IH Hc (merge_item by_source items c') item1 H1) as (item' & H' & Hg & Hr).
    exists item'. split; [done|]. split; [by trans item1|done].
Qed.

Lemma merged_none by_source cs items : (∀ c, c ∈ cs → merge_index by_source c = None) → fold_left (merge_item by_source) cs items = items.
Proof.
  revert items. induction cs as [|c cs IH]; intros items H; [done|]. cbn. unfold merge_item at 2. rewrite H by by left.
  apply IH. intros c' Hc'. apply H. by right.
Qed.

(** ** The result *)

(** What the projection returns, part by part. *)
Lemma project_parts visit overview sources snapshot out : ProjectUpcomingActions visit overview sources snapshot = Ok out →
  ∃ st cs, projected st ∧ cs = visit (checks st) ∧
  AddCalendarDays (LocalDate overview) 30 = Ok (WindowEndOn out) ∧
  st = project_sources (projection_inputs overview sources snapshot (WindowEndOn out)) overview ∧
  up_Completeness out = pj_Completeness st ∧ Counts out = counts_of (finish_action <$> fold_left (merge_item (actionBySource st)) cs (pj_Items st)) (DataChecks out) ∧
  Items out = stable_sort action_less (finish_action <$> fold_left (merge_item (actionBySource st)) cs (pj_Items st)) ∧
  DataChecks out = finish_check <$> stable_sort check_less (List.filter (shown_check (actionBySource st)) cs).
Proof.
  unfold ProjectUpcomingActions. intros H. apply bind_Ok in H as (end_ & He & H).
  set (st := project_sources _ overview) in H.
  pose proof (merge_checks_items (actionBySource st) (visit (checks st)) (pj_Items st, [])) as H1.
  pose proof (merge_checks_shown (actionBySource st) (visit (checks st)) (pj_Items st, [])) as H2.
  destruct (fold_left (merge_step _) _ _) as [items data]. cbn [fst snd app] in H1, H2. subst items data. injection H as <-. cbn.
  exists st, (visit (checks st)). split_and!; try done; [apply projected_sources|]. apply counts_shown.
Qed.

(** Actions are shown by priority, then shortfalls after the schedule, then by date and name. *)
Definition action_cmp : UpcomingAction → UpcomingAction → comparison :=
  lex (by_key ua_Priority Z.compare) (lex (by_key shortfall_last Z.compare)
    (lex (by_key (λ item, upcomingDate (ua_SortOn item)) String.compare) (by_key ua_ID String.compare))).

Lemma ltb_lex_Z {A} (f : A → Z) (cmp : A → A → comparison) (less : bool) a b :
  less = is_gt (cmp b a) →
  (if negb (f a =? f b) then f a <? f b else less) = is_gt (lex (by_key f Z.compare) cmp b a).
Proof.
  intros ->. unfold lex, by_key. destruct (Z.eqb_spec (f a) (f b)) as [E|E]; cbn; [by rewrite E, Z.compare_refl|].
  rewrite <-is_gt_Z. destruct (f b ?= f a) eqn:E'; [|done..]. apply Z.compare_eq in E'. congruence.
Qed.

Lemma action_less_cmp a b : action_less a b = is_gt (action_cmp b a).
Proof.
  unfold action_less, action_cmp. apply ltb_lex_Z, ltb_lex_Z, (ltb_lex (λ item, upcomingDate (ua_SortOn item))).
  unfold by_key. by rewrite is_gt_string.
Qed.

Lemma counts_of_perm items items' data : items ≡ₚ items' → counts_of items data = counts_of items' data.
Proof. intros H. unfold counts_of. by rewrite !(count_if_perm _ _ _ H). Qed.

(** An issue stays in the list or gives its reasons to an action. *)
Lemma gaps_merged st cs : projected st → (∀ c, c ∈ cs ↔ ∃ id, checks st !! id = Some c) →
  let merged := fold_left (merge_item (actionBySource st)) cs (pj_Items st) in
  (∃ c, c ∈ List.filter (shown_check (actionBySource st)) cs ∧ is_issue c = true) ∨ gap_in merged ↔
  issue_in (checks st) ∨ gap_in (pj_Items st).
Proof.
  intros Hp Hcs merged. assert (∀ c n, c ∈ cs → merge_index (actionBySource st) c = Some n → gap_in merged ∧ is_issue c = true) as Hm.
  { intros c n Hc Hn. assert (is_issue c = true ∧ actionBySource st !! ck_SourceKey c = Some n) as [Hi Hb].
    { unfold merge_index in Hn. by destruct (is_issue c). }
    split; [|done]. destruct (projected_index _ Hp _ _ Hb) as (item & Hl & _ & Hk).
    destruct (merged_reasons _ _ _ _ _ _ Hc Hn Hl) as (item' & Hl' & Hg & Hr). exists item'. split; [by apply list_elem_of_lookup_2 in Hl'|].
    apply Hcs in Hc as (id & Hc). destruct (projected_checks _ Hp _ _ Hc) as (_ & _ & _ & He).
    unfold has_gap, has_kind in *. rewrite (grown_kind _ _ Hg), Hk. destruct (ck_ReasonCodes c) as [|x l]; [done|].
    destruct (ua_ReasonCodes item'); [|done]. exfalso. apply (not_elem_of_nil x), Hr. by left. }
  split.
  - intros [(c & Hc & Hi)|(item & Hin & Hg)].
    + left. apply elem_of_List_filter in Hc as [(id & Hc)%Hcs _]. by exists id, c.
    + destruct (existsb (λ c, negb (shown_check (actionBySource st) c)) cs) eqn:E.
      * apply existsb_exists in E as (c & Hc%list_elem_of_In & Hs). unfold shown_check in Hs.
        destruct (merge_index _ c) as [n|] eqn:En; [|done]. left. destruct (Hm c n Hc En) as [_ Hi].
        apply Hcs in Hc as (id & Hc). by exists id, c.
      * right. exists item. split; [|done]. unfold merged in Hin. rewrite merged_none in Hin; [done|].
        intros c Hc. destruct (merge_index _ c) eqn:En; [|done]. exfalso. rewrite <-not_true_iff_false in E. apply E.
        apply existsb_exists. exists c. split; [by apply list_elem_of_In|]. unfold shown_check. by rewrite En.
  - intros [(id & c & Hc & Hi)|(item & Hin & Hg)].
    + assert (c ∈ cs) as Hin by (apply Hcs; by exists id). destruct (merge_index (actionBySource st) c) as [n|] eqn:En.
      * right. by apply (Hm c n).
      * left. exists c. split; [|done]. apply elem_of_List_filter. split; [done|]. unfold shown_check. by rewrite En.
    + right. apply list_elem_of_lookup in Hin as [n Hn].
      destruct (Forall2_lookup_l _ _ _ _ _ (merged_grown (actionBySource st) cs (pj_Items st)) Hn) as (item' & Hn' & Hgr).
      exists item'. split; [by apply list_elem_of_lookup_2 in Hn'|]. by apply (has_gap_grown item).
Qed.

Lemma gap_finished items : gap_in (stable_sort action_less (finish_action <$> items)) ↔ gap_in items.
Proof.
  assert (∀ item, has_gap (finish_action item) = has_gap item) as Hf.
  { intros item. unfold has_gap. cbn. by rewrite upcomingStrings_empty. }
  unfold gap_in. setoid_rewrite stable_sort_perm. setoid_rewrite list_elem_of_fmap. split.
  - intros (item & (item' & -> & Hin) & Hg). exists item'. by rewrite <-Hf.
  - intros (item & Hin & Hg). exists (finish_action item). rewrite Hf. split; [by exists item|done].
Qed.

(** Claim C33.  The summary of the projection describes the lists that are shown.  The counts are those
    of the actions and checks: every action is scheduled, asks for attention, or is open to a
    request, and every check is an issue or a note.  The actions are in the order of their
    priority.  The projection is complete unless a check that is shown is an issue, or an action
    that is shown has a gap in its data; no gap disappears when its check is merged. *)
Theorem ProjectUpcomingActions_correct visit overview sources snapshot out : visit_ok visit →
  ProjectUpcomingActions visit overview sources snapshot = Ok out →
  Counts out = counts_of (Items out) (DataChecks out) ∧
  cn_Total (Counts out) = Attention (Counts out) + Scheduled (Counts out) ∧
  cn_Total (Counts out) + Eligible (Counts out) = Z.of_nat (List.length (Items out)) ∧
  cn_DataChecks (Counts out) + ScopeNotes (Counts out) = Z.of_nat (List.length (DataChecks out)) ∧
  StronglySorted (in_order action_cmp) (Items out) ∧
  up_Completeness out = partial_if (existsb is_issue (DataChecks out) || existsb has_gap (Items out)) StatusComplete.
Proof.
  intros Hv H. destruct (project_parts _ _ _ _ _ H) as (st & cs & Hp & -> & _ & _ & Hc & Hn & Hi & Hd).
  assert (Counts out = counts_of (Items out) (DataChecks out)) as Hn'.
  { rewrite Hn, Hi. apply counts_of_perm. by rewrite stable_sort_perm. }
  destruct (counts_add_up (Items out) (DataChecks out)) as (H1 & H2 & H3). rewrite <-Hn' in H1, H2, H3. split_and!; [done..| |].
  - rewrite Hi. apply (stable_sort_sorted action_cmp action_less action_less_cmp).
  - rewrite Hc. pose proof (gaps_merged st (visit (checks st)) Hp (λ c, visited_elem visit st c Hv)) as Hg. cbn zeta in Hg.
    rewrite <-(projected_partial _ Hp), <-gap_finished, <-Hi in Hg.
    assert ((∃ c, c ∈ DataChecks out ∧ is_issue c = true) ↔
      ∃ c, c ∈ List.filter (shown_check (actionBySource st)) (visit (checks st)) ∧ is_issue c = true) as He.
    { rewrite Hd. setoid_rewrite list_elem_of_fmap. setoid_rewrite stable_sort_perm. split.
      - intros (c & (c' & -> & Hc') & Hb). by exists c'.
      - intros (c & Hc' & Hb). exists (finish_check c). split; [by exists c|done]. }
    rewrite <-He in Hg. clear He. assert (∀ A (f : A → bool) l, existsb f l = true ↔ ∃ x, x ∈ l ∧ f x = true) as Hx.
    { intros A f l. rewrite existsb_exists. by setoid_rewrite list_elem_of_In. }
    unfold gap_in in Hg. rewrite <-!Hx in Hg. destruct (projected_status _ Hp) as [E|E]; rewrite E in Hg |- *; clear -Hg;
      destruct (existsb is_issue (DataChecks out)), (existsb has_gap (Items out)); cbn in *; naive_solver.
Qed.
End Shown.

(** ** Reservations that are not covered *)

Section Reservations.
Context `{HD : DecimalAPI} `{UC : UpcomingCodec}.
Implicit Types (st : Projection) (c : UpcomingDataCheck) (item : UpcomingAction) (s : LiquiditySourceResult).

(** The loop only adds: an action stays where it is, and a check keeps its reasons. *)
Record extends st st' : Prop := {
  extends_items : pj_Items st `prefix_of` pj_Items st';
  extends_checks : ∀ id c, checks st !! id = Some c → ∃ c', checks st' !! id = Some c' ∧ ck_ReasonCodes c ⊆ ck_ReasonCodes c' }.

#[export] Instance extends_preorder : PreOrder extends.
Proof.
  split.
  - intros st. split; [done|]. intros id c H. by exists c.
  - intros a b c [Hi Hc] [Hi' Hc']. split; [by etrans|]. intros id x H. destruct (Hc id x H) as (y & Hy & Hr).
    destruct (Hc' id y Hy) as (z & Hz & Hr'). exists z. split; [done|]. by etrans.
Qed.

Lemma extends_addCheck end_ st s category coverage reasons anchor target :
  extends st (addCheck end_ st s category coverage reasons anchor target).
Proof.
  unfold addCheck. destruct reasons as [|x rs]; [done|]. split; [done|]. intros id c H. cbn [checks].
  destruct (decide (id = check_id (SourceKey s) category)) as [->|Hne].
  - rewrite lookup_insert_eq. eexists. split; [done|]. cbn [ck_ReasonCodes]. rewrite H. cbn [default].
    intros y Hy. rewrite upcomingStrings_elem. set_solver.
  - rewrite lookup_insert_ne by done. by exists c.
Qed.

Lemma extends_action st key keep partial item : extends st (add_action st key keep partial item).
Proof. split; [by eexists|]. intros id c H. by exists c. Qed.

Lemma extends_warning st w : extends st (add_warning st w).
Proof. split; [done|]. intros id c H. by exists c. Qed.

Hint Resolve extends_addCheck extends_action extends_warning : core.

Variable i : Inputs.

Lemma extends_source st s : extends st (source_step i st s).
Proof.
  assert (∀ st, extends st (reserve_step i st s)) as Hr.
  { intros st0. unfold reserve_step. destruct (in_reservations i (SourceKey s)); [done|].
    destruct (reservation_coverage _ _ _) as [[? ?] ?]. repeat case_match; auto. done. }
  unfold source_step. destruct (in_raw i !! SourceKey s) as [r|]; [|done].
  repeat case_match; auto; try done; (etrans; [|apply Hr]).
  - unfold excluded_step. case_match; [|auto]. etrans; [apply extends_warning|apply extends_addCheck].
  - unfold schedule_step. repeat case_match; auto. done.
Qed.

Lemma extends_fold l st : extends st (fold_left (source_step i) l st).
Proof. revert st. induction l as [|s l IH]; intros st; [done|]. cbn. etrans; [apply extends_source|apply IH]. Qed.

(** The sources whose reservations are looked at. *)
Definition reviewed s : Prop := ∃ r, in_raw i !! SourceKey s = Some r ∧
  Archived r = false ∧ Liability r = false ∧ QuantityZero r = false ∧ followed r = true.

Definition covered s : Prop := ∃ shortfall, shortfall_of (row_at (in_end i) s) = Some shortfall ∧ dIsPositive (amount shortfall) = false.
Definition coverage_reasons : list string :=
  ["reservation_coverage_unknown"; "currency_mismatch"; "reservation_excluded"; "due_route_suppressed"; "not_available_by_E"]%string.

(** A reservation is mentioned by an action, or its source has a check that says why it is open. *)
Definition noted st (key id : string) : Prop :=
  (∃ item, item ∈ pj_Items st ∧ ua_SourceKey item = key ∧ has_kind ["reservation_shortfall"%string] item = true ∧ id ∈ ua_ReservationIDs item) ∨
  (∃ category c reason, category ∈ categories ∧ checks st !! check_id key category = Some c ∧ reason ∈ coverage_reasons ∧ reason ∈ ck_ReasonCodes c).

Lemma noted_extends st st' key id : extends st st' → noted st key id → noted st' key id.
Proof.
  intros [Hi Hc] [(item & Hin & Hk)|(category & c & reason & Hcat & Hl & Hr & Hx)].
  - left. exists item. split; [|done]. destruct Hi as [k ->]. by apply elem_of_app; left.
  - right. destruct (Hc _ _ Hl) as (c' & Hl' & Hs). exists category, c', reason. naive_solver.
Qed.

Lemma addCheck_reason end_ st s category coverage reason anchor target :
  ∃ c, checks (addCheck end_ st s category coverage [reason] anchor target) !! check_id (SourceKey s) category = Some c ∧ reason ∈ ck_ReasonCodes c.
Proof.
  cbn. eexists. split; [apply lookup_insert_eq|]. cbn. rewrite upcomingStrings_elem. set_solver.
Qed.

Lemma reserve_noted st s id : id ∈ rsv_ID <$> in_reservations i (SourceKey s) →
  covered s ∨ noted (reserve_step i st s) (SourceKey s) id.
Proof.
  unfold reserve_step. destruct (in_reservations i (SourceKey s)) as [|x rs] eqn:E; [intros H; by apply not_elem_of_nil in H|].
  rewrite <-E. clear E x rs. set (rs := in_reservations i (SourceKey s)). intros Hid.
  destruct (reservation_coverage i s rs) as [[coverage category] reason] eqn:Ec.
  assert (category ∈ categories) as Hcat by by pose proof (coverage_category i s rs) as H; rewrite Ec in H.
  assert (reason ∈ coverage_reasons ∧ (coverage = "covered"%string → covered s)) as [Hr Hcov].
  { unfold reservation_coverage, covered in *. unfold coverage_reasons. destruct (existsb _ rs); [injection Ec as <- <- <-; split; [set_solver|done]|].
    destruct (is_excluded s); [injection Ec as <- <- <-; split; [set_solver|done]|].
    destruct (DueUnconfirmed s); [injection Ec as <- <- <-; split; [set_solver|done]|].
    destruct (beyond _ _); [injection Ec as <- <- <-; split; [set_solver|done]|].
    destruct (shortfall_of _) as [m|]; injection Ec as <- <- <-; (split; [set_solver|]); [|done].
    destruct (dIsPositive (amount m)) eqn:Em; [done|]. intros _. by exists m. }
  destruct (bool_decide_reflect (coverage = "covered"%string)) as [Hc|Hc]; [left; by apply Hcov|right].
  destruct (bool_decide_reflect (coverage = "short"%string)) as [Hs|Hs]; cbn [negb].
  - left. eexists. split; [cbn [pj_Items add_action]; apply elem_of_app; right; by left|]. split_and!; [done..|]. exact Hid.
  - right. destruct (addCheck_reason (in_end i) st s category coverage reason None (mkTarget "reservations" None (Some (res_Ref s)) None)) as (c & Hl & Hx).
    by exists category, c, reason.
Qed.

Lemma source_noted st s id : reviewed s → id ∈ rsv_ID <$> in_reservations i (SourceKey s) →
  covered s ∨ noted (source_step i st s) (SourceKey s) id.
Proof.
  intros (r & Hr & Ha & Hl & Hq & Hf) Hid. unfold source_step. rewrite Hr, Ha, Hl, Hq, Hf. cbn. by apply reserve_noted.
Qed.

Lemma sources_noted l st s id : s ∈ l → reviewed s → id ∈ rsv_ID <$> in_reservations i (SourceKey s) →
  covered s ∨ noted (fold_left (source_step i) l st) (SourceKey s) id.
Proof.
  intros Hin Hr Hid. revert st. induction l as [|s' l IH]; intros st; [by apply not_elem_of_nil in Hin|]. cbn.
  apply elem_of_cons in Hin as [<-|Hin]; [|by apply IH].
  destruct (source_noted st s id Hr Hid) as [H|H]; [by left|right]. eapply noted_extends; [apply extends_fold|done].
Qed.
End Reservations.

Section Visible.
Context `{HD : DecimalAPI} `{UC : UpcomingCodec}.

(** A reservation that the result mentions: by an action of its own, by a check of its source, or
    by an action of its source that took over the check. *)
Definition visible (out : UpcomingActions) (key id : string) : Prop :=
  (∃ item, item ∈ Items out ∧ has_kind ["reservation_shortfall"; "reservation_unresolved"]%string item = true ∧ id ∈ ua_ReservationIDs item) ∨
  (∃ reason, reason ∈ coverage_reasons ∧
    ((∃ c, c ∈ DataChecks out ∧ ck_SourceKey c = key ∧ reason ∈ ck_ReasonCodes c) ∨
     (∃ item, item ∈ Items out ∧ ua_SourceKey item = key ∧ reason ∈ ua_ReasonCodes item))).

(** Every action of the loops is shown, with at least its reasons. *)
Lemma shown_action out st cs item :
  Items out = stable_sort action_less (finish_action <$> fold_left (merge_item (actionBySource st)) cs (pj_Items st)) →
  item ∈ pj_Items st → ∃ item', item' ∈ Items out ∧ grown item item'.
Proof.
  intros Hi Hin. apply list_elem_of_lookup in Hin as [n Hn].
  destruct (Forall2_lookup_l _ _ _ _ _ (merged_grown (actionBySource st) cs (pj_Items st)) Hn) as (it & Hn' & Hg).
  exists (finish_action it). split; [|by etrans; [|apply finish_grown]].
  rewrite Hi, stable_sort_perm. apply list_elem_of_fmap. exists it. split; [done|]. by apply list_elem_of_lookup_2 in Hn'.
Qed.

Lemma noted_visible visit st out key id : visit_ok visit → projected st →
  Items out = stable_sort action_less (finish_action <$> fold_left (merge_item (actionBySource st)) (visit (checks st)) (pj_Items st)) →
  DataChecks out = finish_check <$> stable_sort check_less (List.filter (shown_check (actionBySource st)) (visit (checks st))) →
  noted st key id → visible out key id.
Proof.
  intros Hv Hp Hi Hd [(item & Hin & Hk & Hkind & Hid)|(category & c & reason & Hcat & Hl & Hr & Hx)].
  - left. destruct (shown_action _ st _ _ Hi Hin) as (item' & Hin' & Hg). exists item'. split; [done|].
    unfold has_kind in *. rewrite (grown_kind _ _ Hg), (grown_ids _ _ Hg). split; [|done].
    apply bool_decide_eq_true. apply bool_decide_eq_true in Hkind. set_solver.
  - right. exists reason. split; [done|]. destruct (projected_checks _ Hp _ _ Hl) as (Hid & _ & Hc & _).
    apply check_id_inj in Hid as [-> ->]; [|done..]. assert (c ∈ visit (checks st)) as Hin by (apply (visited_elem visit); [done|by eexists]).
    destruct (merge_index (actionBySource st) c) as [n|] eqn:En.
    + right. assert (actionBySource st !! ck_SourceKey c = Some n) as Hb by by unfold merge_index in En; destruct (is_issue c).
      destruct (projected_index _ Hp _ _ Hb) as (item & Hn & Hs & _).
      destruct (merged_reasons _ _ _ _ _ _ Hin En Hn) as (item' & Hn' & Hg & Hrs). exists (finish_action item').
      rewrite Hi, stable_sort_perm, list_elem_of_fmap. split; [exists item'; split; [done|by apply list_elem_of_lookup_2 in Hn']|].
      split; [cbn; rewrite (grown_source _ _ Hg); done|]. cbn. rewrite upcomingStrings_elem. by apply Hrs.
    + left. exists (finish_check c). split; [|done]. rewrite Hd, list_elem_of_fmap. exists c. split; [done|].
      rewrite stable_sort_perm. apply elem_of_List_filter. split; [done|]. unfold shown_check. by rewrite En.
Qed.

(** Claim C34.  No reservation is silent.  An active reservation whose source the overview could not
    find, or whose source is reviewed, is one of these: its source provably has no shortfall on
    the last day of the window, an action mentions it, or a check or an action of its source says
    why the cover is not known. *)
Theorem ProjectUpcomingActions_reservations visit overview sources snapshot out x : visit_ok visit →
  ProjectUpcomingActions visit overview sources snapshot = Ok out →
  let i := projection_inputs overview sources snapshot (WindowEndOn out) in
  x ∈ ls_Reservations snapshot → rsv_Active x = true →
  (∃ u, u ∈ UnresolvedReservations overview ∧ rsv_ID (unr_Reservation u) = rsv_ID x) ∨
  (∃ s, s ∈ Sources overview ∧ SourceKey s = ref_Key (rsv_Source x) ∧ reviewed i s) →
  (∃ s, s ∈ Sources overview ∧ SourceKey s = ref_Key (rsv_Source x) ∧ covered i s) ∨
  visible out (ref_Key (rsv_Source x)) (rsv_ID x).
Proof.
  intros Hv H i Hx Ha Hsrc. destruct (project_parts _ _ _ _ _ H) as (st & cs & Hp & -> & _ & Hst & _ & _ & Hi & Hd).
  fold i in Hst. destruct (decide (rsv_ID x ∈ (λ u, rsv_ID (unr_Reservation u)) <$> UnresolvedReservations overview)) as [Hu|Hu].
  - right. left. apply list_elem_of_fmap in Hu as (u & Hid & Hu).
    assert (unresolved_action i u ∈ pj_Items st) as Hin.
    { destruct (extends_fold i (Sources overview) (initial_projection i overview)) as [[k Hk] _].
      rewrite Hst. unfold project_sources. rewrite Hk. apply elem_of_app. left. cbn. apply list_elem_of_fmap. by exists u. }
    destruct (shown_action _ st _ _ Hi Hin) as (item & Hin' & Hg). exists item. split; [done|].
    unfold has_kind. rewrite (grown_kind _ _ Hg), (grown_ids _ _ Hg). split; [done|]. cbn. rewrite Hid. by left.
  - destruct Hsrc as [(u & Hin & Hid)|(s & Hs & Hk & Hr)]; [by destruct Hu; apply list_elem_of_fmap; exists u|].
    destruct (sources_noted i (Sources overview) (initial_projection i overview) s (rsv_ID x) Hs Hr) as [Hc|Hn].
    + apply list_elem_of_fmap. exists x. split; [done|]. cbn [in_reservations i projection_inputs]. unfold source_reservations.
      rewrite stable_sort_perm. apply elem_of_List_filter. split; [done|]. rewrite Ha, Hk. cbn.
      rewrite !andb_true_iff, negb_true_iff, bool_decide_eq_false, bool_decide_eq_true. done.
    + left. by exists s.
    + right. rewrite <-Hk. apply (noted_visible visit st); [done..|]. rewrite Hst. exact Hn.
Qed.
End Visible.
