(* ===== verification/UpcomingSchedule.v ===== *)
(** * Upcoming actions: the schedule of a source

    The dates at which a source is shown, against a description in day numbers: no date of the
    window is left out, and the phase of an action says where its date lies. *)

From S2P Require Export UpcomingShown.
From S2P Require Import Valuation Portfolio DecimalModel.
From Stdlib Require Import String Ascii.

#[global] Open Scope Z_scope.

Lemma ltb_date s t n k : is_date s n → is_date t k → String.ltb s t = (n <? k).
Proof. intros Hs Ht. unfold String.ltb. fold (scompare s t). rewrite (date_compare s t n k Hs Ht). unfold Z.ltb. by destruct (n ?= k). Qed.

Lemma date_eq s t n k : is_date s n → is_date t k → s = t ↔ n = k.
Proof.
  unfold is_date. intros Hs Ht. split; [intros ->; congruence|intros ->].
  by rewrite <-(format_days_of_parse _ _ Hs), <-(format_days_of_parse _ _ Ht).
Qed.

(** A span of days as [CivilDaysBetween] counts it, at most the days of a duration. *)
Definition span (days : Z) : Z := Z.max (-106751) (Z.min 106751 days).

Lemma days_from_span today date n k : is_date today n → is_date date k → days_from today date = span (k - n).
Proof.
  intros Ht Hd. unfold days_from, span. rewrite (ltb_date date today k n) by done. destruct (Z.ltb_spec k n).
  - rewrite (CivilDaysBetween_forward date today k n) by (done || lia). cbn. lia.
  - rewrite (CivilDaysBetween_forward today date n k) by (done || lia). cbn. lia.
Qed.

Section Schedule.
Context `{HD : DecimalAPI} `{UC : UpcomingCodec}.

(** Where the date of an action lies, by its phase: today is day [n] and the window ends on day
    [n + 30]; [k] is the date to sort by. *)
Inductive scheduled (d : ScheduleDates) (n k : Z) : string → string → Prop :=
| is_receipt_due : sd_managed d = true → scheduled d n k "receipt_due" "attention"
| is_blocked_due : timingKnown d = false → k <= n → scheduled d n k "blocked" "attention"
| is_blocked : timingKnown d = false → n < k <= n + 30 → scheduled d n k "blocked" "scheduled"
| is_today : knownAccess d = true → k = n → scheduled d n k "today" "scheduled"
| is_awaiting m j : sd_maturity d = Some m → is_date m j → j < n < k → scheduled d n k "awaiting_receipt" "scheduled"
| is_receipt o j : timingKnown d = true → sd_maturity d = None → sd_override d = Some o → is_date o j → n < j →
    scheduled d n k "scheduled_receipt" "scheduled"
| is_upcoming : knownAccess d = true → n < k <= n + 30 → scheduled d n k "upcoming" "scheduled"
| is_eligible : knownAccess d = true → sd_maturity d = None → k < n → scheduled d n k "eligible" "eligible".

Definition all_dates (d : ScheduleDates) : Prop :=
  ∀ o x, o ∈ [sd_maturity d; sd_unlock d; sd_override d; sd_receipt d] → o = Some x → ∃ k, is_date x k.

Variable d : ScheduleDates.
Variables (today end_ anchor : string) (n : Z).
Hypothesis Htoday : is_date today n.
Hypothesis Hend : is_date end_ (n + 30).
Hypothesis Hdates : all_dates d.

Lemma later_date o x k date m : o = Some x → is_date x k → is_date date m → later_than o date = (m <? k).
Proof. intros -> Hx Hd. by apply ltb_date. Qed.

Lemma earlier_date o date m : o ∈ [sd_maturity d; sd_unlock d; sd_override d; sd_receipt d] → is_date date m →
  earlier_than o date = true → ∃ x k, o = Some x ∧ is_date x k ∧ k < m.
Proof.
  intros Ho Hd. destruct o as [x|]; [|done]. destruct (Hdates _ x Ho eq_refl) as [k Hk]. cbn.
  rewrite (ltb_date x date k m Hk Hd), Z.ltb_lt. intros. by exists x, k.
Qed.

Lemma later_some o date m : o ∈ [sd_maturity d; sd_unlock d; sd_override d; sd_receipt d] → is_date date m →
  later_than o date = true → ∃ x k, o = Some x ∧ is_date x k ∧ m < k.
Proof.
  intros Ho Hd. destruct o as [x|]; [|done]. destruct (Hdates _ x Ho eq_refl) as [k Hk]. cbn.
  rewrite (ltb_date date x m k Hd Hk), Z.ltb_lt. intros. by exists x, k.
Qed.

Lemma is_some_date o : o ∈ [sd_maturity d; sd_unlock d; sd_override d; sd_receipt d] → negb (is_none o) = true →
  ∃ x k, o = Some x ∧ is_date x k.
Proof. intros Ho. destruct o as [x|]; [|done]. destruct (Hdates _ x Ho eq_refl) as [k Hk]. by exists x, k. Qed.

Hypothesis Hanchor : ∃ k, is_date anchor k.

Lemma phase_scheduled due phase group priority sortOn : (timingKnown d = true → sd_receipt d ≠ None) →
  schedule_phase due d anchor today end_ = Some (phase, group, priority, sortOn) →
  ∃ date k, sortOn = Some date ∧ is_date date k ∧ scheduled d n k phase group.
Proof.
  intros Ht. destruct Hanchor as [a Ha]. unfold schedule_phase.
  destruct (due && _ && _) eqn:E1.
  { intros [= <- <- _ <-]. rewrite !andb_true_iff in E1. destruct E1 as [[_ Hm] Hr].
    apply is_some_date in Hr as (x & k & Hx & Hk); [|set_solver]. exists x, k. split; [done|]. split; [done|]. by constructor. }
  clear E1. destruct (sd_managed d && _ && _) eqn:E2.
  { rewrite !andb_true_iff, (negb_true_iff (timingKnown d)) in E2. destruct E2 as [[_ Hm] Hu].
    apply is_some_date in Hm as (x & k & Hx & Hk); [|set_solver].
    rewrite (later_date _ x k end_ (n + 30)), (later_date _ x k today n) by done.
    destruct (Z.ltb_spec (n + 30) k); [done|]. destruct (Z.ltb_spec n k); intros [= <- <- _ <-];
      (exists x, k; split; [done|]; split; [done|]); [by apply is_blocked|by apply is_blocked_due]. }
  clear E2. destruct (knownAccess d) eqn:Eka; [|done]. cbn [negb].
  destruct (bool_decide_reflect (anchor = today)) as [->|Hne].
  { intros [= <- <- _ <-]. exists today, n. split; [done|]. split; [done|]. by apply is_today. }
  destruct (earlier_than _ _ && _) eqn:E3.
  { apply andb_true_iff in E3 as [H1 H2]. apply (earlier_date _ today n) in H1 as (m & j & Hm & Hj & Hlt); [|set_solver|done].
    apply (later_some _ today n) in H2 as (x & k & Hx & Hk & Hlt'); [|set_solver|done].
    intros [= <- <- _ <-]. exists x, k. split; [done|]. split; [done|]. by apply (is_awaiting _ _ _ m j). }
  clear E3. destruct (sd_managed d && _ && _ && _ && _) eqn:E4.
  { rewrite !andb_true_iff in E4. destruct E4 as [[[[_ Hm] Htk] Ho] _].
    apply (later_some _ today n) in Ho as (o & j & Ho & Hj & Hlt); [|set_solver|done].
    destruct (sd_receipt d) as [x|] eqn:Er; [|by destruct (Ht Htk)]. destruct (Hdates (sd_receipt d) x) as [k Hk]; [set_solver|done|].
    intros [= <- <- _ <-]. exists x, k. split; [done|]. split; [done|]. destruct (sd_maturity d) eqn:Em; [done|].
    by apply (is_receipt _ _ _ o j). }
  clear E4. rewrite (ltb_date today anchor n a), (ltb_date end_ anchor (n + 30) a), (ltb_date anchor today a n) by done.
  destruct (_ && negb (_ <? _)) eqn:E5.
  { intros [= <- <- _ <-]. exists anchor, a. split; [done|]. split; [done|]. apply is_upcoming; [done|]. lia. }
  destruct (is_none (sd_maturity d) && _ && _ && _) eqn:E6; [|done].
  rewrite !andb_true_iff in E6. destruct E6 as [[[Hm _] Hlt] _]. intros [= <- <- _ <-].
  exists anchor, a. split; [done|]. split; [done|]. destruct (sd_maturity d) eqn:Em; [done|]. apply is_eligible; [done..|]. lia.
Qed.

Lemma phase_in_window due a : is_date anchor a → n <= a <= n + 30 → (∀ m, sd_maturity d = Some m → anchor = m) →
  (timingKnown d = true → knownAccess d = true) →
  knownAccess d = true ∨ sd_managed d = true ∧ sd_maturity d ≠ None →
  ∃ phase group priority sortOn, schedule_phase due d anchor today end_ = Some (phase, group, priority, sortOn) ∧ group ≠ "eligible"%string.
Proof.
  intros Ha Hw Hm Htk Hk. unfold schedule_phase. destruct (due && _ && _); [by eexists _, _, _, _|].
  assert (later_than (sd_maturity d) end_ = false) as Hl.
  { destruct (sd_maturity d) as [m|] eqn:Em; [|done]. rewrite <-(Hm m eq_refl). cbn. rewrite (ltb_date end_ anchor (n + 30) a) by done.
    apply Z.ltb_ge. lia. }
  rewrite Hl. destruct (sd_managed d && _ && _) eqn:E2; [destruct (later_than _ today); by eexists _, _, _, _|].
  destruct (knownAccess d) eqn:Eka; cbn [negb].
  - destruct (bool_decide_reflect (anchor = today)) as [E|Hne]; [by eexists _, _, _, _|].
    destruct (earlier_than _ _ && _); [by eexists _, _, _, _|]. destruct (sd_managed d && _ && _ && _ && _); [by eexists _, _, _, _|].
    rewrite (ltb_date today anchor n a), (ltb_date end_ anchor (n + 30) a), (proj2 (Z.ltb_ge (n + 30) a)) by (done || lia).
    rewrite (date_eq anchor today a n) in Hne by done. rewrite (proj2 (Z.ltb_lt n a)) by lia. by eexists _, _, _, _.
  - destruct Hk as [Hk|[Hmg Hmt]]; [done|]. rewrite Hmg in E2. destruct (sd_maturity d); [|done]. cbn in E2.
    apply negb_false_iff in E2. discriminate (Htk E2).
Qed.
End Schedule.

Section Upcoming.
Context `{HD : DecimalAPI} `{UC : UpcomingCodec}.

Lemma schedule_dates_anchor s raw a : let d := schedule_dates s raw in sd_anchor d = Some a →
  (sd_maturity d = Some a ∨ sd_unlock d = Some a ∨ sd_override d = Some a) ∧ (∀ m, sd_maturity d = Some m → a = m).
Proof.
  unfold schedule_dates. destruct (managed_contract raw ≫= MaturityOn) as [m|] eqn:Em; cbn.
  - intros [= <-]. split; [by left|]. by intros ? [= <-].
  - repeat case_match; cbn in *; simplify_eq; naive_solver.
Qed.

Lemma schedule_dates_timing s raw : let d := schedule_dates s raw in
  timingKnown d = true → knownAccess d = true ∧ sd_receipt d ≠ None.
Proof.
  unfold schedule_dates. set (known := match res_Policy s with Some _ => _ | None => _ end).
  assert (∀ e r : option string, known && negb (is_none e) && negb (is_none r) = true → known = true ∧ r ≠ None) as H.
  { intros e r. rewrite !andb_true_iff. intros [[H _] Hr]. split; [done|]. by destruct r. }
  repeat case_match; cbn; apply H.
Qed.

Lemma schedule_action_phase s raw today end_ item : let d := schedule_dates s raw in
  upcomingSchedule s raw today end_ = Some item →
  ∃ anchor, sd_anchor d = Some anchor ∧
    schedule_phase (DueUnconfirmed s) d anchor today end_ = Some (ua_Phase item, ua_Group item, ua_Priority item, ua_SortOn item) ∧
    ua_DaysFromToday item = days_from today <$> ua_SortOn item.
Proof.
  intros d. unfold upcomingSchedule. fold d. intros H. apply bind_Some in H as (anchor & Ha & H).
  apply bind_Some in H as ([[[phase group] priority] sortOn] & Hp & H). exists anchor. split; [done|].
  destruct (managed_contract raw); injection H as <-; done.
Qed.

(** The schedule of a source, with dates as day numbers.  An action that is shown is sorted by
    a date, says how many days away that is (as far as a duration reaches), and its phase and
    group describe where the date lies: upcoming means within the next thirty days, today means
    today, a blocked maturity asks for attention once it is due, and so on.  Conversely a source
    whose date lies in the window and whose access is known, or which has a contractual maturity
    there, always has an action that is counted. *)
Theorem upcomingSchedule_correct s raw today end_ n : let d := schedule_dates s raw in
  is_date today n → is_date end_ (n + 30) → all_dates d →
  (∀ item, upcomingSchedule s raw today end_ = Some item →
    ∃ date k, ua_SortOn item = Some date ∧ is_date date k ∧ ua_DaysFromToday item = Some (span (k - n)) ∧
      scheduled d n k (ua_Phase item) (ua_Group item)) ∧
  (∀ anchor k, sd_anchor d = Some anchor → is_date anchor k → n <= k <= n + 30 →
    knownAccess d = true ∨ sd_managed d = true ∧ sd_maturity d ≠ None →
    ∃ item, upcomingSchedule s raw today end_ = Some item ∧ in_group "eligible" item = false).
Proof.
  intros d Ht He Hd. split.
  - intros item H. apply schedule_action_phase in H as (anchor & Ha & Hp & Hdays). fold d in Ha, Hp.
    assert (∃ k, is_date anchor k) as Hak.
    { destruct (schedule_dates_anchor s raw anchor Ha) as [Hor _]. fold d in Hor.
      destruct Hor as [E|[E|E]]; apply (Hd _ anchor) in E; try done; set_solver. }
    destruct (phase_scheduled d today end_ anchor n Ht He Hd Hak _ _ _ _ _ (λ H, proj2 (schedule_dates_timing s raw H)) Hp)
      as (date & k & Hs & Hk & Hsch).
    exists date, k. split_and!; [done..| |done]. rewrite Hdays, Hs. cbn. by rewrite (days_from_span today date n k).
  - intros anchor k Ha Hk Hw Hkn. destruct (schedule_dates_anchor s raw anchor Ha) as [_ Hm]. fold d in Hm.
    destruct (phase_in_window d today end_ anchor n Ht He (DueUnconfirmed s) k Hk Hw Hm (λ H, proj1 (schedule_dates_timing s raw H)) Hkn)
      as (phase & group & priority & sortOn & Hp & Hg).
    unfold upcomingSchedule. fold d. rewrite Ha. cbn [mbind option_bind]. rewrite Hp.
    destruct (managed_contract raw); eexists; (split; [reflexivity|]); unfold in_group; by apply bool_decide_eq_false.
Qed.
End Upcoming.
