(* ===== verification/UpcomingSamples.v ===== *)
(** * Upcoming actions of a household

    The theorems on upcoming actions applied to the overview that [EvaluateLiquidity] gives for
    cash that is reserved beyond its amount, a bond that can be sold in five days, and an account
    whose access is not known. *)

From S2P Require Export UpcomingSchedule.
From S2P Require Import LiquiditySamples Valuation DecimalModel.
From Stdlib Require Import String Ascii.

#[global] Open Scope Z_scope.

Module UpcomingSample.
(** The texts of a target, in the order of the fields; occurrences are not looked at. *)
Definition codec : UpcomingCodec := {|
  MarshalTarget t := (tg_Kind t +:+ "|" +:+ default "" (tg_ProductID t) +:+ "|" +:+ default "" (ref_Key <$> tg_SourceRef t) +:+ "|" +:+
                      default "" (tg_ReservationID t))%string;
  MarshalStrings l := foldr (λ s r, s +:+ "," +:+ r)%string ""%string l;
  Sum256Hex s := s |}.
#[local] Existing Instance codec.
#[local] Instance zones : TimeZones := {| LoadLocation _ := None |}.

Definition pension_ref : LiquiditySourceRef := AccountValueSourceRef home_id.
Definition pension : LiquiditySource :=
  test_source "Pension" pension_ref TypePension (money 9000000 "USD") "" (Some (test_policy pension_ref AccessUnknown None (money 0 "USD"))).
Definition sources : list LiquiditySource := [test_cash; test_bond; pension].

Definition reserve (id : string) (ref : LiquiditySourceRef) (amt : Money) : LiquidityReservation :=
  mkReservation id home_id ref id amt (currency amt) 1 0 0 None.
Definition reservations : list LiquidityReservation :=
  [reserve "travel" cash_ref (money 3000000 "USD"); reserve "taxes" bond_ref (money 400000 "EUR");
   reserve "house" pension_ref (money 100000 "USD"); reserve "car" fund_ref (money 100000 "USD")].
Definition snapshot : LiquiditySnapshot := mkLiquiditySnapshot (mkSnapshot [] None None [] [] [] [] [] [] [] [] []) [] [] reservations.
Definition no_overview : LiquidityOverview := mkOverview 0 "" "" "" [] [] [] [].
Definition overview : LiquidityOverview :=
  match EvaluateLiquidity (test_query None) sources reservations (Some test_convert) with Ok o => o | Fail _ => no_overview end.

Definition forwards (m : gmap string UpcomingDataCheck) : list UpcomingDataCheck := (map_to_list m).*2.
Definition backwards (m : gmap string UpcomingDataCheck) : list UpcomingDataCheck := rev (forwards m).
Lemma forwards_ok : visit_ok forwards.
Proof. by intros m. Qed.
Lemma backwards_ok : visit_ok backwards.
Proof. intros m. unfold backwards. by rewrite <-Permutation_rev. Qed.

Definition no_actions : UpcomingActions := mkActions 0 "" "" "" "" "" StatusUnset no_counts [] [] [].
Definition out : UpcomingActions := match ProjectUpcomingActions forwards overview sources snapshot with Ok o => o | Fail _ => no_actions end.
Lemma projects : ProjectUpcomingActions forwards overview sources snapshot = Ok out.
Proof. apply ok_value. vm_compute. reflexivity. Qed.

(** The car has no source, the travel fund is short, the bond can be sold on 7 March, and the pension
    has an issue in its data. *)
Example shown_sample :
  (λ a, (ua_ID a, ua_SortOn a, ua_DaysFromToday a, ua_ReasonCodes a)) <$> Items out =
  [("ua1/reservation/car/unresolved", None, None, ["source_missing"]);
   ("ua1/reserve/account_cash:6ba7b811-9dad-11d1-80b4-00c04fd430c8:USD/USD", None, None, []);
   ("ua1/source/holding:6ba7b813-9dad-11d1-80b4-00c04fd430c8/normal", Some "2026-03-07", Some 5, ["missing_fx"])]%string.
Proof. vm_compute. reflexivity. Qed.

Example issues_sample : (λ c, (ck_ID c, ck_ReasonCodes c, ck_CoverageStatus c)) <$> DataChecks out =
  [("ua1/check/account_value:6ba7b810-9dad-11d1-80b4-00c04fd430c8/data_issue",
    ["reservation_coverage_unknown"; "unknown_access"; "unknown_amount"; "unknown_receipt_timing"], "amount_unknown")]%string.
Proof. vm_compute. reflexivity. Qed.

Lemma ProjectUpcomingActions_order_free_witness :
  ProjectUpcomingActions forwards overview sources snapshot = ProjectUpcomingActions backwards overview sources snapshot.
Proof. apply (ProjectUpcomingActions_order_free forwards backwards overview sources snapshot forwards_ok backwards_ok). Defined.

Lemma ProjectUpcomingActions_correct_witness :
  cn_Total (Counts out) = 3 ∧ up_Completeness out = StatusPartial ∧ Z.of_nat (List.length (Items out)) = 3.
Proof.
  destruct (ProjectUpcomingActions_correct forwards overview sources snapshot out forwards_ok projects) as (_ & _ & H & _ & _ & Hc).
  split; [vm_compute; reflexivity|]. split; [rewrite Hc; vm_compute; reflexivity|]. rewrite <-H. vm_compute. reflexivity.
Defined.

Definition inputs : Inputs := projection_inputs overview sources snapshot (WindowEndOn out).
Definition reviewed_source (key : string) (s : LiquiditySourceResult) : bool :=
  bool_decide (SourceKey s = key) &&
  match in_raw inputs !! SourceKey s with
  | Some r => negb (Archived r || Liability r || QuantityZero r) && followed r
  | None => false
  end.

Lemma is_reviewed key : existsb (reviewed_source key) (Sources overview) = true →
  ∃ s, s ∈ Sources overview ∧ SourceKey s = key ∧ reviewed inputs s.
Proof.
  intros (s & Hin%list_elem_of_In & H)%existsb_exists. exists s. unfold reviewed_source in H. apply andb_true_iff in H as [Hk H].
  apply bool_decide_eq_true in Hk. split; [done|]. split; [done|]. destruct (in_raw inputs !! SourceKey s) as [r|] eqn:E; [|done].
  exists r. split; [done|]. destruct (Archived r), (Liability r), (QuantityZero r); done.
Qed.

(** The reservation for the house is not covered: the pension has no known access. *)
Lemma ProjectUpcomingActions_reservations_witness :
  (∃ s, s ∈ Sources overview ∧ SourceKey s = ref_Key pension_ref ∧ covered inputs s) ∨ visible out (ref_Key pension_ref) "house".
Proof.
  apply (ProjectUpcomingActions_reservations forwards overview sources snapshot out (reserve "house" pension_ref (money 100000 "USD"))
           forwards_ok projects); [cbn; right; right; by left|reflexivity|]. right. apply is_reviewed. vm_compute. reflexivity.
Defined.

Definition bond_result : LiquiditySourceResult :=
  default (source_result test_bond zeroMoney OriginUnset None None None None None [] [] [] false false)
    (List.find (λ s, bool_decide (SourceKey s = ref_Key bond_ref)) (Sources overview)).
Definition bond_dates : ScheduleDates :=
  mkDates false None (Some "2026-03-07"%string) None true "eligibility" (Some "2026-03-07"%string) true (Some "2026-03-07"%string).
Lemma bond_schedule : schedule_dates bond_result test_bond = bond_dates.
Proof. vm_compute. reflexivity. Qed.

Lemma upcomingSchedule_correct_witness :
  ∃ item, upcomingSchedule bond_result test_bond "2026-03-02" "2026-04-01" = Some item ∧ in_group "eligible" item = false.
Proof.
  pose proof (upcomingSchedule_correct bond_result test_bond "2026-03-02" "2026-04-01" (days_of_civil 2026 3 2)) as H.
  cbn zeta in H. rewrite bond_schedule in H. destruct H as [_ H]; [reflexivity|reflexivity| |].
  - intros o x Ho E. rewrite E in Ho. exists (days_of_civil 2026 3 7). unfold bond_dates in Ho. cbn in Ho.
    assert (x = "2026-03-07"%string) as -> by (by rewrite !list_elem_of_In in Ho; destruct Ho as [Ho|[Ho|[Ho|[Ho|[]]]]]; inversion Ho). reflexivity.
  - apply (H "2026-03-07"%string (days_of_civil 2026 3 7)); [reflexivity|reflexivity|split; vm_compute; discriminate|by left].
Defined.
End UpcomingSample.
